(* ===== verification/_CoqProject ===== *)
-Q . S2P
Prelude.v
Text.v
Codes.v
Memory.v
Bits.v
Arrays.v
ArrayFacts.v
BigInteger.v
BigIntegerFacts.v
BigIntegerMul.v
BigIntegerDiv.v
BigIntegerText.v
BigIntegerBytes.v
Decimal.v
Calendar.v
Instants.v
Helpers.v
Encoding.v
WideText.v
AppBuffer.v
AppBufferFacts.v
GetData.v
Column.v
ColumnFacts.v
TypeTraits.v
Fields.v
Attributes.v
AppBufferGet.v
Intervals.v
ColumnMeta.v
Diagnostics.v
ConnectionInfo.v
Pattern.v
Environment.v
Configuration.v
ConnectionString.v
ConnectionRoundtrip.v
DsnConfig.v
DsnDialog.v
DsnDialogFacts.v
Authentication.v
Interleave.v
Pool.v
Tokens.v
Concurrent.v
ConcurrentFacts.v
Logging.v
LoggingFacts.v
DataQuery.v
Queries.v
TableMetadata.v
ColumnMetadata.v
QueryColumns.v
DataQueryFacts.v
TableFacts.v
AnyQuery.v
Handles.v
Descriptor.v
DescriptorFacts.v
Connection.v
Establish.v
NativeSql.v
Functions.v
Statement.v
EntryPoints.v
StatementFacts.v
StatementReads.v
EntryFacts.v
TableReads.v
StatementCalls.v
Soundness.v
