(* ===== verification/Prelude.v ===== *)
(** * The AWS IoT SiteWise ODBC driver, in Rocq

    The driver (directory [src/src/odbc] of the repository, in C++) answers the
    calls of an ODBC application: an application sets up an environment, opens a
    connection from a connection string, executes a query and fetches rows into
    its buffers; each handle keeps the diagnostics of its last call. This
    development models the parts below and proves what makes them correct. Paths
    are relative to [src/src/odbc].

    ** Files, and the code they model

    - [Prelude] (this file): machine integers, the [result] type of code that may
      throw or read outside an array, limb lists, tactics, hint databases.
    - [Text]: characters, digits, and the helpers of [src/utility.cpp],
      [src/utils.cpp] and [include/iotsitewise/odbc/utils.h].
    - [Bits]: [src/ignite/common/src/common/bits.cpp]. [Arrays], [ArrayFacts]: the
      arrays of [dynamic_size_array.h] and [fixed_size_array.h] on a heap of blocks,
      and why lists stand for them everywhere else.
    - [BigInteger] (data and operations), [BigIntegerFacts] (the value of a number
      and its representation invariant), [BigIntegerMul] (product, power,
      comparison, precision, [ToInt64]), [BigIntegerDiv] (division),
      [BigIntegerText] (the stream operators), [BigIntegerBytes] (byte arrays):
      [src/ignite/common/src/common/big_integer.cpp] and its header.
    - [Decimal]: [src/ignite/common/src/common/decimal.cpp] and its header.
    - [Codes] (identifiers and their numbers), [Memory] (the memory of the
      application, little-endian words), [Calendar] ([src/timestamp.cpp],
      [src/time.cpp], [src/ignite/common/src/common/date.cpp] and the conversions
      of [src/utils.cpp]), [Instants] (their order, and local time), [Helpers] (the
      small functions of the utility files), [Encoding] and [WideText] (the functions of
      [src/utility.cpp] that write UTF-8 into narrow and wide buffers and read
      wide characters).
    - [AppBuffer]: [src/app/application_data_buffer.cpp]; [AppBufferFacts]: what is
      stored and where; [AppBufferGet]: what is read back; [Intervals]: the interval
      types and their structures. [GetData]: a cell read in parts.
    - [Column], [ColumnFacts]: [src/iotsitewise_column.cpp]. [TypeTraits]:
      [src/type_traits.cpp]. [ColumnMeta]: [src/meta/column_meta.cpp].
    - [Diagnostics]: [src/common_types.cpp], [src/diagnostic/*.cpp] and the macro
      [IGNITE_ODBC_API_CALL] that frames every call of a handle. The interface
      between handles and diagnostics is the class [Diagnosable].
    - [Pattern]: [ConvertPatternToRegex] of [src/utility.cpp].
    - [Environment]: [src/environment.cpp]. [ConnectionInfo]:
      [src/config/connection_info.cpp], the answers to [SQLGetInfo].
    - [Configuration]: [src/config/configuration.cpp], [SettableValue], the
      authentication types and log levels.
    - [ConnectionString]: [src/config/connection_string_parser.cpp];
      [ConnectionRoundtrip]: the parser against [Configuration::ToConnectString].
    - [DsnConfig]: [src/dsn_config.cpp], data sources in the installer. [DsnDialog],
      [DsnDialogFacts]: the dialog of the Windows driver and [ConfigDSN],
      [os/iotsitewise/win/src/system/ui/*.cpp] and [system_dsn.cpp], as a machine that
      takes messages of the controls.
      [Authentication]: [src/authentication/saml.cpp], [okta.cpp], [aad.cpp].
    - [Interleave]: programs of atomic actions of a main thread among the steps of
      other threads; [run] is one schedule, [total] is every schedule, and [zoom]
      runs a program on a part of the state. [Pool]: threads that run such programs
      side by side, and the rule for a section only one of them may be in.
    - [Tokens]: threads that never block and own parts of a shared state.
      [Concurrent], [ConcurrentFacts]: shared pointers, latches, events and values of
      threads, [include/ignite/common/include/common/concurrent.h],
      [src/ignite/common/src/common/concurrent.cpp] and the Linux [concurrent_os.h]
      and [concurrent_os.cpp].
    - [Logging]: [src/log.cpp] and [include/iotsitewise/odbc/log.h], the logger and
      its macro as programs of threads around a critical section; [LoggingFacts]:
      what is in the files.
    - [DataQuery]: [src/query/data_query.cpp] and [src/iotsitewise_cursor.cpp];
      [DataQueryFacts]: the paged reader against a reader of a list.
    - [TableMetadata], [ColumnMetadata]: [src/query/table_metadata_query.cpp] and
      [column_metadata_query.cpp], queries that run data queries of their own.
    - [Queries]: the class [Query] as the interface [AbstractQuery], the catalog
      queries without data and [src/query/type_info_query.cpp]; [QueryColumns]: the
      conversion of data as a [ColumnReader]; [AnyQuery]: the query behind a
      statement, whichever it is, an instance of the interface. [TableFacts]: the
      rows a table query finds; [TableReads]: [SQLTables] through the statement.
    - [Fields], [Attributes]: the identifiers of descriptor fields and attributes.
      [Handles]: connections, statements and descriptors as a store of objects with
      pointers between them, and rules for operations on it ([wp]).
    - [Descriptor], [DescriptorFacts]: [src/descriptor.cpp]. [Connection]:
      [src/connection.cpp]; [Establish], [NativeSql] and [Functions]: its parts that
      open a connection, return the native SQL and list the supported functions
      (these are compiled on macOS only). [Statement]: [src/statement.cpp], against
      [AbstractQuery].
    - [EntryPoints]: the functions of [src/odbc.cpp], which take handles and return
      codes, and the refused functions of [src/entry_points.cpp]; [EntryFacts]: a
      session of an application through them, and the retrieval of diagnostics.
    - [StatementFacts]: a statement in its [setting], and fetching against the
      interface [Reader] of a query that is read; [StatementReads]: the data query
      is a [Reader], and an application that executes and fetches.
      [StatementCalls]: attributes and cursor names. [Soundness]: the invariant of
      the store and the calls that keep it.

    ** How the parts interact

    An operation of a handle is a function of the store of objects that may fail:
    an access through a null or dangling pointer is the error [NullPointer] or
    [Dangling]. A statement calls its query through [AbstractQuery]; such a call is
    a program, since the query may wait for its threads, and the threads of the
    queries of all statements run between any two actions. A data query calls the
    service ([Client]) and converts data through [ColumnReader], which [Column]
    implements by writing into the buffers of [AppBuffer] in the [Memory] of the
    application. An entry point tests its handle, calls the operation of the object
    and returns the code of the result the object kept. Opening a connection calls
    the identity provider ([AwsSdk]) and a client of the service ([AwsClients]);
    queries use the class [Client] of the client that was made.

    ** What the theorems show

    - Statements: executing a query and fetching rowsets ends under every schedule
      and leaves in the memory of the application what a reader of the list of all
      rows leaves: the columns of the [i]th row in the [i]th elements of the bound
      arrays, the states of the rows and their number. Eleven calls that need no
      query (bindings, attributes, options, cursor names, disconnecting) never follow a
      dangling pointer and keep the objects sound; attributes are read back; cursor
      names stay distinct.
    - Entry points: the same for [SQLExecDirect] and [SQLFetch] on handles, from the
      wide characters of the query to the return codes; what [SQLGetDiagRec]
      writes, and that [SQLError] hands out every record once.
    - Connections: what an attempt to connect leaves on every branch, with a
      configuration or a connection string; the copy
      [SQLNativeSql] makes; the functions and the information that are answered;
      a data source is read back as it was written (but for the connection timeout,
      which the code reads wrongly), also when it was configured with
      the dialog, which after any actions of the user shows and enables what it
      should and whose fields are the settings once it is accepted.
    - Descriptors: fields are read back where the descriptor has them, the concise
      type, type and sub-code of a record are those of a table of the ODBC types after
      the calls that set a type, and no call reads a member that was never set.
    - Queries: whatever the schedule of the fetching threads, executing and
      fetching ends and delivers the rows of all pages in order (no page after the first one with
      rows being empty), and closing joins the threads; a page without rows in the middle blocks the next fetch
      forever, and a second execution reads the last page only.
    - Catalog: [SQLTables] and the fetches after it list every table of the service
      that was asked for once, under every schedule.
    - Buffers and columns: what a datum becomes in a text buffer, that no byte
      outside a text buffer changes (the byte before an empty one excepted), the pieces of
      an ASCII text that is read in parts, and the round trip of timestamps; with the cases
      where the code is wrong. Texts are supposed to be ASCII where a theorem says so;
      for others the code mixes bytes and characters.
    - Connection strings: the index arithmetic of the parser is total and is a
      fold over the attributes; a configuration survives its text form; a numeric
      attribute is checked against 32 unsigned bits and stored in 32 signed ones;
      validation is exactly the presence of the credentials of the
      authentication type.
    - Diagnostics: what a call leaves in a handle, what a field query answers, and
      the invariant of every reachable environment.
    - Logging: threads that log into an open file interleave whole messages and lose
      none; one thread keeps a journal through changes of path and level; two
      threads that open the file at once lose the log for good; one logger is made
      for all threads.
    - Shared pointers: whatever the schedule, an object is deleted once, after its
      last pointer, and never used afterwards.
    - Arrays: programs on growing arrays refine programs on lists, without an access
      to memory that is freed or raw and without a leak.
    - Arithmetic: products, powers, comparisons, precisions, quotients and the
      conversions to text and bytes of [BigInteger] and [Decimal] are those of the
      integers and of exact decimals, with the representation invariant ([big_ok])
      kept. Where the code is wrong the exact extent is a theorem: a one-word
      divisor, the missing add-back of the long division, [ToInt64] of negative
      two-word numbers.

    ** Bounds and fuel

    Integers are [Z] with the wrap-around of their width written out ([u32],
    [i32], ...). Loops that are not structural take fuel, and running out is the
    error [OutOfFuel]: the loop of [adjust] in [BigIntegerDiv] (at most three
    rounds are needed, the theorems show the result is never [OutOfFuel]), the
    parts of a number in [BigIntegerText] (one for each word and one more), the
    scan of a connection string (one more than its length; the theorem shows it is
    enough), the leading empty pages of a query (a bound of the model: the
    theorem asks for more fuel than there are pages, since the loop of the source
    does not end while the service sends empty pages with tokens), and the search
    for the terminator of a wide text without a length, which is in the memory of
    the application. Lengths of strings are below [2^64 - 1], numbers below 256 MB
    of digits ([big_fits]). Addresses of the application are unbounded integers,
    and allocating memory does not fail.

    ** What is not modelled

    The counter of the initialised AWS SDK; the operating system, the C library's
    floating point and local time, and the AWS SDK, which are parameters ([Platform],
    [FileSystem], [LocalTime], [OdbcConstants], [AwsTypes], [Client], [AwsSdk], [AwsClients], [Installer],
    [Floats], [Deployment]), each with a concrete instance for runs, as are the
    numbers of the ODBC headers ([SqlCodes], [FieldCodes], [AttributeCodes],
    [HandleCodes], [FunctionHeaders], [InfoHeaders]). The cursor position is not
    wrapped (it would take [2^31] fetches). The other components do not call
    [Logging]: a message changes nothing they read, and only the level and path a
    configuration sets are kept there. Of [concurrent.h] the driver uses the guard of
    a critical section only; waking a single thread that waits for a condition and
    wake-ups without a signal are left out. The positions, fonts and the message
    loop of the dialog are glue to the window system; the driver manager its test
    button calls is the class [DriverManager]. The tools of performance
    tests and the tests are no part of the driver. *)

(** ** Notes on this file

    - machine integers: [u8], [u32], [u64] wrap a [Z] to an unsigned width and
      [i8], [i16], [i32], [i64] to a two's complement width, as the C++
      conversions of the source do on every platform the driver is built for;
    - the [result] monad for code that throws or that reads an array element
      (scope [result_scope]);
    - limb lists: little-endian lists of 32-bit words and their value;
    - tactics and the hint databases [odbc_db] and [odbc_rw]. *)

From Stdlib Require Export ZArith Lia Ascii String.
From stdpp Require Export base tactics list strings gmap.

#[global] Open Scope Z_scope.

(** ** Tactics *)

(** Splits conjunctions, existentials and equations of the context. *)
Ltac inv_all :=
  repeat match goal with
  | H : _ /\ _ |- _ => destruct H
  | H : exists _, _ |- _ => destruct H
  | H : Some _ = Some _ |- _ => injection H as H; subst
  | H : (_, _) = (_, _) |- _ => injection H as ?; subst
  end.

(** Case analysis on the boolean tests a branch of the code makes. *)
Ltac case_test :=
  match goal with
  | |- context [if ?b then _ else _] => destruct b eqn:?
  | H : context [if ?b then _ else _] |- _ => destruct b eqn:?
  end.

(** Turns boolean comparisons of [Z] into propositions. *)
Ltac z_bool :=
  repeat match goal with
  | H : (_ && _)%bool = true |- _ => apply andb_true_iff in H; destruct H
  | H : (_ || _)%bool = false |- _ => apply orb_false_iff in H; destruct H
  | H : (_ =? _) = true |- _ => apply Z.eqb_eq in H
  | H : (_ =? _) = false |- _ => apply Z.eqb_neq in H
  | H : (_ <? _) = true |- _ => apply Z.ltb_lt in H
  | H : (_ <? _) = false |- _ => apply Z.ltb_ge in H
  | H : (_ <=? _) = true |- _ => apply Z.leb_le in H
  | H : (_ <=? _) = false |- _ => apply Z.leb_gt in H
  end.

Create HintDb odbc_db.
Create Rewrite HintDb odbc_rw.

(** ** Machine integers *)

(** [2^32] and [2^64]; literals, so that [lia] reads them. *)
Abbreviation B32 := 4294967296 (only parsing).
Abbreviation B64 := 18446744073709551616 (only parsing).

Definition u8 (x : Z) : Z := x mod 256.
Definition u16 (x : Z) : Z := x mod 65536.
Definition u32 (x : Z) : Z := x mod B32.
Definition u64 (x : Z) : Z := x mod B64.
Definition i8 (x : Z) : Z := (x + 128) mod 256 - 128.
Definition i16 (x : Z) : Z := (x + 32768) mod 65536 - 32768.
Definition i32 (x : Z) : Z := (x + 2147483648) mod B32 - 2147483648.
Definition i64 (x : Z) : Z :=
  (x + 9223372036854775808) mod B64 - 9223372036854775808.

Abbreviation UINT32_MAX := 4294967295 (only parsing).
Abbreviation INT32_MAX := 2147483647 (only parsing).
Abbreviation INT64_MAX := 9223372036854775807 (only parsing).

Definition is_u32 (x : Z) : Prop := 0 <= x < B32.
Definition is_u64 (x : Z) : Prop := 0 <= x < B64.
Definition is_i32 (x : Z) : Prop := -2147483648 <= x < 2147483648.
Definition is_i64 (x : Z) : Prop :=
  -9223372036854775808 <= x < 9223372036854775808.

Lemma u8_range x : 0 <= u8 x < 256.
Proof. unfold u8. apply Z.mod_pos_bound. lia. Qed.
Lemma u32_range x : is_u32 (u32 x).
Proof. unfold u32, is_u32. apply Z.mod_pos_bound. lia. Qed.
Lemma u64_range x : is_u64 (u64 x).
Proof. unfold u64, is_u64. apply Z.mod_pos_bound. lia. Qed.
Lemma i32_range x : is_i32 (i32 x).
Proof.
  unfold i32, is_i32.
  pose proof (Z.mod_pos_bound (x + 2147483648) B32 ltac:(lia)). lia.
Qed.
Lemma u32_small x : is_u32 x -> u32 x = x.
Proof. intros. apply Z.mod_small. done. Qed.
Lemma u64_small x : is_u64 x -> u64 x = x.
Proof. intros. apply Z.mod_small. done. Qed.
Lemma i8_small x : -128 <= x < 128 -> i8 x = x.
Proof. intros. unfold i8. rewrite Z.mod_small; lia. Qed.
Lemma i32_small x : is_i32 x -> i32 x = x.
Proof. unfold is_i32, i32. intros. rewrite Z.mod_small; lia. Qed.
Lemma i64_small x : is_i64 x -> i64 x = x.
Proof. unfold is_i64, i64. intros. rewrite Z.mod_small; lia. Qed.

Lemma u32_add_mul x k : u32 (x + B32 * k) = u32 x.
Proof. unfold u32. rewrite Z.mul_comm, Z.mod_add; lia. Qed.

(** Casting a wrapped 64-bit value back to unsigned loses nothing. *)
Lemma u64_i64 x : u64 (i64 x) = u64 x.
Proof.
  unfold u64, i64. rewrite Zminus_mod_idemp_l.
  f_equal. lia.
Qed.

Lemma i64_u64 x : i64 (u64 x) = i64 x.
Proof. unfold u64, i64. by rewrite Zplus_mod_idemp_l. Qed.

Lemma u32_i32 x : u32 (i32 x) = u32 x.
Proof. unfold u32, i32. rewrite Zminus_mod_idemp_l. f_equal. lia. Qed.
Lemma i32_u32 x : i32 (u32 x) = i32 x.
Proof. unfold u32, i32. by rewrite Zplus_mod_idemp_l. Qed.
Lemma u32_mul_l x y : u32 (u32 x * y) = u32 (x * y).
Proof. unfold u32. apply Z.mul_mod_idemp_l. lia. Qed.
Lemma i32_mul_l x y : i32 (i32 x * y) = i32 (x * y).
Proof.
  rewrite <- i32_u32, <- u32_mul_l, u32_i32, u32_mul_l. apply i32_u32.
Qed.
Lemma i32_zero x : i32 x = 0 <-> u32 x = 0.
Proof.
  rewrite <- (u32_i32 x). split; [by intros ->|].
  pose proof (i32_range x) as H. unfold is_i32, u32 in *. intros Hm.
  apply Z.mod_divide in Hm as [k Hk]; lia.
Qed.

Lemma i64_congr a b k : a = b + k * B64 -> i64 a = i64 b.
Proof.
  intros ->. unfold i64. f_equal.
  replace (b + k * B64 + 9223372036854775808) with (b + 9223372036854775808 + k * B64) by lia.
  by rewrite Z.mod_add by lia.
Qed.
Lemma u32_opp x : is_u32 x -> u32 (-1 * x) = if x =? 0 then 0 else B32 - x.
Proof.
  unfold is_u32. intros Hx. destruct (Z.eqb_spec x 0) as [->|]; [done|].
  unfold u32. rewrite <- (Z.mod_add _ 1) by lia. rewrite Z.mod_small; lia.
Qed.

Lemma shiftr32 x : Z.shiftr x 32 = x / B32.
Proof. rewrite Z.shiftr_div_pow2 by lia. reflexivity. Qed.
Lemma shiftl32 x : Z.shiftl x 32 = x * B32.
Proof. rewrite Z.shiftl_mul_pow2 by lia. reflexivity. Qed.
Lemma land_low32 x : Z.land x 4294967295 = x mod B32.
Proof. change 4294967295 with (Z.ones 32). by rewrite Z.land_ones by lia. Qed.
Lemma land_low8 x : Z.land x 255 = x mod 256.
Proof. change 255 with (Z.ones 8). by rewrite Z.land_ones by lia. Qed.

(** A word or-ed above the bits of another is their sum. *)
Lemma lor_shiftl_add a b n :
  0 <= n -> 0 <= a < 2 ^ n -> Z.lor a (Z.shiftl b n) = a + b * 2 ^ n.
Proof.
  intros Hn Ha. rewrite <- Z.shiftl_mul_pow2, <- Z.add_lor_land by lia.
  assert (Hl : Z.land a (Z.shiftl b n) = 0).
  { apply Z.bits_inj'. intros k Hk. rewrite Z.land_spec, Z.bits_0.
    destruct (Z.lt_ge_cases k n).
    - rewrite Z.shiftl_spec_low by lia. by rewrite andb_false_r.
    - replace a with (a mod 2 ^ n) by (apply Z.mod_small; lia).
      rewrite Z.mod_pow2_bits_high by lia. done. }
  rewrite Hl. lia.
Qed.

#[export] Hint Resolve u8_range u32_range u64_range i32_range : odbc_db.
#[export] Hint Rewrite shiftr32 shiftl32 land_low32 land_low8 : odbc_rw.

(** ** Lists *)

Lemma nth_replicate_default {A} n i (x : A) : nth i (replicate n x) x = x.
Proof. revert i. induction n as [|n IH]; intros [|i]; cbn; auto. Qed.

(** ** Errors: the exceptions and the undefined reads of the source *)

Inductive error : Type :=
  | DivisionByZero                (* IgniteError of BigInteger::Divide *)
  | OutOfBounds                   (* an array element outside the array *)
  | NullPointer                   (* a write or a read through a null pointer *)
  | Exception                     (* an exception of the standard library *)
  | Indeterminate                 (* the value of a variable that was never set *)
  | Dangling                      (* an access to an object that was freed *)
  | OutOfFuel.                    (* a loop bound of the model is too small *)

#[global] Instance error_eq_dec : EqDecision error.
Proof. solve_decision. Defined.

Inductive result (A : Type) : Type :=
  | Ok (a : A)
  | Err (e : error).
Arguments Ok {A} a.
Arguments Err {A} e.

Definition res_bind {A B} (m : result A) (k : A -> result B) : result B :=
  match m with Ok a => k a | Err e => Err e end.

Declare Scope result_scope.
Delimit Scope result_scope with result.
Notation "'do' x <- m ; k" := (res_bind m (fun x => k))
  (at level 10, x pattern, m at level 100, k at level 200) : result_scope.

Lemma bind_ok {A B} (m : result A) (k : A -> result B) a :
  m = Ok a -> res_bind m k = k a.
Proof. by intros ->. Qed.

(** Reading element [i] of an array: the source indexes without a check. *)
Definition read (l : list Z) (i : Z) : result Z :=
  if i <? 0 then Err OutOfBounds
  else match l !! Z.to_nat i with Some x => Ok x | None => Err OutOfBounds end.

Lemma read_ok l i x :
  0 <= i -> l !! Z.to_nat i = Some x -> read l i = Ok x.
Proof.
  intros Hi H. unfold read. rewrite H.
  by destruct (Z.ltb_spec i 0); [lia|].
Qed.

(** ** Limb lists *)

(** The value of a little-endian list of 32-bit words. *)
Fixpoint limbs_val (l : list Z) : Z :=
  match l with
  | [] => 0
  | x :: l' => x + B32 * limbs_val l'
  end.

Definition limbs_ok (l : list Z) : Prop := Forall is_u32 l.

(** [Bpow n] is [2^(32 n)]. *)
Definition Bpow (n : nat) : Z := B32 ^ Z.of_nat n.

Lemma Bpow_0 : Bpow 0 = 1.
Proof. done. Qed.
Lemma Bpow_S n : Bpow (S n) = B32 * Bpow n.
Proof. unfold Bpow. rewrite Nat2Z.inj_succ, Z.pow_succ_r; lia. Qed.
Lemma Bpow_pos n : 0 < Bpow n.
Proof. unfold Bpow. apply Z.pow_pos_nonneg; lia. Qed.
Lemma Bpow_add n m : Bpow (n + m) = Bpow n * Bpow m.
Proof. unfold Bpow. rewrite Nat2Z.inj_add, Z.pow_add_r; lia. Qed.
Lemma Bpow_pow2 n : Bpow n = 2 ^ (32 * Z.of_nat n).
Proof. unfold Bpow. change B32 with (2 ^ 32). rewrite <- Z.pow_mul_r; lia. Qed.

Lemma limbs_ok_nil : limbs_ok [].
Proof. constructor. Qed.
Lemma limbs_ok_cons x l : limbs_ok (x :: l) <-> is_u32 x /\ limbs_ok l.
Proof. apply Forall_cons. Qed.
Lemma limbs_ok_app l k : limbs_ok (l ++ k) <-> limbs_ok l /\ limbs_ok k.
Proof. apply Forall_app. Qed.

Lemma limbs_val_app l k :
  limbs_val (l ++ k) = limbs_val l + Bpow (length l) * limbs_val k.
Proof.
  induction l as [|x l IH]; cbn [app limbs_val length].
  - rewrite Bpow_0. lia.
  - rewrite IH, Bpow_S. ring.
Qed.

Lemma limbs_val_bound l : limbs_ok l -> 0 <= limbs_val l < Bpow (length l).
Proof.
  induction 1 as [|x l Hx Hl IH]; cbn [limbs_val length].
  - rewrite Bpow_0. lia.
  - rewrite Bpow_S. unfold is_u32 in Hx. lia.
Qed.

Lemma limbs_val_zeros n : limbs_val (replicate n 0) = 0.
Proof. induction n as [|n IH]; cbn; [done|]. rewrite IH. lia. Qed.
Lemma limbs_ok_zeros n : limbs_ok (replicate n 0).
Proof. apply Forall_replicate. unfold is_u32. lia. Qed.

(** A limb list is determined by its length and its value. *)
Lemma limbs_val_inj l k :
  limbs_ok l -> limbs_ok k -> length l = length k ->
  limbs_val l = limbs_val k -> l = k.
Proof.
  intros Hl. revert k. induction Hl as [|x l Hx Hl IH]; intros k Hk Hn Hv.
  - by destruct k.
  - destruct k as [|y k]; [done|].
    apply limbs_ok_cons in Hk as [Hy Hk]. cbn in Hn, Hv.
    unfold is_u32 in *.
    assert (x = y) by lia. subst.
    f_equal. apply IH; [done|lia|lia].
Qed.

Lemma pow2_pos n : 0 <= n -> 0 < 2 ^ n.
Proof. intros. apply Z.pow_pos_nonneg; lia. Qed.

Lemma pow2_split32 n : 0 <= n <= 32 -> 2 ^ n * 2 ^ (32 - n) = B32.
Proof. intros. rewrite <- Z.pow_add_r by lia. by replace (n + (32 - n)) with 32 by lia. Qed.

#[export] Hint Resolve limbs_ok_nil limbs_ok_zeros Bpow_pos : odbc_db.
