(* ===== verification/Text.v ===== *)
(** * Text: characters, digit strings and the string helpers of the driver

    A [std::string] is a list of characters ([text]). Models the C-locale
    character classes the source uses, decimal digits as the standard streams
    print them, and the helpers [ToLower] and [AllDigits]
    ([include/iotsitewise/odbc/utils.h], [src/utils.cpp]) and [Trim]
    ([src/utility.cpp]). *)

From S2P Require Import Prelude.

Module Text.

Definition text : Type := list ascii.

(** A string literal of the source. *)
Definition txt (s : string) : text := list_ascii_of_string s.

Definition text_eqb (a b : text) : bool := bool_decide (a = b).

(** ** Characters *)

Definition code (c : ascii) : Z := Z.of_N (N_of_ascii c).
Definition digit_char (d : Z) : ascii := ascii_of_N (Z.to_N (48 + d)).

(** [isdigit] and [isspace] in the C locale. *)
Definition isdigit (c : ascii) : bool := (48 <=? code c) && (code c <=? 57).
Definition isspace (c : ascii) : bool :=
  (code c =? 32) || ((9 <=? code c) && (code c <=? 13)).

(** The number a string of digits denotes. *)
Definition digits_from (acc : Z) (s : list ascii) : Z :=
  fold_left (fun n c => n * 10 + (code c - 48)) s acc.
Definition digits_val (s : list ascii) : Z := digits_from 0 s.

(** Decimal output of a [uint64_t], at most twenty digits. *)
Fixpoint show_digits (fuel : nat) (x : Z) (acc : list ascii) : list ascii :=
  match fuel with
  | O => acc
  | S f =>
      let acc := digit_char (x mod 10) :: acc in
      if x / 10 =? 0 then acc else show_digits f (x / 10) acc
  end.

Definition show_u64 (x : Z) : list ascii := show_digits 20 x [].

(** Decimal output of an [int32_t] or [int64_t]. *)
Definition show_int (x : Z) : text := if x <? 0 then "-"%char :: show_u64 (- x) else show_u64 x.

(** [ToLower]: ASCII letters only, as [::tolower] in the C locale. *)
Definition tolower (c : ascii) : ascii :=
  if (65 <=? code c) && (code c <=? 90) then ascii_of_N (Z.to_N (code c + 32)) else c.
Definition ToLower (s : text) : text := map tolower s.

Definition toupper (c : ascii) : ascii :=
  if (97 <=? code c) && (code c <=? 122) then ascii_of_N (Z.to_N (code c - 32)) else c.
Definition ToUpper (s : text) : text := map toupper s.

Definition AllDigits (s : text) : bool := forallb isdigit s.

(** [Ltrim], [Rtrim] and [Trim]: the regular expressions drop the longest run of
    white space at the start and at the end. *)
Fixpoint Ltrim (s : text) : text :=
  match s with
  | c :: s' => if isspace c then Ltrim s' else s
  | [] => []
  end.
Definition Rtrim (s : text) : text := rev (Ltrim (rev s)).
Definition Trim (s : text) : text := Ltrim (Rtrim s).

(** ** Digit strings *)

Definition is_digits (s : list ascii) : Prop := Forall (fun c => isdigit c = true) s.

(** The decimal notation of [n]: digits only, no leading zero but for zero. *)
Definition is_decimal (s : list ascii) (n : Z) : Prop :=
  is_digits s /\ digits_val s = n /\ s <> [] /\
  (head s = Some "0"%char -> s = ["0"%char]).

Lemma code_digit d : 0 <= d < 10 -> code (digit_char d) = 48 + d.
Proof.
  intros H. assert (Hall : forallb (fun k => code (digit_char (Z.of_nat k)) =? 48 + Z.of_nat k)
    (seq 0 10) = true) by done.
  rewrite forallb_forall in Hall. specialize (Hall (Z.to_nat d)).
  rewrite Z2Nat.id in Hall by lia. apply Z.eqb_eq, Hall, in_seq. lia.
Qed.

Lemma isdigit_digit d : 0 <= d < 10 -> isdigit (digit_char d) = true.
Proof.
  intros H. unfold isdigit. rewrite code_digit by done.
  apply andb_true_intro. split; apply Z.leb_le; lia.
Qed.

Lemma isdigit_code c : isdigit c = true -> 48 <= code c <= 57.
Proof. unfold isdigit. intros. z_bool. lia. Qed.

Lemma digits_from_eq acc s :
  digits_from acc s = acc * 10 ^ Z.of_nat (length s) + digits_val s.
Proof.
  unfold digits_val, digits_from. revert acc.
  induction s as [|c s IH]; intros acc; cbn [fold_left length]; [cbn; lia|].
  rewrite (IH (_ + _)), (IH (0 * 10 + _)), Nat2Z.inj_succ, Z.pow_succ_r by lia. ring.
Qed.

Lemma digits_val_cons c s :
  digits_val (c :: s) = (code c - 48) * 10 ^ Z.of_nat (length s) + digits_val s.
Proof. unfold digits_val at 1, digits_from. cbn [fold_left]. fold (digits_from (code c - 48) s).
  apply digits_from_eq. Qed.

Lemma digits_val_app s t :
  digits_val (s ++ t) = digits_val s * 10 ^ Z.of_nat (length t) + digits_val t.
Proof.
  unfold digits_val at 1, digits_from. rewrite fold_left_app. apply digits_from_eq.
Qed.

Lemma digits_val_bound s : is_digits s -> 0 <= digits_val s < 10 ^ Z.of_nat (length s).
Proof.
  induction 1 as [|c s Hc Hs IH]; [done|].
  rewrite digits_val_cons. cbn [length]. rewrite Nat2Z.inj_succ, Z.pow_succ_r by lia.
  apply isdigit_code in Hc. nia.
Qed.

Lemma digits_val_zeros n s : digits_val (replicate n "0"%char ++ s) = digits_val s.
Proof.
  induction n as [|n IH]; [done|]. cbn [replicate app]. rewrite digits_val_cons, IH.
  change (code "0"%char) with 48. lia.
Qed.

(** ** Printing a machine word *)

Lemma show_digits_spec fuel x acc :
  0 <= x < 10 ^ Z.of_nat fuel -> fuel <> 0%nat ->
  exists s, show_digits fuel x acc = s ++ acc /\ is_decimal s x /\ (length s <= fuel)%nat /\
    (length s = 1%nat \/ 10 ^ (Z.of_nat (length s) - 1) <= x).
Proof.
  revert x acc. induction fuel as [|fuel IH]; intros x acc Hx Hf; [done|].
  cbn [show_digits]. pose proof (Z.mod_pos_bound x 10 ltac:(lia)).
  pose proof (Z.div_mod x 10 ltac:(lia)).
  destruct (Z.eqb_spec (x / 10) 0) as [E|E].
  - exists [digit_char (x mod 10)]. split; [done|].
    assert (Hx' : x mod 10 = x) by lia. rewrite Hx' in *. unfold is_decimal. split_and!.
    + by apply Forall_singleton, isdigit_digit.
    + rewrite digits_val_cons, code_digit by done. cbn. lia.
    + done.
    + intros Hh. cbn in Hh. by injection Hh as ->.
    + cbn. lia.
    + by left.
  - rewrite Nat2Z.inj_succ, Z.pow_succ_r in Hx by lia.
    assert (0 <= x / 10) by (apply Z.div_pos; lia).
    destruct (IH (x / 10) (digit_char (x mod 10) :: acc)) as (s & -> & (Hd & Hv & Hne & Hh) & Hl & Hlow).
    { lia. } { intros ->. cbn in Hx. lia. }
    exists (s ++ [digit_char (x mod 10)]). split; [by rewrite <- app_assoc|].
    rewrite length_app. cbn [length]. unfold is_decimal. split_and!.
    + apply Forall_app. split; [done|]. by apply Forall_singleton, isdigit_digit.
    + rewrite digits_val_app, Hv, digits_val_cons, code_digit by done. cbn. lia.
    + by destruct s.
    + intros Hh2. destruct s as [|c s]; [done|]. cbn in Hh2. injection Hh2 as ->.
      specialize (Hh eq_refl). rewrite Hh in Hv. change (digits_val ["0"%char]) with 0 in Hv. lia.
    + lia.
    + right. destruct Hlow as [->|Hlow]; [cbn; lia|].
      replace (Z.of_nat (length s + 1) - 1) with (Z.succ (Z.of_nat (length s) - 1)) by lia.
      rewrite Z.pow_succ_r; [lia|]. destruct s; [done|]. cbn. lia.
Qed.

Lemma show_u64_decimal x : is_u64 x -> is_decimal (show_u64 x) x.
Proof.
  unfold is_u64. intros Hx.
  destruct (show_digits_spec 20 x []) as (s & Hs & Hd & _); [|done|].
  { change (10 ^ Z.of_nat 20) with 100000000000000000000. lia. }
  unfold show_u64. rewrite Hs, app_nil_r. done.
Qed.

Lemma digits_val_replicate n : digits_val (replicate n "0"%char) = 0.
Proof. rewrite <- (app_nil_r (replicate n _)). apply digits_val_zeros. Qed.

Lemma decimal_length d n k :
  is_decimal d n -> 0 < n < 2 ^ k -> 0 <= k -> Z.of_nat (length d) <= k.
Proof.
  intros (Hd & Hv & Hne & Hh) Hn Hk. destruct d as [|c d]; [done|].
  apply Forall_cons in Hd as [Hc Hd]. apply isdigit_code in Hc.
  assert (Hc0 : code c <> 48).
  { intros E. unfold code in E.
    assert (Hz : c = "0"%char).
    { rewrite <- (ascii_N_embedding c). by replace (N_of_ascii c) with 48%N by lia. }
    rewrite Hz in Hh. specialize (Hh eq_refl). injection Hh as ->. subst c. change (digits_val ["0"%char]) with 0 in Hv. lia. }
  rewrite digits_val_cons in Hv. pose proof (digits_val_bound d Hd).
  assert (2 ^ Z.of_nat (length d) <= 10 ^ Z.of_nat (length d)) by (apply Z.pow_le_mono_l; lia).
  pose proof (pow2_pos (Z.of_nat (length d)) ltac:(lia)).
  cbn [length]. rewrite Nat2Z.inj_succ.
  assert (10 ^ Z.of_nat (length d) <= (code c - 48) * 10 ^ Z.of_nat (length d)) by nia.
  apply Z.le_succ_l, (Z.pow_lt_mono_r_iff 2); lia.
Qed.

Lemma digit_not_sign c : isdigit c = true ->
  (code c =? 45) = false /\ (code c =? 43) = false /\ isspace c = false.
Proof.
  intros H. apply isdigit_code in H. unfold isspace.
  split_and!; rewrite ?orb_false_iff, ?andb_false_iff, ?Z.eqb_neq, ?Z.leb_gt; lia.
Qed.

(** ** Trimming and case *)

Definition no_edge_space (s : text) : Prop :=
  match s with [] => True | c :: _ => isspace c = false end /\
  match rev s with [] => True | c :: _ => isspace c = false end.

Lemma Ltrim_id s : match s with [] => True | c :: _ => isspace c = false end -> Ltrim s = s.
Proof. destruct s as [|c s]; [done|]. cbn. by intros ->. Qed.

Lemma Trim_id s : no_edge_space s -> Trim s = s.
Proof.
  intros [H1 H2]. unfold Trim, Rtrim. rewrite (Ltrim_id (rev s)) by done.
  rewrite rev_involutive. by apply Ltrim_id.
Qed.

Lemma Ltrim_suffix s : exists w, s = w ++ Ltrim s /\ Forall (fun c => isspace c = true) w.
Proof.
  induction s as [|c s (w & E & Hw)]; [by exists []|]. cbn. destruct (isspace c) eqn:Hc.
  - exists (c :: w). cbn. rewrite <- E. auto.
  - by exists [].
Qed.

Lemma Ltrim_head s : match Ltrim s with [] => True | c :: _ => isspace c = false end.
Proof. induction s as [|c s IH]; [done|]. cbn. by destruct (isspace c) eqn:Hc. Qed.

End Text.
