(* ===== verification/Codes.v ===== *)
(** * Codes: enumerations of the ODBC headers

    The constants of [sql.h] and [sqlext.h] a function of the source switches
    over are an inductive type; their numbers, which are not part of the
    repository, are a class. That no two are equal is what makes a [switch] over
    them compile. [decode] is the switch: the constant a number stands for. *)

From S2P Require Import Prelude.
From stdpp Require Export finite.

#[global] Open Scope Z_scope.

Class Codes (A : Type) `{Finite A} : Type := {
  id_of : A -> Z;
  id_of_inj : Inj (=) (=) id_of
}.
#[global] Existing Instance id_of_inj.
#[global] Hint Mode Codes ! - - : typeclass_instances.

Definition decode {A} `{Codes A} (z : Z) : option A := List.find (fun a => id_of a =? z) (enum A).

Lemma decode_Some {A} `{Codes A} z (a : A) : decode z = Some a <-> z = id_of a.
Proof.
  unfold decode. split.
  - intros E%find_some. destruct E as [_ E%Z.eqb_eq]. done.
  - intros ->. destruct (List.find _ _) as [b|] eqn:E.
    + apply find_some in E as [_ E%Z.eqb_eq]. by apply (inj id_of) in E as ->.
    + apply find_none with (x := a) in E; [by rewrite Z.eqb_refl in E|].
      apply list_elem_of_In, elem_of_enum.
Qed.

Lemma decode_id_of {A} `{Codes A} (a : A) : decode (id_of a) = Some a.
Proof. by apply decode_Some. Qed.

Lemma decode_None {A} `{Codes A} z : decode (A := A) z = None <-> forall a : A, z <> id_of a.
Proof.
  split.
  - intros E a ->. by rewrite decode_id_of in E.
  - intros Hz. destruct (decode z) as [a|] eqn:E; [|done]. apply decode_Some in E. by apply Hz in E.
Qed.

(** Numbers are equal when the constants are. *)
Lemma eqb_id_of {A} `{Codes A} (a b : A) : (id_of a =? id_of b) = bool_decide (a = b).
Proof.
  destruct (Z.eqb_spec (id_of a) (id_of b)) as [E|E]; symmetry.
  - by apply bool_decide_eq_true, (inj id_of).
  - apply bool_decide_eq_false. by intros ->.
Qed.

#[global] Hint Rewrite @decode_id_of : odbc_rw.

(** Numbers listed in the order of the enumeration. *)
Lemma ids_inj {A} `{Finite A} (f : A -> Z) : NoDup (map f (enum A)) -> Inj (=) (=) f.
Proof.
  intros Hn a b E.
  assert (Hl : forall l, a ∈ l -> b ∈ l -> NoDup (map f l) -> a = b).
  { induction l as [|x l IH]; [by intros ?%not_elem_of_nil|]. cbn [map].
    rewrite !elem_of_cons, NoDup_cons. intros [->|Ha] [->|Hb] [Hx Hl]; auto.
    - destruct Hx. rewrite E. apply list_elem_of_In, in_map. by apply list_elem_of_In.
    - destruct Hx. rewrite <- E. apply list_elem_of_In, in_map. by apply list_elem_of_In. }
  apply (Hl (enum A)); auto using elem_of_enum.
Qed.

(** The instance of [Finite] for an enumeration, from the list of its constants. *)
Ltac solve_finite :=
  (apply (bool_decide_unpack _); by vm_compute) ||
  (let x := fresh in intros x; destruct x; apply (bool_decide_unpack _); by vm_compute).
