(* ===== verification/Memory.v ===== *)
(** * Memory: bytes of the application

    An application hands the driver addresses of its own buffers. A memory is a
    function from addresses to bytes; [store] writes a list of bytes, [load]
    reads one. Machine words are stored in little-endian order, as on every
    platform the driver is built for. *)

From S2P Require Import Prelude Text.

Module Memory.
Import Text.

Definition Memory : Type := Z -> Z.

(** A pointer; [None] is the null pointer. *)
Definition pointer : Type := option Z.

Definition store (a : Z) (l : list Z) (m : Memory) : Memory :=
  fun x => if (a <=? x) && (x <? a + Z.of_nat (length l))
           then nth (Z.to_nat (x - a)) l 0 else m x.

Definition load (a : Z) (n : nat) (m : Memory) : list Z :=
  map (fun i => m (a + Z.of_nat i)) (seq 0 n).

(** The [n] bytes of an integer, in two's complement, and their value. *)
Fixpoint le_bytes (n : nat) (v : Z) : list Z :=
  match n with
  | O => []
  | S n' => v mod 256 :: le_bytes n' (v / 256)
  end.

Fixpoint le_val (l : list Z) : Z :=
  match l with
  | [] => 0
  | x :: l' => x + 256 * le_val l'
  end.

(** The bytes of a text, and the text before the first NUL of some bytes. *)
Definition bytes_of (s : text) : list Z := map code s.
Definition char_of (b : Z) : ascii := ascii_of_N (Z.to_N b).

Fixpoint cstr (l : list Z) : text :=
  match l with
  | [] => []
  | b :: l' => if b =? 0 then [] else char_of b :: cstr l'
  end.

(** [strncpy(out, in, n)] writes exactly [n] bytes, padded with NUL. *)
Definition strncpy_bytes (s : text) (n : Z) : list Z :=
  let l := take (Z.to_nat n) (bytes_of s) in
  l ++ replicate (Z.to_nat n - length l) 0.

(** ** Lemmas *)

Lemma length_le_bytes n v : length (le_bytes n v) = n.
Proof. revert v. induction n as [|n IH]; intros v; cbn; [done|]. by rewrite IH. Qed.

Lemma le_val_le_bytes n v : le_val (le_bytes n v) = v mod 2 ^ (8 * Z.of_nat n).
Proof.
  revert v. induction n as [|n IH]; intros v; [by rewrite Z.mod_1_r|].
  cbn [le_bytes le_val]. rewrite IH.
  replace (8 * Z.of_nat (S n)) with (8 + 8 * Z.of_nat n) by lia.
  rewrite Z.pow_add_r by lia. change (2 ^ 8) with 256.
  rewrite Z.rem_mul_r; [lia|lia|]. apply pow2_pos. lia.
Qed.

Lemma le_bytes_bytes n v : Forall (fun b => 0 <= b < 256) (le_bytes n v).
Proof.
  revert v. induction n as [|n IH]; intros v; constructor; [|done].
  apply Z.mod_pos_bound. lia.
Qed.

(** The low bytes depend on the low bits only. *)
Lemma le_bytes_mod n v : le_bytes n (v mod 2 ^ (8 * Z.of_nat n)) = le_bytes n v.
Proof.
  revert v. induction n as [|n IH]; intros v; [done|].
  replace (8 * Z.of_nat (S n)) with (8 + 8 * Z.of_nat n) by lia.
  rewrite Z.pow_add_r by lia. change (2 ^ 8) with 256.
  assert (0 < 2 ^ (8 * Z.of_nat n)) by (apply pow2_pos; lia).
  rewrite Z.rem_mul_r by lia. cbn [le_bytes]. rewrite (Z.mul_comm 256), Z.mod_add by lia.
  rewrite Z.mod_mod, Z.div_add, Z.div_small by (lia || (apply Z.mod_pos_bound; lia)).
  by rewrite Z.add_0_l, IH.
Qed.

Lemma le_bytes_congr n x y :
  x mod 2 ^ (8 * Z.of_nat n) = y mod 2 ^ (8 * Z.of_nat n) -> le_bytes n x = le_bytes n y.
Proof. intros E. by rewrite <- (le_bytes_mod n x), E, le_bytes_mod. Qed.

Lemma le_bytes_i16 v : le_bytes 2 (i16 v) = le_bytes 2 v.
Proof.
  apply le_bytes_congr. change (2 ^ (8 * Z.of_nat 2)) with 65536.
  unfold i16. rewrite Zminus_mod_idemp_l. f_equal. lia.
Qed.
Lemma le_bytes_i32 v : le_bytes 4 (i32 v) = le_bytes 4 v.
Proof. apply le_bytes_congr. apply (u32_i32 v). Qed.
Lemma le_bytes_u64 v : le_bytes 8 (u64 v) = le_bytes 8 v.
Proof. apply (le_bytes_mod 8). Qed.
Lemma le_bytes_i64 v : le_bytes 8 (i64 v) = le_bytes 8 v.
Proof. apply le_bytes_congr. apply (u64_i64 v). Qed.
#[global] Hint Rewrite le_bytes_i16 le_bytes_i32 le_bytes_u64 le_bytes_i64 : odbc_rw.

Lemma store_outside a l m x :
  x < a \/ a + Z.of_nat (length l) <= x -> store a l m x = m x.
Proof.
  intros H. unfold store.
  destruct (Z.leb_spec a x), (Z.ltb_spec x (a + Z.of_nat (length l))); try done; lia.
Qed.

Lemma store_inside a l m i :
  (i < length l)%nat -> store a l m (a + Z.of_nat i) = nth i l 0.
Proof.
  intros H. unfold store.
  rewrite (proj2 (Z.leb_le _ _)), (proj2 (Z.ltb_lt _ _)) by lia. cbn.
  f_equal. lia.
Qed.

Lemma length_load a n m : length (load a n m) = n.
Proof. unfold load. by rewrite length_map, length_seq. Qed.

Lemma load_app a n k m : load a (n + k) m = load a n m ++ load (a + Z.of_nat n) k m.
Proof.
  unfold load. rewrite seq_app, map_app. f_equal. cbn. rewrite <- (Nat.add_0_r n) at 1.
  rewrite <- (fmap_add_seq n 0 k), map_map. apply map_ext. intros i. f_equal. lia.
Qed.

Lemma load_ext a n m m' :
  (forall x, a <= x < a + Z.of_nat n -> m x = m' x) -> load a n m = load a n m'.
Proof.
  intros H. apply map_ext_in. intros i Hi%in_seq. apply H. lia.
Qed.

Lemma load_store a l m : load a (length l) (store a l m) = l.
Proof.
  apply nth_ext with (d := 0) (d' := 0); [by rewrite length_load|].
  intros i Hi. rewrite length_load in Hi. unfold load.
  rewrite (nth_indep _ 0 ((fun i => store a l m (a + Z.of_nat i)) 0%nat))
    by (by rewrite length_map, length_seq).
  rewrite (map_nth (fun i => store a l m (a + Z.of_nat i))), seq_nth by done.
  by rewrite store_inside.
Qed.

Lemma load_store_n a l m n : n = length l -> load a n (store a l m) = l.
Proof. intros ->. apply load_store. Qed.

(** Regions that do not overlap. *)
Definition apart (a : Z) (n : nat) (b : Z) (k : nat) : Prop :=
  a + Z.of_nat n <= b \/ b + Z.of_nat k <= a.

Lemma load_store_apart a n b l m :
  apart a n b (length l) -> load a n (store b l m) = load a n m.
Proof.
  unfold apart. intros H. apply load_ext. intros x Hx. apply store_outside. lia.
Qed.

(** The memory agrees outside the listed regions. *)
Definition untouched (regions : list (Z * Z)) (m m' : Memory) : Prop :=
  forall x, Forall (fun r => x < fst r \/ fst r + snd r <= x) regions -> m' x = m x.

Lemma untouched_refl rs m : untouched rs m m.
Proof. done. Qed.
Lemma untouched_trans rs m1 m2 m3 :
  untouched rs m1 m2 -> untouched rs m2 m3 -> untouched rs m1 m3.
Proof. intros H1 H2 x Hx. by rewrite (H2 x Hx), (H1 x Hx). Qed.
Lemma untouched_store rs a l n m m' :
  (a, n) ∈ rs -> Z.of_nat (length l) <= n -> untouched rs m m' -> untouched rs m (store a l m').
Proof.
  intros Hin Hl H x Hx. rewrite <- (H x Hx). apply store_outside.
  rewrite Forall_forall in Hx. specialize (Hx _ Hin). cbn in Hx. lia.
Qed.

Lemma length_bytes_of s : length (bytes_of s) = length s.
Proof. apply length_map. Qed.

Lemma length_strncpy s n : 0 <= n -> Z.of_nat (length (strncpy_bytes s n)) = n.
Proof.
  intros H. unfold strncpy_bytes. rewrite length_app, length_replicate, length_take. lia.
Qed.

Lemma char_of_code c : char_of (code c) = c.
Proof. unfold char_of, code. rewrite N2Z.id. apply ascii_N_embedding. Qed.

Lemma code_range c : 0 <= code c < 256.
Proof. unfold code. pose proof (N_ascii_bounded c). lia. Qed.

(** A text without NUL followed by a NUL is read back. *)
Definition no_nul (s : text) : Prop := Forall (fun c => code c <> 0) s.

Lemma cstr_bytes s l : no_nul s -> cstr (bytes_of s ++ 0 :: l) = s.
Proof.
  induction 1 as [|c s Hc Hs IH]; [done|]. cbn [bytes_of map app cstr].
  rewrite (proj2 (Z.eqb_neq _ _)) by done. unfold bytes_of in IH.
  by rewrite IH, char_of_code.
Qed.

#[export] Hint Resolve untouched_refl : odbc_db.
End Memory.
