(* ===== verification/Bits.v ===== *)
(** * Bits: the bit tricks of [ignite::odbc::common::bits]

    Models [src/ignite/common/src/common/bits.cpp]: leading and trailing zero
    counts, population count, bit lengths, array capacities, decimal digit
    counts and the table of powers of ten. An [int32_t] or [uint32_t] argument
    is a [Z] in its range; every shift of the source that may drop bits is
    wrapped to its width. *)

From S2P Require Import Prelude.

Module Bits.

Definition UINT64_MAX_PRECISION : Z := 20.

(** One halving step of the trailing-zero search on an [int32_t]. *)
Definition ntz_step (s : Z) (st : Z * Z) : Z * Z :=
  let '(n, i) := st in
  let y := i32 (Z.shiftl i s) in
  if negb (y =? 0) then (n - s, y) else (n, i).

Definition NumberOfTrailingZerosI32 (i : Z) : Z :=
  if i =? 0 then 32
  else
    let '(n, i) := ntz_step 2 (ntz_step 4 (ntz_step 8 (ntz_step 16 (31, i)))) in
    n - i32 (Z.shiftr (u32 (Z.shiftl i 1)) 31).

(** One halving step of the leading-zero search on a [uint32_t]. *)
Definition nlz_step (s : Z) (st : Z * Z) : Z * Z :=
  let '(n, i) := st in
  if Z.shiftr i (32 - s) =? 0 then (n + s, u32 (Z.shiftl i s)) else (n, i).

Definition NumberOfLeadingZerosU32 (i : Z) : Z :=
  if i =? 0 then 32
  else
    let '(n, i) := nlz_step 2 (nlz_step 4 (nlz_step 8 (nlz_step 16 (1, i)))) in
    n - i32 (Z.shiftr i 31).

Definition NumberOfLeadingZerosI32 (i : Z) : Z :=
  NumberOfLeadingZerosU32 (u32 i).

Definition NumberOfLeadingZerosU64 (i : Z) : Z :=
  if i =? 0 then 64
  else
    let n := 1 in
    let x := u32 (Z.shiftr i 32) in
    let '(n, x) := if x =? 0 then (n + 32, u32 i) else (n, x) in
    let '(n, x) := nlz_step 2 (nlz_step 4 (nlz_step 8 (nlz_step 16 (n, x)))) in
    n - Z.shiftr x 31.

Definition NumberOfLeadingZerosI64 (i : Z) : Z :=
  NumberOfLeadingZerosU64 (u64 i).

Definition BitCountI32 (i : Z) : Z :=
  let ui := u32 i in
  let ui := u32 (ui - Z.land (Z.shiftr ui 1) 0x55555555) in
  let ui := u32 (Z.land ui 0x33333333 + Z.land (Z.shiftr ui 2) 0x33333333) in
  let ui := Z.land (u32 (ui + Z.shiftr ui 4)) 0x0f0f0f0f in
  let ui := u32 (ui + Z.shiftr ui 8) in
  let ui := u32 (ui + Z.shiftr ui 16) in
  i32 (Z.land ui 0x3f).

Definition BitLengthI32 (i : Z) : Z := 32 - NumberOfLeadingZerosI32 i.
Definition BitLengthU32 (i : Z) : Z := 32 - NumberOfLeadingZerosU32 i.

Definition GetCapasityForSize (size : Z) : Z :=
  if size <=? 8 then 8
  else
    let bl := BitLengthI32 size in
    if 30 <? bl then INT32_MAX
    else
      let res := i32 (Z.shiftl 1 bl) in
      if res <? size then i32 (Z.shiftl res 1) else res.

Definition TEN_POWERS_TABLE : list Z :=
  [ 1; 10; 100; 1000; 10000; 100000; 1000000; 10000000; 100000000; 1000000000;
    10000000000; 100000000000; 1000000000000; 10000000000000;
    100000000000000; 1000000000000000; 10000000000000000; 100000000000000000;
    1000000000000000000; 10000000000000000000 ].

(** The table is indexed without a check in a release build; [nth] gives [0]
    outside it, and [TenPowerU64_spec] below covers exactly its range. *)
Definition TenPowerU64 (n : Z) : Z := nth (Z.to_nat n) TEN_POWERS_TABLE 0.

Definition DigitLength (x : Z) : Z :=
  if x <? 10 then 1
  else
    let r := Z.shiftr ((64 - NumberOfLeadingZerosU64 x + 1) * 1233) 12 in
    if (r =? UINT64_MAX_PRECISION) || (x <? TenPowerU64 r) then r else r + 1.

(** [MakeU64(high, low)] of [bits.h]. *)
Definition MakeU64 (high low : Z) : Z := Z.lor (u64 (Z.shiftl high 32)) low.

(** ** Leading zeros *)

(** What a leading-zero search keeps: [n] counts the zeros skipped so far,
    one ahead, and the word has been shifted left by as many. *)
Definition nlz_inv (w i0 : Z) (st : Z * Z) : Prop :=
  0 < st.2 < B32 /\ st.1 - 1 + (31 - Z.log2 st.2) = w - 1 - Z.log2 i0.

Lemma nlz_step_inv w i0 s st :
  0 < s < 32 -> nlz_inv w i0 st -> nlz_inv w i0 (nlz_step s st).
Proof.
  destruct st as [n i]. unfold nlz_inv, nlz_step. cbn [fst snd]. intros Hs [Hi Hn].
  rewrite Z.shiftr_div_pow2 by lia.
  case_test; cbn [fst snd]; [|done]. z_bool.
  assert (0 < 2 ^ (32 - s)) by (apply Z.pow_pos_nonneg; lia).
  assert (Hlt : i < 2 ^ (32 - s)) by (apply Z.div_small_iff in Heqb; lia).
  assert (Hlt2 : i * 2 ^ s < B32).
  { change B32 with (2 ^ 32). replace 32 with (32 - s + s) at 1 by lia.
    rewrite Z.pow_add_r by lia. apply Z.mul_lt_mono_pos_r; [|done].
    apply Z.pow_pos_nonneg; lia. }
  assert (0 < i * 2 ^ s) by (apply Z.mul_pos_pos; [lia|apply Z.pow_pos_nonneg; lia]).
  rewrite Z.shiftl_mul_pow2 by lia. rewrite u32_small by (unfold is_u32; lia).
  split; [done|]. rewrite Z.log2_mul_pow2 by lia. lia.
Qed.

(** The word a step leaves has its top bit in the upper half searched. *)
Lemma nlz_step_high s n i :
  0 < s < 32 -> 0 < i < B32 -> 32 - 2 * s <= Z.log2 i ->
  32 - s <= Z.log2 (nlz_step s (n, i)).2.
Proof.
  intros Hs Hi Hl. unfold nlz_step. rewrite Z.shiftr_div_pow2 by lia.
  assert (0 < 2 ^ (32 - s)) by (apply Z.pow_pos_nonneg; lia).
  case_test; cbn [fst snd]; z_bool.
  - assert (Hlt : i < 2 ^ (32 - s)) by (apply Z.div_small_iff in Heqb; lia).
    rewrite u32_small, Z.shiftl_mul_pow2, Z.log2_mul_pow2; try lia.
    split; [apply Z.shiftl_nonneg; lia|].
    rewrite Z.shiftl_mul_pow2 by lia. change B32 with (2 ^ 32).
    replace 32 with (32 - s + s) at 1 by lia. rewrite Z.pow_add_r by lia.
    apply Z.mul_lt_mono_pos_r; [|done]. apply Z.pow_pos_nonneg; lia.
  - apply Z.log2_le_pow2; [lia|].
    destruct (Z.lt_ge_cases i (2 ^ (32 - s))) as [?|?]; [|lia].
    by rewrite Z.div_small in Heqb by lia.
Qed.

(** The four steps and the final bit test. *)
Definition nlz_steps (st : Z * Z) : Z * Z :=
  nlz_step 2 (nlz_step 4 (nlz_step 8 (nlz_step 16 st))).

Lemma nlz_steps_correct w i0 n i :
  nlz_inv w i0 (n, i) ->
  let st := nlz_steps (n, i) in
  0 <= Z.shiftr st.2 31 <= 1 /\ st.1 - Z.shiftr st.2 31 = w - 1 - Z.log2 i0.
Proof.
  intros H0.
  assert (H1 := nlz_step_inv w i0 16 _ ltac:(lia) H0).
  assert (H2 := nlz_step_inv w i0 8 _ ltac:(lia) H1).
  assert (H3 := nlz_step_inv w i0 4 _ ltac:(lia) H2).
  assert (H4 := nlz_step_inv w i0 2 _ ltac:(lia) H3).
  assert (L1 : 16 <= Z.log2 (nlz_step 16 (n, i)).2).
  { apply (nlz_step_high 16); [lia|apply H0|]. pose proof (Z.log2_nonneg i). lia. }
  revert H1 H2 H3 H4 L1. unfold nlz_steps.
  destruct (nlz_step 16 (n, i)) as [n1 i1]. intros H1 H2 H3 H4 L1.
  assert (L2 := nlz_step_high 8 n1 i1 ltac:(lia) (proj1 H1) ltac:(cbn in *; lia)).
  revert H2 H3 H4 L2. destruct (nlz_step 8 (n1, i1)) as [n2 i2]. intros H2 H3 H4 L2.
  assert (L3 := nlz_step_high 4 n2 i2 ltac:(lia) (proj1 H2) ltac:(cbn in *; lia)).
  revert H3 H4 L3. destruct (nlz_step 4 (n2, i2)) as [n3 i3]. intros H3 H4 L3.
  assert (L4 := nlz_step_high 2 n3 i3 ltac:(lia) (proj1 H3) ltac:(cbn in *; lia)).
  revert H4 L4. destruct (nlz_step 2 (n3, i3)) as [n4 i4]. intros [Hi4 H4] L4.
  cbn [fst snd] in *. rewrite Z.shiftr_div_pow2 by lia.
  change (2 ^ 31) with 2147483648.
  assert (Z.log2 i4 < 32) by (apply Z.log2_lt_pow2; [lia|]; change (2 ^ 32) with B32; lia).
  pose proof (Z.log2_spec i4 ltac:(lia)) as [Hlo Hhi].
  assert (Z.log2 i4 = 30 \/ Z.log2 i4 = 31) as [E|E] by lia; rewrite E in *.
  - change (2 ^ 30) with 1073741824 in *. change (2 ^ Z.succ 30) with 2147483648 in *.
    replace (i4 / 2147483648) with 0 by (symmetry; apply Z.div_small; lia). lia.
  - change (2 ^ 31) with 2147483648 in *.
    replace (i4 / 2147483648) with 1 by (apply Z.div_unique with (i4 - 2147483648); lia).
    lia.
Qed.

Lemma NumberOfLeadingZerosU32_log2 i :
  0 < i < B32 -> NumberOfLeadingZerosU32 i = 31 - Z.log2 i.
Proof.
  intros Hi. unfold NumberOfLeadingZerosU32.
  destruct (Z.eqb_spec i 0) as [|Hi0]; [lia|].
  pose proof (nlz_steps_correct 32 i 1 i ltac:(split; cbn; lia)) as H.
  unfold nlz_steps in H. cbn zeta in H.
  destruct (nlz_step 2 _) as [n4 i4]. cbn [fst snd] in H.
  rewrite i32_small by (unfold is_i32; lia). lia.
Qed.

Lemma NumberOfLeadingZerosU64_log2 i :
  0 < i < B64 -> NumberOfLeadingZerosU64 i = 63 - Z.log2 i.
Proof.
  intros Hi. unfold NumberOfLeadingZerosU64.
  destruct (Z.eqb_spec i 0) as [|Hi0]; [lia|].
  assert (Hx : u32 (Z.shiftr i 32) = i / B32).
  { rewrite shiftr32. apply u32_small. split.
    - apply Z.div_pos; lia.
    - apply Z.div_lt_upper_bound; lia. }
  rewrite Hx.
  assert (Hinv : nlz_inv 64 i
    (if i / B32 =? 0 then (1 + 32, u32 i) else (1, i / B32))).
  { case_test; z_bool; unfold nlz_inv; cbn [fst snd].
    - apply Z.div_small_iff in Heqb; [|lia].
      rewrite u32_small by (unfold is_u32; lia). lia.
    - split.
      + assert (0 <= i / B32) by (apply Z.div_pos; lia).
        assert (i / B32 < B32) by (apply Z.div_lt_upper_bound; lia). lia.
      + rewrite <- shiftr32, Z.log2_shiftr by lia.
        assert (Z.log2 i >= 32).
        { apply Z.le_ge, Z.log2_le_pow2; [lia|]. change (2 ^ 32) with B32.
          destruct (Z.lt_ge_cases i B32); [|lia].
          by rewrite Z.div_small in Heqb by lia. }
        lia. }
  destruct (if i / B32 =? 0 then _ else _) as [n x].
  pose proof (nlz_steps_correct 64 i n x Hinv) as H.
  unfold nlz_steps in H. cbn zeta in H.
  destruct (nlz_step 2 _) as [n4 i4]. cbn [fst snd] in H. lia.
Qed.

Lemma BitLengthU32_spec i :
  0 < i < B32 -> BitLengthU32 i = Z.log2 i + 1.
Proof. intros. unfold BitLengthU32. rewrite NumberOfLeadingZerosU32_log2; lia. Qed.

(** ** Trailing zeros *)

Lemma i32_pow2_zero i k :
  0 <= k <= 32 -> i32 (i * 2 ^ k) = 0 <-> i mod 2 ^ (32 - k) = 0.
Proof.
  intros Hk. rewrite i32_zero. unfold u32.
  assert (0 < 2 ^ k) by (apply Z.pow_pos_nonneg; lia).
  assert (0 < 2 ^ (32 - k)) by (apply Z.pow_pos_nonneg; lia).
  replace B32 with (2 ^ (32 - k) * 2 ^ k)
    by (rewrite <- Z.pow_add_r by lia; by replace (32 - k + k) with 32 by lia).
  rewrite Z.mul_mod_distr_r by lia. nia.
Qed.

(** The search interval: the lowest set bit of [i0] is in the [w] positions
    ending at [n], and the current word is [i0] moved so that [n] is its top. *)
Definition ntz_inv (w i0 : Z) (st : Z * Z) : Prop :=
  w - 1 <= st.1 <= 31 /\ st.2 = i32 (i0 * 2 ^ (31 - st.1)) /\ st.2 <> 0 /\
  i0 mod 2 ^ (st.1 + 1 - w) = 0.

Lemma ntz_step_inv s i0 st :
  0 < s < 32 -> ntz_inv (2 * s) i0 st -> ntz_inv s i0 (ntz_step s st).
Proof.
  destruct st as [n i]. unfold ntz_inv, ntz_step. cbn [fst snd].
  intros Hs (Hn & Hi & Hi0 & Hm).
  assert (Hy : i32 (Z.shiftl i s) = i32 (i0 * 2 ^ (31 - n + s))).
  { rewrite Z.shiftl_mul_pow2, Hi, i32_mul_l, Z.pow_add_r by lia. f_equal. ring. }
  rewrite Hy.
  destruct (Z.eqb_spec (i32 (i0 * 2 ^ (31 - n + s))) 0) as [E|E]; cbn [negb fst snd].
  - apply i32_pow2_zero in E; [|lia].
    replace (32 - (31 - n + s)) with (n + 1 - s) in E by lia.
    repeat split; try done; lia.
  - replace (31 - (n - s)) with (31 - n + s) by lia.
    replace (n - s + 1 - s) with (n + 1 - 2 * s) by lia.
    repeat split; try done; lia.
Qed.

(** C-trailing zeros: the count is the position of the lowest set bit. *)
Lemma NumberOfTrailingZerosI32_spec i :
  is_i32 i -> i <> 0 ->
  let r := NumberOfTrailingZerosI32 i in
  0 <= r < 32 /\ i mod 2 ^ r = 0 /\ i mod 2 ^ (r + 1) <> 0.
Proof.
  intros Hr Hi. unfold NumberOfTrailingZerosI32.
  destruct (Z.eqb_spec i 0) as [|Hi0]; [done|].
  assert (H0 : ntz_inv (2 * 16) i (31, i)).
  { unfold ntz_inv. cbn [fst snd]. change (2 ^ (31 - 31)) with 1.
    change (2 ^ (31 + 1 - 2 * 16)) with 1.
    rewrite Z.mul_1_r, i32_small, Z.mod_1_r by done. lia. }
  apply ntz_step_inv in H0; [|lia].
  apply (ntz_step_inv 8) in H0; [|lia].
  apply (ntz_step_inv 4) in H0; [|lia].
  apply (ntz_step_inv 2) in H0; [|lia].
  destruct (ntz_step 2 _) as [n j]. destruct H0 as (Hn & Hj & Hj0 & Hm).
  cbn [fst snd] in *.
  assert (Hlow : i mod 2 ^ (n + 1) <> 0).
  { intros E. apply Hj0. rewrite Hj. apply i32_pow2_zero; [lia|].
    by replace (32 - (31 - n)) with (n + 1) by lia. }
  assert (Hb : Z.shiftr (u32 (Z.shiftl j 1)) 31 = u32 (i * 2 ^ (32 - n)) / 2 ^ 31).
  { rewrite Z.shiftr_div_pow2, Z.shiftl_mul_pow2 by lia. f_equal.
    rewrite Hj, <- (u32_mul_l (i32 _)), u32_i32, u32_mul_l.
    replace (32 - n) with (31 - n + 1) by lia.
    rewrite Z.pow_add_r by lia. f_equal. ring. }
  rewrite Hb. clear Hb.
  assert (Hu : u32 (i * 2 ^ (32 - n)) = (i mod 2 ^ n) * 2 ^ (32 - n)).
  { unfold u32. replace B32 with (2 ^ n * 2 ^ (32 - n))
      by (rewrite <- Z.pow_add_r by lia; by replace (n + (32 - n)) with 32 by lia).
    assert (0 < 2 ^ n) by (apply Z.pow_pos_nonneg; lia).
    assert (0 < 2 ^ (32 - n)) by (apply Z.pow_pos_nonneg; lia).
    by rewrite Z.mul_mod_distr_r by lia. }
  rewrite Hu.
  replace (n + 1 - 2) with (n - 1) in Hm by lia.
  assert (Hp : 2 ^ n = 2 * 2 ^ (n - 1)).
  { replace n with (1 + (n - 1)) at 1 by lia. rewrite Z.pow_add_r by lia. done. }
  assert (Hp0 : 0 < 2 ^ (n - 1)) by (apply Z.pow_pos_nonneg; lia).
  assert (Hq : 2 ^ (n - 1) * 2 ^ (32 - n) = 2 ^ 31).
  { rewrite <- Z.pow_add_r by lia. by replace (n - 1 + (32 - n)) with 31 by lia. }
  assert (Hc : i mod 2 ^ n = 0 \/ i mod 2 ^ n = 2 ^ (n - 1)).
  { apply Z.mod_divide in Hm as [k Hk]; [|lia].
    rewrite Hk, Hp, Z.mul_mod_distr_r by lia.
    pose proof (Z.mod_pos_bound k 2 ltac:(lia)). nia. }
  destruct Hc as [E|E]; rewrite E.
  - rewrite Z.mul_0_l, Z.div_0_l, (i32_small 0) by (unfold is_i32; lia).
    rewrite Z.sub_0_r. repeat split; try done; lia.
  - rewrite Hq, Z.div_same, (i32_small 1) by (unfold is_i32; lia).
    replace (n - 1 + 1) with n by lia. rewrite E. repeat split; try done; lia.
Qed.

(** ** Array capacities *)

(** The capacity chosen for an array of [size] elements holds them all, is at
    least eight and is an [int32_t]. *)
Lemma GetCapasityForSize_spec size :
  0 <= size <= INT32_MAX ->
  size <= GetCapasityForSize size <= INT32_MAX /\ 8 <= GetCapasityForSize size.
Proof.
  intros Hs. unfold GetCapasityForSize.
  destruct (Z.leb_spec size 8); [lia|].
  unfold BitLengthI32, NumberOfLeadingZerosI32.
  rewrite u32_small, NumberOfLeadingZerosU32_log2 by (unfold is_u32; lia).
  replace (32 - (31 - Z.log2 size)) with (Z.log2 size + 1) by lia.
  destruct (Z.ltb_spec 30 (Z.log2 size + 1)) as [|Hb]; [lia|].
  pose proof (Z.log2_spec size ltac:(lia)) as [_ Hlt].
  change (Z.succ (Z.log2 size)) with (Z.log2 size + 1) in Hlt.
  assert (2 ^ (Z.log2 size + 1) <= 2 ^ 30) by (apply Z.pow_le_mono_r; lia).
  change (2 ^ 30) with 1073741824 in *.
  rewrite Z.shiftl_1_l, i32_small by (unfold is_i32; lia).
  destruct (Z.ltb_spec (2 ^ (Z.log2 size + 1)) size); lia.
Qed.

(** ** Decimal digits *)

Lemma TenPowerU64_spec n :
  0 <= n < UINT64_MAX_PRECISION -> TenPowerU64 n = 10 ^ n.
Proof.
  unfold UINT64_MAX_PRECISION. intros Hn.
  assert (Hall : forallb (fun k => TenPowerU64 (Z.of_nat k) =? 10 ^ Z.of_nat k)
                   (seq 0 20) = true) by (vm_compute; reflexivity).
  rewrite forallb_forall in Hall.
  specialize (Hall (Z.to_nat n)). rewrite Z2Nat.id in Hall by lia.
  apply Z.eqb_eq, Hall. apply in_seq. lia.
Qed.

(** The estimate from the bit length is exact or one short. *)
Definition digit_estimate_ok (k : nat) : bool :=
  let b := Z.of_nat k in
  let r := Z.shiftr ((b + 1 + 1) * 1233) 12 in
  (0 <? r) && (r <? 20) && (10 ^ (r - 1) <=? 2 ^ b) && (2 ^ (b + 1) <=? 10 ^ (r + 1)).

Lemma digit_estimate x :
  10 <= x < B64 ->
  let r := Z.shiftr ((64 - NumberOfLeadingZerosU64 x + 1) * 1233) 12 in
  0 < r < 20 /\ 10 ^ (r - 1) <= x < 10 ^ (r + 1).
Proof.
  intros Hx. rewrite NumberOfLeadingZerosU64_log2 by lia.
  replace (64 - (63 - Z.log2 x) + 1) with (Z.log2 x + 1 + 1) by lia.
  assert (Hall : forallb digit_estimate_ok (seq 3 61) = true)
    by (vm_compute; reflexivity).
  rewrite forallb_forall in Hall.
  assert (Z.log2 x < 64) by (apply Z.log2_lt_pow2; [lia|]; change (2 ^ 64) with B64; lia).
  assert (3 <= Z.log2 x) by (apply Z.log2_le_pow2; lia).
  specialize (Hall (Z.to_nat (Z.log2 x)) ltac:(apply in_seq; lia)).
  unfold digit_estimate_ok in Hall. rewrite Z2Nat.id in Hall by lia.
  z_bool. pose proof (Z.log2_spec x ltac:(lia)) as [Hlo Hhi].
  change (Z.succ (Z.log2 x)) with (Z.log2 x + 1) in Hhi. cbn zeta. lia.
Qed.

Lemma DigitLength_correct x :
  0 <= x < B64 ->
  x < 10 ^ DigitLength x /\ (x = 0 \/ 10 ^ (DigitLength x - 1) <= x) /\
  1 <= DigitLength x <= UINT64_MAX_PRECISION.
Proof.
  intros Hx. unfold DigitLength, UINT64_MAX_PRECISION.
  destruct (Z.ltb_spec x 10); [change (10 ^ 1) with 10; change (10 ^ (1 - 1)) with 1; lia|].
  pose proof (digit_estimate x ltac:(lia)) as H0. cbn zeta in H0. revert H0.
  generalize (Z.shiftr ((64 - NumberOfLeadingZerosU64 x + 1) * 1233) 12).
  intros r (Hr & Hlo & Hhi).
  destruct (Z.eqb_spec r 20) as [|_]; [lia|]. cbn [orb].
  rewrite TenPowerU64_spec by (unfold UINT64_MAX_PRECISION; lia).
  destruct (Z.ltb_spec x (10 ^ r)).
  - lia.
  - replace (r + 1 - 1) with r by lia. lia.
Qed.

Lemma MakeU64_eq high low :
  is_u32 high -> is_u32 low -> MakeU64 high low = low + B32 * high.
Proof.
  unfold is_u32, MakeU64. intros Hh Hl.
  rewrite shiftl32, u64_small by (unfold is_u64; lia).
  rewrite <- shiftl32, Z.lor_comm, lor_shiftl_add by (try lia; change (2 ^ 32) with B32; lia).
  change (2 ^ 32) with B32. lia.
Qed.

End Bits.

(** [DigitLength] returns the number of decimal digits of every [uint64_t]:
    the shift-and-multiply estimate of the bit trick, corrected by one table
    lookup, never leaves the table. *)
Theorem DigitLength_spec (x : Z) :
  0 <= x < B64 ->
  x < 10 ^ Bits.DigitLength x /\ (x = 0 \/ 10 ^ (Bits.DigitLength x - 1) <= x) /\
  1 <= Bits.DigitLength x <= Bits.UINT64_MAX_PRECISION.
Proof. apply Bits.DigitLength_correct. Qed.

Theorem DigitLength_witness :
  Bits.DigitLength 9999999999999999999 = 19 /\
  9999999999999999999 < 10 ^ Bits.DigitLength 9999999999999999999.
Proof.
  split; [vm_compute; reflexivity|].
  exact (proj1 (DigitLength_spec 9999999999999999999 ltac:(lia))).
Defined.
