(* ===== verification/Arrays.v ===== *)
(** * Arrays: the arrays of the library of the driver

    Models [src/ignite/common/.../dynamic_size_array.h], [default_allocator.h] and
    [fixed_size_array.h] on a heap of blocks: a cell is raw memory or holds an
    object, a pointer is a block and an offset. [BigInteger] keeps its magnitude in
    such an array; elsewhere in this development arrays are lists, and the theorems
    here say that this is faithful. *)

From S2P Require Import Prelude Bits.

Declare Scope heap_scope.
Delimit Scope heap_scope with heap.

Module Arrays.
Import Bits.
Local Open Scope heap_scope.

(** ** The heap *)

Section Heap.
Context {T : Type}.

(** Cells without an object are raw. *)
Abbreviation Heap := (gmap positive (list (option T))).
Definition pointer : Type := option (positive * Z).

(** [data + i]. *)
Definition shift (p : pointer) (i : Z) : pointer := option_map (fun '(b, o) => (b, o + i)) p.

Definition M (A : Type) : Type := Heap -> result (Heap * A).
Definition ret {A} (a : A) : M A := fun h => Ok (h, a).
Definition bind {A B} (m : M A) (k : A -> M B) : M B :=
  fun h => match m h with Ok (h, a) => k a h | Err e => Err e end.

(** What happens to the cell behind a pointer. *)
Definition at_cell {A} (p : pointer) (f : option T -> result (option T * A)) : M A :=
  fun h =>
    match p with
    | None => Err NullPointer
    | Some (b, o) =>
        match h !! b with
        | None => Err Dangling
        | Some cells =>
            if o <? 0 then Err OutOfBounds
            else
              match cells !! Z.to_nat o with
              | None => Err OutOfBounds
              | Some c =>
                  match f c with
                  | Ok (c, a) => Ok (<[b := <[Z.to_nat o := c]> cells]> h, a)
                  | Err e => Err e
                  end
              end
        end
    end.

Definition load (p : pointer) : M T :=
  at_cell p (fun c => match c with Some v => Ok (c, v) | None => Err Indeterminate end).
(** Assignment to an object. *)
Definition store (p : pointer) (v : T) : M unit :=
  at_cell p (fun c => match c with Some _ => Ok (Some v, tt) | None => Err Indeterminate end).

(** The allocator. A negative length is a huge size, which is refused. *)
Definition Allocate (len : Z) : M pointer :=
  fun h =>
    if len <? 0 then Err Exception
    else let b := fresh (dom h) in Ok (<[b := replicate (Z.to_nat len) None]> h, Some (b, 0)).
Definition Deallocate (p : pointer) : M unit :=
  fun h =>
    match p with
    | None => Ok (h, tt)
    | Some (b, o) =>
        if bool_decide (is_Some (h !! b)) && (o =? 0) then Ok (delete b h, tt) else Err Dangling
    end.
Definition Construct (p : pointer) (v : T) : M unit := at_cell p (fun _ => Ok (Some v, tt)).
Definition Destruct (p : pointer) : M unit :=
  at_cell p (fun c => match c with Some _ => Ok (None, tt) | None => Err Indeterminate end).

(** A loop over [n] indices from [i] on. *)
Fixpoint for_each (n : nat) (i : Z) (body : Z -> M unit) : M unit :=
  match n with
  | O => ret tt
  | S n => bind (body i) (fun _ => for_each n (i + 1) body)
  end.
End Heap.

#[global] Arguments M T A : clear implicits.
Notation "'let*' x := m 'in' k" := (bind m (fun x => k))
  (at level 10, x pattern, m at level 100, k at level 200) : heap_scope.
Notation "m ;; k" := (bind m (fun _ => k)) : heap_scope.

(** ** [DynamicSizeArray] *)

Section Dynamic.
Context {T : Type} (zero : T).
Abbreviation Heap := (gmap positive (list (option T))).
Abbreviation M := (M T).

Record DynamicSizeArray : Type := MkArray {
  size : Z;
  capasity : Z;
  data : pointer
}.

Definition NewArray : DynamicSizeArray := MkArray 0 0 None.
Definition NewArraySize (len : Z) : M DynamicSizeArray :=
  let capasity := GetCapasityForSize len in
  let* data := Allocate capasity in
  ret (MkArray 0 capasity data).

(** The elements from one index to another. *)
Definition destruct_all (a : DynamicSizeArray) (from to : Z) : M unit :=
  for_each (Z.to_nat (to - from)) from (fun i => Destruct (shift (data a) i)).

Definition DeleteArray (a : DynamicSizeArray) : M unit :=
  destruct_all a 0 (size a) ;;
  Deallocate (data a).

(** [len] elements of [src], at [to] of the array. *)
Definition copy_elements (a : DynamicSizeArray) (to : Z) (src : pointer) (len : Z) : M unit :=
  for_each (Z.to_nat len) 0 (fun i =>
    let* v := load (shift src i) in
    Construct (shift (data a) (to + i)) v).

Definition AssignArray (src : pointer) (len : Z) (a : DynamicSizeArray) : M DynamicSizeArray :=
  destruct_all a 0 (size a) ;;
  let* a :=
    if capasity a <? len then
      Deallocate (data a) ;;
      let capasity := GetCapasityForSize len in
      let* data := Allocate capasity in
      ret (MkArray (size a) capasity data)
    else ret a in
  let a := MkArray len (capasity a) (data a) in
  copy_elements a 0 src len ;;
  ret a.

(** [this != &other]. *)
Definition AssignOther (same : bool) (other a : DynamicSizeArray) : M DynamicSizeArray :=
  if same then ret a else AssignArray (data other) (size other) a.
Definition Swap (same : bool) (a other : DynamicSizeArray) : DynamicSizeArray * DynamicSizeArray :=
  if same then (a, other) else (other, a).

Definition NewArrayFrom (arr : pointer) (len : Z) : M DynamicSizeArray := AssignArray arr len NewArray.
Definition NewArrayCopy (other : DynamicSizeArray) : M DynamicSizeArray :=
  AssignArray (data other) (size other) NewArray.

(** [Swap(tmp)] gives this array the new memory, and [tmp] is destroyed with the
    old one. *)
Definition Reserve (newCapacity : Z) (a : DynamicSizeArray) : M DynamicSizeArray :=
  if capasity a <? newCapacity then
    let* tmp := NewArraySize newCapacity in
    let* tmp := AssignArray (data a) (size a) tmp in
    DeleteArray a ;;
    ret tmp
  else ret a.

Definition Append (src : pointer) (len : Z) (a : DynamicSizeArray) : M DynamicSizeArray :=
  let* a := Reserve (i32 (size a + len)) a in
  copy_elements a (size a) src len ;;
  ret (MkArray (i32 (size a + len)) (capasity a) (data a)).

Definition Clear (a : DynamicSizeArray) : M DynamicSizeArray :=
  destruct_all a 0 (size a) ;;
  ret (MkArray 0 (capasity a) (data a)).

Definition Resize (newSize : Z) (a : DynamicSizeArray) : M DynamicSizeArray :=
  let* a := (if capasity a <? newSize then Reserve newSize a else ret a) in
  (if size a <? newSize then
     for_each (Z.to_nat (newSize - size a)) (size a) (fun i => Construct (shift (data a) i) zero)
   else destruct_all a newSize (size a)) ;;
  ret (MkArray newSize (capasity a) (data a)).

Definition IsEmpty (a : DynamicSizeArray) : bool := size a =? 0.

(** [operator[]], [Back] and [Front]: references. *)
Definition element (idx : Z) (a : DynamicSizeArray) : pointer := shift (data a) idx.
Definition Back (a : DynamicSizeArray) : pointer := element (size a - 1) a.
Definition Front (a : DynamicSizeArray) : pointer := element 0 a.

(** A reference to a constant: a variable elsewhere, or an object of the heap. *)
Inductive reference : Type := Variable_ (v : T) | Object_ (p : pointer).
Definition dereference (r : reference) : M T :=
  match r with Variable_ v => ret v | Object_ p => load p end.

Definition PushBack (val : reference) (a : DynamicSizeArray) : M DynamicSizeArray :=
  let* a := Resize (i32 (size a + 1)) a in
  let* v := dereference val in
  store (Back a) v ;;
  ret a.
End Dynamic.

(** ** Arrays as objects *)

(** The calls of a program on its arrays, which are named by numbers; a source is
    a part of another array. *)
Section Objects.
Context {T : Type} (zero : T).
Abbreviation Heap := (gmap positive (list (option T))).

Record Store : Type := MkStore { heap : Heap; arrays : gmap positive DynamicSizeArray }.

Inductive call : Type :=
  | CallNew (i : positive)
  | CallNewSize (i : positive) (len : Z)
  | CallNewFrom (i j : positive) (from len : nat)
  | CallNewCopy (i j : positive)
  | CallDelete (i : positive)
  | CallAssign (i j : positive)
  | CallAssignFrom (i j : positive) (from len : nat)
  | CallAppend (i j : positive) (from len : nat)
  | CallSwap (i j : positive)
  | CallClear (i : positive)
  | CallReserve (i : positive) (newCapacity : Z)
  | CallResize (i : positive) (newSize : nat)
  | CallPushBack (i : positive) (v : T)
  | CallSet (i : positive) (idx : nat) (v : T).

Definition with_array {A} (i : positive) (s : Store) (k : DynamicSizeArray -> result A) : result A :=
  match arrays s !! i with Some a => k a | None => Err Dangling end.

(** An operation on the heap that leaves an array [i]. *)
Definition make (i : positive) (m : M T DynamicSizeArray) (s : Store) : result Store :=
  match m (heap s) with Ok (h, a) => Ok (MkStore h (<[i := a]> (arrays s))) | Err e => Err e end.
Definition change (i : positive) (f : DynamicSizeArray -> M T DynamicSizeArray) (s : Store) : result Store :=
  with_array i s (fun a => make i (f a) s).

Definition run_call (c : call) (s : Store) : result Store :=
  match c with
  | CallNew i => make i (ret NewArray) s
  | CallNewSize i len => make i (NewArraySize len) s
  | CallNewFrom i j from len =>
      with_array j s (fun b => make i (NewArrayFrom (shift (data b) (Z.of_nat from)) (Z.of_nat len)) s)
  | CallNewCopy i j => with_array j s (fun b => make i (NewArrayCopy b) s)
  | CallDelete i =>
      with_array i s (fun a =>
        match DeleteArray a (heap s) with
        | Ok (h, _) => Ok (MkStore h (delete i (arrays s)))
        | Err e => Err e
        end)
  | CallAssign i j =>
      with_array j s (fun b => change i (AssignOther (Pos.eqb i j) b) s)
  | CallAssignFrom i j from len =>
      with_array j s (fun b => change i (AssignArray (shift (data b) (Z.of_nat from)) (Z.of_nat len)) s)
  | CallAppend i j from len =>
      with_array j s (fun b => change i (Append (shift (data b) (Z.of_nat from)) (Z.of_nat len)) s)
  | CallSwap i j =>
      with_array i s (fun a => with_array j s (fun b =>
        let '(a, b) := Swap (Pos.eqb i j) a b in
        Ok (MkStore (heap s) (<[i := a]> (<[j := b]> (arrays s))))))
  | CallClear i => change i Clear s
  | CallReserve i n => change i (Reserve n) s
  | CallResize i n => change i (Resize zero (Z.of_nat n)) s
  | CallPushBack i v => change i (PushBack zero (Variable_ v)) s
  | CallSet i idx v => change i (fun a => store (element (Z.of_nat idx) a) v ;; ret a) s
  end.

Fixpoint run_calls (cs : list call) (s : Store) : result Store :=
  match cs with
  | [] => Ok s
  | c :: cs => match run_call c s with Ok s => run_calls cs s | Err e => Err e end
  end.

(** The same on lists, where the lengths allow it and a source is not the array
    itself. *)
Definition resized (n : nat) (l : list T) : list T := take n l ++ replicate (n - length l) zero.
Definition small (n : nat) : bool := Z.of_nat n <=? INT32_MAX.
Definition part (from len : nat) (l : list T) : option (list T) :=
  if (from + len <=? length l)%nat then Some (take len (drop from l)) else None.

Definition list_call (c : call) (ls : gmap positive (list T)) : option (gmap positive (list T)) :=
  let unless_there i (l : list T) := if bool_decide (ls !! i = None) then Some (<[i := l]> ls) else None in
  let put i l := Some (<[i := l]> ls) in
  match c with
  | CallNew i => unless_there i []
  | CallNewSize i len => if (0 <? len) && (len <=? INT32_MAX) then unless_there i [] else None
  | CallNewFrom i j from len => l ← ls !! j; xs ← part from len l; unless_there i xs
  | CallNewCopy i j => l ← ls !! j; unless_there i l
  | CallDelete i => _ ← ls !! i; Some (delete i ls)
  | CallAssign i j => _ ← ls !! i; l ← ls !! j; put i l
  | CallAssignFrom i j from len =>
      _ ← ls !! i; l ← ls !! j; xs ← part from len l; if Pos.eqb i j then None else put i xs
  | CallAppend i j from len =>
      k ← ls !! i; l ← ls !! j; xs ← part from len l;
      if Pos.eqb i j || negb (small (length k + len)) then None else put i (k ++ xs)
  | CallSwap i j => k ← ls !! i; l ← ls !! j; Some (<[i := l]> (<[j := k]> ls))
  | CallClear i => _ ← ls !! i; put i []
  | CallReserve i n => l ← ls !! i; if n <=? INT32_MAX then put i l else None
  | CallResize i n => l ← ls !! i; if small n then put i (resized n l) else None
  | CallPushBack i v => l ← ls !! i; if small (length l + 1) then put i (l ++ [v]) else None
  | CallSet i idx v => l ← ls !! i; if (idx <? length l)%nat then put i (<[idx := v]> l) else None
  end.

Fixpoint list_calls (cs : list call) (ls : gmap positive (list T)) : option (gmap positive (list T)) :=
  match cs with
  | [] => Some ls
  | c :: cs => ls ← list_call c ls; list_calls cs ls
  end.
End Objects.

(** ** [FixedSizeArray] *)

(** Its elements are numbers in this driver: assignment may start their life, and
    nothing is destroyed with them. *)
Section Fixed.
Context {T : Type} (zero : T).
Abbreviation M := (M T).

Record FixedSizeArray : Type := MkFixed {
  fixed_size : Z;
  fixed_data : pointer
}.

(** [new T[size]()], filled with zeros. *)
Definition allocate_zeros (len : Z) : M pointer :=
  let* data := Allocate len in
  for_each (Z.to_nat len) 0 (fun i => Construct (shift data i) zero) ;;
  ret data.

Definition NewFixed : FixedSizeArray := MkFixed 0 None.
Definition NewFixedSize (len : Z) : M FixedSizeArray :=
  let* data := allocate_zeros len in
  ret (MkFixed len data).

(** The old memory is freed last: the source may be a part of it. *)
Definition AssignFixed (src : pointer) (len : Z) (a : FixedSizeArray) : M FixedSizeArray :=
  let* (a, toClean) :=
    if negb (len =? fixed_size a) then
      let* data := Allocate len in
      ret (MkFixed len data, fixed_data a)
    else ret (a, None) in
  for_each (Z.to_nat len) 0 (fun i =>
    let* v := load (shift src i) in
    Construct (shift (fixed_data a) i) v) ;;
  Deallocate toClean ;;
  ret a.

Definition AssignFixedOther (same : bool) (other a : FixedSizeArray) : M FixedSizeArray :=
  if same then ret a else AssignFixed (fixed_data other) (fixed_size other) a.
Definition SwapFixed (same : bool) (a other : FixedSizeArray) : FixedSizeArray * FixedSizeArray :=
  if same then (a, other) else (other, a).

Definition NewFixedCopy (other : FixedSizeArray) : M FixedSizeArray :=
  let* data := Allocate (fixed_size other) in
  AssignFixed (fixed_data other) (fixed_size other) (MkFixed (fixed_size other) data).
Definition NewFixedFrom (arr : pointer) (len : Z) : M FixedSizeArray :=
  let* data := Allocate len in
  AssignFixed arr len (MkFixed len data).

Definition DeleteFixed (a : FixedSizeArray) : M unit := Deallocate (fixed_data a).

(** What [CopyPart] assigns to [result]. *)
Definition CopyPart (pos n : Z) (a result : FixedSizeArray) : M FixedSizeArray :=
  AssignFixed (shift (fixed_data a) pos) n result.

Definition IsEmptyFixed (a : FixedSizeArray) : bool := fixed_size a =? 0.
Definition fixed_element (idx : Z) (a : FixedSizeArray) : pointer := shift (fixed_data a) idx.

Definition ResetFixed (newSize : Z) (a : FixedSizeArray) : M FixedSizeArray :=
  if negb (fixed_size a =? newSize) then
    Deallocate (fixed_data a) ;;
    let* data := (if negb (newSize =? 0) then allocate_zeros newSize else ret None) in
    ret (MkFixed newSize data)
  else
    for_each (Z.to_nat (fixed_size a)) 0 (fun i => Construct (shift (fixed_data a) i) zero) ;;
    ret a.
End Fixed.
End Arrays.
