(* ===== verification/ArrayFacts.v ===== *)
(** * ArrayFacts: arrays are lists

    Every operation of an array, on the part of the heap the array owns, does what
    its counterpart on lists does, leaves the rest of the heap alone, frees what it
    no longer needs and never touches freed or raw memory. *)

From S2P Require Import Prelude Bits Arrays.

Module ArrayFacts.
Import Bits Arrays.
Local Open Scope heap_scope.

(** ** Programs that do not fail *)

Section Runs.
Context {T : Type}.
Abbreviation Heap := (gmap positive (list (option T))).
Implicit Types (h hf : Heap) (b : positive).

Definition runs {A} (m : M T A) (h : Heap) (Q : A -> Heap -> Prop) : Prop :=
  match m h with Ok (h, a) => Q a h | Err _ => False end.

Lemma runs_bind {A B} (m : M T A) (k : A -> M T B) h Q :
  runs m h (fun a h => runs (k a) h Q) -> runs (bind m k) h Q.
Proof. unfold runs, bind. by destruct (m h) as [[h1 a]|]. Qed.

Lemma runs_mono {A} (m : M T A) h (P Q : A -> Heap -> Prop) :
  runs m h P -> (forall a h, P a h -> Q a h) -> runs m h Q.
Proof. unfold runs. intros HP HQ. destruct (m h) as [[h1 a]|]; [by apply HQ|done]. Qed.

Lemma runs_exact {A} (m : M T A) h (a : A) h' : runs m h (fun x h1 => x = a /\ h1 = h') <-> m h = Ok (h', a).
Proof. unfold runs. destruct (m h) as [[h1 x]|]; naive_solver. Qed.

(** ** Cells of a block *)

Lemma at_cell_block {A} (f : option T -> result (option T * A)) b pre c post c' a hf (Q : A -> Heap -> Prop) :
  f c = Ok (c', a) -> Q a ({[ b := pre ++ c' :: post ]} ∪ hf) ->
  runs (at_cell (Some (b, Z.of_nat (length pre))) f) ({[ b := pre ++ c :: post ]} ∪ hf) Q.
Proof.
  intros Hf HQ. unfold runs, at_cell.
  rewrite (lookup_union_Some_l _ _ b (pre ++ c :: post)) by apply lookup_singleton_eq.
  rewrite (proj2 (Z.ltb_ge _ _)), Nat2Z.id, list_lookup_middle, Hf by lia.
  rewrite insert_union_l, insert_singleton_eq, insert_app_r_alt, Nat.sub_diag by lia. exact HQ.
Qed.

(** A loop over consecutive cells of a block. *)
Lemma loop_block (body : Z -> M T unit) b (ds cs : list (option T)) pre post hf i :
  length ds = length cs ->
  (forall k c d p q, cs !! k = Some c -> ds !! k = Some d -> length p = (length pre + k)%nat ->
     runs (body (i + Z.of_nat k)) ({[ b := p ++ c :: q ]} ∪ hf) (fun _ h => h = {[ b := p ++ d :: q ]} ∪ hf)) ->
  runs (for_each (length cs) i body) ({[ b := pre ++ cs ++ post ]} ∪ hf)
    (fun _ h => h = {[ b := pre ++ ds ++ post ]} ∪ hf).
Proof.
  revert ds pre i. induction cs as [|c cs IH]; intros [|d ds] pre i Hl Hb; try done. cbn [length for_each].
  apply runs_bind. eapply runs_mono.
  { pose proof (Hb 0%nat c d pre (cs ++ post) eq_refl eq_refl ltac:(lia)) as H0.
    rewrite Z.add_0_r in H0. exact H0. }
  intros _ h ->. rewrite (cons_middle d), app_assoc.
  change ((d :: ds) ++ post) with ([d] ++ ds ++ post). rewrite (app_assoc pre).
  apply IH; [by injection Hl|]. intros k c1 d1 p q Hc Hd Hp.
  replace (i + 1 + Z.of_nat k) with (i + Z.of_nat (S k)) by lia.
  apply (Hb (S k) c1 d1); [done|done|]. rewrite length_app in Hp. cbn in Hp. lia.
Qed.

Lemma lookup_objects (xs : list T) k d : map Some xs !! k = Some d -> exists x, d = Some x /\ xs !! k = Some x.
Proof. change (map Some xs) with (Some <$> xs). rewrite list_lookup_fmap. destruct (xs !! k) as [x|]; [|done]. intros [= <-]. by exists x. Qed.

(** [xs] can be read behind a pointer. *)
Definition readable (h : Heap) (src : pointer) (xs : list T) : Prop :=
  xs = [] \/ exists b o cells, src = Some (b, o) /\ 0 <= o /\ h !! b = Some cells /\
    forall i x, xs !! i = Some x -> cells !! (Z.to_nat o + i)%nat = Some (Some x).

Lemma load_readable h src xs i x :
  readable h src xs -> xs !! i = Some x -> load (shift src (Z.of_nat i)) h = Ok (h, x).
Proof.
  intros [->|(b & o & cells & -> & Ho & Hb & Hc)] Hx; [done|]. unfold load, at_cell. cbn [shift option_map].
  rewrite Hb, (proj2 (Z.ltb_ge _ _)) by lia. replace (Z.to_nat (o + Z.of_nat i)) with (Z.to_nat o + i)%nat by lia.
  rewrite (Hc i x Hx), list_insert_id by by apply Hc. by rewrite insert_id.
Qed.

Lemma readable_mono h h' src xs : h ⊆ h' -> readable h src xs -> readable h' src xs.
Proof.
  intros Hh [->|(b & o & cells & -> & Ho & Hb & Hc)]; [by left|]. right. exists b, o, cells. split_and!; try done.
  by eapply lookup_weaken.
Qed.
End Runs.

(** ** The memory of an array *)

Section Dynamic.
Context {T : Type} (zero : T).
Abbreviation Heap := (gmap positive (list (option T))).
Implicit Types (h hf : Heap) (a : @DynamicSizeArray) (l xs : list T).

Definition well_made a : Prop :=
  0 <= capasity a <= INT32_MAX /\ match data a with None => capasity a = 0 | Some (_, o) => o = 0 end.

(** The block of an array that holds [l]: its elements, then raw cells. *)
Definition cells_of a l : list (option T) := map Some l ++ replicate (Z.to_nat (capasity a) - length l) None.
Definition own a l : Heap := match data a with Some (b, _) => {[ b := cells_of a l ]} | None => ∅ end.

(** An array that holds [l], in a part of the heap of its own. *)
Definition holds a l : Prop :=
  well_made a /\ size a = Z.of_nat (length l) /\ Z.of_nat (length l) <= capasity a.

Lemma own_apart a l l' hf : own a l ##ₘ hf -> own a l' ##ₘ hf.
Proof. unfold own. destruct (data a) as [[b o]|]; [|done]. by rewrite !map_disjoint_singleton_l. Qed.

Lemma own_resized a l n m : own (MkArray n (capasity a) (data a)) l = own (MkArray m (capasity a) (data a)) l.
Proof. done. Qed.

(** An array without memory has no room. *)
Lemma own_cases a n :
  well_made a -> Z.of_nat n <= capasity a ->
  n = 0%nat \/ exists b, data a = Some (b, 0) /\ (n <= Z.to_nat (capasity a))%nat /\ forall l, own a l = {[ b := cells_of a l ]}.
Proof.
  intros [Hc Hd] Hn. unfold own. destruct (data a) as [[b o]|]; [|left; lia]. subst o.
  right. exists b. split_and!; [done|lia|done].
Qed.

(** A loop over the cells behind the first elements, which makes objects of them. *)
Lemma construct_loop a l xs i body hf :
  well_made a -> Z.of_nat (length l + length xs) <= capasity a ->
  (forall k x b p c q, xs !! k = Some x -> data a = Some (b, 0) -> length p = (length l + k)%nat ->
     runs (body (i + Z.of_nat k)) ({[ b := p ++ c :: q ]} ∪ hf) (fun _ h => h = {[ b := p ++ Some x :: q ]} ∪ hf)) ->
  runs (for_each (length xs) i body) (own a l ∪ hf) (fun _ h => h = own a (l ++ xs) ∪ hf).
Proof.
  intros Hw Hn Hb. destruct (own_cases a _ Hw Hn) as [H0|(b & Hd & Hle & Hown)].
  { assert (l = [] /\ xs = []) as [-> ->] by (by split; apply length_zero_iff_nil; lia). by unfold runs. }
  rewrite !Hown. unfold cells_of. rewrite map_app, length_app.
  replace (Z.to_nat (capasity a) - length l)%nat with
    (length xs + (Z.to_nat (capasity a) - (length l + length xs)))%nat by lia.
  rewrite replicate_add, <- app_assoc.
  rewrite <- (length_replicate (length xs) (@None T)) at 1.
  apply loop_block; [by rewrite length_map, length_replicate|].
  intros k c d p q Hc Hx Hp. rewrite length_map in Hp. apply lookup_objects in Hx as (x & -> & Hx).
  by apply Hb.
Qed.

(** The reverse: the elements behind the first ones are destroyed. *)
Lemma destruct_loop a l xs hf :
  well_made a -> Z.of_nat (length l + length xs) <= capasity a ->
  runs (destruct_all a (Z.of_nat (length l)) (Z.of_nat (length l + length xs))) (own a (l ++ xs) ∪ hf)
    (fun _ h => h = own a l ∪ hf).
Proof.
  intros Hw Hn. unfold destruct_all. destruct (own_cases a _ Hw Hn) as [H0|(b & Hd & Hle & Hown)].
  { assert (l = [] /\ xs = []) as [-> ->] by (by split; apply length_zero_iff_nil; lia). by unfold runs. }
  rewrite !Hown, Hd. unfold cells_of. rewrite map_app, length_app.
  replace (Z.to_nat (capasity a) - length l)%nat with
    (length xs + (Z.to_nat (capasity a) - (length l + length xs)))%nat by lia.
  rewrite replicate_add, <- app_assoc.
  replace (Z.to_nat _) with (length (map (@Some T) xs)) by (rewrite length_map; lia).
  apply loop_block; [by rewrite length_map, length_replicate|].
  intros k c d p q Hc Hx Hp. rewrite length_map in Hp. apply lookup_replicate in Hx as [-> _].
  apply lookup_objects in Hc as (x & -> & _). cbn [shift option_map].
  replace (0 + (Z.of_nat (length l) + Z.of_nat k)) with (Z.of_nat (length p)) by lia.
  by eapply at_cell_block.
Qed.

(** ** The operations *)

Definition gives hf l a h : Prop := holds a l /\ own a l ##ₘ hf /\ h = own a l ∪ hf.

Lemma copy_elements_runs a l src xs hf :
  well_made a -> Z.of_nat (length l + length xs) <= capasity a ->
  own a l ##ₘ hf -> readable hf src xs ->
  runs (copy_elements a (Z.of_nat (length l)) src (Z.of_nat (length xs))) (own a l ∪ hf)
    (fun _ h => h = own a (l ++ xs) ∪ hf).
Proof.
  intros Hw Hn Hhf Hsrc. unfold copy_elements. rewrite Nat2Z.id.
  apply construct_loop; [done..|]. intros k x b p c q Hx Hd Hp. change (0 + Z.of_nat k) with (Z.of_nat k).
  assert (Hp1 : {[ b := p ++ c :: q ]} ##ₘ hf).
  { specialize (own_apart a l l hf Hhf). unfold own in Hhf |- *. rewrite Hd in *. by rewrite !map_disjoint_singleton_l in *. }
  assert (Hload : load (shift src (Z.of_nat k)) ({[ b := p ++ c :: q ]} ∪ hf) = Ok ({[ b := p ++ c :: q ]} ∪ hf, x)).
  { eapply load_readable; [|done]. eapply readable_mono; [|done]. by apply map_union_subseteq_r. }
  apply runs_bind. unfold runs at 1. rewrite Hload, Hd. cbn [shift option_map].
  replace (0 + (Z.of_nat (length l) + Z.of_nat k)) with (Z.of_nat (length p)) by lia.
  by eapply at_cell_block.
Qed.

Lemma DeleteArray_runs a l hf :
  holds a l -> own a l ##ₘ hf -> runs (DeleteArray a) (own a l ∪ hf) (fun _ h => h = hf).
Proof.
  intros (Hw & Hs & Hc) Hhf. unfold DeleteArray. apply runs_bind. rewrite Hs.
  eapply runs_mono; [apply (destruct_loop a [] l); [done|cbn; lia]|]. intros _ h ->.
  apply (own_apart _ _ []) in Hhf. destruct Hw as [_ Hd]. unfold runs, Deallocate, own in *.
  destruct (data a) as [[b o]|]; [|by rewrite (left_id_L ∅ (∪))]. subst o.
  rewrite bool_decide_eq_true_2 by (eexists; by apply lookup_union_Some_l, lookup_singleton_eq).
  cbn [andb Z.eqb]. apply map_disjoint_singleton_l in Hhf.
  by rewrite delete_union, delete_singleton_eq, (left_id_L ∅ (∪)), delete_id.
Qed.

Lemma Allocate_runs len h (Q : pointer -> Heap -> Prop) :
  0 <= len ->
  (forall b, h !! b = None -> Q (Some (b, 0)) ({[ b := replicate (Z.to_nat len) None ]} ∪ h)) ->
  runs (Allocate len) h Q.
Proof.
  intros Hl HQ. unfold runs, Allocate. rewrite (proj2 (Z.ltb_ge _ _)) by lia.
  rewrite insert_union_singleton_l. apply HQ. apply not_elem_of_dom, is_fresh.
Qed.

(** Memory of the capacity for [len], with nothing in it. *)
Lemma fresh_room len n h (Q : pointer -> Heap -> Prop) :
  0 <= len <= INT32_MAX ->
  (forall d, let a := MkArray n (GetCapasityForSize len) d in
     well_made a -> len <= capasity a -> own a [] ##ₘ h -> Q d (own a [] ∪ h)) ->
  runs (Allocate (GetCapasityForSize len)) h Q.
Proof.
  intros Hl HQ. destruct (GetCapasityForSize_spec len Hl) as [Hc H8]. apply Allocate_runs; [lia|].
  intros b Hb. specialize (HQ (Some (b, 0))). unfold own, cells_of in HQ. cbn in HQ.
  rewrite Nat.sub_0_r in HQ. apply HQ; [split; [cbn; lia|done]|lia|by apply map_disjoint_singleton_l].
Qed.

Lemma NewArraySize_runs len hf :
  0 <= len <= INT32_MAX ->
  runs (NewArraySize len) hf (fun a h => gives hf [] a h /\ len <= capasity a).
Proof.
  intros Hl. unfold NewArraySize. apply runs_bind. apply (fresh_room len 0); [done|]. intros d a Hw Hc Hhf.
  unfold runs. cbn [ret]. split; [|exact Hc]. split_and!; [|exact Hhf|done].
  split_and!; [exact Hw|done|cbn; destruct Hw; cbn in *; lia].
Qed.

Lemma AssignArray_runs a l src xs hf :
  holds a l -> own a l ##ₘ hf -> readable hf src xs -> Z.of_nat (length xs) <= INT32_MAX ->
  runs (AssignArray src (Z.of_nat (length xs)) a) (own a l ∪ hf)
    (fun a' h => gives hf xs a' h /\ (Z.of_nat (length xs) <= capasity a -> capasity a' = capasity a /\ data a' = data a)).
Proof.
  intros (Hw & Hs & Hc) Hhf Hsrc Hn. unfold AssignArray. apply runs_bind. rewrite Hs.
  eapply runs_mono; [apply (destruct_loop a [] l); [done|cbn; lia]|]. intros _ h ->.
  apply (own_apart _ _ []) in Hhf.
  assert (Hrest : forall a1, well_made a1 -> Z.of_nat (length xs) <= capasity a1 -> own a1 [] ##ₘ hf ->
    runs (let a := MkArray (Z.of_nat (length xs)) (capasity a1) (data a1) in
          copy_elements a 0 src (Z.of_nat (length xs)) ;; ret a) (own a1 [] ∪ hf)
      (fun a' h => gives hf xs a' h /\ capasity a' = capasity a1 /\ data a' = data a1)).
  { intros a1 Hw1 Hc1 Hhf1. cbv zeta. set (a' := MkArray _ _ _). apply runs_bind.
    eapply runs_mono; [by apply (copy_elements_runs a' [] src xs hf)|]. intros _ h ->.
    split; [|done]. split_and!; [by split_and!|by apply (own_apart a1 [])|done]. }
  apply runs_bind. destruct (Z.ltb_spec (capasity a) (Z.of_nat (length xs))) as [Hlt|Hge].
  - apply runs_bind. eapply runs_mono; [apply (DeleteArray_runs (MkArray 0 (capasity a) (data a)) [])|].
    + split_and!; [done|done|cbn; destruct Hw; lia].
    + done.
    + intros _ h ->. apply runs_bind. apply (fresh_room _ (Z.of_nat (length l))); [lia|]. intros d a1 Hw1 Hc1 Hhf1.
      unfold runs at 1. cbn [ret]. eapply runs_mono; [by apply (Hrest a1)|].
      intros a' h [Hg _]. split; [done|lia].
  - unfold runs at 1. cbn [ret]. eapply runs_mono; [by apply Hrest|]. by intros a' h [Hg ?].
Qed.

(** An array's own elements can be read. *)
Lemma own_readable a l hf : holds a l -> readable (own a l ∪ hf) (data a) l.
Proof.
  intros (Hw & _ & Hc). destruct (own_cases a _ Hw Hc) as [->%length_zero_iff_nil|(b & Hd & _ & Hown)]; [by left|].
  right. exists b, 0, (cells_of a l). rewrite Hown, Hd. split_and!; [done|done| |].
  - by apply lookup_union_Some_l, lookup_singleton_eq.
  - intros i x Hx. change (Z.to_nat 0 + i)%nat with i. unfold cells_of. apply lookup_app_l_Some.
    change (map Some l) with (Some <$> l). by rewrite list_lookup_fmap, Hx.
Qed.

Lemma Reserve_runs n a l hf :
  holds a l -> own a l ##ₘ hf -> n <= INT32_MAX ->
  runs (Reserve n a) (own a l ∪ hf) (fun a' h => gives hf l a' h /\ n <= capasity a').
Proof.
  intros Ha Hhf Hn. unfold Reserve. destruct (Z.ltb_spec (capasity a) n); [|by split; [|lia]].
  assert (Hpos : 0 <= n) by (destruct Ha as ([? _] & _); lia).
  apply runs_bind. eapply runs_mono; [by apply (NewArraySize_runs n)|]. intros tmp h [(Htmp & Ht & ->) Hcap].
  assert (Hl : Z.of_nat (length l) <= capasity a) by apply Ha.
  assert (Es : size a = Z.of_nat (length l)) by apply Ha.
  apply runs_bind. rewrite Es.
  eapply runs_mono; [apply (AssignArray_runs tmp [] (data a) l); [done|done|by apply own_readable|]|].
  { destruct Ha as ([Hc _] & _). lia. }
  intros a' h [(Ha' & Hd' & ->) Hsame]. destruct (Hsame ltac:(lia)) as [Ec Ed].
  apply map_disjoint_union_r in Hd' as [Hd1 Hd2].
  apply runs_bind. rewrite (map_union_assoc (own a' l)), (map_union_comm (own a' l)), <- map_union_assoc by done.
  eapply runs_mono; [apply DeleteArray_runs; [done|]|].
  - apply map_disjoint_union_r. split; [by symmetry|done].
  - intros _ h ->. unfold runs. cbn [ret]. split; [by split_and!|]. by rewrite Ec.
Qed.

(** The size after [Reserve] is the same, and there is room. *)
Lemma Append_runs src xs a l hf :
  holds a l -> own a l ##ₘ hf -> readable hf src xs -> Z.of_nat (length l + length xs) <= INT32_MAX ->
  runs (Append src (Z.of_nat (length xs)) a) (own a l ∪ hf) (gives hf (l ++ xs)).
Proof.
  intros Ha Hhf Hsrc Hn. unfold Append. assert (Es : size a = Z.of_nat (length l)) by apply Ha.
  rewrite Es, i32_small by (unfold is_i32; lia). apply runs_bind.
  eapply runs_mono; [apply (Reserve_runs _ a l); [done|done|lia]|]. intros a' h [((Hw & Hs & Hc) & Hd & ->) Hroom].
  rewrite Hs, i32_small by (unfold is_i32; lia). apply runs_bind.
  eapply runs_mono; [apply (copy_elements_runs a' l src xs); [done|lia|done|done]|]. intros _ h ->.
  unfold runs. cbn [ret]. split; [|split; [by apply (own_apart a' l)|done]].
  split_and!; [done|rewrite length_app; cbn; lia|rewrite length_app; cbn; lia].
Qed.

Lemma Clear_runs a l hf :
  holds a l -> own a l ##ₘ hf -> runs (Clear a) (own a l ∪ hf) (gives hf []).
Proof.
  intros (Hw & Hs & Hc) Hhf. unfold Clear. apply runs_bind. rewrite Hs.
  eapply runs_mono; [apply (destruct_loop a [] l); [done|cbn; lia]|]. intros _ h ->.
  unfold runs. cbn [ret]. split; [|split; [by apply (own_apart a l)|done]].
  split_and!; [done|done|cbn; destruct Hw; lia].
Qed.

Lemma Resize_runs n a l hf :
  holds a l -> own a l ##ₘ hf -> Z.of_nat n <= INT32_MAX ->
  runs (Resize zero (Z.of_nat n) a) (own a l ∪ hf) (gives hf (resized zero n l)).
Proof.
  intros Ha Hhf Hn. unfold Resize. apply runs_bind.
  assert (Hroom : runs (if capasity a <? Z.of_nat n then Reserve (Z.of_nat n) a else ret a) (own a l ∪ hf)
    (fun a' h => gives hf l a' h /\ Z.of_nat n <= capasity a')).
  { destruct (Z.ltb_spec (capasity a) (Z.of_nat n)); [by apply Reserve_runs|]. by split; [|lia]. }
  eapply runs_mono; [exact Hroom|]. intros a' h [((Hw & Hs & Hc) & Hd & ->) Hcap]. apply runs_bind. rewrite Hs.
  apply (runs_mono _ _ (fun _ h => h = own a' (resized zero n l) ∪ hf)).
  - destruct (Z.ltb_spec (Z.of_nat (length l)) (Z.of_nat n)).
    + unfold resized. rewrite take_ge by lia. replace (Z.to_nat _) with (length (replicate (n - length l) zero))
        by (rewrite length_replicate; lia).
      apply construct_loop; [done|rewrite length_replicate; lia|].
      intros k x b p c q [-> _]%lookup_replicate Hda Hp. rewrite Hda. cbn [shift option_map].
      replace (0 + (Z.of_nat (length l) + Z.of_nat k)) with (Z.of_nat (length p)) by lia. by eapply at_cell_block.
    + unfold resized. replace (n - length l)%nat with 0%nat by lia. cbn [replicate]. rewrite app_nil_r.
      pose proof (destruct_loop a' (take n l) (drop n l) hf Hw) as Hloop.
      rewrite take_drop, length_take, length_drop in Hloop.
      replace (Nat.min n (length l)) with n in Hloop by lia.
      replace (n + (length l - n))%nat with (length l) in Hloop by lia. by apply Hloop.
  - intros _ h ->. unfold runs. cbn [ret]. split; [|split; [by apply (own_apart a' l)|done]].
    assert (Hl : length (resized zero n l) = n) by (unfold resized; rewrite length_app, length_take, length_replicate; lia).
    by split_and!; [|cbn; lia|cbn; lia].
Qed.

(** ** Elements *)

Lemma element_runs i x a l hf :
  holds a l -> l !! i = Some x ->
  load (element (Z.of_nat i) a) (own a l ∪ hf) = Ok (own a l ∪ hf, x).
Proof. intros Ha Hx. unfold element. eapply load_readable; [by apply own_readable|done]. Qed.

Lemma store_runs i v a l hf :
  holds a l -> (i < length l)%nat ->
  runs (store (element (Z.of_nat i) a) v) (own a l ∪ hf) (fun _ h => h = own a (<[i := v]> l) ∪ hf).
Proof.
  intros (Hw & _ & Hc) Hi. destruct (own_cases a _ Hw Hc) as [|(b & Hd & _ & Hown)]; [lia|].
  destruct (lookup_lt_is_Some_2 l i Hi) as [x Hx]. rewrite !Hown. unfold element, cells_of. rewrite Hd, length_insert.
  rewrite insert_take_drop by done. rewrite <- (take_drop_middle l i x Hx) at 1. rewrite !map_app. cbn [map].
  rewrite <- !app_assoc. cbn [app shift option_map].
  assert (Hp : length (map (@Some T) (take i l)) = i) by (rewrite length_map, length_take; lia).
  replace (0 + Z.of_nat i) with (Z.of_nat (length (map (@Some T) (take i l)))) by lia.
  by eapply at_cell_block.
Qed.

Lemma PushBack_runs v a l hf :
  holds a l -> own a l ##ₘ hf -> Z.of_nat (length l) < INT32_MAX ->
  runs (PushBack zero (Variable_ v) a) (own a l ∪ hf) (gives hf (l ++ [v])).
Proof.
  intros Ha Hhf Hn. unfold PushBack. assert (Es : size a = Z.of_nat (length l)) by apply Ha.
  rewrite Es, i32_small by (unfold is_i32; lia). apply runs_bind.
  replace (Z.of_nat (length l) + 1) with (Z.of_nat (S (length l))) by lia.
  eapply runs_mono; [apply (Resize_runs _ a l); [done|done|lia]|]. intros a' h (Ha' & Hd & ->).
  assert (E : resized zero (S (length l)) l = l ++ [zero]).
  { unfold resized. rewrite take_ge by lia. by replace (S (length l) - length l)%nat with 1%nat by lia. }
  rewrite E in *. assert (Es' : size a' = Z.of_nat (length l) + 1).
  { destruct Ha' as (_ & -> & _). rewrite length_app. cbn. lia. }
  apply runs_bind. unfold runs at 1, dereference. cbn [ret]. apply runs_bind. unfold Back. rewrite Es', Z.add_simpl_r.
  eapply runs_mono; [apply (store_runs _ v a' (l ++ [zero])); [done|rewrite length_app; cbn; lia]|].
  intros _ h ->. rewrite insert_app_r_alt, Nat.sub_diag by lia. cbn [insert list_insert].
  unfold runs. cbn [ret]. split; [|split; [by apply (own_apart a' (l ++ [zero]))|done]].
  destruct Ha' as (Hw & Hs & Hc). rewrite length_app in *. cbn in *. split_and!; [done|rewrite length_app; cbn; lia..].
Qed.
End Dynamic.

(** ** Arrays side by side *)

Section Objects.
Context {T : Type} (zero : T).
Abbreviation Heap := (gmap positive (list (option T))).
Implicit Types (h hf : Heap) (a : @DynamicSizeArray) (l xs : list T).
Implicit Types (m : gmap positive (DynamicSizeArray * list T)).

(** A heap in parts, one for each array, and nothing else. *)
Inductive parts : gmap positive (DynamicSizeArray * list T) -> Heap -> Prop :=
  | parts_none : parts ∅ ∅
  | parts_one i a l m h m' h' :
      m !! i = None -> holds a l -> own a l ##ₘ h -> parts m h ->
      m' = <[i := (a, l)]> m -> h' = own a l ∪ h -> parts m' h'.

Lemma parts_at m h i a l :
  parts m h -> m !! i = Some (a, l) ->
  exists hf, h = own a l ∪ hf /\ own a l ##ₘ hf /\ holds a l /\ parts (delete i m) hf.
Proof.
  intros Hp. revert i a l. induction Hp as [|j b k m h m' h' Hj Hb Hd Hp IH -> ->]; intros i a l Hi; [done|].
  destruct (decide (i = j)) as [->|Hne].
  - rewrite lookup_insert_eq in Hi. injection Hi as <- <-. exists h. split_and!; try done.
    by rewrite delete_insert_id.
  - rewrite lookup_insert_ne in Hi by done. destruct (IH i a l Hi) as (hf & -> & Hda & Ha & Hrest).
    apply map_disjoint_union_r in Hd as [Hba Hbf]. exists (own b k ∪ hf). split_and!.
    + by rewrite !map_union_assoc, (map_union_comm (own b k)).
    + apply map_disjoint_union_r. by split.
    + done.
    + rewrite delete_insert_ne by done. eapply (parts_one j b k (delete i m) hf); try done.
      by rewrite lookup_delete_ne.
Qed.

Lemma parts_put m i a l hf h :
  parts (delete i m) hf -> holds a l -> own a l ##ₘ hf -> h = own a l ∪ hf -> parts (<[i := (a, l)]> m) h.
Proof.
  intros Hp Ha Hd ->. eapply (parts_one i a l (delete i m) hf); try done; [by rewrite lookup_delete_eq|].
  by rewrite insert_delete_eq.
Qed.

(** The arrays of a store hold these lists. *)
Definition represents (s : @Store T) (ls : gmap positive (list T)) : Prop :=
  exists m, arrays s = fst <$> m /\ ls = snd <$> m /\ parts m (heap s).

Lemma represents_at s ls i l :
  represents s ls -> ls !! i = Some l ->
  exists a hf, arrays s !! i = Some a /\ heap s = own a l ∪ hf /\ own a l ##ₘ hf /\ holds a l.
Proof.
  intros (m & Ea & -> & Hp) Hi. rewrite Ea, !lookup_fmap in *. destruct (m !! i) as [[a k]|] eqn:Em; [|done].
  injection Hi as <-. destruct (parts_at _ _ _ _ _ Hp Em) as (hf & E & Hd & Ha & _). by exists a, hf.
Qed.

(** Another array of the same store can be read in the rest of the heap. *)
Definition others_readable (s : @Store T) (ls : gmap positive (list T)) (i : positive) hf : Prop :=
  forall j b k, j <> i -> arrays s !! j = Some b -> ls !! j = Some k ->
    size b = Z.of_nat (length k) /\ Z.of_nat (length k) <= INT32_MAX /\ readable hf (data b) k.

Lemma holds_bound a l : holds a l -> size a = Z.of_nat (length l) /\ Z.of_nat (length l) <= INT32_MAX.
Proof. intros ([Hc _] & Hs & Hl). lia. Qed.

Lemma parts_readable m hf j b k : parts m hf -> m !! j = Some (b, k) -> holds b k /\ readable hf (data b) k.
Proof.
  intros Hp Hj. destruct (parts_at _ _ _ _ _ Hp Hj) as (h & -> & _ & Hb & _). split; [done|by apply own_readable].
Qed.

Lemma make_represents i (prg : M T DynamicSizeArray) xs s ls :
  represents s ls -> ls !! i = None ->
  (others_readable s ls i (heap s) -> runs prg (heap s) (gives (heap s) xs)) ->
  exists s', make i prg s = Ok s' /\ represents s' (<[i := xs]> ls).
Proof.
  intros (m & Ea & -> & Hp) Hi Hrun. rewrite lookup_fmap, fmap_None in Hi.
  assert (Ho : others_readable s (snd <$> m) i (heap s)).
  { intros j b k _ Hb Hk. rewrite Ea, !lookup_fmap in *. destruct (m !! j) as [[b1 k1]|] eqn:Ej; [|done].
    cbn in *. simplify_eq. destruct (parts_readable _ _ _ _ _ Hp Ej) as [Hb1 Hr].
    by destruct (holds_bound _ _ Hb1). }
  specialize (Hrun Ho). unfold runs, make in *. destruct (prg (heap s)) as [[h a]|]; [|done].
  destruct Hrun as (Ha & Hd & ->). eexists. split; [reflexivity|]. exists (<[i := (a, xs)]> m). cbn [arrays heap].
  rewrite Ea, !fmap_insert. split_and!; [done..|]. by eapply parts_one.
Qed.

Lemma change_represents i (f : DynamicSizeArray -> M T DynamicSizeArray) l xs s ls :
  represents s ls -> ls !! i = Some l ->
  (forall a hf, holds a l -> own a l ##ₘ hf -> others_readable s ls i hf -> runs (f a) (own a l ∪ hf) (gives hf xs)) ->
  exists s', change i f s = Ok s' /\ represents s' (<[i := xs]> ls).
Proof.
  intros (m & Ea & -> & Hp) Hi Hrun. rewrite lookup_fmap in Hi. destruct (m !! i) as [[a k]|] eqn:Em; [|done].
  injection Hi as ->. destruct (parts_at _ _ _ _ _ Hp Em) as (hf & E & Hd & Ha & Hrest).
  assert (Ho : others_readable s (snd <$> m) i hf).
  { intros j b k Hne Hb Hk. rewrite Ea, !lookup_fmap in *. destruct (m !! j) as [[b1 k1]|] eqn:Ej; [|done].
    cbn in *. simplify_eq. rewrite <- (lookup_delete_ne m i j) in Ej by done.
    destruct (parts_readable _ _ _ _ _ Hrest Ej) as [Hb1 Hr]. by destruct (holds_bound _ _ Hb1). }
  specialize (Hrun a hf Ha Hd Ho). unfold change, with_array, make, runs in *.
  rewrite Ea, lookup_fmap, Em. cbn [fmap option_fmap option_map fst]. rewrite E.
  destruct (f a (own a l ∪ hf)) as [[h a']|]; [|done]. destruct Hrun as (Ha' & Hd' & ->).
  eexists. split; [reflexivity|]. exists (<[i := (a', xs)]> m). cbn [arrays heap].
  rewrite !fmap_insert. split_and!; [done..|]. by eapply parts_put.
Qed.

Lemma readable_part h p l from len xs :
  readable h p l -> part from len l = Some xs -> readable h (shift p (Z.of_nat from)) xs /\ length xs = len.
Proof.
  unfold part. intros Hr. destruct (Nat.leb_spec (from + len) (length l)) as [Hle|]; [|done]. intros [= <-].
  split; [|rewrite length_take, length_drop; lia]. destruct Hr as [->|(b & o & cells & -> & Ho & Hb & Hc)].
  - left. by rewrite drop_nil, take_nil.
  - right. exists b, (o + Z.of_nat from), cells. split_and!; [done|lia|done|].
    intros i x (Hx & Hi)%lookup_take_Some. rewrite lookup_drop in Hx.
    replace (Z.to_nat (o + Z.of_nat from) + i)%nat with (Z.to_nat o + (from + i))%nat by lia. by apply Hc.
Qed.

Lemma part_length from len l xs : part from len l = Some xs -> (length xs <= length l)%nat.
Proof.
  unfold part. destruct (Nat.leb_spec (from + len) (length l)); [|done]. intros [= <-].
  rewrite length_take, length_drop. lia.
Qed.

Lemma holds_new : holds NewArray ([] : list T).
Proof. by split_and!. Qed.

Lemma own_new hf : own NewArray ([] : list T) ∪ hf = hf /\ own NewArray ([] : list T) ##ₘ hf.
Proof. unfold own. cbn. split; [apply (left_id_L ∅ (∪))|apply map_disjoint_empty_l]. Qed.

(** A new array filled from another. *)
Lemma assign_new src xs hf :
  readable hf src xs -> Z.of_nat (length xs) <= INT32_MAX ->
  runs (AssignArray src (Z.of_nat (length xs)) NewArray) hf (gives hf xs).
Proof.
  intros Hr Hn. destruct (own_new hf) as [E Hd]. rewrite <- E at 1.
  eapply runs_mono; [by apply (AssignArray_runs NewArray []); [apply holds_new|..]|]. by intros a h [Hg _].
Qed.

(** ** Every call *)

Lemma delete_represents i l s ls :
  represents s ls -> ls !! i = Some l ->
  exists s', run_call zero (CallDelete i) s = Ok s' /\ represents s' (delete i ls).
Proof.
  intros (m & Ea & -> & Hp) Hi. rewrite lookup_fmap in Hi. destruct (m !! i) as [[a k]|] eqn:Em; [|done].
  injection Hi as ->. destruct (parts_at _ _ _ _ _ Hp Em) as (hf & E & Hd & Ha & Hrest).
  pose proof (DeleteArray_runs a l hf Ha Hd) as Hrun. unfold runs in Hrun.
  cbn [run_call]. unfold with_array. rewrite Ea, lookup_fmap, Em. cbn [fmap option_fmap option_map fst].
  rewrite E. destruct (DeleteArray a (own a l ∪ hf)) as [[h u]|]; [|done]. subst h.
  eexists. split; [reflexivity|]. exists (delete i m). cbn [arrays heap]. by rewrite !fmap_delete.
Qed.

Lemma swap_represents i j k l s ls :
  represents s ls -> ls !! i = Some k -> ls !! j = Some l ->
  exists s', run_call zero (CallSwap i j) s = Ok s' /\ represents s' (<[i := l]> (<[j := k]> ls)).
Proof.
  intros (m & Ea & -> & Hp) Hi Hj. rewrite lookup_fmap in Hi, Hj.
  destruct (m !! i) as [[a k1]|] eqn:Ei; [|done]. destruct (m !! j) as [[b l1]|] eqn:Ej; [|done].
  injection Hi as ->. injection Hj as ->. cbn [run_call]. unfold with_array.
  rewrite Ea, !lookup_fmap, Ei, Ej. cbn [fmap option_fmap option_map fst].
  assert (Esw : Swap (Pos.eqb i j) a b = (b, a)) by (unfold Swap; destruct (Pos.eqb_spec i j); [congruence|done]).
  rewrite Esw. eexists. split; [reflexivity|].
  exists (<[i := (b, l)]> (<[j := (a, k)]> m)). cbn [arrays heap]. rewrite !fmap_insert. split_and!; [done..|].
  destruct (decide (i = j)) as [->|Hne].
  { simplify_eq. rewrite insert_insert_eq. by rewrite insert_id. }
  destruct (parts_at _ _ _ _ _ Hp Ei) as (hf & -> & Hda & Ha & Hrest).
  destruct (parts_at _ _ j b l Hrest) as (hf2 & -> & Hdb & Hb & Hrest2); [by rewrite lookup_delete_ne|].
  apply map_disjoint_union_r in Hda as [Hab Haf].
  apply (parts_put _ _ _ _ (own a k ∪ hf2)); [|done|by apply map_disjoint_union_r|].
  - rewrite delete_insert_ne by done. apply (parts_put _ _ _ _ hf2); try done.
  - by rewrite !map_union_assoc, (map_union_comm (own a k)).
Qed.

(** An array that is read as the source of a call. *)
Lemma with_source {A} (k : DynamicSizeArray -> result A) (Q : A -> Prop) j l s ls :
  represents s ls -> ls !! j = Some l ->
  (forall b, arrays s !! j = Some b -> exists x, k b = Ok x /\ Q x) ->
  exists x, with_array j s k = Ok x /\ Q x.
Proof.
  intros Hs Hj Hk. destruct (represents_at _ _ _ _ Hs Hj) as (b & hf & Hb & _). unfold with_array. rewrite Hb. by apply Hk.
Qed.

(** The cases of [list_call]. *)
Ltac list_cases Hc :=
  repeat match type of Hc with
  | None = _ => discriminate
  | context [bool_decide _] => case_bool_decide
  | (if ?b then _ else _) = _ => let E := fresh "Hb" in destruct b eqn:E
  | mbind _ (?ls !! ?x) = _ => let E := fresh "E" in destruct (ls !! x) eqn:E; cbn [mbind option_bind] in Hc
  | mbind _ (part ?a ?b ?c) = _ => let E := fresh "P" in destruct (part a b c) eqn:E; cbn [mbind option_bind] in Hc
  | Some _ = Some _ => injection Hc as <-
  end.

(** From a part of another array. *)
Lemma source_part i j from len l xs s ls hf b :
  others_readable s ls i hf -> j <> i -> arrays s !! j = Some b -> ls !! j = Some l -> part from len l = Some xs ->
  readable hf (shift (data b) (Z.of_nat from)) xs /\ len = length xs /\ Z.of_nat (length xs) <= INT32_MAX.
Proof.
  intros Ho Hne Hb Hl Hp. destruct (Ho j b l Hne Hb Hl) as (_ & Hn & Hr).
  destruct (readable_part _ _ _ _ _ _ Hr Hp) as [Hr' <-]. pose proof (part_length _ _ _ _ Hp). split_and!; [done|done|lia].
Qed.

Lemma new_from_represents i j from len l xs s ls :
  represents s ls -> ls !! i = None -> ls !! j = Some l -> part from len l = Some xs ->
  exists s', run_call zero (CallNewFrom i j from len) s = Ok s' /\ represents s' (<[i := xs]> ls).
Proof.
  intros Hs Hi Hj Hp. apply (with_source _ _ j l s ls Hs Hj). intros b Hb. apply make_represents; [done..|]. intros Ho.
  destruct (source_part i j from len l xs s ls _ b Ho) as (Hr & -> & Hn); [congruence|done..|]. by apply assign_new.
Qed.

Lemma new_copy_represents i j l s ls :
  represents s ls -> ls !! i = None -> ls !! j = Some l ->
  exists s', run_call zero (CallNewCopy i j) s = Ok s' /\ represents s' (<[i := l]> ls).
Proof.
  intros Hs Hi Hj. apply (with_source _ _ j l s ls Hs Hj). intros b Hb. apply make_represents; [done..|]. intros Ho.
  destruct (Ho j b l) as (Eb & Hn & Hr); [congruence|done..|]. unfold NewArrayCopy. rewrite Eb. by apply assign_new.
Qed.

Lemma assign_represents i j k l s ls :
  represents s ls -> ls !! i = Some k -> ls !! j = Some l ->
  exists s', run_call zero (CallAssign i j) s = Ok s' /\ represents s' (<[i := l]> ls).
Proof.
  intros Hs Hi Hj. apply (with_source _ _ j l s ls Hs Hj). intros b Hb.
  apply (change_represents i _ k); [done..|]. intros a hf Ha Hd Ho. unfold AssignOther.
  destruct (Pos.eqb_spec i j) as [<-|Hne].
  - simplify_eq. by split_and!.
  - destruct (Ho j b l) as (Eb & Hn & Hr); [congruence|done..|]. rewrite Eb.
    eapply runs_mono; [by apply AssignArray_runs|]. by intros a' h [Hg _].
Qed.

Lemma assign_from_represents i j from len k l xs s ls :
  represents s ls -> ls !! i = Some k -> ls !! j = Some l -> part from len l = Some xs -> i <> j ->
  exists s', run_call zero (CallAssignFrom i j from len) s = Ok s' /\ represents s' (<[i := xs]> ls).
Proof.
  intros Hs Hi Hj Hp Hne. apply (with_source _ _ j l s ls Hs Hj). intros b Hb.
  apply (change_represents i _ k); [done..|]. intros a hf Ha Hd Ho.
  destruct (source_part i j from len l xs s ls _ b Ho) as (Hr & -> & Hn); [congruence|done..|].
  eapply runs_mono; [by apply AssignArray_runs|]. by intros a' h [Hg _].
Qed.

Lemma append_represents i j from len k l xs s ls :
  represents s ls -> ls !! i = Some k -> ls !! j = Some l -> part from len l = Some xs -> i <> j ->
  Z.of_nat (length k + len) <= INT32_MAX ->
  exists s', run_call zero (CallAppend i j from len) s = Ok s' /\ represents s' (<[i := k ++ xs]> ls).
Proof.
  intros Hs Hi Hj Hp Hne Hsum. apply (with_source _ _ j l s ls Hs Hj). intros b Hb.
  apply (change_represents i _ k); [done..|]. intros a hf Ha Hd Ho.
  destruct (source_part i j from len l xs s ls _ b Ho) as (Hr & -> & Hn); [congruence|done..|]. by apply Append_runs.
Qed.

Lemma call_represents c s ls ls' :
  represents s ls -> list_call zero c ls = Some ls' ->
  exists s', run_call zero c s = Ok s' /\ represents s' ls'.
Proof.
  intros Hs Hc. destruct c; cbn [list_call] in Hc; unfold small in Hc; list_cases Hc;
    z_bool; repeat match goal with
      | H : negb _ = false |- _ => apply negb_false_iff in H
      | H : Pos.eqb _ _ = false |- _ => apply Pos.eqb_neq in H
      end; z_bool.
  - apply make_represents; [done..|]. intros _. split_and!; [apply holds_new|apply own_new|symmetry; apply own_new].
  - apply make_represents; [done..|]. intros _. eapply runs_mono; [apply NewArraySize_runs; lia|]. by intros a h [Hg _].
  - by eapply new_from_represents.
  - by apply new_copy_represents.
  - by eapply delete_represents.
  - by eapply assign_represents.
  - by eapply assign_from_represents.
  - by eapply append_represents.
  - by apply swap_represents.
  - eapply change_represents; [done..|]. intros a hf Ha Hd _. by apply Clear_runs.
  - eapply change_represents; [done..|]. intros a hf Ha Hd _.
    eapply runs_mono; [by apply Reserve_runs|]. by intros a' h [Hg _].
  - eapply change_represents; [done..|]. intros a hf Ha Hd _. by apply Resize_runs.
  - eapply change_represents; [done..|]. intros a hf Ha Hd _. apply PushBack_runs; [done..|lia].
  - eapply change_represents; [done..|]. intros a hf Ha Hd _. apply runs_bind.
    apply Nat.ltb_lt in Hb. eapply runs_mono; [by eapply store_runs|]. intros _ h ->. unfold runs. cbn [ret].
    destruct Ha as (Hw & Hs1 & Hc1). split; [|split; [by eapply own_apart|done]]. by split_and!; rewrite ?length_insert.
Qed.

Lemma calls_represent cs s ls ls' :
  represents s ls -> list_calls zero cs ls = Some ls' ->
  exists s', run_calls zero cs s = Ok s' /\ represents s' ls'.
Proof.
  revert s ls. induction cs as [|c cs IH]; intros s ls Hs Hc; cbn [list_calls run_calls] in *.
  - injection Hc as <-. by exists s.
  - destruct (list_call zero c ls) as [ls1|] eqn:E; [|done]. cbn in Hc.
    destruct (call_represents c s ls ls1 Hs E) as (s1 & -> & Hs1). by eapply IH.
Qed.

(** What a representation means for the program. *)
Lemma represents_seen s ls :
  represents s ls ->
  dom (arrays s) = dom ls /\
  (forall i l, ls !! i = Some l -> exists a, arrays s !! i = Some a /\ size a = Z.of_nat (length l) /\
     size a <= capasity a /\
     forall k x, l !! k = Some x -> load (element (Z.of_nat k) a) (heap s) = Ok (heap s, x)) /\
  (forall b, is_Some (heap s !! b) -> exists i a, arrays s !! i = Some a /\ data a = Some (b, 0)).
Proof.
  intros Hs. split_and!.
  - destruct Hs as (m & -> & -> & _). by rewrite !dom_fmap_L.
  - intros i l Hi. destruct (represents_at _ _ _ _ Hs Hi) as (a & hf & Ha & E & Hd & Hh). exists a.
    destruct (holds_bound _ _ Hh) as [Es _]. split_and!; [done|done|destruct Hh as (_ & _ & ?); lia|].
    intros k x Hx. rewrite E. by eapply element_runs.
  - destruct Hs as (m & -> & _ & Hp). induction Hp as [|i a l m h m' h' Hi Ha Hd Hp IH -> ->]; intros b [cs Hb]; [done|].
    apply lookup_union_Some in Hb as [Hb|Hb]; [| |done].
    + exists i, a. rewrite fmap_insert, lookup_insert_eq. split; [done|]. destruct Ha as ([_ Hda] & _). unfold own in Hb.
      destruct (data a) as [[b' o]|]; [|done]. apply lookup_singleton_Some in Hb as [-> _]. by subst o.
    + destruct (IH b) as (j & a' & Hj & Hda); [by eexists|]. exists j, a'. split; [|done].
      rewrite fmap_insert, lookup_insert_ne; [done|]. intros ->. by rewrite lookup_fmap, Hi in Hj.
Qed.

Lemma represents_none : represents (MkStore ∅ ∅) ∅.
Proof. exists ∅. rewrite !fmap_empty. by split_and!; [..|constructor]. Qed.
End Objects.

(** ** Arrays of a fixed size *)

Section Fixed.
Context {T : Type} (zero : T).
Abbreviation Heap := (gmap positive (list (option T))).
Implicit Types (h hf : Heap) (a : @FixedSizeArray) (l xs : list T).

Definition own_fixed a l : Heap := match fixed_data a with Some (b, _) => {[ b := map Some l ]} | None => ∅ end.
Definition holds_fixed a l : Prop :=
  fixed_size a = Z.of_nat (length l) /\ match fixed_data a with None => l = [] | Some (_, o) => o = 0 end.
Lemma own_fixed_apart a l l' hf : own_fixed a l ##ₘ hf -> own_fixed a l' ##ₘ hf.
Proof. unfold own_fixed. destruct (fixed_data a) as [[b o]|]; [|done]. by rewrite !map_disjoint_singleton_l. Qed.

Definition gives_fixed hf l a h : Prop := holds_fixed a l /\ own_fixed a l ##ₘ hf /\ h = own_fixed a l ∪ hf.

(** The cells of a block become objects, one after another. *)
Lemma fill_block b (cs : list (option T)) xs (body : Z -> M T unit) hf :
  length xs = length cs ->
  (forall k c x p q, cs !! k = Some c -> xs !! k = Some x -> length p = k ->
     runs (body (Z.of_nat k)) ({[ b := p ++ c :: q ]} ∪ hf) (fun _ h => h = {[ b := p ++ Some x :: q ]} ∪ hf)) ->
  runs (for_each (length xs) 0 body) ({[ b := cs ]} ∪ hf) (fun _ h => h = {[ b := map Some xs ]} ∪ hf).
Proof.
  intros Hl Hb. rewrite Hl. pose proof (loop_block body b (map Some xs) cs [] [] hf 0) as Hloop.
  cbn [app length] in Hloop. rewrite !app_nil_r in Hloop. apply Hloop; [by rewrite length_map|].
  intros k c d p q Hc Hd Hp. apply lookup_objects in Hd as (x & -> & Hx). by apply (Hb k c x).
Qed.

Lemma allocate_zeros_runs n h (Q : pointer -> Heap -> Prop) :
  (forall b, h !! b = None -> Q (Some (b, 0)) ({[ b := map Some (replicate n zero) ]} ∪ h)) ->
  runs (allocate_zeros zero (Z.of_nat n)) h Q.
Proof.
  intros HQ. unfold allocate_zeros. apply runs_bind. apply Allocate_runs; [lia|]. intros b Hb.
  apply runs_bind. rewrite Nat2Z.id. rewrite <- (length_replicate n zero) at 1.
  eapply runs_mono; [apply (fill_block b)|].
  - by rewrite !length_replicate.
  - intros k c x p q _ [-> _]%lookup_replicate Hp. cbn [shift option_map].
    replace (0 + Z.of_nat k) with (Z.of_nat (length p)) by lia. by eapply at_cell_block.
  - intros _ h' ->. by apply HQ.
Qed.

Lemma NewFixedSize_runs n hf :
  runs (NewFixedSize zero (Z.of_nat n)) hf (gives_fixed hf (replicate n zero)).
Proof.
  unfold NewFixedSize. apply runs_bind. apply allocate_zeros_runs. intros b Hb. unfold runs. cbn [ret].
  split_and!; [split; [by rewrite length_replicate|done]|by apply map_disjoint_singleton_l|done].
Qed.

Lemma Deallocate_runs b (cells : list (option T)) hf :
  hf !! b = None -> runs (Deallocate (Some (b, 0))) ({[ b := cells ]} ∪ hf) (fun _ h => h = hf).
Proof.
  intros Hb. unfold runs, Deallocate.
  rewrite bool_decide_eq_true_2 by (eexists; by apply lookup_union_Some_l, lookup_singleton_eq). cbn [andb Z.eqb].
  by rewrite delete_union, delete_singleton_eq, (left_id_L ∅ (∪)), delete_id.
Qed.

Lemma DeleteFixed_runs a l hf :
  holds_fixed a l -> own_fixed a l ##ₘ hf -> runs (DeleteFixed a) (own_fixed a l ∪ hf) (fun _ h => h = hf).
Proof.
  intros [_ Hd] Hhf. unfold DeleteFixed, own_fixed in *. destruct (fixed_data a) as [[b o]|].
  - subst o. apply Deallocate_runs. by eapply map_disjoint_singleton_l.
  - unfold runs. cbn. by rewrite (left_id_L ∅ (∪)).
Qed.

(** Copying from elsewhere. *)
Lemma copy_block src xs b (cs : list (option T)) hf :
  length xs = length cs -> hf !! b = None -> readable hf src xs ->
  runs (for_each (length xs) 0 (fun i => let* v := load (shift src i) in Construct (shift (Some (b, 0)) i) v))
    ({[ b := cs ]} ∪ hf) (fun _ h => h = {[ b := map Some xs ]} ∪ hf).
Proof.
  intros Hl Hb Hr. apply fill_block; [done|]. intros k c x p q _ Hx Hp. apply runs_bind.
  assert (Hload : load (shift src (Z.of_nat k)) ({[ b := p ++ c :: q ]} ∪ hf) = Ok ({[ b := p ++ c :: q ]} ∪ hf, x)).
  { eapply load_readable; [|done]. eapply readable_mono; [|done]. apply map_union_subseteq_r.
    by apply map_disjoint_singleton_l. }
  unfold runs at 1. rewrite Hload. cbn [shift option_map].
  replace (0 + Z.of_nat k) with (Z.of_nat (length p)) by lia. by eapply at_cell_block.
Qed.

Lemma fixed_readable a l hf : holds_fixed a l -> readable (own_fixed a l ∪ hf) (fixed_data a) l.
Proof.
  intros [_ Hd]. unfold own_fixed. destruct (fixed_data a) as [[b o]|]; [|by left]. subst o.
  right. exists b, 0, (map Some l). split_and!; [done|done|by apply lookup_union_Some_l, lookup_singleton_eq|].
  intros i x Hx. change (Z.to_nat 0 + i)%nat with i. change (map Some l) with (Some <$> l).
  by rewrite list_lookup_fmap, Hx.
Qed.

(** Another length: the old memory may be the source. *)
Lemma AssignFixed_other_length src xs a l hf :
  holds_fixed a l -> own_fixed a l ##ₘ hf -> readable (own_fixed a l ∪ hf) src xs -> length xs <> length l ->
  runs (AssignFixed src (Z.of_nat (length xs)) a) (own_fixed a l ∪ hf) (gives_fixed hf xs).
Proof.
  intros Ha Hhf Hr Hne. unfold AssignFixed. destruct Ha as [Hs Hd].
  rewrite (proj2 (Z.eqb_neq _ _)) by lia. cbn [negb]. apply runs_bind, runs_bind.
  apply Allocate_runs; [lia|]. intros b Hb. unfold runs at 1. cbn [ret]. apply runs_bind. rewrite Nat2Z.id. cbn [fixed_data].
  eapply runs_mono; [by apply copy_block; [rewrite length_replicate|..]|]. intros _ h ->. apply runs_bind.
  apply lookup_union_None in Hb as [Hb1 Hb2].
  assert (Hnew : {[ b := map (@Some T) xs ]} ##ₘ own_fixed a l) by by apply map_disjoint_singleton_l.
  rewrite map_union_assoc, (map_union_comm _ (own_fixed a l)), <- map_union_assoc by done.
  assert (Hall : own_fixed a l ##ₘ {[ b := map (@Some T) xs ]} ∪ hf) by (by apply map_disjoint_union_r; split; [symmetry|]).
  eapply runs_mono; [by apply (DeleteFixed_runs a l)|]. intros _ h ->. unfold runs. cbn [ret].
  split_and!; [by split|by apply map_disjoint_singleton_l|done].
Qed.

(** The same length: the source is elsewhere, or the array itself. *)
Lemma AssignFixed_same_length src xs a l hf :
  holds_fixed a l -> own_fixed a l ##ₘ hf -> length xs = length l ->
  readable hf src xs \/ src = fixed_data a /\ xs = l ->
  runs (AssignFixed src (Z.of_nat (length xs)) a) (own_fixed a l ∪ hf) (gives_fixed hf xs).
Proof.
  intros [Hs Hd] Hhf Hl Hr. unfold AssignFixed. rewrite Hs, Hl, Z.eqb_refl. cbn [negb]. apply runs_bind.
  unfold runs at 1. cbn [ret]. apply runs_bind. rewrite Nat2Z.id, <- Hl.
  apply (runs_mono _ _ (fun _ h => h = own_fixed a xs ∪ hf)).
  - unfold own_fixed in *. destruct (fixed_data a) as [[b o]|].
    + subst o. apply map_disjoint_singleton_l in Hhf. destruct Hr as [Hr|[-> ->]].
      * by apply copy_block; [rewrite length_map|..].
      * apply fill_block; [by rewrite length_map|]. intros k c x p q Hc Hx Hp.
        apply lookup_objects in Hc as (y & -> & Hy). simplify_eq. apply runs_bind. cbn [shift option_map].
        replace (0 + Z.of_nat (length p)) with (Z.of_nat (length p)) by lia.
        eapply at_cell_block; [done|]. by eapply at_cell_block.
    + subst l. by destruct xs.
  - intros _ h ->. apply runs_bind. unfold runs. cbn [Deallocate ret]. split_and!; [|by apply (own_fixed_apart a l)|done].
    split; [by rewrite Hs, Hl|]. destruct (fixed_data a); [done|]. subst l. by destruct xs.
Qed.

(** [CopyPart] into another array, or into the array itself. *)
Lemma CopyPart_runs from len xs a l r k hf :
  holds_fixed a l -> holds_fixed r k -> own_fixed a l ##ₘ own_fixed r k ∪ hf -> own_fixed r k ##ₘ hf ->
  part from len l = Some xs ->
  runs (CopyPart (Z.of_nat from) (Z.of_nat len) a r) (own_fixed r k ∪ (own_fixed a l ∪ hf))
    (gives_fixed (own_fixed a l ∪ hf) xs).
Proof.
  intros Ha Hr [Hd1 Hd2]%map_disjoint_union_r Hd Hp. unfold CopyPart.
  destruct (readable_part _ _ _ _ _ _ (fixed_readable a l hf Ha) Hp) as [Hread <-].
  assert (Hall : own_fixed r k ##ₘ own_fixed a l ∪ hf) by (by apply map_disjoint_union_r).
  destruct (decide (length xs = length k)); [apply (AssignFixed_same_length _ _ _ k); auto|].
  apply (AssignFixed_other_length _ _ _ k); [done..| |done].
  eapply readable_mono; [by apply map_union_subseteq_r|done].
Qed.

Lemma CopyPart_self from len xs a l hf :
  holds_fixed a l -> own_fixed a l ##ₘ hf -> part from len l = Some xs ->
  runs (CopyPart (Z.of_nat from) (Z.of_nat len) a a) (own_fixed a l ∪ hf) (gives_fixed hf xs).
Proof.
  intros Ha Hd Hp. unfold CopyPart.
  destruct (readable_part _ _ _ _ _ _ (fixed_readable a l hf Ha) Hp) as [Hread Hl].
  destruct (decide (length xs = length l)) as [E|]; rewrite <- Hl in *.
  - assert (E1 : from = 0%nat /\ xs = l).
    { unfold part in Hp. destruct (Nat.leb_spec (from + length xs) (length l)); [|done]. injection Hp as Hp.
      assert (from = 0%nat) as -> by lia. split; [done|]. rewrite <- Hp, drop_0, take_ge; [done|lia]. }
    destruct E1 as [-> ->]. apply AssignFixed_same_length; [done..|]. right. split; [|done].
    destruct Ha as [_ Hda]. destruct (fixed_data a) as [[b o]|]; [|done]. subst o. done.
  - by apply (AssignFixed_other_length _ _ _ l).
Qed.

Lemma ResetFixed_runs n a l hf :
  holds_fixed a l -> own_fixed a l ##ₘ hf ->
  runs (ResetFixed zero (Z.of_nat n) a) (own_fixed a l ∪ hf) (gives_fixed hf (replicate n zero)).
Proof.
  intros Ha Hd. pose proof Ha as [Hs Hda]. unfold ResetFixed. rewrite Hs.
  destruct (Z.eqb_spec (Z.of_nat (length l)) (Z.of_nat n)) as [E|E]; cbn [negb].
  - apply runs_bind. rewrite Nat2Z.id.
    apply (runs_mono _ _ (fun _ h => h = own_fixed a (replicate n zero) ∪ hf)).
    + unfold own_fixed in *. destruct (fixed_data a) as [[b o]|].
      * subst o. rewrite <- (length_replicate (length l) zero) at 1. replace n with (length l) by lia.
        apply fill_block; [by rewrite length_replicate, length_map|].
        intros k c x p q _ [-> _]%lookup_replicate Hp. cbn [shift option_map].
        replace (0 + Z.of_nat k) with (Z.of_nat (length p)) by lia. by eapply at_cell_block.
      * subst l. by unfold runs.
    + intros _ h ->. unfold runs. cbn [ret]. split_and!; [|by apply (own_fixed_apart a l)|done].
      split; [rewrite length_replicate; lia|]. destruct (fixed_data a); [done|]. subst l. by destruct n.
  - apply runs_bind. eapply runs_mono; [by apply (DeleteFixed_runs a l)|]. intros _ h ->. apply runs_bind.
    destruct (Z.eqb_spec (Z.of_nat n) 0) as [E0|E0]; cbn [negb].
    + assert (n = 0%nat) as -> by lia. unfold runs. cbn. unfold gives_fixed, own_fixed. cbn.
      rewrite (left_id_L ∅ (∪)). by split_and!; [|apply map_disjoint_empty_l|].
    + apply allocate_zeros_runs. intros b Hb. unfold runs. cbn [ret].
      split_and!; [split; [by rewrite length_replicate|done]|by apply map_disjoint_singleton_l|done].
Qed.

Lemma NewFixedFrom_runs src xs hf :
  readable hf src xs -> runs (NewFixedFrom src (Z.of_nat (length xs))) hf (gives_fixed hf xs).
Proof.
  intros Hr. unfold NewFixedFrom. apply runs_bind. apply Allocate_runs; [lia|]. intros b Hb.
  unfold AssignFixed. cbn [fixed_size]. rewrite Z.eqb_refl. cbn [negb]. apply runs_bind. unfold runs at 1. cbn [ret fixed_data].
  apply runs_bind. rewrite Nat2Z.id. eapply runs_mono; [by apply copy_block; [rewrite length_replicate|..]|].
  intros _ h ->. apply runs_bind. unfold runs. cbn [Deallocate ret].
  split_and!; [done|by apply map_disjoint_singleton_l|done].
Qed.

Lemma NewFixedCopy_runs a l hf :
  holds_fixed a l -> own_fixed a l ##ₘ hf ->
  runs (NewFixedCopy a) (own_fixed a l ∪ hf) (gives_fixed (own_fixed a l ∪ hf) l).
Proof.
  intros Ha Hd. pose proof (NewFixedFrom_runs _ _ _ (fixed_readable a l hf Ha)) as Hrun.
  unfold NewFixedCopy. destruct Ha as [-> _]. exact Hrun.
Qed.
End Fixed.

(** ** A small program *)

Module ArraysDemo.
(** Nine elements outgrow the first memory of an array; a copy of a part is
    changed and appended to the first. *)
Definition program : list (@call Z) :=
  [CallNewSize 1 3; CallPushBack 1 10; CallPushBack 1 20; CallPushBack 1 30; CallResize 1 9; CallSet 1 8 90;
   CallNewFrom 2 1 1 2; CallSet 2 0 21; CallAppend 1 2 0 2; CallSwap 1 2; CallReserve 1 100; CallNewCopy 3 1;
   CallAssign 1 2; CallClear 2; CallDelete 2].
Definition lists : gmap positive (list Z) :=
  {[ 1%positive := [10; 20; 30; 0; 0; 0; 0; 0; 90; 21; 30]; 3%positive := [21; 30] ]}.

(** A reference to an element dies when the array grows. *)
Definition own_element : list (@call Z) := [CallNew 1; CallResize 1 8; CallSet 1 0 5].
Example PushBack_own_element :
  match run_calls 0 own_element (MkStore ∅ ∅) with
  | Ok s => change 1 (fun a => PushBack 0 (Object_ (element 0 a)) a) s
  | Err e => Err e
  end = Err Dangling.
Proof. vm_compute. reflexivity. Qed.

(** [Append] of elements of the array itself reads them after they were freed. *)
Example Append_own_elements :
  match run_calls 0 own_element (MkStore ∅ ∅) with
  | Ok s => change 1 (fun a => Append (data a) 2 a) s
  | Err e => Err e
  end = Err Dangling.
Proof. vm_compute. reflexivity. Qed.
End ArraysDemo.

(** C4. Arrays are lists: every program of calls on arrays which the lists allow runs
    without an access to freed, raw or foreign memory and leaves arrays that hold the
    lists: they have their lengths, enough capacity, and their elements are read
    back. Every block of the heap belongs to an array that is still there, so once
    all arrays are destroyed nothing is left. *)
Theorem arrays_refine_lists {T} (zero : T) (cs : list call) (ls : gmap positive (list T)) :
  list_calls zero cs ∅ = Some ls ->
  exists s, run_calls zero cs (MkStore ∅ ∅) = Ok s /\ dom (arrays s) = dom ls /\
    (forall i l, ls !! i = Some l -> exists a, arrays s !! i = Some a /\ size a = Z.of_nat (length l) /\
       size a <= capasity a /\
       forall k x, l !! k = Some x -> load (element (Z.of_nat k) a) (heap s) = Ok (heap s, x)) /\
    (forall b, is_Some (heap s !! b) -> exists i a, arrays s !! i = Some a /\ data a = Some (b, 0)).
Proof.
  intros Hc. destruct (calls_represent zero cs (MkStore ∅ ∅) ∅ ls represents_none Hc) as (s & Hrun & Hs).
  exists s. split; [done|]. by apply represents_seen.
Qed.

Lemma arrays_refine_lists_witness :
  exists s, run_calls 0 ArraysDemo.program (MkStore ∅ ∅) = Ok s /\
    exists a, arrays s !! 1%positive = Some a /\ size a = 11 /\
      load (element 9 a) (heap s) = Ok (heap s, 21).
Proof.
  destruct (arrays_refine_lists 0 ArraysDemo.program ArraysDemo.lists) as (s & Hrun & _ & Hls & _);
    [vm_compute; reflexivity|].
  exists s. split; [exact Hrun|].
  destruct (Hls 1%positive [10; 20; 30; 0; 0; 0; 0; 0; 90; 21; 30]) as (a & Ha & Es & _ & Hl); [vm_compute; reflexivity|].
  exists a. split; [exact Ha|]. split; [exact Es|]. by apply (Hl 9%nat 21).
Defined.
End ArrayFacts.
