(* ===== verification/BigInteger.v ===== *)
(** * BigInteger: sign-magnitude integers of arbitrary size

    Models the arithmetic core of [src/ignite/common/src/common/big_integer.cpp]
    and [include/ignite/common/include/common/big_integer.h]: a sign and a
    little-endian magnitude of 32-bit words ([MagArray], a
    [DynamicSizeArray<uint32_t>], see [Arrays]; its [Resize] zero-fills and its [Clear]
    empties, so a [list Z] with stdpp's [resize] carries its content).

    A member function that changes [*this] is a function from the old value to
    the new one; an output argument is a returned value. Pointer loops over a
    magnitude are recursions on its list: the pointer is the list that is left.
    An output that aliases an input ([left.Divide(p, left, r)],
    [multiplicant.Multiply(multiplicant, multiplicant)]) needs nothing else,
    since the source swaps the finished magnitude in after its loops. *)

From S2P Require Import Prelude Bits.

Module Big.

Record BigInteger : Type := MkBig {
  sign : Z;        (* int8_t: 1 or -1 *)
  mag : list Z     (* MagArray: uint32_t words, least significant first *)
}.

#[global] Instance BigInteger_eq_dec : EqDecision BigInteger.
Proof. solve_decision. Defined.

Definition GetSize (m : list Z) : Z := Z.of_nat (length m).

(** ** Assignment *)

Definition AssignUint64 (b : BigInteger) (val : Z) : BigInteger :=
  if val =? 0 then MkBig 1 []
  else
    let highWord := u32 (Z.shiftr val 32) in
    let m :=
      if highWord =? 0 then resize 1 0 (mag b)
      else <[1%nat := highWord]> (resize 2 0 (mag b)) in
    MkBig 1 (<[0%nat := u32 val]> m).

(** [-val] overflows on INT64_MIN only; the conversion that follows gives 2^63
    there, as on every two's complement machine. *)
Definition AssignInt64 (b : BigInteger) (val : Z) : BigInteger :=
  if val <? 0 then MkBig (-1) (mag (AssignUint64 b (u64 (- val))))
  else AssignUint64 b (u64 val).

Definition big_zero : BigInteger := MkBig 1 [].

(** [BigInteger(int64_t)]. *)
Definition of_int64 (val : Z) : BigInteger := AssignInt64 big_zero val.

Definition IsNegative (b : BigInteger) : bool := sign b <? 0.
Definition IsZero (b : BigInteger) : bool := GetSize (mag b) =? 0.
Definition IsPositive (b : BigInteger) : bool := (0 <? sign b) && negb (IsZero b).
Definition Negate (b : BigInteger) : BigInteger :=
  if negb (IsZero b) then MkBig (- sign b) (mag b) else b.

Definition Back (m : list Z) : Z := nth (length m - 1) m 0.

Definition GetBitLength (b : BigInteger) : Z :=
  if IsZero b then 0
  else
    let res := Bits.BitLengthU32 (Back (mag b)) in
    let res :=
      if 1 <? GetSize (mag b) then i32 (res + (GetSize (mag b) - 1) * 32) else res in
    u32 res.

(** ** Normalisation and comparison *)

(** The number of words kept when the top zero words of the first [n] go. *)
Fixpoint last_nonzero (n : nat) (m : list Z) : nat :=
  match n with
  | O => O
  | S n' => if nth n' m 0 =? 0 then last_nonzero n' m else n
  end.

Definition Normalize (b : BigInteger) : BigInteger :=
  MkBig (sign b) (resize (last_nonzero (length (mag b)) (mag b)) 0 (mag b)).

Fixpoint compare_words (n : nat) (m o : list Z) (mgt : Z) : Z :=
  match n with
  | O => 0
  | S n' =>
      if nth n' m 0 =? nth n' o 0 then compare_words n' m o mgt
      else if nth n' o 0 <? nth n' m 0 then mgt else - mgt
  end.

Definition Compare (b other : BigInteger) (ignoreSign : bool) : Z :=
  if negb ignoreSign && negb (sign b =? sign other) then
    (if sign other <? sign b then 1 else -1)
  else
    let mgt := if ignoreSign then 1 else sign b in
    if negb (GetSize (mag b) =? GetSize (mag other)) then
      (if GetSize (mag other) <? GetSize (mag b) then mgt else - mgt)
    else compare_words (length (mag b)) (mag b) (mag other) mgt.

(** ** Addition *)

(** [common::Add(res, addend, len)]: the sum in place and the carry. *)
Fixpoint add_words (res addend : list Z) (carry : Z) {struct addend} : list Z * Z :=
  match addend, res with
  | [], _ => (res, u32 carry)
  | _ :: _, [] => ([], u32 carry)
  | a :: addend', r :: res' =>
      let sum := u64 (r + a + carry) in
      let '(t, c) := add_words res' addend' (Z.shiftr sum 32) in
      (u32 sum :: t, c)
  end.

(** [common::Add(res, len, addend)]: stops as soon as the carry is zero. *)
Fixpoint add_carry (res : list Z) (carry : Z) : list Z * Z :=
  match res with
  | [] => ([], u32 carry)
  | r :: res' =>
      if carry =? 0 then (res, 0)
      else
        let sum := u64 (r + carry) in
        let '(t, c) := add_carry res' (Z.shiftr sum 32) in
        (u32 sum :: t, c)
  end.

(** [BigInteger::Add(const uint32_t*, int32_t)]. *)
Definition add_mag (m addend : list Z) : list Z :=
  let len := length addend in
  let m := if GetSize m <? Z.of_nat len then resize len 0 m else m in
  let '(m, carry) := add_words m addend 0 in
  if negb (carry =? 0) then
    let '(hi, carry) := add_carry (drop len m) carry in
    let m := take len m ++ hi in
    if negb (carry =? 0) then m ++ [carry] else m
  else m.

(** [BigInteger::Add(uint64_t)]. *)
Definition AddU64 (b : BigInteger) (x : Z) : BigInteger :=
  if x =? 0 then b
  else if IsZero b then AssignUint64 b x
  else
    let v0 := u32 x in
    let v1 := u32 (Z.shiftr x 32) in
    MkBig (sign b) (add_mag (mag b) (if negb (v1 =? 0) then [v0; v1] else [v0])).

(** ** Multiplication *)

(** One row: [res] is the result from word [i] on; the last carry is stored in
    the word after the row. *)
Fixpoint mul_row (m res : list Z) (x carry : Z) : list Z :=
  match m, res with
  | a :: m', r :: res' =>
      let product := u64 (u64 (a * x) + r + carry) in
      u32 product :: mul_row m' res' x (u32 (Z.shiftr product 32))
  | [], _ :: res' => carry :: res'
  | _, [] => []
  end.

Fixpoint mul_rows (m other res : list Z) : list Z :=
  match other with
  | [] => res
  | x :: other' =>
      match mul_row m res x 0 with
      | [] => []
      | r :: rest => r :: mul_rows m other' rest
      end
  end.

Definition Multiply (b other : BigInteger) : BigInteger :=
  let resMag := replicate (length (mag b) + length (mag other)) 0 in
  Normalize (MkBig (sign b * sign other) (mul_rows (mag b) (mag other) resMag)).

(** ** Powers *)

(** The loop of [Pow]: [mutExp & 1] is the head of the binary exponent and
    [mutExp >>= 1] its tail. *)
Fixpoint pow_loop (mutExp : positive) (multiplicant acc : BigInteger) : BigInteger :=
  match mutExp with
  | xH => Multiply acc multiplicant
  | xO e => pow_loop e (Multiply multiplicant multiplicant) acc
  | xI e =>
      pow_loop e (Multiply multiplicant multiplicant) (Multiply acc multiplicant)
  end.

Definition Pow (b : BigInteger) (exp : Z) : BigInteger :=
  if exp <? 0 then AssignInt64 b 0
  else
    let bitsLen := GetBitLength b in
    if bitsLen =? 0 then b
    else if bitsLen =? 1 then
      (if (Z.rem exp 2 =? 0) && (sign b <? 0) then MkBig (- sign b) (mag b) else b)
    else
      match exp with
      | Zpos e => pow_loop e b (AssignInt64 b 1)
      | _ => AssignInt64 b 1
      end.

Definition GetPowerOfTen (pow : Z) (res : BigInteger) : BigInteger :=
  if pow <? Bits.UINT64_MAX_PRECISION then AssignUint64 res (Bits.TenPowerU64 pow)
  else Pow (AssignInt64 res 10) pow.

Definition GetPrecision (b : BigInteger) : Z :=
  if GetSize (mag b) =? 0 then 1
  else
    let r := i32 (u32 (Z.shiftr (u64 ((GetBitLength b + 1) * 646456993)) 31)) in
    let prec := GetPowerOfTen r big_zero in
    if Compare b prec true <? 0 then r else r + 1.

(** ** Conversion to int64_t *)

Definition GetMagInt (b : BigInteger) (n : Z) : Z :=
  if GetSize (mag b) <=? n then (if 0 <? sign b then 0 else u32 (-1))
  else u32 (sign b * nth (Z.to_nat n) (mag b) 0).

Definition ToInt64 (b : BigInteger) : Z :=
  i64 (Z.lor (u64 (Z.shiftl (GetMagInt b 1) 32)) (GetMagInt b 0)).

(** ** The abstract value and the representation invariant *)

Definition big_val (b : BigInteger) : Z := sign b * limbs_val (mag b).

Definition mag_normal (m : list Z) : Prop := m = [] \/ Back m <> 0.

Definition big_ok (b : BigInteger) : Prop :=
  (sign b = 1 \/ sign b = -1) /\ limbs_ok (mag b) /\ mag_normal (mag b).

(** Small enough for the bit length to be an [int32_t]: 256 MB of digits. *)
Definition big_fits (b : BigInteger) : Prop := GetSize (mag b) <= 67108863.

End Big.
