(* ===== verification/BigIntegerFacts.v ===== *)
(** * BigIntegerFacts: the arithmetic of [BigInteger] is exact

    Each operation of [BigInteger.v] commutes with the abstract value
    [Big.big_val] and keeps the representation invariant [Big.big_ok]. *)

From S2P Require Import Prelude Bits BigInteger.

Module BigFacts.
Import Big.

(** ** Magnitudes *)

Lemma Back_app m x : Back (m ++ [x]) = x.
Proof.
  unfold Back. rewrite length_app. cbn [length].
  replace (length m + 1 - 1)%nat with (length m) by lia.
  rewrite app_nth2 by lia. by rewrite Nat.sub_diag.
Qed.

(** A non-empty list seen from its last element. *)
Lemma snoc_view (m : list Z) : m = [] \/ exists m' x, m = m' ++ [x].
Proof.
  destruct m as [|y m]; [by left|right].
  exists (removelast (y :: m)), (List.last (y :: m) 0). by apply app_removelast_last.
Qed.

Lemma limbs_val_snoc m x :
  limbs_val (m ++ [x]) = limbs_val m + Bpow (length m) * x.
Proof. rewrite limbs_val_app. cbn. lia. Qed.

(** The value of a normal magnitude lies between two powers of the base. *)
Lemma normal_bounds m :
  limbs_ok m -> mag_normal m -> m <> [] ->
  Bpow (length m - 1) <= limbs_val m < Bpow (length m).
Proof.
  intros Hok Hn Hne. destruct Hn as [|Hn]; [done|].
  destruct (snoc_view m) as [|(m' & x & ->)]; [done|].
  rewrite Back_app in Hn. apply limbs_ok_app in Hok as [Hm' Hx].
  apply limbs_ok_cons in Hx as [Hx _]. unfold is_u32 in Hx.
  split; [|apply limbs_val_bound, limbs_ok_app; split; [done|by constructor]].
  rewrite limbs_val_snoc, length_app. cbn [length].
  replace (length m' + 1 - 1)%nat with (length m') by lia.
  pose proof (limbs_val_bound m' Hm'). pose proof (Bpow_pos (length m')). nia.
Qed.

Lemma normal_pos m : limbs_ok m -> mag_normal m -> m <> [] -> 0 < limbs_val m.
Proof.
  intros Hok Hn Hne. pose proof (normal_bounds m Hok Hn Hne).
  pose proof (Bpow_pos (length m - 1)). lia.
Qed.

Lemma Bpow_le n m : (n <= m)%nat -> Bpow n <= Bpow m.
Proof. intros. unfold Bpow. apply Z.pow_le_mono_r; lia. Qed.

(** Longer normal magnitudes are larger. *)
Lemma normal_length_lt m o :
  limbs_ok m -> limbs_ok o -> mag_normal o ->
  (length m < length o)%nat -> limbs_val m < limbs_val o.
Proof.
  intros Hm Ho Hn Hl.
  assert (Hne : o <> []) by (intros ->; cbn in Hl; lia).
  pose proof (normal_bounds o Ho Hn Hne). pose proof (limbs_val_bound m Hm).
  pose proof (Bpow_le (length m) (length o - 1) ltac:(lia)). lia.
Qed.

(** Normal magnitudes of the same value are equal. *)
Lemma normal_val_inj m o :
  limbs_ok m -> limbs_ok o -> mag_normal m -> mag_normal o ->
  limbs_val m = limbs_val o -> m = o.
Proof.
  intros Hm Ho Hnm Hno Hv. apply limbs_val_inj; try done.
  destruct (Nat.lt_trichotomy (length m) (length o)) as [H|[H|H]]; [|done|].
  - pose proof (normal_length_lt m o Hm Ho Hno H). lia.
  - pose proof (normal_length_lt o m Ho Hm Hnm H). lia.
Qed.

Lemma normal_zero m : limbs_ok m -> mag_normal m -> limbs_val m = 0 -> m = [].
Proof.
  intros Hm Hn Hv. destruct (decide (m = [])) as [|Hne]; [done|].
  pose proof (normal_pos m Hm Hn Hne). lia.
Qed.

Lemma big_val_inj a b :
  big_ok a -> big_ok b -> big_val a = big_val b -> big_val a <> 0 -> a = b.
Proof.
  intros (Hsa & Hma & Hna) (Hsb & Hmb & Hnb) Hv Hnz.
  destruct a as [sa ma], b as [sb mb]. unfold big_val in *. cbn in *.
  pose proof (limbs_val_bound ma Hma). pose proof (limbs_val_bound mb Hmb).
  assert (sa = sb) by (destruct Hsa, Hsb; subst; lia). subst sb.
  f_equal. apply normal_val_inj; try done. destruct Hsa; subst; lia.
Qed.

Lemma IsZero_spec b : big_ok b -> IsZero b = (limbs_val (mag b) =? 0).
Proof.
  intros (_ & Hm & Hn). unfold IsZero, GetSize.
  destruct (mag b) as [|x l] eqn:E; [done|]. rewrite <- E in *.
  pose proof (normal_pos (mag b) Hm Hn ltac:(by rewrite E)).
  destruct (Z.eqb_spec (limbs_val (mag b)) 0); [lia|].
  destruct (Z.eqb_spec (Z.of_nat (length (mag b))) 0) as [H0|]; [|done].
  rewrite E in H0. cbn in H0. lia.
Qed.

(** ** Assignment *)

Definition u64_words (x : Z) : list Z :=
  if x =? 0 then [] else if x / B32 =? 0 then [x] else [x mod B32; x / B32].

Lemma resize_sets1 (l : list Z) x : <[0%nat:=x]> (resize 1 0 l) = [x].
Proof. destruct l as [|a l]; cbn; [done|]. by rewrite resize_0. Qed.
Lemma resize_sets2 (l : list Z) x y :
  <[0%nat:=x]> (<[1%nat:=y]> (resize 2 0 l)) = [x; y].
Proof. destruct l as [|a [|b l]]; cbn; try done. by rewrite resize_0. Qed.

Lemma AssignUint64_eq b x :
  is_u64 x -> AssignUint64 b x = MkBig 1 (u64_words x).
Proof.
  unfold is_u64. intros Hx. unfold AssignUint64, u64_words.
  destruct (Z.eqb_spec x 0); [done|]. rewrite shiftr32.
  assert (0 <= x / B32 < B32).
  { split; [apply Z.div_pos; lia|apply Z.div_lt_upper_bound; lia]. }
  rewrite (u32_small (x / B32)) by (unfold is_u32; lia).
  case_test; f_equal.
  - z_bool. apply Z.div_small_iff in Heqb0; [|lia].
    rewrite u32_small by (unfold is_u32; lia). apply resize_sets1.
  - apply resize_sets2.
Qed.

Lemma u64_words_val x : is_u64 x -> limbs_val (u64_words x) = x.
Proof.
  unfold is_u64, u64_words. intros. pose proof (Z.div_mod x B32 ltac:(lia)).
  repeat case_test; z_bool; cbn [limbs_val]; lia.
Qed.

Lemma u64_words_ok x : is_u64 x -> limbs_ok (u64_words x) /\ mag_normal (u64_words x).
Proof.
  unfold is_u64, u64_words. intros Hx.
  assert (0 <= x / B32 < B32).
  { split; [apply Z.div_pos; lia|apply Z.div_lt_upper_bound; lia]. }
  pose proof (Z.mod_pos_bound x B32 ltac:(lia)).
  destruct (Z.eqb_spec x 0); [split; [apply limbs_ok_nil|by left]|].
  destruct (Z.eqb_spec (x / B32) 0) as [E|E].
  - apply Z.div_small_iff in E; [|lia].
    rewrite limbs_ok_cons. unfold is_u32, mag_normal, Back. cbn.
    split; [split; [lia|apply limbs_ok_nil]|right; lia].
  - rewrite !limbs_ok_cons. unfold is_u32, mag_normal, Back. cbn.
    split; [split; [lia|split; [lia|apply limbs_ok_nil]]|right; lia].
Qed.

Lemma AssignUint64_spec b x :
  is_u64 x ->
  let r := AssignUint64 b x in big_ok r /\ big_val r = x /\ sign r = 1.
Proof.
  intros Hx. rewrite AssignUint64_eq by done. cbn zeta.
  destruct (u64_words_ok x Hx). unfold big_ok, big_val. cbn [sign mag].
  rewrite u64_words_val by done. split_and!; auto. lia.
Qed.

Lemma AssignInt64_spec b x :
  is_i64 x -> let r := AssignInt64 b x in big_ok r /\ big_val r = x.
Proof.
  unfold is_i64. intros Hx. cbn zeta. unfold AssignInt64.
  destruct (Z.ltb_spec x 0).
  - rewrite u64_small by (unfold is_u64; lia).
    destruct (AssignUint64_spec b (- x)) as ((_ & Hm) & Hv & Hs); [unfold is_u64; lia|].
    unfold big_ok, big_val in *. rewrite Hs in Hv. cbn [sign mag] in *.
    split; [split; [by right|done]|lia].
  - rewrite u64_small by (unfold is_u64; lia).
    destruct (AssignUint64_spec b x) as (Ho & Hv & _); [unfold is_u64; lia|]. done.
Qed.

(** ** Bit length *)

Lemma log2_split a k b :
  0 <= a < 2 ^ k -> 0 <= k -> 0 < b -> Z.log2 (a + 2 ^ k * b) = Z.log2 b + k.
Proof.
  intros Ha Hk Hb.
  pose proof (Z.log2_spec b Hb) as [Hlo Hhi].
  assert (0 < 2 ^ k) by (apply Z.pow_pos_nonneg; lia).
  pose proof (Z.log2_nonneg b).
  apply Z.log2_unique; [lia|].
  rewrite <- Z.add_succ_l, !Z.pow_add_r by lia. nia.
Qed.

Lemma GetBitLength_spec b :
  big_ok b -> big_fits b ->
  GetBitLength b =
    (if limbs_val (mag b) =? 0 then 0 else Z.log2 (limbs_val (mag b)) + 1).
Proof.
  intros Hok Hf. unfold GetBitLength. rewrite IsZero_spec by done.
  destruct (Z.eqb_spec (limbs_val (mag b)) 0) as [|Hnz]; [done|].
  destruct Hok as (_ & Hm & Hn). unfold big_fits, GetSize in *.
  destruct (snoc_view (mag b)) as [E|(m & x & E)]; [by rewrite E in Hnz|].
  rewrite E in *. destruct Hn as [Hn|Hn]; [by destruct m|].
  rewrite Back_app in *. apply limbs_ok_app in Hm as [Hm Hx].
  apply limbs_ok_cons in Hx as [Hx _].
  rewrite Bits.BitLengthU32_spec by (unfold is_u32 in Hx; lia).
  rewrite limbs_val_snoc, length_app, Nat2Z.inj_add in *. cbn [length] in *.
  assert (0 <= Z.log2 x < 32).
  { split; [apply Z.log2_nonneg|].
    apply Z.log2_lt_pow2; unfold is_u32 in Hx; change (2 ^ 32) with B32; lia. }
  pose proof (limbs_val_bound m Hm) as Hb. rewrite Bpow_pow2 in *.
  rewrite log2_split by (unfold is_u32 in Hx; lia).
  case_test; z_bool.
  - rewrite i32_small by (unfold is_i32; lia). rewrite u32_small by (unfold is_u32; lia).
    lia.
  - rewrite u32_small by (unfold is_u32; lia). lia.
Qed.

(** ** Normalisation *)

Lemma last_nonzero_spec n m :
  let k := last_nonzero n m in
  (k <= n)%nat /\ (forall i, (k <= i < n)%nat -> nth i m 0 = 0) /\
  (k = 0%nat \/ nth (k - 1) m 0 <> 0).
Proof.
  cbn zeta. induction n as [|n (Hle & Hz & Hk)]; cbn [last_nonzero].
  - split; [lia|]. split; [lia|by left].
  - destruct (Z.eqb_spec (nth n m 0) 0) as [E|E].
    + split; [lia|]. split; [|done]. intros i Hi.
      destruct (decide (i = n)) as [->|]; [done|apply Hz; lia].
    + split; [lia|]. split; [lia|]. right. by replace (S n - 1)%nat with n by lia.
Qed.

Lemma limbs_val_all_zero m :
  (forall i, (i < length m)%nat -> nth i m 0 = 0) -> limbs_val m = 0.
Proof.
  induction m as [|x m IH]; intros H; [done|]. cbn [limbs_val].
  rewrite IH; [|intros i Hi; apply (H (S i)); cbn; lia].
  specialize (H 0%nat ltac:(cbn; lia)). cbn in H. lia.
Qed.

Lemma Normalize_spec b :
  (sign b = 1 \/ sign b = -1) -> limbs_ok (mag b) ->
  big_ok (Normalize b) /\ limbs_val (mag (Normalize b)) = limbs_val (mag b) /\
  sign (Normalize b) = sign b.
Proof.
  intros Hs Hm. unfold Normalize. cbn [sign mag].
  destruct (last_nonzero_spec (length (mag b)) (mag b)) as (Hle & Hz & Hk).
  revert Hle Hz Hk. generalize (last_nonzero (length (mag b)) (mag b)) as k.
  intros k Hle Hz Hk. rewrite resize_le by done.
  rewrite <- (take_drop k (mag b)) in Hm.
  apply limbs_ok_app in Hm as [Hm1 Hm2].
  assert (Hd : limbs_val (drop k (mag b)) = 0).
  { apply limbs_val_all_zero. intros i Hi. rewrite length_drop in Hi.
    rewrite nth_skipn. apply Hz. lia. }
  split; [split; [done|split; [done|]]|split; [|done]].
  - destruct Hk as [->|Hk]; [by left|]. cbn [mag].
    destruct (decide (k = 0%nat)) as [->|Hk0]; [by left|right]. unfold Back.
    rewrite length_take_le, nth_firstn by done.
    destruct (Nat.ltb_spec (k - 1) k); [done|lia].
  - rewrite <- (take_drop k (mag b)) at 2. rewrite limbs_val_app, Hd. lia.
Qed.
(** ** Comparison *)

(** The three-way comparison the code returns. *)
Definition cmp (x y : Z) : Z :=
  match x ?= y with Lt => -1 | Eq => 0 | Gt => 1 end.

Lemma cmp_lt x y : x < y -> cmp x y = -1.
Proof. intros H. unfold cmp. by rewrite (proj2 (Z.compare_lt_iff x y) H). Qed.
Lemma cmp_gt x y : y < x -> cmp x y = 1.
Proof. intros H. unfold cmp. by rewrite (proj2 (Z.compare_gt_iff x y) H). Qed.
Lemma cmp_eq x : cmp x x = 0.
Proof. unfold cmp. by rewrite Z.compare_refl. Qed.
Lemma cmp_lt_iff x y : cmp x y < 0 <-> x < y.
Proof. unfold cmp. destruct (Z.compare_spec x y); lia. Qed.

Lemma cmp_add_r x y z : cmp (x + z) (y + z) = cmp x y.
Proof.
  unfold cmp. destruct (Z.compare_spec x y), (Z.compare_spec (x + z) (y + z)); lia.
Qed.
Lemma cmp_opp x y : cmp (- x) (- y) = - cmp x y.
Proof.
  unfold cmp. destruct (Z.compare_spec x y), (Z.compare_spec (- x) (- y)); lia.
Qed.

Lemma take_S_nth n (m : list Z) :
  (n < length m)%nat -> take (S n) m = take n m ++ [nth n m 0].
Proof.
  revert m. induction n as [|n IH]; intros [|x m] H; cbn in *; try lia; [done|].
  rewrite IH by lia. done.
Qed.

Lemma nth_ok n m : limbs_ok m -> is_u32 (nth n m 0).
Proof.
  intros H. revert n. induction H as [|x m Hx Hm IH]; intros [|n]; cbn; auto;
    unfold is_u32; lia.
Qed.

Lemma limbs_ok_take n m : limbs_ok m -> limbs_ok (take n m).
Proof. apply Forall_take. Qed.
Lemma limbs_ok_drop n m : limbs_ok m -> limbs_ok (drop n m).
Proof. apply Forall_drop. Qed.

Lemma compare_words_spec n m o mgt :
  limbs_ok m -> limbs_ok o -> (n <= length m)%nat -> (n <= length o)%nat ->
  compare_words n m o mgt = mgt * cmp (limbs_val (take n m)) (limbs_val (take n o)).
Proof.
  intros Hm Ho. induction n as [|n IH]; intros Hnm Hno; cbn [compare_words].
  - rewrite !take_0, cmp_eq. lia.
  - rewrite !take_S_nth, !limbs_val_snoc, !length_take_le by lia.
    pose proof (nth_ok n m Hm). pose proof (nth_ok n o Ho).
    pose proof (limbs_val_bound _ (limbs_ok_take n m Hm)) as Bm.
    pose proof (limbs_val_bound _ (limbs_ok_take n o Ho)) as Bo.
    rewrite length_take_le in Bm, Bo by lia. unfold is_u32 in *.
    destruct (Z.eqb_spec (nth n m 0) (nth n o 0)) as [E|E].
    + rewrite IH by lia. by rewrite E, cmp_add_r.
    + destruct (Z.ltb_spec (nth n o 0) (nth n m 0)).
      * rewrite cmp_gt; [lia|]. nia.
      * rewrite cmp_lt; [lia|]. nia.
Qed.

(** The magnitude comparison of [Compare(other, true)]. *)
Lemma Compare_abs a b :
  big_ok a -> big_ok b ->
  Compare a b true = cmp (limbs_val (mag a)) (limbs_val (mag b)).
Proof.
  intros (_ & Ha & Hna) (_ & Hb & Hnb). unfold Compare, GetSize. cbn [negb andb].
  destruct (Z.eqb_spec (Z.of_nat (length (mag a))) (Z.of_nat (length (mag b)))) as [E|E];
    cbn [negb].
  - rewrite compare_words_spec by (done || lia). rewrite !take_ge by lia. lia.
  - case_test; z_bool.
    + pose proof (normal_length_lt (mag b) (mag a) Hb Ha Hna ltac:(lia)).
      by rewrite cmp_gt.
    + pose proof (normal_length_lt (mag a) (mag b) Ha Hb Hnb ltac:(lia)).
      by rewrite cmp_lt.
Qed.

(** A sign of zero is positive: what every assignment and [Negate] give. *)
Definition big_canon (b : BigInteger) : Prop :=
  big_ok b /\ (big_val b = 0 -> sign b = 1).

Lemma Compare_signed a b :
  big_canon a -> big_canon b ->
  Compare a b false = cmp (big_val a) (big_val b).
Proof.
  intros [Ha Hca] [Hb Hcb].
  pose proof (Compare_abs a b Ha Hb) as Habs.
  destruct Ha as (Hsa & Hma & Hna), Hb as (Hsb & Hmb & Hnb).
  pose proof (limbs_val_bound _ Hma). pose proof (limbs_val_bound _ Hmb).
  unfold big_val in *. unfold Compare in *. cbn [negb andb] in *.
  destruct (Z.eqb_spec (sign a) (sign b)) as [E|E]; cbn [negb].
  - rewrite <- E in *. destruct Hsa as [S|S]; rewrite S in *; cbn [negb] in *.
    + rewrite !Z.mul_1_l. done.
    + rewrite !(Z.mul_comm (-1)), <- !Z.opp_eq_mul_m1, cmp_opp, <- Habs. unfold GetSize in *.
      case_test; [case_test; lia|].
      rewrite !compare_words_spec by (done || (z_bool; lia)). lia.
  - destruct Hsa as [S|S], Hsb as [S'|S']; rewrite S, S' in *; try lia; cbn.
    + rewrite cmp_gt; lia.
    + rewrite cmp_lt; lia.
Qed.

(** ** Addition *)

Lemma add_words_spec res addend c :
  limbs_ok res -> limbs_ok addend -> (length addend <= length res)%nat -> 0 <= c <= 1 ->
  let '(t, c') := add_words res addend c in
  limbs_ok t /\ length t = length res /\ 0 <= c' <= 1 /\
  limbs_val t + Bpow (length addend) * c' = limbs_val res + limbs_val addend + c.
Proof.
  intros Hr Ha. revert res c Hr.
  induction Ha as [|a ad Ha Had IH]; intros res c Hr Hl Hc.
  - cbn [add_words]. rewrite u32_small by (unfold is_u32; lia). cbn [length limbs_val].
    rewrite Bpow_0. split_and!; auto; lia.
  - destruct res as [|r res]; [cbn in Hl; lia|]. cbn in Hl.
    apply limbs_ok_cons in Hr as [Hr Hres]. unfold is_u32 in Hr, Ha.
    cbn [add_words]. rewrite u64_small by (unfold is_u64; lia). rewrite shiftr32.
    specialize (IH res ((r + a + c) / B32) Hres ltac:(lia)).
    assert (0 <= (r + a + c) / B32 <= 1).
    { split; [apply Z.div_pos; lia|].
      assert ((r + a + c) / B32 < 2) by (apply Z.div_lt_upper_bound; lia). lia. }
    specialize (IH ltac:(lia)).
    destruct (add_words res ad _) as [t c']. destruct IH as (Ht & Hlt & Hc' & Hv).
    split_and!; [|cbn; lia|lia|lia|].
    + apply limbs_ok_cons. split; [apply u32_range|done].
    + cbn [limbs_val length]. rewrite Bpow_S. unfold u32.
      pose proof (Z.div_mod (r + a + c) B32 ltac:(lia)). nia.
Qed.

Lemma add_carry_spec res c :
  limbs_ok res -> 0 <= c <= 1 ->
  let '(t, c') := add_carry res c in
  limbs_ok t /\ length t = length res /\ 0 <= c' <= 1 /\
  limbs_val t + Bpow (length res) * c' = limbs_val res + c.
Proof.
  intros Hr. revert c. induction Hr as [|r res Hr Hres IH]; intros c Hc; cbn [add_carry].
  - rewrite u32_small by (unfold is_u32; lia). cbn. rewrite Bpow_0.
    split_and!; auto using limbs_ok_nil; lia.
  - destruct (Z.eqb_spec c 0).
    + split_and!; [by apply limbs_ok_cons|done|lia|lia|lia].
    + unfold is_u32 in Hr. rewrite u64_small by (unfold is_u64; lia). rewrite shiftr32.
      assert (0 <= (r + c) / B32 <= 1).
      { split; [apply Z.div_pos; lia|].
        assert ((r + c) / B32 < 2) by (apply Z.div_lt_upper_bound; lia). lia. }
      specialize (IH _ H). destruct (add_carry res _) as [t c'].
      destruct IH as (Ht & Hlt & Hc' & Hv).
      split_and!; [|cbn; lia|lia|lia|].
      * apply limbs_ok_cons. split; [apply u32_range|done].
      * cbn [limbs_val length]. rewrite Bpow_S. unfold u32.
        pose proof (Z.div_mod (r + c) B32 ltac:(lia)). nia.
Qed.

(** The result also stays normal: a normal operand only grows. *)
Lemma add_mag_spec m addend :
  limbs_ok m -> limbs_ok addend ->
  limbs_ok (add_mag m addend) /\
  limbs_val (add_mag m addend) = limbs_val m + limbs_val addend /\
  (length m <= length (add_mag m addend))%nat /\
  (let n := Nat.max (length m) (length addend) in
   length (add_mag m addend) = n \/
   length (add_mag m addend) = S n /\ Bpow n <= limbs_val (add_mag m addend)).
Proof.
  intros Hm Ha. unfold add_mag, GetSize.
  set (m0 := if _ <? _ then _ else _).
  assert (H0 : limbs_ok m0 /\ limbs_val m0 = limbs_val m /\
               length m0 = Nat.max (length m) (length addend)).
  { subst m0. case_test; z_bool; [|split_and!; auto; lia].
    rewrite resize_ge by lia. rewrite limbs_val_app, limbs_val_zeros, length_app.
    rewrite length_replicate, limbs_ok_app.
    split_and!; auto using limbs_ok_zeros; lia. }
  destruct H0 as (Hm0 & Hv0 & Hl0).
  pose proof (add_words_spec m0 addend 0 Hm0 Ha ltac:(lia) ltac:(lia)) as H1.
  destruct (add_words m0 addend 0) as [t c]. destruct H1 as (Ht & Hlt & Hc & Hv).
  destruct (Z.eqb_spec c 0); cbn [negb]; [split_and!; auto; try lia|].
  pose proof (add_carry_spec (drop (length addend) t) c
                (limbs_ok_drop _ _ Ht) ltac:(lia)) as H2.
  destruct (add_carry _ c) as [hi c2]. destruct H2 as (Hh & Hlh & Hc2 & Hv2).
  rewrite length_drop in *.
  assert (Hsplit := limbs_val_app (take (length addend) t) (drop (length addend) t)).
  rewrite take_drop, length_take_le in Hsplit by lia.
  assert (Htk := limbs_ok_take (length addend) t Ht).
  assert (Hjoin : limbs_val (take (length addend) t ++ hi) =
    limbs_val (take (length addend) t) + Bpow (length addend) * limbs_val hi).
  { rewrite limbs_val_app, length_take_le by lia. done. }
  assert (Hlen : length (take (length addend) t ++ hi) = length t).
  { rewrite length_app, length_take_le by lia. lia. }
  assert (HB : Bpow (length t) = Bpow (length addend) * Bpow (length t - length addend)).
  { rewrite <- Bpow_add. f_equal. lia. }
  destruct (Z.eqb_spec c2 0); cbn [negb].
  - split_and!; [by apply limbs_ok_app|nia|lia|left; lia].
  - rewrite limbs_val_snoc, Hlen, length_app, Hlen. cbn [length].
    assert (HL : length t = Nat.max (length m) (length addend)) by lia.
    rewrite HL in *.
    assert (0 <= limbs_val (take (length addend) t ++ hi)).
    { apply limbs_val_bound, limbs_ok_app. done. }
    split_and!; [|nia|lia|right; split; [lia|]].
    2:{ replace c2 with 1 by lia. lia. }
    apply limbs_ok_app. split; [by apply limbs_ok_app|].
    apply limbs_ok_cons. split; [unfold is_u32; lia|apply limbs_ok_nil].
Qed.

(** A magnitude whose value needs all its words is normal. *)
Lemma normal_of_bound m :
  limbs_ok m -> Bpow (length m - 1) <= limbs_val m -> mag_normal m.
Proof.
  intros Hm Hv. destruct (snoc_view m) as [->|(m' & x & ->)]; [by left|right].
  rewrite Back_app. intros ->. rewrite limbs_val_snoc, length_app in Hv.
  cbn [length] in Hv. replace (length m' + 1 - 1)%nat with (length m') in Hv by lia.
  apply limbs_ok_app in Hm as [Hm' _]. pose proof (limbs_val_bound m' Hm'). lia.
Qed.

(** Canonical numbers are determined by their value. *)
Lemma canon_inj a b : big_canon a -> big_canon b -> big_val a = big_val b -> a = b.
Proof.
  intros [Ha Hca] [Hb Hcb] Hv. destruct (decide (big_val a = 0)) as [E|E].
  - specialize (Hca E). rewrite Hv in E. specialize (Hcb E).
    destruct a as [sa ma], b as [sb mb]. cbn in Hca, Hcb. subst. f_equal.
    destruct Ha as (_ & Hma & Hna), Hb as (_ & Hmb & Hnb). unfold big_val in *. cbn in *.
    apply normal_val_inj; auto. lia.
  - by apply big_val_inj.
Qed.

(** A decision of the representation invariant, for concrete numbers. *)
Lemma big_ok_dec b :
  ((sign b =? 1) || (sign b =? -1))
  && forallb (fun x => (0 <=? x) && (x <? B32)) (mag b)
  && (match mag b with [] => true | _ => negb (Back (mag b) =? 0) end) = true ->
  big_ok b.
Proof.
  intros H. apply andb_true_iff in H as [H H3]. apply andb_true_iff in H as [H1 H2].
  split; [|split].
  - apply orb_true_iff in H1 as [?|?]; z_bool; auto.
  - apply Forall_forall. intros x Hx. rewrite forallb_forall in H2.
    apply list_elem_of_In in Hx. specialize (H2 x Hx). z_bool. done.
  - destruct (mag b); [by left|right]. apply negb_true_iff in H3. z_bool. done.
Qed.

End BigFacts.
