(* ===== verification/BigIntegerMul.v ===== *)
(** * BigIntegerMul: products, powers, decimal precision and int64 conversion

    [Multiply], [Pow], [GetPowerOfTen], [GetPrecision], [Add(uint64_t)] and
    [ToInt64] of [big_integer.cpp] against the integers. *)

From S2P Require Import Prelude Bits BigInteger BigIntegerFacts.

Module BigMul.
Import Big BigFacts.

(** ** Multiplication *)

Lemma mul_row_spec m lo hi x c :
  limbs_ok m -> limbs_ok lo -> length lo = length m -> is_u32 x -> is_u32 c ->
  exists lo', mul_row m (lo ++ 0 :: hi) x c = lo' ++ hi /\
    limbs_ok lo' /\ length lo' = S (length m) /\
    limbs_val lo' = limbs_val lo + x * limbs_val m + c.
Proof.
  intros Hm. revert lo c. induction Hm as [|a m Ha Hm IH]; intros lo c Hlo Hl Hx Hc.
  - destruct lo; [|done]. exists [c]. cbn. split_and!; auto; [|lia].
    apply limbs_ok_cons. auto using limbs_ok_nil.
  - destruct lo as [|r lo]; [done|]. cbn in Hl. apply limbs_ok_cons in Hlo as [Hr Hlo].
    cbn [mul_row app]. unfold is_u32 in *.
    assert (0 <= a * x <= 18446744065119617025) by nia.
    rewrite (u64_small (a * x)) by (unfold is_u64; lia).
    rewrite u64_small by (unfold is_u64; lia). rewrite shiftr32.
    assert (0 <= (a * x + r + c) / B32 < B32).
    { split; [apply Z.div_pos; lia|apply Z.div_lt_upper_bound; lia]. }
    rewrite (u32_small (_ / _)) by (unfold is_u32; lia).
    destruct (IH lo ((a * x + r + c) / B32)) as (lo' & -> & Hlo' & Hl' & Hv); try lia;
      [done|].
    eexists (_ :: lo'). split; [done|]. split_and!.
    + apply limbs_ok_cons. split; [apply u32_range|done].
    + cbn. lia.
    + cbn [limbs_val]. rewrite Hv. unfold u32.
      pose proof (Z.div_mod (a * x + r + c) B32 ltac:(lia)). lia.
Qed.

Lemma mul_rows_spec m other lo :
  limbs_ok m -> limbs_ok other -> limbs_ok lo -> length lo = length m ->
  limbs_ok (mul_rows m other (lo ++ replicate (length other) 0)) /\
  limbs_val (mul_rows m other (lo ++ replicate (length other) 0)) =
    limbs_val lo + limbs_val m * limbs_val other.
Proof.
  intros Hm Ho. revert lo. induction Ho as [|x other Hx Ho IH]; intros lo Hlo Hl.
  - cbn [mul_rows length replicate]. rewrite app_nil_r. cbn. split; [done|lia].
  - cbn [mul_rows length replicate].
    destruct (mul_row_spec m lo (replicate (length other) 0) x 0)
      as (lo' & -> & Hlo' & Hl' & Hv); auto; [unfold is_u32; lia|].
    destruct lo' as [|r lo']; [done|]. cbn [app]. apply limbs_ok_cons in Hlo' as [Hr Hlo'].
    destruct (IH lo') as [Hok Hval]; [done|cbn in Hl'; lia|].
    split; [by apply limbs_ok_cons|].
    cbn [limbs_val] in *. rewrite Hval. lia.
Qed.

Lemma Multiply_ok a b :
  big_ok a -> big_ok b ->
  big_ok (Multiply a b) /\ big_val (Multiply a b) = big_val a * big_val b.
Proof.
  intros (Hsa & Ha & _) (Hsb & Hb & _). unfold Multiply.
  rewrite replicate_add.
  destruct (mul_rows_spec (mag a) (mag b) (replicate (length (mag a)) 0)) as [Hok Hv];
    auto using limbs_ok_zeros; [apply length_replicate|].
  rewrite limbs_val_zeros in Hv.
  destruct (Normalize_spec (MkBig (sign a * sign b)
    (mul_rows (mag a) (mag b) (replicate (length (mag a)) 0 ++ replicate (length (mag b)) 0))))
    as (Hn & Hnv & Hns); cbn [sign mag]; [|done|].
  { destruct Hsa as [-> | ->], Hsb as [-> | ->]; lia. }
  split; [done|]. unfold big_val. rewrite Hns, Hnv. cbn [sign mag]. rewrite Hv. lia.
Qed.

Lemma Multiply_sign a b : sign (Multiply a b) = sign a * sign b.
Proof. done. Qed.

(** ** Powers *)

Lemma pow_loop_ok e m acc :
  big_ok m -> big_ok acc ->
  big_ok (pow_loop e m acc) /\
  big_val (pow_loop e m acc) = big_val acc * big_val m ^ Zpos e.
Proof.
  revert m acc. induction e as [e IH|e IH|]; intros m acc Hm Ha; cbn [pow_loop].
  - destruct (Multiply_ok m m Hm Hm) as [Hmm Vmm].
    destruct (Multiply_ok acc m Ha Hm) as [Ham Vam].
    destruct (IH _ _ Hmm Ham) as [Hok Hv]. split; [done|].
    rewrite Hv, Vmm, Vam, <- Z.pow_2_r, <- Z.pow_mul_r by lia.
    rewrite Pos2Z.inj_xI, Z.pow_add_r, Z.pow_1_r by lia. ring.
  - destruct (Multiply_ok m m Hm Hm) as [Hmm Vmm].
    destruct (IH _ _ Hmm Ha) as [Hok Hv]. split; [done|].
    by rewrite Hv, Vmm, <- Z.pow_2_r, <- Z.pow_mul_r by lia.
  - destruct (Multiply_ok acc m Ha Hm). by rewrite Z.pow_1_r.
Qed.

Lemma pow_even_abs1 s e :
  (s = 1 \/ s = -1) -> 0 <= e -> s ^ e = if Z.rem e 2 =? 0 then 1 else s.
Proof.
  intros Hs He. rewrite Z.rem_mod_nonneg by lia.
  destruct (Z.eqb_spec (e mod 2) 0) as [E|E].
  - apply Z.mod_divide in E as [k Hk]; [|lia]. rewrite Hk, Z.mul_comm, Z.pow_mul_r by lia.
    replace (s ^ 2) with 1 by (destruct Hs; subst; done). apply Z.pow_1_l. lia.
  - pose proof (Z.mod_pos_bound e 2 ltac:(lia)). pose proof (Z.div_mod e 2 ltac:(lia)).
    replace e with (2 * (e / 2) + 1) by lia.
    assert (0 <= e / 2) by (apply Z.div_pos; lia).
    rewrite Z.pow_add_r, Z.pow_mul_r by lia.
    replace (s ^ 2) with 1 by (destruct Hs; subst; done). rewrite Z.pow_1_l by lia. lia.
Qed.

(** [Pow] on every branch: a negative exponent gives zero, a zero base stays
    zero (even for exponent zero), any other base is raised to the exponent. *)
Definition pow_value (x e : Z) : Z :=
  if e <? 0 then 0 else if x =? 0 then 0 else x ^ e.

Lemma big_val_zero_iff b : big_ok b -> big_val b = 0 <-> limbs_val (mag b) = 0.
Proof. intros ([S|S] & _); unfold big_val; rewrite S; lia. Qed.

Lemma Pow_ok b e :
  big_ok b -> big_fits b ->
  big_ok (Pow b e) /\ big_val (Pow b e) = pow_value (big_val b) e.
Proof.
  intros Hb Hf. unfold Pow, pow_value.
  pose proof (big_val_zero_iff b Hb) as Hz.
  destruct (Z.ltb_spec e 0); [by apply AssignInt64_spec|].
  rewrite GetBitLength_spec by done.
  destruct (Z.eqb_spec (limbs_val (mag b)) 0) as [E|E].
  { cbn [Z.eqb]. destruct (Z.eqb_spec (big_val b) 0); [auto|tauto]. }
  destruct (Z.eqb_spec (big_val b) 0) as [|_]; [tauto|].
  pose proof (limbs_val_bound (mag b) (proj1 (proj2 Hb))).
  destruct (Z.eqb_spec (Z.log2 (limbs_val (mag b)) + 1) 0).
  { pose proof (Z.log2_nonneg (limbs_val (mag b))). lia. }
  destruct (Z.eqb_spec (Z.log2 (limbs_val (mag b)) + 1) 1) as [E1|E1].
  - assert (Hv1 : limbs_val (mag b) = 1).
    { pose proof (Z.log2_spec (limbs_val (mag b)) ltac:(lia)).
      replace (Z.log2 (limbs_val (mag b))) with 0 in * by lia. cbn in *. lia. }
    destruct Hb as (Hs & Hm). unfold big_val. rewrite Hv1, Z.mul_1_r, pow_even_abs1 by done.
    unfold big_ok. destruct Hs as [S|S]; rewrite S; cbn [Z.ltb Z.compare];
      destruct (Z.eqb_spec (Z.rem e 2) 0); cbn [andb sign mag];
      rewrite ?S, ?Hv1; (split; [tauto|lia]).
  - pose proof (AssignInt64_spec b 1 ltac:(unfold is_i64; lia)) as [H1 V1].
    destruct e as [|e|e]; [|destruct (pow_loop_ok e b _ Hb H1) as [Ho Hv]|lia].
    + done.
    + split; [done|]. rewrite Hv, V1. lia.
Qed.

Lemma GetPowerOfTen_ok p res :
  0 <= p ->
  let r := GetPowerOfTen p res in big_ok r /\ big_val r = 10 ^ p /\ sign r = 1.
Proof.
  intros Hp. cbn zeta. unfold GetPowerOfTen.
  destruct (Z.ltb_spec p Bits.UINT64_MAX_PRECISION) as [H|H].
  - rewrite Bits.TenPowerU64_spec by lia.
    apply AssignUint64_spec. unfold Bits.UINT64_MAX_PRECISION in H. unfold is_u64.
    assert (10 ^ p <= 10 ^ 19) by (apply Z.pow_le_mono_r; lia).
    assert (0 < 10 ^ p) by (apply Z.pow_pos_nonneg; lia).
    change (10 ^ 19) with 10000000000000000000 in *. lia.
  - pose proof (AssignInt64_spec res 10 ltac:(unfold is_i64; lia)) as [H1 V1].
    destruct (Pow_ok (AssignInt64 res 10) p) as [Ho Hv]; [done| |].
    + unfold AssignInt64. cbn [Z.ltb Z.compare].
      change (u64 10) with 10.
      rewrite AssignUint64_eq by (unfold is_u64; lia). done.
    + rewrite V1 in Hv. unfold pow_value in Hv.
      destruct (Z.ltb_spec p 0); [lia|]. destruct (Z.eqb_spec 10 0); [lia|].
      split_and!; [done|done|].
      assert (0 < 10 ^ p) by (apply Z.pow_pos_nonneg; lia).
      destruct Ho as ([S|S] & Hm & _); [done|].
      pose proof (limbs_val_bound _ Hm). unfold big_val in Hv. rewrite S in Hv. lia.
Qed.

(** ** Decimal precision *)

(** Comparing powers of two bases through a rational bound of their ratio. *)
Lemma pow_ratio_le a b p q x y :
  0 < a -> 1 < b -> 0 < p -> 0 <= q -> 0 <= x -> 0 <= y ->
  a ^ p <= b ^ q -> x * q <= y * p -> a ^ x <= b ^ y.
Proof.
  intros Ha Hb Hp Hq Hx Hy Hab Hxy.
  apply (Z.pow_le_mono_l_iff _ _ p); try lia; try (apply Z.pow_nonneg; lia).
  rewrite <- !Z.pow_mul_r by lia.
  rewrite (Z.mul_comm x p), Z.pow_mul_r by lia.
  transitivity ((b ^ q) ^ x).
  - apply Z.pow_le_mono_l. split; [apply Z.pow_nonneg; lia|done].
  - rewrite <- Z.pow_mul_r by lia. apply Z.pow_le_mono_r; lia.
Qed.

(** The bit-length estimate of the number of digits is exact or one short, for
    every number of up to 300000 bits: [log10 2] is between [643/2136] and [146/485]. *)
Lemma precision_estimate b :
  1 <= b <= 300000 ->
  let r := Z.shiftr ((b + 1) * 646456993) 31 in
  0 <= r < 100000 /\ (r = 0 \/ 10 ^ (r - 1) <= 2 ^ (b - 1)) /\ 2 ^ b <= 10 ^ (r + 1).
Proof.
  intros Hb. cbn zeta. rewrite Z.shiftr_div_pow2 by lia. change (2 ^ 31) with 2147483648.
  pose proof (Z.div_mod ((b + 1) * 646456993) 2147483648 ltac:(lia)) as Hd.
  pose proof (Z.mod_pos_bound ((b + 1) * 646456993) 2147483648 ltac:(lia)) as Hm.
  revert Hd. generalize ((b + 1) * 646456993 / 2147483648). intros r Hd.
  split; [lia|]. split.
  - destruct (decide (r = 0)); [by left|right].
    apply (pow_ratio_le 10 2 643 2136); lia.
  - apply (pow_ratio_le 2 10 485 146); lia.
Qed.

Lemma GetPrecision_ok b :
  big_ok b -> GetBitLength b <= 300000 -> big_fits b ->
  let p := GetPrecision b in
  1 <= p /\ limbs_val (mag b) < 10 ^ p /\
  (limbs_val (mag b) = 0 \/ 10 ^ (p - 1) <= limbs_val (mag b)).
Proof.
  intros Hb Hl Hf. cbn zeta. unfold GetPrecision.
  fold (IsZero b). rewrite IsZero_spec by done. rewrite GetBitLength_spec in * by done.
  destruct (Z.eqb_spec (limbs_val (mag b)) 0) as [E|E]; [rewrite E; cbn; lia|].
  pose proof (limbs_val_bound (mag b) (proj1 (proj2 Hb))).
  pose proof (Z.log2_spec (limbs_val (mag b)) ltac:(lia)) as [Hlo Hhi].
  pose proof (Z.log2_nonneg (limbs_val (mag b))).
  change (Z.succ ?x) with (x + 1) in Hhi.
  set (bl := Z.log2 (limbs_val (mag b)) + 1) in *.
  replace (Z.log2 (limbs_val (mag b))) with (bl - 1) in Hlo by lia.
  pose proof (precision_estimate bl ltac:(lia)) as Hest. cbn zeta in Hest.
  rewrite u64_small by (unfold is_u64; lia).
  revert Hest. generalize (Z.shiftr ((bl + 1) * 646456993) 31).
  intros r (Hr0 & Hrlo & Hrhi).
  rewrite u32_small by (unfold is_u32; lia). rewrite i32_small by (unfold is_i32; lia).
  destruct (GetPowerOfTen_ok r big_zero ltac:(lia)) as (Hp & Hpv & Hps).
  rewrite Compare_abs by done.
  assert (Hpv' : limbs_val (mag (GetPowerOfTen r big_zero)) = 10 ^ r).
  { unfold big_val in Hpv. rewrite Hps in Hpv. lia. }
  rewrite Hpv'.
  destruct (Z.ltb_spec (cmp (limbs_val (mag b)) (10 ^ r)) 0) as [Hc|Hc].
  - apply (proj1 (cmp_lt_iff _ _)) in Hc.
    destruct Hrlo as [->|Hrlo]; [cbn in Hc; lia|].
    assert (r <> 0) by (intros ->; change (10 ^ 0) with 1 in Hc; clear - Hc H E; lia).
    lia.
  - assert (10 ^ r <= limbs_val (mag b)).
    { destruct (Z.lt_ge_cases (limbs_val (mag b)) (10 ^ r)) as [Hlt|]; [|lia].
      apply (proj2 (cmp_lt_iff _ _)) in Hlt. lia. }
    replace (r + 1 - 1) with r by lia. lia.
Qed.

(** ** Adding a machine word *)

Lemma AddU64_ok b x :
  big_ok b -> is_u64 x ->
  big_ok (AddU64 b x) /\
  limbs_val (mag (AddU64 b x)) = limbs_val (mag b) + x /\
  (big_val b <> 0 -> sign (AddU64 b x) = sign b) /\
  (big_val b = 0 -> x <> 0 -> sign (AddU64 b x) = 1).
Proof.
  intros Hb Hx. unfold AddU64. pose proof (big_val_zero_iff b Hb) as Hz.
  destruct (Z.eqb_spec x 0) as [->|Hx0]; [split_and!; auto; lia|].
  rewrite IsZero_spec by done.
  destruct (Z.eqb_spec (limbs_val (mag b)) 0) as [E|E].
  - destruct (AssignUint64_spec b x Hx) as (Ho & Hv & Hs).
    unfold big_val in Hv. rewrite Hs in Hv. split_and!; auto; [lia|tauto].
  - rewrite shiftr32. unfold is_u64 in Hx.
    assert (0 <= x / B32 < B32).
    { split; [apply Z.div_pos; lia|apply Z.div_lt_upper_bound; lia]. }
    rewrite (u32_small (x / B32)) by (unfold is_u32; lia).
    set (ad := if negb (x / B32 =? 0) then _ else _).
    assert (Had : limbs_ok ad /\ limbs_val ad = x /\ (length ad = 1%nat \/
                    length ad = 2%nat /\ B32 <= x)).
    { pose proof (Z.div_mod x B32 ltac:(lia)). pose proof (u32_range x).
      subst ad. unfold is_u32, u32 in *.
      destruct (Z.eqb_spec (x / B32) 0); cbn [negb limbs_val length];
        rewrite !limbs_ok_cons; (split_and!; auto using limbs_ok_nil; lia). }
    destruct Had as (Had & Hadv & Hadl).
    destruct Hb as (Hs & Hm & Hn). cbn [sign mag].
    destruct (add_mag_spec (mag b) ad Hm Had) as (Hok & Hv & Hl1 & Hl2).
    split_and!; [|lia|auto|tauto].
    split; [done|]. split; [done|]. cbn [mag]. apply normal_of_bound; [done|].
    assert (Hne : mag b <> []) by (intros E2; by rewrite E2 in E).
    pose proof (normal_bounds _ Hm Hn Hne) as Hbd.
    rewrite Hv, Hadv.
    assert (HB : Bpow 1 = B32) by done. pose proof (limbs_val_bound _ Hm).
    pose proof (Bpow_pos (length (mag b) - 1)).
    destruct Hl2 as [-> | [-> Hle]].
    + destruct (Nat.le_gt_cases (length ad) (length (mag b))).
      * replace (Nat.max _ _) with (length (mag b)) by lia. lia.
      * assert (length (mag b) <> 0%nat) by (destruct (mag b); done).
        replace (Nat.max _ _) with 2%nat by lia. cbn [Nat.sub]. lia.
    + rewrite Hv, Hadv in Hle.
      by replace (S (Nat.max _ _) - 1)%nat
        with (Nat.max (length (mag b)) (length ad)) by lia.
Qed.

Lemma AddU64_sign b x : is_u64 x -> sign b = 1 -> sign (AddU64 b x) = 1.
Proof.
  intros Hx Hs. unfold AddU64. destruct (x =? 0); [done|].
  destruct (IsZero b); [by apply AssignUint64_spec|done].
Qed.

(** ** Conversion to int64_t *)

Lemma GetMagInt_u32 b n : limbs_ok (mag b) -> is_u32 (GetMagInt b n).
Proof.
  intros H. unfold GetMagInt. case_test; [case_test|apply u32_range].
  - unfold is_u32; lia.
  - apply u32_range.
Qed.

Lemma ToInt64_words b :
  limbs_ok (mag b) -> ToInt64 b = i64 (GetMagInt b 0 + B32 * GetMagInt b 1).
Proof.
  intros H. unfold ToInt64. pose proof (GetMagInt_u32 b 0 H) as H0.
  pose proof (GetMagInt_u32 b 1 H) as H1. fold (Bits.MakeU64 (GetMagInt b 1) (GetMagInt b 0)).
  by rewrite Bits.MakeU64_eq.
Qed.

Lemma normal_short b :
  big_ok b -> limbs_val (mag b) < B64 -> (length (mag b) <= 2)%nat.
Proof.
  intros (_ & Hm & Hn) Hv. destruct (Nat.le_gt_cases (length (mag b)) 2) as [|H]; [done|].
  assert (Hne : mag b <> []) by (intros E; rewrite E in H; cbn in H; lia).
  pose proof (normal_bounds _ Hm Hn Hne) as [Hlo _].
  pose proof (Bpow_le 2 (length (mag b) - 1) ltac:(lia)) as Hle.
  change (Bpow 2) with B64 in Hle. lia.
Qed.

(** What the conversion adds to the true value: the words are negated one by
    one, without a borrow from the low word to the high one, and a zero with a
    negative sign has all its bits set. *)
Definition ToInt64_error (b : BigInteger) : Z :=
  if 0 <? sign b then 0
  else match mag b with
       | [] => -1
       | [x] => 0
       | x :: _ => if x =? 0 then 0 else B32
       end.

Lemma ToInt64_ok b :
  big_ok b -> limbs_val (mag b) < B64 ->
  ToInt64 b = i64 (big_val b + ToInt64_error b).
Proof.
  intros Hb Hv. pose proof (normal_short b Hb Hv) as Hl.
  destruct Hb as (Hs & Hm & Hn). rewrite ToInt64_words by done.
  unfold GetMagInt, GetSize, ToInt64_error, big_val.
  destruct (mag b) as [|x [|y [|]]]; cbn in Hl; try lia; cbn [limbs_val];
    destruct Hn as [Hn|Hn]; try done; rewrite ?limbs_ok_cons in Hm; unfold Back in Hn; cbn in Hn.
  - destruct Hs as [-> | ->]; done.
  - destruct Hm as [Hx _]. change (Z.of_nat (length [x]) <=? 0) with false.
    change (Z.of_nat (length [x]) <=? 1) with true. change (nth (Z.to_nat 0) [x] 0) with x.
    cbv iota. destruct Hs as [-> | ->]; cbn [Z.ltb Z.compare].
    + rewrite u32_small by (unfold is_u32 in *; lia). f_equal. lia.
    + rewrite u32_opp by done. change (u32 (-1)) with 4294967295.
      destruct (Z.eqb_spec x 0); [lia|]. apply (i64_congr _ _ 1). lia.
  - destruct Hm as (Hx & Hy & _). change (Z.of_nat (length [x; y]) <=? 0) with false.
    change (Z.of_nat (length [x; y]) <=? 1) with false. cbv iota.
    change (nth (Z.to_nat 0) [x; y] 0) with x. change (nth (Z.to_nat 1) [x; y] 0) with y.
    destruct Hs as [-> | ->]; cbn [Z.ltb Z.compare].
    + rewrite !u32_small by (unfold is_u32 in *; lia). f_equal. lia.
    + rewrite !u32_opp by done. destruct (Z.eqb_spec y 0); [lia|].
      apply (i64_congr _ _ 1). destruct (Z.eqb_spec x 0); lia.
Qed.
End BigMul.

(** C22. [Multiply] is exact: schoolbook multiplication of the magnitudes with
    64-bit partial products never overflows, and the normalised result is the
    product of the values, whatever the sizes. *)
Theorem Multiply_correct (a b : Big.BigInteger) :
  Big.big_ok a -> Big.big_ok b ->
  Big.big_ok (Big.Multiply a b) /\
  Big.big_val (Big.Multiply a b) = Big.big_val a * Big.big_val b.
Proof. apply BigMul.Multiply_ok. Qed.

Theorem Multiply_correct_witness :
  Big.big_ok (Big.Multiply (Big.MkBig (-1) [4294967295; 7]) (Big.MkBig 1 [4294967295])) /\
  Big.big_val (Big.Multiply (Big.MkBig (-1) [4294967295; 7]) (Big.MkBig 1 [4294967295])) =
    Big.big_val (Big.MkBig (-1) [4294967295; 7]) * Big.big_val (Big.MkBig 1 [4294967295]).
Proof.
  apply (Multiply_correct (Big.MkBig (-1) [4294967295; 7]) (Big.MkBig 1 [4294967295]));
    by apply BigFacts.big_ok_dec.
Defined.

(** [Pow] by repeated squaring on every branch: a negative exponent gives
    zero, zero stays zero, every other base is raised to the exponent, and the
    result is a well-formed number. *)
Theorem Pow_correct (b : Big.BigInteger) (e : Z) :
  Big.big_ok b -> Big.big_fits b ->
  Big.big_ok (Big.Pow b e) /\
  Big.big_val (Big.Pow b e) =
    (if e <? 0 then 0 else if Big.big_val b =? 0 then 0 else Big.big_val b ^ e).
Proof. apply BigMul.Pow_ok. Qed.

Theorem Pow_correct_witness :
  Big.big_ok (Big.Pow (Big.MkBig (-1) [10]) 21) /\
  Big.big_val (Big.Pow (Big.MkBig (-1) [10]) 21) =
    (if 21 <? 0 then 0 else if Big.big_val (Big.MkBig (-1) [10]) =? 0 then 0
     else Big.big_val (Big.MkBig (-1) [10]) ^ 21).
Proof.
  apply (Pow_correct (Big.MkBig (-1) [10]) 21); [by apply BigFacts.big_ok_dec|done].
Defined.

(** [Compare] orders signed values as the integers are ordered, for numbers
    whose zero carries a positive sign. *)
Theorem Compare_correct (a b : Big.BigInteger) :
  BigFacts.big_canon a -> BigFacts.big_canon b ->
  Big.Compare a b false =
    match Big.big_val a ?= Big.big_val b with Lt => -1 | Eq => 0 | Gt => 1 end.
Proof. apply BigFacts.Compare_signed. Qed.

Theorem Compare_correct_witness :
  Big.Compare (Big.MkBig (-1) [1; 2]) (Big.MkBig (-1) [2; 1]) false =
    match Big.big_val (Big.MkBig (-1) [1; 2]) ?= Big.big_val (Big.MkBig (-1) [2; 1]) with
    | Lt => -1 | Eq => 0 | Gt => 1 end.
Proof.
  apply (Compare_correct (Big.MkBig (-1) [1; 2]) (Big.MkBig (-1) [2; 1]));
    (split; [by apply BigFacts.big_ok_dec|discriminate]).
Defined.

(** [GetPrecision] is the number of decimal digits of the magnitude (one for
    zero) of every number of up to 300000 bits: the fixed-point estimate from
    the bit length is corrected by at most one comparison with a power of ten. *)
Theorem GetPrecision_correct (b : Big.BigInteger) :
  Big.big_ok b -> Big.big_fits b -> Big.GetBitLength b <= 300000 ->
  let p := Big.GetPrecision b in
  1 <= p /\ limbs_val (Big.mag b) < 10 ^ p /\
  (limbs_val (Big.mag b) = 0 \/ 10 ^ (p - 1) <= limbs_val (Big.mag b)).
Proof. intros. by apply BigMul.GetPrecision_ok. Qed.

Theorem GetPrecision_correct_witness :
  let b := Big.MkBig 1 [0; 0; 1] in
  let p := Big.GetPrecision b in
  1 <= p /\ limbs_val (Big.mag b) < 10 ^ p /\
  (limbs_val (Big.mag b) = 0 \/ 10 ^ (p - 1) <= limbs_val (Big.mag b)).
Proof.
  apply (GetPrecision_correct (Big.MkBig 1 [0; 0; 1])); [by apply BigFacts.big_ok_dec|done|].
  apply Z.leb_le. vm_compute. reflexivity.
Defined.

(** [ToInt64] of a negative number of two words with a non-zero low word is
    2^32 too large: the words are negated one by one, so the high word misses
    the borrow. For example -(2^32 + 1) converts to -1. *)
Theorem ToInt64_negative_off (x y : Z) :
  0 < x < B32 -> 0 < y < 2147483648 ->
  Big.ToInt64 (Big.MkBig (-1) [x; y]) = Big.big_val (Big.MkBig (-1) [x; y]) + B32.
Proof.
  intros Hx Hy. rewrite BigMul.ToInt64_ok.
  - unfold BigMul.ToInt64_error, Big.big_val. cbn [Big.sign Big.mag Z.ltb Z.compare limbs_val].
    destruct (Z.eqb_spec x 0); [lia|]. apply i64_small. unfold is_i64. lia.
  - split; [by right|]. split.
    + cbn [Big.mag]. rewrite !limbs_ok_cons. unfold is_u32.
      split; [lia|split; [lia|apply limbs_ok_nil]].
    + right. unfold Big.Back. cbn. lia.
  - cbn [Big.mag limbs_val]. lia.
Qed.

Theorem ToInt64_negative_witness :
  Big.ToInt64 (Big.MkBig (-1) [1; 1]) = -1 /\
  Big.ToInt64 (Big.MkBig (-1) [1; 1]) = Big.big_val (Big.MkBig (-1) [1; 1]) + B32.
Proof.
  split; [vm_compute; reflexivity|]. apply (ToInt64_negative_off 1 1); lia.
Defined.
