(* ===== verification/BigIntegerDiv.v ===== *)
(** * BigIntegerDiv: [BigInteger::Divide], Knuth's algorithm D

    Models lines 375-438 and 588-763 of
    [src/ignite/common/src/common/big_integer.cpp]. [Divide] throws on a zero
    divisor ([Err DivisionByZero]); the words it reads through raw indexes are
    read with [read], so that an index outside the array is [Err OutOfBounds].
    The adjustment loop of the quotient estimate runs at most twice
    ([adjust_runs]), so its fuel of three is enough. *)

From S2P Require Import Prelude Bits BigInteger BigIntegerFacts BigIntegerMul.

Module BigDiv.
Import Big BigFacts BigMul.
Local Open Scope result_scope.

(** ** Shifts of a magnitude *)

Fixpoint shl_words (prev : Z) (l : list Z) (n : Z) : list Z :=
  match l with
  | [] => []
  | x :: l' =>
      Z.lor (u32 (Z.shiftl x n)) (Z.shiftr prev (32 - n)) :: shl_words x l' n
  end.

(** [ShiftLeft(in, len, out, n)]: the words of [out] past [len] stay. *)
Definition ShiftLeft (inp out : list Z) (n : Z) : list Z :=
  (if n =? 0 then inp else shl_words 0 inp n) ++ drop (length inp) out.

Fixpoint shr_words (l : list Z) (n : Z) : list Z :=
  match l with
  | [] => []
  | x :: l' =>
      match l' with
      | [] => [Z.shiftr x n]
      | y :: _ => Z.lor (Z.shiftr x n) (u32 (Z.shiftl y (32 - n))) :: shr_words l' n
      end
  end.

(** [ShiftRight(in, len, out, n)] with an [out] of [len] words. *)
Definition ShiftRight (inp : list Z) (len : nat) (n : Z) : list Z :=
  if n =? 0 then take len inp else shr_words (take len inp) n.

(** ** One step of the division *)

(** [MultiplyAndSubstruct(q, a, alen, x)]: [q - a * x] in place and the
    borrow. [difference] is an [int64_t] taken from 64-bit unsigned arithmetic,
    and its shift is arithmetic. *)
Fixpoint mul_sub (q a : list Z) (x carry : Z) {struct a} : list Z * Z :=
  match a, q with
  | [], _ => (q, u32 carry)
  | _ :: _, [] => ([], u32 carry)
  | ai :: a', qi :: q' =>
      let product := u64 (ai * x) in
      let difference := i64 (u64 (qi - carry - Z.land product 4294967295)) in
      let carry := u64 (Z.shiftr product 32 - Z.shiftr difference 32) in
      let '(t, c) := mul_sub q' a' x carry in
      (u32 difference :: t, c)
  end.

Definition MultiplyAndSubstruct (q a : list Z) (x : Z) : list Z * Z :=
  mul_sub q a x 0.

(** The adjustment loop; [top] is [nv[vlen - 1]] and [k] is [i + vlen - 2]. The
    second word of the divisor and the third of the dividend are read only when
    the first test does not already decide. *)
Fixpoint adjust (fuel : nat) (nv nu : list Z) (vlen top k : Z) (qhat rhat : Z)
    : result Z :=
  match fuel with
  | O => Err OutOfFuel
  | S f =>
      do high <-
        (if UINT32_MAX <? qhat then Ok true
         else
           do v0 <- read nv (vlen - 2);
           do u0 <- read nu k;
           Ok (u64 (B32 * rhat + u0) <? u64 (qhat * v0)));
      if high : bool then
        let qhat := qhat - 1 in
        let rhat := rhat + top in
        if UINT32_MAX <? rhat then Ok qhat else adjust f nv nu vlen top k qhat rhat
      else Ok qhat
  end.

(** The body of the main loop at index [i]: the new dividend and the word
    stored in [q[i]]. [difference] is the [uint32_t] value of
    [nu[i + vlen] - carry], so the test for a negative difference and the
    add-back it guards are written as the source has them. *)
Definition div_step (nv nu : list Z) (i : nat) : result (list Z * Z) :=
  let vlen := Z.of_nat (length nv) in
  let iz := Z.of_nat i in
  do u2 <- read nu (iz + vlen);
  do u1 <- read nu (iz + vlen - 1);
  do top <- read nv (vlen - 1);
  let base := Bits.MakeU64 u2 u1 in
  let qhat := base / top in
  let rhat := base mod top in
  do qhat <- adjust 3 nv nu vlen top (iz + vlen - 2) qhat rhat;
  let qhat32 := u32 qhat in
  let '(w, carry) := MultiplyAndSubstruct (drop i nu) nv qhat32 in
  let nu := take i nu ++ w in
  let difference := u32 (u2 - carry) in
  let nu := <[(i + length nv)%nat := u32 difference]> nu in
  if difference <? 0 then
    let '(w, _) := add_words (drop i nu) nv 0 in
    Ok (take i nu ++ w, u32 (qhat32 - 1))
  else Ok (nu, qhat32).

(** The main loop from index [n - 1] down to 0; the quotient words come out
    least significant first. *)
Fixpoint div_loop (n : nat) (nv nu q : list Z) : result (list Z * list Z) :=
  match n with
  | O => Ok (nu, q)
  | S i => do st <- div_step nv nu i; let '(nu, qi) := st in div_loop i nv nu (qi :: q)
  end.

(** ** The whole division: quotient and remainder *)

Definition divide_small (b divisor : BigInteger) (resSign : Z)
    : result (BigInteger * BigInteger) :=
  do u0 <- read (mag b) 0;
  do v0 <- read (mag divisor) 0;
  do u <- (if GetSize (mag b) =? 2 then
             do h <- read (mag b) 1; Ok (Z.lor u0 (u64 (Z.shiftl h 32)))
           else Ok u0);
  do v <- (if GetSize (mag divisor) =? 2 then
             do h <- read (mag divisor) 1; Ok (Z.lor v0 (u64 (Z.shiftl h 32)))
           else Ok v0);
  Ok (of_int64 (i64 (resSign * i64 (u / v))), of_int64 (i64 (resSign * i64 (u mod v)))).

Definition divide_knuth (b divisor : BigInteger) (resSign : Z)
    : result (BigInteger * BigInteger) :=
  let u := mag b in
  let v := mag divisor in
  let ulen := length u in
  let vlen := length v in
  let shift := Bits.NumberOfLeadingZerosU32 (Back v) in
  let nv := ShiftLeft v (resize vlen 0 []) shift in
  let nu :=
    if shift <=? Bits.NumberOfLeadingZerosU32 (Back u) then
      ShiftLeft u (resize (ulen + 1) 0 []) shift
    else
      <[ulen := Z.shiftr (nth (ulen - 1) u 0) (32 - shift)]>
        (ShiftLeft u (resize (ulen + 2) 0 []) shift) in
  do st <- div_loop (ulen - vlen + 1) nv nu [];
  let '(nu, q) := st in
  Ok (Normalize (MkBig resSign q), Normalize (MkBig resSign (ShiftRight nu vlen shift))).

Definition Divide (b divisor : BigInteger) : result (BigInteger * BigInteger) :=
  if IsZero divisor then Err DivisionByZero
  else
    let compRes := Compare b divisor true in
    let resSign := sign b * sign divisor in
    if compRes =? 0 then Ok (of_int64 resSign, of_int64 0)
    else if compRes =? -1 then Ok (of_int64 0, b)
    else if GetBitLength divisor =? 1 then
      Ok (MkBig (sign b * sign divisor) (mag b), of_int64 0)
    else if GetSize (mag b) <=? 2 then divide_small b divisor resSign
    else divide_knuth b divisor resSign.

(** ** Shifts multiply and divide by powers of two *)

(** A word shifted left is its low part moved up. *)
Lemma u32_shiftl x n :
  0 <= n <= 32 -> is_u32 x ->
  u32 (Z.shiftl x n) = Z.shiftl (x mod 2 ^ (32 - n)) n.
Proof.
  intros Hn Hx. rewrite !Z.shiftl_mul_pow2 by lia. unfold u32.
  pose proof (pow2_pos n ltac:(lia)). pose proof (pow2_pos (32 - n) ltac:(lia)).
  rewrite <- (pow2_split32 n) by lia. rewrite (Z.mul_comm (2 ^ n)).
  by rewrite Z.mul_mod_distr_r by lia.
Qed.

Lemma shl_words_spec prev l n :
  0 < n < 32 -> limbs_ok l -> is_u32 prev ->
  limbs_ok (shl_words prev l n) /\ length (shl_words prev l n) = length l /\
  limbs_val (shl_words prev l n) + Bpow (length l) * (Back (prev :: l) / 2 ^ (32 - n)) =
    limbs_val l * 2 ^ n + prev / 2 ^ (32 - n).
Proof.
  intros Hn Hl. revert prev.
  pose proof (pow2_pos n ltac:(lia)) as P1. pose proof (pow2_pos (32 - n) ltac:(lia)) as P2.
  pose proof (pow2_split32 n ltac:(lia)) as P3.
  induction Hl as [|x l Hx Hl IH]; intros prev Hp; cbn [shl_words].
  - cbn. rewrite Bpow_0. split_and!; auto using limbs_ok_nil. unfold Back. cbn. lia.
  - destruct (IH x Hx) as (Hok & Hlen & Hv).
    unfold is_u32 in Hx, Hp.
    pose proof (Z.div_mod x (2 ^ (32 - n)) ltac:(lia)).
    pose proof (Z.mod_pos_bound x (2 ^ (32 - n)) ltac:(lia)).
    assert (0 <= prev / 2 ^ (32 - n) < 2 ^ n).
    { split; [apply Z.div_pos; lia|apply Z.div_lt_upper_bound; lia]. }
    rewrite u32_shiftl by (unfold is_u32; lia).
    rewrite Z.shiftr_div_pow2 by lia. rewrite Z.lor_comm, lor_shiftl_add by lia.
    assert (x mod 2 ^ (32 - n) * 2 ^ n + 2 ^ n <= B32) by nia.
    split_and!.
    + apply limbs_ok_cons. split; [unfold is_u32; nia|done].
    + cbn. lia.
    + assert (Hb : Back (prev :: x :: l) = Back (x :: l)).
      { unfold Back. cbn. by rewrite Nat.sub_0_r. }
      rewrite Hb. cbn [limbs_val length]. rewrite Bpow_S. nia.
Qed.

Lemma Back_cons x l : l <> [] -> Back (x :: l) = Back l.
Proof. destruct l; [done|]. unfold Back. cbn. by rewrite Nat.sub_0_r. Qed.

Lemma mod_limbs x l n : 0 <= n <= 32 -> (limbs_val (x :: l)) mod 2 ^ n = x mod 2 ^ n.
Proof.
  intros Hn. cbn [limbs_val]. rewrite <- (pow2_split32 n) by lia.
  pose proof (pow2_pos n ltac:(lia)).
  replace (x + 2 ^ n * 2 ^ (32 - n) * limbs_val l)
    with (x + (2 ^ (32 - n) * limbs_val l) * 2 ^ n) by ring.
  by rewrite Z.mod_add by lia.
Qed.

Lemma shr_words_spec l n :
  0 < n < 32 -> limbs_ok l ->
  limbs_ok (shr_words l n) /\ length (shr_words l n) = length l /\
  limbs_val (shr_words l n) = limbs_val l / 2 ^ n.
Proof.
  intros Hn. pose proof (pow2_pos n ltac:(lia)) as P1.
  pose proof (pow2_pos (32 - n) ltac:(lia)) as P2.
  pose proof (pow2_split32 n ltac:(lia)) as P3.
  induction 1 as [|x l Hx Hl IH]; cbn [shr_words].
  - split_and!; [apply limbs_ok_nil|done|]. cbn [limbs_val]. by rewrite Z.div_0_l by lia.
  - unfold is_u32 in Hx. rewrite !Z.shiftr_div_pow2 by lia.
    assert (0 <= x / 2 ^ n < 2 ^ (32 - n)).
    { split; [apply Z.div_pos; lia|apply Z.div_lt_upper_bound; lia]. }
    destruct l as [|y l].
    { cbn. rewrite !Z.add_0_r. split_and!; [|done|done]. apply limbs_ok_cons.
      split; [unfold is_u32; nia|apply limbs_ok_nil]. }
    destruct IH as (Hok & Hlen & Hv). apply limbs_ok_cons in Hl as [Hy Hl].
    rewrite u32_shiftl by (done || lia).
    replace (32 - (32 - n)) with n by lia. rewrite lor_shiftl_add by lia.
    pose proof (Z.mod_pos_bound y (2 ^ n) ltac:(lia)).
    split_and!.
    + apply limbs_ok_cons. split; [unfold is_u32; nia|done].
    + cbn [length] in *. lia.
    + change (limbs_val (?a :: ?b)) with (a + B32 * limbs_val b) at 1.
      rewrite Hv, <- (mod_limbs y l n) by lia.
      change (limbs_val (x :: ?b)) with (x + B32 * limbs_val b).
      generalize (limbs_val (y :: l)) as w. intros w.
      rewrite <- P3.
      replace (x + 2 ^ n * 2 ^ (32 - n) * w) with (x + (2 ^ (32 - n) * w) * 2 ^ n) by ring.
      rewrite Z.div_add by lia. pose proof (Z.div_mod w (2 ^ n) ltac:(lia)) as Hd.
      revert Hd. generalize (w / 2 ^ n) (w mod 2 ^ n). intros q r ->. ring.
Qed.

Lemma ShiftRight_spec l len n :
  0 <= n < 32 -> limbs_ok (take len l) ->
  limbs_ok (ShiftRight l len n) /\
  limbs_val (ShiftRight l len n) = limbs_val (take len l) / 2 ^ n.
Proof.
  intros Hn Hl. unfold ShiftRight.
  destruct (Z.eqb_spec n 0) as [->|].
  - by rewrite Z.div_1_r.
  - destruct (shr_words_spec (take len l) n) as (? & ? & ?); auto; lia.
Qed.

(** ** Multiply and subtract *)

Lemma mul_sub_spec q a x c :
  limbs_ok q -> limbs_ok a -> length q = length a -> is_u32 x -> is_u32 c ->
  let '(t, c') := mul_sub q a x c in
  limbs_ok t /\ length t = length q /\ is_u32 c' /\
  limbs_val t = limbs_val q - x * limbs_val a - c + Bpow (length a) * c'.
Proof.
  intros Hq Ha. revert q c Hq. induction Ha as [|ai a Hai Ha IH]; intros q c Hq Hl Hx Hc.
  - destruct q; [|done]. cbn [mul_sub length limbs_val]. rewrite u32_small by done.
    rewrite Bpow_0. split_and!; auto; lia.
  - destruct q as [|qi q]; [done|]. apply limbs_ok_cons in Hq as [Hqi Hq].
    cbn [mul_sub]. unfold is_u32 in *.
    assert (0 <= ai * x <= 18446744065119617025) by nia.
    rewrite (u64_small (ai * x)) by (unfold is_u64; lia).
    rewrite land_low32, i64_u64, !shiftr32.
    set (lo := (ai * x) mod B32). set (hi := ai * x / B32).
    assert (0 <= lo < B32) by (apply Z.mod_pos_bound; lia).
    assert (Hp : ai * x = B32 * hi + lo) by (apply Z.div_mod; lia).
    rewrite i64_small by (unfold is_i64; lia).
    set (d := qi - c - lo).
    pose proof (Z.div_mod d B32 ltac:(lia)) as Hd.
    pose proof (Z.mod_pos_bound d B32 ltac:(lia)) as Hdb.
    assert (0 <= hi - d / B32 < B32) by nia.
    rewrite u64_small by (unfold is_u64; lia).
    specialize (IH q (hi - d / B32) Hq ltac:(cbn in Hl; lia) ltac:(lia) ltac:(lia)).
    destruct (mul_sub q a x _) as [t c']. destruct IH as (Ht & Hlt & Hc' & Hv).
    split_and!; [|cbn; lia|lia|lia|].
    + apply limbs_ok_cons. split; [apply u32_range|done].
    + cbn [limbs_val length]. rewrite Bpow_S, Hv. unfold u32. nia.
Qed.

(** Words past the subtrahend are not touched. *)
Lemma mul_sub_app q rest a x c :
  length q = length a ->
  mul_sub (q ++ rest) a x c =
    let '(t, c') := mul_sub q a x c in (t ++ rest, c').
Proof.
  revert q c. induction a as [|ai a IH]; intros [|qi q] c Hl; cbn in Hl; try lia; [done|].
  cbn [mul_sub app]. rewrite IH by lia. by destruct (mul_sub q a x _).
Qed.

(** ** The quotient estimate *)

Section Adjust.
Context (nv nu : list Z) (k v0 v1 u0 : Z).
Context (Hv0 : is_u32 v0) (Hv1 : 2147483648 <= v1 < B32) (Hu0 : is_u32 u0).
Context (vlen : Z) (Hrv : read nv (vlen - 2) = Ok v0) (Hru : read nu k = Ok u0).

(** With the two top words of the divisor in [v = v1 B + v0] and the three top
    words of the dividend in [t B + u0], the loop ends with their quotient. *)
Lemma adjust_runs fuel t qhat rhat :
  let v := v1 * B32 + v0 in
  let u := t * B32 + u0 in
  0 <= t -> u < B32 * v ->
  t = qhat * v1 + rhat -> 0 <= rhat < B32 -> 0 <= qhat <= 4294967297 ->
  u < (qhat + 1) * v -> B32 <= rhat + Z.of_nat fuel * v1 ->
  adjust fuel nv nu vlen v1 k qhat rhat = Ok (u / v).
Proof.
  cbn zeta. revert qhat rhat. unfold is_u32 in *.
  induction fuel as [|fuel IH]; intros qhat rhat Ht Hu Heq Hr Hq Hup Hf; [lia|].
  cbn [adjust].
  set (test := if UINT32_MAX <? qhat then _ else _).
  assert (Htest : exists b : bool, test = Ok b /\
    if b then t * B32 + u0 < qhat * (v1 * B32 + v0)
    else qhat * (v1 * B32 + v0) <= t * B32 + u0).
  { subst test. destruct (Z.ltb_spec UINT32_MAX qhat) as [Hbig|Hsmall].
    - exists true. split; [done|]. nia.
    - rewrite Hrv, Hru. cbn [res_bind].
      rewrite !u64_small by (unfold is_u64; nia).
      eexists. split; [done|].
      destruct (Z.ltb_spec (B32 * rhat + u0) (qhat * v0)); nia. }
  destruct Htest as ([|] & -> & Hb); cbn [res_bind].
  - assert (0 < qhat) by nia.
    destruct (Z.ltb_spec UINT32_MAX (rhat + v1)).
    + f_equal. apply Z.div_unique with (t * B32 + u0 - (qhat - 1) * (v1 * B32 + v0)).
      * left. nia.
      * ring.
    + apply IH; try lia.
  - f_equal. apply Z.div_unique with (t * B32 + u0 - qhat * (v1 * B32 + v0)).
    + left. lia.
    + ring.
Qed.
End Adjust.

(** ** The division loop for a divisor of two words *)

Lemma read_app_r l r i x : i = Z.of_nat (length l) -> read (l ++ x :: r) i = Ok x.
Proof.
  intros ->. apply read_ok; [lia|]. rewrite Nat2Z.id. by apply list_lookup_middle.
Qed.

Lemma read_app_r1 l r y i x : i = Z.of_nat (length l) + 1 -> read (l ++ y :: x :: r) i = Ok x.
Proof.
  intros ->. change (y :: x :: r) with ([y] ++ x :: r). rewrite app_assoc.
  apply read_app_r. rewrite length_app. cbn. lia.
Qed.

Lemma read_app_r2 l r y z i x :
  i = Z.of_nat (length l) + 2 -> read (l ++ y :: z :: x :: r) i = Ok x.
Proof.
  intros ->. change (y :: z :: x :: r) with ([y; z] ++ x :: r). rewrite app_assoc.
  apply read_app_r. rewrite length_app. cbn. lia.
Qed.

Lemma limbs_ok_pair a b : is_u32 a -> is_u32 b -> limbs_ok [a; b].
Proof. intros. rewrite !limbs_ok_cons. auto using limbs_ok_nil. Qed.

Section TwoWords.
Context (v0 v1 : Z) (Hv0 : is_u32 v0) (Hv1 : 2147483648 <= v1 < B32).

(** The normalised divisor. *)
Definition vval : Z := v1 * B32 + v0.

(** One step replaces the window [u0; r0; r1] by its remainder. *)
Lemma div_step_two lo u0 r0 r1 rest :
  is_u32 u0 -> is_u32 r0 -> is_u32 r1 -> r0 + B32 * r1 < vval ->
  let w := u0 + B32 * (r0 + B32 * r1) in
  exists w0 w1,
    div_step [v0; v1] (lo ++ u0 :: r0 :: r1 :: rest) (length lo) =
      Ok (lo ++ w0 :: w1 :: 0 :: rest, w / vval) /\
    is_u32 w0 /\ is_u32 w1 /\ w0 + B32 * w1 = w mod vval /\ is_u32 (w / vval).
Proof.
  unfold vval. intros Hu0 Hr0 Hr1 HR. cbn zeta.
  set (w := u0 + B32 * (r0 + B32 * r1)). unfold is_u32 in *.
  pose proof (Z.mod_pos_bound w (v1 * B32 + v0) ltac:(lia)) as Hmb.
  pose proof (Z.div_mod w (v1 * B32 + v0) ltac:(lia)) as Hdm.
  assert (Hq : 0 <= w / (v1 * B32 + v0) < B32).
  { split; [apply Z.div_pos; lia|apply Z.div_lt_upper_bound; lia]. }
  unfold div_step. cbn [length].
  rewrite read_app_r2 by lia. cbn [res_bind].
  rewrite read_app_r1 by lia. cbn [res_bind].
  rewrite (read_ok [v0; v1] (Z.of_nat 2 - 1) v1) by (lia || done). cbn [res_bind].
  rewrite Bits.MakeU64_eq by (unfold is_u32; lia).
  set (t := r0 + B32 * r1) in *.
  pose proof (Z.mod_pos_bound t v1 ltac:(lia)) as Hrb.
  pose proof (Z.div_mod t v1 ltac:(lia)) as Hrd.
  assert (Hqb : 0 <= t / v1 <= 4294967297).
  { split; [apply Z.div_pos; lia|].
    assert (t / v1 < 4294967298) by (apply Z.div_lt_upper_bound; lia). lia. }
  rewrite (adjust_runs [v0; v1] _ _ v0 v1 u0 Hv0 Hv1 Hu0 _
             (read_ok [v0; v1] (Z.of_nat 2 - 2) v0 ltac:(lia) eq_refl)
             (read_app_r lo (r0 :: r1 :: rest)
                (Z.of_nat (length lo) + Z.of_nat 2 - 2) u0 ltac:(lia)) 3 t) by lia.
  cbn [res_bind]. replace (t * B32 + u0) with w by (subst w; ring).
  rewrite (u32_small (w / _)) by (unfold is_u32; lia).
  unfold MultiplyAndSubstruct. rewrite drop_app_length, take_app_length.
  change (u0 :: r0 :: r1 :: rest) with ([u0; r0] ++ r1 :: rest).
  rewrite mul_sub_app by done.
  pose proof (mul_sub_spec [u0; r0] [v0; v1] (w / (v1 * B32 + v0)) 0) as Hms.
  destruct (mul_sub [u0; r0] [v0; v1] _ 0) as [s c].
  destruct Hms as (Hs & Hls & Hc & Hv);
    try (apply limbs_ok_pair; unfold is_u32; lia); try done.
  destruct s as [|w0 [|w1 [|]]]; try done.
  apply limbs_ok_cons in Hs as [Hw0 Hs]. apply limbs_ok_cons in Hs as [Hw1 _].
  cbn [limbs_val length] in Hv. change (Bpow 2) with B64 in Hv. unfold is_u32 in *.
  assert (Hcr : c = r1) by nia. subst c.
  rewrite Z.sub_diag. change (u32 0) with 0. cbn [Z.ltb Z.compare].
  exists w0, w1. split_and!; try lia.
  change ([w0; w1] ++ r1 :: rest) with (w0 :: w1 :: r1 :: rest).
  rewrite insert_app_r. cbn. done.
Qed.

(** The whole loop: quotient words and the remainder window. *)
Lemma div_loop_two lo : forall r0 r1 rest q,
  limbs_ok lo -> is_u32 r0 -> is_u32 r1 -> r0 + B32 * r1 < vval ->
  let w := limbs_val lo + Bpow (length lo) * (r0 + B32 * r1) in
  exists q' w0 w1 rest',
    div_loop (length lo) [v0; v1] (lo ++ r0 :: r1 :: rest) q =
      Ok (w0 :: w1 :: rest', q' ++ q) /\
    limbs_ok q' /\ is_u32 w0 /\ is_u32 w1 /\ w0 + B32 * w1 = w mod vval /\
    length q' = length lo /\ limbs_val q' = w / vval.
Proof.
  assert (HV : 0 < vval) by (unfold vval, is_u32 in *; lia).
  induction lo as [|u0 lo IH] using rev_ind; intros r0 r1 rest q Hlo Hr0 Hr1 HR; cbn zeta.
  - cbn [length div_loop app limbs_val]. rewrite Bpow_0.
    exists [], r0, r1, rest. unfold is_u32 in *.
    rewrite Z.add_0_l, Z.mul_1_l, Z.mod_small, Z.div_small by lia.
    split_and!; try done; apply limbs_ok_nil || lia.
  - apply limbs_ok_app in Hlo as [Hlo Hu0]. apply limbs_ok_cons in Hu0 as [Hu0 _].
    rewrite length_app. cbn [length]. replace (length lo + 1)%nat with (S (length lo)) by lia.
    rewrite <- app_assoc. cbn [app div_loop].
    destruct (div_step_two lo u0 r0 r1 rest) as (w0 & w1 & Heq & Hw0 & Hw1 & Hm & Hq); auto.
    rewrite Heq. cbn [res_bind]. unfold is_u32 in Hw0, Hw1.
    set (w := u0 + B32 * (r0 + B32 * r1)) in *.
    pose proof (Z.mod_pos_bound w vval HV) as Hmb.
    destruct (IH w0 w1 (0 :: rest) (w / vval :: q)) as
      (q' & x0 & x1 & rest' & -> & Hq' & Hx0 & Hx1 & Hxm & Hql & Hqv); auto; [lia|].
    exists (q' ++ [w / vval]), x0, x1, rest'.
    assert (Hsum : limbs_val (lo ++ [u0]) + Bpow (S (length lo)) * (r0 + B32 * r1) =
      limbs_val lo + Bpow (length lo) * (w mod vval) + Bpow (length lo) * (w / vval) * vval).
    { rewrite limbs_val_snoc, Bpow_S. pose proof (Z.div_mod w vval ltac:(lia)) as Hd.
      replace (limbs_val lo + Bpow (length lo) * (w mod vval) +
               Bpow (length lo) * (w / vval) * vval)
        with (limbs_val lo + Bpow (length lo) * (vval * (w / vval) + w mod vval)) by ring.
      rewrite <- Hd. subst w. ring. }
    rewrite Hsum, Hm in *. rewrite Z.mod_add, Z.div_add by lia.
    split_and!; try done.
    + by rewrite <- app_assoc.
    + apply limbs_ok_app. split; [done|]. apply limbs_ok_cons. auto using limbs_ok_nil.
    + rewrite length_app, Hql. cbn. lia.
    + rewrite limbs_val_snoc, Hqv, Hql. done.
Qed.
End TwoWords.

(** ** Quotient and remainder *)

(** What a division delivers: the quotient truncated toward zero, and a
    remainder with the right magnitude. *)
Definition div_result (a d q r : BigInteger) : Prop :=
  big_ok q /\ big_ok r /\
  big_val q = Z.quot (big_val a) (big_val d) /\
  limbs_val (mag r) = limbs_val (mag a) mod limbs_val (mag d).

Lemma quot_signed sa sd m n :
  (sa = 1 \/ sa = -1) -> (sd = 1 \/ sd = -1) -> 0 <= m -> 0 < n ->
  Z.quot (sa * m) (sd * n) = sa * sd * (m / n).
Proof.
  intros Hsa Hsd Hm Hn.
  rewrite <- Z.quot_div_nonneg by lia.
  destruct Hsa as [-> | ->], Hsd as [-> | ->];
    rewrite ?Z.mul_1_l, <- ?Z.opp_eq_mul_m1, ?(Z.mul_comm (-1)), <- ?Z.opp_eq_mul_m1;
    rewrite ?Z.quot_opp_l, ?Z.quot_opp_r by lia; lia.
Qed.

Lemma of_int64_ok x :
  is_i64 x -> big_ok (of_int64 x) /\ limbs_val (mag (of_int64 x)) = Z.abs x /\
              big_val (of_int64 x) = x.
Proof.
  intros Hx. destruct (AssignInt64_spec big_zero x Hx) as [Ho Hv].
  fold (of_int64 x) in *. split_and!; auto.
  destruct Ho as ([S|S] & Hm & _); pose proof (limbs_val_bound _ Hm);
    unfold big_val in Hv; rewrite S in Hv; lia.
Qed.

Lemma of_int64_nonneg_sign x : is_i64 x -> 0 <= x -> sign (of_int64 x) = 1.
Proof.
  unfold is_i64. intros Hx H. unfold of_int64, AssignInt64.
  destruct (Z.ltb_spec x 0); [lia|].
  apply AssignUint64_spec. rewrite u64_small; unfold is_u64; lia.
Qed.

Lemma div_result_intro a d q r sg :
  big_ok a -> big_ok d -> 0 < limbs_val (mag d) ->
  sg = sign a * sign d -> big_ok q -> big_ok r ->
  big_val q = sg * (limbs_val (mag a) / limbs_val (mag d)) ->
  limbs_val (mag r) = limbs_val (mag a) mod limbs_val (mag d) ->
  div_result a d q r.
Proof.
  intros (Hsa & Ha & _) (Hsd & Hd & _) Hp -> Hq Hr Hv Hm.
  split_and!; auto. unfold big_val at 2 3.
  rewrite quot_signed; auto. apply limbs_val_bound. done.
Qed.

(** Magnitudes of one or two words are read as one 64-bit number. *)
Lemma read_u64 m :
  limbs_ok m -> m <> [] -> (length m <= 2)%nat ->
  (do u0 <- read m 0;
   if GetSize m =? 2 then do h <- read m 1; Ok (Z.lor u0 (u64 (Z.shiftl h 32)))
   else Ok u0) = Ok (limbs_val m) /\ is_u64 (limbs_val m).
Proof.
  intros Hm Hne Hl. unfold GetSize, is_u64.
  pose proof (limbs_val_bound m Hm) as Hb.
  destruct m as [|x [|y [|]]]; cbn in Hl; try lia; [done| |].
  - change (Bpow (length [x])) with B32 in Hb. split; [|lia].
    rewrite (read_ok _ 0 x) by (done || lia). cbn [res_bind].
    change (Z.of_nat (length [x]) =? 2) with false. cbn [limbs_val]. f_equal. lia.
  - change (Bpow (length [x; y])) with B64 in Hb. split; [|lia].
    rewrite !limbs_ok_cons in Hm. destruct Hm as (Hx & Hy & _). unfold is_u32 in *.
    cbn [length Z.of_nat Z.eqb]. rewrite (read_ok _ 0 x), (read_ok _ 1 y) by (done || lia).
    cbn [res_bind]. rewrite shiftl32, u64_small by (unfold is_u64; lia).
    rewrite <- shiftl32, lor_shiftl_add by (try lia; change (2 ^ 32) with B32; lia).
    change (2 ^ 32) with B32. cbn [limbs_val]. f_equal. lia.
Qed.

Lemma divide_small_ok a d :
  big_ok a -> big_ok d -> (length (mag a) <= 2)%nat ->
  1 < limbs_val (mag d) < limbs_val (mag a) ->
  exists q r, divide_small a d (sign a * sign d) = Ok (q, r) /\ div_result a d q r /\
    big_val r = sign a * sign d * (limbs_val (mag a) mod limbs_val (mag d)) /\
    (sign a * sign d = 1 -> sign r = 1).
Proof.
  intros Ha Hd Hl Hv.
  assert (Hma : limbs_ok (mag a)) by apply Ha. assert (Hmd : limbs_ok (mag d)) by apply Hd.
  assert (Hna : mag a <> []) by (intros E; rewrite E in Hv; cbn in Hv; lia).
  assert (Hnd : mag d <> []) by (intros E; rewrite E in Hv; cbn in Hv; lia).
  assert (Hld : (length (mag d) <= length (mag a))%nat).
  { destruct (Nat.le_gt_cases (length (mag d)) (length (mag a))) as [|H]; [done|].
    pose proof (normal_length_lt _ _ Hma Hmd (proj2 (proj2 Hd)) H). lia. }
  destruct (read_u64 (mag a) Hma Hna Hl) as [Ra Ba].
  destruct (read_u64 (mag d) Hmd Hnd ltac:(lia)) as [Rd Bd].
  unfold divide_small.
  destruct (read (mag a) 0) as [u0|] eqn:E0; [|done]. cbn [res_bind] in *.
  destruct (read (mag d) 0) as [w0|] eqn:E1; [|done]. cbn [res_bind] in *.
  rewrite Ra, Rd. cbn [res_bind]. unfold is_u64 in *.
  set (u := limbs_val (mag a)) in *. set (v := limbs_val (mag d)) in *.
  assert (Hq : 0 <= u / v < 9223372036854775808).
  { split; [apply Z.div_pos; lia|apply Z.div_lt_upper_bound; nia]. }
  pose proof (Z.mod_pos_bound u v ltac:(lia)). pose proof (Z.div_mod u v ltac:(lia)).
  assert (1 <= u / v) by (apply Z.div_le_lower_bound; lia).
  assert (v <= v * (u / v)) by nia.
  assert (Hr : u mod v < 9223372036854775808) by lia.
  rewrite !(i64_small (u / v)), !(i64_small (u mod v)) by (unfold is_i64; lia).
  assert (Hs : sign a * sign d = 1 \/ sign a * sign d = -1).
  { destruct Ha as ([-> | ->] & _), Hd as ([-> | ->] & _); lia. }
  rewrite !i64_small by (unfold is_i64; destruct Hs as [-> | ->]; lia).
  do 2 eexists. split; [done|].
  assert (I1 : is_i64 (sign a * sign d * (u / v))).
  { unfold is_i64. destruct Hs as [-> | ->]; lia. }
  assert (I2 : is_i64 (sign a * sign d * (u mod v))).
  { unfold is_i64. destruct Hs as [-> | ->]; lia. }
  destruct (of_int64_ok _ I1) as (O1 & _ & V1). destruct (of_int64_ok _ I2) as (O2 & M2 & V2).
  split; [|split; [done|]].
  - apply (div_result_intro a d _ _ (sign a * sign d)); auto; [lia|].
    rewrite M2. fold u v. destruct Hs as [-> | ->]; lia.
  - intros E. apply of_int64_nonneg_sign; [done|]. rewrite E. lia.
Qed.

(** ** Normalising the operands *)

(** Moving the top word's leading zeros out fills its top bit. *)
Lemma nlz_fill x :
  0 < x < B32 ->
  let s := Bits.NumberOfLeadingZerosU32 x in
  0 <= s < 32 /\ 2147483648 <= x * 2 ^ s < B32.
Proof.
  intros Hx. cbn zeta. rewrite Bits.NumberOfLeadingZerosU32_log2 by done.
  pose proof (Z.log2_spec x ltac:(lia)) as [Hlo Hhi]. pose proof (Z.log2_nonneg x).
  assert (Z.log2 x < 32) by (apply Z.log2_lt_pow2; [lia|]; change (2 ^ 32) with B32; lia).
  pose proof (pow2_pos (31 - Z.log2 x) ltac:(lia)).
  assert (Hmul : 2 ^ Z.log2 x * 2 ^ (31 - Z.log2 x) = 2147483648).
  { rewrite <- Z.pow_add_r by lia. by replace (Z.log2 x + (31 - Z.log2 x)) with 31 by lia. }
  rewrite Z.pow_succ_r in Hhi by lia. split; [lia|]. nia.
Qed.

Lemma ShiftLeft_zeros inp k n :
  ShiftLeft inp (resize (length inp + k) 0 []) n =
    (if n =? 0 then inp else shl_words 0 inp n) ++ replicate k 0.
Proof.
  unfold ShiftLeft. rewrite resize_nil, drop_replicate.
  by replace (length inp + k - length inp)%nat with k by lia.
Qed.

(** The shifted words and the bits that leave the top word. *)
Lemma shifted_words l s :
  0 <= s < 32 -> limbs_ok l -> l <> [] ->
  let r := if s =? 0 then l else shl_words 0 l s in
  limbs_ok r /\ length r = length l /\
  limbs_val r + Bpow (length l) * (Back l / 2 ^ (32 - s)) = limbs_val l * 2 ^ s.
Proof.
  intros Hs Hl Hne. cbn zeta. destruct (Z.eqb_spec s 0) as [->|].
  - split_and!; auto. change (2 ^ (32 - 0)) with B32.
    rewrite Z.div_small by (apply nth_ok; done). lia.
  - destruct (shl_words_spec 0 l s) as (? & ? & Hv); auto; [lia|unfold is_u32; lia|].
    pose proof (pow2_pos (32 - s) ltac:(lia)).
    rewrite Back_cons, (Zdiv_0_l (2 ^ (32 - s))) in Hv by done.
    split_and!; auto. lia.
Qed.

Lemma shift_out_zero x s :
  0 <= s < 32 -> is_u32 x -> x * 2 ^ s < B32 -> x / 2 ^ (32 - s) = 0.
Proof.
  intros Hs Hx Hlt. apply Z.div_small. unfold is_u32 in Hx. split; [lia|].
  pose proof (pow2_split32 s ltac:(lia)). pose proof (pow2_pos s ltac:(lia)). nia.
Qed.

(** The dividend as [Divide] normalises it. *)
Definition norm_dividend (u : list Z) (shift : Z) : list Z :=
  if shift <=? Bits.NumberOfLeadingZerosU32 (Back u) then
    ShiftLeft u (resize (length u + 1) 0 []) shift
  else
    <[length u := Z.shiftr (nth (length u - 1) u 0) (32 - shift)]>
      (ShiftLeft u (resize (length u + 2) 0 []) shift).

Lemma norm_dividend_spec u s :
  0 <= s < 32 -> limbs_ok u -> mag_normal u -> u <> [] ->
  limbs_ok (norm_dividend u s) /\ (length u < length (norm_dividend u s))%nat /\
  limbs_val (norm_dividend u s) = limbs_val u * 2 ^ s.
Proof.
  intros Hs Hu Hn Hne. unfold norm_dividend. rewrite !ShiftLeft_zeros.
  destruct (shifted_words u s Hs Hu Hne) as (Hok & Hlen & Hv).
  set (r := if s =? 0 then u else _) in *.
  assert (Hb : is_u32 (Back u)) by by apply nth_ok.
  destruct Hn as [|Hn]; [done|]. unfold is_u32 in Hb.
  destruct (nlz_fill (Back u) ltac:(lia)) as [Hz Hf].
  destruct (Z.leb_spec s (Bits.NumberOfLeadingZerosU32 (Back u))) as [Hle|Hgt].
  - assert (Hx : Back u * 2 ^ s < B32).
    { eapply Z.le_lt_trans; [|apply Hf]. apply Z.mul_le_mono_nonneg_l; [lia|].
      apply Z.pow_le_mono_r; lia. }
    rewrite (shift_out_zero (Back u) s Hs ltac:(unfold is_u32; lia) Hx) in Hv.
    rewrite limbs_ok_app, length_app, limbs_val_app, limbs_val_zeros, length_replicate.
    split_and!; auto using limbs_ok_zeros; lia.
  - fold (Back u). replace (length u) with (length r + 0)%nat by lia.
    rewrite insert_app_r. cbn [replicate insert list_insert].
    rewrite limbs_ok_app, length_app, limbs_val_app, Z.shiftr_div_pow2 by lia.
    cbn [length limbs_val]. pose proof (pow2_pos (32 - s) ltac:(lia)).
    assert (0 <= Back u / 2 ^ (32 - s) < B32).
    { split; [apply Z.div_pos; lia|apply Z.div_lt_upper_bound; lia]. }
    split_and!; [done|apply limbs_ok_pair; unfold is_u32; lia|lia|].
    rewrite Hlen. lia.
Qed.

(** ** Algorithm D with a divisor of two words *)

Lemma drop_pair (l : list Z) n :
  (n + 1 < length l)%nat -> exists a b r, drop n l = a :: b :: r.
Proof.
  intros H. destruct (drop n l) as [|a [|b r]] eqn:E; eauto;
    apply (f_equal length) in E; rewrite length_drop in E; cbn in E; lia.
Qed.

Lemma norm_divisor_two m :
  limbs_ok m -> mag_normal m -> length m = 2%nat ->
  let s := Bits.NumberOfLeadingZerosU32 (Back m) in
  0 <= s < 32 /\
  exists v0 v1, ShiftLeft m (resize (length m) 0 []) s = [v0; v1] /\
    is_u32 v0 /\ 2147483648 <= v1 < B32 /\ vval v0 v1 = limbs_val m * 2 ^ s.
Proof.
  intros Hm Hn Hl. cbn zeta.
  destruct Hn as [->|Hn]; [done|].
  assert (Hb : is_u32 (Back m)) by by apply nth_ok. unfold is_u32 in Hb.
  destruct (nlz_fill (Back m) ltac:(lia)) as [Hs Hfill].
  set (s := Bits.NumberOfLeadingZerosU32 (Back m)) in *.
  split; [done|]. pose proof (pow2_pos s ltac:(lia)) as Hp.
  replace (length m) with (length m + 0)%nat by lia.
  rewrite ShiftLeft_zeros. cbn [replicate]. rewrite app_nil_r.
  destruct (shifted_words m s Hs Hm) as (Hok & Hlen & Hv); [by intros ->|].
  rewrite shift_out_zero in Hv by (unfold is_u32; lia).
  revert Hok Hlen Hv. generalize (if s =? 0 then m else shl_words 0 m s). intros nv Hok Hlen Hv.
  rewrite Hl in Hlen. destruct nv as [|v0 [|v1 [|]]]; try done.
  rewrite !limbs_ok_cons in Hok. destruct Hok as (Hv0 & Hv1 & _).
  assert (HV : vval v0 v1 = limbs_val m * 2 ^ s).
  { unfold vval. cbn [limbs_val] in Hv. lia. }
  exists v0, v1. split_and!; auto; [|apply Hv1].
  destruct (snoc_view m) as [->|(m' & x & ->)]; [done|].
  rewrite Back_app in *. rewrite length_app in Hl. cbn in Hl.
  rewrite limbs_val_snoc in HV. apply limbs_ok_app in Hm as [Hm _].
  pose proof (limbs_val_bound m' Hm). replace (length m') with 1%nat in * by lia.
  change (Bpow 1) with B32 in *. unfold is_u32, vval in *. nia.
Qed.

Lemma dividend_window u s :
  0 <= s < 32 -> limbs_ok u -> mag_normal u -> u <> [] ->
  exists lo r0 r1 rest, norm_dividend u s = lo ++ r0 :: r1 :: rest /\
    length lo = (length u - 1)%nat /\ limbs_ok lo /\ is_u32 r0 /\ is_u32 r1 /\
    r0 + B32 * r1 < B32 * 2147483648 /\
    limbs_val lo + Bpow (length lo) * (r0 + B32 * r1) = limbs_val u * 2 ^ s.
Proof.
  intros Hs Hu Hn Hne.
  destruct (norm_dividend_spec u s Hs Hu Hn Hne) as (Hok & Hlen & Hv).
  revert Hok Hlen Hv. generalize (norm_dividend u s). intros nu Hok Hlen Hv.
  set (n := (length u - 1)%nat).
  assert (Hl0 : length u <> 0%nat) by (destruct u; done).
  destruct (drop_pair nu n ltac:(lia)) as (r0 & r1 & rest & Edrop).
  assert (Hltk : length (take n nu) = n) by (rewrite length_take_le; lia).
  rewrite <- (take_drop n nu), Edrop in Hok, Hv.
  rewrite limbs_ok_app, !limbs_ok_cons in Hok. destruct Hok as (Hlo & Hr0 & Hr1 & Hrest).
  rewrite limbs_val_app, Hltk in Hv. cbn [limbs_val] in Hv.
  pose proof (limbs_val_bound _ Hu) as Hbu.
  replace (length u) with (S n) in Hbu by lia. rewrite Bpow_S in Hbu.
  pose proof (limbs_val_bound _ Hlo). pose proof (limbs_val_bound _ Hrest).
  pose proof (Bpow_pos n). pose proof (pow2_pos s ltac:(lia)).
  assert (2 ^ s <= 2 ^ 31) by (apply Z.pow_le_mono_r; lia).
  change (2 ^ 31) with 2147483648 in *.
  assert (HR : r0 + B32 * (r1 + B32 * limbs_val rest) < B32 * 2 ^ s) by nia.
  unfold is_u32 in *. assert (Hz : limbs_val rest = 0) by lia. rewrite Hz in *.
  exists (take n nu), r0, r1, rest. rewrite Hltk.
  split_and!; auto; try lia. by rewrite <- Edrop, take_drop.
Qed.

Lemma divide_knuth_two a d :
  big_ok a -> big_ok d -> length (mag d) = 2%nat -> (2 <= length (mag a))%nat ->
  exists q r, divide_knuth a d (sign a * sign d) = Ok (q, r) /\ div_result a d q r /\
    big_val r = sign a * sign d * (limbs_val (mag a) mod limbs_val (mag d)) /\
    (sign a * sign d = 1 -> sign r = 1).
Proof.
  intros Ha Hd Hld Hla. destruct (Ha) as (Hsa & Hma & Hna). destruct (Hd) as (Hsd & Hmd & Hnd).
  assert (Hned : mag d <> []) by (intros E; by rewrite E in Hld).
  assert (Hnea : mag a <> []) by (intros E; rewrite E in Hla; cbn in Hla; lia).
  pose proof (normal_pos _ Hmd Hnd Hned) as Hdpos.
  unfold divide_knuth. fold (norm_dividend (mag a)
    (Bits.NumberOfLeadingZerosU32 (Back (mag d)))).
  destruct (norm_divisor_two (mag d) Hmd Hnd Hld) as (Hs & v0 & v1 & -> & Hv0 & Hv1 & HV).
  revert Hs HV. generalize (Bits.NumberOfLeadingZerosU32 (Back (mag d))). intros s Hs HV.
  pose proof (pow2_pos s ltac:(lia)) as Hp.
  destruct (dividend_window (mag a) s Hs Hma Hna Hnea)
    as (lo & r0 & r1 & rest & -> & Hlo & Hoklo & Hr0 & Hr1 & HR & Hval).
  destruct (div_loop_two v0 v1 Hv0 Hv1 lo r0 r1 rest []) as
    (q & w0 & w1 & rest' & Hloop & Hq & Hw0 & Hw1 & Hrem & _ & Hquo); auto.
  { unfold vval, is_u32 in *. lia. }
  rewrite Hld. replace (length (mag a) - 2 + 1)%nat with (length lo) by lia.
  rewrite Hloop. cbn [res_bind]. rewrite app_nil_r.
  rewrite Hval, HV in *.
  rewrite Z.mul_mod_distr_r in Hrem by lia. rewrite Z.div_mul_cancel_r in Hquo by lia.
  assert (Hsg : sign a * sign d = 1 \/ sign a * sign d = -1).
  { destruct Hsa as [-> | ->], Hsd as [-> | ->]; lia. }
  destruct (ShiftRight_spec (w0 :: w1 :: rest') 2 s Hs) as [Hokr Hvr].
  { cbn. rewrite take_0. by apply limbs_ok_pair. }
  cbn [take limbs_val] in Hvr. rewrite take_0 in Hvr. cbn [limbs_val] in Hvr.
  rewrite Z.mul_0_r, Z.add_0_r, Hrem, Z.div_mul in Hvr by lia.
  destruct (Normalize_spec (MkBig (sign a * sign d) q)) as (Oq & Vq & Sq); auto.
  destruct (Normalize_spec (MkBig (sign a * sign d) (ShiftRight (w0 :: w1 :: rest') 2 s)))
    as (Or & Vr & Sr); auto.
  do 2 eexists. split; [done|]. cbn [sign mag] in *. split.
  - apply (div_result_intro a d _ _ (sign a * sign d)); auto.
    + unfold big_val. by rewrite Sq, Vq, Hquo.
    + by rewrite Vr.
  - split; [unfold big_val; by rewrite Sr, Vr, Hvr|]. by rewrite Sr.
Qed.

(** ** The whole of [Divide] *)

(** The operands [Divide] treats right: a quotient of machine words, a divisor
    of two words, or one of the branches decided by comparing magnitudes. *)
Definition div_domain (a d : BigInteger) : Prop :=
  limbs_val (mag d) <> 0 /\
  ((length (mag a) <= 2)%nat \/ length (mag d) = 2%nat \/
   limbs_val (mag a) <= limbs_val (mag d) \/ limbs_val (mag d) = 1).

Lemma bitlen_one d :
  big_ok d -> big_fits d -> (GetBitLength d =? 1) = (limbs_val (mag d) =? 1).
Proof.
  intros Hd Hf. rewrite GetBitLength_spec by done.
  pose proof (limbs_val_bound _ (proj1 (proj2 Hd))) as Hb.
  destruct (Z.eqb_spec (limbs_val (mag d)) 0) as [->|]; [done|].
  pose proof (Z.log2_spec (limbs_val (mag d)) ltac:(lia)) as [Hlo Hhi].
  destruct (Z.eqb_spec (limbs_val (mag d)) 1) as [->|]; [done|].
  assert (1 <= Z.log2 (limbs_val (mag d))) by (apply Z.log2_le_pow2; lia).
  destruct (Z.eqb_spec (Z.log2 (limbs_val (mag d)) + 1) 1); lia.
Qed.

Lemma of_int64_sign sg : (sg = 1 \/ sg = -1) -> is_i64 sg.
Proof. unfold is_i64. lia. Qed.

Lemma Divide_ok a d :
  big_ok a -> big_ok d -> big_fits d -> div_domain a d ->
  exists q r, Divide a d = Ok (q, r) /\ div_result a d q r /\
    (limbs_val (mag d) <= limbs_val (mag a) ->
     big_val r = sign a * sign d * (limbs_val (mag a) mod limbs_val (mag d))) /\
    (sign a = 1 -> sign d = 1 -> sign r = 1).
Proof.
  intros Ha Hd Hf [Hnz Hdom]. unfold Divide.
  rewrite IsZero_spec, Compare_abs, bitlen_one by done.
  pose proof (limbs_val_bound _ (proj1 (proj2 Ha))) as Hba.
  pose proof (limbs_val_bound _ (proj1 (proj2 Hd))) as Hbd.
  destruct (Z.eqb_spec (limbs_val (mag d)) 0) as [|_]; [done|].
  assert (Hsg : sign a * sign d = 1 \/ sign a * sign d = -1).
  { destruct Ha as ([-> | ->] & _), Hd as ([-> | ->] & _); lia. }
  destruct (of_int64_ok 0 ltac:(unfold is_i64; lia)) as (Z1 & Z2 & Z3).
  destruct (Z.lt_trichotomy (limbs_val (mag a)) (limbs_val (mag d))) as [H|[H|H]].
  - rewrite cmp_lt by done. cbn [Z.eqb].
    do 2 eexists. split; [done|]. split; [|split; [lia|done]].
    apply (div_result_intro a d _ _ (sign a * sign d)); auto; [lia| |].
    + rewrite Z3, Z.div_small by lia. lia.
    + rewrite Z.mod_small by lia. done.
  - rewrite H, cmp_eq. cbn [Z.eqb].
    destruct (of_int64_ok (sign a * sign d) (of_int64_sign _ Hsg)) as (S1 & _ & S3).
    do 2 eexists. split; [done|]. rewrite <- H, Z.mod_same, Z.mul_0_r by lia.
    split; [|done]. apply (div_result_intro a d _ _ (sign a * sign d)); auto; [lia| |].
    + rewrite S3, H, Z.div_same by lia. lia.
    + rewrite H, Z.mod_same by lia. done.
  - rewrite cmp_gt by done. cbn [Z.eqb].
    destruct (Z.eqb_spec (limbs_val (mag d)) 1) as [E|E].
    { do 2 eexists. split; [done|]. rewrite E, Z.mod_1_r, Z.mul_0_r.
      split; [|done]. apply (div_result_intro a d _ _ (sign a * sign d)); auto; [lia| | |].
      - split; [done|]. apply Ha.
      - unfold big_val. cbn [sign mag]. by rewrite E, Z.div_1_r.
      - by rewrite E, Z.mod_1_r. }
    unfold GetSize. destruct (Z.leb_spec (Z.of_nat (length (mag a))) 2) as [Hl|Hl].
    + destruct (divide_small_ok a d Ha Hd ltac:(lia) ltac:(lia)) as (q & r & ? & ? & ? & ?).
      exists q, r. split_and!; auto. intros S1 S2. rewrite S1, S2 in *. auto.
    + destruct (divide_knuth_two a d Ha Hd ltac:(lia) ltac:(lia)) as (q & r & ? & ? & ? & ?).
      exists q, r. split_and!; auto. intros S1 S2. rewrite S1, S2 in *. auto.
Qed.

(** ** A divisor of one word *)

Lemma norm_divisor_one x :
  0 < x < B32 ->
  let s := Bits.NumberOfLeadingZerosU32 x in
  0 <= s < 32 /\
  exists v, ShiftLeft [x] (resize 1 0 []) s = [v] /\ 2147483648 <= v < B32.
Proof.
  intros Hx. cbn zeta. destruct (nlz_fill x Hx) as [Hs Hf].
  set (s := Bits.NumberOfLeadingZerosU32 x) in *. split; [done|].
  change 1%nat with (length [x] + 0)%nat. rewrite ShiftLeft_zeros.
  destruct (shifted_words [x] s Hs) as (Hok & Hlen & Hv); [|done|].
  { apply limbs_ok_cons. split; [unfold is_u32; lia|apply limbs_ok_nil]. }
  change (Back [x]) with x in Hv.
  rewrite shift_out_zero in Hv by (unfold is_u32; lia).
  revert Hok Hlen Hv. generalize (if s =? 0 then [x] else shl_words 0 [x] s).
  intros nv Hok Hlen Hv. destruct nv as [|v [|]]; try done.
  exists v. cbn [limbs_val] in Hv. split; [done|lia].
Qed.

Lemma read_negative l i : i < 0 -> read l i = Err OutOfBounds.
Proof. intros. unfold read. by destruct (Z.ltb_spec i 0); [|lia]. Qed.

Lemma divide_knuth_one a d sg :
  big_ok a -> big_ok d -> length (mag d) = 1%nat -> (1 <= length (mag a))%nat ->
  divide_knuth a d sg = Err OutOfBounds.
Proof.
  intros (_ & Hma & Hna) (_ & Hmd & Hnd) Hld Hla. unfold divide_knuth.
  fold (norm_dividend (mag a) (Bits.NumberOfLeadingZerosU32 (Back (mag d)))).
  destruct (mag d) as [|x [|]]; try done. destruct Hnd as [|Hnd]; [done|].
  apply limbs_ok_cons in Hmd as [Hx _]. change (Back [x]) with x in *. cbn [length].
  destruct (norm_divisor_one x) as (Hs & v & -> & Hv); [unfold is_u32 in Hx; lia|].
  destruct (dividend_window (mag a) _ Hs Hma Hna) as
    (lo & r0 & r1 & rest & -> & Hlo & _ & Hr0 & Hr1 & HR & _).
  { intros E. rewrite E in Hla. cbn in Hla. lia. }
  rewrite <- Hlo. replace (length lo + 1)%nat with (S (length lo)) by lia.
  cbn [div_loop]. unfold div_step. cbn [length].
  rewrite read_app_r1 by lia. cbn [res_bind].
  rewrite read_app_r by lia. cbn [res_bind].
  rewrite (read_ok [v] (Z.of_nat 1 - 1) v) by (lia || done). cbn [res_bind adjust].
  rewrite Bits.MakeU64_eq by done. unfold is_u32 in *.
  assert ((r0 + B32 * r1) / v < B32) by (apply Z.div_lt_upper_bound; lia).
  destruct (Z.ltb_spec UINT32_MAX ((r0 + B32 * r1) / v)); [lia|].
  rewrite read_negative by lia. done.
Qed.
End BigDiv.

(** C17. [Divide] by a divisor of two words, and every division of numbers of at
    most two words, returns the quotient truncated toward zero and a remainder of
    the right magnitude; algorithm D's quotient estimate is exact there, its
    adjustment loop ends within its fuel and no index leaves its array. *)
Theorem Divide_correct (a d : Big.BigInteger) :
  Big.big_ok a -> Big.big_ok d -> Big.big_fits d -> BigDiv.div_domain a d ->
  exists q r, BigDiv.Divide a d = Ok (q, r) /\ Big.big_ok q /\ Big.big_ok r /\
    Big.big_val q = Z.quot (Big.big_val a) (Big.big_val d) /\
    limbs_val (Big.mag r) = limbs_val (Big.mag a) mod limbs_val (Big.mag d).
Proof.
  intros Ha Hd Hf Hdom.
  destruct (BigDiv.Divide_ok a d Ha Hd Hf Hdom) as (q & r & E & (? & ? & ? & ?) & _).
  eauto 10.
Qed.

Theorem Divide_correct_witness :
  exists q r,
    BigDiv.Divide (Big.MkBig (-1) [1; 2; 3; 4]) (Big.MkBig 1 [5; 6]) = Ok (q, r) /\
    Big.big_ok q /\ Big.big_ok r /\
    Big.big_val q = Z.quot (Big.big_val (Big.MkBig (-1) [1; 2; 3; 4]))
                           (Big.big_val (Big.MkBig 1 [5; 6])) /\
    limbs_val (Big.mag r) = limbs_val [1; 2; 3; 4] mod limbs_val [5; 6].
Proof.
  apply (Divide_correct (Big.MkBig (-1) [1; 2; 3; 4]) (Big.MkBig 1 [5; 6])).
  - by apply BigFacts.big_ok_dec.
  - by apply BigFacts.big_ok_dec.
  - done.
  - split; [done|]. right. by left.
Defined.

(** A divisor of a single word under a longer dividend: the estimate of the
    first quotient word reads the divisor's word before its first one. Every
    such division, such as one by a small power of ten, is out of bounds. *)
Theorem Divide_one_word_out_of_bounds (a d : Big.BigInteger) :
  Big.big_ok a -> Big.big_ok d -> length (Big.mag d) = 1%nat ->
  limbs_val (Big.mag d) <> 1 -> (3 <= length (Big.mag a))%nat ->
  BigDiv.Divide a d = Err OutOfBounds.
Proof.
  intros Ha Hd Hl H1 Hla.
  assert (Hlt : limbs_val (Big.mag d) < limbs_val (Big.mag a)).
  { destruct (Ha) as (_ & ? & ?), (Hd) as (_ & ? & ?).
    apply BigFacts.normal_length_lt; auto. lia. }
  assert (Hnz : limbs_val (Big.mag d) <> 0).
  { destruct (Hd) as (_ & ? & ?).
    assert (Hne : Big.mag d <> []) by (intros E; by rewrite E in Hl).
    pose proof (BigFacts.normal_pos (Big.mag d) ltac:(done) ltac:(done) Hne). lia. }
  unfold BigDiv.Divide, Big.GetSize.
  rewrite BigFacts.IsZero_spec, BigFacts.Compare_abs, BigFacts.cmp_gt, BigDiv.bitlen_one
    by (done || (unfold Big.big_fits, Big.GetSize; lia)).
  destruct (Z.eqb_spec (limbs_val (Big.mag d)) 0) as [|_]; [done|].
  destruct (Z.eqb_spec (limbs_val (Big.mag d)) 1) as [|_]; [done|]. cbn [Z.eqb].
  destruct (Z.leb_spec (Z.of_nat (length (Big.mag a))) 2); [lia|].
  apply BigDiv.divide_knuth_one; auto. lia.
Qed.

Theorem Divide_one_word_witness :
  BigDiv.Divide (Big.MkBig 1 [0; 0; 5]) (Big.MkBig 1 [10]) = Err OutOfBounds.
Proof.
  apply (Divide_one_word_out_of_bounds (Big.MkBig 1 [0; 0; 5]) (Big.MkBig 1 [10]));
    [by apply BigFacts.big_ok_dec|by apply BigFacts.big_ok_dec|done|done|cbn; lia].
Defined.

(** The add-back step of algorithm D never runs: the difference that should
    be negative is computed in 32-bit unsigned arithmetic. With this dividend
    and divisor of three words the quotient is one too large and the remainder
    is not below the divisor. *)
Theorem Divide_add_back_missing :
  let u := [0; 0; 2147483648; 2147483647] in
  let v := [1; 0; 2147483648] in
  exists q r, BigDiv.Divide (Big.MkBig 1 u) (Big.MkBig 1 v) = Ok (q, r) /\
    Big.big_val q = limbs_val u / limbs_val v + 1 /\
    limbs_val v <= limbs_val (Big.mag r).
Proof.
  cbn zeta. do 2 eexists. split; [vm_compute; reflexivity|].
  split; [vm_compute; reflexivity|]. apply Z.leb_le. vm_compute. reflexivity.
Qed.
