(* ===== verification/BigIntegerText.v ===== *)
(** * BigIntegerText: reading and printing big integers

    Models [operator<<] and [operator>>] of
    [include/ignite/common/include/common/big_integer.h]. Text is a list of
    characters; an output stream of the source is the text appended to it, an
    input stream is the text that is left. The streams are in their default
    state: white space is skipped, no field width is pending. *)

From S2P Require Import Prelude Text Bits BigInteger BigIntegerFacts BigIntegerMul BigIntegerDiv.

Module BigText.
Import Text Big BigFacts BigMul BigDiv.
Local Open Scope result_scope.

(** ** Output *)

(** [os.fill('0'); os.width(19); os << x]. *)
Definition show_padded (x : Z) : list ascii :=
  let s := show_u64 x in replicate (19 - length s) "0"%char ++ s.

Definition maxUintTenPower : BigInteger := AssignUint64 big_zero 10000000000000000000.

(** The loop that takes nineteen digits at a time, least significant first. *)
Fixpoint split_parts (fuel : nat) (left' : BigInteger) : result (list Z) :=
  if IsZero left' then Ok []
  else
    match fuel with
    | O => Err OutOfFuel
    | S f =>
        do qr <- Divide left' maxUintTenPower;
        let '(left', res) := qr in
        do vals <- split_parts f left';
        Ok (u64 (ToInt64 res) :: vals)
    end.

Definition print (val : BigInteger) : result (list ascii) :=
  if IsZero val then Ok ["0"%char]
  else
    let neg := if sign val <? 0 then ["-"%char] else [] in
    do qr <- Divide val maxUintTenPower;
    let '(left', res) := qr in
    let res := if sign res <? 0 then MkBig (- sign res) (mag res) else res in
    let left' := if sign left' <? 0 then MkBig (- sign left') (mag left') else left' in
    do rest <- split_parts (length (mag val)) left';
    let vals := u64 (ToInt64 res) :: rest in
    match rev vals with
    | [] => Ok neg
    | top :: lower => Ok (neg ++ show_u64 top ++ concat (map show_padded lower))
    end.

(** ** Input *)

Fixpoint skip_ws (s : list ascii) : list ascii :=
  match s with
  | c :: s' => if isspace c then skip_ws s' else s
  | [] => []
  end.

(** [val = val * 10^partDigits + part]. *)
Definition flush (val : BigInteger) (part partDigits : Z) : BigInteger :=
  AddU64 (Multiply val (GetPowerOfTen partDigits big_zero)) part.

Fixpoint read_digits (s : list ascii) (val : BigInteger) (part partDigits : Z)
    : BigInteger * list ascii :=
  match s with
  | c :: s' =>
      if isdigit c then
        let part := u64 (part * 10 + (code c - 48)) in
        let partDigits := i32 (partDigits + 1) in
        if 1000000000000000000 <=? part
        then read_digits s' (flush val part partDigits) 0 0
        else read_digits s' val part partDigits
      else (if negb (partDigits =? 0) then flush val part partDigits else val, s)
  | [] => (if negb (partDigits =? 0) then flush val part partDigits else val, [])
  end.

(** [is >> val]: the number read and the text that is left. *)
Definition parse (s : list ascii) : BigInteger * list ascii :=
  match skip_ws s with
  | [] => (AssignInt64 big_zero 0, [])
  | c :: s' =>
      let neg := (code c =? 45) in
      let s'' := if (code c =? 45) || (code c =? 43) then s' else c :: s' in
      let '(val, rest) := read_digits s'' (AssignInt64 big_zero 0) 0 0 in
      (if neg then Negate val else val, rest)
  end.

(** [BigInteger(const char*, int32_t)] reads a stream over the characters. *)
Definition of_string (s : list ascii) : BigInteger := fst (parse s).


Lemma show_padded_spec x :
  0 <= x < 10000000000000000000 ->
  is_digits (show_padded x) /\ length (show_padded x) = 19%nat /\
  digits_val (show_padded x) = x.
Proof.
  intros Hx. unfold show_padded, show_u64.
  destruct (show_digits_spec 20 x []) as (s & -> & (Hd & Hv & Hne & _) & Hl & Hlow); [|done|].
  { change (10 ^ Z.of_nat 20) with 100000000000000000000. lia. }
  rewrite app_nil_r, digits_val_zeros, length_app, length_replicate.
  assert (length s <= 19)%nat.
  { destruct Hlow as [->|Hlow]; [lia|].
    destruct (Nat.le_gt_cases (length s) 19) as [|Hgt]; [done|].
    assert (10 ^ 19 <= 10 ^ (Z.of_nat (length s) - 1)) by (apply Z.pow_le_mono_r; lia).
    change (10 ^ 19) with 10000000000000000000 in *. lia. }
  split_and!; [|lia|done].
  apply Forall_app. split; [|done]. apply Forall_replicate. done.
Qed.

(** ** Printing: nineteen digits at a time *)

Abbreviation P19 := 10000000000000000000 (only parsing).

(** The number a list of parts denotes, least significant part first. *)
Definition parts_val (vals : list Z) : Z := fold_right (fun v n => n * P19 + v) 0 vals.
Definition parts_ok (vals : list Z) : Prop := Forall (fun v => 0 <= v < P19) vals.

Lemma max_power_ok :
  big_ok maxUintTenPower /\ big_fits maxUintTenPower /\ sign maxUintTenPower = 1 /\
  length (mag maxUintTenPower) = 2%nat /\ limbs_val (mag maxUintTenPower) = P19.
Proof.
  destruct (AssignUint64_spec big_zero P19) as (? & _ & ?); [unfold is_u64; lia|].
  split_and!; done.
Qed.

(** One division by 10^19. *)
Lemma divide_part b :
  big_ok b ->
  exists q r, Divide b maxUintTenPower = Ok (q, r) /\ big_ok q /\ big_ok r /\
    limbs_val (mag q) = limbs_val (mag b) / P19 /\
    big_val q = sign b * (limbs_val (mag b) / P19) /\
    limbs_val (mag r) = limbs_val (mag b) mod P19 /\ (sign b = 1 -> sign r = 1).
Proof.
  intros Hb. destruct max_power_ok as (Hp & Hf & Hs & Hl & Hv).
  destruct (Divide_ok b maxUintTenPower Hb Hp Hf) as (q & r & E & (Hq & Hr & Hqv & Hrv) & _ & Hrs).
  { split; [rewrite Hv; lia|]. right. by left. }
  exists q, r. rewrite Hv in Hrv.
  destruct (Hb) as (Hsb & Hmb & _). pose proof (limbs_val_bound _ Hmb).
  unfold big_val at 2 3 in Hqv. rewrite Hv, quot_signed in Hqv by (auto || lia).
  rewrite Hs, Z.mul_1_r in Hqv.
  assert (0 <= limbs_val (mag b) / P19) by (apply Z.div_pos; lia).
  split_and!; auto.
  destruct (Hq) as ([S|S] & Hmq & _); pose proof (limbs_val_bound _ Hmq);
    unfold big_val in Hqv; rewrite S in Hqv; destruct Hsb as [S2|S2]; rewrite S2 in Hqv; lia.
Qed.

Lemma part_to_u64 r :
  big_ok r -> sign r = 1 -> limbs_val (mag r) < P19 -> u64 (ToInt64 r) = limbs_val (mag r).
Proof.
  intros Hr Hs Hv. pose proof (limbs_val_bound _ (proj1 (proj2 Hr))).
  rewrite ToInt64_ok by (done || lia).
  unfold ToInt64_error, big_val. rewrite Hs. cbn [Z.ltb Z.compare].
  rewrite Z.mul_1_l, Z.add_0_r, u64_i64, u64_small; unfold is_u64; lia.
Qed.

Lemma split_parts_ok fuel l :
  big_ok l -> big_val l = limbs_val (mag l) -> limbs_val (mag l) < Bpow fuel ->
  exists vals, split_parts fuel l = Ok vals /\ parts_ok vals /\
    parts_val vals = limbs_val (mag l) /\ (vals <> [] -> List.last vals 0 <> 0).
Proof.
  revert l. induction fuel as [|fuel IH]; intros l Hl Hpos Hb; cbn [split_parts];
    rewrite IsZero_spec by done; pose proof (limbs_val_bound _ (proj1 (proj2 Hl)));
    (destruct (Z.eqb_spec (limbs_val (mag l)) 0) as [E|E];
       [exists []; rewrite E; split_and!; try done; apply Forall_nil_2|]).
  - rewrite Bpow_0 in Hb. lia.
  - assert (Hs : sign l = 1).
    { destruct (Hl) as ([S|S] & _); [done|]. unfold big_val in Hpos. rewrite S in Hpos. lia. }
    destruct (divide_part l Hl) as (q & r & -> & Hq & Hr & Hql & Hqv & Hrv & Hrs).
    cbn [res_bind]. rewrite Hs, Z.mul_1_l in Hqv. rewrite Bpow_S in Hb.
    pose proof (Z.div_mod (limbs_val (mag l)) P19 ltac:(lia)).
    pose proof (Z.mod_pos_bound (limbs_val (mag l)) P19 ltac:(lia)).
    destruct (IH q Hq ltac:(lia)) as (vals & -> & Hok & Hv & Hlast).
    { rewrite Hql. apply Z.div_lt_upper_bound; lia. }
    cbn [res_bind]. rewrite part_to_u64, Hrv by (auto; lia).
    eexists. split; [done|]. split_and!.
    + apply Forall_cons. done.
    + unfold parts_val in *. cbn [fold_right]. rewrite Hv, Hql. lia.
    + intros _. destruct vals as [|v vals]; [|by apply Hlast].
      cbn in Hv |- *. lia.
Qed.

(** Text of the parts, most significant first. *)
Lemma padded_parts s t lower :
  is_digits s -> digits_val s = t -> parts_ok lower ->
  is_digits (s ++ concat (map show_padded lower)) /\
  digits_val (s ++ concat (map show_padded lower)) =
    fold_left (fun n v => n * P19 + v) lower t.
Proof.
  intros Hs Ht Hl. revert s t Hs Ht. induction Hl as [|v lower Hv Hl IH]; intros s t Hs Ht.
  - cbn. rewrite app_nil_r. done.
  - cbn [map concat fold_left]. rewrite app_assoc.
    destruct (show_padded_spec v Hv) as (Hd & Hlen & Hval).
    apply IH; [by apply Forall_app|].
    rewrite digits_val_app, Hlen, Hval, Ht. done.
Qed.

Lemma parts_text vals top lower :
  parts_ok vals -> rev vals = top :: lower -> top <> 0 ->
  is_decimal (show_u64 top ++ concat (map show_padded lower)) (parts_val vals).
Proof.
  intros Hok Hr Ht. unfold parts_ok in Hok.
  apply List.Forall_rev in Hok. rewrite Hr in Hok. apply Forall_cons in Hok as [Htop Hlow].
  destruct (show_u64_decimal top) as (Hd & Hv & Hne & Hh); [unfold is_u64; lia|].
  destruct (padded_parts _ _ lower Hd Hv Hlow) as [Hd2 Hv2].
  split_and!; [done| | |].
  - rewrite Hv2. unfold parts_val. rewrite <- (rev_involutive vals), fold_left_rev_right, Hr.
    cbn [fold_left]. f_equal.
  - by destruct (show_u64 top).
  - intros H0. destruct (show_u64 top) as [|c l]; [done|]. cbn in H0. injection H0 as ->.
    specialize (Hh eq_refl). rewrite Hh in Hv. by rewrite <- Hv in Ht.
Qed.

(** The printed form: a sign for negative numbers, then decimal notation. *)
Definition printed (s : list ascii) (b : BigInteger) : Prop :=
  exists d, s = (if big_val b <? 0 then ["-"%char] else []) ++ d /\
            is_decimal d (Z.abs (big_val b)).

Lemma abs_val b : big_ok b -> Z.abs (big_val b) = limbs_val (mag b).
Proof.
  intros ([S|S] & Hm & _); pose proof (limbs_val_bound _ Hm); unfold big_val; rewrite S; lia.
Qed.

Lemma val_sign b : big_ok b -> limbs_val (mag b) <> 0 -> (big_val b <? 0) = (sign b <? 0).
Proof.
  intros ([S|S] & Hm & _) Hne; pose proof (limbs_val_bound _ Hm);
    unfold big_val; rewrite S; apply eq_true_iff_eq; rewrite !Z.ltb_lt; lia.
Qed.

(** Dropping the sign, as the printer does with quotient and remainder. *)
Lemma drop_sign b :
  big_ok b ->
  let b' := if sign b <? 0 then MkBig (- sign b) (mag b) else b in
  big_ok b' /\ sign b' = 1 /\ mag b' = mag b.
Proof.
  intros (Hs & Hm). destruct (Z.ltb_spec (sign b) 0); cbn zeta.
  - split; [split; [|done]|split; [|done]]; cbn [sign]; lia.
  - split; [by split|split; [lia|done]].
Qed.

Lemma print_ok b : big_ok b -> exists s, print b = Ok s /\ printed s b.
Proof.
  intros Hb. unfold print, printed. rewrite IsZero_spec, abs_val by done.
  pose proof (limbs_val_bound _ (proj1 (proj2 Hb))) as Hbd.
  destruct (Z.eqb_spec (limbs_val (mag b)) 0) as [E|E].
  { eexists. split; [done|]. exists ["0"%char]. unfold big_val. rewrite E, Z.mul_0_r.
    split; [done|]. split_and!; try done. by apply Forall_singleton. }
  destruct (divide_part b Hb) as (q & r & -> & Hq & Hr & Hql & _ & Hrv & _).
  cbn [res_bind].
  destruct (drop_sign q Hq) as (Hq' & Sq & Mq). destruct (drop_sign r Hr) as (Hr' & Sr & Mr).
  revert Hq' Sq Mq Hr' Sr Mr. cbn zeta.
  generalize (if sign q <? 0 then MkBig (- sign q) (mag q) else q).
  generalize (if sign r <? 0 then MkBig (- sign r) (mag r) else r).
  intros r' q' Hq' Sq Mq Hr' Sr Mr. rewrite <- Mq in Hql. rewrite <- Mr in Hrv.
  pose proof (Z.div_mod (limbs_val (mag b)) P19 ltac:(lia)).
  pose proof (Z.mod_pos_bound (limbs_val (mag b)) P19 ltac:(lia)).
  destruct (split_parts_ok (length (mag b)) q') as (vals & -> & Hok & Hv & Hlast); auto.
  { unfold big_val. rewrite Sq. lia. }
  { rewrite Hql. apply Z.div_lt_upper_bound; lia. }
  cbn [res_bind]. rewrite part_to_u64, Hrv by (auto; lia).
  set (all := limbs_val (mag b) mod P19 :: vals).
  assert (Hall : parts_ok all) by by apply Forall_cons.
  assert (Hval : parts_val all = limbs_val (mag b)).
  { unfold all, parts_val in *. cbn [fold_right]. rewrite Hv, Hql. lia. }
  assert (Hl0 : List.last all 0 <> 0).
  { unfold all. destruct vals as [|v vals]; [|by apply Hlast].
    cbn in Hv |- *. lia. }
  destruct (rev all) as [|top lower] eqn:Er.
  { apply (f_equal (@length Z)) in Er. rewrite length_rev in Er. done. }
  eexists. split; [done|]. eexists. split.
  - by rewrite val_sign.
  - rewrite <- Hval. apply parts_text; auto.
    apply (f_equal (@rev Z)) in Er. rewrite rev_involutive in Er. cbn [rev] in Er.
    rewrite Er, last_last in Hl0. done.
Qed.

(** ** Reading *)

Lemma flush_ok val part pd :
  big_ok val -> sign val = 1 -> is_u64 part -> 0 <= pd ->
  big_ok (flush val part pd) /\ sign (flush val part pd) = 1 /\
  limbs_val (mag (flush val part pd)) = limbs_val (mag val) * 10 ^ pd + part.
Proof.
  intros Hv Hs Hp Hpd. unfold flush.
  destruct (GetPowerOfTen_ok pd big_zero Hpd) as (Hg & Hgv & Hgs).
  destruct (Multiply_ok val _ Hv Hg) as [Hm Hmv].
  pose proof (Multiply_sign val (GetPowerOfTen pd big_zero)) as Hms.
  rewrite Hs, Hgs in Hms.
  destruct (AddU64_ok _ part Hm Hp) as (Ha & Hav & _).
  split; [done|]. split; [by apply AddU64_sign|].
  rewrite Hav. f_equal. unfold big_val in *. rewrite Hms in Hmv. rewrite Hs in Hmv.
  rewrite Hgs in Hmv, Hgv. rewrite Z.mul_1_l in Hgv. rewrite Hgv in Hmv. lia.
Qed.

(** Where the digits stop. *)
Definition ends_digits (rest : list ascii) : Prop :=
  match rest with [] => True | c :: _ => isdigit c = false end.

(** The value accumulated so far. *)
Definition read_acc (val : BigInteger) (part pd : Z) : Z :=
  limbs_val (mag val) * 10 ^ pd + part.

Definition read_inv (val : BigInteger) (part pd : Z) : Prop :=
  big_ok val /\ sign val = 1 /\ 0 <= part < 1000000000000000000 /\ 0 <= pd /\
  (pd = 0 -> part = 0).

Lemma read_digits_ok ds rest : forall val part pd,
  is_digits ds -> ends_digits rest -> read_inv val part pd ->
  pd + Z.of_nat (length ds) < 2147483648 ->
  exists v, read_digits (ds ++ rest) val part pd = (v, rest) /\ big_ok v /\ sign v = 1 /\
    limbs_val (mag v) = read_acc val part pd * 10 ^ Z.of_nat (length ds) + digits_val ds.
Proof.
  induction ds as [|c ds IH]; intros val part pd Hd Hr (Hv & Hs & Hp & Hpd & Hz) Hlen.
  - cbn [app]. change (digits_val []) with 0. change (10 ^ Z.of_nat (length [])) with 1.
    exists (if negb (pd =? 0) then flush val part pd else val).
    split; [destruct rest as [|c rest]; [done|]; cbn [read_digits]; cbn in Hr; by rewrite Hr|].
    unfold read_acc. destruct (Z.eqb_spec pd 0) as [->|Hne]; cbn [negb].
    + rewrite Hz by done. split_and!; auto. change (10 ^ 0) with 1. lia.
    + destruct (flush_ok val part pd) as (Hf & Hfs & Hfv); auto; [unfold is_u64; lia|].
      split_and!; auto. lia.
  - apply Forall_cons in Hd as [Hc Hd]. cbn [app read_digits]. rewrite Hc.
    apply isdigit_code in Hc. cbn [length] in *. rewrite Nat2Z.inj_succ in *.
    rewrite digits_val_cons, Z.pow_succ_r by lia.
    rewrite u64_small by (unfold is_u64; lia). rewrite i32_small by (unfold is_i32; lia).
    set (part' := part * 10 + (code c - 48)).
    assert (Hstep : limbs_val (mag val) * 10 ^ (pd + 1) + part' =
                    read_acc val part pd * 10 + (code c - 48)).
    { unfold read_acc. subst part'. rewrite Z.pow_add_r by lia. lia. }
    destruct (Z.leb_spec 1000000000000000000 part') as [Hbig|Hsmall].
    + destruct (flush_ok val part' (pd + 1)) as (Hf & Hfs & Hfv); auto;
        [unfold is_u64; lia|lia|].
      destruct (IH (flush val part' (pd + 1)) 0 0) as (v & -> & Ho & Hos & Hov); auto; [|lia|].
      { split_and!; auto; lia. }
      exists v. split_and!; auto. rewrite Hov. unfold read_acc at 1.
      rewrite Hfv, Hstep. change (10 ^ 0) with 1. lia.
    + destruct (IH val part' (pd + 1)) as (v & -> & Ho & Hos & Hov); auto; [|lia|].
      { split_and!; auto; lia. }
      exists v. split_and!; auto. rewrite Hov. unfold read_acc at 1. rewrite Hstep. lia.
Qed.

Lemma read_zero : read_inv (AssignInt64 big_zero 0) 0 0.
Proof. split_and!; try done; try lia. apply AssignInt64_spec. unfold is_i64. lia. Qed.

(** The text of a number as [operator>>] accepts it: white space, an optional
    sign, digits. *)
Definition sign_text (neg plus : bool) : list ascii :=
  if neg then ["-"%char] else if plus then ["+"%char] else [].

Lemma skip_ws_app ws s :
  Forall (fun c => isspace c = true) ws ->
  (match s with c :: _ => isspace c = false | [] => True end) ->
  skip_ws (ws ++ s) = s.
Proof.
  intros Hws Hs. induction Hws as [|c ws Hc Hws IH]; cbn [app skip_ws].
  - destruct s as [|c s]; [done|]. cbn. by rewrite Hs.
  - by rewrite Hc.
Qed.

Lemma parse_ok ws neg plus ds rest :
  Forall (fun c => isspace c = true) ws -> is_digits ds -> ds <> [] ->
  ends_digits rest -> Z.of_nat (length ds) < 2147483648 ->
  exists v, parse (ws ++ sign_text neg plus ++ ds ++ rest) = (v, rest) /\ big_canon v /\
    big_val v = if neg then - digits_val ds else digits_val ds.
Proof.
  intros Hws Hd Hne Hr Hlen. unfold parse.
  destruct ds as [|c ds'] eqn:Eds; [done|]. rewrite <- Eds in *.
  assert (Hc : isdigit c = true) by (rewrite Eds in Hd; by apply Forall_cons in Hd as [? _]).
  destruct (digit_not_sign c Hc) as (Hc1 & Hc2 & Hc3).
  rewrite skip_ws_app; auto.
  2:{ destruct neg, plus; cbn; try done; by rewrite Eds. }
  destruct (read_digits_ok ds rest _ 0 0 Hd Hr read_zero ltac:(lia))
    as (v & Hv & Hok & Hs & Hval).
  assert (Hval' : limbs_val (mag v) = digits_val ds).
  { rewrite Hval. change (read_acc (AssignInt64 big_zero 0) 0 0) with 0. lia. }
  pose proof (limbs_val_bound _ (proj1 (proj2 Hok))) as Hb.
  destruct neg; cbn [sign_text app].
  - change (code "-"%char) with 45. cbn [Z.eqb orb Pos.eqb]. rewrite Hv.
    exists (Negate v). split; [done|]. unfold Negate. rewrite IsZero_spec by done.
    unfold big_canon, big_val.
    destruct (Z.eqb_spec (limbs_val (mag v)) 0) as [E|E]; cbn [negb sign mag]; rewrite Hs.
    + split_and!; auto; lia.
    + split_and!; [split; [right; cbn; lia|apply Hok]|lia|lia].
  - exists v. split.
    + destruct plus; cbn [app].
      * change (code "+"%char) with 43. cbn [Z.eqb orb Pos.eqb]. by rewrite Hv.
      * rewrite Eds in Hv |- *. cbn [app] in Hv |- *. rewrite Hc1, Hc2. cbn [orb].
        by rewrite Hv.
    + unfold big_canon, big_val. rewrite Hs. split_and!; auto. lia.
Qed.
End BigText.

(** [operator<<] never fails and prints a well-formed number of any size in
    decimal notation: a minus sign exactly when it is negative, no leading zero,
    digits that denote its magnitude. *)
Theorem print_correct (b : Big.BigInteger) :
  Big.big_ok b ->
  exists d, BigText.print b = Ok ((if Big.big_val b <? 0 then ["-"%char] else []) ++ d) /\
    Text.is_decimal d (Z.abs (Big.big_val b)).
Proof.
  intros Hb. destruct (BigText.print_ok b Hb) as (s & E & d & -> & Hd). eauto.
Qed.

Theorem print_correct_witness :
  exists d, BigText.print (Big.MkBig (-1) [0; 0; 0; 5]) =
      Ok ((if Big.big_val (Big.MkBig (-1) [0; 0; 0; 5]) <? 0 then ["-"%char] else []) ++ d) /\
    Text.is_decimal d (Z.abs (Big.big_val (Big.MkBig (-1) [0; 0; 0; 5]))).
Proof. apply (print_correct (Big.MkBig (-1) [0; 0; 0; 5])). by apply BigFacts.big_ok_dec. Defined.

(** C21. What [operator<<] prints, [operator>>] reads back: the same number, with
    the rest of the input left in the stream. *)
Theorem print_parse_roundtrip (b : Big.BigInteger) (s rest : list ascii) :
  BigFacts.big_canon b -> BigText.print b = Ok s -> BigText.ends_digits rest ->
  Z.of_nat (length s) < 2147483648 ->
  BigText.parse (s ++ rest) = (b, rest).
Proof.
  intros Hb Hp Hr Hlen. destruct (BigText.print_ok b (proj1 Hb)) as (s' & E & d & Hs & Hd).
  rewrite Hp in E. injection E as <-. destruct Hd as (Hdig & Hval & Hne & _).
  destruct (BigText.parse_ok [] (Big.big_val b <? 0) false d rest)
    as (v & Hv & Hc & Hvv); auto.
  { rewrite Hs, length_app in Hlen. lia. }
  replace (s ++ rest) with ([] ++ BigText.sign_text (Big.big_val b <? 0) false ++ d ++ rest).
  - rewrite Hv. f_equal. apply BigFacts.canon_inj; auto. rewrite Hvv, Hval.
    destruct (Z.ltb_spec (Big.big_val b) 0); lia.
  - rewrite Hs. unfold BigText.sign_text. cbn [app].
    destruct (Big.big_val b <? 0); by rewrite <- ?app_assoc.
Qed.

Theorem print_parse_witness :
  let b := Big.MkBig (-1) [1; 2; 3; 4] in
  let s := list_ascii_of_string "-316912650112397582603894390785" in
  BigText.print b = Ok s /\ BigText.parse (s ++ ["x"%char]) = (b, ["x"%char]).
Proof.
  split; [vm_compute; reflexivity|].
  apply print_parse_roundtrip;
    [split; [by apply BigFacts.big_ok_dec|discriminate]|vm_compute; reflexivity|done|done].
Defined.
