(* ===== verification/BigIntegerBytes.v ===== *)
(** * BigIntegerBytes: the byte form of big integers

    Models the byte-array constructor (lines 45-150) and [MagnitudeToBytes]
    (lines 254-301) of [src/ignite/common/src/common/big_integer.cpp], with the
    zero-filling [Reset] of [FixedSizeArray]. Bytes are [int8_t] values; an
    index that the loops keep inside the array reads with [nth]. *)

From S2P Require Import Prelude Bits BigInteger BigIntegerFacts BigIntegerMul.

Module BigBytes.
Import Big BigFacts.

(** ** The byte-array constructor *)

(** [val[i] & 0xFF]. *)
Definition byte_at (val : list Z) (i : Z) : Z := Z.land (nth (Z.to_nat i) val 0) 255.

(** Four bytes from index [b] on, in direction [d] (-1 when the array is big
    endian, 1 when it is little endian), as one word. *)
Definition word_at (val : list Z) (b d : Z) : Z :=
  Z.lor (Z.lor (Z.lor (byte_at val b) (Z.shiftl (byte_at val (b + d)) 8))
               (Z.shiftl (byte_at val (b + d * 2)) 16))
        (Z.shiftl (byte_at val (b + d * 3)) 24).

Fixpoint words_at (n : nat) (val : list Z) (b d : Z) : list Z :=
  match n with
  | O => []
  | S n' => u32 (word_at val b d) :: words_at n' val (b + d * 4) d
  end.

(** The [switch] that falls through from the bytes that remain. *)
Definition last_word (val : list Z) (b d remaining : Z) : Z :=
  let w := 0 in
  let w := if 4 <=? remaining then
             Z.lor w (u32 (Z.shiftl (byte_at val (b + d * 3)) 24)) else w in
  let w := if 3 <=? remaining then
             Z.lor w (Z.shiftl (byte_at val (b + d * 2)) 16) else w in
  let w := if 2 <=? remaining then
             Z.lor w (Z.shiftl (byte_at val (b + d)) 8) else w in
  if 1 <=? remaining then Z.lor w (byte_at val b) else w.

(** The number of leading zero bytes, at most [n]. *)
Fixpoint leading_zeros (val : list Z) : Z :=
  match val with
  | x :: val' => if x =? 0 then 1 + leading_zeros val' else 0
  | [] => 0
  end.

Definition of_bytes_big_endian (val : list Z) (sgn : Z) : BigInteger :=
  let len := Z.of_nat (length val) in
  let firstNonZero := leading_zeros val in
  if firstNonZero =? len then AssignInt64 (MkBig sgn []) 0
  else
    let intLength := (len - firstNonZero + 3) / 4 in
    let b := len - 1 in
    let words := words_at (Z.to_nat (intLength - 1)) val b (-1) in
    let b := b - 4 * (intLength - 1) in
    let bytesRemaining := b - firstNonZero + 1 in
    MkBig sgn (words ++ [last_word val b (-1) bytesRemaining]).

Definition of_bytes_little_endian (val : list Z) (sgn : Z) : BigInteger :=
  let len := Z.of_nat (length val) in
  let firstNonZero := len - 1 - leading_zeros (rev val) in
  if firstNonZero =? -1 then AssignInt64 (MkBig sgn []) 0
  else
    let intLength := (firstNonZero + 4) / 4 in
    let b := 0 in
    let words := words_at (Z.to_nat (intLength - 1)) val b 1 in
    let b := b + 4 * (intLength - 1) in
    let bytesRemaining := firstNonZero - b + 1 in
    MkBig sgn (words ++ [last_word val b 1 bytesRemaining]).

(** [BigInteger(const int8_t*, int32_t, int32_t, bool)]. *)
Definition of_bytes (val : list Z) (sgn : Z) (bigEndian : bool) : BigInteger :=
  if bigEndian then of_bytes_big_endian val sgn else of_bytes_little_endian val sgn.

(** ** [MagnitudeToBytes] *)

(** One full word, most significant byte at the lowest index. *)
Definition put_word (buffer : list Z) (j w : Z) : list Z :=
  let buffer := <[Z.to_nat j := i8 w]> buffer in
  let buffer := <[Z.to_nat (j - 1) := i8 (Z.shiftr w 8)]> buffer in
  let buffer := <[Z.to_nat (j - 2) := i8 (Z.shiftr w 16)]> buffer in
  <[Z.to_nat (j - 3) := i8 (Z.shiftr w 24)]> buffer.

Fixpoint put_words (n : nat) (m buffer : list Z) (i bytesNum : Z) : list Z :=
  match n with
  | O => buffer
  | S n' =>
      let j := bytesNum - 1 - 4 * i in
      put_words n' m (put_word buffer j (nth (Z.to_nat i) m 0)) (i + 1) bytesNum
  end.

(** [buffer[i] |= x]. *)
Definition or_byte (buffer : list Z) (i : nat) (x : Z) : list Z :=
  <[i := i8 (Z.lor (nth i buffer 0) x)]> buffer.

(** The top word: its [remaining] low bytes, most significant first. *)
Definition put_top (buffer : list Z) (w remaining : Z) : list Z :=
  let '(buffer, i) :=
    if 4 <=? remaining then (or_byte buffer 0 (i8 (Z.shiftr w 24)), 1%nat)
    else (buffer, 0%nat) in
  let '(buffer, i) :=
    if 3 <=? remaining then (or_byte buffer i (i8 (Z.shiftr w 16)), S i)
    else (buffer, i) in
  let '(buffer, i) :=
    if 2 <=? remaining then (or_byte buffer i (i8 (Z.shiftr w 8)), S i)
    else (buffer, i) in
  if 1 <=? remaining then or_byte buffer i (i8 w) else buffer.

(** [FixedSizeArray::Reset]: a new array of zeros. *)
Definition Reset (n : Z) : list Z := replicate (Z.to_nat n) 0.

Definition MagnitudeToBytes (b : BigInteger) : list Z :=
  let bytesNum := i32 ((GetBitLength b + 7) / 8) in
  if bytesNum =? 0 then Reset 1
  else
    let buffer := Reset bytesNum in
    let n := Z.to_nat (GetSize (mag b) - 1) in
    let buffer := put_words n (mag b) buffer 0 bytesNum in
    put_top buffer (Back (mag b)) (bytesNum - 4 * Z.of_nat n).


(** ** The numbers byte arrays denote *)

Definition is_i8 (x : Z) : Prop := -128 <= x < 128.

(** Big-endian and little-endian values of an array of signed bytes. *)
Definition be_val (l : list Z) : Z := fold_left (fun n x => n * 256 + x mod 256) l 0.
Definition le_val (l : list Z) : Z := be_val (rev l).

(** The bytes from index [b] on in direction [d], least significant first. *)
Fixpoint sum_bytes (n : nat) (val : list Z) (b d : Z) : Z :=
  match n with
  | O => 0
  | S n' => byte_at val b + 256 * sum_bytes n' val (b + d) d
  end.

Lemma byte_range val i : 0 <= byte_at val i < 256.
Proof. unfold byte_at. rewrite land_low8. apply Z.mod_pos_bound. lia. Qed.

Lemma byte_shift val i k :
  0 <= k -> 0 <= Z.shiftl (byte_at val i) k < 2 ^ (8 + k).
Proof.
  intros Hk. pose proof (byte_range val i). rewrite Z.shiftl_mul_pow2 by lia.
  pose proof (pow2_pos k Hk). rewrite Z.pow_add_r by lia. change (2 ^ 8) with 256. nia.
Qed.

Lemma lor_byte a val i n :
  0 <= n -> 0 <= a < 2 ^ n -> Z.lor a (Z.shiftl (byte_at val i) n) = a + byte_at val i * 2 ^ n.
Proof. intros. by apply lor_shiftl_add. Qed.

Lemma lor_rev4 x y z w :
  Z.lor (Z.lor (Z.lor x y) z) w = Z.lor (Z.lor (Z.lor w z) y) x.
Proof. by rewrite (Z.lor_comm _ w), (Z.lor_comm _ z), (Z.lor_comm x y), !Z.lor_assoc. Qed.

Lemma word_at_sum val b d : word_at val b d = sum_bytes 4 val b d.
Proof.
  unfold word_at. cbn [sum_bytes].
  pose proof (byte_range val b). pose proof (byte_range val (b + d)).
  pose proof (byte_range val (b + d * 2)). pose proof (byte_range val (b + d * 3)).
  rewrite (lor_byte (byte_at val b) val (b + d) 8) by (change (2 ^ 8) with 256; lia).
  change (2 ^ 8) with 256.
  rewrite (lor_byte _ val (b + d * 2) 16) by (change (2 ^ 16) with 65536; lia).
  change (2 ^ 16) with 65536.
  rewrite (lor_byte _ val (b + d * 3) 24) by (change (2 ^ 24) with 16777216; lia).
  change (2 ^ 24) with 16777216.
  replace (b + d + d) with (b + d * 2) by lia. replace (b + d * 2 + d) with (b + d * 3) by lia.
  lia.
Qed.

Lemma sum_bytes_range n val b d : 0 <= sum_bytes n val b d < 256 ^ Z.of_nat n.
Proof.
  revert b. induction n as [|n IH]; intros b; [done|].
  cbn [sum_bytes]. rewrite Nat2Z.inj_succ, Z.pow_succ_r by lia.
  pose proof (byte_range val b). specialize (IH (b + d)). lia.
Qed.

Lemma sum_bytes_add n m val b d :
  sum_bytes (n + m) val b d =
    sum_bytes n val b d + 256 ^ Z.of_nat n * sum_bytes m val (b + d * Z.of_nat n) d.
Proof.
  revert b. induction n as [|n IH]; intros b; cbn [sum_bytes Nat.add].
  - replace (b + d * Z.of_nat 0) with b by lia. change (256 ^ Z.of_nat 0) with 1. lia.
  - rewrite IH, Nat2Z.inj_succ, Z.pow_succ_r by lia.
    replace (b + d + d * Z.of_nat n) with (b + d * Z.succ (Z.of_nat n)) by lia. ring.
Qed.

Lemma words_at_sum n val b d :
  limbs_ok (words_at n val b d) /\ length (words_at n val b d) = n /\
  limbs_val (words_at n val b d) = sum_bytes (4 * n) val b d.
Proof.
  revert b. induction n as [|n IH]; intros b; cbn [words_at].
  - split_and!; try done. apply limbs_ok_nil.
  - destruct (IH (b + d * 4)) as (Ho & Hl & Hv).
    split_and!; [|cbn; lia|].
    + apply limbs_ok_cons. split; [apply u32_range|done].
    + cbn [limbs_val]. rewrite Hv, word_at_sum.
      pose proof (sum_bytes_range 4 val b d) as H4. change (256 ^ Z.of_nat 4) with B32 in H4.
      rewrite u32_small by done.
      replace (4 * S n)%nat with (4 + 4 * n)%nat by lia. rewrite sum_bytes_add.
      change (256 ^ Z.of_nat 4) with B32. by change (Z.of_nat 4) with 4.
Qed.

Lemma last_word_sum val b d r :
  1 <= r <= 4 -> last_word val b d r = sum_bytes (Z.to_nat r) val b d.
Proof.
  intros Hr. unfold last_word.
  pose proof (byte_range val b). pose proof (byte_range val (b + d)).
  pose proof (byte_range val (b + d * 2)). pose proof (byte_range val (b + d * 3)).
  pose proof (byte_shift val (b + d * 3) 24 ltac:(lia)) as Hs. change (2 ^ (8 + 24)) with B32 in Hs.
  rewrite (u32_small (Z.shiftl _ 24)) by done.
  assert (r = 1 \/ r = 2 \/ r = 3 \/ r = 4) as [-> | [-> | [-> | ->]]] by lia;
    cbn [Z.leb Z.compare Pos.compare Pos.compare_cont]; rewrite !Z.lor_0_l.
  - change (Z.to_nat 1) with 1%nat. cbn [sum_bytes]. lia.
  - rewrite Z.lor_comm, lor_byte by (change (2 ^ 8) with 256; lia).
    change (Z.to_nat 2) with 2%nat. cbn [sum_bytes]. lia.
  - rewrite (Z.lor_comm _ (byte_at val b)), (Z.lor_comm (Z.shiftl _ 16)), Z.lor_assoc.
    rewrite (lor_byte (byte_at val b) val (b + d) 8) by (change (2 ^ 8) with 256; lia).
    rewrite (lor_byte _ val (b + d * 2) 16)
      by (change (2 ^ 16) with 65536; change (2 ^ 8) with 256; lia).
    change (Z.to_nat 3) with 3%nat. cbn [sum_bytes].
    replace (b + d + d) with (b + d * 2) by lia. lia.
  - change (Z.to_nat 4) with 4%nat. rewrite <- word_at_sum. unfold word_at.
    apply lor_rev4.
Qed.

(** The words built from [r] bytes, however many. *)
Lemma words_spec val b d r :
  1 <= r ->
  let n := (r + 3) / 4 in
  let words := words_at (Z.to_nat (n - 1)) val b d
               ++ [last_word val (b + d * 4 * (n - 1)) d (r - 4 * (n - 1))] in
  limbs_ok words /\ limbs_val words = sum_bytes (Z.to_nat r) val b d /\
  (byte_at val (b + d * (r - 1)) <> 0 -> mag_normal words).
Proof.
  intros Hr. cbn zeta. set (n := (r + 3) / 4).
  assert (Hn : 1 <= n /\ 1 <= r - 4 * (n - 1) <= 4).
  { pose proof (Z.div_mod (r + 3) 4 ltac:(lia)).
    pose proof (Z.mod_pos_bound (r + 3) 4 ltac:(lia)). subst n. lia. }
  destruct (words_at_sum (Z.to_nat (n - 1)) val b d) as (Ho & Hl & Hv).
  rewrite last_word_sum by lia.
  set (k := Z.to_nat (r - 4 * (n - 1))). set (b' := b + d * 4 * (n - 1)).
  pose proof (sum_bytes_range k val b' d) as Hk.
  assert (256 ^ Z.of_nat k <= 256 ^ 4) by (apply Z.pow_le_mono_r; lia).
  change (256 ^ 4) with B32 in *.
  split_and!.
  - apply limbs_ok_app. split; [done|]. apply limbs_ok_cons.
    split; [unfold is_u32; lia|apply limbs_ok_nil].
  - rewrite limbs_val_snoc, Hv, Hl.
    replace (Z.to_nat r) with (4 * Z.to_nat (n - 1) + k)%nat by lia.
    rewrite sum_bytes_add. do 2 f_equal.
    + unfold Bpow. change B32 with (256 ^ 4). rewrite <- Z.pow_mul_r by lia. f_equal. lia.
    + f_equal. subst b'.
      replace (Z.of_nat (4 * Z.to_nat (n - 1))) with (4 * (n - 1)) by lia. ring.
  - intros Hb. right. rewrite Back_app.
    replace k with (Nat.pred k + 1)%nat by lia. rewrite sum_bytes_add. cbn [sum_bytes].
    replace (b' + d * Z.of_nat (Nat.pred k)) with (b + d * (r - 1)).
    2:{ subst b' k. replace (Z.of_nat _) with (r - 1 - 4 * (n - 1)) by lia. ring. }
    pose proof (sum_bytes_range (Nat.pred k) val b' d).
    pose proof (byte_range val (b + d * (r - 1))). nia.
Qed.

(** ** Leading zero bytes *)

Lemma leading_zeros_spec val :
  0 <= leading_zeros val <= Z.of_nat (length val) /\
  (leading_zeros val = Z.of_nat (length val) -> Forall (fun x => x = 0) val) /\
  (leading_zeros val <> Z.of_nat (length val) ->
   nth (Z.to_nat (leading_zeros val)) val 0 <> 0).
Proof.
  induction val as [|x val (IHr & IH1 & IH2)]; cbn [leading_zeros].
  { split_and!; try done; cbn; lia. }
  destruct (Z.eqb_spec x 0) as [->|Hx]; cbn [length]; rewrite Nat2Z.inj_succ.
  - split_and!; [lia|lia| |].
    + intros E. constructor; [done|]. apply IH1. lia.
    + intros E. replace (Z.to_nat (1 + leading_zeros val))
        with (S (Z.to_nat (leading_zeros val))) by lia.
      apply IH2. lia.
  - split_and!; [lia|lia|lia|done].
Qed.

Lemma leading_zeros_take val :
  Forall (fun x => x = 0) (take (Z.to_nat (leading_zeros val)) val).
Proof.
  induction val as [|x val IH]; cbn [leading_zeros]; [by rewrite take_nil|].
  destruct (Z.eqb_spec x 0) as [->|Hx]; [|by rewrite take_0].
  pose proof (leading_zeros_spec val) as (? & _).
  replace (Z.to_nat (1 + leading_zeros val)) with (S (Z.to_nat (leading_zeros val))) by lia.
  cbn. by constructor.
Qed.

Lemma be_val_app l k :
  be_val (l ++ k) = be_val l * 256 ^ Z.of_nat (length k) + be_val k.
Proof.
  assert (H : forall acc, fold_left (fun n x => n * 256 + x mod 256) k acc =
                          acc * 256 ^ Z.of_nat (length k) + be_val k).
  { unfold be_val. induction k as [|x k IH]; intros acc; cbn [fold_left length]; [cbn; lia|].
    rewrite (IH (_ + _)), (IH (0 * 256 + _)), Nat2Z.inj_succ, Z.pow_succ_r by lia. ring. }
  unfold be_val at 1. rewrite fold_left_app. apply H.
Qed.

Lemma be_val_zeros l : Forall (fun x => x = 0) l -> be_val l = 0.
Proof.
  induction 1 as [|x l -> Hl IH]; [done|].
  change (0 :: l) with ([0] ++ l). rewrite be_val_app, IH. change (be_val [0]) with 0. lia.
Qed.

(** Reading backwards from the end gives the big-endian value. *)
Lemma sum_bytes_be val n :
  (n <= length val)%nat ->
  sum_bytes n val (Z.of_nat (length val) - 1) (-1) = be_val (drop (length val - n) val).
Proof.
  induction n as [|n IH]; intros Hn.
  - rewrite Nat.sub_0_r, drop_all. done.
  - replace (S n) with (n + 1)%nat by lia. rewrite sum_bytes_add, IH by lia.
    cbn [sum_bytes]. rewrite (drop_S val (nth (length val - (n + 1)) val 0) (length val - (n + 1))).
    2:{ destruct (nth_lookup_or_length val (length val - (n + 1)) 0); [done|lia]. }
    replace (S (length val - (n + 1))) with (length val - n)%nat by lia.
    set (x := nth (length val - (n + 1)) val 0).
    change (x :: ?l) with ([x] ++ l). rewrite be_val_app, length_drop.
    replace (length val - (length val - n))%nat with n by lia.
    unfold byte_at. rewrite land_low8.
    replace (Z.to_nat (Z.of_nat (length val) - 1 + -1 * Z.of_nat n))
      with (length val - (n + 1))%nat by lia.
    fold x. change (be_val [x]) with (x mod 256). lia.
Qed.

(** Reading a little-endian array is reading its reverse backwards. *)
Lemma byte_at_rev val i :
  0 <= i < Z.of_nat (length val) ->
  byte_at val i = byte_at (rev val) (Z.of_nat (length val) - 1 - i).
Proof.
  intros Hi. unfold byte_at. f_equal. rewrite rev_nth by lia. f_equal. lia.
Qed.

Lemma sum_bytes_rev val n i :
  0 <= i -> i + Z.of_nat n <= Z.of_nat (length val) ->
  sum_bytes n val i 1 = sum_bytes n (rev val) (Z.of_nat (length val) - 1 - i) (-1).
Proof.
  revert i. induction n as [|n IH]; intros i Hi Hn; [done|]. cbn [sum_bytes].
  rewrite byte_at_rev, IH by lia. do 3 f_equal. lia.
Qed.

(** ** The constructor is exact *)

Lemma i8_nonzero_byte x : is_i8 x -> x <> 0 -> x mod 256 <> 0.
Proof.
  unfold is_i8. intros Hx Hn E. apply Z.mod_divide in E as [k Hk]; lia.
Qed.

Lemma nth_i8 val n : Forall is_i8 val -> is_i8 (nth n val 0).
Proof.
  intros H. revert n. induction H as [|x l Hx Hl IH]; intros [|n]; cbn; auto; done.
Qed.

Lemma assign_zero b : AssignInt64 b 0 = MkBig 1 [].
Proof. done. Qed.

Definition bytes_built (v : BigInteger) (sgn n : Z) : Prop :=
  big_canon v /\ big_val v = sgn * n.

Lemma built_zero sgn : bytes_built (MkBig 1 []) sgn 0.
Proof.
  split; [|change (big_val (MkBig 1 [])) with 0; lia].
  split; [|done]. split_and!; [by left|apply limbs_ok_nil|by left].
Qed.

Lemma built_of_words sgn words n :
  (sgn = 1 \/ sgn = -1) -> limbs_ok words -> mag_normal words -> words <> [] ->
  limbs_val words = n -> bytes_built (MkBig sgn words) sgn n.
Proof.
  intros Hs Ho Hn Hne <-. split; [|done]. split; [done|].
  pose proof (normal_pos _ Ho Hn Hne). unfold big_val. cbn [sign mag]. lia.
Qed.

Lemma be_val_drop_zeros val :
  be_val (drop (Z.to_nat (leading_zeros val)) val) = be_val val.
Proof.
  rewrite <- (take_drop (Z.to_nat (leading_zeros val)) val) at 3.
  rewrite be_val_app, (be_val_zeros (take _ _)) by apply leading_zeros_take. lia.
Qed.

Lemma of_bytes_be_ok val sgn :
  Forall is_i8 val -> (sgn = 1 \/ sgn = -1) ->
  bytes_built (of_bytes_big_endian val sgn) sgn (be_val val).
Proof.
  intros Hv Hs. unfold of_bytes_big_endian.
  destruct (leading_zeros_spec val) as (Hr & Hz & Hnz).
  destruct (Z.eqb_spec (leading_zeros val) (Z.of_nat (length val))) as [E|E].
  - rewrite assign_zero, (be_val_zeros val) by auto.
    apply built_zero.
  - set (len := Z.of_nat (length val)) in *. set (r := len - leading_zeros val).
    replace (len - leading_zeros val + 3) with (r + 3) by lia.
    destruct (words_spec val (len - 1) (-1) r ltac:(lia)) as (Ho & Hval & Hn).
    cbn zeta in *. set (n := (r + 3) / 4) in *.
    replace (len - 1 + -1 * 4 * (n - 1)) with (len - 1 - 4 * (n - 1)) in * by lia.
    replace (len - 1 - 4 * (n - 1) - leading_zeros val + 1) with (r - 4 * (n - 1)) by lia.
    apply built_of_words; auto.
    + apply Hn. replace (len - 1 + -1 * (r - 1)) with (leading_zeros val) by lia.
      unfold byte_at. rewrite land_low8. apply i8_nonzero_byte; auto using nth_i8.
    + by destruct (words_at _ _ _ _).
    + rewrite Hval. unfold len. rewrite sum_bytes_be by lia.
      replace (length val - Z.to_nat r)%nat with (Z.to_nat (leading_zeros val)) by lia.
      apply be_val_drop_zeros.
Qed.

Lemma of_bytes_le_ok val sgn :
  Forall is_i8 val -> (sgn = 1 \/ sgn = -1) ->
  bytes_built (of_bytes_little_endian val sgn) sgn (le_val val).
Proof.
  intros Hv Hs. unfold of_bytes_little_endian, le_val.
  destruct (leading_zeros_spec (rev val)) as (Hr & Hz & Hnz). rewrite length_rev in *.
  set (len := Z.of_nat (length val)) in *. set (lz := leading_zeros (rev val)) in *.
  destruct (Z.eqb_spec (len - 1 - lz) (-1)) as [E|E].
  - rewrite assign_zero, (be_val_zeros (rev val)) by (apply Hz; lia).
    apply built_zero.
  - set (r := len - lz).
    replace (len - 1 - lz + 4) with (r + 3) by lia.
    destruct (words_spec val 0 1 r ltac:(lia)) as (Ho & Hval & Hn).
    cbn zeta in *. set (n := (r + 3) / 4) in *.
    replace (0 + 1 * 4 * (n - 1)) with (0 + 4 * (n - 1)) in * by lia.
    replace (len - 1 - lz - (0 + 4 * (n - 1)) + 1) with (r - 4 * (n - 1)) by lia.
    apply built_of_words; auto.
    + apply Hn. rewrite byte_at_rev by lia.
      replace (Z.of_nat (length val) - 1 - (0 + 1 * (r - 1))) with lz by lia.
      unfold byte_at. rewrite land_low8. apply i8_nonzero_byte.
      * apply nth_i8. by apply List.Forall_rev.
      * apply Hnz. lia.
    + by destruct (words_at _ _ _ _).
    + rewrite Hval. rewrite sum_bytes_rev by lia.
      rewrite <- (length_rev val), Z.sub_0_r. rewrite sum_bytes_be by (rewrite length_rev; lia).
      rewrite length_rev.
      replace (length val - Z.to_nat r)%nat with (Z.to_nat lz) by lia.
      apply be_val_drop_zeros.
Qed.

(** ** [MagnitudeToBytes] *)

Lemma put_word_spec p done w :
  put_word (replicate p 0 ++ [0; 0; 0; 0] ++ done) (Z.of_nat p + 3) w =
    replicate p 0 ++ [i8 (Z.shiftr w 24); i8 (Z.shiftr w 16); i8 (Z.shiftr w 8); i8 w] ++ done.
Proof.
  unfold put_word.
  replace (Z.to_nat (Z.of_nat p + 3)) with (length (replicate p 0%Z) + 3)%nat
    by (rewrite length_replicate; lia).
  replace (Z.to_nat (Z.of_nat p + 3 - 1)) with (length (replicate p 0%Z) + 2)%nat
    by (rewrite length_replicate; lia).
  replace (Z.to_nat (Z.of_nat p + 3 - 2)) with (length (replicate p 0%Z) + 1)%nat
    by (rewrite length_replicate; lia).
  replace (Z.to_nat (Z.of_nat p + 3 - 3)) with (length (replicate p 0%Z) + 0)%nat
    by (rewrite length_replicate; lia).
  by rewrite !insert_app_r.
Qed.

Lemma i8_mod x : i8 x mod 256 = x mod 256.
Proof. unfold i8. rewrite Zminus_mod_idemp_l. f_equal. lia. Qed.

Lemma i8_range x : is_i8 (i8 x).
Proof. unfold i8, is_i8. pose proof (Z.mod_pos_bound (x + 128) 256 ltac:(lia)). lia. Qed.

Lemma be_val_word w rest :
  is_u32 w ->
  be_val ([i8 (Z.shiftr w 24); i8 (Z.shiftr w 16); i8 (Z.shiftr w 8); i8 w] ++ rest) =
    w * 256 ^ Z.of_nat (length rest) + be_val rest.
Proof.
  intros Hw. rewrite be_val_app. do 2 f_equal. unfold be_val. cbn [fold_left].
  rewrite !i8_mod, !Z.shiftr_div_pow2 by lia. unfold is_u32 in Hw.
  change (2 ^ 24) with 16777216. change (2 ^ 16) with 65536. change (2 ^ 8) with 256.
  Z.to_euclidean_division_equations. lia.
Qed.

(** The bytes written so far, at the end of the buffer. *)
Definition written (m done : list Z) (i : nat) : Prop :=
  Forall is_i8 done /\ length done = (4 * i)%nat /\ be_val done = limbs_val (take i m).

Lemma put_words_spec n m p i done :
  limbs_ok m -> (i + n <= length m)%nat -> written m done i ->
  exists done', put_words n m (replicate (p + 4 * n) 0 ++ done) (Z.of_nat i)
      (Z.of_nat (p + 4 * n + 4 * i)) = replicate p 0 ++ done' /\ written m done' (i + n).
Proof.
  intros Hm. revert i done. induction n as [|n IH]; intros i done Hi (Hd & Hl & Hv).
  - exists done. rewrite Nat.mul_0_r, !Nat.add_0_r. done.
  - cbn [put_words]. rewrite Nat2Z.id.
    replace (Z.of_nat (p + 4 * S n + 4 * i) - 1 - 4 * Z.of_nat i)
      with (Z.of_nat (p + 4 * n) + 3) by lia.
    replace (p + 4 * S n)%nat with (p + 4 * n + 4)%nat by lia.
    rewrite (replicate_add (p + 4 * n) 4), <- app_assoc.
    change (replicate 4 0) with [0; 0; 0; 0]. rewrite put_word_spec.
    set (w := nth i m 0). assert (Hw : is_u32 w) by by apply nth_ok.
    replace (Z.of_nat i + 1) with (Z.of_nat (S i)) by lia.
    replace (p + 4 * n + 4 + 4 * i)%nat with (p + 4 * n + 4 * S i)%nat by lia.
    destruct (IH (S i) ([i8 (Z.shiftr w 24); i8 (Z.shiftr w 16); i8 (Z.shiftr w 8); i8 w] ++ done))
      as (done' & -> & Hw').
    + lia.
    + split_and!.
      * repeat (apply Forall_cons; split; [apply i8_range|]). done.
      * rewrite length_app, Hl. cbn. lia.
      * rewrite be_val_word, Hv, Hl, take_S_nth, limbs_val_snoc by (done || lia).
        rewrite length_take_le by lia. fold w. unfold Bpow.
        change B32 with (256 ^ 4). rewrite <- Z.pow_mul_r by lia.
        replace (Z.of_nat (4 * i)) with (4 * Z.of_nat i) by lia. lia.
    + exists done'. by replace (i + S n)%nat with (S i + n)%nat by lia.
Qed.

(** The [r] low bytes of a word, most significant first. *)
Definition top_bytes (r : nat) (w : Z) : list Z :=
  drop (4 - r) [i8 (Z.shiftr w 24); i8 (Z.shiftr w 16); i8 (Z.shiftr w 8); i8 w].

Lemma or_zero_byte x : i8 (Z.lor 0 (i8 x)) = i8 x.
Proof. rewrite Z.lor_0_l. apply i8_small, i8_range. Qed.

Lemma put_top_spec r w done :
  (1 <= r <= 4)%nat ->
  put_top (replicate r 0 ++ done) w (Z.of_nat r) = top_bytes r w ++ done.
Proof.
  intros Hr. assert (r = 1 \/ r = 2 \/ r = 3 \/ r = 4)%nat as [-> | [-> | [-> | ->]]] by lia;
    unfold put_top, or_byte;
    cbv [Z.of_nat Pos.of_succ_nat Pos.succ Z.leb Z.compare Pos.compare Pos.compare_cont];
    cbn -[i8 Z.shiftr Z.lor]; by rewrite !or_zero_byte.
Qed.

Lemma top_bytes_val r w rest :
  (1 <= r <= 4)%nat -> 0 <= w < 256 ^ Z.of_nat r ->
  be_val (top_bytes r w ++ rest) = w * 256 ^ Z.of_nat (length rest) + be_val rest.
Proof.
  intros Hr Hw. rewrite be_val_app. do 2 f_equal.
  assert (r = 1 \/ r = 2 \/ r = 3 \/ r = 4)%nat as [-> | [-> | [-> | ->]]] by lia;
    [change (256 ^ Z.of_nat 1) with 256 in Hw|change (256 ^ Z.of_nat 2) with 65536 in Hw
    |change (256 ^ Z.of_nat 3) with 16777216 in Hw|change (256 ^ Z.of_nat 4) with B32 in Hw];
    unfold top_bytes, be_val; cbn [drop Nat.sub fold_left];
    rewrite !i8_mod, ?Z.shiftr_div_pow2 by lia;
    change (2 ^ 24) with 16777216; change (2 ^ 16) with 65536; change (2 ^ 8) with 256;
    Z.to_euclidean_division_equations; lia.
Qed.

Lemma top_bytes_i8 r w : Forall is_i8 (top_bytes r w).
Proof.
  unfold top_bytes. apply Forall_drop.
  repeat (apply Forall_cons; split; [apply i8_range|]). apply Forall_nil_2.
Qed.

(** The bytes a magnitude with top word [w] needs. *)
Lemma byte_count m w :
  limbs_ok m -> 0 < w < B32 ->
  exists r : nat, (1 <= r <= 4)%nat /\ 0 <= w < 256 ^ Z.of_nat r /\
    (Z.log2 (limbs_val (m ++ [w])) + 1 + 7) / 8 = Z.of_nat (r + 4 * length m).
Proof.
  intros Hm Hw. rewrite limbs_val_snoc. pose proof (limbs_val_bound m Hm) as Hbm.
  rewrite Bpow_pow2 in Hbm |- *. rewrite log2_split by lia.
  pose proof (Z.log2_spec w ltac:(lia)) as [_ Hhi].
  assert (Hlog : 0 <= Z.log2 w < 32).
  { split; [apply Z.log2_nonneg|]. apply Z.log2_lt_pow2; change (2 ^ 32) with B32; lia. }
  set (r := (Z.log2 w + 8) / 8).
  assert (Hr : 8 * r <= Z.log2 w + 8 < 8 * r + 8).
  { pose proof (Z.div_mod (Z.log2 w + 8) 8 ltac:(lia)).
    pose proof (Z.mod_pos_bound (Z.log2 w + 8) 8 ltac:(lia)). subst r. lia. }
  exists (Z.to_nat r). split; [lia|]. split.
  - split; [lia|]. change 256 with (2 ^ 8). rewrite <- Z.pow_mul_r by lia.
    eapply Z.lt_le_trans; [exact Hhi|]. apply Z.pow_le_mono_r; lia.
  - replace (Z.log2 w + 32 * Z.of_nat (length m) + 1 + 7)
      with (Z.log2 w + 8 + (4 * Z.of_nat (length m)) * 8) by lia.
    rewrite Z.div_add by lia. fold r. lia.
Qed.

Lemma MagnitudeToBytes_ok b :
  big_ok b -> big_fits b ->
  Forall is_i8 (MagnitudeToBytes b) /\ be_val (MagnitudeToBytes b) = limbs_val (mag b) /\
  Z.of_nat (length (MagnitudeToBytes b)) = Z.max 1 ((GetBitLength b + 7) / 8).
Proof.
  intros Hb Hf. unfold MagnitudeToBytes. rewrite GetBitLength_spec by done.
  destruct (Z.eqb_spec (limbs_val (mag b)) 0) as [E|E].
  { change (i32 ((0 + 7) / 8)) with 0. cbn [Z.eqb]. rewrite E.
    split_and!; try done. by apply Forall_singleton. }
  destruct Hb as (_ & Hm & Hn). unfold big_fits, GetSize in *.
  destruct (snoc_view (mag b)) as [E2|(m & w & E2)]; [by rewrite E2 in E|].
  rewrite E2 in *. destruct Hn as [Hn|Hn]; [by destruct m|]. rewrite Back_app in *.
  pose proof Hm as Hmw. apply limbs_ok_app in Hmw as [Hm' Hw].
  apply limbs_ok_cons in Hw as [Hw _]. unfold is_u32 in Hw.
  rewrite length_app, Nat2Z.inj_add in Hf |- *. cbn [length] in *.
  destruct (byte_count m w Hm' ltac:(lia)) as (r & Hr & Hwr & ->).
  rewrite i32_small by (unfold is_i32; lia).
  destruct (Z.eqb_spec (Z.of_nat (r + 4 * length m)) 0); [lia|].
  replace (Z.to_nat (Z.of_nat (length m) + Z.of_nat 1 - 1)) with (length m) by lia.
  unfold Reset. rewrite Nat2Z.id.
  destruct (put_words_spec (length m) (m ++ [w]) r 0 []) as (done & Hp & Hd & Hld & Hvd).
  { done. } { rewrite length_app. lia. } { done. }
  rewrite app_nil_r, Nat.mul_0_r, Nat.add_0_r in Hp. change (Z.of_nat 0) with 0 in Hp.
  rewrite Hp.
  replace (Z.of_nat (r + 4 * length m) - 4 * Z.of_nat (length m)) with (Z.of_nat r) by lia.
  rewrite put_top_spec by lia. cbn [Nat.add] in *. rewrite take_app_length in Hvd.
  split_and!.
  - apply Forall_app. split; [apply top_bytes_i8|done].
  - rewrite top_bytes_val, Hvd, Hld, limbs_val_snoc, Bpow_pow2 by (done || lia).
    change 256 with (2 ^ 8). rewrite <- Z.pow_mul_r by lia.
    replace (8 * Z.of_nat (4 * length m)) with (32 * Z.of_nat (length m)) by lia. lia.
  - rewrite length_app, Hld. unfold top_bytes. rewrite length_drop. cbn [length]. lia.
Qed.
End BigBytes.

(** [MagnitudeToBytes] fills exactly the bytes the bit length needs, in big
    endian order, with the bytes of the magnitude. *)
Theorem MagnitudeToBytes_correct (b : Big.BigInteger) :
  Big.big_ok b -> Big.big_fits b ->
  Forall BigBytes.is_i8 (BigBytes.MagnitudeToBytes b) /\
  BigBytes.be_val (BigBytes.MagnitudeToBytes b) = limbs_val (Big.mag b) /\
  Z.of_nat (length (BigBytes.MagnitudeToBytes b)) = Z.max 1 ((Big.GetBitLength b + 7) / 8).
Proof. apply BigBytes.MagnitudeToBytes_ok. Qed.

Theorem MagnitudeToBytes_witness :
  let b := Big.MkBig 1 [2153976578; 16713221] in
  Forall BigBytes.is_i8 (BigBytes.MagnitudeToBytes b) /\
  BigBytes.be_val (BigBytes.MagnitudeToBytes b) = limbs_val (Big.mag b) /\
  Z.of_nat (length (BigBytes.MagnitudeToBytes b)) = Z.max 1 ((Big.GetBitLength b + 7) / 8).
Proof.
  apply (MagnitudeToBytes_correct (Big.MkBig 1 [2153976578; 16713221]));
    [by apply BigFacts.big_ok_dec|done].
Defined.

(** The byte constructor and [MagnitudeToBytes] are inverse: rebuilding a
    number from its sign and its bytes, in either byte order and with any
    number of leading zero bytes, gives it back. *)
Theorem bytes_roundtrip (b : Big.BigInteger) (pad : nat) :
  BigFacts.big_canon b -> Big.big_fits b ->
  let bytes := replicate pad 0 ++ BigBytes.MagnitudeToBytes b in
  BigBytes.of_bytes bytes (Big.sign b) true = b /\
  BigBytes.of_bytes (rev bytes) (Big.sign b) false = b.
Proof.
  intros Hb Hf. cbn zeta. pose proof Hb as [Hok _].
  destruct (BigBytes.MagnitudeToBytes_ok b Hok Hf) as (Hi & Hv & _).
  assert (Hi2 : Forall BigBytes.is_i8 (replicate pad 0 ++ BigBytes.MagnitudeToBytes b)).
  { apply Forall_app. split; [|done]. apply Forall_replicate. done. }
  assert (Hv2 : BigBytes.be_val (replicate pad 0 ++ BigBytes.MagnitudeToBytes b) =
                limbs_val (Big.mag b)).
  { rewrite BigBytes.be_val_app, (BigBytes.be_val_zeros (replicate pad 0)), Hv; [lia|].
    by apply Forall_replicate. }
  unfold BigBytes.of_bytes. split.
  - destruct (BigBytes.of_bytes_be_ok _ _ Hi2 (proj1 Hok)) as [Hc Hval].
    apply BigFacts.canon_inj; auto. by rewrite Hval, Hv2.
  - destruct (BigBytes.of_bytes_le_ok (rev (replicate pad 0 ++ BigBytes.MagnitudeToBytes b))
      (Big.sign b)) as [Hc Hval]; [by apply List.Forall_rev|apply Hok|].
    unfold BigBytes.le_val in Hval. rewrite rev_involutive in Hval.
    apply BigFacts.canon_inj; auto. by rewrite Hval, Hv2.
Qed.

Theorem bytes_roundtrip_witness :
  let b := Big.MkBig (-1) [2153976578; 16713221] in
  let bytes := replicate 2 0 ++ BigBytes.MagnitudeToBytes b in
  BigBytes.of_bytes bytes (Big.sign b) true = b /\
  BigBytes.of_bytes (rev bytes) (Big.sign b) false = b.
Proof.
  apply (bytes_roundtrip (Big.MkBig (-1) [2153976578; 16713221]) 2);
    [split; [by apply BigFacts.big_ok_dec|done]|done].
Defined.
