(* ===== verification/Decimal.v ===== *)
(** * Decimal: scaled big integers

    Models [src/ignite/common/src/common/decimal.cpp] and the stream operators
    of [include/ignite/common/include/common/decimal.h]. A decimal is an
    unscaled [BigInteger] and an [int32_t] scale; its value is
    [magnitude * 10^-scale]. Conversions to and from [double] are not modelled. *)

From S2P Require Import Prelude Text Bits BigInteger BigIntegerFacts BigIntegerMul BigIntegerDiv BigIntegerText BigIntegerBytes.

Module Dec.
Import Text Big BigFacts BigMul BigDiv BigText.
Local Open Scope result_scope.

Record Decimal : Type := MkDec {
  scale : Z;                 (* int32_t *)
  magnitude : BigInteger
}.

(** ** Construction *)

Definition dec_default : Decimal := MkDec 0 (of_int64 0).
Definition dec_of_bytes (val : list Z) (scale sgn : Z) (bigEndian : bool) : Decimal :=
  MkDec (Z.land scale 0x7FFFFFFF) (BigBytes.of_bytes val sgn bigEndian).
Definition dec_of_int64 (val : Z) : Decimal := MkDec 0 (of_int64 val).
Definition dec_of_int64_scale (val scale : Z) : Decimal := MkDec scale (of_int64 val).
Definition dec_of_big (val : BigInteger) (scale : Z) : Decimal := MkDec scale val.
Definition dec_AssignInt64 (d : Decimal) (val : Z) : Decimal :=
  MkDec 0 (AssignInt64 (magnitude d) val).
Definition dec_AssignUint64 (d : Decimal) (val : Z) : Decimal :=
  MkDec 0 (AssignUint64 (magnitude d) val).

(** ** Scaling *)

(** [SetScale(newScale, res)]: when the scale does not change, [res] is left as
    the caller passed it. *)
Definition SetScale (d : Decimal) (newScale : Z) (res : Decimal) : result Decimal :=
  if scale d =? newScale then Ok res
  else
    let diff := i32 (scale d - newScale) in
    if 0 <? diff then
      do qr <- Divide (magnitude d) (GetPowerOfTen diff big_zero);
      Ok (MkDec newScale (fst qr))
    else
      let adjustment := GetPowerOfTen (i32 (- diff)) big_zero in
      Ok (MkDec newScale (Multiply (magnitude d) adjustment)).

Definition dec_ToInt64 (d : Decimal) : result Z :=
  if scale d =? 0 then Ok (ToInt64 (magnitude d))
  else
    do zeroScaled <- SetScale d 0 dec_default;
    Ok (ToInt64 (magnitude zeroScaled)).

Definition dec_GetPrecision (d : Decimal) : Z := GetPrecision (magnitude d).
Definition GetMagnitudeLength (d : Decimal) : Z := GetSize (mag (magnitude d)).

Definition dec_IsNegative (d : Decimal) : bool := IsNegative (magnitude d).
Definition dec_IsZero (d : Decimal) : bool := IsZero (magnitude d).
Definition dec_IsPositive (d : Decimal) : bool := IsPositive (magnitude d).

Definition dec_Compare (d other : Decimal) : result Z :=
  if dec_IsZero d && dec_IsZero other then Ok 0
  else if scale d =? scale other then Ok (Compare (magnitude d) (magnitude other) false)
  else if scale other <? scale d then
    do scaled <- SetScale other (scale d) dec_default;
    Ok (Compare (magnitude d) (magnitude scaled) false)
  else
    do scaled <- SetScale d (scale other) dec_default;
    Ok (Compare (magnitude scaled) (magnitude other) false).

(** ** Output *)

(** The search for the last character that is not a zero, from index [n - 1]
    down to [magBegin]. *)
Fixpoint last_non_zero (n : nat) (s : list ascii) (magBegin : Z) : Z :=
  match n with
  | O => -1
  | S n' =>
      if (magBegin <=? Z.of_nat n') && (code (nth n' s "0"%char) =? 48)
      then last_non_zero n' s magBegin
      else Z.of_nat n'
  end.

(** [os.write(&s[from], len)]. *)
Definition write (s : list ascii) (from len : Z) : list ascii :=
  take (Z.to_nat len) (drop (Z.to_nat from) s).

Definition zeros (n : Z) : list ascii := replicate (Z.to_nat n) "0"%char.

Definition dec_print (d : Decimal) : result (list ascii) :=
  let unscaled := magnitude d in
  if IsZero unscaled then Ok ["0"%char]
  else if scale d <=? 0 then
    do s <- print unscaled;
    Ok (s ++ zeros (- scale d))
  else
    do magStr <- print unscaled;
    let magLen := Z.of_nat (length magStr) in
    let neg := code (nth 0 magStr "0"%char) =? 45 in
    let os := if neg then ["-"%char] else [] in
    let magBegin := if neg then 1 else 0 in
    let magLen := if neg then magLen - 1 else magLen in
    let lastNonZero := last_non_zero (length magStr) magStr magBegin in
    let dotPos := magLen - scale d in
    if dotPos <=? 0 then
      Ok (os ++ ["0"%char; "."%char] ++ zeros (- dotPos)
          ++ write magStr magBegin (lastNonZero - magBegin + 1))
    else
      let os := os ++ write magStr magBegin dotPos in
      let afterDot := lastNonZero - dotPos - magBegin + 1 in
      if 0 <? afterDot then
        Ok (os ++ ["."%char] ++ write magStr (magBegin + dotPos) afterDot)
      else Ok os.

(** ** Input *)

Record dec_state : Type := MkDs {
  ds_mag : BigInteger; ds_part : Z; ds_digits : Z; ds_scale : Z
}.

(** What follows each accepted character: the flush of a full part and the
    counting of the scale. *)
Definition dec_step (st : dec_state) : dec_state :=
  let st :=
    if 1000000000000000000 <=? ds_part st
    then MkDs (flush (ds_mag st) (ds_part st) (ds_digits st)) 0 0 (ds_scale st)
    else st in
  if 0 <=? ds_scale st
  then MkDs (ds_mag st) (ds_part st) (ds_digits st) (i32 (ds_scale st + 1))
  else st.

Fixpoint dec_digits (s : list ascii) (st : dec_state) : dec_state * list ascii :=
  match s with
  | c :: s' =>
      if isdigit c then
        dec_digits s' (dec_step (MkDs (ds_mag st) (u64 (ds_part st * 10 + (code c - 48)))
                                      (i32 (ds_digits st + 1)) (ds_scale st)))
      else if (code c =? 46) && (ds_scale st <? 0) then
        dec_digits s' (dec_step (MkDs (ds_mag st) (ds_part st) (ds_digits st) 0))
      else (st, s)
  | [] => (st, [])
  end.

(** [is >> exp] for an [int32_t]: white space, a sign, digits; out of range
    clamps, no digits gives zero. *)
Fixpoint span_digits (s : list ascii) : list ascii * list ascii :=
  match s with
  | c :: s' => if isdigit c then let '(d, r) := span_digits s' in (c :: d, r) else ([], s)
  | [] => ([], [])
  end.

Definition read_int32 (s : list ascii) : Z * list ascii :=
  let s := skip_ws s in
  let '(neg, s) :=
    match s with
    | c :: s' => if code c =? 45 then (true, s') else if code c =? 43 then (false, s')
                 else (false, s)
    | [] => (false, s)
    end in
  let '(d, rest) := span_digits s in
  let v := if neg then - digits_val d else digits_val d in
  (Z.max (-2147483648) (Z.min INT32_MAX v), rest).

Definition dec_parse (s : list ascii) : Decimal * list ascii :=
  match skip_ws s with
  | [] => (MkDec 0 (AssignInt64 big_zero 0), [])
  | c :: s' =>
      let neg := code c =? 45 in
      let s'' := if (code c =? 45) || (code c =? 43) then s' else c :: s' in
      let '(st, rest) := dec_digits s'' (MkDs (AssignInt64 big_zero 0) 0 0 (-1)) in
      let m := if negb (ds_digits st =? 0)
               then flush (ds_mag st) (ds_part st) (ds_digits st) else ds_mag st in
      let sc := if ds_scale st <? 0 then 0 else ds_scale st - 1 in
      let '(sc, rest) :=
        match rest with
        | e :: rest' =>
            if (code e =? 101) || (code e =? 69)
            then let '(exp, rest'') := read_int32 rest' in (i32 (sc - exp), rest'')
            else (sc, rest)
        | [] => (sc, rest)
        end in
      (MkDec sc (if neg then Negate m else m), rest)
  end.

(** [Decimal(const char*, int32_t)]. *)
Definition dec_of_string (s : list ascii) : Decimal := fst (dec_parse s).


(** ** Scaling and comparison *)

(** Scales far enough from the ends of [int32_t] for their difference. *)
Definition scale_ok (s : Z) : Prop := -1073741824 <= s < 1073741824.

Lemma Multiply_canon a b :
  big_canon a -> big_ok b -> sign b = 1 -> big_val b <> 0 ->
  big_canon (Multiply a b) /\ big_val (Multiply a b) = big_val a * big_val b.
Proof.
  intros [Ha Hca] Hb Hs Hnz. destruct (Multiply_ok a b Ha Hb) as [Ho Hv].
  split; [split; [done|]|done]. intros H0. rewrite Hv in H0.
  rewrite Multiply_sign, Hs, Hca; lia.
Qed.

Lemma SetScale_up d ns res :
  big_canon (magnitude d) -> scale_ok (scale d) -> scale_ok ns -> scale d < ns ->
  exists m, SetScale d ns res = Ok (MkDec ns m) /\ big_canon m /\
    big_val m = big_val (magnitude d) * 10 ^ (ns - scale d).
Proof.
  unfold scale_ok. intros Hc Hs Hn Hlt. unfold SetScale.
  destruct (Z.eqb_spec (scale d) ns); [lia|].
  rewrite i32_small by (unfold is_i32; lia).
  destruct (Z.ltb_spec 0 (scale d - ns)); [lia|].
  rewrite i32_small by (unfold is_i32; lia).
  replace (- (scale d - ns)) with (ns - scale d) by lia.
  destruct (GetPowerOfTen_ok (ns - scale d) big_zero ltac:(lia)) as (Hg & Hgv & Hgs).
  assert (0 < 10 ^ (ns - scale d)) by (apply Z.pow_pos_nonneg; lia).
  destruct (Multiply_canon (magnitude d) _ Hc Hg Hgs ltac:(lia)) as [Hm Hv].
  eexists. split; [done|]. split; [done|]. by rewrite Hv, Hgv.
Qed.

Lemma cmp_scale x y k : 0 < k -> cmp (x * k) (y * k) = cmp x y.
Proof.
  intros Hk. unfold cmp. destruct (Z.compare_spec x y), (Z.compare_spec (x * k) (y * k)); nia.
Qed.

(** The integer a decimal is at a common scale [S]. *)
Definition at_scale (d : Decimal) (S : Z) : Z := big_val (magnitude d) * 10 ^ (S - scale d).

Lemma dec_Compare_ok d o :
  big_canon (magnitude d) -> big_canon (magnitude o) ->
  scale_ok (scale d) -> scale_ok (scale o) ->
  dec_Compare d o =
    Ok (cmp (at_scale d (Z.max (scale d) (scale o))) (at_scale o (Z.max (scale d) (scale o)))).
Proof.
  intros Hd Ho Hsd Hso. unfold dec_Compare, dec_IsZero, at_scale.
  destruct (IsZero (magnitude d) && IsZero (magnitude o))%bool eqn:E.
  - apply andb_true_iff in E as [E1 E2].
    rewrite IsZero_spec in E1, E2 by (apply Hd || apply Ho). z_bool.
    unfold big_val. rewrite E1, E2, !Z.mul_0_r, !Z.mul_0_l. by rewrite cmp_eq.
  - clear E. destruct (Z.eqb_spec (scale d) (scale o)) as [E|E].
    + rewrite Compare_signed, E, Z.max_id, !Z.sub_diag by done.
      by rewrite cmp_scale by lia.
    + destruct (Z.ltb_spec (scale o) (scale d)) as [H|H].
      * destruct (SetScale_up o (scale d) dec_default Ho Hso Hsd H) as (m & -> & Hm & Hv).
        cbn [res_bind magnitude]. rewrite Compare_signed by done.
        rewrite Z.max_l, Z.sub_diag, Hv by lia. change (10 ^ 0) with 1. by rewrite Z.mul_1_r.
      * destruct (SetScale_up d (scale o) dec_default Hd Hsd Hso ltac:(lia))
          as (m & -> & Hm & Hv).
        cbn [res_bind magnitude]. rewrite Compare_signed by done.
        rewrite Z.max_r, Z.sub_diag, Hv by lia. change (10 ^ 0) with 1. by rewrite Z.mul_1_r.
Qed.

(** Scaling down truncates, where [Divide] is exact. *)
Lemma SetScale_down d ns res :
  big_ok (magnitude d) -> scale_ok (scale d) -> scale_ok ns -> ns < scale d ->
  big_fits (GetPowerOfTen (scale d - ns) big_zero) ->
  div_domain (magnitude d) (GetPowerOfTen (scale d - ns) big_zero) ->
  exists m, SetScale d ns res = Ok (MkDec ns m) /\ big_ok m /\
    big_val m = Z.quot (big_val (magnitude d)) (10 ^ (scale d - ns)).
Proof.
  unfold scale_ok. intros Hm Hs Hn Hlt Hf Hdom. unfold SetScale.
  destruct (Z.eqb_spec (scale d) ns); [lia|].
  rewrite i32_small by (unfold is_i32; lia).
  destruct (Z.ltb_spec 0 (scale d - ns)); [|lia].
  destruct (GetPowerOfTen_ok (scale d - ns) big_zero ltac:(lia)) as (Hg & Hgv & Hgs).
  destruct (Divide_ok _ _ Hm Hg Hf Hdom) as (q & r & -> & (Hq & _ & Hqv & _) & _).
  cbn [res_bind fst]. eexists. split; [done|]. split; [done|]. by rewrite Hqv, Hgv.
Qed.

(** ** Trimming zeros *)

Lemma nth_last_app (l : list ascii) x d : nth (length l) (l ++ [x]) d = x.
Proof. rewrite app_nth2, Nat.sub_diag by lia. done. Qed.

Lemma last_non_zero_stop n s lo :
  (n <= length s)%nat -> 0 <= lo ->
  let k := last_non_zero n s lo in
  k < Z.of_nat n /\ -1 <= k /\
  (forall i, Z.max lo (k + 1) <= Z.of_nat i < Z.of_nat n -> nth i s "0"%char = "0"%char).
Proof.
  cbn zeta. intros Hn Hlo. induction n as [|n IH]; cbn [last_non_zero].
  { split_and!; lia. }
  specialize (IH ltac:(lia)). destruct IH as (H1 & H2 & H3).
  destruct (Z.leb_spec lo (Z.of_nat n)); cbn [andb].
  2:{ split_and!; try lia. }
  destruct (Z.eqb_spec (code (nth n s "0"%char)) 48) as [E|E].
  - split_and!; try lia. intros i Hi. destruct (decide (i = n)) as [->|].
    + unfold code in E. rewrite <- (ascii_N_embedding (nth n s "0"%char)).
      replace (N_of_ascii (nth n s "0"%char)) with 48%N by lia. done.
    + apply H3. lia.
  - split_and!; try lia.
Qed.

(** A digit string of a positive number splits into its significant part and
    its trailing zeros where the search stops. *)
Lemma trim_zeros sg d :
  0 < digits_val d ->
  let lo := Z.of_nat (length sg) in
  let K := last_non_zero (length (sg ++ d)) (sg ++ d) lo - lo + 1 in
  0 < K <= Z.of_nat (length d) /\
  d = take (Z.to_nat K) d ++ replicate (length d - Z.to_nat K) "0"%char.
Proof.
  intros Hd. cbn zeta.
  destruct (last_non_zero_stop (length (sg ++ d)) (sg ++ d) (Z.of_nat (length sg)))
    as (H1 & H2 & H3); [lia|lia|]. cbn zeta in *.
  set (k := last_non_zero _ _ _) in *. rewrite length_app in *.
  set (K := k - Z.of_nat (length sg) + 1).
  assert (Htail : drop (Z.to_nat K) d = replicate (length d - Z.to_nat K) "0"%char).
  { apply (nth_ext _ _ "0"%char "0"%char).
    { by rewrite length_drop, length_replicate. }
    intros i Hi. rewrite length_drop in Hi. rewrite nth_skipn, nth_replicate_default.
    specialize (H3 (length sg + (Z.to_nat K + i))%nat ltac:(lia)).
    rewrite app_nth2 in H3 by lia.
    by replace (length sg + (Z.to_nat K + i) - length sg)%nat
      with (Z.to_nat K + i)%nat in H3 by lia. }
  split.
  - split; [|lia]. destruct (Z.lt_ge_cases 0 K) as [|HK]; [done|].
    replace (Z.to_nat K) with 0%nat in Htail by lia. rewrite drop_0 in Htail.
    rewrite Htail, digits_val_replicate in Hd. lia.
  - by rewrite <- Htail, take_drop.
Qed.

(** ** Reading a decimal *)

Definition dec_acc (st : dec_state) : Z := read_acc (ds_mag st) (ds_part st) (ds_digits st).

Definition dec_inv (st : dec_state) : Prop :=
  read_inv (ds_mag st) (ds_part st) (ds_digits st) /\ -1 <= ds_scale st.

Definition count_scale (sc n : Z) : Z := if 0 <=? sc then sc + n else sc.

Lemma dec_step_ok st :
  big_ok (ds_mag st) -> sign (ds_mag st) = 1 -> is_u64 (ds_part st) -> 0 <= ds_digits st ->
  (ds_digits st = 0 -> ds_part st = 0) -> -1 <= ds_scale st < INT32_MAX ->
  dec_inv (dec_step st) /\ dec_acc (dec_step st) = dec_acc st /\
  ds_scale (dec_step st) = count_scale (ds_scale st) 1 /\
  ds_digits (dec_step st) <= ds_digits st.
Proof.
  intros Hm Hs Hp Hd Hz Hsc. unfold dec_step, count_scale, dec_inv, dec_acc.
  destruct (Z.leb_spec 1000000000000000000 (ds_part st)) as [Hb|Hb];
    cbn [ds_scale ds_mag ds_part ds_digits].
  - destruct (flush_ok (ds_mag st) (ds_part st) (ds_digits st) Hm Hs Hp Hd) as (Hf & Hfs & Hfv).
    destruct (Z.leb_spec 0 (ds_scale st)); cbn [ds_scale ds_mag ds_part ds_digits];
      rewrite ?i32_small by (unfold is_i32; lia); unfold read_inv, read_acc;
      rewrite Hfv; change (10 ^ 0) with 1; (split_and!; auto; lia).
  - unfold is_u64 in Hp. destruct (Z.leb_spec 0 (ds_scale st)); cbn [ds_scale ds_mag ds_part ds_digits];
      rewrite ?i32_small by (unfold is_i32; lia); unfold read_inv; (split_and!; auto; lia).
Qed.

Lemma dec_digits_run ds rest : forall st,
  is_digits ds -> dec_inv st ->
  ds_digits st + Z.of_nat (length ds) < INT32_MAX ->
  ds_scale st + Z.of_nat (length ds) < INT32_MAX ->
  exists st', dec_digits (ds ++ rest) st = dec_digits rest st' /\ dec_inv st' /\
    dec_acc st' = dec_acc st * 10 ^ Z.of_nat (length ds) + digits_val ds /\
    ds_scale st' = count_scale (ds_scale st) (Z.of_nat (length ds)) /\
    ds_digits st' <= ds_digits st + Z.of_nat (length ds).
Proof.
  induction ds as [|c ds IH]; intros st Hd Hi Hl1 Hl2.
  - exists st. change (digits_val []) with 0. change (10 ^ Z.of_nat (length [])) with 1.
    unfold count_scale. cbn [app length]. split_and!; auto; try lia. case_test; lia.
  - apply Forall_cons in Hd as [Hc Hd]. destruct Hi as ((Hm & Hs & Hp & Hdg & Hz) & Hsc).
    cbn [app dec_digits]. rewrite Hc. apply isdigit_code in Hc.
    cbn [length] in *. rewrite Nat2Z.inj_succ in *.
    rewrite u64_small by (unfold is_u64; lia). rewrite i32_small by (unfold is_i32; lia).
    set (st1 := MkDs _ _ _ _).
    destruct (dec_step_ok st1) as (Hi1 & Ha1 & Hs1 & Hd1);
      subst st1; cbn [ds_mag ds_part ds_digits ds_scale] in *; auto; try lia;
      [unfold is_u64; lia|].
    destruct (IH _ Hd Hi1) as (st' & -> & Hi' & Ha' & Hs' & Hd').
    { lia. } { rewrite Hs1. unfold count_scale. case_test; lia. }
    exists st'. split_and!; auto.
    + rewrite Ha', Ha1. unfold dec_acc, read_acc. cbn [ds_mag ds_part ds_digits].
      rewrite digits_val_cons, Z.pow_succ_r, Z.pow_add_r by lia. ring.
    + rewrite Hs', Hs1. unfold count_scale. destruct (Z.leb_spec 0 (ds_scale st)).
      * destruct (Z.leb_spec 0 (ds_scale st + 1)); lia.
      * destruct (Z.leb_spec 0 (ds_scale st)); lia.
    + lia.
Qed.

Lemma dec_start : dec_inv (MkDs (AssignInt64 big_zero 0) 0 0 (-1)).
Proof. split; [apply read_zero|cbn; lia]. Qed.

(** The last flush of a reading. *)
Lemma dec_final st :
  dec_inv st ->
  let m := if negb (ds_digits st =? 0)
           then flush (ds_mag st) (ds_part st) (ds_digits st) else ds_mag st in
  big_ok m /\ sign m = 1 /\ limbs_val (mag m) = dec_acc st.
Proof.
  intros [(Hm & Hs & Hp & Hd & Hz) _]. cbn zeta. unfold dec_acc, read_acc.
  destruct (Z.eqb_spec (ds_digits st) 0) as [E|E]; cbn [negb].
  - rewrite Hz, E by done. change (10 ^ 0) with 1. split_and!; auto. lia.
  - apply flush_ok; auto. unfold is_u64. lia.
Qed.

(** Digits, and digits with a decimal point. *)
Lemma dec_digits_int ds :
  is_digits ds -> Z.of_nat (length ds) < 1073741824 ->
  exists st, dec_digits ds (MkDs (AssignInt64 big_zero 0) 0 0 (-1)) = (st, []) /\
    dec_inv st /\ dec_acc st = digits_val ds /\ ds_scale st = -1.
Proof.
  intros Hd Hl.
  destruct (dec_digits_run ds [] _ Hd dec_start) as (st & E & Hi & Ha & Hs & _); cbn; try lia.
  rewrite app_nil_r in E. exists st. by split_and!.
Qed.

Lemma dec_digits_frac d1 d2 :
  is_digits d1 -> is_digits d2 -> Z.of_nat (length d1) + Z.of_nat (length d2) < 1073741824 ->
  exists st, dec_digits (d1 ++ "."%char :: d2) (MkDs (AssignInt64 big_zero 0) 0 0 (-1)) = (st, []) /\
    dec_inv st /\ dec_acc st = digits_val (d1 ++ d2) /\
    ds_scale st = Z.of_nat (length d2) + 1.
Proof.
  intros Hd1 Hd2 Hl.
  destruct (dec_digits_run d1 ("."%char :: d2) _ Hd1 dec_start) as (st & -> & Hi & Ha & Hs & Hdg);
    cbn; try lia.
  cbn [dec_digits]. change (isdigit "."%char) with false.
  change (ds_scale (MkDs (AssignInt64 big_zero 0) 0 0 (-1))) with (-1) in Hs.
  change (count_scale (-1) _) with (-1) in Hs. rewrite Hs.
  change ((code "."%char =? 46) && (-1 <? 0))%bool with true. cbv iota.
  destruct Hi as ((Hm & Hsg & Hp & Hd & Hz) & _).
  set (st1 := MkDs (ds_mag st) (ds_part st) (ds_digits st) 0).
  destruct (dec_step_ok st1) as (Hi1 & Ha1 & Hs1 & Hdg1); cbn in *; auto; try lia;
    [unfold is_u64; lia|].
  change (count_scale 0 1) with 1 in Hs1.
  destruct (dec_digits_run d2 [] _ Hd2 Hi1) as (st2 & E & Hi2 & Ha2 & Hs2 & _); try lia.
  rewrite app_nil_r in E. exists st2. split_and!; auto.
  - rewrite Ha2, Ha1. change (dec_acc st1) with (dec_acc st). rewrite Ha, digits_val_app.
    change (dec_acc _) with 0 at 1. lia.
  - rewrite Hs2, Hs1. unfold count_scale. change (0 <=? 0 + 1) with true. lia.
Qed.

(** What parsing returns once the digits are read. *)
Lemma dec_parse_ok neg body st :
  body <> [] -> (match body with c :: _ => isdigit c = true | [] => False end) ->
  dec_digits body (MkDs (AssignInt64 big_zero 0) 0 0 (-1)) = (st, []) -> dec_inv st ->
  exists m, dec_parse ((if neg : bool then ["-"%char] else []) ++ body) =
      (MkDec (if ds_scale st <? 0 then 0 else ds_scale st - 1) m, []) /\
    big_canon m /\ big_val m = (if neg then - dec_acc st else dec_acc st).
Proof.
  intros Hne Hc Hd Hi. destruct (dec_final st Hi) as (Hm & Hs & Hv). cbn zeta in *.
  set (m := if negb (ds_digits st =? 0) then _ else _) in *.
  pose proof (limbs_val_bound _ (proj1 (proj2 Hm))) as Hb.
  destruct body as [|c body']; [done|]. destruct (digit_not_sign c Hc) as (Hc1 & Hc2 & Hc3).
  unfold dec_parse. destruct neg; cbn [app skip_ws].
  - change (isspace "-"%char) with false. cbv iota. change (code "-"%char) with 45.
    cbn [Z.eqb orb Pos.eqb]. rewrite Hd. fold m. exists (Negate m). split; [done|].
    unfold Negate. rewrite IsZero_spec by done. unfold big_canon, big_val.
    destruct (Z.eqb_spec (limbs_val (mag m)) 0) as [E|E]; cbn [negb sign mag]; rewrite Hs.
    + split_and!; auto; lia.
    + split_and!; [split; [right; cbn; lia|apply Hm]|lia|lia].
  - rewrite Hc3, Hc1, Hc2. cbn [orb]. rewrite Hd. fold m. exists m. split; [done|].
    unfold big_canon, big_val. rewrite Hs. split_and!; auto. lia.
Qed.

(** ** Printing a decimal *)

Lemma print_sign_char neg d :
  is_digits d -> d <> [] ->
  (code (nth 0 ((if neg : bool then ["-"%char] else []) ++ d) "0"%char) =? 45) = neg.
Proof.
  intros Hd Hne. destruct neg; [done|]. destruct d as [|c d]; [done|].
  apply Forall_cons in Hd as [Hc _]. by apply digit_not_sign.
Qed.

Lemma write_app sg (d : list ascii) from len :
  0 <= from ->
  write (sg ++ d) (Z.of_nat (length sg) + from) len = take (Z.to_nat len) (drop (Z.to_nat from) d).
Proof.
  intros Hf. unfold write. f_equal.
  replace (Z.to_nat (Z.of_nat (length sg) + from)) with (length sg + Z.to_nat from)%nat by lia.
  apply drop_app_add.
Qed.

Lemma write_app_start sg (d : list ascii) len :
  write (sg ++ d) (Z.of_nat (length sg)) len = take (Z.to_nat len) d.
Proof. rewrite <- (Z.add_0_r (Z.of_nat _)), write_app by lia. done. Qed.

(** The four shapes of the text [dec_print] produces: [K] is the number of
    digits left of the trailing zeros, [D] the position of the point. *)
Definition dec_text (neg : bool) (d : list ascii) (K D : Z) : list ascii :=
  (if neg then ["-"%char] else []) ++
  (if D <=? 0 then "0"%char :: "."%char :: zeros (- D) ++ take (Z.to_nat K) d
   else take (Z.to_nat D) d ++
        (if D <? K then "."%char :: take (Z.to_nat (K - D)) (drop (Z.to_nat D) d) else [])).

Lemma dec_print_text dc :
  big_ok (magnitude dc) -> big_val (magnitude dc) <> 0 -> 0 < scale dc ->
  exists d K, is_decimal d (Z.abs (big_val (magnitude dc))) /\
    0 < K <= Z.of_nat (length d) /\
    d = take (Z.to_nat K) d ++ replicate (length d - Z.to_nat K) "0"%char /\
    dec_print dc = Ok (dec_text (big_val (magnitude dc) <? 0) d K (Z.of_nat (length d) - scale dc)).
Proof.
  intros Hm Hnz Hs. unfold dec_print. rewrite IsZero_spec by done.
  pose proof (big_val_zero_iff _ Hm).
  destruct (Z.eqb_spec (limbs_val (mag (magnitude dc))) 0); [tauto|].
  destruct (Z.leb_spec (scale dc) 0); [lia|].
  destruct (print_ok _ Hm) as (s & -> & d & -> & Hd). cbn [res_bind].
  pose proof Hd as (Hdig & Hval & Hne & Hh). cbv zeta.
  rewrite !print_sign_char by done.
  set (neg := big_val (magnitude dc) <? 0).
  set (sg := if neg then ["-"%char] else []).
  destruct (trim_zeros sg d ltac:(lia)) as [HK Hsplit]. cbv zeta in *.
  assert (Hlo : (if neg then 1 else 0) = Z.of_nat (length sg)) by by destruct neg.
  rewrite Hlo. set (k := last_non_zero _ _ _) in *.
  set (K := k - Z.of_nat (length sg) + 1) in *.
  exists d, K. split; [done|]. split; [done|]. split; [done|].
  replace (if neg then Z.of_nat (length (sg ++ d)) - 1 else Z.of_nat (length (sg ++ d)))
    with (Z.of_nat (length d)) by (subst sg; destruct neg; cbn [app length]; lia).
  unfold dec_text. fold sg. set (D := Z.of_nat (length d) - scale dc).
  rewrite !write_app_start. fold K. destruct (Z.leb_spec D 0); [done|].
  rewrite write_app by lia.
  replace (k - D - Z.of_nat (length sg) + 1) with (K - D) by lia.
  destruct (Z.ltb_spec 0 (K - D)), (Z.ltb_spec D K); try lia.
  - by rewrite <- app_assoc.
  - by rewrite app_nil_r.
Qed.

(** Cutting trailing zeros divides by a power of ten. *)
Lemma digits_val_cut d K J :
  0 <= K <= J -> J <= Z.of_nat (length d) ->
  d = take (Z.to_nat K) d ++ replicate (length d - Z.to_nat K) "0"%char ->
  digits_val d = digits_val (take (Z.to_nat J) d) * 10 ^ (Z.of_nat (length d) - J).
Proof.
  intros HK HJ Hd.
  assert (Hdrop : drop (Z.to_nat J) d = replicate (length d - Z.to_nat J) "0"%char).
  { rewrite Hd at 1. rewrite drop_app_ge, length_take_le, drop_replicate
      by (rewrite ?length_take; lia). f_equal. lia. }
  rewrite <- (take_drop (Z.to_nat J) d) at 1.
  rewrite Hdrop, digits_val_app, digits_val_replicate, length_replicate, Z.add_0_r.
  do 2 f_equal. lia.
Qed.

Lemma is_digits_take n d : is_digits d -> is_digits (take n d).
Proof. apply Forall_take. Qed.
Lemma is_digits_zeros n : is_digits (zeros n).
Proof. by apply Forall_replicate. Qed.

(** The value of a reading that ends at the end of the text. *)
Lemma dec_parse_value neg body st sc s d :
  (match body with c :: _ => isdigit c = true | [] => False end) ->
  dec_digits body (MkDs (AssignInt64 big_zero 0) 0 0 (-1)) = (st, []) -> dec_inv st ->
  (if ds_scale st <? 0 then 0 else ds_scale st - 1) = sc -> 0 <= sc <= s ->
  d = dec_acc st * 10 ^ (s - sc) ->
  exists dc, dec_parse ((if neg : bool then ["-"%char] else []) ++ body) = (dc, []) /\
    big_canon (magnitude dc) /\ 0 <= scale dc <= s /\
    big_val (magnitude dc) * 10 ^ (s - scale dc) = (if neg then - d else d).
Proof.
  intros Hb Hdd Hi Hsc Hr ->.
  destruct (dec_parse_ok neg body st) as (m & E & Hm & Hmv); auto; [by destruct body|].
  eexists. split; [exact E|]. rewrite Hsc. cbn [scale magnitude].
  split; [done|]. split; [done|]. rewrite Hmv. destruct neg; ring.
Qed.

(** Reading back the text of a positive-scale decimal. *)
Lemma dec_text_parse neg d K s :
  is_digits d -> 0 < K <= Z.of_nat (length d) -> 0 < s ->
  Z.of_nat (length d) + s < 536870912 ->
  d = take (Z.to_nat K) d ++ replicate (length d - Z.to_nat K) "0"%char ->
  exists dc, dec_parse (dec_text neg d K (Z.of_nat (length d) - s)) = (dc, []) /\
    big_canon (magnitude dc) /\ 0 <= scale dc <= s /\
    big_val (magnitude dc) * 10 ^ (s - scale dc) =
      (if neg then - digits_val d else digits_val d).
Proof.
  intros Hd HK Hs Hlen Hcut. unfold dec_text. set (D := Z.of_nat (length d) - s).
  assert (Hhead : forall n, 0 < n -> exists c r, take (Z.to_nat n) d = c :: r /\ isdigit c = true).
  { intros n Hn. destruct d as [|c d']; [cbn in HK; lia|].
    replace (Z.to_nat n) with (S (Z.to_nat (n - 1))) by lia.
    apply Forall_cons in Hd as [Hc _]. eexists _, _. split; [done|done]. }
  destruct (Z.leb_spec D 0) as [HD|HD].
  - destruct (dec_digits_frac ["0"%char] (zeros (- D) ++ take (Z.to_nat K) d))
      as (st & E & Hi & Ha & Hsc).
    { by apply Forall_singleton. }
    { apply Forall_app. split; [apply is_digits_zeros|by apply is_digits_take]. }
    { unfold zeros. rewrite length_app, length_replicate, length_take_le by lia. cbn. lia. }
    assert (Hl : Z.of_nat (length (zeros (- D) ++ take (Z.to_nat K) d)) = K - D).
    { unfold zeros. rewrite length_app, length_replicate, length_take_le by lia. lia. }
    rewrite Hl in Hsc. apply (dec_parse_value neg _ st (K - D)); [done|exact E|done| |lia|rewrite Ha].
    + rewrite Hsc. destruct (Z.ltb_spec (K - D + 1) 0); lia.
    + change (["0"%char] ++ ?x) with (replicate 1 "0"%char ++ x). unfold zeros.
      rewrite !digits_val_zeros.
      rewrite (digits_val_cut d K K) by (done || lia). do 2 f_equal. lia.
  - destruct (Z.ltb_spec D K) as [HDK|HDK].
    + destruct (Hhead D HD) as (c & r & Ec & Hc).
      assert (Hj : take (Z.to_nat D) d ++ take (Z.to_nat (K - D)) (drop (Z.to_nat D) d) =
                   take (Z.to_nat K) d).
      { rewrite take_drop_commute.
        replace (Z.to_nat D + Z.to_nat (K - D))%nat with (Z.to_nat K) by lia.
        rewrite <- (take_drop (Z.to_nat D) (take (Z.to_nat K) d)) at 2.
        rewrite take_take. do 2 f_equal. lia. }
      destruct (dec_digits_frac (take (Z.to_nat D) d) (take (Z.to_nat (K - D)) (drop (Z.to_nat D) d)))
        as (st & E & Hi & Ha & Hsc).
      { by apply is_digits_take. } { apply is_digits_take. by apply Forall_drop. }
      { rewrite !length_take, length_drop. lia. }
      rewrite Hj in Ha.
      assert (Hl : Z.of_nat (length (take (Z.to_nat (K - D)) (drop (Z.to_nat D) d))) = K - D).
      { rewrite length_take, length_drop. lia. }
      rewrite Hl in Hsc. 
      apply (dec_parse_value neg _ st (K - D)); [by rewrite Ec|exact E|done| |lia|rewrite Ha].
      * rewrite Hsc. destruct (Z.ltb_spec (K - D + 1) 0); lia.
      * rewrite (digits_val_cut d K K) by (done || lia). do 2 f_equal. lia.
    + rewrite app_nil_r. destruct (Hhead D HD) as (c & r & Ec & Hc).
      destruct (dec_digits_int (take (Z.to_nat D) d)) as (st & E & Hi & Ha & Hsc).
      { by apply is_digits_take. } { rewrite length_take. lia. }
      apply (dec_parse_value neg _ st 0); [by rewrite Ec|exact E|done| |lia|rewrite Ha].
      * by rewrite Hsc.
      * rewrite (digits_val_cut d K D) by (done || lia). do 2 f_equal. lia.
Qed.

(** Equal integers at a common scale compare as equal. *)
Lemma at_scale_lift d o S :
  scale d <= S -> scale o <= S -> at_scale d S = at_scale o S ->
  at_scale d (Z.max (scale d) (scale o)) = at_scale o (Z.max (scale d) (scale o)).
Proof.
  unfold at_scale. intros Hd Ho E. set (M := Z.max (scale d) (scale o)).
  apply (Z.mul_reg_r _ _ (10 ^ (S - M))).
  { apply Z.pow_nonzero; lia. }
  rewrite <- !Z.mul_assoc, <- !Z.pow_add_r by lia.
  replace (M - scale d + (S - M)) with (S - scale d) by lia.
  by replace (M - scale o + (S - M)) with (S - scale o) by lia.
Qed.

(** Decimals of at most 2^27 bits with a scale of at most 2^28 either way. *)
Definition dec_fits (d : Decimal) : Prop :=
  GetSize (mag (magnitude d)) <= 4194304 /\ -268435456 <= scale d <= 268435456.

Lemma fits_length d b :
  big_ok (magnitude d) -> dec_fits d -> big_val (magnitude d) <> 0 ->
  is_decimal b (Z.abs (big_val (magnitude d))) -> Z.of_nat (length b) <= 134217728.
Proof.
  intros Hm [Hf _] Hnz Hb. apply (decimal_length b _ _ Hb); [|lia].
  rewrite abs_val in * by done.
  pose proof (limbs_val_bound _ (proj1 (proj2 Hm))) as Hbd. pose proof (big_val_zero_iff _ Hm).
  unfold GetSize in Hf. split; [lia|]. eapply Z.lt_le_trans; [apply Hbd|].
  rewrite Bpow_pow2. apply Z.pow_le_mono_r; lia.
Qed.

Lemma dec_print_parse_ok d s :
  big_canon (magnitude d) -> dec_fits d -> dec_print d = Ok s ->
  exists d', dec_parse s = (d', []) /\ big_canon (magnitude d') /\ scale_ok (scale d') /\
    at_scale d' (Z.max (scale d') (scale d)) = at_scale d (Z.max (scale d') (scale d)).
Proof.
  intros Hc Hfit Hp. pose proof Hfit as [_ Hs]. unfold scale_ok.
  pose proof (proj1 Hc) as Hm.
  destruct (decide (big_val (magnitude d) = 0)) as [E|E].
  - unfold dec_print in Hp. rewrite IsZero_spec in Hp by done.
    rewrite (proj2 (Z.eqb_eq _ _) (proj1 (big_val_zero_iff _ Hm) E)) in Hp. injection Hp as <-.
    exists (MkDec 0 big_zero). split; [vm_compute; reflexivity|].
    unfold at_scale. rewrite E. cbn [scale magnitude].
    split; [split; [split_and!; [by left|apply limbs_ok_nil|by left]|done]|].
    split; [lia|by rewrite !Z.mul_0_l].
  - destruct (Z.leb_spec (scale d) 0) as [Hle|Hgt].
    + unfold dec_print in Hp. rewrite IsZero_spec in Hp by done.
      pose proof (big_val_zero_iff _ Hm).
      destruct (Z.eqb_spec (limbs_val (mag (magnitude d))) 0); [tauto|].
      destruct (Z.leb_spec (scale d) 0); [|lia].
      destruct (print_ok _ Hm) as (t & Ht & b & -> & Hdec).
      pose proof (fits_length d b Hm Hfit E Hdec). destruct Hdec as (Hb & Hv & Hne & _).
      rewrite Ht in Hp. cbn [res_bind] in Hp. injection Hp as <-. rewrite <- app_assoc.
      destruct (dec_digits_int (b ++ zeros (- scale d))) as (st & Ed & Hi & Ha & Hsc).
      { apply Forall_app. split; [done|apply is_digits_zeros]. }
      { unfold zeros. rewrite length_app, length_replicate. lia. }
      destruct (dec_parse_value (big_val (magnitude d) <? 0) (b ++ zeros (- scale d)) st 0 0
        (digits_val (b ++ zeros (- scale d)))) as (dc & Hdc & Hcc & Hsd & Hval); auto; try lia.
      { destruct b; [done|]. by apply Forall_cons in Hb as [? _]. }
      { by rewrite Hsc. } 
      exists dc. split; [done|]. split; [done|]. split; [lia|].
      unfold at_scale. replace (scale dc) with 0 in * by lia. rewrite Z.max_l by lia.
      rewrite Hval. unfold zeros. rewrite digits_val_app, digits_val_replicate, length_replicate, Hv.
      replace (Z.of_nat (Z.to_nat (- scale d))) with (0 - scale d) by lia.
      destruct (Z.ltb_spec (big_val (magnitude d)) 0); [rewrite Z.abs_neq by lia|rewrite Z.abs_eq by lia]; ring.
    + destruct (dec_print_text d Hm E Hgt) as (b & K & Hdec & HK & Hcut & Hpt).
      pose proof (fits_length d b Hm Hfit E Hdec). destruct Hdec as (Hb & Hv & _).
      rewrite Hp in Hpt. injection Hpt as ->.
      destruct (dec_text_parse (big_val (magnitude d) <? 0) b K (scale d)) as
        (dc & Hdc & Hcc & Hsd & Hval); auto; [lia|].
      exists dc. split; [done|]. split; [done|]. split; [lia|].
      unfold at_scale. rewrite Z.max_r, Hval, Hv, Z.sub_diag by lia. change (10 ^ 0) with 1.
      destruct (Z.ltb_spec (big_val (magnitude d)) 0); lia.
Qed.
End Dec.

(** [Decimal::Compare] orders decimals by their exact values: whichever
    scale is larger, the other operand is scaled up, so nothing is rounded. *)
Theorem dec_Compare_correct (d o : Dec.Decimal) :
  BigFacts.big_canon (Dec.magnitude d) -> BigFacts.big_canon (Dec.magnitude o) ->
  Dec.scale_ok (Dec.scale d) -> Dec.scale_ok (Dec.scale o) ->
  let S := Z.max (Dec.scale d) (Dec.scale o) in
  Dec.dec_Compare d o =
    Ok (match Big.big_val (Dec.magnitude d) * 10 ^ (S - Dec.scale d) ?=
              Big.big_val (Dec.magnitude o) * 10 ^ (S - Dec.scale o) with
        | Lt => -1 | Eq => 0 | Gt => 1 end).
Proof. intros. by apply Dec.dec_Compare_ok. Qed.

Theorem dec_Compare_witness :
  let d := Dec.MkDec 3 (Big.MkBig (-1) [1500]) in
  let o := Dec.MkDec 1 (Big.MkBig (-1) [15]) in
  let S := Z.max (Dec.scale d) (Dec.scale o) in
  Dec.dec_Compare d o =
    Ok (match Big.big_val (Dec.magnitude d) * 10 ^ (S - Dec.scale d) ?=
              Big.big_val (Dec.magnitude o) * 10 ^ (S - Dec.scale o) with
        | Lt => -1 | Eq => 0 | Gt => 1 end).
Proof.
  apply (dec_Compare_correct (Dec.MkDec 3 (Big.MkBig (-1) [1500]))
                             (Dec.MkDec 1 (Big.MkBig (-1) [15]))).
  - split; [by apply BigFacts.big_ok_dec|done].
  - split; [by apply BigFacts.big_ok_dec|done].
  - unfold Dec.scale_ok. cbn. lia.
  - unfold Dec.scale_ok. cbn. lia.
Defined.

(** C20. What [operator<<] prints for a decimal, [operator>>] reads back as a
    decimal of the same value: the point is put where the scale says, zeros are
    added before it or after it as needed, and only trailing zeros are lost. *)
Theorem dec_print_parse (d : Dec.Decimal) (s : list ascii) :
  BigFacts.big_canon (Dec.magnitude d) -> Dec.dec_fits d -> Dec.dec_print d = Ok s ->
  exists d', Dec.dec_parse s = (d', []) /\ Dec.dec_Compare d' d = Ok 0.
Proof.
  intros Hc Hf Hp. destruct (Dec.dec_print_parse_ok d s Hc Hf Hp) as (d' & E & Hc' & Hs' & Hv).
  exists d'. split; [done|]. rewrite Dec.dec_Compare_ok; auto.
  - by rewrite Hv, BigFacts.cmp_eq.
  - destruct Hf as [_ Hs]. unfold Dec.scale_ok. lia.
Qed.

Theorem dec_print_parse_witness :
  let d := Dec.MkDec 5 (Big.MkBig (-1) [1234500]) in
  let s := list_ascii_of_string "-12.345" in
  Dec.dec_print d = Ok s /\
  exists d', Dec.dec_parse s = (d', []) /\ Dec.dec_Compare d' d = Ok 0.
Proof.
  split; [vm_compute; reflexivity|].
  apply (dec_print_parse (Dec.MkDec 5 (Big.MkBig (-1) [1234500]))).
  - split; [by apply BigFacts.big_ok_dec|done].
  - unfold Dec.dec_fits, Big.GetSize. cbn. lia.
  - vm_compute. reflexivity.
Defined.

(** [SetScale] to a smaller scale truncates toward zero: the unscaled value
    becomes the quotient by the power of ten, wherever [Divide] is exact. *)
Theorem SetScale_truncates (d : Dec.Decimal) (ns : Z) (res : Dec.Decimal) :
  Big.big_ok (Dec.magnitude d) -> Dec.scale_ok (Dec.scale d) -> Dec.scale_ok ns ->
  ns < Dec.scale d ->
  let p := Big.GetPowerOfTen (Dec.scale d - ns) Big.big_zero in
  Big.big_fits p -> BigDiv.div_domain (Dec.magnitude d) p ->
  exists m, Dec.SetScale d ns res = Ok (Dec.MkDec ns m) /\ Big.big_ok m /\
    Big.big_val m = Z.quot (Big.big_val (Dec.magnitude d)) (10 ^ (Dec.scale d - ns)).
Proof. intros. by apply Dec.SetScale_down. Qed.

Theorem SetScale_truncates_witness :
  let d := Dec.MkDec 4 (Big.MkBig (-1) [129999]) in
  exists m, Dec.SetScale d 1 Dec.dec_default = Ok (Dec.MkDec 1 m) /\ Big.big_ok m /\
    Big.big_val m = Z.quot (Big.big_val (Dec.magnitude d)) (10 ^ (Dec.scale d - 1)).
Proof.
  apply (SetScale_truncates (Dec.MkDec 4 (Big.MkBig (-1) [129999])) 1).
  - by apply BigFacts.big_ok_dec.
  - unfold Dec.scale_ok. cbn. lia.
  - unfold Dec.scale_ok. lia.
  - cbn. lia.
  - vm_compute. discriminate.
  - split; [vm_compute; discriminate|]. left. cbn. lia.
Defined.

(** [SetScale] to the scale a decimal already has does not assign its
    output argument: the caller keeps whatever [res] held before, here zero for
    a default-constructed result. *)
Theorem SetScale_same_scale (d res : Dec.Decimal) :
  Dec.SetScale d (Dec.scale d) res = Ok res.
Proof. unfold Dec.SetScale. by rewrite Z.eqb_refl. Qed.
