(* ===== verification/Calendar.v ===== *)
(** * Calendar: dates, times and timestamps

    Models [src/timestamp.cpp], [src/time.cpp],
    [src/ignite/common/src/date.cpp], the conversions between them and
    [struct tm] of [include/iotsitewise/odbc/utils.h] and [src/utils.cpp], and
    the wrappers of [os/ignite/common/os/linux/src/common/platform_utils.cpp].
    [timegm], [gmtime_r], [sscanf] and [strftime] of the C library are written
    out as far as the driver uses them: seconds since 1970 in the proleptic
    Gregorian calendar, without leap seconds. *)

From S2P Require Import Prelude Text.

Module Calendar.
Import Text.

(** ** The Gregorian calendar *)

Definition is_leap (y : Z) : bool :=
  (y mod 4 =? 0) && (negb (y mod 100 =? 0) || (y mod 400 =? 0)).

Definition days_in_month (y m : Z) : Z :=
  if m =? 2 then if is_leap y then 29 else 28
  else if (m =? 4) || (m =? 6) || (m =? 9) || (m =? 11) then 30 else 31.

Definition valid_date (y m d : Z) : bool :=
  (1 <=? m) && (m <=? 12) && (1 <=? d) && (d <=? days_in_month y m).

(** Days since 1970-01-01; the year starts in March, so that the leap day is
    its last, and 400 years are [146097] days. *)
Definition day_of_era (yoe mp d : Z) : Z :=
  yoe * 365 + yoe / 4 - yoe / 100 + ((153 * mp + 2) / 5 + d - 1).

Definition days_from_civil (y m d : Z) : Z :=
  let y := if m <=? 2 then y - 1 else y in
  y / 400 * 146097 + day_of_era (y mod 400) ((m + 9) mod 12) d - 719468.

(** Year of the era, month from March and day of a day of the era. *)
Definition era_date (doe : Z) : Z * Z * Z :=
  let yoe := (doe - doe / 1460 + doe / 36524 - doe / 146096) / 365 in
  let doy := doe - (365 * yoe + yoe / 4 - yoe / 100) in
  let mp := (5 * doy + 2) / 153 in
  (yoe, mp, doy - (153 * mp + 2) / 5 + 1).

Definition civil_from_days (z : Z) : Z * Z * Z :=
  let z := z + 719468 in
  let '(yoe, mp, d) := era_date (z mod 146097) in
  let m := if mp <? 10 then mp + 3 else mp - 9 in
  (yoe + z / 146097 * 400 + (if m <=? 2 then 1 else 0), m, d).

(** ** [struct tm] *)

Record tm : Type := MkTm {
  tm_sec : Z; tm_min : Z; tm_hour : Z; tm_mday : Z; tm_mon : Z; tm_year : Z
}.
Definition tm_zero : tm := MkTm 0 0 0 0 0 0.

(** Fields outside their ranges are carried over, as [timegm] does. *)
Definition timegm (t : tm) : Z :=
  let y := tm_year t + 1900 + tm_mon t / 12 in
  let m := tm_mon t mod 12 + 1 in
  (days_from_civil y m 1 + tm_mday t - 1) * 86400
    + tm_hour t * 3600 + tm_min t * 60 + tm_sec t.

(** [None]: the year does not fit an [int]. *)
Definition gmtime_r (s : Z) : option tm :=
  let '(y, m, d) := civil_from_days (s / 86400) in
  let r := s mod 86400 in
  if (y - 1900 <? -2147483648) || (2147483647 <? y - 1900) then None
  else Some (MkTm (r mod 60) (r / 60 mod 60) (r / 3600) d (m - 1) (y - 1900)).

Definition IgniteTimeGm (t : tm) : Z := timegm t.
Definition IgniteGmTime (s : Z) : option tm := gmtime_r s.

(** ** The classes of the driver *)

Definition Date : Type := Z.
Definition Date_GetSeconds (d : Date) : Z := Z.quot d 1000.

Record Timestamp : Type := MkTimestamp { ts_seconds : Z; ts_fractionNs : Z }.
Definition Timestamp_of_ms (ms : Z) : Timestamp :=
  MkTimestamp (Z.quot ms 1000) (i32 (Z.rem ms 1000 * 1000000)).
Definition Timestamp_GetMilliseconds (t : Timestamp) : Z :=
  i64 (ts_seconds t * 1000 + Z.quot (ts_fractionNs t) 1000000).
Definition Timestamp_GetDate (t : Timestamp) : Date := Timestamp_GetMilliseconds t.

Record Time : Type := MkTime { t_seconds : Z; t_fractionNs : Z }.
Definition Time_of_ms (ms : Z) : Time :=
  MkTime (i32 (Z.quot ms 1000)) (i32 (Z.rem ms 1000 * 100000)).
Definition Time_GetMilliseconds (t : Time) : Z :=
  i32 (i32 (t_seconds t * 1000) + Z.quot (t_fractionNs t) 1000).

Definition DateToCTm (d : Date) : option tm := IgniteGmTime (Date_GetSeconds d).
Definition TimestampToCTm (t : Timestamp) : option tm := IgniteGmTime (ts_seconds t).
Definition TimeToCTm (t : Time) : option tm := IgniteGmTime (t_seconds t).

Definition CTimeToDate (s : Z) : Date := i64 (s * 1000).
Definition CTmToDate (t : tm) : Date := CTimeToDate (IgniteTimeGm t).
Definition CTmToTime (t : tm) (ns : Z) : Time := MkTime (i32 (IgniteTimeGm t)) ns.
Definition CTmToTimestamp (t : tm) (ns : Z) : Timestamp := MkTimestamp (IgniteTimeGm t) ns.

Definition make_tm (year month day hour min sec : Z) : tm :=
  MkTm sec min hour day (month - 1) (year - 1900).
Definition MakeDateGmt (year month day hour min sec : Z) : Date :=
  CTmToDate (make_tm year month day hour min sec).
Definition MakeTimeGmt (hour min sec ns : Z) : Time :=
  CTmToTime (MkTm sec min hour 1 0 70) ns.
Definition MakeTimestampGmt (year month day hour min sec ns : Z) : Timestamp :=
  CTmToTimestamp (make_tm year month day hour min sec) (i32 ns).

(** ** Text *)

(** [%0<w>d] and [%<w>d]: the sign counts, the number is never cut. *)
Definition zero_padded (w : nat) (x : Z) : text :=
  if x <? 0 then
    let s := show_u64 (- x) in "-"%char :: replicate (w - 1 - length s) "0"%char ++ s
  else let s := show_u64 x in replicate (w - length s) "0"%char ++ s.
Definition space_padded (w : nat) (x : Z) : text :=
  let s := show_int x in replicate (w - length s) " "%char ++ s.

(** [strftime] with "%Y-%m-%d %H:%M:%S." and with "%H:%M:%S." *)
Definition strftime_time (t : tm) : text :=
  zero_padded 2 (tm_hour t) ++ txt ":" ++ zero_padded 2 (tm_min t) ++ txt ":" ++
  zero_padded 2 (tm_sec t) ++ txt ".".
Definition strftime_timestamp (t : tm) : text :=
  show_int (tm_year t + 1900) ++ txt "-" ++ zero_padded 2 (tm_mon t + 1) ++ txt "-" ++
  zero_padded 2 (tm_mday t) ++ txt " " ++ strftime_time t.

(** [sscanf]: numbers of a maximal width, characters that must match, and a
    space that skips white space. The numbers read before the first mismatch. *)
Inductive directive : Type :=
  | Number (width : nat)
  | Literal (c : ascii)
  | Spaces.

Fixpoint span_digits (width : nat) (s : text) : text * text :=
  match width, s with
  | S w, c :: s' =>
      if isdigit c then let '(d, r) := span_digits w s' in (c :: d, r) else ([], s)
  | _, _ => ([], s)
  end.

Definition scan_number (width : nat) (s : text) : option (Z * text) :=
  let s := Ltrim s in
  let '(neg, w, s) :=
    match s with
    | c :: s' => if code c =? 45 then (true, (width - 1)%nat, s')
                 else if code c =? 43 then (false, (width - 1)%nat, s') else (false, width, s)
    | [] => (false, width, s)
    end in
  let '(d, r) := span_digits w s in
  match d with
  | [] => None
  | _ => Some (if neg : bool then - digits_val d else digits_val d, r)
  end.

Fixpoint sscanf (format : list directive) (s : text) : list Z :=
  match format with
  | [] => []
  | Number w :: f =>
      match scan_number w s with
      | Some (x, r) => x :: sscanf f r
      | None => []
      end
  | Literal c :: f =>
      match s with
      | c' :: r => if code c' =? code c then sscanf f r else []
      | [] => []
      end
  | Spaces :: f => sscanf f (Ltrim s)
  end.

(** "%4d-%2d-%2d %2d:%2d:%2d.%9d" *)
Definition timestamp_format : list directive :=
  [Number 4; Literal "-"; Number 2; Literal "-"; Number 2; Spaces;
   Number 2; Literal ":"; Number 2; Literal ":"; Number 2; Literal "."; Number 9].

(** ** The calendar is a calendar *)

(** Linear arithmetic with divisions by constants. *)
Ltac div_lia := Z.to_euclidean_division_equations; lia.

(** The day after a date. *)
Definition next_day (y m d : Z) : Z * Z * Z :=
  if d <? days_in_month y m then (y, m, d + 1)
  else if m <? 12 then (y, m + 1, 1) else (y + 1, 1, 1).

Definition upto (n : nat) : list Z := map Z.of_nat (seq 0 n).

Lemma forallb_upto n (P : Z -> bool) x :
  forallb P (upto n) = true -> 0 <= x < Z.of_nat n -> P x = true.
Proof.
  intros H Hx. rewrite forallb_forall in H. apply H. unfold upto.
  apply in_map_iff. exists (Z.to_nat x). split; [lia|]. apply in_seq. lia.
Qed.

Lemma days_in_month_bound y m : 28 <= days_in_month y m <= 31.
Proof. unfold days_in_month. repeat case_test; lia. Qed.

(** The calendar repeats every 400 years. *)
Lemma mod_shift y k n : (n | 400) -> 0 < n -> (y + 400 * k) mod n = y mod n.
Proof.
  intros [c Hc] Hn. replace (y + 400 * k) with (y + c * k * n) by (rewrite <- (Z.mul_comm k 400), Hc; ring).
  by rewrite Z.mod_add by lia.
Qed.

Lemma days_in_month_shift y m k : days_in_month (y + 400 * k) m = days_in_month y m.
Proof.
  unfold days_in_month, is_leap.
  by rewrite !mod_shift by (lia || by apply Z.mod_divide).
Qed.

Lemma days_from_civil_shift y m d k :
  days_from_civil (y + 400 * k) m d = days_from_civil y m d + 146097 * k.
Proof.
  unfold days_from_civil.
  assert (E : forall z, (z + 400 * k) / 400 = z / 400 + k /\ (z + 400 * k) mod 400 = z mod 400).
  { intros z. rewrite Z.mul_comm, Z.div_add, Z.mod_add by lia. done. }
  destruct (m <=? 2).
  - replace (y + 400 * k - 1) with (y - 1 + 400 * k) by lia.
    destruct (E (y - 1)) as [-> ->]. lia.
  - destruct (E y) as [-> ->]. lia.
Qed.

(** ** One era

    Years of an era by their first day, days of a year by their month: small
    tables checked by computation, and monotony in between. *)
Definition year_start (yoe : Z) : Z := yoe * 365 + yoe / 4 - yoe / 100 + yoe / 400.
Definition year_of_era (doe : Z) : Z := (doe - doe / 1460 + doe / 36524 - doe / 146096) / 365.

Definition civil_month (mp : Z) : Z := if mp <? 10 then mp + 3 else mp - 9.
Definition civil_year (yoe mp : Z) : Z := if mp <? 10 then yoe else yoe + 1.

Definition year_check (yoe : Z) : bool :=
  (year_of_era (year_start yoe) =? yoe) &&
  (year_of_era (year_start (yoe + 1) - 1) =? yoe) &&
  (days_in_month (yoe + 1) 2 =? year_start (yoe + 1) - year_start yoe - 337).

Lemma years_checked : forallb year_check (upto 400) = true.
Proof. vm_compute. reflexivity. Qed.

Definition month_check (mp : Z) : bool :=
  forallb (fun d => let doy := (153 * mp + 2) / 5 + d in
    ((5 * doy + 2) / 153 =? mp) && (doy <? 366))
    (upto (if mp =? 11 then 29 else Z.to_nat (days_in_month 1 (civil_month mp)))).

Lemma months_checked : forallb month_check (upto 12) = true.
Proof. vm_compute. reflexivity. Qed.

Lemma sub_div_mono n x y : 0 < n -> x <= y -> x - x / n <= y - y / n.
Proof.
  intros Hn H. assert (y / n <= (x + (y - x) * n) / n) by (apply Z.div_le_mono; nia).
  rewrite Z.div_add in * by lia. lia.
Qed.

Lemma year_of_era_mono a b : 0 <= a <= b -> year_of_era a <= year_of_era b.
Proof.
  intros H. unfold year_of_era. apply Z.div_le_mono; [lia|].
  change 146096 with (36524 * 4). rewrite <- !Z.div_div by lia.
  pose proof (Z.div_le_mono a b 36524 ltac:(lia) ltac:(lia)).
  pose proof (sub_div_mono 1460 a b ltac:(lia) ltac:(lia)).
  pose proof (sub_div_mono 4 (a / 36524) (b / 36524) ltac:(lia) ltac:(lia)). lia.
Qed.

Lemma in_month mp d :
  0 <= mp < 12 -> 1 <= d -> (mp < 11 -> d <= days_in_month 1 (civil_month mp)) ->
  (mp = 11 -> d <= 29) ->
  (5 * ((153 * mp + 2) / 5 + d - 1) + 2) / 153 = mp.
Proof.
  intros Hmp Hd H1 H2. pose proof months_checked as Hc.
  apply (forallb_upto _ _ mp) in Hc; [|lia].
  apply (forallb_upto _ _ (d - 1)) in Hc.
  - cbv zeta in Hc. cbv beta in Hc. z_bool. rewrite <- Z.add_sub_assoc. done.
  - destruct (Z.eqb_spec mp 11) as [E|E]; [specialize (H2 E); lia|].
    specialize (H1 ltac:(lia)). lia.
Qed.

(** The day of a year of an era. *)
Lemma in_year yoe mp d :
  0 <= yoe < 400 -> 0 <= mp < 12 ->
  1 <= d <= days_in_month (civil_year yoe mp) (civil_month mp) ->
  0 <= (153 * mp + 2) / 5 + d - 1 < year_start (yoe + 1) - year_start yoe /\
  (mp < 11 -> d <= days_in_month 1 (civil_month mp)) /\ (mp = 11 -> d <= 29).
Proof.
  intros Hy Hmp Hd. pose proof years_checked as Hc.
  apply (forallb_upto _ _ yoe) in Hc; [|lia]. unfold year_check in Hc. z_bool.
  assert (Hl : 365 <= year_start (yoe + 1) - year_start yoe).
  { match goal with H : days_in_month _ 2 = _ |- _ => revert H end.
    pose proof (days_in_month_bound (yoe + 1) 2). lia. }
  destruct (Z.eqb_spec mp 11) as [->|Hn].
  - change (civil_month 11) with 2 in Hd. change (civil_year yoe 11) with (yoe + 1) in Hd.
    pose proof (days_in_month_bound (yoe + 1) 2).
    assert (days_in_month (yoe + 1) 2 <= 29) by (unfold days_in_month; cbn; destruct (is_leap _); lia).
    change ((153 * 11 + 2) / 5) with 337. split_and!; lia.
  - assert (E : days_in_month (civil_year yoe mp) (civil_month mp) = days_in_month 1 (civil_month mp)).
    { unfold days_in_month, civil_month. destruct (mp <? 10) eqn:?; z_bool.
      - by rewrite (proj2 (Z.eqb_neq _ 2)) by lia.
      - by rewrite (proj2 (Z.eqb_neq _ 2)) by lia. }
    rewrite E in Hd. split_and!; [div_lia| |lia|lia].
    enough ((153 * mp + 2) / 5 + days_in_month 1 (civil_month mp) <= 365) by lia.
    assert (Hk : mp = 0 \/ mp = 1 \/ mp = 2 \/ mp = 3 \/ mp = 4 \/ mp = 5 \/ mp = 6 \/ mp = 7
      \/ mp = 8 \/ mp = 9 \/ mp = 10) by lia.
    repeat destruct Hk as [->|Hk]; try subst; vm_compute; discriminate.
Qed.

Lemma era_roundtrip yoe mp d :
  0 <= yoe < 400 -> 0 <= mp < 12 ->
  1 <= d <= days_in_month (civil_year yoe mp) (civil_month mp) ->
  era_date (day_of_era yoe mp d) = (yoe, mp, d) /\ 0 <= day_of_era yoe mp d < 146097.
Proof.
  intros Hy Hmp Hd. destruct (in_year yoe mp d Hy Hmp Hd) as (Hb & H1 & H2).
  pose proof years_checked as Hc. apply (forallb_upto _ _ yoe) in Hc; [|lia].
  unfold year_check in Hc. z_bool.
  assert (Hs : year_start yoe = yoe * 365 + yoe / 4 - yoe / 100).
  { unfold year_start. rewrite (Z.div_small yoe 400) by lia. lia. }
  assert (Hm : year_start (yoe + 1) <= 146097 /\ 0 <= year_start yoe) by (unfold year_start; div_lia).
  assert (Ed : day_of_era yoe mp d = year_start yoe + ((153 * mp + 2) / 5 + d - 1)).
  { unfold day_of_era. lia. }
  rewrite Ed. split; [|lia].
  assert (Ey : year_of_era (year_start yoe + ((153 * mp + 2) / 5 + d - 1)) = yoe).
  { apply Z.le_antisymm.
    - transitivity (year_of_era (year_start (yoe + 1) - 1)); [|lia].
      apply year_of_era_mono. lia.
    - transitivity (year_of_era (year_start yoe)); [lia|]. apply year_of_era_mono. lia. }
  unfold era_date. fold (year_of_era (year_start yoe + ((153 * mp + 2) / 5 + d - 1))).
  rewrite Ey, Hs.
  replace (yoe * 365 + yoe / 4 - yoe / 100 + ((153 * mp + 2) / 5 + d - 1)
    - (365 * yoe + yoe / 4 - yoe / 100)) with ((153 * mp + 2) / 5 + d - 1) by lia.
  rewrite (in_month mp d) by (done || lia). f_equal. lia.
Qed.

(** ** All years *)

(** Month number and year of the era of a civil month. *)
Lemma march_year y m :
  1 <= m <= 12 ->
  let mp := (m + 9) mod 12 in
  let y' := if m <=? 2 then y - 1 else y in
  0 <= mp < 12 /\ civil_month mp = m /\ y = civil_year (y' mod 400) mp + 400 * (y' / 400).
Proof.
  intros Hm. cbn.
  assert (Hk : m = 1 \/ m = 2 \/ m = 3 \/ m = 4 \/ m = 5 \/ m = 6 \/ m = 7 \/ m = 8
    \/ m = 9 \/ m = 10 \/ m = 11 \/ m = 12) by lia.
  assert (Hx : ((m + 9) mod 12 <? 10) = negb (m <=? 2) /\ civil_month ((m + 9) mod 12) = m).
  { repeat destruct Hk as [->|Hk]; try subst; by vm_compute. }
  destruct Hx as [Hx Hc]. split_and!; [apply Z.mod_pos_bound; lia..|done|].
  unfold civil_year. rewrite Hx. destruct (m <=? 2); cbn [negb].
  - pose proof (Z.div_mod (y - 1) 400). lia.
  - pose proof (Z.div_mod y 400). lia.
Qed.

Lemma civil_roundtrip y m d :
  valid_date y m d = true -> civil_from_days (days_from_civil y m d) = (y, m, d).
Proof.
  unfold valid_date. intros Hv. z_bool.
  pose proof (march_year y m ltac:(lia)) as Hmy. cbv zeta in Hmy.
  destruct Hmy as (Hmp & Em & Ey).
  unfold days_from_civil, civil_from_days.
  set (y' := if m <=? 2 then y - 1 else y) in *. set (mp := (m + 9) mod 12) in *.
  pose proof (Z.mod_pos_bound y' 400 ltac:(lia)) as Hy.
  assert (Hd : 1 <= d <= days_in_month (civil_year (y' mod 400) mp) (civil_month mp)).
  { rewrite Em, <- (days_in_month_shift _ m (y' / 400)), <- Ey. lia. }
  destruct (era_roundtrip (y' mod 400) mp d Hy Hmp Hd) as [Er Hb].
  replace (y' / 400 * 146097 + day_of_era (y' mod 400) mp d - 719468 + 719468)
    with (day_of_era (y' mod 400) mp d + y' / 400 * 146097) by lia.
  rewrite Z.mod_add, Z.div_add by lia. rewrite Z.mod_small, Z.div_small, Er by exact Hb.
  fold (civil_month mp). rewrite Em. pose proof (Z.div_mod y' 400 ltac:(lia)).
  f_equal. f_equal. unfold y' in *. destruct (m <=? 2); lia.
Qed.

(** The number of the next day is the next number. *)
Definition month_end_check (y m : Z) : bool :=
  let '(y', m', d') := next_day y m (days_in_month y m) in
  days_from_civil y' m' d' =? days_from_civil y m (days_in_month y m) + 1.

Lemma month_ends_checked :
  forallb (fun y => forallb (fun m => month_end_check y (m + 1)) (upto 12)) (upto 400) = true.
Proof. vm_compute. reflexivity. Qed.

Lemma days_next y m d :
  valid_date y m d = true ->
  let '(y', m', d') := next_day y m d in days_from_civil y' m' d' = days_from_civil y m d + 1.
Proof.
  unfold valid_date. intros Hv. z_bool. unfold next_day.
  destruct (Z.ltb_spec d (days_in_month y m)).
  { unfold days_from_civil, day_of_era. lia. }
  assert (d = days_in_month y m) by lia. subst d.
  pose proof (Z.mod_pos_bound y 400 ltac:(lia)).
  rewrite (Z.div_mod y 400), Z.add_comm by lia.
  set (y0 := y mod 400) in *. set (k := y / 400) in *.
  pose proof month_ends_checked as Hc. apply (forallb_upto _ _ y0) in Hc; [|lia].
  apply (forallb_upto _ _ (m - 1)) in Hc; [|lia].
  cbv beta in Hc. rewrite Z.sub_add in Hc.
  unfold month_end_check, next_day in Hc. rewrite Z.ltb_irrefl in Hc.
  rewrite !days_in_month_shift.
  destruct (m <? 12); z_bool; rewrite ?days_from_civil_shift; [lia|].
  replace (y0 + 400 * k + 1) with (y0 + 1 + 400 * k) by lia.
  rewrite days_from_civil_shift. lia.
Qed.

Lemma days_epoch : days_from_civil 1970 1 1 = 0.
Proof. done. Qed.

(** ** [gmtime_r] inverts [timegm] *)

Definition valid_tm (t : tm) : Prop :=
  valid_date (tm_year t + 1900) (tm_mon t + 1) (tm_mday t) = true /\
  0 <= tm_hour t < 24 /\ 0 <= tm_min t < 60 /\ 0 <= tm_sec t < 60 /\ is_i32 (tm_year t).

Lemma days_first y m d : days_from_civil y m 1 + d - 1 = days_from_civil y m d.
Proof. unfold days_from_civil, day_of_era. lia. Qed.

(** The time of a day of [86400] seconds. *)
Lemma clock h mi s :
  0 <= h < 24 -> 0 <= mi < 60 -> 0 <= s < 60 ->
  let r := h * 3600 + mi * 60 + s in
  0 <= r < 86400 /\ r mod 60 = s /\ r / 60 mod 60 = mi /\ r / 3600 = h.
Proof. intros. cbv zeta. split_and!; div_lia. Qed.

Lemma timegm_valid t :
  valid_tm t ->
  timegm t = (tm_hour t * 3600 + tm_min t * 60 + tm_sec t)
    + days_from_civil (tm_year t + 1900) (tm_mon t + 1) (tm_mday t) * 86400.
Proof.
  intros (Hv & _). unfold valid_date in Hv. z_bool. unfold timegm.
  rewrite Z.div_small, Z.mod_small, Z.add_0_r, days_first by lia. lia.
Qed.

Lemma gmtime_timegm t : valid_tm t -> gmtime_r (timegm t) = Some t.
Proof.
  intros Hv. rewrite (timegm_valid t Hv). destruct Hv as (Hv & Hh & Hmi & Hs & Hy).
  pose proof (clock _ _ _ Hh Hmi Hs) as Hc. cbv zeta in Hc. destruct Hc as (Hr & E1 & E2 & E3).
  unfold gmtime_r. rewrite Z.div_add, Z.mod_add by lia.
  rewrite (Z.div_small _ 86400), (Z.mod_small _ 86400), Z.add_0_l by exact Hr.
  rewrite civil_roundtrip by done. cbv zeta beta. rewrite E1, E2, E3. unfold is_i32 in Hy.
  rewrite (proj2 (Z.ltb_ge (tm_year t + 1900 - 1900) _)) by lia.
  rewrite (proj2 (Z.ltb_ge _ (tm_year t + 1900 - 1900))) by lia.
  destruct t as [s mi h d mo y]. cbn [orb tm_sec tm_min tm_hour tm_mday tm_mon tm_year].
  by rewrite !Z.add_simpl_r.
Qed.

(** ** Printing and scanning *)

Lemma show_u64_length n x :
  0 <= x < 10 ^ Z.of_nat n -> (1 <= n)%nat -> is_u64 x -> (length (show_u64 x) <= n)%nat.
Proof.
  intros Hx Hn Hu. unfold is_u64 in Hu.
  destruct (show_digits_spec 20 x []) as (s & Es & _ & _ & Hl); [|done|].
  { change (10 ^ Z.of_nat 20) with 100000000000000000000. lia. }
  unfold show_u64. rewrite Es, app_nil_r. destruct Hl as [->|Hl]; [done|].
  assert (Hp : Z.of_nat (length s) - 1 < Z.of_nat n).
  { apply (Z.pow_lt_mono_r_iff 10); [lia|lia|]. lia. }
  lia.
Qed.

(** Exactly [w] digits of a given value. *)
Definition digits_of (w : nat) (x : Z) (s : text) : Prop :=
  is_digits s /\ length s = w /\ digits_val s = x.

Lemma zero_padded_digits w x :
  0 <= x < 10 ^ Z.of_nat w -> (1 <= w <= 19)%nat -> digits_of w x (zero_padded w x).
Proof.
  intros Hx Hw. unfold zero_padded. rewrite (proj2 (Z.ltb_ge x 0)) by lia.
  assert (Hu : is_u64 x).
  { unfold is_u64. assert (10 ^ Z.of_nat w <= 10 ^ 19) by (apply Z.pow_le_mono_r; lia).
    change (10 ^ 19) with 10000000000000000000 in *. lia. }
  pose proof (show_u64_length w x Hx ltac:(lia) Hu) as Hl.
  destruct (show_u64_decimal x Hu) as (Hd & Hv & _). unfold digits_of. split_and!.
  - apply Forall_app. split; [by apply Forall_replicate|done].
  - rewrite length_app, length_replicate. lia.
  - by rewrite digits_val_zeros.
Qed.

Lemma year_digits y : 1000 <= y <= 9999 -> digits_of 4 y (show_int y).
Proof.
  intros Hy. unfold show_int. rewrite (proj2 (Z.ltb_ge y 0)) by lia.
  assert (Hu : is_u64 y) by (unfold is_u64; lia).
  pose proof (show_u64_length 4 y ltac:(lia) ltac:(lia) Hu) as Hl.
  destruct (show_u64_decimal y Hu) as (Hd & Hv & _). unfold digits_of. split_and!; try done.
  pose proof (digits_val_bound _ Hd) as Hb. rewrite Hv in Hb.
  assert (Hp : 3 < Z.of_nat (length (show_u64 y))).
  { apply (Z.pow_lt_mono_r_iff 10); lia. }
  lia.
Qed.

Lemma span_digits_exact s r : is_digits s -> span_digits (length s) (s ++ r) = (s, r).
Proof.
  induction 1 as [|c s Hc Hs IH]; [by destruct r|].
  cbn [length span_digits app]. by rewrite Hc, IH.
Qed.

Lemma scan_number_exact w x s r :
  (1 <= w)%nat -> digits_of w x s -> scan_number w (s ++ r) = Some (x, r).
Proof.
  intros Hw (Hd & Hl & Hv). destruct s as [|c s]; [cbn in Hl; lia|].
  assert (Hc : isdigit c = true) by (by apply Forall_inv in Hd).
  destruct (digit_not_sign c Hc) as (H1 & H2 & H3).
  unfold scan_number. rewrite Ltrim_id by done. cbn [app]. rewrite H1, H2.
  change (c :: s ++ r) with ((c :: s) ++ r). rewrite <- Hl, span_digits_exact by done.
  by rewrite Hv.
Qed.

Lemma sscanf_number f w x s r :
  (w <> 0)%nat -> digits_of w x s -> sscanf (Number w :: f) (s ++ r) = x :: sscanf f r.
Proof. intros Hw Hs. cbn [sscanf]. by rewrite (scan_number_exact w x) by (lia || done). Qed.

Lemma sscanf_literal f c r : sscanf (Literal c :: f) ([c] ++ r) = sscanf f r.
Proof. cbn [sscanf app]. by rewrite Z.eqb_refl. Qed.

Lemma sscanf_space f w x s r :
  digits_of w x s -> (w <> 0)%nat -> sscanf (Spaces :: f) (txt " " ++ s ++ r) = sscanf f (s ++ r).
Proof.
  intros (Hd & Hl & _) Hw. destruct s as [|c s]; [cbn in Hl; lia|].
  apply Forall_inv in Hd. destruct (digit_not_sign c Hd) as (_ & _ & H3).
  change (sscanf (Spaces :: f) (txt " " ++ (c :: s) ++ r))
    with (sscanf f (Ltrim ((c :: s) ++ r))).
  by rewrite Ltrim_id.
Qed.

(** A timestamp as the service writes it. *)
Definition timestamp_text (t : tm) (ns : Z) : text := strftime_timestamp t ++ zero_padded 9 ns.

Definition timestamp_ok (t : tm) (ns : Z) : Prop :=
  valid_tm t /\ 1000 <= tm_year t + 1900 <= 9999 /\ 0 <= ns < 1000000000.

Lemma two_digits x : 0 <= x < 100 -> digits_of 2 x (zero_padded 2 x).
Proof. intros. apply zero_padded_digits; lia. Qed.

Lemma sscanf_timestamp t ns :
  timestamp_ok t ns ->
  sscanf timestamp_format (timestamp_text t ns) =
  [tm_year t + 1900; tm_mon t + 1; tm_mday t; tm_hour t; tm_min t; tm_sec t; ns].
Proof.
  intros ((Hv & Hh & Hm & Hs & _) & Hy & Hn).
  assert (Hd : 1 <= tm_mon t + 1 <= 12 /\ 1 <= tm_mday t <= 31).
  { pose proof (days_in_month_bound (tm_year t + 1900) (tm_mon t + 1)).
    unfold valid_date in Hv. z_bool. lia. }
  pose proof (year_digits _ Hy) as D1. pose proof (two_digits (tm_mon t + 1) ltac:(lia)) as D2.
  pose proof (two_digits (tm_mday t) ltac:(lia)) as D3.
  pose proof (two_digits (tm_hour t) ltac:(lia)) as D4.
  pose proof (two_digits (tm_min t) ltac:(lia)) as D5.
  pose proof (two_digits (tm_sec t) ltac:(lia)) as D6.
  pose proof (zero_padded_digits 9 ns ltac:(lia) ltac:(lia)) as D7.
  unfold timestamp_text, strftime_timestamp, strftime_time, timestamp_format.
  rewrite <- !app_assoc, <- (app_nil_r (zero_padded 9 ns)).
  rewrite (sscanf_number _ 4 _ _ _ ltac:(lia) D1).
  rewrite sscanf_literal, (sscanf_number _ 2 _ _ _ ltac:(lia) D2).
  rewrite sscanf_literal, (sscanf_number _ 2 _ _ _ ltac:(lia) D3).
  rewrite (sscanf_space _ _ _ _ _ D4 ltac:(lia)), (sscanf_number _ 2 _ _ _ ltac:(lia) D4).
  rewrite sscanf_literal, (sscanf_number _ 2 _ _ _ ltac:(lia) D5).
  rewrite sscanf_literal, (sscanf_number _ 2 _ _ _ ltac:(lia) D6).
  by rewrite sscanf_literal, (sscanf_number _ 9 _ _ _ ltac:(lia) D7).
Qed.

End Calendar.
