(* ===== verification/Instants.v ===== *)
(** * Instants: order and local time

    Models the comparison operators of [src/timestamp.cpp], [src/time.cpp] and
    [src/ignite/common/src/date.cpp], and the functions of [src/utils.cpp] and
    [platform_utils.cpp] that go through the local time of the C library, which is
    a class. *)

From S2P Require Import Prelude Text Calendar.

Module Instants.
Import Calendar.

(** ** Comparisons *)

(** A class with the six operators, as the source has them. *)
Class Comparisons (A : Type) : Type := {
  op_eq : A -> A -> bool;
  op_ne : A -> A -> bool;
  op_lt : A -> A -> bool;
  op_le : A -> A -> bool;
  op_gt : A -> A -> bool;
  op_ge : A -> A -> bool
}.

#[global] Instance Timestamp_comparisons : Comparisons Timestamp := {|
  op_eq a b := (ts_seconds a =? ts_seconds b) && (ts_fractionNs a =? ts_fractionNs b);
  op_ne a b := negb (ts_seconds a =? ts_seconds b) || negb (ts_fractionNs a =? ts_fractionNs b);
  op_lt a b := (ts_seconds a <? ts_seconds b)
    || ((ts_seconds a =? ts_seconds b) && (ts_fractionNs a <? ts_fractionNs b));
  op_le a b := (ts_seconds a <? ts_seconds b)
    || ((ts_seconds a =? ts_seconds b) && (ts_fractionNs a <=? ts_fractionNs b));
  op_gt a b := (ts_seconds b <? ts_seconds a)
    || ((ts_seconds a =? ts_seconds b) && (ts_fractionNs b <? ts_fractionNs a));
  op_ge a b := (ts_seconds b <? ts_seconds a)
    || ((ts_seconds a =? ts_seconds b) && (ts_fractionNs b <=? ts_fractionNs a))
|}.

#[global] Instance Time_comparisons : Comparisons Time := {|
  op_eq a b := (t_seconds a =? t_seconds b) && (t_fractionNs a =? t_fractionNs b);
  op_ne a b := negb (t_seconds a =? t_seconds b) || negb (t_fractionNs a =? t_fractionNs b);
  op_lt a b := (t_seconds a <? t_seconds b)
    || ((t_seconds a =? t_seconds b) && (t_fractionNs a <? t_fractionNs b));
  op_le a b := (t_seconds a <? t_seconds b)
    || ((t_seconds a =? t_seconds b) && (t_fractionNs a <=? t_fractionNs b));
  op_gt a b := (t_seconds b <? t_seconds a)
    || ((t_seconds a =? t_seconds b) && (t_fractionNs b <? t_fractionNs a));
  op_ge a b := (t_seconds b <? t_seconds a)
    || ((t_seconds a =? t_seconds b) && (t_fractionNs b <=? t_fractionNs a))
|}.

Definition Date_comparisons : Comparisons Date := {|
  op_eq := Z.eqb;
  op_ne a b := negb (a =? b);
  op_lt := Z.ltb;
  op_le := Z.leb;
  op_gt a b := b <? a;
  op_ge a b := b <=? a
|}.

(** The operators are those of the numbers behind the values. *)
Record orders {A} (C : Comparisons A) (at_ : A -> Z) (ok : A -> Prop) : Prop := {
  eq_at : forall a b, ok a -> ok b -> op_eq a b = (at_ a =? at_ b);
  ne_at : forall a b, ok a -> ok b -> op_ne a b = negb (at_ a =? at_ b);
  lt_at : forall a b, ok a -> ok b -> op_lt a b = (at_ a <? at_ b);
  le_at : forall a b, ok a -> ok b -> op_le a b = (at_ a <=? at_ b);
  gt_at : forall a b, ok a -> ok b -> op_gt a b = (at_ b <? at_ a);
  ge_at : forall a b, ok a -> ok b -> op_ge a b = (at_ b <=? at_ a)
}.

(** Nanoseconds since 1970, of a fraction within its second. *)
Definition nanoseconds (seconds fractionNs : Z) : Z := seconds * 1000000000 + fractionNs.
Definition in_second (fractionNs : Z) : Prop := 0 <= fractionNs < 1000000000.

#[local] Ltac compare :=
  repeat match goal with
  | |- context [?a =? ?b] => destruct (Z.eqb_spec a b)
  | |- context [?a <? ?b] => destruct (Z.ltb_spec a b)
  | |- context [?a <=? ?b] => destruct (Z.leb_spec a b)
  end; cbn; try reflexivity; exfalso; unfold in_second, nanoseconds in *; lia.

Lemma timestamps_ordered :
  orders Timestamp_comparisons (fun t => nanoseconds (ts_seconds t) (ts_fractionNs t))
    (fun t => in_second (ts_fractionNs t)).
Proof. split; intros [s n] [s' n']; cbn; intros Hn Hn'; compare. Qed.

Lemma times_ordered :
  orders Time_comparisons (fun t => nanoseconds (t_seconds t) (t_fractionNs t)) (fun t => in_second (t_fractionNs t)).
Proof. split; intros [s n] [s' n']; cbn; intros Hn Hn'; compare. Qed.

Lemma dates_ordered : orders Date_comparisons id (fun _ => True).
Proof. split; intros a b _ _; done. Qed.

(** Timestamps made from milliseconds keep the order, also before 1970, where the
    fraction is not positive. *)
Lemma timestamp_of_ms_ordered a b : op_lt (Timestamp_of_ms a) (Timestamp_of_ms b) = (a <? b).
Proof.
  unfold Timestamp_of_ms. cbn. assert (Hf : forall x, i32 (Z.rem x 1000 * 1000000) = Z.rem x 1000 * 1000000).
  { intros x. pose proof (Z.rem_bound_abs x 1000). apply i32_small. unfold is_i32. lia. }
  rewrite !Hf. Z.to_euclidean_division_equations.
  repeat match goal with
  | |- context [?x =? ?y] => destruct (Z.eqb_spec x y)
  | |- context [?x <? ?y] => destruct (Z.ltb_spec x y)
  end; cbn; try reflexivity; exfalso; lia.
Qed.

(** ** Local time *)

(** [mktime] and [localtime_r]. *)
Class LocalTime : Type := {
  mktime : tm -> Z;
  localtime_r : Z -> option tm
}.

Section Local.
Context `{!LocalTime}.

Definition IgniteTimeLocal (t : tm) : Z := mktime t.
(** The answer is whether the pointer is null. *)
Definition IgniteLocalTime (s : Z) (out : tm) : bool * tm :=
  match localtime_r s with Some t => (false, t) | None => (true, out) end.

Definition CTimeToTime (s ns : Z) : Time := MkTime (i32 s) ns.
Definition CTimeToTimestamp (s ns : Z) : Timestamp := MkTimestamp s ns.

Definition MakeDateLocal (year month day hour min sec : Z) : Date :=
  CTimeToDate (IgniteTimeLocal (make_tm year month day hour min sec)).
Definition MakeTimeLocal (hour min sec ns : Z) : Time :=
  CTimeToTime (IgniteTimeLocal (MkTm sec min hour 1 0 70)) ns.
Definition MakeTimestampLocal (year month day hour min sec ns : Z) : Timestamp :=
  CTimeToTimestamp (IgniteTimeLocal (make_tm year month day hour min sec)) (i32 ns).

(** With [mktime] undoing [localtime_r], as documented for times that exist. *)
Lemma local_roundtrip s t out ns :
  (forall s t, localtime_r s = Some t -> mktime t = s) ->
  localtime_r s = Some t -> is_i32 ns ->
  MakeTimestampLocal (tm_year t + 1900) (tm_mon t + 1) (tm_mday t) (tm_hour t) (tm_min t) (tm_sec t) ns = MkTimestamp s ns /\
  snd (IgniteLocalTime s out) = t /\ fst (IgniteLocalTime s out) = false.
Proof.
  intros Hm Hl Hn. unfold IgniteLocalTime. rewrite Hl. split; [|done].
  unfold MakeTimestampLocal, CTimeToTimestamp, IgniteTimeLocal, make_tm.
  rewrite i32_small by done. f_equal. apply Hm. rewrite Hl. f_equal. destruct t; cbn. f_equal; lia.
Qed.
End Local.

(** A zone one hour east of Greenwich, for runs. *)
Definition OneHourEast : LocalTime := {|
  mktime t := timegm t - 3600;
  localtime_r s := gmtime_r (s + 3600)
|}.
Example noon_in_the_east :
  @MakeTimestampLocal OneHourEast 2023 2 1 12 0 0 5 = MakeTimestampGmt 2023 2 1 11 0 0 5.
Proof. reflexivity. Qed.
(** Success is reported as [false]. *)
Example local_time_inverted : fst (@IgniteLocalTime OneHourEast 0 tm_zero) = false.
Proof. reflexivity. Qed.
End Instants.
