(* ===== verification/Helpers.v ===== *)
(** * Helpers: the small functions of the driver

    Models what is left of [include/iotsitewise/odbc/utils.h], [src/utils.cpp] and
    [src/utility.cpp]: percent-encoding, white space by iterators, byte order,
    suffixes, numbers as text, variables of the environment, dumps. *)

From S2P Require Import Prelude Text Calendar.

Module Helpers.
Import Text Calendar.
Local Open Scope result_scope.

(** ** Percent-encoding *)

Definition isalnum (c : ascii) : bool :=
  isdigit c || ((65 <=? code c) && (code c <=? 90)) || ((97 <=? code c) && (code c <=? 122)).
Definition unreserved (c : ascii) : bool :=
  isalnum c || existsb (fun d => bool_decide (c = d)) (txt "-_~.*!()").

(** [std::uppercase << std::hex]: no leading zero. *)
Definition hex_upper (d : Z) : ascii := ascii_of_N (Z.to_N (if d <? 10 then 48 + d else 55 + d)).
Definition show_hex (x : Z) : text := if x <? 16 then [hex_upper x] else [hex_upper (x / 16); hex_upper (x mod 16)].

Definition EncodeURIComponent (unencoded : text) : text :=
  flat_map (fun c => if unreserved c then [c] else "%"%char :: show_hex (code c)) unencoded.

(** A reader of percent-encoding: two digits behind every percent sign. *)
Definition hex_value (c : ascii) : option Z :=
  if isdigit c then Some (code c - 48)
  else if (65 <=? code c) && (code c <=? 70) then Some (code c - 55) else None.
Fixpoint decode_uri (s : text) : option text :=
  match s with
  | [] => Some []
  | c :: s' =>
      if bool_decide (c = "%"%char) then
        match s' with
        | x :: y :: s' =>
            match hex_value x, hex_value y, decode_uri s' with
            | Some h, Some l, Some t => Some (ascii_of_N (Z.to_N (16 * h + l)) :: t)
            | _, _, _ => None
            end
        | _ => None
        end
      else option_map (cons c) (decode_uri s')
  end.

(** Every character by its number. *)
Definition characters : text := map (fun n => ascii_of_nat n) (seq 0 256).

Lemma all_characters (P : ascii -> bool) c : forallb P characters = true -> P c = true.
Proof.
  rewrite forallb_forall. intros H. apply H. unfold characters. rewrite <- (ascii_nat_embedding c).
  apply in_map, in_seq. split; [lia|]. apply nat_ascii_bounded.
Qed.

Definition reads_back (c : ascii) (rest : text) : Prop :=
  decode_uri ((if unreserved c then [c] else "%"%char :: show_hex (code c)) ++ rest) = option_map (cons c) (decode_uri rest).

Lemma encoded_char c rest : (code c <? 16) = false -> reads_back c rest.
Proof.
  intros Hc. unfold reads_back.
  pose proof (all_characters (fun c => if code c <? 16 then true else if unreserved c then negb (bool_decide (c = "%"%char))
    else match show_hex (code c) with
         | [x; y] => match hex_value x, hex_value y with Some h, Some l => bool_decide (ascii_of_N (Z.to_N (16 * h + l)) = c) | _, _ => false end
         | _ => false end) c) as H.
  cbv beta in H. rewrite Hc in H. specialize (H ltac:(vm_compute; reflexivity)). destruct (unreserved c).
  - cbn [app decode_uri]. apply negb_true_iff in H. by rewrite H.
  - destruct (show_hex (code c)) as [|x [|y [|]]]; try done. cbn [app decode_uri].
    rewrite bool_decide_eq_true_2 by done. destruct (hex_value x) as [h|], (hex_value y) as [l|]; try done.
    apply bool_decide_eq_true in H. rewrite H. by destruct (decode_uri rest).
Qed.

(** Without control characters below 16 the encoding is read back. *)
Lemma encode_decode s : Forall (fun c => 16 <= code c) s -> decode_uri (EncodeURIComponent s) = Some s.
Proof.
  induction 1 as [|c s Hc _ IH]; [done|]. unfold EncodeURIComponent in *. cbn [flat_map].
  rewrite encoded_char by (apply Z.ltb_ge; lia). by rewrite IH.
Qed.

(** With them it is not: two texts have the same encoding. *)
Example encoding_ambiguous :
  EncodeURIComponent ["001"%char; "2"%char] = EncodeURIComponent ["018"%char].
Proof. reflexivity. Qed.

(** ** White space by iterators *)

(** The iterator is followed before it is compared with the end. *)
Fixpoint SkipLeadingSpaces (s : text) : result text :=
  match s with
  | [] => Err OutOfBounds
  | c :: s' => if isspace c then SkipLeadingSpaces s' else Ok s
  end.
Definition SkipTrailingSpaces (s : text) : result text :=
  do t <- SkipLeadingSpaces (rev s); Ok (rev t).

Lemma SkipLeadingSpaces_Ltrim s :
  SkipLeadingSpaces s = if forallb isspace s then Err OutOfBounds else Ok (Ltrim s).
Proof. induction s as [|c s IH]; [done|]. cbn. by destruct (isspace c). Qed.

Lemma SkipTrailingSpaces_Rtrim s :
  SkipTrailingSpaces s = if forallb isspace s then Err OutOfBounds else Ok (Rtrim s).
Proof.
  unfold SkipTrailingSpaces. rewrite SkipLeadingSpaces_Ltrim.
  assert (E : forallb isspace (rev s) = forallb isspace s).
  { apply Bool.eq_iff_eq_true. rewrite !forallb_forall. split; intros H x Hx; apply H; [by rewrite <- in_rev|by rewrite in_rev]. }
  rewrite E. by destruct (forallb isspace s).
Qed.

(** ** Byte order *)

(** On a little-endian machine. *)
Definition ToBigEndian (value : Z) : Z :=
  Z.lor (Z.lor (Z.lor (Z.shiftl (Z.land value 255) 24) (Z.shiftl (Z.land (Z.shiftr value 8) 255) 16))
    (Z.shiftl (Z.land (Z.shiftr value 16) 255) 8)) (Z.land (Z.shiftr value 24) 255).

Lemma byte_at v n : 0 <= n -> Z.land (Z.shiftr v n) 255 = v / 2 ^ n mod 256.
Proof. intros Hn. by rewrite Z.shiftr_div_pow2, (Z.land_ones _ 8) by lia. Qed.

Lemma lor_rev a b c d : Z.lor (Z.lor (Z.lor a b) c) d = Z.lor (Z.lor (Z.lor d c) b) a.
Proof. by rewrite (Z.lor_comm _ d), (Z.lor_comm _ c), (Z.lor_comm a b), !Z.lor_assoc. Qed.

(** The bytes of a word change their order. *)
Lemma ToBigEndian_bytes b0 b1 b2 b3 :
  0 <= b0 < 256 -> 0 <= b1 < 256 -> 0 <= b2 < 256 -> 0 <= b3 < 256 ->
  ToBigEndian (b0 + 256 * b1 + 65536 * b2 + 16777216 * b3) = b3 + 256 * b2 + 65536 * b1 + 16777216 * b0.
Proof.
  intros H0 H1 H2 H3. unfold ToBigEndian. set (v := b0 + 256 * b1 + 65536 * b2 + 16777216 * b3).
  assert (E0 : Z.land v 255 = b0) by (rewrite land_low8; unfold v; Z.to_euclidean_division_equations; lia).
  assert (E : forall n b, (n = 8 /\ b = b1) \/ (n = 16 /\ b = b2) \/ (n = 24 /\ b = b3) -> Z.land (Z.shiftr v n) 255 = b).
  { intros n b Hn. rewrite byte_at by lia. destruct Hn as [[-> ->]|[[-> ->]|[-> ->]]]; cbn; unfold v;
      Z.to_euclidean_division_equations; lia. }
  rewrite E0, (E 8 b1), (E 16 b2), (E 24 b3) by tauto. rewrite lor_rev.
  rewrite (lor_shiftl_add b3 b2 8), (lor_shiftl_add _ b1 16), (lor_shiftl_add _ b0 24) by (cbn; lia). cbn. lia.
Qed.

(** ** Suffixes *)

(** [str.compare(pos, n, ending) == 0]. *)
Definition StringEndsWith (str ending : text) : bool :=
  if (length ending <? length str)%nat then text_eqb (drop (length str - length ending) str) ending else false.

(** A text does not end with itself. *)
Lemma StringEndsWith_spec str ending :
  StringEndsWith str ending = true <-> exists p, p <> [] /\ str = p ++ ending.
Proof.
  unfold StringEndsWith. destruct (Nat.ltb_spec (length ending) (length str)) as [Hl|Hl].
  - unfold text_eqb. rewrite bool_decide_eq_true. split.
    + intros E. exists (take (length str - length ending) str). split.
      * intros Et. assert (Hz : length (take (length str - length ending) str) = 0%nat) by by rewrite Et.
        rewrite length_take in Hz. lia.
      * transitivity (take (length str - length ending) str ++ drop (length str - length ending) str);
          [by rewrite take_drop|by rewrite E].
    + intros (p & _ & ->). rewrite length_app. replace (length p + length ending - length ending)%nat with (length p) by lia.
      by rewrite drop_app_length.
  - split; [done|]. intros (p & Hp & ->). rewrite length_app in Hl. destruct p; [done|cbn in Hl; lia].
Qed.

(** ** Numbers as text *)

(** [std::stol] with the exceptions caught, for a [long] of eight bytes. *)
Definition StringToLong (s : text) : Z :=
  let s := Ltrim s in
  let '(neg, d) :=
    match s with
    | c :: s' => if code c =? 45 then (true, s') else if code c =? 43 then (false, s') else (false, s)
    | [] => (false, s)
    end in
  let '(d, _) := span_digits (length d) d in
  let v := if neg : bool then - digits_val d else digits_val d in
  if (-9223372036854775808 <=? v) && (v <=? 9223372036854775807) then v else 0.

Lemma digit_head s : is_digits s -> s <> [] ->
  exists c r, s = c :: r /\ isspace c = false /\ code c <> 45 /\ code c <> 43.
Proof.
  intros Hd Hne. destruct Hd as [|c r Hc Hd]; [done|]. exists c, r. apply isdigit_code in Hc. split; [done|].
  split; [|lia]. unfold isspace. rewrite (proj2 (Z.eqb_neq _ 32)), (proj2 (Z.leb_gt (code c) 13)) by lia.
  by rewrite andb_false_r.
Qed.

(** A [long] is read back from what a stream prints. *)
Lemma StringToLong_show x : is_i64 x -> StringToLong (show_int x) = x.
Proof.
  unfold is_i64. intros Hx. destruct (show_u64_decimal (Z.abs x)) as (Hd & Hv & Hne & _); [unfold is_u64; lia|].
  set (s := show_u64 (Z.abs x)) in *. destruct (digit_head s Hd Hne) as (c & r & E & Hs & Hm & Hp).
  assert (Hspan : span_digits (length s) s = (s, [])).
  { pose proof (span_digits_exact s [] Hd) as H. by rewrite app_nil_r in H. }
  unfold StringToLong, show_int. destruct (Z.ltb_spec x 0) as [Hn|Hn].
  - replace (- x) with (Z.abs x) by lia. fold s. rewrite Ltrim_id by done. cbn [code Z.eqb].
    change (code "-"%char =? 45) with true. cbv iota. rewrite Hspan, Hv.
    rewrite (proj2 (Z.leb_le _ _)), (proj2 (Z.leb_le _ _)) by lia. cbn. lia.
  - replace (show_u64 x) with s by (unfold s; f_equal; lia). clearbody s. rewrite Ltrim_id, E by by rewrite E.
    rewrite (proj2 (Z.eqb_neq _ 45)), (proj2 (Z.eqb_neq _ 43)) by done. rewrite <- E, Hspan, Hv.
    rewrite (proj2 (Z.leb_le _ _)), (proj2 (Z.leb_le _ _)) by lia. cbn. lia.
Qed.

Definition GetDynamicLibraryName (Dle name : text) : text := name ++ Dle.

(** ** Variables of the environment *)

Section Environment.
Context (getenv : text -> option text).

Definition GetEnv (name dflt : text) : text := default dflt (getenv name).
Definition CheckEnvVarSetToTrue (envVar : text) : bool := text_eqb (ToUpper (GetEnv envVar [])) (txt "TRUE").
Definition CheckEnvVarNotSetToFalse (envVar : text) : bool := negb (text_eqb (ToUpper (GetEnv envVar [])) (txt "FALSE")).

Lemma unset_variable envVar :
  getenv envVar = None -> CheckEnvVarSetToTrue envVar = false /\ CheckEnvVarNotSetToFalse envVar = true.
Proof. unfold CheckEnvVarSetToTrue, CheckEnvVarNotSetToFalse, GetEnv. by intros ->. Qed.
End Environment.

(** ** Dumps *)

Definition hex_lower (d : Z) : ascii := ascii_of_N (Z.to_N (if d <? 10 then 48 + d else 87 + d)).
Definition newline : ascii := "010"%char.
Fixpoint hex_dump (cnt : nat) (data : list Z) : text :=
  match data with
  | [] => []
  | b :: data =>
      (if (cnt mod 16 =? 0)%nat then [newline] else []) ++
      [hex_lower (b / 16); hex_lower (b mod 16); " "%char] ++ hex_dump (S cnt) data
  end.
Definition HexDump (data : list Z) : text := hex_dump 0 data.

Example dumped : HexDump [0; 255; 16] = newline :: txt "00 ff 10 ".
Proof. reflexivity. Qed.
End Helpers.
