(* ===== verification/Encoding.v ===== *)
(** * Encoding: text copied into the buffers of the application

    Models the functions of [src/utility.cpp] that copy a UTF-8 string into a
    buffer of narrow or of wide characters. The conversions of the standard
    library they call ([std::codecvt_utf8], [std::wstring_convert]) are written
    out; the width of [SQLWCHAR], the largest [wchar_t] and the narrowing of the
    user's locale depend on the platform and are the class [Abi]. *)

From S2P Require Import Prelude Text Memory.

Module Encoding.
Import Text Memory.
Local Open Scope result_scope.

(** [narrow c] is [std::ctype<wchar_t>::narrow(c, '?')] in the user's locale. *)
Class Abi : Type := {
  sizeof_SQLWCHAR : Z;
  sizeof_SQLWCHAR_ok : sizeof_SQLWCHAR = 2 \/ sizeof_SQLWCHAR = 4;
  wchar_max : Z;
  wchar_max_ok : 65535 <= wchar_max;
  ANSI_STRING_ONLY : bool;
  narrow : Z -> Z;
  narrow_ascii : forall c, 0 <= c < 128 -> narrow c = c
}.

(** ** UTF-8 *)

Inductive decoded : Type :=
  | Character (c : Z) (rest : list Z)
  | Incomplete
  | Invalid.

Definition continuation (b : Z) : bool := (128 <=? b) && (b <? 192).
Definition bounded (maxcode c : Z) (rest : list Z) : decoded :=
  if maxcode <? c then Invalid else Character c rest.

Definition utf8_next (maxcode : Z) (l : list Z) : decoded :=
  match l with
  | [] => Incomplete
  | c1 :: l1 =>
      if c1 <? 128 then Character c1 l1
      else if c1 <? 194 then Invalid
      else if c1 <? 224 then
        match l1 with
        | [] => Incomplete
        | c2 :: l2 =>
            if continuation c2 then bounded maxcode ((c1 - 192) * 64 + (c2 - 128)) l2 else Invalid
        end
      else if c1 <? 240 then
        match l1 with
        | [] => Incomplete
        | c2 :: l2 =>
            if negb (continuation c2) || ((c1 =? 224) && (c2 <? 160))
               || ((c1 =? 237) && (160 <=? c2)) then Invalid
            else
              match l2 with
              | [] => Incomplete
              | c3 :: l3 =>
                  if continuation c3
                  then bounded maxcode ((c1 - 224) * 4096 + (c2 - 128) * 64 + (c3 - 128)) l3
                  else Invalid
              end
        end
      else if c1 <? 245 then
        match l1 with
        | [] => Incomplete
        | c2 :: l2 =>
            if negb (continuation c2) || ((c1 =? 240) && (c2 <? 144))
               || ((c1 =? 244) && (144 <=? c2)) then Invalid
            else
              match l2 with
              | [] => Incomplete
              | c3 :: l3 =>
                  if negb (continuation c3) then Invalid
                  else
                    match l3 with
                    | [] => Incomplete
                    | c4 :: l4 =>
                        if continuation c4
                        then bounded maxcode ((c1 - 240) * 262144 + (c2 - 128) * 4096
                                              + (c3 - 128) * 64 + (c4 - 128)) l4
                        else Invalid
                    end
              end
        end
      else Invalid
  end.

Inductive codecvt_result : Type := cvt_ok | cvt_partial | cvt_error.

(** [codecvt_utf8::in] into [room] characters: the characters, the bytes not
    consumed and the result. *)
Fixpoint codecvt_in (maxcode : Z) (room : nat) (l : list Z)
    : list Z * list Z * codecvt_result :=
  match l, room with
  | [], _ => ([], [], cvt_ok)
  | _, O => ([], l, cvt_partial)
  | _, S room' =>
      match utf8_next maxcode l with
      | Character c r =>
          let '(cs, rest, res) := codecvt_in maxcode room' r in (c :: cs, rest, res)
      | Incomplete => ([], l, cvt_partial)
      | Invalid => ([], l, cvt_error)
      end
  end.

(** [std::wstring_convert::from_bytes] without an error string throws. *)
Definition from_bytes (maxcode : Z) (l : list Z) : result (list Z) :=
  match codecvt_in maxcode (length l) l with
  | (cs, _, cvt_ok) => Ok cs
  | _ => Err Exception
  end.

(** The text of a [c_str()]: up to the first NUL. *)
Definition c_str (s : text) : text := cstr (bytes_of s).

Section Copies.
Context `{Abi}.

Definition SQLWCHAR_MAX : Z := if sizeof_SQLWCHAR =? 2 then 65535 else 1114111.

(** The bytes written, the truncation flag and the memory. [inBuffer] is never
    null in the driver. *)
Definition CopyUtf8StringToSqlCharString (inBuffer : text) (outBuffer : pointer)
    (outBufferLenBytes : Z) (isTruncated : bool) (m : Memory) : result (Z * bool * Memory) :=
  match outBuffer with
  | None => Ok (0, isTruncated, m)
  | Some out =>
      if ANSI_STRING_ONLY then
        let inBufferLenBytes := Z.of_nat (length inBuffer) in
        let '(isTruncated, m) :=
          if outBufferLenBytes <=? inBufferLenBytes then
            (true,
             if 0 <? outBufferLenBytes
             then store (out + (outBufferLenBytes - 1)) [0]
                    (store out (strncpy_bytes inBuffer (outBufferLenBytes - 1)) m)
             else m)
          else
            (false, store (out + inBufferLenBytes) [0]
                      (store out (strncpy_bytes inBuffer inBufferLenBytes) m)) in
        Ok (if 0 <? outBufferLenBytes then Z.min inBufferLenBytes (outBufferLenBytes - 1) else 0,
            isTruncated, m)
      else
        do inString <- from_bytes wchar_max (bytes_of inBuffer);
        let inBufferBytes := Z.of_nat (length inString) in
        let outBufferLenActual :=
          if 0 <? outBufferLenBytes then Z.min inBufferBytes (outBufferLenBytes - 1) else 0 in
        let m :=
          if 0 <? outBufferLenActual
          then store (out + outBufferLenActual) [0]
                 (store out (map (fun c => u8 (narrow c)) (take (Z.to_nat outBufferLenActual) inString)) m)
          else m in
        Ok (outBufferLenActual, outBufferLenActual <? inBufferBytes, m)
  end.

(** The bytes of wide characters. *)
Definition wide_bytes (cs : list Z) : list Z :=
  flat_map (le_bytes (Z.to_nat sizeof_SQLWCHAR)) cs.

(** With room for a terminator and a character the output is the buffer,
    otherwise a vector of the function that nobody reads. *)
Definition CopyUtf8StringToWcharString (inBuffer : text) (outBuffer : pointer)
    (outBufferLenBytes : Z) (isTruncated : bool) (m : Memory) : Z * bool * Memory :=
  let wCharSize := sizeof_SQLWCHAR in
  let convert room := codecvt_in SQLWCHAR_MAX room (bytes_of inBuffer) in
  let truncated (rest : list Z) res :=
    match res with
    | cvt_error | cvt_partial => true
    | cvt_ok => negb (bool_decide (rest = []))
    end in
  let into_proxy :=
    let '(cs, rest, res) := convert (length inBuffer) in
    (Z.of_nat (length cs) * wCharSize, truncated rest res, m) in
  match outBuffer with
  | None => into_proxy
  | Some out =>
      if outBufferLenBytes =? 0 then (0, isTruncated, m)
      else if wCharSize <? outBufferLenBytes then
        let outBufferLenChars := outBufferLenBytes / wCharSize - 1 in
        let '(cs, rest, res) := convert (Z.to_nat outBufferLenChars) in
        (Z.of_nat (length cs) * wCharSize, truncated rest res,
         store (out + Z.of_nat (length cs) * wCharSize) (wide_bytes [0])
           (store out (wide_bytes cs) m))
      else into_proxy
  end.

(** Both widths of [SQLWCHAR] convert in the same way, up to [SQLWCHAR_MAX]. *)
Definition CopyUtf8StringToSqlWcharString (inBuffer : text) (outBuffer : pointer)
    (outBufferLenBytes : Z) (isTruncated : bool) (m : Memory) : Z * bool * Memory :=
  CopyUtf8StringToWcharString inBuffer outBuffer outBufferLenBytes isTruncated m.

Definition CopyStringToBuffer (str : text) (buf : pointer) (buflen : Z) (isLenInBytes : bool)
    (m : Memory) : Z * bool * Memory :=
  let bufLenInBytes := if isLenInBytes then buflen else u64 (buflen * sizeof_SQLWCHAR) in
  let '(bytesWritten, isTruncated, m) :=
    CopyUtf8StringToSqlWcharString (c_str str) buf bufLenInBytes false m in
  (if isLenInBytes then bytesWritten else bytesWritten / sizeof_SQLWCHAR, isTruncated, m).

(** ** ASCII *)

Definition ascii_only (s : text) : Prop := Forall (fun c => 1 <= code c < 128) s.

Lemma ascii_no_nul s : ascii_only s -> no_nul s.
Proof. intros Hs. eapply Forall_impl; [exact Hs|]. cbn. lia. Qed.

Lemma c_str_ascii s : no_nul s -> c_str s = s.
Proof.
  intros Hs. unfold c_str. induction Hs as [|c s Hc Hs IH]; [done|].
  cbn. rewrite (proj2 (Z.eqb_neq _ _)) by done. unfold bytes_of in IH.
  by rewrite IH, char_of_code.
Qed.

Lemma codecvt_ascii maxcode room s :
  ascii_only s ->
  codecvt_in maxcode room (bytes_of s) =
  (take room (bytes_of s), drop room (bytes_of s),
   if (length s <=? room)%nat then cvt_ok else cvt_partial).
Proof.
  intros Hs. revert room. induction Hs as [|c s Hc Hs IH]; intros room; [by destruct room|].
  destruct room as [|room]; [done|]. cbn [bytes_of map codecvt_in utf8_next].
  rewrite (proj2 (Z.ltb_lt _ _)) by lia. unfold bytes_of in IH. by rewrite IH.
Qed.

Lemma from_bytes_ascii maxcode s : ascii_only s -> from_bytes maxcode (bytes_of s) = Ok (bytes_of s).
Proof.
  intros Hs. unfold from_bytes. rewrite codecvt_ascii by done.
  rewrite length_bytes_of, Nat.leb_refl, take_ge; [done|]. by rewrite length_bytes_of.
Qed.

Lemma map_narrow_ascii s : ascii_only s -> map (fun c => u8 (narrow c)) (bytes_of s) = bytes_of s.
Proof.
  intros Hs. unfold bytes_of. rewrite map_map. apply map_ext_in. intros c Hc%list_elem_of_In.
  pose proof (proj1 (Forall_forall _ _) Hs _ Hc) as Hb. cbn in Hb.
  rewrite narrow_ascii by lia. apply Z.mod_small. lia.
Qed.

Lemma ascii_take n s : ascii_only s -> ascii_only (take n s).
Proof. apply Forall_take. Qed.
Lemma ascii_drop n s : ascii_only s -> ascii_only (drop n s).
Proof. apply Forall_drop. Qed.

Lemma digits_ascii s : is_digits s -> ascii_only s.
Proof. intros Hs. eapply Forall_impl; [exact Hs|]. cbn. intros c Hc%isdigit_code. lia. Qed.

Lemma show_int_ascii x : is_u64 (Z.abs x) -> ascii_only (show_int x).
Proof.
  intros Hx. unfold show_int. destruct (Z.ltb_spec x 0).
  - constructor; [by vm_compute|]. apply digits_ascii, show_u64_decimal.
    by replace (- x) with (Z.abs x) by lia.
  - apply digits_ascii, show_u64_decimal. by replace x with (Z.abs x) by lia.
Qed.

Lemma bytes_of_take n s : bytes_of (take n s) = take n (bytes_of s).
Proof. unfold bytes_of. by rewrite <- firstn_map. Qed.

Lemma strncpy_take s n : 0 <= n <= Z.of_nat (length s) ->
  strncpy_bytes s n = bytes_of (take (Z.to_nat n) s).
Proof.
  intros Hn. unfold strncpy_bytes. rewrite <- bytes_of_take, length_bytes_of, length_take.
  replace (Z.to_nat n - _)%nat with 0%nat by lia. by rewrite app_nil_r.
Qed.

Lemma length_wide_bytes cs :
  Z.of_nat (length (wide_bytes cs)) = Z.of_nat (length cs) * sizeof_SQLWCHAR.
Proof.
  induction cs as [|c cs IH]; [done|]. unfold wide_bytes in *. cbn [flat_map length].
  rewrite length_app, length_le_bytes. destruct sizeof_SQLWCHAR_ok as [E|E]; rewrite E in *; lia.
Qed.
End Copies.

(** Linux with unixODBC and a locale that knows ASCII only: UTF-16 code units
    for [SQLWCHAR], UTF-32 for [wchar_t], [?] for what has no narrow form. *)
#[refine] Definition UnixAbi : Abi := {|
  sizeof_SQLWCHAR := 2;
  wchar_max := 1114111;
  ANSI_STRING_ONLY := false;
  narrow c := if c <? 128 then c else 63
|}.
Proof.
  - by left.
  - lia.
  - intros c Hc. by rewrite (proj2 (Z.ltb_lt _ _)) by lia.
Defined.

#[export] Hint Resolve ascii_no_nul ascii_take ascii_drop : odbc_db.
End Encoding.
