(* ===== verification/WideText.v ===== *)
(** * WideText: strings the application passes in

    Models the functions of [src/utility.cpp] that read the strings of an
    application: wide strings are converted to UTF-8 by
    [std::wstring_convert::to_bytes], which throws on a code point it cannot
    encode. [CopyUtf8StringToSqlWcharString] ([Encoding]) is their inverse. *)

From S2P Require Import Prelude Text Memory Encoding.

Module Wide.
Import Text Memory Encoding.
Local Open Scope result_scope.

(** ** UTF-8 *)

Definition utf8_of (c : Z) : list Z :=
  if c <? 128 then [c]
  else if c <? 2048 then [192 + c / 64; 128 + c mod 64]
  else if c <? 65536 then [224 + c / 4096; 128 + c / 64 mod 64; 128 + c mod 64]
  else [240 + c / 262144; 128 + c / 4096 mod 64; 128 + c / 64 mod 64; 128 + c mod 64].

Definition scalar_value (maxcode c : Z) : bool :=
  (0 <=? c) && (c <=? Z.min maxcode 1114111) && negb ((55296 <=? c) && (c <? 57344)).

Fixpoint to_bytes (maxcode : Z) (cs : list Z) : result text :=
  match cs with
  | [] => Ok []
  | c :: cs' =>
      if scalar_value maxcode c
      then do s <- to_bytes maxcode cs'; Ok (map char_of (utf8_of c) ++ s)
      else Err Exception
  end.

(** ** Reading *)

Section Read.
Context `{Abi}.

Definition wide_size : nat := Z.to_nat sizeof_SQLWCHAR.

(** [sqlStr[i]]. *)
Definition wide_at (a : Z) (i : nat) (m : Memory) : Z :=
  le_val (load (a + Z.of_nat i * sizeof_SQLWCHAR) wide_size m).

(** The characters from the [i]th on, up to a zero and at most [n] of them. *)
Fixpoint wide_upto (a : Z) (i n : nat) (m : Memory) : list Z :=
  match n with
  | O => []
  | S n' => if wide_at a i m =? 0 then [] else wide_at a i m :: wide_upto a (S i) n' m
  end.

(** The loop up to the terminator; the bound is the model's. *)
Fixpoint wide_nts (fuel : nat) (a : Z) (i : nat) (m : Memory) : result (list Z) :=
  match fuel with
  | O => Err OutOfFuel
  | S f =>
      if wide_at a i m =? 0 then Ok []
      else do cs <- wide_nts f a (S i) m; Ok (wide_at a i m :: cs)
  end.

Definition SqlWcharToString (SQL_NTS : Z) (fuel : nat) (sqlStr : pointer) (sqlStrLen : Z)
    (isLenInBytes : bool) (m : Memory) : result text :=
  match sqlStr with
  | None => Ok []
  | Some a =>
      do sqlStr0 <-
        (if sqlStrLen =? SQL_NTS then wide_nts fuel a 0 m
         else if 0 <? sqlStrLen then
           let charsToCopy := if isLenInBytes then sqlStrLen / sizeof_SQLWCHAR else sqlStrLen in
           Ok (wide_upto a 0 (Z.to_nat charsToCopy) m)
         else Ok []);
      to_bytes wchar_max sqlStr0
  end.

Definition SqlWcharToOptString (SQL_NTS : Z) (fuel : nat) (sqlStr : pointer) (sqlStrLen : Z)
    (isLenInBytes : bool) (m : Memory) : result (option text) :=
  match sqlStr with
  | None => Ok None
  | Some _ => do s <- SqlWcharToString SQL_NTS fuel sqlStr sqlStrLen isLenInBytes m; Ok (Some s)
  end.
End Read.

(** ** Round trip *)

Lemma scalar_value_true maxcode c :
  scalar_value maxcode c = true <->
  0 <= c <= maxcode /\ c <= 1114111 /\ ~ (55296 <= c < 57344).
Proof. unfold scalar_value. rewrite !andb_true_iff, negb_true_iff, andb_false_iff. lia. Qed.

Lemma utf8_of_bytes maxcode c :
  scalar_value maxcode c = true -> Forall (fun b => 0 <= b < 256) (utf8_of c).
Proof.
  rewrite scalar_value_true. intros (Hc & Hm & _). unfold utf8_of.
  pose proof (Z.mod_pos_bound c 64). pose proof (Z.mod_pos_bound (c / 64) 64).
  pose proof (Z.mod_pos_bound (c / 4096) 64).
  destruct (Z.ltb_spec c 128); [repeat constructor; lia|].
  destruct (Z.ltb_spec c 2048); [|destruct (Z.ltb_spec c 65536)]; repeat constructor;
    Z.to_euclidean_division_equations; lia.
Qed.

Lemma code_char_of b : 0 <= b < 256 -> code (char_of b) = b.
Proof.
  intros Hb. unfold code, char_of. rewrite N_ascii_embedding by lia. lia.
Qed.

Lemma bytes_of_chars l : Forall (fun b => 0 <= b < 256) l -> bytes_of (map char_of l) = l.
Proof.
  induction 1 as [|b l Hb Hl IH]; [done|]. cbn. unfold bytes_of in IH.
  by rewrite IH, code_char_of.
Qed.

(** Tests that the context decides. *)
Ltac decide_tests :=
  repeat match goal with
  | |- context [?x <? ?y] =>
      first [rewrite (proj2 (Z.ltb_lt x y)) by lia | rewrite (proj2 (Z.ltb_ge x y)) by lia]
  | |- context [?x <=? ?y] =>
      first [rewrite (proj2 (Z.leb_le x y)) by lia | rewrite (proj2 (Z.leb_gt x y)) by lia]
  | |- context [?x =? ?y] => destruct (Z.eqb_spec x y)
  end; cbn [andb orb negb].

(** A number and its digits in base 64. *)
Lemma digit64 c : 0 <= c -> exists q r, c / 64 = q /\ c mod 64 = r /\ c = 64 * q + r /\ 0 <= r < 64 /\ 0 <= q.
Proof.
  intros Hc. exists (c / 64), (c mod 64). pose proof (Z.div_mod c 64). pose proof (Z.mod_pos_bound c 64).
  pose proof (Z.div_pos c 64). lia.
Qed.

Lemma utf8_next_of maxcode c l :
  scalar_value maxcode c = true -> utf8_next maxcode (utf8_of c ++ l) = Character c l.
Proof.
  rewrite scalar_value_true. intros (Hc & Hm & Hs). unfold utf8_of.
  change 262144 with (64 * (64 * 64)) at 1. change 4096 with (64 * 64).
  rewrite <- !Z.div_div by lia.
  destruct (digit64 c) as (q & r & -> & -> & E & Hr & Hq); [lia|].
  destruct (digit64 q Hq) as (q2 & r2 & -> & -> & E2 & Hr2 & Hq2).
  destruct (digit64 q2 Hq2) as (q3 & r3 & -> & -> & E3 & Hr3 & Hq3).
  destruct (Z.ltb_spec c 128); [cbn; by decide_tests|].
  destruct (Z.ltb_spec c 2048); [|destruct (Z.ltb_spec c 65536)]; cbn [app utf8_next];
    unfold continuation, bounded; decide_tests; f_equal; lia.
Qed.

(** Decoding an encoded string, into a buffer with room for some of it. *)
Lemma codecvt_utf8 maxcode room cs :
  Forall (fun c => scalar_value maxcode c = true) cs ->
  codecvt_in maxcode room (flat_map utf8_of cs) =
  (take room cs, flat_map utf8_of (drop room cs),
   if (length cs <=? room)%nat then cvt_ok else cvt_partial).
Proof.
  intros Hcs. revert room. induction Hcs as [|c cs Hc Hcs IH]; intros room; [by destruct room|].
  assert (Hne : exists b l, utf8_of c = b :: l) by (unfold utf8_of; repeat case_match; eauto).
  destruct Hne as (b & l & Eb). cbn [flat_map]. destruct room as [|room].
  - cbn. by rewrite Eb.
  - pose proof (utf8_next_of maxcode c (flat_map utf8_of cs) Hc) as Hn. rewrite Eb in *.
    cbn [app codecvt_in] in *. rewrite Hn, IH. done.
Qed.

Lemma to_bytes_ok maxcode cs s :
  to_bytes maxcode cs = Ok s ->
  Forall (fun c => scalar_value maxcode c = true) cs /\ bytes_of s = flat_map utf8_of cs.
Proof.
  revert s. induction cs as [|c cs IH]; intros s; cbn; [by intros [= <-]|].
  destruct (scalar_value maxcode c) eqn:Hc; [|discriminate].
  destruct (to_bytes maxcode cs) as [s'|] eqn:E; cbn; [|discriminate]. intros [= <-].
  destruct (IH s' eq_refl) as [Hcs Hb]. split; [by constructor|].
  unfold bytes_of in *. rewrite map_app, Hb. f_equal.
  exact (bytes_of_chars _ (utf8_of_bytes _ _ Hc)).
Qed.

Lemma to_bytes_total maxcode cs :
  Forall (fun c => scalar_value maxcode c = true) cs -> exists s, to_bytes maxcode cs = Ok s.
Proof.
  induction 1 as [|c cs Hc Hcs [s IH]]; [by exists []|]. cbn. rewrite Hc, IH. cbn. by eexists.
Qed.

(** The conversions of the driver undo each other. *)
Lemma from_to_bytes maxcode cs s : to_bytes maxcode cs = Ok s -> from_bytes maxcode (bytes_of s) = Ok cs.
Proof.
  intros E. apply to_bytes_ok in E as [Hcs Hb]. unfold from_bytes. rewrite Hb, codecvt_utf8 by done.
  assert (Hl : (length cs <= length (flat_map utf8_of cs))%nat).
  { clear. induction cs as [|c cs IH]; cbn; [lia|]. rewrite length_app.
    assert (1 <= length (utf8_of c))%nat by (unfold utf8_of; repeat case_match; cbn; lia). lia. }
  rewrite (proj2 (Nat.leb_le _ _) Hl), take_ge by lia. done.
Qed.
End Wide.
