(* ===== verification/AppBuffer.v ===== *)
(** * AppBuffer: the buffers of the application

    Models [ApplicationDataBuffer] ([src/app/application_data_buffer.cpp] and its
    header): a typed view of a buffer and a length variable in the memory of the
    application, with the operations that put a number, a text, a date, a time,
    a timestamp, a decimal or a null into it. Every operation takes the buffer
    object and the memory and returns both; writing through a null pointer is
    the error [NullPointer]. Lengths are [SQLLEN], 64 bits wide. Floating-point
    values are the class [Floats]. *)

From S2P Require Import Prelude Text Memory Bits BigInteger BigIntegerBytes Decimal Calendar Encoding.

Module AppBuf.
Import Text Memory Calendar Encoding.
Local Open Scope result_scope.

Inductive ConversionResult : Type :=
  | CONV_SUCCESS | FRACTIONAL_TRUNCATED | VARLEN_DATA_TRUNCATED | UNSUPPORTED_CONVERSION
  | INDICATOR_NEEDED | CONV_NO_DATA | FAILURE.

#[global] Instance ConversionResult_eq_dec : EqDecision ConversionResult.
Proof. solve_decision. Defined.

Inductive OdbcNativeType : Type :=
  | AI_CHAR | AI_WCHAR | AI_SIGNED_SHORT | AI_UNSIGNED_SHORT | AI_SIGNED_LONG
  | AI_UNSIGNED_LONG | AI_FLOAT | AI_DOUBLE | AI_BIT | AI_SIGNED_TINYINT
  | AI_UNSIGNED_TINYINT | AI_SIGNED_BIGINT | AI_UNSIGNED_BIGINT | AI_BINARY
  | AI_TDATE | AI_TTIME | AI_TTIMESTAMP | AI_NUMERIC
  | AI_INTERVAL_YEAR | AI_INTERVAL_MONTH | AI_INTERVAL_DAY | AI_INTERVAL_HOUR
  | AI_INTERVAL_MINUTE | AI_INTERVAL_SECOND | AI_INTERVAL_DAY_TO_HOUR
  | AI_INTERVAL_DAY_TO_MINUTE | AI_INTERVAL_HOUR_TO_MINUTE | AI_INTERVAL_HOUR_TO_SECOND
  | AI_INTERVAL_MINUTE_TO_SECOND | AI_INTERVAL_YEAR_TO_MONTH | AI_INTERVAL_DAY_TO_SECOND
  | AI_DEFAULT | AI_UNSUPPORTED.

(** The floating-point values and their conversions; [size] is 4 for [float]
    and 8 for [double]. [real_to_int lo hi d] is [d] without its fraction, [None]
    when that is outside the integer type [lo .. hi]. *)
Class Floats : Type := {
  real : Type;
  real_bytes : nat -> real -> list Z;
  real_bytes_length : forall size d, length (real_bytes size d) = size;
  int_to_real : nat -> Z -> list Z;
  int_to_real_length : forall size v, length (int_to_real size v) = size;
  real_to_int : Z -> Z -> real -> option Z;
  real_negative : real -> bool;
  real_abs : real -> real;
  show_real : real -> text;
  stod : text -> option real;
  read_real : text -> real
}.

(** Whole numbers as reals, for runs. *)
#[refine] Definition WholeReals : Floats := {|
  real := Z;
  real_bytes := le_bytes;
  int_to_real := le_bytes;
  real_to_int lo hi d := if (lo <=? d) && (d <=? hi) then Some d else None;
  real_negative d := d <? 0;
  real_abs := Z.abs;
  show_real := show_int;
  stod s := if AllDigits s then Some (digits_val s) else None;
  read_real s := digits_val s
|}.
Proof. all: intros; apply length_le_bytes. Defined.

(** [Decimal::ToDouble]: through the text of the decimal. *)
Definition ToDouble `{Floats} (d : Dec.Decimal) : result real := do s <- Dec.dec_print d; Ok (read_real s).

(** The arguments of the template [PutNum]: an [int<8 size>_t], or a [float] or
    [double]. *)
Inductive number `{Floats} : Type :=
  | Int (size : nat) (v : Z)
  | Real (size : nat) (d : real).

Record ApplicationDataBuffer : Type := MkBuffer {
  type_ : OdbcNativeType;
  buffer_ : pointer;
  buflen_ : Z;
  reslen_ : pointer;
  byteOffset_ : Z;
  cellOffset_ : Z;
  elementOffset_ : Z
}.

Definition EmptyBuffer : ApplicationDataBuffer := MkBuffer AI_UNSUPPORTED None 0 None 0 (-1) 0.
Definition NewBuffer (type : OdbcNativeType) (buffer : pointer) (buflen : Z) (reslen : pointer)
    : ApplicationDataBuffer := MkBuffer type buffer buflen reslen 0 (-1) 0.

Definition SetByteOffset (offset : Z) (b : ApplicationDataBuffer) :=
  MkBuffer (type_ b) (buffer_ b) (buflen_ b) (reslen_ b) offset (cellOffset_ b) (elementOffset_ b).
Definition SetCellOffset (offset : Z) (b : ApplicationDataBuffer) :=
  MkBuffer (type_ b) (buffer_ b) (buflen_ b) (reslen_ b) (byteOffset_ b) offset (elementOffset_ b).
Definition SetElementOffset (idx : Z) (b : ApplicationDataBuffer) :=
  MkBuffer (type_ b) (buffer_ b) (buflen_ b) (reslen_ b) (byteOffset_ b) (cellOffset_ b) idx.

Definition GetElementSize (b : ApplicationDataBuffer) : Z :=
  match type_ b with
  | AI_WCHAR | AI_CHAR | AI_BINARY => buflen_ b
  | AI_SIGNED_SHORT | AI_UNSIGNED_SHORT => 2
  | AI_SIGNED_LONG | AI_UNSIGNED_LONG => 4
  | AI_FLOAT => 4
  | AI_DOUBLE => 8
  | AI_SIGNED_TINYINT | AI_BIT | AI_UNSIGNED_TINYINT => 1
  | AI_SIGNED_BIGINT | AI_UNSIGNED_BIGINT => 8
  | AI_TDATE => 6
  | AI_TTIME => 6
  | AI_TTIMESTAMP => 16
  | AI_NUMERIC => 19
  | _ => 0
  end.

Definition ApplyOffset (ptr : pointer) (elemSize : Z) (b : ApplicationDataBuffer) : pointer :=
  option_map (fun p => p + u64 (byteOffset_ b + elemSize * elementOffset_ b)) ptr.
Definition GetData (b : ApplicationDataBuffer) : pointer :=
  ApplyOffset (buffer_ b) (GetElementSize b) b.
Definition GetResLen (b : ApplicationDataBuffer) : pointer := ApplyOffset (reslen_ b) 8 b.
Definition GetSize (b : ApplicationDataBuffer) : Z := buflen_ b.

(** [*resLenPtr = len] when there is a length variable. *)
Definition set_reslen (len : Z) (b : ApplicationDataBuffer) (m : Memory) : Memory :=
  match GetResLen b with
  | Some p => store p (le_bytes 8 len) m
  | None => m
  end.

Abbreviation SQL_NULL_DATA := (-1) (only parsing).
Abbreviation SQL_NO_TOTAL := (-4) (only parsing).
Abbreviation SQL_MAX_NUMERIC_LEN := 16 (only parsing).

Section Put.
Context `{Abi} `{Floats}.

(** What an operation returns: its result, the buffer object, the memory. *)
Definition outcome : Type := result (ConversionResult * ApplicationDataBuffer * Memory).

(** ** Null *)

Definition PutNull (b : ApplicationDataBuffer) (m : Memory) : outcome :=
  match GetResLen b with
  | None => Ok (INDICATOR_NEEDED, b, m)
  | Some p => Ok (CONV_SUCCESS, b, store p (le_bytes 8 SQL_NULL_DATA) m)
  end.

(** ** Text *)

Definition PutStrToStrBuffer (outCharSize : Z) (value : text) (b : ApplicationDataBuffer)
    (m : Memory) : result (ConversionResult * ApplicationDataBuffer * Memory * Z) :=
  do bytesRequired <-
    (if ANSI_STRING_ONLY then Ok (Z.of_nat (length value) * outCharSize)
     else do inString <- from_bytes wchar_max (bytes_of (c_str value));
          Ok (Z.of_nat (length inString) * outCharSize));
  match GetData b with
  | None => Ok (CONV_SUCCESS, b, set_reslen bytesRequired b m, 0)
  | Some dataPtr =>
      let currentCellOffset := if 0 <=? cellOffset_ b then cellOffset_ b else 0 in
      let inCharIndex := currentCellOffset in
      if Z.of_nat (length value) <=? inCharIndex then
        Ok (CONV_NO_DATA, b, set_reslen SQL_NO_TOTAL b m, 0)
      else
        let rest := c_str (drop (Z.to_nat inCharIndex) value) in
        do copied <-
          (if outCharSize =? 1
           then CopyUtf8StringToSqlCharString rest (Some dataPtr) (u64 (buflen_ b)) false m
           else Ok (CopyUtf8StringToSqlWcharString rest (Some dataPtr) (u64 (buflen_ b)) false m));
        let '(bytesWritten, isTruncated, m) := copied in
        let totalBytesWritten := i64 (currentCellOffset * outCharSize + bytesWritten) in
        let remaining :=
          if 0 <? u64 (bytesRequired - totalBytesWritten)
          then i64 (bytesRequired - totalBytesWritten) else bytesRequired in
        let m := set_reslen remaining b m in
        let b :=
          if 0 <=? cellOffset_ b
          then SetCellOffset (i64 (cellOffset_ b + bytesWritten / outCharSize)) b else b in
        Ok (if isTruncated : bool then VARLEN_DATA_TRUNCATED else CONV_SUCCESS, b, m, bytesWritten)
  end.

Definition put_str (outCharSize : Z) (value : text) (b : ApplicationDataBuffer) (m : Memory)
    : outcome :=
  do r <- PutStrToStrBuffer outCharSize value b m;
  let '(res, b, m, _) := r in Ok (res, b, m).

(** The cases [AI_CHAR] of the operations that put a text of a fixed shape:
    [valLen] counts the terminator. *)
Definition put_fixed_char (tmp : text) (valLen : Z) (b : ApplicationDataBuffer) (m : Memory)
    : outcome :=
  let m := set_reslen (valLen - 1) b m in
  match GetData b with
  | None => Ok (CONV_SUCCESS, b, m)
  | Some buffer =>
      let n := Z.min valLen (buflen_ b) in
      if n <? 0 then Err OutOfBounds
      else
        let m := store buffer (strncpy_bytes tmp n) m in
        if buflen_ b <? valLen
        then Ok (VARLEN_DATA_TRUNCATED, b, store (buffer + (buflen_ b - 1)) [0] m)
        else Ok (CONV_SUCCESS, b, m)
  end.

Definition put_fixed_wchar (tmp : text) (valLen : Z) (b : ApplicationDataBuffer) (m : Memory)
    : outcome :=
  let m := set_reslen (valLen - 1) b m in
  match GetData b with
  | None => Ok (CONV_SUCCESS, b, m)
  | Some buffer =>
      let '(_, isTruncated, m) := CopyStringToBuffer tmp (Some buffer) (u64 (buflen_ b)) true m in
      Ok (if isTruncated : bool then VARLEN_DATA_TRUNCATED else CONV_SUCCESS, b, m)
  end.

(** A structure written through the data pointer without a test of it. *)
Definition put_struct (bytes : list Z) (res : ConversionResult) (b : ApplicationDataBuffer)
    (m : Memory) : outcome :=
  match GetData b with
  | None => Err NullPointer
  | Some buffer =>
      Ok (res, b, set_reslen (Z.of_nat (length bytes)) b (store buffer bytes m))
  end.

(** [SQL_DATE_STRUCT], [SQL_TIME_STRUCT] and [SQL_TIMESTAMP_STRUCT]. *)
Definition date_struct (t : tm) : list Z :=
  le_bytes 2 (tm_year t + 1900) ++ le_bytes 2 (tm_mon t + 1) ++ le_bytes 2 (tm_mday t).
Definition time_struct (t : tm) : list Z :=
  le_bytes 2 (tm_hour t) ++ le_bytes 2 (tm_min t) ++ le_bytes 2 (tm_sec t).
Definition timestamp_struct (t : tm) (fraction : Z) : list Z :=
  date_struct t ++ time_struct t ++ le_bytes 4 fraction.

(** ** Dates, times, timestamps *)

Definition date_text (t : tm) : text :=
  space_padded 4 (tm_year t + 1900) ++ txt "-" ++ zero_padded 2 (tm_mon t + 1) ++ txt "-" ++
  zero_padded 2 (tm_mday t).

(** [tmTime] is not initialised: a date [gmtime_r] refuses leaves it so. *)
Definition PutDate (value : Date) (b : ApplicationDataBuffer) (m : Memory) : outcome :=
  match type_ b with
  | AI_CHAR | AI_WCHAR | AI_TDATE | AI_TTIMESTAMP =>
      match DateToCTm value with
      | None => Err Indeterminate
      | Some tmTime =>
          let valLen := 10 in
          match type_ b with
          | AI_CHAR => put_fixed_char (take 31 (date_text tmTime)) (valLen + 1) b m
          | AI_WCHAR =>
              let m := set_reslen valLen b m in
              let m :=
                match GetData b with
                | Some buffer =>
                    snd (CopyStringToBuffer (take 31 (date_text tmTime)) (Some buffer)
                           (u64 (buflen_ b)) true m)
                | None => m
                end in
              Ok (if buflen_ b <? valLen + 1 then VARLEN_DATA_TRUNCATED else CONV_SUCCESS, b, m)
          | AI_TDATE => put_struct (date_struct tmTime) CONV_SUCCESS b m
          | _ => put_struct (timestamp_struct tmTime 0) CONV_SUCCESS b m
          end
      end
  | _ => Ok (UNSUPPORTED_CONVERSION, b, m)
  end.

(** [GetTimestampString]: the fraction is cut at 15 characters. *)
Definition GetTimestampString (prefix : text) (fraction : Z) : text :=
  prefix ++ take 15 (zero_padded 9 fraction).

Definition PutTimestamp (value : Timestamp) (b : ApplicationDataBuffer) (m : Memory) : outcome :=
  let tmTime := default tm_zero (TimestampToCTm value) in
  let fraction := ts_fractionNs value in
  let tmpStr := GetTimestampString (strftime_timestamp tmTime) fraction in
  match type_ b with
  | AI_CHAR => put_fixed_char tmpStr 30 b m
  | AI_WCHAR => put_fixed_wchar tmpStr 30 b m
  | AI_TDATE => put_struct (date_struct tmTime) FRACTIONAL_TRUNCATED b m
  | AI_TTIME => put_struct (time_struct tmTime) FRACTIONAL_TRUNCATED b m
  | AI_TTIMESTAMP => put_struct (timestamp_struct tmTime fraction) CONV_SUCCESS b m
  | _ => Ok (UNSUPPORTED_CONVERSION, b, m)
  end.

Definition PutTime (value : Time) (b : ApplicationDataBuffer) (m : Memory) : outcome :=
  let tmTime := default tm_zero (TimeToCTm value) in
  let fraction := t_fractionNs value in
  let tmpStr := GetTimestampString (strftime_time tmTime) fraction in
  match type_ b with
  | AI_CHAR => put_fixed_char tmpStr 19 b m
  | AI_WCHAR => put_fixed_wchar tmpStr 19 b m
  | AI_TTIME => put_struct (time_struct tmTime) VARLEN_DATA_TRUNCATED b m
  | AI_TTIMESTAMP => put_struct (timestamp_struct tmTime fraction) CONV_SUCCESS b m
  | _ => Ok (UNSUPPORTED_CONVERSION, b, m)
  end.

(** ** Numbers *)

Definition number_bytes (value : number) : list Z :=
  match value with Int size v => le_bytes size v | Real size d => real_bytes size d end.

(** [converter << value]; an [int8_t] is shown as an [int32_t]. *)
Definition show_number (value : number) : text :=
  match value with Int _ v => show_int v | Real _ d => show_real d end.

(** A conversion to an integer type with the bounds [lo] and [hi]: an integer
    wraps when it is stored; a real out of range is undefined. *)
Definition to_integer (lo hi : Z) (value : number) : result Z :=
  match value with
  | Int _ v => Ok v
  | Real _ d => match real_to_int lo hi d with Some v => Ok v | None => Err Indeterminate end
  end.

Definition PutNumToNumBuffer (size : nat) (lo hi : Z) (value : number)
    (b : ApplicationDataBuffer) (m : Memory) : outcome :=
  do m <-
    match GetData b with
    | Some out => do v <- to_integer lo hi value; Ok (store out (le_bytes size v) m)
    | None => Ok m
    end;
  Ok (CONV_SUCCESS, b, set_reslen (Z.of_nat size) b m).

(** The same for [SQLREAL] and [SQLDOUBLE]. *)
Definition PutNumToRealBuffer (size : nat) (value : number) (b : ApplicationDataBuffer)
    (m : Memory) : outcome :=
  let bytes := match value with Int _ v => int_to_real size v | Real _ d => real_bytes size d end in
  let m := match GetData b with Some out => store out bytes m | None => m end in
  Ok (CONV_SUCCESS, b, set_reslen (Z.of_nat size) b m).

Definition PutValToStrBuffer (outCharSize : Z) (value : number) (b : ApplicationDataBuffer)
    (m : Memory) : outcome :=
  put_str outCharSize (show_number value) b m.

(** The bytes of [SQL_NUMERIC_STRUCT] for a number. *)
Definition numeric_struct (negative : bool) (uval : Z) : list Z :=
  [u8 (Bits.DigitLength uval); 0; if negative then 0 else 1] ++ le_bytes 8 uval ++ replicate 8 0.

Definition put_numeric (value : number) (b : ApplicationDataBuffer) (m : Memory) : outcome :=
  do m <-
    match GetData b with
    | Some out =>
        do bytes <-
          match value with
          | Int _ v => Ok (numeric_struct (v <? 0) (u64 (if v <? 0 then - v else v)))
          | Real _ d =>
              match real_to_int 0 18446744073709551615 (real_abs d) with
              | Some v => Ok (numeric_struct (real_negative d) v)
              | None => Err Indeterminate
              end
          end;
        Ok (store out bytes m)
    | None => Ok m
    end;
  Ok (CONV_SUCCESS, b, set_reslen 19 b m).

(** The cases [AI_BINARY] and [AI_DEFAULT]: the bytes of the number. *)
Definition put_number_bytes (value : number) (b : ApplicationDataBuffer) (m : Memory) : outcome :=
  let bytes := number_bytes value in
  let size := Z.of_nat (length bytes) in
  let m :=
    match GetData b with
    | Some out => store out (take (Z.to_nat (Z.min size (u64 (buflen_ b)))) bytes) m
    | None => m
    end in
  Ok (if u64 (buflen_ b) <? size then VARLEN_DATA_TRUNCATED else CONV_SUCCESS, b,
      set_reslen size b m).

Definition to_int64 (value : number) : result Z :=
  to_integer (-9223372036854775808) 9223372036854775807 value.

Definition PutNum (value : number) (b : ApplicationDataBuffer) (m : Memory) : outcome :=
  match type_ b with
  | AI_SIGNED_TINYINT => PutNumToNumBuffer 1 (-128) 127 value b m
  | AI_BIT | AI_UNSIGNED_TINYINT => PutNumToNumBuffer 1 0 255 value b m
  | AI_SIGNED_SHORT => PutNumToNumBuffer 2 (-32768) 32767 value b m
  | AI_UNSIGNED_SHORT => PutNumToNumBuffer 2 0 65535 value b m
  | AI_SIGNED_LONG => PutNumToNumBuffer 4 (-2147483648) 2147483647 value b m
  | AI_UNSIGNED_LONG => PutNumToNumBuffer 4 0 4294967295 value b m
  | AI_SIGNED_BIGINT =>
      PutNumToNumBuffer 8 (-9223372036854775808) 9223372036854775807 value b m
  | AI_UNSIGNED_BIGINT => PutNumToNumBuffer 8 0 18446744073709551615 value b m
  | AI_FLOAT => PutNumToRealBuffer 4 value b m
  | AI_DOUBLE => PutNumToRealBuffer 8 value b m
  | AI_CHAR => PutValToStrBuffer 1 value b m
  | AI_WCHAR => PutValToStrBuffer sizeof_SQLWCHAR value b m
  | AI_NUMERIC => put_numeric value b m
  | AI_BINARY | AI_DEFAULT => put_number_bytes value b m
  | AI_TDATE => do v <- to_int64 value; PutDate v b m
  | AI_TTIMESTAMP => do v <- to_int64 value; PutTimestamp (Timestamp_of_ms v) b m
  | AI_TTIME => do v <- to_int64 value; PutTime (Time_of_ms v) b m
  | _ => Ok (UNSUPPORTED_CONVERSION, b, m)
  end.

Definition PutInt8 (value : Z) := PutNum (Int 1 value).
Definition PutInt16 (value : Z) := PutNum (Int 2 value).
Definition PutInt32 (value : Z) := PutNum (Int 4 value).
Definition PutInt64 (value : Z) := PutNum (Int 8 value).
Definition PutFloat (value : real) := PutNum (Real 4 value).
Definition PutDouble (value : real) := PutNum (Real 8 value).

(** The overloads for [boost::optional]. *)
Definition PutOptional {A} (put : A -> ApplicationDataBuffer -> Memory -> outcome)
    (value : option A) (b : ApplicationDataBuffer) (m : Memory) : outcome :=
  match value with Some v => put v b m | None => PutNull b m end.

(** ** Strings *)

(** [converter >> numValue] for an [int64_t]: from an empty text nothing is
    read and [numValue] keeps its undefined value; without digits it is 0, out
    of range it is the nearest bound. *)
Definition stream_int64 (s : text) : result Z :=
  match Ltrim s with
  | [] => Err Indeterminate
  | c :: s' =>
      let '(neg, d) :=
        if code c =? 45 then (true, s') else if code c =? 43 then (false, s') else (false, c :: s') in
      let '(d, _) := Calendar.span_digits (length d) d in
      let v := if neg : bool then - digits_val d else digits_val d in
      Ok (Z.max (-9223372036854775808) (Z.min 9223372036854775807 v))
  end.

(** The result, the buffer, the memory, and the argument [written]. *)
Definition PutString_written (value : text) (b : ApplicationDataBuffer) (m : Memory)
    : result (ConversionResult * ApplicationDataBuffer * Memory * Z) :=
  let size := Z.of_nat (length value) in
  match type_ b with
  | AI_SIGNED_TINYINT | AI_BIT | AI_UNSIGNED_TINYINT | AI_SIGNED_SHORT | AI_UNSIGNED_SHORT
  | AI_SIGNED_LONG | AI_UNSIGNED_LONG | AI_SIGNED_BIGINT | AI_UNSIGNED_BIGINT | AI_NUMERIC =>
      do numValue <- stream_int64 value;
      do r <- PutNum (Int 8 numValue) b m; Ok (r, size)
  | AI_FLOAT | AI_DOUBLE => do r <- PutNum (Real 8 (read_real value)) b m; Ok (r, size)
  | AI_CHAR | AI_BINARY | AI_DEFAULT => PutStrToStrBuffer 1 value b m
  | AI_WCHAR => PutStrToStrBuffer sizeof_SQLWCHAR value b m
  | _ => Ok (UNSUPPORTED_CONVERSION, b, m, 0)
  end.

Definition PutString (value : text) (b : ApplicationDataBuffer) (m : Memory) : outcome :=
  do r <- PutString_written value b m;
  let '(res, b, m, _) := r in Ok (res, b, m).

Definition PutRawDataToBuffer (data : list Z) (b : ApplicationDataBuffer) (m : Memory)
    : ConversionResult * Memory * Z :=
  let iLen := Z.of_nat (length data) in
  let m := set_reslen iLen b m in
  let toCopy := Z.min (buflen_ b) iLen in
  let m :=
    match GetData b with
    | Some out => if 0 <? toCopy then store out (take (Z.to_nat toCopy) data) m else m
    | None => m
    end in
  (if toCopy <? iLen then VARLEN_DATA_TRUNCATED else CONV_SUCCESS, m, toCopy).

(** ** Decimals *)

(** [SQL_NUMERIC_STRUCT] for a decimal: 16 bytes of the magnitude, the lowest
    first. *)
Definition decimal_struct (unscaled : Big.BigInteger) (bytesBuffer : list Z) : list Z :=
  [u8 (Big.GetPrecision unscaled); 0; if Big.sign unscaled <? 0 then 0 else 1] ++
  map (fun i => u8 (nth i (rev bytesBuffer) 0)) (seq 0 16).

Definition PutDecimal (value : Dec.Decimal) (b : ApplicationDataBuffer) (m : Memory) : outcome :=
  match type_ b with
  | AI_SIGNED_TINYINT | AI_BIT | AI_UNSIGNED_TINYINT | AI_SIGNED_SHORT | AI_UNSIGNED_SHORT
  | AI_SIGNED_LONG | AI_UNSIGNED_LONG | AI_SIGNED_BIGINT | AI_UNSIGNED_BIGINT =>
      do v <- Dec.dec_ToInt64 value;
      do r <- PutNum (Int 8 v) b m;
      let '(_, b, m) := r in Ok (FRACTIONAL_TRUNCATED, b, m)
  | AI_FLOAT | AI_DOUBLE =>
      do d <- ToDouble value;
      do r <- PutNum (Real 8 d) b m;
      let '(_, b, m) := r in Ok (FRACTIONAL_TRUNCATED, b, m)
  | AI_CHAR | AI_WCHAR => do s <- Dec.dec_print value; PutString s b m
  | AI_NUMERIC =>
      do zeroScaled <- Dec.SetScale value 0 Dec.dec_default;
      let unscaled := Dec.magnitude zeroScaled in
      let bytesBuffer := BigBytes.MagnitudeToBytes unscaled in
      match GetData b with
      | None => Err NullPointer
      | Some out =>
          let m := store out (decimal_struct unscaled bytesBuffer) m in
          Ok (if 16 <? Z.of_nat (length bytesBuffer) then FRACTIONAL_TRUNCATED else CONV_SUCCESS,
              b, set_reslen 19 b m)
      end
  | _ => Ok (UNSUPPORTED_CONVERSION, b, m)
  end.
End Put.
End AppBuf.
