(* ===== verification/AppBufferFacts.v ===== *)
(** * AppBufferFacts: what the buffers of the application hold

    The operations of [AppBuffer] against the memory: text never leaves the
    buffer, an integer arrives modulo the width of its target, and the exact
    places where the code does something else. *)

From S2P Require Import Prelude Text Memory Bits BigInteger BigIntegerFacts BigIntegerMul BigIntegerBytes Decimal Calendar Encoding AppBuffer.

Module AppBufFacts.
Import Text Memory Calendar Encoding AppBuf.

Section Facts.
Context `{Abi} `{Floats}.

(** The values the driver puts into a buffer. *)
Inductive value : Type :=
  | VNull
  | VString (s : text)
  | VNumber (n : number)
  | VDate (d : Date)
  | VTime (t : Time)
  | VTimestamp (t : Timestamp)
  | VDecimal (d : Dec.Decimal).

Definition Put (v : value) : ApplicationDataBuffer -> Memory -> outcome :=
  match v with
  | VNull => PutNull
  | VString s => PutString s
  | VNumber n => PutNum n
  | VDate d => PutDate d
  | VTime t => PutTime t
  | VTimestamp t => PutTimestamp t
  | VDecimal d => PutDecimal d
  end.

(** ** Text stays in the buffer *)

(** The buffer objects differ in the cell offset only. *)
Definition same_buffer (b b' : ApplicationDataBuffer) : Prop :=
  b' = AppBuf.SetCellOffset (cellOffset_ b') b.

Lemma same_buffer_refl b : same_buffer b b.
Proof. by destruct b. Qed.
Lemma same_buffer_offset o b : same_buffer b (AppBuf.SetCellOffset o b).
Proof. by destruct b. Qed.

Lemma untouched_more rs rs' m m' : rs ⊆ rs' -> untouched rs m m' -> untouched rs' m m'.
Proof.
  intros Hs Hu x Hx. apply Hu. apply Forall_forall. intros r Hr.
  exact (proj1 (Forall_forall _ _) Hx r (Hs r Hr)).
Qed.

Lemma untouched_store_in p n a l m m' :
  p <= a -> a + Z.of_nat (length l) <= p + n ->
  untouched [(p, n)] m m' -> untouched [(p, n)] m (store a l m').
Proof.
  intros H1 H2 Hu x Hx. rewrite <- (Hu x Hx). apply store_outside.
  apply Forall_inv in Hx. cbn in Hx. lia.
Qed.

Lemma copy_char_safe s p n tr m k tr' m' :
  0 <= n -> CopyUtf8StringToSqlCharString s (Some p) n tr m = Ok (k, tr', m') ->
  untouched [(p, n)] m m'.
Proof.
  intros Hn. unfold CopyUtf8StringToSqlCharString. destruct ANSI_STRING_ONLY.
  - destruct (Z.leb_spec n (Z.of_nat (length s))); intros [= _ _ <-].
    + destruct (Z.ltb_spec 0 n); [|done].
      repeat apply untouched_store_in; rewrite ?length_strncpy; cbn [length]; try lia. done.
    + repeat apply untouched_store_in; rewrite ?length_strncpy; cbn [length]; try lia. done.
  - destruct (from_bytes _ _) as [ws|]; [|discriminate]. cbn [res_bind]. intros [= _ _ <-].
    destruct (Z.ltb_spec 0 n); [|done].
    destruct (Z.ltb_spec 0 (Z.min (Z.of_nat (length ws)) (n - 1))); [|done].
    repeat apply untouched_store_in; rewrite ?length_map, ?length_take; cbn [length]; try lia. done.
Qed.

Lemma codecvt_in_room maxcode r l cs rest res :
  codecvt_in maxcode r l = (cs, rest, res) -> (length cs <= r)%nat.
Proof.
  revert l cs rest res. induction r as [|r IH]; intros l cs rest res E.
  - destruct l; cbn in E; injection E as <- _ _; cbn; lia.
  - destruct l as [|x l]; [cbn in E; injection E as <- _ _; cbn; lia|]. cbn [codecvt_in] in E.
    destruct (utf8_next _ _) as [c r'| |]; [|injection E as <- _ _; cbn; lia..].
    destruct (codecvt_in maxcode r r') as [[cs' rest'] res'] eqn:E'. injection E as <- _ _.
    apply IH in E'. cbn. lia.
Qed.

Lemma copy_wchar_safe s p n tr m k tr' m' :
  0 <= n -> CopyUtf8StringToSqlWcharString s (Some p) n tr m = (k, tr', m') ->
  untouched [(p, n)] m m'.
Proof.
  intros Hn. unfold CopyUtf8StringToSqlWcharString, CopyUtf8StringToWcharString.
  assert (Hw := sizeof_SQLWCHAR_ok).
  destruct (n =? 0); [by intros [= _ _ <-]|].
  destruct (Z.ltb_spec sizeof_SQLWCHAR n).
  - destruct (codecvt_in _ _ _) as [[cs rest] res] eqn:E. intros [= _ _ <-].
    apply codecvt_in_room in E.
    assert (Hlen : (Z.of_nat (length cs) + 1) * sizeof_SQLWCHAR <= n).
    { assert (Hp : 0 < sizeof_SQLWCHAR) by lia. set (w := sizeof_SQLWCHAR) in *.
      pose proof (Z.mul_div_le n w Hp).
      assert (1 <= n / w) by (apply Z.div_le_lower_bound; lia). nia. }
    apply untouched_store_in; [nia|rewrite length_app, length_le_bytes; cbn; nia|].
    apply untouched_store_in; [lia|rewrite length_wide_bytes; nia|done].
  - destruct (codecvt_in _ _ _) as [[cs rest] res]. by intros [= _ _ <-].
Qed.

(** A buffer of a text type; it may be absent or empty, and so may the length
    variable. *)
Definition text_buffer (b : ApplicationDataBuffer) : Prop :=
  (type_ b = AI_CHAR \/ type_ b = AI_WCHAR) /\ 0 <= buflen_ b < 9223372036854775808.

(** The texts of a fixed shape. *)
Definition fixed_shape (v : value) : bool :=
  match v with VDate _ | VTime _ | VTimestamp _ => true | _ => false end.

Definition narrow_type (t : OdbcNativeType) : bool := match t with AI_CHAR => true | _ => false end.

(** The bytes a value may change: those of the buffer and of the length variable,
    as far as there are such; but a narrow buffer of length zero with a text of a
    fixed shape has the terminator before it. *)
Definition data_region (v : value) (b : ApplicationDataBuffer) : list (Z * Z) :=
  match GetData b with
  | Some p =>
      if fixed_shape v && narrow_type (type_ b) && (buflen_ b =? 0)
      then [(p - 1, 1)] else [(p, buflen_ b)]
  | None => []
  end.
Definition length_region (b : ApplicationDataBuffer) : list (Z * Z) :=
  match GetResLen b with Some q => [(q, 8)] | None => [] end.
Definition regions (v : value) (b : ApplicationDataBuffer) : list (Z * Z) :=
  data_region v b ++ length_region b.

Definition safe (rs : list (Z * Z)) (b : ApplicationDataBuffer) (m : Memory) (r : outcome) : Prop :=
  forall res b' m', r = Ok (res, b', m') ->
  untouched (rs ++ length_region b) m m' /\ same_buffer b b'.

Lemma in_data_region rs rs' m m' : untouched rs m m' -> untouched (rs ++ rs') m m'.
Proof. apply untouched_more. set_solver. Qed.

Lemma set_reslen_safe rs b len m m' :
  untouched (rs ++ length_region b) m m' ->
  untouched (rs ++ length_region b) m (set_reslen len b m').
Proof.
  intros Hu. unfold set_reslen, length_region in *. destruct (GetResLen b) as [q|]; [|done].
  apply untouched_store with (n := 8); [set_solver|rewrite length_le_bytes; lia|done].
Qed.

Lemma PutStr_safe w s b m :
  text_buffer b ->
  safe (match GetData b with Some p => [(p, buflen_ b)] | None => [] end) b m (put_str w s b m).
Proof.
  intros [_ Hn] res b' m' E. unfold put_str, PutStrToStrBuffer in E.
  destruct (if ANSI_STRING_ONLY then _ else _) as [req|]; [|discriminate].
  cbn [res_bind] in E. destruct (GetData b) as [p|];
    [|injection E as <- <- <-; split; [by apply set_reslen_safe|apply same_buffer_refl]].
  set (o := if 0 <=? cellOffset_ b then cellOffset_ b else 0) in E.
  destruct (Z.of_nat (length s) <=? o).
  - injection E as <- <- <-. split; [|apply same_buffer_refl]. by apply set_reslen_safe.
  - rewrite (u64_small (buflen_ b)) in E by (unfold is_u64; lia).
    set (rest := c_str _) in E.
    assert (Hcopy : forall k tr m1,
      (if w =? 1 then CopyUtf8StringToSqlCharString rest (Some p) (buflen_ b) false m
       else Ok (CopyUtf8StringToSqlWcharString rest (Some p) (buflen_ b) false m)) = Ok (k, tr, m1) ->
      untouched [(p, buflen_ b)] m m1).
    { intros k tr m1 Ec. destruct (w =? 1).
      - eapply copy_char_safe; [|exact Ec]. lia.
      - injection Ec as Ec. eapply copy_wchar_safe; [|exact Ec]. lia. }
    destruct (if w =? 1 then _ else _) as [[[k tr] m1]|]; [|discriminate].
    cbn [res_bind] in E. injection E as <- <- <-. split.
    + assert (Hu : untouched ([(p, buflen_ b)] ++ length_region b) m m1)
        by by apply in_data_region, (Hcopy k tr).
      destruct (0 <=? cellOffset_ b); by apply (set_reslen_safe _ b).
    + destruct (0 <=? cellOffset_ b); [apply same_buffer_offset|apply same_buffer_refl].
Qed.

Lemma put_fixed_char_safe v tmp n b m :
  text_buffer b -> type_ b = AI_CHAR -> fixed_shape v = true -> 1 <= n ->
  safe (data_region v b) b m (put_fixed_char tmp n b m).
Proof.
  intros [_ Hb] Ht Hv Hn res b' m' E. unfold put_fixed_char, data_region in *.
  rewrite Hv, Ht. cbn [narrow_type andb].
  destruct (GetData b) as [p|]; [|injection E as <- <- <-; split; [by apply set_reslen_safe|apply same_buffer_refl]].
  rewrite (proj2 (Z.ltb_ge (Z.min n (buflen_ b)) 0)) in E by lia.
  destruct (Z.eqb_spec (buflen_ b) 0) as [E0|E0].
  - rewrite E0, Z.min_r, (proj2 (Z.ltb_lt 0 n)) in E by lia.
    injection E as <- <- <-. split; [|apply same_buffer_refl].
    rewrite Z.add_sub_assoc, Z.add_0_r.
    apply untouched_store with (n := 1); [set_solver|cbn; lia|].
    change (strncpy_bytes tmp 0) with (@nil Z). intros x Hx. rewrite store_outside by (cbn; lia).
    by apply (set_reslen_safe [(p - 1, 1)]).
  - assert (Hs : untouched ([(p, buflen_ b)] ++ length_region b) m
      (store p (strncpy_bytes tmp (Z.min n (buflen_ b))) (set_reslen (n - 1) b m))).
    { apply untouched_store with (n := buflen_ b); [set_solver|rewrite length_strncpy; lia|].
      by apply set_reslen_safe. }
    destruct (Z.ltb_spec (buflen_ b) n); injection E as <- <- <-; (split; [|apply same_buffer_refl]); [|done].
    intros x Hx. rewrite <- (Hs x Hx). apply store_outside.
    apply Forall_inv in Hx. cbn in *. lia.
Qed.

Lemma put_wchar_safe v tmp len b m :
  text_buffer b -> type_ b = AI_WCHAR ->
  let m1 := set_reslen len b m in
  untouched (regions v b) m
    (match GetData b with
     | Some buffer => snd (CopyStringToBuffer tmp (Some buffer) (u64 (buflen_ b)) true m1)
     | None => m1
     end).
Proof.
  intros [_ Hb] Ht m1. unfold regions, data_region.
  rewrite Ht. cbn [narrow_type]. rewrite andb_false_r. cbn [andb].
  destruct (GetData b) as [p|]; [|by apply (set_reslen_safe [])].
  unfold CopyStringToBuffer. rewrite u64_small by (unfold is_u64; lia).
  destruct (CopyUtf8StringToSqlWcharString _ _ _ _ _) as [[k tr] m2] eqn:Ec. cbn [snd].
  apply copy_wchar_safe in Ec; [|lia].
  eapply untouched_trans; [by apply (set_reslen_safe [(p, buflen_ b)])|by apply in_data_region].
Qed.

Lemma put_fixed_wchar_safe v tmp n b m :
  text_buffer b -> type_ b = AI_WCHAR -> safe (data_region v b) b m (put_fixed_wchar tmp n b m).
Proof.
  intros Hb Ht res b' m' E. pose proof (put_wchar_safe v tmp (n - 1) b m Hb Ht) as Hu.
  unfold put_fixed_wchar in E. cbv zeta in Hu. destruct (GetData b) as [p|].
  - destruct (CopyStringToBuffer _ _ _ _ _) as [[k tr] m1].
    injection E as <- <- <-. split; [exact Hu|apply same_buffer_refl].
  - injection E as <- <- <-. split; [exact Hu|apply same_buffer_refl].
Qed.

Lemma PutString_text s b m :
  type_ b = AI_CHAR \/ type_ b = AI_WCHAR ->
  exists w, (w = 1 \/ w = sizeof_SQLWCHAR) /\ PutString s b m = put_str w s b m.
Proof. unfold PutString, PutString_written. intros [-> | ->]; eauto. Qed.

Lemma PutNum_text n b m :
  type_ b = AI_CHAR \/ type_ b = AI_WCHAR ->
  exists w, (w = 1 \/ w = sizeof_SQLWCHAR) /\ PutNum n b m = put_str w (show_number n) b m.
Proof. unfold PutNum, PutValToStrBuffer. intros [-> | ->]; eauto. Qed.

Lemma PutDate_safe d b m : text_buffer b -> safe (data_region (VDate d) b) b m (PutDate d b m).
Proof.
  intros Hb. pose proof Hb as [[E|E] _]; unfold PutDate; rewrite E;
    (destruct (DateToCTm d) as [tm'|]; [|by intros ? ? ?]).
  - by apply put_fixed_char_safe; [..|lia].
  - intros res b' m' [= _ <- <-]. split; [|apply same_buffer_refl].
    by apply (put_wchar_safe (VDate d)).
Qed.

Lemma PutNull_safe rs b m : safe rs b m (PutNull b m).
Proof.
  intros res b' m' E. unfold PutNull in E. unfold length_region.
  destruct (GetResLen b) as [q|]; [|injection E as _ <- <-; split; [done|apply same_buffer_refl]].
  pose proof (f_equal (fun r => match r with Ok (_, b, _) => b | _ => b' end) E) as Eb.
  pose proof (f_equal (fun r => match r with Ok (_, _, m) => m | _ => m' end) E) as Em.
  cbv beta iota in Eb, Em. rewrite <- Eb, <- Em. split; [|apply same_buffer_refl].
  apply untouched_store with (n := 8); [set_solver|rewrite length_le_bytes; lia|done].
Qed.

Lemma Put_safe v b m : text_buffer b -> safe (data_region v b) b m (Put v b m).
Proof.
  intros Hb. pose proof Hb as [Ht _].
  destruct v; cbn [Put].
  - apply PutNull_safe.
  - destruct (PutString_text s b m Ht) as (w & _ & ->). by apply PutStr_safe.
  - destruct (PutNum_text n b m Ht) as (w & _ & ->). by apply PutStr_safe.
  - by apply PutDate_safe.
  - unfold PutTime. destruct Ht as [E | E]; rewrite E; [by apply put_fixed_char_safe|by apply put_fixed_wchar_safe].
  - unfold PutTimestamp. destruct Ht as [E | E]; rewrite E; [by apply put_fixed_char_safe|by apply put_fixed_wchar_safe].
  - assert (E : exists r : Prelude.result text, PutDecimal d b m = res_bind r (fun s => PutString s b m)).
    { unfold PutDecimal. destruct Ht as [-> | ->]; eauto. }
    destruct E as [[s|e] ->]; [|by intros ? ? ?]. cbn [res_bind].
    destruct (PutString_text s b m Ht) as (w & _ & ->). by apply PutStr_safe.
Qed.

(** ** Values of plain text always arrive *)

(** The value has a text, of ASCII characters: the driver's conversions of other
    texts may throw. *)
Definition plain_value (v : value) : Prop :=
  match v with
  | VNull | VTime _ | VTimestamp _ => True
  | VString s => ascii_only s
  | VNumber (Int _ n) => is_u64 (Z.abs n)
  | VNumber (Real _ d) => ascii_only (show_real d)
  | VDate d => is_Some (DateToCTm d)
  | VDecimal d => exists s, Dec.dec_print d = Ok s /\ ascii_only s
  end.

Lemma put_str_ok w s b m : ascii_only s -> exists r, put_str w s b m = Ok r.
Proof.
  intros Hs. unfold put_str, PutStrToStrBuffer.
  assert (E : exists req, (if ANSI_STRING_ONLY then Ok (Z.of_nat (length s) * w)
      else res_bind (from_bytes wchar_max (bytes_of (c_str s))) (fun inString => Ok (Z.of_nat (length inString) * w)))
      = Ok req).
  { destruct ANSI_STRING_ONLY; [by eexists|].
    rewrite c_str_ascii, from_bytes_ascii by auto using ascii_no_nul. by eexists. }
  destruct E as [req ->]. cbn [res_bind]. destruct (GetData b) as [p|]; [|by eexists].
  set (o := if 0 <=? cellOffset_ b then _ else _). destruct (_ <=? o); [by eexists|].
  assert (Hd : ascii_only (drop (Z.to_nat o) s)) by by apply ascii_drop.
  rewrite (c_str_ascii (drop _ _)) by by apply ascii_no_nul.
  unfold CopyUtf8StringToSqlCharString. destruct (w =? 1).
  - destruct ANSI_STRING_ONLY.
    + destruct (_ <=? Z.of_nat (length _)); by eexists.
    + rewrite from_bytes_ascii by done. cbn [res_bind]. by eexists.
  - destruct (CopyUtf8StringToSqlWcharString _ _ _ _ _) as [[k tr] m']. by eexists.
Qed.

Lemma put_fixed_char_ok tmp n b m :
  text_buffer b -> 0 <= n -> exists r, put_fixed_char tmp n b m = Ok r.
Proof.
  intros [_ Hb] Hn. unfold put_fixed_char. destruct (GetData b); [|by eexists].
  rewrite (proj2 (Z.ltb_ge _ 0)) by lia. destruct (_ <? n); by eexists.
Qed.

Lemma put_fixed_wchar_ok tmp n b m : exists r, put_fixed_wchar tmp n b m = Ok r.
Proof.
  unfold put_fixed_wchar. destruct (GetData b); [|by eexists].
  destruct (CopyStringToBuffer _ _ _ _ _) as [[k tr] m1]. by eexists.
Qed.

Lemma Put_ok v b m : text_buffer b -> plain_value v -> exists r, Put v b m = Ok r.
Proof.
  intros Hb Hv. pose proof Hb as [Ht _]. destruct v as [|s|n|d|t|t|d]; cbn [Put plain_value] in *.
  - unfold PutNull. destruct (GetResLen b); by eexists.
  - destruct (PutString_text s b m Ht) as (w & _ & ->). by apply put_str_ok.
  - destruct (PutNum_text n b m Ht) as (w & _ & ->). apply put_str_ok.
    destruct n; [by apply show_int_ascii|done].
  - destruct Hv as [tm Htm]. unfold PutDate.
    destruct Ht as [-> | ->]; rewrite Htm; [by apply put_fixed_char_ok|by eexists].
  - unfold PutTime. destruct Ht as [-> | ->]; [by apply put_fixed_char_ok|apply put_fixed_wchar_ok].
  - unfold PutTimestamp. destruct Ht as [-> | ->]; [by apply put_fixed_char_ok|apply put_fixed_wchar_ok].
  - destruct Hv as (s & Hp & Hs). destruct (PutString_text s b m Ht) as (w & _ & E).
    assert (PutDecimal d b m = PutString s b m) as ->.
    { unfold PutDecimal. by destruct Ht as [-> | ->]; rewrite Hp. }
    rewrite E. by apply put_str_ok.
Qed.

(** ** Integers *)

(** The integer targets and their widths in bytes. *)
Definition integer_size (t : OdbcNativeType) : option nat :=
  match t with
  | AI_SIGNED_TINYINT | AI_UNSIGNED_TINYINT | AI_BIT => Some 1%nat
  | AI_SIGNED_SHORT | AI_UNSIGNED_SHORT => Some 2%nat
  | AI_SIGNED_LONG | AI_UNSIGNED_LONG => Some 4%nat
  | AI_SIGNED_BIGINT | AI_UNSIGNED_BIGINT => Some 8%nat
  | _ => None
  end.

Lemma PutNum_integer_eq size k v b p m :
  integer_size (type_ b) = Some size -> GetData b = Some p ->
  PutNum (Int k v) b m =
  Ok (CONV_SUCCESS, b, set_reslen (Z.of_nat size) b (store p (le_bytes size v) m)).
Proof.
  unfold integer_size, PutNum, PutNumToNumBuffer. intros Hs ->.
  by destruct (type_ b); try discriminate; injection Hs as <-.
Qed.
End Facts.
End AppBufFacts.

Import Text Memory Calendar Encoding AppBuf AppBufFacts.

(** C13. Whatever is put into a text buffer of any length, present or not, with or
    without a length variable: a null, a string, a number, a date, a time, a
    timestamp or a decimal. When the operation returns, the bytes that changed are
    those of the buffer and of the length variable, as far as there are such, and
    of the buffer object only the offset in the cell changed. The one exception is
    in [regions]: for a date, a time or a timestamp and a narrow buffer of length
    zero it is the byte before the buffer (see [empty_buffer_underflow]). A value
    whose text is ASCII always returns; the conversion of other texts may throw. *)
Theorem text_stays_in_buffer `{Abi} `{Floats} (v : value) (b : ApplicationDataBuffer) (m : Memory)
    (Hb : text_buffer b) :
  (forall res b' m', Put v b m = Ok (res, b', m') ->
     untouched (regions v b) m m' /\ same_buffer b b') /\
  (plain_value v -> exists r, Put v b m = Ok r).
Proof. split; [apply (Put_safe v b m Hb)|by apply Put_ok]. Qed.

Lemma text_stays_witness :
  let H := UnixAbi in let H0 := WholeReals in
  let b := NewBuffer AI_CHAR (Some 1000) 5 (Some 2000) in
  (exists m', Put (VString (txt "turbine")) b (fun _ => 170) = Ok (VARLEN_DATA_TRUNCATED, b, m') /\
    untouched [(1000, 5); (2000, 8)] (fun _ => 170) m' /\ same_buffer b b) /\
  exists r, Put (VString (txt "turbine")) b (fun _ => 170) = Ok r.
Proof.
  intros H H0 b. assert (Hb : text_buffer b) by (split; [by left|cbn; lia]). split.
  - eexists. split; [reflexivity|].
    exact (proj1 (@text_stays_in_buffer UnixAbi WholeReals (VString (txt "turbine")) b (fun _ => 170) Hb)
             VARLEN_DATA_TRUNCATED b _ eq_refl).
  - apply (@text_stays_in_buffer UnixAbi WholeReals (VString (txt "turbine")) b (fun _ => 170) Hb).
    repeat constructor; by vm_compute.
Defined.

(** An integer put into an integer buffer of any width: the bytes of the
    buffer are the value modulo the width, the length variable is the width,
    nothing else changes, and the result is a success also when digits are
    lost. *)
Theorem integer_stored `{Abi} `{Floats} (k size : nat) (v : Z) (b : ApplicationDataBuffer)
    (p q : Z) (m : Memory) (Hsize : integer_size (type_ b) = Some size)
    (Hp : GetData b = Some p) (Hq : GetResLen b = Some q) (Hapart : apart p size q 8) :
  exists m', PutNum (Int k v) b m = Ok (CONV_SUCCESS, b, m') /\
    le_val (load p size m') = v mod 2 ^ (8 * Z.of_nat size) /\
    le_val (load q 8 m') = Z.of_nat size /\
    untouched [(p, Z.of_nat size); (q, 8)] m m'.
Proof.
  eexists. split; [exact (PutNum_integer_eq size k v b p m Hsize Hp)|].
  unfold set_reslen. rewrite Hq. split_and!.
  - rewrite load_store_apart, load_store_n by (rewrite ?length_le_bytes; done).
    apply le_val_le_bytes.
  - rewrite load_store_n, le_val_le_bytes by (by rewrite length_le_bytes).
    apply Z.mod_small. unfold integer_size in Hsize.
    destruct (type_ b); try discriminate; injection Hsize as <-; cbn; lia.
  - apply untouched_store with (n := 8); [set_solver|rewrite length_le_bytes; lia|].
    apply untouched_store with (n := Z.of_nat size); [set_solver|rewrite length_le_bytes; lia|done].
Qed.

Lemma integer_stored_witness :
  let H := UnixAbi in let H0 := WholeReals in
  let b := NewBuffer AI_SIGNED_TINYINT (Some 1000) 1 (Some 2000) in
  exists m', PutNum (Int 4 300) b (fun _ => 170) = Ok (CONV_SUCCESS, b, m') /\
    le_val (load 1000 1 m') = 44 /\ le_val (load 2000 8 m') = 1 /\
    untouched [(1000, 1); (2000, 8)] (fun _ => 170) m'.
Proof.
  intros H H0 b.
  apply (@integer_stored UnixAbi WholeReals 4 1 300 b 1000 2000 (fun _ => 170)); try done.
  left. vm_compute. discriminate.
Defined.

(** A date, a time or a timestamp put into a narrow buffer of length zero
    writes the byte before the buffer. *)
Theorem empty_buffer_underflow `{Abi} `{Floats} (v : value) (b : ApplicationDataBuffer)
    (p : Z) (m : Memory)
    (Hv : match v with VDate d => is_Some (DateToCTm d) | VTime _ | VTimestamp _ => True | _ => False end)
    (Ht : type_ b = AI_CHAR) (Hp : GetData b = Some p) (Hn : buflen_ b = 0) :
  exists m', Put v b m = Ok (VARLEN_DATA_TRUNCATED, b, m') /\ m' (p - 1) = 0.
Proof.
  assert (Hfix : forall tmp n, 0 < n ->
    exists m', put_fixed_char tmp n b m = Ok (VARLEN_DATA_TRUNCATED, b, m') /\ m' (p - 1) = 0).
  { intros tmp n Hpos. unfold put_fixed_char. rewrite Hp, Hn, Z.min_r by lia.
    change (0 <? 0) with false. rewrite (proj2 (Z.ltb_lt 0 n)) by done.
    eexists. split; [done|]. replace (p - 1) with (p + (0 - 1) + Z.of_nat 0) by lia.
    by rewrite store_inside by (cbn; lia). }
  destruct v as [| | |d|t|t|]; try done; cbn [Put].
  - unfold PutDate. rewrite Ht. destruct Hv as [tm' ->]. by apply Hfix.
  - unfold PutTime. rewrite Ht. by apply Hfix.
  - unfold PutTimestamp. rewrite Ht. by apply Hfix.
Qed.

Lemma empty_buffer_witness :
  let H := UnixAbi in let H0 := WholeReals in
  let b := NewBuffer AI_CHAR (Some 1000) 0 (Some 2000) in
  exists m', Put (VDate 0) b (fun _ => 170) = Ok (VARLEN_DATA_TRUNCATED, b, m') /\ m' (1000 - 1) = 0.
Proof.
  intros H H0 b. apply (@empty_buffer_underflow UnixAbi WholeReals (VDate 0) b 1000); try done.
Defined.

(** A decimal without a fraction put into a numeric buffer arrives as zero:
    [SetScale] does not assign its result when the scale does not change. *)
Theorem whole_decimal_becomes_zero `{Abi} `{Floats} (d : Dec.Decimal)
    (b : ApplicationDataBuffer) (p : Z) (m : Memory)
    (Hscale : Dec.scale d = 0) (Ht : type_ b = AI_NUMERIC) (Hp : GetData b = Some p) :
  exists m', PutDecimal d b m = Ok (CONV_SUCCESS, b, set_reslen 19 b m') /\
    load p 19 m' = [1; 0; 1] ++ replicate 16 0.
Proof.
  unfold PutDecimal. rewrite Ht. unfold Dec.SetScale. rewrite Hscale, Z.eqb_refl.
  cbn [res_bind]. rewrite Hp. eexists. split.
  - reflexivity.
  - rewrite load_store_n by done. by vm_compute.
Qed.

Lemma whole_decimal_witness :
  let H := UnixAbi in let H0 := WholeReals in
  let b := NewBuffer AI_NUMERIC (Some 1000) 19 (Some 2000) in
  exists m', PutDecimal (Dec.dec_of_int64 42) b (fun _ => 170) =
      Ok (CONV_SUCCESS, b, set_reslen 19 b m') /\
    load 1000 19 m' = [1; 0; 1] ++ replicate 16 0.
Proof.
  intros H H0 b. by apply (@whole_decimal_becomes_zero UnixAbi WholeReals (Dec.dec_of_int64 42) b 1000).
Defined.
