(* ===== verification/GetData.v ===== *)
(** * GetData: a cell read in parts

    Models [SQLGetData] ([src/odbc.cpp]): a buffer object for each call, and the
    offset in the cell and the column number that the statement keeps between
    calls ([src/statement.cpp]). The column that is read is an argument: it puts
    its datum into the buffer object it is given. The theorems are about cells of
    text ([PutString]). *)

From S2P Require Import Prelude Text Memory Encoding AppBuffer.

Module GetData.
Import Text Memory Encoding AppBuf.
Local Open Scope result_scope.

(** The part of a statement [SQLGetData] uses. *)
Record Cell : Type := MkCell { currentColNum : Z; cellOffset : Z }.
Definition NewCell : Cell := MkCell 0 0.

(** [SetCellOffset] and [SetCurrentColNum] of the statement. *)
Definition SetCellOffset (offset : Z) (c : Cell) : Cell := MkCell (currentColNum c) offset.
Definition SetCurrentColNum (colNum : Z) (c : Cell) : Cell := MkCell colNum (cellOffset c).

Section Calls.
Context `{Abi} `{Floats}.

Definition SQLGetData (column : Z -> ApplicationDataBuffer -> Memory -> outcome)
    (colNum : Z) (driverType : OdbcNativeType) (targetValue : pointer) (bufferLength : Z)
    (strLengthOrIndicator : pointer) (st : Cell) (m : Memory)
    : result (ConversionResult * Cell * Memory) :=
  let dataBuffer := NewBuffer driverType targetValue bufferLength strLengthOrIndicator in
  let '(st, dataBuffer) :=
    if negb (colNum =? currentColNum st)
    then (SetCellOffset 0 (SetCurrentColNum colNum st), AppBuf.SetCellOffset 0 dataBuffer)
    else (st, AppBuf.SetCellOffset (cellOffset st) dataBuffer) in
  do r <- column colNum dataBuffer m;
  let '(res, dataBuffer, m) := r in
  Ok (res, SetCellOffset (cellOffset_ dataBuffer) st, m).
End Calls.

(** ** What the application reads *)

(** The characters of [w] bytes at an address, up to the terminator. *)
Fixpoint read_units (w n : nat) (p : Z) (m : Memory) : text :=
  match n with
  | O => []
  | S n' =>
      let u := le_val (load p w m) in
      if u =? 0 then [] else char_of u :: read_units w n' (p + Z.of_nat w) m
  end.

(** A text in characters of [w] bytes. *)
Definition units (w : nat) (s : text) : list Z := flat_map (le_bytes w) (bytes_of s).

Lemma length_units w s : length (units w s) = (length s * w)%nat.
Proof.
  unfold units. induction s as [|c s IH]; [done|]. cbn [bytes_of map flat_map].
  rewrite length_app, length_le_bytes. unfold bytes_of in IH. rewrite IH. cbn. lia.
Qed.

Lemma le_byte b : 0 <= b < 256 -> le_bytes 1 b = [b].
Proof. intros. cbn. by rewrite Z.mod_small. Qed.

Lemma units_1 s : units 1 s = bytes_of s.
Proof.
  unfold units, bytes_of. induction s as [|c s IH]; [done|]. cbn [map flat_map].
  rewrite IH, le_byte by apply code_range. done.
Qed.

Lemma read_units_text w n s p m :
  (w <> 0)%nat -> no_nul s -> (length s < n)%nat ->
  load p (length s * w) m = units w s ->
  load (p + Z.of_nat (length s * w)) w m = le_bytes w 0 ->
  read_units w n p m = s.
Proof.
  intros Hw Hs. revert n p. induction Hs as [|c s Hc Hs IH]; intros n p Hn Hl He.
  - destruct n as [|n]; [lia|]. cbn [read_units]. cbn [length Nat.mul] in He.
    rewrite Z.add_0_r in He. rewrite He, le_val_le_bytes, Z.mod_0_l; [done|].
    pose proof (pow2_pos (8 * Z.of_nat w) ltac:(lia)). lia.
  - destruct n as [|n]; [lia|]. cbn [read_units]. cbn [length Nat.mul] in Hl, He.
    rewrite load_app in Hl. cbn [units bytes_of map flat_map] in Hl.
    apply app_inj_1 in Hl as [Hl Hr]; [|by rewrite length_load, length_le_bytes].
    rewrite Hl, le_val_le_bytes.
    pose proof (code_range c).
    assert (E : code c mod 2 ^ (8 * Z.of_nat w) = code c).
    { apply Z.mod_small. assert (2 ^ 8 <= 2 ^ (8 * Z.of_nat w)) by (apply Z.pow_le_mono_r; lia). lia. }
    rewrite E, (proj2 (Z.eqb_neq _ _)) by done.
    rewrite char_of_code. f_equal. apply IH; [cbn in Hn; lia|done|].
    rewrite <- He. f_equal. lia.
Qed.

(** ** One call on a cell of text *)

Section Parts.
Context `{Abi} `{Floats}.

Definition is_char (t : OdbcNativeType) : Prop := t = AI_CHAR \/ t = AI_WCHAR.
Definition char_size (t : OdbcNativeType) : Z :=
  match t with AI_WCHAR => sizeof_SQLWCHAR | _ => 1 end.

(** Characters a buffer of [n] bytes takes besides the terminator. *)
Definition room (t : OdbcNativeType) (n : Z) : nat := Z.to_nat (n / char_size t - 1).

Lemma char_size_cases t : is_char t -> char_size t = 1 \/ char_size t = 2 \/ char_size t = 4.
Proof. destruct sizeof_SQLWCHAR_ok; intros [->| ->]; cbn; auto. Qed.

Lemma room_spec t n :
  is_char t -> (1 <= room t n)%nat ->
  Z.of_nat (room t n) = n / char_size t - 1 /\ 2 * char_size t <= n /\
  (Z.of_nat (room t n) + 1) * char_size t <= n.
Proof.
  intros Ht Hr. unfold room in *.
  assert (Hw : 0 < char_size t) by (destruct (char_size_cases t Ht) as [E|[E|E]]; rewrite E; lia).
  pose proof (Z.mul_div_le n (char_size t) Hw). nia.
Qed.

Lemma copy_piece t rest out n tr m :
  is_char t -> ascii_only rest -> rest <> [] -> (1 <= room t n)%nat ->
  let w := char_size t in
  let piece := take (room t n) rest in
  (if w =? 1 then CopyUtf8StringToSqlCharString rest (Some out) n tr m
   else Ok (CopyUtf8StringToSqlWcharString rest (Some out) n tr m)) =
  Ok (Z.of_nat (length piece) * w, (room t n <? length rest)%nat,
      store (out + Z.of_nat (length piece) * w) (le_bytes (Z.to_nat w) 0)
        (store out (units (Z.to_nat w) piece) m)).
Proof.
  intros Ht Ha Hne Hroom w piece. destruct (room_spec t n Ht Hroom) as (Hr & Hn & _).
  assert (Hpos : (0 < length rest)%nat) by (destruct rest; [done|cbn; lia]).
  destruct Ht as [-> | ->]; unfold w in *; cbn [char_size] in *.
  - rewrite Z.div_1_r in Hr. cbn [Z.eqb Pos.eqb].
    assert (Hp : Z.of_nat (length piece) = Z.min (Z.of_nat (length rest)) (n - 1)).
    { unfold piece. rewrite length_take. lia. }
    assert (Epiece : forall k, 0 <= k -> k = Z.of_nat (length piece) -> take (Z.to_nat k) rest = piece).
    { intros k Hk ->. rewrite Nat2Z.id. unfold piece. rewrite length_take.
      destruct (Nat.le_ge_cases (room AI_CHAR n) (length rest)).
      - by rewrite Nat.min_l.
      - rewrite Nat.min_r, !take_ge by lia. done. }
    change (le_bytes (Z.to_nat 1) 0) with [0]. change (Z.to_nat 1) with 1%nat.
    rewrite units_1, Z.mul_1_r. unfold CopyUtf8StringToSqlCharString.
    destruct ANSI_STRING_ONLY.
    + rewrite (proj2 (Z.ltb_lt 0 n)) by lia.
      destruct (Z.leb_spec n (Z.of_nat (length rest))).
      * rewrite strncpy_take, Epiece by lia. rewrite (proj2 (Nat.ltb_lt _ _)) by lia.
        do 2 f_equal; [f_equal; lia|]. f_equal. lia.
      * rewrite strncpy_take, Epiece by lia. rewrite (proj2 (Nat.ltb_ge _ _)) by lia.
        do 2 f_equal; [f_equal; lia|]. f_equal. lia.
    + rewrite from_bytes_ascii by done. cbn [res_bind]. rewrite length_bytes_of.
      rewrite (proj2 (Z.ltb_lt 0 n)) by lia. rewrite <- Hp.
      rewrite (proj2 (Z.ltb_lt 0 (Z.of_nat (length piece)))) by lia.
      rewrite <- bytes_of_take, Epiece by lia.
      rewrite map_narrow_ascii by (by apply ascii_take). do 2 f_equal. f_equal.
      destruct (Nat.ltb_spec (room AI_CHAR n) (length rest)); [apply Z.ltb_lt|apply Z.ltb_ge]; lia.
  - assert (Hs := sizeof_SQLWCHAR_ok). rewrite (proj2 (Z.eqb_neq _ 1)) by lia.
    unfold CopyUtf8StringToSqlWcharString, CopyUtf8StringToWcharString.
    rewrite (proj2 (Z.eqb_neq n 0)), (proj2 (Z.ltb_lt _ n)) by lia.
    rewrite codecvt_ascii by done. fold (room AI_WCHAR n). rewrite <- bytes_of_take. fold piece.
    rewrite length_bytes_of. do 2 f_equal. f_equal.
    + change (Z.to_nat (n / sizeof_SQLWCHAR - 1)) with (room AI_WCHAR n).
      destruct (Nat.leb_spec (length rest) (room AI_WCHAR n)) as [Hl|Hl].
      * rewrite drop_ge by (rewrite length_bytes_of; exact Hl).
        rewrite (proj2 (Nat.ltb_ge _ _)) by lia. done.
      * by rewrite (proj2 (Nat.ltb_lt _ _)) by lia.
    + unfold wide_bytes at 1. cbn [flat_map]. by rewrite app_nil_r.
Qed.

(** The bound on texts: their length in bytes fits a [SQLLEN]. *)
Definition text_fits (s : text) : Prop := Z.of_nat (length s) * 4 < 4611686018427387904.

(** What is left of a cell after a call, as the length variable tells it: the
    length of the whole text when nothing is left. *)
Definition indicator (t : OdbcNativeType) (s rest : text) (k : nat) : Z :=
  if (k <? length rest)%nat then Z.of_nat (length rest - k) * char_size t
  else Z.of_nat (length s) * char_size t.

(** The start of a call in the cell: [-1] is a buffer that is not read in
    parts. *)
Definition cell_start (b : ApplicationDataBuffer) : Z :=
  if 0 <=? cellOffset_ b then cellOffset_ b else 0.

Lemma put_piece_any t s b o p m :
  is_char t -> type_ b = t -> ascii_only s ->
  GetData b = Some p -> cell_start b = Z.of_nat o ->
  (o < length s)%nat -> 0 <= buflen_ b < B64 -> (1 <= room t (buflen_ b))%nat ->
  let w := char_size t in
  let rest := drop o s in
  let k := room t (buflen_ b) in
  let piece := take k rest in
  let written := i64 (Z.of_nat o * w + Z.of_nat (length piece) * w) in
  let left := Z.of_nat (length s) * w - written in
  PutString s b m =
  Ok (if (k <? length rest)%nat then VARLEN_DATA_TRUNCATED else CONV_SUCCESS,
      if 0 <=? cellOffset_ b
      then AppBuf.SetCellOffset (i64 (cellOffset_ b + Z.of_nat (length piece) * w / w)) b else b,
      set_reslen (if 0 <? u64 left then i64 left else Z.of_nat (length s) * w) b
        (store (p + Z.of_nat (length piece) * w) (le_bytes (Z.to_nat w) 0)
          (store p (units (Z.to_nat w) piece) m))).
Proof.
  intros Ht Eb Ha Hp Ho Hlt Hn Hk w rest k piece written left.
  assert (Ew : PutString_written s b m = PutStrToStrBuffer w s b m).
  { unfold PutString_written, w. rewrite Eb. by destruct Ht as [-> | ->]. }
  unfold PutString. rewrite Ew. unfold PutStrToStrBuffer.
  rewrite (c_str_ascii s) by auto with odbc_db. rewrite from_bytes_ascii by done.
  cbn [res_bind]. rewrite length_bytes_of.
  assert (Hb : (if ANSI_STRING_ONLY then Ok (Z.of_nat (length s) * w) else Ok (Z.of_nat (length s) * w))
    = Ok (Z.of_nat (length s) * w)) by (by destruct ANSI_STRING_ONLY).
  rewrite Hb. clear Hb. cbn [res_bind]. rewrite Hp.
  fold (cell_start b). rewrite Ho, (proj2 (Z.leb_gt _ (Z.of_nat o))) by lia.
  rewrite Nat2Z.id. fold rest.
  assert (Hra : ascii_only rest) by (by apply ascii_drop).
  assert (Hlr : length rest = (length s - o)%nat) by (unfold rest; apply length_drop).
  rewrite (c_str_ascii rest) by auto with odbc_db.
  rewrite (u64_small (buflen_ b)) by exact Hn.
  assert (Hne : rest <> []) by (intros E; rewrite E in Hlr; cbn in Hlr; lia).
  pose proof (copy_piece t rest p (buflen_ b) false m Ht Hra Hne Hk) as Hc.
  cbv zeta in Hc. fold w k in Hc. fold piece in Hc. rewrite Hc. clear Hc. done.
Qed.

Lemma put_piece_raw t s b o p q m :
  is_char t -> type_ b = t -> ascii_only s ->
  GetData b = Some p -> GetResLen b = Some q -> cell_start b = Z.of_nat o ->
  (o < length s)%nat -> 0 <= buflen_ b < B64 -> (1 <= room t (buflen_ b))%nat ->
  let w := char_size t in
  let rest := drop o s in
  let k := room t (buflen_ b) in
  let piece := take k rest in
  let written := i64 (Z.of_nat o * w + Z.of_nat (length piece) * w) in
  let left := Z.of_nat (length s) * w - written in
  PutString s b m =
  Ok (if (k <? length rest)%nat then VARLEN_DATA_TRUNCATED else CONV_SUCCESS,
      if 0 <=? cellOffset_ b
      then AppBuf.SetCellOffset (i64 (cellOffset_ b + Z.of_nat (length piece) * w / w)) b else b,
      store q (le_bytes 8 (if 0 <? u64 left then i64 left else Z.of_nat (length s) * w))
        (store (p + Z.of_nat (length piece) * w) (le_bytes (Z.to_nat w) 0)
          (store p (units (Z.to_nat w) piece) m))).
Proof.
  intros Ht Eb Ha Hp Hq Ho Hlt Hn Hk w rest k piece written left.
  rewrite (put_piece_any t s b o p m Ht Eb Ha Hp Ho Hlt Hn Hk). unfold set_reslen. by rewrite Hq.
Qed.

Lemma put_piece t s b o p q m :
  is_char t -> type_ b = t -> ascii_only s -> text_fits s ->
  GetData b = Some p -> GetResLen b = Some q -> cellOffset_ b = Z.of_nat o ->
  (o < length s)%nat -> 0 <= buflen_ b < B64 -> (1 <= room t (buflen_ b))%nat ->
  let w := char_size t in
  let rest := drop o s in
  let k := room t (buflen_ b) in
  let piece := take k rest in
  PutString s b m =
  Ok (if (k <? length rest)%nat then VARLEN_DATA_TRUNCATED else CONV_SUCCESS,
      AppBuf.SetCellOffset (Z.of_nat (o + length piece)) b,
      store q (le_bytes 8 (indicator t s rest k))
        (store (p + Z.of_nat (length piece) * w) (le_bytes (Z.to_nat w) 0)
          (store p (units (Z.to_nat w) piece) m))).
Proof.
  intros Ht Eb Ha Hf Hp Hq Ho Hlt Hn Hk w rest k piece.
  assert (Hs : cell_start b = Z.of_nat o).
  { unfold cell_start. rewrite Ho. by rewrite (proj2 (Z.leb_le 0 _)) by lia. }
  rewrite (put_piece_raw t s b o p q m Ht Eb Ha Hp Hq Hs Hlt Hn Hk).
  fold w k rest. fold piece. rewrite Ho, (proj2 (Z.leb_le 0 _)) by lia.
  assert (Hlr : length rest = (length s - o)%nat) by (unfold rest; apply length_drop).
  assert (Hlp : length piece = Nat.min k (length rest)) by (unfold piece; apply length_take).
  unfold text_fits in Hf.
  assert (Hw := char_size_cases t Ht). fold w in Hw.
  assert (Hoff : i64 (Z.of_nat o + Z.of_nat (length piece) * w / w) = Z.of_nat (o + length piece)).
  { rewrite Z.div_mul, i64_small by (unfold is_i64; lia). lia. }
  rewrite Hoff.
  assert (Htot : i64 (Z.of_nat o * w + Z.of_nat (length piece) * w) = (Z.of_nat (o + length piece)) * w).
  { rewrite <- Z.mul_add_distr_r, <- Nat2Z.inj_add. apply i64_small. unfold is_i64. nia. }
  rewrite Htot.
  assert (Hind : (if 0 <? u64 (Z.of_nat (length s) * w - Z.of_nat (o + length piece) * w)
    then i64 (Z.of_nat (length s) * w - Z.of_nat (o + length piece) * w)
    else Z.of_nat (length s) * w) = indicator t s rest k).
  { rewrite <- Z.mul_sub_distr_r, u64_small, i64_small by (unfold is_u64, is_i64; nia).
    unfold indicator. fold w. destruct (Nat.ltb_spec k (length rest)).
    - rewrite (proj2 (Z.ltb_lt _ _)) by nia. f_equal. lia.
    - rewrite (proj2 (Z.ltb_ge _ _)) by nia. done. }
  by rewrite Hind.
Qed.

Lemma put_no_data t s b o p q m :
  is_char t -> type_ b = t -> ascii_only s ->
  GetData b = Some p -> GetResLen b = Some q -> cellOffset_ b = Z.of_nat o ->
  (length s <= o)%nat ->
  PutString s b m = Ok (CONV_NO_DATA, b, store q (le_bytes 8 SQL_NO_TOTAL) m).
Proof.
  intros Ht Eb Ha Hp Hq Ho Hle.
  assert (Ew : PutString_written s b m = PutStrToStrBuffer (char_size t) s b m).
  { unfold PutString_written. rewrite Eb. by destruct Ht as [-> | ->]. }
  unfold PutString. rewrite Ew. unfold PutStrToStrBuffer.
  rewrite (c_str_ascii s) by auto with odbc_db. rewrite from_bytes_ascii by done.
  cbn [res_bind].
  assert (Hb : exists x, (if ANSI_STRING_ONLY then Ok (Z.of_nat (length s) * char_size t)
    else Ok (Z.of_nat (length (bytes_of s)) * char_size t)) = Ok x) by (destruct ANSI_STRING_ONLY; eauto).
  destruct Hb as [x ->]. cbn [res_bind]. rewrite Hp, Ho.
  rewrite (proj2 (Z.leb_le 0 (Z.of_nat o))), (proj2 (Z.leb_le _ (Z.of_nat o))) by lia.
  unfold set_reslen. by rewrite Hq.
Qed.

(** The application finds the piece and the indicator. *)
Lemma reads_piece t p q n piece len m :
  is_char t -> ascii_only piece -> (length piece <= room t n)%nat -> (1 <= room t n)%nat ->
  apart p (Z.to_nat n) q 8 -> is_i64 len ->
  let w := char_size t in
  let m' := store q (le_bytes 8 len)
              (store (p + Z.of_nat (length piece) * w) (le_bytes (Z.to_nat w) 0)
                (store p (units (Z.to_nat w) piece) m)) in
  read_units (Z.to_nat w) (S (room t n)) p m' = piece /\ i64 (le_val (load q 8 m')) = len.
Proof.
  intros Ht Ha Hl Hr Hap Hlen w m'. destruct (room_spec t n Ht Hr) as (_ & _ & Hn).
  assert (Hw := char_size_cases t Ht). fold w in Hw, Hn.
  assert (Hlw : Z.of_nat (length piece * Z.to_nat w) = Z.of_nat (length piece) * w) by lia.
  assert (Hroom : (Z.of_nat (length piece) + 1) * w <= n) by nia.
  unfold apart in Hap. split.
  - apply read_units_text; [lia|by auto with odbc_db|lia|..]; unfold m'.
    + rewrite load_store_apart by (unfold apart; rewrite length_le_bytes; lia).
      rewrite load_store_apart by (unfold apart; rewrite length_le_bytes; lia).
      apply load_store_n. by rewrite length_units.
    + rewrite load_store_apart by (unfold apart; rewrite length_le_bytes; lia).
      rewrite Hlw. apply load_store_n. by rewrite length_le_bytes.
  - unfold m'. rewrite load_store_n by (by rewrite length_le_bytes).
    rewrite le_val_le_bytes. change (8 * Z.of_nat 8) with 64.
    change (i64 (u64 len) = len). rewrite i64_u64. by apply i64_small.
Qed.

(** ** A cell read to its end *)

(** What an application sees of a call: the result, the text in its buffer and
    its length variable. *)
Definition seen_part : Type := ConversionResult * text * Z.

Fixpoint get_parts (calls : nat) (column : Z -> ApplicationDataBuffer -> Memory -> outcome)
    (colNum : Z) (t : OdbcNativeType) (p n q : Z) (st : Cell) (m : Memory)
    : result (list seen_part) :=
  match calls with
  | O => Ok []
  | S calls' =>
      do r <- SQLGetData column colNum t (Some p) n (Some q) st m;
      let '(res, st, m) := r in
      do seen <- get_parts calls' column colNum t p n q st m;
      Ok ((res,
           if bool_decide (res = CONV_NO_DATA) then []
           else read_units (Z.to_nat (char_size t)) (S (room t n)) p m,
           i64 (le_val (load q 8 m))) :: seen)
  end.

(** The pieces of the rest of a text, [k] characters each; [fuel] is a bound on
    their number. *)
Fixpoint parts (fuel : nat) (t : OdbcNativeType) (s rest : text) (k : nat) : list seen_part :=
  match fuel with
  | O => []
  | S fuel' =>
      if (k <? length rest)%nat
      then (VARLEN_DATA_TRUNCATED, take k rest, indicator t s rest k)
             :: parts fuel' t s (drop k rest) k
      else [(CONV_SUCCESS, rest, indicator t s rest k)]
  end.

Definition part_text (r : seen_part) : text := snd (fst r).

Lemma parts_concat fuel t s rest k :
  (length rest <= fuel)%nat -> (1 <= k)%nat -> rest <> [] ->
  concat (map part_text (parts fuel t s rest k)) = rest.
Proof.
  revert rest. induction fuel as [|fuel IH]; intros rest Hf Hk Hne.
  - destruct rest; [done|cbn in Hf; lia].
  - cbn [parts]. destruct (Nat.ltb_spec k (length rest)).
    + cbn [map concat]. rewrite IH; [apply take_drop|rewrite length_drop; lia|done|].
      intros E. apply (f_equal length) in E. rewrite length_drop in E. cbn in E. lia.
    + cbn. by rewrite app_nil_r.
Qed.

(** The buffer and the length variable of the application. *)
Definition target (t : OdbcNativeType) (p n q : Z) : Prop :=
  is_char t /\ 0 <= n < 9223372036854775808 /\ (1 <= room t n)%nat /\ apart p (Z.to_nat n) q 8.

Definition is_text_column (column : Z -> ApplicationDataBuffer -> Memory -> outcome)
    (colNum : Z) (s : text) : Prop :=
  forall b m, column colNum b m = PutString s b m.

(** The offset the next call of a column starts from. *)
Definition starts_at (st : Cell) (colNum : Z) (o : nat) : Prop :=
  (if colNum =? currentColNum st then cellOffset st else 0) = Z.of_nat o.

Lemma SQLGetData_buffer column colNum t p n q st m o :
  starts_at st colNum o ->
  SQLGetData column colNum t (Some p) n (Some q) st m =
  do r <- column colNum (AppBuf.SetCellOffset (Z.of_nat o) (NewBuffer t (Some p) n (Some q))) m;
  let '(res, b, m) := r in Ok (res, MkCell colNum (cellOffset_ b), m).
Proof.
  unfold starts_at, SQLGetData. intros <-. destruct (Z.eqb_spec colNum (currentColNum st)) as [E|E]; cbn [negb].
  - destruct (column _ _ _) as [[[res b] m']|]; [|done]. cbn. by rewrite E.
  - done.
Qed.

Lemma new_buffer_data t p n q o :
  GetData (AppBuf.SetCellOffset o (NewBuffer t (Some p) n (Some q))) = Some p /\
  GetResLen (AppBuf.SetCellOffset o (NewBuffer t (Some p) n (Some q))) = Some q.
Proof.
  unfold GetData, GetResLen, ApplyOffset. cbn [byteOffset_ elementOffset_ AppBuf.SetCellOffset
    NewBuffer buffer_ reslen_ option_map].
  rewrite !Z.mul_0_r. change (u64 (0 + 0)) with 0. by rewrite !Z.add_0_r.
Qed.

Lemma get_parts_ok fuel column colNum t p n q s st m o :
  is_text_column column colNum s -> target t p n q -> ascii_only s -> text_fits s ->
  starts_at st colNum o -> (o < length s)%nat -> (length s - o <= fuel)%nat ->
  let ps := parts fuel t s (drop o s) (room t n) in
  get_parts (S (length ps)) column colNum t p n q st m =
  Ok (ps ++ [(CONV_NO_DATA, [], SQL_NO_TOTAL)]).
Proof.
  intros Hcol (Ht & Hn & Hk & Hap) Ha Hf. revert st m o.
  induction fuel as [|fuel IH]; intros st m o Ho Hlt Hfuel; [lia|].
  cbv zeta. cbn [parts].
  set (k := room t n) in *. set (rest := drop o s) in *.
  assert (Hlr : length rest = (length s - o)%nat) by (unfold rest; apply length_drop).
  destruct (new_buffer_data t p n q (Z.of_nat o)) as [Hp Hq].
  set (b0 := AppBuf.SetCellOffset (Z.of_nat o) (NewBuffer t (Some p) n (Some q))) in *.
  pose proof (put_piece t s b0 o p q m Ht eq_refl Ha Hf Hp Hq eq_refl Hlt ltac:(cbn; lia) Hk) as Hput.
  cbv zeta in Hput. change (room t (buflen_ b0)) with k in Hput. fold rest in Hput.
  set (piece := take k rest) in *.
  assert (Hlp : length piece = Nat.min k (length rest)) by (unfold piece; apply length_take).
  assert (Hra : ascii_only rest) by (by apply ascii_drop).
  assert (Hi : is_i64 (indicator t s rest k)).
  { pose proof (char_size_cases t Ht). unfold indicator, is_i64, text_fits in *.
    destruct (k <? length rest)%nat; nia. }
  destruct (reads_piece t p q n piece (indicator t s rest k) m Ht (ascii_take k rest Hra)
    ltac:(lia) Hk Hap Hi) as [Hread Hind].
  fold k in Hread. set (m' := store q (le_bytes 8 (indicator t s rest k)) _) in *.
  set (st' := MkCell colNum (Z.of_nat (o + length piece))).
  assert (Hst' : starts_at st' colNum (o + length piece)).
  { unfold starts_at, st'. cbn. by rewrite Z.eqb_refl. }
  destruct (Nat.ltb_spec k (length rest)) as [Hlong|Hlast].
  - cbn [length]. remember (S (length (parts fuel t s (drop k rest) k))) as calls eqn:Ec.
    cbn [get_parts]. rewrite (SQLGetData_buffer _ _ _ _ _ _ _ _ o Ho). fold b0.
    rewrite (Hcol b0 m), Hput. cbn [res_bind].
    change (MkCell colNum (cellOffset_ _)) with st'.
    assert (Ed : drop k rest = drop (o + length piece) s).
    { unfold rest. rewrite drop_drop. f_equal. lia. }
    rewrite Ec, Ed, (IH st' m' (o + length piece)%nat) by (done || lia).
    cbn [res_bind]. fold k. rewrite bool_decide_false by done.
    by rewrite Hread, Hind.
  - assert (Epiece : piece = rest) by (unfold piece; by apply take_ge).
    cbn [length get_parts]. rewrite (SQLGetData_buffer _ _ _ _ _ _ _ _ o Ho). fold b0.
    rewrite (Hcol b0 m), Hput. cbn [res_bind].
    change (MkCell colNum (cellOffset_ _)) with st'.
    rewrite (SQLGetData_buffer _ _ _ _ _ _ _ _ _ Hst').
    destruct (new_buffer_data t p n q (Z.of_nat (o + length piece))) as [Hp' Hq'].
    rewrite (Hcol _ m'), (put_no_data t s _ (o + length piece) p q) by (done || lia).
    cbn [res_bind]. rewrite bool_decide_false, bool_decide_true by done. fold k.
    rewrite Hread, Hind, Epiece, load_store_n by done. done.
Qed.

(** ** Where a cell is not delivered *)

(** A text whose first character takes two bytes of UTF-8. *)
Definition two_byte_head (c1 c2 : ascii) (s : text) : Prop :=
  194 <= code c1 < 224 /\ continuation (code c2) = true /\ ascii_only s.

Lemma codecvt_in_step maxcode n x l c r :
  utf8_next maxcode (x :: l) = Character c r ->
  codecvt_in maxcode (S n) (x :: l) =
  let '(cs, rest, res) := codecvt_in maxcode n r in (c :: cs, rest, res).
Proof. intros E. cbn [codecvt_in]. by rewrite E. Qed.

Lemma from_bytes_two_bytes c1 c2 s :
  two_byte_head c1 c2 s ->
  from_bytes wchar_max (bytes_of (c1 :: c2 :: s)) =
  Ok ((code c1 - 192) * 64 + (code c2 - 128) :: bytes_of s).
Proof.
  intros (H1 & H2 & Ha). unfold from_bytes. pose proof H2 as Hc. unfold continuation in Hc. z_bool.
  pose proof wchar_max_ok.
  assert (E : utf8_next wchar_max (bytes_of (c1 :: c2 :: s)) =
    Character ((code c1 - 192) * 64 + (code c2 - 128)) (bytes_of s)).
  { cbn [bytes_of map utf8_next].
    rewrite (proj2 (Z.ltb_ge (code c1) 128)), (proj2 (Z.ltb_ge (code c1) 194)),
      (proj2 (Z.ltb_lt (code c1) 224)), H2 by lia.
    unfold bounded. by rewrite (proj2 (Z.ltb_ge wchar_max _)) by lia. }
  rewrite length_bytes_of. cbn [length]. change (bytes_of (c1 :: c2 :: s)) with
    (code c1 :: bytes_of (c2 :: s)) in E |- *. rewrite (codecvt_in_step _ _ _ _ _ _ E).
  rewrite codecvt_ascii by done. rewrite (proj2 (Nat.leb_le _ _)), take_ge by (rewrite ?length_bytes_of; lia).
  done.
Qed.

Lemma c_str_two_bytes c1 c2 s : two_byte_head c1 c2 s -> c_str (c1 :: c2 :: s) = c1 :: c2 :: s.
Proof.
  intros (H1 & H2 & Ha). unfold continuation in H2. z_bool. apply c_str_ascii.
  constructor; [lia|]. constructor; [lia|]. by apply ascii_no_nul.
Qed.

Lemma c_str_second c2 s :
  continuation (code c2) = true -> ascii_only s -> c_str (c2 :: s) = c2 :: s.
Proof.
  unfold continuation. intros H2 Ha. z_bool. apply c_str_ascii.
  constructor; [lia|]. by apply ascii_no_nul.
Qed.

Lemma from_bytes_second c2 s :
  continuation (code c2) = true -> from_bytes wchar_max (bytes_of (c2 :: s)) = Err Exception.
Proof.
  unfold continuation. intros H2. z_bool. unfold from_bytes.
  cbn [bytes_of map length codecvt_in utf8_next].
  by rewrite (proj2 (Z.ltb_ge (code c2) 128)), (proj2 (Z.ltb_lt (code c2) 194)) by lia.
Qed.

(** The two calls on such a text: one byte is copied and the offset moves by
    one byte. *)
Lemma put_first_byte c1 c2 s b p m :
  two_byte_head c1 c2 s -> s <> [] -> ANSI_STRING_ONLY = false ->
  type_ b = AI_CHAR -> GetData b = Some p -> buflen_ b = 2 -> cellOffset_ b = 0 ->
  exists m', PutString (c1 :: c2 :: s) b m =
    Ok (VARLEN_DATA_TRUNCATED, AppBuf.SetCellOffset 1 b, m').
Proof.
  intros Hu Hne Hansi Eb Hp Hl Ho.
  pose proof (from_bytes_two_bytes c1 c2 s Hu) as Hb. pose proof (c_str_two_bytes c1 c2 s Hu) as Hc.
  unfold PutString, PutString_written. rewrite Eb. unfold PutStrToStrBuffer.
  rewrite Hansi, Hc, Hb. cbn [res_bind]. rewrite Hp, Ho, Hl.
  change (0 <=? 0) with true. cbn match. rewrite (proj2 (Z.leb_gt _ 0)) by (cbn; lia).
  change (drop (Z.to_nat 0) (c1 :: c2 :: s)) with (c1 :: c2 :: s). rewrite Hc.
  change (1 =? 1) with true. cbn match. change (u64 2) with 2.
  unfold CopyUtf8StringToSqlCharString. rewrite Hansi, Hb. cbn [res_bind].
  set (cs := _ :: bytes_of s).
  assert (Hcs : 1 < Z.of_nat (length cs)).
  { unfold cs. cbn. rewrite length_bytes_of. destruct s; [done|cbn; lia]. }
  change (0 <? 2) with true. cbn match. change (2 - 1) with 1.
  rewrite Z.min_r, (proj2 (Z.ltb_lt 1 _)) by lia. eauto.
Qed.

Lemma put_second_byte c1 c2 s b p m :
  two_byte_head c1 c2 s -> ANSI_STRING_ONLY = false ->
  type_ b = AI_CHAR -> GetData b = Some p -> cellOffset_ b = 1 ->
  PutString (c1 :: c2 :: s) b m = Err Exception.
Proof.
  intros Hu Hansi Eb Hp Ho. pose proof Hu as (_ & Hc2 & Ha).
  unfold PutString, PutString_written. rewrite Eb. unfold PutStrToStrBuffer.
  rewrite Hansi, (c_str_two_bytes c1 c2 s Hu), (from_bytes_two_bytes c1 c2 s Hu).
  cbn [res_bind]. rewrite Hp, Ho. change (0 <=? 1) with true. cbn match.
  rewrite (proj2 (Z.leb_gt _ 1)) by (rewrite !length_cons; lia).
  change (drop (Z.to_nat 1) (c1 :: c2 :: s)) with (c2 :: s). rewrite c_str_second by done.
  unfold CopyUtf8StringToSqlCharString. by rewrite Hansi, from_bytes_second.
Qed.
End Parts.
End GetData.

Import Text Memory Encoding AppBuf GetData.

(** C9. A text of ASCII characters, not empty and of a length that fits [SQLLEN], of
    a column that is put as text, read with repeated calls of [SQLGetData], in narrow or in wide
    characters: whatever the size of the buffer, as long as it has room for a
    character and the terminator, every call but the last reports a truncation,
    delivers the next piece, terminated, and tells what is left; the last
    reports success; the call after it reports that there is no data. The pieces
    together are the text. A text with characters of several bytes is no such text:
    the second call may throw, see [multibyte_parts_throw]. *)
Theorem string_in_parts `{Abi} `{Floats}
    (column : Z -> ApplicationDataBuffer -> Memory -> outcome) (colNum : Z)
    (t : OdbcNativeType) (p n q : Z) (s : text) (st : Cell) (m : Memory)
    (Hcol : is_text_column column colNum s) (Htarget : target t p n q)
    (Hascii : ascii_only s) (Hfits : text_fits s) (Hne : s <> [])
    (Hstart : starts_at st colNum 0) :
  let ps := parts (length s) t s s (room t n) in
  get_parts (S (length ps)) column colNum t p n q st m =
    Ok (ps ++ [(CONV_NO_DATA, [], -4)]) /\
  concat (map part_text ps) = s.
Proof.
  assert (Hpos : (0 < length s)%nat) by (destruct s; [done|cbn; lia]).
  cbv zeta. split.
  - by apply (get_parts_ok (length s) column colNum t p n q s st m 0); try done; lia.
  - apply parts_concat; [lia|apply Htarget|done].
Qed.

Lemma string_in_parts_witness :
  let H := UnixAbi in let H0 := WholeReals in
  get_parts 4 (fun _ => PutString (txt "turbine")) 3 AI_WCHAR 1000 8 2000 NewCell (fun _ => 170) =
  Ok [(VARLEN_DATA_TRUNCATED, txt "tur", 8); (VARLEN_DATA_TRUNCATED, txt "bin", 2);
      (CONV_SUCCESS, txt "e", 14); (CONV_NO_DATA, [], -4)].
Proof.
  intros H H0.
  apply (@string_in_parts UnixAbi WholeReals (fun _ => PutString (txt "turbine")) 3 AI_WCHAR
           1000 8 2000 (txt "turbine") NewCell (fun _ => 170)).
  - done.
  - unfold target, is_char, apart. repeat split; try (vm_compute; (done || lia)); [by right|left; vm_compute; done].
  - apply (bool_decide_unpack _). by vm_compute.
  - done.
  - done.
  - done.
Defined.

(** A wide buffer of exactly one character: a bound text column reports
    success and its full length although nothing, not even a terminator, is
    stored in the buffer. *)
Theorem single_wide_character_lost `{Abi} `{Floats} (s : text) (p n : Z) (q : pointer)
    (m : Memory) (Hascii : ascii_only s) (Hne : s <> []) (Hfits : text_fits s)
    (Hn : n = sizeof_SQLWCHAR) :
  let b := NewBuffer AI_WCHAR (Some p) n q in
  PutString s b m =
  Ok (CONV_SUCCESS, b, set_reslen (Z.of_nat (length s) * sizeof_SQLWCHAR) b m).
Proof.
  intros b. subst n. pose proof sizeof_SQLWCHAR_ok as Hs. unfold text_fits in Hfits.
  unfold PutString, PutString_written, PutStrToStrBuffer. cbn [type_ b NewBuffer].
  rewrite (c_str_ascii s), from_bytes_ascii by auto with odbc_db. cbn [res_bind].
  rewrite length_bytes_of.
  assert (Hb : (if ANSI_STRING_ONLY then Ok (Z.of_nat (length s) * sizeof_SQLWCHAR)
    else Ok (Z.of_nat (length s) * sizeof_SQLWCHAR)) = Ok (Z.of_nat (length s) * sizeof_SQLWCHAR))
    by (by destruct ANSI_STRING_ONLY).
  rewrite Hb. clear Hb. cbn [res_bind].
  change (GetData b) with (Some (p + u64 (0 + sizeof_SQLWCHAR * 0))).
  change (cellOffset_ b) with (-1). change (buflen_ b) with sizeof_SQLWCHAR.
  change (0 <=? -1) with false. cbn match zeta.
  assert (Hpos : 0 < Z.of_nat (length s)) by (destruct s; [done|cbn; lia]).
  rewrite (proj2 (Z.leb_gt _ 0)), (proj2 (Z.eqb_neq _ 1)) by lia.
  change (drop (Z.to_nat 0) s) with s. rewrite (c_str_ascii s), (u64_small sizeof_SQLWCHAR) by
    (auto with odbc_db; unfold is_u64; lia).
  unfold CopyUtf8StringToSqlWcharString, CopyUtf8StringToWcharString.
  rewrite (proj2 (Z.eqb_neq _ 0)), Z.ltb_irrefl by lia.
  rewrite codecvt_ascii, Nat.leb_refl, take_ge, drop_ge, length_bytes_of by
    (done || by rewrite length_bytes_of). cbn [res_bind].
  rewrite Z.mul_0_l, Z.add_0_l, i64_small, Z.sub_diag by (unfold is_i64; nia). done.
Qed.

Lemma single_wide_character_witness :
  let H := UnixAbi in let H0 := WholeReals in
  let b := NewBuffer AI_WCHAR (Some 1000) 2 (Some 2000) in
  PutString (txt "wind") b (fun _ => 170) =
  Ok (CONV_SUCCESS, b, set_reslen 8 b (fun _ => 170)).
Proof.
  intros H H0. apply (@single_wide_character_lost UnixAbi WholeReals (txt "wind") 1000 2).
  - apply (bool_decide_unpack _). by vm_compute.
  - done.
  - done.
  - done.
Defined.

(** A text that starts with a character of two bytes, read in parts into a
    narrow buffer: the first call delivers one character and moves the offset by
    one byte, so the second call starts inside the character and throws. *)
Theorem multibyte_parts_throw `{Abi} `{Floats}
    (column : Z -> ApplicationDataBuffer -> Memory -> outcome) (colNum : Z)
    (p q : Z) (c1 c2 : ascii) (s : text) (st : Cell) (m : Memory)
    (Hcol : is_text_column column colNum (c1 :: c2 :: s)) (Hutf8 : two_byte_head c1 c2 s)
    (Hne : s <> []) (Hansi : ANSI_STRING_ONLY = false) (Hstart : starts_at st colNum 0) :
  exists st' m',
    SQLGetData column colNum AI_CHAR (Some p) 2 (Some q) st m =
      Ok (VARLEN_DATA_TRUNCATED, st', m') /\
    SQLGetData column colNum AI_CHAR (Some p) 2 (Some q) st' m' = Err Exception.
Proof.
  destruct (new_buffer_data AI_CHAR p 2 q (Z.of_nat 0)) as [Hp _].
  set (b0 := AppBuf.SetCellOffset (Z.of_nat 0) (NewBuffer AI_CHAR (Some p) 2 (Some q))) in *.
  destruct (put_first_byte c1 c2 s b0 p m Hutf8 Hne Hansi eq_refl Hp eq_refl eq_refl) as [m' Hfirst].
  exists (MkCell colNum 1), m'. split.
  - rewrite (SQLGetData_buffer _ _ _ _ _ _ _ _ 0 Hstart). fold b0. by rewrite (Hcol b0 m), Hfirst.
  - rewrite (SQLGetData_buffer _ _ _ _ _ _ _ _ 1) by (unfold starts_at; cbn; by rewrite Z.eqb_refl).
    destruct (new_buffer_data AI_CHAR p 2 q (Z.of_nat 1)) as [Hp' _].
    by rewrite (Hcol _ m'), (put_second_byte c1 c2 s _ p) by done.
Qed.

Lemma multibyte_parts_witness :
  let H := UnixAbi in let H0 := WholeReals in
  exists st' m',
    SQLGetData (fun _ => PutString (ascii_of_nat 195 :: ascii_of_nat 169 :: txt "t"%string)) 1
      AI_CHAR (Some 1000) 2 (Some 2000) NewCell (fun _ => 170) =
      Ok (VARLEN_DATA_TRUNCATED, st', m') /\
    SQLGetData (fun _ => PutString (ascii_of_nat 195 :: ascii_of_nat 169 :: txt "t"%string)) 1
      AI_CHAR (Some 1000) 2 (Some 2000) st' m' = Err Exception.
Proof.
  intros H H0.
  apply (@multibyte_parts_throw UnixAbi WholeReals _ 1 1000 2000 (ascii_of_nat 195)
           (ascii_of_nat 169) (txt "t")).
  - done.
  - split; [by vm_compute|]. split; [done|]. apply (bool_decide_unpack _). by vm_compute.
  - done.
  - done.
  - done.
Defined.
