(* ===== verification/Column.v ===== *)
(** * Column: the data of the service put into buffers

    Models [src/iotsitewise_column.cpp]: a datum (a scalar as text, an array, a
    row or a null) is converted according to the scalar type of its column and
    put into a buffer of the application. [StringToInt] is from
    [src/utility.cpp]. The AWS enumeration of scalar types is the class
    [AwsScalars]; the type [Datum] has the fields of the SDK's class, an optional
    one for each [HasBeenSet] flag. *)

From S2P Require Import Prelude Text Memory Calendar Encoding AppBuffer.

Module Column.
Import Text Memory Calendar Encoding AppBuf.
Local Open Scope result_scope.

Class AwsScalars : Type := {
  NOT_SET : Z; BOOLEAN : Z; INT : Z; DOUBLE : Z; TIMESTAMP : Z; STRING : Z;
  scalars_distinct : NoDup [NOT_SET; BOOLEAN; INT; DOUBLE; TIMESTAMP; STRING];
  scalars_int16 : Forall (fun t => -32768 <= t < 32768) [NOT_SET; BOOLEAN; INT; DOUBLE; TIMESTAMP; STRING]
}.

(** The order of the enumeration in the SDK. *)
#[refine] Definition SdkScalars : AwsScalars :=
  {| NOT_SET := 0; BOOLEAN := 1; INT := 2; DOUBLE := 3; TIMESTAMP := 4; STRING := 5 |}.
Proof. all: apply (bool_decide_unpack _); by vm_compute. Defined.

Inductive Datum : Type :=
  | MkDatum (ScalarValue : option text) (ArrayValue : option (list Datum))
      (RowValue : option (option (list Datum))) (NullValueHasBeenSet : bool).

Definition Scalar (s : text) : Datum := MkDatum (Some s) None None false.
Definition Array (ds : list Datum) : Datum := MkDatum None (Some ds) None false.
Definition RowOf (ds : list Datum) : Datum := MkDatum None None (Some (Some ds)) false.
Definition Null : Datum := MkDatum None None None true.

(** [std::stoi] with the exceptions caught: 0 without digits and out of range. *)
Definition StringToInt (s : text) : Z :=
  let s := Ltrim s in
  let '(neg, d) :=
    match s with
    | c :: s' => if code c =? 45 then (true, s') else if code c =? 43 then (false, s') else (false, s)
    | [] => (false, s)
    end in
  let '(d, _) := span_digits (length d) d in
  let v := if neg : bool then - digits_val d else digits_val d in
  if (-2147483648 <=? v) && (v <=? 2147483647) then v else 0.

Section Column.
Context `{Abi} `{Floats} `{AwsScalars}.

Definition ParseTimestamp (value : text) (b : ApplicationDataBuffer) (m : Memory) : outcome :=
  match sscanf timestamp_format (c_str value) with
  | [year; mon; mday; hour; min; sec; fractionNs] =>
      PutTimestamp (MkTimestamp (timegm (MkTm sec min hour mday (mon - 1) (year - 1900))) fractionNs) b m
  | _ => Err Indeterminate
  end.

Definition ParseScalarType (type : Z) (value : text) (b : ApplicationDataBuffer) (m : Memory)
    : outcome :=
  if type =? STRING then PutString value b m
  else if type =? DOUBLE then
    match stod value with Some d => PutDouble d b m | None => Err Exception end
  else if type =? BOOLEAN then PutInt8 (if text_eqb value (txt "true") then 1 else 0) b m
  else if type =? INT then PutInt32 (StringToInt value) b m
  else if type =? NOT_SET then PutNull b m
  else if type =? TIMESTAMP then ParseTimestamp value b m
  else Ok (UNSUPPORTED_CONVERSION, b, m).

(** [char buf[BUFFER_SIZE]{}] and [resLen] of an element: memory of its own. *)
Abbreviation BUFFER_SIZE := 1024 (only parsing).
Definition tmpBuf : ApplicationDataBuffer := NewBuffer AI_CHAR (Some 0) BUFFER_SIZE (Some 2048).
Definition stack : Memory := fun _ => 0.

(** [result += buf; result += ","] for each element. *)
Definition append_elements (parse : Datum -> outcome) : list Datum -> result text :=
  fix go (ds : list Datum) : result text :=
    match ds with
    | [] => Ok []
    | d :: ds' =>
        do r <- parse d;
        let '(_, _, buf) := r in
        do rest <- go ds';
        Ok (cstr (load 0 1024 buf) ++ txt "," ++ rest)
    end.

(** The arguments are the conversion of an element and the elements. *)
Definition ParseArrayType (parse : Datum -> outcome) (valueVec : list Datum)
    (b : ApplicationDataBuffer) (m : Memory) : outcome :=
  do elements <- append_elements parse valueVec;
  PutString (match valueVec with
             | [] => []
             | _ => removelast (txt "[" ++ elements) ++ txt "]"
             end) b m.

Definition ParseRowType (parse : Datum -> outcome) (row : option (list Datum))
    (b : ApplicationDataBuffer) (m : Memory) : outcome :=
  match row with
  | None => Ok (CONV_NO_DATA, b, m)
  | Some valueVec =>
      do elements <- append_elements parse valueVec;
      PutString (match valueVec with
                 | [] => txt "()"
                 | _ => removelast (txt "(" ++ elements) ++ txt ")"
                 end) b m
  end.

Fixpoint ParseDatum (type : Z) (datum : Datum) (b : ApplicationDataBuffer) (m : Memory)
    {struct datum} : outcome :=
  match datum with
  | MkDatum (Some v) _ _ _ => ParseScalarType type v b m
  | MkDatum None (Some ds) _ _ => ParseArrayType (fun d => ParseDatum type d tmpBuf stack) ds b m
  | MkDatum None None (Some row) _ => ParseRowType (fun d => ParseDatum type d tmpBuf stack) row b m
  | MkDatum None None None true =>
      do r <- PutNull b m; let '(_, b, m) := r in Ok (CONV_SUCCESS, b, m)
  | MkDatum None None None false => Ok (FAILURE, b, m)
  end.

(** The metadata of the column: whether the column information has a type, and
    the scalar type. *)
Definition ReadToBuffer (typeHasBeenSet : bool) (type : Z) (datum : Datum)
    (b : ApplicationDataBuffer) (m : Memory) : outcome :=
  if negb typeHasBeenSet then Ok (FAILURE, b, m) else ParseDatum type datum b m.
End Column.
End Column.
