(* ===== verification/ColumnFacts.v ===== *)
(** * ColumnFacts: what a datum looks like in a buffer

    A datum of text, integers or booleans, nested in arrays and rows, is put as a
    text that a reference function computes; a timestamp keeps its text. *)

From S2P Require Import Prelude Text Memory Calendar Encoding AppBuffer AppBufferFacts GetData Column.

Module ColumnFacts.
Import Text Memory Calendar Encoding AppBuf AppBufFacts GetData Column.

Section Facts.
Context `{Abi} `{Floats} `{AwsScalars}.

(** ** The text of a datum *)

Fixpoint join (ts : list text) : text :=
  match ts with
  | [] => []
  | [t] => t
  | t :: ts' => t ++ txt "," ++ join ts'
  end.

(** An element is converted through a buffer of 1024 bytes. *)
Definition element (t : text) : text := take 1023 t.

Definition array_text (ts : list text) : text :=
  match ts with [] => [] | _ => txt "[" ++ join ts ++ txt "]" end.
Definition row_text (ts : list text) : text := txt "(" ++ join ts ++ txt ")".

Definition scalar_text (type : Z) (v : text) : text :=
  if type =? STRING then v
  else if type =? BOOLEAN then show_int (if text_eqb v (txt "true") then 1 else 0)
  else if type =? INT then show_int (StringToInt v) else [].

Fixpoint text_of (type : Z) (d : Datum) : text :=
  match d with
  | MkDatum (Some v) _ _ _ => scalar_text type v
  | MkDatum None (Some ds) _ _ => array_text (map (fun d => element (text_of type d)) ds)
  | MkDatum None None (Some (Some ds)) _ => row_text (map (fun d => element (text_of type d)) ds)
  | MkDatum None None _ _ => []
  end.

(** Columns of text, integers and booleans; the texts are ASCII. *)
Definition textual_type (type : Z) : Prop := type = STRING \/ type = BOOLEAN \/ type = INT.

Fixpoint textual (type : Z) (d : Datum) : bool :=
  match d with
  | MkDatum (Some v) _ _ _ => negb (type =? STRING) || bool_decide (ascii_only v)
  | MkDatum None (Some ds) _ _ => forallb (textual type) ds
  | MkDatum None None (Some (Some ds)) _ => forallb (textual type) ds
  | MkDatum None None _ _ => true
  end.

(** A datum that is a text at the top: not a null and not a row without data. *)
Definition has_text (d : Datum) : bool :=
  match d with
  | MkDatum None None (Some None) _ | MkDatum None None None _ => false
  | _ => true
  end.

(** Induction with the hypothesis for every element. *)
Lemma Datum_nested_ind (P : Datum -> Prop) :
  (forall v a r n, P (MkDatum (Some v) a r n)) ->
  (forall ds r n, Forall P ds -> P (MkDatum None (Some ds) r n)) ->
  (forall ds n, Forall P ds -> P (MkDatum None None (Some (Some ds)) n)) ->
  (forall n, P (MkDatum None None (Some None) n)) ->
  (forall n, P (MkDatum None None None n)) ->
  forall d, P d.
Proof.
  intros Hs Ha Hr Hr0 Hn.
  fix IH 1. intros [[v|] a r n]; [apply Hs|]. destruct a as [ds|].
  - apply Ha. induction ds; constructor; auto.
  - destruct r as [[ds|]|]; [|apply Hr0|apply Hn]. apply Hr. induction ds; constructor; auto.
Qed.

(** ** Texts are ASCII *)

Lemma ascii_app s t : ascii_only s -> ascii_only t -> ascii_only (s ++ t).
Proof. intros. by apply Forall_app. Qed.

Lemma StringToInt_range v : is_i32 (StringToInt v).
Proof.
  unfold StringToInt, is_i32. destruct (match Ltrim v with [] => _ | _ => _ end) as [neg d].
  destruct (span_digits _ _) as [d' _]. case_test; z_bool; lia.
Qed.

Lemma scalar_text_ascii type v :
  negb (type =? STRING) || bool_decide (ascii_only v) = true -> ascii_only (scalar_text type v).
Proof.
  unfold scalar_text. destruct (type =? STRING); cbn [negb orb].
  - by intros Hv%bool_decide_eq_true.
  - intros _. destruct (type =? BOOLEAN); [|destruct (type =? INT); [|constructor]].
    + apply show_int_ascii. unfold is_u64. case_test; cbn; lia.
    + apply show_int_ascii. pose proof (StringToInt_range v). unfold is_u64, is_i32 in *. lia.
Qed.

Lemma join_ascii ts : Forall ascii_only ts -> ascii_only (join ts).
Proof.
  induction 1 as [|t ts Ht Hts IH]; [constructor|]. cbn. destruct ts as [|t' ts]; [done|].
  apply ascii_app; [done|]. constructor; [by vm_compute|done].
Qed.

Lemma elements_ascii type ds :
  Forall (fun d => textual type d = true -> ascii_only (text_of type d)) ds ->
  forallb (textual type) ds = true ->
  Forall ascii_only (map (fun d => element (text_of type d)) ds).
Proof.
  induction 1 as [|d ds Hd Hds IH]; [constructor|]. cbn. intros [Ht1 Ht2]%andb_true_iff.
  constructor; [by apply ascii_take, Hd|by apply IH].
Qed.

Lemma text_of_ascii type d : textual type d = true -> ascii_only (text_of type d).
Proof.
  induction d as [v a r n|ds r n IH|ds n IH|n|n] using Datum_nested_ind; cbn [textual text_of].
  - apply scalar_text_ascii.
  - intros Ht. unfold array_text. destruct ds as [|d ds]; [constructor|].
    constructor; [by vm_compute|]. apply ascii_app; [|repeat constructor; by vm_compute].
    by apply join_ascii, (elements_ascii type (d :: ds)).
  - intros Ht. constructor; [by vm_compute|]. apply ascii_app; [|repeat constructor; by vm_compute].
    by apply join_ascii, elements_ascii.
  - constructor.
  - constructor.
Qed.

(** ** An element in its buffer *)

Lemma load_zero a n : load a n stack = replicate n 0.
Proof.
  apply nth_ext with (d := 0) (d' := 0); [by rewrite length_load, length_replicate|].
  intros i Hi. rewrite nth_replicate_default. unfold load, stack.
  revert i Hi. rewrite length_load. generalize 0%nat at 1. intros j.
  revert j. induction n as [|n IH]; intros j i Hi; [lia|]. destruct i as [|i]; [done|].
  cbn. apply IH. lia.
Qed.

Lemma tmp_string s :
  ascii_only s ->
  exists r b' m', PutString s tmpBuf stack = Ok (r, b', m') /\
    cstr (load 0 1024 m') = element s.
Proof.
  intros Ha. destruct (decide (s = [])) as [->|Hne].
  - exists CONV_NO_DATA, tmpBuf, (store 2048 (le_bytes 8 SQL_NO_TOTAL) stack). split.
    + unfold PutString, PutString_written. cbn [type_ tmpBuf NewBuffer]. unfold PutStrToStrBuffer.
      by destruct ANSI_STRING_ONLY.
    + rewrite load_store_apart by (left; lia).
      by rewrite load_zero.
  - pose proof (put_piece_raw AI_CHAR s tmpBuf 0 0 2048 stack (or_introl eq_refl) eq_refl Ha
      eq_refl eq_refl eq_refl) as Hput.
    assert (Hpos : (0 < length s)%nat) by (destruct s; [done|cbn; lia]).
    specialize (Hput Hpos ltac:(cbn; lia) ltac:(by apply Nat.leb_le)). cbv zeta in Hput.
    eexists _, _, _. split; [exact Hput|]. clear Hput.
    change (room AI_CHAR (buflen_ tmpBuf)) with 1023%nat. change (drop 0 s) with s.
    change (take 1023 s) with (element s). cbn [char_size].
    assert (Hl : (length (element s) <= 1023)%nat) by (unfold element; rewrite length_take; lia).
    rewrite load_store_apart by (left; lia).
    change (Z.to_nat 1) with 1%nat. change (le_bytes 1 0) with [0]. rewrite Z.mul_1_r, units_1.
    replace 1024%nat with (length (element s) + (1 + (1023 - length (element s))))%nat by lia.
    rewrite load_app, load_app, load_store_apart by (left; lia).
    rewrite load_store_n by (by rewrite length_bytes_of).
    rewrite (load_store_n _ [0]) by done. cbn [app].
    apply cstr_bytes. by apply ascii_no_nul, ascii_take.
Qed.

(** A scalar is put as its text. *)
Lemma scalar_is_text type v b m :
  textual_type type -> type_ b = AI_CHAR \/ type_ b = AI_WCHAR ->
  ParseScalarType type v b m = PutString (scalar_text type v) b m.
Proof.
  intros Ht Hb. unfold ParseScalarType, scalar_text. pose proof scalars_distinct as Hd.
  assert (Hnum : forall k x, PutNum (Int k x) b m = PutString (show_int x) b m).
  { intros k x. unfold PutNum, PutString, PutString_written. by destruct Hb as [-> | ->]. }
  destruct (Z.eqb_spec type STRING) as [E|E]; [done|].
  assert (E2 : type <> DOUBLE).
  { intros ->. unfold textual_type in Ht. repeat setoid_rewrite NoDup_cons in Hd.
    destruct Ht as [Ht|[Ht|Ht]]; rewrite Ht in Hd; set_solver. }
  rewrite (proj2 (Z.eqb_neq _ _)) by exact E2.
  destruct (Z.eqb_spec type BOOLEAN) as [E3|E3]; [apply Hnum|].
  destruct (Z.eqb_spec type INT) as [E4|E4]; [apply Hnum|].
  unfold textual_type in Ht. tauto.
Qed.

(** ** Arrays and rows *)

(** The conversion of an element leaves its text in the buffer. *)
Definition leaves_text (type : Z) (d : Datum) : Prop :=
  exists r b' m', ParseDatum type d tmpBuf stack = Ok (r, b', m') /\
    cstr (load 0 1024 m') = element (text_of type d).

Definition comma (t : text) : text := t ++ txt ",".
Lemma comma_app t s : comma t ++ s = t ++ txt "," ++ s.
Proof. unfold comma. by rewrite <- app_assoc. Qed.

Lemma append_elements_ok type ds :
  Forall (leaves_text type) ds ->
  append_elements (fun d => ParseDatum type d tmpBuf stack) ds =
  Ok (concat (map comma (map (fun d => element (text_of type d)) ds))).
Proof.
  induction 1 as [|d ds (r & b' & m' & E & Et) Hds IH]; [done|].
  cbn [append_elements map concat]. rewrite E. cbn [res_bind].
  change ((fix go (ds : list Datum) : Prelude.result text := _) ds)
    with (append_elements (fun d => ParseDatum type d tmpBuf stack) ds).
  rewrite IH. cbn [res_bind]. by rewrite Et, comma_app.
Qed.

Lemma removelast_elements o ts :
  ts <> [] -> removelast (o ++ concat (map comma ts)) = o ++ join ts.
Proof.
  intros Hne. rewrite removelast_app.
  - f_equal. induction ts as [|t ts IH]; [done|]. destruct ts as [|t' ts].
    + change (removelast (comma t ++ []) = t). rewrite app_nil_r. apply removelast_last.
    + change (removelast (comma t ++ concat (map comma (t' :: ts))) = t ++ txt "," ++ join (t' :: ts)).
      rewrite removelast_app; [by rewrite IH, comma_app|].
      change (comma t' ++ concat (map comma ts) <> []). rewrite comma_app. by destruct t'.
  - destruct ts as [|t ts]; [done|].
    change (comma t ++ concat (map comma ts) <> []). rewrite comma_app. by destruct t.
Qed.

Lemma map_not_nil {A B} (f : A -> B) d ds : map f (d :: ds) <> [].
Proof. done. Qed.

Lemma array_is_text type ds r n b m :
  Forall (leaves_text type) ds ->
  ParseDatum type (MkDatum None (Some ds) r n) b m =
  PutString (text_of type (MkDatum None (Some ds) r n)) b m.
Proof.
  intros Hds. cbn [ParseDatum text_of]. unfold ParseArrayType.
  rewrite (append_elements_ok type ds Hds). cbn [res_bind]. f_equal.
  destruct ds as [|d ds]; [done|]. rewrite removelast_elements by apply map_not_nil.
  unfold array_text. cbn [map]. by rewrite <- app_assoc.
Qed.

Lemma row_is_text type ds n b m :
  Forall (leaves_text type) ds ->
  ParseDatum type (MkDatum None None (Some (Some ds)) n) b m =
  PutString (text_of type (MkDatum None None (Some (Some ds)) n)) b m.
Proof.
  intros Hds. cbn [ParseDatum text_of]. unfold ParseRowType.
  rewrite (append_elements_ok type ds Hds). cbn [res_bind]. f_equal.
  destruct ds as [|d ds]; [done|]. rewrite removelast_elements by apply map_not_nil.
  unfold row_text. by rewrite <- app_assoc.
Qed.

Lemma textual_leaves_text type d :
  textual_type type -> textual type d = true -> leaves_text type d.
Proof.
  intros Ht. induction d as [v a r n|ds r n IH|ds n IH|n|n] using Datum_nested_ind; intros Hd.
  - unfold leaves_text. cbn [ParseDatum]. rewrite scalar_is_text by (done || by left).
    apply tmp_string. by apply (text_of_ascii type (MkDatum (Some v) a r n)).
  - unfold leaves_text. rewrite array_is_text; [by apply tmp_string, text_of_ascii|].
    cbn in Hd. rewrite forallb_forall in Hd. rewrite Forall_forall in IH |- *.
    intros d Hin. apply IH; [done|]. by apply Hd, list_elem_of_In.
  - unfold leaves_text. rewrite row_is_text; [by apply tmp_string, text_of_ascii|].
    cbn in Hd. rewrite forallb_forall in Hd. rewrite Forall_forall in IH |- *.
    intros d Hin. apply IH; [done|]. by apply Hd, list_elem_of_In.
  - eexists _, _, _. split; [done|]. by rewrite load_zero.
  - destruct n.
    + exists CONV_SUCCESS, tmpBuf, (store 2048 (le_bytes 8 (-1)) stack). split; [done|].
      rewrite load_store_apart by (left; lia). by rewrite load_zero.
    + eexists _, _, _. split; [done|]. by rewrite load_zero.
Qed.

Lemma textual_elements type ds :
  textual_type type -> forallb (textual type) ds = true -> Forall (leaves_text type) ds.
Proof.
  intros Ht Hd. rewrite forallb_forall in Hd. apply Forall_forall. intros d Hin.
  apply textual_leaves_text; [done|]. by apply Hd, list_elem_of_In.
Qed.

Lemma datum_is_text type d b m :
  textual_type type -> type_ b = AI_CHAR \/ type_ b = AI_WCHAR -> textual type d = true ->
  has_text d = true -> ParseDatum type d b m = PutString (text_of type d) b m.
Proof.
  intros Ht Hb Hd Hh. destruct d as [[v|] a r n]; [by apply scalar_is_text|].
  destruct a as [ds|]; [by apply array_is_text, textual_elements|].
  destruct r as [[ds|]|]; [by apply row_is_text, textual_elements|done|done].
Qed.

(** ** Timestamps *)

Lemma timestamp_text_ok t ns :
  timestamp_ok t ns -> ascii_only (timestamp_text t ns) /\ length (timestamp_text t ns) = 29%nat.
Proof.
  intros ((Hv & Hh & Hm & Hs & _) & Hy & Hn).
  assert (Hd : 1 <= tm_mon t + 1 <= 12 /\ 1 <= tm_mday t <= 31).
  { pose proof (days_in_month_bound (tm_year t + 1900) (tm_mon t + 1)).
    unfold valid_date in Hv. z_bool. lia. }
  destruct (year_digits _ Hy) as (D1 & L1 & _).
  destruct (two_digits (tm_mon t + 1) ltac:(lia)) as (D2 & L2 & _).
  destruct (two_digits (tm_mday t) ltac:(lia)) as (D3 & L3 & _).
  destruct (two_digits (tm_hour t) ltac:(lia)) as (D4 & L4 & _).
  destruct (two_digits (tm_min t) ltac:(lia)) as (D5 & L5 & _).
  destruct (two_digits (tm_sec t) ltac:(lia)) as (D6 & L6 & _).
  destruct (zero_padded_digits 9 ns ltac:(lia) ltac:(lia)) as (D7 & L7 & _).
  unfold timestamp_text, strftime_timestamp, strftime_time. split.
  - assert (Hp : forall c, 1 <= code c < 128 -> ascii_only [c]) by (intros; by constructor).
    assert (Hs1 : ascii_only (txt "-") /\ ascii_only (txt " ") /\ ascii_only (txt ":") /\ ascii_only (txt "."))
      by (split_and!; apply Hp; by vm_compute).
    destruct Hs1 as (Hminus & Hspace & Hcolon & Hdot).
    apply digits_ascii in D1, D2, D3, D4, D5, D6, D7.
    exact (ascii_app _ _ (ascii_app _ _ D1 (ascii_app _ _ Hminus (ascii_app _ _ D2
      (ascii_app _ _ Hminus (ascii_app _ _ D3 (ascii_app _ _ Hspace (ascii_app _ _ D4
      (ascii_app _ _ Hcolon (ascii_app _ _ D5 (ascii_app _ _ Hcolon
      (ascii_app _ _ D6 Hdot))))))))))) D7).
  - rewrite !length_app, L1, L2, L3, L4, L5, L6, L7. done.
Qed.

Lemma GetTimestampString_text t ns :
  timestamp_ok t ns -> GetTimestampString (strftime_timestamp t) ns = timestamp_text t ns.
Proof.
  intros (_ & _ & Hn). unfold GetTimestampString, timestamp_text. f_equal.
  apply take_ge. destruct (zero_padded_digits 9 ns ltac:(lia) ltac:(lia)) as (_ & -> & _). lia.
Qed.

(** The bytes a text of a fixed shape leaves in a buffer: as much as fits and a
    terminator. *)
Lemma load_terminated p l x a b m :
  a = length l -> b = p + Z.of_nat a ->
  load p (a + 1) (store b [0] (store p (l ++ [x]) m)) = l ++ [0].
Proof.
  intros -> ->. rewrite load_app. f_equal.
  - rewrite load_store_apart by (left; lia).
    assert (E := load_store_n p (l ++ [x]) m (length l + 1) ltac:(rewrite length_app; done)).
    rewrite load_app in E. apply app_inj_1 in E; [by destruct E|by rewrite length_load].
  - by rewrite (load_store_n _ [0]).
Qed.

Lemma take_last_nth (l : list Z) n : (n < length l)%nat -> take (S n) l = take n l ++ [nth n l 0].
Proof.
  intros Hn. destruct (lookup_lt_is_Some_2 l n Hn) as [x Hx].
  rewrite (take_S_r _ _ x) by done. by rewrite (nth_lookup_Some _ _ _ _ Hx).
Qed.

Lemma put_fixed_char_bytes tmp b p q m :
  1 <= buflen_ b -> GetData b = Some p -> GetResLen b = Some q ->
  let n := Z.of_nat (length tmp) + 1 in
  let k := Z.min n (buflen_ b) in
  exists m', put_fixed_char tmp n b m =
      Ok (if buflen_ b <? n then VARLEN_DATA_TRUNCATED else CONV_SUCCESS, b, m') /\
    load p (Z.to_nat k) m' = bytes_of (take (Z.to_nat (k - 1)) tmp) ++ [0] /\
    (apart q 8 p (Z.to_nat k) -> load q 8 m' = le_bytes 8 (n - 1)).
Proof.
  intros Hb Hp Hq n k. unfold put_fixed_char, set_reslen. rewrite Hp, Hq. fold k.
  rewrite (proj2 (Z.ltb_ge k 0)) by lia.
  destruct (Z.ltb_spec (buflen_ b) n).
  - eexists. split; [done|]. replace k with (buflen_ b) by lia.
    assert (E : strncpy_bytes tmp (buflen_ b) = bytes_of (take (Z.to_nat (buflen_ b - 1)) tmp) ++
      [nth (Z.to_nat (buflen_ b - 1)) (bytes_of tmp) 0]).
    { unfold strncpy_bytes. rewrite length_take, length_bytes_of.
      replace (Z.to_nat (buflen_ b) - _)%nat with 0%nat by lia. rewrite app_nil_r.
      replace (Z.to_nat (buflen_ b)) with (S (Z.to_nat (buflen_ b - 1))) by lia.
      rewrite take_last_nth by (rewrite length_bytes_of; lia). by rewrite bytes_of_take. }
    split.
    + rewrite E. replace (Z.to_nat (buflen_ b)) with (Z.to_nat (buflen_ b - 1) + 1)%nat by lia.
      apply load_terminated; [rewrite length_bytes_of, length_take; lia|lia].
    + intros Ha. unfold apart in Ha. rewrite 2!load_store_apart.
      * by apply load_store_n.
      * unfold apart. pose proof (length_strncpy tmp (buflen_ b)). lia.
      * unfold apart. cbn [length]. lia.
  - eexists. split; [done|]. replace k with n by lia.
    replace (Z.to_nat (n - 1)) with (length tmp) by lia. rewrite take_ge by lia.
    assert (E : strncpy_bytes tmp n = bytes_of tmp ++ [0]).
    { unfold strncpy_bytes. rewrite length_take, length_bytes_of.
      replace (Z.to_nat n - _)%nat with 1%nat by lia. by rewrite take_ge by (rewrite length_bytes_of; lia). }
    split.
    + rewrite E. apply load_store_n. rewrite length_app, length_bytes_of. cbn. lia.
    + intros Ha. rewrite load_store_apart; [by apply load_store_n|].
      pose proof (length_strncpy tmp n). unfold apart in *. lia.
Qed.

Lemma parse_timestamp t ns b m :
  timestamp_ok t ns ->
  ParseDatum TIMESTAMP (Scalar (timestamp_text t ns)) b m = PutTimestamp (MkTimestamp (timegm t) ns) b m.
Proof.
  intros Hok. cbn [ParseDatum Scalar]. unfold ParseScalarType.
  pose proof scalars_distinct as Hd. repeat setoid_rewrite NoDup_cons in Hd.
  rewrite !(proj2 (Z.eqb_neq TIMESTAMP _)) by (intros E; rewrite E in Hd; set_solver).
  rewrite Z.eqb_refl. unfold ParseTimestamp.
  rewrite c_str_ascii by (apply ascii_no_nul, timestamp_text_ok, Hok).
  rewrite sscanf_timestamp by done. rewrite !Z.add_simpl_r. by destruct t.
Qed.

Lemma timestamp_kept t ns b p q m :
  timestamp_ok t ns -> type_ b = AI_CHAR -> 1 <= buflen_ b ->
  GetData b = Some p -> GetResLen b = Some q ->
  let k := Z.min 30 (buflen_ b) in
  apart q 8 p (Z.to_nat k) ->
  exists m', ReadToBuffer true TIMESTAMP (Scalar (timestamp_text t ns)) b m =
      Ok (if buflen_ b <? 30 then VARLEN_DATA_TRUNCATED else CONV_SUCCESS, b, m') /\
    load p (Z.to_nat k) m' = bytes_of (take (Z.to_nat (k - 1)) (timestamp_text t ns)) ++ [0] /\
    load q 8 m' = le_bytes 8 29.
Proof.
  intros Hok Hb Hl Hp Hq k Ha.
  destruct (put_fixed_char_bytes (timestamp_text t ns) b p q m Hl Hp Hq) as (m' & E & Ht & Hr).
  destruct (timestamp_text_ok t ns Hok) as [_ El]. rewrite El in E, Ht, Hr.
  exists m'. split_and!; [|exact Ht|by apply Hr].
  unfold ReadToBuffer. cbn [negb]. rewrite parse_timestamp by done. unfold PutTimestamp, TimestampToCTm.
  cbn [ts_seconds ts_fractionNs]. unfold IgniteGmTime. rewrite gmtime_timegm by apply Hok.
  cbn [default from_option]. rewrite Hb, GetTimestampString_text by done. exact E.
Qed.

Lemma timestamp_fields t ns b p m :
  timestamp_ok t ns -> type_ b = AI_TTIMESTAMP -> GetData b = Some p ->
  ReadToBuffer true TIMESTAMP (Scalar (timestamp_text t ns)) b m =
  Ok (CONV_SUCCESS, b, set_reslen 16 b (store p
    (le_bytes 2 (tm_year t + 1900) ++ le_bytes 2 (tm_mon t + 1) ++ le_bytes 2 (tm_mday t) ++
     le_bytes 2 (tm_hour t) ++ le_bytes 2 (tm_min t) ++ le_bytes 2 (tm_sec t) ++ le_bytes 4 ns) m)).
Proof.
  intros Hok Hb Hp. unfold ReadToBuffer. cbn [negb]. rewrite parse_timestamp by done.
  unfold PutTimestamp, TimestampToCTm. cbn [ts_seconds ts_fractionNs].
  unfold IgniteGmTime. rewrite gmtime_timegm by apply Hok. cbn [default from_option].
  rewrite Hb. unfold put_struct. rewrite Hp. unfold timestamp_struct, date_struct, time_struct.
  by rewrite <- !app_assoc.
Qed.
End Facts.
End ColumnFacts.

Import Text Memory Calendar Encoding AppBuf Column ColumnFacts.

(** C16. A datum of a column of texts, integers or booleans, with arrays and rows
    nested to any depth, is put into a text buffer of the application exactly as
    [PutString] puts its reference text: [(] and [)] around a row, [[] and []]
    around an array, commas between the elements and each element cut at the
    1023 bytes of the driver's own buffer. The texts in the datum are ASCII, and the
    datum itself is neither a null nor a row without data. Together with [string_in_parts] this
    says what every call of [SQLGetData] returns for such a column. *)
Theorem datum_is_put_as_text `{Abi} `{Floats} `{AwsScalars}
    (type : Z) (d : Datum) (b : ApplicationDataBuffer) (m : Memory) :
  textual_type type -> type_ b = AI_CHAR \/ type_ b = AI_WCHAR ->
  textual type d = true -> has_text d = true ->
  ReadToBuffer true type d b m = PutString (text_of type d) b m.
Proof. apply datum_is_text. Qed.

(** [[7,(8,null),[]]] in a column of integers: the null is an empty element. *)
Definition nested_datum : Datum :=
  Array [Scalar (txt "7"); RowOf [Scalar (txt " 8x"); Null]; Array []].

Example datum_is_put_as_text_witness :
  exists _ : Abi, exists _ : Floats, exists _ : AwsScalars,
  let b := NewBuffer AI_CHAR (Some 100) 64 (Some 200) in
  text_of INT nested_datum = txt "[7,(8,),]" /\
  ReadToBuffer true INT nested_datum b (fun _ => 0) =
    PutString (txt "[7,(8,),]") b (fun _ => 0).
Proof.
  exists UnixAbi, WholeReals, SdkScalars. split; [reflexivity|].
  change (txt "[7,(8,),]") with (@text_of SdkScalars 2 nested_datum).
  apply (@datum_is_put_as_text UnixAbi WholeReals SdkScalars 2 nested_datum
    (NewBuffer AI_CHAR (Some 100) 64 (Some 200)) (fun _ => 0));
    [right; right; reflexivity|left; reflexivity|reflexivity|reflexivity].
Defined.

(** C10. A timestamp of the service is scanned into a time, turned into seconds
    since 1970, back into a calendar date and printed: for every valid date of
    the years 1000 to 9999 and every fraction the application reads the text of
    the service unchanged, cut with a terminator at the length of its buffer, in
    which case the result says so; the length variable holds 29. *)
Theorem timestamp_roundtrip `{Abi} `{Floats} `{AwsScalars}
    (t : tm) (ns : Z) (b : ApplicationDataBuffer) (p q : Z) (m : Memory) :
  timestamp_ok t ns -> type_ b = AI_CHAR -> 1 <= buflen_ b ->
  GetData b = Some p -> GetResLen b = Some q ->
  apart q 8 p (Z.to_nat (Z.min 30 (buflen_ b))) ->
  exists m', ReadToBuffer true TIMESTAMP (Scalar (timestamp_text t ns)) b m =
      Ok (if buflen_ b <? 30 then VARLEN_DATA_TRUNCATED else CONV_SUCCESS, b, m') /\
    load p (Z.to_nat (Z.min 30 (buflen_ b))) m' =
      bytes_of (take (Z.to_nat (Z.min 30 (buflen_ b) - 1)) (timestamp_text t ns)) ++ [0] /\
    load q 8 m' = le_bytes 8 29.
Proof. apply timestamp_kept. Qed.

Example timestamp_roundtrip_witness :
  exists m', @ReadToBuffer UnixAbi WholeReals SdkScalars true 4
      (Scalar (txt "2024-02-29 23:59:58.000000007"))
      (NewBuffer AI_CHAR (Some 100) 64 (Some 200)) (fun _ => 0) =
      Ok (CONV_SUCCESS, NewBuffer AI_CHAR (Some 100) 64 (Some 200), m') /\
    load 100 30 m' = bytes_of (txt "2024-02-29 23:59:58.000000007") ++ [0].
Proof.
  destruct (@timestamp_roundtrip UnixAbi WholeReals SdkScalars (MkTm 58 59 23 29 1 124) 7
    (NewBuffer AI_CHAR (Some 100) 64 (Some 200)) 100 200 (fun _ => 0)) as (m' & E & Hl & _).
  - unfold timestamp_ok, valid_tm, is_i32. cbn. split_and!; (reflexivity || lia).
  - reflexivity.
  - cbn. lia.
  - reflexivity.
  - reflexivity.
  - right. cbn. lia.
  - exists m'. split; [exact E|exact Hl].
Defined.

(** The same timestamp in a [SQL_TIMESTAMP_STRUCT] has the fields of the
    text: year, month, day, hour, minute, second and the nanoseconds. *)
Theorem timestamp_struct_fields `{Abi} `{Floats} `{AwsScalars}
    (t : tm) (ns : Z) (b : ApplicationDataBuffer) (p : Z) (m : Memory) :
  timestamp_ok t ns -> type_ b = AI_TTIMESTAMP -> GetData b = Some p ->
  ReadToBuffer true TIMESTAMP (Scalar (timestamp_text t ns)) b m =
  Ok (CONV_SUCCESS, b, set_reslen 16 b (store p
    (le_bytes 2 (tm_year t + 1900) ++ le_bytes 2 (tm_mon t + 1) ++ le_bytes 2 (tm_mday t) ++
     le_bytes 2 (tm_hour t) ++ le_bytes 2 (tm_min t) ++ le_bytes 2 (tm_sec t) ++ le_bytes 4 ns) m)).
Proof. apply timestamp_fields. Qed.

Example timestamp_struct_witness :
  @ReadToBuffer UnixAbi WholeReals SdkScalars true 4
    (Scalar (txt "2024-02-29 23:59:58.000000007"))
    (NewBuffer AI_TTIMESTAMP (Some 100) 16 None) (fun _ => 0) =
  Ok (CONV_SUCCESS, NewBuffer AI_TTIMESTAMP (Some 100) 16 None,
      store 100 (le_bytes 2 2024 ++ le_bytes 2 2 ++ le_bytes 2 29 ++ le_bytes 2 23 ++
                 le_bytes 2 59 ++ le_bytes 2 58 ++ le_bytes 4 7) (fun _ => 0)).
Proof.
  apply (@timestamp_struct_fields UnixAbi WholeReals SdkScalars (MkTm 58 59 23 29 1 124) 7
    (NewBuffer AI_TTIMESTAMP (Some 100) 16 None) 100 (fun _ => 0)).
  - unfold timestamp_ok, valid_tm, is_i32. cbn. split_and!; (reflexivity || lia).
  - reflexivity.
  - reflexivity.
Defined.
