(* ===== verification/TypeTraits.v ===== *)
(** * TypeTraits: SQL types, types of buffers and types of the service

    Models [src/type_traits.cpp]. The SQL types and the types of application
    buffers are enumerations ([Codes]); the scalar types of the service are those
    of [Column]. An optional number is an [option]. *)

From S2P Require Import Prelude Text Codes Memory Calendar Encoding AppBuffer AppBufferFacts Column ColumnFacts.

Module Types.
Import Text Column.

(** ** Enumerations *)

Inductive SqlType : Type :=
  | SQL_CHAR | SQL_VARCHAR | SQL_LONGVARCHAR | SQL_WCHAR | SQL_WVARCHAR | SQL_WLONGVARCHAR
  | SQL_DECIMAL | SQL_NUMERIC | SQL_SMALLINT | SQL_INTEGER | SQL_REAL | SQL_FLOAT | SQL_DOUBLE
  | SQL_BIT | SQL_TINYINT | SQL_BIGINT | SQL_TYPE_DATE | SQL_TYPE_TIME | SQL_TYPE_TIMESTAMP
  | SQL_TYPE_NULL | SQL_GUID | SQL_BINARY | SQL_VARBINARY | SQL_LONGVARBINARY
  | SQL_DATETIME | SQL_INTERVAL
  | SQL_INTERVAL_YEAR | SQL_INTERVAL_MONTH | SQL_INTERVAL_DAY | SQL_INTERVAL_HOUR
  | SQL_INTERVAL_MINUTE | SQL_INTERVAL_SECOND | SQL_INTERVAL_YEAR_TO_MONTH
  | SQL_INTERVAL_DAY_TO_HOUR | SQL_INTERVAL_DAY_TO_MINUTE | SQL_INTERVAL_DAY_TO_SECOND
  | SQL_INTERVAL_HOUR_TO_MINUTE | SQL_INTERVAL_HOUR_TO_SECOND | SQL_INTERVAL_MINUTE_TO_SECOND.

Inductive CType : Type :=
  | SQL_C_CHAR | SQL_C_WCHAR | SQL_C_SSHORT | SQL_C_SHORT | SQL_C_USHORT | SQL_C_SLONG
  | SQL_C_LONG | SQL_C_ULONG | SQL_C_FLOAT | SQL_C_DOUBLE | SQL_C_BIT | SQL_C_STINYINT
  | SQL_C_TINYINT | SQL_C_UTINYINT | SQL_C_SBIGINT | SQL_C_UBIGINT | SQL_C_BINARY
  | SQL_C_DATE | SQL_C_TYPE_DATE | SQL_C_TIME | SQL_C_TYPE_TIME | SQL_C_TIMESTAMP
  | SQL_C_TYPE_TIMESTAMP | SQL_C_NUMERIC | SQL_C_DEFAULT
  | SQL_C_INTERVAL_YEAR | SQL_C_INTERVAL_MONTH | SQL_C_INTERVAL_DAY | SQL_C_INTERVAL_HOUR
  | SQL_C_INTERVAL_MINUTE | SQL_C_INTERVAL_SECOND | SQL_C_INTERVAL_DAY_TO_HOUR
  | SQL_C_INTERVAL_DAY_TO_MINUTE | SQL_C_INTERVAL_HOUR_TO_MINUTE | SQL_C_INTERVAL_HOUR_TO_SECOND
  | SQL_C_INTERVAL_MINUTE_TO_SECOND | SQL_C_INTERVAL_YEAR_TO_MONTH
  | SQL_C_INTERVAL_DAY_TO_SECOND.

#[global] Instance SqlType_eq_dec : EqDecision SqlType.
Proof. solve_decision. Defined.
#[global] Instance CType_eq_dec : EqDecision CType.
Proof. solve_decision. Defined.

#[global, refine] Instance SqlType_finite : Finite SqlType := {| enum :=
  [ SQL_CHAR; SQL_VARCHAR; SQL_LONGVARCHAR; SQL_WCHAR; SQL_WVARCHAR; SQL_WLONGVARCHAR;
    SQL_DECIMAL; SQL_NUMERIC; SQL_SMALLINT; SQL_INTEGER; SQL_REAL; SQL_FLOAT; SQL_DOUBLE;
    SQL_BIT; SQL_TINYINT; SQL_BIGINT; SQL_TYPE_DATE; SQL_TYPE_TIME; SQL_TYPE_TIMESTAMP;
    SQL_TYPE_NULL; SQL_GUID; SQL_BINARY; SQL_VARBINARY; SQL_LONGVARBINARY;
    SQL_DATETIME; SQL_INTERVAL;
    SQL_INTERVAL_YEAR; SQL_INTERVAL_MONTH; SQL_INTERVAL_DAY; SQL_INTERVAL_HOUR;
    SQL_INTERVAL_MINUTE; SQL_INTERVAL_SECOND; SQL_INTERVAL_YEAR_TO_MONTH;
    SQL_INTERVAL_DAY_TO_HOUR; SQL_INTERVAL_DAY_TO_MINUTE; SQL_INTERVAL_DAY_TO_SECOND;
    SQL_INTERVAL_HOUR_TO_MINUTE; SQL_INTERVAL_HOUR_TO_SECOND; SQL_INTERVAL_MINUTE_TO_SECOND ] |}.
Proof. all: solve_finite. Defined.

#[global, refine] Instance CType_finite : Finite CType := {| enum :=
  [ SQL_C_CHAR; SQL_C_WCHAR; SQL_C_SSHORT; SQL_C_SHORT; SQL_C_USHORT; SQL_C_SLONG;
    SQL_C_LONG; SQL_C_ULONG; SQL_C_FLOAT; SQL_C_DOUBLE; SQL_C_BIT; SQL_C_STINYINT;
    SQL_C_TINYINT; SQL_C_UTINYINT; SQL_C_SBIGINT; SQL_C_UBIGINT; SQL_C_BINARY;
    SQL_C_DATE; SQL_C_TYPE_DATE; SQL_C_TIME; SQL_C_TYPE_TIME; SQL_C_TIMESTAMP;
    SQL_C_TYPE_TIMESTAMP; SQL_C_NUMERIC; SQL_C_DEFAULT;
    SQL_C_INTERVAL_YEAR; SQL_C_INTERVAL_MONTH; SQL_C_INTERVAL_DAY; SQL_C_INTERVAL_HOUR;
    SQL_C_INTERVAL_MINUTE; SQL_C_INTERVAL_SECOND; SQL_C_INTERVAL_DAY_TO_HOUR;
    SQL_C_INTERVAL_DAY_TO_MINUTE; SQL_C_INTERVAL_HOUR_TO_MINUTE; SQL_C_INTERVAL_HOUR_TO_SECOND;
    SQL_C_INTERVAL_MINUTE_TO_SECOND; SQL_C_INTERVAL_YEAR_TO_MONTH;
    SQL_C_INTERVAL_DAY_TO_SECOND ] |}.
Proof. all: solve_finite. Defined.

(** The answers of ODBC about null values. *)
Inductive SqlNullable : Type := SQL_NO_NULLS | SQL_NULLABLE | SQL_NULLABLE_UNKNOWN.

#[global] Instance SqlNullable_eq_dec : EqDecision SqlNullable.
Proof. solve_decision. Defined.
#[global, refine] Instance SqlNullable_finite : Finite SqlNullable :=
  {| enum := [SQL_NO_NULLS; SQL_NULLABLE; SQL_NULLABLE_UNKNOWN] |}.
Proof. all: solve_finite. Defined.

(** The numbers of the three enumerations; the interval and date types of the
    buffers have the numbers of the SQL types. *)
Class SqlCodes : Type := {
  sql_types :: Codes SqlType;
  c_types :: Codes CType;
  sql_nullables :: Codes SqlNullable
}.

Definition IOTSITEWISE_SQL_MAX_LENGTH : Z := 65532.

(** ** The functions of the file *)

Section Traits.
Context `{SqlCodes} `{AwsScalars}.

Definition BinaryTypeToSqlTypeName (binaryType : option Z) : option text :=
  match binaryType with
  | None => None
  | Some scalarType =>
      Some (txt (if scalarType =? BOOLEAN then "BIT"
                 else if scalarType =? INT then "INTEGER"
                 else if scalarType =? DOUBLE then "DOUBLE"
                 else if scalarType =? TIMESTAMP then "TIMESTAMP"
                 else if scalarType =? STRING then "VARCHAR"
                 else if scalarType =? NOT_SET then "NOT_SET"
                 else "VARCHAR"))
  end.

Definition IsSqlTypeSupported (type : option Z) : bool :=
  match type with
  | None => false
  | Some t =>
      match decode (A := SqlType) t with
      | Some (SQL_BIT | SQL_TINYINT | SQL_SMALLINT | SQL_BIGINT | SQL_INTEGER | SQL_FLOAT
             | SQL_REAL | SQL_DOUBLE | SQL_NUMERIC | SQL_DECIMAL | SQL_CHAR | SQL_VARCHAR
             | SQL_LONGVARCHAR | SQL_WCHAR | SQL_WVARCHAR | SQL_WLONGVARCHAR | SQL_TYPE_DATE
             | SQL_TYPE_TIMESTAMP | SQL_TYPE_TIME | SQL_TYPE_NULL | SQL_INTERVAL_YEAR_TO_MONTH
             | SQL_INTERVAL_DAY_TO_SECOND) => true
      | _ => false
      end
  end.

Definition SqlTypeToBinary (sqlType : option Z) : Z :=
  match sqlType with
  | None => NOT_SET
  | Some t =>
      match decode (A := SqlType) t with
      | Some SQL_BIT => BOOLEAN
      | Some SQL_INTEGER => INT
      | Some SQL_DOUBLE => DOUBLE
      | Some SQL_TYPE_TIMESTAMP => TIMESTAMP
      | Some SQL_VARCHAR => STRING
      | _ => STRING
      end
  end.

Definition ToDriverType (type : Z) : AppBuf.OdbcNativeType :=
  match decode (A := CType) type with
  | Some SQL_C_CHAR => AppBuf.AI_CHAR
  | Some SQL_C_WCHAR => AppBuf.AI_WCHAR
  | Some (SQL_C_SSHORT | SQL_C_SHORT) => AppBuf.AI_SIGNED_SHORT
  | Some SQL_C_USHORT => AppBuf.AI_UNSIGNED_SHORT
  | Some (SQL_C_SLONG | SQL_C_LONG) => AppBuf.AI_SIGNED_LONG
  | Some SQL_C_ULONG => AppBuf.AI_UNSIGNED_LONG
  | Some SQL_C_FLOAT => AppBuf.AI_FLOAT
  | Some SQL_C_DOUBLE => AppBuf.AI_DOUBLE
  | Some SQL_C_BIT => AppBuf.AI_BIT
  | Some (SQL_C_STINYINT | SQL_C_TINYINT) => AppBuf.AI_SIGNED_TINYINT
  | Some SQL_C_UTINYINT => AppBuf.AI_UNSIGNED_TINYINT
  | Some SQL_C_SBIGINT => AppBuf.AI_SIGNED_BIGINT
  | Some SQL_C_UBIGINT => AppBuf.AI_UNSIGNED_BIGINT
  | Some SQL_C_BINARY => AppBuf.AI_BINARY
  | Some (SQL_C_DATE | SQL_C_TYPE_DATE) => AppBuf.AI_TDATE
  | Some (SQL_C_TIME | SQL_C_TYPE_TIME) => AppBuf.AI_TTIME
  | Some (SQL_C_TIMESTAMP | SQL_C_TYPE_TIMESTAMP) => AppBuf.AI_TTIMESTAMP
  | Some SQL_C_NUMERIC => AppBuf.AI_NUMERIC
  | Some SQL_C_DEFAULT => AppBuf.AI_DEFAULT
  | Some SQL_C_INTERVAL_YEAR => AppBuf.AI_INTERVAL_YEAR
  | Some SQL_C_INTERVAL_MONTH => AppBuf.AI_INTERVAL_MONTH
  | Some SQL_C_INTERVAL_DAY => AppBuf.AI_INTERVAL_DAY
  | Some SQL_C_INTERVAL_HOUR => AppBuf.AI_INTERVAL_HOUR
  | Some SQL_C_INTERVAL_MINUTE => AppBuf.AI_INTERVAL_MINUTE
  | Some SQL_C_INTERVAL_SECOND => AppBuf.AI_INTERVAL_SECOND
  | Some SQL_C_INTERVAL_DAY_TO_HOUR => AppBuf.AI_INTERVAL_DAY_TO_HOUR
  | Some SQL_C_INTERVAL_DAY_TO_MINUTE => AppBuf.AI_INTERVAL_DAY_TO_MINUTE
  | Some SQL_C_INTERVAL_HOUR_TO_MINUTE => AppBuf.AI_INTERVAL_HOUR_TO_MINUTE
  | Some SQL_C_INTERVAL_HOUR_TO_SECOND => AppBuf.AI_INTERVAL_HOUR_TO_SECOND
  | Some SQL_C_INTERVAL_MINUTE_TO_SECOND => AppBuf.AI_INTERVAL_MINUTE_TO_SECOND
  | Some SQL_C_INTERVAL_YEAR_TO_MONTH => AppBuf.AI_INTERVAL_YEAR_TO_MONTH
  | Some SQL_C_INTERVAL_DAY_TO_SECOND => AppBuf.AI_INTERVAL_DAY_TO_SECOND
  | None => AppBuf.AI_UNSUPPORTED
  end.

Definition IsApplicationTypeSupported (type : option Z) : bool :=
  match type with
  | Some t => match ToDriverType t with AppBuf.AI_UNSUPPORTED => false | _ => true end
  | None => false
  end.

Definition BinaryToSqlType (binaryType : option Z) : option Z :=
  match binaryType with
  | None => None
  | Some scalarType =>
      Some (id_of (if scalarType =? BOOLEAN then SQL_BIT
                   else if scalarType =? INT then SQL_INTEGER
                   else if scalarType =? DOUBLE then SQL_DOUBLE
                   else if scalarType =? TIMESTAMP then SQL_TYPE_TIMESTAMP
                   else SQL_VARCHAR))
  end.

Definition BinaryTypeNullability (_ : Z) : Z := id_of SQL_NULLABLE_UNKNOWN.

Definition NullabilityToIsNullable (nullability : option Z) : option text :=
  match nullability with
  | None => None
  | Some n =>
      match decode (A := SqlNullable) n with
      | Some SQL_NO_NULLS => Some (txt "NO")
      | Some SQL_NULLABLE => Some (txt "YES")
      | _ => None
      end
  end.

(** A switch over an optional SQL type: none for none. *)
Definition sql_switch {A} (f : option SqlType -> A) (type : option Z) : option A :=
  match type with
  | None => None
  | Some t => Some (f (decode t))
  end.

Definition SqlTypeDisplaySize : option Z -> option Z :=
  sql_switch (fun t =>
    match t with
    | Some (SQL_VARCHAR | SQL_WVARCHAR | SQL_CHAR | SQL_WCHAR | SQL_LONGVARCHAR
           | SQL_WLONGVARCHAR | SQL_DECIMAL | SQL_NUMERIC) => IOTSITEWISE_SQL_MAX_LENGTH
    | Some (SQL_BIT | SQL_TYPE_NULL) => 1
    | Some SQL_TINYINT => 4
    | Some SQL_SMALLINT => 6
    | Some SQL_INTEGER => 11
    | Some SQL_BIGINT => 20
    | Some SQL_REAL => 14
    | Some (SQL_FLOAT | SQL_DOUBLE) => 24
    | Some SQL_TYPE_DATE => 10
    | Some SQL_TYPE_TIME => 8
    | Some SQL_TYPE_TIMESTAMP => 20
    | Some SQL_INTERVAL_DAY_TO_SECOND => 25
    | Some SQL_INTERVAL_YEAR_TO_MONTH => 12
    | Some SQL_GUID => 36
    | _ => 0
    end).

Definition BinaryTypeDisplaySize (type : option Z) : option Z :=
  SqlTypeDisplaySize (BinaryToSqlType type).

Definition SqlTypeColumnSize : option Z -> option Z :=
  sql_switch (fun t =>
    match t with
    | Some (SQL_VARCHAR | SQL_WVARCHAR | SQL_CHAR | SQL_WCHAR | SQL_LONGVARCHAR
           | SQL_WLONGVARCHAR | SQL_DECIMAL | SQL_NUMERIC) => IOTSITEWISE_SQL_MAX_LENGTH
    | Some (SQL_BIT | SQL_TYPE_NULL) => 1
    | Some SQL_TINYINT => 3
    | Some SQL_SMALLINT => 5
    | Some SQL_INTEGER => 10
    | Some SQL_BIGINT => 19
    | Some SQL_REAL => 7
    | Some (SQL_FLOAT | SQL_DOUBLE) => 15
    | Some SQL_TYPE_DATE => 10
    | Some SQL_TYPE_TIME => 8
    | Some SQL_TYPE_TIMESTAMP => 19
    | Some SQL_GUID => 36
    | Some SQL_INTERVAL_DAY_TO_SECOND => 25
    | Some SQL_INTERVAL_YEAR_TO_MONTH => 12
    | _ => 0
    end).

Definition BinaryTypeColumnSize (type : option Z) : option Z :=
  SqlTypeColumnSize (BinaryToSqlType type).

Definition SqlTypeTransferLength : option Z -> option Z :=
  sql_switch (fun t =>
    match t with
    | Some (SQL_VARCHAR | SQL_WVARCHAR | SQL_CHAR | SQL_WCHAR | SQL_LONGVARCHAR
           | SQL_WLONGVARCHAR | SQL_DECIMAL | SQL_NUMERIC) => IOTSITEWISE_SQL_MAX_LENGTH
    | Some (SQL_BIT | SQL_TINYINT | SQL_TYPE_NULL) => 1
    | Some SQL_SMALLINT => 2
    | Some SQL_INTEGER => 4
    | Some SQL_BIGINT => 8
    | Some (SQL_FLOAT | SQL_REAL) => 4
    | Some SQL_DOUBLE => 8
    | Some (SQL_TYPE_DATE | SQL_TYPE_TIME) => 6
    | Some SQL_TYPE_TIMESTAMP => 16
    | Some SQL_GUID => 16
    | Some (SQL_INTERVAL_DAY_TO_SECOND | SQL_INTERVAL_YEAR_TO_MONTH) => 34
    | _ => 0
    end).

Definition BinaryTypeTransferLength (type : option Z) : option Z :=
  SqlTypeTransferLength (BinaryToSqlType type).

Definition SqlTypePrecision : option Z -> option Z :=
  sql_switch (fun t =>
    match t with
    | Some (SQL_DECIMAL | SQL_NUMERIC) => 15
    | Some SQL_TINYINT => 3
    | Some SQL_SMALLINT => 5
    | Some SQL_INTEGER => 10
    | Some SQL_BIGINT => 19
    | Some (SQL_FLOAT | SQL_REAL | SQL_DOUBLE) => 15
    | Some SQL_TYPE_TIME => 6
    | Some SQL_INTERVAL_DAY_TO_SECOND => 11
    | Some SQL_INTERVAL_YEAR_TO_MONTH => 9
    | _ => 0
    end).

Definition SqlTypeScale : option Z -> option Z :=
  sql_switch (fun t =>
    match t with
    | Some (SQL_DECIMAL | SQL_NUMERIC | SQL_FLOAT | SQL_REAL | SQL_DOUBLE) => 15
    | _ => 0
    end).

Definition SqlTypeNumPrecRadix : option Z -> option Z :=
  sql_switch (fun t =>
    match t with
    | Some (SQL_REAL | SQL_FLOAT | SQL_DOUBLE) => 2
    | Some (SQL_BIT | SQL_TINYINT | SQL_SMALLINT | SQL_INTEGER | SQL_BIGINT) => 10
    | _ => 0
    end).

Definition BinaryTypeNumPrecRadix (type : option Z) : option Z :=
  SqlTypeNumPrecRadix (BinaryToSqlType type).

Definition SqlTypeDecimalDigits : option Z -> option Z :=
  sql_switch (fun t =>
    match t with
    | Some (SQL_TINYINT | SQL_SMALLINT | SQL_INTEGER | SQL_BIGINT) => 0
    | Some SQL_DOUBLE => 15
    | _ => -1
    end).

Definition BinaryTypeDecimalDigits (type : option Z) : option Z :=
  SqlTypeDecimalDigits (BinaryToSqlType type).

Definition SqlTypeCharOctetLength `{Encoding.Abi} : option Z -> option Z :=
  sql_switch (fun t =>
    match t with
    | Some (SQL_CHAR | SQL_VARCHAR | SQL_LONGVARCHAR) => IOTSITEWISE_SQL_MAX_LENGTH
    | Some (SQL_WCHAR | SQL_WVARCHAR | SQL_WLONGVARCHAR) =>
        Encoding.sizeof_SQLWCHAR * IOTSITEWISE_SQL_MAX_LENGTH
    | _ => 0
    end).

Definition BinaryTypeCharOctetLength `{Encoding.Abi} (type : option Z) : option Z :=
  SqlTypeCharOctetLength (BinaryToSqlType type).

Definition SqlTypeUnsigned (type : option Z) : bool :=
  match type with
  | None => false
  | Some t =>
      match decode (A := SqlType) t with
      | Some (SQL_BIT | SQL_TINYINT | SQL_SMALLINT | SQL_INTEGER | SQL_BIGINT | SQL_REAL
             | SQL_FLOAT | SQL_DOUBLE) => false
      | _ => true
      end
  end.

Definition BinaryTypeUnsigned (type : option Z) : bool := SqlTypeUnsigned (BinaryToSqlType type).
End Traits.

(** ** Facts *)

Section Facts.
Context `{SqlCodes} `{AwsScalars}.

(** The scalar types of the service with a SQL type of their own. *)
Definition scalars : list Z := [BOOLEAN; INT; DOUBLE; TIMESTAMP; STRING].

(** Tests of one scalar type against the others. *)
Lemma scalars_cases :
  (INT =? BOOLEAN) = false /\ (DOUBLE =? BOOLEAN) = false /\ (DOUBLE =? INT) = false /\
  (TIMESTAMP =? BOOLEAN) = false /\ (TIMESTAMP =? INT) = false /\ (TIMESTAMP =? DOUBLE) = false /\
  (STRING =? BOOLEAN) = false /\ (STRING =? INT) = false /\ (STRING =? DOUBLE) = false /\
  (STRING =? TIMESTAMP) = false.
Proof.
  pose proof scalars_distinct as Hd. rewrite !NoDup_cons, !list_elem_of_In in Hd. cbn [In] in Hd.
  destruct_and!. rewrite !Z.eqb_neq. split_and!; intros E; symmetry in E; intuition.
Qed.

Lemma BinaryToSqlType_scalar :
  BinaryToSqlType (Some BOOLEAN) = Some (id_of SQL_BIT) /\
  BinaryToSqlType (Some INT) = Some (id_of SQL_INTEGER) /\
  BinaryToSqlType (Some DOUBLE) = Some (id_of SQL_DOUBLE) /\
  BinaryToSqlType (Some TIMESTAMP) = Some (id_of SQL_TYPE_TIMESTAMP) /\
  BinaryToSqlType (Some STRING) = Some (id_of SQL_VARCHAR).
Proof.
  destruct scalars_cases as (E1 & E2 & E3 & E4 & E5 & E6 & E7 & E8 & E9 & E10).
  unfold BinaryToSqlType. rewrite !Z.eqb_refl, E1, E2, E3, E4, E5, E6, E7, E8, E9, E10. done.
Qed.

(** A scalar type survives its SQL type, which is a supported one. *)
Lemma scalar_type_roundtrip t :
  t ∈ scalars ->
  SqlTypeToBinary (BinaryToSqlType (Some t)) = t /\ IsSqlTypeSupported (BinaryToSqlType (Some t)) = true.
Proof.
  destruct BinaryToSqlType_scalar as (E1 & E2 & E3 & E4 & E5). unfold scalars.
  rewrite !elem_of_cons, elem_of_nil.
  intros [->|[->|[->|[->|[->|[]]]]]]; rewrite ?E1, ?E2, ?E3, ?E4, ?E5;
    unfold SqlTypeToBinary, IsSqlTypeSupported; by rewrite decode_id_of.
Qed.

Lemma sql_switch_id {A} (f : option SqlType -> A) t : sql_switch f (Some (id_of t)) = Some (f (Some t)).
Proof. unfold sql_switch. by rewrite decode_id_of. Qed.

(** The text of an integer of 32 bits has at most 11 characters. *)
Lemma show_int32_length x : is_i32 x -> (length (show_int x) <= 11)%nat.
Proof.
  unfold is_i32, show_int. intros Hx.
  assert (Hd : forall y, 0 <= y <= 2147483648 -> (length (show_u64 y) <= 10)%nat).
  { intros y Hy. apply Calendar.show_u64_length; [|lia|unfold is_u64; lia].
    change (10 ^ Z.of_nat 10) with 10000000000. lia. }
  destruct (Z.ltb_spec x 0); cbn [length].
  - specialize (Hd (- x) ltac:(lia)). lia.
  - specialize (Hd x ltac:(lia)). lia.
Qed.

Lemma scalar_text_fits type v size :
  type = BOOLEAN \/ type = INT -> BinaryTypeDisplaySize (Some type) = Some size ->
  Z.of_nat (length (ColumnFacts.scalar_text type v)) <= size.
Proof.
  destruct BinaryToSqlType_scalar as (E1 & E2 & _), scalars_cases as (N1 & _ & _ & _ & _ & _ & N7 & N8 & _).
  unfold BinaryTypeDisplaySize, ColumnFacts.scalar_text.
  intros [->| ->]; rewrite ?E1, ?E2; unfold SqlTypeDisplaySize; rewrite sql_switch_id; intros [= <-];
    rewrite (Z.eqb_sym _ STRING), ?N7, ?N8, ?N1, Z.eqb_refl.
  - by destruct (text_eqb _ _).
  - pose proof (show_int32_length _ (ColumnFacts.StringToInt_range v)). lia.
Qed.
End Facts.

(** ** Concrete numbers, for runs *)

Definition sql_type_number (t : SqlType) : Z :=
  match t with
  | SQL_CHAR => 1 | SQL_VARCHAR => 12 | SQL_LONGVARCHAR => -1 | SQL_WCHAR => -8
  | SQL_WVARCHAR => -9 | SQL_WLONGVARCHAR => -10 | SQL_DECIMAL => 3 | SQL_NUMERIC => 2
  | SQL_SMALLINT => 5 | SQL_INTEGER => 4 | SQL_REAL => 7 | SQL_FLOAT => 6 | SQL_DOUBLE => 8
  | SQL_BIT => -7 | SQL_TINYINT => -6 | SQL_BIGINT => -5 | SQL_TYPE_DATE => 91
  | SQL_TYPE_TIME => 92 | SQL_TYPE_TIMESTAMP => 93 | SQL_TYPE_NULL => 0 | SQL_GUID => -11
  | SQL_BINARY => -2 | SQL_VARBINARY => -3 | SQL_LONGVARBINARY => -4 | SQL_DATETIME => 9
  | SQL_INTERVAL => 10 | SQL_INTERVAL_YEAR => 101 | SQL_INTERVAL_MONTH => 102
  | SQL_INTERVAL_DAY => 103 | SQL_INTERVAL_HOUR => 104 | SQL_INTERVAL_MINUTE => 105
  | SQL_INTERVAL_SECOND => 106 | SQL_INTERVAL_YEAR_TO_MONTH => 107
  | SQL_INTERVAL_DAY_TO_HOUR => 108 | SQL_INTERVAL_DAY_TO_MINUTE => 109
  | SQL_INTERVAL_DAY_TO_SECOND => 110 | SQL_INTERVAL_HOUR_TO_MINUTE => 111
  | SQL_INTERVAL_HOUR_TO_SECOND => 112 | SQL_INTERVAL_MINUTE_TO_SECOND => 113
  end.

Definition c_type_number (t : CType) : Z :=
  match t with
  | SQL_C_CHAR => 1 | SQL_C_WCHAR => -8 | SQL_C_SSHORT => -15 | SQL_C_SHORT => 5
  | SQL_C_USHORT => -17 | SQL_C_SLONG => -16 | SQL_C_LONG => 4 | SQL_C_ULONG => -18
  | SQL_C_FLOAT => 7 | SQL_C_DOUBLE => 8 | SQL_C_BIT => -7 | SQL_C_STINYINT => -26
  | SQL_C_TINYINT => -6 | SQL_C_UTINYINT => -28 | SQL_C_SBIGINT => -25 | SQL_C_UBIGINT => -27
  | SQL_C_BINARY => -2 | SQL_C_DATE => 9 | SQL_C_TYPE_DATE => 91 | SQL_C_TIME => 10
  | SQL_C_TYPE_TIME => 92 | SQL_C_TIMESTAMP => 11 | SQL_C_TYPE_TIMESTAMP => 93
  | SQL_C_NUMERIC => 2 | SQL_C_DEFAULT => 99 | SQL_C_INTERVAL_YEAR => 101
  | SQL_C_INTERVAL_MONTH => 102 | SQL_C_INTERVAL_DAY => 103 | SQL_C_INTERVAL_HOUR => 104
  | SQL_C_INTERVAL_MINUTE => 105 | SQL_C_INTERVAL_SECOND => 106
  | SQL_C_INTERVAL_DAY_TO_HOUR => 108 | SQL_C_INTERVAL_DAY_TO_MINUTE => 109
  | SQL_C_INTERVAL_HOUR_TO_MINUTE => 111 | SQL_C_INTERVAL_HOUR_TO_SECOND => 112
  | SQL_C_INTERVAL_MINUTE_TO_SECOND => 113 | SQL_C_INTERVAL_YEAR_TO_MONTH => 107
  | SQL_C_INTERVAL_DAY_TO_SECOND => 110
  end.

Definition nullable_number (n : SqlNullable) : Z :=
  match n with SQL_NO_NULLS => 0 | SQL_NULLABLE => 1 | SQL_NULLABLE_UNKNOWN => 2 end.

Definition HeaderCodes : SqlCodes := {|
  sql_types := {| id_of := sql_type_number; id_of_inj := ltac:(apply ids_inj; solve_finite) |};
  c_types := {| id_of := c_type_number; id_of_inj := ltac:(apply ids_inj; solve_finite) |};
  sql_nullables := {| id_of := nullable_number; id_of_inj := ltac:(apply ids_inj; solve_finite) |}
|}.
End Types.

Import Text Memory Calendar Encoding AppBuf Column ColumnFacts Types.

(** The display size the driver reports for a timestamp is too small: a buffer
    of that size, with room for the terminator, never holds the text the driver
    puts into it. Every timestamp is cut after 20 of its 29 characters, inside
    the fraction of the second. *)
Theorem timestamp_display_size_short `{SqlCodes} `{AwsScalars} `{Abi} `{Floats}
    (t : tm) (ns size : Z) (b : ApplicationDataBuffer) (p q : Z) (m : Memory) :
  timestamp_ok t ns -> BinaryTypeDisplaySize (Some TIMESTAMP) = Some size ->
  type_ b = AI_CHAR -> buflen_ b = size + 1 -> GetData b = Some p -> GetResLen b = Some q ->
  apart q 8 p (Z.to_nat (size + 1)) ->
  exists m', ReadToBuffer true TIMESTAMP (Scalar (timestamp_text t ns)) b m =
      Ok (VARLEN_DATA_TRUNCATED, b, m') /\
    load p (Z.to_nat (size + 1)) m' = bytes_of (take (Z.to_nat size) (timestamp_text t ns)) ++ [0] /\
    size < Z.of_nat (length (timestamp_text t ns)).
Proof.
  intros Hok Hs Hb Hl Hp Hq Ha. destruct BinaryToSqlType_scalar as (_ & _ & _ & E & _).
  unfold BinaryTypeDisplaySize in Hs. rewrite E in Hs. unfold SqlTypeDisplaySize in Hs.
  rewrite sql_switch_id in Hs. injection Hs as <-.
  destruct (timestamp_kept t ns b p q m) as (m' & Er & Et & _); try done;
    [lia|by rewrite Hl|]. rewrite Hl in Er, Et.
  destruct (timestamp_text_ok t ns Hok) as [_ El]. exists m'. by rewrite El.
Qed.

Example timestamp_display_size_witness :
  exists m', @ReadToBuffer UnixAbi WholeReals SdkScalars true 4
      (Scalar (txt "2024-02-29 23:59:58.000000007"))
      (NewBuffer AI_CHAR (Some 100) 21 (Some 200)) (fun _ => 0) =
      Ok (VARLEN_DATA_TRUNCATED, NewBuffer AI_CHAR (Some 100) 21 (Some 200), m') /\
    load 100 21 m' = bytes_of (txt "2024-02-29 23:59:58.") ++ [0] /\
    20 < Z.of_nat (length (timestamp_text (MkTm 58 59 23 29 1 124) 7)).
Proof.
  apply (@timestamp_display_size_short HeaderCodes SdkScalars UnixAbi WholeReals
    (MkTm 58 59 23 29 1 124) 7 20 (NewBuffer AI_CHAR (Some 100) 21 (Some 200)) 100 200 (fun _ => 0));
    try reflexivity.
  - unfold timestamp_ok, valid_tm, is_i32. cbn. split_and!; (reflexivity || lia).
  - right. cbn. lia.
Defined.
