(* ===== verification/Fields.v ===== *)
(** * Fields: identifiers and values of descriptors

    The identifiers of descriptor fields and of column attributes, the sub-codes
    of dates and intervals, and the values of the ODBC headers that descriptors,
    columns and statements store. *)

From S2P Require Import Prelude Codes.

Module Fields.

(** Fields of descriptors and attributes of columns; [SQL_COLUMN_TYPE] is another
    name of [SQL_DESC_CONCISE_TYPE]. *)
Inductive FieldId : Type :=
  | SQL_DESC_ALLOC_TYPE | SQL_DESC_ARRAY_SIZE | SQL_DESC_ARRAY_STATUS_PTR
  | SQL_DESC_AUTO_UNIQUE_VALUE | SQL_DESC_BASE_COLUMN_NAME | SQL_DESC_BASE_TABLE_NAME
  | SQL_DESC_BIND_OFFSET_PTR | SQL_DESC_BIND_TYPE | SQL_DESC_CASE_SENSITIVE
  | SQL_DESC_CATALOG_NAME | SQL_DESC_CONCISE_TYPE | SQL_DESC_COUNT | SQL_DESC_DATA_PTR
  | SQL_DESC_DATETIME_INTERVAL_CODE | SQL_DESC_DATETIME_INTERVAL_PRECISION
  | SQL_DESC_DISPLAY_SIZE | SQL_DESC_FIXED_PREC_SCALE | SQL_DESC_INDICATOR_PTR | SQL_DESC_LABEL
  | SQL_DESC_LENGTH | SQL_DESC_LITERAL_PREFIX | SQL_DESC_LITERAL_SUFFIX
  | SQL_DESC_LOCAL_TYPE_NAME | SQL_DESC_NAME | SQL_DESC_NULLABLE | SQL_DESC_NUM_PREC_RADIX
  | SQL_DESC_OCTET_LENGTH | SQL_DESC_OCTET_LENGTH_PTR | SQL_DESC_PARAMETER_TYPE
  | SQL_DESC_PRECISION | SQL_DESC_ROWS_PROCESSED_PTR | SQL_DESC_ROWVER | SQL_DESC_SCALE
  | SQL_DESC_SCHEMA_NAME | SQL_DESC_SEARCHABLE | SQL_DESC_TABLE_NAME | SQL_DESC_TYPE
  | SQL_DESC_TYPE_NAME | SQL_DESC_UNNAMED | SQL_DESC_UNSIGNED | SQL_DESC_UPDATABLE
  | SQL_COLUMN_COUNT | SQL_COLUMN_NAME | SQL_COLUMN_LENGTH | SQL_COLUMN_PRECISION
  | SQL_COLUMN_SCALE | SQL_COLUMN_NULLABLE.

#[global] Instance FieldId_eq_dec : EqDecision FieldId.
Proof. solve_decision. Defined.
#[global, refine] Instance FieldId_finite : Finite FieldId := {| enum :=
  [ SQL_DESC_ALLOC_TYPE; SQL_DESC_ARRAY_SIZE; SQL_DESC_ARRAY_STATUS_PTR;
    SQL_DESC_AUTO_UNIQUE_VALUE; SQL_DESC_BASE_COLUMN_NAME; SQL_DESC_BASE_TABLE_NAME;
    SQL_DESC_BIND_OFFSET_PTR; SQL_DESC_BIND_TYPE; SQL_DESC_CASE_SENSITIVE;
    SQL_DESC_CATALOG_NAME; SQL_DESC_CONCISE_TYPE; SQL_DESC_COUNT; SQL_DESC_DATA_PTR;
    SQL_DESC_DATETIME_INTERVAL_CODE; SQL_DESC_DATETIME_INTERVAL_PRECISION;
    SQL_DESC_DISPLAY_SIZE; SQL_DESC_FIXED_PREC_SCALE; SQL_DESC_INDICATOR_PTR; SQL_DESC_LABEL;
    SQL_DESC_LENGTH; SQL_DESC_LITERAL_PREFIX; SQL_DESC_LITERAL_SUFFIX;
    SQL_DESC_LOCAL_TYPE_NAME; SQL_DESC_NAME; SQL_DESC_NULLABLE; SQL_DESC_NUM_PREC_RADIX;
    SQL_DESC_OCTET_LENGTH; SQL_DESC_OCTET_LENGTH_PTR; SQL_DESC_PARAMETER_TYPE;
    SQL_DESC_PRECISION; SQL_DESC_ROWS_PROCESSED_PTR; SQL_DESC_ROWVER; SQL_DESC_SCALE;
    SQL_DESC_SCHEMA_NAME; SQL_DESC_SEARCHABLE; SQL_DESC_TABLE_NAME; SQL_DESC_TYPE;
    SQL_DESC_TYPE_NAME; SQL_DESC_UNNAMED; SQL_DESC_UNSIGNED; SQL_DESC_UPDATABLE;
    SQL_COLUMN_COUNT; SQL_COLUMN_NAME; SQL_COLUMN_LENGTH; SQL_COLUMN_PRECISION;
    SQL_COLUMN_SCALE; SQL_COLUMN_NULLABLE ] |}.
Proof. all: solve_finite. Defined.

#[global] Instance FieldId_countable : Countable FieldId := finite_countable.

(** Sub-codes of the dates and intervals. *)
Inductive SubCode : Type :=
  | SQL_CODE_DATE | SQL_CODE_TIME | SQL_CODE_TIMESTAMP | SQL_CODE_HOUR | SQL_CODE_MINUTE
  | SQL_CODE_SECOND | SQL_CODE_YEAR_TO_MONTH | SQL_CODE_DAY_TO_HOUR | SQL_CODE_DAY_TO_MINUTE
  | SQL_CODE_DAY_TO_SECOND | SQL_CODE_HOUR_TO_MINUTE | SQL_CODE_HOUR_TO_SECOND
  | SQL_CODE_MINUTE_TO_SECOND.

#[global] Instance SubCode_eq_dec : EqDecision SubCode.
Proof. solve_decision. Defined.
#[global, refine] Instance SubCode_finite : Finite SubCode := {| enum :=
  [ SQL_CODE_DATE; SQL_CODE_TIME; SQL_CODE_TIMESTAMP; SQL_CODE_HOUR; SQL_CODE_MINUTE;
    SQL_CODE_SECOND; SQL_CODE_YEAR_TO_MONTH; SQL_CODE_DAY_TO_HOUR; SQL_CODE_DAY_TO_MINUTE;
    SQL_CODE_DAY_TO_SECOND; SQL_CODE_HOUR_TO_MINUTE; SQL_CODE_HOUR_TO_SECOND;
    SQL_CODE_MINUTE_TO_SECOND ] |}.
Proof. all: solve_finite. Defined.

Class FieldCodes : Type := {
  field_ids :: Codes FieldId;
  sub_codes :: Codes SubCode;
  SQL_TRUE : Z; SQL_FALSE : Z;
  truth_distinct : SQL_TRUE <> SQL_FALSE;
  SQL_DESC_ALLOC_AUTO : Z; SQL_DESC_ALLOC_USER : Z; SQL_BIND_BY_COLUMN : Z;
  SQL_NTS : Z; SQL_IS_POINTER : Z; SQL_IS_UINTEGER : Z; SQL_IS_INTEGER : Z;
  SQL_PRED_BASIC : Z; SQL_NAMED : Z; SQL_UNNAMED : Z; SQL_ATTR_READWRITE_UNKNOWN : Z;
  SQL_SEARCHABLE : Z
}.

(** ** Concrete numbers, for runs *)

Definition field_number (x : FieldId) : Z :=
  match x with
  | SQL_DESC_ALLOC_TYPE => 1099 | SQL_DESC_ARRAY_SIZE => 20 | SQL_DESC_ARRAY_STATUS_PTR => 21
  | SQL_DESC_AUTO_UNIQUE_VALUE => 11 | SQL_DESC_BASE_COLUMN_NAME => 22
  | SQL_DESC_BASE_TABLE_NAME => 23 | SQL_DESC_BIND_OFFSET_PTR => 24 | SQL_DESC_BIND_TYPE => 25
  | SQL_DESC_CASE_SENSITIVE => 12 | SQL_DESC_CATALOG_NAME => 17 | SQL_DESC_CONCISE_TYPE => 2
  | SQL_DESC_COUNT => 1001 | SQL_DESC_DATA_PTR => 1010
  | SQL_DESC_DATETIME_INTERVAL_CODE => 1007 | SQL_DESC_DATETIME_INTERVAL_PRECISION => 26
  | SQL_DESC_DISPLAY_SIZE => 6 | SQL_DESC_FIXED_PREC_SCALE => 9
  | SQL_DESC_INDICATOR_PTR => 1009 | SQL_DESC_LABEL => 18 | SQL_DESC_LENGTH => 1003
  | SQL_DESC_LITERAL_PREFIX => 27 | SQL_DESC_LITERAL_SUFFIX => 28
  | SQL_DESC_LOCAL_TYPE_NAME => 29 | SQL_DESC_NAME => 1011 | SQL_DESC_NULLABLE => 1008
  | SQL_DESC_NUM_PREC_RADIX => 32 | SQL_DESC_OCTET_LENGTH => 1013
  | SQL_DESC_OCTET_LENGTH_PTR => 1004 | SQL_DESC_PARAMETER_TYPE => 33
  | SQL_DESC_PRECISION => 1005 | SQL_DESC_ROWS_PROCESSED_PTR => 34 | SQL_DESC_ROWVER => 35
  | SQL_DESC_SCALE => 1006 | SQL_DESC_SCHEMA_NAME => 16 | SQL_DESC_SEARCHABLE => 13
  | SQL_DESC_TABLE_NAME => 15 | SQL_DESC_TYPE => 1002 | SQL_DESC_TYPE_NAME => 14
  | SQL_DESC_UNNAMED => 1012 | SQL_DESC_UNSIGNED => 8 | SQL_DESC_UPDATABLE => 10
  | SQL_COLUMN_COUNT => 0 | SQL_COLUMN_NAME => 1 | SQL_COLUMN_LENGTH => 3
  | SQL_COLUMN_PRECISION => 4 | SQL_COLUMN_SCALE => 5 | SQL_COLUMN_NULLABLE => 7
  end.

Definition subcode_number (x : SubCode) : Z :=
  match x with
  | SQL_CODE_DATE => 1 | SQL_CODE_TIME => 2 | SQL_CODE_TIMESTAMP => 3 | SQL_CODE_HOUR => 4
  | SQL_CODE_MINUTE => 5 | SQL_CODE_SECOND => 6 | SQL_CODE_YEAR_TO_MONTH => 7
  | SQL_CODE_DAY_TO_HOUR => 8 | SQL_CODE_DAY_TO_MINUTE => 9 | SQL_CODE_DAY_TO_SECOND => 10
  | SQL_CODE_HOUR_TO_MINUTE => 11 | SQL_CODE_HOUR_TO_SECOND => 12
  | SQL_CODE_MINUTE_TO_SECOND => 13
  end.

Definition HeaderFields : FieldCodes := {|
  field_ids := {| id_of := field_number; id_of_inj := ltac:(apply ids_inj; solve_finite) |};
  sub_codes := {| id_of := subcode_number; id_of_inj := ltac:(apply ids_inj; solve_finite) |};
  SQL_TRUE := 1; SQL_FALSE := 0; truth_distinct := ltac:(discriminate);
  SQL_DESC_ALLOC_AUTO := 1; SQL_DESC_ALLOC_USER := 2; SQL_BIND_BY_COLUMN := 0;
  SQL_NTS := -3; SQL_IS_POINTER := -4; SQL_IS_UINTEGER := -5; SQL_IS_INTEGER := -6;
  SQL_PRED_BASIC := 2; SQL_NAMED := 0; SQL_UNNAMED := 1; SQL_ATTR_READWRITE_UNKNOWN := 2;
  SQL_SEARCHABLE := 3
|}.
End Fields.
