(* ===== verification/Attributes.v ===== *)
(** * Attributes: identifiers and values of attributes

    The attributes of connections and statements, with the options of ODBC 2
    that set the same things, and the values of the ODBC headers that the two
    store, answer or compare with. *)

From S2P Require Import Prelude Codes.

Module Attrs.

(** [SQL_BIND_TYPE], [SQL_CONCURRENCY], [SQL_CURSOR_TYPE], [SQL_RETRIEVE_DATA],
    [SQL_AUTOCOMMIT] and [SQL_ASYNC_ENABLE] are other names of the attributes
    with the same number. *)
Inductive Attribute : Type :=
  | SQL_QUERY_TIMEOUT | SQL_MAX_ROWS | SQL_NOSCAN | SQL_MAX_LENGTH | SQL_ATTR_ASYNC_ENABLE
  | SQL_ATTR_ROW_BIND_TYPE | SQL_ATTR_CURSOR_TYPE | SQL_ATTR_CONCURRENCY | SQL_KEYSET_SIZE
  | SQL_ROWSET_SIZE | SQL_SIMULATE_CURSOR | SQL_ATTR_RETRIEVE_DATA | SQL_USE_BOOKMARKS
  | SQL_ATTR_ROW_NUMBER | SQL_ATTR_ENABLE_AUTO_IPD | SQL_ATTR_PARAM_BIND_OFFSET_PTR
  | SQL_ATTR_PARAM_BIND_TYPE | SQL_ATTR_ROW_BIND_OFFSET_PTR | SQL_ATTR_ROW_OPERATION_PTR
  | SQL_ATTR_ROW_STATUS_PTR | SQL_ATTR_ROWS_FETCHED_PTR | SQL_ATTR_ROW_ARRAY_SIZE
  | SQL_ACCESS_MODE | SQL_ATTR_AUTOCOMMIT | SQL_LOGIN_TIMEOUT | SQL_TRANSLATE_DLL
  | SQL_TRANSLATE_OPTION | SQL_TXN_ISOLATION | SQL_CURRENT_QUALIFIER | SQL_QUIET_MODE
  | SQL_PACKET_SIZE | SQL_ATTR_CONNECTION_TIMEOUT | SQL_ATTR_ANSI_APP
  | SQL_ATTR_CONNECTION_DEAD | SQL_ATTR_AUTO_IPD | SQL_ATTR_APP_ROW_DESC
  | SQL_ATTR_APP_PARAM_DESC | SQL_ATTR_IMP_ROW_DESC | SQL_ATTR_IMP_PARAM_DESC
  | SQL_ATTR_METADATA_ID | SQL_ATTR_CURSOR_SCROLLABLE | SQL_ATTR_CURSOR_SENSITIVITY
  | SQL_ATTR_SWLOG_DEBUG.

#[global] Instance Attribute_eq_dec : EqDecision Attribute.
Proof. solve_decision. Defined.
#[global, refine] Instance Attribute_finite : Finite Attribute := {| enum :=
  [ SQL_QUERY_TIMEOUT; SQL_MAX_ROWS; SQL_NOSCAN; SQL_MAX_LENGTH; SQL_ATTR_ASYNC_ENABLE;
    SQL_ATTR_ROW_BIND_TYPE; SQL_ATTR_CURSOR_TYPE; SQL_ATTR_CONCURRENCY; SQL_KEYSET_SIZE;
    SQL_ROWSET_SIZE; SQL_SIMULATE_CURSOR; SQL_ATTR_RETRIEVE_DATA; SQL_USE_BOOKMARKS;
    SQL_ATTR_ROW_NUMBER; SQL_ATTR_ENABLE_AUTO_IPD; SQL_ATTR_PARAM_BIND_OFFSET_PTR;
    SQL_ATTR_PARAM_BIND_TYPE; SQL_ATTR_ROW_BIND_OFFSET_PTR; SQL_ATTR_ROW_OPERATION_PTR;
    SQL_ATTR_ROW_STATUS_PTR; SQL_ATTR_ROWS_FETCHED_PTR; SQL_ATTR_ROW_ARRAY_SIZE;
    SQL_ACCESS_MODE; SQL_ATTR_AUTOCOMMIT; SQL_LOGIN_TIMEOUT; SQL_TRANSLATE_DLL;
    SQL_TRANSLATE_OPTION; SQL_TXN_ISOLATION; SQL_CURRENT_QUALIFIER; SQL_QUIET_MODE;
    SQL_PACKET_SIZE; SQL_ATTR_CONNECTION_TIMEOUT; SQL_ATTR_ANSI_APP;
    SQL_ATTR_CONNECTION_DEAD; SQL_ATTR_AUTO_IPD; SQL_ATTR_APP_ROW_DESC;
    SQL_ATTR_APP_PARAM_DESC; SQL_ATTR_IMP_ROW_DESC; SQL_ATTR_IMP_PARAM_DESC;
    SQL_ATTR_METADATA_ID; SQL_ATTR_CURSOR_SCROLLABLE; SQL_ATTR_CURSOR_SENSITIVITY;
    SQL_ATTR_SWLOG_DEBUG ] |}.
Proof. all: solve_finite. Defined.

Class AttributeCodes : Type := {
  attributes :: Codes Attribute;
  SQL_CONCUR_READ_ONLY : Z; SQL_CURSOR_FORWARD_ONLY : Z; SQL_RD_ON : Z; SQL_RD_OFF : Z;
  rd_distinct : SQL_RD_ON <> SQL_RD_OFF;
  SQL_PARAM_BIND_BY_COLUMN : Z; SQL_NONSCROLLABLE : Z; SQL_INSENSITIVE : Z;
  SQL_AUTOCOMMIT_ON : Z; SQL_AUTOCOMMIT_OFF : Z;
  commit_distinct : SQL_AUTOCOMMIT_ON <> SQL_AUTOCOMMIT_OFF;
  SQL_CD_TRUE : Z; SQL_CD_FALSE : Z; SQL_ASYNC_ENABLE_OFF : Z;
  SQL_FETCH_NEXT : Z; SQL_DROP : Z; SQL_CLOSE : Z; SQL_UNBIND : Z;
  options_distinct : NoDup [SQL_DROP; SQL_CLOSE; SQL_UNBIND];
  SQL_ROW_NOROW : Z; SQL_ROW_SUCCESS : Z; SQL_ROW_SUCCESS_WITH_INFO : Z; SQL_ROW_ERROR : Z;
  SQL_ALL_TYPES : Z
}.

(** ** Concrete numbers, for runs *)

Definition attribute_number (a : Attribute) : Z :=
  match a with
  | SQL_QUERY_TIMEOUT => 0 | SQL_MAX_ROWS => 1 | SQL_NOSCAN => 2 | SQL_MAX_LENGTH => 3
  | SQL_ATTR_ASYNC_ENABLE => 4 | SQL_ATTR_ROW_BIND_TYPE => 5 | SQL_ATTR_CURSOR_TYPE => 6
  | SQL_ATTR_CONCURRENCY => 7 | SQL_KEYSET_SIZE => 8 | SQL_ROWSET_SIZE => 9
  | SQL_SIMULATE_CURSOR => 10 | SQL_ATTR_RETRIEVE_DATA => 11 | SQL_USE_BOOKMARKS => 12
  | SQL_ATTR_ROW_NUMBER => 14 | SQL_ATTR_ENABLE_AUTO_IPD => 15
  | SQL_ATTR_PARAM_BIND_OFFSET_PTR => 17 | SQL_ATTR_PARAM_BIND_TYPE => 18
  | SQL_ATTR_ROW_BIND_OFFSET_PTR => 23 | SQL_ATTR_ROW_OPERATION_PTR => 24
  | SQL_ATTR_ROW_STATUS_PTR => 25 | SQL_ATTR_ROWS_FETCHED_PTR => 26
  | SQL_ATTR_ROW_ARRAY_SIZE => 27 | SQL_ACCESS_MODE => 101 | SQL_ATTR_AUTOCOMMIT => 102
  | SQL_LOGIN_TIMEOUT => 103 | SQL_TRANSLATE_DLL => 106 | SQL_TRANSLATE_OPTION => 107
  | SQL_TXN_ISOLATION => 108 | SQL_CURRENT_QUALIFIER => 109 | SQL_QUIET_MODE => 111
  | SQL_PACKET_SIZE => 112 | SQL_ATTR_CONNECTION_TIMEOUT => 113 | SQL_ATTR_ANSI_APP => 115
  | SQL_ATTR_CONNECTION_DEAD => 1209 | SQL_ATTR_AUTO_IPD => 10001
  | SQL_ATTR_APP_ROW_DESC => 10010 | SQL_ATTR_APP_PARAM_DESC => 10011
  | SQL_ATTR_IMP_ROW_DESC => 10012 | SQL_ATTR_IMP_PARAM_DESC => 10013
  | SQL_ATTR_METADATA_ID => 10014 | SQL_ATTR_CURSOR_SCROLLABLE => -1
  | SQL_ATTR_CURSOR_SENSITIVITY => -2 | SQL_ATTR_SWLOG_DEBUG => 65536
  end.

Definition HeaderAttributes : AttributeCodes := {|
  attributes := {| id_of := attribute_number; id_of_inj := ltac:(apply ids_inj; solve_finite) |};
  SQL_CONCUR_READ_ONLY := 1; SQL_CURSOR_FORWARD_ONLY := 0; SQL_RD_ON := 1; SQL_RD_OFF := 0;
  rd_distinct := ltac:(discriminate);
  SQL_PARAM_BIND_BY_COLUMN := 0; SQL_NONSCROLLABLE := 0; SQL_INSENSITIVE := 1;
  SQL_AUTOCOMMIT_ON := 1; SQL_AUTOCOMMIT_OFF := 0; commit_distinct := ltac:(discriminate);
  SQL_CD_TRUE := 1; SQL_CD_FALSE := 0; SQL_ASYNC_ENABLE_OFF := 0;
  SQL_FETCH_NEXT := 1; SQL_DROP := 1; SQL_CLOSE := 0; SQL_UNBIND := 2;
  options_distinct := ltac:(apply (bool_decide_unpack _); by vm_compute);
  SQL_ROW_NOROW := 3; SQL_ROW_SUCCESS := 0; SQL_ROW_SUCCESS_WITH_INFO := 6; SQL_ROW_ERROR := 5;
  SQL_ALL_TYPES := 0
|}.
End Attrs.
