(* ===== verification/AppBufferGet.v ===== *)
(** * AppBufferGet: values read from the buffers of the application, and intervals

    Models the getters of [ApplicationDataBuffer]
    ([src/app/application_data_buffer.cpp]), [SqlCharToString] of
    [src/utility.cpp] and the two versions of [PutInterval]. A getter reads the
    memory; a read through a null pointer is the error [NullPointer], the use of
    a variable that was never assigned is [Indeterminate]. [fuel] bounds the
    search for the terminator of a text without a length. *)

From S2P Require Import Prelude Text Codes Memory BigInteger BigIntegerBytes Decimal Calendar Encoding WideText AppBuffer AppBufferFacts Fields.

Module Get.
Import Text Memory Calendar Encoding Wide AppBuf AppBufFacts Fields.
Local Open Scope result_scope.

(** The size of [long] depends on the platform; a [float] or [double] in memory
    and the conversions of the standard streams are those of the platform. *)
Class Reals (F : Floats) : Type := {
  sizeof_long : nat;
  sizeof_long_ok : sizeof_long = 4%nat \/ sizeof_long = 8%nat;
  bytes_real : nat -> list Z -> real;
  real_of_int : nat -> Z -> real;
  real_round : nat -> real -> real;
  stream_real : nat -> text -> option real;
  show_precise : real -> text
}.

(** [Decimal::AssignDouble]: through a text of sixteen digits. *)
Definition AssignDouble `{Reals} (d : real) : Dec.Decimal := fst (Dec.dec_parse (show_precise d)).


Abbreviation SQL_LEN_DATA_AT_EXEC_OFFSET := (-100) (only parsing).
Abbreviation SQL_DATA_AT_EXEC := (-2) (only parsing).

(** The C types a number is read as. *)
Inductive CInt : Type := Signed (size : nat) | Unsigned (size : nat).

Definition cint_size (t : CInt) : nat := match t with Signed n | Unsigned n => n end.
Definition lowest (t : CInt) : Z :=
  match t with Signed n => - 2 ^ (8 * Z.of_nat n - 1) | Unsigned _ => 0 end.
Definition highest (t : CInt) : Z :=
  match t with Signed n => 2 ^ (8 * Z.of_nat n - 1) - 1 | Unsigned n => 2 ^ (8 * Z.of_nat n) - 1 end.
(** [static_cast] to the type. *)
Definition cast (t : CInt) (v : Z) : Z :=
  (v - lowest t) mod 2 ^ (8 * Z.of_nat (cint_size t)) + lowest t.

(** [*reinterpret_cast<const T*>(p)]. *)
Definition load_int (t : CInt) (a : Z) (m : Memory) : Z := cast t (le_val (load a (cint_size t) m)).

Definition deref {A} (p : pointer) (f : Z -> A) : result A :=
  match p with Some a => Ok (f a) | None => Err NullPointer end.

Section Get.
Context `{Abi} {F : Floats} {R : Reals F} `{FieldCodes}.

(** ** Texts in memory *)

(** The characters up to the terminator. *)
Fixpoint char_nts (fuel : nat) (a : Z) (m : Memory) : result text :=
  match fuel with
  | O => Err OutOfFuel
  | S f => if m a =? 0 then Ok [] else do s <- char_nts f (a + 1) m; Ok (char_of (m a) :: s)
  end.

Definition SqlCharToString (fuel : nat) (sqlStr : pointer) (sqlStrLen : Z) (m : Memory) : result text :=
  match sqlStr with
  | None => Ok []
  | Some a =>
      if sqlStrLen =? 0 then Ok []
      else if sqlStrLen =? SQL_NTS then char_nts fuel a m
      else if 0 <? sqlStrLen then Ok (map char_of (load a (Z.to_nat sqlStrLen) m))
      else Ok []
  end.

(** ** The length of the data *)

Definition reslen_value (b : ApplicationDataBuffer) (m : Memory) : option Z :=
  option_map (fun a => i64 (le_val (load a 8 m))) (GetResLen b).

Definition IsDataAtExec (b : ApplicationDataBuffer) (m : Memory) : bool :=
  match reslen_value b m with
  | None => false
  | Some len => (i32 len <=? SQL_LEN_DATA_AT_EXEC_OFFSET) || (i32 len =? SQL_DATA_AT_EXEC)
  end.

(** Overflow of the [int32_t] wraps. *)
Definition GetDataAtExecSize (b : ApplicationDataBuffer) (m : Memory) : Z :=
  match type_ b with
  | AI_WCHAR | AI_CHAR | AI_BINARY =>
      match reslen_value b m with
      | None => 0
      | Some len =>
          let ilen := if i32 len <=? SQL_LEN_DATA_AT_EXEC_OFFSET
                      then i32 (- i32 len + SQL_LEN_DATA_AT_EXEC_OFFSET) else 0 in
          match type_ b with AI_WCHAR => i32 (ilen * 2) | _ => ilen end
      end
  | AI_SIGNED_SHORT | AI_UNSIGNED_SHORT => 2
  | AI_SIGNED_LONG | AI_UNSIGNED_LONG => Z.of_nat sizeof_long
  | AI_FLOAT => 4
  | AI_DOUBLE => 8
  | AI_BIT | AI_SIGNED_TINYINT | AI_UNSIGNED_TINYINT => 1
  | AI_SIGNED_BIGINT | AI_UNSIGNED_BIGINT => 8
  | AI_TDATE => 6
  | AI_TTIME => 6
  | AI_TTIMESTAMP => 16
  | AI_NUMERIC => 19
  | _ => 0
  end.

Definition GetInputSize (b : ApplicationDataBuffer) (m : Memory) : Z :=
  if IsDataAtExec b m then GetDataAtExecSize b m else default SQL_NTS (reslen_value b m).

(** ** Numbers *)

(** [SQL_NUMERIC_STRUCT]: precision, scale, sign, 16 bytes of the value. *)
Definition numeric_decimal (a : Z) (m : Memory) : Dec.Decimal :=
  Dec.dec_of_bytes (load (a + 3) 16 m) (load_int (Signed 1) (a + 1) m)
    (if m (a + 2) =? 0 then -1 else 1) false.

(** The text of a character buffer with data. *)
Definition buffer_text (fuel : nat) (b : ApplicationDataBuffer) (m : Memory) : result text :=
  let paramLen := i32 (GetInputSize b m) in
  match type_ b with
  | AI_CHAR => SqlCharToString fuel (GetData b) paramLen m
  | AI_WCHAR => SqlWcharToString SQL_NTS fuel (GetData b) paramLen true m
  | _ => Ok []
  end.

(** The characters are cut at [maxLen], a [size_t]. *)
Definition cut_text (fuel : nat) (maxLen : Z) (b : ApplicationDataBuffer) (m : Memory) : result text :=
  if GetInputSize b m =? 0 then Ok []
  else
    do res <- buffer_text fuel b m;
    Ok (if u64 maxLen <? Z.of_nat (length res) then take (Z.to_nat (u64 maxLen)) res else res).

(** [converter >> v] for an integer: [None] when nothing is assigned. A negative
    number for an unsigned type is negated in its width. *)
Definition stream_int (t : CInt) (s : text) : option Z :=
  match Ltrim s with
  | [] => None
  | c :: s' =>
      let '(neg, d) :=
        if code c =? 45 then (true, s') else if code c =? 43 then (false, s') else (false, c :: s') in
      let '(d, _) := span_digits (length d) d in
      Some match t with
           | Signed _ =>
               let v := if neg : bool then - digits_val d else digits_val d in
               Z.max (lowest t) (Z.min (highest t) v)
           | Unsigned _ =>
               if highest t <? digits_val d then highest t
               else if neg then cast t (- digits_val d) else digits_val d
           end
  end.

(** The source of a number that is not text. *)
Inductive stored : Type := StoredInt (v : Z) | StoredReal (d : real).

Definition load_number (b : ApplicationDataBuffer) (m : Memory) : result (option stored) :=
  let int t := deref (GetData b) (fun a => Some (StoredInt (load_int t a m))) in
  let float n := deref (GetData b) (fun a => Some (StoredReal (bytes_real n (load a n m)))) in
  match type_ b with
  | AI_SIGNED_TINYINT => int (Signed 1)
  | AI_BIT | AI_UNSIGNED_TINYINT => int (Unsigned 1)
  | AI_SIGNED_SHORT => int (Signed 2)
  | AI_UNSIGNED_SHORT => int (Unsigned 2)
  | AI_SIGNED_LONG => int (Signed sizeof_long)
  | AI_UNSIGNED_LONG => int (Unsigned sizeof_long)
  | AI_SIGNED_BIGINT => int (Signed 8)
  | AI_UNSIGNED_BIGINT => int (Unsigned 8)
  | AI_FLOAT => float 4%nat
  | AI_DOUBLE => float 8%nat
  | AI_NUMERIC =>
      do v <- deref (GetData b) (fun a => Dec.dec_ToInt64 (numeric_decimal a m));
      do v <- v; Ok (Some (StoredInt v))
  | _ => Ok None
  end.

Definition is_text (b : ApplicationDataBuffer) : bool :=
  match type_ b with AI_CHAR | AI_WCHAR => true | _ => false end.

(** [GetNum<T>] for an integer type [T]; a type of one byte is read from a text
    through a [short]. *)
Definition GetNum (fuel : nat) (t : CInt) (b : ApplicationDataBuffer) (m : Memory) : result Z :=
  if is_text b then
    if GetInputSize b m =? 0 then Ok 0
    else
      do str <- cut_text fuel (GetInputSize b m) b m;
      if (cint_size t =? 1)%nat then
        match stream_int (Signed 2) str with Some tmp => Ok (cast t tmp) | None => Err Indeterminate end
      else Ok (default 0 (stream_int t str))
  else
    do v <- load_number b m;
    match v with
    | Some (StoredInt v) => Ok (cast t v)
    | Some (StoredReal d) =>
        match real_to_int (lowest t) (highest t) d with Some v => Ok v | None => Err Indeterminate end
    | None => Ok 0
    end.

(** The same for [float] and [double], [size] bytes long. *)
Definition GetRealNum (size fuel : nat) (b : ApplicationDataBuffer) (m : Memory) : result real :=
  if is_text b then
    if GetInputSize b m =? 0 then Ok (real_of_int size 0)
    else
      do str <- cut_text fuel (GetInputSize b m) b m;
      Ok (default (real_of_int size 0) (stream_real size str))
  else
    do v <- load_number b m;
    match v with
    | Some (StoredInt v) => Ok (real_of_int size v)
    | Some (StoredReal d) => Ok (real_round size d)
    | None => Ok (real_of_int size 0)
    end.

Definition GetInt8 (fuel : nat) := GetNum fuel (Signed 1).
Definition GetInt16 (fuel : nat) := GetNum fuel (Signed 2).
Definition GetInt32 (fuel : nat) := GetNum fuel (Signed 4).
Definition GetInt64 (fuel : nat) := GetNum fuel (Signed 8).
Definition GetFloat := GetRealNum 4.
Definition GetDouble := GetRealNum 8.

(** ** Texts *)

Definition GetString (fuel : nat) (maxLen : Z) (b : ApplicationDataBuffer) (m : Memory) : result text :=
  match type_ b with
  | AI_CHAR | AI_WCHAR => cut_text fuel maxLen b m
  | AI_SIGNED_TINYINT | AI_SIGNED_SHORT | AI_SIGNED_LONG | AI_SIGNED_BIGINT =>
      do v <- GetNum fuel (Signed 8) b m; Ok (show_int v)
  | AI_BIT | AI_UNSIGNED_TINYINT | AI_UNSIGNED_SHORT | AI_UNSIGNED_LONG | AI_UNSIGNED_BIGINT =>
      do v <- GetNum fuel (Unsigned 8) b m; Ok (show_u64 v)
  | AI_FLOAT => do d <- GetRealNum 4 fuel b m; Ok (show_real d)
  | AI_NUMERIC | AI_DOUBLE => do d <- GetRealNum 8 fuel b m; Ok (show_real d)
  | _ => Ok []
  end.

(** ** Dates, times and timestamps *)

Definition field (signed : bool) (a : Z) (i : Z) (m : Memory) : Z :=
  load_int (if signed then Signed 2 else Unsigned 2) (a + 2 * i) m.

(** The members of the structures; a date of a time is the first of 1970. *)
Definition tm_of_date (a : Z) (m : Memory) : tm :=
  MkTm 0 0 0 (field false a 2 m) (field false a 1 m - 1) (field true a 0 m - 1900).
Definition tm_of_time (a : Z) (m : Memory) : tm :=
  MkTm (field false a 2 m) (field false a 1 m) (field false a 0 m) 1 0 70.
Definition tm_of_timestamp (a : Z) (m : Memory) : tm :=
  MkTm (field false a 5 m) (field false a 4 m) (field false a 3 m) (field false a 2 m)
    (field false a 1 m - 1) (field true a 0 m - 1900).

(** "%d-%d-%d %d:%d:%d" and "%d:%d:%d"; a number is as long as it is. *)
Definition date_time_format (w : nat) : list directive :=
  [Number w; Literal "-"; Number w; Literal "-"; Number w; Spaces;
   Number w; Literal ":"; Number w; Literal ":"; Number w].
Definition time_format (w : nat) : list directive :=
  [Number w; Literal ":"; Number w; Literal ":"; Number w].

(** The numbers an [int] can hold; members that were not read keep what they had. *)
Definition ints (l : list Z) : result (list Z) :=
  if forallb (fun v => (-2147483648 <=? v) && (v <=? 2147483647)) l then Ok l else Err Indeterminate.
Definition nth_or (l : list Z) (i : nat) (v : Z) : Z := nth i l v.

Definition scan_date (fuel : nat) (b : ApplicationDataBuffer) (m : Memory) : result tm :=
  if GetInputSize b m =? 0 then Ok tm_zero
  else
    do str <- buffer_text fuel b m;
    do l <- ints (sscanf (date_time_format (S (length str))) (c_str str));
    Ok (MkTm (nth_or l 5 0) (nth_or l 4 0) (nth_or l 3 0) (nth_or l 2 0) (nth_or l 1 0 - 1)
          (nth_or l 0 0 - 1900)).

Definition scan_time (fuel : nat) (b : ApplicationDataBuffer) (m : Memory) : result tm :=
  if GetInputSize b m =? 0 then Ok (MkTm 0 0 0 1 0 70)
  else
    do str <- buffer_text fuel b m;
    do l <- ints (sscanf (time_format (S (length str))) (c_str str));
    Ok (MkTm (nth_or l 2 0) (nth_or l 1 0) (nth_or l 0 0) 1 0 70).

Definition date_tm (fuel : nat) (b : ApplicationDataBuffer) (m : Memory) : result tm :=
  match type_ b with
  | AI_TDATE => deref (GetData b) (fun a => tm_of_date a m)
  | AI_TTIME => deref (GetData b) (fun a => tm_of_time a m)
  | AI_TTIMESTAMP => deref (GetData b) (fun a => tm_of_timestamp a m)
  | AI_CHAR | AI_WCHAR => scan_date fuel b m
  | _ => Ok tm_zero
  end.

Definition GetDate (fuel : nat) (b : ApplicationDataBuffer) (m : Memory) : result Date :=
  do t <- date_tm fuel b m; Ok (CTmToDate t).

Definition GetTimestamp (fuel : nat) (b : ApplicationDataBuffer) (m : Memory) : result Timestamp :=
  do t <- date_tm fuel b m;
  do nanos <- (match type_ b with
               | AI_TTIMESTAMP => deref (GetData b) (fun a => i32 (load_int (Unsigned 4) (a + 12) m))
               | _ => Ok 0
               end);
  Ok (CTmToTimestamp t nanos).

Definition GetTime (fuel : nat) (b : ApplicationDataBuffer) (m : Memory) : result Time :=
  let clock (t : tm) := MkTm (tm_sec t) (tm_min t) (tm_hour t) 1 0 70 in
  do t <- (match type_ b with
           | AI_TTIME => deref (GetData b) (fun a => tm_of_time a m)
           | AI_TTIMESTAMP => deref (GetData b) (fun a => clock (tm_of_timestamp a m))
           | AI_CHAR | AI_WCHAR => scan_time fuel b m
           | _ => Ok (MkTm 0 0 0 1 0 70)
           end);
  Ok (CTmToTime t 0).

(** ** Decimals *)

(** Without data the argument keeps its value. *)
Definition GetDecimal (fuel : nat) (val : Dec.Decimal) (b : ApplicationDataBuffer) (m : Memory)
    : result Dec.Decimal :=
  match type_ b with
  | AI_CHAR | AI_WCHAR =>
      if GetInputSize b m =? 0 then Ok val
      else do str <- cut_text fuel (GetInputSize b m) b m; Ok (fst (Dec.dec_parse str))
  | AI_SIGNED_TINYINT | AI_BIT | AI_SIGNED_SHORT | AI_SIGNED_LONG | AI_SIGNED_BIGINT =>
      do v <- GetNum fuel (Signed 8) b m; Ok (Dec.dec_AssignInt64 val v)
  | AI_UNSIGNED_TINYINT | AI_UNSIGNED_SHORT | AI_UNSIGNED_LONG | AI_UNSIGNED_BIGINT =>
      do v <- GetNum fuel (Unsigned 8) b m; Ok (Dec.dec_AssignUint64 val v)
  | AI_FLOAT | AI_DOUBLE => do d <- GetRealNum 8 fuel b m; Ok (AssignDouble d)
  | AI_NUMERIC => deref (GetData b) (fun a => numeric_decimal a m)
  | _ => Ok (Dec.dec_AssignInt64 val 0)
  end.
End Get.

(** ** What was put is read back *)

(** A platform with a [long] of four bytes, for runs. *)
Definition WholeStreams : Reals WholeReals :=
  @Build_Reals WholeReals 4%nat (or_introl eq_refl) (fun n l => le_val l) (fun n v => v) (fun n d => d)
    (fun n s => match Ltrim s with [] => None | s => Some (digits_val s) end) show_int.

Section Facts.
Context `{Abi} {F : Floats} {R : Reals F} `{FieldCodes}.

(** The C type of a buffer of integers. *)
Definition buffer_int (t : OdbcNativeType) : option CInt :=
  match t with
  | AI_SIGNED_TINYINT => Some (Signed 1)
  | AI_BIT | AI_UNSIGNED_TINYINT => Some (Unsigned 1)
  | AI_SIGNED_SHORT => Some (Signed 2)
  | AI_UNSIGNED_SHORT => Some (Unsigned 2)
  | AI_SIGNED_LONG => Some (Signed sizeof_long)
  | AI_UNSIGNED_LONG => Some (Unsigned sizeof_long)
  | AI_SIGNED_BIGINT => Some (Signed 8)
  | AI_UNSIGNED_BIGINT => Some (Unsigned 8)
  | _ => None
  end.

Lemma GetNum_integer fuel t t' b a m :
  buffer_int (type_ b) = Some t' -> GetData b = Some a ->
  GetNum fuel t b m = Ok (cast t (load_int t' a m)).
Proof.
  unfold buffer_int, GetNum, is_text, load_number, deref. intros Ht ->.
  by destruct (type_ b); try discriminate; injection Ht as <-.
Qed.

Lemma cast_mod t v : cast t (v mod 2 ^ (8 * Z.of_nat (cint_size t))) = cast t v.
Proof. unfold cast. f_equal. by rewrite Zminus_mod_idemp_l. Qed.

Lemma cast_in_range t v : (0 < cint_size t)%nat -> lowest t <= v <= highest t -> cast t v = v.
Proof.
  intros Hs Hv. unfold cast. rewrite Z.mod_small; [lia|].
  destruct t as [n|n]; cbn [cint_size lowest highest] in *; [|lia].
  set (k := 8 * Z.of_nat n - 1) in *. replace (8 * Z.of_nat n) with (Z.succ k) by lia.
  rewrite Z.pow_succ_r by lia. lia.
Qed.

Lemma load_int_le_bytes t a v m :
  load a (cint_size t) m = le_bytes (cint_size t) v -> load_int t a m = cast t v.
Proof. unfold load_int. intros ->. by rewrite le_val_le_bytes, cast_mod. Qed.

Lemma load_int_store t a v m :
  load_int t a (store a (le_bytes (cint_size t) v) m) = cast t v.
Proof. apply load_int_le_bytes, load_store_n. by rewrite length_le_bytes. Qed.

(** The memory of the length variable does not change what is read elsewhere. *)
Lemma load_set_reslen a n len b m :
  (forall q, GetResLen b = Some q -> apart a n q 8) ->
  load a n (set_reslen len b m) = load a n m.
Proof.
  intros Hq. unfold set_reslen. destruct (GetResLen b) as [q|]; [|done].
  apply load_store_apart. rewrite length_le_bytes. by apply Hq.
Qed.

(** Part of a stored list of bytes. *)
Lemma load_store_part a o n l m :
  (o + n <= length l)%nat -> load (a + Z.of_nat o) n (store a l m) = take n (drop o l).
Proof.
  intros Hl. pose proof (load_store a l m) as E.
  replace (length l) with (o + (n + (length l - o - n)))%nat in E at 1 by lia.
  rewrite !load_app in E. transitivity (take n (drop o (load a o (store a l m) ++
    load (a + Z.of_nat o) n (store a l m) ++
    load (a + Z.of_nat o + Z.of_nat n) (length l - o - n) (store a l m)))); [|by rewrite E].
  rewrite drop_app_length', take_app_length' by (by rewrite length_load). done.
Qed.

(** The members of a structure of shorts. *)
Lemma load_int_part t a o v l m :
  (o + cint_size t <= length l)%nat -> take (cint_size t) (drop o l) = le_bytes (cint_size t) v ->
  load_int t (a + Z.of_nat o) (store a l m) = cast t v.
Proof. intros Hl E. apply load_int_le_bytes. by rewrite load_store_part. Qed.

Lemma timestamp_struct_length t ns : length (timestamp_struct t ns) = 16%nat.
Proof. unfold timestamp_struct, date_struct, time_struct. by rewrite !length_app, !length_le_bytes. Qed.

(** A calendar time whose year a [SQLSMALLINT] holds. *)
Definition storable (t : tm) : Prop := valid_tm t /\ -32768 <= tm_year t + 1900 < 32768.

Lemma load_int_set_reslen t a len b m :
  (forall q, GetResLen b = Some q -> apart a (cint_size t) q 8) ->
  load_int t a (set_reslen len b m) = load_int t a m.
Proof. intros Hq. unfold load_int. by rewrite load_set_reslen. Qed.

Lemma timestamp_member t o v l a len b m :
  (o + cint_size t <= length l)%nat -> take (cint_size t) (drop o l) = le_bytes (cint_size t) v ->
  (forall q, GetResLen b = Some q -> apart a (length l) q 8) ->
  (0 < cint_size t)%nat -> lowest t <= v <= highest t ->
  load_int t (a + Z.of_nat o) (set_reslen len b (store a l m)) = v.
Proof.
  intros Hl E Hq Hs Hv. rewrite load_int_set_reslen.
  - by rewrite (load_int_part t a o v), cast_in_range.
  - intros q Eq. specialize (Hq q Eq). unfold apart in *. lia.
Qed.

Lemma tm_of_timestamp_struct t ns a len b m :
  storable t -> (forall q, GetResLen b = Some q -> apart a 16 q 8) ->
  tm_of_timestamp a (set_reslen len b (store a (timestamp_struct t ns) m)) = t.
Proof.
  intros [Hv Hy] Hq. pose proof Hv as (Hd & Hh & Hm & Hs & _). unfold valid_date in Hd. z_bool.
  pose proof (days_in_month_bound (tm_year t + 1900) (tm_mon t + 1)).
  rewrite <- (timestamp_struct_length t ns) in Hq.
  assert (Hf : forall (g : bool) i (o : nat) v, 2 * i = Z.of_nat o -> (o <= 10)%nat ->
    take 2 (drop o (timestamp_struct t ns)) = le_bytes 2 v ->
    (if g then -32768 <= v < 32768 else 0 <= v < 65536) ->
    field g a i (set_reslen len b (store a (timestamp_struct t ns) m)) = v).
  { intros g i o v Hi Ho E Hr. unfold field. rewrite Hi.
    apply timestamp_member; try done; rewrite ?timestamp_struct_length; destruct g; cbn in *; try done; lia. }
  unfold tm_of_timestamp.
  rewrite (Hf false 5 10%nat (tm_sec t)), (Hf false 4 8%nat (tm_min t)), (Hf false 3 6%nat (tm_hour t)),
    (Hf false 2 4%nat (tm_mday t)), (Hf false 1 2%nat (tm_mon t + 1)), (Hf true 0 0%nat (tm_year t + 1900))
    by (done || lia).
  destruct t; cbn [tm_sec tm_min tm_hour tm_mday tm_mon tm_year] in *. f_equal; lia.
Qed.
End Facts.

(** ** Properties *)

(** C34. An integer of any width the driver puts into an integer buffer of the
    application is read back by [GetNum] as the same number, cut to the type of
    the buffer and then to the type asked for; in particular unchanged when it
    fits both. The buffer is of a type whose size for [PutNum] is that of the C type
    [GetNum] reads it as: on Unix with 64 bits this leaves out the two types
    [AI_SIGNED_LONG] and [AI_UNSIGNED_LONG], which are written with four bytes and
    read with eight (see the findings); and the length variable does not overlap the
    buffer. *)
Theorem integer_roundtrip `{Abi} {F : Floats} {R : Reals F} `{FieldCodes} (fuel k : nat) (t t' : CInt)
    (v a : Z) (b : ApplicationDataBuffer) (m : Memory)
    (Ht : buffer_int (type_ b) = Some t') (Hsize : integer_size (type_ b) = Some (cint_size t'))
    (Ha : GetData b = Some a) (Hq : forall q, GetResLen b = Some q -> apart a (cint_size t') q 8) :
  exists m', PutNum (Int k v) b m = Ok (CONV_SUCCESS, b, m') /\
    GetNum fuel t b m' = Ok (cast t (cast t' v)) /\
    (lowest t' <= v <= highest t' -> lowest t <= v <= highest t -> (0 < cint_size t)%nat ->
     GetNum fuel t b m' = Ok v).
Proof.
  eexists. split; [exact (PutNum_integer_eq _ k v b a m Hsize Ha)|].
  assert (Hs : (0 < cint_size t')%nat).
  { revert Hsize. destruct (type_ b); cbn; intros E; (discriminate || (injection E; lia)). }
  rewrite (GetNum_integer _ _ _ _ _ _ Ht Ha), (load_int_set_reslen _ _ _ _ _ Hq), load_int_store.
  split; [done|]. intros Hv' Hv Hpos. by rewrite (cast_in_range t'), (cast_in_range t) by done.
Qed.

Lemma integer_roundtrip_witness :
  let H := UnixAbi in let H0 := WholeReals in let H1 := WholeStreams in let H2 := HeaderFields in
  let b := NewBuffer AI_SIGNED_SHORT (Some 1000) 2 (Some 2000) in
  exists m', PutNum (Int 4 (-300)) b (fun _ => 170) = Ok (CONV_SUCCESS, b, m') /\
    GetInt8 0 b m' = Ok (-44) /\
    (-32768 <= -300 <= 32767 -> -128 <= -300 <= 127 -> (0 < 1)%nat -> GetInt8 0 b m' = Ok (-300)).
Proof.
  intros H H0 H1 H2 b.
  apply (@integer_roundtrip UnixAbi WholeReals WholeStreams HeaderFields 0 4 (Signed 1) (Signed 2)
    (-300) 1000 b (fun _ => 170)); try done.
  intros q [= <-]. left. done.
Defined.

(** A timestamp the driver puts into a timestamp structure is read back by
    [GetTimestamp] with its fraction, and by [GetDate] and [GetTime] as its date
    and its time of the day, for every calendar date whose year a [SQLSMALLINT]
    holds. *)
Theorem timestamp_struct_roundtrip `{Abi} {F : Floats} {R : Reals F} `{FieldCodes} (fuel : nat) (t : tm)
    (ns a : Z) (b : ApplicationDataBuffer) (m : Memory)
    (Ht : storable t) (Hns : is_i32 ns) (Hb : type_ b = AI_TTIMESTAMP) (Ha : GetData b = Some a)
    (Hq : forall q, GetResLen b = Some q -> apart a 16 q 8) :
  exists m', PutTimestamp (CTmToTimestamp t ns) b m = Ok (CONV_SUCCESS, b, m') /\
    GetTimestamp fuel b m' = Ok (CTmToTimestamp t ns) /\
    GetDate fuel b m' = Ok (CTmToDate t) /\
    GetTime fuel b m' = Ok (CTmToTime (MkTm (tm_sec t) (tm_min t) (tm_hour t) 1 0 70) 0).
Proof.
  unfold PutTimestamp, TimestampToCTm, CTmToTimestamp, IgniteTimeGm, IgniteGmTime.
  cbn [ts_seconds ts_fractionNs]. rewrite Hb, gmtime_timegm by apply Ht. cbn [default].
  unfold put_struct. rewrite Ha. eexists. split; [reflexivity|].
  rewrite timestamp_struct_length.
  unfold GetTimestamp, GetDate, GetTime, date_tm. rewrite Hb, Ha. cbn [deref res_bind].
  rewrite !(tm_of_timestamp_struct _ _ _ _ _ _ Ht Hq). split_and!; try done.
  unfold CTmToTimestamp, IgniteTimeGm. do 2 f_equal.
  rewrite load_int_set_reslen by (intros q Eq; specialize (Hq q Eq); unfold apart in *; cbn; lia).
  change 12 with (Z.of_nat 12). rewrite (load_int_part (Unsigned 4) a 12 ns);
    [|by rewrite timestamp_struct_length|reflexivity].
  unfold cast. cbn [lowest cint_size]. rewrite Z.sub_0_r, Z.add_0_r.
  change (2 ^ (8 * Z.of_nat 4)) with 4294967296. unfold i32, is_i32 in *.
  rewrite Zplus_mod_idemp_l. rewrite Z.mod_small; lia.
Qed.

Lemma timestamp_struct_roundtrip_witness :
  let H := UnixAbi in let H0 := WholeReals in let H1 := WholeStreams in let H2 := HeaderFields in
  let t := MkTm 58 59 23 29 1 124 in
  let b := NewBuffer AI_TTIMESTAMP (Some 1000) 16 (Some 2000) in
  exists m', PutTimestamp (CTmToTimestamp t 123456789) b (fun _ => 170) = Ok (CONV_SUCCESS, b, m') /\
    GetTimestamp 0 b m' = Ok (MkTimestamp 1709251198 123456789) /\
    GetDate 0 b m' = Ok 1709251198000 /\ GetTime 0 b m' = Ok (MkTime 86398 0).
Proof.
  intros H H0 H1 H2 t b.
  apply (@timestamp_struct_roundtrip UnixAbi WholeReals WholeStreams HeaderFields 0 t 123456789 1000 b);
    try done; try (by vm_compute).
  intros q [= <-]. by left.
Defined.
End Get.
