(* ===== verification/Intervals.v ===== *)
(** * Intervals: year-month and day-second intervals

    Models [src/interval_year_month.cpp], [src/interval_day_second.cpp] and, of
    [src/app/application_data_buffer.cpp], the two versions of [PutInterval] with
    [SetIntervalType] and [SetIntervalBufferValue]: an interval arrives as a text
    or, member by member, in an [SQL_INTERVAL_STRUCT] of 28 bytes. *)

From S2P Require Import Prelude Text Codes Memory Calendar Encoding AppBuffer AppBufferFacts AppBufferGet Fields.

Module Interval.
Import Text Memory Calendar Encoding AppBuf Fields Get.
Local Open Scope result_scope.

(** ** The classes *)

Record IntervalYearMonth : Type := MkYearMonth { year_ : Z; month_ : Z }.
Record IntervalDaySecond : Type := MkDaySecond {
  day_ : Z; hour_ : Z; minute_ : Z; second_ : Z; fractionNs_ : Z
}.

Definition ym_eq (a b : IntervalYearMonth) : bool := (year_ a =? year_ b) && (month_ a =? month_ b).
Definition ym_ne (a b : IntervalYearMonth) : bool := negb (ym_eq a b).
Definition ym_lt (a b : IntervalYearMonth) : bool :=
  (year_ a <? year_ b) || ((year_ a =? year_ b) && (month_ a <? month_ b)).
Definition ym_le (a b : IntervalYearMonth) : bool := ym_lt a b || ym_eq a b.
Definition ym_gt (a b : IntervalYearMonth) : bool := negb (ym_le a b).
Definition ym_ge (a b : IntervalYearMonth) : bool := negb (ym_lt a b).

Definition InSeconds (a : IntervalDaySecond) : Z :=
  ((day_ a * 24 + hour_ a) * 60 + minute_ a) * 60 + second_ a.
Definition ds_eq (a b : IntervalDaySecond) : bool :=
  (fractionNs_ a =? fractionNs_ b) && (InSeconds a =? InSeconds b).
Definition ds_ne (a b : IntervalDaySecond) : bool := negb (ds_eq a b).
Definition ds_lt (a b : IntervalDaySecond) : bool :=
  (InSeconds a <? InSeconds b)
  || ((InSeconds a =? InSeconds b) && (fractionNs_ a <? fractionNs_ b)).
Definition ds_le (a b : IntervalDaySecond) : bool := ds_lt a b || ds_eq a b.
Definition ds_gt (a b : IntervalDaySecond) : bool := negb (ds_le a b).
Definition ds_ge (a b : IntervalDaySecond) : bool := negb (ds_lt a b).

(** The total number of nanoseconds. *)
Definition InNanoseconds (a : IntervalDaySecond) : Z := InSeconds a * 1000000000 + fractionNs_ a.
Definition normal_fraction (a : IntervalDaySecond) : Prop := 0 <= fractionNs_ a < 1000000000.

Lemma ds_lt_nanoseconds a b :
  normal_fraction a -> normal_fraction b -> ds_lt a b = (InNanoseconds a <? InNanoseconds b).
Proof. unfold normal_fraction, ds_lt, InNanoseconds. intros. apply eq_true_iff_eq. z_bool. lia. Qed.

(** ** The structure *)

(** The constants of the member [interval_type]. *)
Inductive IntervalType : Type :=
  | SQL_IS_YEAR | SQL_IS_MONTH | SQL_IS_DAY | SQL_IS_HOUR | SQL_IS_MINUTE | SQL_IS_SECOND
  | SQL_IS_YEAR_TO_MONTH | SQL_IS_DAY_TO_HOUR | SQL_IS_DAY_TO_MINUTE | SQL_IS_DAY_TO_SECOND
  | SQL_IS_HOUR_TO_MINUTE | SQL_IS_HOUR_TO_SECOND | SQL_IS_MINUTE_TO_SECOND.

#[global] Instance IntervalType_eq_dec : EqDecision IntervalType.
Proof. solve_decision. Defined.
#[global, refine] Instance IntervalType_finite : Finite IntervalType := {| enum :=
  [ SQL_IS_YEAR; SQL_IS_MONTH; SQL_IS_DAY; SQL_IS_HOUR; SQL_IS_MINUTE; SQL_IS_SECOND;
    SQL_IS_YEAR_TO_MONTH; SQL_IS_DAY_TO_HOUR; SQL_IS_DAY_TO_MINUTE; SQL_IS_DAY_TO_SECOND;
    SQL_IS_HOUR_TO_MINUTE; SQL_IS_HOUR_TO_SECOND; SQL_IS_MINUTE_TO_SECOND ] |}.
Proof. all: solve_finite. Defined.

(** Byte offsets of the members; [year_month] and [day_second] are a union. *)
Abbreviation sizeof_SQL_INTERVAL_STRUCT := 28 (only parsing).
Abbreviation at_type := 0 (only parsing).
Abbreviation at_sign := 4 (only parsing).
Abbreviation at_year := 8 (only parsing).
Abbreviation at_month := 12 (only parsing).
Abbreviation at_day := 8 (only parsing).
Abbreviation at_hour := 12 (only parsing).
Abbreviation at_minute := 16 (only parsing).
Abbreviation at_second := 20 (only parsing).
Abbreviation at_fraction := 24 (only parsing).

Section Put.
Context `{Abi} `{Floats} `{FieldCodes} `{!Codes IntervalType}.

Definition interval_type (t : OdbcNativeType) : option IntervalType :=
  match t with
  | AI_INTERVAL_YEAR => Some SQL_IS_YEAR
  | AI_INTERVAL_MONTH => Some SQL_IS_MONTH
  | AI_INTERVAL_DAY => Some SQL_IS_DAY
  | AI_INTERVAL_HOUR => Some SQL_IS_HOUR
  | AI_INTERVAL_MINUTE => Some SQL_IS_MINUTE
  | AI_INTERVAL_SECOND => Some SQL_IS_SECOND
  | AI_INTERVAL_DAY_TO_HOUR => Some SQL_IS_DAY_TO_HOUR
  | AI_INTERVAL_DAY_TO_MINUTE => Some SQL_IS_DAY_TO_MINUTE
  | AI_INTERVAL_HOUR_TO_MINUTE => Some SQL_IS_HOUR_TO_MINUTE
  | AI_INTERVAL_HOUR_TO_SECOND => Some SQL_IS_HOUR_TO_SECOND
  | AI_INTERVAL_MINUTE_TO_SECOND => Some SQL_IS_MINUTE_TO_SECOND
  | AI_INTERVAL_YEAR_TO_MONTH => Some SQL_IS_YEAR_TO_MONTH
  | AI_INTERVAL_DAY_TO_SECOND => Some SQL_IS_DAY_TO_SECOND
  | _ => None
  end.

Definition SetIntervalType (type : OdbcNativeType) (buffer : Z) (m : Memory) : Memory :=
  match interval_type type with
  | Some t => store (buffer + at_type) (le_bytes 4 (id_of t)) m
  | None => m
  end.

(** The members of the value that are assigned, in order, with the numbers;
    [std::abs] of the least [int] is itself. *)
Definition abs32 (v : Z) : Z := i32 (Z.abs v).

Definition year_month_members (type : OdbcNativeType) (value : IntervalYearMonth) : list (Z * Z) :=
  match type with
  | AI_INTERVAL_YEAR => [(at_year, abs32 (year_ value))]
  | AI_INTERVAL_MONTH => [(at_month, abs32 (month_ value))]
  | AI_INTERVAL_YEAR_TO_MONTH => [(at_year, abs32 (year_ value)); (at_month, abs32 (month_ value))]
  | AI_INTERVAL_DAY => [(at_day, 0)]
  | AI_INTERVAL_HOUR => [(at_hour, 0)]
  | AI_INTERVAL_MINUTE => [(at_minute, 0)]
  | AI_INTERVAL_SECOND => [(at_second, 0); (at_fraction, 0)]
  | AI_INTERVAL_DAY_TO_HOUR => [(at_day, 0); (at_hour, 0)]
  | AI_INTERVAL_DAY_TO_MINUTE => [(at_day, 0); (at_hour, 0); (at_minute, 0)]
  | AI_INTERVAL_HOUR_TO_MINUTE => [(at_hour, 0); (at_minute, 0)]
  | AI_INTERVAL_HOUR_TO_SECOND => [(at_hour, 0); (at_minute, 0); (at_second, 0); (at_fraction, 0)]
  | AI_INTERVAL_MINUTE_TO_SECOND => [(at_minute, 0); (at_second, 0); (at_fraction, 0)]
  | AI_INTERVAL_DAY_TO_SECOND =>
      [(at_day, 0); (at_hour, 0); (at_minute, 0); (at_second, 0); (at_fraction, 0)]
  | _ => []
  end.

Definition day_second_members (type : OdbcNativeType) (value : IntervalDaySecond) : list (Z * Z) :=
  let day := (at_day, abs32 (day_ value)) in
  let hour := (at_hour, abs32 (hour_ value)) in
  let minute := (at_minute, abs32 (minute_ value)) in
  let second := (at_second, abs32 (second_ value)) in
  let fraction := (at_fraction, abs32 (fractionNs_ value)) in
  match type with
  | AI_INTERVAL_YEAR => [(at_year, 0)]
  | AI_INTERVAL_MONTH => [(at_month, 0)]
  | AI_INTERVAL_YEAR_TO_MONTH => [(at_year, 0); (at_month, 0)]
  | AI_INTERVAL_DAY => [day]
  | AI_INTERVAL_HOUR => [hour]
  | AI_INTERVAL_MINUTE => [minute]
  | AI_INTERVAL_SECOND => [second; fraction]
  | AI_INTERVAL_DAY_TO_HOUR => [day; hour]
  | AI_INTERVAL_DAY_TO_MINUTE => [day; hour; minute]
  | AI_INTERVAL_HOUR_TO_MINUTE => [hour; minute]
  | AI_INTERVAL_HOUR_TO_SECOND => [hour; minute; second; fraction]
  | AI_INTERVAL_MINUTE_TO_SECOND => [minute; second; fraction]
  | AI_INTERVAL_DAY_TO_SECOND => [day; hour; minute; second; fraction]
  | _ => []
  end.

Definition ym_negative (value : IntervalYearMonth) : bool :=
  (year_ value <? 0) || ((year_ value =? 0) && (month_ value <? 0)).

Definition ds_negative (value : IntervalDaySecond) : bool :=
  (day_ value <? 0)
  || ((day_ value =? 0) && (hour_ value <? 0))
  || ((day_ value =? 0) && (hour_ value =? 0) && (minute_ value <? 0))
  || ((day_ value =? 0) && (hour_ value =? 0) && (minute_ value =? 0) && (second_ value <? 0))
  || ((day_ value =? 0) && (hour_ value =? 0) && (minute_ value =? 0) && (second_ value =? 0)
      && (fractionNs_ value <? 0)).

Definition set_sign (negative : bool) (buffer : Z) (m : Memory) : Memory :=
  store (buffer + at_sign) (le_bytes 2 (if negative then SQL_FALSE else SQL_TRUE)) m.

Definition set_members (members : list (Z * Z)) (buffer : Z) (m : Memory) : Memory :=
  fold_left (fun m '(o, v) => store (buffer + o) (le_bytes 4 v) m) members m.

Definition SetIntervalBufferValue_ym (type : OdbcNativeType) (buffer : Z) (value : IntervalYearMonth)
    (m : Memory) : Memory :=
  let m := SetIntervalType type buffer m in
  let m := set_sign (ym_negative value) buffer m in
  set_members (year_month_members type value) buffer m.

Definition SetIntervalBufferValue_ds (type : OdbcNativeType) (buffer : Z) (value : IntervalDaySecond)
    (m : Memory) : Memory :=
  let m := SetIntervalType type buffer m in
  let m := set_sign (ds_negative value) buffer m in
  set_members (day_second_members type value) buffer m.

(** ** The operations *)

(** [snprintf] into 32 bytes. *)
Definition year_month_text (value : IntervalYearMonth) : text :=
  take 31 (show_int (year_ value) ++ txt "-" ++ show_int (month_ value)).
Definition day_second_text (value : IntervalDaySecond) : text :=
  take 31 (show_int (day_ value) ++ txt " " ++ zero_padded 2 (hour_ value) ++ txt ":" ++
    zero_padded 2 (minute_ value) ++ txt ":" ++ zero_padded 2 (second_ value) ++ txt "." ++
    zero_padded 9 (fractionNs_ value)).

(** The structure is written without a test of the pointer. *)
Definition PutInterval (tmp : text) (set : Z -> Memory -> Memory) (b : ApplicationDataBuffer)
    (m : Memory) : outcome :=
  let resLen := Z.of_nat (length tmp) in
  match type_ b with
  | AI_CHAR => put_fixed_char tmp (resLen + 1) b m
  | AI_WCHAR => put_fixed_wchar tmp (resLen + 1) b m
  | t =>
      match interval_type t with
      | Some _ =>
          match GetData b with
          | None => Err NullPointer
          | Some buffer => Ok (CONV_SUCCESS, b, set_reslen sizeof_SQL_INTERVAL_STRUCT b (set buffer m))
          end
      | None => Ok (UNSUPPORTED_CONVERSION, b, m)
      end
  end.

Definition PutInterval_ym (value : IntervalYearMonth) (b : ApplicationDataBuffer) (m : Memory) : outcome :=
  PutInterval (year_month_text value)
    (fun buffer => SetIntervalBufferValue_ym (type_ b) buffer value) b m.
Definition PutInterval_ds (value : IntervalDaySecond) (b : ApplicationDataBuffer) (m : Memory) : outcome :=
  PutInterval (day_second_text value)
    (fun buffer => SetIntervalBufferValue_ds (type_ b) buffer value) b m.

(** ** What arrives *)

Lemma set_members_outside members buffer m x :
  Forall (fun ov => x < buffer + fst ov \/ buffer + fst ov + 4 <= x) members ->
  set_members members buffer m x = m x.
Proof.
  unfold set_members. revert m. induction members as [|[o v] members IH]; intros m Hx; [done|].
  apply Forall_cons in Hx as [Hx Hl]. cbn [fold_left]. rewrite (IH _ Hl).
  apply store_outside. rewrite length_le_bytes. cbn in Hx. lia.
Qed.

(** Distinct members do not overlap. *)
Definition well_placed (members : list (Z * Z)) : Prop :=
  NoDup (map fst members) /\ Forall (fun ov => fst ov mod 4 = 0 /\ 8 <= fst ov <= 24) members.

Lemma set_members_load members buffer m o v :
  well_placed members -> (o, v) ∈ members ->
  load (buffer + o) 4 (set_members members buffer m) = le_bytes 4 v.
Proof.
  intros [Hn Ha]. revert m. induction members as [|[o' v'] members IH]; intros m Hin;
    [by apply not_elem_of_nil in Hin|].
  apply NoDup_cons in Hn as [Hnot Hn]. apply Forall_cons in Ha as [[Ho _] Ha].
  apply elem_of_cons in Hin as [[= -> ->]|Hin]; [|by apply IH].
  unfold set_members. cbn [fold_left]. fold (set_members members buffer (store (buffer + o') (le_bytes 4 v') m)).
  transitivity (load (buffer + o') 4 (store (buffer + o') (le_bytes 4 v') m)); [|by apply load_store_n].
  apply load_ext. intros x Hx. apply set_members_outside, Forall_forall. intros [o v] Hin.
  apply (proj1 (Forall_forall _ _) Ha) in Hin as Ho'. destruct Ho' as [Ho' _]. cbn [fst snd] in *.
  assert (o <> o').
  { intros ->. apply Hnot. apply list_elem_of_In, in_map_iff. exists (o', v). split; [done|].
    by apply list_elem_of_In. }
  pose proof (Z.div_mod o 4 ltac:(done)). pose proof (Z.div_mod o' 4 ltac:(done)). lia.
Qed.

Ltac place_members :=
  match goal with |- well_placed (_ ?t _) => destruct t end;
  (split; [cbn; apply (bool_decide_unpack _); by vm_compute|]); cbn;
  repeat (apply Forall_cons; split; [cbn [fst]; split; [reflexivity|lia]|]); by apply Forall_nil.

Lemma day_second_placed type value : well_placed (day_second_members type value).
Proof.
  place_members.
Qed.
Lemma year_month_placed type value : well_placed (year_month_members type value).
Proof.
  place_members.
Qed.

(** The type, the sign and the members of a structure at [a]. *)
Definition interval_at (t : IntervalType) (negative : bool) (members : list (Z * Z)) (a : Z)
    (m : Memory) : Prop :=
  load (a + at_type) 4 m = le_bytes 4 (id_of t) /\
  load (a + at_sign) 2 m = le_bytes 2 (if negative then SQL_FALSE else SQL_TRUE) /\
  Forall (fun ov => load (a + fst ov) 4 m = le_bytes 4 (snd ov)) members.

Lemma interval_at_same t negative ms ms' a m :
  Forall2 (fun x y => fst x = fst y /\ le_bytes 4 (snd x) = le_bytes 4 (snd y)) ms ms' ->
  interval_at t negative ms a m -> interval_at t negative ms' a m.
Proof.
  intros Hm (E1 & E2 & E3). split_and!; [done..|].
  induction Hm as [|[o v] [o' v'] ms ms' [Eo Ev] Hm IH]; [by apply Forall_nil|].
  apply Forall_cons in E3 as [E E3]. apply Forall_cons. cbn [fst snd] in *. subst o'. split; [by rewrite E|by apply IH].
Qed.

Lemma set_interval type t negative members a m :
  interval_type type = Some t -> well_placed members ->
  let m' := set_members members a (set_sign negative a (SetIntervalType type a m)) in
  interval_at t negative members a m' /\ untouched [(a, sizeof_SQL_INTERVAL_STRUCT)] m m'.
Proof.
  intros Ht Hw. cbv zeta. unfold SetIntervalType, set_sign. rewrite Ht.
  assert (Ho : forall x, x < a + 8 -> Forall (fun ov => x < a + fst ov \/ a + fst ov + 4 <= x) members).
  { intros x Hx. destruct Hw as [_ Hw]. eapply Forall_impl; [exact Hw|]. cbn. intros. lia. }
  split; [split_and!|].
  - erewrite load_ext; [|intros x Hx; apply set_members_outside, Ho; lia].
    rewrite load_store_apart by (unfold apart; rewrite length_le_bytes; lia). by apply load_store_n.
  - erewrite load_ext; [|intros x Hx; apply set_members_outside, Ho; lia]. by apply load_store_n.
  - apply Forall_forall. intros [o v] Hin. by apply set_members_load.
  - intros x Hx. apply Forall_inv in Hx. cbn in Hx. rewrite set_members_outside.
    + rewrite !store_outside by (rewrite length_le_bytes; lia). done.
    + destruct Hw as [_ Hw]. eapply Forall_impl; [exact Hw|]. cbn. intros. lia.
Qed.

Lemma interval_at_set_reslen t negative members a len b m :
  well_placed members -> (forall q, GetResLen b = Some q -> apart a 28 q 8) ->
  interval_at t negative members a m -> interval_at t negative members a (set_reslen len b m).
Proof.
  intros [_ Hw] Hq (E1 & E2 & E3).
  assert (Hl : forall o n, 0 <= o -> o + Z.of_nat n <= 28 ->
    load (a + o) n (set_reslen len b m) = load (a + o) n m).
  { intros o n Ho Hn. apply load_set_reslen. intros q Eq. specialize (Hq q Eq). unfold apart in *. lia. }
  split_and!; [by rewrite Hl|by rewrite Hl|].
  rewrite Forall_forall in *. intros ov Hin. rewrite Hl by (destruct (Hw _ Hin); lia). by apply E3.
Qed.

Lemma PutInterval_struct tmp t set b a m :
  interval_type (type_ b) = Some t -> GetData b = Some a ->
  PutInterval tmp set b m = Ok (CONV_SUCCESS, b, set_reslen sizeof_SQL_INTERVAL_STRUCT b (set a m)).
Proof. unfold PutInterval. intros Ht ->. by destruct (type_ b). Qed.

(** *** The structure as ODBC has it *)

(** The units of a day-second interval lie in a row from offset 8, the fraction
    behind them. An interval type is a range of them, or one of years and months,
    where a day-second interval is zero. *)
Definition units (value : IntervalDaySecond) : list Z := [day_ value; hour_ value; minute_ value; second_ value].
Definition DAYS : nat := 0.
Definition HOURS : nat := 1.
Definition MINUTES : nat := 2.
Definition SECONDS : nat := 3.

Inductive range : Type := Units (first last : nat) | Months (offsets : list Z).

Definition kind_of (type : OdbcNativeType) : option (IntervalType * range) :=
  match type with
  | AI_INTERVAL_YEAR => Some (SQL_IS_YEAR, Months [8])
  | AI_INTERVAL_MONTH => Some (SQL_IS_MONTH, Months [12])
  | AI_INTERVAL_YEAR_TO_MONTH => Some (SQL_IS_YEAR_TO_MONTH, Months [8; 12])
  | AI_INTERVAL_DAY => Some (SQL_IS_DAY, Units DAYS DAYS)
  | AI_INTERVAL_HOUR => Some (SQL_IS_HOUR, Units HOURS HOURS)
  | AI_INTERVAL_MINUTE => Some (SQL_IS_MINUTE, Units MINUTES MINUTES)
  | AI_INTERVAL_SECOND => Some (SQL_IS_SECOND, Units SECONDS SECONDS)
  | AI_INTERVAL_DAY_TO_HOUR => Some (SQL_IS_DAY_TO_HOUR, Units DAYS HOURS)
  | AI_INTERVAL_DAY_TO_MINUTE => Some (SQL_IS_DAY_TO_MINUTE, Units DAYS MINUTES)
  | AI_INTERVAL_DAY_TO_SECOND => Some (SQL_IS_DAY_TO_SECOND, Units DAYS SECONDS)
  | AI_INTERVAL_HOUR_TO_MINUTE => Some (SQL_IS_HOUR_TO_MINUTE, Units HOURS MINUTES)
  | AI_INTERVAL_HOUR_TO_SECOND => Some (SQL_IS_HOUR_TO_SECOND, Units HOURS SECONDS)
  | AI_INTERVAL_MINUTE_TO_SECOND => Some (SQL_IS_MINUTE_TO_SECOND, Units MINUTES SECONDS)
  | _ => None
  end.

(** The offsets and the magnitudes of the members of a range. *)
Definition range_members (r : range) (value : IntervalDaySecond) : list (Z * Z) :=
  match r with
  | Months offsets => map (fun o => (o, 0)) offsets
  | Units first last =>
      map (fun i => (8 + 4 * Z.of_nat i, Z.abs (nth i (units value) 0))) (seq first (S last - first)) ++
      (if (last =? SECONDS)%nat then [(24, Z.abs (fractionNs_ value))] else [])
  end.

(** The sign of the first member that is not zero. *)
Definition leads_negative (value : IntervalDaySecond) : bool :=
  match List.find (fun v => negb (v =? 0)) (units value ++ [fractionNs_ value]) with
  | Some v => v <? 0
  | None => false
  end.

Lemma ds_negative_leads value : ds_negative value = leads_negative value.
Proof.
  unfold ds_negative, leads_negative, units. cbn [app List.find].
  repeat (match goal with |- context [negb (?x =? 0)] => destruct (Z.eqb_spec x 0) as [->|] end;
    cbn [negb andb orb]; rewrite ?orb_false_r; try done).
Qed.

Definition same_member (x y : Z * Z) : Prop := fst x = fst y /\ le_bytes 4 (snd x) = le_bytes 4 (snd y).

Lemma same_abs o v : same_member (o, abs32 v) (o, Z.abs v).
Proof. split; [done|]. unfold abs32. cbn [snd]. by autorewrite with odbc_rw. Qed.

Lemma same_regions ms ms' a x :
  Forall2 same_member ms ms' ->
  Forall (fun r => x < fst r \/ fst r + snd r <= x) (map (fun ov => (a + fst ov, 4)) ms') ->
  Forall (fun ov => x < a + fst ov \/ a + fst ov + 4 <= x) ms.
Proof.
  induction 1 as [|[o v] [o' v'] ms ms' [Eo _] Hm IH]; intros Hx; [by apply Forall_nil|].
  cbn [map fst snd] in *. subst o'. apply Forall_cons in Hx as [Hx Hl]. apply Forall_cons. split; [exact Hx|by apply IH].
Qed.

Lemma members_of_kind type t r value :
  kind_of type = Some (t, r) ->
  interval_type type = Some t /\ Forall2 same_member (day_second_members type value) (range_members r value).
Proof.
  destruct type; intros [= <- <-]; (split; [done|]); cbn;
    repeat (apply Forall2_cons; split; [first [by split|apply same_abs]|]); by apply Forall2_nil.
Qed.

(** All members have one sign. *)
Definition one_sign (l : list Z) : Prop := Forall (fun v => 0 <= v) l \/ Forall (fun v => v <= 0) l.

Lemma ds_negative_total value :
  one_sign (units value ++ [fractionNs_ value]) -> ds_negative value = (InNanoseconds value <? 0).
Proof.
  intros Hs. unfold ds_negative, InNanoseconds, InSeconds. apply eq_true_iff_eq. z_bool.
  destruct Hs as [Hs|Hs]; repeat (apply Forall_cons in Hs as [? Hs]); lia.
Qed.
End Put.

(** Numbers of the constants, for runs. *)
Definition interval_number (t : IntervalType) : Z :=
  match t with
  | SQL_IS_YEAR => 1 | SQL_IS_MONTH => 2 | SQL_IS_DAY => 3 | SQL_IS_HOUR => 4 | SQL_IS_MINUTE => 5
  | SQL_IS_SECOND => 6 | SQL_IS_YEAR_TO_MONTH => 7 | SQL_IS_DAY_TO_HOUR => 8
  | SQL_IS_DAY_TO_MINUTE => 9 | SQL_IS_DAY_TO_SECOND => 10 | SQL_IS_HOUR_TO_MINUTE => 11
  | SQL_IS_HOUR_TO_SECOND => 12 | SQL_IS_MINUTE_TO_SECOND => 13
  end.
Definition HeaderIntervals : Codes IntervalType :=
  {| id_of := interval_number; id_of_inj := ltac:(apply ids_inj; solve_finite) |}.

(** ** Properties *)

(** C35. A day-second interval put into an interval buffer with a length
    variable: the structure gets the type of the buffer, the magnitudes of the members the
    type has, the fraction too where it has seconds, and zeros where it has years or
    months. Only the type, the sign, these members and the length are written. The
    sign is [SQL_FALSE] exactly when the first member that is not zero is negative,
    where ODBC expects [SQL_TRUE]; where all members have one sign that is when
    the length of the interval is negative. *)
Theorem day_second_arrives `{Abi} `{Floats} `{FieldCodes} `{!Codes IntervalType}
    (value : IntervalDaySecond) (t : IntervalType) (r : range) (a q : Z) (b : ApplicationDataBuffer) (m : Memory)
    (Ht : kind_of (type_ b) = Some (t, r)) (Ha : GetData b = Some a) (Hq : GetResLen b = Some q)
    (Hapart : apart a 28 q 8) :
  exists m', PutInterval_ds value b m = Ok (CONV_SUCCESS, b, m') /\
    interval_at t (leads_negative value) (range_members r value) a m' /\
    (one_sign (units value ++ [fractionNs_ value]) -> leads_negative value = (InNanoseconds value <? 0)) /\
    le_val (load q 8 m') = sizeof_SQL_INTERVAL_STRUCT /\
    untouched ([(a, 4); (a + 4, 2); (q, 8)] ++ map (fun ov => (a + fst ov, 4)) (range_members r value)) m m'.
Proof.
  destruct (members_of_kind _ _ _ value Ht) as [Ht' Hm].
  destruct (set_interval (type_ b) t (ds_negative value) (day_second_members (type_ b) value) a m Ht'
    (day_second_placed _ _)) as [Hat _].
  eexists. split.
  { by apply (PutInterval_struct _ t). }
  rewrite <- ds_negative_leads. split_and!.
  - eapply interval_at_same; [exact Hm|]. apply interval_at_set_reslen; [apply day_second_placed| |done].
    intros q' Eq. rewrite Hq in Eq. by injection Eq as <-.
  - apply ds_negative_total.
  - unfold set_reslen. rewrite Hq. rewrite load_store_n by (by rewrite length_le_bytes). done.
  - unfold set_reslen. rewrite Hq. intros x Hx. cbn [app map] in Hx.
    apply Forall_cons in Hx as [Hx1 [Hx2 [Hx3 Hx]%Forall_cons]%Forall_cons].
    rewrite store_outside by (rewrite length_le_bytes; cbn in Hx3; lia).
    unfold SetIntervalBufferValue_ds, SetIntervalType, set_sign. rewrite Ht'. rewrite set_members_outside.
    + rewrite !store_outside by (rewrite length_le_bytes; cbn in Hx1, Hx2; lia). done.
    + by apply (same_regions _ (range_members r value)).
Qed.

Lemma day_second_witness :
  let H := UnixAbi in let H0 := WholeReals in let H1 := HeaderFields in let H2 := HeaderIntervals in
  let value := MkDaySecond 0 (-5) (-30) 0 0 in
  let b := NewBuffer AI_INTERVAL_HOUR_TO_MINUTE (Some 1000) 28 (Some 2000) in
  exists m', PutInterval_ds value b (fun _ => 170) = Ok (CONV_SUCCESS, b, m') /\
    interval_at SQL_IS_HOUR_TO_MINUTE true [(12, 5); (16, 30)] 1000 m' /\
    le_val (load 2000 8 m') = 28 /\
    untouched [(1000, 4); (1004, 2); (2000, 8); (1012, 4); (1016, 4)] (fun _ => 170) m'.
Proof.
  intros H H0 H1 H2 value b.
  destruct (@day_second_arrives UnixAbi WholeReals HeaderFields HeaderIntervals value
    SQL_IS_HOUR_TO_MINUTE (Units HOURS MINUTES) 1000 2000 b (fun _ => 170)) as (m' & E & Hat & _ & Hl & Hu);
    [reflexivity..|by left|].
  by exists m'.
Defined.
End Interval.
