(* ===== verification/ColumnMeta.v ===== *)
(** * ColumnMeta: the metadata of a column and its attributes

    Models [src/meta/column_meta.cpp] and its header: the data of a column as the
    queries fill it in, and the answers to [SQLColAttribute] in the two versions
    of [GetAttribute], one for texts and one for numbers. The classes of the AWS
    SDK that describe a column are [AwsTypes]. *)

From S2P Require Import Prelude Text Codes Column TypeTraits Fields.

Module Meta.
Import Text Column Types Fields.

(** ** What comes from the AWS SDK and from the environment of the process *)

Class AwsTypes : Type := {
  aws_scalars :: AwsScalars;
  Datum : Type;
  ColumnInfo : Type;
  GetName : ColumnInfo -> text;
  ScalarTypeOf : ColumnInfo -> option Z       (* None: [ScalarTypeHasBeenSet] is false *)
}.

(** The macro [DATABASE_AS_SCHEMA] reads an environment variable. *)
Class Deployment : Type := { DATABASE_AS_SCHEMA : bool }.

(** ** The data of a column *)

Inductive Nullability : Type := NO_NULL | NULLABLE | NULLABILITY_UNKNOWN.

Record ColumnMeta `{AwsTypes} : Type := MkMeta {
  columnInfo : option ColumnInfo;
  catalogName : option text;
  schemaName : option text;
  tableName : option text;
  columnName : option text;
  remarks : option text;
  columnDef : option text;
  isAutoIncrement : text;
  dataType : option Z;
  precision : option Z;
  decimalDigits : option Z;
  scale : option Z;
  nullability : option Nullability;
  ordinalPosition : option Z
}.

Section Columns.
Context `{AwsTypes}.

(** [ColumnMeta()]. *)
Definition NewColumnMeta : ColumnMeta :=
  MkMeta _ None None None None None None None (txt "NO") None (Some (-1)) None (Some (-1))
    (Some NULLABILITY_UNKNOWN) (Some (-1)).

(** The constructor of the metadata queries. *)
Definition DescribedColumn `{Deployment} (databaseName table column : text) (scalarType : Z)
    (nulls : Nullability) : ColumnMeta :=
  MkMeta _ None (if DATABASE_AS_SCHEMA then None else Some databaseName)
    (if DATABASE_AS_SCHEMA then Some databaseName else None) (Some table) (Some column) None None
    (txt "NO") (Some (i16 scalarType)) (Some (-1)) (Some (-1)) (Some (-1)) (Some nulls) (Some (-1)).

(** The constructor of a column of a table, to be read from the service. *)
Definition TableColumn `{Deployment} (databaseName : text) (table : option text) : ColumnMeta :=
  MkMeta _ None (if DATABASE_AS_SCHEMA then None else Some databaseName)
    (if DATABASE_AS_SCHEMA then Some databaseName else None) table (Some []) None None
    (txt "NO") (Some (i16 NOT_SET)) (Some (-1)) (Some (-1)) (Some (-1))
    (Some NULLABILITY_UNKNOWN) (Some (-1)).

Definition ReadMetadata (swMetadata : ColumnInfo) (m : ColumnMeta) : ColumnMeta :=
  MkMeta _ (Some swMetadata) (catalogName m) (schemaName m) (tableName m)
    (Some (GetName swMetadata)) (remarks m) (columnDef m) (isAutoIncrement m)
    (Some (i16 match ScalarTypeOf swMetadata with Some t => t | None => STRING end))
    (precision m) (decimalDigits m) (scale m) (nullability m) (ordinalPosition m).

Definition GetScalarDataType (dataType : text) : Z :=
  if text_eqb dataType (txt "STRING") then STRING
  else if text_eqb dataType (txt "DOUBLE") then DOUBLE
  else if text_eqb dataType (txt "BOOLEAN") then BOOLEAN
  else if text_eqb dataType (txt "TIMESTAMP") then TIMESTAMP
  else if text_eqb dataType (txt "INTEGER") then INT
  else NOT_SET.

Definition GetScalarType (m : ColumnMeta) : Z := default NOT_SET (dataType m).

(** ** Attributes *)

Context `{SqlCodes} `{FieldCodes}.

Definition ToSql (n : option Nullability) : Z :=
  match n with
  | Some NO_NULL => id_of SQL_NO_NULLS
  | Some NULLABLE => id_of Types.SQL_NULLABLE
  | Some NULLABILITY_UNKNOWN | None => id_of SQL_NULLABLE_UNKNOWN
  end.

(** A number of the header that may be unset, as none or as -1. *)
Definition unset (v : option Z) : bool :=
  match v with Some x => x =? -1 | None => true end.

(** [GetAttribute(fieldId, std::string& value)]. *)
Definition GetTextAttribute (fieldId : Z) (m : ColumnMeta) : bool * text :=
  match decode (A := FieldId) fieldId with
  | Some (SQL_DESC_LABEL | SQL_DESC_BASE_COLUMN_NAME | SQL_DESC_NAME) =>
      (true, default [] (columnName m))
  | Some (SQL_DESC_TABLE_NAME | SQL_DESC_BASE_TABLE_NAME) => (true, default [] (tableName m))
  | Some SQL_DESC_SCHEMA_NAME => (true, default [] (schemaName m))
  | Some SQL_DESC_CATALOG_NAME => (true, default [] (catalogName m))
  | Some (SQL_DESC_LITERAL_PREFIX | SQL_DESC_LITERAL_SUFFIX) =>
      (true, if GetScalarType m =? STRING then txt "'" else [])
  | Some (SQL_DESC_TYPE_NAME | SQL_DESC_LOCAL_TYPE_NAME) =>
      (true, default [] (BinaryTypeToSqlTypeName (dataType m)))
  | Some (SQL_DESC_PRECISION | SQL_COLUMN_LENGTH | SQL_COLUMN_PRECISION) =>
      match precision m with
      | Some p => if p =? -1 then (false, []) else (true, show_int p)
      | None => (false, [])
      end
  | Some (SQL_DESC_SCALE | SQL_COLUMN_SCALE) =>
      match scale m with
      | Some s => if s =? -1 then (false, []) else (true, show_int s)
      | None => (false, [])
      end
  | _ => (false, [])
  end.

(** [GetAttribute(fieldId, SqlLen& value)]. *)
Definition GetNumericAttribute (fieldId : Z) (m : ColumnMeta) : bool * Z :=
  match decode (A := FieldId) fieldId with
  | Some SQL_DESC_FIXED_PREC_SCALE =>
      (true, if unset (precision m) || (unset (scale m) || bool_decide (scale m = Some 0))
             then SQL_FALSE else SQL_TRUE)
  | Some SQL_DESC_AUTO_UNIQUE_VALUE =>
      (true, if text_eqb (isAutoIncrement m) (txt "YES") then SQL_TRUE else SQL_FALSE)
  | Some SQL_DESC_CASE_SENSITIVE =>
      (true, if GetScalarType m =? STRING then SQL_TRUE else SQL_FALSE)
  | Some (SQL_DESC_CONCISE_TYPE | SQL_DESC_TYPE) =>
      (true, default (-1) (BinaryToSqlType (dataType m)))
  | Some (SQL_DESC_LENGTH | SQL_COLUMN_LENGTH | SQL_DESC_DISPLAY_SIZE) =>
      (true, default (-1) (BinaryTypeDisplaySize (dataType m)))
  | Some SQL_DESC_OCTET_LENGTH => (true, default (-1) (BinaryTypeTransferLength (dataType m)))
  | Some SQL_DESC_NULLABLE => (true, ToSql (nullability m))
  | Some SQL_DESC_NUM_PREC_RADIX => (true, default (-1) (BinaryTypeNumPrecRadix (dataType m)))
  | Some (SQL_DESC_PRECISION | SQL_COLUMN_PRECISION) =>
      (true, match dataType m with
             | Some _ => if unset (precision m) then default (-1) (BinaryTypeColumnSize (dataType m))
                         else default (-1) (precision m)
             | None => default (-1) (precision m)
             end)
  | Some (SQL_DESC_SCALE | SQL_COLUMN_SCALE) =>
      (true, match dataType m with
             | Some _ => if unset (scale m) then default (-1) (BinaryTypeDecimalDigits (dataType m))
                         else default (-1) (scale m)
             | None => default (-1) (scale m)
             end)
  | Some SQL_DESC_SEARCHABLE => (true, SQL_PRED_BASIC)
  | Some SQL_DESC_UNNAMED =>
      (true, match columnName m with
             | Some (_ :: _) => SQL_NAMED
             | _ => SQL_UNNAMED
             end)
  | Some SQL_DESC_UNSIGNED => (true, if BinaryTypeUnsigned (dataType m) then SQL_TRUE else SQL_FALSE)
  | Some SQL_DESC_UPDATABLE => (true, SQL_ATTR_READWRITE_UNKNOWN)
  | _ => (false, -1)
  end.
End Columns.
End Meta.
