(* ===== verification/Diagnostics.v ===== *)
(** * Diagnostics: result codes, SQL states and the diagnostic record storage

    Models [include/iotsitewise/odbc/common_types.h], [src/common_types.cpp],
    [src/diagnostic/diagnostic_record.cpp],
    [src/diagnostic/diagnostic_record_storage.cpp] and the API-call macro of
    [include/iotsitewise/odbc/diagnostic/diagnosable_adapter.h]. The numeric
    constants of [sql.h] and [sqlext.h] are not part of the repository: they are
    the fields of the class [OdbcConstants], which also states that the return
    codes are distinct and that the field identifiers are. *)

From S2P Require Import Prelude Text.

Module Diag.
Import Text.

(** ** Enumerations *)

Inductive SqlResult : Type :=
  | AI_SUCCESS | AI_SUCCESS_WITH_INFO | AI_ERROR | AI_NO_DATA | AI_NEED_DATA.

Inductive SqlState : Type :=
  | UNKNOWN | S01000_GENERAL_WARNING | S01004_DATA_TRUNCATED
  | S01S00_INVALID_CONNECTION_STRING_ATTRIBUTE | S01S01_ERROR_IN_ROW
  | S01S02_OPTION_VALUE_CHANGED | S01S07_FRACTIONAL_TRUNCATION | S07006_RESTRICTION_VIOLATION
  | S22002_INDICATOR_NEEDED | S22026_DATA_LENGTH_MISMATCH
  | S23000_INTEGRITY_CONSTRAINT_VIOLATION | S24000_INVALID_CURSOR_STATE
  | S25000_INVALID_TRANSACTION_STATE | S34000_INVALID_CURSOR_NAME
  | S3C000_DUPLICATE_CURSOR_NAME | S3F000_INVALID_SCHEMA_NAME | S40001_SERIALIZATION_FAILURE
  | S42000_SYNTAX_ERROR_OR_ACCESS_VIOLATION | S42S01_TABLE_OR_VIEW_ALREADY_EXISTS
  | S42S02_TABLE_OR_VIEW_NOT_FOUND | S42S11_INDEX_ALREADY_EXISTS | S42S12_INDEX_NOT_FOUND
  | S42S21_COLUMN_ALREADY_EXISTS | S42S22_COLUMN_NOT_FOUND | S07009_INVALID_DESCRIPTOR_INDEX
  | S08001_CANNOT_CONNECT | S08002_ALREADY_CONNECTED | S08003_NOT_CONNECTED
  | S08004_CONNECTION_REJECTED | S08S01_LINK_FAILURE | SHY000_GENERAL_ERROR
  | SHY001_MEMORY_ALLOCATION | SHY003_INVALID_APPLICATION_BUFFER_TYPE
  | SHY004_INVALID_SQL_DATA_TYPE | SHY008_OPERATION_CANCELED
  | SHY009_INVALID_USE_OF_NULL_POINTER | SHY010_SEQUENCE_ERROR | SHY016_MODIFY_IRD
  | SHY024_INVALID_ATTRIBUTE_VALUE | SHY090_INVALID_STRING_OR_BUFFER_LENGTH
  | SHY091_INVALID_DESCR_FIELD_ID | SHY092_OPTION_TYPE_OUT_OF_RANGE
  | SHY097_COLUMN_TYPE_OUT_OF_RANGE | SHY105_INVALID_PARAMETER_TYPE
  | SHY106_FETCH_TYPE_OUT_OF_RANGE | SHYC00_OPTIONAL_FEATURE_NOT_IMPLEMENTED
  | SHYT00_TIMEOUT_EXPIRED | SHYT01_CONNECTION_TIMEOUT | SIM001_FUNCTION_NOT_SUPPORTED.

Inductive DiagnosticField : Type :=
  | FIELD_UNKNOWN
  | HEADER_CURSOR_ROW_COUNT | HEADER_DYNAMIC_FUNCTION | HEADER_DYNAMIC_FUNCTION_CODE
  | HEADER_NUMBER | HEADER_RETURNCODE | HEADER_ROW_COUNT
  | STATUS_CLASS_ORIGIN | STATUS_COLUMN_NUMBER | STATUS_CONNECTION_NAME
  | STATUS_MESSAGE_TEXT | STATUS_NATIVE | STATUS_ROW_NUMBER | STATUS_SERVER_NAME
  | STATUS_SQLSTATE | STATUS_SUBCLASS_ORIGIN.

Inductive EnvironmentAttribute : Type := ENV_UNKNOWN | ODBC_VERSION | OUTPUT_NTS.

#[global] Instance SqlResult_eq_dec : EqDecision SqlResult.
Proof. solve_decision. Defined.
#[global] Instance SqlState_eq_dec : EqDecision SqlState.
Proof. solve_decision. Defined.
#[global] Instance DiagnosticField_eq_dec : EqDecision DiagnosticField.
Proof. solve_decision. Defined.

(** [ResponseStatus::Type], by the values of the wire protocol. *)
Definition RS_PARSING_FAILURE : Z := 1001.
Definition RS_UNSUPPORTED_OPERATION : Z := 1002.
Definition RS_UNEXPECTED_OPERATION : Z := 2001.
Definition RS_UNEXPECTED_ELEMENT_TYPE : Z := 2002.
Definition RS_KEY_UPDATE : Z := 2003.
Definition RS_TABLE_NOT_FOUND : Z := 3001.
Definition RS_INDEX_ALREADY_EXISTS : Z := 3005.
Definition RS_INDEX_NOT_FOUND : Z := 3006.
Definition RS_TABLE_ALREADY_EXISTS : Z := 3007.
Definition RS_COLUMN_NOT_FOUND : Z := 3008.
Definition RS_COLUMN_ALREADY_EXISTS : Z := 3009.
Definition RS_DUPLICATE_KEY : Z := 4001.
Definition RS_NULL_KEY : Z := 4003.
Definition RS_NULL_VALUE : Z := 4004.
Definition RS_TRANSACTION_COMPLETED : Z := 5004.
Definition RS_TRANSACTION_SERIALIZATION_ERROR : Z := 5005.

Definition ResponseStatusToSqlState (status : Z) : SqlState :=
  if (status =? RS_PARSING_FAILURE) || (status =? RS_KEY_UPDATE)
     || (status =? RS_UNEXPECTED_OPERATION) then S42000_SYNTAX_ERROR_OR_ACCESS_VIOLATION
  else if status =? RS_UNSUPPORTED_OPERATION then SHYC00_OPTIONAL_FEATURE_NOT_IMPLEMENTED
  else if status =? RS_UNEXPECTED_ELEMENT_TYPE then SHY004_INVALID_SQL_DATA_TYPE
  else if (status =? RS_DUPLICATE_KEY) || (status =? RS_NULL_KEY)
          || (status =? RS_NULL_VALUE) then S23000_INTEGRITY_CONSTRAINT_VIOLATION
  else if status =? RS_TABLE_NOT_FOUND then S42S02_TABLE_OR_VIEW_NOT_FOUND
  else if status =? RS_INDEX_ALREADY_EXISTS then S42S11_INDEX_ALREADY_EXISTS
  else if status =? RS_INDEX_NOT_FOUND then S42S12_INDEX_NOT_FOUND
  else if status =? RS_TABLE_ALREADY_EXISTS then S42S01_TABLE_OR_VIEW_ALREADY_EXISTS
  else if status =? RS_COLUMN_NOT_FOUND then S42S22_COLUMN_NOT_FOUND
  else if status =? RS_COLUMN_ALREADY_EXISTS then S42S21_COLUMN_ALREADY_EXISTS
  else if status =? RS_TRANSACTION_COMPLETED then S25000_INVALID_TRANSACTION_STATE
  else if status =? RS_TRANSACTION_SERIALIZATION_ERROR then S40001_SERIALIZATION_FAILURE
  else SHY000_GENERAL_ERROR.

(** ** The constants of the ODBC headers *)

Class OdbcConstants : Type := {
  SQL_SUCCESS : Z; SQL_SUCCESS_WITH_INFO : Z; SQL_NO_DATA : Z; SQL_NEED_DATA : Z;
  SQL_ERROR : Z;
  return_codes_distinct :
    NoDup [SQL_SUCCESS; SQL_SUCCESS_WITH_INFO; SQL_NO_DATA; SQL_NEED_DATA; SQL_ERROR];
  SQL_DIAG_CURSOR_ROW_COUNT : Z; SQL_DIAG_DYNAMIC_FUNCTION : Z;
  SQL_DIAG_DYNAMIC_FUNCTION_CODE : Z; SQL_DIAG_NUMBER : Z; SQL_DIAG_RETURNCODE : Z;
  SQL_DIAG_ROW_COUNT : Z; SQL_DIAG_CLASS_ORIGIN : Z; SQL_DIAG_COLUMN_NUMBER : Z;
  SQL_DIAG_CONNECTION_NAME : Z; SQL_DIAG_MESSAGE_TEXT : Z; SQL_DIAG_NATIVE : Z;
  SQL_DIAG_ROW_NUMBER : Z; SQL_DIAG_SERVER_NAME : Z; SQL_DIAG_SQLSTATE : Z;
  SQL_DIAG_SUBCLASS_ORIGIN : Z;
  SQL_ATTR_ODBC_VERSION : Z; SQL_ATTR_OUTPUT_NTS : Z;
  SQL_OV_ODBC2 : Z; SQL_OV_ODBC3 : Z; SQL_TRUE : Z;
  env_attributes_distinct : SQL_ATTR_ODBC_VERSION <> SQL_ATTR_OUTPUT_NTS
}.

Section Codes.
Context `{OdbcConstants}.

Definition SqlResultToReturnCode (r : SqlResult) : Z :=
  match r with
  | AI_SUCCESS => SQL_SUCCESS
  | AI_SUCCESS_WITH_INFO => SQL_SUCCESS_WITH_INFO
  | AI_NO_DATA => SQL_NO_DATA
  | AI_NEED_DATA => SQL_NEED_DATA
  | AI_ERROR => SQL_ERROR
  end.

Definition ReturnCodeToSqlResult (retCode : Z) : SqlResult :=
  if retCode =? SQL_SUCCESS then AI_SUCCESS
  else if retCode =? SQL_SUCCESS_WITH_INFO then AI_SUCCESS_WITH_INFO
  else if retCode =? SQL_NO_DATA then AI_NO_DATA
  else if retCode =? SQL_NEED_DATA then AI_NEED_DATA
  else AI_ERROR.

Definition DiagnosticFieldToInternal (field : Z) : DiagnosticField :=
  if field =? SQL_DIAG_CURSOR_ROW_COUNT then HEADER_CURSOR_ROW_COUNT
  else if field =? SQL_DIAG_DYNAMIC_FUNCTION then HEADER_DYNAMIC_FUNCTION
  else if field =? SQL_DIAG_DYNAMIC_FUNCTION_CODE then HEADER_DYNAMIC_FUNCTION_CODE
  else if field =? SQL_DIAG_NUMBER then HEADER_NUMBER
  else if field =? SQL_DIAG_RETURNCODE then HEADER_RETURNCODE
  else if field =? SQL_DIAG_ROW_COUNT then HEADER_ROW_COUNT
  else if field =? SQL_DIAG_CLASS_ORIGIN then STATUS_CLASS_ORIGIN
  else if field =? SQL_DIAG_COLUMN_NUMBER then STATUS_COLUMN_NUMBER
  else if field =? SQL_DIAG_CONNECTION_NAME then STATUS_CONNECTION_NAME
  else if field =? SQL_DIAG_MESSAGE_TEXT then STATUS_MESSAGE_TEXT
  else if field =? SQL_DIAG_NATIVE then STATUS_NATIVE
  else if field =? SQL_DIAG_ROW_NUMBER then STATUS_ROW_NUMBER
  else if field =? SQL_DIAG_SERVER_NAME then STATUS_SERVER_NAME
  else if field =? SQL_DIAG_SQLSTATE then STATUS_SQLSTATE
  else if field =? SQL_DIAG_SUBCLASS_ORIGIN then STATUS_SUBCLASS_ORIGIN
  else FIELD_UNKNOWN.

Definition EnvironmentAttributeToInternal (attr : Z) : EnvironmentAttribute :=
  if attr =? SQL_ATTR_ODBC_VERSION then ODBC_VERSION
  else if attr =? SQL_ATTR_OUTPUT_NTS then OUTPUT_NTS
  else ENV_UNKNOWN.
End Codes.

(** ** One diagnostic record *)

Record DiagnosticRecord : Type := MkRec {
  sqlState : SqlState; message : text; connectionName : text; serverName : text;
  rowNum : Z; columnNum : Z; retrieved : bool
}.

Definition NewRecord (st : SqlState) (msg conn srv : text) (row col : Z) : DiagnosticRecord :=
  MkRec st msg conn srv row col false.

Definition MarkRetrieved (r : DiagnosticRecord) : DiagnosticRecord :=
  MkRec (sqlState r) (message r) (connectionName r) (serverName r) (rowNum r) (columnNum r) true.

Definition ORIGIN_ISO_9075 : text := txt "ISO 9075".
Definition ORIGIN_ODBC_3_0 : text := txt "ODBC 3.0".

(** The five characters of a state; a state without a case gives "". *)
Definition state_text (s : SqlState) : text :=
  match s with
  | S01000_GENERAL_WARNING => txt "01000"
  | S01004_DATA_TRUNCATED => txt "01004"
  | S01S00_INVALID_CONNECTION_STRING_ATTRIBUTE => txt "01S00"
  | S01S01_ERROR_IN_ROW => txt "01S01"
  | S01S02_OPTION_VALUE_CHANGED => txt "01S02"
  | S01S07_FRACTIONAL_TRUNCATION => txt "01S07"
  | S07006_RESTRICTION_VIOLATION => txt "07006"
  | S22002_INDICATOR_NEEDED => txt "22002"
  | S22026_DATA_LENGTH_MISMATCH => txt "22026"
  | S23000_INTEGRITY_CONSTRAINT_VIOLATION => txt "23000"
  | S24000_INVALID_CURSOR_STATE => txt "24000"
  | S25000_INVALID_TRANSACTION_STATE => txt "25000"
  | S34000_INVALID_CURSOR_NAME => txt "34000"
  | S3C000_DUPLICATE_CURSOR_NAME => txt "3C000"
  | S3F000_INVALID_SCHEMA_NAME => txt "3F000"
  | S40001_SERIALIZATION_FAILURE => txt "40001"
  | S42000_SYNTAX_ERROR_OR_ACCESS_VIOLATION => txt "42000"
  | S42S01_TABLE_OR_VIEW_ALREADY_EXISTS => txt "42S01"
  | S42S02_TABLE_OR_VIEW_NOT_FOUND => txt "42S02"
  | S42S11_INDEX_ALREADY_EXISTS => txt "42S11"
  | S42S12_INDEX_NOT_FOUND => txt "42S12"
  | S42S21_COLUMN_ALREADY_EXISTS => txt "42S21"
  | S42S22_COLUMN_NOT_FOUND => txt "42S22"
  | S07009_INVALID_DESCRIPTOR_INDEX => txt "07009"
  | S08001_CANNOT_CONNECT => txt "08001"
  | S08002_ALREADY_CONNECTED => txt "08002"
  | S08003_NOT_CONNECTED => txt "08003"
  | S08004_CONNECTION_REJECTED => txt "08004"
  | S08S01_LINK_FAILURE => txt "08S01"
  | SHY000_GENERAL_ERROR => txt "HY000"
  | SHY001_MEMORY_ALLOCATION => txt "HY001"
  | SHY003_INVALID_APPLICATION_BUFFER_TYPE => txt "HY003"
  | SHY009_INVALID_USE_OF_NULL_POINTER => txt "HY009"
  | SHY010_SEQUENCE_ERROR => txt "HY010"
  | SHY016_MODIFY_IRD => txt "HY016"
  | SHY024_INVALID_ATTRIBUTE_VALUE => txt "HY024"
  | SHY090_INVALID_STRING_OR_BUFFER_LENGTH => txt "HY090"
  | SHY091_INVALID_DESCR_FIELD_ID => txt "HY091"
  | SHY092_OPTION_TYPE_OUT_OF_RANGE => txt "HY092"
  | SHY097_COLUMN_TYPE_OUT_OF_RANGE => txt "HY097"
  | SHY105_INVALID_PARAMETER_TYPE => txt "HY105"
  | SHY106_FETCH_TYPE_OUT_OF_RANGE => txt "HY106"
  | SHYC00_OPTIONAL_FEATURE_NOT_IMPLEMENTED => txt "HYC00"
  | SHYT00_TIMEOUT_EXPIRED => txt "HYT00"
  | SHYT01_CONNECTION_TIMEOUT => txt "HYT01"
  | SIM001_FUNCTION_NOT_SUPPORTED => txt "IM001"
  | _ => []
  end.

Definition GetSqlState (r : DiagnosticRecord) : text := state_text (sqlState r).

(** [state[0]] of an empty string is its terminator, which is not 'I'. *)
Definition GetClassOrigin (r : DiagnosticRecord) : text :=
  let state := GetSqlState r in
  if (code (nth 0 state zero) =? 73) && (code (nth 1 state zero) =? 77)
  then ORIGIN_ODBC_3_0 else ORIGIN_ISO_9075.

Definition odbcSubclasses : list text := map txt
  ["01S00"; "01S01"; "01S02"; "01S06"; "01S07"; "07S01"; "08S01"; "21S01"; "21S02";
    "25S01"; "25S02"; "25S03"; "42S01"; "42S02"; "42S11"; "42S12"; "42S21"; "42S22";
    "HY024"; "HY095"; "HY097"; "HY098"; "HY099"; "HY100"; "HY101"; "HY105"; "HY107";
    "HY109"; "HY110"; "HY111"; "HYT00"; "HYT01"; "IM001"; "IM002"; "IM003"; "IM004";
    "IM005"; "IM006"; "IM007"; "IM008"; "IM010"; "IM011"; "IM012"].

Definition GetSubclassOrigin (r : DiagnosticRecord) : text :=
  if existsb (text_eqb (GetSqlState r)) odbcSubclasses
  then ORIGIN_ODBC_3_0 else ORIGIN_ISO_9075.

(** ** The storage of a handle *)

Record DiagnosticRecordStorage : Type := MkDiag {
  rowCount : Z; dynamicFunction : text; dynamicFunctionCode : Z;
  result : SqlResult; rowsAffected : Z;
  statusRecords : list DiagnosticRecord
}.

Definition NewStorage : DiagnosticRecordStorage := MkDiag 0 [] 0 AI_SUCCESS 0 [].

Definition SetHeaderRecord (d : DiagnosticRecordStorage) (r : SqlResult) :=
  MkDiag 0 [] 0 r 0 (statusRecords d).

Definition AddRecord (d : DiagnosticRecordStorage) (r : DiagnosticRecord) :=
  MkDiag (rowCount d) (dynamicFunction d) (dynamicFunctionCode d) (result d)
         (rowsAffected d) (statusRecords d ++ [r]).

Definition AddStatusRecord (d : DiagnosticRecordStorage) (st : SqlState) (msg : text) :=
  AddRecord d (NewRecord st msg [] [] 0 0).

Definition Reset (d : DiagnosticRecordStorage) : DiagnosticRecordStorage :=
  let d := SetHeaderRecord d AI_ERROR in
  MkDiag (rowCount d) (dynamicFunction d) (dynamicFunctionCode d) (result d)
         (rowsAffected d) [].

Definition GetStatusRecordsNumber (d : DiagnosticRecordStorage) : Z :=
  i32 (Z.of_nat (length (statusRecords d))).

(** [statusRecords[idx - 1]]: out of range is only logged, then read. *)
Definition GetStatusRecord (d : DiagnosticRecordStorage) (idx : Z) : option DiagnosticRecord :=
  if idx <? 1 then None else statusRecords d !! Z.to_nat (idx - 1).

Fixpoint last_non_retrieved (i : Z) (l : list DiagnosticRecord) : Z :=
  match l with
  | [] => 0
  | r :: l' => if negb (retrieved r) then i + 1 else last_non_retrieved (i + 1) l'
  end.
Definition GetLastNonRetrieved (d : DiagnosticRecordStorage) : Z :=
  last_non_retrieved 0 (statusRecords d).

Definition IsSuccessful (d : DiagnosticRecordStorage) : bool :=
  match result d with AI_SUCCESS | AI_SUCCESS_WITH_INFO => true | _ => false end.

(** What [GetField] writes to the application's buffer. *)
Inductive buffer_write : Type :=
  | PutInt64 (v : Z) | PutInt32 (v : Z) | PutString (s : text) | PutNothing.

Section Fields.
Context `{OdbcConstants}.

Definition GetReturnCode (d : DiagnosticRecordStorage) : Z := SqlResultToReturnCode (result d).

Definition GetField (d : DiagnosticRecordStorage) (recNum : Z) (field : DiagnosticField)
    : SqlResult * buffer_write :=
  match field with
  | HEADER_CURSOR_ROW_COUNT => (AI_SUCCESS, PutInt64 (rowCount d))
  | HEADER_DYNAMIC_FUNCTION => (AI_SUCCESS, PutString (dynamicFunction d))
  | HEADER_DYNAMIC_FUNCTION_CODE => (AI_SUCCESS, PutInt32 (dynamicFunctionCode d))
  | HEADER_NUMBER => (AI_SUCCESS, PutInt32 (GetStatusRecordsNumber d))
  | HEADER_RETURNCODE => (AI_SUCCESS, PutInt32 (GetReturnCode d))
  | HEADER_ROW_COUNT => (AI_SUCCESS, PutInt64 (rowsAffected d))
  | _ =>
      if (recNum <? 1) || (Z.of_nat (length (statusRecords d)) <? recNum)
      then (AI_NO_DATA, PutNothing)
      else
        match GetStatusRecord d recNum with
        | None => (AI_NO_DATA, PutNothing)
        | Some r =>
            match field with
            | STATUS_CLASS_ORIGIN => (AI_SUCCESS, PutString (GetClassOrigin r))
            | STATUS_COLUMN_NUMBER => (AI_SUCCESS, PutInt32 (columnNum r))
            | STATUS_CONNECTION_NAME => (AI_SUCCESS, PutString (connectionName r))
            | STATUS_MESSAGE_TEXT => (AI_SUCCESS, PutString (message r))
            | STATUS_NATIVE => (AI_SUCCESS, PutInt32 0)
            | STATUS_ROW_NUMBER => (AI_SUCCESS, PutInt64 (rowNum r))
            | STATUS_SERVER_NAME => (AI_SUCCESS, PutString (serverName r))
            | STATUS_SQLSTATE => (AI_SUCCESS, PutString (GetSqlState r))
            | STATUS_SUBCLASS_ORIGIN => (AI_SUCCESS, PutString (GetSubclassOrigin r))
            | _ => (AI_ERROR, PutNothing)
            end
        end
  end.
End Fields.

(** ** Records of a handle and the frame of an API call *)

(** [Connection::CreateStatusRecord]. *)
Definition CreateStatusRecord (st : SqlState) (msg : text) (row col : Z) : DiagnosticRecord :=
  NewRecord st msg [] [] row col.

(** [DiagnosableAdapter::AddStatusRecord]: a handle that has a connection lets
    the connection create the record. *)
Definition AdapterAddStatusRecord (connection : bool) (d : DiagnosticRecordStorage)
    (st : SqlState) (msg : text) (row col : Z) : DiagnosticRecordStorage :=
  if connection then AddRecord d (CreateStatusRecord st msg row col)
  else AddRecord d (NewRecord st msg [] [] row col).

(** What the macro needs of a handle: it holds a diagnostic storage that can be
    replaced ([DiagnosableAdapter::diagnosticRecords]). *)
Class Diagnosable (S : Type) : Type := {
  GetDiagnosticRecords : S -> DiagnosticRecordStorage;
  SetDiagnosticRecords : S -> DiagnosticRecordStorage -> S;
  diag_get_set s d : GetDiagnosticRecords (SetDiagnosticRecords s d) = d
}.

Section ApiCalls.
Context {S : Type} `{Diagnosable S}.

(** [IGNITE_ODBC_API_CALL(body)]: the storage is reset, the body runs and may
    add records, then the header takes its result. *)
Definition ApiCall (body : S -> S * SqlResult) (s : S) : S :=
  let s := SetDiagnosticRecords s (Reset (GetDiagnosticRecords s)) in
  let '(s, r) := body s in
  SetDiagnosticRecords s (SetHeaderRecord (GetDiagnosticRecords s) r).

(** A body of a call: it may only append records. *)
Definition appends_records (body : S -> S * SqlResult) : Prop :=
  forall s, exists l, statusRecords (GetDiagnosticRecords (fst (body s))) =
                      statusRecords (GetDiagnosticRecords s) ++ l.

(** The frame of every ODBC function on a handle: whatever an earlier call
    left is gone, the records are those this call added, and the header holds
    its result. *)
Lemma ApiCall_spec body s :
  let s0 := SetDiagnosticRecords s (Reset (GetDiagnosticRecords s)) in
  let d := GetDiagnosticRecords (ApiCall body s) in
  statusRecords (GetDiagnosticRecords s0) = [] /\
  statusRecords d = statusRecords (GetDiagnosticRecords (fst (body s0))) /\
  result d = snd (body s0) /\ rowCount d = 0 /\ rowsAffected d = 0.
Proof.
  cbn zeta. unfold ApiCall. rewrite !diag_get_set.
  destruct (body _) as [s1 r]. rewrite diag_get_set. done.
Qed.
End ApiCalls.

(** ** Facts *)

Section CodeFacts.
Context `{OdbcConstants}.

Lemma return_code_roundtrip r : ReturnCodeToSqlResult (SqlResultToReturnCode r) = r.
Proof.
  pose proof return_codes_distinct as Hd. rewrite !NoDup_cons, !list_elem_of_In in Hd.
  cbn [In] in Hd. destruct Hd as (H1 & H2 & H3 & H4 & _).
  unfold ReturnCodeToSqlResult, SqlResultToReturnCode.
  destruct r; rewrite ?Z.eqb_refl; try done;
    repeat match goal with
    | |- context [?a =? ?b] => destruct (Z.eqb_spec a b); [exfalso; intuition|]
    end; done.
Qed.
End CodeFacts.

(** The states whose text [GetSqlState] knows. *)
Definition has_text (s : SqlState) : bool :=
  match s with
  | UNKNOWN | SHY004_INVALID_SQL_DATA_TYPE | SHY008_OPERATION_CANCELED => false
  | _ => true
  end.

Lemma state_text_length s : length (state_text s) = if has_text s then 5%nat else 0%nat.
Proof. by destruct s. Qed.

Lemma state_text_inj s t : has_text s = true -> state_text s = state_text t -> s = t.
Proof. destruct s; try discriminate; destruct t; try discriminate; done. Qed.

Lemma last_non_retrieved_spec i l :
  0 <= i ->
  (last_non_retrieved i l = 0 /\ Forall (fun r => retrieved r = true) l) \/
  (exists pre r post, l = pre ++ r :: post /\ Forall (fun x => retrieved x = true) pre /\
     retrieved r = false /\ last_non_retrieved i l = i + Z.of_nat (length pre) + 1).
Proof.
  revert i. induction l as [|r l IH]; intros i Hi; [left; by split|].
  cbn [last_non_retrieved]. destruct (retrieved r) eqn:Hr; cbn [negb].
  - destruct (IH (i + 1) ltac:(lia)) as [[E HF]|(pre & x & post & -> & Hpre & Hx & E)].
    + left. split; [done|]. by constructor.
    + right. exists (r :: pre), x, post. split_and!; auto. rewrite E. cbn [length]. lia.
  - right. exists [], r, l. split_and!; auto. cbn. lia.
Qed.

Section FieldFacts.
Context `{OdbcConstants}.

Definition is_header (f : DiagnosticField) : bool :=
  match f with
  | HEADER_CURSOR_ROW_COUNT | HEADER_DYNAMIC_FUNCTION | HEADER_DYNAMIC_FUNCTION_CODE
  | HEADER_NUMBER | HEADER_RETURNCODE | HEADER_ROW_COUNT => true
  | _ => false
  end.

Lemma GetField_range d n f :
  is_header f = false -> (n < 1 \/ Z.of_nat (length (statusRecords d)) < n) ->
  GetField d n f = (AI_NO_DATA, PutNothing).
Proof.
  intros Hf Hn.
  assert (Ht : (n <? 1) || (Z.of_nat (length (statusRecords d)) <? n) = true).
  { apply orb_true_iff. rewrite !Z.ltb_lt. lia. }
  unfold GetField. rewrite Ht. by destruct f.
Qed.

Lemma GetStatusRecord_some d n :
  1 <= n <= Z.of_nat (length (statusRecords d)) ->
  exists r, GetStatusRecord d n = Some r /\ statusRecords d !! Z.to_nat (n - 1) = Some r.
Proof.
  intros Hn. unfold GetStatusRecord. destruct (Z.ltb_spec n 1); [lia|].
  destruct (lookup_lt_is_Some_2 (statusRecords d) (Z.to_nat (n - 1))) as [r Hr]; [lia|].
  eauto.
Qed.
End FieldFacts.
End Diag.

(** The values of [sql.h] and [sqlext.h], for concrete runs. *)
#[global, refine] Instance StandardOdbc : Diag.OdbcConstants := {|
  Diag.SQL_SUCCESS := 0; Diag.SQL_SUCCESS_WITH_INFO := 1; Diag.SQL_NO_DATA := 100;
  Diag.SQL_NEED_DATA := 99; Diag.SQL_ERROR := -1;
  Diag.SQL_DIAG_CURSOR_ROW_COUNT := -1249; Diag.SQL_DIAG_DYNAMIC_FUNCTION := 7;
  Diag.SQL_DIAG_DYNAMIC_FUNCTION_CODE := 12; Diag.SQL_DIAG_NUMBER := 2;
  Diag.SQL_DIAG_RETURNCODE := 1; Diag.SQL_DIAG_ROW_COUNT := 3;
  Diag.SQL_DIAG_CLASS_ORIGIN := 8; Diag.SQL_DIAG_COLUMN_NUMBER := -1247;
  Diag.SQL_DIAG_CONNECTION_NAME := 10; Diag.SQL_DIAG_MESSAGE_TEXT := 6;
  Diag.SQL_DIAG_NATIVE := 5; Diag.SQL_DIAG_ROW_NUMBER := -1248;
  Diag.SQL_DIAG_SERVER_NAME := 11; Diag.SQL_DIAG_SQLSTATE := 4;
  Diag.SQL_DIAG_SUBCLASS_ORIGIN := 9;
  Diag.SQL_ATTR_ODBC_VERSION := 200; Diag.SQL_ATTR_OUTPUT_NTS := 10001;
  Diag.SQL_OV_ODBC2 := 2; Diag.SQL_OV_ODBC3 := 3; Diag.SQL_TRUE := 1
|}.
Proof.
  - repeat (apply NoDup_cons; split; [rewrite list_elem_of_In; cbn; lia|]). apply NoDup_nil_2.
  - discriminate.
Defined.

(** The frame of every ODBC call on a handle, for any handle and any body:
    the records of earlier calls are dropped before the body runs, the records
    afterwards are those the body left, and the header holds its result. *)
Theorem ApiCall_frame (S : Type) (HS : Diag.Diagnosable S) (body : S -> S * Diag.SqlResult) (s : S) :
  let s0 := Diag.SetDiagnosticRecords s (Diag.Reset (Diag.GetDiagnosticRecords s)) in
  let d := Diag.GetDiagnosticRecords (Diag.ApiCall body s) in
  Diag.statusRecords (Diag.GetDiagnosticRecords s0) = [] /\
  Diag.statusRecords d = Diag.statusRecords (Diag.GetDiagnosticRecords (fst (body s0))) /\
  Diag.result d = snd (body s0) /\ Diag.rowCount d = 0 /\ Diag.rowsAffected d = 0.
Proof. apply Diag.ApiCall_spec. Qed.

(** A status field of a record that does not exist is [AI_NO_DATA] and
    writes nothing; the record number does not matter for header fields; and the
    SQLSTATE field of an existing record is its five-character text exactly when
    its state is one that [GetSqlState] lists. *)
Theorem GetField_correct (C : Diag.OdbcConstants) (d : Diag.DiagnosticRecordStorage) (n : Z) :
  (forall f, Diag.is_header f = false ->
     n < 1 \/ Z.of_nat (length (Diag.statusRecords d)) < n ->
     Diag.GetField d n f = (Diag.AI_NO_DATA, Diag.PutNothing)) /\
  (forall f m, Diag.is_header f = true -> Diag.GetField d n f = Diag.GetField d m f) /\
  (1 <= n <= Z.of_nat (length (Diag.statusRecords d)) ->
     exists r, Diag.statusRecords d !! Z.to_nat (n - 1) = Some r /\
       Diag.GetField d n Diag.STATUS_SQLSTATE =
         (Diag.AI_SUCCESS, Diag.PutString (Diag.state_text (Diag.sqlState r))) /\
       length (Diag.state_text (Diag.sqlState r)) =
         if Diag.has_text (Diag.sqlState r) then 5%nat else 0%nat).
Proof.
  split; [|split].
  - intros f Hf Hn. by apply Diag.GetField_range.
  - intros f m Hf. by destruct f.
  - intros Hn. destruct (Diag.GetStatusRecord_some d n Hn) as (r & E & Hr). exists r.
    split; [done|]. split; [|apply Diag.state_text_length].
    unfold Diag.GetField. rewrite E.
    destruct (Z.ltb_spec n 1), (Z.ltb_spec (Z.of_nat (length (Diag.statusRecords d))) n);
      try lia. done.
Qed.

(** The server's "unexpected element type" status maps to HY004, and a
    cancelled connection attempt reports HY008, but the diagnostic record of
    either has an empty SQLSTATE: [GetSqlState] has no case for them. *)
Theorem sqlstate_text_missing :
  Diag.ResponseStatusToSqlState Diag.RS_UNEXPECTED_ELEMENT_TYPE =
    Diag.SHY004_INVALID_SQL_DATA_TYPE /\
  (forall s, Diag.state_text s = [] <->
     s = Diag.UNKNOWN \/ s = Diag.SHY004_INVALID_SQL_DATA_TYPE \/
     s = Diag.SHY008_OPERATION_CANCELED).
Proof. split; [done|]. intros s. destruct s; split; intros H; try done; intuition; discriminate. Qed.
