(* ===== verification/ConnectionInfo.v ===== *)
(** * ConnectionInfo: what [SQLGetInfo] answers

    Models [src/config/connection_info.cpp]: the tables of texts, 32-bit and
    16-bit numbers the constructor fills in, [GetInfo] and [SetInfo]. The types
    of information are an inductive type and their numbers a class, with the
    numbers of the constants the tables hold; an entry is there only if the
    header defines its type, as the source tests with [#ifdef]. *)

From S2P Require Import Prelude Text Codes Memory Diagnostics Calendar Encoding AppBuffer AppBufferFacts ColumnMeta.

Module Info.
Import Text Memory Diag Encoding Meta.

(** ** The types and the constants *)

Inductive InfoType : Type :=
  | SQL_ACCESSIBLE_PROCEDURES | SQL_ACCESSIBLE_TABLES | SQL_ACTIVE_ENVIRONMENTS | SQL_DRIVER_NAME
  | SQL_DBMS_NAME | SQL_DRIVER_ODBC_VER | SQL_DBMS_VER | SQL_DRIVER_VER | SQL_COLUMN_ALIAS
  | SQL_IDENTIFIER_QUOTE_CHAR | SQL_CATALOG_NAME_SEPARATOR | SQL_SPECIAL_CHARACTERS
  | SQL_CATALOG_TERM | SQL_TABLE_TERM | SQL_SCHEMA_TERM | SQL_NEED_LONG_DATA_LEN
  | SQL_ASYNC_DBC_FUNCTIONS | SQL_ASYNC_NOTIFICATION | SQL_GETDATA_EXTENSIONS
  | SQL_ODBC_INTERFACE_CONFORMANCE | SQL_SQL_CONFORMANCE | SQL_CATALOG_USAGE | SQL_SCHEMA_USAGE
  | SQL_MAX_IDENTIFIER_LEN | SQL_AGGREGATE_FUNCTIONS | SQL_NUMERIC_FUNCTIONS | SQL_STRING_FUNCTIONS
  | SQL_TIMEDATE_FUNCTIONS | SQL_TIMEDATE_ADD_INTERVALS | SQL_TIMEDATE_DIFF_INTERVALS
  | SQL_DATETIME_LITERALS | SQL_SYSTEM_FUNCTIONS | SQL_CONVERT_FUNCTIONS | SQL_OJ_CAPABILITIES
  | SQL_POS_OPERATIONS | SQL_MAX_CONCURRENT_ACTIVITIES | SQL_TXN_CAPABLE
  | SQL_QUOTED_IDENTIFIER_CASE | SQL_SQL92_NUMERIC_VALUE_FUNCTIONS | SQL_SQL92_STRING_FUNCTIONS
  | SQL_SQL92_DATETIME_FUNCTIONS | SQL_SQL92_PREDICATES | SQL_SQL92_RELATIONAL_JOIN_OPERATORS
  | SQL_SQL92_VALUE_EXPRESSIONS | SQL_STATIC_CURSOR_ATTRIBUTES1 | SQL_STATIC_CURSOR_ATTRIBUTES2
  | SQL_CONVERT_BIGINT | SQL_CONVERT_BINARY | SQL_CONVERT_BIT | SQL_CONVERT_CHAR | SQL_CONVERT_DATE
  | SQL_CONVERT_DECIMAL | SQL_CONVERT_DOUBLE | SQL_CONVERT_FLOAT | SQL_CONVERT_INTEGER
  | SQL_CONVERT_LONGVARCHAR | SQL_CONVERT_NUMERIC | SQL_CONVERT_REAL | SQL_CONVERT_SMALLINT
  | SQL_CONVERT_TIME | SQL_CONVERT_TIMESTAMP | SQL_CONVERT_TINYINT | SQL_CONVERT_VARBINARY
  | SQL_CONVERT_VARCHAR | SQL_CONVERT_LONGVARBINARY | SQL_CONVERT_WCHAR
  | SQL_CONVERT_INTERVAL_DAY_TIME | SQL_CONVERT_INTERVAL_YEAR_MONTH | SQL_CONVERT_WLONGVARCHAR
  | SQL_CONVERT_WVARCHAR | SQL_CONVERT_GUID | SQL_SCROLL_OPTIONS | SQL_PARAM_ARRAY_ROW_COUNTS
  | SQL_PARAM_ARRAY_SELECTS | SQL_ALTER_DOMAIN | SQL_ASYNC_MODE | SQL_BATCH_ROW_COUNT
  | SQL_BATCH_SUPPORT | SQL_BOOKMARK_PERSISTENCE | SQL_CATALOG_LOCATION | SQL_CATALOG_NAME
  | SQL_COLLATION_SEQ | SQL_CONCAT_NULL_BEHAVIOR | SQL_CORRELATION_NAME | SQL_CREATE_ASSERTION
  | SQL_CREATE_CHARACTER_SET | SQL_CREATE_COLLATION | SQL_CREATE_DOMAIN | SQL_CREATE_SCHEMA
  | SQL_CREATE_TABLE | SQL_CREATE_TRANSLATION | SQL_CREATE_VIEW | SQL_CURSOR_COMMIT_BEHAVIOR
  | SQL_CURSOR_ROLLBACK_BEHAVIOR | SQL_CURSOR_SENSITIVITY | SQL_DATA_SOURCE_NAME
  | SQL_DATA_SOURCE_READ_ONLY | SQL_DATABASE_NAME | SQL_DDL_INDEX | SQL_DEFAULT_TXN_ISOLATION
  | SQL_DESCRIBE_PARAMETER | SQL_DROP_ASSERTION | SQL_DROP_CHARACTER_SET | SQL_DROP_COLLATION
  | SQL_DROP_DOMAIN | SQL_DROP_SCHEMA | SQL_DROP_TABLE | SQL_DROP_TRANSLATION | SQL_DROP_VIEW
  | SQL_DYNAMIC_CURSOR_ATTRIBUTES1 | SQL_DYNAMIC_CURSOR_ATTRIBUTES2 | SQL_EXPRESSIONS_IN_ORDERBY
  | SQL_FILE_USAGE | SQL_FORWARD_ONLY_CURSOR_ATTRIBUTES1 | SQL_FORWARD_ONLY_CURSOR_ATTRIBUTES2
  | SQL_GROUP_BY | SQL_IDENTIFIER_CASE | SQL_INDEX_KEYWORDS | SQL_INFO_SCHEMA_VIEWS
  | SQL_INSERT_STATEMENT | SQL_INTEGRITY | SQL_KEYSET_CURSOR_ATTRIBUTES1
  | SQL_KEYSET_CURSOR_ATTRIBUTES2 | SQL_KEYWORDS | SQL_LIKE_ESCAPE_CLAUSE
  | SQL_MAX_ASYNC_CONCURRENT_STATEMENTS | SQL_MAX_BINARY_LITERAL_LEN | SQL_MAX_CATALOG_NAME_LEN
  | SQL_MAX_CHAR_LITERAL_LEN | SQL_MAX_COLUMN_NAME_LEN | SQL_MAX_COLUMNS_IN_GROUP_BY
  | SQL_MAX_COLUMNS_IN_INDEX | SQL_MAX_COLUMNS_IN_ORDER_BY | SQL_MAX_COLUMNS_IN_SELECT
  | SQL_MAX_COLUMNS_IN_TABLE | SQL_MAX_CURSOR_NAME_LEN | SQL_MAX_DRIVER_CONNECTIONS
  | SQL_MAX_INDEX_SIZE | SQL_MAX_PROCEDURE_NAME_LEN | SQL_MAX_ROW_SIZE
  | SQL_MAX_ROW_SIZE_INCLUDES_LONG | SQL_MAX_SCHEMA_NAME_LEN | SQL_MAX_STATEMENT_LEN
  | SQL_MAX_TABLE_NAME_LEN | SQL_MAX_TABLES_IN_SELECT | SQL_MAX_USER_NAME_LEN
  | SQL_MULT_RESULT_SETS | SQL_MULTIPLE_ACTIVE_TXN | SQL_NON_NULLABLE_COLUMNS | SQL_NULL_COLLATION
  | SQL_ORDER_BY_COLUMNS_IN_SELECT | SQL_PROCEDURE_TERM | SQL_PROCEDURES | SQL_ROW_UPDATES
  | SQL_SEARCH_PATTERN_ESCAPE | SQL_SERVER_NAME | SQL_SQL92_FOREIGN_KEY_DELETE_RULE
  | SQL_SQL92_FOREIGN_KEY_UPDATE_RULE | SQL_SQL92_GRANT | SQL_SQL92_REVOKE
  | SQL_SQL92_ROW_VALUE_CONSTRUCTOR | SQL_STANDARD_CLI_CONFORMANCE | SQL_SUBQUERIES
  | SQL_TXN_ISOLATION_OPTION | SQL_UNION | SQL_USER_NAME | SQL_ALTER_TABLE | SQL_FETCH_DIRECTION
  | SQL_LOCK_TYPES | SQL_ODBC_API_CONFORMANCE | SQL_ODBC_SQL_CONFORMANCE
  | SQL_POSITIONED_STATEMENTS | SQL_SCROLL_CONCURRENCY | SQL_STATIC_SENSITIVITY
  | SQL_DTC_TRANSITION_COST | SQL_DM_VER | SQL_XOPEN_CLI_YEAR.

(** Numbered, so that equality is decided without a case for each pair. *)
Definition info_index (t : InfoType) : positive :=
  match t with
  | SQL_ACCESSIBLE_PROCEDURES => 1 | SQL_ACCESSIBLE_TABLES => 2 | SQL_ACTIVE_ENVIRONMENTS => 3
  | SQL_DRIVER_NAME => 4 | SQL_DBMS_NAME => 5 | SQL_DRIVER_ODBC_VER => 6 | SQL_DBMS_VER => 7
  | SQL_DRIVER_VER => 8 | SQL_COLUMN_ALIAS => 9 | SQL_IDENTIFIER_QUOTE_CHAR => 10
  | SQL_CATALOG_NAME_SEPARATOR => 11 | SQL_SPECIAL_CHARACTERS => 12 | SQL_CATALOG_TERM => 13
  | SQL_TABLE_TERM => 14 | SQL_SCHEMA_TERM => 15 | SQL_NEED_LONG_DATA_LEN => 16
  | SQL_ASYNC_DBC_FUNCTIONS => 17 | SQL_ASYNC_NOTIFICATION => 18 | SQL_GETDATA_EXTENSIONS => 19
  | SQL_ODBC_INTERFACE_CONFORMANCE => 20 | SQL_SQL_CONFORMANCE => 21 | SQL_CATALOG_USAGE => 22
  | SQL_SCHEMA_USAGE => 23 | SQL_MAX_IDENTIFIER_LEN => 24 | SQL_AGGREGATE_FUNCTIONS => 25
  | SQL_NUMERIC_FUNCTIONS => 26 | SQL_STRING_FUNCTIONS => 27 | SQL_TIMEDATE_FUNCTIONS => 28
  | SQL_TIMEDATE_ADD_INTERVALS => 29 | SQL_TIMEDATE_DIFF_INTERVALS => 30
  | SQL_DATETIME_LITERALS => 31 | SQL_SYSTEM_FUNCTIONS => 32 | SQL_CONVERT_FUNCTIONS => 33
  | SQL_OJ_CAPABILITIES => 34 | SQL_POS_OPERATIONS => 35 | SQL_MAX_CONCURRENT_ACTIVITIES => 36
  | SQL_TXN_CAPABLE => 37 | SQL_QUOTED_IDENTIFIER_CASE => 38
  | SQL_SQL92_NUMERIC_VALUE_FUNCTIONS => 39 | SQL_SQL92_STRING_FUNCTIONS => 40
  | SQL_SQL92_DATETIME_FUNCTIONS => 41 | SQL_SQL92_PREDICATES => 42
  | SQL_SQL92_RELATIONAL_JOIN_OPERATORS => 43 | SQL_SQL92_VALUE_EXPRESSIONS => 44
  | SQL_STATIC_CURSOR_ATTRIBUTES1 => 45 | SQL_STATIC_CURSOR_ATTRIBUTES2 => 46
  | SQL_CONVERT_BIGINT => 47 | SQL_CONVERT_BINARY => 48 | SQL_CONVERT_BIT => 49
  | SQL_CONVERT_CHAR => 50 | SQL_CONVERT_DATE => 51 | SQL_CONVERT_DECIMAL => 52
  | SQL_CONVERT_DOUBLE => 53 | SQL_CONVERT_FLOAT => 54 | SQL_CONVERT_INTEGER => 55
  | SQL_CONVERT_LONGVARCHAR => 56 | SQL_CONVERT_NUMERIC => 57 | SQL_CONVERT_REAL => 58
  | SQL_CONVERT_SMALLINT => 59 | SQL_CONVERT_TIME => 60 | SQL_CONVERT_TIMESTAMP => 61
  | SQL_CONVERT_TINYINT => 62 | SQL_CONVERT_VARBINARY => 63 | SQL_CONVERT_VARCHAR => 64
  | SQL_CONVERT_LONGVARBINARY => 65 | SQL_CONVERT_WCHAR => 66 | SQL_CONVERT_INTERVAL_DAY_TIME => 67
  | SQL_CONVERT_INTERVAL_YEAR_MONTH => 68 | SQL_CONVERT_WLONGVARCHAR => 69
  | SQL_CONVERT_WVARCHAR => 70 | SQL_CONVERT_GUID => 71 | SQL_SCROLL_OPTIONS => 72
  | SQL_PARAM_ARRAY_ROW_COUNTS => 73 | SQL_PARAM_ARRAY_SELECTS => 74 | SQL_ALTER_DOMAIN => 75
  | SQL_ASYNC_MODE => 76 | SQL_BATCH_ROW_COUNT => 77 | SQL_BATCH_SUPPORT => 78
  | SQL_BOOKMARK_PERSISTENCE => 79 | SQL_CATALOG_LOCATION => 80 | SQL_CATALOG_NAME => 81
  | SQL_COLLATION_SEQ => 82 | SQL_CONCAT_NULL_BEHAVIOR => 83 | SQL_CORRELATION_NAME => 84
  | SQL_CREATE_ASSERTION => 85 | SQL_CREATE_CHARACTER_SET => 86 | SQL_CREATE_COLLATION => 87
  | SQL_CREATE_DOMAIN => 88 | SQL_CREATE_SCHEMA => 89 | SQL_CREATE_TABLE => 90
  | SQL_CREATE_TRANSLATION => 91 | SQL_CREATE_VIEW => 92 | SQL_CURSOR_COMMIT_BEHAVIOR => 93
  | SQL_CURSOR_ROLLBACK_BEHAVIOR => 94 | SQL_CURSOR_SENSITIVITY => 95 | SQL_DATA_SOURCE_NAME => 96
  | SQL_DATA_SOURCE_READ_ONLY => 97 | SQL_DATABASE_NAME => 98 | SQL_DDL_INDEX => 99
  | SQL_DEFAULT_TXN_ISOLATION => 100 | SQL_DESCRIBE_PARAMETER => 101 | SQL_DROP_ASSERTION => 102
  | SQL_DROP_CHARACTER_SET => 103 | SQL_DROP_COLLATION => 104 | SQL_DROP_DOMAIN => 105
  | SQL_DROP_SCHEMA => 106 | SQL_DROP_TABLE => 107 | SQL_DROP_TRANSLATION => 108
  | SQL_DROP_VIEW => 109 | SQL_DYNAMIC_CURSOR_ATTRIBUTES1 => 110
  | SQL_DYNAMIC_CURSOR_ATTRIBUTES2 => 111 | SQL_EXPRESSIONS_IN_ORDERBY => 112
  | SQL_FILE_USAGE => 113 | SQL_FORWARD_ONLY_CURSOR_ATTRIBUTES1 => 114
  | SQL_FORWARD_ONLY_CURSOR_ATTRIBUTES2 => 115 | SQL_GROUP_BY => 116 | SQL_IDENTIFIER_CASE => 117
  | SQL_INDEX_KEYWORDS => 118 | SQL_INFO_SCHEMA_VIEWS => 119 | SQL_INSERT_STATEMENT => 120
  | SQL_INTEGRITY => 121 | SQL_KEYSET_CURSOR_ATTRIBUTES1 => 122
  | SQL_KEYSET_CURSOR_ATTRIBUTES2 => 123 | SQL_KEYWORDS => 124 | SQL_LIKE_ESCAPE_CLAUSE => 125
  | SQL_MAX_ASYNC_CONCURRENT_STATEMENTS => 126 | SQL_MAX_BINARY_LITERAL_LEN => 127
  | SQL_MAX_CATALOG_NAME_LEN => 128 | SQL_MAX_CHAR_LITERAL_LEN => 129
  | SQL_MAX_COLUMN_NAME_LEN => 130 | SQL_MAX_COLUMNS_IN_GROUP_BY => 131
  | SQL_MAX_COLUMNS_IN_INDEX => 132 | SQL_MAX_COLUMNS_IN_ORDER_BY => 133
  | SQL_MAX_COLUMNS_IN_SELECT => 134 | SQL_MAX_COLUMNS_IN_TABLE => 135
  | SQL_MAX_CURSOR_NAME_LEN => 136 | SQL_MAX_DRIVER_CONNECTIONS => 137 | SQL_MAX_INDEX_SIZE => 138
  | SQL_MAX_PROCEDURE_NAME_LEN => 139 | SQL_MAX_ROW_SIZE => 140
  | SQL_MAX_ROW_SIZE_INCLUDES_LONG => 141 | SQL_MAX_SCHEMA_NAME_LEN => 142
  | SQL_MAX_STATEMENT_LEN => 143 | SQL_MAX_TABLE_NAME_LEN => 144 | SQL_MAX_TABLES_IN_SELECT => 145
  | SQL_MAX_USER_NAME_LEN => 146 | SQL_MULT_RESULT_SETS => 147 | SQL_MULTIPLE_ACTIVE_TXN => 148
  | SQL_NON_NULLABLE_COLUMNS => 149 | SQL_NULL_COLLATION => 150
  | SQL_ORDER_BY_COLUMNS_IN_SELECT => 151 | SQL_PROCEDURE_TERM => 152 | SQL_PROCEDURES => 153
  | SQL_ROW_UPDATES => 154 | SQL_SEARCH_PATTERN_ESCAPE => 155 | SQL_SERVER_NAME => 156
  | SQL_SQL92_FOREIGN_KEY_DELETE_RULE => 157 | SQL_SQL92_FOREIGN_KEY_UPDATE_RULE => 158
  | SQL_SQL92_GRANT => 159 | SQL_SQL92_REVOKE => 160 | SQL_SQL92_ROW_VALUE_CONSTRUCTOR => 161
  | SQL_STANDARD_CLI_CONFORMANCE => 162 | SQL_SUBQUERIES => 163 | SQL_TXN_ISOLATION_OPTION => 164
  | SQL_UNION => 165 | SQL_USER_NAME => 166 | SQL_ALTER_TABLE => 167 | SQL_FETCH_DIRECTION => 168
  | SQL_LOCK_TYPES => 169 | SQL_ODBC_API_CONFORMANCE => 170 | SQL_ODBC_SQL_CONFORMANCE => 171
  | SQL_POSITIONED_STATEMENTS => 172 | SQL_SCROLL_CONCURRENCY => 173
  | SQL_STATIC_SENSITIVITY => 174 | SQL_DTC_TRANSITION_COST => 175 | SQL_DM_VER => 176
  | SQL_XOPEN_CLI_YEAR => 177
  end%positive.
Definition all_types : list InfoType :=
  [
    SQL_ACCESSIBLE_PROCEDURES; SQL_ACCESSIBLE_TABLES; SQL_ACTIVE_ENVIRONMENTS; SQL_DRIVER_NAME;
    SQL_DBMS_NAME; SQL_DRIVER_ODBC_VER; SQL_DBMS_VER; SQL_DRIVER_VER; SQL_COLUMN_ALIAS;
    SQL_IDENTIFIER_QUOTE_CHAR; SQL_CATALOG_NAME_SEPARATOR; SQL_SPECIAL_CHARACTERS;
    SQL_CATALOG_TERM; SQL_TABLE_TERM; SQL_SCHEMA_TERM; SQL_NEED_LONG_DATA_LEN;
    SQL_ASYNC_DBC_FUNCTIONS; SQL_ASYNC_NOTIFICATION; SQL_GETDATA_EXTENSIONS;
    SQL_ODBC_INTERFACE_CONFORMANCE; SQL_SQL_CONFORMANCE; SQL_CATALOG_USAGE; SQL_SCHEMA_USAGE;
    SQL_MAX_IDENTIFIER_LEN; SQL_AGGREGATE_FUNCTIONS; SQL_NUMERIC_FUNCTIONS; SQL_STRING_FUNCTIONS;
    SQL_TIMEDATE_FUNCTIONS; SQL_TIMEDATE_ADD_INTERVALS; SQL_TIMEDATE_DIFF_INTERVALS;
    SQL_DATETIME_LITERALS; SQL_SYSTEM_FUNCTIONS; SQL_CONVERT_FUNCTIONS; SQL_OJ_CAPABILITIES;
    SQL_POS_OPERATIONS; SQL_MAX_CONCURRENT_ACTIVITIES; SQL_TXN_CAPABLE; SQL_QUOTED_IDENTIFIER_CASE;
    SQL_SQL92_NUMERIC_VALUE_FUNCTIONS; SQL_SQL92_STRING_FUNCTIONS; SQL_SQL92_DATETIME_FUNCTIONS;
    SQL_SQL92_PREDICATES; SQL_SQL92_RELATIONAL_JOIN_OPERATORS; SQL_SQL92_VALUE_EXPRESSIONS;
    SQL_STATIC_CURSOR_ATTRIBUTES1; SQL_STATIC_CURSOR_ATTRIBUTES2; SQL_CONVERT_BIGINT;
    SQL_CONVERT_BINARY; SQL_CONVERT_BIT; SQL_CONVERT_CHAR; SQL_CONVERT_DATE; SQL_CONVERT_DECIMAL;
    SQL_CONVERT_DOUBLE; SQL_CONVERT_FLOAT; SQL_CONVERT_INTEGER; SQL_CONVERT_LONGVARCHAR;
    SQL_CONVERT_NUMERIC; SQL_CONVERT_REAL; SQL_CONVERT_SMALLINT; SQL_CONVERT_TIME;
    SQL_CONVERT_TIMESTAMP; SQL_CONVERT_TINYINT; SQL_CONVERT_VARBINARY; SQL_CONVERT_VARCHAR;
    SQL_CONVERT_LONGVARBINARY; SQL_CONVERT_WCHAR; SQL_CONVERT_INTERVAL_DAY_TIME;
    SQL_CONVERT_INTERVAL_YEAR_MONTH; SQL_CONVERT_WLONGVARCHAR; SQL_CONVERT_WVARCHAR;
    SQL_CONVERT_GUID; SQL_SCROLL_OPTIONS; SQL_PARAM_ARRAY_ROW_COUNTS; SQL_PARAM_ARRAY_SELECTS;
    SQL_ALTER_DOMAIN; SQL_ASYNC_MODE; SQL_BATCH_ROW_COUNT; SQL_BATCH_SUPPORT;
    SQL_BOOKMARK_PERSISTENCE; SQL_CATALOG_LOCATION; SQL_CATALOG_NAME; SQL_COLLATION_SEQ;
    SQL_CONCAT_NULL_BEHAVIOR; SQL_CORRELATION_NAME; SQL_CREATE_ASSERTION; SQL_CREATE_CHARACTER_SET;
    SQL_CREATE_COLLATION; SQL_CREATE_DOMAIN; SQL_CREATE_SCHEMA; SQL_CREATE_TABLE;
    SQL_CREATE_TRANSLATION; SQL_CREATE_VIEW; SQL_CURSOR_COMMIT_BEHAVIOR;
    SQL_CURSOR_ROLLBACK_BEHAVIOR; SQL_CURSOR_SENSITIVITY; SQL_DATA_SOURCE_NAME;
    SQL_DATA_SOURCE_READ_ONLY; SQL_DATABASE_NAME; SQL_DDL_INDEX; SQL_DEFAULT_TXN_ISOLATION;
    SQL_DESCRIBE_PARAMETER; SQL_DROP_ASSERTION; SQL_DROP_CHARACTER_SET; SQL_DROP_COLLATION;
    SQL_DROP_DOMAIN; SQL_DROP_SCHEMA; SQL_DROP_TABLE; SQL_DROP_TRANSLATION; SQL_DROP_VIEW;
    SQL_DYNAMIC_CURSOR_ATTRIBUTES1; SQL_DYNAMIC_CURSOR_ATTRIBUTES2; SQL_EXPRESSIONS_IN_ORDERBY;
    SQL_FILE_USAGE; SQL_FORWARD_ONLY_CURSOR_ATTRIBUTES1; SQL_FORWARD_ONLY_CURSOR_ATTRIBUTES2;
    SQL_GROUP_BY; SQL_IDENTIFIER_CASE; SQL_INDEX_KEYWORDS; SQL_INFO_SCHEMA_VIEWS;
    SQL_INSERT_STATEMENT; SQL_INTEGRITY; SQL_KEYSET_CURSOR_ATTRIBUTES1;
    SQL_KEYSET_CURSOR_ATTRIBUTES2; SQL_KEYWORDS; SQL_LIKE_ESCAPE_CLAUSE;
    SQL_MAX_ASYNC_CONCURRENT_STATEMENTS; SQL_MAX_BINARY_LITERAL_LEN; SQL_MAX_CATALOG_NAME_LEN;
    SQL_MAX_CHAR_LITERAL_LEN; SQL_MAX_COLUMN_NAME_LEN; SQL_MAX_COLUMNS_IN_GROUP_BY;
    SQL_MAX_COLUMNS_IN_INDEX; SQL_MAX_COLUMNS_IN_ORDER_BY; SQL_MAX_COLUMNS_IN_SELECT;
    SQL_MAX_COLUMNS_IN_TABLE; SQL_MAX_CURSOR_NAME_LEN; SQL_MAX_DRIVER_CONNECTIONS;
    SQL_MAX_INDEX_SIZE; SQL_MAX_PROCEDURE_NAME_LEN; SQL_MAX_ROW_SIZE;
    SQL_MAX_ROW_SIZE_INCLUDES_LONG; SQL_MAX_SCHEMA_NAME_LEN; SQL_MAX_STATEMENT_LEN;
    SQL_MAX_TABLE_NAME_LEN; SQL_MAX_TABLES_IN_SELECT; SQL_MAX_USER_NAME_LEN; SQL_MULT_RESULT_SETS;
    SQL_MULTIPLE_ACTIVE_TXN; SQL_NON_NULLABLE_COLUMNS; SQL_NULL_COLLATION;
    SQL_ORDER_BY_COLUMNS_IN_SELECT; SQL_PROCEDURE_TERM; SQL_PROCEDURES; SQL_ROW_UPDATES;
    SQL_SEARCH_PATTERN_ESCAPE; SQL_SERVER_NAME; SQL_SQL92_FOREIGN_KEY_DELETE_RULE;
    SQL_SQL92_FOREIGN_KEY_UPDATE_RULE; SQL_SQL92_GRANT; SQL_SQL92_REVOKE;
    SQL_SQL92_ROW_VALUE_CONSTRUCTOR; SQL_STANDARD_CLI_CONFORMANCE; SQL_SUBQUERIES;
    SQL_TXN_ISOLATION_OPTION; SQL_UNION; SQL_USER_NAME; SQL_ALTER_TABLE; SQL_FETCH_DIRECTION;
    SQL_LOCK_TYPES; SQL_ODBC_API_CONFORMANCE; SQL_ODBC_SQL_CONFORMANCE; SQL_POSITIONED_STATEMENTS;
    SQL_SCROLL_CONCURRENCY; SQL_STATIC_SENSITIVITY; SQL_DTC_TRANSITION_COST; SQL_DM_VER;
    SQL_XOPEN_CLI_YEAR
  ].

Lemma info_index_inj a b : info_index a = info_index b -> a = b.
Proof.
  assert (H : forall t, nth_error all_types (Pos.to_nat (info_index t) - 1) = Some t) by (by intros []).
  intros E. apply (f_equal (fun i => nth_error all_types (Pos.to_nat i - 1))) in E. rewrite !H in E.
  by injection E.
Qed.

#[global] Instance InfoType_eq_dec : EqDecision InfoType.
Proof.
  intros a b. destruct (decide (info_index a = info_index b)) as [E|E].
  - left. by apply info_index_inj.
  - right. by intros ->.
Defined.
#[global, refine] Instance InfoType_finite : Finite InfoType := {| enum := all_types |}.
Proof. all: solve_finite. Defined.

Inductive InfoValue : Type :=
  | SQL_ASYNC_DBC_NOT_CAPABLE | SQL_AM_NONE | SQL_ASYNC_NOTIFICATION_NOT_CAPABLE | SQL_CL_START
  | SQL_GD_ANY_COLUMN | SQL_GD_ANY_ORDER | SQL_GD_BOUND | SQL_GD_BLOCK | SQL_OIC_CORE
  | SQL_SC_SQL92_ENTRY | SQL_CU_DML_STATEMENTS | SQL_SU_DML_STATEMENTS | SQL_SU_TABLE_DEFINITION
  | SQL_SU_PRIVILEGE_DEFINITION | SQL_SU_INDEX_DEFINITION | SQL_AF_ALL | SQL_FN_NUM_ABS
  | SQL_FN_NUM_ATAN | SQL_FN_NUM_ATAN2 | SQL_FN_NUM_COS | SQL_FN_NUM_COT | SQL_FN_NUM_DEGREES
  | SQL_FN_NUM_FLOOR | SQL_FN_NUM_LOG | SQL_FN_NUM_LOG10 | SQL_FN_NUM_PI | SQL_FN_NUM_POWER
  | SQL_FN_NUM_RADIANS | SQL_FN_NUM_ROUND | SQL_FN_NUM_SIGN | SQL_FN_NUM_SIN | SQL_FN_NUM_SQRT
  | SQL_FN_NUM_TAN | SQL_FN_STR_ASCII | SQL_FN_STR_LENGTH | SQL_FN_STR_LTRIM | SQL_FN_STR_REPLACE
  | SQL_FN_STR_RTRIM | SQL_FN_STR_SUBSTRING | SQL_FN_TD_CURDATE | SQL_FN_TD_DAYOFMONTH
  | SQL_FN_TD_MONTH | SQL_FN_TD_MONTHNAME | SQL_FN_TD_NOW | SQL_FN_TD_YEAR | SQL_FN_TSI_FRAC_SECOND
  | SQL_FN_TSI_SECOND | SQL_FN_TSI_MINUTE | SQL_FN_TSI_HOUR | SQL_FN_TSI_DAY | SQL_FN_TSI_WEEK
  | SQL_FN_TSI_MONTH | SQL_FN_TSI_QUARTER | SQL_FN_TSI_YEAR | SQL_FN_SYS_IFNULL | SQL_FN_CVT_CAST
  | SQL_OJ_LEFT | SQL_OJ_RIGHT | SQL_OJ_NOT_ORDERED | SQL_OJ_ALL_COMPARISON_OPS | SQL_SSF_CONVERT
  | SQL_SSF_LOWER | SQL_SSF_UPPER | SQL_SSF_SUBSTRING | SQL_SSF_TRANSLATE | SQL_SSF_TRIM_BOTH
  | SQL_SSF_TRIM_LEADING | SQL_SSF_TRIM_TRAILING | SQL_SDF_CURRENT_DATE | SQL_SDF_CURRENT_TIME
  | SQL_SDF_CURRENT_TIMESTAMP | SQL_SVE_CASE | SQL_SVE_CAST | SQL_SP_BETWEEN | SQL_SP_COMPARISON
  | SQL_SP_IN | SQL_SP_ISNULL | SQL_SP_LIKE | SQL_SRJO_CROSS_JOIN | SQL_SRJO_INNER_JOIN
  | SQL_SRJO_LEFT_OUTER_JOIN | SQL_SRJO_RIGHT_OUTER_JOIN | SQL_CA1_NEXT | SQL_CA1_ABSOLUTE
  | SQL_CA1_RELATIVE | SQL_CA1_BOOKMARK | SQL_CA1_LOCK_NO_CHANGE | SQL_CA1_POS_POSITION
  | SQL_CA1_POS_REFRESH | SQL_CA2_READ_ONLY_CONCURRENCY | SQL_CA2_CRC_EXACT | SQL_CVT_BIGINT
  | SQL_CVT_DOUBLE | SQL_CVT_VARCHAR | SQL_CVT_DATE | SQL_CVT_INTEGER | SQL_CVT_TIME
  | SQL_CVT_TIMESTAMP | SQL_PARC_BATCH | SQL_PAS_NO_BATCH | SQL_SO_FORWARD_ONLY | SQL_SO_STATIC
  | SQL_CB_CLOSE | SQL_CB_PRESERVE | SQL_INSENSITIVE | SQL_DI_CREATE_INDEX | SQL_DI_DROP_INDEX
  | SQL_IK_NONE | SQL_SRVC_VALUE_EXPRESSION | SQL_SRVC_NULL | SQL_SQ_QUANTIFIED | SQL_SQ_IN
  | SQL_SQ_EXISTS | SQL_SQ_COMPARISON | SQL_U_UNION | SQL_U_UNION_ALL | SQL_FD_FETCH_NEXT
  | SQL_FD_FETCH_FIRST | SQL_FD_FETCH_LAST | SQL_FD_FETCH_PRIOR | SQL_FD_FETCH_ABSOLUTE
  | SQL_FD_FETCH_RELATIVE | SQL_FD_FETCH_BOOKMARK | SQL_LCK_NO_CHANGE | SQL_OAC_LEVEL1
  | SQL_OSC_CORE | SQL_SCCO_READ_ONLY | SQL_TC_NONE | SQL_IC_SENSITIVE | SQL_CB_NULL | SQL_CN_ANY
  | SQL_FILE_NOT_SUPPORTED | SQL_GB_GROUP_BY_CONTAINS_SELECT | SQL_NNC_NON_NULL | SQL_NC_HIGH.

Inductive Platform : Type := WIN32 | APPLE | LINUX | OTHER_PLATFORM.

(** The numbers of the headers, the types they define, the system the driver is
    built for and the numbers of its version. *)
Class InfoHeaders : Type := {
  info_types :: Codes InfoType;
  header_value : InfoValue -> Z;
  defined : InfoType -> bool;
  platform : Platform;
  DRIVER_VERSION_MAJOR : Z; DRIVER_VERSION_MINOR : Z; DRIVER_VERSION_PATCH : Z
}.

Definition NAMEDATALEN : Z := 64.
Definition MAX_CURSOR_LEN : Z := 32.

Record ConnectionInfo : Type := MkInfo {
  strParams : gmap Z text; intParams : gmap Z Z; shortParams : gmap Z Z
}.

Section Info.
Context `{InfoHeaders} `{Deployment} `{Abi}.

Definition info_name (t : InfoType) : string :=
  match t with
  | SQL_ACCESSIBLE_PROCEDURES => "SQL_ACCESSIBLE_PROCEDURES"
  | SQL_ACCESSIBLE_TABLES => "SQL_ACCESSIBLE_TABLES"
  | SQL_ACTIVE_ENVIRONMENTS => "SQL_ACTIVE_ENVIRONMENTS" | SQL_DRIVER_NAME => "SQL_DRIVER_NAME"
  | SQL_DBMS_NAME => "SQL_DBMS_NAME" | SQL_DRIVER_ODBC_VER => "SQL_DRIVER_ODBC_VER"
  | SQL_DBMS_VER => "SQL_DBMS_VER" | SQL_DRIVER_VER => "SQL_DRIVER_VER"
  | SQL_COLUMN_ALIAS => "SQL_COLUMN_ALIAS"
  | SQL_IDENTIFIER_QUOTE_CHAR => "SQL_IDENTIFIER_QUOTE_CHAR"
  | SQL_CATALOG_NAME_SEPARATOR => "SQL_CATALOG_NAME_SEPARATOR"
  | SQL_SPECIAL_CHARACTERS => "SQL_SPECIAL_CHARACTERS" | SQL_CATALOG_TERM => "SQL_CATALOG_TERM"
  | SQL_TABLE_TERM => "SQL_TABLE_TERM" | SQL_SCHEMA_TERM => "SQL_SCHEMA_TERM"
  | SQL_NEED_LONG_DATA_LEN => "SQL_NEED_LONG_DATA_LEN"
  | SQL_ASYNC_DBC_FUNCTIONS => "SQL_ASYNC_DBC_FUNCTIONS"
  | SQL_ASYNC_NOTIFICATION => "SQL_ASYNC_NOTIFICATION"
  | SQL_GETDATA_EXTENSIONS => "SQL_GETDATA_EXTENSIONS"
  | SQL_ODBC_INTERFACE_CONFORMANCE => "SQL_ODBC_INTERFACE_CONFORMANCE"
  | SQL_SQL_CONFORMANCE => "SQL_SQL_CONFORMANCE" | SQL_CATALOG_USAGE => "SQL_CATALOG_USAGE"
  | SQL_SCHEMA_USAGE => "SQL_SCHEMA_USAGE" | SQL_MAX_IDENTIFIER_LEN => "SQL_MAX_IDENTIFIER_LEN"
  | SQL_AGGREGATE_FUNCTIONS => "SQL_AGGREGATE_FUNCTIONS"
  | SQL_NUMERIC_FUNCTIONS => "SQL_NUMERIC_FUNCTIONS"
  | SQL_STRING_FUNCTIONS => "SQL_STRING_FUNCTIONS"
  | SQL_TIMEDATE_FUNCTIONS => "SQL_TIMEDATE_FUNCTIONS"
  | SQL_TIMEDATE_ADD_INTERVALS => "SQL_TIMEDATE_ADD_INTERVALS"
  | SQL_TIMEDATE_DIFF_INTERVALS => "SQL_TIMEDATE_DIFF_INTERVALS"
  | SQL_DATETIME_LITERALS => "SQL_DATETIME_LITERALS"
  | SQL_SYSTEM_FUNCTIONS => "SQL_SYSTEM_FUNCTIONS"
  | SQL_CONVERT_FUNCTIONS => "SQL_CONVERT_FUNCTIONS" | SQL_OJ_CAPABILITIES => "SQL_OJ_CAPABILITIES"
  | SQL_POS_OPERATIONS => "SQL_POS_OPERATIONS"
  | SQL_MAX_CONCURRENT_ACTIVITIES => "SQL_MAX_CONCURRENT_ACTIVITIES"
  | SQL_TXN_CAPABLE => "SQL_TXN_CAPABLE"
  | SQL_QUOTED_IDENTIFIER_CASE => "SQL_QUOTED_IDENTIFIER_CASE"
  | SQL_SQL92_NUMERIC_VALUE_FUNCTIONS => "SQL_SQL92_NUMERIC_VALUE_FUNCTIONS"
  | SQL_SQL92_STRING_FUNCTIONS => "SQL_SQL92_STRING_FUNCTIONS"
  | SQL_SQL92_DATETIME_FUNCTIONS => "SQL_SQL92_DATETIME_FUNCTIONS"
  | SQL_SQL92_PREDICATES => "SQL_SQL92_PREDICATES"
  | SQL_SQL92_RELATIONAL_JOIN_OPERATORS => "SQL_SQL92_RELATIONAL_JOIN_OPERATORS"
  | SQL_SQL92_VALUE_EXPRESSIONS => "SQL_SQL92_VALUE_EXPRESSIONS"
  | SQL_STATIC_CURSOR_ATTRIBUTES1 => "SQL_STATIC_CURSOR_ATTRIBUTES1"
  | SQL_STATIC_CURSOR_ATTRIBUTES2 => "SQL_STATIC_CURSOR_ATTRIBUTES2"
  | SQL_CONVERT_BIGINT => "SQL_CONVERT_BIGINT" | SQL_CONVERT_BINARY => "SQL_CONVERT_BINARY"
  | SQL_CONVERT_BIT => "SQL_CONVERT_BIT" | SQL_CONVERT_CHAR => "SQL_CONVERT_CHAR"
  | SQL_CONVERT_DATE => "SQL_CONVERT_DATE" | SQL_CONVERT_DECIMAL => "SQL_CONVERT_DECIMAL"
  | SQL_CONVERT_DOUBLE => "SQL_CONVERT_DOUBLE" | SQL_CONVERT_FLOAT => "SQL_CONVERT_FLOAT"
  | SQL_CONVERT_INTEGER => "SQL_CONVERT_INTEGER"
  | SQL_CONVERT_LONGVARCHAR => "SQL_CONVERT_LONGVARCHAR"
  | SQL_CONVERT_NUMERIC => "SQL_CONVERT_NUMERIC" | SQL_CONVERT_REAL => "SQL_CONVERT_REAL"
  | SQL_CONVERT_SMALLINT => "SQL_CONVERT_SMALLINT" | SQL_CONVERT_TIME => "SQL_CONVERT_TIME"
  | SQL_CONVERT_TIMESTAMP => "SQL_CONVERT_TIMESTAMP" | SQL_CONVERT_TINYINT => "SQL_CONVERT_TINYINT"
  | SQL_CONVERT_VARBINARY => "SQL_CONVERT_VARBINARY" | SQL_CONVERT_VARCHAR => "SQL_CONVERT_VARCHAR"
  | SQL_CONVERT_LONGVARBINARY => "SQL_CONVERT_LONGVARBINARY"
  | SQL_CONVERT_WCHAR => "SQL_CONVERT_WCHAR"
  | SQL_CONVERT_INTERVAL_DAY_TIME => "SQL_CONVERT_INTERVAL_DAY_TIME"
  | SQL_CONVERT_INTERVAL_YEAR_MONTH => "SQL_CONVERT_INTERVAL_YEAR_MONTH"
  | SQL_CONVERT_WLONGVARCHAR => "SQL_CONVERT_WLONGVARCHAR"
  | SQL_CONVERT_WVARCHAR => "SQL_CONVERT_WVARCHAR" | SQL_CONVERT_GUID => "SQL_CONVERT_GUID"
  | SQL_SCROLL_OPTIONS => "SQL_SCROLL_OPTIONS"
  | SQL_PARAM_ARRAY_ROW_COUNTS => "SQL_PARAM_ARRAY_ROW_COUNTS"
  | SQL_PARAM_ARRAY_SELECTS => "SQL_PARAM_ARRAY_SELECTS" | SQL_ALTER_DOMAIN => "SQL_ALTER_DOMAIN"
  | SQL_ASYNC_MODE => "SQL_ASYNC_MODE" | SQL_BATCH_ROW_COUNT => "SQL_BATCH_ROW_COUNT"
  | SQL_BATCH_SUPPORT => "SQL_BATCH_SUPPORT"
  | SQL_BOOKMARK_PERSISTENCE => "SQL_BOOKMARK_PERSISTENCE"
  | SQL_CATALOG_LOCATION => "SQL_CATALOG_LOCATION" | SQL_CATALOG_NAME => "SQL_CATALOG_NAME"
  | SQL_COLLATION_SEQ => "SQL_COLLATION_SEQ"
  | SQL_CONCAT_NULL_BEHAVIOR => "SQL_CONCAT_NULL_BEHAVIOR"
  | SQL_CORRELATION_NAME => "SQL_CORRELATION_NAME" | SQL_CREATE_ASSERTION => "SQL_CREATE_ASSERTION"
  | SQL_CREATE_CHARACTER_SET => "SQL_CREATE_CHARACTER_SET"
  | SQL_CREATE_COLLATION => "SQL_CREATE_COLLATION" | SQL_CREATE_DOMAIN => "SQL_CREATE_DOMAIN"
  | SQL_CREATE_SCHEMA => "SQL_CREATE_SCHEMA" | SQL_CREATE_TABLE => "SQL_CREATE_TABLE"
  | SQL_CREATE_TRANSLATION => "SQL_CREATE_TRANSLATION" | SQL_CREATE_VIEW => "SQL_CREATE_VIEW"
  | SQL_CURSOR_COMMIT_BEHAVIOR => "SQL_CURSOR_COMMIT_BEHAVIOR"
  | SQL_CURSOR_ROLLBACK_BEHAVIOR => "SQL_CURSOR_ROLLBACK_BEHAVIOR"
  | SQL_CURSOR_SENSITIVITY => "SQL_CURSOR_SENSITIVITY"
  | SQL_DATA_SOURCE_NAME => "SQL_DATA_SOURCE_NAME"
  | SQL_DATA_SOURCE_READ_ONLY => "SQL_DATA_SOURCE_READ_ONLY"
  | SQL_DATABASE_NAME => "SQL_DATABASE_NAME" | SQL_DDL_INDEX => "SQL_DDL_INDEX"
  | SQL_DEFAULT_TXN_ISOLATION => "SQL_DEFAULT_TXN_ISOLATION"
  | SQL_DESCRIBE_PARAMETER => "SQL_DESCRIBE_PARAMETER" | SQL_DROP_ASSERTION => "SQL_DROP_ASSERTION"
  | SQL_DROP_CHARACTER_SET => "SQL_DROP_CHARACTER_SET" | SQL_DROP_COLLATION => "SQL_DROP_COLLATION"
  | SQL_DROP_DOMAIN => "SQL_DROP_DOMAIN" | SQL_DROP_SCHEMA => "SQL_DROP_SCHEMA"
  | SQL_DROP_TABLE => "SQL_DROP_TABLE" | SQL_DROP_TRANSLATION => "SQL_DROP_TRANSLATION"
  | SQL_DROP_VIEW => "SQL_DROP_VIEW"
  | SQL_DYNAMIC_CURSOR_ATTRIBUTES1 => "SQL_DYNAMIC_CURSOR_ATTRIBUTES1"
  | SQL_DYNAMIC_CURSOR_ATTRIBUTES2 => "SQL_DYNAMIC_CURSOR_ATTRIBUTES2"
  | SQL_EXPRESSIONS_IN_ORDERBY => "SQL_EXPRESSIONS_IN_ORDERBY" | SQL_FILE_USAGE => "SQL_FILE_USAGE"
  | SQL_FORWARD_ONLY_CURSOR_ATTRIBUTES1 => "SQL_FORWARD_ONLY_CURSOR_ATTRIBUTES1"
  | SQL_FORWARD_ONLY_CURSOR_ATTRIBUTES2 => "SQL_FORWARD_ONLY_CURSOR_ATTRIBUTES2"
  | SQL_GROUP_BY => "SQL_GROUP_BY" | SQL_IDENTIFIER_CASE => "SQL_IDENTIFIER_CASE"
  | SQL_INDEX_KEYWORDS => "SQL_INDEX_KEYWORDS" | SQL_INFO_SCHEMA_VIEWS => "SQL_INFO_SCHEMA_VIEWS"
  | SQL_INSERT_STATEMENT => "SQL_INSERT_STATEMENT" | SQL_INTEGRITY => "SQL_INTEGRITY"
  | SQL_KEYSET_CURSOR_ATTRIBUTES1 => "SQL_KEYSET_CURSOR_ATTRIBUTES1"
  | SQL_KEYSET_CURSOR_ATTRIBUTES2 => "SQL_KEYSET_CURSOR_ATTRIBUTES2"
  | SQL_KEYWORDS => "SQL_KEYWORDS" | SQL_LIKE_ESCAPE_CLAUSE => "SQL_LIKE_ESCAPE_CLAUSE"
  | SQL_MAX_ASYNC_CONCURRENT_STATEMENTS => "SQL_MAX_ASYNC_CONCURRENT_STATEMENTS"
  | SQL_MAX_BINARY_LITERAL_LEN => "SQL_MAX_BINARY_LITERAL_LEN"
  | SQL_MAX_CATALOG_NAME_LEN => "SQL_MAX_CATALOG_NAME_LEN"
  | SQL_MAX_CHAR_LITERAL_LEN => "SQL_MAX_CHAR_LITERAL_LEN"
  | SQL_MAX_COLUMN_NAME_LEN => "SQL_MAX_COLUMN_NAME_LEN"
  | SQL_MAX_COLUMNS_IN_GROUP_BY => "SQL_MAX_COLUMNS_IN_GROUP_BY"
  | SQL_MAX_COLUMNS_IN_INDEX => "SQL_MAX_COLUMNS_IN_INDEX"
  | SQL_MAX_COLUMNS_IN_ORDER_BY => "SQL_MAX_COLUMNS_IN_ORDER_BY"
  | SQL_MAX_COLUMNS_IN_SELECT => "SQL_MAX_COLUMNS_IN_SELECT"
  | SQL_MAX_COLUMNS_IN_TABLE => "SQL_MAX_COLUMNS_IN_TABLE"
  | SQL_MAX_CURSOR_NAME_LEN => "SQL_MAX_CURSOR_NAME_LEN"
  | SQL_MAX_DRIVER_CONNECTIONS => "SQL_MAX_DRIVER_CONNECTIONS"
  | SQL_MAX_INDEX_SIZE => "SQL_MAX_INDEX_SIZE"
  | SQL_MAX_PROCEDURE_NAME_LEN => "SQL_MAX_PROCEDURE_NAME_LEN"
  | SQL_MAX_ROW_SIZE => "SQL_MAX_ROW_SIZE"
  | SQL_MAX_ROW_SIZE_INCLUDES_LONG => "SQL_MAX_ROW_SIZE_INCLUDES_LONG"
  | SQL_MAX_SCHEMA_NAME_LEN => "SQL_MAX_SCHEMA_NAME_LEN"
  | SQL_MAX_STATEMENT_LEN => "SQL_MAX_STATEMENT_LEN"
  | SQL_MAX_TABLE_NAME_LEN => "SQL_MAX_TABLE_NAME_LEN"
  | SQL_MAX_TABLES_IN_SELECT => "SQL_MAX_TABLES_IN_SELECT"
  | SQL_MAX_USER_NAME_LEN => "SQL_MAX_USER_NAME_LEN"
  | SQL_MULT_RESULT_SETS => "SQL_MULT_RESULT_SETS"
  | SQL_MULTIPLE_ACTIVE_TXN => "SQL_MULTIPLE_ACTIVE_TXN"
  | SQL_NON_NULLABLE_COLUMNS => "SQL_NON_NULLABLE_COLUMNS"
  | SQL_NULL_COLLATION => "SQL_NULL_COLLATION"
  | SQL_ORDER_BY_COLUMNS_IN_SELECT => "SQL_ORDER_BY_COLUMNS_IN_SELECT"
  | SQL_PROCEDURE_TERM => "SQL_PROCEDURE_TERM" | SQL_PROCEDURES => "SQL_PROCEDURES"
  | SQL_ROW_UPDATES => "SQL_ROW_UPDATES" | SQL_SEARCH_PATTERN_ESCAPE => "SQL_SEARCH_PATTERN_ESCAPE"
  | SQL_SERVER_NAME => "SQL_SERVER_NAME"
  | SQL_SQL92_FOREIGN_KEY_DELETE_RULE => "SQL_SQL92_FOREIGN_KEY_DELETE_RULE"
  | SQL_SQL92_FOREIGN_KEY_UPDATE_RULE => "SQL_SQL92_FOREIGN_KEY_UPDATE_RULE"
  | SQL_SQL92_GRANT => "SQL_SQL92_GRANT" | SQL_SQL92_REVOKE => "SQL_SQL92_REVOKE"
  | SQL_SQL92_ROW_VALUE_CONSTRUCTOR => "SQL_SQL92_ROW_VALUE_CONSTRUCTOR"
  | SQL_STANDARD_CLI_CONFORMANCE => "SQL_STANDARD_CLI_CONFORMANCE"
  | SQL_SUBQUERIES => "SQL_SUBQUERIES" | SQL_TXN_ISOLATION_OPTION => "SQL_TXN_ISOLATION_OPTION"
  | SQL_UNION => "SQL_UNION" | SQL_USER_NAME => "SQL_USER_NAME"
  | SQL_ALTER_TABLE => "SQL_ALTER_TABLE" | SQL_FETCH_DIRECTION => "SQL_FETCH_DIRECTION"
  | SQL_LOCK_TYPES => "SQL_LOCK_TYPES" | SQL_ODBC_API_CONFORMANCE => "SQL_ODBC_API_CONFORMANCE"
  | SQL_ODBC_SQL_CONFORMANCE => "SQL_ODBC_SQL_CONFORMANCE"
  | SQL_POSITIONED_STATEMENTS => "SQL_POSITIONED_STATEMENTS"
  | SQL_SCROLL_CONCURRENCY => "SQL_SCROLL_CONCURRENCY"
  | SQL_STATIC_SENSITIVITY => "SQL_STATIC_SENSITIVITY"
  | SQL_DTC_TRANSITION_COST => "SQL_DTC_TRANSITION_COST" | SQL_DM_VER => "SQL_DM_VER"
  | SQL_XOPEN_CLI_YEAR => "SQL_XOPEN_CLI_YEAR"
  end.

Definition InfoTypeToString (type : Z) : text :=
  match decode type with
  | Some t => if defined t then txt (info_name t) else txt "<< UNKNOWN TYPE >>"
  | None => txt "<< UNKNOWN TYPE >>"
  end.

Definition GetFormatedDriverVersion : text :=
  Calendar.zero_padded 2 DRIVER_VERSION_MAJOR ++ txt "." ++
  Calendar.zero_padded 2 DRIVER_VERSION_MINOR ++ txt "." ++
  Calendar.zero_padded 4 DRIVER_VERSION_PATCH.

(** ** The tables *)

(** Constants joined by [|]. *)
Definition bits (l : list InfoValue) : Z := fold_right Z.lor 0 (map header_value l).

(** The entries of a system. *)
Definition on_system {A} (b : bool) (l : list A) : list A := if b then l else [].
Definition windows : bool := match platform with WIN32 => true | _ => false end.

(** The data source and its names. *)
Definition product_names : list (InfoType * text) :=
  match platform with
  | WIN32 => [(SQL_DRIVER_NAME, txt "iotsitewise.odbc.dll")]
  | APPLE => [(SQL_DRIVER_NAME, txt "libiotsitewise-odbc.dylib")]
  | LINUX => [(SQL_DRIVER_NAME, txt "libiotsitewise-odbc.so")]
  | OTHER_PLATFORM => []
  end ++
  [
    (SQL_DBMS_NAME, txt "AWS IoT SiteWise"); (SQL_DRIVER_ODBC_VER, txt "03.00");
    (SQL_DRIVER_VER, GetFormatedDriverVersion); (SQL_DBMS_VER, []);
    (SQL_COLUMN_ALIAS, txt "Y"); (SQL_IDENTIFIER_QUOTE_CHAR, ["034"%char]);
    (SQL_CATALOG_NAME_SEPARATOR, txt "."); (SQL_SPECIAL_CHARACTERS, txt "_");
    (SQL_CATALOG_TERM, if DATABASE_AS_SCHEMA then [] else txt "database");
    (SQL_TABLE_TERM, txt "table");
    (SQL_SCHEMA_TERM, if DATABASE_AS_SCHEMA then txt "schema" else []);
    (SQL_NEED_LONG_DATA_LEN, txt "N"); (SQL_ACCESSIBLE_PROCEDURES, txt "N");
    (SQL_ACCESSIBLE_TABLES, txt "N");
    (SQL_CATALOG_NAME, if DATABASE_AS_SCHEMA then txt "N" else txt "Y");
    (SQL_COLLATION_SEQ, []); (SQL_DATA_SOURCE_NAME, [])
  ].

(** What is supported, as texts. *)
Definition features : list (InfoType * text) :=
  [
    (SQL_DATA_SOURCE_READ_ONLY, txt "Y"); (SQL_DATABASE_NAME, []);
    (SQL_DESCRIBE_PARAMETER, txt "N"); (SQL_EXPRESSIONS_IN_ORDERBY, txt "Y");
    (SQL_INTEGRITY, txt "N"); (SQL_KEYWORDS, []); (SQL_LIKE_ESCAPE_CLAUSE, txt "Y");
    (SQL_MAX_ROW_SIZE_INCLUDES_LONG, txt "Y"); (SQL_MULT_RESULT_SETS, txt "N");
    (SQL_MULTIPLE_ACTIVE_TXN, txt "Y"); (SQL_ORDER_BY_COLUMNS_IN_SELECT, txt "Y");
    (SQL_PROCEDURE_TERM, []); (SQL_PROCEDURES, txt "N"); (SQL_ROW_UPDATES, txt "N");
    (SQL_SEARCH_PATTERN_ESCAPE, []); (SQL_SERVER_NAME, txt "AWS IoT SiteWise");
    (SQL_USER_NAME, [])
  ].

(** Asynchrony, batches, conformance. *)
Definition asynchrony_and_levels : list (InfoType * Z) :=
  [
    (SQL_ASYNC_DBC_FUNCTIONS, bits [SQL_ASYNC_DBC_NOT_CAPABLE]);
    (SQL_ASYNC_MODE, bits [SQL_AM_NONE]);
    (SQL_ASYNC_NOTIFICATION, bits [SQL_ASYNC_NOTIFICATION_NOT_CAPABLE]); (SQL_BATCH_ROW_COUNT, 0);
    (SQL_BATCH_SUPPORT, 0); (SQL_BOOKMARK_PERSISTENCE, 0);
    (SQL_CATALOG_LOCATION, if DATABASE_AS_SCHEMA then 0 else bits [SQL_CL_START]);
    (SQL_GETDATA_EXTENSIONS, bits [SQL_GD_ANY_COLUMN; SQL_GD_ANY_ORDER; SQL_GD_BOUND; SQL_GD_BLOCK]);
    (SQL_ODBC_INTERFACE_CONFORMANCE, bits [SQL_OIC_CORE]);
    (SQL_SQL_CONFORMANCE, bits [SQL_SC_SQL92_ENTRY])
  ].

(** Catalogs, schemas and scalar functions. *)
Definition usage_and_functions : list (InfoType * Z) :=
  [
    (SQL_CATALOG_USAGE, if DATABASE_AS_SCHEMA then 0 else bits [SQL_CU_DML_STATEMENTS]);
    (SQL_SCHEMA_USAGE, if DATABASE_AS_SCHEMA then bits [SQL_SU_DML_STATEMENTS; SQL_SU_TABLE_DEFINITION; SQL_SU_PRIVILEGE_DEFINITION; SQL_SU_INDEX_DEFINITION] else 0);
    (SQL_AGGREGATE_FUNCTIONS, bits [SQL_AF_ALL]);
    (SQL_NUMERIC_FUNCTIONS, bits [SQL_FN_NUM_ABS; SQL_FN_NUM_ATAN; SQL_FN_NUM_ATAN2; SQL_FN_NUM_COS; SQL_FN_NUM_COT; SQL_FN_NUM_DEGREES; SQL_FN_NUM_FLOOR; SQL_FN_NUM_LOG; SQL_FN_NUM_LOG10; SQL_FN_NUM_PI; SQL_FN_NUM_POWER; SQL_FN_NUM_RADIANS; SQL_FN_NUM_ROUND; SQL_FN_NUM_SIGN; SQL_FN_NUM_SIN; SQL_FN_NUM_SQRT; SQL_FN_NUM_TAN]);
    (SQL_STRING_FUNCTIONS, bits [SQL_FN_STR_ASCII; SQL_FN_STR_LENGTH; SQL_FN_STR_LTRIM; SQL_FN_STR_REPLACE; SQL_FN_STR_RTRIM; SQL_FN_STR_SUBSTRING]);
    (SQL_TIMEDATE_FUNCTIONS, bits [SQL_FN_TD_CURDATE; SQL_FN_TD_DAYOFMONTH; SQL_FN_TD_MONTH; SQL_FN_TD_MONTHNAME; SQL_FN_TD_NOW; SQL_FN_TD_YEAR]);
    (SQL_TIMEDATE_ADD_INTERVALS, bits [SQL_FN_TSI_FRAC_SECOND; SQL_FN_TSI_SECOND; SQL_FN_TSI_MINUTE; SQL_FN_TSI_HOUR; SQL_FN_TSI_DAY; SQL_FN_TSI_WEEK; SQL_FN_TSI_MONTH; SQL_FN_TSI_QUARTER; SQL_FN_TSI_YEAR]);
    (SQL_TIMEDATE_DIFF_INTERVALS, bits [SQL_FN_TSI_FRAC_SECOND; SQL_FN_TSI_SECOND; SQL_FN_TSI_MINUTE; SQL_FN_TSI_HOUR; SQL_FN_TSI_DAY; SQL_FN_TSI_WEEK; SQL_FN_TSI_MONTH; SQL_FN_TSI_QUARTER; SQL_FN_TSI_YEAR]);
    (SQL_DATETIME_LITERALS, 0); (SQL_SYSTEM_FUNCTIONS, bits [SQL_FN_SYS_IFNULL]);
    (SQL_CONVERT_FUNCTIONS, bits [SQL_FN_CVT_CAST]);
    (SQL_OJ_CAPABILITIES, bits [SQL_OJ_LEFT; SQL_OJ_RIGHT; SQL_OJ_NOT_ORDERED; SQL_OJ_ALL_COMPARISON_OPS])
  ].

(** SQL-92 functions, predicates and static cursors. *)
Definition sql92_and_cursors : list (InfoType * Z) :=
  [
    (SQL_POS_OPERATIONS, 0); (SQL_SQL92_NUMERIC_VALUE_FUNCTIONS, 0);
    (SQL_SQL92_STRING_FUNCTIONS, bits [SQL_SSF_CONVERT; SQL_SSF_LOWER; SQL_SSF_UPPER; SQL_SSF_SUBSTRING; SQL_SSF_TRANSLATE; SQL_SSF_TRIM_BOTH; SQL_SSF_TRIM_LEADING; SQL_SSF_TRIM_TRAILING]);
    (SQL_SQL92_DATETIME_FUNCTIONS, bits [SQL_SDF_CURRENT_DATE; SQL_SDF_CURRENT_TIME; SQL_SDF_CURRENT_TIMESTAMP]);
    (SQL_SQL92_VALUE_EXPRESSIONS, bits [SQL_SVE_CASE; SQL_SVE_CAST]);
    (SQL_SQL92_PREDICATES, bits [SQL_SP_BETWEEN; SQL_SP_COMPARISON; SQL_SP_IN; SQL_SP_ISNULL; SQL_SP_LIKE]);
    (SQL_SQL92_RELATIONAL_JOIN_OPERATORS, bits [SQL_SRJO_CROSS_JOIN; SQL_SRJO_INNER_JOIN; SQL_SRJO_LEFT_OUTER_JOIN; SQL_SRJO_RIGHT_OUTER_JOIN]);
    (SQL_STATIC_CURSOR_ATTRIBUTES1, bits [SQL_CA1_NEXT; SQL_CA1_ABSOLUTE; SQL_CA1_RELATIVE; SQL_CA1_BOOKMARK; SQL_CA1_LOCK_NO_CHANGE; SQL_CA1_POS_POSITION; SQL_CA1_POS_REFRESH]);
    (SQL_STATIC_CURSOR_ATTRIBUTES2, bits [SQL_CA2_READ_ONLY_CONCURRENCY; SQL_CA2_CRC_EXACT])
  ].

(** The conversions of CONVERT. *)
Definition conversions : list (InfoType * Z) :=
  [
    (SQL_CONVERT_BIGINT, bits [SQL_CVT_BIGINT; SQL_CVT_DOUBLE]); (SQL_CONVERT_BINARY, 0);
    (SQL_CONVERT_BIT, 0); (SQL_CONVERT_CHAR, 0); (SQL_CONVERT_VARCHAR, bits [SQL_CVT_VARCHAR]);
    (SQL_CONVERT_LONGVARCHAR, 0); (SQL_CONVERT_WCHAR, 0); (SQL_CONVERT_WVARCHAR, 0);
    (SQL_CONVERT_WLONGVARCHAR, 0); (SQL_CONVERT_GUID, 0); (SQL_CONVERT_DATE, bits [SQL_CVT_DATE]);
    (SQL_CONVERT_DECIMAL, 0);
    (SQL_CONVERT_DOUBLE, bits [SQL_CVT_INTEGER; SQL_CVT_BIGINT; SQL_CVT_DOUBLE]);
    (SQL_CONVERT_FLOAT, 0); (SQL_CONVERT_REAL, 0);
    (SQL_CONVERT_INTEGER, bits [SQL_CVT_INTEGER; SQL_CVT_BIGINT; SQL_CVT_DOUBLE]);
    (SQL_CONVERT_NUMERIC, 0); (SQL_CONVERT_SMALLINT, 0); (SQL_CONVERT_TINYINT, 0);
    (SQL_CONVERT_TIME, bits [SQL_CVT_TIME]); (SQL_CONVERT_TIMESTAMP, bits [SQL_CVT_TIMESTAMP]);
    (SQL_CONVERT_INTERVAL_DAY_TIME, 0); (SQL_CONVERT_INTERVAL_YEAR_MONTH, 0);
    (SQL_CONVERT_VARBINARY, 0); (SQL_CONVERT_LONGVARBINARY, 0)
  ].

(** Parameter arrays, scrolling, ALTER. *)
Definition arrays_and_alter : list (InfoType * Z) :=
  [
    (SQL_PARAM_ARRAY_ROW_COUNTS, bits [SQL_PARC_BATCH]);
    (SQL_PARAM_ARRAY_SELECTS, bits [SQL_PAS_NO_BATCH]);
    (SQL_SCROLL_OPTIONS, bits [SQL_SO_FORWARD_ONLY; SQL_SO_STATIC]); (SQL_ALTER_DOMAIN, 0);
    (SQL_ALTER_TABLE, 0)
  ].

(** CREATE. *)
Definition creation : list (InfoType * Z) :=
  [
    (SQL_CREATE_ASSERTION, 0); (SQL_CREATE_CHARACTER_SET, 0); (SQL_CREATE_COLLATION, 0);
    (SQL_CREATE_DOMAIN, 0); (SQL_CREATE_SCHEMA, 0); (SQL_CREATE_TABLE, 0);
    (SQL_CREATE_TRANSLATION, 0); (SQL_CREATE_VIEW, 0)
  ].

(** What a commit does to a cursor. *)
Definition commit_and_isolation : list (InfoType * Z) :=
  on_system (negb windows) [
    (SQL_CURSOR_COMMIT_BEHAVIOR, bits [SQL_CB_CLOSE]);
    (SQL_CURSOR_ROLLBACK_BEHAVIOR, bits [SQL_CB_PRESERVE])
  ] ++
  [
    (SQL_CURSOR_SENSITIVITY, bits [SQL_INSENSITIVE]);
    (SQL_DDL_INDEX, bits [SQL_DI_CREATE_INDEX; SQL_DI_DROP_INDEX]); (SQL_DEFAULT_TXN_ISOLATION, 0)
  ].

(** DROP. *)
Definition dropping : list (InfoType * Z) :=
  [
    (SQL_DROP_ASSERTION, 0); (SQL_DROP_CHARACTER_SET, 0); (SQL_DROP_COLLATION, 0);
    (SQL_DROP_DOMAIN, 0); (SQL_DROP_SCHEMA, 0); (SQL_DROP_TABLE, 0); (SQL_DROP_TRANSLATION, 0);
    (SQL_DROP_VIEW, 0)
  ].

(** Dynamic cursors. *)
Definition dynamic_cursors : list (InfoType * Z) :=
  [
    (SQL_DYNAMIC_CURSOR_ATTRIBUTES1, 0); (SQL_DYNAMIC_CURSOR_ATTRIBUTES2, 0)
  ].

(** Forward-only cursors, indices, the information schema. *)
Definition forward_cursors : list (InfoType * Z) :=
  [
    (SQL_FORWARD_ONLY_CURSOR_ATTRIBUTES1, bits [SQL_CA1_NEXT]);
    (SQL_FORWARD_ONLY_CURSOR_ATTRIBUTES2, bits [SQL_CA2_READ_ONLY_CONCURRENCY; SQL_CA2_CRC_EXACT]);
    (SQL_INDEX_KEYWORDS, bits [SQL_IK_NONE]); (SQL_INFO_SCHEMA_VIEWS, 0)
  ].

(** Keyset cursors and maximal lengths. *)
Definition keyset_and_lengths : list (InfoType * Z) :=
  [
    (SQL_INSERT_STATEMENT, 0); (SQL_KEYSET_CURSOR_ATTRIBUTES1, 0);
    (SQL_KEYSET_CURSOR_ATTRIBUTES2, 0); (SQL_MAX_ASYNC_CONCURRENT_STATEMENTS, 0);
    (SQL_MAX_BINARY_LITERAL_LEN, 0); (SQL_MAX_CATALOG_NAME_LEN, 0); (SQL_MAX_CHAR_LITERAL_LEN, 0);
    (SQL_MAX_INDEX_SIZE, 0); (SQL_MAX_ROW_SIZE, 0); (SQL_MAX_STATEMENT_LEN, 0)
  ].

(** Keys, privileges, subqueries, isolation. *)
Definition privileges_and_isolation : list (InfoType * Z) :=
  [
    (SQL_SQL92_FOREIGN_KEY_DELETE_RULE, 0); (SQL_SQL92_FOREIGN_KEY_UPDATE_RULE, 0);
    (SQL_SQL92_GRANT, 0); (SQL_SQL92_REVOKE, 0);
    (SQL_SQL92_ROW_VALUE_CONSTRUCTOR, bits [SQL_SRVC_VALUE_EXPRESSION; SQL_SRVC_NULL]);
    (SQL_STANDARD_CLI_CONFORMANCE, 0);
    (SQL_SUBQUERIES, bits [SQL_SQ_QUANTIFIED; SQL_SQ_IN; SQL_SQ_EXISTS; SQL_SQ_COMPARISON]);
    (SQL_TXN_ISOLATION_OPTION, 0)
  ].

(** The types of ODBC 2. *)
Definition odbc2_levels : list (InfoType * Z) :=
  [
    (SQL_UNION, bits [SQL_U_UNION; SQL_U_UNION_ALL]);
    (SQL_FETCH_DIRECTION, bits [SQL_FD_FETCH_NEXT; SQL_FD_FETCH_FIRST; SQL_FD_FETCH_LAST; SQL_FD_FETCH_PRIOR; SQL_FD_FETCH_ABSOLUTE; SQL_FD_FETCH_RELATIVE; SQL_FD_FETCH_BOOKMARK]);
    (SQL_LOCK_TYPES, bits [SQL_LCK_NO_CHANGE]); (SQL_ODBC_API_CONFORMANCE, bits [SQL_OAC_LEVEL1]);
    (SQL_ODBC_SQL_CONFORMANCE, bits [SQL_OSC_CORE]); (SQL_POSITIONED_STATEMENTS, 0);
    (SQL_SCROLL_CONCURRENCY, bits [SQL_SCCO_READ_ONLY]); (SQL_STATIC_SENSITIVITY, 0)
  ].

(** What the driver manager answers. *)
Definition manager_texts : list (InfoType * text) :=
  [
    (SQL_DM_VER, []); (SQL_XOPEN_CLI_YEAR, [])
  ].

(** Behaviours and limits. *)
Definition limits : list (InfoType * Z) :=
  [
    (SQL_MAX_CONCURRENT_ACTIVITIES, 0); (SQL_TXN_CAPABLE, bits [SQL_TC_NONE]);
    (SQL_QUOTED_IDENTIFIER_CASE, bits [SQL_IC_SENSITIVE]); (SQL_ACTIVE_ENVIRONMENTS, 0);
    (SQL_CONCAT_NULL_BEHAVIOR, bits [SQL_CB_NULL]); (SQL_CORRELATION_NAME, bits [SQL_CN_ANY]);
    (SQL_FILE_USAGE, bits [SQL_FILE_NOT_SUPPORTED]);
    (SQL_GROUP_BY, bits [SQL_GB_GROUP_BY_CONTAINS_SELECT]);
    (SQL_IDENTIFIER_CASE, bits [SQL_IC_SENSITIVE])
  ].

(** Further limits. *)
Definition more_limits : list (InfoType * Z) :=
  [
    (SQL_MAX_COLUMN_NAME_LEN, NAMEDATALEN); (SQL_MAX_COLUMNS_IN_GROUP_BY, 0);
    (SQL_MAX_COLUMNS_IN_INDEX, 0); (SQL_MAX_COLUMNS_IN_ORDER_BY, 0);
    (SQL_MAX_COLUMNS_IN_SELECT, 0); (SQL_MAX_COLUMNS_IN_TABLE, 0);
    (SQL_MAX_CURSOR_NAME_LEN, MAX_CURSOR_LEN); (SQL_MAX_DRIVER_CONNECTIONS, 0);
    (SQL_MAX_IDENTIFIER_LEN, NAMEDATALEN); (SQL_MAX_PROCEDURE_NAME_LEN, 0);
    (SQL_MAX_SCHEMA_NAME_LEN, NAMEDATALEN); (SQL_MAX_TABLE_NAME_LEN, NAMEDATALEN);
    (SQL_MAX_TABLES_IN_SELECT, 0); (SQL_MAX_USER_NAME_LEN, 0);
    (SQL_NON_NULLABLE_COLUMNS, bits [SQL_NNC_NON_NULL]); (SQL_NULL_COLLATION, bits [SQL_NC_HIGH])
  ].

Definition string_entries : list (InfoType * text) := product_names ++ features ++ manager_texts.
Definition int_entries : list (InfoType * Z) :=
  asynchrony_and_levels ++ usage_and_functions ++ sql92_and_cursors ++ conversions ++
   arrays_and_alter ++ creation ++
   commit_and_isolation ++ dropping ++ dynamic_cursors ++
   forward_cursors ++ keyset_and_lengths ++ privileges_and_isolation ++ odbc2_levels.
Definition short_entries : list (InfoType * Z) := limits ++ more_limits.

(** The entries in the order of their assignments. *)
Definition table {A} (entries : list (InfoType * A)) : gmap Z A :=
  foldl (fun m '(t, v) => if defined t then <[id_of t := v]> m else m) ∅ entries.

Definition NewConnectionInfo : ConnectionInfo :=
  MkInfo (table string_entries) (u32 <$> table int_entries) (u16 <$> table short_entries).

(** ** The operations *)

Definition GetInfo (type : Z) (buf : pointer) (buflen : Z) (reslen : pointer) (info : ConnectionInfo)
    (m : Memory) : SqlResult * Memory :=
  match strParams info !! type with
  | Some s =>
      if bool_decide (is_Some buf) && (buflen =? 0) then (AI_ERROR, m)
      else
        let '(strlen, _, m) := CopyStringToBuffer s buf (u64 buflen) true m in
        (AI_SUCCESS, match reslen with Some r => store r (le_bytes 2 strlen) m | None => m end)
  | None =>
      match buf with
      | None => (AI_ERROR, m)
      | Some res =>
          match intParams info !! type, shortParams info !! type with
          | Some v, _ => (AI_SUCCESS, store res (le_bytes 4 v) m)
          | None, Some v => (AI_SUCCESS, store res (le_bytes 2 v) m)
          | None, None => (AI_ERROR, m)
          end
      end
  end.

Definition SetInfo (type : Z) (value : text) (info : ConnectionInfo) : ConnectionInfo * SqlResult :=
  match strParams info !! type with
  | Some _ => (MkInfo (<[type := value]> (strParams info)) (intParams info) (shortParams info), AI_SUCCESS)
  | None => (info, AI_ERROR)
  end.

(** ** Which types are answered *)

Lemma table_known {A} (entries : list (InfoType * A)) t :
  In t (map fst entries) -> defined t = true -> is_Some (table entries !! id_of t).
Proof.
  unfold table. intros Hin Hd.
  assert (Hacc : forall m : gmap Z A, is_Some (m !! id_of t) \/ In t (map fst entries) ->
    is_Some (foldl (fun m '(t, v) => if defined t then <[id_of t := v]> m else m) m entries !! id_of t)).
  { clear Hin. induction entries as [|[t' v] entries IH]; intros m [Hm|Hin]; [done|done|..]; apply IH.
    - left. destruct (defined t'); [|done]. destruct (decide (id_of t' = id_of t)) as [->|Hn].
      + by rewrite lookup_insert_eq.
      + by rewrite lookup_insert_ne.
    - destruct Hin as [E|Hin]; [left|by right]. cbn in E. subst t'. rewrite Hd.
      by rewrite lookup_insert_eq. }
  apply Hacc. by right.
Qed.

Lemma table_missing {A} (entries : list (InfoType * A)) t :
  ~ In t (map fst entries) -> table entries !! id_of t = None.
Proof.
  unfold table. intros Hn.
  assert (Hacc : forall m : gmap Z A, m !! id_of t = None ->
    foldl (fun m '(t, v) => if defined t then <[id_of t := v]> m else m) m entries !! id_of t = None).
  { induction entries as [|[t' v] entries IH]; intros m Hm; [done|]. cbn [map fst] in Hn.
    apply IH; [intros Hin; by apply Hn; right|].
    destruct (defined t'); [|done]. rewrite lookup_insert_ne; [done|].
    intros E%(inj id_of). apply Hn. left. exact E. }
  by apply Hacc.
Qed.

Lemma table_unknown {A} (entries : list (InfoType * A)) z :
  (forall t : InfoType, z <> id_of t) -> table entries !! z = None.
Proof.
  intros Hz. unfold table.
  assert (Hacc : forall m : gmap Z A, m !! z = None ->
    foldl (fun m '(t, v) => if defined t then <[id_of t := v]> m else m) m entries !! z = None).
  { induction entries as [|[t v] entries IH]; intros m Hm; [done|]. apply IH.
    destruct (defined t); [|done]. by rewrite lookup_insert_ne. }
  by apply Hacc.
Qed.

(** No table has [SQL_DTC_TRANSITION_COST]; two types are missing on Windows and
    the name of the driver on a system that is none of the three. *)
Definition answered (t : InfoType) : bool :=
  match t, platform with
  | SQL_DTC_TRANSITION_COST, _ => false
  | (SQL_CURSOR_COMMIT_BEHAVIOR | SQL_CURSOR_ROLLBACK_BEHAVIOR), WIN32 => false
  | SQL_DRIVER_NAME, OTHER_PLATFORM => false
  | _, _ => true
  end.

Definition has_key {A} (t : InfoType) (entries : list (InfoType * A)) : bool :=
  existsb (fun k => Pos.eqb (info_index k) (info_index t)) (map fst entries).

Lemma has_key_in {A} t (entries : list (InfoType * A)) : has_key t entries = true -> In t (map fst entries).
Proof.
  intros (k & Hk & E)%existsb_exists. apply Pos.eqb_eq, info_index_inj in E. by subst k.
Qed.

Lemma in_has_key {A} t (entries : list (InfoType * A)) : In t (map fst entries) -> has_key t entries = true.
Proof. intros Hin. apply existsb_exists. exists t. split; [done|]. by apply Pos.eqb_eq. Qed.

Lemma keys_missing t :
  answered t = false ->
  has_key t string_entries || (has_key t int_entries || has_key t short_entries) = false.
Proof.
  unfold answered, string_entries, int_entries, short_entries, product_names, commit_and_isolation, windows.
  destruct platform, t; intros E; first [discriminate E | vm_compute; reflexivity].
Qed.

Lemma missing_key {A} t (entries : list (InfoType * A)) : has_key t entries = false -> table entries !! id_of t = None.
Proof. intros Hk. apply table_missing. intros Hin%in_has_key. congruence. Qed.

Lemma keys_cover t :
  answered t = true ->
  has_key t string_entries || (has_key t int_entries || has_key t short_entries) = true.
Proof.
  unfold answered, string_entries, int_entries, short_entries, product_names, commit_and_isolation, windows.
  destruct platform, t; intros E; first [discriminate E | vm_compute; reflexivity].
Qed.
End Info.

(** Numbers for runs. *)
Definition RunHeaders : InfoHeaders := {|
  info_types := {| id_of t := Zpos (info_index t); id_of_inj := ltac:(intros a b [= E]; by apply info_index_inj) |};
  header_value _ := 1; defined _ := true; platform := LINUX;
  DRIVER_VERSION_MAJOR := 1; DRIVER_VERSION_MINOR := 0; DRIVER_VERSION_PATCH := 0
|}.

(** ** Properties *)


End Info.
