(* ===== verification/Pattern.v ===== *)
(** * Pattern: search patterns of the catalog functions as regular expressions

    Models [UpdateRegexExpression] and [ConvertPatternToRegex]
    ([src/utility.cpp]), which translate an ODBC search pattern ('_' any
    character, '%' any text, backslash an escape) into an ECMAScript regular
    expression. The meaning of the result is given by a reader and a matcher for
    the part of the ECMAScript grammar the translation produces (ordinary
    characters, ".", ".*" and one-character classes), the meaning of the pattern
    by a LIKE matcher. *)

From S2P Require Import Prelude Text.

Module Pattern.
Import Text.

(** [pattern.substr(from, count)]. *)
Definition piece (s : text) (from count : Z) : text :=
  take (Z.to_nat count) (drop (Z.to_nat from) s).

(** The new start and the text converted so far. *)
Definition UpdateRegexExpression (index start : Z) (pattern str converted : text) : Z * text :=
  let converted :=
    if 0 <? index - start then converted ++ piece pattern start (index - start) else converted in
  (index + 1, converted ++ str).

Definition backslash : ascii := "092"%char.

(** The loop at [index], with [rest] the characters from there on. *)
Fixpoint convert_loop (rest : text) (index start : Z) (escapeFound : bool)
    (pattern converted : text) : Z * text :=
  match rest with
  | [] => (start, converted)
  | currChar :: rest' =>
      if bool_decide (currChar = backslash) then
        let '(start, converted) :=
          if escapeFound then
            let '(start, converted) :=
              UpdateRegexExpression (index - 1) start pattern ["["%char; backslash; "]"%char]
                converted in
            (start + 1, converted)
          else (start, converted) in
        convert_loop rest' (index + 1) start (negb escapeFound) pattern converted
      else if escapeFound then
        let '(start, converted) :=
          UpdateRegexExpression (index - 1) start pattern ["["%char; currChar; "]"%char]
            converted in
        convert_loop rest' (index + 1) (start + 1) false pattern converted
      else if bool_decide (currChar = "_"%char) then
        let '(start, converted) := UpdateRegexExpression index start pattern (txt ".") converted in
        convert_loop rest' (index + 1) start escapeFound pattern converted
      else if bool_decide (currChar = "%"%char) then
        let '(start, converted) := UpdateRegexExpression index start pattern (txt ".*") converted in
        convert_loop rest' (index + 1) start escapeFound pattern converted
      else convert_loop rest' (index + 1) start escapeFound pattern converted
  end.

(** [pattern.length() - start > 0] is a test for inequality on [size_t]. *)
Definition ConvertPatternToRegex (pattern : text) : text :=
  if bool_decide (pattern = []) || bool_decide (Trim pattern = []) then []
  else
    let '(start, converted) := convert_loop pattern 0 0 false pattern [] in
    if negb (Z.of_nat (length pattern) =? start)
    then converted ++ drop (Z.to_nat start) pattern else converted.

(** ** Regular expressions *)

Inductive atom : Type := AnyChar | Char (c : ascii).

(** [.] matches no line terminator. *)
Definition atom_matches (a : atom) (c : ascii) : bool :=
  match a with
  | AnyChar => negb ((code c =? 10) || (code c =? 13))
  | Char d => bool_decide (c = d)
  end.

(** Characters with a meaning of their own in a regular expression. *)
Definition syntax_chars : list ascii := backslash :: txt "^$.*+?()[]{}|".

(** A class of one character is read when that is none of these. *)
Definition class_chars : list ascii := [backslash; "^"%char; "["%char; "]"%char].

(** A regular expression is a list of atoms, each with or without a star; [None]
    outside the grammar read here. *)
Fixpoint read_regex (fuel : nat) (s : text) : option (list (atom * bool)) :=
  match fuel with
  | O => None
  | S f =>
      match s with
      | [] => Some []
      | c :: s' =>
          if bool_decide (c = "."%char) then
            match s' with
            | d :: s'' =>
                if bool_decide (d = "*"%char) then cons (AnyChar, true) <$> read_regex f s''
                else cons (AnyChar, false) <$> read_regex f s'
            | [] => cons (AnyChar, false) <$> read_regex f s'
            end
          else if bool_decide (c = "["%char) then
            match s' with
            | d :: e :: s'' =>
                if bool_decide (d ∈ class_chars) || negb (bool_decide (e = "]"%char)) then None
                else cons (Char d, false) <$> read_regex f s''
            | _ => None
            end
          else if bool_decide (c ∈ syntax_chars) then None
          else cons (Char c, false) <$> read_regex f s'
      end
  end.

(** [regex_match]: the whole text. *)
Fixpoint star (a : atom) (k : text -> bool) (s : text) : bool :=
  k s || match s with c :: s' => atom_matches a c && star a k s' | [] => false end.

Fixpoint regex_match (r : list (atom * bool)) (s : text) : bool :=
  match r with
  | [] => bool_decide (s = [])
  | (a, true) :: r' => star a (regex_match r') s
  | (a, false) :: r' =>
      match s with c :: s' => atom_matches a c && regex_match r' s' | [] => false end
  end.

(** ** Search patterns *)

Fixpoint any_suffix (k : text -> bool) (s : text) : bool :=
  k s || match s with _ :: s' => any_suffix k s' | [] => false end.

(** The text matches the pattern; [esc]: a backslash has just been read. *)
Fixpoint like (esc : bool) (p : text) (s : text) : bool :=
  match p with
  | [] => negb esc && bool_decide (s = [])
  | c :: p' =>
      if esc then match s with d :: s' => bool_decide (d = c) && like false p' s' | [] => false end
      else if bool_decide (c = backslash) then like true p' s
      else if bool_decide (c = "_"%char) then
        match s with _ :: s' => like false p' s' | [] => false end
      else if bool_decide (c = "%"%char) then any_suffix (like false p') s
      else match s with d :: s' => bool_decide (d = c) && like false p' s' | [] => false end
  end.

(** Patterns whose characters have no meaning of their own in a regular
    expression, and whose escapes are complete. *)
Fixpoint plain (esc : bool) (p : text) : bool :=
  match p with
  | [] => negb esc
  | c :: p' =>
      if esc then negb (bool_decide (c ∈ class_chars)) && plain false p'
      else if bool_decide (c = backslash) then plain true p'
      else negb (bool_decide (c ∈ syntax_chars)) && plain false p'
  end.

Definition no_newline (s : text) : bool :=
  forallb (fun c => negb ((code c =? 10) || (code c =? 13))) s.

(** ** The translation, without positions *)

Fixpoint translate (esc : bool) (p : text) : text :=
  match p with
  | [] => if esc then [backslash] else []
  | c :: p' =>
      if esc then ["["%char; c; "]"%char] ++ translate false p'
      else if bool_decide (c = backslash) then translate true p'
      else if bool_decide (c = "_"%char) then txt "." ++ translate false p'
      else if bool_decide (c = "%"%char) then txt ".*" ++ translate false p'
      else c :: translate false p'
  end.

(** The characters from [start] on that have not been copied. *)
Definition held (esc : bool) (start : Z) (pre : text) : text :=
  drop (Z.to_nat start) (take (length pre - (if esc then 1 else 0)) pre).

Lemma piece_pre pre rest start n :
  0 <= start <= n -> n <= Z.of_nat (length pre) ->
  piece (pre ++ rest) start (n - start) = drop (Z.to_nat start) (take (Z.to_nat n) pre).
Proof.
  intros Hs Hn. unfold piece. rewrite take_drop_commute.
  replace (Z.to_nat start + Z.to_nat (n - start))%nat with (Z.to_nat n) by lia.
  by rewrite take_app_le by lia.
Qed.

Lemma update_expr index start pre rest str conv :
  0 <= start <= index -> index <= Z.of_nat (length pre) ->
  UpdateRegexExpression index start (pre ++ rest) str conv =
    (index + 1, conv ++ drop (Z.to_nat start) (take (Z.to_nat index) pre) ++ str).
Proof.
  intros Hs Hn. unfold UpdateRegexExpression. destruct (Z.ltb_spec 0 (index - start)).
  - rewrite piece_pre by lia. by rewrite <- app_assoc.
  - assert (E : drop (Z.to_nat start) (take (Z.to_nat index) pre) = []).
    { apply drop_ge. rewrite length_take. lia. }
    by rewrite E.
Qed.

(** What holds when the loop is at the end of [pre]. *)
Definition loop_inv (esc : bool) (start : Z) (pre : text) : Prop :=
  0 <= start /\
  if esc then exists pre', pre = pre' ++ [backslash] /\ start <= Z.of_nat (length pre')
  else start <= Z.of_nat (length pre).

Lemma held_plain start pre c :
  0 <= start <= Z.of_nat (length pre) -> held false start (pre ++ [c]) = held false start pre ++ [c].
Proof.
  intros Hs. unfold held. rewrite !Nat.sub_0_r, !take_ge by done.
  by rewrite drop_app_le by lia.
Qed.

Lemma held_full start pre : Z.of_nat (length pre) <= start -> held false start pre = [].
Proof. intros Hs. unfold held. rewrite Nat.sub_0_r, take_ge by done. apply drop_ge. lia. Qed.

Lemma held_escape start pre c : held true start (pre ++ [c]) = held false start pre.
Proof.
  unfold held. rewrite length_app. cbn [length]. rewrite Nat.add_sub, Nat.sub_0_r.
  by rewrite take_app_length, take_ge.
Qed.

Lemma convert_loop_ok rest pre start esc conv :
  loop_inv esc start pre ->
  let '(start', conv') := convert_loop rest (Z.of_nat (length pre)) start esc (pre ++ rest) conv in
  0 <= start' <= Z.of_nat (length (pre ++ rest)) /\
  conv' ++ drop (Z.to_nat start') (pre ++ rest) = conv ++ held esc start pre ++ translate esc rest.
Proof.
  revert pre start esc conv. induction rest as [|c rest IH]; intros pre start esc conv [Hs Hinv].
  - cbn [convert_loop translate]. rewrite app_nil_r. destruct esc.
    + destruct Hinv as (pre' & -> & Hle). rewrite length_app. cbn [length]. split; [lia|].
      rewrite held_escape, drop_app_le by lia. f_equal. f_equal.
      unfold held. by rewrite Nat.sub_0_r, take_ge.
    + split; [lia|]. unfold held. by rewrite Nat.sub_0_r, take_ge, app_nil_r.
  - assert (Hpat : pre ++ c :: rest = (pre ++ [c]) ++ rest) by (by rewrite <- app_assoc).
    assert (Hlen : Z.of_nat (length pre) + 1 = Z.of_nat (length (pre ++ [c])))
      by (rewrite length_app; cbn; lia).
    assert (Hfull : forall st, st = Z.of_nat (length pre) + 1 -> loop_inv false st (pre ++ [c]))
      by (intros st ->; unfold loop_inv; rewrite Hlen; lia).
    (* a step that copies what is held and appends [str] *)
    assert (Hcopy : forall n str, n = Z.of_nat (length pre) - (if esc then 1 else 0) ->
      UpdateRegexExpression n start (pre ++ c :: rest) str conv =
        (n + 1, conv ++ held esc start pre ++ str)).
    { intros n str ->. rewrite update_expr.
      - unfold held.
        replace (Z.to_nat (Z.of_nat (length pre) - (if esc then 1 else 0)))
          with (length pre - (if esc then 1 else 0))%nat by (destruct esc; lia). done.
      - destruct esc; [destruct Hinv as (pre' & -> & Hle); rewrite length_app; cbn|]; lia.
      - destruct esc; lia. }
    assert (Hnext : forall st str, st = Z.of_nat (length pre) + 1 ->
      let '(start', conv') := convert_loop rest (Z.of_nat (length pre) + 1) st false
                                ((pre ++ [c]) ++ rest) (conv ++ held esc start pre ++ str) in
      0 <= start' <= Z.of_nat (length ((pre ++ [c]) ++ rest)) /\
      conv' ++ drop (Z.to_nat start') ((pre ++ [c]) ++ rest) =
        conv ++ held esc start pre ++ str ++ translate false rest).
    { intros st str Hst. rewrite Hlen. specialize (IH (pre ++ [c]) st false
        (conv ++ held esc start pre ++ str) (Hfull st Hst)).
      destruct (convert_loop _ _ _ _ _ _) as [s' c']. destruct IH as [H1 ->]. split; [done|].
      rewrite (held_full st) by lia. by rewrite <- !app_assoc. }
    assert (Hkeep : forall e, esc = false -> (e = true -> c = backslash) ->
      translate false (c :: rest) = (if e then [] else [c]) ++ translate e rest ->
      let '(start', conv') := convert_loop rest (Z.of_nat (length pre) + 1) start e
                                ((pre ++ [c]) ++ rest) conv in
      0 <= start' <= Z.of_nat (length ((pre ++ [c]) ++ rest)) /\
      conv' ++ drop (Z.to_nat start') ((pre ++ [c]) ++ rest) =
        conv ++ held esc start pre ++ translate false (c :: rest)).
    { intros e -> He ->. rewrite Hlen.
      assert (Hi : loop_inv e start (pre ++ [c])).
      { split; [done|]. destruct e; [exists pre; by rewrite He|]. rewrite length_app. cbn. lia. }
      specialize (IH (pre ++ [c]) start e conv Hi).
      destruct (convert_loop _ _ _ _ _ _) as [s' c']. destruct IH as [H1 ->]. split; [done|].
      f_equal. destruct e; [by rewrite held_escape|]. rewrite held_plain by lia.
      by rewrite <- app_assoc. }
    cbn [convert_loop]. rewrite Hpat in Hcopy |- *.
    destruct esc.
    + (* after an escape *)
      assert (Ht : translate true (c :: rest) = ["["%char; c; "]"%char] ++ translate false rest) by done.
      rewrite Ht. case_bool_decide as E.
      * subst c. rewrite (Hcopy (Z.of_nat (length pre) - 1)) by done. apply Hnext. lia.
      * rewrite (Hcopy (Z.of_nat (length pre) - 1)) by done. apply Hnext. lia.
    + case_bool_decide as E; [|case_bool_decide as E1; [|case_bool_decide as E2]].
      * apply (Hkeep true); [done|done|]. cbn [translate app].
        by rewrite (bool_decide_eq_true_2 (c = backslash)).
      * rewrite (Hcopy (Z.of_nat (length pre))) by lia.
        replace (translate false (c :: rest)) with (txt "." ++ translate false rest).
        2:{ cbn [translate]. by rewrite bool_decide_eq_false_2, bool_decide_eq_true_2. }
        by apply Hnext.
      * rewrite (Hcopy (Z.of_nat (length pre))) by lia.
        replace (translate false (c :: rest)) with (txt ".*" ++ translate false rest).
        2:{ cbn [translate]. do 2 rewrite bool_decide_eq_false_2 by done.
            by rewrite bool_decide_eq_true_2. }
        by apply Hnext.
      * apply (Hkeep false); [done|done|]. cbn [translate]. by rewrite !bool_decide_eq_false_2.
Qed.

Lemma convert_translate p :
  p <> [] -> Trim p <> [] -> ConvertPatternToRegex p = translate false p.
Proof.
  intros Hp Ht. unfold ConvertPatternToRegex. rewrite !bool_decide_eq_false_2 by done. cbn [orb].
  pose proof (convert_loop_ok p [] 0 false [] ltac:(split; cbn; lia)) as H.
  change (Z.of_nat (length [])) with 0 in H. change ([] ++ p) with p in H.
  destruct (convert_loop p 0 0 false p []) as [st cv]. destruct H as [Hr E].
  cbn [held app] in E. change (held false 0 []) with (@nil ascii) in E. cbn [app] in E.
  destruct (Z.eqb_spec (Z.of_nat (length p)) st) as [Es|Es]; cbn [negb]; [|done].
  rewrite <- E, drop_ge by lia. by rewrite app_nil_r.
Qed.

(** ** The meaning of the translation *)

(** The atoms of a plain pattern. *)
Fixpoint atoms (esc : bool) (p : text) : list (atom * bool) :=
  match p with
  | [] => []
  | c :: p' =>
      if esc then (Char c, false) :: atoms false p'
      else if bool_decide (c = backslash) then atoms true p'
      else if bool_decide (c = "_"%char) then (AnyChar, false) :: atoms false p'
      else if bool_decide (c = "%"%char) then (AnyChar, true) :: atoms false p'
      else (Char c, false) :: atoms false p'
  end.

(** What follows a translated '_' is not a star. *)
Lemma translate_head p : plain false p = true -> head (translate false p) <> Some "*"%char.
Proof.
  destruct p as [|c p]; [done|]. cbn [plain translate].
  case_bool_decide as E.
  - destruct p as [|d p]; [done|]. done.
  - intros [Hc%negb_true_iff%bool_decide_eq_false_1 _]%andb_true_iff.
    case_bool_decide; [done|]. case_bool_decide; [done|].
    intros [= ->]. by apply Hc, (bool_decide_unpack _).
Qed.

Lemma read_translate p esc fuel :
  plain esc p = true -> (length (translate esc p) < fuel)%nat ->
  read_regex fuel (translate esc p) = Some (atoms esc p).
Proof.
  revert esc fuel. induction p as [|c p IH]; intros esc fuel Hp Hf.
  - destruct esc; [done|]. destruct fuel; [cbn in Hf; lia|done].
  - destruct fuel as [|f]; [lia|]. cbn [plain translate atoms] in *. destruct esc.
    + apply andb_true_iff in Hp as [Hc Hp]. cbn [app length] in *. cbn [read_regex].
      apply negb_true_iff in Hc. rewrite Hc. cbn.
      by rewrite IH by (done || (cbn in Hf; lia)).
    + case_bool_decide as E; [by apply IH|]. apply andb_true_iff in Hp as [Hc Hp].
      case_bool_decide as E1; [|case_bool_decide as E2].
      * cbn [app length txt list_ascii_of_string] in *. cbn [read_regex].
        pose proof (translate_head p Hp) as Hh. specialize (IH false f Hp ltac:(lia)).
        rewrite bool_decide_eq_true_2 by done.
        destruct (translate false p) as [|d t]; [by rewrite IH|].
        rewrite (bool_decide_eq_false_2 (d = "*"%char)) by (intros ->; by apply Hh). by rewrite IH.
      * cbn [app length txt list_ascii_of_string] in *. cbn [read_regex].
        rewrite !bool_decide_eq_true_2 by done. by rewrite IH by (done || lia).
      * cbn [length] in Hf. cbn [read_regex]. apply negb_true_iff in Hc.
        assert (Hn : c ∉ syntax_chars) by (by apply bool_decide_eq_false_1 in Hc).
        rewrite (bool_decide_eq_false_2 (c = "."%char)) by (intros ->; by apply Hn, (bool_decide_unpack _)).
        rewrite (bool_decide_eq_false_2 (c = "["%char)) by (intros ->; by apply Hn, (bool_decide_unpack _)).
        rewrite Hc. by rewrite IH by (done || lia).
Qed.

Lemma star_any k k' s :
  (forall t, no_newline t = true -> k t = k' t) -> no_newline s = true ->
  star AnyChar k s = any_suffix k' s.
Proof.
  intros Hk. induction s as [|c s IH]; intros Hs; cbn [star any_suffix]; rewrite Hk by done; [done|].
  cbn in Hs. apply andb_true_iff in Hs as [Hc Hs]. cbn [atom_matches]. by rewrite Hc, IH.
Qed.

Lemma atoms_match p esc s :
  plain esc p = true -> no_newline s = true -> regex_match (atoms esc p) s = like esc p s.
Proof.
  revert esc s. induction p as [|c p IH]; intros esc s Hp Hs.
  - by destruct esc.
  - assert (Hone : forall a b, plain false p = true ->
      (forall d, no_newline [d] = true -> atom_matches a d = b d) ->
      regex_match ((a, false) :: atoms false p) s =
        match s with d :: s' => b d && like false p s' | [] => false end).
    { intros a b Hp' Hab. destruct s as [|d s]; [done|]. cbn in Hs.
      apply andb_true_iff in Hs as [Hd Hs]. cbn [regex_match].
      rewrite Hab by (cbn; by rewrite Hd). by rewrite IH. }
    cbn [plain atoms like] in *. destruct esc.
    + apply andb_true_iff in Hp as [_ Hp]. by apply Hone.
    + case_bool_decide; [by apply IH|]. apply andb_true_iff in Hp as [_ Hp].
      case_bool_decide; [|case_bool_decide].
      * rewrite (Hone AnyChar (fun _ => true)); [by destruct s|done|].
        intros d Hd. cbn in *. by rewrite andb_true_r in Hd.
      * cbn [regex_match]. apply star_any; [|done]. intros t Ht. by apply IH.
      * by apply Hone.
Qed.
End Pattern.

(** C24. The regular expression made from a search pattern means what the pattern
    means, for a pattern that is not blank, has complete escapes and no character
    that is syntax in a regular expression: it is read as a regular expression,
    and it matches exactly the texts (of one line) that the pattern matches. *)
Theorem ConvertPatternToRegex_like (p s : Text.text) :
  Text.Trim p <> [] -> Pattern.plain false p = true -> Pattern.no_newline s = true ->
  exists r, Pattern.read_regex (S (length (Pattern.ConvertPatternToRegex p)))
              (Pattern.ConvertPatternToRegex p) = Some r /\
    Pattern.regex_match r s = Pattern.like false p s.
Proof.
  intros Ht Hp Hs. assert (Hne : p <> []) by (by intros ->).
  rewrite Pattern.convert_translate by done. exists (Pattern.atoms false p). split.
  - apply Pattern.read_translate; [done|lia].
  - by apply Pattern.atoms_match.
Qed.

Lemma ConvertPatternToRegex_witness :
  let p := Text.txt "tab%\_" ++ Text.txt "_1" in
  Pattern.ConvertPatternToRegex p = Text.txt "tab.*[_].1" /\
  exists r, Pattern.read_regex 11 (Text.txt "tab.*[_].1") = Some r /\
    Pattern.regex_match r (Text.txt "table_x1") = true.
Proof.
  intros p. split; [vm_compute; reflexivity|].
  destruct (ConvertPatternToRegex_like p (Text.txt "table_x1")) as (r & Hr & Hm);
    [discriminate|reflexivity|reflexivity|].
  exists r. split; [exact Hr|]. rewrite Hm. vm_compute. reflexivity.
Defined.

(** An escaped backslash becomes a class that is never closed, and an ordinary
    dot becomes any character. *)
Lemma escaped_backslash_unreadable :
  Pattern.ConvertPatternToRegex (Text.txt "a\\b") = Text.txt "a[\]b" /\
  Pattern.read_regex 6 (Text.txt "a[\]b") = None.
Proof. split; vm_compute; reflexivity. Qed.
