(* ===== verification/Environment.v ===== *)
(** * Environment: the environment handle

    Models [src/environment.cpp]: the set of live connections and the two
    attributes of an environment. A connection is the address the allocator
    returns for it; [None] is a failed allocation. *)

From S2P Require Import Prelude Text Diagnostics.

Module Env.
Import Text Diag.

Section Env.
Context `{OdbcConstants}.

Record Environment : Type := MkEnv {
  connections : gset positive;
  odbcVersion : Z;
  odbcNts : Z;
  diagnosticRecords : DiagnosticRecordStorage
}.

Definition set_diag (e : Environment) (d : DiagnosticRecordStorage) : Environment :=
  MkEnv (connections e) (odbcVersion e) (odbcNts e) d.

#[global, refine] Instance Environment_Diagnosable : Diagnosable Environment := {|
  GetDiagnosticRecords := diagnosticRecords; SetDiagnosticRecords := set_diag
|}.
Proof. done. Defined.

Definition NewEnvironment : Environment := MkEnv ∅ SQL_OV_ODBC3 SQL_TRUE NewStorage.

(** [AddStatusRecord] of a handle without a connection. *)
Definition env_add (e : Environment) (st : SqlState) (msg : text) : Environment :=
  set_diag e (AdapterAddStatusRecord false (diagnosticRecords e) st msg 0 0).

Definition InternalCreateConnection (fresh : option positive) (e : Environment)
    : Environment * SqlResult :=
  match fresh with
  | None => (env_add e SHY001_MEMORY_ALLOCATION (txt "Not enough memory."), AI_ERROR)
  | Some conn =>
      (MkEnv ({[conn]} ∪ connections e) (odbcVersion e) (odbcNts e) (diagnosticRecords e),
       AI_SUCCESS)
  end.

Definition CreateConnection (fresh : option positive) : Environment -> Environment :=
  ApiCall (InternalCreateConnection fresh).

Definition DeregisterConnection (conn : positive) (e : Environment) : Environment :=
  MkEnv (connections e ∖ {[conn]}) (odbcVersion e) (odbcNts e) (diagnosticRecords e).

Definition InternalSetAttribute (attr value : Z) (e : Environment) : Environment * SqlResult :=
  match EnvironmentAttributeToInternal attr with
  | ODBC_VERSION =>
      let version := i32 value in
      if (version =? SQL_OV_ODBC2) || (version =? SQL_OV_ODBC3) then
        (MkEnv (connections e) version (odbcNts e) (diagnosticRecords e), AI_SUCCESS)
      else
        (env_add e S01S02_OPTION_VALUE_CHANGED
           (txt "The value of ODBC version(" ++ show_int version
            ++ txt ") is not supported and the default value(" ++ show_int (odbcVersion e)
            ++ txt ") will be used."),
         AI_SUCCESS_WITH_INFO)
  | OUTPUT_NTS =>
      let nts := i32 value in
      if negb (nts =? odbcNts e) then
        (env_add e S01S02_OPTION_VALUE_CHANGED
           (txt "Only null-termination of strings is supported."), AI_SUCCESS_WITH_INFO)
      else (e, AI_SUCCESS)
  | ENV_UNKNOWN =>
      (env_add e SHYC00_OPTIONAL_FEATURE_NOT_IMPLEMENTED (txt "Attribute is not supported."),
       AI_ERROR)
  end.

Definition SetAttribute (attr value : Z) : Environment -> Environment :=
  ApiCall (InternalSetAttribute attr value).

Definition InternalGetAttribute (attr : Z) (e : Environment)
    : Environment * SqlResult * buffer_write :=
  match EnvironmentAttributeToInternal attr with
  | ODBC_VERSION => (e, AI_SUCCESS, PutInt32 (odbcVersion e))
  | OUTPUT_NTS => (e, AI_SUCCESS, PutInt32 (odbcNts e))
  | ENV_UNKNOWN =>
      (env_add e SHYC00_OPTIONAL_FEATURE_NOT_IMPLEMENTED (txt "Attribute is not supported."),
       AI_ERROR, PutNothing)
  end.

Definition GetAttribute (attr : Z) (e : Environment) : Environment * buffer_write :=
  (ApiCall (fun s => fst (InternalGetAttribute attr s)) e,
   snd (InternalGetAttribute attr (set_diag e (Reset (diagnosticRecords e))))).

(** ** The environment as a state machine *)

Inductive env_op : Type :=
  | OpCreate (fresh : option positive)
  | OpDeregister (conn : positive)
  | OpSet (attr value : Z)
  | OpGet (attr : Z).

Definition env_step (e : Environment) (op : env_op) : Environment :=
  match op with
  | OpCreate fresh => CreateConnection fresh e
  | OpDeregister conn => DeregisterConnection conn e
  | OpSet attr value => SetAttribute attr value e
  | OpGet attr => fst (GetAttribute attr e)
  end.

Definition env_run (ops : list env_op) : Environment := fold_left env_step ops NewEnvironment.

(** What no sequence of calls can break: the version is one of the two the
    driver knows, strings stay null-terminated, and a call with a result other
    than plain success has left exactly one record that says why. *)
Definition env_inv (e : Environment) : Prop :=
  (odbcVersion e = SQL_OV_ODBC2 \/ odbcVersion e = SQL_OV_ODBC3) /\ odbcNts e = SQL_TRUE /\
  (result (diagnosticRecords e) = AI_SUCCESS -> statusRecords (diagnosticRecords e) = []) /\
  (result (diagnosticRecords e) <> AI_SUCCESS ->
     length (statusRecords (diagnosticRecords e)) = 1%nat).

Lemma env_step_inv e op : env_inv e -> env_inv (env_step e op).
Proof.
  intros (Hv & Hn & Hs & Hr). destruct op as [fresh|conn|attr value|attr]; cbn [env_step].
  - unfold CreateConnection, ApiCall, env_inv. destruct fresh; cbn; intuition congruence.
  - unfold DeregisterConnection, env_inv. cbn. split_and!; auto.
  - unfold SetAttribute, ApiCall, InternalSetAttribute, env_inv. cbn.
    destruct (EnvironmentAttributeToInternal attr); cbn; [intuition congruence| |].
    + destruct (Z.eqb_spec (i32 value) SQL_OV_ODBC2) as [E|E];
        [|destruct (Z.eqb_spec (i32 value) SQL_OV_ODBC3) as [E2|E2]];
        cbn; intuition congruence.
    + destruct (Z.eqb_spec (i32 value) (odbcNts e)); cbn; intuition congruence.
  - unfold GetAttribute, ApiCall, InternalGetAttribute, env_inv. cbn.
    destruct (EnvironmentAttributeToInternal attr); cbn; intuition congruence.
Qed.

Lemma env_run_inv ops : env_inv (env_run ops).
Proof.
  unfold env_run. assert (H0 : env_inv NewEnvironment) by (unfold env_inv; cbn; intuition congruence).
  revert H0. generalize NewEnvironment. induction ops as [|op ops IH]; intros e He; [done|].
  cbn [fold_left]. by apply IH, env_step_inv.
Qed.

(** The connections alive after a sequence of calls. *)
Fixpoint live (ops : list env_op) (acc : gset positive) : gset positive :=
  match ops with
  | [] => acc
  | OpCreate (Some conn) :: ops' => live ops' ({[conn]} ∪ acc)
  | OpDeregister conn :: ops' => live ops' (acc ∖ {[conn]})
  | _ :: ops' => live ops' acc
  end.

Lemma env_step_connections e op :
  connections (env_step e op) = live [op] (connections e).
Proof.
  destruct op as [[conn|]|conn|attr value|attr]; cbn; try done.
  - unfold SetAttribute, ApiCall, InternalSetAttribute. cbn.
    destruct (EnvironmentAttributeToInternal attr); cbn; try done; by case_test.
  - unfold ApiCall, InternalGetAttribute. cbn.
    by destruct (EnvironmentAttributeToInternal attr).
Qed.

Lemma env_run_connections_from e ops :
  connections (fold_left env_step ops e) = live ops (connections e).
Proof.
  revert e. induction ops as [|op ops IH]; intros e; [done|]. cbn [fold_left].
  rewrite IH, env_step_connections. by destruct op as [[conn|]|conn|attr value|attr].
Qed.
End Env.
End Env.

(** C26. In every state an environment can reach: the ODBC version is 2 or 3 and
    strings are null-terminated, whatever attributes were set; a call that
    succeeded plainly left no record, any other call exactly one; and the set of
    connections is the created ones less the deregistered ones. *)
Theorem environment_invariant (C : Diag.OdbcConstants) (ops : list Env.env_op) :
  let e := Env.env_run ops in
  (Env.odbcVersion e = Diag.SQL_OV_ODBC2 \/ Env.odbcVersion e = Diag.SQL_OV_ODBC3) /\
  Env.odbcNts e = Diag.SQL_TRUE /\
  (Diag.result (Env.diagnosticRecords e) = Diag.AI_SUCCESS ->
     Diag.statusRecords (Env.diagnosticRecords e) = []) /\
  (Diag.result (Env.diagnosticRecords e) <> Diag.AI_SUCCESS ->
     length (Diag.statusRecords (Env.diagnosticRecords e)) = 1%nat) /\
  Env.connections e = Env.live ops ∅.
Proof.
  cbn zeta. destruct (Env.env_run_inv ops) as (H1 & H2 & H3 & H4).
  split_and!; auto. apply Env.env_run_connections_from.
Qed.
