(* ===== verification/Configuration.v ===== *)
(** * Configuration: the connection settings and their text form

    Models [src/config/configuration.cpp] with the defaults and fields of
    [include/iotsitewise/odbc/config/configuration.h], [SettableValue]
    ([include/ignite/odbc/config/settable_value.h]), the authentication types
    ([src/authentication/auth_type.cpp]), the log levels ([src/log_level.cpp])
    and what the settings change in the logger. The operating system (whether a
    path is a directory, the home directory) and the C++ library's
    [sizeof(std::string)] are the class [Platform]. *)

From S2P Require Import Prelude Text Diagnostics.

Module Config.
Import Text Diag.

(** What the code takes from the platform. *)
Class Platform : Type := {
  sizeof_string : Z;
  sizeof_string_big : 10 < sizeof_string;   (* an object with a pointer and a size *)
  os_is_directory : text -> bool;
  default_log_path : text
}.

(** ** Authentication types and log levels *)

Inductive AuthType : Type := AWS_PROFILE | IAM | AAD | OKTA.
Inductive LogLevel : Type :=
  | OFF | ERROR_LEVEL | WARNING_LEVEL | INFO_LEVEL | DEBUG_LEVEL | LEVEL_UNKNOWN.

(** The number of a level, which is what the logger keeps. *)
Definition level_code (level : LogLevel) : Z :=
  match level with
  | OFF => 0 | ERROR_LEVEL => 1 | WARNING_LEVEL => 2 | INFO_LEVEL => 3 | DEBUG_LEVEL => 4
  | LEVEL_UNKNOWN => 5
  end.

#[global] Instance AuthType_eq_dec : EqDecision AuthType.
Proof. solve_decision. Defined.
#[global] Instance LogLevel_eq_dec : EqDecision LogLevel.
Proof. solve_decision. Defined.

Definition AuthType_FromString (val : text) (dflt : AuthType) : AuthType :=
  let lowerVal := Trim (ToLower val) in
  if text_eqb lowerVal (txt "aws_profile") then AWS_PROFILE
  else if text_eqb lowerVal (txt "iam") then IAM
  else if text_eqb lowerVal (txt "aad") then AAD
  else if text_eqb lowerVal (txt "okta") then OKTA
  else dflt.

Definition AuthType_ToString (val : AuthType) : text :=
  match val with
  | AWS_PROFILE => txt "aws_profile" | IAM => txt "iam" | AAD => txt "aad" | OKTA => txt "okta"
  end.

Definition LogLevel_FromString (val : text) (dflt : LogLevel) : LogLevel :=
  let logLevel := Trim val in
  if text_eqb logLevel (txt "4") then DEBUG_LEVEL
  else if text_eqb logLevel (txt "3") then INFO_LEVEL
  else if text_eqb logLevel (txt "2") then WARNING_LEVEL
  else if text_eqb logLevel (txt "1") then ERROR_LEVEL
  else if text_eqb logLevel (txt "0") then OFF
  else dflt.

Definition LogLevel_ToString (val : LogLevel) : text :=
  match val with
  | DEBUG_LEVEL => txt "4" | INFO_LEVEL => txt "3" | WARNING_LEVEL => txt "2"
  | ERROR_LEVEL => txt "1" | OFF => txt "0" | LEVEL_UNKNOWN => txt "unknown"
  end.

(** ** Settable values *)

Record Settable (T : Type) : Type := MkSettable { GetValue : T; IsSet : bool }.
Arguments MkSettable {T}. Arguments GetValue {T}. Arguments IsSet {T}.

Definition Default {T} (dflt : T) : Settable T := MkSettable dflt false.
Definition SetValue {T} (value : T) (dflt : bool) : Settable T := MkSettable value (negb dflt).

(** ** The keywords of connection attributes *)

Module Key.
Definition dsn : text := txt "dsn".
Definition driver : text := txt "driver".
Definition uid : text := txt "uid".
Definition pwd : text := txt "pwd".
Definition accessKeyId : text := txt "accesskeyid".
Definition secretKey : text := txt "secretkey".
Definition sessionToken : text := txt "sessiontoken".
Definition profileName : text := txt "profilename".
Definition reqTimeout : text := txt "requesttimeout".
Definition connectionTimeout : text := txt "connectiontimeout".
Definition maxRetryCountClient : text := txt "maxretrycountclient".
Definition maxConnections : text := txt "maxconnections".
Definition endpoint : text := txt "endpointoverride".
Definition region : text := txt "region".
Definition authType : text := txt "auth".
Definition idPHost : text := txt "idphost".
Definition idPUserName : text := txt "idpusername".
Definition idPPassword : text := txt "idppassword".
Definition idPArn : text := txt "idparn".
Definition oktaAppId : text := txt "oktaapplicationid".
Definition roleArn : text := txt "rolearn".
Definition aadAppId : text := txt "aadapplicationid".
Definition aadClientSecret : text := txt "aadclientsecret".
Definition aadTenant : text := txt "aadtenant".
Definition logLevel : text := txt "loglevel".
Definition logPath : text := txt "logoutput".
Definition maxRowPerPage : text := txt "maxrowperpage".
End Key.

(** ** The settings *)

Record Configuration : Type := MkCfg {
  dsn : Settable text;
  driver : Settable text;
  uid : Settable text;
  pwd : Settable text;
  accessKeyId : Settable text;
  secretKey : Settable text;
  sessionToken : Settable text;
  profileName : Settable text;
  reqTimeout : Settable Z;
  connectionTimeout : Settable Z;
  maxRetryCountClient : Settable Z;
  maxConnections : Settable Z;
  endpoint : Settable text;
  region : Settable text;
  authType : Settable AuthType;
  idPHost : Settable text;
  idPUserName : Settable text;
  idPPassword : Settable text;
  idPArn : Settable text;
  oktaAppId : Settable text;
  roleArn : Settable text;
  aadAppId : Settable text;
  aadClientSecret : Settable text;
  aadTenant : Settable text;
  logLevel : Settable LogLevel;
  logPath : Settable text;
  maxRowPerPage : Settable Z
}.

(** The process-wide logger, as far as the settings reach it. *)
Record Logger : Type := MkLogger { logger_level : Z; logger_path : text }.

Section Settings.
Context `{Platform}.

Definition DefaultConfiguration : Configuration :=
  MkCfg
    (Default (txt "IoT SiteWise DSN"))
    (Default (txt "AWS IoT SiteWise ODBC Driver"))
    (Default [])
    (Default [])
    (Default [])
    (Default [])
    (Default [])
    (Default [])
    (Default 3000)
    (Default 1000)
    (Default 0)
    (Default 25)
    (Default [])
    (Default (txt "us-east-1"))
    (Default AWS_PROFILE)
    (Default [])
    (Default [])
    (Default [])
    (Default [])
    (Default [])
    (Default [])
    (Default [])
    (Default [])
    (Default [])
    (Default WARNING_LEVEL)
    (Default default_log_path)
    (Default (-1)).

(** One field replaced. *)
Definition with_dsn (c : Configuration) (v : Settable text) : Configuration :=
  MkCfg
    v (driver c) (uid c) (pwd c) (accessKeyId c) (secretKey c) (sessionToken c)
    (profileName c) (reqTimeout c) (connectionTimeout c) (maxRetryCountClient c)
    (maxConnections c) (endpoint c) (region c) (authType c) (idPHost c) (idPUserName
    c) (idPPassword c) (idPArn c) (oktaAppId c) (roleArn c) (aadAppId c)
    (aadClientSecret c) (aadTenant c) (logLevel c) (logPath c) (maxRowPerPage c).
Definition with_driver (c : Configuration) (v : Settable text) : Configuration :=
  MkCfg
    (dsn c) v (uid c) (pwd c) (accessKeyId c) (secretKey c) (sessionToken c)
    (profileName c) (reqTimeout c) (connectionTimeout c) (maxRetryCountClient c)
    (maxConnections c) (endpoint c) (region c) (authType c) (idPHost c) (idPUserName
    c) (idPPassword c) (idPArn c) (oktaAppId c) (roleArn c) (aadAppId c)
    (aadClientSecret c) (aadTenant c) (logLevel c) (logPath c) (maxRowPerPage c).
Definition with_uid (c : Configuration) (v : Settable text) : Configuration :=
  MkCfg
    (dsn c) (driver c) v (pwd c) (accessKeyId c) (secretKey c) (sessionToken c)
    (profileName c) (reqTimeout c) (connectionTimeout c) (maxRetryCountClient c)
    (maxConnections c) (endpoint c) (region c) (authType c) (idPHost c) (idPUserName
    c) (idPPassword c) (idPArn c) (oktaAppId c) (roleArn c) (aadAppId c)
    (aadClientSecret c) (aadTenant c) (logLevel c) (logPath c) (maxRowPerPage c).
Definition with_pwd (c : Configuration) (v : Settable text) : Configuration :=
  MkCfg
    (dsn c) (driver c) (uid c) v (accessKeyId c) (secretKey c) (sessionToken c)
    (profileName c) (reqTimeout c) (connectionTimeout c) (maxRetryCountClient c)
    (maxConnections c) (endpoint c) (region c) (authType c) (idPHost c) (idPUserName
    c) (idPPassword c) (idPArn c) (oktaAppId c) (roleArn c) (aadAppId c)
    (aadClientSecret c) (aadTenant c) (logLevel c) (logPath c) (maxRowPerPage c).
Definition with_accessKeyId (c : Configuration) (v : Settable text) : Configuration :=
  MkCfg
    (dsn c) (driver c) (uid c) (pwd c) v (secretKey c) (sessionToken c) (profileName
    c) (reqTimeout c) (connectionTimeout c) (maxRetryCountClient c) (maxConnections
    c) (endpoint c) (region c) (authType c) (idPHost c) (idPUserName c) (idPPassword
    c) (idPArn c) (oktaAppId c) (roleArn c) (aadAppId c) (aadClientSecret c)
    (aadTenant c) (logLevel c) (logPath c) (maxRowPerPage c).
Definition with_secretKey (c : Configuration) (v : Settable text) : Configuration :=
  MkCfg
    (dsn c) (driver c) (uid c) (pwd c) (accessKeyId c) v (sessionToken c)
    (profileName c) (reqTimeout c) (connectionTimeout c) (maxRetryCountClient c)
    (maxConnections c) (endpoint c) (region c) (authType c) (idPHost c) (idPUserName
    c) (idPPassword c) (idPArn c) (oktaAppId c) (roleArn c) (aadAppId c)
    (aadClientSecret c) (aadTenant c) (logLevel c) (logPath c) (maxRowPerPage c).
Definition with_sessionToken (c : Configuration) (v : Settable text) : Configuration :=
  MkCfg
    (dsn c) (driver c) (uid c) (pwd c) (accessKeyId c) (secretKey c) v (profileName
    c) (reqTimeout c) (connectionTimeout c) (maxRetryCountClient c) (maxConnections
    c) (endpoint c) (region c) (authType c) (idPHost c) (idPUserName c) (idPPassword
    c) (idPArn c) (oktaAppId c) (roleArn c) (aadAppId c) (aadClientSecret c)
    (aadTenant c) (logLevel c) (logPath c) (maxRowPerPage c).
Definition with_profileName (c : Configuration) (v : Settable text) : Configuration :=
  MkCfg
    (dsn c) (driver c) (uid c) (pwd c) (accessKeyId c) (secretKey c) (sessionToken
    c) v (reqTimeout c) (connectionTimeout c) (maxRetryCountClient c)
    (maxConnections c) (endpoint c) (region c) (authType c) (idPHost c) (idPUserName
    c) (idPPassword c) (idPArn c) (oktaAppId c) (roleArn c) (aadAppId c)
    (aadClientSecret c) (aadTenant c) (logLevel c) (logPath c) (maxRowPerPage c).
Definition with_reqTimeout (c : Configuration) (v : Settable Z) : Configuration :=
  MkCfg
    (dsn c) (driver c) (uid c) (pwd c) (accessKeyId c) (secretKey c) (sessionToken
    c) (profileName c) v (connectionTimeout c) (maxRetryCountClient c)
    (maxConnections c) (endpoint c) (region c) (authType c) (idPHost c) (idPUserName
    c) (idPPassword c) (idPArn c) (oktaAppId c) (roleArn c) (aadAppId c)
    (aadClientSecret c) (aadTenant c) (logLevel c) (logPath c) (maxRowPerPage c).
Definition with_connectionTimeout (c : Configuration) (v : Settable Z) : Configuration :=
  MkCfg
    (dsn c) (driver c) (uid c) (pwd c) (accessKeyId c) (secretKey c) (sessionToken
    c) (profileName c) (reqTimeout c) v (maxRetryCountClient c) (maxConnections c)
    (endpoint c) (region c) (authType c) (idPHost c) (idPUserName c) (idPPassword c)
    (idPArn c) (oktaAppId c) (roleArn c) (aadAppId c) (aadClientSecret c) (aadTenant
    c) (logLevel c) (logPath c) (maxRowPerPage c).
Definition with_maxRetryCountClient (c : Configuration) (v : Settable Z) : Configuration :=
  MkCfg
    (dsn c) (driver c) (uid c) (pwd c) (accessKeyId c) (secretKey c) (sessionToken
    c) (profileName c) (reqTimeout c) (connectionTimeout c) v (maxConnections c)
    (endpoint c) (region c) (authType c) (idPHost c) (idPUserName c) (idPPassword c)
    (idPArn c) (oktaAppId c) (roleArn c) (aadAppId c) (aadClientSecret c) (aadTenant
    c) (logLevel c) (logPath c) (maxRowPerPage c).
Definition with_maxConnections (c : Configuration) (v : Settable Z) : Configuration :=
  MkCfg
    (dsn c) (driver c) (uid c) (pwd c) (accessKeyId c) (secretKey c) (sessionToken
    c) (profileName c) (reqTimeout c) (connectionTimeout c) (maxRetryCountClient c)
    v (endpoint c) (region c) (authType c) (idPHost c) (idPUserName c) (idPPassword
    c) (idPArn c) (oktaAppId c) (roleArn c) (aadAppId c) (aadClientSecret c)
    (aadTenant c) (logLevel c) (logPath c) (maxRowPerPage c).
Definition with_endpoint (c : Configuration) (v : Settable text) : Configuration :=
  MkCfg
    (dsn c) (driver c) (uid c) (pwd c) (accessKeyId c) (secretKey c) (sessionToken
    c) (profileName c) (reqTimeout c) (connectionTimeout c) (maxRetryCountClient c)
    (maxConnections c) v (region c) (authType c) (idPHost c) (idPUserName c)
    (idPPassword c) (idPArn c) (oktaAppId c) (roleArn c) (aadAppId c)
    (aadClientSecret c) (aadTenant c) (logLevel c) (logPath c) (maxRowPerPage c).
Definition with_region (c : Configuration) (v : Settable text) : Configuration :=
  MkCfg
    (dsn c) (driver c) (uid c) (pwd c) (accessKeyId c) (secretKey c) (sessionToken
    c) (profileName c) (reqTimeout c) (connectionTimeout c) (maxRetryCountClient c)
    (maxConnections c) (endpoint c) v (authType c) (idPHost c) (idPUserName c)
    (idPPassword c) (idPArn c) (oktaAppId c) (roleArn c) (aadAppId c)
    (aadClientSecret c) (aadTenant c) (logLevel c) (logPath c) (maxRowPerPage c).
Definition with_authType (c : Configuration) (v : Settable AuthType) : Configuration :=
  MkCfg
    (dsn c) (driver c) (uid c) (pwd c) (accessKeyId c) (secretKey c) (sessionToken
    c) (profileName c) (reqTimeout c) (connectionTimeout c) (maxRetryCountClient c)
    (maxConnections c) (endpoint c) (region c) v (idPHost c) (idPUserName c)
    (idPPassword c) (idPArn c) (oktaAppId c) (roleArn c) (aadAppId c)
    (aadClientSecret c) (aadTenant c) (logLevel c) (logPath c) (maxRowPerPage c).
Definition with_idPHost (c : Configuration) (v : Settable text) : Configuration :=
  MkCfg
    (dsn c) (driver c) (uid c) (pwd c) (accessKeyId c) (secretKey c) (sessionToken
    c) (profileName c) (reqTimeout c) (connectionTimeout c) (maxRetryCountClient c)
    (maxConnections c) (endpoint c) (region c) (authType c) v (idPUserName c)
    (idPPassword c) (idPArn c) (oktaAppId c) (roleArn c) (aadAppId c)
    (aadClientSecret c) (aadTenant c) (logLevel c) (logPath c) (maxRowPerPage c).
Definition with_idPUserName (c : Configuration) (v : Settable text) : Configuration :=
  MkCfg
    (dsn c) (driver c) (uid c) (pwd c) (accessKeyId c) (secretKey c) (sessionToken
    c) (profileName c) (reqTimeout c) (connectionTimeout c) (maxRetryCountClient c)
    (maxConnections c) (endpoint c) (region c) (authType c) (idPHost c) v
    (idPPassword c) (idPArn c) (oktaAppId c) (roleArn c) (aadAppId c)
    (aadClientSecret c) (aadTenant c) (logLevel c) (logPath c) (maxRowPerPage c).
Definition with_idPPassword (c : Configuration) (v : Settable text) : Configuration :=
  MkCfg
    (dsn c) (driver c) (uid c) (pwd c) (accessKeyId c) (secretKey c) (sessionToken
    c) (profileName c) (reqTimeout c) (connectionTimeout c) (maxRetryCountClient c)
    (maxConnections c) (endpoint c) (region c) (authType c) (idPHost c) (idPUserName
    c) v (idPArn c) (oktaAppId c) (roleArn c) (aadAppId c) (aadClientSecret c)
    (aadTenant c) (logLevel c) (logPath c) (maxRowPerPage c).
Definition with_idPArn (c : Configuration) (v : Settable text) : Configuration :=
  MkCfg
    (dsn c) (driver c) (uid c) (pwd c) (accessKeyId c) (secretKey c) (sessionToken
    c) (profileName c) (reqTimeout c) (connectionTimeout c) (maxRetryCountClient c)
    (maxConnections c) (endpoint c) (region c) (authType c) (idPHost c) (idPUserName
    c) (idPPassword c) v (oktaAppId c) (roleArn c) (aadAppId c) (aadClientSecret c)
    (aadTenant c) (logLevel c) (logPath c) (maxRowPerPage c).
Definition with_oktaAppId (c : Configuration) (v : Settable text) : Configuration :=
  MkCfg
    (dsn c) (driver c) (uid c) (pwd c) (accessKeyId c) (secretKey c) (sessionToken
    c) (profileName c) (reqTimeout c) (connectionTimeout c) (maxRetryCountClient c)
    (maxConnections c) (endpoint c) (region c) (authType c) (idPHost c) (idPUserName
    c) (idPPassword c) (idPArn c) v (roleArn c) (aadAppId c) (aadClientSecret c)
    (aadTenant c) (logLevel c) (logPath c) (maxRowPerPage c).
Definition with_roleArn (c : Configuration) (v : Settable text) : Configuration :=
  MkCfg
    (dsn c) (driver c) (uid c) (pwd c) (accessKeyId c) (secretKey c) (sessionToken
    c) (profileName c) (reqTimeout c) (connectionTimeout c) (maxRetryCountClient c)
    (maxConnections c) (endpoint c) (region c) (authType c) (idPHost c) (idPUserName
    c) (idPPassword c) (idPArn c) (oktaAppId c) v (aadAppId c) (aadClientSecret c)
    (aadTenant c) (logLevel c) (logPath c) (maxRowPerPage c).
Definition with_aadAppId (c : Configuration) (v : Settable text) : Configuration :=
  MkCfg
    (dsn c) (driver c) (uid c) (pwd c) (accessKeyId c) (secretKey c) (sessionToken
    c) (profileName c) (reqTimeout c) (connectionTimeout c) (maxRetryCountClient c)
    (maxConnections c) (endpoint c) (region c) (authType c) (idPHost c) (idPUserName
    c) (idPPassword c) (idPArn c) (oktaAppId c) (roleArn c) v (aadClientSecret c)
    (aadTenant c) (logLevel c) (logPath c) (maxRowPerPage c).
Definition with_aadClientSecret (c : Configuration) (v : Settable text) : Configuration :=
  MkCfg
    (dsn c) (driver c) (uid c) (pwd c) (accessKeyId c) (secretKey c) (sessionToken
    c) (profileName c) (reqTimeout c) (connectionTimeout c) (maxRetryCountClient c)
    (maxConnections c) (endpoint c) (region c) (authType c) (idPHost c) (idPUserName
    c) (idPPassword c) (idPArn c) (oktaAppId c) (roleArn c) (aadAppId c) v
    (aadTenant c) (logLevel c) (logPath c) (maxRowPerPage c).
Definition with_aadTenant (c : Configuration) (v : Settable text) : Configuration :=
  MkCfg
    (dsn c) (driver c) (uid c) (pwd c) (accessKeyId c) (secretKey c) (sessionToken
    c) (profileName c) (reqTimeout c) (connectionTimeout c) (maxRetryCountClient c)
    (maxConnections c) (endpoint c) (region c) (authType c) (idPHost c) (idPUserName
    c) (idPPassword c) (idPArn c) (oktaAppId c) (roleArn c) (aadAppId c)
    (aadClientSecret c) v (logLevel c) (logPath c) (maxRowPerPage c).
Definition with_logLevel (c : Configuration) (v : Settable LogLevel) : Configuration :=
  MkCfg
    (dsn c) (driver c) (uid c) (pwd c) (accessKeyId c) (secretKey c) (sessionToken
    c) (profileName c) (reqTimeout c) (connectionTimeout c) (maxRetryCountClient c)
    (maxConnections c) (endpoint c) (region c) (authType c) (idPHost c) (idPUserName
    c) (idPPassword c) (idPArn c) (oktaAppId c) (roleArn c) (aadAppId c)
    (aadClientSecret c) (aadTenant c) v (logPath c) (maxRowPerPage c).
Definition with_logPath (c : Configuration) (v : Settable text) : Configuration :=
  MkCfg
    (dsn c) (driver c) (uid c) (pwd c) (accessKeyId c) (secretKey c) (sessionToken
    c) (profileName c) (reqTimeout c) (connectionTimeout c) (maxRetryCountClient c)
    (maxConnections c) (endpoint c) (region c) (authType c) (idPHost c) (idPUserName
    c) (idPPassword c) (idPArn c) (oktaAppId c) (roleArn c) (aadAppId c)
    (aadClientSecret c) (aadTenant c) (logLevel c) v (maxRowPerPage c).
Definition with_maxRowPerPage (c : Configuration) (v : Settable Z) : Configuration :=
  MkCfg
    (dsn c) (driver c) (uid c) (pwd c) (accessKeyId c) (secretKey c) (sessionToken
    c) (profileName c) (reqTimeout c) (connectionTimeout c) (maxRetryCountClient c)
    (maxConnections c) (endpoint c) (region c) (authType c) (idPHost c) (idPUserName
    c) (idPPassword c) (idPArn c) (oktaAppId c) (roleArn c) (aadAppId c)
    (aadClientSecret c) (aadTenant c) (logLevel c) (logPath c) v.

(** *** Getters and setters *)

Definition GetDsn (c : Configuration) (dflt : text) : text :=
  if negb (IsSet (dsn c)) then dflt else GetValue (dsn c).
Definition GetDriver (c : Configuration) : text := GetValue (driver c).
Definition GetUid (c : Configuration) : text := GetValue (uid c).
Definition GetPwd (c : Configuration) : text := GetValue (pwd c).
Definition GetAccessKeyId (c : Configuration) : text := GetValue (accessKeyId c).
Definition GetSecretKey (c : Configuration) : text := GetValue (secretKey c).
Definition GetSessionToken (c : Configuration) : text := GetValue (sessionToken c).
Definition GetProfileName (c : Configuration) : text := GetValue (profileName c).
Definition GetReqTimeout (c : Configuration) : Z := GetValue (reqTimeout c).
Definition GetConnectionTimeout (c : Configuration) : Z := GetValue (connectionTimeout c).
Definition GetMaxRetryCountClient (c : Configuration) : Z := GetValue (maxRetryCountClient c).
Definition GetMaxConnections (c : Configuration) : Z := GetValue (maxConnections c).
Definition GetEndpoint (c : Configuration) : text := GetValue (endpoint c).
Definition GetRegion (c : Configuration) : text := GetValue (region c).
Definition GetAuthType (c : Configuration) : AuthType := GetValue (authType c).
Definition GetIdPHost (c : Configuration) : text := GetValue (idPHost c).
Definition GetIdPUserName (c : Configuration) : text := GetValue (idPUserName c).
Definition GetIdPPassword (c : Configuration) : text := GetValue (idPPassword c).
Definition GetIdPArn (c : Configuration) : text := GetValue (idPArn c).
Definition GetOktaAppId (c : Configuration) : text := GetValue (oktaAppId c).
Definition GetRoleArn (c : Configuration) : text := GetValue (roleArn c).
Definition GetAADAppId (c : Configuration) : text := GetValue (aadAppId c).
Definition GetAADClientSecret (c : Configuration) : text := GetValue (aadClientSecret c).
Definition GetAADTenant (c : Configuration) : text := GetValue (aadTenant c).
Definition GetLogLevel (c : Configuration) : LogLevel := GetValue (logLevel c).
Definition GetLogPath (c : Configuration) : text := GetValue (logPath c).
Definition GetMaxRowPerPage (c : Configuration) : Z := GetValue (maxRowPerPage c).
Definition SetDsn (c : Configuration) (v : text) := with_dsn c (SetValue v false).
Definition SetDriver (c : Configuration) (v : text) := with_driver c (SetValue v false).
Definition SetUid (c : Configuration) (v : text) := with_uid c (SetValue v false).
Definition SetPwd (c : Configuration) (v : text) := with_pwd c (SetValue v false).
Definition SetAccessKeyId (c : Configuration) (v : text) := with_accessKeyId c (SetValue v false).
Definition SetSecretKey (c : Configuration) (v : text) := with_secretKey c (SetValue v false).
Definition SetSessionToken (c : Configuration) (v : text) := with_sessionToken c (SetValue v false).
Definition SetProfileName (c : Configuration) (v : text) := with_profileName c (SetValue v false).
Definition SetReqTimeout (c : Configuration) (v : Z) := with_reqTimeout c (SetValue v false).
Definition SetConnectionTimeout (c : Configuration) (v : Z) := with_connectionTimeout c (SetValue v false).
Definition SetMaxRetryCountClient (c : Configuration) (v : Z) := with_maxRetryCountClient c (SetValue v false).
Definition SetMaxConnections (c : Configuration) (v : Z) := with_maxConnections c (SetValue v false).
Definition SetEndpoint (c : Configuration) (v : text) := with_endpoint c (SetValue v false).
Definition SetRegion (c : Configuration) (v : text) := with_region c (SetValue v false).
Definition SetAuthType (c : Configuration) (v : AuthType) := with_authType c (SetValue v false).
Definition SetIdPHost (c : Configuration) (v : text) := with_idPHost c (SetValue v false).
Definition SetIdPUserName (c : Configuration) (v : text) := with_idPUserName c (SetValue v false).
Definition SetIdPPassword (c : Configuration) (v : text) := with_idPPassword c (SetValue v false).
Definition SetIdPArn (c : Configuration) (v : text) := with_idPArn c (SetValue v false).
Definition SetOktaAppId (c : Configuration) (v : text) := with_oktaAppId c (SetValue v false).
Definition SetRoleArn (c : Configuration) (v : text) := with_roleArn c (SetValue v false).
Definition SetAADAppId (c : Configuration) (v : text) := with_aadAppId c (SetValue v false).
Definition SetAADClientSecret (c : Configuration) (v : text) := with_aadClientSecret c (SetValue v false).
Definition SetAADTenant (c : Configuration) (v : text) := with_aadTenant c (SetValue v false).
Definition SetMaxRowPerPage (c : Configuration) (v : Z) := with_maxRowPerPage c (SetValue v false).

Definition IsProfileNameSet (c : Configuration) : bool :=
  IsSet (profileName c) && negb (text_eqb (GetValue (profileName c)) []).

Definition IsDsnSet (c : Configuration) : bool := IsSet (dsn c).
Definition IsUidSet (c : Configuration) : bool := IsSet (uid c).
Definition IsPwdSet (c : Configuration) : bool := IsSet (pwd c).
Definition IsAccessKeyIdSet (c : Configuration) : bool := IsSet (accessKeyId c).
Definition IsSecretKeySet (c : Configuration) : bool := IsSet (secretKey c).
Definition IsSessionTokenSet (c : Configuration) : bool := IsSet (sessionToken c).
Definition IsReqTimeoutSet (c : Configuration) : bool := IsSet (reqTimeout c).
Definition IsConnectionTimeoutSet (c : Configuration) : bool := IsSet (connectionTimeout c).
Definition IsMaxRetryCountClientSet (c : Configuration) : bool := IsSet (maxRetryCountClient c).
Definition IsMaxConnectionsSet (c : Configuration) : bool := IsSet (maxConnections c).
Definition IsEndpointSet (c : Configuration) : bool := IsSet (endpoint c).
Definition IsRegionSet (c : Configuration) : bool := IsSet (region c).
Definition IsAuthTypeSet (c : Configuration) : bool := IsSet (authType c).
Definition IsIdPHostSet (c : Configuration) : bool := IsSet (idPHost c).
Definition IsIdPUserNameSet (c : Configuration) : bool := IsSet (idPUserName c).
Definition IsIdPPasswordSet (c : Configuration) : bool := IsSet (idPPassword c).
Definition IsIdPArnSet (c : Configuration) : bool := IsSet (idPArn c).
Definition IsOktaAppIdSet (c : Configuration) : bool := IsSet (oktaAppId c).
Definition IsRoleArnSet (c : Configuration) : bool := IsSet (roleArn c).
Definition IsAADAppIdSet (c : Configuration) : bool := IsSet (aadAppId c).
Definition IsAADClientSecretSet (c : Configuration) : bool := IsSet (aadClientSecret c).
Definition IsAADTenantSet (c : Configuration) : bool := IsSet (aadTenant c).
Definition IsLogLevelSet (c : Configuration) : bool := IsSet (logLevel c).
Definition IsLogPathSet (c : Configuration) : bool := IsSet (logPath c).
Definition IsMaxRowPerPageSet (c : Configuration) : bool := IsSet (maxRowPerPage c).

(** [IsValidDirectory]: the empty path is not a directory. *)
Definition IsValidDirectory (path : text) : bool :=
  negb (text_eqb path []) && os_is_directory path.

(** [Logger::SetLogPath] as far as the stored path goes. *)
Definition Logger_SetLogPath (lg : Logger) (path : text) : Logger :=
  if text_eqb (logger_path lg) path then lg
  else if negb (IsValidDirectory path) then lg
  else MkLogger (logger_level lg) path.

Definition SetLogLevel (c : Configuration) (lg : Logger) (level : LogLevel)
    : Configuration * Logger :=
  if bool_decide (level <> LEVEL_UNKNOWN) then
    (with_logLevel c (SetValue level false), MkLogger (level_code level) (logger_path lg))
  else (c, lg).

Definition SetLogPath (c : Configuration) (lg : Logger) (path : text)
    : Configuration * Logger :=
  if IsValidDirectory path then
    (with_logPath c (SetValue path false), Logger_SetLogPath lg path)
  else (c, lg).

(** *** Credentials by authentication type *)

Definition GetDSNUserName (c : Configuration) : text :=
  if negb (text_eqb (GetUid c) []) then GetUid c
  else match GetAuthType c with
       | IAM => GetAccessKeyId c
       | OKTA | AAD => GetIdPUserName c
       | _ => GetUid c
       end.

Definition GetDSNPassword (c : Configuration) : text :=
  if negb (text_eqb (GetPwd c) []) then GetPwd c
  else match GetAuthType c with
       | IAM => GetSecretKey c
       | OKTA | AAD => GetIdPPassword c
       | _ => GetPwd c
       end.

Definition empty (s : text) : bool := text_eqb s [].

(** [Validate]: [Some] is the message of the error thrown, whose state is
    [S01S00_INVALID_CONNECTION_STRING_ATTRIBUTE]. *)
(** The message up to the quoted name of the authentication type, and after it. *)
Definition required_message (auth rest : string) : text :=
  txt "The following is required to connect:" ++ ["010"%char] ++ txt "AUTH is "
  ++ ["034"%char] ++ txt auth ++ ["034"%char] ++ txt rest.

Definition okta_message : text := required_message "OKTA"
  " and IdpHost, UID or IdpUserName, PWD or IdpPassword, OktaAppId, RoleArn and IdpArn".
Definition aad_message : text := required_message "AAD"
  " and UID or IdpUserName, PWD or IdpPassword, and AADAppId, RoleArn, IdpArn, AADTenant and AADClientSecret".
Definition iam_message : text := required_message "IAM"
  " and UID and PWD or AccessKeyId and Secretkey".

Definition Validate (c : Configuration) : option (SqlState * text) :=
  if bool_decide (GetAuthType c = OKTA)
     && (empty (GetIdPHost c) || empty (GetDSNUserName c) || empty (GetDSNPassword c)
         || empty (GetIdPArn c) || empty (GetRoleArn c) || empty (GetOktaAppId c))
  then Some (S01S00_INVALID_CONNECTION_STRING_ATTRIBUTE, okta_message)
  else if bool_decide (GetAuthType c = AAD)
     && (empty (GetDSNUserName c) || empty (GetDSNPassword c) || empty (GetIdPArn c)
         || empty (GetRoleArn c) || empty (GetAADAppId c) || empty (GetAADTenant c)
         || empty (GetAADClientSecret c))
  then Some (S01S00_INVALID_CONNECTION_STRING_ATTRIBUTE, aad_message)
  else if bool_decide (GetAuthType c = IAM)
     && (empty (GetDSNUserName c) || empty (GetDSNPassword c))
  then Some (S01S00_INVALID_CONNECTION_STRING_ATTRIBUTE, iam_message)
  else None.

(** ** The argument map *)

(** [std::map<std::string, std::string>]: bindings in the order of the keys. *)
Definition ArgumentMap : Type := list (text * text).

(** [std::string]'s [operator<]: lexicographic on unsigned characters. *)
Fixpoint text_ltb (a b : text) : bool :=
  match a, b with
  | _, [] => false
  | [], _ :: _ => true
  | x :: a', y :: b' =>
      if code x <? code y then true
      else if code y <? code x then false else text_ltb a' b'
  end.

(** [map[key] = value]. *)
Fixpoint map_set (m : ArgumentMap) (key value : text) : ArgumentMap :=
  match m with
  | [] => [(key, value)]
  | (k, v) :: m' =>
      if text_ltb key k then (key, value) :: m
      else if text_ltb k key then (k, v) :: map_set m' key value
      else (key, value) :: m'
  end.

(** The four [AddToMap] instances the settings use. *)
Definition AddToMap_int (m : ArgumentMap) (key : text) (value : Settable Z) : ArgumentMap :=
  if IsSet value then map_set m key (show_int (GetValue value)) else m.
Definition AddToMap_string (m : ArgumentMap) (key : text) (value : Settable text) : ArgumentMap :=
  if IsSet value then map_set m key (GetValue value) else m.
Definition AddToMap_auth (m : ArgumentMap) (key : text) (value : Settable AuthType) : ArgumentMap :=
  if IsSet value then map_set m key (AuthType_ToString (GetValue value)) else m.
Definition AddToMap_level (m : ArgumentMap) (key : text) (value : Settable LogLevel) : ArgumentMap :=
  if IsSet value then map_set m key (LogLevel_ToString (GetValue value)) else m.

Definition ToMap (c : Configuration) (res : ArgumentMap) : ArgumentMap :=
  let res := AddToMap_string res Key.dsn (dsn c) in
  let res := AddToMap_string res Key.driver (driver c) in
  let res := AddToMap_string res Key.uid (uid c) in
  let res := AddToMap_string res Key.pwd (pwd c) in
  let res := AddToMap_string res Key.accessKeyId (accessKeyId c) in
  let res := AddToMap_string res Key.secretKey (secretKey c) in
  let res := AddToMap_string res Key.sessionToken (sessionToken c) in
  let res := AddToMap_string res Key.profileName (profileName c) in
  let res := AddToMap_int res Key.reqTimeout (reqTimeout c) in
  let res := AddToMap_int res Key.connectionTimeout (connectionTimeout c) in
  let res := AddToMap_int res Key.maxRetryCountClient (maxRetryCountClient c) in
  let res := AddToMap_int res Key.maxConnections (maxConnections c) in
  let res := AddToMap_string res Key.endpoint (endpoint c) in
  let res := AddToMap_string res Key.region (region c) in
  let res := AddToMap_auth res Key.authType (authType c) in
  let res := AddToMap_string res Key.idPHost (idPHost c) in
  let res := AddToMap_string res Key.idPUserName (idPUserName c) in
  let res := AddToMap_string res Key.idPPassword (idPPassword c) in
  let res := AddToMap_string res Key.idPArn (idPArn c) in
  let res := AddToMap_string res Key.oktaAppId (oktaAppId c) in
  let res := AddToMap_string res Key.roleArn (roleArn c) in
  let res := AddToMap_string res Key.aadAppId (aadAppId c) in
  let res := AddToMap_string res Key.aadClientSecret (aadClientSecret c) in
  let res := AddToMap_string res Key.aadTenant (aadTenant c) in
  let res := AddToMap_level res Key.logLevel (logLevel c) in
  let res := AddToMap_string res Key.logPath (logPath c) in
  let res := AddToMap_int res Key.maxRowPerPage (maxRowPerPage c) in
  res.

(** [ToConnectString]: empty values are left out; a value with a space is put in
    braces. *)
Definition has_space (s : text) : bool := existsb (fun c => code c =? 32) s.

Definition render_pair (kv : text * text) : text :=
  let '(key, value) := kv in
  if empty value then []
  else if negb (has_space value) then key ++ txt "=" ++ value ++ txt ";"
  else key ++ txt "={" ++ value ++ txt "};".

Definition ToConnectString (c : Configuration) : text :=
  concat (map render_pair (ToMap c [])).

(** ** What a configuration needs to connect *)

(** The settings each authentication type requires. *)
Definition required (c : Configuration) : list text :=
  match GetAuthType c with
  | OKTA => [GetIdPHost c; GetDSNUserName c; GetDSNPassword c; GetIdPArn c; GetRoleArn c;
             GetOktaAppId c]
  | AAD => [GetDSNUserName c; GetDSNPassword c; GetIdPArn c; GetRoleArn c; GetAADAppId c;
            GetAADTenant c; GetAADClientSecret c]
  | IAM => [GetDSNUserName c; GetDSNPassword c]
  | AWS_PROFILE => []
  end.

Definition required_text (a : AuthType) : text :=
  match a with
  | OKTA => okta_message | AAD => aad_message | IAM => iam_message | AWS_PROFILE => []
  end.

Lemma Validate_spec c :
  Validate c =
    if existsb empty (required c)
    then Some (S01S00_INVALID_CONNECTION_STRING_ATTRIBUTE, required_text (GetAuthType c))
    else None.
Proof.
  unfold Validate, required. destruct (GetAuthType c); cbn [existsb bool_decide decide_rel];
    repeat (rewrite bool_decide_eq_false_2 by done || rewrite bool_decide_eq_true_2 by done);
    cbn [andb]; rewrite ?orb_false_r, ?orb_assoc; by repeat case_test.
Qed.

End Settings.
End Config.

(** A platform for concrete runs: [/var/log] is the only directory. *)
Definition ExamplePlatform : Config.Platform := {|
  Config.sizeof_string := 32; Config.sizeof_string_big := eq_refl;
  Config.os_is_directory := fun path => Text.text_eqb path (Text.txt "/var/log");
  Config.default_log_path := Text.txt "/home/user"
|}.

(** C27. [Validate] accepts a configuration exactly when every credential its
    authentication type requires is non-empty; what it throws otherwise carries
    the state 01S00 and the message of that authentication type. *)
Theorem Validate_correct (P : Config.Platform) (c : Config.Configuration) :
  (Config.Validate c = None <-> Forall (fun s => s <> []) (Config.required c)) /\
  (forall st msg, Config.Validate c = Some (st, msg) ->
     st = Diag.S01S00_INVALID_CONNECTION_STRING_ATTRIBUTE /\
     msg = Config.required_text (Config.GetAuthType c)).
Proof.
  rewrite Config.Validate_spec. split.
  - rewrite Forall_forall. setoid_rewrite list_elem_of_In.
    destruct (existsb Config.empty (Config.required c)) eqn:E; split; try done.
    + intros Hall. apply existsb_exists in E as (s & Hin & Hs%bool_decide_eq_true_1).
      by specialize (Hall s Hin).
    + intros _ s Hin ->. assert (Ht : existsb Config.empty (Config.required c) = true); [|congruence].
      apply existsb_exists. by exists [].
  - intros st msg. case_test; [|done]. by intros [= <- <-].
Qed.

(** An IAM user without and with its credentials. *)
Lemma Validate_witness :
  let P := ExamplePlatform in
  let iam := Config.SetAuthType Config.DefaultConfiguration Config.IAM in
  Config.Validate iam = Some (Diag.S01S00_INVALID_CONNECTION_STRING_ATTRIBUTE, Config.iam_message) /\
  Config.Validate (Config.SetPwd (Config.SetUid iam (Text.txt "u")) (Text.txt "p")) = None.
Proof.
  intros P iam. split; [vm_compute; reflexivity|]. apply (proj2 (proj1 (Validate_correct P _))).
  vm_compute. repeat constructor; discriminate.
Defined.
