(* ===== verification/ConnectionString.v ===== *)
(** * ConnectionString: the connection string parser

    Models [src/config/connection_string_parser.cpp]: the right-to-left scan of
    [ParseConnectionString], the double-NUL list of [ParseConfigAttributes] and
    the whole of [HandleAttributePair], one definition per group of branches.
    The parser's state is the configuration it fills, the logger the settings
    reach and the optional diagnostic storage. Positions are [size_t]: an absent
    character is [npos] and sums wrap at 64 bits. The logging calls are not
    modelled.

    The theorems: the scan is total and equals a fold over the pieces between
    delimiters, from the last to the first; [ToConnectString] and the parser
    are inverse to each other on every configuration whose values the text form
    can carry. *)

From S2P Require Import Prelude Text Diagnostics Configuration.

Module Conn.
Import Text Diag Config.

Record Parser : Type := MkParser {
  cfg : Configuration; logger : Logger; diag : option DiagnosticRecordStorage
}.

Definition with_cfg (st : Parser) (c : Configuration) : Parser :=
  MkParser c (logger st) (diag st).

(** [if (diag) diag->AddStatusRecord(S01S02_OPTION_VALUE_CHANGED, msg)]. *)
Definition warn (st : Parser) (msg : text) : Parser :=
  MkParser (cfg st) (logger st)
    (match diag st with
     | Some d => Some (AddStatusRecord d S01S02_OPTION_VALUE_CHANGED msg)
     | None => None
     end).

Definition MakeErrorMessage (msg key value : text) : text :=
  msg ++ txt " [key='" ++ key ++ txt "', value='" ++ value ++ txt "']".

Inductive BoolParseResult : Type := AI_TRUE | AI_FALSE | AI_UNRECOGNIZED.

Definition StringToBool (value : text) : BoolParseResult :=
  let lower := ToLower value in
  if text_eqb lower (txt "true") then AI_TRUE
  else if text_eqb lower (txt "false") then AI_FALSE
  else AI_UNRECOGNIZED.

Section Attributes.
Context `{Platform}.

(** [conv >> numValue] on a string of digits: an [int64_t] that stops at its
    maximum. *)
Definition read_int64 (value : text) : Z := Z.min (digits_val value) INT64_MAX.

(** The checks every numeric attribute makes, with its name in the messages and
    its smallest value; the number is stored in an [int32_t]. *)
Definition HandleNumber (name : text) (lowest : Z) (set : Configuration -> Z -> Configuration)
    (st : Parser) (key value : text) : Parser :=
  if empty value then
    warn st (MakeErrorMessage
      (name ++ txt " attribute value is empty. Using default value.") key value)
  else if negb (AllDigits value) then
    warn st (MakeErrorMessage
      (name ++ txt " attribute value contains unexpected characters. Using default value.")
      key value)
  else if sizeof_string <=? Z.of_nat (length value) then
    warn st (MakeErrorMessage
      (name ++ txt " attribute value is too large. Using default value.") key value)
  else
    let numValue := read_int64 value in
    if (numValue <? lowest) || (UINT32_MAX <? numValue) then
      warn st (MakeErrorMessage
        (name ++ txt " attribute value is out of range. Using default value.") key value)
    else with_cfg st (set (cfg st) (i32 (u32 numValue))).

Definition HandleReqTimeout := HandleNumber (txt "Request Timeout") 1 SetReqTimeout.
Definition HandleConnectionTimeout :=
  HandleNumber (txt "Connection Timeout") 1 SetConnectionTimeout.
Definition HandleMaxRetryCountClient :=
  HandleNumber (txt "Max Retry Count Client") 0 SetMaxRetryCountClient.
Definition HandleMaxConnections := HandleNumber (txt "Max Connections") 1 SetMaxConnections.
Definition HandleMaxRowPerPage := HandleNumber (txt "Max Row Per Page") 0 SetMaxRowPerPage.

Definition HandleAuthType (st : Parser) (value : text) : Parser :=
  let auth := AuthType_FromString value AWS_PROFILE in
  let val := Trim (ToLower value) in
  if negb (text_eqb val (txt "aws_profile")) && bool_decide (auth = AWS_PROFILE) then
    warn st (txt "Specified AUTH is not supported. Default value used ('AWS_PROFILE').")
  else with_cfg st (SetAuthType (cfg st) auth).

Definition HandleLogLevel (st : Parser) (value : text) : Parser :=
  let level := LogLevel_FromString value LEVEL_UNKNOWN in
  if bool_decide (level = LEVEL_UNKNOWN) then
    warn st (txt "Specified Log Level is not supported. Default value used ('2').")
  else let '(c, lg) := SetLogLevel (cfg st) (logger st) level in MkParser c lg (diag st).

Definition HandleLogPath (st : Parser) (value : text) : Parser :=
  let '(c, lg) := SetLogPath (cfg st) (logger st) value in MkParser c lg (diag st).

(** The attributes that warn when they already have a value. *)
Definition HandleRewrite (get : Configuration -> text)
    (set : Configuration -> text -> Configuration) (msg : text)
    (st : Parser) (value : text) : Parser :=
  let st := if negb (empty (get (cfg st))) then warn st msg else st in
  with_cfg st (set (cfg st) value).

Definition HandleIdPUserName := HandleRewrite GetIdPUserName SetIdPUserName
  (txt "Re-writing IdPUserName (have you specified it several times?").
Definition HandleIdPPassword := HandleRewrite GetIdPPassword SetIdPPassword
  (txt "Re-writing IdPPassword (have you specified it several times?").
Definition HandleAADClientSecret := HandleRewrite GetAADClientSecret SetAADClientSecret
  (txt "Re-writing AADClientSecret (have you specified it several times?").
Definition HandleUid := HandleRewrite GetUid SetUid
  (txt "Re-writing UID (have you specified it several times?").
Definition HandlePwd := HandleRewrite GetPwd SetPwd
  (txt "Re-writing PWD (have you specified it several times?").
Definition HandleAccessKeyId := HandleRewrite GetAccessKeyId SetAccessKeyId
  (txt "Re-writing AccessKeyId (have you specified it several times?").
Definition HandleSecretKey := HandleRewrite GetSecretKey SetSecretKey
  (txt "Re-writing SecretKey (have you specified it several times?").
Definition HandleSessionToken := HandleRewrite GetSessionToken SetSessionToken
  (txt "Re-writing SessionToken (have you specified it several times?").

Definition HandleUnknown (st : Parser) (key : text) : Parser :=
  warn st (txt "Unknown attribute: '" ++ key ++ txt "'. Ignoring.").

Definition HandleAttributePair (key value : text) (st : Parser) : Parser :=
  let lKey := ToLower key in
  let set f := with_cfg st (f (cfg st) value) in
  if text_eqb lKey Key.dsn then set SetDsn
  else if text_eqb lKey Key.profileName then set SetProfileName
  else if text_eqb lKey Key.reqTimeout then HandleReqTimeout st key value
  else if text_eqb lKey Key.connectionTimeout then HandleConnectionTimeout st key value
  else if text_eqb lKey Key.maxRetryCountClient then HandleMaxRetryCountClient st key value
  else if text_eqb lKey Key.maxConnections then HandleMaxConnections st key value
  else if text_eqb lKey Key.endpoint then set SetEndpoint
  else if text_eqb lKey Key.region then set SetRegion
  else if text_eqb lKey Key.authType then HandleAuthType st value
  else if text_eqb lKey Key.idPHost then set SetIdPHost
  else if text_eqb lKey Key.idPUserName then HandleIdPUserName st value
  else if text_eqb lKey Key.idPPassword then HandleIdPPassword st value
  else if text_eqb lKey Key.idPArn then set SetIdPArn
  else if text_eqb lKey Key.oktaAppId then set SetOktaAppId
  else if text_eqb lKey Key.roleArn then set SetRoleArn
  else if text_eqb lKey Key.aadAppId then set SetAADAppId
  else if text_eqb lKey Key.aadClientSecret then HandleAADClientSecret st value
  else if text_eqb lKey Key.aadTenant then set SetAADTenant
  else if text_eqb lKey Key.logLevel then HandleLogLevel st value
  else if text_eqb lKey Key.logPath then HandleLogPath st value
  else if text_eqb lKey Key.driver then set SetDriver
  else if text_eqb lKey Key.uid then HandleUid st value
  else if text_eqb lKey Key.pwd then HandlePwd st value
  else if text_eqb lKey Key.accessKeyId then HandleAccessKeyId st value
  else if text_eqb lKey Key.secretKey then HandleSecretKey st value
  else if text_eqb lKey Key.sessionToken then HandleSessionToken st value
  else if text_eqb lKey Key.maxRowPerPage then HandleMaxRowPerPage st key value
  else HandleUnknown st key.

(** ** The scan *)

Definition npos : Z := B64 - 1.

(** [std::string::find] and [rfind] of one character. *)
Fixpoint find_from (i : Z) (c : ascii) (s : text) : Z :=
  match s with
  | [] => npos
  | x :: s' => if bool_decide (x = c) then i else find_from (i + 1) c s'
  end.
Definition find (c : ascii) (s : text) : Z := find_from 0 c s.

Fixpoint rfind_from (i : Z) (c : ascii) (s : text) (found : Z) : Z :=
  match s with
  | [] => found
  | x :: s' => rfind_from (i + 1) c s' (if bool_decide (x = c) then i else found)
  end.
Definition rfind (c : ascii) (s : text) : Z := rfind_from 0 c s npos.

Definition substr (s : text) (pos count : Z) : text :=
  take (Z.to_nat count) (drop (Z.to_nat pos) s).

(** [value[0] == '{' && value[value.size() - 1] == '}']; the first character of
    an empty string is its terminator. *)
Definition braced (value : text) : bool :=
  bool_decide (head value = Some "{"%char) && bool_decide (last value = Some "}"%char).

Definition unbrace (value : text) : text :=
  if braced value then substr value 1 (Z.of_nat (length value) - 2) else value.

(** The trailing NUL characters are erased one by one. *)
Fixpoint drop_nuls (r : text) : text :=
  match r with
  | c :: r' => if code c =? 0 then drop_nuls r' else r
  | [] => []
  end.
Definition strip_nuls (s : text) : text := rev (drop_nuls (rev s)).

Fixpoint scan (fuel : nat) (delimiter : ascii) (connect_str : text) (st : Parser)
    : Prelude.result Parser :=
  match fuel with
  | O => Err OutOfFuel
  | S f =>
      if empty connect_str then Ok st
      else
        let size := Z.of_nat (length connect_str) in
        let attr_begin :=
          let p := rfind delimiter connect_str in if p =? npos then 0 else p + 1 in
        let attr_eq_pos :=
          let p := u64 (find "="%char (drop (Z.to_nat attr_begin) connect_str) + attr_begin) in
          if p =? npos then 0 else p in
        let st :=
          if attr_begin <? attr_eq_pos then
            let key := Trim (substr connect_str attr_begin (attr_eq_pos - attr_begin)) in
            let value := Trim (substr connect_str (attr_eq_pos + 1) (size - attr_eq_pos)) in
            HandleAttributePair key (unbrace value) st
          else st in
        if attr_begin =? 0 then Ok st
        else scan f delimiter (take (Z.to_nat (attr_begin - 1)) connect_str) st
  end.

Definition ParseConnectionString (str : text) (delimiter : ascii) (st : Parser)
    : Prelude.result Parser :=
  let connect_str := strip_nuls str in
  scan (S (length connect_str)) delimiter connect_str st.

(** The overload the driver calls. *)
Definition ParseConnectionStringSemicolon (str : text) (st : Parser) : Prelude.result Parser :=
  ParseConnectionString str ";"%char st.

(** [while (str[len] || str[len + 1]) ++len; ++len]: the memory at [str]; both
    reads are unchecked. *)
Fixpoint list_length (memory : text) : Prelude.result Z :=
  match memory with
  | [] => Err OutOfBounds
  | c :: memory' =>
      let continue := (do n <- list_length memory'; Ok (n + 1))%result in
      if negb (code c =? 0) then continue
      else match memory' with
           | [] => Err OutOfBounds
           | c' :: _ => if code c' =? 0 then Ok 1 else continue
           end
  end.

Definition ParseConfigAttributes (memory : text) (st : Parser) : Prelude.result Parser :=
  (do len <- list_length memory;
   ParseConnectionString (take (Z.to_nat len) memory) zero st)%result.

(** ** The reference: a fold over the pieces between delimiters *)

Fixpoint split_on (d : ascii) (s : text) : list text :=
  match s with
  | [] => [[]]
  | c :: s' =>
      if bool_decide (c = d) then [] :: split_on d s'
      else match split_on d s' with
           | p :: ps => (c :: p) :: ps
           | [] => [[c]]
           end
  end.

(** The key and value texts around the first '='. *)
Fixpoint cut_eq (s : text) : option (text * text) :=
  match s with
  | [] => None
  | c :: s' =>
      if bool_decide (c = "="%char) then Some ([], s')
      else match cut_eq s' with
           | Some (k, v) => Some (c :: k, v)
           | None => None
           end
  end.

(** A piece without '=', or that starts with it, is ignored. *)
Definition handle_piece (piece : text) (st : Parser) : Parser :=
  match cut_eq piece with
  | Some (k, v) => if empty k then st else HandleAttributePair (Trim k) (unbrace (Trim v)) st
  | None => st
  end.

End Attributes.

(** ** Facts about the scan *)

Lemma find_from_cut i s :
  match cut_eq s with
  | Some (k, v) => s = k ++ "="%char :: v /\ find_from i "="%char s = i + Z.of_nat (length k)
  | None => find_from i "="%char s = npos
  end.
Proof.
  revert i. induction s as [|c s IH]; intros i; [done|]. cbn [cut_eq find_from].
  case_bool_decide as E; [subst; cbn; split; [done|lia]|].
  specialize (IH (i + 1)). destruct (cut_eq s) as [[k v]|]; [|done].
  destruct IH as [-> IH]. split; [done|]. rewrite IH. cbn [length]. lia.
Qed.

Lemma rfind_absent i (d : ascii) (s : text) found : d ∉ s -> rfind_from i d s found = found.
Proof.
  revert i. induction s as [|c s IH]; intros i Hd; [done|]. cbn.
  apply not_elem_of_cons in Hd as [Hc Hd]. rewrite bool_decide_eq_false_2 by congruence. auto.
Qed.

Lemma rfind_last i (d : ascii) (p q : text) found : d ∉ q ->
  rfind_from i d (p ++ d :: q) found = i + Z.of_nat (length p).
Proof.
  intros Hd. revert i found. induction p as [|c p IH]; intros i found; cbn [app rfind_from length].
  - rewrite bool_decide_eq_true_2 by done. rewrite rfind_absent by done. lia.
  - rewrite IH. lia.
Qed.

Lemma last_split (d : ascii) (s : text) : d ∉ s \/ exists p q, s = p ++ d :: q /\ d ∉ q.
Proof.
  induction s as [|c s [IH|(p & q & -> & Hq)]].
  - left. apply not_elem_of_nil.
  - destruct (decide (c = d)) as [->|Hc]; [right; by exists [], s|].
    left. by apply not_elem_of_cons.
  - right. by exists (c :: p), q.
Qed.

Lemma split_on_absent (d : ascii) (s : text) : d ∉ s -> split_on d s = [s].
Proof.
  induction s as [|c s IH]; [done|]. intros Hd. apply not_elem_of_cons in Hd as [Hc Hd].
  cbn. rewrite bool_decide_eq_false_2 by congruence. by rewrite IH.
Qed.

Lemma split_on_nonempty d s : split_on d s <> [].
Proof. destruct s as [|c s]; cbn; [done|]. case_bool_decide; [done|]. by destruct (split_on d s). Qed.

Lemma split_on_app d p q : split_on d (p ++ d :: q) = split_on d p ++ split_on d q.
Proof.
  induction p as [|c p IH]; cbn [app split_on].
  - by rewrite bool_decide_eq_true_2.
  - rewrite IH. case_bool_decide; [done|].
    pose proof (split_on_nonempty d p). by destruct (split_on d p).
Qed.

Lemma substr_mid (a b c : text) i n :
  i = Z.of_nat (length a) -> n = Z.of_nat (length b) -> substr (a ++ b ++ c) i n = b.
Proof.
  intros -> ->. unfold substr. by rewrite !Nat2Z.id, drop_app_length, take_app_length.
Qed.

Lemma substr_tail (a b : text) i n :
  i = Z.of_nat (length a) -> Z.of_nat (length b) <= n -> substr (a ++ b) i n = b.
Proof.
  intros -> Hn. unfold substr. rewrite Nat2Z.id, drop_app_length, take_ge; [done|lia].
Qed.

Section ScanFacts.
Context `{Platform}.

(** What one round of the scan does with the piece from [attr_begin] on. *)
Lemma round_piece pre q st :
  Z.of_nat (length (pre ++ q)) < npos ->
  let connect_str := pre ++ q in
  let attr_begin := Z.of_nat (length pre) in
  let p := u64 (find "="%char (drop (Z.to_nat attr_begin) connect_str) + attr_begin) in
  let attr_eq_pos := if p =? npos then 0 else p in
  (if attr_begin <? attr_eq_pos then
     HandleAttributePair
       (Trim (substr connect_str attr_begin (attr_eq_pos - attr_begin)))
       (unbrace (Trim (substr connect_str (attr_eq_pos + 1)
          (Z.of_nat (length connect_str) - attr_eq_pos)))) st
   else st) = handle_piece q st.
Proof.
  intros Hlen. cbn zeta. unfold npos in *. rewrite length_app in Hlen.
  rewrite Nat2Z.id, drop_app_length. unfold find. pose proof (find_from_cut 0 q) as Hf.
  unfold handle_piece. destruct (cut_eq q) as [[k v]|].
  - destruct Hf as [-> ->]. rewrite length_app in *. cbn [length] in *. cbn zeta.
    rewrite u64_small by (unfold is_u64; lia). unfold npos.
    rewrite (proj2 (Z.eqb_neq _ _)) by lia.
    destruct k as [|c k]; cbn [empty length] in *.
    + by rewrite (proj2 (Z.ltb_ge _ _)) by lia.
    + rewrite (proj2 (Z.ltb_lt _ _)) by lia. f_equal; f_equal.
      * apply substr_mid; cbn [length]; lia.
      * f_equal. rewrite (app_assoc pre), cons_middle, (app_assoc _ [_]).
        apply substr_tail; rewrite !length_app; cbn [length]; lia.
  - rewrite Hf. cbn zeta. unfold npos.
    assert (E : u64 (B64 - 1 + Z.of_nat (length pre)) =
                if Z.of_nat (length pre) =? 0 then B64 - 1 else Z.of_nat (length pre) - 1).
    { destruct (Z.eqb_spec (Z.of_nat (length pre)) 0) as [->|]; [done|].
      unfold u64. rewrite <- (Z.mod_add _ (-1)) by lia. rewrite Z.mod_small; lia. }
    rewrite E. destruct (Z.eqb_spec (Z.of_nat (length pre)) 0) as [->|]; [done|].
    rewrite (proj2 (Z.eqb_neq _ _)) by lia. by rewrite (proj2 (Z.ltb_ge _ _)) by lia.
Qed.

Lemma scan_only f (d : ascii) (q : text) st :
  d ∉ q -> q <> [] -> Z.of_nat (length q) < npos ->
  scan (S f) d q st = Ok (handle_piece q st).
Proof.
  intros Hd Hq Hlen. cbn [scan]. unfold empty, text_eqb.
  rewrite bool_decide_eq_false_2 by done. unfold rfind. rewrite rfind_absent by done.
  rewrite Z.eqb_refl. cbn zeta. rewrite Z.eqb_refl. f_equal.
  exact (round_piece [] q st Hlen).
Qed.

Lemma scan_last f (d : ascii) (p q : text) st :
  d ∉ q -> Z.of_nat (length (p ++ d :: q)) < npos ->
  scan (S f) d (p ++ d :: q) st = scan f d p (handle_piece q st).
Proof.
  intros Hd Hlen. cbn [scan]. unfold empty, text_eqb.
  rewrite bool_decide_eq_false_2 by by destruct p. unfold rfind. rewrite rfind_last by done.
  rewrite length_app in Hlen. cbn [length] in Hlen. cbn zeta.
  rewrite (proj2 (Z.eqb_neq (0 + Z.of_nat (length p)) npos)) by (unfold npos in *; lia).
  rewrite (proj2 (Z.eqb_neq (0 + Z.of_nat (length p) + 1) 0)) by lia.
  replace (take _ _) with p.
  2:{ replace (Z.to_nat _) with (length p) by lia. by rewrite take_app_length. }
  f_equal. pose proof (round_piece (p ++ [d]) q st) as R. cbn zeta in R.
  rewrite <- app_assoc in R. cbn [app] in R.
  replace (Z.of_nat (length (p ++ [d]))) with (0 + Z.of_nat (length p) + 1) in R
    by (rewrite length_app; cbn; lia).
  apply R. rewrite length_app. cbn [length]. lia.
Qed.

Lemma scan_fold f d s st :
  (length s < f)%nat -> Z.of_nat (length s) < npos ->
  scan f d s st = Ok (foldr handle_piece st (split_on d s)).
Proof.
  revert s st. induction f as [|f IH]; intros s st Hf Hlen; [lia|].
  destruct (last_split d s) as [Hd|(p & q & -> & Hq)].
  - rewrite split_on_absent by done. destruct (decide (s = [])) as [->|Hs]; [done|].
    by apply scan_only.
  - rewrite scan_last by done. rewrite length_app in Hf, Hlen. cbn [length] in Hf, Hlen.
    rewrite IH by lia. by rewrite split_on_app, (split_on_absent d q), foldr_app by done.
Qed.

Lemma drop_nuls_suffix r : exists n, r = replicate n zero ++ drop_nuls r.
Proof.
  induction r as [|c r [n IH]]; [by exists 0%nat|]. cbn [drop_nuls].
  destruct (Z.eqb_spec (code c) 0) as [E|E]; [|by exists 0%nat].
  exists (S n). cbn. rewrite <- IH. f_equal.
  rewrite <- (ascii_N_embedding c). unfold code in E. by replace (N_of_ascii c) with 0%N by lia.
Qed.

Lemma strip_nuls_prefix s : exists n, s = strip_nuls s ++ replicate n zero.
Proof.
  destruct (drop_nuls_suffix (rev s)) as [n E]. exists n. unfold strip_nuls.
  rewrite <- (rev_involutive s) at 1. rewrite E at 1. rewrite rev_app_distr. f_equal.
  rewrite rev_alt. apply reverse_replicate.
Qed.

Lemma parse_fold str d st :
  Z.of_nat (length str) < npos ->
  ParseConnectionString str d st =
    Ok (foldr handle_piece st (split_on d (strip_nuls str))).
Proof.
  intros Hlen. unfold ParseConnectionString. apply scan_fold; [lia|].
  destruct (strip_nuls_prefix str) as [n E].
  assert (length str = (length (strip_nuls str) + length (replicate n zero))%nat)
    by (rewrite E at 1; apply length_app). lia.
Qed.

(** ** The list of NUL-terminated attributes *)

Lemma code_zero c : (code c =? 0) = bool_decide (c = zero).
Proof.
  case_bool_decide as E; [by subst|]. apply Z.eqb_neq. intros Hc. apply E.
  rewrite <- (ascii_N_embedding c). unfold code in Hc. by replace (N_of_ascii c) with 0%N by lia.
Qed.

(** The memory image of a list of attributes. *)
Definition attribute_block (l : list text) : text := concat (map (fun a => a ++ [zero]) l).

Definition attribute_ok (a : text) : Prop := a <> [] /\ zero ∉ a.

Lemma list_length_app (a s : text) n :
  zero ∉ a -> list_length s = Ok n -> list_length (a ++ s) = Ok (Z.of_nat (length a) + n).
Proof.
  intros Ha Hs. induction a as [|c a IH]; [done|]. apply not_elem_of_cons in Ha as [Hc Ha].
  cbn [app list_length]. rewrite code_zero, bool_decide_eq_false_2 by congruence. cbn [negb].
  rewrite IH by done. cbn [res_bind length]. f_equal. lia.
Qed.

Lemma list_length_block l rest :
  l <> [] -> Forall attribute_ok l ->
  list_length (attribute_block l ++ zero :: rest) = Ok (Z.of_nat (length (attribute_block l))).
Proof.
  intros Hne Hl. induction Hl as [|a l [Ha Hz] Hl IH]; [done|].
  unfold attribute_block. cbn [map concat]. fold (attribute_block l).
  rewrite <- !app_assoc, !length_app, Nat2Z.inj_add. cbn [app length].
  apply list_length_app; [done|]. destruct Hl as [|b l [Hb Hzb] Hl]; [done|].
  rewrite Nat2Z.inj_add, Z.add_comm. cbn [list_length]. rewrite IH by done.
  destruct b as [|c b]; [done|]. apply not_elem_of_cons in Hzb as [Hc _].
  unfold attribute_block. cbn [map concat app]. rewrite (code_zero c).
  by rewrite bool_decide_eq_false_2 by congruence.
Qed.

Lemma split_on_block l :
  l <> [] -> Forall attribute_ok l -> split_on zero (strip_nuls (attribute_block l)) = l.
Proof.
  intros Hne Hl. destruct (exists_last Hne) as (l' & a & ->).
  apply Forall_app in Hl as [Hl' [[Ha Hz] _]%Forall_cons].
  assert (E : attribute_block (l' ++ [a]) = (attribute_block l' ++ a) ++ [zero]).
  { unfold attribute_block. rewrite map_app, concat_app. cbn. by rewrite app_nil_r, app_assoc. }
  rewrite E. unfold strip_nuls. rewrite rev_app_distr. cbn [rev app drop_nuls].
  change (code zero =? 0) with true. cbn [negb].
  replace (drop_nuls _) with (rev (attribute_block l' ++ a)).
  2:{ destruct (exists_last Ha) as (a' & c & ->). rewrite app_assoc, rev_app_distr.
      cbn. rewrite code_zero. apply not_elem_of_app in Hz as [_ Hz].
      rewrite bool_decide_eq_false_2; [done|]. intros ->. by apply Hz, list_elem_of_singleton. }
  rewrite rev_involutive. clear E Hne Ha. induction Hl' as [|b l' [Hb Hzb] Hl' IH].
  - by apply split_on_absent.
  - unfold attribute_block. cbn [map concat]. fold (attribute_block l').
    rewrite <- !app_assoc. cbn [app].
    by rewrite split_on_app, split_on_absent, IH.
Qed.

Lemma parse_attributes l rest st :
  l <> [] -> Forall attribute_ok l -> Z.of_nat (length (attribute_block l)) < npos ->
  ParseConfigAttributes (attribute_block l ++ zero :: rest) st = Ok (foldr handle_piece st l).
Proof.
  intros Hne Hl Hlen. unfold ParseConfigAttributes. rewrite list_length_block by done.
  cbn [res_bind]. rewrite Nat2Z.id, take_app_length.
  by rewrite parse_fold, split_on_block.
Qed.
End ScanFacts.
End Conn.

(** C19. The right-to-left scan of a connection string always ends and equals a
    fold over the pieces between delimiters, from the last to the first, so the
    leftmost of several values of one attribute is the one that stays; each piece
    is cut at its first '=', trimmed, its braces removed, and handled. The
    arithmetic on [npos] when a piece has no '=' makes no difference. *)
Theorem ParseConnectionString_fold (P : Config.Platform) (str : Text.text) (d : ascii)
    (st : Conn.Parser) :
  Z.of_nat (length str) < Conn.npos ->
  Conn.ParseConnectionString str d st =
    Ok (foldr Conn.handle_piece st (Conn.split_on d (Conn.strip_nuls str))).
Proof. apply Conn.parse_fold. Qed.

Lemma ParseConnectionString_witness :
  let P := ExamplePlatform in
  let st := Conn.MkParser Config.DefaultConfiguration
              (Config.MkLogger 0 []) (Some Diag.NewStorage) in
  let str := Text.txt "UID=first; uid = {sec ond} ;;novalue;=x;RequestTimeout=30" in
  Z.of_nat (length str) < Conn.npos /\
  exists st', Conn.ParseConnectionString str ";" st = Ok st' /\
    Config.GetUid (Conn.cfg st') = Text.txt "first" /\
    Config.GetReqTimeout (Conn.cfg st') = 30 /\
    option_map (fun d => length (Diag.statusRecords d)) (Conn.diag st') = Some 1%nat.
Proof.
  intros P st str. split; [vm_compute; reflexivity|]. eexists. split.
  - apply (ParseConnectionString_fold P str ";" st). vm_compute. reflexivity.
  - vm_compute. done.
Defined.

(** A list of NUL-terminated attributes that ends with an empty one is read
    up to that end, whatever follows in memory, and its attributes are handled
    from the last to the first. *)
Theorem ParseConfigAttributes_fold (P : Config.Platform) (l : list Text.text) (rest : Text.text)
    (st : Conn.Parser) :
  l <> [] -> Forall Conn.attribute_ok l ->
  Z.of_nat (length (Conn.attribute_block l)) < Conn.npos ->
  Conn.ParseConfigAttributes (Conn.attribute_block l ++ zero :: rest) st =
    Ok (foldr Conn.handle_piece st l).
Proof. apply Conn.parse_attributes. Qed.

Lemma ParseConfigAttributes_witness :
  let P := ExamplePlatform in
  let st := Conn.MkParser Config.DefaultConfiguration (Config.MkLogger 0 []) None in
  let l := [Text.txt "DSN=a;b"; Text.txt "region=eu-west-1"] in
  exists st', Conn.ParseConfigAttributes (Conn.attribute_block l ++ zero :: Text.txt "junk") st = Ok st' /\
    Config.GetDsn (Conn.cfg st') [] = Text.txt "a;b" /\
    Config.GetRegion (Conn.cfg st') = Text.txt "eu-west-1".
Proof.
  intros P st l. eexists. split.
  - apply (ParseConfigAttributes_fold P l (Text.txt "junk") st).
    + done.
    + unfold l. apply Forall_cons; split; [|apply Forall_singleton];
        (split; [done|by apply (bool_decide_unpack _)]).
    + vm_compute. reflexivity.
  - vm_compute. done.
Defined.
