(* ===== verification/ConnectionRoundtrip.v ===== *)
(** * ConnectionRoundtrip: the text form of a configuration and its parser

    Relates [Configuration::ToConnectString] (file Configuration) to
    [ConnectionStringParser] (file ConnectionString). The argument map is shown
    equal to a table in the order of the keys, every attribute handler is shown
    to set exactly its own field, and the two give the round trip. *)

From S2P Require Import Prelude Text Diagnostics Configuration ConnectionString.

Module Round.
Import Text Diag Config Conn.

(** ** The argument map as a table of optional entries *)

Definition table : Type := list (text * option text).

Definition flat_entry (e : text * option text) : ArgumentMap :=
  match snd e with Some v => [(fst e, v)] | None => [] end.
Definition flat (t : table) : ArgumentMap := concat (map flat_entry t).

Fixpoint increasing (l : list text) : bool :=
  match l with
  | [] => true
  | a :: l' => forallb (text_ltb a) l' && increasing l'
  end.

Fixpoint tab_set (t : table) (k : text) (o : option text) : table :=
  match t with
  | [] => []
  | (k', o') :: t' => if text_eqb k k' then (k', o) :: t' else (k', o') :: tab_set t' k o
  end.

(** The key has an entry, and it is empty. *)
Definition is_free (k : text) (e : text * option text) : bool :=
  text_eqb k (fst e) && match snd e with None => true | Some _ => false end.
Definition free (t : table) (k : text) : bool :=
  increasing (map fst t) && existsb (is_free k) t.

Lemma text_ltb_irrefl a : text_ltb a a = false.
Proof. induction a as [|x a IH]; [done|]. cbn. by rewrite Z.ltb_irrefl. Qed.

Lemma text_ltb_asym a b : text_ltb a b = true -> text_ltb b a = false.
Proof.
  revert b. induction a as [|x a IH]; intros [|y b]; try done. cbn.
  destruct (Z.ltb_spec (code x) (code y)), (Z.ltb_spec (code y) (code x)); try done; try lia.
  auto.
Qed.

Lemma map_set_head m k v :
  forallb (fun e => text_ltb k (fst e)) m = true -> map_set m k v = (k, v) :: m.
Proof. destruct m as [|[k' v'] m]; [done|]. cbn. by intros [-> _]%andb_true_iff. Qed.

Lemma forallb_flat (p : text -> bool) t :
  forallb p (map fst t) = true -> forallb (fun e => p (fst e)) (flat t) = true.
Proof.
  induction t as [|[k o] t IH]; [done|]. cbn. intros [Hk Ht]%andb_true_iff.
  destruct o; cbn; rewrite ?Hk; auto.
Qed.

Lemma map_set_flat t k v :
  free t k = true -> map_set (flat t) k v = flat (tab_set t k (Some v)).
Proof.
  unfold free. intros [Hs Hk]%andb_true_iff. induction t as [|[k' o] t IH]; [done|].
  cbn in Hs, Hk. apply andb_true_iff in Hs as [Hlt Hs]. unfold flat. cbn [map concat tab_set].
  unfold text_eqb in *. case_bool_decide as E; subst.
  - destruct o as [w|]; cbn.
    + by rewrite text_ltb_irrefl.
    + apply map_set_head. by apply forallb_flat.
  - unfold is_free, text_eqb in Hk. cbn in Hk. rewrite bool_decide_eq_false_2 in Hk by done.
    cbn in Hk. specialize (IH Hs Hk). destruct o as [w|]; cbn [map concat flat_entry snd fst app];
      [|exact IH].
    assert (Hkk : text_ltb k' k = true).
    { rewrite forallb_forall in Hlt. apply Hlt. apply existsb_exists in Hk as ([k2 o2] & Hin & H2).
      apply andb_true_iff in H2 as [H2%bool_decide_eq_true_1 _]. cbn in H2. subst.
      by apply (in_map fst) in Hin. }
    cbn [map_set]. rewrite (text_ltb_asym _ _ Hkk), Hkk. f_equal. exact IH.
Qed.

Lemma tab_set_none t k : free t k = true -> tab_set t k None = t.
Proof.
  unfold free. intros [Hs Hk]%andb_true_iff. induction t as [|[k' o] t IH]; [done|].
  cbn in Hs, Hk. apply andb_true_iff in Hs as [Hlt Hs]. cbn.
  unfold is_free in Hk. cbn in Hk. destruct (text_eqb k k') eqn:E.
  - destruct o; [|done]. cbn in Hk. exfalso. apply existsb_exists in Hk as ([k2 o2] & Hin & H2).
    apply andb_true_iff in H2 as [H2%bool_decide_eq_true_1 _]. apply bool_decide_eq_true_1 in E.
    cbn in H2. subst. apply (in_map fst) in Hin. rewrite forallb_forall in Hlt.
    specialize (Hlt _ Hin). cbn in Hlt. by rewrite text_ltb_irrefl in Hlt.
  - f_equal. by apply IH.
Qed.

(** What an [AddToMap] contributes. *)
Definition entry {T} (show : T -> text) (s : Settable T) : option text :=
  if IsSet s then Some (show (GetValue s)) else None.

Lemma add_flat t k o :
  free t k = true ->
  match o with Some v => map_set (flat t) k v | None => flat t end = flat (tab_set t k o).
Proof. intros Hf. destruct o; [by apply map_set_flat|]. by rewrite tab_set_none. Qed.

Section Table.
Context `{Platform}.

(** The entries of a configuration in the order of [std::string]'s [operator<]. *)
Definition arg_table (c : Configuration) : table :=
  let string := entry (fun s : text => s) in
  [ (Key.aadAppId, string (aadAppId c)); (Key.aadClientSecret, string (aadClientSecret c));
    (Key.aadTenant, string (aadTenant c)); (Key.accessKeyId, string (accessKeyId c));
    (Key.authType, entry AuthType_ToString (authType c));
    (Key.connectionTimeout, entry show_int (connectionTimeout c));
    (Key.driver, string (driver c)); (Key.dsn, string (dsn c));
    (Key.endpoint, string (endpoint c)); (Key.idPArn, string (idPArn c));
    (Key.idPHost, string (idPHost c)); (Key.idPPassword, string (idPPassword c));
    (Key.idPUserName, string (idPUserName c));
    (Key.logLevel, entry LogLevel_ToString (logLevel c)); (Key.logPath, string (logPath c));
    (Key.maxConnections, entry show_int (maxConnections c));
    (Key.maxRetryCountClient, entry show_int (maxRetryCountClient c));
    (Key.maxRowPerPage, entry show_int (maxRowPerPage c));
    (Key.oktaAppId, string (oktaAppId c)); (Key.profileName, string (profileName c));
    (Key.pwd, string (pwd c)); (Key.region, string (region c));
    (Key.reqTimeout, entry show_int (reqTimeout c)); (Key.roleArn, string (roleArn c));
    (Key.secretKey, string (secretKey c)); (Key.sessionToken, string (sessionToken c));
    (Key.uid, string (uid c)) ].

Lemma add_string_flat t k s :
  free t k = true -> AddToMap_string (flat t) k s = flat (tab_set t k (entry (fun v => v) s)).
Proof. intros Hf. rewrite <- add_flat by done. unfold AddToMap_string, entry. by destruct (IsSet s). Qed.
Lemma add_int_flat t k s :
  free t k = true -> AddToMap_int (flat t) k s = flat (tab_set t k (entry show_int s)).
Proof. intros Hf. rewrite <- add_flat by done. unfold AddToMap_int, entry. by destruct (IsSet s). Qed.
Lemma add_auth_flat t k s :
  free t k = true -> AddToMap_auth (flat t) k s = flat (tab_set t k (entry AuthType_ToString s)).
Proof. intros Hf. rewrite <- add_flat by done. unfold AddToMap_auth, entry. by destruct (IsSet s). Qed.
Lemma add_level_flat t k s :
  free t k = true -> AddToMap_level (flat t) k s = flat (tab_set t k (entry LogLevel_ToString s)).
Proof. intros Hf. rewrite <- add_flat by done. unfold AddToMap_level, entry. by destruct (IsSet s). Qed.

Lemma tab_set_keys t k o : map fst (tab_set t k o) = map fst t.
Proof.
  induction t as [|[k' o'] t IH]; [done|]. cbn. case_test; cbn; congruence.
Qed.

(** The keys of the table, all without a value. *)
Definition empty_table : table :=
  map (fun k => (k, None))
    [ Key.aadAppId; Key.aadClientSecret; Key.aadTenant; Key.accessKeyId; Key.authType;
      Key.connectionTimeout; Key.driver; Key.dsn; Key.endpoint; Key.idPArn; Key.idPHost;
      Key.idPPassword; Key.idPUserName; Key.logLevel; Key.logPath; Key.maxConnections;
      Key.maxRetryCountClient; Key.maxRowPerPage; Key.oktaAppId; Key.profileName; Key.pwd;
      Key.region; Key.reqTimeout; Key.roleArn; Key.secretKey; Key.sessionToken; Key.uid ].

Lemma ToMap_table c : ToMap c [] = flat (arg_table c).
Proof.
  unfold ToMap. cbv zeta. change (@nil (text * text)) with (flat empty_table).
  repeat (first [ rewrite add_string_flat | rewrite add_int_flat | rewrite add_auth_flat
                | rewrite add_level_flat ]; [|vm_compute; reflexivity]).
  reflexivity.
Qed.
End Table.

(** ** Rendering one pair and reading it back *)

Definition no_char (d : ascii) (s : text) : bool := forallb (fun c => negb (bool_decide (c = d))) s.

Definition no_edge (s : text) : bool :=
  match s with [] => true | c :: _ => negb (isspace c) end
  && match rev s with [] => true | c :: _ => negb (isspace c) end.

(** The values the text form can carry: no delimiter, and either a space, so
    that the value is put in braces, or no white space at the ends and no braces
    of its own. *)
Definition value_ok (v : text) : bool :=
  no_char ";" v && (has_space v || (no_edge v && negb (braced v))).

Definition key_ok (k : text) : bool :=
  negb (empty k) && no_char ";" k && no_char "=" k && no_edge k.

Lemma no_char_spec d s : no_char d s = true <-> d ∉ s.
Proof.
  unfold no_char. rewrite forallb_forall. setoid_rewrite <- list_elem_of_In. split.
  - intros Hs Hd. specialize (Hs d Hd). by rewrite bool_decide_eq_true_2 in Hs.
  - intros Hd c Hc. rewrite bool_decide_eq_false_2; [done|]. by intros ->.
Qed.

Lemma no_edge_spec s : no_edge s = true -> no_edge_space s.
Proof.
  unfold no_edge, no_edge_space. intros [H1 H2]%andb_true_iff.
  split; [destruct s|destruct (rev s)]; auto; by apply negb_true_iff.
Qed.

Lemma cut_eq_app (k w : text) : "="%char ∉ k -> cut_eq (k ++ "="%char :: w) = Some (k, w).
Proof.
  induction k as [|c k IH]; intros Hk; [done|]. apply not_elem_of_cons in Hk as [Hc Hk].
  cbn. rewrite bool_decide_eq_false_2 by congruence. by rewrite IH.
Qed.

Lemma unbrace_braces v : unbrace (Trim ("{"%char :: v ++ ["}"%char])) = v.
Proof.
  rewrite Trim_id.
  - unfold unbrace, braced. change ("{"%char :: v ++ ["}"%char]) with (("{"%char :: v) ++ ["}"%char]).
    rewrite last_snoc, !bool_decide_eq_true_2 by done. cbn [andb].
    apply (substr_mid ["{"%char]); [done|]. rewrite !length_app. cbn. lia.
  - split; [done|]. change ("{"%char :: v ++ ["}"%char]) with (("{"%char :: v) ++ ["}"%char]).
    by rewrite rev_app_distr.
Qed.

Section Pairs.
Context `{Platform}.

(** One entry of the map: an empty value is not rendered. *)
Definition step (kv : text * text) (st : Parser) : Parser :=
  if empty (snd kv) then st else HandleAttributePair (fst kv) (snd kv) st.

Definition pair_ok (kv : text * text) : bool := key_ok (fst kv) && value_ok (snd kv).

Lemma render_piece (k v : text) (st : Parser) :
  key_ok k = true -> value_ok v = true -> empty v = false ->
  exists piece : text, render_pair (k, v) = piece ++ [";"%char] /\ (";"%char ∉ piece) /\
    handle_piece piece st = HandleAttributePair k v st.
Proof.
  unfold key_ok, value_ok, render_pair. intros Hk Hv Hne. rewrite Hne.
  apply andb_true_iff in Hk as [[[Hk0 Hk1]%andb_true_iff Hk2]%andb_true_iff Hk3].
  apply andb_true_iff in Hv as [Hv Hsp]. apply no_char_spec in Hv, Hk1, Hk2.
  apply negb_true_iff in Hk0.
  assert (Hp : forall w : text, ";"%char ∉ w -> unbrace (Trim w) = v ->
    (";"%char ∉ k ++ txt "=" ++ w) /\
    handle_piece (k ++ txt "=" ++ w) st = HandleAttributePair k v st).
  { intros w Hw Hu. split.
    - rewrite !not_elem_of_app. split_and!; auto. by apply no_char_spec.
    - unfold handle_piece. cbn [txt list_ascii_of_string app].
      rewrite cut_eq_app by done. case_test; [congruence|].
      rewrite Trim_id by by apply no_edge_spec. by rewrite Hu. }
  destruct (has_space v) eqn:Hs; cbn [negb orb] in *.
  - exists (k ++ txt "=" ++ "{"%char :: v ++ ["}"%char]). split.
    + rewrite <- !app_assoc. f_equal. cbn. by rewrite <- app_assoc.
    + apply Hp; [|by rewrite unbrace_braces].
      rewrite not_elem_of_cons, not_elem_of_app. split_and!; auto. by apply no_char_spec.
  - apply andb_true_iff in Hsp as [He Hb]. apply negb_true_iff in Hb.
    exists (k ++ txt "=" ++ v). split; [by rewrite <- !app_assoc|].
    apply Hp; [done|]. rewrite Trim_id by by apply no_edge_spec. unfold unbrace. by rewrite Hb.
Qed.

Lemma render_pairs m st :
  forallb pair_ok m = true ->
  foldr handle_piece st (split_on ";" (concat (map render_pair m))) = foldr step st m.
Proof.
  induction m as [|[k v] m IH]; [done|]. cbn [forallb map concat foldr].
  intros [[Hk Hv]%andb_true_iff Hm]%andb_true_iff. cbn [fst snd] in *.
  unfold step at 1. cbn [fst snd]. destruct (empty v) eqn:Hne.
  - unfold render_pair at 1. rewrite Hne. auto.
  - destruct (render_piece k v (foldr step st m) Hk Hv Hne) as (piece & -> & Hd & Hp).
    rewrite <- app_assoc. cbn [app]. rewrite split_on_app, split_on_absent by done.
    cbn [app foldr]. by rewrite IH.
Qed.

Lemma strip_render m :
  strip_nuls (concat (map render_pair m)) = concat (map render_pair m).
Proof.
  assert (E : concat (map render_pair m) = [] \/
              exists s, concat (map render_pair m) = s ++ [";"%char]).
  { induction m as [|[k v] m IH]; [by left|]. cbn [map concat]. destruct IH as [->|[s ->]].
    - rewrite app_nil_r. unfold render_pair. repeat case_test; [by left|..]; right.
      + exists (k ++ txt "=" ++ v). by rewrite <- !app_assoc.
      + exists (k ++ txt "={" ++ v ++ txt "}"). by rewrite <- !app_assoc.
    - right. exists (render_pair (k, v) ++ s). by rewrite app_assoc. }
  destruct E as [->|[s ->]]; [done|]. unfold strip_nuls. rewrite rev_app_distr. cbn [rev app drop_nuls].
  change (code ";" =? 0) with false. cbn [rev]. by rewrite rev_involutive.
Qed.
End Pairs.

(** ** Numbers *)

Lemma show_digits_length fuel x acc :
  0 <= x < 10 ^ Z.of_nat fuel -> fuel <> 0%nat -> x < 10000000000 ->
  (length (show_digits fuel x acc) <= 10 + length acc)%nat.
Proof.
  intros Hx Hf Hlt. destruct (show_digits_spec fuel x acc Hx Hf) as (s & -> & _ & _ & Hl).
  rewrite length_app. destruct Hl as [->|Hl]; [lia|].
  assert (10 ^ (Z.of_nat (length s) - 1) < 10 ^ 10) by (change (10 ^ 10) with 10000000000; lia).
  apply Z.pow_lt_mono_r_iff in H; lia.
Qed.

Lemma show_int_decimal v : 0 <= v <= UINT32_MAX ->
  is_decimal (show_int v) v /\ (length (show_int v) <= 10)%nat.
Proof.
  intros Hv. unfold show_int. rewrite (proj2 (Z.ltb_ge _ _)) by lia. split.
  - apply show_u64_decimal. unfold is_u64. lia.
  - apply (show_digits_length 20 v []); [|done|lia].
    change (10 ^ Z.of_nat 20) with 100000000000000000000. lia.
Qed.

Lemma AllDigits_spec s : AllDigits s = true <-> is_digits s.
Proof. unfold AllDigits, is_digits. rewrite Forall_forall, forallb_forall.
  by setoid_rewrite list_elem_of_In. Qed.

Lemma digits_value_ok s : is_digits s -> s <> [] -> value_ok s = true.
Proof.
  intros Hd Hne. assert (Hc : forall c, c ∈ s -> 48 <= code c <= 57).
  { intros c Hc. apply isdigit_code. by apply (proj1 (Forall_forall _ s) Hd). }
  assert (Hsp : forall c, c ∈ s -> isspace c = false).
  { intros c Hc'. by apply digit_not_sign, (proj1 (Forall_forall _ s) Hd). }
  unfold value_ok. apply andb_true_intro; split.
  { apply no_char_spec. intros Hs. apply Hc in Hs.
    change (code ";"%char) with 59 in Hs. lia. }
  apply orb_true_intro; right. apply andb_true_intro; split.
  - unfold no_edge. apply andb_true_intro; split.
    + destruct s as [|c s]; [done|]. by rewrite (Hsp c (list_elem_of_here _ _)).
    + destruct (rev s) as [|c r] eqn:E; [done|]. rewrite Hsp; [done|].
      apply list_elem_of_In, in_rev. rewrite E. by left.
  - unfold braced. destruct s as [|c s]; [done|]. cbn [head].
    rewrite bool_decide_eq_false_2; [done|]. intros [= ->].
    specialize (Hc _ (list_elem_of_here _ _)). change (code "{"%char) with 123 in Hc. lia.
Qed.

Section Numbers.
Context `{Platform}.

(** The whole behaviour of a numeric attribute on a string of digits. *)
Lemma HandleNumber_digits name lowest set st key v :
  is_digits v -> v <> [] -> Z.of_nat (length v) < sizeof_string -> 0 <= lowest <= 1 ->
  HandleNumber name lowest set st key v =
    if (lowest <=? digits_val v) && (digits_val v <=? UINT32_MAX) then
      with_cfg st (set (cfg st)
        (if digits_val v <=? INT32_MAX then digits_val v else digits_val v - B32))
    else
      warn st (MakeErrorMessage
        (name ++ txt " attribute value is out of range. Using default value.") key v).
Proof.
  intros Hd Hne Hlen Hlow. unfold HandleNumber, empty, text_eqb.
  rewrite bool_decide_eq_false_2, (proj2 (AllDigits_spec v)) by done. cbn [negb].
  rewrite (proj2 (Z.leb_gt _ _)) by lia. cbn zeta. unfold read_int64.
  pose proof (digits_val_bound v Hd) as [Hv _]. set (n := digits_val v) in *.
  destruct (Z.leb_spec lowest n); cbn [andb].
  - rewrite (proj2 (Z.ltb_ge _ _)) by lia. cbn [orb].
    destruct (Z.leb_spec n UINT32_MAX).
    + rewrite (proj2 (Z.ltb_ge _ _)), Z.min_l by lia. do 2 f_equal.
      rewrite u32_small by (unfold is_u32; lia). destruct (Z.leb_spec n INT32_MAX).
      * apply i32_small. unfold is_i32. lia.
      * unfold i32. rewrite <- (Z.mod_add _ (-1)), Z.mod_small by lia. lia.
    + by rewrite (proj2 (Z.ltb_lt _ _)) by lia.
  - by rewrite (proj2 (Z.ltb_lt _ _)) by lia.
Qed.

(** The whole behaviour of a numeric attribute on every other value. *)
Lemma HandleNumber_refuses name lowest set st key v :
  0 <= lowest <= 1 ->
  ~ (is_digits v /\ v <> [] /\ Z.of_nat (length v) < sizeof_string) \/
    digits_val v < lowest \/ UINT32_MAX < digits_val v ->
  exists msg, HandleNumber name lowest set st key v = warn st msg.
Proof.
  intros Hlow Hbad. unfold HandleNumber.
  destruct (empty v) eqn:He; [by eexists|]. destruct (AllDigits v) eqn:Hd; [|by eexists].
  destruct (Z.leb_spec sizeof_string (Z.of_nat (length v))) as [|Hlen]; [by eexists|].
  apply AllDigits_spec in Hd. apply bool_decide_eq_false in He. cbn [negb] in *.
  destruct Hbad as [[]|Hn]; [done|].
  pose proof (HandleNumber_digits name lowest set st key v Hd He Hlen Hlow) as Heq.
  unfold HandleNumber, empty, text_eqb in Heq.
  rewrite bool_decide_eq_false_2, (proj2 (AllDigits_spec v)) in Heq by done. cbn [negb] in Heq.
  rewrite (proj2 (Z.leb_gt _ _)) in Heq by lia. rewrite Heq.
  destruct (Z.leb_spec lowest (digits_val v)), (Z.leb_spec (digits_val v) UINT32_MAX);
    cbn [andb]; try lia; by eexists.
Qed.

(** What a refused value leaves. *)
Lemma warn_effect (st st' : Parser) :
  (exists msg, st' = warn st msg) ->
  cfg st' = cfg st /\ logger st' = logger st /\
  match diag st with
  | Some d => exists msg,
      diag st' = Some (Diag.AddStatusRecord d Diag.S01S02_OPTION_VALUE_CHANGED msg)
  | None => diag st' = None
  end.
Proof.
  intros [msg ->]. unfold warn. cbn. split_and!; [done..|]. destruct (diag st); by eauto.
Qed.

Lemma HandleNumber_show name lowest set st key v :
  0 <= lowest <= 1 -> lowest <= v <= INT32_MAX ->
  HandleNumber name lowest set st key (show_int v) = with_cfg st (set (cfg st) v).
Proof.
  intros Hlow Hv. destruct (show_int_decimal v ltac:(lia)) as ((Hd & Hval & Hne & _) & Hlen).
  pose proof sizeof_string_big. rewrite HandleNumber_digits by (done || lia). rewrite Hval.
  by rewrite !(proj2 (Z.leb_le _ _)) by lia.
Qed.
End Numbers.

(** ** The fields, one attribute each *)

(** What a setting is after the text form: an empty text is not written. *)
Definition kept {T} (show : T -> text) (s dflt : Settable T) : Settable T :=
  if IsSet s && negb (empty (show (GetValue s))) then s else dflt.

(** Brings the configuration back to its fields after a step. *)
Ltac settle :=
  cbn [with_cfg cfg logger diag
      dsn driver uid pwd accessKeyId secretKey sessionToken profileName reqTimeout
      connectionTimeout maxRetryCountClient maxConnections endpoint region authType
      idPHost idPUserName idPPassword idPArn oktaAppId roleArn aadAppId aadClientSecret
      aadTenant logLevel logPath maxRowPerPage with_dsn with_driver with_uid with_pwd
      with_accessKeyId with_secretKey with_sessionToken with_profileName with_reqTimeout
      with_connectionTimeout with_maxRetryCountClient with_maxConnections with_endpoint
      with_region with_authType with_idPHost with_idPUserName with_idPPassword with_idPArn
      with_oktaAppId with_roleArn with_aadAppId with_aadClientSecret with_aadTenant
      with_logLevel with_logPath with_maxRowPerPage].

Section Fields.
Context `{Platform}.

Definition entry_step (e : text * option text) (st : Parser) : Parser :=
  match snd e with Some v => step (fst e, v) st | None => st end.

Lemma foldr_flat t st : foldr step st (flat t) = foldr entry_step st t.
Proof.
  induction t as [|[k [v|]] t IH]; [done|..]; unfold flat; cbn [map concat flat_entry fst snd app foldr];
    unfold entry_step at 1; cbn [fst snd]; by rewrite <- IH.
Qed.

Lemma with_cfg_id st : with_cfg st (cfg st) = st.
Proof. by destruct st. Qed.

Lemma field_step {T} (show : T -> text) (get : Configuration -> Settable T) upd k s st :
  (forall c, upd c (get c) = c) ->
  (IsSet s = true -> HandleAttributePair k (show (GetValue s)) st =
     with_cfg st (upd (cfg st) (SetValue (GetValue s) false))) ->
  entry_step (k, entry show s) st = with_cfg st (upd (cfg st) (kept show s (get (cfg st)))).
Proof.
  intros Hid Hh. unfold entry_step, entry, kept. cbn [fst snd].
  destruct s as [v [|]]; cbn [IsSet GetValue andb] in *.
  - unfold step. cbn [fst snd]. destruct (empty (show v)) eqn:E; cbn [negb].
    + by rewrite Hid, with_cfg_id.
    + by apply Hh.
  - by rewrite Hid, with_cfg_id.
Qed.

Lemma rewrite_step get set msg st v :
  empty (get (cfg st)) = true -> HandleRewrite get set msg st v = with_cfg st (set (cfg st) v).
Proof. intros E. unfold HandleRewrite. by rewrite E. Qed.

Lemma auth_step st a : HandleAuthType st (AuthType_ToString a) = with_cfg st (SetAuthType (cfg st) a).
Proof. by destruct a. Qed.

(** The logger after the settings of a configuration. *)
Definition level_after (c : Configuration) (lg : Logger) : Logger :=
  if IsSet (logLevel c) then MkLogger (level_code (GetValue (logLevel c))) (logger_path lg) else lg.
Definition path_after (c : Configuration) (lg : Logger) : Logger :=
  if IsSet (logPath c) && negb (empty (GetValue (logPath c)))
  then MkLogger (logger_level lg) (GetValue (logPath c)) else lg.

Definition int_ok (lowest : Z) (s : Settable Z) : bool :=
  negb (IsSet s) || ((lowest <=? GetValue s) && (GetValue s <=? INT32_MAX)).
Definition text_ok (s : Settable text) : bool := negb (IsSet s) || value_ok (GetValue s).
Definition level_ok (s : Settable LogLevel) : bool :=
  negb (IsSet s) || bool_decide (GetValue s <> LEVEL_UNKNOWN).
Definition path_ok (s : Settable text) : bool :=
  text_ok s && (negb (IsSet s) || empty (GetValue s) || IsValidDirectory (GetValue s)).

Lemma level_step c st :
  level_ok (logLevel c) = true ->
  entry_step (Key.logLevel, entry LogLevel_ToString (logLevel c)) st =
    MkParser (with_logLevel (cfg st) (kept LogLevel_ToString (logLevel c) (logLevel (cfg st))))
             (level_after c (logger st)) (diag st).
Proof.
  unfold level_ok, entry_step, entry, kept, level_after. destruct (logLevel c) as [l [|]]; cbn.
  - intros Hl%bool_decide_eq_true_1. by destruct l.
  - intros _. destruct st as [c' lg d]. cbn. by destruct c'.
Qed.

Lemma path_step c st :
  path_ok (logPath c) = true ->
  entry_step (Key.logPath, entry (fun v => v) (logPath c)) st =
    MkParser (with_logPath (cfg st) (kept (fun v => v) (logPath c) (logPath (cfg st))))
             (path_after c (logger st)) (diag st).
Proof.
  unfold path_ok, entry_step, entry, kept, path_after. intros [_ Hp]%andb_true_iff.
  destruct st as [c' lg d], (logPath c) as [p [|]]; cbn [fst snd IsSet GetValue negb orb andb] in *.
  - unfold step. cbn [fst snd]. destruct (empty p) eqn:E; cbn [negb cfg logger diag];
      [by destruct c'|].
    cbn [orb] in Hp. change (HandleAttributePair Key.logPath p (MkParser c' lg d))
      with (HandleLogPath (MkParser c' lg d) p).
    unfold HandleLogPath, SetLogPath, Logger_SetLogPath. cbn [cfg logger diag].
    rewrite Hp. unfold text_eqb. case_bool_decide as Ep; [|done].
    f_equal. destruct lg. cbn in *. by subst.
  - by destruct c'.
Qed.
(** The configurations the text form can carry. *)
Definition text_settings (c : Configuration) : list (Settable text) :=
  [ dsn c; driver c; uid c; pwd c; accessKeyId c; secretKey c; sessionToken c; profileName c;
    endpoint c; region c; idPHost c; idPUserName c; idPPassword c; idPArn c; oktaAppId c;
    roleArn c; aadAppId c; aadClientSecret c; aadTenant c ].

Definition number_settings (c : Configuration) : list (Z * Settable Z) :=
  [ (1, reqTimeout c); (1, connectionTimeout c); (0, maxRetryCountClient c);
    (1, maxConnections c); (0, maxRowPerPage c) ].

Definition cfg_ok (c : Configuration) : bool :=
  forallb text_ok (text_settings c)
  && forallb (fun p => int_ok (fst p) (snd p)) (number_settings c)
  && level_ok (logLevel c) && path_ok (logPath c).

(** The configuration a reader of the text form ends with: the settings made,
    over the defaults. *)
Definition carried (c : Configuration) : Configuration :=
  let d := DefaultConfiguration in
  let string := kept (fun s : text => s) in
  let number := kept show_int in
  MkCfg
    (string (dsn c) (dsn d))  (string (driver c) (driver d))
    (string (uid c) (uid d))  (string (pwd c) (pwd d))
    (string (accessKeyId c) (accessKeyId d))  (string (secretKey c) (secretKey d))
    (string (sessionToken c) (sessionToken d))  (string (profileName c) (profileName d))
    (number (reqTimeout c) (reqTimeout d))  (number (connectionTimeout c) (connectionTimeout d))
    (number (maxRetryCountClient c) (maxRetryCountClient d))  (number (maxConnections c) (maxConnections d))
    (string (endpoint c) (endpoint d))  (string (region c) (region d))
    (kept AuthType_ToString (authType c) (authType d))  (string (idPHost c) (idPHost d))
    (string (idPUserName c) (idPUserName d))  (string (idPPassword c) (idPPassword d))
    (string (idPArn c) (idPArn d))  (string (oktaAppId c) (oktaAppId d))
    (string (roleArn c) (roleArn d))  (string (aadAppId c) (aadAppId d))
    (string (aadClientSecret c) (aadClientSecret d))  (string (aadTenant c) (aadTenant d))
    (kept LogLevel_ToString (logLevel c) (logLevel d))  (string (logPath c) (logPath d))
    (number (maxRowPerPage c) (maxRowPerPage d)).

Lemma forallb_flat_pairs (t : table) :
  forallb pair_ok (flat t) =
    forallb (fun e => match snd e with Some v => pair_ok (fst e, v) | None => true end) t.
Proof.
  induction t as [|[k [v|]] t IH]; [done|..]; unfold flat; cbn [map concat flat_entry fst snd app forallb];
    by rewrite <- IH.
Qed.

Lemma text_entry k s :
  key_ok k = true -> text_ok s = true ->
  match entry (fun v => v) s with Some v => pair_ok (k, v) | None => true end = true.
Proof.
  unfold text_ok, entry, pair_ok. intros Hk Hs. destruct (IsSet s); [|done].
  cbn [fst snd negb orb] in *. by rewrite Hk.
Qed.

Lemma int_entry k lowest s :
  key_ok k = true -> 0 <= lowest -> int_ok lowest s = true ->
  match entry show_int s with Some v => pair_ok (k, v) | None => true end = true.
Proof.
  unfold int_ok, entry, pair_ok. intros Hk Hl Hs. destruct (IsSet s); [|done].
  cbn [fst snd negb orb] in *. rewrite Hk. z_bool.
  destruct (show_int_decimal (GetValue s) ltac:(lia)) as ((Hd & _ & Hne & _) & _).
  by apply digits_value_ok.
Qed.

Lemma auth_entry k s :
  key_ok k = true ->
  match entry AuthType_ToString s with Some v => pair_ok (k, v) | None => true end = true.
Proof. unfold entry, pair_ok. intros Hk. destruct s as [[] []]; cbn [IsSet fst snd]; by rewrite ?Hk. Qed.

Lemma level_entry k s :
  key_ok k = true ->
  match entry LogLevel_ToString s with Some v => pair_ok (k, v) | None => true end = true.
Proof. unfold entry, pair_ok. intros Hk. destruct s as [[] []]; cbn [IsSet fst snd]; by rewrite ?Hk. Qed.

(** The conjuncts of [cfg_ok]. *)
Ltac split_ok :=
  repeat match goal with
  | H : (_ && _)%bool = true |- _ => apply andb_true_iff in H as [? ?]
  end.

Lemma table_ok c : cfg_ok c = true -> forallb pair_ok (flat (arg_table c)) = true.
Proof.
  unfold cfg_ok, text_settings, number_settings, path_ok. cbn [forallb fst snd]. intros Hc. split_ok.
  rewrite forallb_flat_pairs. unfold arg_table. cbn [forallb fst snd].
  repeat (apply andb_true_intro; split);
    first [ done | apply text_entry; [done|assumption]
          | eapply int_entry; [done| |eassumption]; lia
          | by apply auth_entry | by apply level_entry ].
Qed.

(** The handler of every attribute sets its own field. *)
Lemma int_handle lowest name set s st k :
  int_ok lowest s = true -> 0 <= lowest <= 1 -> IsSet s = true ->
  HandleNumber name lowest set st k (show_int (GetValue s)) = with_cfg st (set (cfg st) (GetValue s)).
Proof.
  unfold int_ok. intros Hs Hl Hset. rewrite Hset in Hs. cbn [negb orb] in Hs. z_bool. apply HandleNumber_show; lia.
Qed.

Lemma table_steps c lg d :
  cfg_ok c = true ->
  foldr entry_step (MkParser DefaultConfiguration lg d) (arg_table c) =
    MkParser (carried c) (level_after c (path_after c lg)) d.
Proof.
  unfold cfg_ok, text_settings, number_settings. cbn [forallb fst snd]. intros Hc. split_ok.
  unfold arg_table, DefaultConfiguration. cbn [foldr].
  rewrite (field_step (fun v => v) uid with_uid Key.uid);
    [|by intros []|intros _; by apply (rewrite_step GetUid SetUid)]. settle.
  rewrite (field_step (fun v => v) sessionToken with_sessionToken Key.sessionToken);
    [|by intros []|intros _; by apply (rewrite_step GetSessionToken SetSessionToken)]. settle.
  rewrite (field_step (fun v => v) secretKey with_secretKey Key.secretKey);
    [|by intros []|intros _; by apply (rewrite_step GetSecretKey SetSecretKey)]. settle.
  rewrite (field_step (fun v => v) roleArn with_roleArn Key.roleArn); [|by intros []|done]. settle.
  rewrite (field_step show_int reqTimeout with_reqTimeout Key.reqTimeout);
    [|by intros []|intros Hset; by apply (int_handle 1)]. settle.
  rewrite (field_step (fun v => v) region with_region Key.region); [|by intros []|done]. settle.
  rewrite (field_step (fun v => v) pwd with_pwd Key.pwd);
    [|by intros []|intros _; by apply (rewrite_step GetPwd SetPwd)]. settle.
  rewrite (field_step (fun v => v) profileName with_profileName Key.profileName); [|by intros []|done]. settle.
  rewrite (field_step (fun v => v) oktaAppId with_oktaAppId Key.oktaAppId); [|by intros []|done]. settle.
  rewrite (field_step show_int maxRowPerPage with_maxRowPerPage Key.maxRowPerPage);
    [|by intros []|intros Hset; by apply (int_handle 0)]. settle.
  rewrite (field_step show_int maxRetryCountClient with_maxRetryCountClient Key.maxRetryCountClient);
    [|by intros []|intros Hset; by apply (int_handle 0)]. settle.
  rewrite (field_step show_int maxConnections with_maxConnections Key.maxConnections);
    [|by intros []|intros Hset; by apply (int_handle 1)]. settle.
  rewrite path_step by done. settle.
  rewrite level_step by done. settle.
  rewrite (field_step (fun v => v) idPUserName with_idPUserName Key.idPUserName);
    [|by intros []|intros _; by apply (rewrite_step GetIdPUserName SetIdPUserName)]. settle.
  rewrite (field_step (fun v => v) idPPassword with_idPPassword Key.idPPassword);
    [|by intros []|intros _; by apply (rewrite_step GetIdPPassword SetIdPPassword)]. settle.
  rewrite (field_step (fun v => v) idPHost with_idPHost Key.idPHost); [|by intros []|done]. settle.
  rewrite (field_step (fun v => v) idPArn with_idPArn Key.idPArn); [|by intros []|done]. settle.
  rewrite (field_step (fun v => v) endpoint with_endpoint Key.endpoint); [|by intros []|done]. settle.
  rewrite (field_step (fun v => v) dsn with_dsn Key.dsn); [|by intros []|done]. settle.
  rewrite (field_step (fun v => v) driver with_driver Key.driver); [|by intros []|done]. settle.
  rewrite (field_step show_int connectionTimeout with_connectionTimeout Key.connectionTimeout);
    [|by intros []|intros Hset; by apply (int_handle 1)]. settle.
  rewrite (field_step AuthType_ToString authType with_authType Key.authType);
    [|by intros []|intros _; apply auth_step]. settle.
  rewrite (field_step (fun v => v) accessKeyId with_accessKeyId Key.accessKeyId);
    [|by intros []|intros _; by apply (rewrite_step GetAccessKeyId SetAccessKeyId)]. settle.
  rewrite (field_step (fun v => v) aadTenant with_aadTenant Key.aadTenant); [|by intros []|done]. settle.
  rewrite (field_step (fun v => v) aadClientSecret with_aadClientSecret Key.aadClientSecret);
    [|by intros []|intros _; by apply (rewrite_step GetAADClientSecret SetAADClientSecret)]. settle.
  rewrite (field_step (fun v => v) aadAppId with_aadAppId Key.aadAppId); [|by intros []|done]. settle.
  reflexivity.
Qed.

Lemma roundtrip c lg d :
  cfg_ok c = true -> Z.of_nat (length (ToConnectString c)) < npos ->
  ParseConnectionStringSemicolon (ToConnectString c) (MkParser DefaultConfiguration lg d) =
    Ok (MkParser (carried c) (level_after c (path_after c lg)) d).
Proof.
  intros Hc Hlen. unfold ParseConnectionStringSemicolon. rewrite parse_fold by done.
  unfold ToConnectString. rewrite strip_render, ToMap_table, render_pairs by by apply table_ok.
  by rewrite foldr_flat, table_steps.
Qed.
End Fields.
End Round.

(** C18. [ToConnectString] and the parser are inverse: from the text of a
    configuration whose values it can carry, the parser, started from the
    defaults, rebuilds the configuration (a setting with an empty text comes back
    as its default), adds no diagnostic record, and leaves the logger with the
    level and the path of the settings. *)
Theorem connection_string_roundtrip (P : Config.Platform) (c : Config.Configuration)
    (lg : Config.Logger) (d : option Diag.DiagnosticRecordStorage) :
  Round.cfg_ok c = true -> Z.of_nat (length (Config.ToConnectString c)) < Conn.npos ->
  Conn.ParseConnectionStringSemicolon (Config.ToConnectString c)
      (Conn.MkParser Config.DefaultConfiguration lg d) =
    Ok (Conn.MkParser (Round.carried c) (Round.level_after c (Round.path_after c lg)) d).
Proof. apply Round.roundtrip. Qed.

(** Text with spaces and '=', a number, an authentication type, a log path. *)
Definition example_configuration : Config.Configuration :=
  let c := @Config.DefaultConfiguration ExamplePlatform in
  let c := Config.SetPwd (Config.SetUid c (Text.txt "me=you")) (Text.txt " {p w} ") in
  let c := Config.SetAuthType (Config.SetReqTimeout c 2147483647) Config.IAM in
  let c := Config.SetMaxRowPerPage (Config.SetEndpoint c []) 0 in
  Config.with_logPath c (Config.SetValue (Text.txt "/var/log") false).

Lemma connection_string_roundtrip_witness :
  let P := ExamplePlatform in
  let lg := Config.MkLogger 0 (Text.txt "/tmp") in
  Round.cfg_ok example_configuration = true /\
  exists st, Conn.ParseConnectionStringSemicolon (Config.ToConnectString example_configuration)
      (Conn.MkParser Config.DefaultConfiguration lg None) = Ok st /\
    Config.GetPwd (Conn.cfg st) = Text.txt " {p w} " /\
    Config.GetReqTimeout (Conn.cfg st) = 2147483647 /\
    Config.IsSet (Config.endpoint (Conn.cfg st)) = false /\
    Config.logger_path (Conn.logger st) = Text.txt "/var/log".
Proof.
  intros P lg. split; [vm_compute; reflexivity|]. eexists. split.
  - apply (connection_string_roundtrip P example_configuration lg None); vm_compute; reflexivity.
  - vm_compute. done.
Defined.

(** C28. The request timeout of a connection string, for every value of the
    attribute. A value of digits (at least one, and fewer than the size of a
    string object, the test the code makes) is stored when it is from 1 to the
    largest unsigned number of 32 bits, and since the field is signed a timeout
    above the largest signed number becomes negative. Every other value, zero
    included, leaves the settings and the logger, and adds one record 01S02 when
    the parser has a storage for records. (The document of the connection string
    says that a value that is not positive disables the timeout: the code refuses
    such a value, see the findings.) *)
Theorem RequestTimeout_bounds (P : Config.Platform) (v : Text.text) (st : Conn.Parser) :
  let n := Text.digits_val v in
  let readable := Text.is_digits v /\ v <> [] /\ Z.of_nat (length v) < Config.sizeof_string in
  let st' := Conn.HandleAttributePair Config.Key.reqTimeout v st in
  (readable -> 1 <= n <= INT32_MAX ->
     st' = Conn.with_cfg st (Config.SetReqTimeout (Conn.cfg st) n)) /\
  (readable -> INT32_MAX < n <= UINT32_MAX ->
     st' = Conn.with_cfg st (Config.SetReqTimeout (Conn.cfg st) (n - B32)) /\
     Config.GetReqTimeout (Conn.cfg st') < 0) /\
  (~ readable \/ n = 0 \/ UINT32_MAX < n ->
     Conn.cfg st' = Conn.cfg st /\ Conn.logger st' = Conn.logger st /\
     match Conn.diag st with
     | Some d => exists msg,
         Conn.diag st' = Some (Diag.AddStatusRecord d Diag.S01S02_OPTION_VALUE_CHANGED msg)
     | None => Conn.diag st' = None
     end).
Proof.
  intros n readable st'.
  change st' with (Conn.HandleReqTimeout st Config.Key.reqTimeout v). clear st'.
  unfold Conn.HandleReqTimeout. split_and!.
  - intros (Hd & Hne & Hlen) Hn. rewrite Round.HandleNumber_digits by (done || lia). fold n.
    by rewrite !(proj2 (Z.leb_le _ _)) by lia.
  - intros (Hd & Hne & Hlen) Hn. rewrite Round.HandleNumber_digits by (done || lia). fold n.
    rewrite (proj2 (Z.leb_le 1 n)), (proj2 (Z.leb_le n UINT32_MAX)), (proj2 (Z.leb_gt n INT32_MAX)) by lia.
    split; [done|]. cbn. lia.
  - intros Hbad. apply Round.warn_effect, Round.HandleNumber_refuses; [done|]. fold n readable.
    destruct Hbad as [|[]]; [by left|right; lia..].
Qed.

Lemma RequestTimeout_bounds_witness :
  let P := ExamplePlatform in
  let st := Conn.MkParser Config.DefaultConfiguration (Config.MkLogger 0 []) (Some Diag.NewStorage) in
  Config.GetReqTimeout (Conn.cfg
    (Conn.HandleAttributePair Config.Key.reqTimeout (Text.txt "4294967295") st)) < 0 /\
  Conn.cfg (Conn.HandleAttributePair Config.Key.reqTimeout (Text.txt "0") st) = Conn.cfg st /\
  (exists d', Conn.diag (Conn.HandleAttributePair Config.Key.reqTimeout (Text.txt "0") st) = Some d') /\
  Conn.cfg (Conn.HandleAttributePair Config.Key.reqTimeout (Text.txt "-5") st) = Conn.cfg st.
Proof.
  intros P st. split_and!.
  - apply (proj2 (A := Conn.HandleAttributePair Config.Key.reqTimeout (Text.txt "4294967295") st =
      Conn.with_cfg st (Config.SetReqTimeout (Conn.cfg st) (4294967295 - B32)))).
    apply (RequestTimeout_bounds P (Text.txt "4294967295") st).
    + split_and!; [repeat constructor|done|vm_compute; reflexivity].
    + vm_compute. split; [reflexivity|discriminate].
  - apply (RequestTimeout_bounds P (Text.txt "0") st). right. left. reflexivity.
  - destruct (RequestTimeout_bounds P (Text.txt "0") st) as (_ & _ & H).
    destruct (H (or_intror (or_introl eq_refl))) as (_ & _ & [msg Hm]). by eexists.
  - apply (RequestTimeout_bounds P (Text.txt "-5") st). left. intros [Hd _]. by inversion Hd.
Defined.

(** The text form does not protect a ';': a password that contains one is cut
    there, and what follows is read as an attribute. *)
Lemma semicolon_not_protected :
  let P := ExamplePlatform in
  let c := Config.SetPwd Config.DefaultConfiguration (Text.txt "x;UID=root") in
  exists st, Conn.ParseConnectionStringSemicolon (Config.ToConnectString c)
      (Conn.MkParser Config.DefaultConfiguration (Config.MkLogger 0 []) None) = Ok st /\
    Config.GetPwd (Conn.cfg st) = Text.txt "x" /\ Config.GetUid (Conn.cfg st) = Text.txt "root".
Proof. intros P c. eexists. split; [vm_compute; reflexivity|]. vm_compute. done. Qed.
