(* ===== verification/DsnConfig.v ===== *)
(** * DsnConfig: data sources in the ODBC configuration file

    Models [src/dsn_config.cpp]: reading the settings of a data source, writing
    and removing it. The functions of the ODBC installer, which keep the file, are
    the class [Installer]; what is documented of them is [InstallerLaws]. The wide
    characters they take and give stand as the UTF-8 text they encode, and the
    name of the file, a constant, is left out. *)

From S2P Require Import Prelude Text Memory Diagnostics Calendar Encoding AppBufferGet Configuration ConnectionString ConnectionRoundtrip.

Module Dsn.
Import Text Diag Calendar Config Encoding.
Local Open Scope result_scope.

Abbreviation BUFFER_SIZE := 1048576 (only parsing).

(** The installer: sections, keys and values; the functions that read take the
    size of the buffer and return its text with the length they report. *)
Class Installer : Type := {
  Ini : Type;
  SQLGetPrivateProfileString : text -> text -> text -> Z -> Ini -> text * Z;
  SQLWritePrivateProfileString : text -> text -> text -> Ini -> Ini * bool;
  SQLWriteDSNToIni : text -> text -> Ini -> Ini * bool;
  SQLRemoveDSNFromIni : text -> Ini -> Ini * bool;
  SQLInstallerError : Ini -> text * Z
}.

(** The value of a key of a section, keys without regard to case; a value the
    file can hold is read back as it was written, and a new data source has no
    key but the driver. *)
Class InstallerLaws `(Installer) : Type := {
  entry : Ini -> text -> text -> option text;
  storable : text -> Prop;
  storable_c_str v : storable v -> c_str v = v;
  entry_short ini section key v : entry ini section key = Some v -> Z.of_nat (length v) < BUFFER_SIZE;
  get_entry ini section key dflt :
    let v := default dflt (entry ini section key) in
    Z.of_nat (length v) < BUFFER_SIZE ->
    SQLGetPrivateProfileString section key dflt BUFFER_SIZE ini = (v, Z.of_nat (length v));
  write_entry ini ini' section key v :
    SQLWritePrivateProfileString section key v ini = (ini', true) -> storable v ->
    forall key', entry ini' section key' =
      if text_eqb (ToLower key') (ToLower key) then Some v else entry ini section key';
  create_entry ini ini' section drv key :
    SQLWriteDSNToIni section drv ini = (ini', true) -> ToLower key <> Key.driver ->
    entry ini' section key = None
}.

Section Dsn.
Context `{HI : Installer} `{HP : Platform}.

(** The message of the error. *)
Definition GetLastSetupError (ini : Ini) : text :=
  let '(msg, code) := SQLInstallerError ini in
  txt "SQLInstallerError: Message: " ++ ["034"%char] ++ msg ++ ["034"%char] ++
  txt ", SQLInstallerError Code: " ++ show_u64 (u32 code).

(** ** Reading *)

Definition unique : text := txt "35a920dd-8837-43d2-a846-e01a2e7b5f84".

Definition ReadDsnString (dsn key dflt : text) (ini : Ini) : Settable text :=
  let '(buf, ret) := SQLGetPrivateProfileString dsn key unique BUFFER_SIZE ini in
  let res := if BUFFER_SIZE <? ret
             then fst (SQLGetPrivateProfileString dsn key unique (ret + 1) ini) else buf in
  if text_eqb res unique then Default dflt else SetValue res false.

(** [LexicalCast] of a value without a number in front gives zero, and of one
    without characters what the variable happens to hold. *)
Definition ReadDsnInt (dsn key : text) (dflt : Z) (ini : Ini) : Prelude.result (Settable Z) :=
  let str := ReadDsnString dsn key [] ini in
  if IsSet str then
    match Get.stream_int (Get.Signed 4) (GetValue str) with
    | Some v => Ok (SetValue v false)
    | None => Err Indeterminate
    end
  else Ok (Default dflt).

Definition ReadDsnBool (dsn key : text) (dflt : bool) (ini : Ini) : Settable bool :=
  let str := ReadDsnString dsn key [] ini in
  if IsSet str then SetValue (text_eqb (GetValue str) (txt "true")) false else Default dflt.

(** A setting that is taken from the data source unless it is already set. *)
Definition take_setting {T} (val : Settable T) (is_set : Configuration -> bool)
    (set : Configuration -> T -> Configuration) (config : Configuration) : Configuration :=
  if IsSet val && negb (is_set config) then set config (GetValue val) else config.

Definition read_string (dsn key : text) (is_set : Configuration -> bool)
    (set : Configuration -> text -> Configuration) (ini : Ini) (config : Configuration) : Configuration :=
  take_setting (ReadDsnString dsn key [] ini) is_set set config.

Definition read_int (dsn key : text) (is_set : Configuration -> bool)
    (set : Configuration -> Z -> Configuration) (ini : Ini) (config : Configuration) : Prelude.result Configuration :=
  do val <- ReadDsnInt dsn key 0 ini; Ok (take_setting val is_set set config).

(** The connection timeout is taken when the request timeout is in the data
    source. *)
Definition read_timeouts (dsn : text) (ini : Ini) (config : Configuration) : Prelude.result Configuration :=
  do reqTimeout <- ReadDsnInt dsn Key.reqTimeout 0 ini;
  let config := take_setting reqTimeout IsReqTimeoutSet SetReqTimeout config in
  do connectionTimeout <- ReadDsnInt dsn Key.connectionTimeout 0 ini;
  Ok (if IsSet reqTimeout && negb (IsConnectionTimeoutSet config)
      then SetConnectionTimeout config (GetValue connectionTimeout) else config).

Definition read_credentials (dsn : text) (ini : Ini) (config : Configuration) : Configuration :=
  let config := read_string dsn Key.uid IsUidSet SetUid ini config in
  let config := read_string dsn Key.pwd IsPwdSet SetPwd ini config in
  let config := read_string dsn Key.accessKeyId IsAccessKeyIdSet SetAccessKeyId ini config in
  let config := read_string dsn Key.secretKey IsSecretKeySet SetSecretKey ini config in
  let config := read_string dsn Key.sessionToken IsSessionTokenSet SetSessionToken ini config in
  read_string dsn Key.profileName IsProfileNameSet SetProfileName ini config.

Definition read_auth (dsn : text) (ini : Ini) (config : Configuration) : Configuration :=
  let config := read_string dsn Key.endpoint IsEndpointSet SetEndpoint ini config in
  let config := read_string dsn Key.region IsRegionSet SetRegion ini config in
  let config := read_string dsn Key.authType IsAuthTypeSet
    (fun c v => SetAuthType c (AuthType_FromString v AWS_PROFILE)) ini config in
  let config := read_string dsn Key.idPHost IsIdPHostSet SetIdPHost ini config in
  let config := read_string dsn Key.idPUserName IsIdPUserNameSet SetIdPUserName ini config in
  let config := read_string dsn Key.idPPassword IsIdPPasswordSet SetIdPPassword ini config in
  let config := read_string dsn Key.idPArn IsIdPArnSet SetIdPArn ini config in
  let config := read_string dsn Key.oktaAppId IsOktaAppIdSet SetOktaAppId ini config in
  let config := read_string dsn Key.roleArn IsRoleArnSet SetRoleArn ini config in
  let config := read_string dsn Key.aadAppId IsAADAppIdSet SetAADAppId ini config in
  let config := read_string dsn Key.aadClientSecret IsAADClientSecretSet SetAADClientSecret ini config in
  read_string dsn Key.aadTenant IsAADTenantSet SetAADTenant ini config.

(** The settings of the logger reach it. *)
Definition read_logging (dsn : text) (ini : Ini) (config : Configuration) (lg : Logger)
    : Configuration * Logger :=
  let level := ReadDsnString dsn Key.logLevel [] ini in
  let '(config, lg) :=
    if IsSet level && negb (IsLogLevelSet config)
    then SetLogLevel config lg (LogLevel_FromString (GetValue level) WARNING_LEVEL) else (config, lg) in
  let path := ReadDsnString dsn Key.logPath [] ini in
  if IsSet path && negb (IsLogPathSet config) then SetLogPath config lg (GetValue path) else (config, lg).

Definition ReadDsnConfiguration (dsn : text) (ini : Ini) (config : Configuration) (lg : Logger)
    : Prelude.result (Configuration * Logger) :=
  let config := read_credentials dsn ini config in
  do config <- read_timeouts dsn ini config;
  do config <- read_int dsn Key.maxRetryCountClient IsMaxRetryCountClientSet SetMaxRetryCountClient ini config;
  do config <- read_int dsn Key.maxConnections IsMaxConnectionsSet SetMaxConnections ini config;
  let config := read_auth dsn ini config in
  let '(config, lg) := read_logging dsn ini config lg in
  do config <- read_int dsn Key.maxRowPerPage IsMaxRowPerPageSet SetMaxRowPerPage ini config;
  Ok (config, lg).

(** ** Writing: the file, whether it succeeded, and the error if one was set *)

Definition WriteDsnString (dsn key value : text) (ini : Ini) : Ini * bool * option text :=
  let '(ini, ok) := SQLWritePrivateProfileString dsn key value ini in
  if ok : bool then (ini, true, None) else (ini, false, Some (GetLastSetupError ini)).

Fixpoint write_all (dsn : text) (map : ArgumentMap) (ini : Ini) : Ini * bool * option text :=
  match map with
  | [] => (ini, true, None)
  | (key, value) :: map =>
      let '(ini, ok, error) := WriteDsnString dsn (c_str key) (c_str value) ini in
      if ok : bool then write_all dsn map ini else (ini, false, error)
  end.

Definition erase (key : text) (map : ArgumentMap) : ArgumentMap :=
  List.filter (fun e => negb (text_eqb (fst e) key)) map.

(** The default of [GetDsn]. *)
Definition default_dsn : text := GetValue (dsn DefaultConfiguration).

Definition RegisterDsn (config : Configuration) (driver : text) (ini : Ini) : Ini * bool * option text :=
  let dsn := c_str (GetDsn config default_dsn) in
  let '(ini, ok) := SQLWriteDSNToIni dsn (c_str driver) ini in
  if ok : bool then write_all dsn (erase Key.driver (erase Key.dsn (ToMap config []))) ini
  else (ini, false, Some (GetLastSetupError ini)).

Definition UnregisterDsn (dsn : text) (ini : Ini) : Ini * bool * option text :=
  let '(ini, ok) := SQLRemoveDSNFromIni dsn ini in
  if ok : bool then (ini, true, None) else (ini, false, Some (GetLastSetupError ini)).

Definition WriteDsnConfiguration (config : Configuration) (ini : Ini) : Ini * bool * option text :=
  if empty (GetDsn config []) || empty (GetDriver config) then (ini, false, None)
  else RegisterDsn config (GetDriver config) ini.

Definition DeleteDsnConfiguration (dsn : text) (ini : Ini) : Ini * bool * option text :=
  UnregisterDsn dsn ini.

(** ** What was written is read back *)

Context `{HL : !InstallerLaws HI}.

(** Value [o] stands in the file for the key. *)
Definition holds (dsn : text) (ini : Ini) (key : text) (o : option text) : Prop :=
  entry ini dsn key = o.

Lemma ReadDsnString_eq dsn key ini o :
  holds dsn ini key o -> o <> Some unique ->
  ReadDsnString dsn key [] ini = match o with Some v => SetValue v false | None => Default [] end.
Proof.
  unfold holds, ReadDsnString. intros Ho Hu.
  assert (Hlen : Z.of_nat (length (default unique (entry ini dsn key))) < BUFFER_SIZE).
  { rewrite Ho. destruct o as [v|]; cbn [default]; [|by vm_compute].
    by apply entry_short in Ho. }
  rewrite (get_entry _ _ _ _ Hlen), Ho.
  rewrite (proj2 (Z.ltb_ge BUFFER_SIZE _)) by (rewrite Ho in Hlen; lia).
  unfold text_eqb. destruct o as [v|]; cbn [default].
  - change (id v) with v. rewrite bool_decide_eq_false_2; [done|]. intros ->. by apply Hu.
  - by rewrite bool_decide_eq_true_2.
Qed.

Lemma stream_show_int v : is_i32 v -> Get.stream_int (Get.Signed 4) (show_int v) = Some v.
Proof.
  intros Hv. unfold is_i32 in Hv. unfold show_int, Get.stream_int.
  destruct (Z.ltb_spec v 0) as [Hn|Hn].
  - destruct (show_u64_decimal (- v)) as (Hd & E & _); [unfold is_u64; lia|].
    rewrite Ltrim_id by done. change (code "-" =? 45) with true. cbn match.
    rewrite <- (app_nil_r (show_u64 (- v))) at 2. rewrite span_digits_exact, E by done.
    f_equal. cbn [Get.lowest Get.highest Get.cint_size]. lia.
  - destruct (show_u64_decimal v) as (Hd & E & Hne & _); [unfold is_u64; lia|].
    destruct (show_u64 v) as [|c s] eqn:Es; [done|]. pose proof (Forall_inv Hd) as Hc.
    destruct (digit_not_sign c Hc) as (E1 & E2 & E3). rewrite Ltrim_id by done. rewrite E1, E2.
    rewrite <- (app_nil_r (c :: s)) at 2. rewrite span_digits_exact, E by done.
    f_equal. cbn [Get.lowest Get.highest Get.cint_size]. lia.
Qed.

(** A setting as the file holds it. *)
Definition taken {T} (s dflt : Settable T) : Settable T := if IsSet s then s else dflt.

Lemma show_not_unique v : is_i32 v -> show_int v <> unique.
Proof.
  unfold is_i32, show_int. intros Hv. destruct (Z.ltb_spec v 0) as [Hn|Hn]; [done|].
  destruct (show_u64_decimal v) as (Hd & _); [unfold is_u64; lia|]. intros E. rewrite E in Hd.
  by apply Round.AllDigits_spec in Hd.
Qed.

(** Steps on a configuration whose setting is not made yet. *)
Lemma read_string_step {T} dsn key ini (show : T -> text) (read : text -> T) s is_set upd (f : Settable T) c :
  holds dsn ini key (Round.entry show s) -> (IsSet s = true -> show (GetValue s) <> unique) ->
  read (show (GetValue s)) = GetValue s -> is_set c = false -> upd c f = c ->
  read_string dsn key is_set (fun c v => upd c (SetValue (read v) false)) ini c = upd c (taken s f).
Proof.
  intros Ho Hu Hr Hs Hid. unfold read_string, take_setting, taken.
  rewrite (ReadDsnString_eq _ _ _ _ Ho).
  - unfold Round.entry. rewrite Hs. destruct s as [v []]; cbn in *; [|done]. by rewrite Hr.
  - unfold Round.entry. destruct (IsSet s); [|done]. intros [= E]. by apply Hu.
Qed.

Lemma ReadDsnInt_eq dsn key ini s :
  holds dsn ini key (Round.entry show_int s) -> (IsSet s = true -> is_i32 (GetValue s)) ->
  ReadDsnInt dsn key 0 ini = Ok (taken s (Default 0)).
Proof.
  intros Ho Hs. unfold ReadDsnInt, taken. rewrite (ReadDsnString_eq _ _ _ _ Ho).
  - unfold Round.entry. destruct s as [v []]; cbn in *; [|done]. by rewrite stream_show_int by auto.
  - unfold Round.entry. destruct (IsSet s); [|done]. intros [= E]. by apply (show_not_unique _ (Hs eq_refl)).
Qed.

Lemma read_int_step dsn key ini s is_set upd (f : Settable Z) c :
  holds dsn ini key (Round.entry show_int s) -> (IsSet s = true -> is_i32 (GetValue s)) ->
  is_set c = false -> upd c f = c ->
  read_int dsn key is_set (fun c v => upd c (SetValue v false)) ini c = Ok (upd c (taken s f)).
Proof.
  intros Ho Hv Hs Hid. unfold read_int, take_setting. rewrite (ReadDsnInt_eq _ _ _ _ Ho Hv). cbn.
  unfold taken. rewrite Hs. by destruct s as [v []]; cbn; rewrite ?Hid.
Qed.

(** *** The configuration that is read *)

(** A configuration the file can hold. *)
Record writable (c : Configuration) : Prop := {
  writable_texts : Forall (fun kv => storable (snd kv) /\ snd kv <> unique) (ToMap c []);
  writable_numbers : Forall (fun p => IsSet (snd p) = true -> is_i32 (GetValue (snd p)))
    (Round.number_settings c);
  writable_level : Round.level_ok (logLevel c) = true;
  writable_path : IsSet (logPath c) = true -> IsValidDirectory (GetValue (logPath c)) = true
}.

(** The settings of [c] over the defaults, except for the connection timeout. *)
Definition read_back (c : Configuration) : Configuration :=
  let d := DefaultConfiguration in
  MkCfg (dsn c) (driver c) (taken (uid c) (uid d)) (taken (pwd c) (pwd d))
    (taken (accessKeyId c) (accessKeyId d)) (taken (secretKey c) (secretKey d))
    (taken (sessionToken c) (sessionToken d)) (taken (profileName c) (profileName d))
    (taken (reqTimeout c) (reqTimeout d))
    (if IsSet (reqTimeout c)
     then SetValue (if IsSet (connectionTimeout c) then GetValue (connectionTimeout c) else 0) false
     else connectionTimeout d)
    (taken (maxRetryCountClient c) (maxRetryCountClient d)) (taken (maxConnections c) (maxConnections d))
    (taken (endpoint c) (endpoint d)) (taken (region c) (region d)) (taken (authType c) (authType d))
    (taken (idPHost c) (idPHost d)) (taken (idPUserName c) (idPUserName d))
    (taken (idPPassword c) (idPPassword d)) (taken (idPArn c) (idPArn d))
    (taken (oktaAppId c) (oktaAppId d)) (taken (roleArn c) (roleArn d)) (taken (aadAppId c) (aadAppId d))
    (taken (aadClientSecret c) (aadClientSecret d)) (taken (aadTenant c) (aadTenant d))
    (taken (logLevel c) (logLevel d)) (taken (logPath c) (logPath d))
    (taken (maxRowPerPage c) (maxRowPerPage d)).

(** The configuration that only names the data source and its driver. *)
Definition named (c : Configuration) : Configuration :=
  with_driver (with_dsn DefaultConfiguration (dsn c)) (driver c).

(** What the file holds of a configuration. *)
Definition written (section : text) (ini : Ini) (c : Configuration) : Prop :=
  Forall (fun e => text_eqb (fst e) Key.dsn = false -> text_eqb (fst e) Key.driver = false ->
    holds section ini (fst e) (snd e)) (Round.arg_table c).

Lemma flat_in (k v : text) t : (k, Some v) ∈ t -> (k, v) ∈ Round.flat t.
Proof.
  unfold Round.flat. induction t as [|[k' o] t IH]; intros Hin; [by apply not_elem_of_nil in Hin|].
  cbn [map concat]. apply elem_of_app. apply elem_of_cons in Hin as [[= -> <-]|Hin].
  - left. by apply list_elem_of_singleton.
  - right. by apply IH.
Qed.

Lemma flat_keys k v t : (k, v) ∈ Round.flat t -> (k, Some v) ∈ t.
Proof.
  unfold Round.flat. induction t as [|[k' o] t IH]; intros Hin;
    [by apply not_elem_of_nil in Hin|]. cbn [map concat] in Hin.
  apply elem_of_app in Hin as [Hin|Hin]; [|apply list_elem_of_further; by apply IH].
  unfold Round.flat_entry in Hin. cbn [fst snd] in Hin. destruct o as [w|].
  - apply list_elem_of_singleton in Hin as [= -> ->]. apply list_elem_of_here.
  - by apply not_elem_of_nil in Hin.
Qed.

(** *** Keys *)

Definition key_of {A} (e : text * A) : text := ToLower (fst e).

Lemma same_key {A} (l : list (text * A)) x y :
  NoDup (map key_of l) -> x ∈ l -> y ∈ l -> key_of x = key_of y -> x = y.
Proof.
  induction l as [|z l IH]; intros Hn Hx Hy E; [by apply not_elem_of_nil in Hx|].
  cbn [map] in Hn. apply NoDup_cons in Hn as [Hz Hn].
  assert (Hm : forall w, w ∈ l -> key_of w ∈ map key_of l).
  { intros w Hw. apply list_elem_of_In, in_map. by apply list_elem_of_In. }
  apply elem_of_cons in Hx as [->|Hx]; apply elem_of_cons in Hy as [->|Hy]; [done| | |by apply IH].
  - destruct Hz. rewrite E. by apply Hm.
  - destruct Hz. rewrite <- E. by apply Hm.
Qed.

Lemma flat_nodup t : NoDup (map key_of t) -> NoDup (map key_of (Round.flat t)).
Proof.
  unfold Round.flat. induction t as [|[k o] t IH]; intros Hn; [by apply NoDup_nil|].
  cbn [map] in Hn. apply NoDup_cons in Hn as [Hk Hn]. destruct o as [v|]; cbn [map concat Round.flat_entry fst snd app];
    [|by apply IH].
  apply NoDup_cons. split; [|by apply IH]. intros (e & E & Hin)%list_elem_of_In%in_map_iff.
  apply Hk. destruct e as [k' w]. apply list_elem_of_In, flat_keys in Hin.
  change (key_of (k, Some v)) with (key_of (k, v)). rewrite <- E.
  apply list_elem_of_In, in_map_iff. exists (k', Some w). split; [done|]. by apply list_elem_of_In.
Qed.

Lemma erase_in k m e : e ∈ erase k m <-> e ∈ m /\ text_eqb (fst e) k = false.
Proof. unfold erase. rewrite !list_elem_of_In, filter_In, negb_true_iff. done. Qed.

Lemma erase_nodup k m : NoDup (map key_of m) -> NoDup (map key_of (erase k m)).
Proof.
  induction m as [|e m IH]; intros Hn; [done|]. cbn [map] in Hn. apply NoDup_cons in Hn as [He Hn].
  unfold erase. cbn [List.filter]. destruct (negb _); cbn [map]; [|by apply IH].
  apply NoDup_cons. split; [|by apply IH]. intros (e' & E & Hin)%list_elem_of_In%in_map_iff.
  apply He. rewrite <- E. apply list_elem_of_In, in_map_iff. exists e'. split; [done|].
  apply list_elem_of_In, erase_in in Hin as [Hin _]. by apply list_elem_of_In.
Qed.

(** The keys of a configuration are distinct without regard to case, and have no
    NUL. *)
Lemma arg_keys c : NoDup (map key_of (Round.arg_table c)).
Proof.
  change (map key_of (Round.arg_table c)) with (map (fun e => ToLower (fst e)) Round.empty_table).
  apply (bool_decide_unpack _). by vm_compute.
Qed.

Lemma arg_keys_c_str c : Forall (fun e => c_str (fst e) = fst e) (Round.arg_table c).
Proof. repeat (apply Forall_cons; split; [by vm_compute|]). by apply Forall_nil. Qed.

(** *** The loop that writes *)

Lemma write_all_holds section m ini ini' error :
  write_all section m ini = (ini', true, error) ->
  Forall (fun kv => c_str (fst kv) = fst kv /\ storable (snd kv)) m -> NoDup (map key_of m) ->
  (forall k v, (k, v) ∈ m -> holds section ini' k (Some v)) /\
  (forall k, ToLower k ∉ map key_of m -> entry ini' section k = entry ini section k).
Proof.
  revert ini. induction m as [|[k v] m IH]; intros ini E Hok Hn.
  - injection E as <- _. split; [|done]. intros k v Hin. by apply not_elem_of_nil in Hin.
  - apply Forall_cons in Hok as [[Hk Hv] Hok]. cbn [map] in Hn. apply NoDup_cons in Hn as [Hnk Hn].
    cbn [fst snd] in Hk, Hv. pose proof (storable_c_str _ Hv) as Ev.
    cbn [write_all] in E. unfold WriteDsnString in E. rewrite Hk, Ev in E.
    destruct (SQLWritePrivateProfileString section k v ini) as [ini1 [|]] eqn:Ew; [|done].
    pose proof (write_entry _ _ _ _ _ Ew Hv) as Hw. destruct (IH _ E Hok Hn) as [H1 H2]. split.
    + intros k' v' [[= -> ->]|Hin]%elem_of_cons; [|by apply H1].
      unfold holds. rewrite H2 by done. rewrite Hw. unfold text_eqb. by rewrite bool_decide_eq_true_2.
    + intros k' Hk'. cbn [map] in Hk'. apply not_elem_of_cons in Hk' as [Hne Hk'].
      rewrite H2, Hw by done. unfold text_eqb. by rewrite bool_decide_eq_false_2.
Qed.

Lemma RegisterDsn_written c drv section ini ini' error :
  RegisterDsn c drv ini = (ini', true, error) -> writable c ->
  section = c_str (GetDsn c default_dsn) -> written section ini' c.
Proof.
  unfold RegisterDsn. intros E Hw ->.
  destruct (SQLWriteDSNToIni _ _ _) as [ini1 [|]] eqn:Ec; [|done].
  set (m := erase Key.driver (erase Key.dsn (ToMap c []))) in E.
  assert (Hin : forall k v, (k, v) ∈ m <->
    (k, Some v) ∈ Round.arg_table c /\ text_eqb k Key.dsn = false /\ text_eqb k Key.driver = false).
  { intros k v. unfold m. rewrite !erase_in, Round.ToMap_table. cbn [fst]. split.
    - intros [[Hf Hd] Hr]. split_and!; [by apply flat_keys|done..].
    - intros (Hf & Hd & Hr). split; [split|]; [by apply flat_in|done..]. }
  assert (Hnd : NoDup (map key_of m)).
  { unfold m. rewrite Round.ToMap_table. apply erase_nodup, erase_nodup, flat_nodup, arg_keys. }
  apply write_all_holds in E as [H1 H2]; [| |done].
  - apply Forall_forall. intros [k [v|]] He Hkd Hkr; cbn [fst snd] in *; [by apply H1, Hin|].
    unfold holds. rewrite H2.
    + refine (create_entry _ _ _ _ k Ec _). intros Ek. revert Hkr.
      assert (HK : (k, @None text) = (Key.driver, Round.entry (fun v => v) (driver c))).
      { apply (same_key (Round.arg_table c)); [apply arg_keys|done| |].
        - unfold Round.arg_table. do 6 apply list_elem_of_further. apply list_elem_of_here.
        - unfold key_of. cbn [fst]. by rewrite Ek. }
      injection HK as -> _. done.
    + intros ([k' v] & Ek & Hm)%list_elem_of_In%in_map_iff. apply list_elem_of_In, Hin in Hm as [Hm _].
      assert (HK : (k, None) = (k', Some v)); [|done].
      apply (same_key (Round.arg_table c)); [apply arg_keys|done..].
  - apply Forall_forall. intros [k v] Hm. cbn [fst snd]. split.
    + apply Hin in Hm as [Hm _]. pose proof (arg_keys_c_str c) as Hc. rewrite Forall_forall in Hc.
      by apply (Hc _ Hm).
    + pose proof (writable_texts _ Hw) as Ht. rewrite Forall_forall in Ht.
      unfold m in Hm. apply erase_in in Hm as [Hm _]. apply erase_in in Hm as [Hm _]. by apply (Ht _ Hm).
Qed.

(** *** The configuration is read back *)

Section Read.
Context (section : text) (ini : Ini) (c : Configuration).
Hypothesis Hc : writable c.
Hypothesis Hini : written section ini c.

Lemma held_text k o :
  (k, o) ∈ Round.arg_table c -> text_eqb k Key.dsn = false -> text_eqb k Key.driver = false ->
  holds section ini k o /\ o <> Some unique.
Proof.
  intros Hin Hd Hr. unfold written in Hini. rewrite Forall_forall in Hini. split; [by apply (Hini _ Hin)|].
  intros ->. pose proof (writable_texts _ Hc) as Ht. rewrite Forall_forall, Round.ToMap_table in Ht.
  apply flat_in, Ht in Hin as [_ Hu]. by apply Hu.
Qed.

Lemma held_range s :
  s ∈ map snd (Round.number_settings c) -> IsSet s = true -> is_i32 (GetValue s).
Proof.
  intros (p & <- & Hin)%list_elem_of_In%in_map_iff.
  pose proof (writable_numbers _ Hc) as Hi. rewrite Forall_forall in Hi. apply Hi. by apply list_elem_of_In.
Qed.

Lemma held_number k s :
  (k, Round.entry show_int s) ∈ Round.arg_table c -> text_eqb k Key.dsn = false ->
  text_eqb k Key.driver = false -> s ∈ map snd (Round.number_settings c) ->
  ReadDsnInt section k 0 ini = Ok (taken s (Default 0)).
Proof.
  intros Hin Hd Hr Hn. destruct (held_text _ _ Hin Hd Hr) as [Ho _]. apply ReadDsnInt_eq; [done|].
  by apply held_range.
Qed.

Lemma read_string_held {T} k (show : T -> text) (read : text -> T) s is_set upd (f : Settable T) c0 :
  (k, Round.entry show s) ∈ Round.arg_table c -> text_eqb k Key.dsn = false ->
  text_eqb k Key.driver = false -> read (show (GetValue s)) = GetValue s -> is_set c0 = false ->
  upd c0 f = c0 ->
  read_string section k is_set (fun c v => upd c (SetValue (read v) false)) ini c0 = upd c0 (taken s f).
Proof.
  intros Hin Hd Hr E Hs Hid. destruct (held_text _ _ Hin Hd Hr) as [Ho Hu].
  apply (read_string_step _ _ _ show); try done. intros Hset Es. apply Hu. unfold Round.entry.
  by rewrite Hset, Es.
Qed.

Lemma read_int_held k s is_set upd (f : Settable Z) c0 :
  (k, Round.entry show_int s) ∈ Round.arg_table c -> text_eqb k Key.dsn = false ->
  text_eqb k Key.driver = false -> s ∈ map snd (Round.number_settings c) ->
  is_set c0 = false -> upd c0 f = c0 ->
  read_int section k is_set (fun c v => upd c (SetValue v false)) ini c0 = Ok (upd c0 (taken s f)).
Proof.
  intros Hin Hd Hr Hn Hs Hid. destruct (held_text _ _ Hin Hd Hr) as [Ho _].
  apply read_int_step; try done. by apply held_range.
Qed.

Lemma read_logging_held c0 lg :
  IsSet (logLevel c0) = false -> IsSet (logPath c0) = false ->
  read_logging section ini c0 lg =
    (with_logPath (with_logLevel c0 (taken (logLevel c) (logLevel c0))) (taken (logPath c) (logPath c0)),
     if IsSet (logPath c) then Logger_SetLogPath (Round.level_after c lg) (GetValue (logPath c))
     else Round.level_after c lg).
Proof.
  intros Hl Hp. unfold read_logging.
  assert (HL1 : (Key.logLevel, Round.entry LogLevel_ToString (logLevel c)) ∈ Round.arg_table c).
  { do 13 apply list_elem_of_further. apply list_elem_of_here. }
  assert (HP1 : (Key.logPath, Round.entry (fun v => v) (logPath c)) ∈ Round.arg_table c).
  { do 14 apply list_elem_of_further. apply list_elem_of_here. }
  destruct (held_text _ _ HL1 eq_refl eq_refl) as [Ho Hu]. rewrite (ReadDsnString_eq _ _ _ _ Ho Hu).
  destruct (held_text _ _ HP1 eq_refl eq_refl) as [Ho' Hu']. rewrite (ReadDsnString_eq _ _ _ _ Ho' Hu').
  pose proof (writable_level _ Hc) as Hlv. pose proof (writable_path _ Hc) as Hpv.
  clear HL1 HP1 Ho Hu Ho' Hu'. unfold IsLogLevelSet, IsLogPathSet. rewrite Hl.
  assert (E1 : with_logLevel c0 (logLevel c0) = c0) by by destruct c0.
  assert (E2 : forall v, logPath (with_logLevel c0 v) = logPath c0) by by destruct c0.
  assert (E3 : forall v, with_logPath (with_logLevel c0 v) (logPath c0) = with_logLevel c0 v) by by destruct c0.
  unfold Round.level_after, Round.entry, taken, Round.level_ok in *.
  destruct (logLevel c) as [l [|]]; cbn [IsSet GetValue negb andb orb] in *.
  - apply bool_decide_eq_true_1 in Hlv. assert (El : LogLevel_FromString (LogLevel_ToString l) WARNING_LEVEL = l) by by destruct l.
    cbn [SetValue IsSet GetValue negb andb]. rewrite El. unfold SetLogLevel. rewrite bool_decide_eq_true_2, E2, Hp by done.
    destruct (logPath c) as [q [|]]; cbn [SetValue Default IsSet GetValue negb andb] in *; [|by rewrite E3].
    unfold SetLogPath. by rewrite Hpv.
  - cbn [Default IsSet andb]. rewrite Hp, E1.
    destruct (logPath c) as [q [|]]; cbn [SetValue Default IsSet GetValue negb andb] in *.
    + unfold SetLogPath. by rewrite Hpv.
    + by destruct c0.
Qed.

(** Brings the configuration back to its fields after a step. *)
Ltac fields :=
  cbv beta iota delta [
      dsn driver uid pwd accessKeyId secretKey sessionToken profileName reqTimeout
      connectionTimeout maxRetryCountClient maxConnections endpoint region authType
      idPHost idPUserName idPPassword idPArn oktaAppId roleArn aadAppId aadClientSecret
      aadTenant logLevel logPath maxRowPerPage with_dsn with_driver with_uid with_pwd
      with_accessKeyId with_secretKey with_sessionToken with_profileName with_reqTimeout
      with_connectionTimeout with_maxRetryCountClient with_maxConnections with_endpoint
      with_region with_authType with_idPHost with_idPUserName with_idPPassword with_idPArn
      with_oktaAppId with_roleArn with_aadAppId with_aadClientSecret with_aadTenant
      with_logLevel with_logPath with_maxRowPerPage].

(** The place of an entry in a table that is written out. *)
Ltac find_entry :=
  lazymatch goal with
  | |- ?x ∈ ?x :: _ => apply list_elem_of_here
  | |- _ ∈ _ :: _ => apply list_elem_of_further; find_entry
  end.
Ltac in_table :=
  unfold Round.arg_table, Round.number_settings; cbv zeta; cbn [map snd]; find_entry.
Ltac setting_step k show read get upd E :=
  match goal with |- context [read_string section k ?q ?set ini ?c0] =>
    replace (read_string section k q set ini c0) with (upd c0 (taken (get c) (get c0)))
      by (symmetry; exact (read_string_held k show read (get c) q upd (get c0) c0
            ltac:(in_table) eq_refl eq_refl E eq_refl eq_refl))
  end; fields.
Ltac text_step k get upd := setting_step k (fun v : text => v) (fun v : text => v) get upd (@eq_refl text (GetValue (get c))).
Ltac number_step k get upd :=
  match goal with |- context [read_int section k ?q ?set ini ?c0] =>
    replace (read_int section k q set ini c0) with (@Ok _ (upd c0 (taken (get c) (get c0))))
      by (symmetry; apply (read_int_held k (get c) q upd);
          [in_table|reflexivity|reflexivity|in_table|reflexivity..])
  end; cbn [res_bind]; fields.

Lemma read_timeouts_held c0 :
  IsSet (reqTimeout c0) = false -> IsSet (connectionTimeout c0) = false ->
  read_timeouts section ini c0 =
    Ok (with_connectionTimeout (with_reqTimeout c0 (taken (reqTimeout c) (reqTimeout c0)))
          (if IsSet (reqTimeout c)
           then SetValue (if IsSet (connectionTimeout c) then GetValue (connectionTimeout c) else 0) false
           else connectionTimeout c0)).
Proof.
  intros H1 H2. unfold read_timeouts.
  rewrite (held_number Key.reqTimeout (reqTimeout c)); [|in_table|done|done|in_table].
  cbn [res_bind]. rewrite (held_number Key.connectionTimeout (connectionTimeout c));
    [|in_table|done|done|in_table].
  cbn [res_bind]. unfold take_setting, taken, IsReqTimeoutSet, IsConnectionTimeoutSet. rewrite H1. destruct c0. cbn in H1, H2.
  destruct (reqTimeout c) as [r [|]], (connectionTimeout c) as [k [|]];
    cbn; rewrite ?H1, ?H2; done.
Qed.

Lemma read_credentials_held :
  read_credentials section ini (named c) =
    MkCfg (dsn c) (driver c) (taken (uid c) (Default [])) (taken (pwd c) (Default []))
      (taken (accessKeyId c) (Default [])) (taken (secretKey c) (Default []))
      (taken (sessionToken c) (Default [])) (taken (profileName c) (Default []))
      (Default 3000) (Default 1000) (Default 0) (Default 25) (Default []) (Default (txt "us-east-1"))
      (Default AWS_PROFILE) (Default []) (Default []) (Default []) (Default []) (Default []) (Default [])
      (Default []) (Default []) (Default []) (Default WARNING_LEVEL) (Default default_log_path)
      (Default (-1)).
Proof.
  unfold read_credentials, named, DefaultConfiguration. cbv zeta. cbn [with_dsn with_driver].
  text_step Key.uid uid with_uid. text_step Key.pwd pwd with_pwd.
  text_step Key.accessKeyId accessKeyId with_accessKeyId. text_step Key.secretKey secretKey with_secretKey.
  text_step Key.sessionToken sessionToken with_sessionToken.
  text_step Key.profileName profileName with_profileName. reflexivity.
Qed.

Lemma auth_roundtrip a : AuthType_FromString (AuthType_ToString a) AWS_PROFILE = a.
Proof. by destruct a. Qed.

(** The logger after the settings. *)
Definition logger_after (lg : Logger) : Logger :=
  if IsSet (logPath c) then Logger_SetLogPath (Round.level_after c lg) (GetValue (logPath c))
  else Round.level_after c lg.

Lemma ReadDsnConfiguration_held lg :
  ReadDsnConfiguration section ini (named c) lg = Ok (read_back c, logger_after lg).
Proof.
  unfold ReadDsnConfiguration. rewrite read_credentials_held. cbv zeta.
  rewrite read_timeouts_held by done. cbn [res_bind]. fields.
  number_step Key.maxRetryCountClient maxRetryCountClient with_maxRetryCountClient.
  number_step Key.maxConnections maxConnections with_maxConnections.
  unfold read_auth. cbv zeta. text_step Key.endpoint endpoint with_endpoint.
  text_step Key.region region with_region.
  setting_step Key.authType AuthType_ToString (fun v => AuthType_FromString v AWS_PROFILE) authType
    with_authType (auth_roundtrip (GetValue (authType c))).
  text_step Key.idPHost idPHost with_idPHost. text_step Key.idPUserName idPUserName with_idPUserName.
  text_step Key.idPPassword idPPassword with_idPPassword. text_step Key.idPArn idPArn with_idPArn.
  text_step Key.oktaAppId oktaAppId with_oktaAppId. text_step Key.roleArn roleArn with_roleArn.
  text_step Key.aadAppId aadAppId with_aadAppId.
  text_step Key.aadClientSecret aadClientSecret with_aadClientSecret.
  text_step Key.aadTenant aadTenant with_aadTenant.
  rewrite read_logging_held by done. fields. cbv beta iota.
  number_step Key.maxRowPerPage maxRowPerPage with_maxRowPerPage. reflexivity.
Qed.
End Read.
End Dsn.

(** ** A file for runs: an association list of sections, keys and values *)

Definition section_key (section key : text) (e : text * text * text) : bool :=
  text_eqb (fst (fst e)) section && text_eqb (ToLower key) (ToLower (snd (fst e))).
Definition cut (size : Z) (v : text) : text :=
  if Z.of_nat (length v) <? size then v else take (Z.to_nat (size - 1)) v.
Definition lookup (section key : text) (ini : list (text * text * text)) : option text :=
  option_map snd (List.find (section_key section key) ini).
Definition others (section : text) : list (text * text * text) -> list (text * text * text) :=
  List.filter (fun e => negb (text_eqb (fst (fst e)) section)).

Definition ListInstaller : Installer := {|
  Ini := list (text * text * text);
  SQLGetPrivateProfileString section key dflt size ini :=
    let v := cut size (default dflt (lookup section key ini)) in (v, Z.of_nat (length v));
  SQLWritePrivateProfileString section key v ini := ((section, key, v) :: ini, true);
  SQLWriteDSNToIni section drv ini := ((section, txt "Driver", drv) :: others section ini, true);
  SQLRemoveDSNFromIni section ini := (others section ini, true);
  SQLInstallerError ini := ([], 0)
|}.

Lemma cut_id size v : Z.of_nat (length v) < size -> cut size v = v.
Proof. intros Hl. unfold cut. by rewrite (proj2 (Z.ltb_lt _ _) Hl). Qed.
Lemma cut_short size v : 0 < size -> Z.of_nat (length (cut size v)) < size.
Proof. unfold cut. intros Hs. destruct (Z.ltb_spec (Z.of_nat (length v)) size); rewrite ?length_take; lia. Qed.

Lemma lookup_others section key ini : lookup section key (others section ini) = None.
Proof.
  unfold lookup, others. induction ini as [|e ini IH]; [done|]. cbn [List.filter].
  destruct (text_eqb (fst (fst e)) section) eqn:E; cbn [negb]; [done|]. cbn [List.find].
  unfold section_key at 1. by rewrite E.
Qed.

#[refine] Instance ListLaws : InstallerLaws ListInstaller := {|
  entry (ini : @Ini ListInstaller) section key := cut BUFFER_SIZE <$> lookup section key ini;
  storable v := c_str v = v /\ Z.of_nat (length v) < BUFFER_SIZE
|}.
Proof.
  - by intros v [? _].
  - intros ini section key v E. apply fmap_Some in E as (w & _ & ->). by apply cut_short.
  - intros ini section key dflt v Hl. subst v. cbn [SQLGetPrivateProfileString ListInstaller].
    destruct (lookup section key ini) as [w|]; cbn [fmap option_fmap option_map default] in *; [done|].
    unfold id in *. by rewrite cut_id.
  - intros ini ini' section key v [= <-] [_ Hl] key'. unfold lookup. cbn [List.find].
    unfold section_key at 1. cbn [fst snd]. unfold text_eqb at 1. rewrite bool_decide_eq_true_2 by done.
    cbn [andb]. destruct (text_eqb (ToLower key') (ToLower key)); [|done]. cbn. by rewrite cut_id.
  - intros ini ini' section drv key [= <-] Hk. unfold lookup. cbn [List.find].
    unfold section_key at 1. cbn [fst snd]. unfold text_eqb at 2.
    rewrite (bool_decide_eq_false_2 (ToLower key = _)) by done. rewrite andb_false_r.
    change (cut BUFFER_SIZE <$> lookup section key (others section ini) = None). by rewrite lookup_others.
Defined.

(** ** Properties *)

(** C39. A configuration written as a data source and read again into one that
    only names the data source and its driver: every setting comes back, every
    setting that was not made is the default, except the connection timeout. It is
    taken when the request timeout was set, and is then zero if it was not set
    itself; otherwise it is lost. *)
Theorem dsn_roundtrip `{HL : InstallerLaws} `{HP : Platform} (c : Configuration) (ini ini' : Ini)
    (lg : Logger) (error : option text) (Hc : writable c)
    (Hw : WriteDsnConfiguration c ini = (ini', true, error)) :
  ReadDsnConfiguration (c_str (GetDsn c [])) ini' (named c) lg = Ok (read_back c, logger_after c lg).
Proof.
  apply ReadDsnConfiguration_held; [done|]. unfold WriteDsnConfiguration, GetDsn in *.
  destruct (IsSet (dsn c)) eqn:Es; cbn [negb] in *; [|done]. revert Hw. case_test; [done|]. intros Hw.
  eapply RegisterDsn_written; [exact Hw|done|]. unfold GetDsn. by rewrite Es.
Qed.

(** A request timeout of 5 seconds and no connection timeout of its own. *)
Definition example_source : Configuration :=
  let c := @DefaultConfiguration ExamplePlatform in
  SetReqTimeout (SetPwd (SetUid (SetDriver (SetDsn c (txt "Plant")) (txt "drv")) (txt "me")) (txt "s;c")) 5.

Definition no_sources : @Ini ListInstaller := [].

Lemma dsn_roundtrip_witness :
  let HI := ListInstaller in let HP := ExamplePlatform in
  let lg := MkLogger 0 (txt "/tmp") in
  let '(ini, ok, _) := WriteDsnConfiguration example_source no_sources in
  ok = true /\
  exists c, ReadDsnConfiguration (txt "Plant") ini (named example_source) lg = Ok (c, lg) /\
    GetPwd c = txt "s;c" /\ GetReqTimeout c = 5 /\ GetConnectionTimeout c = 0 /\
    IsSet (region c) = false.
Proof.
  intros HI HP lg. destruct (WriteDsnConfiguration example_source no_sources) as [[ini ok] error] eqn:Ew.
  assert (Hok : ok = true) by (revert Ew; vm_compute; congruence). subst ok. split; [done|]. eexists. split.
  - apply (@dsn_roundtrip ListInstaller ListLaws ExamplePlatform example_source no_sources ini lg error); [|exact Ew].
    split; [|repeat constructor; vm_compute; done|done|done].
    apply Forall_forall. intros kv Hin.
    assert (Hall : forallb (fun kv => text_eqb (c_str (snd kv)) (snd kv)
      && (Z.of_nat (length (snd kv)) <? BUFFER_SIZE) && negb (text_eqb (snd kv) unique))
      (ToMap example_source []) = true) by (vm_compute; reflexivity).
    rewrite forallb_forall in Hall. apply list_elem_of_In, Hall in Hin.
    apply andb_true_iff in Hin as [[E1%bool_decide_eq_true_1 E2%Z.ltb_lt]%andb_true_iff E3%negb_true_iff].
    by apply bool_decide_eq_false_1 in E3.
  - vm_compute. done.
Defined.
End Dsn.
