(* ===== verification/DsnDialog.v ===== *)
(** * DsnDialog: the dialog for a data source

    Models the dialog of the Windows driver,
    [os/iotsitewise/win/src/system/ui/dsn_configuration_window.cpp], with what it
    uses of [window.cpp] and [custom_window.cpp], as a machine that takes messages,
    and [ConfigDSN] of [os/iotsitewise/win/src/system_dsn.cpp], which opens it.
    The window system is the effect of its functions on the controls: their text,
    whether they are enabled and visible. Positions, fonts and the wide characters
    of texts are left out. *)

From S2P Require Import Prelude Text Memory Diagnostics Encoding AppBufferGet Configuration ConnectionString DsnConfig.

Module Dialog.
Import Text Diag Encoding Config Dsn.
Local Open Scope result_scope.

(** ** Controls *)

(** [ChildId]. *)
Inductive ChildId : Type :=
  | NAME_EDIT | NAME_LABEL | ENDPOINT_EDIT | ENDPOINT_LABEL | REGION_EDIT | REGION_LABEL
  | TABS | TABS_GROUP_BOX | AUTH_TYPE_LABEL | AUTH_TYPE_COMBO_BOX
  | ACCESS_KEY_ID_LABEL | ACCESS_KEY_ID_EDIT | SECRET_ACCESS_KEY_LABEL | SECRET_ACCESS_KEY_EDIT
  | SESSION_TOKEN_LABEL | SESSION_TOKEN_EDIT | PROFILE_NAME_EDIT | PROFILE_NAME_LABEL
  | ROLE_ARN_EDIT | ROLE_ARN_LABEL | IDP_USER_NAME_EDIT | IDP_USER_NAME_LABEL
  | IDP_PASSWORD_EDIT | IDP_PASSWORD_LABEL | IDP_ARN_EDIT | IDP_ARN_LABEL
  | IDP_HOST_EDIT | IDP_HOST_LABEL | OKTA_APP_ID_EDIT | OKTA_APP_ID_LABEL
  | AAD_APP_ID_EDIT | AAD_APP_ID_LABEL | AAD_CLIENT_SECRET_EDIT | AAD_CLIENT_SECRET_LABEL
  | AAD_TENANT_EDIT | AAD_TENANT_LABEL | CONNECTION_TIMEOUT_EDIT | CONNECTION_TIMEOUT_LABEL
  | REQ_TIMEOUT_EDIT | REQ_TIMEOUT_LABEL | MAX_RETRY_COUNT_CLIENT_EDIT | MAX_RETRY_COUNT_CLIENT_LABEL
  | MAX_CONNECTIONS_EDIT | MAX_CONNECTIONS_LABEL | LOG_LEVEL_COMBO_BOX | LOG_LEVEL_LABEL
  | LOG_PATH_EDIT | LOG_PATH_LABEL | BROWSE_BUTTON | TEST_BUTTON | OK_BUTTON | CANCEL_BUTTON
  | VERSION_LABEL.
#[global] Instance ChildId_eq_dec : EqDecision ChildId.
Proof. solve_decision. Defined.

(** [TabIndex]. *)
Inductive Tab : Type := AUTHENTICATION | ADVANCED_OPTIONS | LOG_SETTINGS.
#[global] Instance Tab_eq_dec : EqDecision Tab.
Proof. solve_decision. Defined.

(** The window. A list that drops down has the entry of one of its values selected;
    its entries are in the order of the enumeration. [closing] is that [WM_CLOSE]
    was posted, [boxes] are the message boxes shown. *)
Record Window : Type := MkWindow {
  content : ChildId -> text;
  enabled : ChildId -> bool;
  visible : ChildId -> bool;
  authTypeComboBox : AuthType;
  logLevelComboBox : LogLevel;
  tabs : Tab;
  config : Configuration;
  logger : Logger;
  accepted : bool;
  created : bool;
  shownNameBalloon : bool;
  shownMaxConBalloon : bool;
  preSel : Tab;
  closing : bool;
  boxes : list text
}.

Definition at_child {A} (id : ChildId) (v : A) (f : ChildId -> A) : ChildId -> A :=
  fun id' => if decide (id' = id) then v else f id'.

Definition SetText (id : ChildId) (v : text) (w : Window) : Window :=
  MkWindow (at_child id v (content w)) (enabled w) (visible w) (authTypeComboBox w) (logLevelComboBox w) (tabs w)
    (config w) (logger w) (accepted w) (created w) (shownNameBalloon w) (shownMaxConBalloon w) (preSel w)
    (closing w) (boxes w).
Definition SetEnabled (id : ChildId) (v : bool) (w : Window) : Window :=
  MkWindow (content w) (at_child id v (enabled w)) (visible w) (authTypeComboBox w) (logLevelComboBox w) (tabs w)
    (config w) (logger w) (accepted w) (created w) (shownNameBalloon w) (shownMaxConBalloon w) (preSel w)
    (closing w) (boxes w).
Definition ShowWindow (id : ChildId) (v : bool) (w : Window) : Window :=
  MkWindow (content w) (enabled w) (at_child id v (visible w)) (authTypeComboBox w) (logLevelComboBox w) (tabs w)
    (config w) (logger w) (accepted w) (created w) (shownNameBalloon w) (shownMaxConBalloon w) (preSel w)
    (closing w) (boxes w).
Definition select_auth (a : AuthType) (w : Window) : Window :=
  MkWindow (content w) (enabled w) (visible w) a (logLevelComboBox w) (tabs w)
    (config w) (logger w) (accepted w) (created w) (shownNameBalloon w) (shownMaxConBalloon w) (preSel w)
    (closing w) (boxes w).
Definition select_level (l : LogLevel) (w : Window) : Window :=
  MkWindow (content w) (enabled w) (visible w) (authTypeComboBox w) l (tabs w)
    (config w) (logger w) (accepted w) (created w) (shownNameBalloon w) (shownMaxConBalloon w) (preSel w)
    (closing w) (boxes w).
Definition select_tab (t : Tab) (w : Window) : Window :=
  MkWindow (content w) (enabled w) (visible w) (authTypeComboBox w) (logLevelComboBox w) t
    (config w) (logger w) (accepted w) (created w) (shownNameBalloon w) (shownMaxConBalloon w) (preSel w)
    (closing w) (boxes w).
Definition set_config (c : Configuration) (lg : Logger) (w : Window) : Window :=
  MkWindow (content w) (enabled w) (visible w) (authTypeComboBox w) (logLevelComboBox w) (tabs w)
    c lg (accepted w) (created w) (shownNameBalloon w) (shownMaxConBalloon w) (preSel w) (closing w) (boxes w).
Definition set_accepted (w : Window) : Window :=
  MkWindow (content w) (enabled w) (visible w) (authTypeComboBox w) (logLevelComboBox w) (tabs w)
    (config w) (logger w) true (created w) (shownNameBalloon w) (shownMaxConBalloon w) (preSel w)
    (closing w) (boxes w).
Definition set_created (w : Window) : Window :=
  MkWindow (content w) (enabled w) (visible w) (authTypeComboBox w) (logLevelComboBox w) (tabs w)
    (config w) (logger w) (accepted w) true (shownNameBalloon w) (shownMaxConBalloon w) (preSel w)
    (closing w) (boxes w).
Definition set_balloons (name maxCon : bool) (w : Window) : Window :=
  MkWindow (content w) (enabled w) (visible w) (authTypeComboBox w) (logLevelComboBox w) (tabs w)
    (config w) (logger w) (accepted w) (created w) name maxCon (preSel w) (closing w) (boxes w).
Definition set_preSel (t : Tab) (w : Window) : Window :=
  MkWindow (content w) (enabled w) (visible w) (authTypeComboBox w) (logLevelComboBox w) (tabs w)
    (config w) (logger w) (accepted w) (created w) (shownNameBalloon w) (shownMaxConBalloon w) t
    (closing w) (boxes w).
Definition post_close (w : Window) : Window :=
  MkWindow (content w) (enabled w) (visible w) (authTypeComboBox w) (logLevelComboBox w) (tabs w)
    (config w) (logger w) (accepted w) (created w) (shownNameBalloon w) (shownMaxConBalloon w) (preSel w)
    true (boxes w).
Definition MessageBox (message : text) (w : Window) : Window :=
  MkWindow (content w) (enabled w) (visible w) (authTypeComboBox w) (logLevelComboBox w) (tabs w)
    (config w) (logger w) (accepted w) (created w) (shownNameBalloon w) (shownMaxConBalloon w) (preSel w)
    (closing w) (boxes w ++ [message]).

(** A control that is not enabled has no text. *)
Definition GetText (w : Window) (id : ChildId) : text := if enabled w id then content w id else [].
Definition HasText (w : Window) (id : ChildId) : bool := enabled w id && negb (Config.empty (content w id)).
Definition TRIM_UTF8 (w : Window) (id : ChildId) : text := Trim (GetText w id).

Definition CreateChild (title : text) (id : ChildId) (w : Window) : Window :=
  ShowWindow id true (SetEnabled id true (SetText id title w)).

Definition show_all (ids : list ChildId) (v : bool) (w : Window) : Window :=
  fold_left (fun w id => ShowWindow id v w) ids w.
Definition enable_all (ids : list ChildId) (v : bool) (w : Window) : Window :=
  fold_left (fun w id => SetEnabled id v w) ids w.

(** ** Showing and hiding *)

Section Dialog.
Context `{!Platform}.

Definition LogLevel_ToCBString (val : LogLevel) : text :=
  match val with
  | DEBUG_LEVEL => txt "Debug" | INFO_LEVEL => txt "Info" | WARNING_LEVEL => txt "Warning"
  | ERROR_LEVEL => txt "Error" | OFF => txt "Off" | LEVEL_UNKNOWN => txt "Error"
  end.

Definition OnAuthTypeChanged (w : Window) : Window :=
  let authType := authTypeComboBox w in
  let authTypeEqSaml := bool_decide (authType = OKTA) || bool_decide (authType = AAD) in
  let authTypeAwsProfile := bool_decide (authType = AWS_PROFILE) in
  let authTypeIAM := bool_decide (authType = IAM) in
  let authTypeAAD := bool_decide (authType = AAD) in
  let authTypeOkta := bool_decide (authType = OKTA) in
  let w := SetEnabled PROFILE_NAME_EDIT authTypeAwsProfile w in
  let w := show_all [PROFILE_NAME_EDIT; PROFILE_NAME_LABEL] authTypeAwsProfile w in
  let w := enable_all [ACCESS_KEY_ID_EDIT; SECRET_ACCESS_KEY_EDIT; SESSION_TOKEN_EDIT] authTypeIAM w in
  let w := show_all [ACCESS_KEY_ID_LABEL; ACCESS_KEY_ID_EDIT; SECRET_ACCESS_KEY_LABEL; SECRET_ACCESS_KEY_EDIT;
    SESSION_TOKEN_LABEL; SESSION_TOKEN_EDIT] authTypeIAM w in
  let w := enable_all [ROLE_ARN_EDIT; IDP_USER_NAME_EDIT; IDP_PASSWORD_EDIT; IDP_ARN_EDIT] authTypeEqSaml w in
  let w := show_all [IDP_USER_NAME_EDIT; IDP_USER_NAME_LABEL; IDP_PASSWORD_EDIT; IDP_PASSWORD_LABEL;
    IDP_ARN_EDIT; IDP_ARN_LABEL; ROLE_ARN_EDIT; ROLE_ARN_LABEL] authTypeEqSaml w in
  let w := enable_all [IDP_HOST_EDIT; OKTA_APP_ID_EDIT] authTypeOkta w in
  let w := show_all [IDP_HOST_LABEL; IDP_HOST_EDIT; OKTA_APP_ID_EDIT; OKTA_APP_ID_LABEL] authTypeOkta w in
  let w := enable_all [AAD_APP_ID_EDIT; AAD_CLIENT_SECRET_EDIT; AAD_TENANT_EDIT] authTypeAAD w in
  show_all [AAD_APP_ID_EDIT; AAD_APP_ID_LABEL; AAD_CLIENT_SECRET_EDIT; AAD_CLIENT_SECRET_LABEL;
    AAD_TENANT_EDIT; AAD_TENANT_LABEL] authTypeAAD w.

(** The text of the selected entry is taken for the number of a level. *)
Definition OnLogLevelChanged (w : Window) : Window :=
  let text := if enabled w LOG_LEVEL_COMBO_BOX then LogLevel_ToCBString (logLevelComboBox w) else [] in
  if bool_decide (LogLevel_FromString (Trim text) LEVEL_UNKNOWN = OFF)
  then enable_all [LOG_PATH_EDIT; BROWSE_BUTTON] false w
  else enable_all [LOG_PATH_EDIT; BROWSE_BUTTON] true w.

Definition ShowAdvanceAuth (v : bool) (w : Window) : Window :=
  let w := show_all [AUTH_TYPE_COMBO_BOX; AUTH_TYPE_LABEL] v w in
  if v then OnAuthTypeChanged w
  else
    show_all [ACCESS_KEY_ID_EDIT; ACCESS_KEY_ID_LABEL; SECRET_ACCESS_KEY_EDIT; SECRET_ACCESS_KEY_LABEL;
      SESSION_TOKEN_EDIT; SESSION_TOKEN_LABEL; PROFILE_NAME_EDIT; PROFILE_NAME_LABEL; ROLE_ARN_EDIT; ROLE_ARN_LABEL;
      IDP_USER_NAME_EDIT; IDP_USER_NAME_LABEL; IDP_PASSWORD_EDIT; IDP_PASSWORD_LABEL; IDP_ARN_EDIT; IDP_ARN_LABEL;
      IDP_HOST_EDIT; IDP_HOST_LABEL; OKTA_APP_ID_EDIT; OKTA_APP_ID_LABEL; AAD_APP_ID_EDIT; AAD_APP_ID_LABEL;
      AAD_CLIENT_SECRET_EDIT; AAD_CLIENT_SECRET_LABEL; AAD_TENANT_EDIT; AAD_TENANT_LABEL] false w.
Definition ShowAdvancedOptions : bool -> Window -> Window :=
  show_all [CONNECTION_TIMEOUT_EDIT; CONNECTION_TIMEOUT_LABEL; REQ_TIMEOUT_EDIT; REQ_TIMEOUT_LABEL;
    MAX_RETRY_COUNT_CLIENT_EDIT; MAX_RETRY_COUNT_CLIENT_LABEL; MAX_CONNECTIONS_EDIT; MAX_CONNECTIONS_LABEL].
Definition ShowLogSettings : bool -> Window -> Window :=
  show_all [LOG_LEVEL_COMBO_BOX; LOG_LEVEL_LABEL; LOG_PATH_EDIT; LOG_PATH_LABEL; BROWSE_BUTTON].

Definition show_tab (t : Tab) : bool -> Window -> Window :=
  match t with
  | AUTHENTICATION => ShowAdvanceAuth | ADVANCED_OPTIONS => ShowAdvancedOptions | LOG_SETTINGS => ShowLogSettings
  end.
Definition OnSelChanged (idx : Tab) (w : Window) : Window :=
  if bool_decide (preSel w = idx) then w
  else set_preSel idx (set_balloons false false (show_tab idx true (show_tab (preSel w) false w))).

(** ** Creation *)

(** [FromUtf8] takes a string of C. *)
Definition FromUtf8 (s : text) : text := c_str s.

(** The digits of a version of the form [00.00.0000], without the zeros in front. *)
Definition version_piece (driverVersion : text) (i : nat) (c : ascii) : text :=
  let zero_at j := bool_decide (driverVersion !! j = Some "0"%char) in
  match i with
  | 7%nat => if negb (zero_at 7%nat) || negb (zero_at 6%nat) then [c] else []
  | 8%nat => if negb (zero_at 8%nat) || negb (zero_at 7%nat) || negb (zero_at 6%nat) then [c] else []
  | 4%nat | 9%nat => [c]
  | 0%nat | 3%nat | 6%nat => if zero_at i then [] else [c]
  | _ => [c]
  end.
Definition GetParsedDriverVersion (driverVersion : text) : text :=
  FromUtf8 (txt "V." ++ concat (imap (version_piece driverVersion) driverVersion)).

Definition CreateBasicSettingsGroup (w : Window) : Window :=
  let c := config w in
  let w := CreateChild (txt "Data Source Name*:") NAME_LABEL w in
  let w := CreateChild (FromUtf8 (GetDsn c default_dsn)) NAME_EDIT w in
  let w := CreateChild (txt "Endpoint Override:") ENDPOINT_LABEL w in
  let w := CreateChild (FromUtf8 (GetEndpoint c)) ENDPOINT_EDIT w in
  let w := CreateChild (txt "Region:") REGION_LABEL w in
  let w := CreateChild (FromUtf8 (GetRegion c)) REGION_EDIT w in
  let w := select_tab AUTHENTICATION (CreateChild (txt "Tabs") TABS w) in
  CreateChild [] TABS_GROUP_BOX w.

Definition CreateAuthenticationSettingsGroup (w : Window) : Window :=
  let c := config w in
  let w := CreateChild (txt "Auth Type:") AUTH_TYPE_LABEL w in
  let w := select_auth (GetAuthType c) (CreateChild [] AUTH_TYPE_COMBO_BOX w) in
  let w := CreateChild (txt "Access Key ID:") ACCESS_KEY_ID_LABEL w in
  let w := CreateChild (FromUtf8 (GetAccessKeyId c)) ACCESS_KEY_ID_EDIT w in
  let w := CreateChild (txt "Secret Access Key:") SECRET_ACCESS_KEY_LABEL w in
  let w := CreateChild (FromUtf8 (GetSecretKey c)) SECRET_ACCESS_KEY_EDIT w in
  let w := CreateChild (txt "Session Token:") SESSION_TOKEN_LABEL w in
  let w := CreateChild (FromUtf8 (GetSessionToken c)) SESSION_TOKEN_EDIT w in
  let w := CreateChild (txt "Profile Name:") PROFILE_NAME_LABEL w in
  let w := CreateChild (FromUtf8 (GetProfileName c)) PROFILE_NAME_EDIT w in
  let w := CreateChild (txt "Role ARN:") ROLE_ARN_LABEL w in
  let w := CreateChild (FromUtf8 (GetRoleArn c)) ROLE_ARN_EDIT w in
  let w := CreateChild (txt "IdP User Name:") IDP_USER_NAME_LABEL w in
  let w := CreateChild (FromUtf8 (GetIdPUserName c)) IDP_USER_NAME_EDIT w in
  let w := CreateChild (txt "IdP Password:") IDP_PASSWORD_LABEL w in
  let w := CreateChild (FromUtf8 (GetIdPPassword c)) IDP_PASSWORD_EDIT w in
  let w := CreateChild (txt "IdP ARN:") IDP_ARN_LABEL w in
  let w := CreateChild (FromUtf8 (GetIdPArn c)) IDP_ARN_EDIT w in
  let w := CreateChild (txt "IdP Host:") IDP_HOST_LABEL w in
  let w := CreateChild (FromUtf8 (GetIdPHost c)) IDP_HOST_EDIT w in
  let w := CreateChild (txt "Okta Application ID:") OKTA_APP_ID_LABEL w in
  let w := CreateChild (FromUtf8 (GetOktaAppId c)) OKTA_APP_ID_EDIT w in
  let w := CreateChild (txt "AAD Application ID:") AAD_APP_ID_LABEL w in
  let w := CreateChild (FromUtf8 (GetAADAppId c)) AAD_APP_ID_EDIT w in
  let w := CreateChild (txt "AAD Client Secret:") AAD_CLIENT_SECRET_LABEL w in
  let w := CreateChild (FromUtf8 (GetAADClientSecret c)) AAD_CLIENT_SECRET_EDIT w in
  let w := CreateChild (txt "AAD Tenant:") AAD_TENANT_LABEL w in
  let w := CreateChild (FromUtf8 (GetAADTenant c)) AAD_TENANT_EDIT w in
  OnAuthTypeChanged w.

Definition CreateAdvancedOptionsGroup (w : Window) : Window :=
  let c := config w in
  let w := CreateChild (txt "Connection Timeout (ms):") CONNECTION_TIMEOUT_LABEL w in
  let w := CreateChild (show_int (GetConnectionTimeout c)) CONNECTION_TIMEOUT_EDIT w in
  let w := CreateChild (txt "Request Timeout (ms):") REQ_TIMEOUT_LABEL w in
  let w := CreateChild (show_int (GetReqTimeout c)) REQ_TIMEOUT_EDIT w in
  let w := CreateChild (txt "Max retry count client:") MAX_RETRY_COUNT_CLIENT_LABEL w in
  let w := CreateChild (show_int (GetMaxRetryCountClient c)) MAX_RETRY_COUNT_CLIENT_EDIT w in
  let w := CreateChild (txt "Max connections:") MAX_CONNECTIONS_LABEL w in
  CreateChild (show_int (GetMaxConnections c)) MAX_CONNECTIONS_EDIT w.

Definition CreateLogSettingsGroup (w : Window) : Window :=
  let c := config w in
  let w := CreateChild (txt "Log Level:") LOG_LEVEL_LABEL w in
  let w := select_level (GetLogLevel c) (CreateChild [] LOG_LEVEL_COMBO_BOX w) in
  let w := CreateChild (txt "Log Path:" ++ ["010"%char]
    ++ txt "(the log file name format is iotsitewise_odbc_YYYYMMDD.log)") LOG_PATH_LABEL w in
  let w := CreateChild (FromUtf8 (GetLogPath c)) LOG_PATH_EDIT w in
  let w := CreateChild (txt "Browse") BROWSE_BUTTON w in
  OnLogLevelChanged w.

(** The constructor, and [OnCreate]. *)
Definition NewWindow (c : Configuration) (lg : Logger) : Window :=
  MkWindow (fun _ => []) (fun _ => false) (fun _ => false) AWS_PROFILE OFF AUTHENTICATION c lg
    false false false false AUTHENTICATION false [].
Definition OnCreate (driverVersion : text) (w : Window) : Window :=
  let w := CreateBasicSettingsGroup w in
  let w := CreateAdvancedOptionsGroup w in
  let w := CreateAuthenticationSettingsGroup w in
  let w := CreateLogSettingsGroup w in
  let w := ShowAdvancedOptions false w in
  let w := ShowLogSettings false w in
  let w := CreateChild (txt "Test") TEST_BUTTON w in
  let w := CreateChild (txt "Ok") OK_BUTTON w in
  let w := CreateChild (txt "Cancel") CANCEL_BUTTON w in
  let w := set_created (CreateChild (GetParsedDriverVersion driverVersion) VERSION_LABEL w) in
  SetEnabled OK_BUTTON (HasText w NAME_EDIT) w.

(** ** The settings of the dialog *)

Definition RetrieveLogParameters (w : Window) (cfg : Configuration) (lg : Logger) : Configuration * Logger :=
  let '(cfg, lg) := SetLogLevel cfg lg (logLevelComboBox w) in
  SetLogPath cfg lg (TRIM_UTF8 w LOG_PATH_EDIT).

Definition RetrieveBasicParameters (w : Window) (cfg : Configuration) : Configuration :=
  let cfg := SetDsn cfg (TRIM_UTF8 w NAME_EDIT) in
  let cfg := SetEndpoint cfg (TRIM_UTF8 w ENDPOINT_EDIT) in
  SetRegion cfg (TRIM_UTF8 w REGION_EDIT).

Definition RetrieveBasicAuthParameters (w : Window) (cfg : Configuration) : Configuration :=
  let cfg := SetAccessKeyId cfg (TRIM_UTF8 w ACCESS_KEY_ID_EDIT) in
  let cfg := SetSecretKey cfg (TRIM_UTF8 w SECRET_ACCESS_KEY_EDIT) in
  let cfg := SetSessionToken cfg (TRIM_UTF8 w SESSION_TOKEN_EDIT) in
  SetProfileName cfg (TRIM_UTF8 w PROFILE_NAME_EDIT).

Definition RetrieveAdvanceAuthParameters (w : Window) (cfg : Configuration) : Configuration :=
  let cfg := SetAuthType cfg (authTypeComboBox w) in
  let cfg := SetRoleArn cfg (TRIM_UTF8 w ROLE_ARN_EDIT) in
  let cfg := SetIdPUserName cfg (TRIM_UTF8 w IDP_USER_NAME_EDIT) in
  let cfg := SetIdPPassword cfg (TRIM_UTF8 w IDP_PASSWORD_EDIT) in
  let cfg := SetIdPArn cfg (TRIM_UTF8 w IDP_ARN_EDIT) in
  let cfg := SetIdPHost cfg (TRIM_UTF8 w IDP_HOST_EDIT) in
  let cfg := SetOktaAppId cfg (TRIM_UTF8 w OKTA_APP_ID_EDIT) in
  let cfg := SetAADAppId cfg (TRIM_UTF8 w AAD_APP_ID_EDIT) in
  let cfg := SetAADClientSecret cfg (TRIM_UTF8 w AAD_CLIENT_SECRET_EDIT) in
  SetAADTenant cfg (TRIM_UTF8 w AAD_TENANT_EDIT).

(** [LexicalCast] of a text that is not empty and starts with no white space. *)
Definition number (s : text) : Z :=
  if Config.empty s then 0 else default 0 (Get.stream_int (Get.Signed 4) s).
Definition not_negative (v dflt : Z) : Z := if v <? 0 then dflt else v.

Definition max_connections_message : text :=
  txt "[Max Connections] Number of connections must be a positive number.".

(** The configuration, and the message of the error that was thrown. *)
Definition RetrieveConnectionParameters (w : Window) (cfg : Configuration) : Configuration * option text :=
  let connectionTimeout := not_negative (number (TRIM_UTF8 w CONNECTION_TIMEOUT_EDIT)) 1000 in
  let reqTimeout := not_negative (number (TRIM_UTF8 w REQ_TIMEOUT_EDIT)) 3000 in
  let maxRetryCountClient := not_negative (number (TRIM_UTF8 w MAX_RETRY_COUNT_CLIENT_EDIT)) 0 in
  let maxCon := number (TRIM_UTF8 w MAX_CONNECTIONS_EDIT) in
  if maxCon <=? 0 then (cfg, Some max_connections_message)
  else
    let cfg := SetConnectionTimeout cfg connectionTimeout in
    let cfg := SetReqTimeout cfg reqTimeout in
    let cfg := SetMaxRetryCountClient cfg maxRetryCountClient in
    (SetMaxConnections cfg maxCon, None).

Definition RetrieveParameters (w : Window) (cfg : Configuration) (lg : Logger)
    : Configuration * Logger * option text :=
  let '(cfg, lg) := RetrieveLogParameters w cfg lg in
  let cfg := RetrieveBasicParameters w cfg in
  let cfg := RetrieveBasicAuthParameters w cfg in
  let cfg := RetrieveAdvanceAuthParameters w cfg in
  let '(cfg, error) := RetrieveConnectionParameters w cfg in
  (cfg, lg, error).

(** ** Messages *)

(** What became of the attempt to connect through the driver manager. *)
Inductive Attempt : Type :=
  | NoEnvironment | NoVersion | NoConnection | Refused (message : text) | Connected.
Class DriverManager : Type := { attempt : text -> Attempt }.
Context `{!DriverManager}.

Definition TestConnection (w : Window) : Prelude.result Window :=
  let '(tempConfig, lg, error) := RetrieveParameters w DefaultConfiguration (logger w) in
  match error with
  | Some _ => Err Exception
  | None =>
      let w := set_config (config w) lg w in
      Ok (MessageBox
        match attempt (ToConnectString tempConfig) with
        | NoEnvironment => txt "Unable to allocate Environment handle."
        | NoVersion => txt "Unable to set ODBC version."
        | NoConnection => txt "Unable to allocate Connection handle."
        | Refused message => txt "Connection failed: '" ++ message ++ txt "'"
        | Connected => txt "Connection succeeded."
        end w)
  end.

(** [WM_COMMAND] of a control, with the folder that is chosen while the message is
    handled, and [WM_NOTIFY] of one. *)
Inductive Message : Type :=
  | Command (id : ChildId) (folder : option text)
  | Notify (id : ChildId).

Definition OnMessage (msg : Message) (w : Window) : Prelude.result Window :=
  match msg with
  | Command TEST_BUTTON _ => TestConnection w
  | Command OK_BUTTON _ =>
      let '(cfg, lg, error) := RetrieveParameters w (config w) (logger w) in
      let w := set_config cfg lg w in
      Ok match error with Some message => MessageBox message w | None => post_close (set_accepted w) end
  | Command CANCEL_BUTTON _ => Ok (post_close w)
  | Command NAME_EDIT _ =>
      Ok (if created w then
            let w := SetEnabled OK_BUTTON (HasText w NAME_EDIT) w in
            set_balloons (negb (shownNameBalloon w) && negb (HasText w NAME_EDIT)) (shownMaxConBalloon w) w
          else w)
  | Command MAX_CONNECTIONS_EDIT _ =>
      if created w then
        match Get.stream_int (Get.Signed 2) (TRIM_UTF8 w MAX_CONNECTIONS_EDIT) with
        | None => Err Indeterminate
        | Some maxCon =>
            Ok (set_balloons (shownNameBalloon w) (negb (shownMaxConBalloon w) && (maxCon <=? 0)) w)
        end
      else Ok w
  | Command AUTH_TYPE_COMBO_BOX _ => Ok (OnAuthTypeChanged w)
  | Command LOG_LEVEL_COMBO_BOX _ => Ok (OnLogLevelChanged w)
  | Command BROWSE_BUTTON folder => Ok match folder with Some path => SetText LOG_PATH_EDIT path w | None => w end
  | Notify TABS => Ok (OnSelChanged (tabs w) w)
  | _ => Ok w
  end.

(** ** The user *)

(** Only what is visible and enabled reacts; a field that is edited sends its
    message before and after it is drawn, and those of the focus are left out. *)
Inductive Action : Type :=
  | EditText (id : ChildId) (t : text)
  | ChooseAuth (a : AuthType)
  | ChooseLevel (l : LogLevel)
  | ChooseTab (t : Tab)
  | Press (id : ChildId) (folder : option text).

Definition is_edit (id : ChildId) : bool :=
  match id with
  | NAME_EDIT | ENDPOINT_EDIT | REGION_EDIT | ACCESS_KEY_ID_EDIT | SECRET_ACCESS_KEY_EDIT | SESSION_TOKEN_EDIT
  | PROFILE_NAME_EDIT | ROLE_ARN_EDIT | IDP_USER_NAME_EDIT | IDP_PASSWORD_EDIT | IDP_ARN_EDIT | IDP_HOST_EDIT
  | OKTA_APP_ID_EDIT | AAD_APP_ID_EDIT | AAD_CLIENT_SECRET_EDIT | AAD_TENANT_EDIT | CONNECTION_TIMEOUT_EDIT
  | REQ_TIMEOUT_EDIT | MAX_RETRY_COUNT_CLIENT_EDIT | MAX_CONNECTIONS_EDIT | LOG_PATH_EDIT => true
  | _ => false
  end.
Definition is_button (id : ChildId) : bool :=
  match id with BROWSE_BUTTON | TEST_BUTTON | OK_BUTTON | CANCEL_BUTTON => true | _ => false end.
Definition available (w : Window) (id : ChildId) : bool := visible w id && enabled w id && negb (closing w).

Definition perform (action : Action) (w : Window) : Prelude.result Window :=
  match action with
  | EditText id t =>
      if is_edit id && available w id then
        do w <- OnMessage (Command id None) (SetText id t w); OnMessage (Command id None) w
      else Ok w
  | ChooseAuth a =>
      if available w AUTH_TYPE_COMBO_BOX then OnMessage (Command AUTH_TYPE_COMBO_BOX None) (select_auth a w) else Ok w
  | ChooseLevel l =>
      if available w LOG_LEVEL_COMBO_BOX && bool_decide (l <> LEVEL_UNKNOWN)
      then OnMessage (Command LOG_LEVEL_COMBO_BOX None) (select_level l w) else Ok w
  | ChooseTab t => if available w TABS then OnMessage (Notify TABS) (select_tab t w) else Ok w
  | Press id folder => if is_button id && available w id then OnMessage (Command id folder) w else Ok w
  end.

Fixpoint session (actions : list Action) (w : Window) : Prelude.result Window :=
  match actions with
  | [] => Ok w
  | action :: actions => do w <- perform action w; session actions w
  end.

Definition open_window (driverVersion : text) (c : Configuration) (lg : Logger) : Window :=
  OnCreate driverVersion (NewWindow c lg).

(** ** [ConfigDSN] *)

(** Without a parent window there is no dialog. [None] is that the dialog was not
    accepted, or left by an error. *)
Definition DisplayConnectionWindow (driverVersion : text) (parent : bool) (actions : list Action)
    (c : Configuration) (lg : Logger) : Prelude.result (option (Configuration * Logger)) :=
  if negb parent then Ok (Some (c, lg))
  else
    match session actions (open_window driverVersion c lg) with
    | Ok w => Ok (if accepted w then Some (config w, logger w) else None)
    | Err Exception => Ok None
    | Err e => Err e
    end.

Class DsnNames : Type := { SQLValidDSN : text -> bool }.
Inductive Request : Type := ODBC_ADD_DSN | ODBC_CONFIG_DSN | ODBC_REMOVE_DSN | OTHER_REQUEST.

Context `{!DsnNames} `{HI : Installer}.

Definition InternalRegisterDsn (c : Configuration) (driver : text) (ini : Ini) : Ini * bool :=
  fst (RegisterDsn c driver ini).
Definition InternalUnregisterDsn (dsn : text) (ini : Ini) : Ini * bool :=
  fst (UnregisterDsn dsn ini).

Definition ConfigDSN (driverVersion : text) (parent : bool) (actions : list Action) (req : Request)
    (driver attributes : text) (ini : Ini) (lg : Logger) : Prelude.result (Ini * bool) :=
  do parser <- Conn.ParseConfigAttributes attributes (Conn.MkParser DefaultConfiguration lg (Some NewStorage));
  let c := Conn.cfg parser in
  let lg := Conn.logger parser in
  let dsn := GetDsn c default_dsn in
  if negb (SQLValidDSN dsn) then Ok (ini, false)
  else
    match req with
    | ODBC_ADD_DSN =>
        do answer <- DisplayConnectionWindow driverVersion parent actions c lg;
        Ok match answer with Some (c, _) => InternalRegisterDsn c driver ini | None => (ini, false) end
    | ODBC_CONFIG_DSN =>
        do loaded <- ReadDsnConfiguration (c_str dsn) ini c lg;
        do answer <- DisplayConnectionWindow driverVersion parent actions (fst loaded) (snd loaded);
        Ok match answer with
           | Some (c, _) =>
               let '(ini, ok) := InternalRegisterDsn c driver ini in
               if negb ok then (ini, false)
               else if negb (text_eqb (GetDsn c default_dsn) dsn) then InternalUnregisterDsn (c_str dsn) ini
               else (ini, true)
           | None => (ini, false)
           end
    | ODBC_REMOVE_DSN => Ok (InternalUnregisterDsn (c_str dsn) ini)
    | OTHER_REQUEST => Ok (ini, false)
    end.
End Dialog.
End Dialog.
