(* ===== verification/DsnDialogFacts.v ===== *)
(** * DsnDialogFacts: what the dialog shows and stores

    Whatever the user does, the dialog shows the fields of its tab and of the
    authentication type that is selected, and it can be accepted when the data
    source has a name; what it stores; and that a data source that was configured is
    read back. *)

From S2P Require Import Prelude Text Memory Diagnostics Calendar Encoding AppBufferGet Configuration ConnectionString ConnectionRoundtrip DsnConfig DsnDialog.

Module DialogFacts.
Import Text Memory Diag Encoding Config Dsn Dialog.
Local Open Scope result_scope.

(** ** The version *)

(** The digits of a number below 100 and below 10000, and what is kept of them. *)
Definition kept_two (a b : ascii) : text := (if bool_decide (a = "0"%char) then [] else [a]) ++ [b].
Definition kept_four (a b c d : ascii) : text :=
  let z x := bool_decide (x = "0"%char) in
  (if z a then [] else [a]) ++ (if z b && z a then [] else [b]) ++ (if z c && z b && z a then [] else [c]) ++ [d].

Definition no_zero (s : text) : bool := forallb (fun c => negb (code c =? 0)) s.
Lemma no_zero_nul s : no_zero s = true -> no_nul s.
Proof.
  unfold no_zero. rewrite forallb_forall. intros H. apply Forall_forall. intros c Hc%list_elem_of_In.
  apply H in Hc. lia.
Qed.
Definition two_ok (x : Z) : bool :=
  match Calendar.zero_padded 2 x with
  | [a; b] => text_eqb (kept_two a b) (show_int x) && no_zero (kept_two a b)
  | _ => false
  end.
Definition four_ok (x : Z) : bool :=
  match Calendar.zero_padded 4 x with
  | [a; b; c; d] => text_eqb (kept_four a b c d) (show_int x) && no_zero (kept_four a b c d)
  | _ => false
  end.

Lemma below (P : Z -> bool) n x :
  forallb (fun k => P (Z.of_nat k)) (seq 0 (Z.to_nat n)) = true -> 0 <= x < n -> P x = true.
Proof.
  rewrite forallb_forall. intros H Hx. specialize (H (Z.to_nat x)). rewrite Z2Nat.id in H by lia.
  apply H, in_seq. lia.
Qed.

(** The version of the driver as the dialog shows it. *)
Lemma version_shown major minor patch :
  0 <= major < 100 -> 0 <= minor < 100 -> 0 <= patch < 10000 ->
  GetParsedDriverVersion (Calendar.zero_padded 2 major ++ txt "." ++ Calendar.zero_padded 2 minor ++ txt "." ++
    Calendar.zero_padded 4 patch) =
  txt "V." ++ show_int major ++ txt "." ++ show_int minor ++ txt "." ++ show_int patch.
Proof.
  intros H1 H2 H3. pose proof (below two_ok 100 major) as E1. pose proof (below two_ok 100 minor) as E2.
  pose proof (below four_ok 10000 patch) as E3. unfold two_ok in E1, E2. unfold four_ok in E3.
  specialize (E1 ltac:(vm_compute; reflexivity) ltac:(lia)). specialize (E2 ltac:(vm_compute; reflexivity) ltac:(lia)).
  specialize (E3 ltac:(vm_compute; reflexivity) ltac:(lia)).
  destruct (Calendar.zero_padded 2 major) as [|a1 [|b1 [|? ?]]]; try discriminate E1.
  destruct (Calendar.zero_padded 2 minor) as [|a2 [|b2 [|? ?]]]; try discriminate E2.
  destruct (Calendar.zero_padded 4 patch) as [|a3 [|b3 [|c3 [|d3 [|? ?]]]]]; try discriminate E3.
  apply andb_true_iff in E1 as [<-%bool_decide_eq_true_1 N1].
  apply andb_true_iff in E2 as [<-%bool_decide_eq_true_1 N2].
  apply andb_true_iff in E3 as [<-%bool_decide_eq_true_1 N3].
  assert (E : forall a b : ascii, bool_decide (Some a = Some b) = bool_decide (a = b)).
  { intros a b. apply bool_decide_ext. split; congruence. }
  match goal with |- _ = ?r => assert (Hr : no_nul r) end.
  { apply no_zero_nul. unfold no_zero in *. by rewrite !forallb_app, N1, N2, N3. }
  unfold GetParsedDriverVersion, FromUtf8. rewrite <- (c_str_ascii _ Hr) at 1. f_equal.
  unfold kept_two, kept_four. cbn -[bool_decide]. unfold version_piece. cbn -[bool_decide]. rewrite !E.
  by repeat case_bool_decide.
Qed.

(** ** What is shown *)

(** The tab a control is on, and the authentication types it is for. *)
Definition tab_of (id : ChildId) : option Tab :=
  match id with
  | NAME_EDIT | NAME_LABEL | ENDPOINT_EDIT | ENDPOINT_LABEL | REGION_EDIT | REGION_LABEL | TABS | TABS_GROUP_BOX
  | TEST_BUTTON | OK_BUTTON | CANCEL_BUTTON | VERSION_LABEL => None
  | CONNECTION_TIMEOUT_EDIT | CONNECTION_TIMEOUT_LABEL | REQ_TIMEOUT_EDIT | REQ_TIMEOUT_LABEL
  | MAX_RETRY_COUNT_CLIENT_EDIT | MAX_RETRY_COUNT_CLIENT_LABEL | MAX_CONNECTIONS_EDIT
  | MAX_CONNECTIONS_LABEL => Some ADVANCED_OPTIONS
  | LOG_LEVEL_COMBO_BOX | LOG_LEVEL_LABEL | LOG_PATH_EDIT | LOG_PATH_LABEL | BROWSE_BUTTON => Some LOG_SETTINGS
  | _ => Some AUTHENTICATION
  end.
Definition auth_of (id : ChildId) : option (list AuthType) :=
  match id with
  | PROFILE_NAME_EDIT | PROFILE_NAME_LABEL => Some [AWS_PROFILE]
  | ACCESS_KEY_ID_LABEL | ACCESS_KEY_ID_EDIT | SECRET_ACCESS_KEY_LABEL | SECRET_ACCESS_KEY_EDIT
  | SESSION_TOKEN_LABEL | SESSION_TOKEN_EDIT => Some [IAM]
  | ROLE_ARN_EDIT | ROLE_ARN_LABEL | IDP_USER_NAME_EDIT | IDP_USER_NAME_LABEL | IDP_PASSWORD_EDIT
  | IDP_PASSWORD_LABEL | IDP_ARN_EDIT | IDP_ARN_LABEL => Some [OKTA; AAD]
  | IDP_HOST_EDIT | IDP_HOST_LABEL | OKTA_APP_ID_EDIT | OKTA_APP_ID_LABEL => Some [OKTA]
  | AAD_APP_ID_EDIT | AAD_APP_ID_LABEL | AAD_CLIENT_SECRET_EDIT | AAD_CLIENT_SECRET_LABEL
  | AAD_TENANT_EDIT | AAD_TENANT_LABEL => Some [AAD]
  | _ => None
  end.
Definition serves (a : AuthType) (id : ChildId) : bool :=
  match auth_of id with Some l => bool_decide (a ∈ l) | None => true end.
Definition shown (a : AuthType) (t : Tab) (id : ChildId) : bool :=
  match tab_of id with Some t' => bool_decide (t' = t) && serves a id | None => true end.
(** Labels are never disabled. *)
Definition is_label (id : ChildId) : bool := negb (is_edit id || is_button id).
Definition usable (w : Window) (id : ChildId) : bool :=
  match id with
  | OK_BUTTON => negb (Config.empty (content w NAME_EDIT))
  | _ => is_label id || serves (authTypeComboBox w) id
  end.

Record dialog_ok (w : Window) : Prop := {
  ok_visible : forall id, visible w id = shown (authTypeComboBox w) (preSel w) id;
  ok_enabled : forall id, enabled w id = usable w id;
  ok_tab : preSel w = tabs w;
  ok_created : created w = true
}.

(** The settings of [c] with the fields of the dialog they are on. *)
Definition text_settings (dflt : text) (c : Configuration) : list (ChildId * text) :=
  [(NAME_EDIT, GetDsn c dflt); (ENDPOINT_EDIT, GetEndpoint c); (REGION_EDIT, GetRegion c);
   (ACCESS_KEY_ID_EDIT, GetAccessKeyId c); (SECRET_ACCESS_KEY_EDIT, GetSecretKey c);
   (SESSION_TOKEN_EDIT, GetSessionToken c); (PROFILE_NAME_EDIT, GetProfileName c); (ROLE_ARN_EDIT, GetRoleArn c);
   (IDP_USER_NAME_EDIT, GetIdPUserName c); (IDP_PASSWORD_EDIT, GetIdPPassword c); (IDP_ARN_EDIT, GetIdPArn c);
   (IDP_HOST_EDIT, GetIdPHost c); (OKTA_APP_ID_EDIT, GetOktaAppId c); (AAD_APP_ID_EDIT, GetAADAppId c);
   (AAD_CLIENT_SECRET_EDIT, GetAADClientSecret c); (AAD_TENANT_EDIT, GetAADTenant c)].
Definition number_settings (c : Configuration) : list (ChildId * Z) :=
  [(CONNECTION_TIMEOUT_EDIT, GetConnectionTimeout c); (REQ_TIMEOUT_EDIT, GetReqTimeout c);
   (MAX_RETRY_COUNT_CLIENT_EDIT, GetMaxRetryCountClient c); (MAX_CONNECTIONS_EDIT, GetMaxConnections c)].
(** What is set when these fields are stored. *)
Definition stored_flags (c : Configuration) : list bool :=
  [IsSet (dsn c); IsSet (endpoint c); IsSet (region c); IsSet (accessKeyId c); IsSet (secretKey c);
   IsSet (sessionToken c); IsSet (profileName c); IsSet (roleArn c); IsSet (idPUserName c); IsSet (idPPassword c);
   IsSet (idPArn c); IsSet (idPHost c); IsSet (oktaAppId c); IsSet (aadAppId c); IsSet (aadClientSecret c);
   IsSet (aadTenant c); IsSet (connectionTimeout c); IsSet (reqTimeout c); IsSet (maxRetryCountClient c);
   IsSet (maxConnections c); IsSet (authType c)].

Definition shown_path (w : Window) : text := Trim (content w LOG_PATH_EDIT).

(** The settings of [c] are those on the fields, trimmed; a field that is for
    another authentication type counts as empty, and a path that is no directory is
    not taken. *)
Record stores `{Platform} (w : Window) (c : Configuration) : Prop := {
  stores_texts : Forall (fun '(id, v) => v = if serves (authTypeComboBox w) id then Trim (content w id) else [])
    (text_settings [] c);
  stores_numbers : Forall (fun '(id, v) => 0 <= v /\ (0 <= number (Trim (content w id)) ->
    v = number (Trim (content w id)))) (number_settings c);
  stores_connections : 0 < GetMaxConnections c;
  stores_auth : GetAuthType c = authTypeComboBox w;
  stores_level : logLevelComboBox w <> LEVEL_UNKNOWN -> IsSet (logLevel c) = true /\ GetLogLevel c = logLevelComboBox w;
  stores_path : IsValidDirectory (shown_path w) = true -> IsSet (logPath c) = true /\ GetLogPath c = shown_path w;
  stores_flags : Forall (fun b => b = true) (stored_flags c)
}.

(** The fields of a dialog that was just opened hold the settings. *)
Record presents `{Platform} (w : Window) (c : Configuration) : Prop := {
  presents_texts : Forall (fun '(id, v) => content w id = c_str v) (text_settings default_dsn c);
  presents_numbers : Forall (fun '(id, v) => content w id = show_int v) (number_settings c);
  presents_path : content w LOG_PATH_EDIT = c_str (GetLogPath c);
  presents_auth : authTypeComboBox w = GetAuthType c;
  presents_level : logLevelComboBox w = GetLogLevel c;
  presents_tab : tabs w = AUTHENTICATION
}.

Section Facts.
Context `{!Platform} `{!DriverManager}.

(** ** The parts of a window an operation leaves alone *)

Lemma OnAuthTypeChanged_visible w id :
  visible (OnAuthTypeChanged w) id = match auth_of id with Some _ => serves (authTypeComboBox w) id | None => visible w id end.
Proof. unfold OnAuthTypeChanged. destruct (authTypeComboBox w), id; reflexivity. Qed.

Lemma OnAuthTypeChanged_enabled w id :
  enabled (OnAuthTypeChanged w) id =
    match auth_of id with Some _ => if is_label id then enabled w id else serves (authTypeComboBox w) id | None => enabled w id end.
Proof. unfold OnAuthTypeChanged. destruct (authTypeComboBox w), id; reflexivity. Qed.

(** No entry of the list of levels is the number of a level: the field of the path
    is never disabled. *)
Lemma OnLogLevelChanged_eq w : OnLogLevelChanged w = enable_all [LOG_PATH_EDIT; BROWSE_BUTTON] true w.
Proof.
  unfold OnLogLevelChanged. rewrite bool_decide_eq_false_2; [done|].
  destruct (enabled w LOG_LEVEL_COMBO_BOX), (logLevelComboBox w); vm_compute; done.
Qed.

Lemma show_tab_visible t v w id :
  visible (show_tab t v w) id =
    if bool_decide (tab_of id = Some t) then v && serves (authTypeComboBox w) id else visible w id.
Proof.
  destruct t; unfold show_tab.
  - unfold ShowAdvanceAuth. destruct v; [rewrite OnAuthTypeChanged_visible|]; destruct id; reflexivity.
  - destruct id; try reflexivity; by destruct v.
  - destruct id; try reflexivity; by destruct v.
Qed.
Lemma show_tab_enabled t v w id :
  (forall id, enabled w id = usable w id) -> enabled (show_tab t v w) id = enabled w id.
Proof.
  intros He. destruct t; unfold show_tab; [|reflexivity..]. unfold ShowAdvanceAuth. destruct v; [|reflexivity].
  rewrite OnAuthTypeChanged_enabled. change (enabled (show_all _ _ w)) with (enabled w).
  change (authTypeComboBox (show_all _ _ w)) with (authTypeComboBox w). rewrite (He id).
  by destruct id.
Qed.
(** What showing and hiding a tab keeps. *)
Lemma show_tab_rest t v w :
  content (show_tab t v w) = content w /\ authTypeComboBox (show_tab t v w) = authTypeComboBox w /\
  tabs (show_tab t v w) = tabs w /\ created (show_tab t v w) = created w.
Proof. by destruct t, v. Qed.

(** ** Every action keeps it *)

Lemma open_ok v c lg : dialog_ok (open_window v c lg).
Proof.
  unfold open_window, OnCreate, CreateLogSettingsGroup. cbv zeta. rewrite OnLogLevelChanged_eq.
  destruct c as []. by split; [intros id; destruct authType0 as [[] ?], id..| |].
Qed.

(** What [dialog_ok] is about. *)
Lemma ok_same w w' :
  content w' NAME_EDIT = content w NAME_EDIT -> enabled w' = enabled w -> visible w' = visible w ->
  authTypeComboBox w' = authTypeComboBox w -> tabs w' = tabs w -> created w' = created w -> preSel w' = preSel w ->
  dialog_ok w -> dialog_ok w'.
Proof.
  intros E1 E2 E3 E4 E5 E6 E7 [Hv He Ht Hc]. split; [intros id|intros id|congruence..].
  - by rewrite E3, E4, E7, Hv.
  - rewrite E2, He. unfold usable. by rewrite E1, E4.
Qed.

Lemma choose_auth_ok a w :
  preSel w = AUTHENTICATION -> dialog_ok w -> dialog_ok (OnAuthTypeChanged (select_auth a w)).
Proof.
  intros Ep [Hv He Ht Hc]. split; [intros id..| |]; try done.
  - rewrite OnAuthTypeChanged_visible. cbn. rewrite Hv, Ep. unfold shown, serves.
    by destruct id; cbn; rewrite ?Ep.
  - rewrite OnAuthTypeChanged_enabled. cbn. rewrite He. unfold usable, serves. by destruct id.
Qed.

Lemma level_ok l w : dialog_ok w -> dialog_ok (OnLogLevelChanged (select_level l w)).
Proof.
  intros [Hv He Ht Hc]. rewrite OnLogLevelChanged_eq. split; [exact Hv|intros id|done..].
  specialize (He id). by destruct id.
Qed.

Lemma choose_tab_ok t w : dialog_ok w -> dialog_ok (OnSelChanged t (select_tab t w)).
Proof.
  intros [Hv He Ht Hc]. unfold OnSelChanged. cbn [preSel select_tab]. case_bool_decide as Ep.
  - split; try done.
  - pose proof (show_tab_rest (preSel w) false (select_tab t w)) as (F1 & F2 & F4 & F8).
    set (w1 := show_tab (preSel w) false (select_tab t w)) in *.
    pose proof (show_tab_rest t true w1) as (G1 & G2 & G4 & G8).
    assert (He1 : forall id, enabled w1 id = usable w1 id).
    { intros id. unfold w1. rewrite show_tab_enabled by exact He. fold w1.
      unfold usable. rewrite F1, F2. apply He. }
    split; [intros id..| |]; cbn [visible enabled authTypeComboBox preSel tabs created set_preSel set_balloons].
    + rewrite show_tab_visible, G2, F2. unfold w1. rewrite show_tab_visible, <- F2. fold w1. rewrite F2.
      cbn [visible select_tab authTypeComboBox]. rewrite Hv. unfold shown.
      destruct (tab_of id) as [t'|]; [|done]. cbn [bool_decide]. 
      destruct t', t, (preSel w); try done.
    + rewrite show_tab_enabled by done. rewrite He1. unfold usable. cbn. by rewrite G1, G2.
    + by rewrite G4, F4.
    + by rewrite G8, F8.
Qed.
(** ** Accepting *)

Lemma not_negative_spec v d : 0 <= d -> 0 <= not_negative v d /\ (0 <= v -> not_negative v d = v).
Proof. unfold not_negative. intros Hd. destruct (Z.ltb_spec v 0); lia. Qed.

(** What is stored when no error is thrown. *)
Lemma RetrieveLogParameters_stores w cfg lg :
  dialog_ok w ->
  let c := fst (RetrieveLogParameters w cfg lg) in
  (logLevelComboBox w <> LEVEL_UNKNOWN -> IsSet (logLevel c) = true /\ GetLogLevel c = logLevelComboBox w) /\
  (IsValidDirectory (shown_path w) = true -> IsSet (logPath c) = true /\ GetLogPath c = shown_path w) /\
  (GetLogPath c = GetLogPath cfg \/ IsValidDirectory (GetLogPath c) = true).
Proof.
  intros Hok. cbv zeta. unfold RetrieveLogParameters.
  assert (E : TRIM_UTF8 w LOG_PATH_EDIT = shown_path w).
  { unfold TRIM_UTF8, GetText. by rewrite (ok_enabled _ Hok). }
  rewrite E. unfold SetLogLevel, SetLogPath. destruct (decide (logLevelComboBox w = LEVEL_UNKNOWN)) as [El|El].
  - rewrite bool_decide_eq_false_2 by (intros F; by apply F). split; [done|].
    destruct (IsValidDirectory (shown_path w)) eqn:Ev; split; [done|by right|done|by left].
  - rewrite bool_decide_eq_true_2 by done.
    destruct (IsValidDirectory (shown_path w)) eqn:Ev; split_and!; try done; [by right|by left].
Qed.

Lemma RetrieveParameters_log w cfg lg :
  logLevel (fst (fst (RetrieveParameters w cfg lg))) = logLevel (fst (RetrieveLogParameters w cfg lg)) /\
  logPath (fst (fst (RetrieveParameters w cfg lg))) = logPath (fst (RetrieveLogParameters w cfg lg)).
Proof.
  unfold RetrieveParameters. destruct (RetrieveLogParameters w cfg lg) as [c lg1]. cbv beta iota zeta.
  unfold RetrieveConnectionParameters. by destruct (_ <=? 0).
Qed.

Lemma RetrieveParameters_stores w cfg lg c lg' :
  dialog_ok w -> RetrieveParameters w cfg lg = (c, lg', None) -> stores w c.
Proof.
  intros Hok Hr. destruct (RetrieveLogParameters_stores w cfg lg Hok) as (Hl & Hp & _).
  destruct (RetrieveParameters_log w cfg lg) as [E1 E2]. rewrite Hr in E1, E2. cbn [fst] in E1, E2.
  unfold GetLogLevel in Hl. unfold GetLogPath in Hp. rewrite <- E1 in Hl. rewrite <- E2 in Hp. clear E1 E2.
  revert Hr. unfold RetrieveParameters. destruct (RetrieveLogParameters w cfg lg) as [c1 lg1]. cbv beta iota zeta.
  unfold RetrieveConnectionParameters. destruct (Z.leb_spec (number (TRIM_UTF8 w MAX_CONNECTIONS_EDIT)) 0) as [_|Em]; [done|].
  intros [= <- _]. split; [| |exact Em|done|exact Hl|exact Hp|by repeat apply Forall_cons_2; try apply Forall_nil_2].
  - assert (G : forall id, TRIM_UTF8 w id = Trim (if usable w id then content w id else [])).
    { intros id. unfold TRIM_UTF8, GetText. by rewrite (ok_enabled _ Hok). }
    repeat apply Forall_cons_2; try apply Forall_nil_2; unfold GetDsn; cbn -[Trim]; rewrite G; try reflexivity;
      unfold usable, serves; cbn -[Trim]; by case_bool_decide.
  - assert (G : forall id, serves (authTypeComboBox w) id = true -> id <> OK_BUTTON ->
        TRIM_UTF8 w id = Trim (content w id)).
    { intros id Hs Hn. unfold TRIM_UTF8, GetText. rewrite (ok_enabled _ Hok). unfold usable.
      rewrite Hs, orb_true_r. by destruct id. }
    repeat apply Forall_cons_2; try apply Forall_nil_2; cbn -[Trim not_negative number]; rewrite G by done;
      try (by apply not_negative_spec). rewrite G in Em by done. lia.
Qed.

Lemma open_presents v c lg : presents (open_window v c lg) c.
Proof.
  unfold open_window, OnCreate, CreateLogSettingsGroup. cbv zeta. rewrite OnLogLevelChanged_eq.
  split; [..|reflexivity]; try reflexivity; repeat apply Forall_cons_2; try apply Forall_nil_2; reflexivity.
Qed.

(** ** A session *)

(** The log path of the configuration is that of [c0], the one the dialog was
    opened with, or a directory that was put on the field since. *)
Definition path_kept (c0 : Configuration) (w : Window) : Prop :=
  GetLogPath (config w) = GetLogPath c0 \/ IsValidDirectory (GetLogPath (config w)) = true.

Record state_ok (c0 : Configuration) (w : Window) : Prop := {
  state_dialog : dialog_ok w;
  state_accepted : accepted w = true -> closing w = true /\ stores w (config w);
  state_path : path_kept c0 w
}.

Lemma unaccepted_ok c0 w : dialog_ok w -> accepted w <> true -> path_kept c0 w -> state_ok c0 w.
Proof. by split. Qed.

Lemma open_state_ok v c lg : state_ok c (open_window v c lg).
Proof.
  apply unaccepted_ok; [apply open_ok|..]; unfold path_kept, open_window, OnCreate, CreateLogSettingsGroup; cbv zeta;
    rewrite OnLogLevelChanged_eq; [done|by left].
Qed.

(** Why a session fails: the test button with no positive number of connections, or
    the field of that number left empty. *)
Definition failure (actions : list Action) (e : error) : Prop :=
  match e with
  | Exception => exists folder, Press TEST_BUTTON folder ∈ actions
  | Indeterminate => exists t, EditText MAX_CONNECTIONS_EDIT t ∈ actions /\ Trim t = []
  | _ => False
  end.

Lemma press_ok c0 id folder w :
  is_button id = true -> accepted w <> true -> path_kept c0 w -> dialog_ok w ->
  match OnMessage (Command id folder) w with
  | Ok w' => state_ok c0 w'
  | Err e => e = Exception /\ id = TEST_BUTTON
  end.
Proof.
  intros Hb Hna Hpath Hok. destruct id; try discriminate Hb; cbn [OnMessage].
  - destruct folder as [path|]; (apply unaccepted_ok; [by apply (ok_same w)|done..]).
  - unfold TestConnection. destruct (RetrieveParameters _ _ _) as [[c lg] [m|]]; [done|].
    apply unaccepted_ok; [by apply (ok_same w)|done..].
  - assert (Hpath' : path_kept c0 (set_config (fst (fst (RetrieveParameters w (config w) (logger w)))) (logger w) w)).
    { unfold path_kept. cbn [config set_config]. unfold GetLogPath in *.
      rewrite (proj2 (RetrieveParameters_log w (config w) (logger w))).
      destruct (RetrieveLogParameters_stores w (config w) (logger w) Hok) as (_ & _ & [E|E]); [|by right].
      unfold GetLogPath in E. rewrite E. exact Hpath. }
    destruct (RetrieveParameters w (config w) (logger w)) as [[c lg] [m|]] eqn:E;
      (split; [by apply (ok_same w)| |exact Hpath']); [done|].
    intros _. split; [done|]. destruct (RetrieveParameters_stores _ _ _ _ _ Hok E). by split.
  - apply unaccepted_ok; [by apply (ok_same w)|done..].
Qed.

Lemma stream_int_none t s : Get.stream_int t (Trim s) = None -> Trim s = [].
Proof.
  unfold Get.stream_int, Trim. pose proof (Ltrim_head (Rtrim s)) as Hh. rewrite (Ltrim_id (Ltrim (Rtrim s))) by exact Hh.
  destruct (Ltrim (Rtrim s)) as [|c l]; [done|]. by repeat case_match.
Qed.

Lemma edit_ok c0 id t w :
  is_edit id = true -> accepted w <> true -> path_kept c0 w -> dialog_ok w ->
  match (do w <- OnMessage (Command id None) (SetText id t w); OnMessage (Command id None) w) with
  | Ok w' => state_ok c0 w'
  | Err e => e = Indeterminate /\ id = MAX_CONNECTIONS_EDIT /\ Trim t = []
  end.
Proof.
  intros He Hna Hpath Hok. destruct (decide (id = NAME_EDIT)) as [->|Hn].
  - destruct Hok as [Hv Hen Ht Hc]. cbn [OnMessage created SetText res_bind]. rewrite Hc.
    cbn [created set_balloons SetEnabled SetText res_bind]. rewrite Hc.
    apply unaccepted_ok; [|done..]. split; [exact Hv|intros id|done..]. specialize (Hen NAME_EDIT) as Hne. specialize (Hen id).
    destruct id; try exact Hen. unfold HasText. cbn -[Config.empty]. unfold at_child.
    rewrite !(decide_True (P := OK_BUTTON = OK_BUTTON)) by done.
    rewrite !(decide_False (P := NAME_EDIT = OK_BUTTON)) by done. by rewrite Hne.
  - assert (Hok' : dialog_ok (SetText id t w)).
    { apply (ok_same w); try done. cbn. unfold at_child. rewrite decide_False; [done|]. intros E. by apply Hn. }
    destruct (decide (id = MAX_CONNECTIONS_EDIT)) as [->|Hm].
    + assert (E : TRIM_UTF8 (SetText MAX_CONNECTIONS_EDIT t w) MAX_CONNECTIONS_EDIT = Trim t).
      { unfold TRIM_UTF8, GetText. cbn. by rewrite (ok_enabled _ Hok). }
      cbn [OnMessage created SetText]. rewrite (ok_created _ Hok), E.
      destruct (Get.stream_int _ _) as [v|] eqn:Es; [|split; [done|split; [done|by eapply stream_int_none]]].
      cbn [res_bind OnMessage created SetText set_balloons]. rewrite (ok_created _ Hok).
      unfold TRIM_UTF8, GetText in E |- *. cbn in E |- *. rewrite E, Es.
      apply unaccepted_ok; [by apply (ok_same (SetText MAX_CONNECTIONS_EDIT t w))|done..].
    + assert (E : forall w', OnMessage (Command id None) w' = Ok w') by (intros w'; by destruct id).
      rewrite E. cbn [res_bind]. rewrite E. by apply unaccepted_ok.
Qed.

Lemma perform_ok c0 action w :
  state_ok c0 w ->
  match perform action w with Ok w' => state_ok c0 w' | Err e => failure [action] e end.
Proof.
  intros [Hok Hacc Hpath].
  assert (Hav : forall id, available w id = true -> accepted w <> true).
  { intros id Ha E. destruct (Hacc E) as [Hc _]. unfold available in Ha. by rewrite Hc, andb_false_r in Ha. }
  assert (Hid : state_ok c0 w) by done.
  destruct action as [id t|a|l|t|id folder]; cbn [perform].
  - destruct (is_edit id) eqn:He; [|done]. destruct (available w id) eqn:Ha; [|done]. cbn [andb].
    pose proof (edit_ok c0 id t w He (Hav _ Ha) Hpath Hok) as Hr. destruct (res_bind _ _) as [w'|e]; [done|].
    destruct Hr as (-> & -> & Ht). exists t. split; [by left|done].
  - destruct (available w AUTH_TYPE_COMBO_BOX) eqn:Ha; [|done]. pose proof (Hav _ Ha) as Hna.
    apply unaccepted_ok; [|done..]. apply choose_auth_ok; [|done].
    unfold available in Ha. rewrite (ok_visible _ Hok) in Ha. cbn in Ha. by destruct (preSel w).
  - destruct (available w LOG_LEVEL_COMBO_BOX) eqn:Ha; [|done]. case_bool_decide; [|done]. cbn [andb OnMessage].
    apply unaccepted_ok; [by apply level_ok|..]; unfold path_kept; rewrite OnLogLevelChanged_eq; [exact (Hav _ Ha)|exact Hpath].
  - destruct (available w TABS) eqn:Ha; [|done]. cbn [OnMessage tabs select_tab].
    pose proof (Hav _ Ha) as Hna.
    assert (E : forall t v w, accepted (show_tab t v w) = accepted w) by (by intros [] []).
    assert (E' : forall t v w, config (show_tab t v w) = config w) by (by intros [] []).
    apply unaccepted_ok; [by apply choose_tab_ok|..]; unfold path_kept, OnSelChanged; case_bool_decide; try done;
      cbn [accepted config set_preSel set_balloons]; rewrite ?E, ?E'; [exact Hna|exact Hpath].
  - destruct (is_button id) eqn:Hb; [|done]. destruct (available w id) eqn:Ha; [|done]. cbn [andb].
    pose proof (press_ok c0 id folder w Hb (Hav _ Ha) Hpath Hok) as Hr. destruct (OnMessage _ w) as [w'|e]; [done|].
    destruct Hr as [-> ->]. exists folder. by left.
Qed.

Lemma failure_sub l l' e : l ⊆ l' -> failure l e -> failure l' e.
Proof. intros Hs. destruct e; cbn; try done; [intros (x & Hx)|intros (x & Hx & Ht)]; eauto. Qed.

Lemma session_ok c0 actions w :
  state_ok c0 w ->
  match session actions w with Ok w' => state_ok c0 w' | Err e => failure actions e end.
Proof.
  revert w. induction actions as [|action actions IH]; intros w Hw; [done|]. cbn [session].
  pose proof (perform_ok c0 action w Hw) as Hp. destruct (perform action w) as [w'|e]; cbn [res_bind].
  - specialize (IH w' Hp). destruct (session actions w'); [done|]. eapply failure_sub; [|exact IH]. set_solver.
  - eapply failure_sub; [|exact Hp]. set_solver.
Qed.

(** ** Properties of the dialog *)

(** What was read back is on the fields, as what was written is. *)
Lemma stores_read_back w c : stores w c -> stores w (read_back c).
Proof.
  intros [Ht Hn Hm Ha Hl Hp Hf]. destruct c as [].
  assert (Hflags := Hf). unfold stored_flags in Hflags. cbn [Config.dsn Config.endpoint Config.region accessKeyId
    secretKey sessionToken profileName roleArn idPUserName idPPassword idPArn idPHost oktaAppId aadAppId
    aadClientSecret aadTenant connectionTimeout reqTimeout maxRetryCountClient maxConnections authType] in Hflags.
  repeat (apply Forall_cons in Hflags as [? Hflags]). clear Hflags.
  assert (E : exists l p dr u pw mr ct, GetValue ct = GetValue connectionTimeout0 /\ IsSet ct = true /\
    (IsSet logLevel0 = true -> l = logLevel0) /\ (IsSet logPath0 = true -> p = logPath0) /\
    read_back (MkCfg dsn0 driver0 uid0 pwd0 accessKeyId0 secretKey0 sessionToken0 profileName0 reqTimeout0
      connectionTimeout0 maxRetryCountClient0 maxConnections0 endpoint0 region0 authType0 idPHost0 idPUserName0
      idPPassword0 idPArn0 oktaAppId0 roleArn0 aadAppId0 aadClientSecret0 aadTenant0 logLevel0 logPath0 maxRowPerPage0) =
    MkCfg dsn0 dr u pw accessKeyId0 secretKey0 sessionToken0 profileName0 reqTimeout0
      ct maxRetryCountClient0 maxConnections0 endpoint0 region0 authType0 idPHost0 idPUserName0
      idPPassword0 idPArn0 oktaAppId0 roleArn0 aadAppId0 aadClientSecret0 aadTenant0 l p mr).
  { do 7 eexists. split; [|split; [|split; [|split; [|
      unfold read_back, taken; cbn;
      repeat match goal with Hs : IsSet ?x = true |- context [IsSet ?x] => rewrite Hs end; reflexivity]]]];
      [reflexivity|reflexivity|intros Hs; by rewrite Hs..]. }
  destruct E as (l & p & dr & u & pw & mr & ct & Ect & Hct & El & Ep & ->). split; try assumption.
  - unfold number_settings, GetConnectionTimeout in *. cbn in *. by rewrite Ect.
  - intros Hk. destruct (Hl Hk) as [E1 E2]. cbn in *. by rewrite (El E1).
  - intros Hk. destruct (Hp Hk) as [E1 E2]. cbn in *. by rewrite (Ep E1).
  - unfold stored_flags in *. cbn in *. rewrite Hct. rewrite Forall_forall in *. intros b Hb. apply Hf. set_solver.
Qed.


(** ** [ConfigDSN] *)

Context `{!DsnNames} `{HL : InstallerLaws}.

(** The name of the data source, and the settings the dialog is opened with. *)
Definition presented (req : Request) (attributes : text) (ini : Ini) (lg : Logger)
    : Prelude.result (text * Configuration * Logger) :=
  do parser <- Conn.ParseConfigAttributes attributes (Conn.MkParser DefaultConfiguration lg (Some NewStorage));
  let dsn := GetDsn (Conn.cfg parser) default_dsn in
  match req with
  | ODBC_CONFIG_DSN =>
      do loaded <- ReadDsnConfiguration (c_str dsn) ini (Conn.cfg parser) (Conn.logger parser);
      Ok (dsn, fst loaded, snd loaded)
  | _ => Ok (dsn, Conn.cfg parser, Conn.logger parser)
  end.

(** C12. [ConfigDSN] with a dialog that ended without an error, for a data source that is added
    or configured without being renamed, and that succeeds: if the file can hold the configuration
    ([writable]: texts without a character 0 that the installer takes, numbers
    of 32 bits, a level and a directory for the log) the dialog was accepted, and who
    reads the data source then, starting from its name and driver, gets the settings
    that stood on the fields of the dialog, the log path included. *)
Theorem configured_dsn (driverVersion : text) (actions : list Action) (req : Request)
    (driver attributes dsn : text) (ini ini' : Ini) (lg lg0 lg1 : Logger) (c : Configuration) (w : Window)
    (Hp : presented req attributes ini lg = Ok (dsn, c, lg0))
    (Hs : session actions (open_window driverVersion c lg0) = Ok w)
    (Hreq : req = ODBC_ADD_DSN \/ req = ODBC_CONFIG_DSN /\ GetDsn (config w) default_dsn = dsn)
    (Hw : writable (config w))
    (Hc : ConfigDSN driverVersion true actions req driver attributes ini lg = Ok (ini', true)) :
  accepted w = true /\
  exists c', ReadDsnConfiguration (c_str (GetDsn (config w) default_dsn)) ini' (named (config w)) lg1 =
      Ok (c', logger_after (config w) lg1) /\
    c' = read_back (config w) /\ stores w c'.
Proof.
  assert (Hi : accepted w = true /\ InternalRegisterDsn (config w) driver ini = (ini', true)).
  { unfold presented in Hp. unfold ConfigDSN in Hc. destruct (Conn.ParseConfigAttributes _ _) as [p|]; [|done].
    cbn [res_bind] in Hp, Hc. cbv zeta in Hc. destruct (negb (SQLValidDSN _)); [done|].
    destruct Hreq as [->|[-> Hn]].
    - injection Hp as <- <- <-. unfold DisplayConnectionWindow in Hc. cbn [negb] in Hc. rewrite Hs in Hc.
      cbn [res_bind] in Hc. destruct (accepted w); [split; [done|congruence]|done].
    - destruct (ReadDsnConfiguration _ _ _ _) as [loaded|]; [|done]. cbn [res_bind] in Hp, Hc.
      injection Hp as <- <- <-. unfold DisplayConnectionWindow in Hc. cbn [negb] in Hc. rewrite Hs in Hc.
      cbn [res_bind] in Hc. destruct (accepted w); [split; [done|]|done].
      destruct (InternalRegisterDsn _ _ _) as [ini1 [|]]; cbn [negb] in Hc; [|done].
      unfold text_eqb in Hc. rewrite bool_decide_eq_true_2 in Hc by done. cbn [negb] in Hc. congruence. }
  destruct Hi as [Ha Hr]. split; [done|]. exists (read_back (config w)). split_and!; [|done|].
  - apply ReadDsnConfiguration_held; [done|]. unfold InternalRegisterDsn in Hr.
    destruct (RegisterDsn _ _ _) as [[ini1 ok] error] eqn:E. cbn [fst] in Hr. injection Hr as -> ->.
    by eapply RegisterDsn_written.
  - pose proof (session_ok c actions _ (open_state_ok driverVersion c lg0)) as Hst. rewrite Hs in Hst.
    apply stores_read_back. by apply Hst.
Qed.
End Facts.

(** ** Runs *)

Definition no_driver_manager : DriverManager := {| attempt _ := NoEnvironment |}.
Definition short_names : DsnNames := {| SQLValidDSN dsn := Z.of_nat (length dsn) <=? 32 |}.

Definition attributes_of_plant : text := Conn.attribute_block [txt "DSN=Plant"] ++ [zero].

Definition fill_in : list Action :=
  [EditText REGION_EDIT (txt " eu-west-1 "); ChooseAuth IAM; EditText ACCESS_KEY_ID_EDIT (txt "key");
   EditText PROFILE_NAME_EDIT (txt "hidden"); ChooseTab ADVANCED_OPTIONS;
   EditText REQ_TIMEOUT_EDIT (txt "250"); ChooseTab LOG_SETTINGS;
   Press BROWSE_BUTTON (Some (txt "/var/log")); Press OK_BUTTON None].

(** [writable] for the file of runs. *)
Definition writable_b `{Platform} (c : Configuration) : bool :=
  forallb (fun kv => text_eqb (c_str (snd kv)) (snd kv) && (Z.of_nat (length (snd kv)) <? BUFFER_SIZE)
    && negb (text_eqb (snd kv) unique)) (ToMap c []) &&
  forallb (fun p => (- 2 ^ 31 <=? GetValue (snd p)) && (GetValue (snd p) <? 2 ^ 31)) (Round.number_settings c) &&
  Round.level_ok (logLevel c) && (negb (IsSet (logPath c)) || IsValidDirectory (GetValue (logPath c))).

Lemma writable_run `{Platform} c :
  writable_b c = true -> @writable ListInstaller _ ListLaws c.
Proof.
  intros [[[Ht Hn]%andb_true_iff Hl]%andb_true_iff Hp]%andb_true_iff. split; [..|done|].
  - rewrite forallb_forall in Ht. apply Forall_forall. intros kv Hin. apply list_elem_of_In, Ht in Hin.
    apply andb_true_iff in Hin as [[E1%bool_decide_eq_true_1 E2%Z.ltb_lt]%andb_true_iff E3%negb_true_iff].
    by apply bool_decide_eq_false_1 in E3.
  - rewrite forallb_forall in Hn. apply Forall_forall. intros p Hin _. apply list_elem_of_In, Hn in Hin.
    unfold is_i32. lia.
  - intros E. by rewrite E in Hp.
Qed.

Lemma configured_dsn_witness :
  let HI := ListInstaller in let HP := ExamplePlatform in let HD := no_driver_manager in let HN := short_names in
  let lg := MkLogger 0 (txt "/tmp") in
  let open := open_window (txt "1.0") in
  exists ini c0 lg0 w c lg',
    presented ODBC_ADD_DSN attributes_of_plant no_sources lg = Ok (txt "Plant", c0, lg0) /\
    session fill_in (open c0 lg0) = Ok w /\
    ConfigDSN (txt "1.0") true fill_in ODBC_ADD_DSN (txt "drv") attributes_of_plant no_sources lg = Ok (ini, true) /\
    ReadDsnConfiguration (txt "Plant") ini (named (config w)) lg = Ok (c, lg') /\ stores w c /\
    GetRegion c = txt "eu-west-1" /\ GetAuthType c = IAM /\ GetAccessKeyId c = txt "key" /\
    GetProfileName c = [] /\ GetReqTimeout c = 250 /\ GetLogPath c = txt "/var/log".
Proof.
  intros HI HP HD HN lg open.
  assert (Hrun : match presented ODBC_ADD_DSN attributes_of_plant no_sources lg with
    | Ok (dsn, c, lg0) =>
        match session fill_in (open_window (txt "1.0") c lg0),
              ConfigDSN (txt "1.0") true fill_in ODBC_ADD_DSN (txt "drv") attributes_of_plant no_sources lg with
        | Ok w, Ok (_, ok) => let r := read_back (config w) in
            ok && writable_b (config w) &&
            bool_decide ((dsn, GetDsn (config w) default_dsn, GetRegion r, GetAuthType r, GetAccessKeyId r,
              GetProfileName r, GetReqTimeout r, GetLogPath r)
              = (txt "Plant", txt "Plant", txt "eu-west-1", IAM, txt "key", [], 250, txt "/var/log"))
        | _, _ => false
        end
    | Err _ => false
    end = true) by (vm_compute; reflexivity).
  destruct (presented _ _ _ _) as [[[dsn c] lg0]|] eqn:Ep; [|discriminate].
  destruct (session _ _) as [w|] eqn:Es; [|discriminate].
  destruct (ConfigDSN _ _ _ _ _ _ _ _) as [[ini ok]|] eqn:Ec; [|discriminate]. cbv zeta in Hrun.
  apply andb_true_iff in Hrun as [[-> Hw]%andb_true_iff Hg%bool_decide_eq_true_1].
  injection Hg as E0 E1 E2 E3 E4 E5 E6 E7.
  destruct (configured_dsn (txt "1.0") fill_in ODBC_ADD_DSN (txt "drv") attributes_of_plant dsn no_sources ini lg lg0 lg c w
    Ep Es (or_introl eq_refl) (writable_run _ Hw) Ec) as (_ & c' & Hr & -> & Hst).
  rewrite E1 in Hr. exists ini, c, lg0, w, (read_back (config w)). eexists.
  split; [by rewrite E0|]. split; [exact Es|]. split; [reflexivity|]. split; [exact Hr|]. split; [exact Hst|].
  by split_and!.
Defined.
End DialogFacts.
