(* ===== verification/Authentication.v ===== *)
(** * Authentication: credentials through an identity provider

    Models [src/authentication/saml.cpp], [okta.cpp] and [aad.cpp]: the requests to
    Okta and Azure Active Directory, the SAML assertion made of their answers and
    the credentials the token service gives for it. The HTTP client, the token
    service, the JSON, Base64 and URL functions of the AWS SDK and the regular
    expression search are the class [AwsSdk]; [Service] is the state of the outside
    world. *)

From S2P Require Import Prelude Text Memory Diagnostics Encoding Configuration ConnectionString.

Module Auth.
Import Text Memory Config Encoding.
Local Open Scope result_scope.

Definition quote : text := ["034"%char].
Definition quoted (s : text) : text := quote ++ s ++ quote.

(** ** Requests and answers *)

Inductive HttpMethod : Type := HTTP_POST | HTTP_GET.
Record HttpRequest : Type := MkRequest {
  uri : text; method : HttpMethod; headers : list (text * text); query : list (text * text);
  content : option text
}.
(** [response_ok] is a response code of 200. *)
Record HttpResponse : Type := MkResponse {
  response_ok : bool; client_error : option text; response_body : text
}.
Record SamlRequest : Type := MkSaml { saml_role : text; saml_assertion : text; saml_principal : text }.
Record Credentials : Type := MkCredentials { access_key : text; secret_key : text; session_token : text }.
Definition NoCredentials : Credentials := MkCredentials [] [] [].

Class AwsSdk : Type := {
  Service : Type;
  MakeRequest : HttpRequest -> Service -> HttpResponse * Service;
  AssumeRoleWithSAML : SamlRequest -> Service -> (Credentials + text * text) * Service;
  Json : Type;
  JsonParse : text -> Json + text;
  ValueExists : Json -> text -> bool;
  GetString : Json -> text -> text;
  WriteReadable : list (text * text) -> text;
  URLEncodePath : text -> text;
  Base64Decode : text -> text;
  Base64Encode : text -> text;
  regex_search : text -> text -> option text
}.

Section Auth.
Context `{AwsSdk}.

(** What a call leaves: the world, a text and the error message. *)
Definition answer : Type := Service * (text * text).

Definition json_headers : list (text * text) :=
  [(txt "accept", txt "application/json"); (txt "content-type", txt "application/json")].
Definition length_header (body : text) : text * text :=
  (txt "content-length", show_u64 (Z.of_nat (length body))).

(** The end of both requests: the member of the JSON object in the answer. *)
Definition extract (member parse_error missing : text) (errInfo : text) (body : text) : text * text :=
  match JsonParse body with
  | inr message => ([], parse_error ++ message)
  | inl json => if ValueExists json member then (GetString json member, errInfo) else ([], missing)
  end.

Definition refused (message info : text) (response : HttpResponse) : text :=
  match client_error response with
  | Some e => message ++ info ++ e ++ txt "'."
  | None => message
  end.

(** ** Okta *)

Definition CreateSessionTokenReq (config : Configuration) : HttpRequest :=
  let body := WriteReadable [(txt "username", GetDSNUserName config); (txt "password", GetDSNPassword config)] in
  MkRequest (txt "https://" ++ GetIdPHost config ++ txt "/api/v1/authn") HTTP_POST
    (json_headers ++ [length_header body]) [] (Some body).

Definition GetSessionToken (config : Configuration) (errInfo : text) (w : Service) : answer :=
  let '(response, w) := MakeRequest (CreateSessionTokenReq config) w in
  if negb (response_ok response) then
    (w, ([], refused (txt "Failed to get Okta session token.") (txt " Error info: '") response))
  else
    (w, extract (txt "sessionToken") (txt "Error parsing response body. ")
          (txt "No session token in the Okta response body") errInfo (response_body response)).

(** [std::stoi] of base 16 with the exceptions caught: white space, a sign and a
    prefix are skipped; 0 without digits and out of range. *)
Definition hex_digit (c : ascii) : option Z :=
  let n := code c in
  if (48 <=? n) && (n <=? 57) then Some (n - 48)
  else if (97 <=? n) && (n <=? 102) then Some (n - 87)
  else if (65 <=? n) && (n <=? 70) then Some (n - 55)
  else None.

Fixpoint hex_val (acc : Z) (s : text) : Z :=
  match s with
  | c :: s' => match hex_digit c with Some d => hex_val (16 * acc + d) s' | None => acc end
  | [] => acc
  end.

Definition StringToHex (s : text) : Z :=
  let s := Ltrim s in
  let '(neg, s) :=
    match s with
    | c :: s' => if code c =? 45 then (true, s') else if code c =? 43 then (false, s') else (false, s)
    | [] => (false, s)
    end in
  let s := match s with
           | z :: x :: d :: s' =>
               if (code z =? 48) && ((code x =? 120) || (code x =? 88)) && bool_decide (is_Some (hex_digit d))
               then d :: s' else s
           | _ => s
           end in
  let v := if neg : bool then - hex_val 0 s else hex_val 0 s in
  if (-2147483648 <=? v) && (v <=? 2147483647) then v else 0.

Abbreviation SINGLE_NUM_CHAR_REF_LENGTH := 6 (only parsing).
Definition reference_start : text := txt "&#x".

(** The loop, on the rest of the text: a reference is six characters long. The
    test reads the sixth, which may be the terminator but not what follows it. *)
Fixpoint decode (fuel : nat) (s : text) : result text :=
  match fuel, s with
  | O, _ => Err OutOfFuel
  | S _, [] => Ok []
  | S f, c :: s' =>
      if text_eqb (take 3 s) reference_start then
        if (length s <? 5)%nat then Err OutOfBounds
        else if bool_decide (s !! 5%nat = Some ";"%char) then
          do r <- decode f (drop 6 s);
          Ok (char_of (StringToHex (take 2 (drop 3 s)) mod 256) :: r)
        else do r <- decode f s'; Ok (c :: r)
      else do r <- decode f s'; Ok (c :: r)
  end.

Definition DecodeNumericCharacters (htmlString : text) : result text :=
  if Z.of_nat (length htmlString) <? SINGLE_NUM_CHAR_REF_LENGTH then Ok htmlString
  else decode (S (length htmlString)) htmlString.

Definition SAML_RESPONSE_PATTERN : text :=
  txt "<input name=" ++ quoted (txt "SAMLResponse") ++ txt " type=" ++ quoted (txt "hidden") ++
  txt " value=" ++ quoted (txt "(.*?)") ++ txt "/>".

Definition okta_assertion (config : Configuration) (errInfo : text) (w : Service) : result answer :=
  let '(w, (sessionToken, errInfo)) := GetSessionToken config errInfo w in
  if empty sessionToken then Ok (w, ([], errInfo))
  else
    let baseUri := txt "https://" ++ GetIdPHost config ++ txt "/app/amazon_aws/" ++ GetOktaAppId config
                   ++ txt "/sso/saml" in
    let '(response, w) :=
      MakeRequest (MkRequest baseUri HTTP_GET [] [(txt "onetimetoken", sessionToken)] None) w in
    if negb (response_ok response) then
      Ok (w, ([], refused (txt "Failed to get SAML asseration.") (txt " Client error: '") response))
    else
      match regex_search SAML_RESPONSE_PATTERN (response_body response) with
      | Some m => do samlResponse <- DecodeNumericCharacters m; Ok (w, (samlResponse, errInfo))
      | None => Ok (w, ([], txt "Could not extract SAMLResponse from the Okta response body"))
      end.

(** ** Azure Active Directory *)

Definition COLON : text := txt "%3A".

Definition access_token_body (config : Configuration) : text :=
  txt "grant_type=password&requested_token_type=urn" ++ COLON ++ txt "ietf" ++ COLON ++ txt "params" ++
  COLON ++ txt "oauth" ++ COLON ++ txt "token-type" ++ COLON ++ txt "saml2&username=" ++
  URLEncodePath (GetDSNUserName config) ++ txt "&password=" ++ URLEncodePath (GetDSNPassword config) ++
  txt "&client_secret=" ++ URLEncodePath (GetAADClientSecret config) ++
  txt "&client_id=" ++ URLEncodePath (GetAADAppId config) ++
  txt "&resource=" ++ URLEncodePath (GetAADAppId config).

Definition GetAccessToken (config : Configuration) (errInfo : text) (w : Service) : answer :=
  let body := access_token_body config in
  let req := MkRequest (txt "https://login.microsoftonline.com/" ++ GetAADTenant config ++ txt "/oauth2/token")
    HTTP_POST
    [(txt "accept", txt "application/json"); (txt "content-type", txt "application/x-www-form-urlencoded");
     length_header body] [] (Some body) in
  let '(res, w) := MakeRequest req w in
  if negb (response_ok res) then
    (w, ([], refused (txt "Request to Azure Active Directory for access token failed.")
               (txt " Client error: '") res))
  else
    (w, extract (txt "access_token") (txt "Error parsing response body: ")
          (txt "Unable to extract the access token from the Azure AD response body.") errInfo
          (response_body res)).

(** Padding to a multiple of four characters. *)
Definition padded (token : text) : text :=
  match Z.of_nat (length token) mod 4 with
  | 1 => token ++ txt "==="
  | 2 => token ++ txt "=="
  | 3 => token ++ txt "="
  | _ => token
  end.

Definition saml_response (decoded : text) : text :=
  txt "<samlp:Response xmlns:samlp=" ++ quoted (txt "urn:oasis:names:tc:SAML:2.0:protocol") ++
  txt "><samlp:Status><samlp:StatusCode Value=" ++
  quoted (txt "urn:oasis:names:tc:SAML:2.0:status:Success") ++ txt "/></samlp:Status>" ++
  decoded ++ txt "</samlp:Response>".

Definition aad_assertion (config : Configuration) (errInfo : text) (w : Service) : result answer :=
  let '(w, (accessToken, errInfo)) := GetAccessToken config errInfo w in
  if empty accessToken then Ok (w, (accessToken, errInfo))
  else Ok (w, (Base64Encode (saml_response (Base64Decode (padded accessToken))), errInfo)).

(** ** Either of them *)

Inductive SamlProvider : Type := OktaProvider | AADProvider.

(** The virtual method. *)
Definition GetSAMLAssertion (p : SamlProvider) : Configuration -> text -> Service -> result answer :=
  match p with OktaProvider => okta_assertion | AADProvider => aad_assertion end.

Definition FetchCredentialsWithSAMLAssertion (request : SamlRequest) (awsCredentials : Credentials)
    (errInfo : text) (w : Service) : Service * (bool * Credentials * text) :=
  let '(outcome, w) := AssumeRoleWithSAML request w in
  match outcome with
  | inl credentials => (w, (true, credentials, errInfo))
  | inr (name, message) =>
      (w, (false, awsCredentials, txt "Failed to fetch credentials, ERROR: " ++ name ++ txt ": " ++ message))
  end.

Definition GetAWSCredentials (p : SamlProvider) (config : Configuration) (credentials : Credentials)
    (errInfo : text) (w : Service) : result (Service * (bool * Credentials * text)) :=
  do found <- GetSAMLAssertion p config errInfo w;
  let '(w, (assertion, errInfo)) := found in
  if empty assertion then Ok (w, (false, credentials, errInfo))
  else
    Ok (FetchCredentialsWithSAMLAssertion
          (MkSaml (c_str (GetRoleArn config)) assertion (c_str (GetIdPArn config))) credentials errInfo w).
End Auth.

(** ** The references are decoded *)

(** A character as the identity provider writes it. *)
Definition hex_char (d : Z) : ascii := char_of (if d <? 10 then 48 + d else 87 + d).
Definition reference (c : ascii) : text :=
  reference_start ++ [hex_char (code c / 16); hex_char (code c mod 16); ";"%char].
Definition encode (keep : ascii -> bool) (s : text) : text :=
  concat (map (fun c => if keep c then [c] else reference c) s).

Lemma hex_reference c : char_of (StringToHex [hex_char (code c / 16); hex_char (code c mod 16)] mod 256) = c.
Proof. destruct c as [[] [] [] [] [] [] [] []]; vm_compute; reflexivity. Qed.

Lemma decode_reference f c r :
  decode (S f) (reference c ++ r) = res_bind (decode f r) (fun s => Ok (c :: s)).
Proof.
  transitivity (res_bind (decode f r)
    (fun s => Ok (char_of (StringToHex [hex_char (code c / 16); hex_char (code c mod 16)] mod 256) :: s)));
    [reflexivity|by rewrite hex_reference].
Qed.

Lemma decode_kept f c r :
  c <> "&"%char -> decode (S f) (c :: r) = res_bind (decode f r) (fun s => Ok (c :: s)).
Proof.
  intros Hc. cbn [decode]. destruct (text_eqb _ _) eqn:E; [|done].
  apply bool_decide_eq_true_1 in E. destruct r as [|x [|y r]]; try done. by injection E as -> _ _.
Qed.

Lemma decode_encode keep s fuel :
  keep "&"%char = false -> (length (encode keep s) < fuel)%nat -> decode fuel (encode keep s) = Ok s.
Proof.
  intros Hk. revert fuel. induction s as [|c s IH]; intros [|f] Hf; try (cbn in Hf; lia); [done|].
  unfold encode in *. cbn [map concat] in *. rewrite length_app in Hf. destruct (keep c) eqn:E.
  - cbn [app length] in *. rewrite decode_kept by (intros ->; congruence). by rewrite IH by lia.
  - change (length (reference c)) with 6%nat in Hf. rewrite decode_reference. by rewrite IH by lia.
Qed.

Lemma encode_short keep s :
  Z.of_nat (length (encode keep s)) < 6 -> encode keep s = s.
Proof.
  unfold encode. induction s as [|c s IH]; [done|]. cbn [map concat]. rewrite length_app.
  destruct (keep c); cbn [app length]; intros Hl; [f_equal; apply IH; lia|].
  change (length (reference c)) with 6%nat in Hl. lia.
Qed.
End Auth.

(** The decoder of the SAML response gives back every text whose characters
    the identity provider may have replaced by numeric references, as long as the
    ampersands are. *)
Theorem DecodeNumericCharacters_encoded (keep : ascii -> bool) (s : Text.text)
    (Hk : keep "&"%char = false) :
  Auth.DecodeNumericCharacters (Auth.encode keep s) = Ok s.
Proof.
  unfold Auth.DecodeNumericCharacters. destruct (Z.ltb_spec (Z.of_nat (length (Auth.encode keep s))) 6).
  - by rewrite Auth.encode_short.
  - apply Auth.decode_encode; [done|lia].
Qed.

(** The plus sign of a Base64 text, and a text that ends within a reference, where
    the sixth character is read beyond the terminator. *)
Lemma DecodeNumericCharacters_witness :
  let keep c := negb (Text.text_eqb [c] (Text.txt "&")) && negb (Text.text_eqb [c] (Text.txt "+")) in
  Auth.encode keep (Text.txt "PD94&bWw+") = Text.txt "PD94&#x26;bWw&#x2b;" /\
  Auth.DecodeNumericCharacters (Text.txt "PD94&#x26;bWw&#x2b;") = Ok (Text.txt "PD94&bWw+") /\
  Auth.DecodeNumericCharacters (Text.txt "PD94&#x2") = Err OutOfBounds.
Proof.
  intros keep. split_and!; [reflexivity| |reflexivity].
  by apply (DecodeNumericCharacters_encoded keep (Text.txt "PD94&bWw+")).
Defined.
