(* ===== verification/Interleave.v ===== *)
(** * Interleave: a thread that waits for others

    The main thread of a component is a program of atomic actions on the shared
    state; an action that is not enabled blocks. Between any two actions the
    other threads, given as a function [tick] of the state, may take any number
    of steps. [run] is the relation of a run under some schedule; [total] says
    that every schedule ends, without a deadlock, in a state that satisfies a
    postcondition. *)

From S2P Require Import Prelude.

Section Programs.
(** States, and names of the other threads. *)
Context {St Th : Type}.

(** [Atomic f]: [f s = None] while the action is not enabled in [s]. *)
Inductive main (A : Type) : Type :=
  | Ret (a : A)
  | Throw (e : error)
  | Atomic (f : St -> option (St * main A)).
Arguments Ret {A} a.
Arguments Throw {A} e.
Arguments Atomic {A} f.

Fixpoint bind {A B} (m : main A) (k : A -> main B) : main B :=
  match m with
  | Ret a => k a
  | Throw e => Throw e
  | Atomic f =>
      Atomic (fun s => match f s with Some (s', m') => Some (s', bind m' k) | None => None end)
  end.

(** A step of the main thread alone, a read of the state, a blocking action. *)
Definition act (f : St -> St) : main unit := Atomic (fun s => Some (f s, Ret tt)).
Definition ask {A} (g : St -> A) : main A := Atomic (fun s => Some (s, Ret (g s))).
Definition wait {A} (g : St -> option (St * A)) : main A :=
  Atomic (fun s => match g s with Some (s', a) => Some (s', Ret a) | None => None end).

(** A step that may fail. *)
Definition call {A} (f : St -> result (St * A)) : main A :=
  Atomic (fun s => match f s with Ok (s', a) => Some (s', Ret a) | Err e => Some (s, Throw e) end).

(** The step the thread [i] can take. *)
Variable tick : Th -> St -> option St.

Inductive run {A} : main A -> St -> A -> St -> Prop :=
  | run_ret a s : run (Ret a) s a s
  | run_tick i m s s1 a s' : tick i s = Some s1 -> run m s1 a s' -> run m s a s'
  | run_atomic f s s1 m a s' : f s = Some (s1, m) -> run m s1 a s' -> run (Atomic f) s a s'.

(** Every schedule of [m] from [s] ends in [Q]. *)
Inductive total {A} (Q : A -> St -> Prop) : main A -> St -> Prop :=
  | total_ret a s : Q a s -> total Q (Ret a) s
  | total_step f s :
      (exists s1 m, f s = Some (s1, m)) \/ (exists i s1, tick i s = Some s1) ->
      (forall i s1, tick i s = Some s1 -> total Q (Atomic f) s1) ->
      (forall s1 m, f s = Some (s1, m) -> total Q m s1) ->
      total Q (Atomic f) s.

(** A schedule: the threads that take a step before each action of the main
    thread; one that cannot is skipped. *)
Fixpoint ticks (l : list Th) (s : St) : St :=
  match l with
  | [] => s
  | i :: l' => match tick i s with Some s' => ticks l' s' | None => ticks l' s end
  end.

Fixpoint play {A} (schedule : list (list Th)) (m : main A) (s : St) : option (A * St) :=
  match schedule with
  | [] => match m with Ret a => Some (a, s) | _ => None end
  | l :: schedule' =>
      match m with
      | Ret a => Some (a, s)
      | Throw _ => None
      | Atomic f =>
          match f (ticks l s) with
          | Some (s', m') => play schedule' m' s'
          | None => None
          end
      end
  end.

Lemma run_ticks {A} l (m : main A) s a s' : run m (ticks l s) a s' -> run m s a s'.
Proof.
  revert s. induction l as [|i l IH]; intros s; [done|]. cbn.
  destruct (tick i s) eqn:E; [|by apply IH]. intros Hr. eapply run_tick; eauto.
Qed.

Lemma play_run {A} schedule (m : main A) s a s' :
  play schedule m s = Some (a, s') -> run m s a s'.
Proof.
  revert m s. induction schedule as [|l sch IH]; intros [b|e|f] s; cbn; try discriminate.
  - intros [= -> ->]. constructor.
  - intros [= -> ->]. constructor.
  - destruct (f (ticks l s)) as [[s1 m']|] eqn:E; [|discriminate]. intros Hp.
    apply (run_ticks l). eapply run_atomic; eauto.
Qed.

(** A schedule that is played to its end shows that a run with the result exists. *)
Lemma play_shows {A} schedule (m : main A) s a :
  option_map fst (play schedule m s) = Some a -> exists s', run m s a s'.
Proof.
  destruct (play schedule m s) as [[b s']|] eqn:E; intros [= <-]. exists s'. by eapply play_run.
Qed.

(** ** Rules for [total] *)

Lemma total_mono {A} (Q R : A -> St -> Prop) m s :
  (forall a s', Q a s' -> R a s') -> total Q m s -> total R m s.
Proof. intros HQ. induction 1; constructor; auto. Qed.

Lemma total_bind {A B} (Q : B -> St -> Prop) (m : main A) (k : A -> main B) s :
  total (fun a s' => total Q (k a) s') m s -> total Q (bind m k) s.
Proof.
  induction 1 as [a s HQ|f s Hen _ IHt _ IHm]; cbn [bind]; [done|]. constructor.
  - destruct Hen as [(s1 & m & E)|Ht]; [left|by right]. rewrite E. eauto.
  - exact IHt.
  - intros s1 m' E. destruct (f s) as [[s2 m2]|] eqn:Ef; [|discriminate].
    injection E as <- <-. by apply IHm.
Qed.

(** What [total] promises for every single run. *)
Lemma total_run {A} (Q : A -> St -> Prop) m s a s' :
  (forall b s0 i s1, Q b s0 -> tick i s0 = Some s1 -> Q b s1) ->
  total Q m s -> run m s a s' -> Q a s'.
Proof.
  intros HQ Ht Hr. revert Ht. induction Hr as [a s|i m s s1 a s' E Hr IH|f s s1 m a s' E Hr IH].
  - inversion 1; by subst.
  - intros Ht. apply IH. inversion Ht; subst; [|eauto]. constructor. eauto.
  - inversion 1; subst. eauto.
Qed.

(** The other threads take finitely many steps. *)
Variable pending : St -> nat.
Hypothesis tick_pending : forall i s s', tick i s = Some s' -> (pending s' < pending s)%nat.

(** An action under an invariant the other threads keep: enabled at once, or
    after some of their steps. *)
Lemma total_atomic {A} (Q : A -> St -> Prop) (I : St -> Prop) f s :
  I s ->
  (forall s0 i s1, I s0 -> tick i s0 = Some s1 -> I s1) ->
  (forall s0, I s0 -> f s0 = None -> exists i s1, tick i s0 = Some s1) ->
  (forall s0 s1 m, I s0 -> f s0 = Some (s1, m) -> total Q m s1) ->
  total Q (Atomic f) s.
Proof.
  intros HI Hstep Hen Hk. remember (pending s) as n eqn:En.
  assert (Hn : (pending s <= n)%nat) by lia. clear En. revert s HI Hn.
  induction n as [|n IH]; intros s HI Hn; constructor.
  - destruct (f s) as [[s1 m]|] eqn:E; [left|right]; eauto.
  - intros i s1 Ht. apply tick_pending in Ht. lia.
  - eauto.
  - destruct (f s) as [[s1 m]|] eqn:E; [left|right]; eauto.
  - intros i s1 Ht. apply IH; [eauto|]. apply tick_pending in Ht. lia.
  - eauto.
Qed.

Lemma total_act {A} (Q : A -> St -> Prop) (I : St -> Prop) f k s :
  I s ->
  (forall s0 i s1, I s0 -> tick i s0 = Some s1 -> I s1) ->
  (forall s0, I s0 -> total Q (k tt) (f s0)) ->
  total Q (bind (act f) k) s.
Proof.
  intros HI Hstep Hk. unfold act. cbn [bind]. apply (total_atomic Q I); try done.
  intros s0 s1 m H0 [= <- <-]. by apply Hk.
Qed.

Lemma total_ask {A B} (Q : B -> St -> Prop) (I : St -> Prop) (g : St -> A) k s :
  I s ->
  (forall s0 i s1, I s0 -> tick i s0 = Some s1 -> I s1) ->
  (forall s0, I s0 -> total Q (k (g s0)) s0) ->
  total Q (bind (ask g) k) s.
Proof.
  intros HI Hstep Hk. unfold ask. cbn [bind]. apply (total_atomic Q I); try done.
  intros s0 s1 m H0 [= <- <-]. by apply Hk.
Qed.

Lemma total_wait {A B} (Q : B -> St -> Prop) (I : St -> Prop) (g : St -> option (St * A)) k s :
  I s ->
  (forall s0 i s1, I s0 -> tick i s0 = Some s1 -> I s1) ->
  (forall s0, I s0 -> g s0 = None -> exists i s1, tick i s0 = Some s1) ->
  (forall s0 s1 a, I s0 -> g s0 = Some (s1, a) -> total Q (k a) s1) ->
  total Q (bind (wait g) k) s.
Proof.
  intros HI Hstep Hen Hk. unfold wait. cbn [bind]. apply (total_atomic Q I); try done.
  - intros s0 H0 E. apply Hen; [done|]. by destruct (g s0) as [[s1 a]|].
  - intros s0 s1 m H0 E. destruct (g s0) as [[s2 a]|] eqn:Eg; [|discriminate].
    injection E as <- <-. cbn. eauto.
Qed.

(** No run of a program whose first action is never enabled. *)
Lemma run_blocked {A} (I : St -> Prop) f s (a : A) s' :
  I s ->
  (forall s0 i s1, I s0 -> tick i s0 = Some s1 -> I s1) ->
  (forall s0, I s0 -> f s0 = None) ->
  ~ run (Atomic f) s a s'.
Proof.
  intros HI Hstep Hf Hr. remember (Atomic f) as m eqn:Em.
  induction Hr as [| |]; subst; try discriminate; [eauto|].
  injection Em as ->. rewrite Hf in H by done. discriminate.
Qed.
End Programs.

Arguments main St A : clear implicits.
Arguments Ret {St A} a.
Arguments Throw {St A} e.
Arguments Atomic {St A} f.

Declare Scope main_scope.
Delimit Scope main_scope with main.
Notation "'let!' x := m 'in' k" := (bind m (fun x => k))
  (at level 10, x pattern, m at level 100, k at level 200) : main_scope.
Notation "m ;; k" := (bind m (fun _ => k)) : main_scope.

(** ** A component inside a larger state

    A program on a part of the state runs in the whole: [get] reads the part,
    if it is there, and [put] writes it back. *)
Section Zoom.
Context {St Q Th : Type} (get : St -> option Q) (put : Q -> St -> St).

Fixpoint zoom {A} (m : main Q A) : main St A :=
  match m with
  | Ret a => Ret a
  | Throw e => Throw e
  | Atomic f =>
      Atomic (fun s =>
        match get s with
        | None => Some (s, Throw OutOfBounds)
        | Some q =>
            match f q with
            | Some (q', m') => Some (put q' s, zoom m')
            | None => None
            end
        end)
  end.

(** The threads of the whole either are those of the part, or leave the part
    alone and take finitely many steps. *)
Variable tick_part : nat -> Q -> option Q.
Variable tick : Th -> St -> option St.
Variable others : St -> nat.

Class zoomable : Prop := {
  get_put q q' s : get s = Some q -> get (put q' s) = Some q';
  tick_inside q s i q' :
    get s = Some q -> tick_part i q = Some q' -> exists t, tick t s = Some (put q' s);
  tick_cases q s t s' :
    get s = Some q -> tick t s = Some s' ->
    (exists i q', tick_part i q = Some q' /\ s' = put q' s) \/
    (get s' = Some q /\ (others s' < others s)%nat)
}.

(** What every schedule of the part promises holds in the whole, together with
    an invariant [J] that speaks of the rest. *)
Lemma zoom_total {A} (P : A -> Q -> Prop) (J : St -> Prop) m s q :
  zoomable -> J s ->
  (forall q' s0, J s0 -> J (put q' s0)) -> (forall t s0 s1, J s0 -> tick t s0 = Some s1 -> J s1) ->
  get s = Some q -> total tick_part P m q ->
  total tick (fun a s' => J s' /\ exists q', get s' = Some q' /\ P a q') (zoom m) s.
Proof.
  intros Hz HJ Hput Htick Hg Ht. revert s Hg HJ.
  induction Ht as [a q HP|f q Hen _ IHt _ IHm]; intros s Hg HJ; cbn [zoom].
  { constructor. eauto. }
  remember (others s) as n eqn:En. assert (Hn : (others s <= n)%nat) by lia. clear En.
  revert s Hg HJ Hn. induction n as [|n IHn]; intros s Hg HJ Hn; constructor; rewrite ?Hg.
  1, 4: destruct Hen as [(q1 & m1 & ->)|(i & q1 & Hi)]; [left; eauto|right];
    destruct (tick_inside q s i q1 Hg Hi); eauto.
  1, 3: intros t s1 Hs; destruct (tick_cases q s t s1 Hg Hs) as [(i & q' & Hi & ->)|[Hg' Ho]];
    [by eapply IHt; eauto using get_put|lia || (apply IHn; [done|eauto|lia])].
  all: intros s1 m1 E; destruct (f q) as [[q1 m2]|] eqn:Ef; [|discriminate];
    injection E as <- <-; eapply IHm; eauto using get_put.
Qed.
End Zoom.
