(* ===== verification/Pool.v ===== *)
(** * Pool: threads that run the same code

    A pool is a list of programs of atomic actions ([Interleave]) on one shared
    state; any of them may take the next step. [ends] says that every schedule
    ends, without a deadlock and without an exception, in a state that satisfies a
    postcondition. [alone] runs a single program. *)

From S2P Require Import Prelude Interleave.

Module Pool.

Section Pool.
Context {St A : Type}.
Implicit Types (ms : list (main St A)) (s : St).

(** One step of a thread. *)
Definition next (m : main St A) (s : St) : option (St * main St A) :=
  match m with Atomic f => f s | _ => None end.

Definition pool_step (i : nat) (ps : list (main St A) * St) : option (list (main St A) * St) :=
  match fst ps !! i with
  | Some m => match next m (snd ps) with Some (s, m) => Some (<[i := m]> (fst ps), s) | None => None end
  | None => None
  end.

(** A schedule; a thread that cannot take its step is passed over. *)
Fixpoint play_pool (schedule : list nat) (ps : list (main St A) * St) : list (main St A) * St :=
  match schedule with
  | [] => ps
  | i :: js => play_pool js (match pool_step i ps with Some ps => ps | None => ps end)
  end.

Inductive ends (P : list A -> St -> Prop) : list (main St A) * St -> Prop :=
  | ends_done xs s : P xs s -> ends P (map Ret xs, s)
  | ends_step ps :
      (exists i ps', pool_step i ps = Some ps') ->
      (forall i ps', pool_step i ps = Some ps' -> ends P ps') ->
      ends P ps.

Lemma ends_mono (P Q : list A -> St -> Prop) ps : (forall xs s, P xs s -> Q xs s) -> ends P ps -> ends Q ps.
Proof. intros HPQ. induction 1; [by apply ends_done, HPQ|by apply ends_step]. Qed.

(** The states a pool may reach. *)
Inductive reaches : list (main St A) * St -> list (main St A) * St -> Prop :=
  | reaches_refl ps : reaches ps ps
  | reaches_step ps i ps1 ps2 : pool_step i ps = Some ps1 -> reaches ps1 ps2 -> reaches ps ps2.

Lemma play_reaches schedule ps : reaches ps (play_pool schedule ps).
Proof.
  revert ps. induction schedule as [|i js IH]; intros ps; [constructor|]. cbn [play_pool].
  destruct (pool_step i ps) as [ps1|] eqn:E; [|done]. by eapply reaches_step.
Qed.
End Pool.

(** ** A thread alone *)

Section Alone.
Context {St : Type}.

(** [None] is a deadlock. *)
Fixpoint alone {A} (m : main St A) (s : St) : option (St * result A) :=
  match m with
  | Ret a => Some (s, Ok a)
  | Throw e => Some (s, Err e)
  | Atomic f => match f s with Some (s, m) => alone m s | None => None end
  end.

Lemma alone_bind {A B} (m : main St A) (k : A -> main St B) s :
  alone (bind m k) s =
  match alone m s with
  | Some (s, Ok a) => alone (k a) s
  | Some (s, Err e) => Some (s, Err e)
  | None => None
  end.
Proof.
  revert m s. fix IH 1. intros [a|e|f] s; cbn [bind alone]; [done..|].
  destruct (f s) as [[s1 m1]|]; [apply IH|done].
Qed.
End Alone.

(** ** Interleavings *)

Inductive interleaves {W : Type} : list (list W) -> list W -> Prop :=
  | interleaves_nil os : Forall (eq []) os -> interleaves os []
  | interleaves_cons os i x o w : os !! i = Some (x :: o) -> interleaves (<[i := o]> os) w -> interleaves os (x :: w).

Lemma interleaves_app {W} (os : list (list W)) i x o w :
  os !! i = Some (x ++ o) -> interleaves (<[i := o]> os) w -> interleaves os (x ++ w).
Proof.
  revert os. induction x as [|y x IH]; intros os Hi Hw; cbn [app] in *; [by rewrite list_insert_id in Hw|].
  eapply interleaves_cons; [exact Hi|]. apply IH; [|by rewrite list_insert_insert_eq].
  apply list_lookup_insert_eq. by eapply lookup_lt_Some.
Qed.

(** ** Threads around one critical section *)

(** Every thread has a ghost that says whether it is in the critical section and
    what it knows of the state; a thread emits words, and knowledge is stable under
    the steps of the others. *)
Section Protocol.
Context {St G W A : Type}.
Context (lock : St -> bool) (I : St -> Prop) (emits : St -> list W -> St -> Prop).
Context (holder : G -> bool) (knows : G -> St -> Prop).

Definition lock_step (g g' : G) (s s' : St) : Prop :=
  (holder g' = holder g /\ lock s' = lock s) \/
  (holder g = false /\ holder g' = true /\ lock s = false /\ lock s' = true) \/
  (holder g = true /\ holder g' = false /\ lock s' = false).

(** What a step of a thread with ghost [g] may do. *)
Definition allowed (g g' : G) (s s' : St) (out : list W) : Prop :=
  I s' /\ knows g' s' /\ lock_step g g' s s' /\ emits s out s' /\
  (forall g2, knows g2 s -> (holder g = true -> holder g2 = false) -> knows g2 s').

(** At most [n] steps, which emit [o]. *)
Fixpoint proto {B} (n : nat) (m : main St B) (g : G) (o : list W) (Q : B -> G -> list W -> Prop) : Prop :=
  match m with
  | Ret a => Q a g o
  | Throw _ => False
  | Atomic f =>
      match n with
      | O => False
      | S n =>
          forall s, I s -> (holder g = true -> lock s = true) -> knows g s ->
            match f s with
            | None => holder g = false /\ lock s = true
            | Some (s', m') => exists out o' g', o = out ++ o' /\ allowed g g' s s' out /\ proto n m' g' o' Q
            end
      end
  end.

Lemma proto_mono {B} n n' (m : main St B) g o (Q R : B -> G -> list W -> Prop) :
  (n <= n')%nat -> (forall a g o, Q a g o -> R a g o) -> proto n m g o Q -> proto n' m g o R.
Proof.
  intros Hn HQ. revert n' m g o Hn. induction n as [|n IH]; intros n' [a|e|f] g o Hn Hm; try done;
    try (by destruct n'; apply HQ).
  destruct n' as [|n']; [lia|]. cbn [proto]. intros s HI Hh Hk. specialize (Hm s HI Hh Hk).
  destruct (f s) as [[s' m']|]; [|done]. destruct Hm as (out & o' & g' & E & Ha & Hm).
  exists out, o', g'. split_and!; try done. apply IH; [lia|done].
Qed.

Lemma proto_bind {B C} n1 n2 (m : main St B) (k : B -> main St C) g o Q :
  proto n1 m g o (fun a g o => proto n2 (k a) g o Q) -> proto (n1 + n2) (bind m k) g o Q.
Proof.
  revert m g o. induction n1 as [|n IH]; intros [a|e|f] g o Hm; try done.
  - cbn [bind]. eapply proto_mono; [|done|exact Hm]. lia.
  - cbn [bind Nat.add proto]. intros s HI Hh Hk. specialize (Hm s HI Hh Hk). cbn [proto] in Hm.
    destruct (f s) as [[s' m']|]; [|done]. destruct Hm as (out & o' & g' & E & Ha & Hm).
    exists out, o', g'. split_and!; try done. by apply IH.
Qed.

(** A thread of a pool with its ghost. *)
Record Thread : Type := MkThread { code : main St A; fuel : nat; ghost : G; rest : list W }.

Context (result : A -> Prop).
Hypothesis emits_nil : forall s, emits s [] s.
Hypothesis emits_app : forall s o1 s1 o2 s2, emits s o1 s1 -> emits s1 o2 s2 -> emits s (o1 ++ o2) s2.

Definition finished (a : A) (g : G) (o : list W) : Prop := result a /\ holder g = false /\ o = [].
Definition fine (t : Thread) : Prop := proto (fuel t) (code t) (ghost t) (rest t) finished.

(** [owner] is the thread in the critical section. *)
Definition pool_ok (ts : list Thread) (owner : option nat) (s : St) : Prop :=
  Forall fine ts /\ I s /\ Forall (fun t => knows (ghost t) s) ts /\ lock s = bool_decide (is_Some owner) /\
  (forall i t, ts !! i = Some t -> holder (ghost t) = bool_decide (owner = Some i)) /\
  (forall i, owner = Some i -> (i < length ts)%nat).

Definition steps_left (ts : list Thread) : nat := sum_list_with fuel ts.

Definition pool_ends (ts : list Thread) (s : St) : Prop :=
  ends (fun xs s' => Forall result xs /\ I s' /\ lock s' = false /\
    exists w, emits s w s' /\ interleaves (map rest ts) w) (map code ts, s).

Lemma fine_lock ts owner s i t :
  pool_ok ts owner s -> ts !! i = Some t -> holder (ghost t) = true -> lock s = true.
Proof.
  intros (_ & _ & _ & -> & Hh & _) Hi Ht. rewrite (Hh i t Hi) in Ht. apply bool_decide_eq_true in Ht as ->.
  by apply bool_decide_eq_true.
Qed.

(** A step of a pool, and the pool after it. *)
Lemma pool_ok_step ts owner s i ps :
  pool_ok ts owner s -> pool_step i (map code ts, s) = Some ps ->
  exists t n o out g m s' owner', ts !! i = Some t /\ fuel t = S n /\ rest t = out ++ o /\ emits s out s' /\
    let t' := MkThread m n g o in ps = (map code (<[i := t']> ts), s') /\ pool_ok (<[i := t']> ts) owner' s'.
Proof.
  intros Hok. pose proof Hok as (Hf & HI & Hk & Hl & Hh & Hlen). unfold pool_step. cbn [fst snd].
  change (map code ts) with (code <$> ts). rewrite list_lookup_fmap. destruct (ts !! i) as [t|] eqn:Ei; [|done]. cbn [fmap option_fmap option_map].
  pose proof (proj1 (Forall_lookup _ _) Hf i t Ei) as Ht. unfold fine in Ht. unfold next.
  destruct (code t) as [| |f] eqn:Ec; try done. destruct (fuel t) as [|n] eqn:En; [done|]. cbn [proto] in Ht.
  specialize (Ht s HI (fine_lock _ _ _ _ _ Hok Ei) (proj1 (Forall_lookup _ _) Hk i t Ei)).
  destruct (f s) as [[s' m]|]; [|done]. intros [= <-]. destruct Ht as (out & o & g & Eo & (HI' & Hk' & Hls & He & Hst) & Hp).
  assert (Hi : (i < length ts)%nat) by by eapply lookup_lt_Some.
  set (t' := MkThread m n g o).
  assert (Hothers : forall j tj, ts !! j = Some tj -> j <> i -> knows (ghost tj) s').
  { intros j tj Ej Hne. apply Hst; [by apply (proj1 (Forall_lookup _ _) Hk j)|]. rewrite (Hh i t Ei), (Hh j tj Ej).
    intros ->%bool_decide_eq_true. apply bool_decide_eq_false. congruence. }
  exists t, n, o, out, g, m, s', (if holder g then Some i else if holder (ghost t) then None else owner).
  split_and!; try done; [by rewrite list_fmap_insert|].
  unfold pool_ok. split_and!.
  - by apply Forall_insert.
  - done.
  - apply Forall_lookup. intros j tj [[-> [<- _]]|[Hne Ej]]%list_lookup_insert_Some; [done|]. by eapply Hothers.
  - rewrite (Hh i t Ei) in *. unfold lock_step in Hls. rewrite (Hh i t Ei) in Hls.
    destruct Hls as [[Eg El]|[(E1 & E2 & E3 & E4)|(E1 & E2 & E3)]].
    + rewrite Eg, El, Hl. by case_bool_decide; simplify_eq.
    + rewrite E2, E4. by rewrite bool_decide_eq_true_2.
    + rewrite E1, E2, E3. by rewrite bool_decide_eq_false_2 by (by intros [? ?]).
  - intros j tj Ej. apply list_lookup_insert_Some in Ej as [(-> & <- & _)|[Hne Ej]].
    + cbn [ghost t']. rewrite (Hh j t Ei). destruct (holder g) eqn:Eg; [by rewrite bool_decide_eq_true_2|].
      unfold lock_step in Hls. rewrite Eg, (Hh j t Ei) in Hls. symmetry.
      case_bool_decide; [by apply bool_decide_eq_false|]. by apply bool_decide_eq_false.
    + rewrite (Hh j tj Ej). unfold lock_step in Hls. rewrite (Hh i t Ei) in *.
      destruct Hls as [[Eg El]|[(E1 & E2 & E3 & E4)|(E1 & E2 & E3)]].
      * rewrite Eg. by case_bool_decide; simplify_eq.
      * rewrite E2. rewrite Hl in E3. apply bool_decide_eq_false in E3. destruct owner; [by destruct E3|].
        rewrite !bool_decide_eq_false_2 by congruence. done.
      * rewrite E1, E2. apply bool_decide_eq_true in E1 as ->. rewrite !bool_decide_eq_false_2 by congruence. done.
  - intros j. rewrite length_insert. destruct (holder g); [by intros [= <-]|]. destruct (holder (ghost t)); [done|apply Hlen].
Qed.

Lemma holder_steps ts owner s i :
  pool_ok ts owner s -> owner = Some i -> exists ps, pool_step i (map code ts, s) = Some ps.
Proof.
  intros Hok Ho. pose proof Hok as (Hf & HI & Hk & Hl & Hh & Hlen). destruct (lookup_lt_is_Some_2 ts i (Hlen i Ho)) as [t Ei].
  assert (Ht : holder (ghost t) = true) by (rewrite (Hh i t Ei), Ho; by apply bool_decide_eq_true).
  pose proof (proj1 (Forall_lookup _ _) Hf i t Ei) as Hp. unfold fine in Hp.
  unfold pool_step. cbn [fst snd]. change (map code ts) with (code <$> ts). rewrite list_lookup_fmap, Ei. cbn [fmap option_fmap option_map].
  unfold next. destruct (fuel t), (code t) as [a|e|f]; cbn [proto] in Hp; try done;
    try (by destruct Hp as (_ & Hn & _); congruence).
  specialize (Hp s HI (fine_lock _ _ _ _ _ Hok Ei) (proj1 (Forall_lookup _ _) Hk i t Ei)).
  destruct (f s) as [[s' m]|]; [by eexists|]. destruct Hp as [Hn _]. congruence.
Qed.

Lemma pool_progress ts owner s i t :
  pool_ok ts owner s -> ts !! i = Some t -> (exists f, code t = Atomic f) ->
  exists j ps, pool_step j (map code ts, s) = Some ps.
Proof.
  intros Hok Ei [f Ef]. pose proof Hok as (Hf & HI & Hk & Hl & Hh & Hlen).
  pose proof (proj1 (Forall_lookup _ _) Hf i t Ei) as Hp. unfold fine in Hp. rewrite Ef in Hp.
  destruct (fuel t) as [|n]; [done|]. cbn [proto] in Hp.
  specialize (Hp s HI (fine_lock _ _ _ _ _ Hok Ei) (proj1 (Forall_lookup _ _) Hk i t Ei)).
  destruct (f s) as [[s' m]|] eqn:E.
  - exists i. unfold pool_step. cbn [fst snd]. change (map code ts) with (code <$> ts). rewrite list_lookup_fmap, Ei.
    cbn [fmap option_fmap option_map]. unfold next. rewrite Ef, E. by eexists.
  - destruct Hp as [_ Hlock]. rewrite Hl in Hlock. apply bool_decide_eq_true in Hlock as [j Hj].
    exists j. by eapply holder_steps.
Qed.

Lemma all_done ts owner s :
  pool_ok ts owner s -> (forall i t f, ts !! i = Some t -> code t <> Atomic f) ->
  exists xs, map code ts = map Ret xs /\ Forall result xs /\ Forall (eq []) (map rest ts) /\ owner = None.
Proof.
  intros (Hf & _ & _ & _ & Hh & Hlen) Hna.
  assert (Hall : Forall (fun t => exists a, code t = Ret a /\ result a /\ holder (ghost t) = false /\ rest t = []) ts).
  { apply Forall_lookup. intros i t Ei. pose proof (proj1 (Forall_lookup _ _) Hf i t Ei) as Hp. unfold fine in Hp.
    specialize (Hna i t). destruct (code t) as [a|e|f]; [|by destruct (fuel t)|by edestruct Hna].
    exists a. by destruct (fuel t). }
  assert (Hown : owner = None).
  { destruct owner as [i|]; [|done]. destruct (lookup_lt_is_Some_2 ts i (Hlen i eq_refl)) as [t Ei].
    destruct (proj1 (Forall_lookup _ _) Hall i t Ei) as (_ & _ & _ & E & _). rewrite (Hh i t Ei) in E.
    by apply bool_decide_eq_false in E. }
  rewrite Hown. clear - Hall. induction Hall as [|t ts (a & Ec & Ha & _ & Er) _ (xs & E & Hxs & Hos & _)].
  - exists []. by split_and!.
  - exists (a :: xs). cbn [map]. rewrite Ec, E. split_and!; [done|by constructor|by constructor|done].
Qed.

Lemma steps_left_insert ts i t t' :
  ts !! i = Some t -> (fuel t' < fuel t)%nat -> (steps_left (<[i := t']> ts) < steps_left ts)%nat.
Proof.
  unfold steps_left. revert i. induction ts as [|x ts IH]; intros [|i] Ei Hlt; cbn in *; simplify_eq; [lia|].
  by apply Nat.add_lt_mono_l, IH.
Qed.

Definition running (m : main St A) : bool := match m with Atomic _ => true | _ => false end.

Theorem pool_ends_ok ts owner s : pool_ok ts owner s -> pool_ends ts s.
Proof.
  remember (steps_left ts) as n eqn:En. assert (Hn : (steps_left ts <= n)%nat) by lia. clear En.
  revert ts owner s Hn. induction n as [n IH] using lt_wf_ind. intros ts owner s Hn Hok. unfold pool_ends.
  destruct (decide (Exists (fun t => running (code t)) ts)) as [Hex|Hno].
  - apply Exists_exists in Hex as (t & (i & Ei)%list_elem_of_lookup & Ht).
    apply ends_step.
    { destruct (pool_progress ts owner s i t Hok Ei) as (j & ps & E); [|by exists j, ps].
      unfold running in Ht. destruct (code t) as [| |f]; try done. by exists f. }
    intros j ps Hs. destruct (pool_ok_step _ _ _ _ _ Hok Hs) as (t1 & k & o & out & g & m & s' & owner' & Ej & Ef & Er & He & -> & Hok').
    set (t' := MkThread m k g o) in *.
    eapply ends_mono; [|eapply (IH (steps_left (<[j := t']> ts))); [|done|exact Hok']].
    + intros xs s2 (Hx & HI & Hl & w & Hw & Hi). split_and!; try done. exists (out ++ w).
      split; [by eapply emits_app|]. apply (interleaves_app _ j out o).
      * change (map rest ts) with (rest <$> ts). by rewrite list_lookup_fmap, Ej, <- Er.
      * replace (<[j := o]> (map rest ts)) with (map rest (<[j := t']> ts)); [done|]. by rewrite list_fmap_insert.
    + eapply Nat.lt_le_trans; [|exact Hn]. eapply steps_left_insert; [exact Ej|]. subst t'. cbn [fuel]. rewrite Ef. lia.
  - destruct (all_done ts owner s Hok) as (xs & -> & Hx & Hos & ->).
    { intros i t f Ei Ec. apply Hno, Exists_exists. exists t. split; [by eapply list_elem_of_lookup_2|]. by rewrite Ec. }
    destruct Hok as (_ & HI & _ & Hl & _). apply ends_done. split_and!; [done|done|by rewrite Hl|].
    exists []. split; [done|by constructor].
Qed.
End Protocol.
End Pool.
