(* ===== verification/Tokens.v ===== *)
(** * Tokens: threads that own parts of a shared state

    A rule for pools whose threads never block: every thread owns tokens, an
    invariant relates all tokens to the shared state, and a step of a thread changes
    its own tokens and keeps the invariant, whatever tokens the others have. *)

From S2P Require Import Prelude Interleave Pool.

Module Tokens.
Import Pool.

Section Tokens.
Context {St W : Type} (Inv : list W -> St -> Prop).
Hypothesis Inv_perm : forall w w' s, w ≡ₚ w' -> Inv w s -> Inv w' s.

(** The program [m] with the tokens [own]: at most [n] steps, each of which is
    possible and keeps the invariant; [Q] holds of the result and the tokens left. *)
Fixpoint keeps {B} (n : nat) (m : main St B) (own : list W) (Q : B -> list W -> Prop) : Prop :=
  match m with
  | Ret a => Q a own
  | Throw _ => False
  | Atomic f =>
      match n with
      | O => False
      | S n =>
          forall others s, Inv (own ++ others) s ->
            exists s' m' own', f s = Some (s', m') /\ Inv (own' ++ others) s' /\ keeps n m' own' Q
      end
  end.

Lemma keeps_mono {B} n n' (m : main St B) own (Q R : B -> list W -> Prop) :
  (n <= n')%nat -> (forall a g, Q a g -> R a g) -> keeps n m own Q -> keeps n' m own R.
Proof.
  intros Hn HQ. revert n' m own Hn. induction n as [|n IH]; intros n' [a|e|f] own Hn Hm; try done;
    try (by destruct n'; apply HQ).
  destruct n' as [|n']; [lia|]. cbn [keeps]. intros others s HI.
  destruct (Hm others s HI) as (s' & m' & own' & E & HI' & Hm'). exists s', m', own'. split_and!; try done.
  apply IH; [lia|done].
Qed.

Lemma owned_bind {B C} n1 n2 (m : main St B) (k : B -> main St C) own Q :
  keeps n1 m own (fun a g => keeps n2 (k a) g Q) -> keeps (n1 + n2) (bind m k) own Q.
Proof.
  revert m own. induction n1 as [|n IH]; intros [a|e|f] own Hm; try done.
  - cbn [bind]. eapply keeps_mono; [|done|exact Hm]. lia.
  - cbn [bind Nat.add keeps]. intros others s HI. cbn [keeps] in Hm.
    destruct (Hm others s HI) as (s' & m' & own' & -> & HI' & Hm'). exists s', (bind m' k), own'.
    split_and!; try done. by apply IH.
Qed.

Lemma keeps_call {B} n (f : St -> result (St * B)) own Q :
  (forall others s, Inv (own ++ others) s -> exists s' a own', f s = Ok (s', a) /\ Inv (own' ++ others) s' /\ Q a own') ->
  keeps (S n) (call f) own Q.
Proof.
  intros H others s HI. destruct (H others s HI) as (s' & a & own' & -> & HI' & HQ).
  exists s', (Ret a), own'. by destruct n.
Qed.

Lemma keeps_perm {B} n (m : main St B) own own' Q :
  (forall a g g', g ≡ₚ g' -> Q a g -> Q a g') -> own ≡ₚ own' -> keeps n m own Q -> keeps n m own' Q.
Proof.
  intros HQ Hp Hm. destruct m as [a|e|f], n as [|n]; try done; try (by eapply HQ).
  intros others s HI. apply Hm. eapply Inv_perm; [|exact HI]. by rewrite Hp.
Qed.

(** ** A pool *)

Context {A : Type}.
Record Owner : Type := MkOwner { code : main St A; fuel : nat; owned : list W }.
Definition all_owned (ts : list Owner) : list W := concat (map owned ts).

Lemma all_owned_split ts i t :
  ts !! i = Some t -> exists others, forall m n g, all_owned (<[i := MkOwner m n g]> ts) ≡ₚ g ++ others.
Proof.
  unfold all_owned. revert i. induction ts as [|u ts IH]; intros [|i] Hi; simplify_eq/=.
  - by exists (concat (map owned ts)).
  - destruct (IH i Hi) as [others Ho]. exists (owned u ++ others). intros m n g. cbn. rewrite Ho.
    rewrite !(assoc_L (++)). f_equiv. apply Permutation_app_comm.
Qed.

Lemma all_owned_here (ts : list Owner) (i : nat) t : ts !! i = Some t -> <[i := MkOwner (code t) (fuel t) (owned t)]> ts = ts.
Proof. intros Hi. apply list_insert_id. rewrite Hi. by destruct t. Qed.

Definition fuel_left (ts : list Owner) : nat := sum_list_with fuel ts.

Lemma fuel_left_insert ts i t t' :
  ts !! i = Some t -> (fuel t' < fuel t)%nat -> (fuel_left (<[i := t']> ts) < fuel_left ts)%nat.
Proof.
  unfold fuel_left. revert i. induction ts as [|x ts IH]; intros [|i] Ei Hlt; cbn in *; simplify_eq; [lia|].
  by apply Nat.add_lt_mono_l, IH.
Qed.

Definition keeping (Q : A -> list W -> Prop) (t : Owner) : Prop := keeps (fuel t) (code t) (owned t) Q.

Lemma owner_steps Q ts i t f s :
  Forall (keeping Q) ts -> Inv (all_owned ts) s -> ts !! i = Some t -> code t = Atomic f ->
  exists s' t', pool_step i (map code ts, s) = Some (map code (<[i := t']> ts), s') /\
    Forall (keeping Q) (<[i := t']> ts) /\ Inv (all_owned (<[i := t']> ts)) s' /\ (fuel t' < fuel t)%nat.
Proof.
  intros Hf HI Hi Ec. destruct (all_owned_split ts i t Hi) as [others Ho].
  pose proof (proj1 (Forall_lookup _ _) Hf i t Hi) as Ht. unfold keeping in Ht. rewrite Ec in Ht.
  destruct (fuel t) as [|n] eqn:En; [done|]. cbn [keeps] in Ht.
  destruct (Ht others s) as (s' & m & g & E & HI' & Hk).
  { eapply Inv_perm; [apply (Ho (code t) (fuel t))|]. by rewrite all_owned_here. }
  exists s', (MkOwner m n g). split_and!.
  - unfold pool_step. cbn [fst snd]. change (map code ts) with (code <$> ts). rewrite list_lookup_fmap, Hi.
    cbn [fmap option_fmap option_map]. unfold next. rewrite Ec, E.
    change (map code (<[i := MkOwner m n g]> ts)) with (code <$> <[i := MkOwner m n g]> ts).
    by rewrite list_fmap_insert.
  - apply Forall_insert; [done|]. exact Hk.
  - eapply Inv_perm; [symmetry; apply Ho|done].
  - cbn. lia.
Qed.

Lemma pool_step_owner i ts s ps :
  pool_step i (map code ts, s) = Some ps -> exists t f, ts !! i = Some t /\ code t = Atomic f.
Proof.
  unfold pool_step. cbn [fst snd]. change (map code ts) with (code <$> ts). rewrite list_lookup_fmap.
  destruct (ts !! i) as [t|] eqn:Hi; [|done]. cbn. unfold next. destruct (code t) as [| |f] eqn:Ec; try done.
  intros _. by exists t, f.
Qed.

Definition waiting (t : Owner) : bool := match code t with Atomic _ => true | _ => false end.

Lemma owners_done Q ts :
  Forall (keeping Q) ts -> Forall (fun t => waiting t = false) ts ->
  exists xs, map code ts = map Ret xs /\ Forall2 Q xs (map owned ts).
Proof.
  intros Hf Hd. induction Hf as [|t ts Ht Hf IH]; [by exists []|]. inversion Hd as [|? ? Hw Hd']; subst.
  destruct (IH Hd') as (xs & E & HQ). unfold keeping, waiting in *.
  destruct (code t) as [a|e|f] eqn:Ec; [|by destruct (fuel t)|done].
  exists (a :: xs). cbn. rewrite Ec, E. split; [done|]. constructor; [by destruct (fuel t)|done].
Qed.

Lemma owners_end Q ts s :
  Forall (keeping Q) ts -> Inv (all_owned ts) s ->
  ends (fun xs s' => exists gs, Forall2 Q xs gs /\ Inv (concat gs) s') (map code ts, s).
Proof.
  remember (fuel_left ts) as n eqn:En. assert (Hn : (fuel_left ts <= n)%nat) by lia. clear En.
  revert ts s Hn. induction n as [n IH] using lt_wf_ind. intros ts s Hn Hf HI.
  destruct (decide (Exists (fun t => waiting t = true) ts)) as [Hex|Hno].
  - apply Exists_exists in Hex as (t & (i & Hi)%list_elem_of_lookup & Hw).
    assert (Hc : exists f, code t = Atomic f) by (unfold waiting in Hw; destruct (code t); try done; by eexists).
    destruct Hc as [f Hc]. apply ends_step.
    + destruct (owner_steps Q ts i t f s Hf HI Hi Hc) as (s' & t' & E & _). by eexists _, _.
    + intros j ps Hs. destruct (pool_step_owner _ _ _ _ Hs) as (u & h & Hj & Hu).
      destruct (owner_steps Q ts j u h s Hf HI Hj Hu) as (s' & t' & E & Hf' & HI' & Hlt).
      rewrite E in Hs. simplify_eq. eapply (IH (fuel_left (<[j := t']> ts))); [|done..].
      eapply Nat.lt_le_trans; [by eapply fuel_left_insert|done].
  - destruct (owners_done Q ts Hf) as (xs & -> & HQ).
    { apply Forall_forall. intros t Ht. destruct (waiting t) eqn:Ew; [|done]. destruct Hno. apply Exists_exists. eauto. }
    apply ends_done. by exists (map owned ts).
Qed.
End Tokens.
End Tokens.
