(* ===== verification/Concurrent.v ===== *)
(** * Concurrent: pointers that threads share, latches, values of a thread

    Models [include/ignite/common/include/common/concurrent.h],
    [src/ignite/common/src/common/concurrent.cpp] and the Linux version of
    [concurrent_os.h] and [concurrent_os.cpp]. A shared pointer is a pair of
    pointers: to an object, and to the record that counts how many there are; the
    records and the objects are a store that threads share, and an access to one that
    is no longer there is the error [Dangling]. The functions of the system are
    their documented effects: a mutex is a flag that blocks, waiting for a condition
    gives up the mutex and blocks until the next signal. *)

From S2P Require Import Prelude Interleave.

Module Concurrent.
Local Open Scope main_scope.

(** ** Atomics *)

(** Each is one action on the word behind the pointer: the new word, the answer. *)
Definition CompareAndSet32 (v expVal newVal : Z) : Z * bool :=
  if v =? expVal then (newVal, true) else (v, false).
Definition CompareAndSet64 (v expVal newVal : Z) : Z * bool :=
  if v =? expVal then (newVal, true) else (v, false).
Definition CompareAndSet64Val (v expVal newVal : Z) : Z * Z :=
  if v =? expVal then (newVal, v) else (v, v).
Definition CompareAndSet32Val (v expVal newVal : Z) : Z * Z :=
  if v =? expVal then (newVal, v) else (v, v).
Definition IncrementAndGet32 (v : Z) : Z * Z := (i32 (v + 1), i32 (v + 1)).
Definition DecrementAndGet32 (v : Z) : Z * Z := (i32 (v - 1), i32 (v - 1)).
Definition IncrementAndGet64 (v : Z) : Z * Z := (i64 (v + 1), i64 (v + 1)).
Definition DecrementAndGet64 (v : Z) : Z * Z := (i64 (v - 1), i64 (v - 1)).

(** ** Shared pointers *)

(** [SharedPointerDefaultDeleter] and [SharedPointerEmptyDeleter]. *)
Inductive Deleter : Type := DefaultDeleter | EmptyDeleter.

Record SharedPointerImpl : Type := MkImpl {
  raw : positive;
  deleter : Deleter;
  refCnt : Z
}.

(** An object of a class that derives from [EnableSharedFromThis]; [automatic] is
    one that was not made with [new]. *)
Record Object : Type := MkObject {
  automatic : bool;
  self : option positive
}.

Record Store : Type := MkStore {
  objects : gmap positive Object;
  impls : gmap positive SharedPointerImpl
}.
Abbreviation prog := (main Store).

Definition set_objects (m : gmap positive Object) (s : Store) : Store := MkStore m (impls s).
Definition set_impls (m : gmap positive SharedPointerImpl) (s : Store) : Store := MkStore (objects s) m.

(** An access to the record at [k]. *)
Definition with_impl {A} (k : positive) (f : SharedPointerImpl -> SharedPointerImpl * A) : prog A :=
  call (fun s =>
    match impls s !! k with
    | Some i => let (i, a) := f i in Ok (set_impls (<[k := i]> (impls s)) s, a)
    | None => Err Dangling
    end).

Definition Increment (k : positive) : prog unit :=
  with_impl k (fun i => (MkImpl (raw i) (deleter i) (fst (IncrementAndGet32 (refCnt i))), tt)).
Definition Decrement (k : positive) : prog bool :=
  with_impl k (fun i =>
    let (v, now) := DecrementAndGet32 (refCnt i) in (MkImpl (raw i) (deleter i) v, now =? 0)).
Definition Pointer (k : positive) : prog positive := with_impl k (fun i => (i, raw i)).
Definition GetDeleter (k : positive) : prog Deleter := with_impl k (fun i => (i, deleter i)).

(** [new] of an object and of a record, and what the constructor of a shared pointer
    does with them: no other thread knows them yet, so this is one step. *)
Definition new_object (on_stack : bool) (s : Store) : Store * positive :=
  let a := fresh (dom (objects s)) in
  (set_objects (<[a := MkObject on_stack None]> (objects s)) s, a).
Definition NewImpl (p : positive) (d : Deleter) (s : Store) : Store * positive :=
  let k := fresh (dom (impls s)) in
  (set_impls (<[k := MkImpl p d 1]> (impls s)) s, k).
Definition ImplEnableShared (a k : positive) (s : Store) : Prelude.result Store :=
  match objects s !! a with
  | Some o => Ok (set_objects (<[a := MkObject (automatic o) (Some k)]> (objects s)) s)
  | None => Err Dangling
  end.

Record SharedPointer : Type := MkShared {
  ptr : option positive;
  impl : option positive
}.

Definition Empty : SharedPointer := MkShared None None.
Definition NewSharedPointer (p : option positive) (d : Deleter) (s : Store) : Prelude.result (Store * SharedPointer) :=
  match p with
  | None => Ok (s, Empty)
  | Some a =>
      let (s, k) := NewImpl a d s in
      match ImplEnableShared a k s with
      | Ok s => Ok (s, MkShared (Some a) (Some k))
      | Err e => Err e
      end
  end.

Definition Get (p : SharedPointer) : option positive := ptr p.
Definition IsValid (p : SharedPointer) : bool := bool_decide (is_Some (impl p)).
Definition Swap (p q : SharedPointer) : SharedPointer * SharedPointer := (q, p).

Definition CopyShared (other : SharedPointer) : prog SharedPointer :=
  (match impl other with Some k => Increment k | None => Ret tt end) ;;
  Ret (MkShared (ptr other) (impl other)).

(** [delete obj]; the other deleter does nothing. *)
Definition run_deleter (d : Deleter) (a : positive) : prog unit :=
  call (fun s =>
    match d with
    | EmptyDeleter => Ok (s, tt)
    | DefaultDeleter =>
        match objects s !! a with
        | Some o => if automatic o then Err Dangling else Ok (set_objects (delete a (objects s)) s, tt)
        | None => Err Dangling
        end
    end).
Definition delete_impl (k : positive) : prog unit :=
  call (fun s =>
    match impls s !! k with
    | Some _ => Ok (set_impls (delete k (impls s)) s, tt)
    | None => Err Dangling
    end).

(** [~SharedPointer]. *)
Definition Destroy (p : SharedPointer) : prog unit :=
  match impl p with
  | None => Ret tt
  | Some k =>
      let! last := Decrement k in
      if last : bool then
        let! ptr0 := Pointer k in
        let! d := GetDeleter k in
        run_deleter d ptr0 ;;
        delete_impl k
      else Ret tt
  end.

(** [operator=] of another pointer: a copy is swapped with this one and dies. *)
Definition AssignShared (this other : SharedPointer) : prog SharedPointer :=
  let! tmp := CopyShared other in
  let (this, tmp) := Swap this tmp in
  Destroy tmp ;;
  Ret this.

(** [SharedFromThis] of the object at [a]; [self != 0] is asserted. *)
Definition SharedFromThis (a : positive) : prog SharedPointer :=
  let! k := call (fun s =>
    match objects s !! a with
    | Some o => match self o with Some k => Ok (s, k) | None => Err NullPointer end
    | None => Err Dangling
    end) in
  Increment k ;;
  Ret (MkShared None (Some k)).

(** ** A thread that uses shared pointers *)

(** The pointers are variables of the thread; [OUse] accesses the object behind a
    pointer unless it is null. *)
Inductive Op : Type :=
  | OMake (on_stack : bool)
  | OCopy (i : nat)
  | OAssign (i j : nat)
  | OSwap (i j : nat)
  | OSelf (i : nat)
  | OUse (i : nat)
  | ODrop (i : nat).

Definition access (a : positive) : prog unit :=
  call (fun s => match objects s !! a with Some _ => Ok (s, tt) | None => Err Dangling end).

Definition make (on_stack : bool) : prog SharedPointer :=
  call (fun s =>
    let (s, a) := new_object on_stack s in
    NewSharedPointer (Some a) (if on_stack then EmptyDeleter else DefaultDeleter) s).

Definition perform (op : Op) (env : list SharedPointer) : prog (list SharedPointer) :=
  match op with
  | OMake on_stack => let! p := make on_stack in Ret (p :: env)
  | OCopy i =>
      match env !! i with
      | Some p => let! q := CopyShared p in Ret (q :: env)
      | None => Ret env
      end
  | OAssign i j =>
      match env !! i, env !! j with
      | Some p, Some q =>
          if bool_decide (i = j) then Ret env else let! p := AssignShared p q in Ret (<[i := p]> env)
      | _, _ => Ret env
      end
  | OSwap i j =>
      match env !! i, env !! j with
      | Some p, Some q => let (p, q) := Swap p q in Ret (<[i := p]> (<[j := q]> env))
      | _, _ => Ret env
      end
  | OSelf i =>
      match env !! i with
      | Some p => match Get p with Some a => let! q := SharedFromThis a in Ret (q :: env) | None => Ret env end
      | None => Ret env
      end
  | OUse i =>
      match env !! i with
      | Some p => match Get p with Some a => access a ;; Ret env | None => Ret env end
      | None => Ret env
      end
  | ODrop i =>
      match env !! i with
      | Some p => Destroy p ;; Ret (delete i env)
      | None => Ret env
      end
  end.

Fixpoint perform_all (ops : list Op) (env : list SharedPointer) : prog (list SharedPointer) :=
  match ops with
  | [] => Ret env
  | op :: ops => let! env := perform op env in perform_all ops env
  end.

(** ** Guards *)

(** [LockGuard], [SharedLockGuard] and [ExclusiveLockGuard]: a lock is taken by the
    first method and given back by the second; [true] while the guard holds it. *)
Section Guards.
Context {St : Type} (enter leave : main St unit).

Definition NewGuard : main St bool := enter ;; Ret true.
Definition Forget (holds : bool) : bool := false.
Definition Reset (holds : bool) : main St bool :=
  if holds then leave ;; Ret (Forget holds) else Ret holds.
Definition DestroyGuard (holds : bool) : main St unit := if holds then leave else Ret tt.
End Guards.

(** ** Locks for many readers *)

Record ReadWriteLock : Type := MkRw { readers : nat; writer : bool }.
Definition NewReadWriteLock : ReadWriteLock := MkRw 0 false.

Definition LockExclusive : main ReadWriteLock unit :=
  wait (fun l => if writer l || negb (readers l =? 0)%nat then None else Some (MkRw 0 true, tt)).
Definition LockShared : main ReadWriteLock unit :=
  wait (fun l => if writer l then None else Some (MkRw (S (readers l)) false, tt)).
(** [pthread_rwlock_unlock] gives back what is held. *)
Definition rwlock_unlock : main ReadWriteLock unit :=
  act (fun l => if writer l then MkRw 0 false else MkRw (pred (readers l)) false).
Definition ReleaseExclusive : main ReadWriteLock unit := rwlock_unlock.
Definition ReleaseShared : main ReadWriteLock unit := rwlock_unlock.

(** ** Conditions *)

(** The mutex, the flag ([ready] of a latch, [state] of an event), and how often the
    condition was signalled. *)
Record Event : Type := MkEvent { mux : bool; state : bool; signals : nat }.
Definition NewEvent : Event := MkEvent false false 0.

Definition mutex_lock : main Event unit :=
  wait (fun e => if mux e then None else Some (MkEvent true (state e) (signals e), tt)).
Definition mutex_unlock : main Event unit := act (fun e => MkEvent false (state e) (signals e)).
Definition set_state (v : bool) : main Event unit := act (fun e => MkEvent (mux e) v (signals e)).
Definition cond_broadcast : main Event unit := act (fun e => MkEvent (mux e) (state e) (S (signals e))).

(** Gives up the mutex and is asleep in one step; wakes after the next signal and
    takes the mutex. With a time limit it may wake without a signal. *)
Definition cond_wait : main Event unit :=
  let! seen := Atomic (fun e => Some (MkEvent false (state e) (signals e), Ret (signals e))) in
  wait (fun e => if (seen <? signals e)%nat then Some (e, tt) else None) ;;
  mutex_lock.
Definition cond_timedwait (timeout : bool) : main Event bool :=
  if timeout then mutex_unlock ;; mutex_lock ;; Ret false else cond_wait ;; Ret true.

(** [SingleLatch]. The loop of [Await] has fuel. *)
Definition CountDown : main Event unit :=
  mutex_lock ;;
  let! ready := ask state in
  (if ready : bool then Ret tt else set_state true ;; cond_broadcast) ;;
  mutex_unlock.
Fixpoint wait_for_state (fuel : nat) : main Event unit :=
  let! ready := ask state in
  if ready : bool then Ret tt
  else match fuel with O => Throw OutOfFuel | S fuel => cond_wait ;; wait_for_state fuel end.
Definition Await (fuel : nat) : main Event unit := mutex_lock ;; wait_for_state fuel ;; mutex_unlock.

(** [ManualEvent]. *)
Definition EventSet : main Event unit := mutex_lock ;; set_state true ;; cond_broadcast ;; mutex_unlock.
Definition EventReset : main Event unit := mutex_lock ;; set_state false ;; mutex_unlock.
Definition EventWait (fuel : nat) : main Event unit := mutex_lock ;; wait_for_state fuel ;; mutex_unlock.
Definition EventWaitFor (timeout : bool) : main Event bool :=
  mutex_lock ;;
  let! ready := ask state in
  let! res := (if ready : bool then Ret true else cond_timedwait timeout) in
  mutex_unlock ;;
  Ret res.

(** The end of a wait of [msTimeout] milliseconds from the time ([tv_sec], [tv_nsec]). *)
Definition deadline (tv_sec tv_nsec msTimeout : Z) : Z * Z :=
  let ns := tv_nsec + Z.rem msTimeout 1000 * 1000000 in
  (tv_sec + (Z.quot msTimeout 1000 + Z.quot ns 1000000000), Z.rem ns 1000000000).

(** ** Values of a thread *)

(** The map behind the key of each thread; an entry may be null. *)
Section ThreadLocal.
Context {V : Type} (zero : V).
Abbreviation Slots := (gmap positive (gmap Z (option V))).

Definition NextIndex (appTlsIdxGen : Z) : Z * Z := IncrementAndGet32 appTlsIdxGen.

(** The operator [[idx]] makes a null entry when there is none. *)
Definition ThreadLocalGet (thread : positive) (idx : Z) (s : Slots) : Slots * V :=
  match s !! thread with
  | None => (s, zero)
  | Some m =>
      let entry := default None (m !! idx) in
      (<[thread := <[idx := entry]> m]> s, match entry with Some v => v | None => zero end)
  end.
Definition ThreadLocalSet (thread : positive) (idx : Z) (v : V) (s : Slots) : Slots :=
  match s !! thread with
  | Some m => <[thread := <[idx := Some v]> m]> s
  | None => <[thread := {[idx := Some v]}]> s
  end.
Definition ThreadLocalRemove (thread : positive) (idx : Z) (s : Slots) : Slots :=
  match s !! thread with
  | Some m => let m := delete idx m in if bool_decide (m = ∅) then delete thread s else <[thread := m]> s
  | None => s
  end.
(** [Clear0], when the thread ends. *)
Definition ThreadLocalClear (thread : positive) (s : Slots) : Slots := delete thread s.
End ThreadLocal.
End Concurrent.
