(* ===== verification/ConcurrentFacts.v ===== *)
(** * ConcurrentFacts: shared objects live as long as they are used

    Whatever the schedule of threads that copy, assign, swap and drop shared
    pointers: no object and no record is accessed after it is gone, every count is
    the number of pointers, and what nobody points to is deleted. *)

From S2P Require Import Prelude Interleave Pool Tokens Concurrent.

Module Sharing.
Import Pool Tokens Concurrent.
Local Open Scope main_scope.

(** ** What threads own *)

(** One of the references to an object; the right to make one more; the duty to
    delete an object nobody refers to, and then its record. *)
Inductive Token : Type :=
  | Ref (k a : positive)
  | Spare
  | Dying (k a : positive) (d : Deleter)
  | Gone (k : positive).

Definition about (t : Token) : option positive :=
  match t with Ref k _ | Dying k _ _ | Gone k => Some k | Spare => None end.
Definition of_impl (k : positive) (ts : list Token) : list Token := filter (fun t => about t = Some k) ts.

(** The tokens of a record. *)
Definition counted (k : positive) (i : SharedPointerImpl) (ts : list Token) : Prop :=
  (exists n, ts = replicate (S n) (Ref k (raw i)) /\ refCnt i = Z.of_nat (S n)) \/
  (ts = [Dying k (raw i) (deleter i)] /\ refCnt i = 0) \/
  (ts = [Gone k] /\ refCnt i = 0).

Definition alive (k : positive) (i : SharedPointerImpl) (ts : list Token) (s : Store) : Prop :=
  impls s !! k = Some i /\ ~ Gone k ∈ ts.

(** The object a record that is alive points to. *)
Definition backed (k : positive) (i : SharedPointerImpl) (s : Store) : Prop :=
  exists o, objects s !! raw i = Some o /\ self o = Some k /\ (deleter i = EmptyDeleter <-> automatic o = true).

Record Inv (ts : list Token) (s : Store) : Prop := {
  inv_counted : forall k, match impls s !! k with Some i => counted k i (of_impl k ts) | None => of_impl k ts = [] end;
  inv_backed : forall k i, alive k i ts s -> backed k i s;
  inv_owned : forall a o, objects s !! a = Some o ->
    automatic o = true \/ exists k i, alive k i ts s /\ raw i = a;
  inv_room : Z.of_nat (length ts) < 2147483648
}.

#[local] Instance of_impl_perm k : Proper ((≡ₚ) ==> (≡ₚ)) (of_impl k).
Proof. intros ts ts' E. unfold of_impl. by rewrite E. Qed.

Lemma of_impl_app k ts us : of_impl k (ts ++ us) = of_impl k ts ++ of_impl k us.
Proof. apply filter_app. Qed.

Lemma of_impl_cons k t ts : of_impl k (t :: ts) = if bool_decide (about t = Some k) then t :: of_impl k ts else of_impl k ts.
Proof. unfold of_impl. rewrite filter_cons. by case_decide; case_bool_decide. Qed.

Lemma counted_perm k i ts ts' : ts ≡ₚ ts' -> counted k i ts -> counted k i ts'.
Proof.
  intros E [(n & -> & Hn)|[[-> Hn]|[-> Hn]]].
  - left. exists n. split; [|done]. by apply replicate_Permutation in E.
  - right; left. split; [|done]. by apply Permutation_singleton_l in E as ->.
  - right; right. split; [|done]. by apply Permutation_singleton_l in E as ->.
Qed.

Lemma alive_perm k i ts ts' s : ts ≡ₚ ts' -> alive k i ts s -> alive k i ts' s.
Proof. intros E [Hi Hg]. split; [done|]. by rewrite <- E. Qed.

Lemma Inv_perm ts ts' s : ts ≡ₚ ts' -> Inv ts s -> Inv ts' s.
Proof.
  intros E [Hc Hb Ho Hr]. split.
  - intros k. specialize (Hc k). destruct (impls s !! k) as [i|].
    + eapply counted_perm; [|exact Hc]. by rewrite E.
    + assert (E' : of_impl k ts ≡ₚ of_impl k ts') by by rewrite E. rewrite Hc in E'. by apply Permutation_nil_l in E'.
  - intros k i Ha. apply Hb. by eapply alive_perm.
  - intros a o Hao. destruct (Ho a o Hao) as [|(k & i & Ha & Er)]; [by left|]. right. exists k, i.
    split; [by eapply alive_perm|done].
  - by rewrite <- E.
Qed.

(** ** One step *)

Definition only (k : positive) (ts : list Token) : Prop := Forall (fun t => about t = Some k \/ about t = None) ts.

Lemma of_impl_only k k' ts : only k ts -> k' <> k -> of_impl k' ts = [].
Proof.
  intros Ho Hk. induction Ho as [|t ts Ht _ IH]; [done|]. rewrite of_impl_cons, IH.
  case_bool_decide; [|done]. destruct Ht; congruence.
Qed.

Lemma gone_app k own own' (r : list Token) : Gone k ∉ own -> Gone k ∉ own' -> Gone k ∈ own ++ r <-> Gone k ∈ own' ++ r.
Proof. set_solver. Qed.

Lemma gone_only k k' own : only k own -> k' <> k -> Gone k' ∉ own.
Proof. intros Ho Hk Hg. unfold only in Ho. rewrite Forall_forall in Ho. destruct (Ho _ Hg); cbn in *; congruence. Qed.

(** A record changes its count, and the owner its tokens. *)
Lemma Inv_count k i i' own own' r s :
  impls s !! k = Some i -> raw i' = raw i -> deleter i' = deleter i ->
  only k own -> only k own' -> Gone k ∉ own -> Gone k ∉ own' -> (length own' <= length own)%nat ->
  counted k i' (of_impl k (own' ++ r)) -> Inv (own ++ r) s ->
  Inv (own' ++ r) (set_impls (<[k := i']> (impls s)) s).
Proof.
  intros Hi Er Ed Ho Ho' Hg Hg' Hlen Hc [HC HB HO HR].
  assert (Hal : forall k' j, alive k' j (own' ++ r) (set_impls (<[k := i']> (impls s)) s) ->
    exists j', alive k' j' (own ++ r) s /\ raw j = raw j' /\ deleter j = deleter j').
  { intros k' j [Hj Hn]. cbn in Hj. destruct (decide (k' = k)) as [->|Hne].
    - rewrite lookup_insert_eq in Hj. simplify_eq. exists i. split; [|done]. split; [done|].
      by rewrite (gone_app k own own').
    - rewrite lookup_insert_ne in Hj by done. exists j. split; [|done]. split; [done|].
      by rewrite (gone_app k' own own') by (by eapply gone_only). }
  split.
  - intros k'. cbn. destruct (decide (k' = k)) as [->|Hne].
    + by rewrite lookup_insert_eq.
    + rewrite lookup_insert_ne by done. specialize (HC k'). rewrite of_impl_app, (of_impl_only k k' own) in HC by done.
      by rewrite of_impl_app, (of_impl_only k k' own') by done.
  - intros k' j Ha. destruct (Hal k' j Ha) as (j' & Ha' & Erj & Edj). unfold backed. rewrite Erj, Edj. by apply HB.
  - intros a o Hao. destruct (HO a o Hao) as [|(k' & j & [Hj Hn] & Erj)]; [by left|]. right.
    destruct (decide (k' = k)) as [->|Hne].
    + simplify_eq. exists k, i'. split; [|done]. split; [apply lookup_insert_eq|]. by rewrite <- (gone_app k own own').
    + exists k', j. split; [|done]. split; [cbn; by rewrite lookup_insert_ne|].
      by rewrite <- (gone_app k' own own') by (by eapply gone_only).
  - rewrite length_app in *. lia.
Qed.

Lemma counted_ref k i a l :
  counted k i (Ref k a :: l) -> exists n, a = raw i /\ l = replicate n (Ref k (raw i)) /\ refCnt i = Z.of_nat (S n).
Proof. intros [(n & E & Hn)|[[E _]|[E _]]]; try done. cbn in E. simplify_eq. by exists n. Qed.

Lemma counted_dying k i a d l : counted k i (Dying k a d :: l) -> a = raw i /\ d = deleter i /\ l = [] /\ refCnt i = 0.
Proof. intros [(n & E & Hn)|[[E Hn]|[E _]]]; by simplify_eq/=. Qed.

Lemma counted_gone k i l : counted k i (Gone k :: l) -> l = [] /\ refCnt i = 0.
Proof. intros [(n & E & Hn)|[[E Hn]|[E Hn]]]; by simplify_eq/=. Qed.

(** The record a token is about. *)
Lemma token_impl k t r s :
  Inv (t :: r) s -> about t = Some k -> exists i, impls s !! k = Some i /\ counted k i (t :: of_impl k r).
Proof.
  intros HI Ht. pose proof (inv_counted _ _ HI k) as Hc. rewrite of_impl_cons, bool_decide_eq_true_2 in Hc by done.
  destruct (impls s !! k) as [i|]; [by exists i|done].
Qed.

Lemma room_left t r s : Inv (t :: r) s -> Z.of_nat (length r) < 2147483647.
Proof. intros HI. pose proof (inv_room _ _ HI) as Hr. cbn [length] in Hr. lia. Qed.

Lemma of_impl_length k ts : (length (of_impl k ts) <= length ts)%nat.
Proof. unfold of_impl. induction ts as [|t ts IH]; [done|]. rewrite filter_cons. case_decide; cbn; lia. Qed.

Lemma with_impl_keeps {B} n k (f : SharedPointerImpl -> SharedPointerImpl * B) own Q :
  (forall others s, Inv (own ++ others) s -> exists i own', impls s !! k = Some i /\
     Inv (own' ++ others) (set_impls (<[k := fst (f i)]> (impls s)) s) /\ Q (snd (f i)) own') ->
  keeps Inv (S n) (with_impl k f) own Q.
Proof.
  intros H. apply keeps_call. intros others s HI. destruct (H others s HI) as (i & own' & -> & HI' & HQ).
  destruct (f i) as [j b]. by eexists _, b, own'.
Qed.

Lemma of_impl_here k ts r : of_impl k (ts ++ r) = of_impl k ts ++ of_impl k r.
Proof. apply filter_app. Qed.

Lemma of_impl_all k ts : Forall (fun t => about t = Some k) ts -> of_impl k ts = ts.
Proof. induction 1 as [|t ts Ht _ IH]; [done|]. by rewrite of_impl_cons, bool_decide_eq_true_2, IH. Qed.

Lemma set_impls_same k i s : impls s !! k = Some i -> set_impls (<[k := i]> (impls s)) s = s.
Proof. intros Hi. unfold set_impls. rewrite insert_id by done. by destruct s. Qed.

#[local] Ltac tokens := repeat constructor; cbn; auto.

Lemma Increment_keeps k a g :
  keeps Inv 1 (Increment k) (Ref k a :: Spare :: g) (fun _ g' => g' = Ref k a :: Ref k a :: g).
Proof.
  apply with_impl_keeps. intros others s HI. cbn [app] in HI.
  destruct (token_impl k _ _ _ HI eq_refl) as (i & Hi & Hc).
  exists i, (Ref k a :: Ref k a :: g). split; [done|]. split; [|done].
  rewrite of_impl_cons in Hc. cbn [about] in Hc. rewrite bool_decide_eq_false_2 in Hc by done.
  destruct (counted_ref _ _ _ _ Hc) as (n & -> & El & En).
  assert (Hn : Z.of_nat (S n) < 2147483647).
  { pose proof (inv_room _ _ HI) as Hr. pose proof (of_impl_length k (g ++ others)) as Hl. rewrite El, length_replicate in Hl.
    cbn [length] in Hr. lia. }
  eapply (Inv_count k i _ [Ref k (raw i); Spare] [Ref k (raw i); Ref k (raw i)] (g ++ others)); try done; try (by tokens); try set_solver.
  rewrite of_impl_app, of_impl_all, El by tokens. left. exists (S n). split; [done|]. cbn. rewrite i32_small by (unfold is_i32; lia). lia.
Qed.

Lemma Decrement_keeps k a g :
  keeps Inv 1 (Decrement k) (Ref k a :: g)
    (fun last g' => if last then exists d, g' = Dying k a d :: g else g' = g).
Proof.
  apply with_impl_keeps. intros others s HI. cbn [app] in HI.
  destruct (token_impl k _ _ _ HI eq_refl) as (i & Hi & Hc). destruct (counted_ref _ _ _ _ Hc) as (n & -> & El & En).
  assert (Hn : Z.of_nat n < 2147483648).
  { pose proof (inv_room _ _ HI) as Hr. pose proof (of_impl_length k (g ++ others)) as Hl. rewrite El, length_replicate in Hl.
    cbn [length] in Hr. lia. }
  assert (Ec : i32 (refCnt i - 1) = Z.of_nat n) by (rewrite i32_small by (unfold is_i32; lia); lia).
  exists i, ((if bool_decide (n = O) then [Dying k (raw i) (deleter i)] else []) ++ g). split; [done|].
  cbn [fst snd DecrementAndGet32]. rewrite Ec. split.
  - rewrite <- (assoc_L (++)). case_bool_decide as Hz.
    + apply (Inv_count k i _ [Ref k (raw i)] [Dying k (raw i) (deleter i)] (g ++ others)); try done; try (by tokens); try set_solver.
      rewrite of_impl_app, of_impl_all, El, Hz by tokens. by right; left.
    + apply (Inv_count k i _ [Ref k (raw i)] [] (g ++ others)); try done; try (by tokens); try set_solver.
      rewrite of_impl_app, El. left. exists (pred n). cbn. split; [by destruct n|lia].
  - case_bool_decide; [subst; by eexists|]. by destruct n.
Qed.

Lemma Pointer_keeps k a d g :
  keeps Inv 1 (Pointer k) (Dying k a d :: g) (fun p g' => p = a /\ g' = Dying k a d :: g).
Proof.
  apply with_impl_keeps. intros others s HI. cbn [app] in HI.
  destruct (token_impl k _ _ _ HI eq_refl) as (i & Hi & Hc). destruct (counted_dying _ _ _ _ _ Hc) as (-> & -> & _).
  exists i, (Dying k (raw i) (deleter i) :: g). cbn. by rewrite set_impls_same.
Qed.

Lemma GetDeleter_keeps k a d g :
  keeps Inv 1 (GetDeleter k) (Dying k a d :: g) (fun x g' => x = d /\ g' = Dying k a d :: g).
Proof.
  apply with_impl_keeps. intros others s HI. cbn [app] in HI.
  destruct (token_impl k _ _ _ HI eq_refl) as (i & Hi & Hc). destruct (counted_dying _ _ _ _ _ Hc) as (-> & -> & _).
  exists i, (Dying k (raw i) (deleter i) :: g). cbn. by rewrite set_impls_same.
Qed.

(** The token of a record that dies says it is alive; two records that are alive
    have different objects. *)
Lemma alive_dying k i r s : Inv (Dying k (raw i) (deleter i) :: r) s -> impls s !! k = Some i ->
  alive k i (Dying k (raw i) (deleter i) :: r) s.
Proof.
  intros HI Hi. split; [done|]. intros Hg. pose proof (inv_counted _ _ HI k) as Hc. rewrite Hi, of_impl_cons in Hc.
  cbn [about] in Hc. rewrite bool_decide_eq_true_2 in Hc by done. destruct (counted_dying _ _ _ _ _ Hc) as (_ & _ & E & _).
  assert (Hin : Gone k ∈ of_impl k r) by (apply list_elem_of_filter; split; [done|set_solver]). rewrite E in Hin. set_solver.
Qed.

Lemma alive_unique k k' i i' ts s :
  Inv ts s -> alive k i ts s -> alive k' i' ts s -> raw i = raw i' -> k = k'.
Proof.
  intros HI Ha Ha' E. destruct (inv_backed _ _ HI k i Ha) as (o & Ho & Hs & _).
  destruct (inv_backed _ _ HI k' i' Ha') as (o' & Ho' & Hs' & _). rewrite <- E in Ho'. congruence.
Qed.

Lemma gone_cons k k' d a r : Gone k' ∈ Dying k a d :: r <-> Gone k' ∈ r.
Proof. set_solver. Qed.

Lemma Inv_gone k i r s s' :
  Inv (Dying k (raw i) (deleter i) :: r) s -> impls s !! k = Some i -> impls s' = impls s ->
  (objects s' = objects s /\ deleter i = EmptyDeleter) \/ objects s' = delete (raw i) (objects s) ->
  Inv (Gone k :: r) s'.
Proof.
  intros HI Hi Ei Eo. pose proof (alive_dying _ _ _ _ HI Hi) as Hal.
  assert (Hother : forall k' j, k' <> k -> alive k' j (Dying k (raw i) (deleter i) :: r) s <-> alive k' j (Gone k :: r) s').
  { intros k' j Hne. unfold alive. rewrite Ei. set_solver. }
  assert (Hback : forall k' j, k' <> k -> alive k' j (Dying k (raw i) (deleter i) :: r) s -> objects s' !! raw j = objects s !! raw j).
  { intros k' j Hne Ha. destruct Eo as [[-> _]| ->]; [done|]. apply lookup_delete_ne. intros E. destruct Hne. symmetry.
    by eapply alive_unique. }
  split.
  - intros k'. rewrite Ei. pose proof (inv_counted _ _ HI k') as Hc. rewrite of_impl_cons in *. cbn [about] in *.
    case_bool_decide as Hk; [|done]. simplify_eq. rewrite Hi in *. destruct (counted_dying _ _ _ _ _ Hc) as (_ & _ & -> & Hz).
    by right; right.
  - intros k' j Ha. assert (Hne : k' <> k) by (intros ->; destruct Ha as [_ Hg]; set_solver).
    apply Hother in Ha; [|done]. unfold backed. rewrite (Hback k' j Hne Ha). by apply (inv_backed _ _ HI).
  - intros a o Hao. assert (Hao' : objects s !! a = Some o).
    { destruct Eo as [[<- _]|Eo]; [done|]. rewrite Eo in Hao. by apply lookup_delete_Some in Hao as [_ ?]. }
    destruct (inv_owned _ _ HI a o Hao') as [|(k' & j & Ha & Er)]; [by left|]. destruct (decide (k' = k)) as [->|Hne].
    + destruct Ha as [Hj _]. simplify_eq. destruct Eo as [[_ Ed]|Eo]; [|by rewrite Eo, lookup_delete_eq in Hao].
      left. destruct (inv_backed _ _ HI k _ Hal) as (o' & Ho & _ & Hd). simplify_eq. by apply Hd.
    + right. exists k', j. split; [by apply Hother|done].
  - apply (inv_room _ _ HI).
Qed.

Lemma run_deleter_keeps k a d g : keeps Inv 1 (run_deleter d a) (Dying k a d :: g) (fun _ g' => g' = Gone k :: g).
Proof.
  apply keeps_call. intros others s HI. cbn [app] in HI. destruct (token_impl k _ _ _ HI eq_refl) as (i & Hi & Hc).
  destruct (counted_dying _ _ _ _ _ Hc) as (-> & -> & _).
  destruct (inv_backed _ _ HI k i (alive_dying _ _ _ _ HI Hi)) as (o & Ho & _ & Hd).
  destruct (deleter i) eqn:Ed.
  - rewrite Ho. destruct (automatic o); [by destruct Hd as [_ ?%(fun f => f eq_refl)]|]. eexists _, _, (Gone k :: g).
    split_and!; [done| |done]. rewrite <- Ed in HI. by eapply (Inv_gone k i (g ++ others) s _ HI Hi); [|right].
  - eexists s, _, (Gone k :: g). split_and!; [done| |done]. rewrite <- Ed in HI.
    by eapply (Inv_gone k i (g ++ others) s _ HI Hi); [|left].
Qed.

Lemma delete_impl_keeps k g : keeps Inv 1 (delete_impl k) (Gone k :: g) (fun _ g' => g' = g).
Proof.
  apply keeps_call. intros others s HI. cbn [app] in HI. destruct (token_impl k _ _ _ HI eq_refl) as (i & Hi & Hc).
  destruct (counted_gone _ _ _ Hc) as [El _]. rewrite Hi. eexists _, tt, g. split_and!; [done| |done].
  set (r := g ++ others) in *.
  assert (Hal : forall k' j, alive k' j (Gone k :: r) s <-> alive k' j r (set_impls (delete k (impls s)) s)).
  { intros k' j. unfold alive. cbn. rewrite lookup_delete_Some, !not_elem_of_cons. split; [intros (? & ? & ?)|intros ((? & ?) & ?)];
      split_and!; try done; congruence. }
  split.
  - intros k'. cbn. pose proof (inv_counted _ _ HI k') as Hk. rewrite of_impl_cons in Hk. cbn [about] in Hk.
    case_bool_decide; simplify_eq; [by rewrite lookup_delete_eq|]. rewrite lookup_delete_ne by congruence. done.
  - intros k' j Ha. apply (inv_backed _ _ HI k' j). by apply Hal.
  - intros a o Hao. destruct (inv_owned _ _ HI a o Hao) as [|(k' & j & Ha & Er)]; [by left|]. right. exists k', j. by rewrite <- Hal.
  - pose proof (inv_room _ _ HI) as Hr. cbn [length] in Hr. lia.
Qed.

(** The object behind a reference. *)
Lemma ref_backed k a r s : Inv (Ref k a :: r) s -> exists o, objects s !! a = Some o /\ self o = Some k.
Proof.
  intros HI. destruct (token_impl k _ _ _ HI eq_refl) as (i & Hi & Hc). destruct (counted_ref _ _ _ _ Hc) as (n & -> & El & _).
  destruct (inv_backed _ _ HI k i) as (o & Ho & Hs & _); [|by exists o]. split; [done|].
  intros Hg. assert (Hin : Gone k ∈ of_impl k r) by (apply list_elem_of_filter; split; [done|set_solver]).
  rewrite El in Hin. by apply elem_of_replicate in Hin as [? _].
Qed.

Lemma access_keeps k a g : keeps Inv 1 (access a) (Ref k a :: g) (fun _ g' => g' = Ref k a :: g).
Proof.
  apply keeps_call. intros others s HI. destruct (ref_backed _ _ _ _ HI) as (o & -> & _). by exists s, tt, (Ref k a :: g).
Qed.

Lemma Inv_make on_stack r s :
  Inv (Spare :: r) s ->
  let (s1, a) := new_object on_stack s in
  exists s' k, NewSharedPointer (Some a) (if on_stack then EmptyDeleter else DefaultDeleter) s1 = Ok (s', MkShared (Some a) (Some k)) /\
    Inv (Ref k a :: r) s'.
Proof.
  intros HI. unfold new_object. set (a := fresh (dom (objects s))).
  assert (Ha : objects s !! a = None) by apply not_elem_of_dom, is_fresh.
  unfold NewSharedPointer, NewImpl. cbn [impls set_objects set_impls objects]. set (k := fresh (dom (impls s))).
  assert (Hk : impls s !! k = None) by apply not_elem_of_dom, is_fresh.
  unfold ImplEnableShared. cbn [objects set_impls set_objects]. rewrite lookup_insert_eq. eexists _, k. split; [done|].
  cbn [automatic]. rewrite insert_insert_eq. set (o := MkObject on_stack (Some k)). set (i := MkImpl a _ 1).
  pose proof (inv_counted _ _ HI) as HC. assert (Hno : of_impl k r = []).
  { specialize (HC k). by rewrite Hk, of_impl_cons in HC. }
  assert (Hgone : Gone k ∉ r).
  { intros Hg. assert (Hin : Gone k ∈ of_impl k r) by (apply list_elem_of_filter; set_solver). rewrite Hno in Hin. set_solver. }
  assert (Hold : forall k' j, k' <> k -> alive k' j (Ref k a :: r) (MkStore (<[a := o]> (objects s)) (<[k := i]> (impls s))) <-> alive k' j (Spare :: r) s).
  { intros k' j Hne. unfold alive. cbn. rewrite lookup_insert_ne by done. set_solver. }
  split; unfold set_objects, set_impls; cbn [impls objects].
  - intros k'. specialize (HC k'). rewrite of_impl_cons in HC. rewrite of_impl_cons. cbn [about] in *.
    rewrite (bool_decide_eq_false_2 (None = Some k')) in HC by done. case_bool_decide as Hkk.
    + simplify_eq. rewrite lookup_insert_eq, Hno. left. by exists O.
    + rewrite lookup_insert_ne by congruence. done.
  - intros k' j Hal. destruct (decide (k' = k)) as [->|Hne].
    + destruct Hal as [Hj _]. cbn in Hj. rewrite lookup_insert_eq in Hj. simplify_eq. exists o.
      cbn. rewrite lookup_insert_eq. split_and!; try done. by destruct on_stack.
    + apply Hold in Hal; [|done]. destruct (inv_backed _ _ HI k' j Hal) as (o' & Ho' & ?). exists o'.
      cbn. by rewrite lookup_insert_ne by congruence.
  - intros a' o' Ho'. apply lookup_insert_Some in Ho' as [[<- <-]|[Hne Ho']].
    + right. exists k, i. split; [|done]. split; [apply lookup_insert_eq|set_solver].
    + destruct (inv_owned _ _ HI a' o' Ho') as [|(k' & j & Hal & Er)]; [by left|]. right. exists k', j.
      split; [|done]. apply Hold; [|done]. intros ->. destruct Hal as [Hj _]. congruence.
  - apply (inv_room _ _ HI).
Qed.

Lemma make_keeps on_stack g :
  keeps Inv 1 (make on_stack) (Spare :: g) (fun p g' => exists k a, p = MkShared (Some a) (Some k) /\ g' = Ref k a :: g).
Proof.
  apply keeps_call. intros others s HI. pose proof (Inv_make on_stack _ _ HI) as H. destruct (new_object on_stack s) as [s1 a].
  destruct H as (s' & k & E & HI'). exists s', (MkShared (Some a) (Some k)), (Ref k a :: g). split_and!; [exact E|done|by exists k, a].
Qed.

(** ** The operations of a pointer *)

(** A pointer is empty or stands for one reference; one made by [SharedFromThis] does
    not know its object. *)
Inductive owns : SharedPointer -> list Token -> Prop :=
  | owns_empty : owns Empty []
  | owns_ref o k a : o = None \/ o = Some a -> owns (MkShared o (Some k)) [Ref k a].

Definition spares (n : nat) : list Token := replicate n Spare.

Lemma Destroy_keeps p tp g : owns p tp -> keeps Inv 5 (Destroy p) (tp ++ g) (fun _ g' => g' = g).
Proof.
  intros [|o k a Ho]; [done|]. unfold Destroy. cbn [impl app]. apply (owned_bind _ 1 4).
  eapply keeps_mono; [done| |apply Decrement_keeps]. intros [] g'; [|by intros ->]. intros [d ->].
  apply (owned_bind _ 1 3). eapply keeps_mono; [done| |apply Pointer_keeps]. intros ? ? [-> ->].
  apply (owned_bind _ 1 2). eapply keeps_mono; [done| |apply GetDeleter_keeps]. intros ? ? [-> ->].
  apply (owned_bind _ 1 1). eapply keeps_mono; [done| |apply run_deleter_keeps]. intros ? ? ->.
  apply delete_impl_keeps.
Qed.

Lemma CopyShared_keeps p tp g :
  owns p tp -> keeps Inv 1 (CopyShared p) (tp ++ Spare :: g)
    (fun q g' => exists tq n, owns q tq /\ g' = tq ++ tp ++ spares n ++ g).
Proof.
  intros [|o k a Ho].
  - exists [], 1%nat. by split; [constructor|].
  - unfold CopyShared. cbn [impl ptr app]. apply (owned_bind _ 1 0).
    eapply keeps_mono; [done| |apply Increment_keeps]. intros ? ? ->. exists [Ref k a], O. by split; [constructor|].
Qed.

Lemma SharedFromThis_keeps k a g :
  keeps Inv 2 (SharedFromThis a) (Ref k a :: Spare :: g)
    (fun q g' => exists tq, owns q tq /\ g' = tq ++ Ref k a :: g).
Proof.
  unfold SharedFromThis. apply (owned_bind _ 1 1). apply keeps_call. intros others s HI.
  destruct (ref_backed _ _ _ _ HI) as (o & -> & ->). exists s, k, (Ref k a :: Spare :: g). split_and!; try done.
  apply (owned_bind _ 1 0). eapply keeps_mono; [done| |apply Increment_keeps]. intros ? ? ->.
  exists [Ref k a]. split; [|done]. constructor. by left.
Qed.

Lemma AssignShared_keeps this other t u g :
  owns this t -> owns other u ->
  keeps Inv 6 (AssignShared this other) (u ++ Spare :: t ++ g)
    (fun q g' => exists tq n, owns q tq /\ g' ≡ₚ tq ++ u ++ spares n ++ g).
Proof.
  intros Ht Hu. unfold AssignShared. apply (owned_bind _ 1 5). eapply keeps_mono; [done| |by apply CopyShared_keeps].
  intros q g' (tq & n & Hq & ->). cbn [Swap]. apply (owned_bind _ 5 0).
  eapply (keeps_perm Inv Inv_perm _ _ (t ++ tq ++ u ++ spares n ++ g)).
  - intros a g1 g2 Hp (tq' & m & Hq' & E). exists tq', m. by rewrite <- Hp.
  - solve_Permutation.
  - eapply keeps_mono; [done| |by apply Destroy_keeps]. intros ? ? ->. by exists tq, n.
Qed.

(** ** A thread *)

Lemma concat_perm (l l' : list (list Token)) : l ≡ₚ l' -> concat l ≡ₚ concat l'.
Proof.
  induction 1 as [|x l l' _ IH|x y l|l l' l'' _ IH _ IH']; cbn; [done|by rewrite IH| |by etrans].
  rewrite !(assoc_L (++)). f_equiv. apply Permutation_app_comm.
Qed.

(** The tokens of the pointers [env] and room for [m] more. *)
Definition has (m : nat) (env : list SharedPointer) (own : list Token) : Prop :=
  exists tss n, Forall2 owns env tss /\ (m <= n)%nat /\ own ≡ₚ concat tss ++ spares n.

Lemma has_perm m env own own' : own ≡ₚ own' -> has m env own -> has m env own'.
Proof. intros E (tss & n & Hf & Hn & Ho). exists tss, n. by rewrite <- E. Qed.

Lemma has_less m m' env own : (m' <= m)%nat -> has m env own -> has m' env own.
Proof. intros E (tss & n & Hf & Hn & Ho). exists tss, n. split_and!; [done|lia|done]. Qed.

Lemma has_cons m q tq env own : owns q tq -> has m env own -> has m (q :: env) (tq ++ own).
Proof.
  intros Hq (tss & n & Hf & Hn & Ho). exists (tq :: tss), n. split_and!; [by constructor|done|].
  cbn. by rewrite Ho, (assoc_L (++)).
Qed.

Lemma spares_plus n m : spares n ++ spares m = spares (n + m).
Proof. unfold spares. by rewrite replicate_add. Qed.

Lemma has_spares m n env own : has m env own -> has m env (spares n ++ own).
Proof.
  intros (tss & n' & Hf & Hn & Ho). exists tss, (n + n')%nat. split_and!; [done|lia|].
  rewrite Ho, <- spares_plus, !(assoc_L (++)). f_equiv. apply Permutation_app_comm.
Qed.

(** One of the pointers and what is left without it; another in its place. *)
Lemma has_at m env own i p :
  has m env own -> env !! i = Some p -> exists t r, owns p t /\ own ≡ₚ t ++ r /\ has m (delete i env) r.
Proof.
  intros (tss & n & Hf & Hn & Ho) Hi. destruct (Forall2_lookup_l _ _ _ _ _ Hf Hi) as (t & Ht & Hp).
  exists t, (concat (delete i tss) ++ spares n). split_and!; [done| |].
  - rewrite Ho, (concat_perm _ _ (delete_Permutation _ _ _ Ht)). cbn. by rewrite (assoc_L (++)).
  - exists (delete i tss), n. split_and!; [by apply Forall2_delete|done|done].
Qed.

Lemma has_put m env i q u r :
  (i < length env)%nat -> owns q u -> has m (delete i env) r -> has m (<[i := q]> env) (u ++ r).
Proof.
  intros Hi Hq (tss & n & Hf & Hn & Ho). rewrite delete_take_drop in Hf. rewrite insert_take_drop by done.
  apply Forall2_app_inv_l in Hf as (t1 & t2 & H1 & H2 & ->). exists (t1 ++ u :: t2), n. split_and!; [|done|].
  - by apply Forall2_app; [|constructor].
  - rewrite Ho, (concat_perm (t1 ++ u :: t2) (u :: t1 ++ t2)) by by rewrite Permutation_middle.
    cbn. by rewrite (assoc_L (++)).
Qed.

Lemma has_spare m env own : has (S m) env own -> exists r, own ≡ₚ Spare :: r /\ has m env r.
Proof.
  intros (tss & [|n] & Hf & Hn & Ho); [lia|]. exists (concat tss ++ spares n). split.
  - rewrite Ho. cbn. by rewrite Permutation_middle.
  - exists tss, n. split_and!; [done|lia|done].
Qed.

Lemma has_swap m env own i j p q :
  has m env own -> env !! i = Some p -> env !! j = Some q -> has m (<[i := q]> (<[j := p]> env)) own.
Proof.
  intros (tss & n & Hf & Hn & Ho) Hi Hj.
  destruct (Forall2_lookup_l _ _ _ _ _ Hf Hi) as (t & Ht & Hp). destruct (Forall2_lookup_l _ _ _ _ _ Hf Hj) as (u & Hu & Hq).
  exists (<[i := u]> (<[j := t]> tss)), n. split_and!; [by apply Forall2_insert; [apply Forall2_insert|]|done|].
  rewrite Ho. f_equiv. apply concat_perm. symmetry. by apply Permutation_insert_swap.
Qed.

Lemma has_two m env own i j p q :
  has (S m) env own -> env !! i = Some p -> env !! j = Some q -> i <> j ->
  exists t u r, owns p t /\ owns q u /\ own ≡ₚ u ++ Spare :: t ++ r /\
    (forall x n y, owns y x -> has m (<[i := y]> env) (x ++ u ++ spares n ++ r)).
Proof.
  intros Ho Hi Hj Hij. destruct (has_at _ _ _ _ _ Ho Hi) as (t & r & Ht & Er & Hr).
  assert (Hj' : exists j', delete i env !! j' = Some q).
  { destruct (decide (j < i)%nat); [exists j; by rewrite list_lookup_delete_lt|].
    exists (pred j). rewrite list_lookup_delete_ge by lia. by replace (S (pred j)) with j by lia. }
  destruct Hj' as [j' Hj']. destruct (has_at _ _ _ _ _ Hr Hj') as (u & r1 & Hu & Er1 & Hr1).
  destruct (has_spare _ _ _ Hr1) as (r2 & Er2 & Hr2). exists t, u, r2. split_and!; [done|done| |].
  - rewrite Er, Er1, Er2. solve_Permutation.
  - intros x n y Hy. apply has_put; [by eapply lookup_lt_Some|done|].
    rewrite <- (list_insert_id (delete i env) j' q) by done. apply has_put; [by eapply lookup_lt_Some|done|].
    by apply has_spares.
Qed.

Lemma op_keeps op env m own :
  has (S m) env own -> keeps Inv 6 (perform op env) own (fun env' own' => has m env' own').
Proof.
  intros Ho.
  assert (Hkeep : forall n, keeps Inv n (Ret env) own (fun env' own' => has m env' own')).
  { intros [|n]; (eapply has_less; [|exact Ho]); lia. }
  assert (Hp : forall (env' : list SharedPointer) g g', g ≡ₚ g' -> has m env' g -> has m env' g') by by intros; eapply has_perm.
  destruct op as [b|i|i j|i j|i|i|i]; cbn [perform]; try (destruct (env !! i) as [p|] eqn:Ei; [|apply Hkeep]).
  - destruct (has_spare _ _ _ Ho) as (r & Er & Hr). eapply (keeps_perm Inv Inv_perm); [apply Hp|symmetry; exact Er|].
    apply (owned_bind _ 1 5). eapply keeps_mono; [done| |apply make_keeps]. intros p g' (k & a & -> & ->).
    apply (has_cons m _ [Ref k a]); [constructor; by right|done].
  - destruct (has_at _ _ _ _ _ Ho Ei) as (t & r & Ht & Er & Hr). destruct (has_spare _ _ _ Hr) as (r1 & Er1 & Hr1).
    eapply (keeps_perm Inv Inv_perm _ _ (t ++ Spare :: r1)); [apply Hp|by rewrite Er, Er1|].
    apply (owned_bind _ 1 5). eapply keeps_mono; [done| |by apply CopyShared_keeps]. intros q g' (tq & n & Hq & ->).
    apply has_cons; [done|]. rewrite <- (list_insert_id env i p) by done.
    apply has_put; [by eapply lookup_lt_Some|done|by apply has_spares].
  - destruct (env !! j) as [q|] eqn:Ej; [|apply Hkeep]. case_bool_decide as Hij; [apply Hkeep|].
    destruct (has_two _ _ _ _ _ _ _ Ho Ei Ej Hij) as (t & u & r & Ht & Hu & Er & Hput).
    eapply (keeps_perm Inv Inv_perm); [apply Hp|symmetry; exact Er|]. apply (owned_bind _ 6 0).
    eapply keeps_mono; [done| |by apply AssignShared_keeps]. intros y g' (x & n & Hy & Eg). eapply has_perm; [by symmetry|].
    by apply Hput.
  - destruct (env !! j) as [q|] eqn:Ej; [|apply Hkeep]. cbn [Swap]. eapply has_less; [|by eapply has_swap]. lia.
  - destruct (Get p) as [a|] eqn:Ea; [|apply Hkeep]. destruct (has_at _ _ _ _ _ Ho Ei) as (t & r & Ht & Er & Hr).
    destruct (has_spare _ _ _ Hr) as (r1 & Er1 & Hr1). unfold Get in Ea. inversion Ht as [|o k a' Hoa]; subst; [done|].
    cbn in Ea. subst o. assert (a' = a) as -> by (destruct Hoa; congruence).
    eapply (keeps_perm Inv Inv_perm _ _ (Ref k a :: Spare :: r1)); [apply Hp|by rewrite Er, Er1|].
    apply (owned_bind _ 2 4). eapply keeps_mono; [done| |by apply SharedFromThis_keeps]. intros q g' (tq & Hq & ->).
    apply has_cons; [done|]. rewrite <- (list_insert_id env i (MkShared (Some a) (Some k))) by done.
    by apply (has_put _ _ _ _ [Ref k a]); [eapply lookup_lt_Some| |].
  - destruct (Get p) as [a|] eqn:Ea; [|apply Hkeep]. destruct (has_at _ _ _ _ _ Ho Ei) as (t & r & Ht & Er & Hr).
    unfold Get in Ea. inversion Ht as [|o k a' Hoa]; subst; [done|]. cbn in Ea. subst o.
    assert (a' = a) as -> by (destruct Hoa; congruence).
    eapply (keeps_perm Inv Inv_perm _ _ (Ref k a :: r)); [apply Hp|by rewrite Er|].
    apply (owned_bind _ 1 5). eapply keeps_mono; [done| |by apply access_keeps]. intros ? g' ->.
    eapply has_less; [|eapply has_perm; [exact Er|exact Ho]]. lia.
  - destruct (has_at _ _ _ _ _ Ho Ei) as (t & r & Ht & Er & Hr).
    eapply (keeps_perm Inv Inv_perm); [apply Hp|symmetry; exact Er|]. apply (owned_bind _ 5 1).
    eapply keeps_mono; [done| |by apply Destroy_keeps]. intros ? g' ->. eapply has_less; [|exact Hr]. lia.
Qed.

Lemma ops_keep ops env own :
  has (length ops) env own -> keeps Inv (6 * length ops) (perform_all ops env) own (fun env' own' => has 0 env' own').
Proof.
  revert env own. induction ops as [|op ops IH]; intros env own Ho; [done|]. cbn [perform_all length].
  replace (6 * S (length ops))%nat with (6 + 6 * length ops)%nat by lia. apply owned_bind.
  eapply keeps_mono; [done| |by apply op_keeps]. intros env' g Hg. by apply IH.
Qed.

(** ** What is promised *)

(** The pointers [ps] are all there are: each leads to its record and object, every
    count is right, and an object that is not automatic has a record. *)
Definition count (k : positive) (ps : list SharedPointer) : nat := length (filter (fun p => impl p = Some k) ps).

Record sound (ps : list SharedPointer) (s : Store) : Prop := {
  sound_pointer : forall p, p ∈ ps ->
    match impl p with
    | None => ptr p = None
    | Some k => exists i, impls s !! k = Some i /\ (ptr p = None \/ ptr p = Some (raw i))
    end;
  sound_count : forall k i, impls s !! k = Some i -> refCnt i = Z.of_nat (count k ps) /\ 0 < refCnt i;
  sound_object : forall k i, impls s !! k = Some i -> backed k i s;
  sound_left : forall a o, objects s !! a = Some o ->
    automatic o = true \/ exists k i, impls s !! k = Some i /\ raw i = a
}.

Definition tokens_of (s : Store) (p : SharedPointer) : list Token :=
  match impl p with
  | Some k => match impls s !! k with Some i => [Ref k (raw i)] | None => [] end
  | None => []
  end.

Lemma tokens_owns ps s : sound ps s -> forall p, p ∈ ps -> owns p (tokens_of s p).
Proof.
  intros Hs p Hp. pose proof (sound_pointer _ _ Hs p Hp) as H. unfold tokens_of. destruct p as [o [k|]]; cbn in *.
  - destruct H as (i & -> & Ho). by constructor.
  - subst. constructor.
Qed.

Lemma count_cons k p ps : count k (p :: ps) = ((if bool_decide (impl p = Some k) then 1 else 0) + count k ps)%nat.
Proof. unfold count. rewrite filter_cons. by case_decide; case_bool_decide. Qed.

Lemma of_impl_tokens s k i ps :
  impls s !! k = Some i -> of_impl k (concat (map (tokens_of s) ps)) = replicate (count k ps) (Ref k (raw i)).
Proof.
  intros Hi. induction ps as [|p ps IH]; [done|]. cbn [map concat]. rewrite of_impl_app, IH, count_cons. unfold tokens_of.
  destruct (impl p) as [k'|]; [|by rewrite bool_decide_eq_false_2]. case_bool_decide as Hk.
  - simplify_eq. rewrite Hi, of_impl_cons, bool_decide_eq_true_2 by done. done.
  - destruct (impls s !! k') as [j|]; [|done]. rewrite of_impl_cons, bool_decide_eq_false_2 by done. done.
Qed.

Lemma of_impl_spares k n : of_impl k (spares n) = [].
Proof. induction n as [|n IH]; [done|]. by rewrite <- IH. Qed.

Lemma of_impl_no_tokens s k ps : impls s !! k = None -> of_impl k (concat (map (tokens_of s) ps)) = [].
Proof.
  intros Hi. induction ps as [|p ps IH]; [done|]. cbn [map concat]. rewrite of_impl_app, IH, app_nil_r. unfold tokens_of.
  destruct (impl p) as [k'|]; [|done]. destruct (impls s !! k') as [j|] eqn:E; [|done].
  rewrite of_impl_cons, bool_decide_eq_false_2; [done|]. cbn. congruence.
Qed.

Lemma no_gone s ps n k : Gone k ∉ concat (map (tokens_of s) ps) ++ spares n.
Proof.
  intros [Hg|Hg]%elem_of_app.
  - induction ps as [|p ps IH]; [set_solver|]. cbn in Hg. apply elem_of_app in Hg as [Hg|Hg]; [|done].
    unfold tokens_of in Hg. destruct (impl p) as [k'|]; [destruct (impls s !! k')|]; set_solver.
  - by apply elem_of_replicate in Hg as [? _].
Qed.

Lemma sound_Inv ps s n :
  sound ps s -> Z.of_nat (length ps + n) < 2147483648 -> Inv (concat (map (tokens_of s) ps) ++ spares n) s.
Proof.
  intros Hs Hr. split.
  - intros k. rewrite of_impl_app, of_impl_spares, app_nil_r. destruct (impls s !! k) as [i|] eqn:Hi; [|by apply of_impl_no_tokens].
    rewrite (of_impl_tokens s k i) by done. destruct (sound_count _ _ Hs k i Hi) as [Ec Hp]. left. exists (pred (count k ps)).
    replace (S (pred (count k ps))) with (count k ps) by lia. done.
  - intros k i [Hi _]. by apply (sound_object _ _ Hs).
  - intros a o Ho. destruct (sound_left _ _ Hs a o Ho) as [|(k & i & Hi & Er)]; [by left|]. right. exists k, i.
    split; [|done]. split; [done|apply no_gone].
  - assert (Hl : (length (concat (map (tokens_of s) ps)) <= length ps)%nat).
    { clear. induction ps as [|p ps IH]; [done|]. cbn. rewrite length_app. unfold tokens_of at 1.
      destruct (impl p) as [k|]; [destruct (impls s !! k)|]; cbn; lia. }
    unfold spares. rewrite length_app, length_replicate. lia.
Qed.

(** The tokens of pointers are references, one for each pointer that is not empty. *)
Lemma owns_refs k ps tss :
  Forall2 owns ps tss ->
  length (of_impl k (concat tss)) = count k ps /\ Forall (fun t => exists k a, t = Ref k a) (concat tss).
Proof.
  induction 1 as [|p ts ps tss Hp _ [IH IHr]]; [done|]. cbn [concat]. rewrite of_impl_app, length_app, IH, count_cons.
  destruct Hp as [|o j a Ho]; cbn [impl].
  - by rewrite bool_decide_eq_false_2.
  - rewrite of_impl_cons. cbn [about]. split; [by case_bool_decide|]. constructor; [by exists j, a|done].
Qed.

Lemma Inv_sound ps g s : has 0 ps g -> Inv g s -> sound ps s.
Proof.
  intros (tss & n & Hf & _ & Eg) HI. apply (Inv_perm _ _ _ Eg) in HI.
  assert (Hrefs : forall t, t ∈ concat tss ++ spares n -> t = Spare \/ exists k a, t = Ref k a).
  { intros t [Ht|Ht]%elem_of_app; [|left; by apply elem_of_replicate in Ht as [-> _]]. right.
    destruct (owns_refs 1%positive _ _ Hf) as [_ Hr]. rewrite Forall_forall in Hr. by apply Hr. }
  assert (Hall : forall k i, impls s !! k = Some i -> alive k i (concat tss ++ spares n) s).
  { intros k i Hi. split; [done|]. by intros [|(? & ? & ?)]%Hrefs. }
  split.
  - intros p Hp. apply list_elem_of_lookup in Hp as [i Hi]. destruct (Forall2_lookup_l _ _ _ _ _ Hf Hi) as (t & Ht & Ho).
    destruct Ho as [|o k a Ho]; [done|]. cbn. assert (HI' : Inv (Ref k a :: concat (delete i tss) ++ spares n) s).
    { eapply Inv_perm; [|exact HI]. by rewrite (concat_perm _ _ (delete_Permutation _ _ _ Ht)). }
    destruct (token_impl k _ _ _ HI' eq_refl) as (j & Hj & Hc). destruct (counted_ref _ _ _ _ Hc) as (_ & -> & _). by exists j.
  - intros k i Hi. pose proof (inv_counted _ _ HI k) as Hc. rewrite Hi, of_impl_app, of_impl_spares, app_nil_r in Hc.
    destruct (owns_refs k _ _ Hf) as [El _].
    assert (Hin : forall t, t ∈ of_impl k (concat tss) -> t ∈ concat tss ++ spares n).
    { intros t [_ Ht]%list_elem_of_filter. apply elem_of_app. by left. }
    destruct Hc as [(m & E & En)|[[E _]|[E _]]]; rewrite E in *.
    + rewrite length_replicate in El. rewrite <- El, En. lia.
    + destruct (Hrefs (Dying k (raw i) (deleter i))) as [|(? & ? & ?)]; [|done|done]. apply Hin. by left.
    + destruct (Hrefs (Gone k)) as [|(? & ? & ?)]; [|done|done]. apply Hin. by left.
  - intros k i Hi. by apply (inv_backed _ _ HI), Hall.
  - intros a o Ho. destruct (inv_owned _ _ HI a o Ho) as [|(k & i & [Hi _] & Er)]; [by left|]. right. by exists k, i.
Qed.

(** ** Threads that share objects *)

Lemma has_app m env1 env2 own1 own2 : has m env1 own1 -> has 0 env2 own2 -> has m (env1 ++ env2) (own1 ++ own2).
Proof.
  intros (t1 & n1 & H1 & Hn & E1) (t2 & n2 & H2 & _ & E2). exists (t1 ++ t2), (n1 + n2)%nat. split_and!; [by apply Forall2_app|lia|].
  rewrite E1, E2, concat_app, <- spares_plus. solve_Permutation.
Qed.

Lemma has_all envs gs : Forall2 (has 0) envs gs -> has 0 (concat envs) (concat gs).
Proof. induction 1 as [|env g envs gs He _ IH]; [by exists [], O|]. cbn. by apply has_app. Qed.

Definition Client : Type := list SharedPointer * list Op.
Definition run_client (c : Client) : prog (list SharedPointer) := perform_all (snd c) (fst c).

(** Pointers there are, and how many may be made. *)
Definition uses (cs : list Client) : nat := sum_list_with (fun c => length (fst c) + length (snd c))%nat cs.

Definition owner_of (s : Store) (c : Client) : Owner :=
  MkOwner (W := Token) (run_client c) (6 * length (snd c)) (concat (map (tokens_of s) (fst c)) ++ spares (length (snd c))).

Lemma owners_tokens s cs :
  all_owned (map (owner_of s) cs) ≡ₚ
  concat (map (tokens_of s) (concat (map fst cs))) ++ spares (sum_list_with (fun c => length (snd c)) cs).
Proof.
  unfold all_owned. induction cs as [|c cs IH]; [done|]. cbn -[spares]. rewrite IH, map_app, concat_app, <- spares_plus. solve_Permutation.
Qed.

Lemma uses_split cs :
  uses cs = (length (concat (map fst cs)) + sum_list_with (fun c => length (snd c)) cs)%nat.
Proof. unfold uses. induction cs as [|c cs IH]; [done|]. cbn. rewrite IH, length_app. lia. Qed.

Lemma owner_keeping s c :
  (forall p, p ∈ fst c -> owns p (tokens_of s p)) -> keeping Inv (has 0) (owner_of s c).
Proof.
  intros Hp. apply ops_keep. exists (map (tokens_of s) (fst c)), (length (snd c)). split_and!; [|done|done].
  apply Forall2_fmap_r, Forall_Forall2_diag, Forall_forall. exact Hp.
Qed.

(** C5. Threads that copy, assign, swap, drop and make shared pointers, take pointers
    from the objects themselves and use the objects: under every schedule all of them
    end without an access to an object or a record that is gone and without deleting
    anything twice; afterwards every count is the number of pointers that are left,
    each of which leads to a living object; and when no pointer is left, every record
    and every object that was made with [new] is gone. There may be less than 2^31
    pointers at once. *)
Theorem shared_pointers_counted (cs : list Client) (s : Store) :
  sound (concat (map fst cs)) s -> Z.of_nat (uses cs) < 2147483648 ->
  ends (fun envs s' => sound (concat envs) s' /\
      (concat envs = [] -> impls s' = ∅ /\ forall a o, objects s' !! a = Some o -> automatic o = true))
    (map run_client cs, s).
Proof.
  intros Hs Hr. replace (map run_client cs) with (map (code (A := list SharedPointer)) (map (owner_of s) cs)) by by rewrite map_map.
  eapply ends_mono; [|apply (owners_end Inv Inv_perm (has 0))].
  - intros envs s' (gs & Hf & HI). assert (Hs' : sound (concat envs) s') by by eapply Inv_sound; [apply has_all|].
    split; [done|]. intros E. rewrite E in Hs'. assert (Hn : impls s' = ∅).
    { apply map_eq. intros k. rewrite lookup_empty. destruct (impls s' !! k) as [i|] eqn:Hi; [|done].
      destruct (sound_count _ _ Hs' k i Hi) as [En Hp]. cbn in En. lia. }
    split; [done|]. intros a o Ho. destruct (sound_left _ _ Hs' a o Ho) as [|(k & i & Hi & _)]; [done|]. by rewrite Hn in Hi.
  - apply List.Forall_map, Forall_forall. intros c Hc. apply owner_keeping. intros p Hp. eapply tokens_owns; [exact Hs|].
    apply list_elem_of_In, in_concat. exists (fst c). split; [by apply in_map, list_elem_of_In|by apply list_elem_of_In].
  - eapply Inv_perm; [symmetry; apply owners_tokens|]. apply sound_Inv; [done|]. by rewrite <- uses_split.
Qed.

Module SharingDemo.
(** Two threads with a pointer each to the object 1. *)
Definition shared : SharedPointer := MkShared (Some 1%positive) (Some 1%positive).
Definition store : Store :=
  MkStore {[1%positive := MkObject false (Some 1%positive)]} {[1%positive := MkImpl 1 DefaultDeleter 2]}.
Definition clients : list Client :=
  [([shared], [OCopy 0; OUse 1; ODrop 0; OUse 0; ODrop 0]);
   ([shared], [OSelf 0; OMake false; OAssign 1 0; OSwap 0 2; ODrop 0; OUse 0; ODrop 0; ODrop 0])].

(** One schedule: nothing is left. *)
Example all_gone :
  let (ms, s) := play_pool (concat (replicate 30 [0%nat; 1%nat])) (map run_client clients, store) in
  map (fun m => match m with Ret env => Some env | _ => None end) ms = [Some []; Some []] /\
  objects s = ∅ /\ impls s = ∅.
Proof. vm_compute. by split_and!. Qed.

(** The pointer of [SharedFromThis] is valid and null. *)
Example self_pointer_is_null :
  match alone (perform_all [OMake false; OSelf 0] []) (MkStore ∅ ∅) with
  | Some (_, Ok (p :: _)) => IsValid p = true /\ Get p = None
  | _ => False
  end.
Proof. vm_compute. by split. Qed.
End SharingDemo.

Lemma shared_pointers_counted_witness :
  ends (fun envs s' => sound (concat envs) s' /\
      (concat envs = [] -> impls s' = ∅ /\ forall a o, objects s' !! a = Some o -> automatic o = true))
    (map run_client SharingDemo.clients, SharingDemo.store).
Proof.
  apply (shared_pointers_counted SharingDemo.clients SharingDemo.store); [|vm_compute; reflexivity]. split.
  - intros p Hp. cbn in Hp. assert (p = SharingDemo.shared) as -> by set_solver. by eexists; split; [|right].
  - intros k i Hi. cbn in Hi. apply lookup_singleton_Some in Hi as [<- <-]. by vm_compute.
  - intros k i Hi. cbn in Hi. apply lookup_singleton_Some in Hi as [<- <-]. exists (MkObject false (Some 1%positive)).
    split; [vm_compute; reflexivity|]. split; [reflexivity|]. by split.
  - intros a o Ho. cbn in Ho. apply lookup_singleton_Some in Ho as [<- <-]. right.
    exists 1%positive, (MkImpl 1 DefaultDeleter 2). split; [vm_compute; reflexivity|reflexivity].
Defined.
End Sharing.

Module Waiting.
Import Pool Concurrent.
Local Open Scope main_scope.

(** A deadline is a time of the clock, later by the timeout. *)
Lemma deadline_later sec nsec ms sec' nsec' :
  0 <= nsec < 1000000000 -> 0 <= ms -> deadline sec nsec ms = (sec', nsec') ->
  0 <= nsec' < 1000000000 /\ sec' * 1000000000 + nsec' = sec * 1000000000 + nsec + ms * 1000000.
Proof.
  intros Hn Hm [= <- <-]. rewrite !Z.rem_mod_nonneg, !Z.quot_div_nonneg; try lia;
    rewrite ?Z.rem_mod_nonneg by lia; pose proof (Z.mod_pos_bound ms 1000); try lia.
  pose proof (Z.div_mod ms 1000). pose proof (Z.div_mod (nsec + ms mod 1000 * 1000000) 1000000000).
  pose proof (Z.mod_pos_bound (nsec + ms mod 1000 * 1000000) 1000000000). lia.
Qed.

(** A guard that was reset gives nothing back when it dies. *)
Lemma guard_leaves_once {St} (enter leave body : main St unit) s :
  alone (let! g := NewGuard enter in body ;; let! g := Reset leave g in DestroyGuard leave g) s =
  alone (enter ;; body ;; leave) s.
Proof.
  unfold NewGuard. rewrite !alone_bind. destruct (alone enter s) as [[s1 [[]|e]]|]; cbn [alone]; [|done..].
  rewrite !alone_bind. destruct (alone body s1) as [[s2 [[]|e]]|]; [|done..].
  cbn [Reset]. rewrite !alone_bind. by destruct (alone leave s2) as [[s3 [[]|e]]|].
Qed.

(** A thread waits for a latch, and for ever if nobody counts down. *)
Example latch_opens :
  map running (fst (play_pool (concat (replicate 12 [0%nat; 1%nat])) ([Await 1; CountDown], NewEvent))) = [false; false].
Proof. reflexivity. Qed.
Example latch_stays : alone (Await 1) NewEvent = None.
Proof. reflexivity. Qed.

(** An event that is reset before the thread that was woken has the mutex: [WaitFor]
    answers true, [Wait] sleeps again. *)
Example event_missed :
  let sched := replicate 4 0%nat ++ replicate 4 1%nat ++ replicate 3 2%nat ++ replicate 5 0%nat in
  match play_pool sched ([let! b := EventWaitFor false in Ret (Some b); EventSet ;; Ret None; EventReset ;; Ret None], NewEvent) with
  | ([Ret (Some b); _; _], e) => b = true /\ state e = false
  | _ => False
  end.
Proof. vm_compute. by split. Qed.

(** ** Values of a thread *)

Section ThreadLocal.
Context {V : Type} (zero : V).

(** What a thread reads at an index. *)
Definition value (s : gmap positive (gmap Z (option V))) (thread : positive) (idx : Z) : V :=
  match s !! thread with Some m => default zero (default None (m !! idx)) | None => zero end.

Lemma Get_value s t i : snd (ThreadLocalGet zero t i s) = value s t i.
Proof. unfold ThreadLocalGet, value. by destruct (s !! t). Qed.

Lemma Get_same s t i t' i' : value (fst (ThreadLocalGet zero t i s)) t' i' = value s t' i'.
Proof.
  unfold ThreadLocalGet, value. destruct (s !! t) as [m|] eqn:E; [|done]. cbn.
  destruct (decide (t' = t)) as [->|Ht]; [|by rewrite lookup_insert_ne]. rewrite lookup_insert_eq, E.
  destruct (decide (i' = i)) as [->|Hi]; [by rewrite lookup_insert_eq|by rewrite lookup_insert_ne].
Qed.

Lemma Set_value s t i v t' i' :
  value (ThreadLocalSet t i v s) t' i' = if decide (t' = t /\ i' = i) then v else value s t' i'.
Proof.
  unfold ThreadLocalSet, value. destruct (decide (t' = t)) as [->|Ht].
  - destruct (decide (i' = i)) as [->|Hi].
    + rewrite decide_True by done. destruct (s !! t); rewrite lookup_insert_eq; [by rewrite lookup_insert_eq|by rewrite lookup_singleton_eq].
    + rewrite decide_False by tauto. destruct (s !! t) as [m|]; rewrite lookup_insert_eq; [by rewrite lookup_insert_ne|].
      by rewrite lookup_singleton_ne.
  - rewrite decide_False by tauto. destruct (s !! t); by rewrite lookup_insert_ne.
Qed.

Lemma Remove_value s t i t' i' :
  value (ThreadLocalRemove t i s) t' i' = if decide (t' = t /\ i' = i) then zero else value s t' i'.
Proof.
  unfold ThreadLocalRemove, value. destruct (s !! t) as [m|] eqn:E.
  - destruct (decide (t' = t)) as [->|Ht].
    + rewrite E. assert (Hd : default zero (default None (delete i m !! i')) = if decide (t = t /\ i' = i) then zero else default zero (default None (m !! i'))).
      { destruct (decide (i' = i)) as [->|Hi]; [by rewrite decide_True, lookup_delete_eq|].
        rewrite decide_False by tauto. by rewrite lookup_delete_ne. }
      rewrite <- Hd. case_bool_decide as He; [by rewrite lookup_delete_eq, He|by rewrite lookup_insert_eq].
    + rewrite decide_False by tauto. case_bool_decide; [by rewrite lookup_delete_ne|by rewrite lookup_insert_ne].
  - destruct (decide (t' = t /\ i' = i)) as [[-> ->]|]; [by rewrite E|done].
Qed.
End ThreadLocal.
End Waiting.
