(* ===== verification/Logging.v ===== *)
(** * Logging: the logger and the threads that write to it

    Models [src/log.cpp] and [include/iotsitewise/odbc/log.h]: the single logger
    with its file, the macro behind [LOG_DEBUG_MSG] and its siblings, and the
    changes of level and path, as programs of atomic actions, so that threads may
    interleave. [CriticalSection] ([concurrent_os.cpp]) is a flag that blocks. The
    streams of the C++ library are written out: opening an open file stream fails
    and sets its fail bit, a stream whose fail bit is set writes nothing, and
    opening a closed one clears the bit. *)

From S2P Require Import Prelude Text Diagnostics Configuration Interleave Pool.

Module Log.
Import Text Config.
Local Open Scope main_scope.

(** The file system: which files can be opened, the separator of paths, the name
    of the file of the day ([CreateFileName] takes it from the clock). *)
Class FileSystem : Type := {
  can_open : text -> bool;
  Fs : text;
  daily_name : text;
  daily_name_there : daily_name <> []
}.

Section Log.
Context `{!Platform} `{!FileSystem}.

(** ** The state *)

(** A stream that is given to the logger: its own file, or another. *)
Inductive Sink : Type := FileSink | OtherSink (n : positive).
#[global] Instance Sink_eq_dec : EqDecision Sink.
Proof. solve_decision. Defined.

(** [mutex]: whether a thread is in the critical section. [opened] and [failed]
    are [fileStream]; [files] and [outputs] what was written to files and to other
    streams. *)
Record Logger : Type := MkLogger {
  mutex : bool;
  opened : option text;
  failed : bool;
  stream : option Sink;
  logPath : text;
  logLevel : Z;
  logFileName : text;
  logFilePath : text;
  files : gmap text (list text);
  outputs : gmap positive (list text)
}.

Definition NewLogger : Logger :=
  MkLogger false None false None default_log_path (level_code WARNING_LEVEL) [] [] ∅ ∅.

Definition set_mutex (v : bool) (l : Logger) : Logger :=
  MkLogger v (opened l) (failed l) (stream l) (logPath l) (logLevel l) (logFileName l) (logFilePath l)
    (files l) (outputs l).
Definition set_file (v : option text) (bad : bool) (l : Logger) : Logger :=
  MkLogger (mutex l) v bad (stream l) (logPath l) (logLevel l) (logFileName l) (logFilePath l)
    (files l) (outputs l).
Definition set_stream (v : option Sink) (l : Logger) : Logger :=
  MkLogger (mutex l) (opened l) (failed l) v (logPath l) (logLevel l) (logFileName l) (logFilePath l)
    (files l) (outputs l).
Definition set_logPath (v : text) (l : Logger) : Logger :=
  MkLogger (mutex l) (opened l) (failed l) (stream l) v (logLevel l) (logFileName l) (logFilePath l)
    (files l) (outputs l).
Definition set_logLevel (v : Z) (l : Logger) : Logger :=
  MkLogger (mutex l) (opened l) (failed l) (stream l) (logPath l) v (logFileName l) (logFilePath l)
    (files l) (outputs l).
Definition set_logFile (name path : text) (l : Logger) : Logger :=
  MkLogger (mutex l) (opened l) (failed l) (stream l) (logPath l) (logLevel l) name path (files l) (outputs l).
Definition set_written (f : gmap text (list text)) (o : gmap positive (list text)) (l : Logger) : Logger :=
  MkLogger (mutex l) (opened l) (failed l) (stream l) (logPath l) (logLevel l) (logFileName l) (logFilePath l) f o.

Abbreviation prog := (main Logger).

(** ** Streams *)

(** [open] for appending and [close] of a file stream. *)
Definition open_file (path : text) (l : Logger) : Logger :=
  match opened l with
  | Some _ => set_file (opened l) true l
  | None => if can_open path then set_file (Some path) false l else set_file None true l
  end.
Definition close_file (l : Logger) : Logger :=
  match opened l with
  | Some _ => set_file None (failed l) l
  | None => set_file None true l
  end.

(** [*stream << message << std::endl]. *)
Definition append {K} `{Countable K} (k : K) (message : text) (m : gmap K (list text)) : gmap K (list text) :=
  <[k := default [] (m !! k) ++ [message]]> m.
Definition write_out (message : text) (l : Logger) : option Logger :=
  match stream l with
  | None => None
  | Some (OtherSink n) => Some (set_written (files l) (append n message (outputs l)) l)
  | Some FileSink =>
      if failed l then Some l
      else
        match opened l with
        | Some path => Some (set_written (append path message (files l)) (outputs l) l)
        | None => Some (set_file None true l)
        end
  end.

(** ** The critical section *)

Definition Enter : prog unit := wait (fun l => if mutex l then None else Some (set_mutex true l, tt)).
Definition Leave : prog unit := act (set_mutex false).

(** ** The logger *)

Definition SetLogStream (v : option Sink) : prog unit := act (set_stream v).
Definition GetLogStream : prog (option Sink) := ask stream.
Definition SetLogLevel (level : Z) : prog unit := act (set_logLevel level).
Definition GetLogLevel : prog Z := ask logLevel.
Definition GetLogPath : prog text := ask logPath.
Definition IsFileStreamOpen (l : Logger) : bool := bool_decide (is_Some (opened l)).
Definition is_enabled (l : Logger) : bool :=
  bool_decide (is_Some (stream l)) && (bool_decide (stream l <> Some FileSink) || IsFileStreamOpen l).
Definition IsEnabled : prog bool := ask is_enabled.

(** In the critical section: the name of the file when there is none, and the
    file. *)
Definition name_file (l : Logger) : Logger :=
  if Config.empty (logFileName l) then set_logFile daily_name (logPath l ++ Fs ++ daily_name) l else l.
Definition open_log : prog unit :=
  Enter ;;
  act name_file ;;
  act (fun l => open_file (logFilePath l) l) ;;
  Leave.

Definition EnableLog : prog bool :=
  let! s := ask stream in
  (if bool_decide (s = None) then SetLogStream (Some FileSink) else Ret tt) ;;
  let! enabled := IsEnabled in
  let! level := ask logLevel in
  let! s := ask stream in
  (if negb enabled && negb (level =? level_code OFF) && bool_decide (s = Some FileSink)
   then open_log else Ret tt) ;;
  IsEnabled.

Definition WriteMessage (message : text) : prog unit :=
  let! enabled := IsEnabled in
  if enabled : bool then
    Enter ;;
    call (fun l => match write_out message l with Some l => Ok (l, tt) | None => Err NullPointer end) ;;
    Leave
  else Ret tt.

(** ** The macro *)

Definition msg_prefix (level : LogLevel) : text :=
  match level with
  | DEBUG_LEVEL => txt "DEBUG MSG: " | INFO_LEVEL => txt "INFO MSG: "
  | WARNING_LEVEL => txt "WARNING MSG: " | ERROR_LEVEL => txt "ERROR MSG: "
  | _ => []
  end.

(** What follows the last separator; nothing if there is none. *)
Fixpoint after_last (sep : ascii) (s : text) : option text :=
  match s with
  | [] => None
  | c :: s =>
      match after_last sep s with
      | Some t => Some t
      | None => if bool_decide (c = sep) then Some s else None
      end
  end.
Definition GetBaseFileName (s : text) : text := default [] (after_last "/"%char s).

(** A use of the macro: the level, the thread and the time, the place, the text. *)
Record Message : Type := MkMessage {
  level : LogLevel;
  thread : text;
  time : text;
  file : text;
  line : text;
  function : text;
  param : text
}.

Definition format (m : Message) : text :=
  txt "TID: " ++ thread m ++ txt " " ++ time m ++ msg_prefix (level m) ++ txt " "
  ++ GetBaseFileName (file m) ++ txt ":" ++ line m ++ txt " " ++ function m ++ txt ": " ++ param m.

(** [WRITE_MSG_TO_STREAM]; [logStream] replaces the stream for this message. *)
Definition WRITE_MSG_TO_STREAM (m : Message) (logStream : option Sink) : prog unit :=
  let! l := GetLogLevel in
  if l <? level_code (level m) then Ret tt
  else
    let! enabled := IsEnabled in
    let! enabled := (if enabled : bool then Ret true else EnableLog) in
    if negb enabled then Ret tt
    else
      let! prevStream := GetLogStream in
      (match logStream with Some s => SetLogStream (Some s) | None => Ret tt end) ;;
      WriteMessage (format m) ;;
      (match logStream with Some _ => SetLogStream prevStream | None => Ret tt end).

Definition LOG_MSG (m : Message) : prog unit := WRITE_MSG_TO_STREAM m None.

(** ** The path *)

(** The messages of [SetLogPath] itself, from a thread at some time. *)
Definition note (level : LogLevel) (from : Message) (param : text) : Message :=
  MkMessage level (thread from) (time from) (file from) (line from) (function from) param.

Definition SetLogPath (from : Message) (path : text) : prog unit :=
  let! p := ask logPath in
  if text_eqb p path then
    LOG_MSG (note DEBUG_LEVEL from
      (txt "WARNING: SetLogPath is called with the existing path string. SetLogPath should only be called once in normal circumstances aside from testing."))
  else if negb (IsValidDirectory path) then Ret tt
  else
    let! oldLogFilePath := ask logFilePath in
    act (set_logPath path) ;;
    let! enabled := IsEnabled in
    let! level := ask logLevel in
    (if enabled && negb (level =? level_code OFF) then
       LOG_MSG (note INFO_LEVEL from
         (txt "Reset log path: Log path is changed to " ++ path
          ++ txt ". Log file is in format iotsitewise_odbc_YYYYMMDD.log")) ;;
       Enter ;;
       act close_file ;;
       act (fun l => set_logFile [] (logFilePath l) l) ;;
       Leave ;;
       LOG_MSG (note INFO_LEVEL from
         (txt "Previously logged information is stored in log file " ++ oldLogFilePath))
     else Ret tt) ;;
    SetLogStream (Some FileSink).
End Log.

(** ** The one logger *)

(** [logger_] and [mutexForCreation], and how many loggers were made. *)
Record Instances : Type := MkInstances {
  mutexForCreation : bool;
  logger_ : option nat;
  made : nat
}.

Definition set_creation (v : bool) (s : Instances) : Instances := MkInstances v (logger_ s) (made s).
Definition make_logger (s : Instances) : Instances :=
  MkInstances (mutexForCreation s) (Some (made s)) (S (made s)).

Definition GetLoggerInstance : main Instances (option nat) :=
  let! l := ask logger_ in
  (match l with
   | Some _ => Ret tt
   | None =>
       wait (fun s => if mutexForCreation s then None else Some (set_creation true s, tt)) ;;
       let! l := ask logger_ in
       (match l with Some _ => Ret tt | None => act make_logger end) ;;
       act (set_creation false)
   end) ;;
  ask logger_.

(** ** The default path *)

(** [GetDefaultLogPath] on Unix: the variable [HOME], the entry of the user in the
    password file, the working directory. *)
Definition GetDefaultLogPath (HOME : option text) (pw_dir : option text) : text :=
  let defPath := default [] HOME in
  let defPath := if Config.empty defPath then default defPath pw_dir else defPath in
  if Config.empty defPath then txt "." else defPath.
End Log.
