(* ===== verification/LoggingFacts.v ===== *)
(** * LoggingFacts: what is in the log

    Threads that log into an open file interleave whole messages and lose none; one
    thread keeps a journal; two threads that open the file at once lose the log for
    good; and all threads that ask for the logger get the same one. *)

From S2P Require Import Prelude Text Diagnostics Configuration Interleave Pool Logging.

Module LogFacts.
Import Text Config Pool Log.
Local Open Scope main_scope.

(** ** Threads that log *)

Section Threads.
Context `{!Platform} `{!FileSystem}.
Implicit Types (s l : Logger) (m : Message).

Fixpoint log_all (ms : list Message) : main Logger unit :=
  match ms with
  | [] => Ret tt
  | m :: ms => LOG_MSG m ;; log_all ms
  end.

(** The logger writes to the file [path] at a level; [bad]: its stream failed. *)
Context (path : text) (lvl : Z) (bad : bool).

Definition writing (l : Logger) : Prop :=
  stream l = Some FileSink /\ opened l = Some path /\ failed l = bad /\ logLevel l = lvl.

Definition content (p : text) (l : Logger) : list text := default [] (files l !! p).

(** [w] was added to the file, and nothing else written. *)
Definition adds (l : Logger) (w : list text) (l' : Logger) : Prop :=
  content path l' = content path l ++ w /\ (forall p, p <> path -> files l' !! p = files l !! p) /\
  outputs l' = outputs l.

(** What reaches the file of a message. *)
Definition shown (m : Message) : bool := level_code (level m) <=? lvl.
Definition lines_of (ms : list Message) : list text :=
  if bad then [] else map format (List.filter shown ms).

Abbreviation logs := (proto (B := unit) mutex writing adds (fun g : bool => g) (fun _ _ => True)).

Lemma adds_quiet l l' : files l' = files l -> outputs l' = outputs l -> adds l [] l'.
Proof. intros Ef Eo. unfold adds, content. rewrite Ef. split_and!; [by rewrite app_nil_r|done|done]. Qed.

Lemma adds_nil l : adds l [] l.
Proof. by apply adds_quiet. Qed.

Lemma adds_app l o1 l1 o2 l2 : adds l o1 l1 -> adds l1 o2 l2 -> adds l (o1 ++ o2) l2.
Proof.
  intros (E1 & F1 & O1) (E2 & F2 & O2). split_and!.
  - by rewrite E2, E1, app_assoc.
  - intros p Hp. by rewrite F2, F1.
  - by rewrite O2.
Qed.

Lemma allowed_same g l :
  writing l -> allowed mutex writing adds (fun g : bool => g) (fun _ _ => True) g g l l [].
Proof. intros Hl. split_and!; try done; [by left|apply adds_nil]. Qed.

(** A read of the state. *)
Lemma proto_ask {A B} n (r : Logger -> A) (k : A -> main Logger B) g o Q :
  (forall l, writing l -> proto mutex writing adds (fun g : bool => g) (fun _ _ => True) n (k (r l)) g o Q) ->
  proto mutex writing adds (fun g : bool => g) (fun _ _ => True) (S n) (bind (ask r) k) g o Q.
Proof.
  intros Hk. unfold ask. cbn [bind proto]. intros l Hl _ _. exists [], o, g.
  split; [done|]. split; [by apply allowed_same|]. by apply Hk.
Qed.

Lemma writing_enabled l : writing l -> is_enabled l = true.
Proof. intros (Es & Eo & _). unfold is_enabled, IsFileStreamOpen. rewrite Es, Eo. reflexivity. Qed.

Lemma write_out_writing msg l :
  writing l -> exists l', write_out msg l = Some l' /\ writing l' /\ mutex l' = mutex l /\
    adds l (if bad then [] else [msg]) l'.
Proof.
  intros (Es & Eo & Ef & El). unfold write_out. rewrite Es, Ef, Eo. destruct bad eqn:Eb.
  - exists l. split; [done|]. split; [split_and!; congruence|]. split; [done|apply adds_nil].
  - eexists. split; [done|]. split; [split_and!; cbn; congruence|]. split; [done|]. split_and!; [| |done].
    + unfold content. cbn. unfold append. by rewrite lookup_insert_eq.
    + intros p Hp. cbn. unfold append. by rewrite lookup_insert_ne.
Qed.

Lemma WriteMessage_logs msg o :
  logs 4 (WriteMessage msg) false ((if bad then [] else [msg]) ++ o) (fun _ g o' => g = false /\ o' = o).
Proof.
  unfold WriteMessage, IsEnabled. apply proto_ask. intros l Hl. rewrite writing_enabled by done.
  cbn [Enter wait bind proto]. intros l1 Hl1 _ _. destruct (mutex l1) eqn:Em; [done|].
  exists [], ((if bad then [] else [msg]) ++ o), true. split; [done|]. split.
  { split_and!; try done; [by right; left|by apply adds_quiet]. }
  cbn [call bind proto]. intros l2 Hl2 Hm2 _.
  destruct (write_out_writing msg l2 Hl2) as (l3 & -> & Hl3 & Em3 & Ha). cbn [bind].
  exists (if bad then [] else [msg]), o, true. split; [done|]. split; [split_and!; try done; by left|].
  cbn [act bind Leave proto]. intros l4 Hl4 _ _. exists [], o, false. split; [done|]. split; [|done].
  split_and!; try done; [by right; right|by apply adds_quiet].
Qed.

Lemma LOG_MSG_logs m o :
  logs 7 (LOG_MSG m) false (lines_of [m] ++ o) (fun _ g o' => g = false /\ o' = o).
Proof.
  unfold LOG_MSG, WRITE_MSG_TO_STREAM, GetLogLevel, IsEnabled, GetLogStream, lines_of. cbn [List.filter]. unfold shown.
  apply proto_ask. intros l (_ & _ & _ & El). rewrite El.
  rewrite Z.ltb_antisym. destruct (level_code (level m) <=? lvl); cbn [negb].
  - apply proto_ask. intros l1 Hl1. rewrite writing_enabled by done. cbn [bind negb].
    apply proto_ask. intros l2 Hl2. cbn [bind]. apply (proto_bind _ _ _ _ _ 4 0).
    eapply proto_mono; [..|by apply WriteMessage_logs]; [lia|]. cbn [map]. by intros _ g o' [-> ->].
  - cbn [map]. by destruct bad.
Qed.

Lemma log_all_logs ms o :
  logs (7 * length ms) (log_all ms) false (lines_of ms ++ o) (fun _ g o' => g = false /\ o' = o).
Proof.
  induction ms as [|m ms IH]; [unfold lines_of; cbn; by destruct bad|]. cbn [log_all length].
  replace (7 * S (length ms))%nat with (7 + 7 * length ms)%nat by lia. apply proto_bind.
  assert (El : lines_of (m :: ms) = lines_of [m] ++ lines_of ms).
  { unfold lines_of. cbn [List.filter]. by destruct bad, (shown m). }
  rewrite El, <- app_assoc. eapply proto_mono; [done| |apply LOG_MSG_logs]. intros _ g o' [-> ->]. exact IH.
Qed.

(** A pool of threads that log. *)
Lemma threads_log threads l :
  writing l -> mutex l = false ->
  ends (fun _ l' => writing l' /\ mutex l' = false /\ exists w, adds l w l' /\ interleaves (map lines_of threads) w)
    (map log_all threads, l).
Proof.
  intros Hl Hm.
  set (ts := map (fun ms => MkThread (St := Logger) (A := unit) (log_all ms) (7 * length ms) false (lines_of ms)) threads).
  assert (Hend : pool_ends mutex writing adds (fun _ : unit => True) ts l).
  { apply (pool_ends_ok _ _ _ (fun g : bool => g) (fun _ _ => True) _ adds_nil adds_app ts None). split_and!.
    - apply List.Forall_map, Forall_forall. intros ms _. unfold fine. cbn [code fuel ghost rest].
      rewrite <- (app_nil_r (lines_of ms)). eapply proto_mono; [done| |apply log_all_logs]. by intros [] g o' [-> ->].
    - done.
    - by apply Forall_forall.
    - by rewrite Hm.
    - intros i t Ei. unfold ts in Ei. change (map ?f threads) with (f <$> threads) in Ei.
      rewrite list_lookup_fmap in Ei. destruct (threads !! i); [|done]. by injection Ei as <-.
    - done. }
  unfold pool_ends, ts in Hend. rewrite !map_map in Hend. cbn [code rest] in Hend.
  eapply ends_mono; [|exact Hend]. intros xs l' (_ & Hl' & Hm' & w & Hw & Hi). split_and!; try done. by exists w.
Qed.
End Threads.

Lemma interleaves_empty {W} (os : list (list W)) w : Forall (eq []) os -> interleaves os w -> w = [].
Proof.
  intros Ho Hi. destruct Hi as [|os i x o w Ei _]; [done|]. pose proof (proj1 (Forall_lookup _ _) Ho i _ Ei). done.
Qed.

(** A failed stream stays failed: no thread writes to the log again. *)
Lemma failed_for_good `{!Platform} `{!FileSystem} path lvl threads l :
  writing path lvl true l -> mutex l = false ->
  ends (fun _ l' => writing path lvl true l' /\ mutex l' = false /\
      (forall p, content p l' = content p l) /\ outputs l' = outputs l)
    (map log_all threads, l).
Proof.
  intros Hl Hm. eapply ends_mono; [|by apply (threads_log path lvl true)].
  intros _ l' (Hl' & Hm' & w & (Ec & Ef & Eo) & Hi). split_and!; try done.
  apply interleaves_empty in Hi as ->; [|by apply List.Forall_map, Forall_forall].
  intros p. destruct (decide (p = path)) as [->|Hne]; [by rewrite Ec, app_nil_r|].
  unfold content. by rewrite Ef.
Qed.

(** ** One logger *)

Section Instance_.
Inductive Seen : Type := Outside | Inside | InsideNone | InsideSome | SeenSome.
Definition inside (g : Seen) : bool := match g with Inside | InsideNone | InsideSome => true | _ => false end.
Definition sees (g : Seen) (s : Instances) : Prop :=
  match g with
  | Outside | Inside => True
  | InsideNone => logger_ s = None
  | InsideSome | SeenSome => is_Some (logger_ s)
  end.
Definition one_logger (s : Instances) : Prop :=
  logger_ s = None /\ made s = 0%nat \/ logger_ s = Some 0%nat /\ made s = 1%nat.

Abbreviation gets := (proto (W := unit) mutexForCreation one_logger (fun _ _ _ => True) inside sees).

Lemma GetLoggerInstance_gets :
  gets 7 GetLoggerInstance Outside [] (finished inside (fun a => a = Some 0%nat)).
Proof.
  assert (Hlast : forall n, gets (S n) (ask logger_) SeenSome [] (finished inside (fun a => a = Some 0%nat))).
  { intros n. cbn [ask proto]. intros s Hs _ Hk. exists [], [], SeenSome. split; [done|]. split; [split_and!; try done; by left|].
    assert (E : logger_ s = Some 0%nat) by (destruct Hs as [[E _]|[E _]]; [cbn in Hk; rewrite E in Hk; by destruct Hk|done]).
    destruct n; by split_and!. }
  unfold GetLoggerInstance. cbn [ask bind proto]. intros s Hs _ _.
  destruct (logger_ s) as [n|] eqn:El; cbn [bind].
  - exists [], [], SeenSome. split; [done|]. split; [|apply (Hlast 5%nat)]. split_and!; try done; [by eexists|by left].
  - exists [], [], Outside. split; [done|]. split; [split_and!; try done; by left|].
    cbn [wait bind proto]. intros s1 Hs1 _ _. destruct (mutexForCreation s1) eqn:Em; [done|].
    exists [], [], Inside. split; [done|]. split.
    { split_and!; try done. by right; left. }
    cbn [ask bind proto]. intros s2 Hs2 _ _. destruct (logger_ s2) as [n|] eqn:El2; cbn [bind].
    + exists [], [], InsideSome. split; [done|]. split; [split_and!; try done; [by eexists|by left]|].
      cbn [act bind proto]. intros s3 Hs3 _ Hk3. exists [], [], SeenSome. split; [done|]. split; [|apply (Hlast 2%nat)].
      split_and!; try done. by right; right.
    + exists [], [], InsideNone. split; [done|]. split; [split_and!; try done; by left|].
      cbn [act bind proto]. intros s3 Hs3 _ Hk3. cbn in Hk3. exists [], [], InsideSome. split; [done|]. split.
      { destruct Hs3 as [[_ Emade]|[E _]]; [|congruence]. split; [right; cbn; by rewrite Emade|].
        split; [by eexists|]. split; [by left|]. split; [done|].
        intros [| | | |] Hk Hg; try done; cbn in *; try by eexists. by specialize (Hg eq_refl). }
      cbn [act bind proto]. intros s4 Hs4 _ Hk4. exists [], [], SeenSome. split; [done|]. split; [|apply (Hlast 1%nat)].
      split_and!; try done. by right; right.
Qed.
End Instance_.

(** Any number of threads that ask for the logger at once all end, under every
    schedule, with the same logger, and at most one logger is made. *)
Theorem one_logger_for_all (n : nat) :
  ends (fun xs s => Forall (fun a => a = Some 0%nat) xs /\ (made s <= 1)%nat)
    (replicate n GetLoggerInstance, MkInstances false None 0).
Proof.
  set (ts := replicate n (MkThread (St := Instances) (A := option nat) (W := unit) GetLoggerInstance 7 Outside [])).
  assert (Hend : pool_ends mutexForCreation one_logger (fun _ _ _ => True) (fun a => a = Some 0%nat) ts (MkInstances false None 0)).
  { apply (pool_ends_ok _ _ _ inside sees) with (owner := None); [done|done|]. split_and!.
    - apply Forall_replicate, GetLoggerInstance_gets.
    - by left.
    - by apply Forall_replicate.
    - done.
    - by intros i t [-> _]%lookup_replicate.
    - done. }
  unfold pool_ends in Hend.
  assert (Ec : map code ts = replicate n GetLoggerInstance) by apply (fmap_replicate code).
  rewrite Ec in Hend.
  eapply ends_mono; [|exact Hend]. intros xs s (Hx & Hs & _). split; [done|]. destruct Hs as [[_ ->]|[_ ->]]; lia.
Qed.

(** ** A journal *)

Section Journal.
Context `{!Platform} `{!FileSystem}.

(** What one thread does with the logger. *)
Inductive Action : Type :=
  | Say (m : Message)
  | ChangeLevel (v : LogLevel)
  | ChangePath (from : Message) (path : text).

Definition perform (a : Action) : main Logger unit :=
  match a with
  | Say m => LOG_MSG m
  | ChangeLevel v => SetLogLevel (level_code v)
  | ChangePath from path => SetLogPath from path
  end.
Fixpoint perform_all (actions : list Action) : main Logger unit :=
  match actions with
  | [] => Ret tt
  | a :: actions => perform a ;; perform_all actions
  end.

(** The abstract log: the directory, the level, whether there is something in the
    file of the directory from this run, and the pages. *)
Record Journal : Type := MkJournal {
  directory : text;
  verbosity : LogLevel;
  active : bool;
  pages : gmap text (list text)
}.
Definition page (dir : text) : text := dir ++ Fs ++ daily_name.
Definition blank : Journal := MkJournal default_log_path WARNING_LEVEL false ∅.

Definition say (m : Message) (j : Journal) : Journal :=
  if level_code (verbosity j) <? level_code (level m) then j
  else MkJournal (directory j) (verbosity j) true (append (page (directory j)) (format m) (pages j)).

Definition move (from : Message) (path : text) (j : Journal) : Journal :=
  if text_eqb (directory j) path then
    say (note DEBUG_LEVEL from
      (txt "WARNING: SetLogPath is called with the existing path string. SetLogPath should only be called once in normal circumstances aside from testing.")) j
  else if negb (IsValidDirectory path) then j
  else if active j then
    let j1 := say (note INFO_LEVEL from (txt "Reset log path: Log path is changed to " ++ path
          ++ txt ". Log file is in format iotsitewise_odbc_YYYYMMDD.log")) j in
    say (note INFO_LEVEL from (txt "Previously logged information is stored in log file " ++ page (directory j)))
      (MkJournal path (verbosity j1) false (pages j1))
  else MkJournal path (verbosity j) false (pages j).

Definition keep (a : Action) (j : Journal) : Journal :=
  match a with
  | Say m => say m j
  | ChangeLevel v => MkJournal (directory j) v (active j) (pages j)
  | ChangePath from path => move from path j
  end.

(** Messages have a level that can be switched off, and the path is not changed
    while logging is. *)
Definition orderly (a : Action) (j : Journal) : bool :=
  match a with
  | Say m => 1 <=? level_code (level m)
  | ChangeLevel _ => true
  | ChangePath _ _ => bool_decide (verbosity j <> OFF)
  end.
Fixpoint orderly_all (actions : list Action) (j : Journal) : bool :=
  match actions with
  | [] => true
  | a :: actions => orderly a j && orderly_all actions (keep a j)
  end.

(** The logger that keeps a journal. *)
Definition keeps (l : Logger) (j : Journal) : Prop :=
  mutex l = false /\ logPath l = directory j /\ logLevel l = level_code (verbosity j) /\ files l = pages j /\
  if active j then
    stream l = Some FileSink /\ opened l = Some (page (directory j)) /\ failed l = false /\
    logFilePath l = page (directory j)
  else (stream l = None \/ stream l = Some FileSink) /\ opened l = None /\ logFileName l = [].

Definition does (m : main Logger unit) (l : Logger) (Q : Logger -> Prop) : Prop :=
  exists l', alone m l = Some (l', Ok tt) /\ Q l'.

Lemma does_bind {A} (m : main Logger A) k l a l' Q :
  alone m l = Some (l', Ok a) -> does (k a) l' Q -> does (bind m k) l Q.
Proof. intros E [l2 [E2 HQ]]. exists l2. split; [|done]. by rewrite alone_bind, E. Qed.

Context (Hopen : forall dir, can_open (page dir) = true).

(** Runs a program alone on a known state. *)
Ltac log_run := lazy -[append format Z.eqb Z.ltb app can_open Fs daily_name directory pages page verbosity iff not].

Lemma LOG_MSG_keeps m l j :
  keeps l j -> (1 <=? level_code (level m)) = true -> does (LOG_MSG m) l (fun l' => keeps l' (say m j)).
Proof.
  intros (Hm & Hp & Hl & Hf & Hact) Hlev. unfold LOG_MSG, WRITE_MSG_TO_STREAM, say, does.
  cbn [GetLogLevel ask bind alone]. rewrite Hl. destruct (level_code (verbosity j) <? level_code (level m)) eqn:Ev.
  { exists l. split; [done|]. by split_and!. }
  assert (Hoff : (level_code (verbosity j) =? level_code OFF) = false) by (apply Z.eqb_neq; cbn; lia).
  destruct l as [mu op fa st lp ll ln lfp fi ou]. cbn [mutex opened failed stream logPath logLevel logFileName logFilePath files] in *. subst.
  unfold keeps. cbn [verbosity directory pages active]. change (level_code OFF) with 0 in Hoff.
  generalize (level_code (verbosity j)) Hoff. clear Hoff Ev. intros v Hoff.
  destruct (active j).
  - destruct Hact as (-> & -> & -> & ->). eexists. split; [reflexivity|]. by split_and!.
  - destruct Hact as (Hst & -> & ->). pose proof (Hopen (directory j)) as Ho. unfold page in Ho.
    destruct Hst as [-> | ->]; log_run; rewrite Hoff; log_run; rewrite Ho; log_run;
      eexists; (split; [reflexivity|]); by split_and!.
Qed.
Lemma does_ask {A} (r : Logger -> A) k l Q : does (k (r l)) l Q -> does (bind (ask r) k) l Q.
Proof. done. Qed.
Lemma does_act f k l Q : does (k tt) (f l) Q -> does (bind (act f) k) l Q.
Proof. done. Qed.
Lemma does_mono m l (P Q : Logger -> Prop) : does m l P -> (forall l, P l -> Q l) -> does m l Q.
Proof. intros (l' & E & HP) HQ. exists l'. split; [done|by apply HQ]. Qed.
Lemma does_then m k l (P Q : Logger -> Prop) :
  does m l P -> (forall l', P l' -> does (k tt) l' Q) -> does (bind m k) l Q.
Proof. intros (l' & E & HP) HQ. by eapply does_bind; [exact E|apply HQ]. Qed.

(** A message to a file that is open, wherever it is. *)
Lemma LOG_MSG_open m l cur :
  mutex l = false -> stream l = Some FileSink -> opened l = Some cur -> failed l = false ->
  does (LOG_MSG m) l (fun l' => l' =
    if logLevel l <? level_code (level m) then l else set_written (append cur (format m) (files l)) (outputs l) l).
Proof.
  intros Hm Hs Ho Hf. unfold LOG_MSG, WRITE_MSG_TO_STREAM. apply does_ask.
  destruct (logLevel l <? level_code (level m)); [by exists l|].
  destruct l as [mu op fa st lp ll ln lfp fi ou]. cbn [mutex opened failed stream] in *. subst.
  eexists. split; [reflexivity|]. done.
Qed.

Lemma keeps_new : keeps NewLogger blank.
Proof. unfold keeps. cbn. split_and!; try done. by left. Qed.

Lemma keeps_stream l j : keeps l j -> keeps (set_stream (Some FileSink) l) j.
Proof.
  intros (Hm & Hp & Hl & Hf & Ha). split_and!; try done. destruct (active j); cbn; [by destruct Ha|].
  destruct Ha as (_ & ? & ?). split_and!; [by right|done..].
Qed.

Lemma keeps_enabled l j : keeps l j -> is_enabled l = active j.
Proof.
  intros (_ & _ & _ & _ & Ha). unfold is_enabled, IsFileStreamOpen. destruct (active j).
  - destruct Ha as (-> & -> & _). reflexivity.
  - destruct Ha as ([-> | ->] & -> & _); reflexivity.
Qed.

(** Closing the file before the next message opens another. *)
Lemma close_does k l (Q : Logger -> Prop) :
  mutex l = false ->
  does k (set_mutex false (set_logFile [] (logFilePath (close_file l)) (close_file (set_mutex true l)))) Q ->
  does (Enter ;; act close_file ;; act (fun l => set_logFile [] (logFilePath l) l) ;; Leave ;; k) l Q.
Proof.
  intros Hm Hk. unfold does in *. destruct l as [mu op fa st lp ll ln lfp fi ou]. cbn [mutex] in Hm. subst.
  unfold close_file in *. cbn [opened] in *. destruct op; exact Hk.
Qed.

Lemma SetLogPath_keeps from path l j :
  keeps l j -> verbosity j <> OFF -> does (SetLogPath from path) l (fun l' => keeps l' (move from path j)).
Proof.
  intros Hk Hv. unfold SetLogPath, move. pose proof Hk as (Hm & Hp & Hl & Hf & Ha).
  apply does_ask. rewrite Hp. destruct (text_eqb (directory j) path); [by apply LOG_MSG_keeps|].
  destruct (negb (IsValidDirectory path)); [by exists l|].
  apply does_ask, does_act. unfold IsEnabled. apply does_ask.
  change (is_enabled (set_logPath path l)) with (is_enabled l). rewrite (keeps_enabled l j Hk).
  apply does_ask. change (logLevel (set_logPath path l)) with (logLevel l). rewrite Hl.
  assert (Hoff : (level_code (verbosity j) =? level_code OFF) = false) by (by destruct (verbosity j)).
  rewrite Hoff. destruct (active j) eqn:Eact; cbn [negb andb].
  - destruct Ha as (Hs & Ho & Hfa & Hfp).
    apply (does_then _ _ _ (fun l' => keeps l' (say (note INFO_LEVEL from (txt "Previously logged information is stored in log file " ++ page (directory j)))
      (MkJournal path (verbosity j) false (pages (say (note INFO_LEVEL from (txt "Reset log path: Log path is changed to " ++ path
          ++ txt ". Log file is in format iotsitewise_odbc_YYYYMMDD.log")) j)))))).
    + eapply does_then; [by apply (LOG_MSG_open _ _ (page (directory j)))|]. intros l1 ->.
      apply close_does; [by destruct (_ <? _)|]. rewrite Hfp. apply LOG_MSG_keeps; [|done].
      change (logLevel (set_logPath path l)) with (logLevel l). rewrite Hl. unfold say.
      destruct (level_code (verbosity j) <? _); unfold close_file; cbn [opened set_mutex set_logPath set_written]; rewrite Ho;
        split_and!; cbn; rewrite ?Hf; try done; split_and!; try done; by right.
    + intros l1 Hl1. exists (set_stream (Some FileSink) l1). split; [done|]. apply keeps_stream.
      unfold say in *. by destruct (level_code (verbosity j) <? level_code (level (note INFO_LEVEL from (txt "Reset log path: Log path is changed to " ++ path
          ++ txt ". Log file is in format iotsitewise_odbc_YYYYMMDD.log")))).
  - cbn [bind]. eexists. split; [reflexivity|]. apply (keeps_stream (set_logPath path l)).
    by split_and!.
Qed.

Lemma perform_keeps a l j : keeps l j -> orderly a j = true -> does (perform a) l (fun l' => keeps l' (keep a j)).
Proof.
  intros Hk Ho. destruct a as [m|v|from path]; cbn [perform keep orderly] in *.
  - by apply LOG_MSG_keeps.
  - eexists. split; [reflexivity|]. by destruct Hk as (? & ? & ? & ? & ?); split_and!.
  - apply bool_decide_eq_true in Ho. by apply SetLogPath_keeps.
Qed.

Lemma perform_all_keeps actions l j :
  keeps l j -> orderly_all actions j = true ->
  does (perform_all actions) l (fun l' => keeps l' (fold_left (fun j a => keep a j) actions j)).
Proof.
  revert l j. induction actions as [|a actions IH]; intros l j Hk Ho; cbn [perform_all orderly_all fold_left] in *.
  { by exists l. }
  apply andb_true_iff in Ho as [Ho1 Ho2]. eapply does_then; [by apply perform_keeps|]. intros l1 Hl1. by apply IH.
Qed.
End Journal.

(** ** A small log *)

Module LogDemo.
#[local] Existing Instance ExamplePlatform.
#[local, refine] Instance disk : FileSystem :=
  {| can_open _ := true; Fs := txt "/"; daily_name := txt "iotsitewise_odbc_20240229.log" |}.
Proof. done. Defined.

Definition message (v : LogLevel) (thread text : string) : Message :=
  MkMessage v (txt thread) (txt "12:00:00 02/29/24 ") (txt "/src/odbc/odbc.cpp") (txt "120") (txt "SQLFetch") (txt text).

Definition first : list Message := [message WARNING_LEVEL "1" "slow"; message DEBUG_LEVEL "1" "row"].
Definition second : list Message := [message ERROR_LEVEL "2" "lost"].

(** A logger that has opened its file. *)
Definition day : text := page (txt "/home/user").
Definition started : Logger :=
  MkLogger false (Some day) false (Some FileSink) (txt "/home/user") 2 daily_name day ∅ ∅.

(** A change of the path while logging is off is ignored once it is on again. *)
Definition silenced : list Action :=
  [Say (message WARNING_LEVEL "1" "one"); ChangeLevel OFF; ChangePath (message OFF "1" "") (txt "/var/log");
   ChangeLevel WARNING_LEVEL; Say (message WARNING_LEVEL "1" "two")].
Example path_changed_while_off :
  match alone (perform_all silenced) NewLogger with
  | Some (l, _) => logPath l = txt "/var/log" /\ length (content day l) = 2%nat /\ content (page (txt "/var/log")) l = []
  | None => False
  end.
Proof. vm_compute. done. Qed.

Definition actions : list Action :=
  [Say (message WARNING_LEVEL "1" "one"); ChangeLevel INFO_LEVEL; ChangePath (message OFF "1" "") (txt "/var/log");
   Say (message DEBUG_LEVEL "1" "two"); Say (message ERROR_LEVEL "1" "three")].
End LogDemo.

(** ** Two threads that open the file *)

Section Race.
Context `{!Platform} `{!FileSystem} (m1 m2 : Message).
Context (Hopen : can_open (page default_log_path) = true).
Context (H1 : 1 <= level_code (level m1) <= 2) (H2 : 1 <= level_code (level m2) <= 2).

(** The macro before the file is opened, and after. *)
Definition writes (m : Message) (enabled : bool) : main Logger unit :=
  if negb enabled then Ret tt
  else let! prevStream := GetLogStream in Ret tt ;; WriteMessage (format m) ;; Ret tt.
Definition to_open (m : Message) : main Logger unit :=
  let! enabled := open_log ;; IsEnabled in writes m enabled.
Definition to_write (m : Message) : main Logger unit :=
  let! enabled := IsEnabled in writes m enabled.

Definition race_state (failed : bool) : Logger :=
  MkLogger false (Some (page default_log_path)) failed (Some FileSink) default_log_path 2 daily_name
    (page default_log_path) ∅ ∅.

Lemma play_app {A} (a b : list nat) (ps : list (main Logger A) * Logger) :
  play_pool (a ++ b) ps = play_pool b (play_pool a ps).
Proof. revert ps. induction a as [|i a IH]; intros ps; [done|]. apply IH. Qed.

Lemma first_decides :
  play_pool (replicate 7 0%nat) ([LOG_MSG m1; LOG_MSG m2], NewLogger) =
  ([to_open m1; LOG_MSG m2], set_stream (Some FileSink) NewLogger).
Proof. destruct m1 as [[] ? ? ? ? ? ?]; cbn in H1; try lia; reflexivity. Qed.

Lemma second_decides :
  play_pool (replicate 6 1%nat) ([to_open m1; LOG_MSG m2], set_stream (Some FileSink) NewLogger) =
  ([to_open m1; to_open m2], set_stream (Some FileSink) NewLogger).
Proof. destruct m2 as [[] ? ? ? ? ? ?]; cbn in H2; try lia; reflexivity. Qed.

Lemma first_opens :
  play_pool (replicate 4 0%nat) ([to_open m1; to_open m2], set_stream (Some FileSink) NewLogger) =
  ([to_write m1; to_open m2], race_state false).
Proof.
  transitivity ([to_write m1; to_open m2], set_mutex false (open_file (page default_log_path)
    (set_mutex true (set_logFile daily_name (page default_log_path) (set_stream (Some FileSink) NewLogger))))).
  - reflexivity.
  - unfold open_file. cbn [opened set_mutex set_logFile set_stream NewLogger]. by rewrite Hopen.
Qed.

Lemma second_opens :
  play_pool (replicate 4 1%nat) ([to_write m1; to_open m2], race_state false) =
  ([to_write m1; to_write m2], race_state true).
Proof.
  assert (Hn : name_file (set_mutex true (race_state false)) = set_mutex true (race_state false)).
  { unfold name_file. cbn [race_state logFileName set_mutex]. pose proof daily_name_there as Hd.
    by destruct daily_name. }
  transitivity ([to_write m1; to_write m2], set_mutex false (open_file (logFilePath (name_file (set_mutex true (race_state false))))
    (name_file (set_mutex true (race_state false))))); [reflexivity|]. by rewrite Hn.
Qed.

Lemma both_write :
  play_pool (replicate 6 0%nat ++ replicate 6 1%nat) ([to_write m1; to_write m2], race_state true) =
  ([Ret tt; Ret tt], race_state true).
Proof. reflexivity. Qed.

Lemma race_reached : reaches ([LOG_MSG m1; LOG_MSG m2], NewLogger) ([Ret tt; Ret tt], race_state true).
Proof.
  pose proof (play_reaches (replicate 7 0%nat ++ replicate 6 1%nat ++ replicate 4 0%nat ++ replicate 4 1%nat
    ++ (replicate 6 0%nat ++ replicate 6 1%nat)) ([LOG_MSG m1; LOG_MSG m2], NewLogger)) as Hr.
  by rewrite play_app, first_decides, play_app, second_decides, play_app, first_opens, play_app, second_opens,
    both_write in Hr.
Qed.
End Race.

(** ** Properties *)

(** C6. Threads that log while the file is open and the level stays: under every
    schedule all of them end, without a deadlock, and what was added to the file is
    an interleaving of the messages of the threads at or below the level, each whole
    and in the order of its thread; nothing else is written. *)
Theorem messages_interleave `{!Platform} `{!FileSystem} (path : text) (lvl : Z)
    (threads : list (list Message)) (l : Logger) :
  writing path lvl false l -> mutex l = false ->
  ends (fun _ l' => mutex l' = false /\ exists w, adds path l w l' /\
      interleaves (map (fun ms => map format (List.filter (fun m => level_code (level m) <=? lvl) ms)) threads) w)
    (map log_all threads, l).
Proof.
  intros Hl Hm. eapply ends_mono; [|by apply (threads_log path lvl false)].
  intros _ l' (_ & Hm' & w & Hw & Hi). split; [done|]. by exists w.
Qed.

Lemma messages_interleave_witness :
  ends (fun _ l' => mutex l' = false /\ exists w, adds LogDemo.day LogDemo.started w l' /\
      interleaves [[format (LogDemo.message WARNING_LEVEL "1" "slow")]; [format (LogDemo.message ERROR_LEVEL "2" "lost")]] w)
    (map (@log_all LogDemo.disk) [LogDemo.first; LogDemo.second], LogDemo.started).
Proof.
  apply (@messages_interleave ExamplePlatform LogDemo.disk LogDemo.day 2 [LogDemo.first; LogDemo.second] LogDemo.started);
    [by split_and!|reflexivity].
Defined.

(** C7. A thread that is alone with a new logger keeps a journal: every message at or
    below the level goes to the file of the day in the directory in force, after what
    is there already; a valid new directory is announced at the end of the old file
    and at the start of the new one, an invalid one is ignored. Two conditions: the path is not
    changed while logging is off (the example [path_changed_while_off] shows what
    happens then), and the file of the day can be opened in every directory. *)
Theorem logger_keeps_journal `{!Platform} `{!FileSystem} (actions : list Action) :
  (forall dir, can_open (page dir) = true) -> orderly_all actions blank = true ->
  let j := fold_left (fun j a => keep a j) actions blank in
  exists l, alone (perform_all actions) NewLogger = Some (l, Ok tt) /\
    files l = pages j /\ logPath l = directory j /\ logLevel l = level_code (verbosity j) /\ mutex l = false.
Proof.
  intros Hopen Ho. destruct (perform_all_keeps Hopen actions NewLogger blank) as (l & E & Hm & Hp & Hl & Hf & _);
    [apply keeps_new|exact Ho|]. exists l. by split_and!.
Qed.

Lemma logger_keeps_journal_witness :
  exists l, @alone Logger _ (@perform_all ExamplePlatform LogDemo.disk LogDemo.actions) (@NewLogger ExamplePlatform) = Some (l, Ok tt) /\
    map length [content (@page LogDemo.disk (txt "/home/user")) l; content (@page LogDemo.disk (txt "/var/log")) l] = [2; 2]%nat.
Proof.
  destruct (@logger_keeps_journal ExamplePlatform LogDemo.disk LogDemo.actions) as (l & E & Hf & _);
    [by intros dir|vm_compute; reflexivity|].
  exists l. split; [exact E|]. unfold content. rewrite Hf. vm_compute. reflexivity.
Defined.

(** C40. Two threads that log their first message at once: both find the file closed,
    both open it, and opening it the second time fails its stream. There is a
    schedule after which both threads are done, the file is empty, and no message
    of any thread, however many follow, is ever written. *)
Theorem opening_twice_loses_the_log `{!Platform} `{!FileSystem} (m1 m2 : Message)
    (Hopen : can_open (page default_log_path) = true)
    (H1 : 1 <= level_code (level m1) <= 2) (H2 : 1 <= level_code (level m2) <= 2) :
  exists l, reaches ([LOG_MSG m1; LOG_MSG m2], NewLogger) ([Ret tt; Ret tt], l) /\
    (forall p, content p l = []) /\
    forall threads, ends (fun _ l' => forall p, content p l' = []) (map log_all threads, l).
Proof.
  exists (race_state true). split_and!; [by apply race_reached|done|].
  intros threads. eapply ends_mono; [|by apply (failed_for_good (page default_log_path) 2)].
  intros _ l' (_ & _ & Hc & _) p. by rewrite Hc.
Qed.

Lemma opening_twice_loses_the_log_witness :
  exists l, (forall p, content p l = []) /\ forall threads, ends (fun _ l' => forall p, content p l' = []) (map (@log_all LogDemo.disk) threads, l).
Proof.
  destruct (@opening_twice_loses_the_log ExamplePlatform LogDemo.disk (LogDemo.message WARNING_LEVEL "1" "slow")
    (LogDemo.message ERROR_LEVEL "2" "lost")) as (l & _ & Hl & Hall); [reflexivity|cbn; lia|cbn; lia|].
  exists l. split; [exact Hl|exact Hall].
Defined.
End LogFacts.
