(* ===== verification/DataQuery.v ===== *)
(** * DataQuery: paged results fetched ahead by a thread

    Models [src/query/data_query.cpp] and [src/iotsitewise_cursor.cpp]. The main thread is
    a program of atomic actions ([Interleave]); each asynchronous fetch is a
    thread that calls the client with the shared request, waits for the queue to
    be empty or for the query to be closing, and pushes its outcome. The AWS
    types and the client are the classes [AwsTypes] (in [ColumnMeta]) and [Client]; the conversion
    of a datum into a buffer of the application
    ([IoTSiteWiseColumn::ReadToBuffer]) is the interface [ColumnReader], which
    [Column] implements. *)

From S2P Require Import Prelude Text Memory Diagnostics Configuration AppBuffer ColumnMeta Interleave.

Module Query.
Import Text Memory Diag Config AppBuf Meta.
Local Open Scope main_scope.

Section Types.
Context `{AwsTypes}.

Definition Row : Type := list Datum.

Record ExecuteQueryRequest : Type := MkRequest {
  QueryStatement : text; NextToken : text; MaxResults : option Z
}.
Record ExecuteQueryResult : Type := MkResult {
  GetColumns : list ColumnInfo; GetRows : list Row; GetNextToken : text
}.
Inductive Outcome : Type :=
  | Success (r : ExecuteQueryResult)
  | Failure (exceptionName msg : text).

Definition SetQueryStatement (v : text) (r : ExecuteQueryRequest) :=
  MkRequest v (NextToken r) (MaxResults r).
Definition SetNextToken (v : text) (r : ExecuteQueryRequest) :=
  MkRequest (QueryStatement r) v (MaxResults r).
Definition SetMaxResults (v : Z) (r : ExecuteQueryRequest) :=
  MkRequest (QueryStatement r) (NextToken r) (Some v).
Definition EmptyRequest : ExecuteQueryRequest := MkRequest [] [] None.
End Types.

(** The service: a page is determined by its request. *)
Class Client `{AwsTypes} : Type := { ExecuteQuery : ExecuteQueryRequest -> Outcome }.

(** ** Conversions *)

(** What the query asks of a column: to put a datum into an application buffer. *)
Class ColumnReader `{AwsTypes} : Type := {
  ReadToBuffer : ColumnMeta -> Datum -> ApplicationDataBuffer -> Memory -> outcome
}.

Section Query.
Context `{HA : AwsTypes} `{!Client} `{!ColumnReader}.

(** ** The cursor *)

(** [iterator_] is a position in [rowVec_]; the metadata vector is a reference
    to the one of the query and an argument of the operations. *)
Record Cursor : Type := MkCursor {
  rowVec_ : list Row; iterator_ : nat; columns_ : list ColumnMeta; curPos_ : Z
}.

Definition NewCursor (rowVec : list Row) : Cursor := MkCursor rowVec 0 [] 0.

Definition row_count (c : Cursor) : Z := Z.of_nat (length (rowVec_ c)).

Definition Increment (c : Cursor) : Cursor * bool :=
  let it := if (0 <? curPos_ c) && (iterator_ c <? length (rowVec_ c))%nat
            then S (iterator_ c) else iterator_ c in
  let c := MkCursor (rowVec_ c) it (columns_ c) (curPos_ c + 1) in
  (c, curPos_ c <=? row_count c).

Definition HasData (c : Cursor) : bool := curPos_ c <=? row_count c.

Definition EnsureColumnDiscovered (meta : list ColumnMeta) (columnIdx : Z) (c : Cursor)
    : Cursor * bool :=
  if (Z.of_nat (length meta) <? columnIdx) || (columnIdx <? 1) then (c, false)
  else if (length (columns_ c) =? length meta)%nat then (c, true)
  else
    let index := length (columns_ c) in
    let new := take (Z.to_nat columnIdx - index) (drop index meta) in
    (MkCursor (rowVec_ c) (iterator_ c) (columns_ c ++ new) (curPos_ c), true).

(** The element accesses of the source are not checked. *)
Definition ReadColumnToBuffer (meta : list ColumnMeta) (columnIdx : Z)
    (buf : ApplicationDataBuffer) (m : Memory) (c : Cursor)
    : Prelude.result (Cursor * ConversionResult * ApplicationDataBuffer * Memory) :=
  let '(c, found) := EnsureColumnDiscovered meta columnIdx c in
  if negb found then Ok (c, FAILURE, buf, m)
  else
    match columns_ c !! Z.to_nat (columnIdx - 1), rowVec_ c !! iterator_ c with
    | Some column, Some row =>
        match row !! Z.to_nat (columnIdx - 1) with
        | Some datum =>
            match ReadToBuffer column datum buf m with
            | Ok (res, buf, m) => Ok (c, res, buf, m)
            | Err e => Err e
            end
        | None => Err OutOfBounds
        end
    | _, _ => Err OutOfBounds
    end.

(** ** The query *)

(** An asynchronous fetch: before its call; with an outcome and about to test
    the condition; asleep on the condition variable; ended. A push notifies the
    main thread. A sleeping thread would need a notification that no other
    thread gives: it stays asleep. *)
Inductive Thread : Type :=
  | Calling | Holding (o : Outcome) | Asleep (o : Outcome) | Ended.

Record DataQuery : Type := MkQuery {
  connection_ : Configuration;
  sql_ : text;
  resultMetaAvailable_ : bool;
  resultMeta_ : list ColumnMeta;
  request_ : ExecuteQueryRequest;
  result_ : option ExecuteQueryResult;
  cursor_ : option Cursor;
  queue_ : list Outcome;
  isClosing_ : bool;
  threads_ : list Thread;
  hasAsyncFetch : bool;
  rowCounter : Z;
  diag : DiagnosticRecordStorage
}.

(** One field replaced. *)
Definition set_resultMetaAvailable (v : bool) (q : DataQuery) : DataQuery :=
  MkQuery (connection_ q) (sql_ q) v (resultMeta_ q) (request_ q) (result_ q) (cursor_ q)
    (queue_ q) (isClosing_ q) (threads_ q) (hasAsyncFetch q) (rowCounter q) (diag q).
Definition set_resultMeta (v : list ColumnMeta) (q : DataQuery) : DataQuery :=
  MkQuery (connection_ q) (sql_ q) (resultMetaAvailable_ q) v (request_ q) (result_ q)
    (cursor_ q) (queue_ q) (isClosing_ q) (threads_ q) (hasAsyncFetch q) (rowCounter q) (diag
    q).
Definition set_request (v : ExecuteQueryRequest) (q : DataQuery) : DataQuery :=
  MkQuery (connection_ q) (sql_ q) (resultMetaAvailable_ q) (resultMeta_ q) v (result_ q)
    (cursor_ q) (queue_ q) (isClosing_ q) (threads_ q) (hasAsyncFetch q) (rowCounter q) (diag
    q).
Definition set_result (v : option ExecuteQueryResult) (q : DataQuery) : DataQuery :=
  MkQuery (connection_ q) (sql_ q) (resultMetaAvailable_ q) (resultMeta_ q) (request_ q) v
    (cursor_ q) (queue_ q) (isClosing_ q) (threads_ q) (hasAsyncFetch q) (rowCounter q) (diag
    q).
Definition set_cursor (v : option Cursor) (q : DataQuery) : DataQuery :=
  MkQuery (connection_ q) (sql_ q) (resultMetaAvailable_ q) (resultMeta_ q) (request_ q)
    (result_ q) v (queue_ q) (isClosing_ q) (threads_ q) (hasAsyncFetch q) (rowCounter q)
    (diag q).
Definition set_queue (v : list Outcome) (q : DataQuery) : DataQuery :=
  MkQuery (connection_ q) (sql_ q) (resultMetaAvailable_ q) (resultMeta_ q) (request_ q)
    (result_ q) (cursor_ q) v (isClosing_ q) (threads_ q) (hasAsyncFetch q) (rowCounter q)
    (diag q).
Definition set_threads (v : list Thread) (q : DataQuery) : DataQuery :=
  MkQuery (connection_ q) (sql_ q) (resultMetaAvailable_ q) (resultMeta_ q) (request_ q)
    (result_ q) (cursor_ q) (queue_ q) (isClosing_ q) v (hasAsyncFetch q) (rowCounter q) (diag
    q).
Definition set_hasAsyncFetch (v : bool) (q : DataQuery) : DataQuery :=
  MkQuery (connection_ q) (sql_ q) (resultMetaAvailable_ q) (resultMeta_ q) (request_ q)
    (result_ q) (cursor_ q) (queue_ q) (isClosing_ q) (threads_ q) v (rowCounter q) (diag q).
Definition set_rowCounter (v : Z) (q : DataQuery) : DataQuery :=
  MkQuery (connection_ q) (sql_ q) (resultMetaAvailable_ q) (resultMeta_ q) (request_ q)
    (result_ q) (cursor_ q) (queue_ q) (isClosing_ q) (threads_ q) (hasAsyncFetch q) v (diag
    q).
Definition set_diag (v : DiagnosticRecordStorage) (q : DataQuery) : DataQuery :=
  MkQuery (connection_ q) (sql_ q) (resultMetaAvailable_ q) (resultMeta_ q) (request_ q)
    (result_ q) (cursor_ q) (queue_ q) (isClosing_ q) (threads_ q) (hasAsyncFetch q)
    (rowCounter q) v.
Definition close_flag (q : DataQuery) : DataQuery :=
  MkQuery (connection_ q) (sql_ q) (resultMetaAvailable_ q) (resultMeta_ q) (request_ q)
    (result_ q) (cursor_ q) (queue_ q) true (threads_ q) (hasAsyncFetch q) (rowCounter q)
    (diag q).

(** [AsyncFetchOnePage], one atomic step of thread [i]. *)
Definition AsyncFetchOnePage (i : nat) (q : DataQuery) : option DataQuery :=
  match threads_ q !! i with
  | Some Calling => Some (set_threads (<[i := Holding (ExecuteQuery (request_ q))]> (threads_ q)) q)
  | Some (Holding o) =>
      match queue_ q with
      | [] => Some (set_threads (<[i := Ended]> (threads_ q)) (set_queue [o] q))
      | _ :: _ =>
          if isClosing_ q then Some (set_threads (<[i := Ended]> (threads_ q)) q)
          else Some (set_threads (<[i := Asleep o]> (threads_ q)) q)
      end
  | _ => None
  end.

Abbreviation prog := (main DataQuery).

(** The statement lets its connection create the record. *)
Definition add_record (st : SqlState) (msg : text) (row col : Z) (q : DataQuery) : DataQuery :=
  set_diag (AdapterAddStatusRecord true (diag q) st msg row col) q.
Definition warn_no_data (q : DataQuery) : DataQuery :=
  add_record S01000_GENERAL_WARNING (txt "Cursor does not point to any data.") 0 0 q.

Definition NewDataQuery (conf : Configuration) (sql : text) (d : DiagnosticRecordStorage)
    : DataQuery :=
  MkQuery conf sql false [] EmptyRequest None None [] false [] false 0 d.

(** [itr.join(); threads_.pop()]: enabled when the front thread has ended. *)
Definition join_front (q : DataQuery) : option (DataQuery * unit) :=
  match threads_ q with
  | Ended :: ts => Some (set_threads ts q, tt)
  | _ => None
  end.

(** [while (!threads_.empty())]: one round for each thread there is. *)
Fixpoint join_all (n : nat) : prog unit :=
  match n with
  | O => Ret tt
  | S n' => wait join_front ;; join_all n'
  end.

Definition InternalClose : prog SqlResult :=
  act close_flag ;;
  let! n := ask (fun q => length (threads_ q)) in
  join_all n ;;
  act (fun q => set_cursor None (set_result None q)) ;;
  Ret AI_SUCCESS.

Definition Close : prog SqlResult := InternalClose.

Definition ReadColumnMetadataVector (swVector : list ColumnInfo) (q : DataQuery) : DataQuery :=
  let q := set_resultMeta [] q in
  match swVector with
  | [] => q
  | _ =>
      set_resultMetaAvailable true
        (set_resultMeta (map (fun i => ReadMetadata i NewColumnMeta) swVector) q)
  end.

Definition api_failure (sql : text) : text :=
  txt "AWS API Failure: Failed to execute query " ++ ["034"%char] ++ sql ++ ["034"%char].

(** The loop over leading empty pages; the bound is the model's. *)
Fixpoint first_page (fuel : nat) : prog (option SqlResult) :=
  match fuel with
  | O => Throw OutOfFuel
  | S f =>
      let! outcome := ask (fun q => ExecuteQuery (request_ q)) in
      match outcome with
      | Failure _ _ =>
          act (fun q => add_record SHY000_GENERAL_ERROR (api_failure (sql_ q)) 0 0 q) ;;
          InternalClose ;;
          Ret (Some AI_ERROR)
      | Success r =>
          act (set_result (Some r)) ;;
          match GetRows r with
          | [] =>
              if empty (GetNextToken r) then Ret (Some AI_NO_DATA)
              else
                act (fun q => set_request (SetNextToken (GetNextToken r) (request_ q)) q) ;;
                first_page f
          | _ => Ret None
          end
      end
  end.

Definition MakeRequestFetch (q : DataQuery) : DataQuery * SqlResult :=
  match result_ q with
  | None => (add_record SHY010_SEQUENCE_ERROR (txt "result_ is a null pointer") 0 0 q, AI_ERROR)
  | Some r =>
      let q := if resultMetaAvailable_ q then q else ReadColumnMetadataVector (GetColumns r) q in
      match GetRows r with
      | [] => (q, AI_NO_DATA)
      | rows => (set_cursor (Some (NewCursor rows)) q, AI_SUCCESS)
      end
  end.

(** [request_.SetNextToken(token); std::thread next(...); addThreads(next)]. *)
Definition start_fetch (token : text) (q : DataQuery) : DataQuery :=
  set_threads (threads_ q ++ [Calling]) (set_request (SetNextToken token (request_ q)) q).

Definition prepare_request (q : DataQuery) : DataQuery :=
  let req := SetQueryStatement (sql_ q) (request_ q) in
  set_request (if IsMaxRowPerPageSet (connection_ q)
               then SetMaxResults (GetMaxRowPerPage (connection_ q)) req else req) q.

Definition MakeRequestExecute (fuel : nat) : prog SqlResult :=
  act prepare_request ;;
  let! stop := first_page fuel in
  match stop with
  | Some r => Ret r
  | None =>
      let! res := ask result_ in
      match res with
      | None => Throw OutOfBounds
      | Some r =>
          act (set_cursor (Some (NewCursor (GetRows r)))) ;;
          (if empty (GetNextToken r) then Ret tt
           else act (fun q => set_hasAsyncFetch true (start_fetch (GetNextToken r) q))) ;;
          let! retval := ask (fun q => snd (MakeRequestFetch q)) in
          act (fun q => fst (MakeRequestFetch q)) ;;
          Ret retval
      end
  end.

Definition Execute (fuel : nat) : prog SqlResult :=
  let! executed := ask (fun q => bool_decide (is_Some (result_ q))) in
  (if executed : bool then InternalClose ;; Ret tt else Ret tt) ;;
  MakeRequestExecute fuel.

Definition Cancel : prog SqlResult :=
  let! stop := ask (fun q => hasAsyncFetch q && negb (bool_decide (is_Some (result_ q)))) in
  if stop : bool then
    act (add_record SHY000_GENERAL_ERROR (txt "query is not executed") 0 0) ;; Ret AI_ERROR
  else InternalClose ;; Ret AI_SUCCESS.

Definition MakeRequestResultsetMeta : prog SqlResult :=
  let! outcome :=
    ask (fun q => ExecuteQuery (SetQueryStatement (sql_ q) EmptyRequest)) in
  match outcome with
  | Failure exceptionName msg =>
      act (fun q => add_record SHY000_GENERAL_ERROR
             (txt "AWS API ERROR: " ++ exceptionName ++ txt ": " ++ msg
              ++ txt " for query " ++ sql_ q) 0 0 q) ;;
      InternalClose ;;
      Ret AI_ERROR
  | Success r => act (ReadColumnMetadataVector (GetColumns r)) ;; Ret AI_SUCCESS
  end.

(** [None] is a null pointer. *)
Definition GetMeta : prog (option (list ColumnMeta)) :=
  let! available := ask resultMetaAvailable_ in
  (if available : bool then Ret tt else MakeRequestResultsetMeta ;; Ret tt) ;;
  ask (fun q => if resultMetaAvailable_ q then Some (resultMeta_ q) else None).

Definition pop_queue (q : DataQuery) : option (DataQuery * Outcome) :=
  match queue_ q with
  | o :: os => Some (set_queue os q, o)
  | [] => None
  end.

Definition SwitchCursor : prog SqlResult :=
  let! outcome := wait pop_queue in
  match outcome with
  | Failure _ _ => act (fun q => set_hasAsyncFetch false (set_cursor None q)) ;; Ret AI_ERROR
  | Success r =>
      act (set_result (Some r)) ;;
      match GetRows r with
      | [] => Ret AI_NO_DATA
      | rows =>
          act (set_cursor (Some (fst (Increment (NewCursor rows))))) ;;
          (if empty (GetNextToken r) then act (set_hasAsyncFetch false)
           else
             let! idle := ask (fun q => (length (threads_ q) =? 0)%nat) in
             (if idle : bool then Ret tt else wait join_front) ;;
             act (start_fetch (GetNextToken r))) ;;
          Ret AI_SUCCESS
      end
  end.

Definition ProcessConversionResult (convRes : ConversionResult) (rowIdx columnIdx : Z)
    (q : DataQuery) : DataQuery * SqlResult :=
  match convRes with
  | CONV_SUCCESS => (q, AI_SUCCESS)
  | CONV_NO_DATA => (q, AI_NO_DATA)
  | VARLEN_DATA_TRUNCATED =>
      (add_record S01004_DATA_TRUNCATED
         (txt "Buffer is too small for the column data. Truncated from the right.")
         rowIdx columnIdx q, AI_SUCCESS_WITH_INFO)
  | FRACTIONAL_TRUNCATED =>
      (add_record S01S07_FRACTIONAL_TRUNCATION
         (txt "Buffer is too small for the column data. Fraction truncated.")
         rowIdx columnIdx q, AI_SUCCESS_WITH_INFO)
  | INDICATOR_NEEDED =>
      (add_record S22002_INDICATOR_NEEDED
         (txt "Indicator is needed but not suplied for the column buffer.")
         rowIdx columnIdx q, AI_SUCCESS_WITH_INFO)
  | UNSUPPORTED_CONVERSION =>
      (add_record SHYC00_OPTIONAL_FEATURE_NOT_IMPLEMENTED
         (txt "Data conversion is not supported.") rowIdx columnIdx q, AI_SUCCESS_WITH_INFO)
  | FAILURE =>
      (add_record S01S01_ERROR_IN_ROW (txt "Can not retrieve row column.")
         rowIdx columnIdx q, AI_ERROR)
  end.

Definition ColumnBindingMap : Type := gmap Z ApplicationDataBuffer.

(** The bound buffers of the application and its memory. *)
Definition Screen : Type := ColumnBindingMap * Memory.

(** Reads one column through the cursor and processes the result. *)
Definition read_column (i : Z) (buf : ApplicationDataBuffer) (m : Memory) (q : DataQuery)
    : Prelude.result (DataQuery * ApplicationDataBuffer * Memory * SqlResult) :=
  match cursor_ q with
  | None => Err OutOfBounds
  | Some c =>
      match ReadColumnToBuffer (resultMeta_ q) i buf m c with
      | Err e => Err e
      | Ok (c, convRes, buf, m) =>
          let '(q, res) := ProcessConversionResult convRes 0 i (set_cursor (Some c) q) in
          Ok (q, buf, m, res)
      end
  end.

(** The loop over the columns of the row; the first failing one stops it. *)
Fixpoint read_bound (idxs : list Z) (screen : Screen) (q : DataQuery)
    : Prelude.result (DataQuery * Screen * bool) :=
  match idxs with
  | [] => Ok (q, screen, true)
  | i :: idxs' =>
      let '(bindings, m) := screen in
      match bindings !! i with
      | None => read_bound idxs' screen q
      | Some buf =>
          match read_column i buf m q with
          | Err e => Err e
          | Ok (q, buf, m, res) =>
              let screen := (<[i := buf]> bindings, m) in
              match res with
              | AI_ERROR => Ok (q, screen, false)
              | _ => read_bound idxs' screen q
              end
          end
      end
  end.

(** [1 .. GetColumnSize()]. *)
Definition column_indices (q : DataQuery) : list Z :=
  map Z.of_nat (seq 1 (length (resultMeta_ q))).

Definition fetch_columns (screen : Screen) : prog (SqlResult * Screen) :=
  Atomic (fun q =>
    match read_bound (column_indices q) screen q with
    | Err e => Some (q, Throw e)
    | Ok (q, screen, true) =>
        Some (set_rowCounter (i32 (rowCounter q + 1)) q, Ret (AI_SUCCESS, screen))
    | Ok (q, screen, false) => Some (q, Ret (AI_ERROR, screen))
    end).

(** [cursor_->Increment()]; [None]: there is no cursor. *)
Definition increment_cursor : prog (option bool) :=
  Atomic (fun q =>
    match cursor_ q with
    | None => Some (q, Ret None)
    | Some c => let '(c, more) := Increment c in Some (set_cursor (Some c) q, Ret (Some more))
    end).

Definition FetchNextRow (columnBindings : Screen) : prog (SqlResult * Screen) :=
  let! more := increment_cursor in
  match more with
  | None => act warn_no_data ;; Ret (AI_NO_DATA, columnBindings)
  | Some true => fetch_columns columnBindings
  | Some false =>
      let! async := ask hasAsyncFetch in
      if async : bool then
        let! res := SwitchCursor in
        match res with
        | AI_SUCCESS => fetch_columns columnBindings
        | _ =>
            act (add_record S24000_INVALID_CURSOR_STATE (txt "Invalid cursor state.") 0 0) ;;
            Ret (res, columnBindings)
        end
      else Ret (AI_NO_DATA, columnBindings)
  end.

Definition GetColumn (columnIdx : Z) (buffer : ApplicationDataBuffer) (m : Memory)
    : prog (SqlResult * ApplicationDataBuffer * Memory) :=
  Atomic (fun q =>
    match cursor_ q with
    | None => Some (warn_no_data q, Ret (AI_NO_DATA, buffer, m))
    | Some c =>
        if negb (HasData c) then
          Some (add_record S24000_INVALID_CURSOR_STATE
                  (txt "Cursor has reached end of the result set.") 0 0 q,
                Ret (AI_ERROR, buffer, m))
        else
          match read_column columnIdx buffer m q with
          | Err e => Some (q, Throw e)
          | Ok (q, buffer, m, res) => Some (q, Ret (res, buffer, m))
          end
    end).

Definition DataAvailable (q : DataQuery) : bool := bool_decide (is_Some (cursor_ q)).
Definition AffectedRows (q : DataQuery) : Z := 0.
Definition NextResultSet : SqlResult := AI_NO_DATA.

Definition RowNumber (q : DataQuery) : DataQuery * Z :=
  match cursor_ q with
  | Some c => if HasData c then (q, rowCounter q) else (warn_no_data q, 0)
  | None => (warn_no_data q, 0)
  end.

(** [~DataQuery]. *)
Definition DeleteDataQuery : prog unit :=
  let! open := ask (fun q => bool_decide (is_Some (result_ q))) in
  if open : bool then InternalClose ;; Ret tt else Ret tt.

Definition SetResultsetMeta (value : list ColumnMeta) (q : DataQuery) : DataQuery :=
  set_resultMetaAvailable true (set_resultMeta value q).
End Query.
End Query.
