(* ===== verification/Queries.v ===== *)
(** * Queries: the interface of a query, and the queries without a service

    Models the abstract class [Query] ([include/iotsitewise/odbc/query/query.h])
    as the class [AbstractQuery]: what a statement calls on its current query,
    whichever it is. Then the catalog queries that have no data (primary and
    foreign keys, special columns, statistics, procedures and their columns,
    column and table privileges) and [src/query/type_info_query.cpp]. *)

From S2P Require Import Prelude Text Codes Memory Diagnostics Configuration AppBuffer Column TypeTraits Fields ColumnMeta Encoding Interleave DataQuery.
From stdpp Require Import sorting.

#[local] Open Scope Z_scope.

(** ** The interface *)

(** The steps of the threads of a query and how many are left, its operations as
    programs, and the storage of its statement, which it holds while it runs;
    [Delete] is the destructor. [Execute] asks the connection for its attribute
    [SQL_ATTR_METADATA_ID], an argument here. *)
Class AbstractQuery `{Meta.AwsTypes} (Q : Type) : Type := {
  query_step : nat -> Q -> option Q;
  query_pending : Q -> nat;
  query_diag : Q -> Diag.DiagnosticRecordStorage;
  with_diag : Diag.DiagnosticRecordStorage -> Q -> Q;
  Execute : nat -> bool -> main Q Diag.SqlResult;
  Cancel : main Q Diag.SqlResult;
  FetchNextRow : Query.Screen -> main Q (Diag.SqlResult * Query.Screen);
  GetColumn : Z -> AppBuf.ApplicationDataBuffer -> Memory.Memory ->
    main Q (Diag.SqlResult * AppBuf.ApplicationDataBuffer * Memory.Memory);
  Close : main Q Diag.SqlResult;
  Delete : main Q unit;
  GetMeta : main Q (option (list Meta.ColumnMeta));
  DataAvailable : Q -> bool;
  AffectedRows : Q -> Z;
  RowNumber : Q -> Q * Z;
  NextResultSet : Diag.SqlResult;
  diag_of_with d q : query_diag (with_diag d q) = d;
  with_same_diag q : with_diag (query_diag q) q = q;
  with_diag_twice d d' q : with_diag d (with_diag d' q) = with_diag d q;
  step_diag i q q' : query_step i q = Some q' -> query_diag q' = query_diag q;
  step_with_diag i d q : query_step i (with_diag d q) = option_map (with_diag d) (query_step i q);
  step_pending i q q' : query_step i q = Some q' -> (query_pending q' < query_pending q)%nat;
  pending_with_diag d q : query_pending (with_diag d q) = query_pending q
}.

Module Queries.
Import Text Memory Diag Column AppBuf Types Fields Meta Query.
Local Open Scope main_scope.

Section Queries.
Context `{HA : AwsTypes} `{Deployment} `{OdbcConstants} `{SqlCodes} `{FieldCodes} `{Encoding.Abi} `{Floats}.

(** The indices with a bound buffer, in the order of [std::map]. *)
Definition bound_indices (bindings : ColumnBindingMap) : list Z :=
  merge_sort Z.le (elements (dom bindings)).

(** One call of [GetColumn] for each bound column, in the loops of the queries
    whose rows the driver holds. *)
Fixpoint bound_columns {Q} (GetColumn : Z -> ApplicationDataBuffer -> Memory -> Q ->
      Prelude.result (Q * (SqlResult * ApplicationDataBuffer * Memory)))
    (idxs : list Z) (screen : Screen) (q : Q) : Prelude.result (Q * Screen) :=
  match idxs with
  | [] => Ok (q, screen)
  | i :: idxs' =>
      match fst screen !! i with
      | None => bound_columns GetColumn idxs' screen q
      | Some b =>
          match GetColumn i b (snd screen) q with
          | Ok (q, (_, b, m)) => bound_columns GetColumn idxs' (<[i := b]> (fst screen), m) q
          | Err e => Err e
          end
      end
  end.

(** ** Catalog queries without data *)

Inductive StaticKind : Type :=
  | PrimaryKeys | ForeignKeys | SpecialColumns | Statistics (odbcVer : Z) | Procedures
  | ProcedureColumns | ColumnPrivileges | TablePrivileges.

(** A column of the result: neither database nor table, a name, a type. *)
Definition column (name : string) (t : Z) (n : Nullability) : ColumnMeta :=
  DescribedColumn [] [] (txt name) t n.

Definition PrimaryKeysColumns : list ColumnMeta :=
  [ column "TABLE_CAT" STRING NULLABLE; column "TABLE_SCHEM" STRING NULLABLE;
    column "TABLE_NAME" STRING NO_NULL; column "COLUMN_NAME" STRING NO_NULL;
    column "KEY_SEQ" INT NO_NULL; column "PK_NAME" STRING NULLABLE ].

Definition ForeignKeysColumns : list ColumnMeta :=
  [ column "PKTABLE_CAT" STRING NULLABLE; column "PKTABLE_SCHEM" STRING NULLABLE;
    column "PKTABLE_NAME" STRING NO_NULL; column "PKCOLUMN_NAME" STRING NO_NULL;
    column "FKTABLE_CAT" STRING NULLABLE; column "FKTABLE_SCHEM" STRING NULLABLE;
    column "FKTABLE_NAME" STRING NO_NULL; column "FKCOLUMN_NAME" STRING NO_NULL;
    column "KEY_SEQ" INT NO_NULL; column "UPDATE_RULE" INT NULLABLE;
    column "DELETE_RULE" INT NULLABLE; column "FK_NAME" STRING NULLABLE;
    column "PK_NAME" STRING NULLABLE; column "DEFERRABILITY" INT NULLABLE ].

Definition SpecialColumnsColumns : list ColumnMeta :=
  [ column "SCOPE" INT NULLABLE; column "COLUMN_NAME" STRING NO_NULL;
    column "DATA_TYPE" INT NO_NULL; column "TYPE_NAME" STRING NO_NULL;
    column "COLUMN_SIZE" INT NULLABLE; column "BUFFER_LENGTH" INT NULLABLE;
    column "DECIMAL_DIGITS" INT NULLABLE; column "PSEUDO_COLUMN" INT NULLABLE ].

(** ODBC 2 has other names for four of the columns. *)
Definition StatisticsColumns (odbcVer : Z) : list ColumnMeta :=
  let old := odbcVer =? SQL_OV_ODBC2 in
  [ column (if old then "TABLE_QUALIFIER" else "TABLE_CAT") STRING NULLABLE;
    column (if old then "TABLE_OWNER" else "TABLE_SCHEM") STRING NULLABLE;
    column "TABLE_NAME" STRING NO_NULL; column "NON_UNIQUE" INT NULLABLE;
    column "INDEX_QUALIFIER" STRING NULLABLE; column "INDEX_NAME" STRING NULLABLE;
    column "TYPE" INT NO_NULL;
    column (if old then "SEQ_IN_INDEX" else "ORDINAL_POSITION") INT NULLABLE;
    column "COLUMN_NAME" STRING NULLABLE;
    column (if old then "COLLATION" else "ASC_OR_DESC") STRING NULLABLE;
    column "CARDINALITY" INT NULLABLE; column "PAGES" INT NULLABLE;
    column "FILTER_CONDITION" STRING NULLABLE ].

Definition ProceduresColumns : list ColumnMeta :=
  [ column "PROCEDURE_CAT" STRING NULLABLE; column "PROCEDURE_SCHEM" STRING NULLABLE;
    column "PROCEDURE_NAME" STRING NO_NULL; column "NUM_INPUT_PARAMS" NOT_SET NULLABLE;
    column "NUM_OUTPUT_PARAMS" NOT_SET NULLABLE; column "NUM_RESULT_SETS" NOT_SET NULLABLE;
    column "REMARKS" STRING NULLABLE; column "PROCEDURE_TYPE" INT NULLABLE ].

Definition ProcedureColumnsColumns : list ColumnMeta :=
  [ column "PROCEDURE_CAT" STRING NULLABLE; column "PROCEDURE_SCHEM" STRING NULLABLE;
    column "PROCEDURE_NAME" STRING NO_NULL; column "COLUMN_NAME" STRING NO_NULL;
    column "COLUMN_TYPE" INT NO_NULL; column "DATA_TYPE" INT NO_NULL;
    column "TYPE_NAME" STRING NO_NULL; column "COLUMN_SIZE" INT NULLABLE;
    column "BUFFER_LENGTH" INT NULLABLE; column "DECIMAL_DIGITS" INT NULLABLE;
    column "NUM_PREC_RADIX" INT NULLABLE; column "NULLABLE" INT NO_NULL;
    column "REMARKS" STRING NULLABLE; column "COLUMN_DEF" STRING NULLABLE;
    column "SQL_DATA_TYPE" INT NO_NULL; column "SQL_DATETIME_SUB" INT NULLABLE;
    column "CHAR_OCTET_LENGTH" INT NULLABLE; column "ORDINAL_POSITION" INT NO_NULL;
    column "IS_NULLABLE" STRING NULLABLE ].

Definition ColumnPrivilegesColumns : list ColumnMeta :=
  [ column "TABLE_CAT" STRING NULLABLE; column "TABLE_SCHEM" STRING NULLABLE;
    column "TABLE_NAME" STRING NO_NULL; column "COLUMN_NAME" STRING NO_NULL;
    column "GRANTOR" STRING NULLABLE; column "GRANTEE" STRING NO_NULL;
    column "PRIVILEGE" STRING NO_NULL; column "IS_GRANTABLE" STRING NULLABLE ].

Definition TablePrivilegesColumns : list ColumnMeta :=
  [ column "TABLE_CAT" STRING NULLABLE; column "TABLE_SCHEM" STRING NULLABLE;
    column "TABLE_NAME" STRING NO_NULL; column "GRANTOR" STRING NULLABLE;
    column "GRANTEE" STRING NO_NULL; column "PRIVILEGE" STRING NO_NULL;
    column "IS_GRANTABLE" STRING NULLABLE ].

Definition static_columns (k : StaticKind) : list ColumnMeta :=
  match k with
  | PrimaryKeys => PrimaryKeysColumns
  | ForeignKeys => ForeignKeysColumns
  | SpecialColumns => SpecialColumnsColumns
  | Statistics v => StatisticsColumns v
  | Procedures => ProceduresColumns
  | ProcedureColumns => ProcedureColumnsColumns
  | ColumnPrivileges => ColumnPrivilegesColumns
  | TablePrivileges => TablePrivilegesColumns
  end.

Definition function_name (k : StaticKind) : string :=
  match k with
  | PrimaryKeys => "SQLPrimaryKeys" | ForeignKeys => "SQLForeignKeys"
  | SpecialColumns => "SQLSpecialColumns" | Statistics _ => "SQLStatistics"
  | Procedures => "SQLProcedures" | ProcedureColumns => "SQLProcedureColumns"
  | ColumnPrivileges => "SQLColumnPrivileges" | TablePrivileges => "SQLTablePrivileges"
  end.

Record StaticQuery : Type := MkStatic { static_kind : StaticKind; static_diag : DiagnosticRecordStorage }.

Definition static_warn (msg : string) (q : StaticQuery) : StaticQuery :=
  MkStatic (static_kind q)
    (AdapterAddStatusRecord true (static_diag q) S01000_GENERAL_WARNING
       (txt (function_name (static_kind q)) ++ txt " is not supported. " ++ txt msg) 0 0).

Definition static_Execute (q : StaticQuery) : StaticQuery * SqlResult :=
  (static_warn "Return empty result set." q, AI_SUCCESS_WITH_INFO).
Definition static_Fetch (q : StaticQuery) : StaticQuery * SqlResult :=
  (static_warn "No data is returned." q, AI_NO_DATA).

(** The arguments of [SQLTables] and [SQLColumns], [None] for a null pointer,
    with what the constructors ask of the connection: its configuration, its
    attribute [SQL_ATTR_METADATA_ID] and the ODBC version of its environment. The
    last argument is the table type or the column. *)
Record TableArguments : Type := MkArguments {
  arg_config : Config.Configuration; arg_metadataID : bool; arg_odbcVer : Z;
  arg_catalog : option text; arg_schema : option text; arg_table : option text;
  arg_last : option text
}.

(** The queries a statement can make; a query is made with the storage of its
    statement. *)
Class QueryMaker (Q : Type) : Type := {
  new_data_query : Config.Configuration -> text -> DiagnosticRecordStorage -> Q;
  new_static_query : StaticKind -> DiagnosticRecordStorage -> Q;
  new_type_info_query : Z -> DiagnosticRecordStorage -> Q;
  new_table_query : TableArguments -> DiagnosticRecordStorage -> Q;
  new_column_query : TableArguments -> DiagnosticRecordStorage -> Q
}.

(** ** The types of the data source *)

(** [cursor = types.end()] is the length of the list. *)
Record TypeInfoQuery : Type := MkTypeInfo {
  executed : bool; fetched : bool; types : list Z; cursor : nat; info_diag : DiagnosticRecordStorage
}.

Definition TypeInfoColumns : list ColumnMeta :=
  [ column "TYPE_NAME" STRING NO_NULL; column "DATA_TYPE" INT NO_NULL;
    column "COLUMN_SIZE" INT NULLABLE; column "LITERAL_PREFIX" STRING NULLABLE;
    column "LITERAL_SUFFIX" STRING NULLABLE; column "CREATE_PARAMS" STRING NULLABLE;
    column "NULLABLE" INT NO_NULL; column "CASE_SENSITIVE" INT NO_NULL;
    column "SEARCHABLE" INT NO_NULL; column "UNSIGNED_ATTRIBUTE" INT NULLABLE;
    column "FIXED_PREC_SCALE" INT NO_NULL; column "AUTO_UNIQUE_VALUE" INT NULLABLE;
    column "LOCAL_TYPE_NAME" STRING NULLABLE; column "MINIMUM_SCALE" INT NULLABLE;
    column "MAXIMUM_SCALE" INT NULLABLE; column "SQL_DATA_TYPE" INT NO_NULL;
    column "SQL_DATETIME_SUB" INT NULLABLE; column "NUM_PREC_RADIX" INT NULLABLE;
    column "INTERVAL_PRECISION" INT NULLABLE ].

(** The argument [SQL_ALL_TYPES] asks for every type. *)
Definition NewTypeInfo (SQL_ALL_TYPES sqlType : Z) (d : DiagnosticRecordStorage) : TypeInfoQuery :=
  let types :=
    if sqlType =? SQL_ALL_TYPES then map i8 [STRING; BOOLEAN; DOUBLE; TIMESTAMP; INT; NOT_SET]
    else [i8 (SqlTypeToBinary (Some sqlType))] in
  MkTypeInfo false false types (length types) d.

Definition info_add (st : SqlState) (msg : string) (q : TypeInfoQuery) : TypeInfoQuery :=
  MkTypeInfo (executed q) (fetched q) (types q) (cursor q)
    (AdapterAddStatusRecord true (info_diag q) st (txt msg) 0 0).

Definition info_Execute (q : TypeInfoQuery) : TypeInfoQuery * SqlResult :=
  (MkTypeInfo true false (types q) 0 (info_diag q), AI_SUCCESS).

Definition info_Close (q : TypeInfoQuery) : TypeInfoQuery * SqlResult :=
  (MkTypeInfo false (fetched q) (types q) (length (types q)) (info_diag q), AI_SUCCESS).

(** The value of a column for a type; the results of the conversions are
    ignored. *)
Definition info_put (columnIdx currentType : Z) (b : ApplicationDataBuffer) (m : Memory) : outcome :=
  let text := currentType =? i8 STRING in
  match columnIdx with
  | 1 => PutOptional PutString (BinaryTypeToSqlTypeName (Some currentType)) b m
  | 2 | 16 => PutOptional PutInt16 (BinaryToSqlType (Some currentType)) b m
  | 3 => PutOptional PutInt32 (BinaryTypeColumnSize (Some currentType)) b m
  | 4 | 5 => if text then PutString (txt "'") b m else PutNull b m
  | 6 | 13 | 17 | 19 => PutNull b m
  | 7 => PutInt32 (BinaryTypeNullability currentType) b m
  | 8 => PutInt16 (if text then Fields.SQL_TRUE else SQL_FALSE) b m
  | 9 => PutInt16 SQL_SEARCHABLE b m
  | 10 => PutInt16 (Z.b2z (BinaryTypeUnsigned (Some currentType))) b m
  | 11 | 12 => PutInt16 SQL_FALSE b m
  | 14 | 15 => PutOptional PutInt16 (BinaryTypeDecimalDigits (Some currentType)) b m
  | 18 => PutOptional PutInt32 (BinaryTypeNumPrecRadix (Some currentType)) b m
  | _ => Ok (CONV_SUCCESS, b, m)
  end.

Definition info_GetColumn (columnIdx : Z) (b : ApplicationDataBuffer) (m : Memory)
    (q : TypeInfoQuery) : Prelude.result (TypeInfoQuery * (SqlResult * ApplicationDataBuffer * Memory)) :=
  if negb (executed q) then
    Ok (info_add SHY010_SEQUENCE_ERROR "Query was not executed." q, (AI_ERROR, b, m))
  else
    match types q !! cursor q with
    | None =>
        Ok (info_add S24000_INVALID_CURSOR_STATE "Cursor has reached end of the result set." q,
            (AI_ERROR, b, m))
    | Some currentType =>
        match info_put columnIdx currentType b m with
        | Ok (_, b, m) => Ok (q, (AI_SUCCESS, b, m))
        | Err e => Err e
        end
    end.

Definition info_columns : list Z -> Screen -> TypeInfoQuery -> Prelude.result (TypeInfoQuery * Screen) :=
  bound_columns info_GetColumn.

Definition info_FetchNextRow (screen : Screen) (q : TypeInfoQuery)
    : Prelude.result (TypeInfoQuery * (SqlResult * Screen)) :=
  if negb (executed q) then
    Ok (info_add SHY010_SEQUENCE_ERROR "Query was not executed." q, (AI_ERROR, screen))
  else
    let cur := if fetched q then if (cursor q <? length (types q))%nat then S (cursor q) else cursor q
               else cursor q in
    let q := MkTypeInfo true true (types q) cur (info_diag q) in
    if (cur =? length (types q))%nat then Ok (q, (AI_NO_DATA, screen))
    else
      match info_columns (bound_indices (fst screen)) screen q with
      | Ok (q, screen) => Ok (q, (AI_SUCCESS, screen))
      | Err e => Err e
      end.

Definition info_DataAvailable (q : TypeInfoQuery) : bool :=
  executed q && negb (cursor q =? length (types q))%nat.

Definition info_RowNumber (q : TypeInfoQuery) : TypeInfoQuery * Z :=
  if negb (executed q) || (cursor q =? length (types q))%nat
  then (info_add S01000_GENERAL_WARNING "Cursor does not point to any data." q, 0)
  else (q, Z.of_nat (cursor q) + 1).
End Queries.
End Queries.
