(* ===== verification/TableMetadata.v ===== *)
(** * TableMetadata: the query behind [SQLTables]

    Models [src/query/table_metadata_query.cpp] and
    [include/iotsitewise/odbc/meta/table_meta.h]. The query runs a [DataQuery] of
    its own against the table [system.tables] and keeps the rows it makes of the
    names. The local array the names are read into is a memory of its own. What
    only the log shows is left out. [fuel] bounds the pages and the rows of the
    inner query. *)

From S2P Require Import Prelude Text Codes Memory Diagnostics Environment Configuration Encoding AppBuffer TypeTraits Column Fields ColumnMeta Interleave DataQuery Queries.

Module Tables.
Import Text Memory Diag Config AppBuf Types Fields Column Meta Query Queries.
Local Open Scope main_scope.

Abbreviation STRING_BUFFER_SIZE := 2048 (only parsing).
(** Where the local array of names is. *)
Abbreviation array_at := 4096 (only parsing).
(** [SQL_ALL_CATALOGS], [SQL_ALL_SCHEMAS] and [SQL_ALL_TABLE_TYPES]. *)
Definition SQL_ALL : text := txt "%".

(** [empty()] of a vector. *)
Definition no_rows {A} (l : list A) : bool := match l with [] => true | _ => false end.

(** ** A row of the result *)

Record TableMeta : Type := MkTable {
  catalogName : option text; schemaName : option text; tableName : option text;
  tableType : option text; remarks : option text
}.
Definition NewTableMeta : TableMeta := MkTable None None None None None.
Definition Read (tbType : text) (t : TableMeta) : TableMeta :=
  MkTable (catalogName t) (schemaName t) (tableName t) (Some tbType) (remarks t).

(** [ResultColumn]. *)
Abbreviation TABLE_CAT := 1 (only parsing).
Abbreviation TABLE_SCHEM := 2 (only parsing).
Abbreviation TABLE_NAME := 3 (only parsing).
Abbreviation TABLE_TYPE := 4 (only parsing).
Abbreviation REMARKS := 5 (only parsing).

Section Tables.
Context `{HA : AwsTypes} `{!Client} `{!ColumnReader} `{!Deployment} `{!OdbcConstants}.
Context `{!SqlCodes} `{!FieldCodes} `{!Encoding.Abi} `{!Floats}.

(** [cursor = meta.end()] is the length of [meta]. *)
Record TableQuery : Type := MkTableQuery {
  arguments : TableArguments;
  executed : bool;
  fetched : bool;
  meta : list TableMeta;
  cursor : nat;
  dataQuery_ : option DataQuery;
  diag : DiagnosticRecordStorage
}.

Definition NewTableQuery (a : TableArguments) (d : DiagnosticRecordStorage) : TableQuery :=
  MkTableQuery a false false [] 0 None d.

Definition set_rows (executed fetched : bool) (meta : list TableMeta) (cursor : nat) (q : TableQuery)
    : TableQuery :=
  MkTableQuery (arguments q) executed fetched meta cursor (dataQuery_ q) (diag q).
Definition set_meta (meta : list TableMeta) (q : TableQuery) : TableQuery :=
  set_rows (executed q) (fetched q) meta (cursor q) q.
Definition set_dataQuery (d : option DataQuery) (q : TableQuery) : TableQuery :=
  MkTableQuery (arguments q) (executed q) (fetched q) (meta q) (cursor q) d (diag q).
Definition set_table_diag (g : DiagnosticRecordStorage) (q : TableQuery) : TableQuery :=
  MkTableQuery (arguments q) (executed q) (fetched q) (meta q) (cursor q) (dataQuery_ q) g.
Definition add_record (st : SqlState) (msg : text) (q : TableQuery) : TableQuery :=
  set_table_diag (AdapterAddStatusRecord true (diag q) st msg 0 0) q.

Abbreviation prog := (main TableQuery).

(** ** The constructor *)

Definition is_opt (v : option text) (s : text) : bool :=
  match v with Some v => text_eqb v s | None => false end.

Definition all_catalogs (a : TableArguments) : bool :=
  negb (arg_metadataID a) && is_opt (arg_catalog a) SQL_ALL && is_opt (arg_schema a) []
  && is_opt (arg_table a) [].
Definition all_schemas (a : TableArguments) : bool :=
  negb (arg_metadataID a) && is_opt (arg_schema a) SQL_ALL && is_opt (arg_catalog a) []
  && is_opt (arg_table a) [].
Definition all_table_types (a : TableArguments) : bool :=
  is_opt (arg_last a) SQL_ALL && is_opt (arg_catalog a) [] && is_opt (arg_schema a) []
  && is_opt (arg_table a) [].

(** ODBC 2 has other names for two of the columns. *)
Definition TableColumns (a : TableArguments) : list ColumnMeta :=
  let old := arg_odbcVer a =? SQL_OV_ODBC2 in
  let columns catalog schema table type :=
    [ column (if old then "TABLE_QUALIFIER" else "TABLE_CAT") STRING catalog;
      column (if old then "TABLE_OWNER" else "TABLE_SCHEM") STRING schema;
      column "TABLE_NAME" STRING table; column "TABLE_TYPE" STRING type;
      column "REMARKS" STRING NULLABLE ] in
  if all_catalogs a then
    columns (if DATABASE_AS_SCHEMA then NULLABLE else NO_NULL) NULLABLE NULLABLE NULLABLE
  else if all_schemas a then
    columns NULLABLE (if DATABASE_AS_SCHEMA then NO_NULL else NULLABLE) NULLABLE NULLABLE
  else if all_table_types a then columns NULLABLE NULLABLE NULLABLE NO_NULL
  else columns NULLABLE NULLABLE NO_NULL NO_NULL.

Definition GetMeta (q : TableQuery) : list ColumnMeta := TableColumns (arguments q).

(** ** The inner query *)

(** Its diagnostics are those of this query, so it is kept without a copy. *)
Definition get_data (q : TableQuery) : option DataQuery := option_map (Query.set_diag (diag q)) (dataQuery_ q).
Definition put_data (d : DataQuery) (q : TableQuery) : TableQuery :=
  set_table_diag (Query.diag d) (set_dataQuery (Some (Query.set_diag NewStorage d)) q).
Definition data {A} (m : main DataQuery A) : prog A := zoom get_data put_data m.

(** A step of a thread of the inner query. *)
Definition fetch_step (i : nat) (q : TableQuery) : option TableQuery :=
  match get_data q with
  | Some d => option_map (fun d => put_data d q) (AsyncFetchOnePage i d)
  | None => None
  end.

Definition has_data : prog bool := ask (fun q => bool_decide (is_Some (dataQuery_ q))).
Definition delete_data : prog unit :=
  let! old := has_data in if old : bool then data DeleteDataQuery else Ret tt.
Definition make_data (sql : text) : prog unit :=
  delete_data ;;
  act (fun q => set_dataQuery (Some (NewDataQuery (arg_config (arguments q)) sql (diag q))) q).

(** The local array, bound as column 1. *)
Definition name_screen : Screen :=
  ({[ 1 := NewBuffer AI_CHAR (Some array_at) STRING_BUFFER_SIZE None ]}, fun _ => 0).
Definition local_text (a : Z) (m : Memory) : text := cstr (load a (Z.to_nat STRING_BUFFER_SIZE) m).

Fixpoint read_names (fuel : nat) (tableNames : list text) (screen : Screen) : prog (list text) :=
  match fuel with
  | O => Throw OutOfFuel
  | S f =>
      let! row := data (Query.FetchNextRow screen) in
      match fst row with
      | AI_SUCCESS => read_names f (tableNames ++ [local_text array_at (snd (snd row))]) (snd row)
      | _ => Ret tableNames
      end
  end.

Definition table_sql (tablePattern : text) : text :=
  if text_eqb tablePattern SQL_ALL || empty tablePattern then txt "SELECT table_name FROM system.tables"
  else txt "SELECT table_name FROM system.tables WHERE table_name LIKE '" ++ ToLower tablePattern ++ txt "'".

Definition getMatchedTables (fuel : nat) (tablePattern : text) : prog (SqlResult * list text) :=
  make_data (table_sql tablePattern) ;;
  let! result := data (Query.Execute fuel) in
  match result with
  | AI_NO_DATA =>
      act (add_record S01000_GENERAL_WARNING (txt "No table is found with pattern '" ++ tablePattern ++ txt "'")) ;;
      Ret (AI_SUCCESS_WITH_INFO, [])
  | AI_SUCCESS => let! tableNames := read_names fuel [] name_screen in Ret (AI_SUCCESS, tableNames)
  | _ => Ret (result, [])
  end.

(** ** The rows *)

Definition listed (name : text) : TableMeta :=
  MkTable (if DATABASE_AS_SCHEMA then None else Some (txt "default"))
    (if DATABASE_AS_SCHEMA then Some (txt "default") else None) (Some name) (Some (txt "TABLE")) None.

(** [ToUpper(s.data())]. *)
Definition upper (s : text) : text := ToUpper (Encoding.c_str s).

(** One round of the loop over the names; an identifier must be the name but for
    the case. *)
Definition add_table (identifier : option text) (meta : list TableMeta) (name : text) : list TableMeta :=
  if existsb (fun t => is_opt (tableName t) name) meta then meta
  else
    match identifier with
    | Some table => if text_eqb (upper table) (upper name) then meta ++ [listed name] else meta
    | None => meta ++ [listed name]
    end.

(** [table.get()] of an empty optional. *)
Definition warn_no_tables (table : option text) : prog unit :=
  match table with
  | None => Throw Indeterminate
  | Some table =>
      act (add_record S01000_GENERAL_WARNING
        (txt "Empty result set is returned as we could not find tables with " ++ table))
  end.

(** The tables with a name like the pattern; the warning's result is overwritten. *)
Definition list_tables (fuel : nat) (identifier table : option text) : prog SqlResult :=
  let tablePattern := default SQL_ALL table in
  let! found := getMatchedTables fuel (if empty tablePattern then SQL_ALL else tablePattern) in
  match fst found with
  | AI_SUCCESS =>
      let rows := foldl (add_table identifier) [] (snd found) in
      act (set_meta rows) ;;
      (if no_rows rows then warn_no_tables table else Ret tt) ;;
      Ret AI_SUCCESS
  | res => Ret res
  end.

Definition getTables (fuel : nat) (metadataID : bool) : prog SqlResult :=
  let! table := ask (fun q => arg_table (arguments q)) in
  match metadataID, table with
  | true, None =>
      act (add_record SHY009_INVALID_USE_OF_NULL_POINTER
        (txt "The SQL_ATTR_METADATA_ID statement attribute is set to SQL_TRUE, and TableName argument was a null pointer.")) ;;
      Ret AI_ERROR
  | _, _ => list_tables fuel (if metadataID then table else None) table
  end.

Definition dequote (s : text) : text :=
  match s with
  | c :: (_ :: _) as r =>
      if ((code c =? 39) && (code (List.last r c) =? 39)) || ((code c =? 34) && (code (List.last r c) =? 34))
      then take (length s - 2) (drop 1 s) else s
  | _ => s
  end.

(** [std::getline(ss, s, ',')] until the end. *)
Fixpoint getlines (s : text) : list text :=
  match s with
  | [] => []
  | c :: s' =>
      if code c =? 44 then [] :: getlines s'
      else match getlines s' with [] => [[c]] | l :: ls => (c :: l) :: ls end
  end.

Definition valid_table_type (tableType : text) : bool :=
  empty tableType || text_eqb tableType SQL_ALL
  || existsb (fun t => text_eqb (dequote (Trim t)) (txt "TABLE")) (getlines tableType).

Definition MakeRequestGetTablesMeta (fuel : nat) (metadataID : bool) : prog SqlResult :=
  act (set_meta []) ;;
  let! a := ask arguments in
  if all_table_types a then
    act (set_meta [Read (txt "TABLE") NewTableMeta]) ;; Ret AI_SUCCESS
  else
    match arg_last a with
    | Some tableType =>
        if valid_table_type tableType then getTables fuel metadataID
        else
          act (add_record S01000_GENERAL_WARNING
            (txt "Empty result set is returned as tableType is set to " ++ ["034"%char] ++ tableType
             ++ ["034"%char] ++ txt " and IoT SiteWise only supports " ++ ["034"%char] ++ txt "TABLE"
             ++ ["034"%char] ++ txt " table type")) ;;
          Ret AI_SUCCESS_WITH_INFO
    | None => getTables fuel metadataID
    end.

(** ** The operations *)

Definition close_rows : TableQuery -> TableQuery := fun q => set_rows false (fetched q) [] 0 q.
Definition Close : prog SqlResult := act close_rows ;; Ret AI_SUCCESS.

Definition Execute (fuel : nat) (metadataID : bool) : prog SqlResult :=
  act (fun q => if executed q then close_rows q else q) ;;
  let! result := MakeRequestGetTablesMeta fuel metadataID in
  (match result with
   | AI_SUCCESS | AI_SUCCESS_WITH_INFO =>
       act (fun q => set_rows true false (meta q) (if no_rows (meta q) then cursor q else 0) q)
   | _ => Ret tt
   end) ;;
  Ret result.

Definition Cancel : prog SqlResult :=
  let! present := has_data in
  (if present : bool then data Query.Cancel ;; Ret tt else Ret tt) ;;
  Close.

Definition Delete : prog unit := delete_data.

Definition not_executed : TableQuery -> TableQuery :=
  add_record SHY010_SEQUENCE_ERROR (txt "Query was not executed.").

(** The value of a column of a row; the result of the conversion is ignored. *)
Definition put_column (columnIdx : Z) (row : TableMeta) (b : ApplicationDataBuffer) (m : Memory) : outcome :=
  match columnIdx with
  | TABLE_CAT => PutOptional PutString (catalogName row) b m
  | TABLE_SCHEM => PutOptional PutString (schemaName row) b m
  | TABLE_NAME => PutOptional PutString (tableName row) b m
  | TABLE_TYPE => PutOptional PutString (tableType row) b m
  | REMARKS => PutOptional PutString (remarks row) b m
  | _ => Ok (CONV_SUCCESS, b, m)
  end.

Definition GetColumn (columnIdx : Z) (b : ApplicationDataBuffer) (m : Memory) (q : TableQuery)
    : Prelude.result (TableQuery * (SqlResult * ApplicationDataBuffer * Memory)) :=
  if negb (executed q) then Ok (not_executed q, (AI_ERROR, b, m))
  else if no_rows (meta q) then Ok (q, (AI_NO_DATA, b, m))
  else
    match meta q !! cursor q with
    | None =>
        Ok (add_record S24000_INVALID_CURSOR_STATE (txt "Cursor has reached end of the result set.") q,
            (AI_ERROR, b, m))
    | Some row =>
        match put_column columnIdx row b m with
        | Ok (_, b, m) => Ok (q, (AI_SUCCESS, b, m))
        | Err e => Err e
        end
    end.

Definition FetchNextRow (screen : Screen) (q : TableQuery)
    : Prelude.result (TableQuery * (SqlResult * Screen)) :=
  if negb (executed q) then Ok (not_executed q, (AI_ERROR, screen))
  else if no_rows (meta q) then Ok (q, (AI_NO_DATA, screen))
  else
    let cur := if fetched q then if (cursor q <? length (meta q))%nat then S (cursor q) else cursor q
               else cursor q in
    let q := set_rows true true (meta q) cur q in
    if (cur =? length (meta q))%nat then Ok (q, (AI_NO_DATA, screen))
    else
      match bound_columns GetColumn (bound_indices (fst screen)) screen q with
      | Ok (q, screen) => Ok (q, (AI_SUCCESS, screen))
      | Err e => Err e
      end.

Definition DataAvailable (q : TableQuery) : bool :=
  executed q && negb (no_rows (meta q)) && negb (cursor q =? length (meta q))%nat.

Definition RowNumber (q : TableQuery) : TableQuery * Z :=
  if negb (executed q) || (cursor q =? length (meta q))%nat
  then (add_record S01000_GENERAL_WARNING (txt "Cursor does not point to any data.") q, 0)
  else (q, Z.of_nat (cursor q) + 1).
End Tables.
End Tables.
