(* ===== verification/ColumnMetadata.v ===== *)
(** * ColumnMetadata: the query behind [SQLColumns]

    Models [src/query/column_metadata_query.cpp] and the operations of
    [src/meta/column_meta.cpp] that read a column from bound buffers. The query
    asks a [TableMetadataQuery] for the tables and runs a [DataQuery] for each of
    them against the table [system.columns]; both have threads of their own. The
    local arrays the answers are read into are a memory of its own, whose contents
    before they are assigned are a parameter. *)

From S2P Require Import Prelude Text Codes Memory Diagnostics Environment Configuration Encoding WideText AppBuffer AppBufferGet TypeTraits Column Fields ColumnMeta Interleave DataQuery Queries TableMetadata.

Module Columns.
Import Text Memory Diag Config AppBuf Types Fields Column Meta Query Queries.
Import Tables (TABLE_CAT, TABLE_SCHEM, TABLE_NAME, STRING_BUFFER_SIZE, SQL_ALL, no_rows, is_opt, local_text).
Local Open Scope main_scope.

(** Local variables that were not initialised hold anything. *)
Class Locals : Type := { uninitialised : Memory }.
Definition ZeroLocals : Locals := {| uninitialised := fun _ => 0 |}.

(** ** Columns read from buffers *)

Section Read.
Context `{HA : AwsTypes} `{!Encoding.Abi} {F : Floats} `{!Get.Reals F} `{!FieldCodes} `{!AwsScalars}.

Definition nullability_of (columnName : text) : Nullability :=
  if text_eqb columnName (txt "int_value") || text_eqb columnName (txt "boolean_value")
     || text_eqb columnName (txt "double_value") || text_eqb columnName (txt "string_value")
  then NULLABLE else NO_NULL.

Definition set_columnName (v : text) (c : ColumnMeta) : ColumnMeta :=
  MkMeta _ (columnInfo c) (catalogName c) (schemaName c) (tableName c) (Some v) (remarks c)
    (columnDef c) (isAutoIncrement c) (dataType c) (precision c) (decimalDigits c) (scale c)
    (nullability c) (ordinalPosition c).
Definition set_dataType (v : Z) (c : ColumnMeta) : ColumnMeta :=
  MkMeta _ (columnInfo c) (catalogName c) (schemaName c) (tableName c) (columnName c) (remarks c)
    (columnDef c) (isAutoIncrement c) (Some (i16 v)) (precision c) (decimalDigits c) (scale c)
    (nullability c) (ordinalPosition c).
Definition set_remarks (v : option text) (c : ColumnMeta) : ColumnMeta :=
  MkMeta _ (columnInfo c) (catalogName c) (schemaName c) (tableName c) (columnName c) v
    (columnDef c) (isAutoIncrement c) (dataType c) (precision c) (decimalDigits c) (scale c)
    (nullability c) (ordinalPosition c).
Definition set_place (n : Nullability) (position : Z) (c : ColumnMeta) : ColumnMeta :=
  MkMeta _ (columnInfo c) (catalogName c) (schemaName c) (tableName c) (columnName c) (remarks c)
    (columnDef c) (isAutoIncrement c) (dataType c) (precision c) (decimalDigits c) (scale c)
    (Some n) (Some position).

Local Open Scope result_scope.

(** A column whose buffer is missing leaves the rest as it was; the third column
    is read and only logged. *)
Definition ReadColumnMetadata (fuel : nat) (screen : Screen) (position : Z) (c : ColumnMeta)
    : Prelude.result ColumnMeta :=
  let get i := option_map (fun b => Get.GetString fuel STRING_BUFFER_SIZE b (snd screen)) (fst screen !! i) in
  match get 1 with
  | None => Ok c
  | Some name =>
      do name <- name;
      let c := set_columnName name c in
      match get 2 with
      | None => Ok c
      | Some type =>
          do type <- type;
          let c := set_dataType (GetScalarDataType type) c in
          match get 3 with
          | None => Ok c
          | Some tableNameFromDB => do _ <- tableNameFromDB; Ok (set_place (nullability_of name) position c)
          end
      end
  end.

Definition ReadRow (fuel : nat) (screen : Screen) (position : Z) (c : ColumnMeta)
    : Prelude.result ColumnMeta :=
  let get i := option_map (fun b => Get.GetString fuel STRING_BUFFER_SIZE b (snd screen)) (fst screen !! i) in
  match get 1 with
  | None => Ok c
  | Some name =>
      do name <- name;
      let c := set_columnName name c in
      match get 2 with
      | None => Ok c
      | Some type =>
          do type <- type;
          let c := set_dataType (GetScalarDataType type) c in
          match fst screen !! 3 with
          | None => Ok c
          | Some b =>
              do c <- (if Get.GetInputSize b (snd screen) =? SQL_NULL_DATA then Ok (set_remarks None c)
                       else do r <- Get.GetString fuel STRING_BUFFER_SIZE b (snd screen);
                            Ok (set_remarks (Some r) c));
              Ok (set_place (nullability_of name) position c)
          end
      end
  end.
End Read.

Section Columns.
Context `{HA : AwsTypes} `{!Client} `{!ColumnReader} `{!Deployment} `{!OdbcConstants}.
Context `{!SqlCodes} `{!FieldCodes} `{!Encoding.Abi} {F : Floats} `{!Get.Reals F} `{!Locals}.

(** ** The query *)

(** The patterns, which [Execute] replaces; [cursor = meta.end()] is the length
    of [meta]. The arguments of the inner query stay as they were. *)
Record ColumnQuery : Type := MkColumnQuery {
  config : Configuration;
  catalog : option text; schema : option text; table : option text; pattern : option text;
  executed : bool;
  fetched : bool;
  meta : list ColumnMeta;
  cursor : nat;
  dataQuery_ : option DataQuery;
  tableMetadataQuery_ : Tables.TableQuery;
  diag : DiagnosticRecordStorage
}.

(** The inner query is made without a table type. *)
Definition NewColumnQuery (a : TableArguments) (d : DiagnosticRecordStorage) : ColumnQuery :=
  MkColumnQuery (arg_config a) (arg_catalog a) (arg_schema a) (arg_table a) (arg_last a) false false [] 0
    None
    (Tables.NewTableQuery (MkArguments (arg_config a) (arg_metadataID a) (arg_odbcVer a) (arg_catalog a)
       (arg_schema a) (arg_table a) None) d) d.

Definition set_patterns (cat sch tab col : option text) (q : ColumnQuery) : ColumnQuery :=
  MkColumnQuery (config q) cat sch tab col (executed q) (fetched q) (meta q) (cursor q) (dataQuery_ q)
    (tableMetadataQuery_ q) (diag q).
Definition set_rows (executed fetched : bool) (meta : list ColumnMeta) (cursor : nat) (q : ColumnQuery)
    : ColumnQuery :=
  MkColumnQuery (config q) (catalog q) (schema q) (table q) (pattern q) executed fetched meta cursor
    (dataQuery_ q) (tableMetadataQuery_ q) (diag q).
Definition set_dataQuery (d : option DataQuery) (q : ColumnQuery) : ColumnQuery :=
  MkColumnQuery (config q) (catalog q) (schema q) (table q) (pattern q) (executed q) (fetched q) (meta q)
    (cursor q) d (tableMetadataQuery_ q) (diag q).
Definition set_tables (t : Tables.TableQuery) (q : ColumnQuery) : ColumnQuery :=
  MkColumnQuery (config q) (catalog q) (schema q) (table q) (pattern q) (executed q) (fetched q) (meta q)
    (cursor q) (dataQuery_ q) t (diag q).
Definition set_column_diag (g : DiagnosticRecordStorage) (q : ColumnQuery) : ColumnQuery :=
  MkColumnQuery (config q) (catalog q) (schema q) (table q) (pattern q) (executed q) (fetched q) (meta q)
    (cursor q) (dataQuery_ q) (tableMetadataQuery_ q) g.
Definition add_record (st : SqlState) (msg : text) (q : ColumnQuery) : ColumnQuery :=
  set_column_diag (AdapterAddStatusRecord true (diag q) st msg 0 0) q.

Abbreviation prog := (main ColumnQuery).

Definition ColumnColumns : list ColumnMeta :=
  [ column "TABLE_CAT" STRING NULLABLE; column "TABLE_SCHEM" STRING NULLABLE;
    column "TABLE_NAME" STRING NO_NULL; column "COLUMN_NAME" STRING NO_NULL;
    column "DATA_TYPE" INT NO_NULL; column "TYPE_NAME" STRING NO_NULL;
    column "COLUMN_SIZE" INT NULLABLE; column "BUFFER_LENGTH" INT NULLABLE;
    column "DECIMAL_DIGITS" INT NULLABLE; column "NUM_PREC_RADIX" INT NULLABLE;
    column "NULLABLE" INT NO_NULL; column "REMARKS" STRING NULLABLE;
    column "COLUMN_DEF" STRING NULLABLE; column "SQL_DATA_TYPE" INT NO_NULL;
    column "SQL_DATETIME_SUB" INT NULLABLE; column "CHAR_OCTET_LENGTH" INT NULLABLE;
    column "ORDINAL_POSITION" INT NO_NULL; column "IS_NULLABLE" STRING NULLABLE ].

(** ** The inner queries *)

Definition get_data (q : ColumnQuery) : option DataQuery := option_map (Query.set_diag (diag q)) (dataQuery_ q).
Definition put_data (d : DataQuery) (q : ColumnQuery) : ColumnQuery :=
  set_column_diag (Query.diag d) (set_dataQuery (Some d) q).
Definition data {A} (m : main DataQuery A) : prog A := zoom get_data put_data m.

Definition get_tables (q : ColumnQuery) : option Tables.TableQuery :=
  Some (Tables.set_table_diag (diag q) (tableMetadataQuery_ q)).
Definition put_tables (t : Tables.TableQuery) (q : ColumnQuery) : ColumnQuery :=
  set_column_diag (Tables.diag t) (set_tables t q).
Definition tables {A} (m : main Tables.TableQuery A) : prog A := zoom get_tables put_tables m.

Definition has_data : prog bool := ask (fun q => bool_decide (is_Some (dataQuery_ q))).
Definition delete_data : prog unit :=
  let! old := has_data in if old : bool then data DeleteDataQuery else Ret tt.
Definition make_data (sql : text) : prog unit :=
  delete_data ;;
  act (fun q => set_dataQuery (Some (NewDataQuery (config q) sql (diag q))) q).

(** ** The columns of a table *)

(** The arrays [columnName], of wide characters, [dataType] and
    [tableNameFromDB]; the last two have 64 bytes and are bound as longer. *)
Abbreviation columnName_at := 4096 (only parsing).
Abbreviation dataType_at := 16384 (only parsing).
Abbreviation tableNameFromDB_at := 20480 (only parsing).
Abbreviation sizeof_dataType := 64 (only parsing).
Definition column_screen : Screen :=
  ({[ 1 := NewBuffer AI_WCHAR (Some columnName_at) STRING_BUFFER_SIZE None;
      2 := NewBuffer AI_CHAR (Some dataType_at) STRING_BUFFER_SIZE None;
      3 := NewBuffer AI_CHAR (Some tableNameFromDB_at) STRING_BUFFER_SIZE None ]}, uninitialised).

(** A byte past one of the two short arrays was changed. *)
Definition overrun (m m' : Memory) : bool :=
  existsb (fun i => let o := Z.of_nat i in
      negb (m (dataType_at + o) =? m' (dataType_at + o))
      || negb (m (tableNameFromDB_at + o) =? m' (tableNameFromDB_at + o)))
    (seq (Z.to_nat sizeof_dataType) (Z.to_nat (STRING_BUFFER_SIZE - sizeof_dataType))).

Definition wanted (fuel : nat) (pattern : option text) (m : Memory) : Prelude.result bool :=
  let p := default [] pattern in
  if text_eqb p SQL_ALL then Ok true
  else
    match Wide.SqlWcharToString SQL_NTS fuel (Some columnName_at) STRING_BUFFER_SIZE false m with
    | Ok name => Ok (text_eqb p name)
    | Err e => Err e
    end.

(** The names of catalog and schema are set to null; the remarks are the name of
    the table. *)
Definition table_column (tableName : text) : ColumnMeta :=
  let name := if Config.empty tableName then None else Some tableName in
  MkMeta _ None None None name None name None (txt "NO") None (Some (-1)) None (Some (-1))
    (Some NULLABILITY_UNKNOWN) (Some (-1)).

(** One row: the columns and the position so far. *)
Definition read_row (fuel : nat) (tableName : text) (screen : Screen) (rows : list ColumnMeta * Z)
    (pattern : option text) : Prelude.result (list ColumnMeta * Z) :=
  let '(columns, prevPosition) := rows in
  match wanted fuel pattern (snd screen) with
  | Err e => Err e
  | Ok false => Ok rows
  | Ok true =>
      match ReadColumnMetadata fuel screen (i32 (prevPosition + 1)) (table_column tableName) with
      | Ok c => Ok (columns ++ [c], i32 (prevPosition + 1))
      | Err e => Err e
      end
  end.

(** [bound] limits the rows, [fuel] the texts in memory. *)
Fixpoint read_columns (bound fuel : nat) (tableName : text) (prevPosition : Z) (screen : Screen) : prog unit :=
  match bound with
  | O => Throw OutOfFuel
  | S bound' =>
      let! row := data (Query.FetchNextRow screen) in
      match fst row with
      | AI_SUCCESS =>
          if overrun (snd screen) (snd (snd row)) then Throw OutOfBounds
          else
            let! rows := ask (fun q => read_row fuel tableName (snd row) (meta q, prevPosition) (pattern q)) in
            match rows with
            | Err e => Throw e
            | Ok (columns, position) =>
                act (fun q => set_rows (executed q) (fetched q) columns (cursor q) q) ;;
                read_columns bound' fuel tableName position (snd row)
            end
      | _ => Ret tt
      end
  end.

Definition column_sql (tableName : text) : text :=
  txt "SELECT column_name, data_type FROM system.columns " ++
  txt "WHERE table_name = '" ++ tableName ++ txt "'".

Definition MakeRequestGetColumnsMetaPerTable (fuel : nat) (tableName : text) : prog SqlResult :=
  make_data (column_sql tableName) ;;
  let! result := data (Query.Execute fuel) in
  match result with
  | AI_SUCCESS =>
      read_columns fuel fuel tableName 0 column_screen ;;
      let! none := ask (fun q => no_rows (meta q)) in
      if none : bool then
        act (fun q => add_record S01000_GENERAL_WARNING
               (txt "No columns with name '" ++ default [] (pattern q) ++ txt "' found") q) ;;
        Ret AI_SUCCESS_WITH_INFO
      else Ret AI_SUCCESS
  | _ => Ret AI_NO_DATA
  end.

(** The arrays the names are read into, which start as zeros; the database is
    column [databaseType] of the inner query. *)
Abbreviation databaseName_at := 4096 (only parsing).
Abbreviation tableName_at := 8192 (only parsing).
Definition table_screen (databaseType : Z) : Screen :=
  (<[ TABLE_NAME := NewBuffer AI_CHAR (Some tableName_at) STRING_BUFFER_SIZE None ]>
     {[ databaseType := NewBuffer AI_CHAR (Some databaseName_at) STRING_BUFFER_SIZE None ]}, fun _ => 0).

Fixpoint each_table (bound fuel : nat) (result : SqlResult) (screen : Screen) : prog SqlResult :=
  match bound with
  | O => Throw OutOfFuel
  | S bound' =>
      let! row := tables (call (Tables.FetchNextRow screen)) in
      match fst row with
      | AI_SUCCESS =>
          let! result := MakeRequestGetColumnsMetaPerTable fuel (local_text tableName_at (snd (snd row))) in
          match result with
          | AI_SUCCESS | AI_SUCCESS_WITH_INFO => each_table bound' fuel result (snd row)
          | _ => Ret result
          end
      | _ => Ret result
      end
  end.

Definition GetColumnsWithDatabaseType (fuel : nat) (metadataID : bool) (databaseType : Z) : prog SqlResult :=
  if metadataID then
    let! table := ask table in
    MakeRequestGetColumnsMetaPerTable fuel (default [] table)
  else
    let! result := tables (Tables.Execute fuel metadataID) in
    match result with
    | AI_SUCCESS => each_table fuel fuel result (table_screen databaseType)
    | _ =>
        act (fun q => add_record S01000_GENERAL_WARNING
               (txt "Failed to get table metadata for " ++ default [] (table q)) q) ;;
        Ret AI_SUCCESS_WITH_INFO
    end.

Definition MakeRequestGetColumnsMeta (fuel : nat) (metadataID : bool) : prog SqlResult :=
  act (fun q => set_rows (executed q) (fetched q) [] (cursor q) q) ;;
  GetColumnsWithDatabaseType fuel metadataID (if DATABASE_AS_SCHEMA then TABLE_SCHEM else TABLE_CAT).

(** ** The operations *)

Definition close_rows : ColumnQuery -> ColumnQuery := fun q => set_rows false (fetched q) [] 0 q.
Definition Close : prog SqlResult := act close_rows ;; Ret AI_SUCCESS.

(** A name that is neither empty nor "%". *)
Definition named (v : option text) : option text :=
  match v with
  | Some v => if Config.empty v || text_eqb v SQL_ALL then None else Some v
  | None => None
  end.

Definition quoted (s : text) : text := ["034"%char] ++ s ++ ["034"%char].

(** The checks before the request: a return code with its record, or the
    patterns to go on with. *)
Definition check (metadataID : bool) (q : ColumnQuery) : ColumnQuery * option SqlResult :=
  let refuse st msg res := (add_record st msg q, Some res) in
  match if DATABASE_AS_SCHEMA then named (catalog q) else named (schema q) with
  | Some name =>
      refuse S01000_GENERAL_WARNING
        (if DATABASE_AS_SCHEMA
         then txt "Empty result set is returned as catalog is set to " ++ quoted name
              ++ txt " and IoT SiteWise does not have catalogs"
         else txt "Empty result set is returned as schema is set to " ++ quoted name
              ++ txt " and IoT SiteWise does not have schemas")
        AI_SUCCESS_WITH_INFO
  | None =>
      let is_none (v : option text) := bool_decide (v = None) in
      let wildcard v := match v with Some (c :: s) => Some (c :: s) | _ => Some SQL_ALL end in
      if metadataID && ((if DATABASE_AS_SCHEMA then is_none (schema q) || is_none (table q)
                         else is_none (catalog q) || is_none (table q)) || is_none (pattern q)) then
        refuse SHY009_INVALID_USE_OF_NULL_POINTER
          (if DATABASE_AS_SCHEMA
           then txt "SQL_ATTR_METADATA_ID statement attribute was set to SQL_TRUE, and the SchemaName, TableName, or ColumnName argument was a null pointer."
           else txt "SQL_ATTR_METADATA_ID statement attribute was set to SQL_TRUE, and the CatalogName, TableName, or ColumnName argument was a null pointer.")
          AI_ERROR
      else
        let q := if metadataID then q
                 else set_patterns (wildcard (catalog q)) (wildcard (schema q)) (wildcard (table q))
                        (wildcard (pattern q)) q in
        if Config.empty (default [] (table q)) then
          (add_record S01000_GENERAL_WARNING (txt "Table name should not be empty.") q,
           Some AI_SUCCESS_WITH_INFO)
        else (q, None)
  end.

Definition Execute (fuel : nat) (metadataID : bool) : prog SqlResult :=
  act (fun q => if executed q then close_rows q else q) ;;
  let! stop := ask (fun q => snd (check metadataID q)) in
  act (fun q => fst (check metadataID q)) ;;
  match stop with
  | Some res => Ret res
  | None =>
      let! result := MakeRequestGetColumnsMeta fuel metadataID in
      (match result with
       | AI_SUCCESS => act (fun q => set_rows true false (meta q) 0 q)
       | _ => Ret tt
       end) ;;
      Ret result
  end.

Definition Cancel : prog SqlResult :=
  let! present := has_data in
  (if present : bool then data Query.Cancel ;; Ret tt else Ret tt) ;;
  Close.

(** The members are destroyed from the last to the first. *)
Definition Delete : prog unit := tables Tables.Delete ;; delete_data.

Definition not_executed : ColumnQuery -> ColumnQuery :=
  add_record SHY010_SEQUENCE_ERROR (txt "Query was not executed.").

Definition nullability_number (n : Nullability) : Z :=
  match n with NO_NULL => 0 | NULLABLE => 1 | NULLABILITY_UNKNOWN => 2 end.

(** A number that may be missing or negative, as none. *)
Definition put_digits (v : option Z) (b : ApplicationDataBuffer) (m : Memory) : outcome :=
  match v with
  | Some v => if v <? 0 then PutNull b m else PutInt16 (i16 v) b m
  | None => PutNull b m
  end.

(** The value of a column of a row, [None] for an index that is none. *)
Definition put_column (columnIdx : Z) (c : ColumnMeta) (b : ApplicationDataBuffer) (m : Memory)
    : option outcome :=
  let type := dataType c in
  let nulls := option_map nullability_number (nullability c) in
  match columnIdx with
  | 1 => Some (PutOptional PutString (catalogName c) b m)
  | 2 => Some (PutOptional PutString (schemaName c) b m)
  | 3 => Some (PutOptional PutString (tableName c) b m)
  | 4 => Some (PutOptional PutString (columnName c) b m)
  | 5 | 14 => Some (PutOptional PutInt16 (BinaryToSqlType type) b m)
  | 6 => Some (PutOptional PutString (BinaryTypeToSqlTypeName type) b m)
  | 7 => Some (PutOptional PutInt32 (BinaryTypeColumnSize type) b m)
  | 8 => Some (PutOptional PutInt32 (BinaryTypeTransferLength type) b m)
  | 9 => Some (put_digits (BinaryTypeDecimalDigits type) b m)
  | 10 => Some (put_digits (BinaryTypeNumPrecRadix type) b m)
  | 11 => Some (PutOptional PutInt32 nulls b m)
  | 12 => Some (PutOptional PutString (remarks c) b m)
  | 13 => Some (PutOptional PutString (columnDef c) b m)
  | 15 => Some (PutNull b m)
  | 16 => Some (PutOptional PutInt32 (BinaryTypeCharOctetLength type) b m)
  | 17 => Some (PutOptional PutInt32 (ordinalPosition c) b m)
  | 18 => Some (PutOptional PutString (NullabilityToIsNullable nulls) b m)
  | _ => None
  end.

Definition GetColumn (columnIdx : Z) (b : ApplicationDataBuffer) (m : Memory) (q : ColumnQuery)
    : Prelude.result (ColumnQuery * (SqlResult * ApplicationDataBuffer * Memory)) :=
  if negb (executed q) then Ok (not_executed q, (AI_ERROR, b, m))
  else
    match meta q !! cursor q with
    | None =>
        Ok (add_record S24000_INVALID_CURSOR_STATE (txt "Cursor has reached end of the result set.") q,
            (AI_ERROR, b, m))
    | Some c =>
        match put_column columnIdx c b m with
        | Some (Ok (_, b, m)) => Ok (q, (AI_SUCCESS, b, m))
        | Some (Err e) => Err e
        | None => Ok (add_record S07009_INVALID_DESCRIPTOR_INDEX (txt "Invalid index.") q, (AI_ERROR, b, m))
        end
    end.

Definition FetchNextRow (screen : Screen) (q : ColumnQuery)
    : Prelude.result (ColumnQuery * (SqlResult * Screen)) :=
  if negb (executed q) then Ok (not_executed q, (AI_ERROR, screen))
  else
    let cur := if fetched q then if (cursor q <? length (meta q))%nat then S (cursor q) else cursor q
               else cursor q in
    let q := set_rows true true (meta q) cur q in
    if (cur =? length (meta q))%nat then Ok (q, (AI_NO_DATA, screen))
    else
      match bound_columns GetColumn (bound_indices (fst screen)) screen q with
      | Ok (q, screen) => Ok (q, (AI_SUCCESS, screen))
      | Err e => Err e
      end.

Definition DataAvailable (q : ColumnQuery) : bool :=
  executed q && negb (no_rows (meta q)) && negb (cursor q =? length (meta q))%nat.

Definition RowNumber (q : ColumnQuery) : ColumnQuery * Z :=
  if negb (executed q) || (cursor q =? length (meta q))%nat
  then (add_record S01000_GENERAL_WARNING (txt "Cursor does not point to any data.") q, 0)
  else (q, Z.of_nat (cursor q) + 1).
End Columns.
End Columns.
