(* ===== verification/QueryColumns.v ===== *)
(** * QueryColumns: the columns of a query, implemented

    The instance of the interface [ColumnReader] of [DataQuery] by the conversion
    of [Column] ([src/iotsitewise_column.cpp]), and of [AwsTypes] by the data of
    the service; data of textual columns are converted without an exception. *)

From S2P Require Import Prelude Text Memory Encoding AppBuffer AppBufferFacts Column ColumnFacts TypeTraits ColumnMeta DataQuery.

Module QueryColumns.
Import Text Memory Encoding AppBuf AppBufFacts Column ColumnFacts.

(** [ColumnInfo] of the SDK: its name, and the scalar type of its type as far as
    they have been set. *)
Record ColumnInfo : Type := MkInfo { name : text; GetType : option (option Z) }.

Section Instances.
Context `{Abi} `{Floats} `{AwsScalars}.

#[global] Instance SdkTypes : Meta.AwsTypes := {|
  Meta.Datum := Datum;
  Meta.ColumnInfo := ColumnInfo;
  Meta.GetName := name;
  Meta.ScalarTypeOf := fun i => match GetType i with Some t => t | None => None end
|}.

Definition TypeHasBeenSet (m : Meta.ColumnMeta) : bool :=
  match Meta.columnInfo m with
  | Some i => bool_decide (is_Some (GetType i))
  | None => false
  end.

#[global] Instance SdkColumns : Query.ColumnReader := {|
  Query.ReadToBuffer m := ReadToBuffer (TypeHasBeenSet m) (Meta.GetScalarType m)
|}.

(** ** Text buffers and textual columns *)

Definition text_target (b : ApplicationDataBuffer) : Prop := type_ b = AI_CHAR \/ type_ b = AI_WCHAR.

Lemma copy_char_total s p n tr m :
  ascii_only s ->
  exists k tr' m', CopyUtf8StringToSqlCharString s (Some p) n tr m = Ok (k, tr', m').
Proof.
  intros Hs. unfold CopyUtf8StringToSqlCharString. destruct ANSI_STRING_ONLY.
  - destruct (_ <=? _); eauto.
  - rewrite from_bytes_ascii by done. cbn [res_bind]. eauto.
Qed.

Lemma put_text_total w s b m :
  ascii_only s ->
  exists res b' m', put_str w s b m = Ok (res, b', m') /\ type_ b' = type_ b.
Proof.
  intros Hs. unfold put_str, PutStrToStrBuffer.
  rewrite (c_str_ascii s), from_bytes_ascii by auto using ascii_no_nul.
  assert (Hreq : forall len, (if ANSI_STRING_ONLY then Ok (Z.of_nat (length s) * w)
    else Prelude.res_bind (Ok (bytes_of s)) (fun t => Ok (Z.of_nat (length t) * w))) = Ok len ->
    len = Z.of_nat (length s) * w).
  { intros len. cbn. rewrite length_bytes_of. by destruct ANSI_STRING_ONLY; intros [= <-]. }
  destruct (if ANSI_STRING_ONLY then _ else _) as [req|] eqn:E.
  2:{ by destruct ANSI_STRING_ONLY. }
  clear E Hreq. cbn [res_bind]. destruct (GetData b) as [p|]; [|cbn; eauto 6].
  destruct (_ <=? _); [cbn; eauto 6|]. set (o := Z.to_nat _).
  pose proof (ascii_drop o s Hs) as Hd. rewrite (c_str_ascii _ (ascii_no_nul _ Hd)).
  destruct (w =? 1).
  - destruct (copy_char_total (drop o s) p (u64 (buflen_ b)) false m Hd) as (k & tr & m' & ->).
    cbn. eexists _, _, _. split; [done|]. by destruct (0 <=? cellOffset_ b).
  - destruct (CopyUtf8StringToSqlWcharString _ _ _ _ _) as [[k tr] m'].
    cbn. eexists _, _, _. split; [done|]. by destruct (0 <=? cellOffset_ b).
Qed.

Lemma PutString_total s b m :
  ascii_only s -> text_target b ->
  exists res b' m', PutString s b m = Ok (res, b', m') /\ type_ b' = type_ b.
Proof.
  intros Hs Hb. destruct (PutString_text s b m Hb) as (w & _ & ->). by apply put_text_total.
Qed.

Lemma PutNull_total b m :
  exists res b' m', PutNull b m = Ok (res, b', m') /\ type_ b' = type_ b.
Proof. unfold PutNull. destruct (GetResLen b); eauto 6. Qed.

(** A column whose conversion to a text buffer never throws. *)
Definition text_datum (m : Meta.ColumnMeta) (d : Datum) : Prop :=
  textual_type (Meta.GetScalarType m) /\ textual (Meta.GetScalarType m) d = true.

Lemma textual_converts m d b mem :
  text_datum m d -> text_target b ->
  exists res b' mem', Query.ReadToBuffer m d b mem = Ok (res, b', mem') /\ text_target b'.
Proof.
  intros [Ht Hd] Hb.
  assert (Hr : exists res b' mem', Query.ReadToBuffer m d b mem = Ok (res, b', mem') /\
    type_ b' = type_ b).
  { cbn. unfold ReadToBuffer. destruct (TypeHasBeenSet m); cbn [negb]; [|eauto 6].
    destruct (has_text d) eqn:Eh.
    - rewrite datum_is_text by done. apply PutString_total; [by apply text_of_ascii|done].
    - destruct d as [[v|] [ds|] [[row|]|] []]; try discriminate; cbn [ParseDatum ParseRowType]; eauto 6.
      destruct (PutNull_total b mem) as (res & b' & m' & -> & E). cbn. eauto 6. }
  destruct Hr as (res & b' & mem' & E & Et). exists res, b', mem'. split; [done|].
  unfold text_target. by rewrite Et.
Qed.
End Instances.
End QueryColumns.
