(* ===== verification/DataQueryFacts.v ===== *)
(** * DataQueryFacts: the paged reader refines a reader of a list

    The abstract specification of a query is the list of the rows of all its
    pages: a fetch takes the first of the rows that are left. The invariant
    [reading] relates the state of a query (the rest of the current page, the
    thread, the queue) to the rows that are left, is kept by every step of the
    asynchronous fetch, and every operation refines the abstract one under every
    schedule ([total]). *)

From S2P Require Import Prelude Text Memory Diagnostics Configuration Encoding AppBuffer Column ColumnFacts ColumnMeta GetData Interleave DataQuery QueryColumns.

Module QueryFacts.
Import Text Memory Diag Config AppBuf Meta Query.
Local Open Scope main_scope.

Section Facts.
Context `{HA : AwsTypes} `{HC : !Client} `{HR : !ColumnReader}.

Abbreviation total_q := (total AsyncFetchOnePage).
Abbreviation prog := (main DataQuery).

(** ** Steps of the asynchronous fetch *)

Definition work (t : Thread) : nat :=
  match t with Calling => 2 | Holding _ => 1 | _ => 0 end.
Definition pending (q : DataQuery) : nat := sum_list_with work (threads_ q).

Lemma sum_insert (l : list Thread) i x y :
  l !! i = Some x -> (work y < work x)%nat ->
  (sum_list_with work (<[i := y]> l) < sum_list_with work l)%nat.
Proof.
  revert i. induction l as [|z l IH]; intros [|i]; cbn; try discriminate.
  - intros [= ->]. lia.
  - intros Hl Hw. apply Nat.add_lt_mono_l, (IH i Hl Hw).
Qed.

Lemma fetch_pending i q q' : AsyncFetchOnePage i q = Some q' -> (pending q' < pending q)%nat.
Proof.
  unfold AsyncFetchOnePage, pending. destruct (threads_ q !! i) as [[]|] eqn:E; try discriminate.
  - intros [= <-]. cbn. eapply sum_insert; [done|]. cbn. lia.
  - destruct (queue_ q); [|destruct (isClosing_ q)]; intros [= <-]; cbn;
      (eapply sum_insert; [done|]; cbn; lia).
Qed.

(** A step touches the threads and the queue, nothing else. *)
Definition around (q0 q : DataQuery) : Prop := q = set_threads (threads_ q) (set_queue (queue_ q) q0).

Lemma around_refl q : around q q.
Proof. by destruct q. Qed.

Lemma fetch_around q0 q i q' : around q0 q -> AsyncFetchOnePage i q = Some q' -> around q0 q'.
Proof.
  unfold AsyncFetchOnePage, around. intros E. destruct (threads_ q !! i) as [[]|]; try discriminate.
  - intros [= <-]. rewrite E. by destruct q0.
  - destruct (queue_ q); [|destruct (isClosing_ q)]; intros [= <-]; rewrite E; by destruct q0.
Qed.

Definition quiet (q : DataQuery) : Prop := Forall (fun t => t = Ended) (threads_ q).

Lemma quiet_stuck q i : quiet q -> AsyncFetchOnePage i q = None.
Proof.
  intros Hq. unfold AsyncFetchOnePage. destruct (threads_ q !! i) as [t|] eqn:E; [|done].
  by rewrite (Forall_lookup_1 _ _ _ _ Hq E).
Qed.

(** One thread that calls with the current request, or has called and holds or
    has pushed the outcome. *)
Definition fetching (q : DataQuery) : Prop :=
  let o := ExecuteQuery (request_ q) in
  (threads_ q = [Calling] /\ queue_ q = []) \/
  (threads_ q = [Holding o] /\ queue_ q = []) \/
  (threads_ q = [Ended] /\ queue_ q = [o]).

Lemma fetching_step q i q' : fetching q -> AsyncFetchOnePage i q = Some q' -> fetching q'.
Proof.
  unfold fetching, AsyncFetchOnePage.
  intros [[Ht Hq]|[[Ht Hq]|[Ht Hq]]]; rewrite Ht; destruct i as [|[|i]]; cbn;
    try discriminate; rewrite ?Hq; intros [= <-]; cbn; auto.
Qed.

Lemma fetching_enabled q : fetching q -> queue_ q = [] -> exists i q', AsyncFetchOnePage i q = Some q'.
Proof.
  unfold fetching, AsyncFetchOnePage. intros [[Ht Hq]|[[Ht Hq]|[Ht Hq]]] E; [..|congruence];
    exists 0%nat; rewrite Ht; cbn; rewrite ?Hq; eauto.
Qed.

(** Rules for actions of the main thread: nothing runs beside it; or a state
    that a fetch in progress leaves alone. *)
Lemma total_quiet {A} (Q : A -> DataQuery -> Prop) f q q1 m :
  quiet q -> f q = Some (q1, m) -> total_q Q m q1 -> total_q Q (Atomic f) q.
Proof.
  intros Hq E Hm. apply (total_atomic _ _ fetch_pending) with (I := fun s => s = q); try done.
  - intros s0 i s1 -> Ht. by rewrite quiet_stuck in Ht.
  - intros s0 -> Hf. congruence.
  - intros s0 s1 m' -> E'. rewrite E in E'. by injection E' as <- <-.
Qed.

Lemma total_act_quiet {A} (Q : A -> DataQuery -> Prop) f k q :
  quiet q -> total_q Q (k tt) (f q) -> total_q Q (bind (act f) k) q.
Proof. intros Hq Hk. unfold act. cbn [bind]. by eapply total_quiet. Qed.

Lemma total_ask_quiet {A B} (Q : B -> DataQuery -> Prop) (g : DataQuery -> A) k q :
  quiet q -> total_q Q (k (g q)) q -> total_q Q (bind (ask g) k) q.
Proof. intros Hq Hk. unfold ask. cbn [bind]. by eapply total_quiet. Qed.

Definition beside (q0 q : DataQuery) : Prop := around q0 q /\ fetching q.

Lemma beside_step q0 q i q' : beside q0 q -> AsyncFetchOnePage i q = Some q' -> beside q0 q'.
Proof. intros [Ha Hf] E. split; [by eapply fetch_around|by eapply fetching_step]. Qed.

(** ** Pages *)

(** The answers along the tokens: the pages, and whether a failure ends them. *)
Inductive stream : ExecuteQueryRequest -> list ExecuteQueryResult -> bool -> Prop :=
  | stream_end r p :
      ExecuteQuery r = Success p -> empty (GetNextToken p) = true -> stream r [p] false
  | stream_more r p ps b :
      ExecuteQuery r = Success p -> empty (GetNextToken p) = false ->
      stream (SetNextToken (GetNextToken p) r) ps b -> stream r (p :: ps) b
  | stream_fail r n m : ExecuteQuery r = Failure n m -> stream r [] true.

Definition page_rows (ps : list ExecuteQueryResult) : list Row := concat (map GetRows ps).

(** The buffers the application may bind; the conversion of a datum into one
    does not throw and leaves such a buffer. *)
Variable usable : ApplicationDataBuffer -> Prop.

Definition converts (m : ColumnMeta) (d : Datum) : Prop :=
  forall buf mem, usable buf ->
  exists res buf' mem', ReadToBuffer m d buf mem = Ok (res, buf', mem') /\ usable buf'.

Definition screen_ok (screen : Screen) : Prop := map_Forall (fun _ => usable) (fst screen).

(** Every row has a datum for every column, and it can be converted. *)
Definition rows_fit (meta : list ColumnMeta) (rows : list Row) : Prop :=
  Forall (fun row => Forall2 converts meta (take (length meta) row)) rows.

(** ** The invariant *)

Definition ahead (c : Cursor) : list Row := drop (Z.to_nat (curPos_ c)) (rowVec_ c).

Definition cursor_ok (meta : list ColumnMeta) (c : Cursor) : Prop :=
  0 <= curPos_ c /\ (curPos_ c <= row_count c -> iterator_ c = (Z.to_nat (curPos_ c) - 1)%nat) /\
  columns_ c = take (length (columns_ c)) meta /\ rows_fit meta (rowVec_ c).

(** The pages [ps], and a failure if [b], are still to come. *)
Definition to_come (q : DataQuery) (ps : list ExecuteQueryResult) (b : bool) : Prop :=
  if hasAsyncFetch q then
    fetching q /\ stream (request_ q) ps b /\ Forall (fun p => GetRows p <> []) ps /\
    rows_fit (resultMeta_ q) (page_rows ps)
  else quiet q /\ queue_ q = [] /\ ps = [] /\ b = false.

Definition reading (q : DataQuery) (rows : list Row) (b : bool) : Prop :=
  exists c ps, cursor_ q = Some c /\ cursor_ok (resultMeta_ q) c /\ to_come q ps b /\
    rows = ahead c ++ page_rows ps.

Definition current_row (q : DataQuery) : option Row :=
  match cursor_ q with Some c => rowVec_ c !! iterator_ c | None => None end.

Lemma to_come_step q ps b i q' :
  to_come q ps b -> AsyncFetchOnePage i q = Some q' -> to_come q' ps b.
Proof.
  unfold to_come. intros Hc E. pose proof (fetch_around q q i q' (around_refl q) E) as Ha.
  destruct (hasAsyncFetch q) eqn:Has.
  - destruct Hc as (Hf & Hs & Hn & Hr). pose proof (fetching_step _ _ _ Hf E) as Hf'.
    rewrite Ha. cbn. rewrite Has. split_and!; auto. rewrite Ha in Hf'. exact Hf'.
  - destruct Hc as (Hq & _). by rewrite quiet_stuck in E.
Qed.

Lemma reading_step q rows b i q' :
  reading q rows b -> AsyncFetchOnePage i q = Some q' -> reading q' rows b.
Proof.
  intros (c & ps & Hc & Hok & Ht & ->) E. exists c, ps.
  pose proof (fetch_around q q i q' (around_refl q) E) as Ha. pose proof (to_come_step _ _ _ _ _ Ht E).
  split_and!; auto; rewrite Ha; by destruct q.
Qed.

Lemma current_row_step q row i q' :
  current_row q = row -> AsyncFetchOnePage i q = Some q' -> current_row q' = row.
Proof.
  intros <- E. rewrite (fetch_around q q i q' (around_refl q) E). by destruct q.
Qed.

(** ** Reading the columns of a row *)

(** The reference: the bound columns in order, up to the first that fails. *)
Fixpoint deliver (idxs : list Z) (meta : list ColumnMeta) (row : Row) (screen : Screen)
    : Screen * bool :=
  match idxs with
  | [] => (screen, true)
  | i :: idxs' =>
      let '(bindings, mem) := screen in
      match bindings !! i, meta !! Z.to_nat (i - 1), row !! Z.to_nat (i - 1) with
      | Some buf, Some m, Some d =>
          match ReadToBuffer m d buf mem with
          | Ok (res, buf, mem) =>
              let screen := (<[i := buf]> bindings, mem) in
              match res with
              | FAILURE => (screen, false)
              | _ => deliver idxs' meta row screen
              end
          | Err _ => (screen, false)
          end
      | _, _, _ => deliver idxs' meta row screen
      end
  end.

Definition indices (meta : list ColumnMeta) : list Z := map Z.of_nat (seq 1 (length meta)).

(** What the reading of columns leaves as it is. *)
Definition kept (q q' : DataQuery) : Prop :=
  request_ q' = request_ q /\ queue_ q' = queue_ q /\ threads_ q' = threads_ q /\
  hasAsyncFetch q' = hasAsyncFetch q /\ resultMeta_ q' = resultMeta_ q /\
  isClosing_ q' = isClosing_ q.

Definition same_place (c c' : Cursor) : Prop :=
  rowVec_ c' = rowVec_ c /\ iterator_ c' = iterator_ c /\ curPos_ c' = curPos_ c.

Lemma discover_columns meta c idx :
  columns_ c = take (length (columns_ c)) meta -> 1 <= idx <= Z.of_nat (length meta) ->
  exists c', EnsureColumnDiscovered meta idx c = (c', true) /\ same_place c c' /\
    columns_ c' = take (length (columns_ c')) meta /\
    columns_ c' !! Z.to_nat (idx - 1) = meta !! Z.to_nat (idx - 1).
Proof.
  intros Hc Hi. unfold EnsureColumnDiscovered.
  rewrite (proj2 (Z.ltb_ge _ _)), (proj2 (Z.ltb_ge _ _)) by lia. cbn [orb].
  destruct (Nat.eqb_spec (length (columns_ c)) (length meta)) as [E|E].
  - exists c. split_and!; [done|done|done|]. rewrite Hc, E, take_ge; done.
  - set (n := length (columns_ c)) in *.
    assert (Hn : (n <= length meta)%nat).
    { unfold n. rewrite Hc at 1. rewrite length_take. lia. }
    set (m := (Z.to_nat idx - n)%nat).
    assert (Ht : columns_ c ++ take m (drop n meta) = take (n + m) meta).
    { rewrite Hc. by rewrite take_take_drop. }
    eexists. split; [done|]. cbn [columns_]. split; [done|]. rewrite Ht.
    rewrite length_take. split.
    + f_equal. lia.
    + rewrite lookup_take_lt by lia. done.
Qed.

Lemma read_column_ok q c row i buf mem m d res buf' mem' :
  cursor_ q = Some c -> cursor_ok (resultMeta_ q) c -> rowVec_ c !! iterator_ c = Some row ->
  1 <= i <= Z.of_nat (length (resultMeta_ q)) ->
  resultMeta_ q !! Z.to_nat (i - 1) = Some m -> row !! Z.to_nat (i - 1) = Some d ->
  ReadToBuffer m d buf mem = Ok (res, buf', mem') ->
  exists q' c', read_column i buf mem q =
      Ok (q', buf', mem', snd (ProcessConversionResult res 0 i q)) /\
    kept q q' /\ cursor_ q' = Some c' /\ same_place c c' /\ cursor_ok (resultMeta_ q') c'.
Proof.
  intros Hc (Hp & Hit & Hcol & Hfit) Hrow Hi Hm Hd Er.
  unfold read_column. rewrite Hc. unfold ReadColumnToBuffer.
  destruct (discover_columns _ _ i Hcol Hi) as (c' & -> & Hs & Hcol' & Hl). cbn [negb].
  destruct Hs as (Hs1 & Hs2 & Hs3). rewrite Hl, Hm, Hs1, Hs2, Hrow, Hd, Er.
  assert (Hok : cursor_ok (resultMeta_ q) c').
  { unfold cursor_ok, row_count. rewrite Hs1, Hs2, Hs3. auto. }
  destruct res; cbn; eexists _, c'; split_and!; try reflexivity; auto; by destruct q.
Qed.

(** The datum of a column of a row that fits. *)
Lemma row_datum meta (row : Row) i m :
  Forall2 converts meta (take (length meta) row) -> meta !! i = Some m ->
  exists d, row !! i = Some d /\ converts m d.
Proof.
  intros Hf Hm. destruct (Forall2_lookup_l _ _ _ _ _ Hf Hm) as (d & Hd & Hc).
  exists d. split; [|done]. by apply lookup_take_Some in Hd as [Hd _].
Qed.

Lemma screen_insert i buf (screen : Screen) mem :
  screen_ok screen -> usable buf -> screen_ok (<[i := buf]> (fst screen), mem).
Proof. intros Hs Hb. by apply map_Forall_insert_2. Qed.

Lemma kept_trans q q' q'' : kept q q' -> kept q' q'' -> kept q q''.
Proof. unfold kept. intros H1 H2. destruct_and!. split_and!; congruence. Qed.

Lemma read_bound_ok idxs screen q c row :
  cursor_ q = Some c -> cursor_ok (resultMeta_ q) c -> rowVec_ c !! iterator_ c = Some row ->
  Forall (fun i => 1 <= i <= Z.of_nat (length (resultMeta_ q))) idxs -> screen_ok screen ->
  exists q' c', read_bound idxs screen q =
      Ok (q', fst (deliver idxs (resultMeta_ q) row screen),
              snd (deliver idxs (resultMeta_ q) row screen)) /\
    kept q q' /\ cursor_ q' = Some c' /\ same_place c c' /\ cursor_ok (resultMeta_ q') c'.
Proof.
  intros Hc Hok Hrow Hidx Hs. revert screen q c Hc Hok Hrow Hidx Hs.
  induction idxs as [|i idxs IH]; intros screen q c Hc Hok Hrow Hidx Hs.
  - exists q, c. cbn. split_and!; done.
  - apply Forall_cons in Hidx as [Hi Hidx]. cbn [read_bound deliver].
    destruct screen as [bindings mem].
    destruct (bindings !! i) as [buf|] eqn:Hbuf; [|by eapply IH].
    destruct (lookup_lt_is_Some_2 (resultMeta_ q) (Z.to_nat (i - 1))) as [m Hm]; [lia|].
    assert (Hfit : Forall2 converts (resultMeta_ q) (take (length (resultMeta_ q)) row)).
    { destruct Hok as (_ & _ & _ & Hfit). by apply (Forall_lookup_1 _ _ _ _ Hfit Hrow). }
    destruct (row_datum _ _ _ _ Hfit Hm) as (d & Hd & Hconv).
    destruct (Hconv buf mem (Hs i buf Hbuf)) as (res & buf' & mem' & Er & Hu).
    rewrite Hm, Hd, Er.
    destruct (read_column_ok q c row i buf mem m d res buf' mem' Hc Hok Hrow Hi Hm Hd Er)
      as (q1 & c1 & -> & Hk & Hc1 & (Hs1 & Hs2 & Hs3) & Hok1).
    assert (Hmeta : resultMeta_ q1 = resultMeta_ q) by apply Hk.
    set (screen' := (<[i := buf']> bindings, mem')).
    assert (Hs' : screen_ok screen') by (exact (screen_insert i buf' (bindings, mem) mem' Hs Hu)).
    destruct (IH screen' q1 c1) as (q2 & c2 & E2 & Hk2 & Hc2 & Hst & Hok2); auto.
    { by rewrite Hs1, Hs2. } { by rewrite Hmeta. }
    rewrite Hmeta in E2.
    assert (Hend : exists q' c', Ok (q2, fst (deliver idxs (resultMeta_ q) row screen'),
              snd (deliver idxs (resultMeta_ q) row screen')) =
        Ok (q', fst (deliver idxs (resultMeta_ q) row screen'),
              snd (deliver idxs (resultMeta_ q) row screen')) /\
        kept q q' /\ cursor_ q' = Some c' /\ same_place c c' /\ cursor_ok (resultMeta_ q') c').
    { exists q2, c2. split_and!; auto; [by eapply kept_trans|].
      destruct Hst as (Ht1 & Ht2 & Ht3). unfold same_place. split_and!; congruence. }
    destruct res; cbn [ProcessConversionResult snd]; try (rewrite E2; exact Hend).
    exists q1, c1. split_and!; auto. unfold same_place. auto.
Qed.

(** A delivered row leaves usable buffers. *)
Lemma deliver_ok idxs meta (row : Row) screen :
  Forall2 converts meta (take (length meta) row) -> screen_ok screen ->
  screen_ok (fst (deliver idxs meta row screen)).
Proof.
  intros Hfit. revert screen. induction idxs as [|i idxs IH]; intros screen Hs; [done|].
  cbn [deliver]. destruct screen as [bindings mem].
  destruct (bindings !! i) as [buf|] eqn:Hbuf; [|by apply IH].
  destruct (meta !! Z.to_nat (i - 1)) as [m|] eqn:Hm; [|by apply IH].
  destruct (row_datum _ _ _ _ Hfit Hm) as (d & Hd & Hconv). rewrite Hd.
  destruct (Hconv buf mem (Hs i buf Hbuf)) as (res & buf' & mem' & -> & Hu).
  pose proof (screen_insert i buf' (bindings, mem) mem' Hs Hu) as Hs'.
  destruct res; (by apply IH) || exact Hs'.
Qed.

(** ** The cursor *)

Lemma increment_row meta c row rest :
  cursor_ok meta c -> ahead c = row :: rest ->
  exists c', Increment c = (c', true) /\ cursor_ok meta c' /\
    rowVec_ c' !! iterator_ c' = Some row /\ ahead c' = rest.
Proof.
  intros (Hp & Hit & Hcol & Hfit) Ha. unfold ahead in Ha.
  assert (Hlt : curPos_ c < row_count c).
  { unfold row_count. apply (f_equal length) in Ha. rewrite length_drop in Ha. cbn in Ha. lia. }
  specialize (Hit ltac:(lia)). unfold Increment, row_count, ahead, cursor_ok in *.
  set (it := if _ : bool then _ else _).
  assert (Eit : it = Z.to_nat (curPos_ c)).
  { unfold it. rewrite Hit. destruct (Z.ltb_spec 0 (curPos_ c)); cbn [andb]; [|lia].
    rewrite (proj2 (Nat.ltb_lt _ _)); lia. }
  eexists. split; [cbn; by rewrite (proj2 (Z.leb_le _ _)) by lia|].
  cbn [rowVec_ iterator_ curPos_ columns_]. rewrite Eit. split_and!; auto; try lia.
  - apply (f_equal head) in Ha. by rewrite head_lookup, lookup_drop, Nat.add_0_r in Ha.
  - replace (Z.to_nat (curPos_ c + 1)) with (Z.to_nat (curPos_ c) + 1)%nat by lia.
    rewrite <- drop_drop, Ha. done.
Qed.

Lemma increment_end meta c :
  cursor_ok meta c -> ahead c = [] ->
  exists c', Increment c = (c', false) /\ cursor_ok meta c' /\ ahead c' = [].
Proof.
  intros (Hp & Hit & Hcol & Hfit) Ha. unfold ahead in Ha.
  assert (Hge : row_count c <= curPos_ c).
  { unfold row_count. apply (f_equal length) in Ha. rewrite length_drop in Ha. cbn in Ha. lia. }
  unfold Increment, row_count, ahead, cursor_ok in *. eexists.
  split; [cbn; by rewrite (proj2 (Z.leb_gt _ _)) by lia|].
  unfold row_count. cbn [rowVec_ iterator_ curPos_ columns_]. split_and!; auto; try lia.
  apply drop_ge. lia.
Qed.

(** ** Refinement of the operations *)

Definition at_rows (meta : list ColumnMeta) (rows : list Row) (b : bool) (q : DataQuery) : Prop :=
  reading q rows b /\ resultMeta_ q = meta.
Definition on_row (meta : list ColumnMeta) (row : Row) (rows : list Row) (b : bool)
    (q : DataQuery) : Prop :=
  at_rows meta rows b q /\ current_row q = Some row.

Lemma at_rows_step meta rows b q i q' :
  at_rows meta rows b q -> AsyncFetchOnePage i q = Some q' -> at_rows meta rows b q'.
Proof.
  intros [Hr <-] E. split; [by eapply reading_step|].
  rewrite (fetch_around q q i q' (around_refl q) E). by destruct q.
Qed.

Lemma on_row_step meta row rows b q i q' :
  on_row meta row rows b q -> AsyncFetchOnePage i q = Some q' -> on_row meta row rows b q'.
Proof. intros [Hr Hc] E. split; [by eapply at_rows_step|by eapply current_row_step]. Qed.

(** The result of a fetch that delivers [row]. *)
Definition row_result (meta : list ColumnMeta) (row : Row) (bindings : Screen)
    : SqlResult * Screen :=
  let '(bindings, ok) := deliver (indices meta) meta row bindings in
  (if ok : bool then AI_SUCCESS else AI_ERROR, bindings).

(** The rows that are left can be delivered, and leave usable buffers. *)
Lemma at_rows_fit meta rows b q : at_rows meta rows b q -> rows_fit meta rows.
Proof.
  intros [(c & ps & _ & (_ & _ & _ & Hfit) & Ht & ->) <-]. apply Forall_app. split.
  - by apply Forall_drop.
  - unfold to_come in Ht. destruct (hasAsyncFetch q); [apply Ht|].
    destruct Ht as (_ & _ & -> & _). constructor.
Qed.

Lemma row_result_ok meta row rows b q screen :
  at_rows meta (row :: rows) b q -> screen_ok screen ->
  screen_ok (snd (row_result meta row screen)).
Proof.
  intros Hq Hs. apply at_rows_fit, Forall_inv in Hq.
  pose proof (deliver_ok (indices meta) meta row screen Hq Hs) as Hd.
  unfold row_result. by destruct (deliver _ _ _ _).
Qed.

Lemma to_come_kept q q' ps b : kept q q' -> to_come q ps b -> to_come q' ps b.
Proof.
  unfold kept, to_come, fetching, quiet.
  intros (Er & Eq & Et & Ea & Em & _). by rewrite Er, Eq, Et, Ea, Em.
Qed.

Lemma fetch_columns_ok meta row rows b bindings q :
  on_row meta row rows b q -> screen_ok bindings ->
  total_q (fun r q' => r = row_result meta row bindings /\ on_row meta row rows b q')
    (fetch_columns bindings) q.
Proof.
  intros Hq Hscr. apply (total_atomic _ _ fetch_pending) with (I := on_row meta row rows b);
    [done|by eauto using on_row_step|..].
  - intros q0 _ E. cbn in E. destruct (read_bound _ _ _) as [[[? ?] []]|]; discriminate.
  - intros q0 q1 m [[(c & ps & Hc & Hok & Ht & ->) Hm] Hrow] E.
    unfold current_row in Hrow. rewrite Hc in Hrow. subst meta.
    destruct (read_bound_ok (column_indices q0) bindings q0 c row Hc Hok Hrow) as (q2 & c2 & E2 & Hk & Hc2 & Hs & Hok2).
    { unfold column_indices. apply Forall_forall. intros i Hi.
      apply list_elem_of_In, in_map_iff in Hi as (n & <- & Hn%in_seq). lia. }
    { exact Hscr. }
    rewrite E2 in E. change (column_indices q0) with (indices (resultMeta_ q0)) in E.
    assert (Hmeta : resultMeta_ q2 = resultMeta_ q0) by apply Hk.
    destruct Hs as (Hs1 & Hs2 & Hs3).
    assert (Hon : forall q3, kept q2 q3 -> cursor_ q3 = cursor_ q2 ->
      on_row (resultMeta_ q0) row (ahead c ++ page_rows ps) b q3).
    { intros q3 Hk3 Hc3. assert (Hm3 : resultMeta_ q3 = resultMeta_ q2) by apply Hk3.
      split; [split; [|congruence]|].
      - exists c2, ps. rewrite Hc3, Hm3. split_and!; auto.
        + eapply to_come_kept; [|exact Ht]. by eapply kept_trans.
        + f_equal. unfold ahead. by rewrite Hs1, Hs3.
      - unfold current_row. rewrite Hc3, Hc2, Hs1, Hs2. done. }
    unfold row_result. destruct (deliver _ _ _ _) as [bnd []]; cbn [fst snd] in E;
      injection E as <- <-; constructor; (split; [done|]); apply Hon; try done; by destruct q2.
Qed.

(** The page is used up; what is left comes from the pages [ps]. *)
Definition at_end (meta : list ColumnMeta) (ps : list ExecuteQueryResult) (b : bool)
    (q : DataQuery) : Prop :=
  exists c, cursor_ q = Some c /\ cursor_ok meta c /\ ahead c = [] /\ to_come q ps b /\
    resultMeta_ q = meta.

Lemma at_end_step meta ps b q i q' :
  at_end meta ps b q -> AsyncFetchOnePage i q = Some q' -> at_end meta ps b q'.
Proof.
  intros (c & Hc & Hok & Ha & Ht & Hm) E. exists c. pose proof (to_come_step _ _ _ _ _ Ht E).
  rewrite (fetch_around q q i q' (around_refl q) E) in *. split_and!; auto; by destruct q.
Qed.

Lemma increment_ok {A} meta rows b (Q : A -> DataQuery -> Prop) k q :
  at_rows meta rows b q ->
  (forall row rest q', rows = row :: rest -> on_row meta row rest b q' -> total_q Q (k (Some true)) q') ->
  (forall ps q', rows = page_rows ps -> at_end meta ps b q' -> total_q Q (k (Some false)) q') ->
  total_q Q (bind increment_cursor k) q.
Proof.
  intros Hq Htrue Hfalse. unfold increment_cursor. cbn [bind].
  apply (total_atomic _ _ fetch_pending) with (I := at_rows meta rows b);
    [done|by eauto using at_rows_step|..].
  - intros q0 _ E. destruct (cursor_ q0) as [c|]; [|discriminate]. by destruct (Increment c).
  - intros q0 q1 m [(c & ps & Hc & Hok & Ht & Hrows) Hm] E. rewrite Hc in E. subst meta.
    destruct (ahead c) as [|row rest] eqn:Ha.
    + destruct (increment_end _ _ Hok Ha) as (c' & Ei & Hok' & Ha'). rewrite Ei in E.
      injection E as <- <-. apply (Hfalse ps); [done|]. exists c'. split_and!; auto.
    + destruct (increment_row _ _ _ _ Hok Ha) as (c' & Ei & Hok' & Hrow & Ha'). rewrite Ei in E.
      injection E as <- <-. apply (Htrue row (rest ++ page_rows ps)); [done|].
      split; [split; [|done]|done]. exists c', ps. split_and!; auto. by rewrite Ha'.
Qed.

(** ** The switch to the next page *)

Lemma total_wait_quiet {A B} (Q : B -> DataQuery -> Prop) (g : DataQuery -> option (DataQuery * A)) k q q1 a :
  quiet q -> g q = Some (q1, a) -> total_q Q (k a) q1 -> total_q Q (bind (wait g) k) q.
Proof.
  intros Hq E Hk. unfold wait. cbn [bind]. eapply total_quiet; [done|by rewrite E|done].
Qed.

Lemma around_async q0 q : around q0 q -> hasAsyncFetch q = hasAsyncFetch q0.
Proof. intros ->. by destruct q0. Qed.

(** Nothing more to read: the last fetch failed. *)
Definition failed (q : DataQuery) : Prop :=
  cursor_ q = None /\ hasAsyncFetch q = false /\ quiet q /\ queue_ q = [].

Definition switched (meta : list ColumnMeta) (ps : list ExecuteQueryResult) (b : bool)
    (r : SqlResult) (q : DataQuery) : Prop :=
  match ps with
  | [] => r = AI_ERROR /\ failed q
  | _ => r = AI_SUCCESS /\
         exists row rest, page_rows ps = row :: rest /\ on_row meta row rest b q
  end.

(** The new cursor is on the first row of its page. *)
Lemma first_row meta p ps b q c :
  GetRows p <> [] -> rows_fit meta (GetRows p) -> c = fst (Increment (NewCursor (GetRows p))) ->
  cursor_ q = Some c -> to_come q ps b -> resultMeta_ q = meta ->
  exists row rest, page_rows (p :: ps) = row :: rest /\ on_row meta row rest b q.
Proof.
  intros Hne Hfit Ec Hc Ht Hm. destruct (GetRows p) as [|row rest] eqn:Ep; [done|].
  assert (Hok : cursor_ok meta (NewCursor (row :: rest))).
  { unfold cursor_ok, row_count. cbn. split_and!; auto; lia. }
  destruct (increment_row meta _ row rest Hok eq_refl) as (c' & Ei & Hok' & Hrow & Ha).
  rewrite Ei in Ec. cbn in Ec. subst c. exists row, (rest ++ page_rows ps). split.
  - unfold page_rows. cbn. by rewrite Ep.
  - split; [split; [|done]|].
    + exists c', ps. subst meta. split_and!; auto. by rewrite Ha.
    + unfold current_row. by rewrite Hc.
Qed.

Lemma SwitchCursor_ok meta ps b q :
  at_end meta ps b q -> hasAsyncFetch q = true -> total_q (switched meta ps b) SwitchCursor q.
Proof.
  intros Hq Has. unfold SwitchCursor.
  apply (total_wait _ _ fetch_pending) with (I := fun q => at_end meta ps b q /\ hasAsyncFetch q = true).
  - done.
  - intros q0 i q1 [H1 H2] E. split; [by eapply at_end_step|].
    by rewrite (around_async q0 q1 (fetch_around _ _ _ _ (around_refl q0) E)).
  - intros q0 [(c & _ & _ & _ & Ht & _) Ha] E. unfold to_come in Ht. rewrite Ha in Ht.
    apply fetching_enabled; [apply Ht|]. unfold pop_queue in E. by destruct (queue_ q0).
  - intros q0 q1 o [(c & Hc & Hok & Hah & Ht & Hm) Ha] E. unfold to_come in Ht. rewrite Ha in Ht.
    destruct Ht as (Hf & Hs & Hne & Hfit). unfold pop_queue in E.
    destruct Hf as [[_ Eq]|[[_ Eq]|[Et Eq]]]; rewrite Eq in E; try discriminate.
    injection E as <- <-. set (q1 := set_queue [] q0).
    assert (Hq1 : quiet q1) by (unfold quiet; cbn; rewrite Et; by repeat constructor).
    assert (Hsucc : forall p ps', ExecuteQuery (request_ q0) = Success p -> ps = p :: ps' ->
      (if empty (GetNextToken p) then ps' = [] /\ b = false
       else stream (SetNextToken (GetNextToken p) (request_ q0)) ps' b) ->
      total_q (switched meta ps b)
        (act (set_result (Some p)) ;;
         match GetRows p with
         | [] => Ret AI_NO_DATA
         | rows =>
             act (set_cursor (Some (fst (Increment (NewCursor rows))))) ;;
             (if empty (GetNextToken p) then act (set_hasAsyncFetch false)
              else
                let! idle := ask (fun q => (length (threads_ q) =? 0)%nat) in
                (if idle : bool then Ret tt else wait join_front) ;;
                act (start_fetch (GetNextToken p))) ;;
             Ret AI_SUCCESS
         end) q1).
    { intros p ps' Ep -> Htok. apply Forall_cons in Hne as [Hp Hne'].
      unfold page_rows in Hfit. cbn in Hfit. apply Forall_app in Hfit as [Hfp Hfit'].
      subst meta. apply total_act_quiet; [done|].
      assert (Hfirst := first_row (resultMeta_ q0) p ps' b).
      revert Hfp Hp Hfirst. destruct (GetRows p) as [|row rest]; [done|].
      intros Hfp Hp Hfirst. apply total_act_quiet; [done|]. apply total_bind.
      destruct (empty (GetNextToken p)).
      - destruct Htok as [-> ->]. eapply total_quiet; [done|done|].
        do 2 apply total_ret. split; [done|]. eapply Hfirst; try done.
      - eapply total_ask_quiet; [done|]. cbn [length threads_ set_cursor set_result set_queue q1].
        rewrite Et. cbn [length Nat.eqb].
        eapply total_wait_quiet; [done|unfold join_front; cbn; by rewrite Et|].
        eapply total_quiet; [by constructor|done|]. do 2 apply total_ret. split; [done|].
        eapply Hfirst; try done. unfold to_come. cbn. rewrite Ha. split_and!; auto.
        left. done. }
    inversion Hs as [r p Ep Etok|r p ps' b' Ep Etok Hs'|r n m Ep]; subst.
    + rewrite Ep. apply (Hsucc p []); auto. by rewrite Etok.
    + rewrite Ep. apply (Hsucc p ps'); auto. by rewrite Etok.
    + rewrite Ep. apply total_act_quiet; [done|]. constructor. split; [done|].
      unfold failed. cbn. split_and!; auto.
Qed.

(** ** The fetch of a row *)

Theorem fetch_row meta row rows b bindings q :
  at_rows meta (row :: rows) b q -> screen_ok bindings ->
  total_q (fun r q' => r = row_result meta row bindings /\ on_row meta row rows b q')
    (FetchNextRow bindings) q.
Proof.
  intros Hq Hscr. unfold FetchNextRow. apply (increment_ok meta (row :: rows) b); [done|..].
  - intros row' rest q' [= <- <-] Hon. by apply fetch_columns_ok.
  - intros ps q' Hrows Hend.
    assert (Has : hasAsyncFetch q' = true).
    { destruct Hend as (c & _ & _ & _ & Ht & _). unfold to_come in Ht.
      destruct (hasAsyncFetch q'); [done|]. destruct Ht as (_ & _ & -> & _). discriminate. }
    apply (total_ask _ _ fetch_pending)
      with (I := fun q => at_end meta ps b q /\ hasAsyncFetch q = true); [done|..].
    + intros q0 i q1 [H1 H2] E. split; [by eapply at_end_step|].
      by rewrite (around_async q0 q1 (fetch_around _ _ _ _ (around_refl q0) E)).
    + intros q0 [Hend0 Ha0]. rewrite Ha0. apply total_bind.
      eapply total_mono; [|by apply (SwitchCursor_ok meta ps b)].
      intros r q1 Hsw. destruct ps as [|p ps]; [discriminate|]. cbn in Hsw.
      destruct Hsw as (-> & row' & rest & Erow & Hon). assert (E : row :: rows = row' :: rest) by (rewrite Hrows; exact Erow).
      injection E as <- <-. by apply fetch_columns_ok.
Qed.

Lemma at_end_empty meta b q :
  at_end meta [] b q -> if b then hasAsyncFetch q = true else hasAsyncFetch q = false.
Proof.
  intros (c & _ & _ & _ & Ht & _). unfold to_come in Ht. destruct (hasAsyncFetch q).
  - destruct Ht as (_ & Hs & _). by inversion Hs.
  - by destruct Ht as (_ & _ & _ & ->).
Qed.

(** No pages are left when no rows are: a page that is to come has rows. *)
Lemma at_end_no_rows meta ps b q : at_end meta ps b q -> page_rows ps = [] -> ps = [].
Proof.
  intros (c & _ & _ & _ & Ht & _) Hrows. unfold to_come in Ht. destruct (hasAsyncFetch q).
  - destruct Ht as (_ & _ & Hne & _). destruct ps as [|p ps]; [done|].
    apply Forall_cons in Hne as [Hp _]. unfold page_rows in Hrows. cbn in Hrows.
    by apply app_eq_nil in Hrows as [? _].
  - by destruct Ht as (_ & _ & -> & _).
Qed.

Theorem fetch_at_end meta bindings q :
  at_rows meta [] false q ->
  total_q (fun r q' => r = (AI_NO_DATA, bindings) /\ at_rows meta [] false q')
    (FetchNextRow bindings) q.
Proof.
  intros Hq. unfold FetchNextRow. apply (increment_ok meta [] false); [done|discriminate|].
  intros ps q' Hrows Hend.
  assert (Hps : ps = []) by (eapply at_end_no_rows; eauto). subst ps.
  apply (total_ask _ _ fetch_pending) with (I := at_end meta [] false);
    [done|by eauto using at_end_step|].
  intros q0 Hend0. pose proof (at_end_empty _ _ _ Hend0) as Ha. cbn in Ha. rewrite Ha.
  constructor. split; [done|].
  destruct Hend0 as (c & Hc & Hok & Hah & Ht & Hm). subst meta. split; [|done].
  exists c, []. split_and!; auto. by rewrite Hah.
Qed.

Theorem fetch_after_failure meta bindings q :
  at_rows meta [] true q ->
  total_q (fun r q' => r = (AI_ERROR, bindings) /\ failed q') (FetchNextRow bindings) q.
Proof.
  intros Hq. unfold FetchNextRow. apply (increment_ok meta [] true); [done|discriminate|].
  intros ps q' Hrows Hend.
  assert (Hps : ps = []) by (eapply at_end_no_rows; eauto). subst ps.
  apply (total_ask _ _ fetch_pending) with (I := at_end meta [] true);
    [done|by eauto using at_end_step|].
  intros q0 Hend0. pose proof (at_end_empty _ _ _ Hend0) as Ha. cbn in Ha. rewrite Ha.
  apply total_bind. eapply total_mono; [|by apply (SwitchCursor_ok meta [] true)].
  intros r q1 [-> (Hc & Hf & Hqu & Hqe)].
  apply total_act_quiet; [done|]. constructor. split; [done|]. done.
Qed.

Theorem fetch_failed bindings q :
  failed q ->
  total_q (fun r q' => r = (AI_NO_DATA, bindings) /\ failed q') (FetchNextRow bindings) q.
Proof.
  intros (Hc & Hf & Hqu & Hqe). unfold FetchNextRow, increment_cursor. cbn [bind].
  eapply total_quiet; [done|by rewrite Hc|]. cbn [bind]. apply total_act_quiet; [done|].
  constructor. split; [done|]. done.
Qed.

(** ** Closing *)

Definition not_asleep (t : Thread) : Prop := match t with Asleep _ => False | _ => True end.

(** The states from which every thread ends once the query is closing. *)
Definition closable (q : DataQuery) : Prop :=
  fetching q \/ quiet q \/ (isClosing_ q = true /\ Forall not_asleep (threads_ q)).

Lemma closable_awake q : closable q -> Forall not_asleep (threads_ q).
Proof.
  intros [[[-> _]|[[-> _]|[-> _]]]|[Hq|[_ H]]]; [by apply Forall_singleton..| |done].
  eapply Forall_impl; [exact Hq|]. by intros ? ->.
Qed.

Lemma closable_step q i q' : closable q -> AsyncFetchOnePage i q = Some q' -> closable q'.
Proof.
  intros Hc E. destruct Hc as [Hf|[Hq|[Hcl Ha]]].
  - left. by eapply fetching_step.
  - by rewrite quiet_stuck in E.
  - right; right. pose proof E as E'. unfold AsyncFetchOnePage in E.
    destruct (threads_ q !! i) as [[]|]; try discriminate.
    + injection E as <-. cbn. split; [done|]. by apply Forall_insert.
    + rewrite Hcl in E. destruct (queue_ q); injection E as <-; cbn; (split; [done|]);
        by apply Forall_insert.
Qed.

(** A closing query: [q0] but for the threads and the queue; if nothing ran in
    [q0] nothing changes. *)
Definition closing (q0 : DataQuery) (n : nat) (q : DataQuery) : Prop :=
  around (close_flag q0) q /\ Forall not_asleep (threads_ q) /\ length (threads_ q) = n /\
  (quiet q0 -> quiet q /\ queue_ q = queue_ q0).

Lemma closing_step q0 n q i q' :
  closing q0 n q -> AsyncFetchOnePage i q = Some q' -> closing q0 n q'.
Proof.
  intros (Ha & Hs & Hn & Hq) E. pose proof (fetch_around _ _ _ _ Ha E) as Ha'.
  assert (Hc : closable q).
  { right; right. split; [|done]. rewrite Ha. done. }
  pose proof (closable_awake _ (closable_step _ _ _ Hc E)) as Haw.
  split_and!; auto.
  - unfold AsyncFetchOnePage in E. destruct (threads_ q !! i) as [[]|]; try discriminate.
    + injection E as <-. cbn. by rewrite length_insert.
    + destruct (queue_ q), (isClosing_ q); injection E as <-; cbn; by rewrite length_insert.
  - intros Hq0. destruct (Hq Hq0) as [Hq1 _]. by rewrite quiet_stuck in E.
Qed.

Lemma join_all_ok q0 n q :
  closing q0 n q -> total_q (fun _ q' => closing q0 0 q') (join_all n) q.
Proof.
  revert q. induction n as [|n IH]; intros q Hq; cbn [join_all]; [by constructor|].
  apply (total_wait _ _ fetch_pending) with (I := closing q0 (S n));
    [done|by eauto using closing_step|..].
  - intros q1 (_ & Hs & Hn & _) E. exists 0%nat. unfold join_front in E. unfold AsyncFetchOnePage.
    destruct (threads_ q1) as [|[] ts]; try discriminate; cbn; eauto.
    + destruct (queue_ q1), (isClosing_ q1); eauto.
    + by apply Forall_cons in Hs as [[] _].
  - intros q1 q2 [] (Ha & Hs & Hn & Hqu) E. apply IH. unfold join_front in E.
    destruct (threads_ q1) as [|[] ts] eqn:Et; try discriminate. injection E as <-.
    apply Forall_cons in Hs as [_ Hs]. split_and!; cbn; auto.
    + unfold around. rewrite Ha. by destruct q0.
    + intros H0. destruct (Hqu H0) as [H1 H2]. split; [|done]. unfold quiet in *. cbn.
      rewrite Et in H1. by apply Forall_cons in H1 as [_ H1].
Qed.

(** [q] closed, whatever the queue holds. *)
Definition closed (q0 q : DataQuery) : Prop :=
  q = set_threads [] (set_queue (queue_ q) (set_cursor None (set_result None (close_flag q0)))).

Theorem InternalClose_ok q :
  closable q ->
  total_q (fun r q' => r = AI_SUCCESS /\ closed q q' /\ (quiet q -> queue_ q' = queue_ q))
    InternalClose q.
Proof.
  intros Hq. unfold InternalClose.
  apply (total_act _ _ fetch_pending) with
    (I := fun s => around q s /\ closable s /\ (quiet q -> quiet s /\ queue_ s = queue_ q)).
  - split_and!; auto. apply around_refl.
  - intros q0 i q1 (H1 & H2 & H3) E. split_and!; [by eapply fetch_around|by eapply closable_step|].
    intros Hqu. destruct (H3 Hqu) as [H4 _]. by rewrite quiet_stuck in E.
  - intros q0 (Ha & Hc & Hqu).
    assert (Hcl : closing q (length (threads_ q0)) (close_flag q0)).
    { split_and!; [|exact (closable_awake _ Hc)|done|].
      - unfold around. cbn. rewrite Ha. by destruct q.
      - intros H0. destruct (Hqu H0). split; done. }
    apply (total_ask _ _ fetch_pending) with (I := closing q (length (threads_ q0)));
      [done|by eauto using closing_step|].
    intros q1 Hcl1. assert (Hn : length (threads_ q1) = length (threads_ q0)) by apply Hcl1.
    rewrite Hn. apply total_bind. eapply total_mono; [|by apply (join_all_ok q)].
    intros _ q2 (Ha2 & _ & Hl2 & Hqu2). apply nil_length_inv in Hl2.
    apply total_act_quiet; [unfold quiet; by rewrite Hl2|]. constructor. split; [done|]. split.
    + unfold closed. cbn. rewrite Ha2, Hl2. by destruct q.
    + intros H0. cbn. by apply Hqu2.
Qed.

(** ** Execution *)

(** Nothing runs and nothing is open. *)
Definition idle (q : DataQuery) : Prop :=
  result_ q = None /\ cursor_ q = None /\ threads_ q = [] /\ queue_ q = [] /\
  hasAsyncFetch q = false.

(** The pages from the first one with rows on. *)
Fixpoint skip (ps : list ExecuteQueryResult) : list ExecuteQueryResult :=
  match ps with
  | [] => []
  | p :: ps' => match GetRows p with [] => skip ps' | _ => ps end
  end.

Lemma skip_rows ps : page_rows (skip ps) = page_rows ps.
Proof.
  induction ps as [|p ps IH]; [done|]. cbn [skip]. destruct (GetRows p) eqn:E; [|done].
  rewrite IH. unfold page_rows. cbn. by rewrite E.
Qed.

(** The metadata after the first page with rows is [p]. *)
Definition meta_after (q : DataQuery) (p : ExecuteQueryResult) : list ColumnMeta :=
  if resultMetaAvailable_ q then resultMeta_ q
  else map (fun i => ReadMetadata i NewColumnMeta) (GetColumns p).

Definition first_found (q : DataQuery) (ps : list ExecuteQueryResult) (b : bool)
    (stop : option SqlResult) (q' : DataQuery) : Prop :=
  match skip ps with
  | p :: ps' =>
      stop = None /\ exists r, stream r (p :: ps') b /\
        q' = set_result (Some p) (set_request r q)
  | [] =>
      stop = Some (if b then AI_ERROR else AI_NO_DATA) /\ cursor_ q' = None /\ quiet q'
  end.

Lemma first_page_ok fuel ps b q :
  threads_ q = [] -> cursor_ q = None -> stream (request_ q) ps b -> (length ps < fuel)%nat ->
  total_q (first_found q ps b) (first_page fuel) q.
Proof.
  revert ps q. induction fuel as [|f IH]; intros ps q Ht Hc Hs Hf; [lia|].
  assert (Hq : quiet q) by (unfold quiet; by rewrite Ht).
  cbn [first_page]. apply total_ask_quiet; [done|].
  inversion Hs as [r p Ep Etok|r p ps' b' Ep Etok Hs'|r n m Ep]; subst; rewrite Ep.
  - apply total_act_quiet; [done|]. unfold first_found. cbn [skip].
    destruct (GetRows p) eqn:Er.
    + rewrite Etok. by constructor.
    + constructor. split; [done|]. exists (request_ q). split; [done|]. by destruct q.
  - apply total_act_quiet; [done|]. unfold first_found. cbn [skip].
    destruct (GetRows p) eqn:Er.
    + rewrite Etok. apply total_act_quiet; [done|].
      eapply total_mono; [|apply (IH ps'); [done|done|exact Hs'|cbn in Hf; lia]].
      intros a q' Hff. unfold first_found in Hff. destruct (skip ps'); [exact Hff|].
      destruct Hff as (-> & r & Hr & ->). split; [done|]. exists r. split; [done|]. by destruct q.
    + constructor. split; [done|]. exists (request_ q). split; [done|]. by destruct q.
  - apply total_act_quiet; [done|]. apply total_bind.
    eapply total_mono; [|apply InternalClose_ok; right; left; exact Hq].
    intros r q' (-> & Hcl & _). constructor. unfold first_found. cbn. rewrite Hcl. split_and!; [done|by destruct q|].
    by constructor.
Qed.

(** What an execution promises, by the pages the service has. *)
Definition executed (q : DataQuery) (ps : list ExecuteQueryResult) (b : bool)
    (r : SqlResult) (q' : DataQuery) : Prop :=
  match skip ps with
  | p :: _ => r = AI_SUCCESS /\ at_rows (meta_after q p) (page_rows ps) b q'
  | [] => r = (if b then AI_ERROR else AI_NO_DATA) /\ cursor_ q' = None /\ quiet q'
  end.

(** After the first page with rows every page has rows, and every row a datum
    for every column. *)
Definition pages_ok (q : DataQuery) (ps : list ExecuteQueryResult) : Prop :=
  match skip ps with
  | p :: ps' => Forall (fun p => GetRows p <> []) ps' /\ rows_fit (meta_after q p) (page_rows ps)
  | [] => True
  end.

(** The last steps: the metadata is read and the cursor placed, while the next
    page may be on its way. *)
Definition loading (q0 : DataQuery) (ps : list ExecuteQueryResult) (b : bool)
    (q : DataQuery) : Prop :=
  around q0 q /\
  if hasAsyncFetch q0 then fetching q /\ stream (request_ q0) ps b
  else quiet q /\ queue_ q = [] /\ ps = [] /\ b = false.

Lemma loading_step q0 ps b q i q' :
  loading q0 ps b q -> AsyncFetchOnePage i q = Some q' -> loading q0 ps b q'.
Proof.
  intros [Ha Hl] E. split; [by eapply fetch_around|]. destruct (hasAsyncFetch q0).
  - destruct Hl. split; [by eapply fetching_step|done].
  - destruct Hl as [Hq _]. by rewrite quiet_stuck in E.
Qed.

Lemma MakeRequestFetch_ok q p :
  result_ q = Some p -> GetRows p <> [] ->
  snd (MakeRequestFetch q) = AI_SUCCESS /\
  cursor_ (fst (MakeRequestFetch q)) = Some (NewCursor (GetRows p)) /\
  resultMeta_ (fst (MakeRequestFetch q)) = meta_after q p /\
  request_ (fst (MakeRequestFetch q)) = request_ q /\
  threads_ (fst (MakeRequestFetch q)) = threads_ q /\
  queue_ (fst (MakeRequestFetch q)) = queue_ q /\
  hasAsyncFetch (fst (MakeRequestFetch q)) = hasAsyncFetch q.
Proof.
  intros Hr Hne. unfold MakeRequestFetch, meta_after. rewrite Hr.
  destruct (GetRows p) as [|row rows]; [done|]. cbn [fst snd].
  destruct (resultMetaAvailable_ q); [by split_and!|].
  unfold ReadColumnMetadataVector. by destruct (GetColumns p).
Qed.

Lemma finish_ok q0 p ps b q :
  loading q0 ps b q -> result_ q0 = Some p -> GetRows p <> [] ->
  Forall (fun p => GetRows p <> []) ps -> rows_fit (meta_after q0 p) (GetRows p ++ page_rows ps) ->
  total_q (fun r q' => r = AI_SUCCESS /\ at_rows (meta_after q0 p) (GetRows p ++ page_rows ps) b q')
    (let! retval := ask (fun q => snd (MakeRequestFetch q)) in
     act (fun q => fst (MakeRequestFetch q)) ;; Ret retval) q.
Proof.
  intros Hq Hr Hne Hnes [Hfit1 Hfit2]%Forall_app.
  apply (total_ask _ _ fetch_pending) with (I := loading q0 ps b);
    [done|by eauto using loading_step|].
  intros q1 Hq1. apply (total_act _ _ fetch_pending) with (I := loading q0 ps b);
    [done|by eauto using loading_step|].
  intros q2 [Ha Hl]. constructor.
  assert (Hr1 : result_ q1 = Some p) by (destruct Hq1 as [-> _]; done).
  assert (Hr2 : result_ q2 = Some p) by (rewrite Ha; done).
  split; [by apply (MakeRequestFetch_ok q1 p)|].
  destruct (MakeRequestFetch_ok q2 p Hr2 Hne) as (_ & Hc & Hm & Hreq & Ht & Hqu & Has).
  assert (Hma : meta_after q2 p = meta_after q0 p) by (unfold meta_after; by rewrite Ha).
  rewrite Hma in Hm. split; [|done]. exists (NewCursor (GetRows p)), ps. rewrite Hm.
  split_and!; auto.
  - unfold cursor_ok, row_count. cbn. split_and!; auto; lia.
  - assert (Ha0 : hasAsyncFetch q2 = hasAsyncFetch q0) by (by apply around_async).
    assert (Hreq0 : request_ q2 = request_ q0) by (rewrite Ha; by destruct q0).
    unfold to_come, fetching, quiet in *. rewrite Has, Ha0, Hreq, Ht, Hqu, Hm.
    destruct (hasAsyncFetch q0); [|done]. destruct Hl as [Hf Hs]. rewrite Hreq0 in *.
    split_and!; auto.
Qed.

Theorem Execute_ok fuel ps b q :
  idle q -> stream (request_ (prepare_request q)) ps b -> (length ps < fuel)%nat ->
  pages_ok q ps ->
  total_q (executed q ps b) (Execute fuel) q.
Proof.
  intros (Hr & Hc & Ht & Hqu & Has) Hs Hf Hok.
  assert (Hq : quiet q) by (unfold quiet; by rewrite Ht).
  unfold Execute. apply total_ask_quiet; [done|]. rewrite Hr. cbn [bind].
  rewrite bool_decide_eq_false_2 by (by intros [? ?]). cbn [bind].
  unfold MakeRequestExecute. apply total_act_quiet; [done|]. apply total_bind.
  set (q1 := prepare_request q) in *.
  eapply total_mono; [|by apply (first_page_ok fuel ps b)].
  intros stop q2 Hff. unfold first_found in Hff. unfold executed, pages_ok in *.
  rewrite <- (skip_rows ps) in *.
  destruct (skip ps) as [|p ps'] eqn:Esk.
  - destruct Hff as (-> & ? & ?). by constructor.
  - destruct Hff as (-> & r & Hstr & ->). destruct Hok as [Hnes Hfit].
    assert (Hne : GetRows p <> []).
    { clear -Esk. induction ps as [|p0 ps IH]; [discriminate|]. cbn in Esk.
      destruct (GetRows p0) eqn:E; [auto|]. injection Esk as <- <-. by rewrite E. }
    apply total_ask_quiet; [done|]. cbn [result_ set_result].
    apply total_act_quiet; [done|]. apply total_bind.
    set (q3 := set_cursor _ _).
    assert (Hm : meta_after q3 p = meta_after q p) by done.
    assert (Hdone : forall q4, result_ q4 = Some p -> meta_after q4 p = meta_after q p ->
      loading q4 ps' b q4 ->
      total_q (fun r q' => r = AI_SUCCESS /\ at_rows (meta_after q p) (page_rows (p :: ps')) b q')
        (let! retval := ask (fun q => snd (MakeRequestFetch q)) in
         act (fun q => fst (MakeRequestFetch q)) ;; Ret retval) q4).
    { intros q4 H1 H2 H3. rewrite <- H2 in *. by apply (finish_ok q4 p ps' b). }
    destruct (empty (GetNextToken p)) eqn:Etok.
    + constructor. apply Hdone; [done|done|]. split; [apply around_refl|].
      change (hasAsyncFetch q3) with (hasAsyncFetch q). rewrite Has.
      inversion Hstr; subst; [done|congruence].
    + eapply total_quiet; [done|done|]. constructor. apply Hdone; [done|done|].
      split; [apply around_refl|]. cbn [hasAsyncFetch set_hasAsyncFetch]. split.
      * left. cbn. by rewrite Ht.
      * inversion Hstr; subst; [congruence|done].
Qed.

(** ** An application that reads rows *)

(** [n] fetches in a row, with the bindings as the last one left them. *)
Fixpoint fetch_n (n : nat) (bindings : Screen)
    : prog (list (SqlResult * Screen)) :=
  match n with
  | O => Ret []
  | S n' =>
      let! r := FetchNextRow bindings in
      let! rs := fetch_n n' (snd r) in
      Ret (r :: rs)
  end.

(** The abstract reader: one row of the list for each fetch, then an error if
    the pages ended in a failure, then no data. *)
Fixpoint read_list (n : nat) (meta : list ColumnMeta) (rows : list Row) (b : bool)
    (bindings : Screen) : list (SqlResult * Screen) :=
  match n with
  | O => []
  | S n' =>
      match rows with
      | row :: rows' =>
          let r := row_result meta row bindings in r :: read_list n' meta rows' b (snd r)
      | [] => (if b then AI_ERROR else AI_NO_DATA, bindings) :: read_list n' meta [] false bindings
      end
  end.

Lemma fetch_n_failed n meta bindings q :
  failed q -> total_q (fun rs _ => rs = read_list n meta [] false bindings) (fetch_n n bindings) q.
Proof.
  revert q. induction n as [|n IH]; intros q Hq; cbn [fetch_n read_list]; [by constructor|].
  apply total_bind. eapply total_mono; [|by apply fetch_failed]. intros r q1 [-> Hq1].
  apply total_bind. cbn [snd]. eapply total_mono; [|by apply IH]. intros rs q2 ->. by constructor.
Qed.

Lemma fetch_n_ok n meta rows b bindings q :
  at_rows meta rows b q -> screen_ok bindings ->
  total_q (fun rs _ => rs = read_list n meta rows b bindings) (fetch_n n bindings) q.
Proof.
  revert rows b bindings q. induction n as [|n IH]; intros rows b bindings q Hq Hscr;
    cbn [fetch_n read_list]; [by constructor|].
  apply total_bind. destruct rows as [|row rows].
  - destruct b.
    + eapply total_mono; [|by apply (fetch_after_failure meta)]. intros r q1 [-> Hq1].
      apply total_bind. cbn [snd].
      eapply total_mono; [|by apply (fetch_n_failed n meta)]. intros rs q2 ->. by constructor.
    + eapply total_mono; [|by apply (fetch_at_end meta)]. intros r q1 [-> Hq1].
      apply total_bind. cbn [snd].
      eapply total_mono; [|by apply IH]. intros rs q2 ->. by constructor.
  - eapply total_mono; [|by apply (fetch_row meta row rows b)]. intros r q1 [-> [Hq1 _]].
    apply total_bind. eapply total_mono; [|apply IH; [done|by eapply row_result_ok]].
    intros rs q2 ->. by constructor.
Qed.

Definition application (fuel n : nat) (bindings : Screen)
    : prog (SqlResult * list (SqlResult * Screen)) :=
  let! r := Execute fuel in
  let! rs := fetch_n n bindings in
  Ret (r, rs).

(** What the application sees of the pages [ps]. *)
Definition seen (q : DataQuery) (ps : list ExecuteQueryResult) (b : bool) (n : nat)
    (bindings : Screen) : SqlResult * list (SqlResult * Screen) :=
  match skip ps with
  | p :: _ => (AI_SUCCESS, read_list n (meta_after q p) (page_rows ps) b bindings)
  | [] => (if b then AI_ERROR else AI_NO_DATA, replicate n (AI_NO_DATA, bindings))
  end.

(** Without a cursor every fetch says so. *)
Lemma fetch_n_no_cursor n bindings q :
  cursor_ q = None -> quiet q ->
  total_q (fun rs _ => rs = replicate n (AI_NO_DATA, bindings)) (fetch_n n bindings) q.
Proof.
  revert q. induction n as [|n IH]; intros q Hc Hq; cbn [fetch_n replicate]; [by constructor|].
  apply total_bind. unfold FetchNextRow, increment_cursor. cbn [bind].
  eapply total_quiet; [done|by rewrite Hc|]. cbn [bind]. apply total_act_quiet; [done|].
  constructor. apply total_bind. cbn [snd].
  eapply total_mono; [|by apply IH]. intros rs q2 ->. by constructor.
Qed.

(** *** The answer of the service to a text *)

(** The query as it is made of a text, for what does not depend on its
    diagnostics; the pages of the service for it. *)
Definition made (conf : Configuration) (sql : text) : DataQuery := NewDataQuery conf sql NewStorage.

Definition answers (conf : Configuration) (sql : text) (ps : list ExecuteQueryResult) (b : bool) : Prop :=
  stream (request_ (prepare_request (made conf sql))) ps b /\ pages_ok (made conf sql) ps.

(** What is read of them: the rows, and whether a failure ends them. *)
Definition columns_of (ps : list ExecuteQueryResult) : list ColumnMeta :=
  match skip ps with
  | pg :: _ => map (fun i => ReadMetadata i NewColumnMeta) (GetColumns pg)
  | [] => []
  end.

Theorem Execute_answers fuel conf sql d ps b :
  answers conf sql ps b -> (length ps < fuel)%nat ->
  total_q (fun r q' =>
      match skip ps with
      | _ :: _ => r = AI_SUCCESS /\ at_rows (columns_of ps) (page_rows ps) b q'
      | [] => r = (if b then AI_ERROR else AI_NO_DATA) /\ cursor_ q' = None /\ quiet q'
      end) (Execute fuel) (NewDataQuery conf sql d).
Proof.
  intros [Hs Hok] Hf.
  eapply total_mono; [|apply (Execute_ok fuel ps b); [by repeat split|exact Hs|exact Hf|exact Hok]].
  intros r q' Hx. unfold executed, columns_of in *. by destruct (skip ps).
Qed.

(** ** A page without rows in the middle *)

(** The cursor is at the end of its page and no answer will come. *)
Definition stuck (q : DataQuery) : Prop :=
  (exists c meta, cursor_ q = Some c /\ cursor_ok meta c /\ ahead c = []) /\
  hasAsyncFetch q = true /\ quiet q /\ queue_ q = [].

(** ... and the next page has none, whatever token it carries. *)
Definition before_empty (p : ExecuteQueryResult) (q : DataQuery) : Prop :=
  (exists c meta, cursor_ q = Some c /\ cursor_ok meta c /\ ahead c = []) /\
  hasAsyncFetch q = true /\ fetching q /\ ExecuteQuery (request_ q) = Success p /\
  GetRows p = [].

Lemma before_empty_step p q i q' :
  before_empty p q -> AsyncFetchOnePage i q = Some q' -> before_empty p q'.
Proof.
  intros (Hc & Ha & Hf & Hp & Hr) E. pose proof (fetching_step _ _ _ Hf E) as Hf'.
  pose proof (fetch_around q q i q' (around_refl q) E) as Har. unfold before_empty.
  split_and!; auto; rewrite Har; by destruct q.
Qed.

(** The increment at the end of a page, in any state an invariant describes. *)
Lemma increment_past_end {A} (I : DataQuery -> Prop) (Q : A -> DataQuery -> Prop) k q :
  I q ->
  (forall q0 i q1, I q0 -> AsyncFetchOnePage i q0 = Some q1 -> I q1) ->
  (forall q0, I q0 -> exists c meta, cursor_ q0 = Some c /\ cursor_ok meta c /\ ahead c = []) ->
  (forall q0 c meta, I q0 -> cursor_ok meta c -> ahead c = [] -> I (set_cursor (Some c) q0)) ->
  (forall q0, I q0 -> total_q Q (k (Some false)) q0) ->
  total_q Q (bind increment_cursor k) q.
Proof.
  intros HI Hstep Hcur Hset Hk. unfold increment_cursor. cbn [bind].
  apply (total_atomic _ _ fetch_pending) with (I := I); [done|by eauto|..].
  - intros q0 H0 E. destruct (Hcur q0 H0) as (c & meta & Hc & _). rewrite Hc in E.
    by destruct (Increment c).
  - intros q0 q1 m H0 E. destruct (Hcur q0 H0) as (c & meta & Hc & Hok & Hah). rewrite Hc in E.
    destruct (increment_end _ _ Hok Hah) as (c' & Ei & Hok' & Hah'). rewrite Ei in E.
    injection E as <- <-. cbn [bind]. apply Hk. by eapply Hset.
Qed.

Lemma fetch_before_empty p bindings q :
  before_empty p q ->
  total_q (fun r q' => r = (AI_NO_DATA, bindings) /\ stuck q') (FetchNextRow bindings) q.
Proof.
  intros Hq. unfold FetchNextRow. apply (increment_past_end (before_empty p)); [done|..].
  { eauto using before_empty_step. } { by intros q0 [H0 _]. }
  { intros q0 c meta (_ & H0) Hok Hah. split; [by eauto|]. exact H0. }
  intros q1 Hq1. apply (total_ask _ _ fetch_pending) with (I := before_empty p);
    [done|by eauto using before_empty_step|].
  intros q2 Hq2. assert (Ha2 : hasAsyncFetch q2 = true) by apply Hq2. rewrite Ha2.
  apply total_bind. unfold SwitchCursor.
  apply (total_wait _ _ fetch_pending) with (I := before_empty p);
    [done|by eauto using before_empty_step|..].
  { intros q3 Hq3 E. apply fetching_enabled; [apply Hq3|]. unfold pop_queue in E.
    by destruct (queue_ q3). }
  intros q3 q4 o (Hcur & Ha3 & Hf3 & Hp3 & Hr3) E. unfold pop_queue in E.
  destruct Hf3 as [[_ Eq]|[[_ Eq]|[Et Eq]]]; rewrite Eq in E; try discriminate.
  injection E as <- <-. rewrite Hp3.
  assert (Hqu : quiet (set_queue [] q3)) by (unfold quiet; cbn; rewrite Et; by repeat constructor).
  apply total_act_quiet; [done|]. rewrite Hr3. constructor.
  apply total_act_quiet; [done|]. constructor. split; [done|]. split_and!; auto.
Qed.

Lemma run_quiet {A} f q (a : A) q' :
  quiet q -> run AsyncFetchOnePage (Atomic f) q a q' ->
  exists q1 m, f q = Some (q1, m) /\ run AsyncFetchOnePage m q1 a q'.
Proof.
  intros Hq Hr. remember (Atomic f) as m eqn:Em.
  destruct Hr as [|i m q q1 a q' Ht|f' q q1 m a q' E Hr]; [discriminate|by rewrite quiet_stuck in Ht|].
  injection Em as ->. eauto.
Qed.

Lemma run_ask_quiet {A B} (g : DataQuery -> A) (k : A -> prog B) q b q' :
  quiet q -> run AsyncFetchOnePage (bind (ask g) k) q b q' ->
  run AsyncFetchOnePage (k (g q)) q b q'.
Proof.
  intros Hq Hr. unfold ask in Hr. cbn [bind] in Hr.
  apply run_quiet in Hr as (q1 & m & E & Hr); [|done]. by injection E as <- <-.
Qed.

Lemma run_past_end {A} (k : option bool -> prog A) c meta q a q' :
  quiet q -> cursor_ q = Some c -> cursor_ok meta c -> ahead c = [] ->
  run AsyncFetchOnePage (bind increment_cursor k) q a q' ->
  exists c', run AsyncFetchOnePage (k (Some false)) (set_cursor (Some c') q) a q'.
Proof.
  intros Hq Hc Hok Hah Hr. unfold increment_cursor in Hr. cbn [bind] in Hr.
  apply run_quiet in Hr as (q1 & m & E & Hr); [|done]. rewrite Hc in E.
  destruct (increment_end _ _ Hok Hah) as (c' & Ei & _). rewrite Ei in E. injection E as <- <-.
  by exists c'.
Qed.

Lemma run_switch_blocked {A} (k : SqlResult -> prog A) q a q' :
  quiet q -> queue_ q = [] -> ~ run AsyncFetchOnePage (bind SwitchCursor k) q a q'.
Proof.
  intros Hq Hqu Hr. unfold SwitchCursor, wait in Hr.
  apply run_quiet in Hr as (q1 & m & E & _); [|done]. unfold pop_queue in E. by rewrite Hqu in E.
Qed.

Lemma stuck_blocks bindings q r q' : stuck q -> ~ run AsyncFetchOnePage (FetchNextRow bindings) q r q'.
Proof.
  intros ((c & meta & Hc & Hok & Hah) & Ha & Hq & Hqu) Hr. unfold FetchNextRow in Hr.
  eapply run_past_end in Hr as [c' Hr]; [|done..].
  apply run_ask_quiet in Hr; [|done]. change (hasAsyncFetch (set_cursor (Some c') q)) with (hasAsyncFetch q) in Hr.
  rewrite Ha in Hr. by apply run_switch_blocked in Hr.
Qed.

Lemma application_ok fuel n bindings ps b q :
  idle q -> stream (request_ (prepare_request q)) ps b -> (length ps < fuel)%nat ->
  pages_ok q ps -> screen_ok bindings ->
  total_q (fun r _ => r = seen q ps b n bindings) (application fuel n bindings) q.
Proof.
  intros Hq Hs Hf Hok Hscr. unfold application. apply total_bind.
  eapply total_mono; [|by apply (Execute_ok fuel ps b)]. intros r q1 Hex.
  unfold executed, seen in *. apply total_bind. destruct (skip ps) as [|p ps'].
  - destruct Hex as (-> & Hc & Hqu).
    eapply total_mono; [|by apply fetch_n_no_cursor]. intros rs q2 ->. by constructor.
  - destruct Hex as [-> Hat].
    eapply total_mono; [|by apply (fetch_n_ok n _ _ _ _ _ Hat)]. intros rs q2 ->. by constructor.
Qed.

(** A state in which rows are read can be closed. *)
Lemma reading_closable meta rows b q : at_rows meta rows b q -> closable q.
Proof.
  intros [(c & ps & _ & _ & Ht & _) _]. unfold to_come in Ht.
  destruct (hasAsyncFetch q); [left; apply Ht|right; left; apply Ht].
Qed.
End Facts.
End QueryFacts.

(** ** A small service for concrete runs *)

Module Demo.
Import Text Memory Diag Config Encoding AppBuf Column QueryColumns Meta Query QueryFacts.

#[local] Existing Instances UnixAbi WholeReals SdkScalars.

(** A column of texts and one of integers. *)
Definition columns : list QueryColumns.ColumnInfo :=
  [MkInfo (txt "name") (Some (Some STRING)); MkInfo (txt "level") (Some (Some INT))].

Definition row (name level : string) : Row := [Scalar (txt name); Scalar (txt level)].
Definition result (rows : list Row) (token : string) : ExecuteQueryResult :=
  MkResult columns rows (txt token).

Definition pages : list ExecuteQueryResult :=
  [ result [] "t1"; result [row "pump" "17"; row "tank" "-4"] "t2"; result [row "valve" "230"] "" ].

(** Pages by token: a first page without rows, then two pages with rows. *)
#[local] Instance client : Client :=
  {| ExecuteQuery r :=
       if text_eqb (NextToken r) [] then Success (result [] "t1")
       else if text_eqb (NextToken r) (txt "t1") then
         Success (result [row "pump" "17"; row "tank" "-4"] "t2")
       else if text_eqb (NextToken r) (txt "t2") then Success (result [row "valve" "230"] "")
       else Failure (txt "ValidationException") (txt "bad token") |}.

(** Two buffers, of 5 and of 16 bytes, each with a length variable. *)
Definition screen : Screen :=
  ({[ 1 := NewBuffer AI_CHAR (Some 1000) 5 (Some 2000);
      2 := NewBuffer AI_WCHAR (Some 1100) 16 (Some 2008) ]}, fun _ => 0).

(** What the buffers show: narrow characters, and wide ones of two bytes. *)
Definition shown (r : SqlResult * Screen) : SqlResult * text * text :=
  (fst r, GetData.read_units 1 8 1000 (snd (snd r)), GetData.read_units 2 8 1100 (snd (snd r))).

Definition query : DataQuery :=
  NewDataQuery (@DefaultConfiguration ExamplePlatform) (txt "select name, level from pump") NewStorage.

Lemma row_converts n l :
  ascii_only (txt n) ->
  Forall2 (converts text_target) (map (fun i => ReadMetadata i NewColumnMeta) columns) (row n l).
Proof.
  intros Hn. constructor; [|constructor; [|constructor]].
  - intros b m Hb. apply textual_converts; [|done]. split; [by left|].
    cbn. by rewrite bool_decide_eq_true_2.
  - intros b m Hb. apply textual_converts; [|done]. split; [by right; right|done].
Qed.

Lemma ascii_name (s : string) : bool_decide (ascii_only (txt s)) = true -> ascii_only (txt s).
Proof. apply bool_decide_eq_true. Qed.

Lemma screen_usable : screen_ok text_target screen.
Proof. apply map_Forall_insert_2; [by left|]. apply map_Forall_singleton. by right. Qed.

Lemma pages_fit : pages_ok text_target query pages.
Proof.
  split; [by repeat constructor|].
  repeat apply Forall_cons_2; try apply Forall_nil_2;
    apply row_converts, ascii_name; reflexivity.
Qed.

Lemma pages_stream : stream (request_ (prepare_request query)) pages false.
Proof.
  apply stream_more; [reflexivity|reflexivity|]. apply stream_more; [reflexivity|reflexivity|].
  apply stream_end; reflexivity.
Qed.
End Demo.

(** C1. The paged reader refines a reader of a list, whatever the schedule of
    the fetching threads: executing an idle query and fetching [n] times, with enough
    fuel for the pages, ends, without a deadlock, and shows the application one row of the concatenated pages for
    each fetch, in order, each column converted into its bound buffer of the
    memory of the application, then an error if the service failed, then no data.
    Leading pages without rows are skipped; the later ones must have rows
    ([pages_ok]; an empty page in the middle blocks for ever, see
    [empty_page_blocks]), every row a datum for every column, and every datum a
    conversion to the buffers that are bound. *)
Theorem paged_query_refines_list (A : Meta.AwsTypes) (C : Query.Client) (R : Query.ColumnReader)
    (usable : AppBuf.ApplicationDataBuffer -> Prop)
    (fuel n : nat) (screen : Query.Screen) (ps : list Query.ExecuteQueryResult)
    (b : bool) (q : Query.DataQuery) :
  QueryFacts.idle q ->
  QueryFacts.stream (Query.request_ (Query.prepare_request q)) ps b ->
  (length ps < fuel)%nat ->
  QueryFacts.pages_ok usable q ps -> QueryFacts.screen_ok usable screen ->
  total Query.AsyncFetchOnePage (fun r _ => r = QueryFacts.seen q ps b n screen)
    (QueryFacts.application fuel n screen) q.
Proof. apply QueryFacts.application_ok. Qed.

(** Three rows of two pages, after a first page without rows: the long name is
    cut, and the fetch still says success. *)
Lemma paged_query_witness :
  total (@Query.AsyncFetchOnePage QueryColumns.SdkTypes Demo.client)
    (fun r _ => fst r = Diag.AI_SUCCESS /\ map Demo.shown (snd r) =
       [ (Diag.AI_SUCCESS, Text.txt "pump", Text.txt "17");
         (Diag.AI_SUCCESS, Text.txt "tank", Text.txt "-4");
         (Diag.AI_SUCCESS, Text.txt "valv", Text.txt "230");
         (Diag.AI_NO_DATA, Text.txt "valv", Text.txt "230") ])
    (@QueryFacts.application _ Demo.client (@QueryColumns.SdkColumns Encoding.UnixAbi AppBuf.WholeReals Column.SdkScalars)
       4 4 Demo.screen) Demo.query.
Proof.
  eapply total_mono; [|apply (paged_query_refines_list _ Demo.client _ QueryColumns.text_target
    4 4 Demo.screen Demo.pages false Demo.query);
    [repeat split|exact Demo.pages_stream|repeat constructor|exact Demo.pages_fit|exact Demo.screen_usable]].
  intros r s ->. split; [reflexivity|]. vm_compute. reflexivity.
Defined.

(** C23. Closing a query that is being read ends under every schedule: each
    fetching thread ends and is joined, and the cursor and the result are
    dropped. *)
Theorem Close_joins (A : Meta.AwsTypes) (C : Query.Client) (R : Query.ColumnReader)
    (usable : AppBuf.ApplicationDataBuffer -> Prop)
    (meta : list Meta.ColumnMeta) (rows : list Query.Row) (b : bool) (q : Query.DataQuery) :
  QueryFacts.at_rows usable meta rows b q ->
  total Query.AsyncFetchOnePage
    (fun r q' => r = Diag.AI_SUCCESS /\ Query.threads_ q' = [] /\ Query.cursor_ q' = None /\
       Query.result_ q' = None /\ Query.isClosing_ q' = true) Query.Close q.
Proof.
  intros Hq. unfold Query.Close. eapply total_mono;
    [|by eapply QueryFacts.InternalClose_ok, QueryFacts.reading_closable].
  intros r q' (-> & Hcl & _). rewrite Hcl. by destruct q.
Qed.

Lemma Close_joins_witness :
  exists q : @Query.DataQuery QueryColumns.SdkTypes,
    Query.threads_ q <> [] /\
    total (@Query.AsyncFetchOnePage _ Demo.client)
      (fun r q' => r = Diag.AI_SUCCESS /\ Query.threads_ q' = [] /\ Query.cursor_ q' = None /\
         Query.result_ q' = None /\ Query.isClosing_ q' = true) Query.Close q.
Proof.
  exists (Query.set_cursor (Some (Query.NewCursor [Demo.row "pump" "17"; Demo.row "tank" "-4"]))
    (Query.set_hasAsyncFetch true (Query.start_fetch (Text.txt "t2") Demo.query))).
  split; [discriminate|].
  apply (Close_joins _ Demo.client (@QueryColumns.SdkColumns Encoding.UnixAbi AppBuf.WholeReals Column.SdkScalars)
    QueryColumns.text_target [] [Demo.row "pump" "17"; Demo.row "tank" "-4"; Demo.row "valve" "230"] false).
  split; [|reflexivity]. eexists _, (drop 2 Demo.pages). split; [reflexivity|]. split_and!.
  - split_and!; [cbn; lia|reflexivity|reflexivity|by repeat constructor].
  - split_and!; [left; split; reflexivity|apply QueryFacts.stream_end; reflexivity| |].
    + by repeat constructor.
    + by repeat constructor.
  - reflexivity.
Defined.

(** C25. A page without rows in the middle of a result, although its token says
    that more follow: the fetch that reaches it reports no data under every
    schedule, and the next fetch never returns under any. *)
Theorem empty_page_blocks (A : Meta.AwsTypes) (C : Query.Client) (R : Query.ColumnReader)
    (usable : AppBuf.ApplicationDataBuffer -> Prop)
    (p : Query.ExecuteQueryResult) (screen : Query.Screen) (q : Query.DataQuery) :
  QueryFacts.before_empty usable p q ->
  total Query.AsyncFetchOnePage
    (fun r q' => r = (Diag.AI_NO_DATA, screen) /\
       forall screen' r' q'',
         ~ run Query.AsyncFetchOnePage (Query.FetchNextRow screen') q' r' q'')
    (Query.FetchNextRow screen) q.
Proof.
  intros Hq. eapply total_mono; [|by apply (QueryFacts.fetch_before_empty usable p)].
  intros r q' [-> Hs]. split; [done|]. intros screen' r' q''. by eapply QueryFacts.stuck_blocks.
Qed.

(** The first page of the service, as a later one. *)
Lemma empty_page_blocks_witness :
  exists q : @Query.DataQuery QueryColumns.SdkTypes,
    total (@Query.AsyncFetchOnePage _ Demo.client)
      (fun r q' => r = (Diag.AI_NO_DATA, Demo.screen) /\
         forall screen' r' q'',
           ~ run (@Query.AsyncFetchOnePage _ Demo.client)
               (@Query.FetchNextRow _ (@QueryColumns.SdkColumns Encoding.UnixAbi AppBuf.WholeReals Column.SdkScalars)
                  screen') q' r' q'')
      (@Query.FetchNextRow _ (@QueryColumns.SdkColumns Encoding.UnixAbi AppBuf.WholeReals Column.SdkScalars)
         Demo.screen) q.
Proof.
  exists (Query.set_cursor (Some (Query.NewCursor []))
    (Query.set_hasAsyncFetch true (Query.start_fetch [] Demo.query))).
  apply (empty_page_blocks _ Demo.client (@QueryColumns.SdkColumns Encoding.UnixAbi AppBuf.WholeReals Column.SdkScalars)
           QueryColumns.text_target (Demo.result [] "t1")).
  split_and!; [|reflexivity|left; split; reflexivity|reflexivity|reflexivity].
  eexists _, []. split; [reflexivity|]. split; [|reflexivity].
  split_and!; [cbn; lia|reflexivity|reflexivity|constructor].
Defined.

(** Executing a query again after its result was read and closed: the token
    of the last fetch is still in the request, so only the last page is read.
    Here the second execution shows the last of three rows. *)
Theorem reexecution_skips_pages :
  let app := @QueryFacts.application _ Demo.client
    (@QueryColumns.SdkColumns Encoding.UnixAbi AppBuf.WholeReals Column.SdkScalars) 4 4 Demo.screen in
  let twice :=
    bind app (fun r1 => bind (@Query.Close QueryColumns.SdkTypes) (fun _ =>
    bind app (fun r2 => Ret (map Demo.shown (snd r1), map Demo.shown (snd r2))))) in
  exists q', run (@Query.AsyncFetchOnePage _ Demo.client) twice Demo.query
    ([ (Diag.AI_SUCCESS, Text.txt "pump", Text.txt "17");
       (Diag.AI_SUCCESS, Text.txt "tank", Text.txt "-4");
       (Diag.AI_SUCCESS, Text.txt "valv", Text.txt "230");
       (Diag.AI_NO_DATA, Text.txt "valv", Text.txt "230") ],
     [ (Diag.AI_SUCCESS, Text.txt "valv", Text.txt "230");
       (Diag.AI_NO_DATA, Text.txt "valv", Text.txt "230");
       (Diag.AI_NO_DATA, Text.txt "valv", Text.txt "230");
       (Diag.AI_NO_DATA, Text.txt "valv", Text.txt "230") ]) q'.
Proof.
  cbn zeta.
  match goal with |- exists q', run ?t ?m ?s ?r q' =>
    assert (E : option_map fst (play t (replicate 100 [0; 0]%nat) m s) = Some r)
      by (vm_compute; reflexivity);
    apply (play_shows t _ m s r E)
  end.
Qed.
