(* ===== verification/TableFacts.v ===== *)
(** * TableFacts: the tables a table query finds

    The query behind [SQLTables] runs a data query of its own; whatever the threads
    of that query do, the rows it keeps are made of the names the service has
    ([DataQueryFacts]), one for each table, and fetching hands them out. *)

From S2P Require Import Prelude Text Codes Memory Diagnostics Environment Configuration Encoding AppBuffer AppBufferFacts GetData Column ColumnFacts TypeTraits Fields ColumnMeta Interleave DataQuery Queries QueryColumns TableMetadata DataQueryFacts.

Module TableFacts.
Import Text Memory Diag Config Encoding AppBuf Types Fields Column Meta Query Queries Tables.
Local Open Scope main_scope.

(** ** The threads of the inner query *)

Section Threads.
Context `{HA : AwsTypes} `{!Client} `{!ColumnReader} `{!Deployment} `{!OdbcConstants}.
Context `{!SqlCodes} `{!FieldCodes} `{!Encoding.Abi} `{!Floats}.

Definition pending_data (d : option DataQuery) : nat :=
  match d with Some d => QueryFacts.pending d | None => 0 end.

Lemma async_diag i d g :
  AsyncFetchOnePage i (Query.set_diag g d) = option_map (Query.set_diag g) (AsyncFetchOnePage i d).
Proof.
  unfold AsyncFetchOnePage. cbn. destruct (threads_ d !! i) as [[]|]; [done| |done..].
  by destruct (queue_ d), (isClosing_ d).
Qed.

Lemma async_keeps_diag i d d' : AsyncFetchOnePage i d = Some d' -> Query.diag d' = Query.diag d.
Proof. intros E. by rewrite (QueryFacts.fetch_around d d i _ (QueryFacts.around_refl d) E). Qed.

(** A step changes the inner query only. *)
Lemma fetch_step_Some i q q' :
  fetch_step i q = Some q' ->
  exists d d', dataQuery_ q = Some d /\ AsyncFetchOnePage i d = Some d' /\
    q' = set_dataQuery (Some (Query.set_diag NewStorage d')) q.
Proof.
  unfold fetch_step, get_data. destruct (dataQuery_ q) as [d|]; [|discriminate]. cbn.
  rewrite async_diag. destruct (AsyncFetchOnePage i d) as [d'|] eqn:E; [|discriminate].
  intros [= <-]. exists d, d'. split_and!; [done..|]. by destruct q.
Qed.

Lemma fetch_step_diag i q q' : fetch_step i q = Some q' -> diag q' = diag q.
Proof. by intros (d & d' & _ & _ & ->)%fetch_step_Some. Qed.

Lemma fetch_step_pending i q q' :
  fetch_step i q = Some q' -> (pending_data (dataQuery_ q') < pending_data (dataQuery_ q))%nat.
Proof. intros (d & d' & -> & E & ->)%fetch_step_Some. cbn. by apply (QueryFacts.fetch_pending i d d'). Qed.

Lemma fetch_step_with_diag i g q :
  fetch_step i (set_table_diag g q) = option_map (set_table_diag g) (fetch_step i q).
Proof.
  unfold fetch_step, get_data. cbn. destruct (dataQuery_ q) as [d|]; [|done]. cbn.
  rewrite !async_diag. by destruct (AsyncFetchOnePage i d).
Qed.
End Threads.

(** ** Reading the names *)

Section Names.
Context `{HA : AwsTypes} `{!Client} `{!ColumnReader} `{!Deployment} `{!OdbcConstants}.
Context `{!SqlCodes} `{!FieldCodes} `{!Encoding.Abi} `{!Floats}.
Context (usable : ApplicationDataBuffer -> Prop).
Abbreviation total_t := (total fetch_step).
Implicit Types (q : TableQuery) (d : DataQuery).

(** [q] is [q0] but for the inner query, which satisfies [R], and the diagnostics. *)
Definition over (q0 : TableQuery) (R : DataQuery -> Prop) (q : TableQuery) : Prop :=
  q = MkTableQuery (arguments q0) (executed q0) (fetched q0) (meta q0) (cursor q0) (dataQuery_ q) (diag q) /\
  exists d, get_data q = Some d /\ R d.

Definition kept_by_threads (R : DataQuery -> Prop) : Prop :=
  forall i d d', R d -> AsyncFetchOnePage i d = Some d' -> R d'.

#[export] Instance data_zoomable : zoomable get_data put_data AsyncFetchOnePage fetch_step (fun _ => 0%nat).
Proof.
  split.
  - intros d d' q _. unfold get_data, put_data. cbn. by destruct d'.
  - intros d q i d' Hg E. exists i. unfold fetch_step. by rewrite Hg, E.
  - intros d q i q' Hg E. left. unfold fetch_step in E. rewrite Hg in E.
    destruct (AsyncFetchOnePage i d) as [d'|] eqn:Ed; [|discriminate]. injection E as <-. eauto.
Qed.

Lemma over_put q0 R d q : over q0 (fun _ => True) q -> R d -> over q0 R (put_data d q).
Proof.
  intros [-> _] Hd. split; [done|]. exists d. split; [|done]. unfold get_data. cbn. by destruct d.
Qed.

Lemma over_any q0 (R : DataQuery -> Prop) q : over q0 R q -> over q0 (fun _ => True) q.
Proof. intros (E & d & Hd & _). split; [done|]. by exists d. Qed.

Lemma over_step q0 R i q q' : kept_by_threads R -> over q0 R q -> fetch_step i q = Some q' -> over q0 R q'.
Proof.
  intros Hk Ho E. pose proof (over_any _ _ _ Ho) as Ha. destruct Ho as (_ & d & Hg & Hd).
  unfold fetch_step in E. rewrite Hg in E. destruct (AsyncFetchOnePage i d) as [d'|] eqn:Ed; [|discriminate].
  injection E as <-. apply over_put; [done|by eapply Hk].
Qed.

(** A call of the inner query: what every schedule of its threads promises. *)
Lemma total_data {A B} (P : B -> TableQuery -> Prop) (out : A -> DataQuery -> Prop) (R : DataQuery -> Prop)
    (prg : main DataQuery A) (kont : A -> main TableQuery B) q0 q :
  over q0 R q -> (forall d, R d -> total AsyncFetchOnePage out prg d) ->
  (forall a q1, over q0 (out a) q1 -> total_t P (kont a) q1) ->
  total_t P (bind (data prg) kont) q.
Proof.
  intros Ho Hprg Hk. apply total_bind. pose proof (over_any _ _ _ Ho) as Ha. destruct Ho as (_ & d & Hg & Hd).
  unfold data. eapply total_mono; [|apply (zoom_total get_data put_data AsyncFetchOnePage fetch_step (fun _ => 0%nat)
    out (over q0 (fun _ => True)) prg q d)].
  - intros a q1 ([E _] & d1 & Hg1 & Hout). apply (Hk a q1). split; [done|]. by exists d1.
  - apply data_zoomable.
  - exact Ha.
  - intros d1 q1 Hq1. by apply over_put.
  - intros i q1 q2 Hq1. by apply over_step.
  - exact Hg.
  - by apply Hprg.
Qed.

(** The names the rows leave in the local array, up to the first row that cannot
    be converted. *)
Fixpoint names_read (columns : list ColumnMeta) (rows : list Row) (screen : Screen) : list text :=
  match rows with
  | [] => []
  | row :: rows =>
      let '(r, screen) := QueryFacts.row_result columns row screen in
      match r with
      | AI_SUCCESS => local_text array_at (snd screen) :: names_read columns rows screen
      | _ => []
      end
  end.

(** A row of one column. *)
Lemma row_result_single m (row : Row) (x : Datum) buf mem res buf' mem' :
  row !! 0%nat = Some x -> ReadToBuffer m x buf mem = Ok (res, buf', mem') -> res <> FAILURE ->
  QueryFacts.row_result [m] row ({[ 1 := buf ]}, mem) = (AI_SUCCESS, ({[ 1 := buf' ]}, mem')).
Proof.
  intros Hd Er Hres. unfold QueryFacts.row_result, QueryFacts.indices. cbn [length seq map QueryFacts.deliver].
  change (Z.of_nat 1) with 1. change (Z.to_nat (1 - 1)) with 0%nat.
  replace (({[ 1 := buf ]} : ColumnBindingMap) !! 1) with (Some buf) by done.
  replace ([m] !! 0%nat) with (Some m) by done. rewrite Hd, Er.
  assert (Ei : <[ 1 := buf' ]> ({[ 1 := buf ]} : ColumnBindingMap) = {[ 1 := buf' ]}) by apply insert_singleton_eq.
  rewrite Ei. by destruct res.
Qed.

(** A failure of the service after the first page ends the names like the last
    row does. *)
Lemma read_names_total fuel names columns rows b screen q0 q :
  over q0 (QueryFacts.at_rows usable columns rows b) q -> QueryFacts.screen_ok usable screen ->
  (length rows < fuel)%nat ->
  total_t (fun l q' => l = names ++ names_read columns rows screen /\ over q0 (fun _ => True) q')
    (read_names fuel names screen) q.
Proof.
  revert names rows screen q. induction fuel as [|f IH]; intros names rows screen q Ho Hs Hf; [lia|].
  cbn [read_names]. destruct rows as [|row rows].
  - eapply (total_data _ (fun r _ => fst r = if b then AI_ERROR else AI_NO_DATA)); [exact Ho|..].
    + intros d Hd. destruct b; eapply total_mono;
        [|by eapply QueryFacts.fetch_after_failure| |by eapply QueryFacts.fetch_at_end]; by intros r d' [-> _].
    + intros r q1 Hq1. assert (Er : fst r = if b then AI_ERROR else AI_NO_DATA) by (by destruct Hq1 as (_ & d & _ & ?)).
      rewrite Er. cbn [names_read]. rewrite app_nil_r. destruct b; constructor; (split; [done|by eapply over_any]).
  - eapply (total_data _ (fun r d => r = QueryFacts.row_result columns row screen /\
      QueryFacts.at_rows usable columns rows b d /\ QueryFacts.screen_ok usable (snd r))); [exact Ho|..].
    + intros d Hd. eapply total_mono; [|by apply (QueryFacts.fetch_row usable columns row rows b)].
      intros r d' [-> [Hd' _]]. split_and!; [done..|]. by eapply QueryFacts.row_result_ok.
    + intros r q1 Hq1. assert (Hr : r = QueryFacts.row_result columns row screen /\ QueryFacts.screen_ok usable (snd r))
        by (destruct Hq1 as (_ & d & _ & ? & _ & ?); done).
      destruct Hr as [Er Hs1]. cbn [names_read]. rewrite <- Er. destruct r as [r screen1]. cbn [fst snd] in *.
      assert (Hrest : over q0 (QueryFacts.at_rows usable columns rows b) q1)
        by (destruct Hq1 as (E & d & Hg & _ & ? & _); split; [done|by exists d]).
      destruct r; try (constructor; rewrite app_nil_r; split; [done|by eapply over_any]).
      eapply total_mono; [|apply IH; [exact Hrest|exact Hs1|cbn in Hf; lia]].
      intros l q' [-> Ho']. split; [|done]. by rewrite <- app_assoc.
Qed.

(** ** Executing *)

(** Nothing runs before the inner query is made. *)
Lemma still {A} (P : A -> TableQuery -> Prop) f m q q1 :
  dataQuery_ q = None -> f q = Some (q1, m) -> total_t P m q1 -> total_t P (Atomic f) q.
Proof.
  intros Hq E Hm. apply (total_atomic fetch_step _ fetch_step_pending) with (I := fun q1 => q1 = q); [done|..].
  - intros q2 i q3 -> Et. unfold fetch_step, get_data in Et. by rewrite Hq in Et.
  - intros q2 -> En. congruence.
  - intros q2 q3 m' -> E'. rewrite E in E'. by injection E' as <- <-.
Qed.

(** An action while the threads of the inner query run. *)
Lemma over_act {A} (P : A -> TableQuery -> Prop) f kont q0 q :
  over q0 (fun _ => True) q -> (forall q1, over q0 (fun _ => True) q1 -> total_t P (kont tt) (f q1)) ->
  total_t P (bind (act f) kont) q.
Proof.
  intros Hq Hk. apply (total_act fetch_step _ fetch_step_pending) with (I := over q0 (fun _ => True)); [done| |exact Hk].
  intros q1 i q2 Hq1. by apply over_step.
Qed.

(** The text of the inner query. *)
Definition pattern_of (a : TableArguments) : text :=
  let p := default SQL_ALL (arg_table a) in if empty p then SQL_ALL else p.

(** What the service's pages come to: the names, in order. *)
Definition names_of (ps : list ExecuteQueryResult) : list text :=
  names_read (QueryFacts.columns_of ps) (QueryFacts.page_rows ps) name_screen.

Definition matched (ps : list ExecuteQueryResult) (b : bool) : SqlResult * list text :=
  match QueryFacts.skip ps with
  | _ :: _ => (AI_SUCCESS, names_of ps)
  | [] => (if b then AI_ERROR else AI_SUCCESS_WITH_INFO, [])
  end.

Lemma made_over sql q : over q (fun d => exists g, d = NewDataQuery (arg_config (arguments q)) sql g)
    (set_dataQuery (Some (NewDataQuery (arg_config (arguments q)) sql (diag q))) q).
Proof. split; [done|]. eexists. split; [reflexivity|]. by eexists. Qed.

Lemma getMatchedTables_total fuel pattern ps b q :
  dataQuery_ q = None -> QueryFacts.answers usable (arg_config (arguments q)) (table_sql pattern) ps b ->
  QueryFacts.screen_ok usable name_screen -> (length ps < fuel)%nat -> (length (QueryFacts.page_rows ps) < fuel)%nat ->
  total_t (fun r q' => r = matched ps b /\ over q (fun _ => True) q') (getMatchedTables fuel pattern) q.
Proof.
  intros Hq Ha Hs Hf Hr. unfold getMatchedTables, make_data, delete_data, has_data, ask. cbn [bind].
  eapply still; [done|reflexivity|]. rewrite Hq, bool_decide_eq_false_2 by (by intros [? ?]). cbn [bind].
  unfold act at 1. cbn [bind]. eapply still; [done|reflexivity|].
  eapply total_data; [apply made_over| |].
  { intros d [g ->]. by apply (QueryFacts.Execute_answers usable fuel _ _ _ ps b). }
  intros r q1 Hq1. unfold matched, names_of. cbv beta in Hq1. destruct (QueryFacts.skip ps) as [|pg ps'].
  - assert (Er : r = if b then AI_ERROR else AI_NO_DATA) by (by destruct Hq1 as (_ & d & _ & ? & _)).
    apply over_any in Hq1. destruct b; subst r; [by constructor|].
    eapply over_act; [exact Hq1|]. intros q2 [E [d [Hg _]]]. constructor. split; [done|]. rewrite E. split; [done|].
    unfold get_data in *. cbn in *. destruct (dataQuery_ q2); [|done]. by eexists.
  - assert (Er : r = AI_SUCCESS) by (by destruct Hq1 as (_ & d & _ & ? & _)). subst r.
    apply total_bind. eapply total_mono; [|eapply read_names_total; [|exact Hs|exact Hr]].
    + intros l q2 [-> Hq2]. by constructor.
    + destruct Hq1 as (E & d & Hg & _ & Hd). split; [exact E|]. by exists d.
Qed.

(** ** The rows made of the names *)

(** Each name that is wanted, once, where it comes first. *)
Fixpoint once (keep : text -> bool) (before names : list text) : list text :=
  match names with
  | [] => []
  | name :: names =>
      if bool_decide (name ∈ before) || negb (keep name) then once keep before names
      else name :: once keep (before ++ [name]) names
  end.

Lemma elem_of_once keep before names x :
  x ∈ once keep before names <-> x ∈ names /\ x ∉ before /\ keep x = true.
Proof.
  revert before. induction names as [|n ns IH]; intros before; cbn [once]; [set_solver|].
  rewrite (elem_of_cons ns x n). destruct (bool_decide (n ∈ before) || negb (keep n)) eqn:E.
  - rewrite IH. split; [tauto|]. intros ([->|Hx] & Hb & Hk); [|done].
    apply orb_true_iff in E as [E|E]; [by apply bool_decide_eq_true in E|by rewrite Hk in E].
  - apply orb_false_iff in E as [En Ek]. apply bool_decide_eq_false in En. apply negb_false_iff in Ek.
    rewrite elem_of_cons, IH, elem_of_app, list_elem_of_singleton.
    destruct (decide (x = n)) as [->|]; tauto.
Qed.

Lemma once_NoDup keep before names : NoDup (once keep before names).
Proof.
  revert before. induction names as [|n ns IH]; intros before; cbn [once]; [constructor|].
  case_test; [apply IH|]. constructor; [|apply IH]. rewrite elem_of_once. set_solver.
Qed.

Lemma once_sublist keep before names : sublist (once keep before names) names.
Proof.
  revert before. induction names as [|n ns IH]; intros before; cbn [once]; [constructor|].
  case_test; by constructor.
Qed.

(** An identifier is compared but for the case. *)
Definition wanted (identifier : option text) (name : text) : bool :=
  match identifier with Some t => text_eqb (upper t) (upper name) | None => true end.

Lemma listed_before name names :
  existsb (fun t => is_opt (tableName t) name) (map listed names) = bool_decide (name ∈ names).
Proof.
  induction names as [|n ns IH]; [done|]. cbn [map existsb]. rewrite IH. cbn [listed tableName is_opt].
  unfold text_eqb. repeat case_bool_decide; set_solver.
Qed.

Lemma foldl_add_table identifier before names :
  foldl (add_table identifier) (map listed before) names =
  map listed (before ++ once (wanted identifier) before names).
Proof.
  revert before. induction names as [|n ns IH]; intros before; cbn [foldl once]; [by rewrite app_nil_r|].
  unfold add_table at 2. rewrite listed_before. destruct (bool_decide (n ∈ before)); cbn [orb]; [apply IH|].
  assert (Hadd : map listed before ++ [listed n] = map listed (before ++ [n])) by (by rewrite map_app).
  unfold wanted at 1. destruct identifier as [t|]; [destruct (text_eqb (upper t) (upper n))|]; cbn [negb];
    [|apply IH|]; rewrite Hadd, IH, <- app_assoc; done.
Qed.

(** ** What an execution answers *)

(** The answer and the rows, none after an error; the pages are asked for only
    in the last case. *)
Definition found_rows (identifier : option text) (ps : list ExecuteQueryResult) (b : bool)
    : SqlResult * option (list TableMeta) :=
  match QueryFacts.skip ps with
  | _ :: _ => (AI_SUCCESS, Some (map listed (once (wanted identifier) [] (names_of ps))))
  | [] => if b then (AI_ERROR, None) else (AI_SUCCESS_WITH_INFO, Some [])
  end.

Definition wrong_type (a : TableArguments) : bool :=
  match arg_last a with Some t => negb (valid_table_type t) | None => false end.

Definition listing (metadataID : bool) (a : TableArguments) (ps : list ExecuteQueryResult) (b : bool)
    : SqlResult * option (list TableMeta) :=
  if all_table_types a then (AI_SUCCESS, Some [Read (txt "TABLE") NewTableMeta])
  else if wrong_type a then (AI_SUCCESS_WITH_INFO, Some [])
  else
    match metadataID, arg_table a with
    | true, None => (AI_ERROR, None)
    | _, table => found_rows (if metadataID then table else None) ps b
    end.

(** Without a table name an empty list of tables is not reported but follows an
    empty optional. *)
Definition reportable (table : option text) (found : SqlResult * option (list TableMeta)) : Prop :=
  table = None -> found <> (AI_SUCCESS, Some []).

Definition service_lists (fuel : nat) (a : TableArguments) (ps : list ExecuteQueryResult) (b : bool) : Prop :=
  QueryFacts.answers usable (arg_config a) (table_sql (pattern_of a)) ps b /\
  (length ps < fuel)%nat /\ (length (QueryFacts.page_rows ps) < fuel)%nat.

(** The query as it was but for the rows, the inner query and the diagnostics. *)
Definition with_rows (rows : list TableMeta) (q0 q : TableQuery) : Prop :=
  exists inner g, q = set_table_diag g (set_dataQuery inner (set_meta rows q0)).

(** What the threads may still do to such a query. *)
Lemma with_rows_step rows q0 i q q' : with_rows rows q0 q -> fetch_step i q = Some q' -> with_rows rows q0 q'.
Proof. intros (d & g & ->) (d1 & d2 & _ & _ & ->)%fetch_step_Some. by eexists _, _. Qed.

Lemma over_with_rows rows q0 R q : over (set_meta rows q0) R q -> with_rows rows q0 q.
Proof. intros [E _]. by exists (dataQuery_ q), (diag q). Qed.

Lemma with_rows_act {A} (P : A -> TableQuery -> Prop) f kont rows q0 q :
  with_rows rows q0 q -> (forall q1, with_rows rows q0 q1 -> total_t P (kont tt) (f q1)) ->
  total_t P (bind (act f) kont) q.
Proof.
  intros Hq Hk. apply (total_act fetch_step _ fetch_step_pending) with (I := with_rows rows q0); [done| |exact Hk].
  intros q1 i q2 Hq1. by apply with_rows_step.
Qed.

Lemma warn_total table rows q0 q :
  table <> None -> with_rows rows q0 q ->
  total_t (fun _ => with_rows rows q0) (warn_no_tables table) q.
Proof.
  intros Ht Hq. destruct table as [t|]; [|done].
  change (warn_no_tables (Some t)) with (bind (warn_no_tables (Some t)) Ret). cbn [warn_no_tables].
  eapply with_rows_act; [exact Hq|]. intros q1 (d & g & ->). constructor. by eexists _, _.
Qed.

Lemma list_tables_total fuel identifier table ps b q :
  dataQuery_ q = None -> meta q = [] ->
  QueryFacts.answers usable (arg_config (arguments q))
    (table_sql (let p := default SQL_ALL table in if empty p then SQL_ALL else p)) ps b ->
  (length ps < fuel)%nat -> (length (QueryFacts.page_rows ps) < fuel)%nat ->
  QueryFacts.screen_ok usable name_screen -> reportable table (found_rows identifier ps b) ->
  total_t (fun r q' => r = fst (found_rows identifier ps b) /\
      with_rows (default [] (snd (found_rows identifier ps b))) q q') (list_tables fuel identifier table) q.
Proof.
  intros Hq Hm Ha Hf Hr Hs Hrep. unfold list_tables. apply total_bind.
  eapply total_mono; [|by apply (getMatchedTables_total fuel _ ps b)].
  intros r q1 [-> Hq1]. unfold matched, found_rows, reportable in *.
  assert (Hnone : with_rows [] q q1).
  { destruct Hq1 as [E _]. exists (dataQuery_ q1), (diag q1). rewrite <- Hm. exact E. }
  destruct (QueryFacts.skip ps) as [|pg ps']; [by destruct b; constructor|]. cbn [fst snd default] in *.
  pose proof (foldl_add_table identifier [] (names_of ps)) as Hfold. cbn [map app] in Hfold. rewrite Hfold.
  set (rows := map listed _) in *. eapply with_rows_act; [exact Hnone|]. intros q2 (d & g & ->).
  assert (Ho : with_rows rows q (set_meta rows (set_table_diag g (set_dataQuery d (set_meta [] q)))))
    by (exists d, g; by destruct q).
  apply total_bind. destruct (no_rows rows) eqn:En; [|by constructor; constructor].
  eapply total_mono; [|apply (warn_total table rows q); [|exact Ho]].
  - intros u q3 Hq3. by constructor.
  - intros ->. apply (Hrep eq_refl). by destruct rows.
Qed.

Lemma getTables_total fuel metadataID ps b q :
  dataQuery_ q = None -> meta q = [] -> service_lists fuel (arguments q) ps b ->
  QueryFacts.screen_ok usable name_screen -> reportable (arg_table (arguments q)) (listing metadataID (arguments q) ps b) ->
  all_table_types (arguments q) = false -> wrong_type (arguments q) = false ->
  total_t (fun r q' => r = fst (listing metadataID (arguments q) ps b) /\
      with_rows (default [] (snd (listing metadataID (arguments q) ps b))) q q') (getTables fuel metadataID) q.
Proof.
  intros Hq Hm (Ha & Hf & Hr) Hs Hrep Hall Hlast. unfold reportable, listing in *. rewrite Hall, Hlast in *.
  unfold getTables, ask. cbn [bind]. eapply still; [done|reflexivity|]. unfold pattern_of in Ha.
  destruct metadataID, (arg_table (arguments q)) as [t|]; try by apply list_tables_total.
  unfold act. cbn [bind]. eapply still; [done|reflexivity|]. constructor. split; [done|].
  exists None. eexists. cbn [snd default]. rewrite <- Hm, <- Hq. by destruct q.
Qed.

Lemma MakeRequestGetTablesMeta_total fuel metadataID ps b q :
  dataQuery_ q = None -> service_lists fuel (arguments q) ps b ->
  QueryFacts.screen_ok usable name_screen -> reportable (arg_table (arguments q)) (listing metadataID (arguments q) ps b) ->
  total_t (fun r q' => r = fst (listing metadataID (arguments q) ps b) /\
      with_rows (default [] (snd (listing metadataID (arguments q) ps b))) q q')
    (MakeRequestGetTablesMeta fuel metadataID) q.
Proof.
  intros Hq Ha Hs Hrep. unfold MakeRequestGetTablesMeta, act at 1, ask. cbn [bind].
  eapply still; [done|reflexivity|]. eapply still; [done|reflexivity|].
  set (q1 := set_meta [] q). assert (Hback : forall rows q2, with_rows rows q1 q2 -> with_rows rows q q2)
    by (intros rows q2 (d & g & ->); by exists d, g).
  change (arguments q1) with (arguments q).
  destruct (all_table_types (arguments q)) eqn:Hall.
  { unfold act. cbn [bind]. eapply still; [done|reflexivity|]. constructor. unfold listing. rewrite Hall.
    split; [done|]. by exists (dataQuery_ q), (diag q). }
  assert (Hget : wrong_type (arguments q) = false -> total_t (fun r q' => r = fst (listing metadataID (arguments q) ps b) /\
      with_rows (default [] (snd (listing metadataID (arguments q) ps b))) q q') (getTables fuel metadataID) q1).
  { intros Hw. eapply total_mono; [|by apply (getTables_total fuel metadataID ps b q1)].
    intros r q2 [-> Hq2]. split; [done|]. by apply Hback. }
  unfold wrong_type in Hget.
  destruct (arg_last (arguments q)) as [t|] eqn:Hlast; [destruct (valid_table_type t) eqn:Ht|]; cbn [negb] in *; try by apply Hget.
  unfold act. cbn [bind]. eapply still; [done|reflexivity|]. constructor. unfold listing, wrong_type.
  rewrite Hall, Hlast, Ht. split; [done|]. exists (dataQuery_ q). by eexists.
Qed.

(** ** The rows that are left *)

(** A query that was not executed, or one with rows to hand out. *)
Definition ascii_opt (v : option text) : Prop := match v with Some s => Encoding.ascii_only s | None => True end.
Definition ascii_row (t : TableMeta) : Prop :=
  ascii_opt (catalogName t) /\ ascii_opt (schemaName t) /\ ascii_opt (tableName t) /\
  ascii_opt (tableType t) /\ ascii_opt (remarks t).

Definition rows_left (q : TableQuery) : list TableMeta :=
  drop (if fetched q then S (cursor q) else cursor q) (meta q).

Definition serves_tables (rows : option (list TableMeta)) (q : TableQuery) : Prop :=
  match rows with
  | Some rows => executed q = true /\ (cursor q <= length (meta q))%nat /\ rows_left q = rows /\ Forall ascii_row rows
  | None => executed q = false
  end.

Lemma Execute_total fuel metadataID a ps b g :
  service_lists fuel a ps b -> QueryFacts.screen_ok usable name_screen ->
  reportable (arg_table a) (listing metadataID a ps b) ->
  Forall ascii_row (default [] (snd (listing metadataID a ps b))) ->
  total_t (fun r q' => r = fst (listing metadataID a ps b) /\ serves_tables (snd (listing metadataID a ps b)) q')
    (Tables.Execute fuel metadataID) (NewTableQuery a g).
Proof.
  intros Ha Hs Hrep Hascii. set (q := NewTableQuery a g). unfold Tables.Execute, act at 1. cbn [bind].
  eapply still; [done|reflexivity|]. cbn [executed q NewTableQuery]. fold q.
  apply total_bind. eapply total_mono; [|by apply (MakeRequestGetTablesMeta_total fuel metadataID ps b q)].
  intros r q1 [-> Hq1]. cbn [arguments q NewTableQuery] in *.
  set (out := listing metadataID a ps b) in *.
  assert (Hout : match snd out with Some _ => fst out = AI_SUCCESS \/ fst out = AI_SUCCESS_WITH_INFO | None => fst out = AI_ERROR end).
  { subst out. unfold listing, found_rows. destruct (all_table_types a), (wrong_type a); cbn; auto.
    destruct metadataID, (arg_table a), (QueryFacts.skip ps), b; cbn; auto. }
  apply total_bind. destruct (snd out) as [rows|]; cbn [default] in *.
  - assert (Hdone : total_t (fun _ q' => serves_tables (Some rows) q')
      (act (fun q => set_rows true false (meta q) (if no_rows (meta q) then cursor q else 0%nat) q)) q1).
    { change (act _) with (bind (act (fun q => set_rows true false (meta q) (if no_rows (meta q) then cursor q else 0%nat) q)) Ret).
      eapply with_rows_act; [exact Hq1|]. intros q2 (d & g' & ->). constructor. unfold serves_tables, rows_left. cbn.
      split_and!; [done| |by destruct rows|done]. destruct rows; cbn; lia. }
    destruct Hout as [-> | ->]; (eapply total_mono; [|exact Hdone]); intros [] q2 Hq2; by constructor.
  - rewrite Hout. constructor. constructor. split; [done|]. by destruct Hq1 as (d & g' & ->).
Qed.
End Names.

(** ** Handing out the rows *)

Section Rows.
Context `{HA : AwsTypes} `{!Client} `{!ColumnReader} `{!Deployment} `{!OdbcConstants}.
Context `{!SqlCodes} `{!FieldCodes} `{!Encoding.Abi} `{!Floats}.
Abbreviation text_screen := (QueryFacts.screen_ok QueryColumns.text_target).

(** The reference: the bound columns in order. *)
Fixpoint put_row (row : TableMeta) (idxs : list Z) (screen : Screen) : Screen :=
  match idxs with
  | [] => screen
  | i :: idxs =>
      match fst screen !! i with
      | None => put_row row idxs screen
      | Some b =>
          match put_column i row b (snd screen) with
          | Ok (_, b, m) => put_row row idxs (<[i := b]> (fst screen), m)
          | Err _ => screen
          end
      end
  end.

Definition next_table (rows : option (list TableMeta)) (screen : Screen)
    : SqlResult * Screen * option (list TableMeta) :=
  match rows with
  | None => (AI_ERROR, screen, None)
  | Some [] => (AI_NO_DATA, screen, Some [])
  | Some (row :: rows) => (AI_SUCCESS, put_row row (bound_indices (fst screen)) screen, Some rows)
  end.

Lemma put_optional v b m :
  ascii_opt v -> QueryColumns.text_target b ->
  exists res b' m', PutOptional PutString v b m = Ok (res, b', m') /\ QueryColumns.text_target b'.
Proof.
  intros Hv Hb. unfold QueryColumns.text_target. destruct v as [s|]; cbn [PutOptional].
  - destruct (QueryColumns.PutString_total s b m Hv Hb) as (res & b' & m' & -> & E); eexists _, _, _; (split; [done|]); by rewrite E.
  - destruct (QueryColumns.PutNull_total b m) as (res & b' & m' & -> & E); eexists _, _, _; (split; [done|]); by rewrite E.
Qed.

Lemma put_column_total i row b m :
  ascii_row row -> QueryColumns.text_target b ->
  exists res b' m', put_column i row b m = Ok (res, b', m') /\ QueryColumns.text_target b'.
Proof.
  intros (Hc & Hs & Hn & Ht & Hr) Hb. unfold put_column.
  repeat (case_match; try (by apply put_optional)); eauto 6.
Qed.

Lemma put_row_ok row idxs (screen : Screen) q :
  ascii_row row -> executed q = true -> meta q !! cursor q = Some row -> text_screen screen ->
  bound_columns GetColumn idxs screen q = Ok (q, put_row row idxs screen) /\ text_screen (put_row row idxs screen).
Proof.
  intros Hrow He Hl. revert screen. induction idxs as [|i idxs IH]; intros screen Hs; [done|].
  cbn [bound_columns put_row]. destruct (fst screen !! i) as [b|] eqn:Eb; [|by apply IH].
  unfold GetColumn at 1. rewrite He, Hl. cbn [negb].
  assert (Hne : no_rows (meta q) = false) by (by destruct (meta q)). rewrite Hne.
  destruct (put_column_total i row b (snd screen) Hrow (Hs i b Eb)) as (res & b' & m' & -> & Hb').
  apply IH. by apply map_Forall_insert_2.
Qed.

Lemma FetchNextRow_serves rows (screen : Screen) q :
  serves_tables rows q -> text_screen screen ->
  exists q', Tables.FetchNextRow screen q = Ok (q', fst (next_table rows screen)) /\
    serves_tables (snd (next_table rows screen)) q' /\ text_screen (snd (fst (next_table rows screen))) /\
    dataQuery_ q' = dataQuery_ q.
Proof.
  intros Hq Hs. unfold Tables.FetchNextRow. destruct rows as [rows|]; cbn [serves_tables] in Hq.
  2:{ rewrite Hq. cbn [negb]. by eexists. }
  destruct Hq as (He & Hc & Hl & Ha). rewrite He. cbn [negb]. unfold rows_left in Hl.
  destruct (no_rows (meta q)) eqn:En.
  { destruct (meta q) eqn:Em; [|done]. rewrite drop_nil in Hl. subst rows. exists q. cbn. unfold rows_left.
    rewrite Em in *. rewrite drop_nil. by split_and!. }
  set (cur := if fetched q then _ else _).
  assert (Hcur : (cur <= length (meta q))%nat /\ drop cur (meta q) = rows).
  { subst cur. destruct (fetched q); [|done]. destruct (Nat.ltb_spec (cursor q) (length (meta q))); [by split; [lia|]|].
    split; [done|]. rewrite drop_ge in Hl |- * by lia. done. }
  destruct Hcur as [Hcur Hrows]. clearbody cur. clear Hl.
  change (meta (set_rows true true (meta q) cur q)) with (meta q).
  destruct (Nat.eqb_spec cur (length (meta q))) as [E|E].
  - rewrite drop_ge in Hrows by lia. subst rows.
    eexists. split; [reflexivity|]. cbn. unfold rows_left. cbn. rewrite E, drop_ge by lia. by split_and!.
  - destruct (lookup_lt_is_Some_2 (meta q) cur ltac:(lia)) as [row Hrow].
    rewrite (drop_S _ row) in Hrows by done. subst rows. apply Forall_cons in Ha as [Har Hars].
    set (q1 := set_rows true true (meta q) cur q).
    destruct (put_row_ok row (bound_indices (fst screen)) screen q1 Har eq_refl Hrow Hs) as [-> Hs1].
    eexists. split; [reflexivity|]. cbn [next_table snd fst]. split_and!; [|exact Hs1|done].
    unfold serves_tables, rows_left. cbn. split_and!; [done|lia|done|done].
Qed.
End Rows.

(** ** Names in columns of text *)

Section Texts.
Context `{HA : Encoding.Abi} `{HF : Floats} `{HS : AwsScalars} `{!OdbcConstants} `{!Deployment}.
Context `{!SqlCodes} `{!FieldCodes} `{!Client}.
Import QueryColumns GetData ColumnFacts.ColumnFacts.

(** A row whose first datum has the text [s], which fits the local array. *)
Definition name_row (m : ColumnMeta) (row : Row) (s : text) : Prop :=
  exists d, row !! 0%nat = Some d /\ TypeHasBeenSet m = true /\ text_datum m d /\
    ColumnFacts.ColumnFacts.has_text d = true /\ s = ColumnFacts.ColumnFacts.text_of (GetScalarType m) d /\
    s <> [] /\ (length s < 2048)%nat.

Abbreviation name_buffer := (NewBuffer AI_CHAR (Some array_at) STRING_BUFFER_SIZE None) (only parsing).

Lemma put_name s m :
  Encoding.ascii_only s -> s <> [] -> (length s < 2048)%nat ->
  exists m', PutString s name_buffer m = Ok (CONV_SUCCESS, name_buffer, m') /\ local_text array_at m' = s.
Proof.
  intros Ha Hne Hl. assert (Hpos : (0 < length s)%nat) by (destruct s; [done|cbn; lia]).
  assert (Hroom : (1 <= room AI_CHAR STRING_BUFFER_SIZE)%nat) by (by apply Nat.leb_le).
  pose proof (put_piece_any AI_CHAR s name_buffer 0 array_at m (or_introl eq_refl) eq_refl Ha eq_refl eq_refl
    Hpos ltac:(cbn; lia) Hroom) as Hput.
  cbv zeta in Hput. change (room AI_CHAR (buflen_ name_buffer)) with 2047%nat in Hput.
  change (drop 0 s) with s in Hput.
  rewrite (proj2 (Nat.ltb_ge _ _)), take_ge in Hput by lia. eexists. split; [exact Hput|]. clear Hput.
  cbn [char_size]. change (Z.to_nat 1) with 1%nat. change (le_bytes 1 0) with [0].
  rewrite Z.mul_1_r, units_1. unfold local_text.
  replace (Z.to_nat STRING_BUFFER_SIZE) with (length s + (1 + (2047 - length s)))%nat by lia.
  change (set_reslen ?v (NewBuffer AI_CHAR ?p ?n None) ?mm) with mm.
  rewrite load_app, load_app, load_store_apart by (left; lia).
  rewrite load_store_n by (by rewrite length_bytes_of).
  rewrite (load_store_n _ [0]) by done. cbn [app].
  apply cstr_bytes. by apply ascii_no_nul.
Qed.

Lemma read_name m row s mem :
  name_row m row s ->
  exists mem', QueryFacts.row_result [m] row ({[ 1 := name_buffer ]}, mem) =
      (AI_SUCCESS, ({[ 1 := name_buffer ]}, mem')) /\ local_text array_at mem' = s.
Proof.
  intros (d & Hd & Hset & [Ht Htx] & Hh & -> & Hne & Hl).
  destruct (put_name (text_of (GetScalarType m) d) mem (text_of_ascii _ _ Htx) Hne Hl) as (mem' & Hput & Hread).
  exists mem'. split; [|exact Hread]. apply (row_result_single m row d name_buffer mem CONV_SUCCESS); [done| |done].
  cbn. unfold Column.ReadToBuffer. rewrite Hset. cbn [negb]. rewrite datum_is_text by auto. exact Hput.
Qed.

Lemma names_read_texts m rows names mem :
  Forall2 (name_row m) rows names -> names_read [m] rows ({[ 1 := name_buffer ]}, mem) = names.
Proof.
  intros Hf. revert mem. induction Hf as [|row s rows names Hrow _ IH]; intros mem; [done|].
  cbn [names_read]. destruct (read_name m row s mem Hrow) as (mem' & -> & Hs). cbn [snd]. by rewrite Hs, IH.
Qed.

(** The pages have one column of text, with these names in it. *)
Definition names_in (ps : list ExecuteQueryResult) (names : list text) : Prop :=
  exists m, (QueryFacts.skip ps <> [] -> QueryFacts.columns_of ps = [m]) /\
    Forall2 (name_row m) (QueryFacts.page_rows ps) names.

Lemma names_of_texts ps names :
  names_in ps names -> QueryFacts.skip ps <> [] -> names_of ps = names.
Proof. intros (m & Hm & Hf) Hne. unfold names_of. rewrite (Hm Hne). by apply names_read_texts. Qed.

Lemma names_ascii ps names : names_in ps names -> Forall Encoding.ascii_only names.
Proof.
  intros (m & _ & Hf). induction Hf as [|row s rows names Hrow _ IH]; constructor; [|done].
  destruct Hrow as (d & _ & _ & [_ Htx] & _ & -> & _). by apply text_of_ascii.
Qed.

Lemma listed_ascii name : Encoding.ascii_only name -> ascii_row (listed name).
Proof.
  intros Hn. unfold ascii_row, listed. cbn [catalogName schemaName tableName tableType remarks ascii_opt].
  assert (Hd : Encoding.ascii_only (txt "default")) by (repeat constructor; by vm_compute).
  destruct DATABASE_AS_SCHEMA; split_and!; try done; repeat constructor; by vm_compute.
Qed.

Lemma listing_ascii metadataID a ps b names :
  names_in ps names -> Forall ascii_row (default [] (snd (listing metadataID a ps b))).
Proof.
  intros Hn. unfold listing, found_rows.
  destruct (all_table_types a); [constructor; [|constructor]; unfold ascii_row; cbn; split_and!; try done;
    repeat constructor; by vm_compute|].
  destruct (wrong_type a); [constructor|].
  assert (Hfound : forall identifier, Forall ascii_row (default [] (snd (found_rows identifier ps b)))).
  { intros id. unfold found_rows. destruct (QueryFacts.skip ps) as [|pg ps'] eqn:Es; [by destruct b|]. cbn [snd default].
    rewrite (names_of_texts ps names) by (done || by rewrite Es). apply List.Forall_map.
    apply Forall_forall. intros x Hx. apply elem_of_once in Hx as [Hx _]. apply listed_ascii.
    by apply (proj1 (Forall_forall _ _) (names_ascii ps names Hn)). }
  destruct metadataID, (arg_table a); (constructor || apply Hfound).
Qed.

Lemma no_rows_skipped ps : QueryFacts.skip ps <> [] -> QueryFacts.page_rows ps <> [].
Proof.
  induction ps as [|pg ps IH]; [done|]. cbn [QueryFacts.skip]. unfold QueryFacts.page_rows. cbn [map concat].
  destruct (GetRows pg) as [|r rs]; [exact IH|done].
Qed.

Lemma listing_reportable metadataID a ps b names :
  names_in ps names -> reportable (arg_table a) (listing metadataID a ps b).
Proof.
  intros Hn Ht. unfold listing. rewrite Ht. destruct (all_table_types a), (wrong_type a), metadataID; try done.
  unfold found_rows. destruct (QueryFacts.skip ps) as [|pg ps'] eqn:Es; [by destruct b|].
  rewrite (names_of_texts ps names) by (done || by rewrite Es). destruct Hn as (m & _ & Hf).
  destruct names as [|name names]; [|done]. apply Forall2_nil_inv_r in Hf. by apply no_rows_skipped in Hf; [|rewrite Es].
Qed.

(** The main case. *)
Lemma listing_names metadataID a ps b names :
  names_in ps names -> QueryFacts.skip ps <> [] -> all_table_types a = false -> wrong_type a = false ->
  (metadataID = true -> arg_table a <> None) ->
  listing metadataID a ps b =
  (AI_SUCCESS, Some (map listed (once (wanted (if metadataID then arg_table a else None)) [] names))).
Proof.
  intros Hn Hs Hall Hw Hm. unfold listing. rewrite Hall, Hw.
  assert (Hf : forall id, found_rows id ps b = (AI_SUCCESS, Some (map listed (once (wanted id) [] names)))).
  { intros id. unfold found_rows. destruct (QueryFacts.skip ps) eqn:Es; [done|].
    by rewrite (names_of_texts ps names) by (done || by rewrite Es). }
  destruct metadataID, (arg_table a); try apply Hf. by destruct Hm.
Qed.

Lemma name_screen_text : QueryFacts.screen_ok text_target name_screen.
Proof. apply map_Forall_singleton. by left. Qed.
End Texts.
End TableFacts.
