(* ===== verification/AnyQuery.v ===== *)
(** * AnyQuery: the query of a statement, whichever it is

    The sum of the queries, an instance of [AbstractQuery]: a call is dispatched
    on the query there is, as the virtual functions of [query.h] are. The threads
    of a query over the tables are those of its inner queries. *)

From S2P Require Import Prelude Text Codes Memory Diagnostics Configuration Encoding AppBuffer Column TypeTraits Fields Attributes ColumnMeta Interleave DataQuery Queries AppBufferGet TableMetadata ColumnMetadata DataQueryFacts TableFacts.

Module AnyQuery.
Import Diag AppBuf Meta Queries.
Local Open Scope main_scope.

Section AnyQuery.
Context `{HA : AwsTypes} `{!Query.Client} `{!Query.ColumnReader} `{!Deployment} `{!OdbcConstants}.
Context `{!Types.SqlCodes} `{!Fields.FieldCodes} `{!Attrs.AttributeCodes} `{!Encoding.Abi} {F : Floats}.
Context `{!Get.Reals F} `{!Columns.Locals}.

Inductive AnyQuery : Type :=
  | DataQ (q : Query.DataQuery)
  | StaticQ (q : StaticQuery)
  | InfoQ (q : TypeInfoQuery)
  | TableQ (q : Tables.TableQuery)
  | ColumnQ (q : Columns.ColumnQuery).

(** The data query, in place. *)
Definition the_data (q : AnyQuery) : option Query.DataQuery :=
  match q with DataQ d => Some d | _ => None end.
Definition data {A} (m : main Query.DataQuery A) : main AnyQuery A := zoom the_data (fun d _ => DataQ d) m.

(** The queries over the tables, in place. *)
Definition the_table (q : AnyQuery) : option Tables.TableQuery :=
  match q with TableQ t => Some t | _ => None end.
Definition table {A} (m : main Tables.TableQuery A) : main AnyQuery A := zoom the_table (fun t _ => TableQ t) m.
Definition the_column (q : AnyQuery) : option Columns.ColumnQuery :=
  match q with ColumnQ c => Some c | _ => None end.
Definition column {A} (m : main Columns.ColumnQuery A) : main AnyQuery A := zoom the_column (fun c _ => ColumnQ c) m.

(** A virtual call: the methods of the classes. *)
Definition dispatch {A} (of_data : main Query.DataQuery A)
    (of_static : StaticQuery -> StaticQuery * A)
    (of_info : TypeInfoQuery -> Prelude.result (TypeInfoQuery * A))
    (of_table : main Tables.TableQuery A) (of_column : main Columns.ColumnQuery A) : main AnyQuery A :=
  Atomic (fun q =>
    match q with
    | DataQ _ => Some (q, data of_data)
    | StaticQ s => let '(s, a) := of_static s in Some (StaticQ s, Ret a)
    | InfoQ i =>
        match of_info i with
        | Ok (i, a) => Some (InfoQ i, Ret a)
        | Err e => Some (q, Throw e)
        end
    | TableQ _ => Some (q, table of_table)
    | ColumnQ _ => Some (q, column of_column)
    end).

Definition any_diag (q : AnyQuery) : DiagnosticRecordStorage :=
  match q with
  | DataQ q => Query.diag q | StaticQ q => static_diag q | InfoQ q => info_diag q
  | TableQ q => Tables.diag q | ColumnQ q => Columns.diag q
  end.

Definition any_with_diag (d : DiagnosticRecordStorage) (q : AnyQuery) : AnyQuery :=
  match q with
  | DataQ q => DataQ (Query.set_diag d q)
  | StaticQ q => StaticQ (MkStatic (static_kind q) d)
  | InfoQ q => InfoQ (MkTypeInfo (executed q) (fetched q) (types q) (cursor q) d)
  | TableQ q => TableQ (Tables.set_table_diag d q)
  | ColumnQ q => ColumnQ (Columns.set_column_diag d q)
  end.

(** The steps of the threads of the inner queries; those of the two of a column
    query are told apart by their parity. *)
Definition column_step (i : nat) (q : Columns.ColumnQuery) : option Columns.ColumnQuery :=
  if Nat.even i
  then option_map (fun t => Columns.set_tables t q) (Tables.fetch_step (Nat.div2 i) (Columns.tableMetadataQuery_ q))
  else match Columns.dataQuery_ q with
       | Some d => option_map (fun d => Columns.set_dataQuery (Some d) q) (Query.AsyncFetchOnePage (Nat.div2 i) d)
       | None => None
       end.

Definition any_step (i : nat) (q : AnyQuery) : option AnyQuery :=
  match q with
  | DataQ d => option_map DataQ (Query.AsyncFetchOnePage i d)
  | TableQ q => option_map TableQ (Tables.fetch_step i q)
  | ColumnQ q => option_map ColumnQ (column_step i q)
  | _ => None
  end.

Definition any_pending (q : AnyQuery) : nat :=
  match q with
  | DataQ d => QueryFacts.pending d
  | TableQ q => TableFacts.pending_data (Tables.dataQuery_ q)
  | ColumnQ q =>
      TableFacts.pending_data (Tables.dataQuery_ (Columns.tableMetadataQuery_ q)) + TableFacts.pending_data (Columns.dataQuery_ q)
  | _ => 0
  end.

Definition any_RowNumber (q : AnyQuery) : AnyQuery * Z :=
  match q with
  | DataQ q => let '(q, n) := Query.RowNumber q in (DataQ q, n)
  | StaticQ q => (StaticQ q, 0)
  | InfoQ q => let '(q, n) := info_RowNumber q in (InfoQ q, n)
  | TableQ q => let '(q, n) := Tables.RowNumber q in (TableQ q, n)
  | ColumnQ q => let '(q, n) := Columns.RowNumber q in (ColumnQ q, n)
  end.

(** ** The threads leave the storage alone and end *)

Lemma any_step_diag i q q' : any_step i q = Some q' -> any_diag q' = any_diag q.
Proof.
  destruct q as [q|q|q|q|q]; cbn; try discriminate.
  - destruct (Query.AsyncFetchOnePage i q) eqn:E; [|discriminate]. intros [= <-]. by eapply TableFacts.async_keeps_diag.
  - destruct (Tables.fetch_step i q) eqn:E; [|discriminate]. intros [= <-]. by eapply TableFacts.fetch_step_diag.
  - unfold column_step. destruct (Nat.even i).
    + destruct (Tables.fetch_step _ _); [|discriminate]. by intros [= <-].
    + destruct (Columns.dataQuery_ _); [|discriminate]. destruct (Query.AsyncFetchOnePage _ _); [|discriminate].
      by intros [= <-].
Qed.

Lemma any_step_with_diag i d q : any_step i (any_with_diag d q) = option_map (any_with_diag d) (any_step i q).
Proof.
  destruct q as [q|q|q|q|q]; [|done|done|..]; unfold any_step, any_with_diag.
  - rewrite TableFacts.async_diag. by destruct (Query.AsyncFetchOnePage i q).
  - rewrite TableFacts.fetch_step_with_diag. by destruct (Tables.fetch_step i q).
  - unfold column_step. cbn. destruct (Nat.even i).
    + by destruct (Tables.fetch_step _ _).
    + destruct (Columns.dataQuery_ _); [|done]. by destruct (Query.AsyncFetchOnePage _ _).
Qed.

Lemma any_step_pending i q q' : any_step i q = Some q' -> (any_pending q' < any_pending q)%nat.
Proof.
  destruct q as [q|q|q|q|q]; cbn; try discriminate.
  - destruct (Query.AsyncFetchOnePage i q) eqn:E; [|discriminate]. intros [= <-]. by eapply QueryFacts.fetch_pending.
  - destruct (Tables.fetch_step i q) eqn:E; [|discriminate]. intros [= <-]. by eapply TableFacts.fetch_step_pending.
  - unfold column_step. destruct (Nat.even i).
    + destruct (Tables.fetch_step _ _) eqn:E; [|discriminate]. intros [= <-]. cbn.
      apply TableFacts.fetch_step_pending in E. lia.
    + destruct (Columns.dataQuery_ _) eqn:Ed; [|discriminate].
      destruct (Query.AsyncFetchOnePage _ _) eqn:E; [|discriminate]. intros [= <-]. cbn.
      apply QueryFacts.fetch_pending in E. lia.
Qed.

#[global, refine] Instance AnyQuery_query : AbstractQuery AnyQuery := {|
  query_step := any_step;
  query_pending := any_pending;
  query_diag := any_diag;
  with_diag := any_with_diag;
  Execute fuel metadataID :=
    dispatch (Query.Execute fuel) static_Execute (fun q => Ok (info_Execute q))
      (Tables.Execute fuel metadataID) (Columns.Execute fuel metadataID);
  Cancel :=
    dispatch Query.Cancel (fun q => (q, AI_SUCCESS)) (fun q => Ok (info_Close q)) Tables.Cancel Columns.Cancel;
  FetchNextRow screen :=
    dispatch (Query.FetchNextRow screen) (fun q => let '(q, r) := static_Fetch q in (q, (r, screen)))
      (info_FetchNextRow screen) (call (Tables.FetchNextRow screen)) (call (Columns.FetchNextRow screen));
  GetColumn columnIdx b m :=
    dispatch (Query.GetColumn columnIdx b m) (fun q => let '(q, r) := static_Fetch q in (q, (r, b, m)))
      (info_GetColumn columnIdx b m) (call (Tables.GetColumn columnIdx b m))
      (call (Columns.GetColumn columnIdx b m));
  Close :=
    dispatch Query.Close (fun q => (q, AI_SUCCESS)) (fun q => Ok (info_Close q)) Tables.Close Columns.Close;
  Delete :=
    dispatch Query.DeleteDataQuery (fun q => (q, tt)) (fun q => Ok (q, tt)) Tables.Delete Columns.Delete;
  GetMeta :=
    dispatch Query.GetMeta (fun q => (q, Some (static_columns (static_kind q))))
      (fun q => Ok (q, Some TypeInfoColumns)) (ask (fun q => Some (Tables.GetMeta q)))
      (Ret (Some Columns.ColumnColumns));
  DataAvailable q :=
    match q with
    | DataQ q => Query.DataAvailable q | StaticQ _ => false | InfoQ q => info_DataAvailable q
    | TableQ q => Tables.DataAvailable q | ColumnQ q => Columns.DataAvailable q
    end;
  AffectedRows q := match q with DataQ q => Query.AffectedRows q | _ => 0 end;
  RowNumber := any_RowNumber;
  NextResultSet := Query.NextResultSet
|}.
Proof.
  - by intros d [].
  - by intros [[]|[]|[]|[]|[]].
  - by intros d d' [].
  - apply any_step_diag.
  - apply any_step_with_diag.
  - apply any_step_pending.
  - by intros d [].
Defined.

#[global] Instance AnyQuery_maker : QueryMaker AnyQuery := {|
  new_data_query conf sql d := DataQ (Query.NewDataQuery conf sql d);
  new_static_query k d := StaticQ (MkStatic k d);
  new_type_info_query t d := InfoQ (NewTypeInfo Attrs.SQL_ALL_TYPES t d);
  new_table_query a d := TableQ (Tables.NewTableQuery a d);
  new_column_query a d := ColumnQ (Columns.NewColumnQuery a d)
|}.
End AnyQuery.
End AnyQuery.
