(* ===== verification/Handles.v ===== *)
(** * Handles: the objects behind the ODBC handles and how they point at each other

    A connection, its statements and its descriptors are objects that hold
    pointers to each other ([include/iotsitewise/odbc/connection.h],
    [statement.h], [descriptor.h]); a descriptor may be shared. The state is a
    store of each kind of object by address, with the memory of the application
    and the logger. An operation is a function of the store that may fail: an
    access through a null pointer or to an object that was freed is an error. *)

From S2P Require Import Prelude Text Codes Memory Diagnostics Environment ConnectionInfo Configuration AppBuffer GetData Fields Interleave DataQuery.

Module Handles.
Import Text Memory Diag Config AppBuf GetData Fields Query.

(** ** Descriptors *)

Inductive DescType : Type := ARD | APD | IRD | IPD | UNKNOWN.

#[global] Instance DescType_eq_dec : EqDecision DescType.
Proof. solve_decision. Defined.

(** A struct of numbers and pointers with one member for each field identifier;
    a member that is not there has the zero of value-initialisation. *)
Definition DescriptorRecord : Type := gmap FieldId Z.

Definition member (f : FieldId) (r : DescriptorRecord) : Z := default 0 (r !! f).

(** The header; a member that is not there was never set. Its member
    [rowsetSize] has no identifier. *)
Record DescriptorHeader : Type := MkHeader { members : gmap FieldId Z; rowsetSize_ : option Z }.

Record Descriptor : Type := MkDesc {
  desc_type : DescType;
  desc_conn : option positive;
  desc_stmt : option positive;
  desc_header : DescriptorHeader;
  desc_records : gmap Z DescriptorRecord;
  desc_diag : DiagnosticRecordStorage
}.

Definition set_type (t : DescType) (d : Descriptor) : Descriptor :=
  MkDesc t (desc_conn d) (desc_stmt d) (desc_header d) (desc_records d) (desc_diag d).
Definition set_connection (c : option positive) (d : Descriptor) : Descriptor :=
  MkDesc (desc_type d) c (desc_stmt d) (desc_header d) (desc_records d) (desc_diag d).
Definition set_statement (s : option positive) (d : Descriptor) : Descriptor :=
  MkDesc (desc_type d) (desc_conn d) s (desc_header d) (desc_records d) (desc_diag d).
Definition set_header (h : DescriptorHeader) (d : Descriptor) : Descriptor :=
  MkDesc (desc_type d) (desc_conn d) (desc_stmt d) h (desc_records d) (desc_diag d).
Definition set_records (r : gmap Z DescriptorRecord) (d : Descriptor) : Descriptor :=
  MkDesc (desc_type d) (desc_conn d) (desc_stmt d) (desc_header d) r (desc_diag d).
Definition set_desc_diag (g : DiagnosticRecordStorage) (d : Descriptor) : Descriptor :=
  MkDesc (desc_type d) (desc_conn d) (desc_stmt d) (desc_header d) (desc_records d) g.
Definition set_member (f : FieldId) (v : Z) (d : Descriptor) : Descriptor :=
  set_header (MkHeader (<[f := v]> (members (desc_header d))) (rowsetSize_ (desc_header d))) d.

(** ** Connections *)

Record StatementAttributes : Type := MkAttributes {
  bindType : Z; concurrency : Z; cursorType : Z; retrieveData : Z; rowsetSize : Z; rowArraySize : Z
}.

Record Connection : Type := MkConn {
  env_ : positive;
  autoCommit_ : bool;
  metadataID_ : bool;
  config_ : Configuration;
  info_ : Info.ConnectionInfo;
  client_ : bool;                          (* whether there is a client *)
  cursorNames_ : gset text;
  cursorNameMap_ : gmap positive text;
  stmtAttr_ : StatementAttributes;
  conn_diag : DiagnosticRecordStorage
}.

Definition set_autoCommit (v : bool) (c : Connection) : Connection :=
  MkConn (env_ c) v (metadataID_ c) (config_ c) (info_ c) (client_ c) (cursorNames_ c) (cursorNameMap_ c)
    (stmtAttr_ c) (conn_diag c).
Definition set_metadataID (v : bool) (c : Connection) : Connection :=
  MkConn (env_ c) (autoCommit_ c) v (config_ c) (info_ c) (client_ c) (cursorNames_ c) (cursorNameMap_ c)
    (stmtAttr_ c) (conn_diag c).
Definition set_config (v : Configuration) (c : Connection) : Connection :=
  MkConn (env_ c) (autoCommit_ c) (metadataID_ c) v (info_ c) (client_ c) (cursorNames_ c)
    (cursorNameMap_ c) (stmtAttr_ c) (conn_diag c).
Definition set_info (v : Info.ConnectionInfo) (c : Connection) : Connection :=
  MkConn (env_ c) (autoCommit_ c) (metadataID_ c) (config_ c) v (client_ c) (cursorNames_ c)
    (cursorNameMap_ c) (stmtAttr_ c) (conn_diag c).
Definition set_client (v : bool) (c : Connection) : Connection :=
  MkConn (env_ c) (autoCommit_ c) (metadataID_ c) (config_ c) (info_ c) v (cursorNames_ c)
    (cursorNameMap_ c) (stmtAttr_ c) (conn_diag c).
Definition set_cursors (names : gset text) (by_stmt : gmap positive text) (c : Connection)
    : Connection :=
  MkConn (env_ c) (autoCommit_ c) (metadataID_ c) (config_ c) (info_ c) (client_ c) names by_stmt
    (stmtAttr_ c) (conn_diag c).
Definition set_stmtAttr (v : StatementAttributes) (c : Connection) : Connection :=
  MkConn (env_ c) (autoCommit_ c) (metadataID_ c) (config_ c) (info_ c) (client_ c) (cursorNames_ c)
    (cursorNameMap_ c) v (conn_diag c).
Definition set_conn_diag (v : DiagnosticRecordStorage) (c : Connection) : Connection :=
  MkConn (env_ c) (autoCommit_ c) (metadataID_ c) (config_ c) (info_ c) (client_ c) (cursorNames_ c)
    (cursorNameMap_ c) (stmtAttr_ c) v.

Section Store.
(** The queries of statements. *)
Context {Q : Type}.

(** ** Statements *)

(** [cell] holds [currentColNum] and [cellOffset]. *)
Record Statement : Type := MkStmt {
  connection : positive;
  columnBindings : ColumnBindingMap;
  currentQuery : option Q;
  rowsFetched : pointer;
  rowStatuses : pointer;
  columnBindOffset : pointer;
  cell : Cell;
  rowArraySize_ : Z;
  rowsetSize__ : Z;
  ardi : positive; apdi : positive; irdi : positive; ipdi : positive;
  ard : positive; ird : positive;
  stmt_diag : DiagnosticRecordStorage
}.

Definition set_bindings (v : ColumnBindingMap) (s : Statement) : Statement :=
  MkStmt (connection s) v (currentQuery s) (rowsFetched s) (rowStatuses s) (columnBindOffset s)
    (cell s) (rowArraySize_ s) (rowsetSize__ s) (ardi s) (apdi s) (irdi s) (ipdi s) (ard s)
    (ird s) (stmt_diag s).
Definition set_query (v : option Q) (s : Statement) : Statement :=
  MkStmt (connection s) (columnBindings s) v (rowsFetched s) (rowStatuses s)
    (columnBindOffset s) (cell s) (rowArraySize_ s) (rowsetSize__ s) (ardi s) (apdi s) (irdi s)
    (ipdi s) (ard s) (ird s) (stmt_diag s).
Definition set_rowsFetched (v : pointer) (s : Statement) : Statement :=
  MkStmt (connection s) (columnBindings s) (currentQuery s) v (rowStatuses s)
    (columnBindOffset s) (cell s) (rowArraySize_ s) (rowsetSize__ s) (ardi s) (apdi s) (irdi s)
    (ipdi s) (ard s) (ird s) (stmt_diag s).
Definition set_rowStatuses (v : pointer) (s : Statement) : Statement :=
  MkStmt (connection s) (columnBindings s) (currentQuery s) (rowsFetched s) v
    (columnBindOffset s) (cell s) (rowArraySize_ s) (rowsetSize__ s) (ardi s) (apdi s) (irdi s)
    (ipdi s) (ard s) (ird s) (stmt_diag s).
Definition set_columnBindOffset (v : pointer) (s : Statement) : Statement :=
  MkStmt (connection s) (columnBindings s) (currentQuery s) (rowsFetched s) (rowStatuses s) v
    (cell s) (rowArraySize_ s) (rowsetSize__ s) (ardi s) (apdi s) (irdi s) (ipdi s) (ard s)
    (ird s) (stmt_diag s).
Definition set_cell (v : Cell) (s : Statement) : Statement :=
  MkStmt (connection s) (columnBindings s) (currentQuery s) (rowsFetched s) (rowStatuses s)
    (columnBindOffset s) v (rowArraySize_ s) (rowsetSize__ s) (ardi s) (apdi s) (irdi s)
    (ipdi s) (ard s) (ird s) (stmt_diag s).
Definition set_rowArraySize (v : Z) (s : Statement) : Statement :=
  MkStmt (connection s) (columnBindings s) (currentQuery s) (rowsFetched s) (rowStatuses s)
    (columnBindOffset s) (cell s) v (rowsetSize__ s) (ardi s) (apdi s) (irdi s) (ipdi s)
    (ard s) (ird s) (stmt_diag s).
Definition set_rowsetSize (v : Z) (s : Statement) : Statement :=
  MkStmt (connection s) (columnBindings s) (currentQuery s) (rowsFetched s) (rowStatuses s)
    (columnBindOffset s) (cell s) (rowArraySize_ s) v (ardi s) (apdi s) (irdi s) (ipdi s)
    (ard s) (ird s) (stmt_diag s).
Definition set_active (vard vird : positive) (s : Statement) : Statement :=
  MkStmt (connection s) (columnBindings s) (currentQuery s) (rowsFetched s) (rowStatuses s)
    (columnBindOffset s) (cell s) (rowArraySize_ s) (rowsetSize__ s) (ardi s) (apdi s) (irdi s)
    (ipdi s) vard vird (stmt_diag s).
Definition set_stmt_diag (v : DiagnosticRecordStorage) (s : Statement) : Statement :=
  MkStmt (connection s) (columnBindings s) (currentQuery s) (rowsFetched s) (rowStatuses s)
    (columnBindOffset s) (cell s) (rowArraySize_ s) (rowsetSize__ s) (ardi s) (apdi s) (irdi s)
    (ipdi s) (ard s) (ird s) v.

(** ** The store *)

Record World : Type := MkWorld {
  memory : Memory;
  log_level : Z;
  log_path : text;
  environments : gmap positive Env.Environment;
  connections : gmap positive Connection;
  statements : gmap positive Statement;
  descriptors : gmap positive Descriptor
}.

Definition set_memory (v : Memory) (w : World) : World :=
  MkWorld v (log_level w) (log_path w) (environments w) (connections w) (statements w) (descriptors w).
Definition set_log_level (v : Z) (w : World) : World :=
  MkWorld (memory w) v (log_path w) (environments w) (connections w) (statements w) (descriptors w).
Definition set_log_path (v : text) (w : World) : World :=
  MkWorld (memory w) (log_level w) v (environments w) (connections w) (statements w) (descriptors w).
Definition set_environments (v : gmap positive Env.Environment) (w : World) : World :=
  MkWorld (memory w) (log_level w) (log_path w) v (connections w) (statements w) (descriptors w).
Definition set_connections (v : gmap positive Connection) (w : World) : World :=
  MkWorld (memory w) (log_level w) (log_path w) (environments w) v (statements w) (descriptors w).
Definition set_statements (v : gmap positive Statement) (w : World) : World :=
  MkWorld (memory w) (log_level w) (log_path w) (environments w) (connections w) v (descriptors w).
Definition set_descriptors (v : gmap positive Descriptor) (w : World) : World :=
  MkWorld (memory w) (log_level w) (log_path w) (environments w) (connections w) (statements w) v.

(** ** Operations on the store *)

Definition op (A : Type) : Type := World -> Prelude.result (World * A).

Definition op_ret {A} (a : A) : op A := fun w => Ok (w, a).
Definition op_fail {A} (e : error) : op A := fun _ => Err e.
Definition op_bind {A B} (m : op A) (k : A -> op B) : op B :=
  fun w => match m w with Ok (w, a) => k a w | Err e => Err e end.

(** The object at an address. *)
Definition found {A} (o : option A) : op A :=
  match o with Some a => op_ret a | None => op_fail Dangling end.

Definition get_stmt (p : positive) : op Statement := fun w => found (statements w !! p) w.
Definition get_desc (p : positive) : op Descriptor := fun w => found (descriptors w !! p) w.
Definition get_conn (p : positive) : op Connection := fun w => found (connections w !! p) w.

Definition put_stmt (p : positive) (s : Statement) : op unit :=
  fun w => Ok (set_statements (<[p := s]> (statements w)) w, tt).
Definition put_desc (p : positive) (d : Descriptor) : op unit :=
  fun w => Ok (set_descriptors (<[p := d]> (descriptors w)) w, tt).
Definition put_conn (p : positive) (c : Connection) : op unit :=
  fun w => Ok (set_connections (<[p := c]> (connections w)) w, tt).

Definition on_stmt (p : positive) (f : Statement -> Statement) : op unit :=
  op_bind (get_stmt p) (fun s => put_stmt p (f s)).
Definition on_desc (p : positive) (f : Descriptor -> Descriptor) : op unit :=
  op_bind (get_desc p) (fun d => put_desc p (f d)).
Definition on_conn (p : positive) (f : Connection -> Connection) : op unit :=
  op_bind (get_conn p) (fun c => put_conn p (f c)).

(** A write of [n] bytes through a pointer of the application. *)
Definition write (p : pointer) (n : nat) (v : Z) : op unit :=
  fun w => match p with
           | Some a => Ok (set_memory (store a (le_bytes n v) (memory w)) w, tt)
           | None => Err NullPointer
           end.

(** [AddStatusRecord] of the three kinds of objects: a statement and a
    connection let the connection create the record. *)
Definition add_stmt (p : positive) (st : SqlState) (msg : text) : op unit :=
  on_stmt p (fun s => set_stmt_diag (AdapterAddStatusRecord true (stmt_diag s) st msg 0 0) s).
Definition add_conn (p : positive) (st : SqlState) (msg : text) : op unit :=
  on_conn p (fun c => set_conn_diag (AdapterAddStatusRecord true (conn_diag c) st msg 0 0) c).
Definition add_desc (p : positive) (st : SqlState) (msg : text) : op unit :=
  on_desc p (fun d => set_desc_diag (AdapterAddStatusRecord false (desc_diag d) st msg 0 0) d).

(** [IGNITE_ODBC_API_CALL] on an object whose storage [set] replaces. *)
Definition api_call (edit : (DiagnosticRecordStorage -> DiagnosticRecordStorage) -> op unit)
    (body : op SqlResult) : op unit :=
  op_bind (edit Reset) (fun _ =>
  op_bind body (fun r => edit (fun g => SetHeaderRecord g r))).

Definition edit_stmt (p : positive) (f : DiagnosticRecordStorage -> DiagnosticRecordStorage) : op unit :=
  on_stmt p (fun s => set_stmt_diag (f (stmt_diag s)) s).
Definition edit_conn (p : positive) (f : DiagnosticRecordStorage -> DiagnosticRecordStorage) : op unit :=
  on_conn p (fun c => set_conn_diag (f (conn_diag c)) c).
Definition edit_desc (p : positive) (f : DiagnosticRecordStorage -> DiagnosticRecordStorage) : op unit :=
  on_desc p (fun d => set_desc_diag (f (desc_diag d)) d).

(** An operation as one action of a program. *)
Definition step {A} (m : op A) : main World A :=
  Atomic (fun w => match m w with
                   | Ok (w, a) => Some (w, Ret a)
                   | Err e => Some (w, Throw e)
                   end).

(** ** Reasoning about operations *)

(** The operation succeeds, and its result and the state after it satisfy [P]. *)
Definition wp {A} (m : op A) (P : A -> World -> Prop) (w : World) : Prop :=
  match m w with Ok (w', a) => P a w' | Err _ => False end.

Definition upd_desc (p : positive) (d : Descriptor) (w : World) : World :=
  set_descriptors (<[p := d]> (descriptors w)) w.
Definition upd_stmt (p : positive) (s : Statement) (w : World) : World :=
  set_statements (<[p := s]> (statements w)) w.
Definition upd_conn (p : positive) (c : Connection) (w : World) : World :=
  set_connections (<[p := c]> (connections w)) w.

(** The result alone, which a run can be computed to. *)
Definition answer {A} (m : op A) (w : World) : option A :=
  match m w with Ok (_, a) => Some a | Err _ => None end.

Lemma answer_run {A} (m : op A) w a : answer m w = Some a -> exists w', m w = Ok (w', a).
Proof. unfold answer. destruct (m w) as [[w' b]|e]; intros [= ->]. by exists w'. Qed.

Lemma run_answer {A} (m : op A) w w' a : m w = Ok (w', a) -> answer m w = Some a.
Proof. unfold answer. by intros ->. Qed.

Lemma wp_run {A} (m : op A) P w : wp m P w <-> exists w' a, m w = Ok (w', a) /\ P a w'.
Proof.
  unfold wp. destruct (m w) as [[w' a]|e]; split; eauto.
  - by intros (? & ? & [= <- <-] & H).
  - done.
  - by intros (? & ? & ? & _).
Qed.

Lemma wp_mono {A} (m : op A) P R w :
  (forall a w', P a w' -> R a w') -> wp m P w -> wp m R w.
Proof. unfold wp. destruct (m w) as [[w' a]|e]; auto. Qed.

Lemma wp_bind {A B} (m : op A) (k : A -> op B) P w :
  wp m (fun a => wp (k a) P) w -> wp (op_bind m k) P w.
Proof. unfold wp, op_bind. by destruct (m w) as [[w' a]|e]. Qed.

Lemma wp_ret {A} (a : A) P w : P a w -> wp (op_ret a) P w.
Proof. done. Qed.

Lemma wp_get_desc p d P w : descriptors w !! p = Some d -> P d w -> wp (get_desc p) P w.
Proof. unfold wp, get_desc. by intros ->. Qed.
Lemma wp_get_stmt p s P w : statements w !! p = Some s -> P s w -> wp (get_stmt p) P w.
Proof. unfold wp, get_stmt. by intros ->. Qed.
Lemma wp_get_conn p c P w : connections w !! p = Some c -> P c w -> wp (get_conn p) P w.
Proof. unfold wp, get_conn. by intros ->. Qed.

Lemma wp_on_desc p d f P w :
  descriptors w !! p = Some d -> P tt (upd_desc p (f d) w) -> wp (on_desc p f) P w.
Proof. intros E H. apply wp_bind, (wp_get_desc p d); done. Qed.
Lemma wp_on_stmt p s f P w :
  statements w !! p = Some s -> P tt (upd_stmt p (f s) w) -> wp (on_stmt p f) P w.
Proof. intros E H. apply wp_bind, (wp_get_stmt p s); done. Qed.
Lemma wp_on_conn p c f P w :
  connections w !! p = Some c -> P tt (upd_conn p (f c) w) -> wp (on_conn p f) P w.
Proof. intros E H. apply wp_bind, (wp_get_conn p c); done. Qed.

Lemma wp_write a n v P w :
  P tt (set_memory (store a (le_bytes n v) (memory w)) w) -> wp (write (Some a) n v) P w.
Proof. done. Qed.

Lemma lookup_upd_desc p d w : descriptors (upd_desc p d w) !! p = Some d.
Proof. apply lookup_insert_eq. Qed.
Lemma lookup_upd_stmt p s w : statements (upd_stmt p s w) !! p = Some s.
Proof. apply lookup_insert_eq. Qed.
Lemma lookup_upd_conn p c w : connections (upd_conn p c w) !! p = Some c.
Proof. apply lookup_insert_eq. Qed.

Lemma upd_desc_twice p d d' w : upd_desc p d (upd_desc p d' w) = upd_desc p d w.
Proof. unfold upd_desc. cbn. by rewrite insert_insert_eq. Qed.
Lemma upd_stmt_twice p s s' w : upd_stmt p s (upd_stmt p s' w) = upd_stmt p s w.
Proof. unfold upd_stmt. cbn. by rewrite insert_insert_eq. Qed.
Lemma upd_conn_twice p c c' w : upd_conn p c (upd_conn p c' w) = upd_conn p c w.
Proof. unfold upd_conn. cbn. by rewrite insert_insert_eq. Qed.

Lemma set_memory_upd_conn p c m w : set_memory m (upd_conn p c w) = upd_conn p c (set_memory m w).
Proof. done. Qed.
End Store.

(** One operation of a program, by its head. *)
Ltac wp_object := solve [eauto using lookup_upd_desc, lookup_upd_stmt, lookup_upd_conn].
Ltac wp_step :=
  lazymatch goal with
  | |- wp (op_bind _ _) _ _ => apply wp_bind
  | |- wp (op_ret _) _ _ => apply wp_ret
  | |- wp (get_desc _) _ _ => eapply wp_get_desc; [wp_object|]
  | |- wp (get_stmt _) _ _ => eapply wp_get_stmt; [wp_object|]
  | |- wp (get_conn _) _ _ => eapply wp_get_conn; [wp_object|]
  | |- wp (on_desc _ _) _ _ => eapply wp_on_desc; [wp_object|]
  | |- wp (on_stmt _ _) _ _ => eapply wp_on_stmt; [wp_object|]
  | |- wp (on_conn _ _) _ _ => eapply wp_on_conn; [wp_object|]
  | |- wp (write (Some _) _ _) _ _ => apply wp_write
  | |- wp (add_desc _ _ _) _ _ => unfold add_desc
  | |- wp (add_stmt _ _ _) _ _ => unfold add_stmt
  | |- wp (add_conn _ _ _) _ _ => unfold add_conn
  | |- wp (edit_desc _ _) _ _ => unfold edit_desc
  | |- wp (edit_stmt _ _) _ _ => unfold edit_stmt
  | |- wp (edit_conn _ _) _ _ => unfold edit_conn
  | |- wp (api_call _ _) _ _ => unfold api_call
  end;
  rewrite ?upd_desc_twice, ?upd_stmt_twice, ?upd_conn_twice.
Ltac wp_steps := repeat wp_step.

Arguments Statement Q : clear implicits.
Arguments World Q : clear implicits.
Arguments op Q A : clear implicits.
End Handles.

Declare Scope op_scope.
Delimit Scope op_scope with op.
Notation "'let*' x := m 'in' k" := (Handles.op_bind m (fun x => k))
  (at level 10, x pattern, m at level 100, k at level 200) : op_scope.
Notation "m ;; k" := (Handles.op_bind m (fun _ => k)) : op_scope.
