(* ===== verification/Descriptor.v ===== *)
(** * Descriptor: application and implementation descriptors

    Models [src/descriptor.cpp]: setting, reading and copying the fields of a
    descriptor, which descriptors a field can be read from, and the consistency
    of a data type with its concise type. A value is passed in a pointer-sized
    integer, a null pointer is 0. *)

From S2P Require Import Prelude Text Codes Memory Diagnostics AppBuffer TypeTraits Fields Handles.

Module Desc.
Import Text Memory Diag Types Fields Handles.
Local Open Scope op_scope.

Section Desc.
Context `{SqlCodes} `{FieldCodes} {Q : Type}.

Abbreviation op := (op Q).

(** ** Names, for messages *)

Definition DescTypeToString (type : DescType) : text :=
  match type with
  | ARD => txt "ARD" | APD => txt "APD" | IRD => txt "IRD" | IPD => txt "IPD"
  | UNKNOWN => txt "UNKNOWN"
  end.

Definition FieldIdToString (fieldId : Z) : text :=
  match decode (A := FieldId) fieldId with
  | Some SQL_DESC_ALLOC_TYPE => txt "SQL_DESC_ALLOC_TYPE"
  | Some SQL_DESC_ARRAY_SIZE => txt "SQL_DESC_ARRAY_SIZE"
  | Some SQL_DESC_ARRAY_STATUS_PTR => txt "SQL_DESC_ARRAY_STATUS_PTR"
  | Some SQL_DESC_BIND_OFFSET_PTR => txt "SQL_DESC_BIND_OFFSET_PTR"
  | Some SQL_DESC_BIND_TYPE => txt "SQL_DESC_BIND_TYPE"
  | Some SQL_DESC_COUNT => txt "SQL_DESC_COUNT"
  | Some SQL_DESC_ROWS_PROCESSED_PTR => txt "SQL_DESC_ROWS_PROCESSED_PTR"
  | Some SQL_DESC_AUTO_UNIQUE_VALUE => txt "SQL_DESC_AUTO_UNIQUE_VALUE"
  | Some SQL_DESC_BASE_COLUMN_NAME => txt "SQL_DESC_BASE_COLUMN_NAME"
  | Some SQL_DESC_BASE_TABLE_NAME => txt "SQL_DESC_BASE_TABLE_NAME"
  | Some SQL_DESC_CASE_SENSITIVE => txt "SQL_DESC_CASE_SENSITIVE"
  | Some SQL_DESC_CATALOG_NAME => txt "SQL_DESC_CATALOG_NAME"
  | Some SQL_DESC_CONCISE_TYPE => txt "SQL_DESC_CONCISE_TYPE"
  | Some SQL_DESC_DATA_PTR => txt "SQL_DESC_DATA_PTR"
  | Some SQL_DESC_DATETIME_INTERVAL_CODE => txt "SQL_DESC_DATETIME_INTERVAL_CODE"
  | Some SQL_DESC_DATETIME_INTERVAL_PRECISION => txt "SQL_DESC_DATETIME_INTERVAL_PRECISION"
  | Some SQL_DESC_DISPLAY_SIZE => txt "SQL_DESC_DISPLAY_SIZE"
  | Some SQL_DESC_FIXED_PREC_SCALE => txt "SQL_DESC_FIXED_PREC_SCALE"
  | Some SQL_DESC_INDICATOR_PTR => txt "SQL_DESC_INDICATOR_PTR"
  | Some SQL_DESC_LABEL => txt "SQL_DESC_LABEL" | Some SQL_DESC_LENGTH => txt "SQL_DESC_LENGTH"
  | Some SQL_DESC_LITERAL_PREFIX => txt "SQL_DESC_LITERAL_PREFIX"
  | Some SQL_DESC_LITERAL_SUFFIX => txt "SQL_DESC_LITERAL_SUFFIX"
  | Some SQL_DESC_LOCAL_TYPE_NAME => txt "SQL_DESC_LOCAL_TYPE_NAME"
  | Some SQL_DESC_NAME => txt "SQL_DESC_NAME"
  | Some SQL_DESC_NULLABLE => txt "SQL_DESC_NULLABLE"
  | Some SQL_DESC_NUM_PREC_RADIX => txt "SQL_DESC_NUM_PREC_RADIX"
  | Some SQL_DESC_OCTET_LENGTH => txt "SQL_DESC_OCTET_LENGTH"
  | Some SQL_DESC_OCTET_LENGTH_PTR => txt "SQL_DESC_OCTET_LENGTH_PTR"
  | Some SQL_DESC_PARAMETER_TYPE => txt "SQL_DESC_PARAMETER_TYPE"
  | Some SQL_DESC_PRECISION => txt "SQL_DESC_PRECISION"
  | Some SQL_DESC_ROWVER => txt "SQL_DESC_ROWVER" | Some SQL_DESC_SCALE => txt "SQL_DESC_SCALE"
  | Some SQL_DESC_SCHEMA_NAME => txt "SQL_DESC_SCHEMA_NAME"
  | Some SQL_DESC_SEARCHABLE => txt "SQL_DESC_SEARCHABLE"
  | Some SQL_DESC_TABLE_NAME => txt "SQL_DESC_TABLE_NAME"
  | Some SQL_DESC_TYPE => txt "SQL_DESC_TYPE"
  | Some SQL_DESC_TYPE_NAME => txt "SQL_DESC_TYPE_NAME"
  | Some SQL_DESC_UNNAMED => txt "SQL_DESC_UNNAMED"
  | Some SQL_DESC_UNSIGNED => txt "SQL_DESC_UNSIGNED"
  | Some SQL_DESC_UPDATABLE => txt "SQL_DESC_UPDATABLE"
  | _ => txt "UNKNOWN_FIELD_ID"
  end.

Definition SQLTypeToString (type : Z) : text :=
  match decode (A := SqlType) type with
  | Some SQL_CHAR => txt "SQL_CHAR" | Some SQL_VARCHAR => txt "SQL_VARCHAR"
  | Some SQL_LONGVARCHAR => txt "SQL_LONGVARCHAR" | Some SQL_WCHAR => txt "SQL_WCHAR"
  | Some SQL_WVARCHAR => txt "SQL_WVARCHAR" | Some SQL_WLONGVARCHAR => txt "SQL_WLONGVARCHAR"
  | Some SQL_DECIMAL => txt "SQL_DECIMAL" | Some SQL_NUMERIC => txt "SQL_NUMERIC"
  | Some SQL_SMALLINT => txt "SQL_SMALLINT" | Some SQL_INTEGER => txt "SQL_INTEGER"
  | Some SQL_REAL => txt "SQL_REAL" | Some SQL_FLOAT => txt "SQL_FLOAT"
  | Some SQL_DOUBLE => txt "SQL_DOUBLE" | Some SQL_BIT => txt "SQL_BIT"
  | Some SQL_TINYINT => txt "SQL_TINYINT" | Some SQL_BIGINT => txt "SQL_BIGINT"
  | Some SQL_TYPE_DATE => txt "SQL_TYPE_DATE" | Some SQL_TYPE_TIME => txt "SQL_TYPE_TIME"
  | Some SQL_TYPE_TIMESTAMP => txt "SQL_TYPE_TIMESTAMP"
  | Some SQL_INTERVAL_YEAR => txt "SQL_INTERVAL_YEAR"
  | Some SQL_INTERVAL_MONTH => txt "SQL_INTERVAL_MONTH"
  | Some SQL_INTERVAL_DAY => txt "SQL_INTERVAL_DAY"
  | Some SQL_INTERVAL_HOUR => txt "SQL_INTERVAL_HOUR"
  | Some SQL_INTERVAL_MINUTE => txt "SQL_INTERVAL_MINUTE"
  | Some SQL_INTERVAL_SECOND => txt "SQL_INTERVAL_SECOND"
  | Some SQL_INTERVAL_YEAR_TO_MONTH => txt "SQL_INTERVAL_YEAR_TO_MONTH"
  | Some SQL_INTERVAL_DAY_TO_HOUR => txt "SQL_INTERVAL_DAY_TO_HOUR"
  | Some SQL_INTERVAL_DAY_TO_MINUTE => txt "SQL_INTERVAL_DAY_TO_MINUTE"
  | Some SQL_INTERVAL_DAY_TO_SECOND => txt "SQL_INTERVAL_DAY_TO_SECOND"
  | Some SQL_INTERVAL_HOUR_TO_MINUTE => txt "SQL_INTERVAL_HOUR_TO_MINUTE"
  | Some SQL_INTERVAL_HOUR_TO_SECOND => txt "SQL_INTERVAL_HOUR_TO_SECOND"
  | Some SQL_INTERVAL_MINUTE_TO_SECOND => txt "SQL_INTERVAL_MINUTE_TO_SECOND"
  | Some SQL_DATETIME => txt "SQL_DATETIME" | Some SQL_INTERVAL => txt "SQL_INTERVAL"
  | Some SQL_GUID => txt "SQL_GUID"
  | _ => show_int type
  end.

Definition IntervalCodeToString (code : Z) : text :=
  match decode (A := SubCode) code with
  | Some SQL_CODE_DATE => txt "SQL_CODE_DATE" | Some SQL_CODE_TIME => txt "SQL_CODE_TIME"
  | Some SQL_CODE_TIMESTAMP => txt "SQL_CODE_TIMESTAMP"
  | Some SQL_CODE_DAY_TO_HOUR => txt "SQL_CODE_DAY_TO_HOUR"
  | Some SQL_CODE_DAY_TO_MINUTE => txt "SQL_CODE_DAY_TO_MINUTE"
  | Some SQL_CODE_DAY_TO_SECOND => txt "SQL_CODE_DAY_TO_SECOND"
  | Some SQL_CODE_HOUR => txt "SQL_CODE_HOUR"
  | Some SQL_CODE_HOUR_TO_MINUTE => txt "SQL_CODE_HOUR_TO_MINUTE"
  | Some SQL_CODE_HOUR_TO_SECOND => txt "SQL_CODE_HOUR_TO_SECOND"
  | Some SQL_CODE_MINUTE => txt "SQL_CODE_MINUTE"
  | Some SQL_CODE_MINUTE_TO_SECOND => txt "SQL_CODE_MINUTE_TO_SECOND"
  | Some SQL_CODE_SECOND => txt "SQL_CODE_SECOND"
  | Some SQL_CODE_YEAR_TO_MONTH => txt "SQL_CODE_YEAR_TO_MONTH"
  | _ => show_int code
  end.

(** ** Construction *)

Definition NewDescriptor : Descriptor :=
  MkDesc UNKNOWN None None (MkHeader ∅ None) ∅ NewStorage.

(** Members of a header replaced, in order. *)
Definition set_members (l : list (FieldId * Z)) (d : Descriptor) : Descriptor :=
  fold_left (fun d p => set_member (fst p) (snd p) d) l d.

Definition InitAppHead (implicit : bool) : Descriptor -> Descriptor :=
  set_members
    [ (SQL_DESC_ALLOC_TYPE, if implicit then SQL_DESC_ALLOC_AUTO else SQL_DESC_ALLOC_USER);
      (SQL_DESC_ARRAY_SIZE, 1); (SQL_DESC_ARRAY_STATUS_PTR, 0); (SQL_DESC_BIND_OFFSET_PTR, 0);
      (SQL_DESC_BIND_TYPE, SQL_BIND_BY_COLUMN); (SQL_DESC_COUNT, 0) ].

Definition InitImpHead : Descriptor -> Descriptor :=
  set_members
    [ (SQL_DESC_ALLOC_TYPE, SQL_DESC_ALLOC_AUTO); (SQL_DESC_ARRAY_STATUS_PTR, 0);
      (SQL_DESC_COUNT, 0); (SQL_DESC_ROWS_PROCESSED_PTR, 0) ].

(** [memset] of the header to zero. *)
Definition ZeroHeader : DescriptorHeader :=
  MkHeader (list_to_map (map (fun f => (f, 0))
    [ SQL_DESC_ALLOC_TYPE; SQL_DESC_ARRAY_SIZE; SQL_DESC_ARRAY_STATUS_PTR;
      SQL_DESC_BIND_OFFSET_PTR; SQL_DESC_BIND_TYPE; SQL_DESC_COUNT;
      SQL_DESC_ROWS_PROCESSED_PTR ])) (Some 0).

(** ** Types *)

Definition is_type (l : list SqlType) (value : Z) : bool :=
  match decode value with Some t => bool_decide (t ∈ l) | None => false end.

Definition plain_types : list SqlType :=
  [ SQL_CHAR; SQL_VARCHAR; SQL_LONGVARCHAR; SQL_WCHAR; SQL_WVARCHAR; SQL_WLONGVARCHAR;
    SQL_DECIMAL; SQL_NUMERIC; SQL_SMALLINT; SQL_INTEGER; SQL_REAL; SQL_FLOAT; SQL_DOUBLE;
    SQL_BIT; SQL_TINYINT; SQL_BIGINT ].

Definition IsValidConciseType : Z -> bool :=
  is_type (plain_types ++ [ SQL_TYPE_DATE; SQL_TYPE_TIME; SQL_TYPE_TIMESTAMP;
    SQL_INTERVAL_YEAR_TO_MONTH; SQL_INTERVAL_DAY_TO_SECOND ]).

Definition IsValidType : Z -> bool := is_type (plain_types ++ [ SQL_DATETIME; SQL_INTERVAL ]).

Definition IsValidIntervalCode (record : DescriptorRecord) (value : Z) : bool :=
  if member SQL_DESC_TYPE record =? id_of SQL_DATETIME then
    (value =? id_of SQL_CODE_DATE) || (value =? id_of SQL_CODE_TIME)
    || (value =? id_of SQL_CODE_TIMESTAMP)
  else if member SQL_DESC_TYPE record =? id_of SQL_INTERVAL then
    (value =? id_of SQL_CODE_YEAR_TO_MONTH) || (value =? id_of SQL_CODE_DAY_TO_SECOND)
  else false.

Definition assign (f : FieldId) (v : Z) (r : DescriptorRecord) : DescriptorRecord := <[f := v]> r.

(** The verbose type and the sub-code of a concise type. *)
Definition verbose (value : Z) : Z * Z :=
  match decode (A := SqlType) value with
  | Some SQL_TYPE_DATE => (id_of SQL_DATETIME, id_of SQL_CODE_DATE)
  | Some SQL_TYPE_TIME => (id_of SQL_DATETIME, id_of SQL_CODE_TIME)
  | Some SQL_TYPE_TIMESTAMP => (id_of SQL_DATETIME, id_of SQL_CODE_TIMESTAMP)
  | Some SQL_INTERVAL_YEAR_TO_MONTH => (id_of SQL_INTERVAL, id_of SQL_CODE_YEAR_TO_MONTH)
  | Some SQL_INTERVAL_DAY_TO_SECOND => (id_of SQL_INTERVAL, id_of SQL_CODE_DAY_TO_SECOND)
  | _ => (value, 0)
  end.

Definition SetConciseType (record : DescriptorRecord) (value : Z) : DescriptorRecord :=
  assign SQL_DESC_DATETIME_INTERVAL_CODE (snd (verbose value))
    (assign SQL_DESC_TYPE (fst (verbose value)) (assign SQL_DESC_CONCISE_TYPE value record)).

(** [if (b) { ... }] on a record. *)
Definition when (b : bool) (f : DescriptorRecord -> DescriptorRecord) (r : DescriptorRecord)
    : DescriptorRecord := if b then f r else r.
#[global] Arguments when !b / f r.

Definition has_code (c : SubCode) (r : DescriptorRecord) : bool :=
  member SQL_DESC_DATETIME_INTERVAL_CODE r =? id_of c.

Definition SetDescType (record : DescriptorRecord) (value : Z) : DescriptorRecord :=
  let same t := value =? id_of (t : SqlType) in
  when (same SQL_INTERVAL) (fun r =>
    let r := when (has_code SQL_CODE_YEAR_TO_MONTH r) (assign SQL_DESC_PRECISION 2) r in
    when (has_code SQL_CODE_DAY_TO_SECOND r) (assign SQL_DESC_PRECISION 6) r)
  (when (same SQL_FLOAT) (assign SQL_DESC_PRECISION 6)
  (when (same SQL_DECIMAL || same SQL_NUMERIC) (fun r =>
    assign SQL_DESC_PRECISION 15 (assign SQL_DESC_SCALE 0 r))
  (when (same SQL_DATETIME) (fun r =>
    if has_code SQL_CODE_DATE r || has_code SQL_CODE_TIME r then assign SQL_DESC_PRECISION 0 r
    else when (has_code SQL_CODE_TIMESTAMP r) (assign SQL_DESC_PRECISION 6) r)
  (when (same SQL_CHAR || same SQL_VARCHAR) (fun r =>
    assign SQL_DESC_PRECISION 0 (assign SQL_DESC_LENGTH 1 r))
  (when (negb (same SQL_DATETIME) && negb (same SQL_INTERVAL)) (fun r =>
    assign SQL_DESC_DATETIME_INTERVAL_CODE 0 (assign SQL_DESC_CONCISE_TYPE value r))
  (assign SQL_DESC_TYPE value record)))))).

(** ** The statement of a descriptor *)

Definition SafeUnbindColumn (columnIdx : Z) (s : Statement Q) : Statement Q :=
  set_bindings (delete columnIdx (columnBindings s)) s.

Definition RestoreDescriptor (type : DescType) (s : Statement Q) : Statement Q :=
  match type with
  | ARD => set_active (ardi s) (ird s) s
  | IRD => set_active (ard s) (irdi s) s
  | _ => s
  end.

(** A call of a method of the object a pointer refers to. *)
Definition on_statement (p : option positive) (f : Statement Q -> Statement Q) : op unit :=
  match p with Some s => on_stmt s f | None => op_fail NullPointer end.

Definition Deregister (p : positive) : op unit :=
  let* d := get_desc p in on_statement (desc_stmt d) (RestoreDescriptor (desc_type d)).

(** ** Setting a field *)

Definition record_at (recNum : Z) (d : Descriptor) : DescriptorRecord :=
  default ∅ (desc_records d !! recNum).

Definition set_record (recNum : Z) (r : DescriptorRecord) (d : Descriptor) : Descriptor :=
  set_records (<[recNum := r]> (desc_records d)) d.

Definition general_error (p : positive) (msg : text) : op SqlResult :=
  add_desc p SHY000_GENERAL_ERROR msg ;; op_ret AI_ERROR.

Definition InternalSetField (p : positive) (recNum fieldId buffer bufferLen : Z) : op SqlResult :=
  if (bufferLen <? 0) && (negb (bufferLen =? SQL_NTS) && negb (bufferLen =? SQL_IS_POINTER)) then
    general_error p (txt "Invalid buffer length " ++ show_int bufferLen)
  else
    (* [records_[recNum]] makes the record *)
    on_desc p (fun d => set_record recNum (record_at recNum d) d) ;;
    let* d := get_desc p in
    let record := record_at recNum d in
    let store (r : DescriptorRecord) := on_desc p (set_record recNum r) ;; op_ret AI_SUCCESS in
    match decode fieldId with
    | Some (SQL_DESC_ALLOC_TYPE | SQL_DESC_ARRAY_SIZE | SQL_DESC_ARRAY_STATUS_PTR
           | SQL_DESC_BIND_OFFSET_PTR | SQL_DESC_BIND_TYPE | SQL_DESC_COUNT
           | SQL_DESC_ROWS_PROCESSED_PTR) =>
        add_desc p SHY091_INVALID_DESCR_FIELD_ID (txt "Invalid descriptor field id") ;;
        op_ret AI_ERROR
    | Some SQL_DESC_CONCISE_TYPE =>
        let value := i16 buffer in
        if negb (IsValidConciseType value)
        then general_error p (txt "Invalid concise type " ++ SQLTypeToString value)
        else store (SetConciseType record value)
    | Some SQL_DESC_DATA_PTR =>
        if buffer =? 0 then
          on_statement (desc_stmt d) (SafeUnbindColumn (u16 recNum)) ;;
          store (assign SQL_DESC_OCTET_LENGTH 0 (assign SQL_DESC_LENGTH 0 record))
        else
          store (assign SQL_DESC_OCTET_LENGTH bufferLen
            (assign SQL_DESC_LENGTH (u64 bufferLen) (assign SQL_DESC_DATA_PTR buffer record)))
    | Some SQL_DESC_DATETIME_INTERVAL_CODE =>
        let code := i16 buffer in
        if negb (IsValidIntervalCode record code)
        then general_error p (txt "Invalid interval code " ++ IntervalCodeToString code
               ++ txt " for type " ++ SQLTypeToString (member SQL_DESC_TYPE record))
        else store (assign SQL_DESC_DATETIME_INTERVAL_CODE code record)
    | Some SQL_DESC_DATETIME_INTERVAL_PRECISION =>
        if negb (member SQL_DESC_TYPE record =? id_of SQL_INTERVAL)
        then general_error p (txt ("Interval precision could only be set when SQL_DESC_TYPE is "
               ++ "set to SQL_INTERVAL"))
        else store (assign SQL_DESC_DATETIME_INTERVAL_PRECISION (i32 buffer) record)
    | Some SQL_DESC_INDICATOR_PTR => store (assign SQL_DESC_INDICATOR_PTR buffer record)
    | Some SQL_DESC_OCTET_LENGTH_PTR => store (assign SQL_DESC_OCTET_LENGTH_PTR buffer record)
    | Some (SQL_DESC_OCTET_LENGTH | SQL_DESC_LENGTH) =>
        if is_type [ SQL_CHAR; SQL_VARCHAR; SQL_LONGVARCHAR; SQL_WCHAR; SQL_WVARCHAR;
                     SQL_WLONGVARCHAR ] (member SQL_DESC_CONCISE_TYPE record)
        then store (assign SQL_DESC_OCTET_LENGTH (i64 buffer) (assign SQL_DESC_LENGTH (u64 buffer) record))
        else general_error p (txt "SQL_DESC_LENGTH could not be set for fixed length type "
               ++ SQLTypeToString (member SQL_DESC_CONCISE_TYPE record))
    | Some SQL_DESC_TYPE =>
        let value := i16 buffer in
        if negb (IsValidType value)
        then general_error p (txt "Invalid type " ++ SQLTypeToString value)
        else store (SetDescType record value)
    | _ => general_error p (txt "Unsupported fieldId " ++ show_int fieldId)
    end.

Definition SetField (p : positive) (recNum fieldId buffer bufferLen : Z) : op unit :=
  api_call (edit_desc p) (InternalSetField p recNum fieldId buffer bufferLen).

(** ** Reading a field *)

(** Where a field is kept, the size of its type, and the descriptors that have
    it; an empty list is every descriptor. *)
Inductive place : Type := Header | InRecord.

Definition field_info (f : FieldId) : option (place * nat * list DescType) :=
  match f with
  | SQL_DESC_ALLOC_TYPE | SQL_DESC_COUNT => Some (Header, 2%nat, [])
  | SQL_DESC_ARRAY_SIZE | SQL_DESC_BIND_OFFSET_PTR => Some (Header, 8%nat, [ARD; APD])
  | SQL_DESC_ARRAY_STATUS_PTR => Some (Header, 8%nat, [])
  | SQL_DESC_BIND_TYPE => Some (Header, 4%nat, [ARD; APD])
  | SQL_DESC_ROWS_PROCESSED_PTR => Some (Header, 8%nat, [IRD; IPD])
  | SQL_DESC_AUTO_UNIQUE_VALUE => Some (InRecord, 4%nat, [IRD])
  | SQL_DESC_BASE_COLUMN_NAME | SQL_DESC_BASE_TABLE_NAME | SQL_DESC_CATALOG_NAME
  | SQL_DESC_LABEL | SQL_DESC_LITERAL_PREFIX | SQL_DESC_LITERAL_SUFFIX | SQL_DESC_SCHEMA_NAME
  | SQL_DESC_TABLE_NAME | SQL_DESC_DISPLAY_SIZE => Some (InRecord, 8%nat, [IRD])
  | SQL_DESC_SEARCHABLE | SQL_DESC_UPDATABLE => Some (InRecord, 2%nat, [IRD])
  | SQL_DESC_CASE_SENSITIVE => Some (InRecord, 4%nat, [IRD; IPD])
  | SQL_DESC_FIXED_PREC_SCALE | SQL_DESC_NULLABLE | SQL_DESC_ROWVER | SQL_DESC_UNNAMED
  | SQL_DESC_UNSIGNED => Some (InRecord, 2%nat, [IRD; IPD])
  | SQL_DESC_LOCAL_TYPE_NAME | SQL_DESC_NAME | SQL_DESC_TYPE_NAME => Some (InRecord, 8%nat, [IRD; IPD])
  | SQL_DESC_DATA_PTR | SQL_DESC_INDICATOR_PTR | SQL_DESC_OCTET_LENGTH_PTR =>
      Some (InRecord, 8%nat, [ARD; APD])
  | SQL_DESC_PARAMETER_TYPE => Some (InRecord, 2%nat, [IPD])
  | SQL_DESC_CONCISE_TYPE | SQL_DESC_DATETIME_INTERVAL_CODE | SQL_DESC_PRECISION
  | SQL_DESC_SCALE | SQL_DESC_TYPE => Some (InRecord, 2%nat, [])
  | SQL_DESC_DATETIME_INTERVAL_PRECISION | SQL_DESC_NUM_PREC_RADIX => Some (InRecord, 4%nat, [])
  | SQL_DESC_LENGTH | SQL_DESC_OCTET_LENGTH => Some (InRecord, 8%nat, [])
  | SQL_COLUMN_COUNT | SQL_COLUMN_NAME | SQL_COLUMN_LENGTH | SQL_COLUMN_PRECISION
  | SQL_COLUMN_SCALE | SQL_COLUMN_NULLABLE => None
  end.

(** The macros [ALLOWED_DESC_TYPE1] and [ALLOWED_DESC_TYPE2]. *)
Definition allowed (types : list DescType) (t : DescType) : bool :=
  match types with [] => true | _ => bool_decide (t ∈ types) end.

Definition InternalGetField (p : positive) (recNum fieldId : Z) (buffer : pointer) : op SqlResult :=
  on_desc p (fun d => set_record recNum (record_at recNum d) d) ;;
  let* d := get_desc p in
  match decode fieldId with
  | None => general_error p (txt "Unsupported fieldId " ++ show_int fieldId)
  | Some f =>
      match field_info f with
      | None => general_error p (txt "Unsupported fieldId " ++ show_int fieldId)
      | Some (place, size, types) =>
          if negb (allowed types (desc_type d)) then
            general_error p (txt "Current descriptor type " ++ DescTypeToString (desc_type d)
              ++ txt " is not allowed to get field " ++ FieldIdToString fieldId)
          else
            let value :=
              match place with
              | Header => members (desc_header d) !! f
              | InRecord => Some (member f (record_at recNum d))
              end in
            match value with
            | Some v => write buffer size v ;; op_ret AI_SUCCESS
            | None => op_fail Indeterminate
            end
      end
  end.

Definition GetField (p : positive) (recNum fieldId : Z) (buffer : pointer) : op unit :=
  api_call (edit_desc p) (InternalGetField p recNum fieldId buffer).

(** ** Copying *)

Definition InternalCopyDesc (src dst : positive) : op SqlResult :=
  let* to := get_desc dst in
  if bool_decide (desc_type to = IRD) then
    add_desc src SHY016_MODIFY_IRD (txt "Cannot modify an implementation row descriptor") ;;
    op_ret AI_ERROR
  else
    on_desc dst (fun d => set_records ∅ (set_header ZeroHeader d)) ;;
    let* from := get_desc src in
    on_desc dst (if bool_decide (desc_type from = ARD) || bool_decide (desc_type from = APD)
                 then InitAppHead true else InitImpHead) ;;
    on_desc dst (fun d => set_statement (desc_stmt from)
                            (set_connection (desc_conn from) (set_type (desc_type from) d))) ;;
    let* from := get_desc src in
    on_desc dst (set_records (desc_records from)) ;;
    op_ret AI_SUCCESS.

Definition CopyDesc (src dst : positive) : op unit :=
  api_call (edit_desc src) (InternalCopyDesc src dst).
End Desc.
End Desc.
