(* ===== verification/DescriptorFacts.v ===== *)
(** * DescriptorFacts: what setting, reading and copying a field does

    [field_set] is the specification of a successful [SetField] on one record.
    [InternalSetField] either meets it or reports an error and leaves the fields
    alone; the types of a record, and the header a read needs, are invariants of
    every operation, and a field that was set is read back. *)

From S2P Require Import Prelude Text Codes Memory Diagnostics AppBuffer Configuration TypeTraits Fields Handles Descriptor.

Module DescFacts.
Import Text Memory Diag Types Fields Handles Desc.
Local Open Scope op_scope.

Section Facts.
Context `{SqlCodes} `{FieldCodes} {Q : Type}.
Abbreviation op := (op Q).
Implicit Types (w : World Q) (d : Descriptor) (r : DescriptorRecord) (p : positive).

(** ** The specification of a set field *)

Definition char_types : list SqlType :=
  [ SQL_CHAR; SQL_VARCHAR; SQL_LONGVARCHAR; SQL_WCHAR; SQL_WVARCHAR; SQL_WLONGVARCHAR ].

Inductive field_set (v len : Z) (r : DescriptorRecord) : FieldId -> DescriptorRecord -> Prop :=
  | set_concise :
      IsValidConciseType (i16 v) = true ->
      field_set v len r SQL_DESC_CONCISE_TYPE (SetConciseType r (i16 v))
  | set_verbose :
      IsValidType (i16 v) = true -> field_set v len r SQL_DESC_TYPE (SetDescType r (i16 v))
  | set_code :
      IsValidIntervalCode r (i16 v) = true ->
      field_set v len r SQL_DESC_DATETIME_INTERVAL_CODE
        (assign SQL_DESC_DATETIME_INTERVAL_CODE (i16 v) r)
  | set_interval :
      member SQL_DESC_TYPE r = id_of SQL_INTERVAL ->
      field_set v len r SQL_DESC_DATETIME_INTERVAL_PRECISION
        (assign SQL_DESC_DATETIME_INTERVAL_PRECISION (i32 v) r)
  | set_unbound :
      v = 0 ->
      field_set v len r SQL_DESC_DATA_PTR
        (assign SQL_DESC_OCTET_LENGTH 0 (assign SQL_DESC_LENGTH 0 r))
  | set_bound :
      v <> 0 ->
      field_set v len r SQL_DESC_DATA_PTR
        (assign SQL_DESC_OCTET_LENGTH len
          (assign SQL_DESC_LENGTH (u64 len) (assign SQL_DESC_DATA_PTR v r)))
  | set_indicator :
      field_set v len r SQL_DESC_INDICATOR_PTR (assign SQL_DESC_INDICATOR_PTR v r)
  | set_octets :
      field_set v len r SQL_DESC_OCTET_LENGTH_PTR (assign SQL_DESC_OCTET_LENGTH_PTR v r)
  | set_length f :
      f = SQL_DESC_LENGTH \/ f = SQL_DESC_OCTET_LENGTH ->
      is_type char_types (member SQL_DESC_CONCISE_TYPE r) = true ->
      field_set v len r f
        (assign SQL_DESC_OCTET_LENGTH (i64 v) (assign SQL_DESC_LENGTH (u64 v) r)).

(** Two descriptors that differ in diagnostics and in one record only. *)
Record same_but (n : Z) (d d' : Descriptor) : Prop := {
  same_type : desc_type d' = desc_type d;
  same_conn : desc_conn d' = desc_conn d;
  same_stmt : desc_stmt d' = desc_stmt d;
  same_header : desc_header d' = desc_header d;
  same_records m : m <> n -> desc_records d' !! m = desc_records d !! m
}.

(** The objects a null data pointer is reported to. *)
Definition can_unbind (d : Descriptor) (w : World Q) : Prop :=
  exists s st, desc_stmt d = Some s /\ statements w !! s = Some st.

(** What an operation on the descriptor [p] leaves alone. *)
Definition others_kept (p : positive) (w w' : World Q) : Prop :=
  memory w' = memory w /\ dom (statements w') = dom (statements w) /\
  (forall p', p' <> p -> descriptors w' !! p' = descriptors w !! p').

(** The outcome of [SetField] on a record. *)
Definition set_outcome (p : positive) (n fieldId v len : Z) (d : Descriptor) (w : World Q)
    (res : SqlResult) (w' : World Q) : Prop :=
  others_kept p w w' /\
  exists d', descriptors w' !! p = Some d' /\ same_but n d d' /\
    ((res = AI_SUCCESS /\
      exists f, decode fieldId = Some f /\ field_set v len (record_at n d) f (record_at n d')) \/
     (res = AI_ERROR /\ record_at n d' = record_at n d)).

Lemma record_at_set n r d : record_at n (set_record n r d) = r.
Proof. unfold record_at, set_record. cbn. by rewrite lookup_insert_eq. Qed.

Lemma same_but_set n r d : same_but n d (set_record n r d).
Proof. split; try done. intros m Hm. cbn. by rewrite lookup_insert_ne. Qed.

Lemma same_but_diag n d d' g : same_but n d d' -> same_but n d (set_desc_diag g d').
Proof. intros []. by split. Qed.

Lemma same_but_trans n d d1 d2 : same_but n d d1 -> same_but n d1 d2 -> same_but n d d2.
Proof.
  intros [] []. split; try congruence. intros m Hm. by transitivity (desc_records d1 !! m); eauto.
Qed.

Lemma others_kept_upd p d w : others_kept p w (upd_desc p d w).
Proof. repeat split. intros p' Hp. cbn. by rewrite lookup_insert_ne. Qed.

Lemma others_kept_trans p w1 w2 w3 :
  others_kept p w1 w2 -> others_kept p w2 w3 -> others_kept p w1 w3.
Proof.
  intros (M1 & S1 & D1) (M2 & S2 & D2). repeat split; try congruence.
  intros p' Hp. rewrite D2 by done. eauto.
Qed.

Lemma others_kept_stmt p s st w :
  is_Some (statements w !! s) -> others_kept p w (upd_stmt s st w).
Proof.
  intros Hs. repeat split. cbn. apply dom_insert_lookup_L. done.
Qed.

(** ** [InternalSetField] meets it *)

(** The record [n] exists, with the fields it had. *)
Definition touched (n : Z) (d : Descriptor) : Descriptor := set_record n (record_at n d) d.

Lemma record_at_touched n d : record_at n (touched n d) = record_at n d.
Proof. apply record_at_set. Qed.

Lemma outcome_error p n fieldId v len d w g :
  set_outcome p n fieldId v len d w AI_ERROR (upd_desc p (set_desc_diag g (touched n d)) w).
Proof.
  split; [apply others_kept_upd|]. eexists. split; [apply lookup_upd_desc|].
  split; [apply same_but_diag, same_but_set|right]. split; [done|]. apply record_at_set.
Qed.

Lemma outcome_error_early p n fieldId v len d w g :
  set_outcome p n fieldId v len d w AI_ERROR (upd_desc p (set_desc_diag g d) w).
Proof.
  split; [apply others_kept_upd|]. eexists. split; [apply lookup_upd_desc|].
  split; [by apply same_but_diag|by right].
Qed.

Lemma outcome_success p n f v len d w r :
  field_set v len (record_at n d) f r ->
  set_outcome p n (id_of f) v len d w AI_SUCCESS (upd_desc p (set_record n r (touched n d)) w).
Proof.
  intros Hf. split; [apply others_kept_upd|]. eexists. split; [apply lookup_upd_desc|].
  split; [by eapply same_but_trans; apply same_but_set|left]. split; [done|].
  exists f. by rewrite decode_id_of, record_at_set.
Qed.

Lemma outcome_keeps p n fieldId v len d w1 w2 res w' :
  others_kept p w1 w2 -> set_outcome p n fieldId v len d w2 res w' ->
  set_outcome p n fieldId v len d w1 res w'.
Proof. intros Ho [Hk Hd]. split; [by eapply others_kept_trans|done]. Qed.

Lemma InternalSetField_meets p n fieldId v len d w :
  descriptors w !! p = Some d ->
  (decode fieldId = Some SQL_DESC_DATA_PTR -> v = 0 -> can_unbind d w) ->
  wp (InternalSetField p n fieldId v len) (set_outcome p n fieldId v len d w) w.
Proof.
  intros Hd Hs. unfold InternalSetField.
  destruct (_ && _); [unfold general_error; wp_steps; apply outcome_error_early|].
  wp_steps. fold (touched n d). rewrite record_at_touched.
  destruct (decode fieldId) as [f|] eqn:Ef;
    [|unfold general_error; wp_steps; apply outcome_error].
  apply decode_Some in Ef as ->.
  assert (Hset : forall r, field_set v len (record_at n d) f r ->
    wp (on_desc p (set_record n r) ;; op_ret AI_SUCCESS)
      (set_outcome p n (id_of f) v len d w) (upd_desc p (touched n d) w)).
  { intros r Hr. wp_steps. by apply outcome_success. }
  assert (Hbad : forall msg, wp (general_error p msg) (set_outcome p n (id_of f) v len d w)
    (upd_desc p (touched n d) w)).
  { intros msg. unfold general_error. wp_steps. apply outcome_error. }
  destruct f; cbv zeta; try apply Hbad; try (wp_steps; apply outcome_error).
  1, 3, 4, 9: destruct (negb _) eqn:E; [apply Hbad|apply Hset]; apply negb_false_iff in E.
  1-4: constructor; try done; by apply Z.eqb_eq.
  all: try (apply Hset; by constructor).
  2, 3: destruct (is_type _ _) eqn:E; [apply Hset; constructor; auto|apply Hbad].
  destruct (Z.eqb_spec v 0) as [->|Hv]; [|apply Hset; by constructor].
  destruct (Hs eq_refl eq_refl) as (s & st & Es & Est). wp_step.
  cbn [touched desc_stmt set_record set_records]. rewrite Es. cbn [on_statement]. wp_step.
  match goal with |- wp _ _ (upd_stmt _ ?x _) =>
    change (upd_stmt s x (upd_desc p (touched n d) w)) with
      (upd_desc p (touched n d) (upd_stmt s x w)) end.
  wp_steps. eapply outcome_keeps; [by apply others_kept_stmt|].
  apply outcome_success. by constructor.
Qed.

(** ** The types of a record *)

(** The types and sub-codes of ODBC: those of dates and intervals, and the types
    that are their own concise type, without a sub-code. *)
Definition date_and_interval_types : list (SqlType * SqlType * SubCode) :=
  [ (SQL_TYPE_DATE, SQL_DATETIME, SQL_CODE_DATE);
    (SQL_TYPE_TIME, SQL_DATETIME, SQL_CODE_TIME);
    (SQL_TYPE_TIMESTAMP, SQL_DATETIME, SQL_CODE_TIMESTAMP);
    (SQL_INTERVAL_YEAR_TO_MONTH, SQL_INTERVAL, SQL_CODE_YEAR_TO_MONTH);
    (SQL_INTERVAL_DAY_TO_SECOND, SQL_INTERVAL, SQL_CODE_DAY_TO_SECOND) ].
Definition own_types : list SqlType :=
  [ SQL_CHAR; SQL_VARCHAR; SQL_LONGVARCHAR; SQL_WCHAR; SQL_WVARCHAR; SQL_WLONGVARCHAR;
    SQL_BIT; SQL_TINYINT; SQL_SMALLINT; SQL_INTEGER; SQL_BIGINT; SQL_REAL; SQL_FLOAT; SQL_DOUBLE;
    SQL_DECIMAL; SQL_NUMERIC ].

(** The three fields belong together; in a record nothing was set in they are 0. *)
Definition coherent (r : DescriptorRecord) : Prop :=
  let concise := member SQL_DESC_CONCISE_TYPE r in
  let type := member SQL_DESC_TYPE r in
  let code := member SQL_DESC_DATETIME_INTERVAL_CODE r in
  (exists c t k, (c, t, k) ∈ date_and_interval_types /\ concise = id_of c /\ type = id_of t /\ code = id_of k) \/
  (concise = type /\ code = 0 /\ (type = 0 \/ exists t, t ∈ own_types /\ type = id_of t)).

(** The fields that can be set without touching the types. *)
Definition sets_no_type (f : FieldId) : Prop :=
  f <> SQL_DESC_TYPE /\ f <> SQL_DESC_CONCISE_TYPE /\ f <> SQL_DESC_DATETIME_INTERVAL_CODE.

Lemma member_assign f v r : member f (assign f v r) = v.
Proof. exact (f_equal (default 0) (lookup_insert_eq (M := gmap FieldId) r f v)). Qed.
Lemma member_assign_ne f g v r : f <> g -> member g (assign f v r) = member g r.
Proof. intros Hf. exact (f_equal (default 0) (lookup_insert_ne (M := gmap FieldId) r f g v Hf)). Qed.

Ltac members :=
  repeat first [rewrite member_assign | rewrite member_assign_ne by (done || congruence)].

(** Finds a type in one of the lists, or that it is not there. *)
Ltac in_list := apply (bool_decide_unpack _); vm_compute; exact I.
Ltac not_in_list := exfalso; match goal with Hin : _ ∈ _ |- _ =>
  apply (bool_decide_pack _) in Hin; vm_compute in Hin; exact Hin end.

Lemma is_type_id l v : is_type l v = true -> exists t, t ∈ l /\ v = id_of t.
Proof.
  unfold is_type. destruct (decode v) as [t|] eqn:Et; [|done]. intros Ht%bool_decide_eq_true.
  exists t. split; [done|]. by apply decode_Some in Et.
Qed.

Lemma SetConciseType_coherent r v : IsValidConciseType v = true -> coherent (SetConciseType r v).
Proof.
  intros (t & Ht & ->)%is_type_id. unfold coherent, SetConciseType. cbv zeta. members.
  unfold verbose. rewrite decode_id_of.
  destruct t; try not_in_list; cbn [fst snd];
    first [by right; split_and!; [done|done|right; eexists; split; [|done]; in_list]
          |left; do 3 eexists; split_and!; [|reflexivity..]; in_list].
Qed.

(** Comparisons of two constants. *)
Ltac decide_constants :=
  repeat match goal with
  | |- context [bool_decide ?P] =>
      let b := eval vm_compute in (bool_decide P) in change (bool_decide P) with b
  end; cbn [andb orb negb when].

Lemma SetDescType_coherent r v :
  IsValidType v = true -> v <> id_of SQL_DATETIME -> v <> id_of SQL_INTERVAL -> coherent (SetDescType r v).
Proof.
  intros (t & Ht & ->)%is_type_id Hd Hi. unfold coherent, SetDescType. cbv zeta. rewrite !eqb_id_of.
  destruct t; try not_in_list; try done; decide_constants; members; right;
    (split_and!; [done|done|right; eexists; split; [|done]; in_list]).
Qed.

Definition types_of (r : DescriptorRecord) : Z * Z * Z :=
  (member SQL_DESC_TYPE r, member SQL_DESC_DATETIME_INTERVAL_CODE r, member SQL_DESC_CONCISE_TYPE r).

Lemma field_set_keeps_types v len r f r' :
  field_set v len r f r' -> sets_no_type f -> types_of r' = types_of r.
Proof. unfold types_of. intros [] (? & ? & ?); try done; by members. Qed.

Lemma concise_SetConciseType r v : member SQL_DESC_CONCISE_TYPE (SetConciseType r v) = v.
Proof. unfold SetConciseType. by members. Qed.

Lemma member_when f b (g : DescriptorRecord -> DescriptorRecord) r :
  (forall r0, member f (g r0) = member f r0) -> member f (when b g r) = member f r.
Proof. intros Hg. by destruct b. Qed.

(** A member the steps do not assign. *)
Ltac kept := intros; cbv zeta; repeat first [case_match | rewrite member_when by kept]; by members.

Lemma type_SetDescType r v : member SQL_DESC_TYPE (SetDescType r v) = v.
Proof.
  unfold SetDescType. cbv zeta. do 6 (rewrite member_when by kept). by members.
Qed.

(** The low bytes of the member that was set. *)
Lemma field_set_bytes v len r f r' size types :
  field_set v len r f r' -> f <> SQL_DESC_DATA_PTR \/ v <> 0 ->
  field_info f = Some (InRecord, size, types) -> le_bytes size (member f r') = le_bytes size v.
Proof.
  intros Hset Hv. destruct Hset as [| | | |Hz| | | |f [->| ->]]; intros [= <- <-].
  all: try (unfold SetConciseType; members; by autorewrite with odbc_rw).
  - by rewrite type_SetDescType, le_bytes_i16.
  - by destruct Hv.
Qed.

(** ** Reading *)

(** Every header member that a descriptor of its type can be asked for was set. *)
Definition header_ok (d : Descriptor) : Prop :=
  forall f size types, field_info f = Some (Header, size, types) ->
    allowed types (desc_type d) = true -> is_Some (members (desc_header d) !! f).

(** What reading a member of a record stores. *)
Lemma InternalGetField_record p n f a d w size types :
  descriptors w !! p = Some d -> field_info f = Some (InRecord, size, types) ->
  allowed types (desc_type d) = true ->
  InternalGetField p n (id_of f) (Some a) w =
    Ok (set_memory (store a (le_bytes size (member f (record_at n d))) (memory w))
          (upd_desc p (touched n d) w), AI_SUCCESS).
Proof.
  intros Hd Hf Ha. unfold InternalGetField, on_desc, op_bind, get_desc, put_desc, found.
  rewrite Hd, decode_id_of, Hf. cbn. rewrite lookup_insert_eq. cbn. rewrite Ha. cbn.
  fold (touched n d). by rewrite record_at_touched.
Qed.

(** Reading never fails, and changes the memory and the diagnostics only. *)
Lemma InternalGetField_total p n fieldId a d w :
  descriptors w !! p = Some d -> header_ok d ->
  wp (InternalGetField p n fieldId (Some a)) (fun _ w' =>
    statements w' = statements w /\
    exists g, descriptors w' = <[p := set_desc_diag g (touched n d)]> (descriptors w)) w.
Proof.
  intros Hd Hok. unfold InternalGetField. wp_steps. fold (touched n d).
  assert (Hbad : forall msg, wp (general_error p msg) (fun _ w' =>
    statements w' = statements w /\
    exists g, descriptors w' = <[p := set_desc_diag g (touched n d)]> (descriptors w))
    (upd_desc p (touched n d) w)).
  { intros msg. unfold general_error. wp_steps. split; [done|]. by eexists. }
  destruct (decode fieldId) as [f|]; [|apply Hbad].
  destruct (field_info f) as [[[pl size] types]|] eqn:Ef; [|apply Hbad].
  destruct (negb _) eqn:Ea; [apply Hbad|]. apply negb_false_iff in Ea.
  assert (Hv : exists v, match pl with
      | Header => members (desc_header (touched n d)) !! f
      | InRecord => Some (member f (record_at n (touched n d)))
      end = Some v).
  { destruct pl; [|by eexists]. destruct (Hok f size types Ef Ea) as [v Hv]. by exists v. }
  destruct Hv as [v ->]. wp_steps. split; [done|]. exists (desc_diag d). by destruct d.
Qed.

Lemma header_ok_touched n d g : header_ok d -> header_ok (set_desc_diag g (touched n d)).
Proof. done. Qed.

(** ** Copying *)

Lemma lookup_set_members f l d :
  members (desc_header (set_members l d)) !! f = None ->
  members (desc_header d) !! f = None.
Proof.
  unfold set_members. revert d. induction l as [|[g v] l IH]; intros d; [done|].
  cbn. intros E%IH. cbn in E. by apply lookup_insert_None in E as [E _].
Qed.

Lemma ZeroHeader_full f size types :
  field_info f = Some (Header, size, types) -> is_Some (members ZeroHeader !! f).
Proof. destruct f; try discriminate; intros _; by eexists. Qed.

(** A descriptor whose header was zeroed first has every member. *)
Lemma header_ok_copy l t c s (rs : gmap Z DescriptorRecord) d :
  header_ok (set_records rs (set_statement s (set_connection c (set_type t
    (set_members l (set_records ∅ (set_header ZeroHeader d))))))).
Proof.
  intros f size types Hf _. cbn. destruct (members _ !! f) eqn:E; [done|].
  apply lookup_set_members in E. destruct (ZeroHeader_full f size types Hf) as [v Hv].
  by assert (Some v = None) by (rewrite <- Hv; exact E).
Qed.

(** ** Calls of an application *)

Inductive call : Type :=
  | CallSet (p : positive) (n fieldId v len : Z)
  | CallGet (p : positive) (n fieldId : Z) (a : Z)
  | CallCopy (src dst : positive).

Definition exec (c : call) : op unit :=
  match c with
  | CallSet p n fieldId v len => SetField p n fieldId v len
  | CallGet p n fieldId a => GetField p n fieldId (Some a)
  | CallCopy src dst => CopyDesc src dst
  end.

(** The handles of the call are descriptors; a null data pointer is set only on
    a descriptor that was attached to a statement. *)
Definition enabled (c : call) (w : World Q) : Prop :=
  match c with
  | CallSet p _ fieldId v _ =>
      exists d, descriptors w !! p = Some d /\
        (decode fieldId = Some SQL_DESC_DATA_PTR -> v = 0 -> is_Some (desc_stmt d))
  | CallGet p _ _ _ => is_Some (descriptors w !! p)
  | CallCopy src dst => is_Some (descriptors w !! src) /\ is_Some (descriptors w !! dst)
  end.

Definition desc_ok (w : World Q) (d : Descriptor) : Prop :=
  header_ok d /\ forall s, desc_stmt d = Some s -> s ∈ dom (statements w).

Definition descs_ok (w : World Q) : Prop :=
  forall p d, descriptors w !! p = Some d -> desc_ok w d.

Lemma desc_ok_mono w w' d : dom (statements w') = dom (statements w) -> desc_ok w d -> desc_ok w' d.
Proof. intros E [Hh Hs]. split; [done|]. rewrite E. auto. Qed.

Lemma descs_ok_eq w w' :
  descriptors w' = descriptors w -> statements w' = statements w -> descs_ok w -> descs_ok w'.
Proof. intros Ed Es Hw p d. rewrite Ed. intros E. apply (desc_ok_mono w); [by rewrite Es|]. eauto. Qed.

Lemma descs_ok_upd w p d : descs_ok w -> desc_ok w d -> descs_ok (upd_desc p d w).
Proof.
  intros Hw Hd p' d'. cbn. destruct (decide (p' = p)) as [->|Hp].
  - rewrite lookup_insert_eq. by intros [= <-].
  - rewrite lookup_insert_ne by done. eauto.
Qed.

(** The outer half of an operation: its diagnostics. *)
Lemma wp_edit_desc p f w :
  descs_ok w -> is_Some (descriptors w !! p) ->
  wp (edit_desc p f) (fun _ w' => descs_ok w' /\ statements w' = statements w /\
    exists d, descriptors w !! p = Some d /\
      descriptors w' = <[p := set_desc_diag (f (desc_diag d)) d]> (descriptors w)) w.
Proof.
  intros Hw [d Hd]. wp_steps. split; [|split; [done|by exists d]].
  apply descs_ok_upd; [done|]. by apply (Hw p d).
Qed.

Lemma wp_api_desc p (body : op SqlResult) w :
  descs_ok w -> is_Some (descriptors w !! p) ->
  (forall w1 d g, descs_ok w1 -> statements w1 = statements w -> descriptors w !! p = Some d ->
    descriptors w1 = <[p := set_desc_diag g d]> (descriptors w) ->
    wp body (fun _ w2 => descs_ok w2 /\ dom (statements w2) = dom (statements w) /\
      dom (descriptors w2) = dom (descriptors w)) w1) ->
  wp (api_call (edit_desc p) body) (fun _ w' => descs_ok w' /\
    dom (statements w') = dom (statements w) /\ dom (descriptors w') = dom (descriptors w)) w.
Proof.
  intros Hw Hp Hbody. unfold api_call. wp_step. eapply wp_mono; [|by apply wp_edit_desc].
  intros _ w1 (H1 & Es & d & Hd & Ed). wp_step.
  eapply wp_mono; [|by eapply (Hbody w1 d)].
  intros r w2 (H2 & Ds & Dd). eapply wp_mono; [|apply wp_edit_desc; [done|]].
  - intros _ w3 (H3 & Es3 & d3 & Hd3 & Ed3). split; [done|]. rewrite Es3, Ed3. split; [done|].
    rewrite dom_insert_lookup_L by (by rewrite Hd3). done.
  - apply elem_of_dom. rewrite Dd. by apply elem_of_dom.
Qed.

(** ** The calls keep the state sound *)

Lemma can_unbind_ok d w :
  desc_ok w d -> is_Some (desc_stmt d) -> can_unbind d w.
Proof. intros [_ Hs] [s Es]. destruct (proj1 (elem_of_dom _ _) (Hs s Es)) as [st Est]. by exists s, st. Qed.

Lemma set_outcome_ok p n fieldId v len d w res w' :
  descs_ok w -> descriptors w !! p = Some d -> set_outcome p n fieldId v len d w res w' ->
  descs_ok w' /\ dom (statements w') = dom (statements w) /\
  dom (descriptors w') = dom (descriptors w).
Proof.
  intros Hw Hd ((Hm & Hs & Ho) & d' & Hd' & [Et _ Est Eh _] & _). destruct (Hw p d Hd) as [H1 H2].
  split; [|split; [done|]].
  - intros p' d1. destruct (decide (p' = p)) as [->|Hp].
    + rewrite Hd'. intros [= <-]. split; [|rewrite Hs, Est; apply H2].
      intros f size types. rewrite Et, Eh. apply H1.
    + rewrite Ho by done. intros E. by apply (desc_ok_mono w), (Hw p').
  - apply set_eq. intros p'. rewrite !elem_of_dom. destruct (decide (p' = p)) as [->|Hp].
    + by rewrite Hd, Hd'.
    + by rewrite Ho.
Qed.

Lemma InternalCopyDesc_ok src dst w :
  descs_ok w -> is_Some (descriptors w !! src) -> is_Some (descriptors w !! dst) ->
  wp (InternalCopyDesc src dst) (fun _ w' => descs_ok w' /\
    dom (statements w') = dom (statements w) /\ dom (descriptors w') = dom (descriptors w)) w.
Proof.
  intros Hw [from Hfrom] [to Hto]. unfold InternalCopyDesc. wp_steps.
  case_bool_decide.
  { wp_steps. split; [apply descs_ok_upd; [done|exact (Hw src from Hfrom)]|].
    split; [done|]. cbn. by rewrite dom_insert_lookup_L. }
  wp_steps. set (to0 := set_records _ _). set (w0 := upd_desc dst to0 w).
  assert (Hsrc : exists from', descriptors w0 !! src = Some from' /\
      forall s, desc_stmt from' = Some s -> s ∈ dom (statements w)).
  { cbn. destruct (decide (src = dst)) as [->|]; [rewrite lookup_insert_eq|rewrite lookup_insert_ne by done].
    - exists to0. split; [done|]. exact (proj2 (Hw dst to Hto)).
    - exists from. split; [done|]. exact (proj2 (Hw src from Hfrom)). }
  destruct Hsrc as (from' & Hf' & Hst). eapply wp_get_desc; [exact Hf'|].
  assert (Hinit : exists l, (if bool_decide (desc_type from' = ARD) || bool_decide (desc_type from' = APD)
      then InitAppHead true else InitImpHead) = set_members l) by (case_match; by eexists).
  destruct Hinit as [l ->]. subst w0. wp_steps.
  set (to1 := set_statement _ _).
  assert (Hsrc : exists from'', descriptors (upd_desc dst to1 w) !! src = Some from'').
  { cbn. destruct (decide (src = dst)) as [->|]; [rewrite lookup_insert_eq|rewrite lookup_insert_ne by done];
      by eexists. }
  destruct Hsrc as [from'' Hf''].
  eapply wp_get_desc; [exact Hf''|]. wp_steps.
  split; [|split; [done|]].
  - apply descs_ok_upd; [done|]. split; [|exact Hst]. apply header_ok_copy.
  - cbn. by rewrite dom_insert_lookup_L.
Qed.

Lemma exec_ok c w :
  descs_ok w -> enabled c w ->
  wp (exec c) (fun _ w' => descs_ok w' /\ dom (statements w') = dom (statements w) /\
    dom (descriptors w') = dom (descriptors w)) w.
Proof.
  intros Hw Hc.
  assert (Hdom : forall p d g w1, descriptors w !! p = Some d ->
    descriptors w1 = <[p := set_desc_diag g d]> (descriptors w) ->
    dom (descriptors w1) = dom (descriptors w)).
  { intros p d g w1 Hd ->. by rewrite dom_insert_lookup_L. }
  destruct c as [p n fieldId v len|p n fieldId a|src dst]; cbn [exec enabled] in *.
  - destruct Hc as (d & Hd & Hv). apply wp_api_desc; [done|by exists d|].
    intros w1 d1 g H1 Es Hd1 Ed. rewrite Hd in Hd1. injection Hd1 as <-.
    assert (E : descriptors w1 !! p = Some (set_desc_diag g d)) by (rewrite Ed; apply lookup_insert_eq).
    eapply wp_mono; [|apply (InternalSetField_meets p n fieldId v len (set_desc_diag g d) w1 E)].
    + intros r w2 Ho. destruct (set_outcome_ok _ _ _ _ _ _ _ _ _ H1 E Ho) as (? & -> & ->).
      rewrite Es. eauto.
    + intros Hf Hv0. apply can_unbind_ok; [by apply (H1 p)|]. by apply Hv.
  - apply wp_api_desc; [done..|]. intros w1 d g H1 Es Hd Ed.
    assert (E : descriptors w1 !! p = Some (set_desc_diag g d)) by (rewrite Ed; apply lookup_insert_eq).
    eapply wp_mono; [|apply (InternalGetField_total p n fieldId a _ w1 E), (H1 p _ E)].
    intros r w2 (Es2 & g' & Ed2). rewrite Es2, Es. split; [|split; [done|]].
    + apply (descs_ok_eq (upd_desc p (set_desc_diag g' (touched n (set_desc_diag g d))) w1)); [done..|].
      apply descs_ok_upd; [done|]. exact (H1 p _ E).
    + rewrite Ed2. rewrite dom_insert_lookup_L by (by eexists). eauto.
  - destruct Hc as [Hsrc Hdst]. apply wp_api_desc; [done..|]. intros w1 d g H1 Es Hd Ed.
    eapply wp_mono; [|apply InternalCopyDesc_ok; [done|rewrite Ed..]].
    + intros r w2 (? & -> & ->). rewrite Es. eauto.
    + rewrite lookup_insert_eq. by eexists.
    + by apply lookup_insert_is_Some'; right.
Qed.
End Facts.

(** C32. A field of a record that [SetField] accepted, other than a null data
    pointer: [GetField] gives it back at the width of its type where a descriptor of
    this kind has the field; on an implementation descriptor, which accepts the
    pointers to the data and to the lengths but does not have them, it answers with
    an error and writes nothing. *)
Theorem SetField_GetField `{SqlCodes} `{FieldCodes} {Q} (w w1 : World Q) p d n f v len a size types :
  descriptors w !! p = Some d ->
  InternalSetField p n (id_of f) v len w = Ok (w1, AI_SUCCESS) ->
  f <> SQL_DESC_DATA_PTR \/ v <> 0 ->
  field_info f = Some (InRecord, size, types) ->
  exists w2 res, InternalGetField p n (id_of f) (Some a) w1 = Ok (w2, res) /\
    if allowed types (desc_type d) then res = AI_SUCCESS /\ load a size (memory w2) = le_bytes size v
    else res = AI_ERROR /\ memory w2 = memory w1.
Proof.
  intros Hd Hrun Hv Hf.
  assert (Ho : set_outcome p n (id_of f) v len d w AI_SUCCESS w1).
  { pose proof (InternalSetField_meets p n (id_of f) v len d w Hd) as Hw. unfold wp in Hw.
    rewrite Hrun in Hw. apply Hw. rewrite decode_id_of. intros [= ->]. by destruct Hv. }
  destruct Ho as (_ & d' & Hd' & [Et _ _ _ _] & [(_ & f' & Ef & Hset)|[[=] _]]).
  rewrite decode_id_of in Ef. injection Ef as <-. destruct (allowed types (desc_type d)) eqn:Ha.
  - do 2 eexists. split; [eapply InternalGetField_record; [done|done|by rewrite Et]|]. split; [done|].
    cbn. rewrite load_store_n by (by rewrite length_le_bytes).
    by eapply field_set_bytes.
  - apply (proj1 (wp_run _ (fun res w2 => res = AI_ERROR /\ memory w2 = memory w1) _)).
    unfold InternalGetField. rewrite decode_id_of, Hf. wp_steps. cbn [desc_type set_record set_records].
    rewrite Et, Ha. cbn [negb]. unfold general_error. by wp_steps.
Qed.

(** C33. [SetField] always answers, except to a null data pointer set on a
    descriptor without a statement. A successful call that sets the concise type, or
    the type to one that is neither a date nor an interval, stores it and leaves the
    type, the concise type and the sub-code of the record as ODBC has them together.
    A call that sets another field than these three, and a call that ends in an error,
    change none of the three. Nothing is said of the sub-code set by itself, nor of
    the types [SQL_DATETIME] and [SQL_INTERVAL], which leave the concise type of
    before. *)
Theorem SetField_coherent `{SqlCodes} `{FieldCodes} {Q} (w : World Q) p d n fieldId v len :
  descriptors w !! p = Some d ->
  (decode fieldId = Some SQL_DESC_DATA_PTR -> v = 0 -> can_unbind d w) ->
  exists w' res d', InternalSetField p n fieldId v len w = Ok (w', res) /\
    descriptors w' !! p = Some d' /\
    let r := record_at n d in
    let r' := record_at n d' in
    (fieldId = id_of SQL_DESC_CONCISE_TYPE -> res = AI_SUCCESS ->
     member SQL_DESC_CONCISE_TYPE r' = i16 v /\ coherent r') /\
    (fieldId = id_of SQL_DESC_TYPE -> res = AI_SUCCESS ->
     member SQL_DESC_TYPE r' = i16 v /\
     (i16 v <> id_of SQL_DATETIME -> i16 v <> id_of SQL_INTERVAL -> coherent r')) /\
    (res = AI_ERROR \/ (exists f, decode fieldId = Some f /\ sets_no_type f) -> types_of r' = types_of r).
Proof.
  intros Hd Hs. destruct (proj1 (wp_run _ _ _) (InternalSetField_meets p n fieldId v len d w Hd Hs))
    as (w' & res & Hrun & _ & d' & Hd' & _ & Hset).
  exists w', res, d'. split; [done|]. split; [done|]. cbv zeta.
  destruct Hset as [(-> & f & Ef & Hf)|[-> ->]]; [|by split_and!].
  split_and!.
  - intros -> _. rewrite decode_id_of in Ef. injection Ef as <-. inversion Hf; subst; [|by intuition discriminate].
    split; [by apply concise_SetConciseType|by apply SetConciseType_coherent].
  - intros -> _. rewrite decode_id_of in Ef. injection Ef as <-. inversion Hf; subst; [|by intuition discriminate].
    split; [apply type_SetDescType|]. intros. by apply SetDescType_coherent.
  - intros [[=]|(f' & Ef' & Hn)]. rewrite Ef in Ef'. injection Ef' as <-. by apply (field_set_keeps_types _ _ _ _ _ Hf Hn).
Qed.

(** ** A run *)

(** A row descriptor of the application at address 1, attached to no statement. *)
Definition sample `{FieldCodes} : World Empty_set :=
  MkWorld (fun _ => 0) 0 [] ∅ ∅ ∅
    {[ 1%positive := InitAppHead false (set_type ARD NewDescriptor) ]}.

Lemma SetField_GetField_witness :
  exists w1, @InternalSetField HeaderCodes HeaderFields _ 1 3 1009 (5 * 2 ^ 32 + 7) 0
      (@sample HeaderFields) = Ok (w1, AI_SUCCESS) /\
    exists w2, @InternalGetField HeaderFields _ 1 3 1009 (Some 64) w1 = Ok (w2, AI_SUCCESS) /\
    load 64 8 (memory w2) = [7; 0; 0; 0; 5; 0; 0; 0].
Proof.
  destruct (answer_run (@InternalSetField HeaderCodes HeaderFields _ 1 3 1009 (5 * 2 ^ 32 + 7) 0)
    (@sample HeaderFields) AI_SUCCESS eq_refl) as [w1 E1].
  exists w1. split; [exact E1|].
  destruct (@SetField_GetField HeaderCodes HeaderFields _ (@sample HeaderFields) w1 1 _ 3
    SQL_DESC_INDICATOR_PTR (5 * 2 ^ 32 + 7) 0 64 8 [ARD; APD] eq_refl E1 ltac:(by left) eq_refl)
    as (w2 & res & E2 & Hr).
  vm_compute (allowed _ _) in Hr. destruct Hr as [-> Hl]. exists w2. split; [exact E2|exact Hl].
Defined.

Lemma SetField_coherent_witness :
  exists w' d', @InternalSetField HeaderCodes HeaderFields _ 1 3 2 91 0 (@sample HeaderFields) =
      Ok (w', AI_SUCCESS) /\
    descriptors w' !! 1%positive = Some d' /\ @coherent HeaderCodes HeaderFields (record_at 3 d') /\
    member SQL_DESC_CONCISE_TYPE (record_at 3 d') = 91.
Proof.
  destruct (@SetField_coherent HeaderCodes HeaderFields _ (@sample HeaderFields) 1 _ 3 2 91 0 eq_refl)
    as (w' & res & d' & Hrun & Hd & Hc); [discriminate|].
  assert (Hres : res = AI_SUCCESS).
  { apply run_answer in Hrun.
    assert (E : answer (@InternalSetField HeaderCodes HeaderFields _ 1 3 2 91 0) (@sample HeaderFields)
      = Some AI_SUCCESS) by reflexivity.
    rewrite Hrun in E. by injection E. }
  subst res. exists w', d'. split; [exact Hrun|]. split; [exact Hd|].
  destruct (proj1 Hc eq_refl eq_refl) as [Hv Hco]. split; [exact Hco|].
  exact Hv.
Defined.

End DescFacts.
