(* ===== verification/Connection.v ===== *)
(** * Connection: attributes, options and cursor names of a connection

    Models the part of [src/connection.cpp] that does not talk to the service:
    the attributes of the connection, the statement options it remembers, the
    explicit descriptors, the names of the cursors, and its release. *)

From S2P Require Import Prelude Text Codes Memory Diagnostics Environment ConnectionInfo Configuration Fields Attributes Handles Descriptor.

Module Connections.
Import Text Memory Diag Fields Attrs Handles.
Local Open Scope op_scope.

Section Connections.
Context `{OdbcConstants} `{FieldCodes} `{AttributeCodes} {Q : Type}.

Abbreviation op := (op Q).

Definition DefaultStmtAttr : StatementAttributes :=
  MkAttributes SQL_PARAM_BIND_BY_COLUMN SQL_CONCUR_READ_ONLY SQL_CURSOR_FORWARD_ONLY SQL_RD_OFF 1 1.

Definition NewConnection (env : positive) (config : Config.Configuration) (info : Info.ConnectionInfo)
    : Connection :=
  MkConn env true false config info false ∅ ∅ DefaultStmtAttr NewStorage.

(** ** Release *)

Definition Close (p : positive) : op unit := on_conn p (set_client false).

Definition InternalRelease (p : positive) : op SqlResult :=
  let* c := get_conn p in
  if negb (client_ c) then
    add_conn p S08003_NOT_CONNECTED (txt "Connection is not open.") ;;
    Close p ;;
    op_ret AI_SUCCESS_WITH_INFO
  else Close p ;; op_ret AI_SUCCESS.

Definition Release (p : positive) : op unit := api_call (edit_conn p) (InternalRelease p).

(** [Deregister]: the environment forgets the connection. *)
Definition Deregister (p : positive) : op unit :=
  let* c := get_conn p in
  fun w => match environments w !! env_ c with
           | Some e => Ok (set_environments (<[env_ c := Env.DeregisterConnection p e]> (environments w)) w, tt)
           | None => Err Dangling
           end.

(** The version is read through [GetAttribute] of the environment, a call of its
    own on the diagnostics of the environment. *)
Definition GetEnvODBCVer (p : positive) : op Z :=
  let* c := get_conn p in
  fun w => match environments w !! env_ c with
           | Some e =>
               let '(e, out) := Env.GetAttribute SQL_ATTR_ODBC_VERSION e in
               match out with
               | PutInt32 v => Ok (set_environments (<[env_ c := e]> (environments w)) w, i32 v)
               | _ => Err Indeterminate
               end
           | None => Err Dangling
           end.

(** ** Attributes *)

Definition not_supported (p : positive) : op SqlResult :=
  add_conn p SHYC00_OPTIONAL_FEATURE_NOT_IMPLEMENTED (txt "Specified attribute is not supported.") ;;
  op_ret AI_ERROR.

(** A length the caller may not want. *)
Definition write_opt (p : pointer) (n : nat) (v : Z) : op unit :=
  match p with Some _ => write p n v | None => op_ret tt end.

Definition put_uint (buf valueLen : pointer) (v : Z) : op SqlResult :=
  write buf 4 v ;; write_opt valueLen 4 SQL_IS_INTEGER ;; op_ret AI_SUCCESS.

(** [SQL_ATTR_CONNECTION_DEAD] falls through to the next case. *)
Definition InternalGetAttribute (p : positive) (attr : Z) (buf valueLen : pointer) : op SqlResult :=
  match buf with
  | None =>
      add_conn p SHY009_INVALID_USE_OF_NULL_POINTER (txt "Data buffer is null.") ;;
      op_ret AI_ERROR
  | Some _ =>
      let* c := get_conn p in
      match decode attr with
      | Some SQL_ATTR_CONNECTION_DEAD =>
          put_uint buf valueLen (if client_ c then SQL_CD_FALSE else SQL_CD_TRUE) ;;
          put_uint buf valueLen 0
      | Some SQL_ATTR_CONNECTION_TIMEOUT => put_uint buf valueLen 0
      | Some SQL_ATTR_AUTOCOMMIT =>
          put_uint buf valueLen (if autoCommit_ c then SQL_AUTOCOMMIT_ON else SQL_AUTOCOMMIT_OFF)
      | Some SQL_ATTR_METADATA_ID =>
          put_uint buf valueLen (if metadataID_ c then SQL_TRUE else SQL_FALSE)
      | Some SQL_ATTR_AUTO_IPD => put_uint buf valueLen 0
      | Some SQL_ATTR_ASYNC_ENABLE => put_uint buf valueLen SQL_ASYNC_ENABLE_OFF
      | Some SQL_ATTR_SWLOG_DEBUG =>
          let* level := (fun w => Ok (w, log_level w)) in put_uint buf valueLen level
      | _ => not_supported p
      end
  end.

Definition GetAttribute (p : positive) (attr : Z) (buf valueLen : pointer) : op unit :=
  api_call (edit_conn p) (InternalGetAttribute p attr buf valueLen).

Definition InternalSetAttribute (p : positive) (attr value : Z) : op SqlResult :=
  match decode attr with
  | Some SQL_ATTR_CONNECTION_DEAD =>
      add_conn p SHY092_OPTION_TYPE_OUT_OF_RANGE (txt "Attribute is read only.") ;; op_ret AI_ERROR
  | Some SQL_ATTR_AUTOCOMMIT =>
      let mode := u32 value in
      if negb (mode =? SQL_AUTOCOMMIT_ON) && negb (mode =? SQL_AUTOCOMMIT_OFF) then not_supported p
      else on_conn p (set_autoCommit (mode =? SQL_AUTOCOMMIT_ON)) ;; op_ret AI_SUCCESS
  | Some SQL_ATTR_METADATA_ID =>
      let id := u32 value in
      if negb (id =? SQL_TRUE) && negb (id =? SQL_FALSE) then
        add_conn p SHY024_INVALID_ATTRIBUTE_VALUE (txt "Invalid argument value") ;; op_ret AI_ERROR
      else on_conn p (set_metadataID (negb (id =? 0))) ;; op_ret AI_SUCCESS
  | Some SQL_ATTR_ANSI_APP =>
      add_conn p SHY000_GENERAL_ERROR (txt "Same behavior for ANSI and Unicode applications.") ;;
      op_ret AI_ERROR
  | Some SQL_ATTR_SWLOG_DEBUG => (fun w => Ok (set_log_level (i32 value) w, tt)) ;; op_ret AI_SUCCESS
  | _ => not_supported p
  end.

Definition SetAttribute (p : positive) (attr value : Z) : op unit :=
  api_call (edit_conn p) (InternalSetAttribute p attr value).

(** ** Options of ODBC 2 *)

Definition set_stmt_option (a : Attribute) (v : Z) (s : StatementAttributes) : StatementAttributes :=
  match a with
  | SQL_ATTR_ROW_BIND_TYPE => MkAttributes v (concurrency s) (cursorType s) (retrieveData s) (rowsetSize s) (rowArraySize s)
  | SQL_ATTR_CONCURRENCY => MkAttributes (bindType s) v (cursorType s) (retrieveData s) (rowsetSize s) (rowArraySize s)
  | SQL_ATTR_CURSOR_TYPE => MkAttributes (bindType s) (concurrency s) v (retrieveData s) (rowsetSize s) (rowArraySize s)
  | SQL_ATTR_RETRIEVE_DATA => MkAttributes (bindType s) (concurrency s) (cursorType s) v (rowsetSize s) (rowArraySize s)
  | SQL_ROWSET_SIZE => MkAttributes (bindType s) (concurrency s) (cursorType s) (retrieveData s) v (rowArraySize s)
  | _ => s
  end.

Definition ignored (p : positive) : op SqlResult :=
  add_conn p S01000_GENERAL_WARNING (txt "Specified attribute is ignored.") ;;
  op_ret AI_SUCCESS_WITH_INFO.

Definition not_implemented (p : positive) (msg : string) : op SqlResult :=
  add_conn p SHYC00_OPTIONAL_FEATURE_NOT_IMPLEMENTED (txt msg) ;; op_ret AI_ERROR.

(** An option with one value the driver can do. *)
Definition only (p : positive) (a : Attribute) (value wanted : Z) (msg : string) : op SqlResult :=
  if negb (value =? wanted) then not_implemented p msg
  else on_conn p (fun c => set_stmtAttr (set_stmt_option a value (stmtAttr_ c)) c) ;; op_ret AI_SUCCESS.

Definition InternalSetStmtAttribute (p : positive) (option value : Z) : op SqlResult :=
  match decode option with
  | Some SQL_ATTR_ROW_BIND_TYPE =>
      only p SQL_ATTR_ROW_BIND_TYPE value SQL_BIND_BY_COLUMN "Only binding by column is currently supported"
  | Some SQL_ATTR_CONCURRENCY =>
      only p SQL_ATTR_CONCURRENCY value SQL_CONCUR_READ_ONLY "Only read-only cursors are supported"
  | Some SQL_ATTR_CURSOR_TYPE =>
      only p SQL_ATTR_CURSOR_TYPE value SQL_CURSOR_FORWARD_ONLY "Only forward cursors are currently supported"
  | Some SQL_ATTR_RETRIEVE_DATA =>
      only p SQL_ATTR_RETRIEVE_DATA value SQL_RD_ON
        "SQLFetch can only retrieve data after it positions the cursor"
  | Some SQL_ROWSET_SIZE =>
      on_conn p (fun c => set_stmtAttr (set_stmt_option SQL_ROWSET_SIZE value (stmtAttr_ c)) c) ;;
      op_ret AI_SUCCESS
  | Some (SQL_NOSCAN | SQL_QUERY_TIMEOUT | SQL_MAX_ROWS | SQL_MAX_LENGTH | SQL_KEYSET_SIZE
         | SQL_ATTR_ASYNC_ENABLE) => ignored p
  | _ => not_implemented p "Specified attribute is not supported"
  end.

Definition SetStmtAttribute (p : positive) (option value : Z) : op unit :=
  api_call (edit_conn p) (InternalSetStmtAttribute p option value).

Definition InternalSetConnectOption (p : positive) (option value : Z) : op SqlResult :=
  match decode option with
  | Some (SQL_ATTR_ASYNC_ENABLE | SQL_ATTR_ROW_BIND_TYPE | SQL_ATTR_CONCURRENCY
         | SQL_ATTR_CURSOR_TYPE | SQL_KEYSET_SIZE | SQL_MAX_LENGTH | SQL_MAX_ROWS | SQL_NOSCAN
         | SQL_QUERY_TIMEOUT | SQL_ATTR_RETRIEVE_DATA | SQL_ROWSET_SIZE | SQL_SIMULATE_CURSOR
         | SQL_USE_BOOKMARKS) => InternalSetStmtAttribute p option value
  | Some (SQL_TRANSLATE_DLL | SQL_TRANSLATE_OPTION | SQL_TXN_ISOLATION | SQL_ACCESS_MODE
         | SQL_CURRENT_QUALIFIER | SQL_PACKET_SIZE | SQL_QUIET_MODE | SQL_LOGIN_TIMEOUT) => ignored p
  | _ => InternalSetAttribute p option value
  end.

Definition SetConnectOption (p : positive) (option value : Z) : op unit :=
  api_call (edit_conn p) (InternalSetConnectOption p option value).

Definition InternalGetConnectOption (p : positive) (option : Z) (value : pointer) : op SqlResult :=
  match decode option with
  | Some (SQL_TRANSLATE_DLL | SQL_TRANSLATE_OPTION | SQL_QUERY_TIMEOUT | SQL_ACCESS_MODE
         | SQL_TXN_ISOLATION | SQL_CURRENT_QUALIFIER | SQL_PACKET_SIZE | SQL_QUIET_MODE
         | SQL_LOGIN_TIMEOUT) => ignored p
  | _ => InternalGetAttribute p option value None
  end.

Definition GetConnectOption (p : positive) (option : Z) (value : pointer) : op unit :=
  api_call (edit_conn p) (InternalGetConnectOption p option value).

(** ** Descriptors *)

(** [fresh] is an address no descriptor has. *)
Definition InternalCreateDescriptor (p fresh : positive) : op SqlResult :=
  (fun w => Ok (set_descriptors
     (<[fresh := Desc.InitAppHead false (set_connection (Some p) Desc.NewDescriptor)]> (descriptors w)) w, tt)) ;;
  op_ret AI_SUCCESS.

Definition CreateDescriptor (p fresh : positive) : op positive :=
  api_call (edit_conn p) (InternalCreateDescriptor p fresh) ;; op_ret fresh.

(** ** Names of cursors *)

Definition GetCursorName (stmt : positive) (c : Connection) : text := default [] (cursorNameMap_ c !! stmt).

Definition CursorNameExists (name : text) (c : Connection) : bool := bool_decide (name ∈ cursorNames_ c).

Definition AddCursorName (stmt : positive) (name : text) (c : Connection) : Connection :=
  let names := match cursorNameMap_ c !! stmt with
               | Some old => cursorNames_ c ∖ {[old]}
               | None => cursorNames_ c
               end in
  set_cursors ({[name]} ∪ names) (<[stmt := name]> (cursorNameMap_ c)) c.

Definition RemoveCursorName (stmt : positive) (c : Connection) : Connection :=
  match cursorNameMap_ c !! stmt with
  | Some old => set_cursors (cursorNames_ c ∖ {[old]}) (delete stmt (cursorNameMap_ c)) c
  | None => c
  end.
End Connections.
End Connections.
