(* ===== verification/Establish.v ===== *)
(** * Establish: connecting to the service

    Models the part of [src/connection.cpp] that makes the client of a connection:
    the credentials by kind of authentication, the configuration of the client with
    the proxy of the environment, the first query, and the answers to [SQLGetInfo]
    that depend on them. The clients of the AWS SDK and the variables of the
    process are the class [AwsClients]. *)

From S2P Require Import Prelude Text Codes Memory Diagnostics Encoding Environment Configuration ConnectionString DsnConfig Authentication ConnectionInfo Column ColumnMeta DataQuery Handles Connection.

Module Login.
Import Text Memory Diag Encoding Config Dsn Auth Meta Query Handles.
Local Open Scope op_scope.

#[local] Existing Instance Info.info_types.

(** ** The configuration of a client *)

Inductive Scheme : Type := HTTP | HTTPS.

(** The members the driver sets; [retryStrategy] is the number of retries. *)
Record ClientConfiguration : Type := MkClientCfg {
  region : text; enableEndpointDiscovery : bool; connectTimeoutMs : Z; requestTimeoutMs : Z;
  maxConnections : Z; userAgent : text; retryStrategy : option Z;
  proxyHost : text; proxyPort : Z; proxyScheme : Scheme; proxyUserName : text; proxyPassword : text;
  proxySSLCertPath : text; proxySSLCertType : text; proxySSLKeyPath : text; proxySSLKeyType : text;
  proxySSLKeyPassword : text
}.

(** A variable of the environment that is not set reads as the empty text. *)
Class AwsClients `{AwsTypes} : Type := {
  GetEnv : text -> text;
  DefaultClientConfiguration : ClientConfiguration;
  IsExpiredOrEmpty : Credentials -> bool;
  ProfileCredentials : text -> Credentials;
  client_ExecuteQuery : Credentials -> ClientConfiguration -> text -> ExecuteQueryRequest -> Outcome
}.

Inductive AwsLogLevel : Type := Off | Fatal | Error | Warn | Info_ | Debug | Trace.

Definition GetAWSLogLevelFromString (awsLogLvl : text) : AwsLogLevel :=
  let awsLogLvl := ToUpper awsLogLvl in
  if text_eqb awsLogLvl (txt "OFF") then Off
  else if text_eqb awsLogLvl (txt "FATAL") then Fatal
  else if text_eqb awsLogLvl (txt "ERROR") then Error
  else if text_eqb awsLogLvl (txt "WARN") then Warn
  else if text_eqb awsLogLvl (txt "INFO") then Info_
  else if text_eqb awsLogLvl (txt "DEBUG") then Debug
  else if text_eqb awsLogLvl (txt "TRACE") then Trace
  else Warn.

Section Login.
Context `{HA : AwsTypes} `{!AwsClients} `{HS : AwsSdk} `{HI : Installer} `{HP : Config.Platform}.
Context `{!OdbcConstants} `{!Info.InfoHeaders} `{!Encoding.Abi} {Q : Type}.

Abbreviation op := (op Q).

(** *** The proxy *)

(** [if (!value.empty()) set] of a trimmed variable. *)
Definition from_env (name : string) (set : text -> ClientConfiguration -> ClientConfiguration)
    (c : ClientConfiguration) : ClientConfiguration :=
  let value := Trim (GetEnv (txt name)) in if empty value then c else set value c.

Definition with_proxy (host : text) (port : Z) (scheme : Scheme) (user password : text)
    (c : ClientConfiguration) : ClientConfiguration :=
  MkClientCfg (region c) (enableEndpointDiscovery c) (connectTimeoutMs c) (requestTimeoutMs c)
    (maxConnections c) (userAgent c) (retryStrategy c) host port scheme user password
    (proxySSLCertPath c) (proxySSLCertType c) (proxySSLKeyPath c) (proxySSLKeyType c)
    (proxySSLKeyPassword c).

Definition with_ssl (cert_path cert_type key_path key_type key_password : text)
    (c : ClientConfiguration) : ClientConfiguration :=
  MkClientCfg (region c) (enableEndpointDiscovery c) (connectTimeoutMs c) (requestTimeoutMs c)
    (maxConnections c) (userAgent c) (retryStrategy c) (proxyHost c) (proxyPort c) (proxyScheme c)
    (proxyUserName c) (proxyPassword c) cert_path cert_type key_path key_type key_password.

Definition set_proxyHost v c :=
  with_proxy v (proxyPort c) (proxyScheme c) (proxyUserName c) (proxyPassword c) c.
Definition set_proxyPort v c :=
  with_proxy (proxyHost c) v (proxyScheme c) (proxyUserName c) (proxyPassword c) c.
Definition set_proxyScheme v c :=
  with_proxy (proxyHost c) (proxyPort c) v (proxyUserName c) (proxyPassword c) c.
Definition set_proxyUserName v c :=
  with_proxy (proxyHost c) (proxyPort c) (proxyScheme c) v (proxyPassword c) c.
Definition set_proxyPassword v c :=
  with_proxy (proxyHost c) (proxyPort c) (proxyScheme c) (proxyUserName c) v c.
Definition set_proxySSLCertPath v c :=
  with_ssl v (proxySSLCertType c) (proxySSLKeyPath c) (proxySSLKeyType c) (proxySSLKeyPassword c) c.
Definition set_proxySSLCertType v c :=
  with_ssl (proxySSLCertPath c) v (proxySSLKeyPath c) (proxySSLKeyType c) (proxySSLKeyPassword c) c.
Definition set_proxySSLKeyPath v c :=
  with_ssl (proxySSLCertPath c) (proxySSLCertType c) v (proxySSLKeyType c) (proxySSLKeyPassword c) c.
Definition set_proxySSLKeyPassword v c :=
  with_ssl (proxySSLCertPath c) (proxySSLCertType c) (proxySSLKeyPath c) (proxySSLKeyType c) v c.

(** The type of the key goes where the type of the certificate is. *)
Definition SetClientProxy (c : ClientConfiguration) : ClientConfiguration :=
  let c := from_env "SW_PROXY_HOST" set_proxyHost c in
  let portStr := Trim (GetEnv (txt "SW_PROXY_PORT")) in
  let port := if empty portStr then 0 else Column.StringToInt portStr in
  let c := if 0 <? port then set_proxyPort port c else c in
  let c := from_env "SW_PROXY_SCHEME"
    (fun v => set_proxyScheme (if text_eqb (ToUpper v) (txt "HTTPS") then HTTPS else HTTP)) c in
  let c := from_env "SW_PROXY_USER" set_proxyUserName c in
  let c := from_env "SW_PROXY_PASSWORD" set_proxyPassword c in
  let c := from_env "SW_PROXY_SSL_CERT_PATH" set_proxySSLCertPath c in
  let c := from_env "SW_PROXY_SSL_CERT_TYPE" set_proxySSLCertType c in
  let c := from_env "SW_PROXY_SSL_KEY_PATH" set_proxySSLKeyPath c in
  let c := from_env "SW_PROXY_SSL_KEY_TYPE" set_proxySSLCertType c in
  from_env "SW_PROXY_SSL_KEY_PASSWORD" set_proxySSLKeyPassword c.

(** *** The client *)

(** A port that fits is not wrapped; the number of connections is unsigned. *)
Definition client_configuration (cfg : Configuration) : ClientConfiguration :=
  let d := DefaultClientConfiguration in
  let system := match Info.platform with
                | Info.WIN32 => txt "Windows" | Info.APPLE => txt "macOS" | _ => txt "Linux" end in
  let c := MkClientCfg (GetRegion cfg) true (GetConnectionTimeout cfg) (GetReqTimeout cfg)
    (u32 (GetMaxConnections cfg))
    (txt "sw-odbc." ++ Info.GetFormatedDriverVersion ++ txt " on " ++ system) (retryStrategy d)
    (proxyHost d) (proxyPort d) (proxyScheme d) (proxyUserName d) (proxyPassword d)
    (proxySSLCertPath d) (proxySSLCertType d) (proxySSLKeyPath d) (proxySSLKeyType d)
    (proxySSLKeyPassword d) in
  let c := SetClientProxy c in
  if 0 <? GetMaxRetryCountClient cfg then
    MkClientCfg (region c) (enableEndpointDiscovery c) (connectTimeoutMs c) (requestTimeoutMs c)
      (maxConnections c) (userAgent c) (Some (GetMaxRetryCountClient cfg)) (proxyHost c) (proxyPort c)
      (proxyScheme c) (proxyUserName c) (proxyPassword c) (proxySSLCertPath c) (proxySSLCertType c)
      (proxySSLKeyPath c) (proxySSLKeyType c) (proxySSLKeyPassword c)
  else c.

(** The credentials and what went wrong; only the providers talk to the world. *)
Definition credentials_of (cfg : Configuration) (w : Service)
    : Prelude.result (Service * (Credentials * text)) :=
  let through p :=
    match GetAWSCredentials p cfg NoCredentials [] w with
    | Ok (w, (_, credentials, errInfo)) => Ok (w, (credentials, errInfo))
    | Err e => Err e
    end in
  match GetAuthType cfg with
  | OKTA => through OktaProvider
  | AAD => through AADProvider
  | AWS_PROFILE => Ok (w, (ProfileCredentials (c_str (GetProfileName cfg)), []))
  | IAM => Ok (w, (MkCredentials (GetDSNUserName cfg) (GetDSNPassword cfg) (Config.GetSessionToken cfg), []))
  end.

Definition test_query : ExecuteQueryRequest :=
  SetQueryStatement (txt "SELECT table_name FROM system.tables") EmptyRequest.

Definition set_defined (t : Info.InfoType) (v : text) (i : Info.ConnectionInfo) : Info.ConnectionInfo :=
  if Info.defined t then fst (Info.SetInfo (Codes.id_of t) v i) else i.

Definition UpdateConnectionRuntimeInfo (config : Configuration) (i : Info.ConnectionInfo)
    : Info.ConnectionInfo :=
  set_defined Info.SQL_DATA_SOURCE_NAME (GetDsn config default_dsn)
    (set_defined Info.SQL_USER_NAME (GetDSNUserName config) i).

(** [None] is a connection; otherwise the text of the error. *)
Definition TryRestoreConnection (p : positive) (cfg : Configuration) (w : Service)
    : op (Service * option text) :=
  match credentials_of cfg w with
  | Err e => op_fail e
  | Ok (w, (credentials, errInfo)) =>
      if IsExpiredOrEmpty credentials then
        let errInfo := if empty errInfo then txt "Empty or expired credentials" else errInfo in
        Connections.Close p ;; op_ret (w, Some (c_str errInfo))
      else
        on_conn p (set_client true) ;;
        match client_ExecuteQuery credentials (client_configuration cfg) (GetEndpoint cfg) test_query with
        | Failure name msg =>
            Connections.Close p ;; op_ret (w, Some (c_str (name ++ txt ": " ++ msg)))
        | Success _ =>
            on_conn p (fun c => set_info (UpdateConnectionRuntimeInfo (config_ c) (info_ c)) c) ;;
            op_ret (w, None)
        end
  end.

(** The configuration is taken over before anything is checked. *)
Definition InternalEstablish (p : positive) (cfg : Configuration) (w : Service)
    : op (Service * SqlResult) :=
  on_conn p (set_config cfg) ;;
  let* c := get_conn p in
  if client_ c then
    add_conn p S08002_ALREADY_CONNECTED (txt "Already connected.") ;; op_ret (w, AI_ERROR)
  else
    match Validate cfg with
    | Some (state, msg) => add_conn p state msg ;; op_ret (w, AI_ERROR)
    | None =>
        let* tried := TryRestoreConnection p cfg w in
        match tried with
        | (w, Some err) =>
            add_conn p S08001_CANNOT_CONNECT
              (txt "Failed to establish connection to IoT SiteWise." ++ ["010"%char] ++ err) ;;
            op_ret (w, AI_ERROR)
        | (w, None) =>
            let* c := get_conn p in
            op_ret (w, if 0 <? GetStatusRecordsNumber (conn_diag c) then AI_SUCCESS_WITH_INFO else AI_SUCCESS)
        end
    end.

(** The parser and the data source fill the configuration of the connection in
    place; the parser also leaves its warnings. A window is no part of the model. *)
Definition configure (p : positive) (connectStr : text) (ini : Ini) : op unit :=
  let* c := get_conn p in
  fun world =>
    let lg := MkLogger (log_level world) (log_path world) in
    match Conn.ParseConnectionStringSemicolon connectStr (Conn.MkParser (config_ c) lg (Some (conn_diag c))) with
    | Err e => Err e
    | Ok st =>
        let '(config, lg, d) := (Conn.cfg st, Conn.logger st, default (conn_diag c) (Conn.diag st)) in
        match (if IsDsnSet config
               then ReadDsnConfiguration (c_str (GetDsn config default_dsn)) ini config lg
               else Ok (config, lg)) with
        | Err e => Err e
        | Ok (config, lg) =>
            put_conn p (set_conn_diag d (set_config config c))
              (set_log_path (logger_path lg) (set_log_level (logger_level lg) world))
        end
    end.

Definition InternalEstablishString (p : positive) (connectStr : text) (ini : Ini) (w : Service)
    : op (Service * SqlResult) :=
  configure p connectStr ini ;;
  let* c := get_conn p in
  InternalEstablish p (config_ c) w.

(** [IGNITE_ODBC_API_CALL] around a call that also changes the world. *)
Definition service_call (p : positive) (body : op (Service * SqlResult)) : op Service :=
  edit_conn p Reset ;;
  let* done := body in
  edit_conn p (fun g => SetHeaderRecord g (snd done)) ;;
  op_ret (fst done).

Definition Establish (p : positive) (cfg : Configuration) (w : Service) : op Service :=
  service_call p (InternalEstablish p cfg w).
Definition EstablishString (p : positive) (connectStr : text) (ini : Ini) (w : Service) : op Service :=
  service_call p (InternalEstablishString p connectStr ini w).

(** ** Information about the connection *)

Definition InternalGetInfo (p : positive) (type : Z) (buf : pointer) (buflen : Z) (reslen : pointer)
    : op SqlResult :=
  let* c := get_conn p in
  let* res := (fun w => let '(r, m) := Info.GetInfo type buf buflen reslen (info_ c) (memory w) in
                        Ok (set_memory m w, r)) in
  match res with
  | AI_SUCCESS => op_ret res
  | _ =>
      add_conn p SHYC00_OPTIONAL_FEATURE_NOT_IMPLEMENTED
        (txt "SQLGetInfo input " ++ show_int type ++ txt " is not implemented.") ;;
      op_ret res
  end.

Definition GetInfo (p : positive) (type : Z) (buf : pointer) (buflen : Z) (reslen : pointer) : op unit :=
  api_call (edit_conn p) (InternalGetInfo p type buf buflen reslen).

(** ** The proxy, member by member *)

Lemma from_env_same (proj : ClientConfiguration -> text) name set c :
  (forall v c, proj (set v c) = v) ->
  proj (from_env name set c) = let v := Trim (GetEnv (txt name)) in if empty v then proj c else v.
Proof. intros Hs. unfold from_env. cbn zeta. by destruct (empty _). Qed.

Lemma from_env_other (proj : ClientConfiguration -> text) name set c :
  (forall v c, proj (set v c) = proj c) -> proj (from_env name set c) = proj c.
Proof. intros Hs. unfold from_env. cbn zeta. by destruct (empty _). Qed.

(** ** What a connection comes to *)

(** The error of an attempt with some credentials. *)
Definition attempt (cfg : Configuration) (credentials : Credentials) (errInfo : text) : option text :=
  if IsExpiredOrEmpty credentials then
    Some (c_str (if empty errInfo then txt "Empty or expired credentials" else errInfo))
  else
    match client_ExecuteQuery credentials (client_configuration cfg) (GetEndpoint cfg) test_query with
    | Success _ => None
    | Failure name msg => Some (c_str (name ++ txt ": " ++ msg))
    end.

(** The result, the record it leaves, whether there is a client, and whether the
    names of the data source and the user were published; or the error of the
    service of the identity provider. The [credentials] are asked for when the
    connection is not open and the configuration valid. *)
Definition verdict (connected warned : bool) (cfg : Configuration)
    (credentials : Prelude.result (Service * (Credentials * text)))
    : Prelude.result (SqlResult * option (SqlState * text) * bool * bool) :=
  if connected then Ok (AI_ERROR, Some (S08002_ALREADY_CONNECTED, txt "Already connected."), true, false)
  else
    match Validate cfg, credentials with
    | Some error, _ => Ok (AI_ERROR, Some error, false, false)
    | None, Err e => Err e
    | None, Ok (_, (credentials, errInfo)) =>
        Ok match attempt cfg credentials errInfo with
           | Some err => (AI_ERROR, Some (S08001_CANNOT_CONNECT,
               txt "Failed to establish connection to IoT SiteWise." ++ ["010"%char] ++ err), false, false)
           | None => (if warned then AI_SUCCESS_WITH_INFO else AI_SUCCESS, None, true, true)
           end
    end.

Definition left_records (error : option (SqlState * text)) : list DiagnosticRecord :=
  match error with Some (state, msg) => [CreateStatusRecord state msg 0 0] | None => [] end.

(** The user is the one given as such, or else the one the authentication type
    asks for. *)
Definition user_name (cfg : Configuration) : text :=
  if decide (GetValue (uid cfg) = []) then
    match GetValue (authType cfg) with
    | IAM => GetValue (accessKeyId cfg)
    | OKTA | AAD => GetValue (idPUserName cfg)
    | AWS_PROFILE => []
    end
  else GetValue (uid cfg).
Definition source_name (cfg : Configuration) : text :=
  if IsSet (Config.dsn cfg) then GetValue (Config.dsn cfg) else txt "IoT SiteWise DSN".

(** Of the answers that are texts, those to the two types are new. *)
Definition publishes (cfg : Configuration) (i i' : Info.ConnectionInfo) : Prop :=
  Info.intParams i' = Info.intParams i /\ Info.shortParams i' = Info.shortParams i /\
  forall z, Info.strParams i' !! z =
    match Info.strParams i !! z with
    | Some s =>
        Some (if Info.defined Info.SQL_DATA_SOURCE_NAME && (z =? Codes.id_of Info.SQL_DATA_SOURCE_NAME)
              then source_name cfg
              else if Info.defined Info.SQL_USER_NAME && (z =? Codes.id_of Info.SQL_USER_NAME)
              then user_name cfg else s)
    | None => None
    end.

Definition established (before : list DiagnosticRecord) (cfg : Configuration) (c c' : Connection)
    (v : SqlResult * option (SqlState * text) * bool * bool) : Prop :=
  let '(result, error, connected, published) := v in
  exists d i,
    c' = set_conn_diag d (set_info i (set_client connected (set_config cfg c))) /\
    (if published then publishes cfg (info_ c) i else i = info_ c) /\
    Diag.result d = result /\ statusRecords d = before ++ left_records error.

Lemma user_name_eq cfg : GetDSNUserName cfg = user_name cfg.
Proof.
  unfold GetDSNUserName, user_name, text_eqb, GetUid, GetAccessKeyId, GetIdPUserName, GetAuthType.
  destruct (decide (GetValue (uid cfg) = [])) as [E|E].
  - rewrite bool_decide_eq_true_2 by done. cbn [negb]. rewrite E. done.
  - by rewrite bool_decide_eq_false_2.
Qed.

Lemma source_name_eq cfg : GetDsn cfg default_dsn = source_name cfg.
Proof. unfold GetDsn, source_name. by destruct (IsSet (Config.dsn cfg)). Qed.

Lemma set_defined_lookup t v i z :
  Info.strParams (set_defined t v i) !! z =
    match Info.strParams i !! z with
    | Some s => Some (if Info.defined t && (z =? Codes.id_of t) then v else s)
    | None => None
    end.
Proof.
  unfold set_defined, Info.SetInfo. destruct (Info.defined t); cbn [andb]; [|by destruct (Info.strParams i !! z)].
  destruct (Z.eqb_spec z (Codes.id_of t)) as [->|Hn].
  - destruct (Info.strParams i !! Codes.id_of t) as [s|] eqn:E; cbn [fst Info.strParams]; [|by rewrite E].
    by rewrite lookup_insert_eq.
  - destruct (Info.strParams i !! Codes.id_of t); cbn [fst Info.strParams];
      rewrite ?lookup_insert_ne by done; by destruct (Info.strParams i !! z).
Qed.

Lemma set_defined_numbers t v i :
  Info.intParams (set_defined t v i) = Info.intParams i /\ Info.shortParams (set_defined t v i) = Info.shortParams i.
Proof. unfold set_defined, Info.SetInfo. destruct (Info.defined t), (Info.strParams i !! Codes.id_of t); done. Qed.

Lemma UpdateConnectionRuntimeInfo_publishes cfg i : publishes cfg i (UpdateConnectionRuntimeInfo cfg i).
Proof.
  unfold UpdateConnectionRuntimeInfo. rewrite user_name_eq, source_name_eq.
  destruct (set_defined_numbers Info.SQL_USER_NAME (user_name cfg) i) as [E1 E2].
  destruct (set_defined_numbers Info.SQL_DATA_SOURCE_NAME (source_name cfg)
    (set_defined Info.SQL_USER_NAME (user_name cfg) i)) as [E3 E4].
  split; [by rewrite E3|split; [by rewrite E4|]]. intros z. rewrite !set_defined_lookup.
  by destruct (Info.strParams i !! z).
Qed.

(** The body of the calls, on a connection with records already. *)
Lemma InternalEstablish_verdict (p : positive) (cfg : Configuration) (w : Service)
    (c : Connection) (world : World Q) :
  connections world !! p = Some c ->
  match verdict (client_ c) (0 <? GetStatusRecordsNumber (conn_diag c)) cfg (credentials_of cfg w) with
  | Ok (res, error, connected, published) =>
      wp (InternalEstablish p cfg w) (fun done world' =>
        exists d i, world' = upd_conn p (set_conn_diag d (set_info i (set_client connected (set_config cfg c)))) world /\
          (if published then publishes cfg (info_ c) i else i = info_ c) /\
          snd done = res /\ statusRecords d = statusRecords (conn_diag c) ++ left_records error) world
  | Err e => InternalEstablish p cfg w world = Err e
  end.
Proof.
  intros Hc. pose proof (UpdateConnectionRuntimeInfo_publishes cfg (info_ c)) as Hpub.
  destruct c as [env auto meta config info client names map attrs d]. cbn [client_ info_ conn_diag] in *.
  unfold verdict. destruct client.
  { unfold InternalEstablish. wp_steps. cbn [set_config client_]. wp_steps. do 2 eexists. split_and!; reflexivity. }
  destruct (Validate cfg) as [[state msg]|] eqn:Ev.
  { unfold InternalEstablish. wp_steps. cbn [set_config client_]. rewrite Ev. wp_steps.
    do 2 eexists. split_and!; reflexivity. }
  destruct (credentials_of cfg w) as [[w' [credentials errInfo]]|e] eqn:Ecr.
  - unfold InternalEstablish, TryRestoreConnection, attempt.
    destruct (IsExpiredOrEmpty credentials) eqn:Ex; [|destruct (client_ExecuteQuery _ _ _ _) eqn:Eq];
      wp_steps; cbn [set_config client_]; rewrite Ev, Ecr; wp_steps; rewrite ?Ex, ?Eq; unfold Connections.Close;
      wp_steps; unfold set_conn_diag, set_info, set_client, set_config; cbn;
      do 2 eexists; (split; [reflexivity|]); cbn; split_and!;
      first [reflexivity | exact Hpub | by rewrite app_nil_r].
  - unfold InternalEstablish, TryRestoreConnection, on_conn, op_bind, get_conn, put_conn, found.
    rewrite Hc. cbn. unfold set_connections. cbn [connections]. rewrite lookup_insert_eq. cbn. by rewrite Ev, Ecr.
Qed.

(** A connection whose records an earlier call left is cleared first. *)
Definition cleared (p : positive) (c : Connection) (world : World Q) : World Q :=
  upd_conn p (set_conn_diag (Reset (conn_diag c)) c) world.

Lemma service_call_eq p (body : op (Service * SqlResult)) world (c : Connection) :
  connections world !! p = Some c ->
  service_call p body world =
    match body (cleared p c world) with
    | Ok (world', done) => (edit_conn p (fun g => SetHeaderRecord g (snd done)) ;; op_ret (fst done)) world'
    | Err e => Err e
    end.
Proof.
  intros Hc. unfold service_call, edit_conn, on_conn, op_bind, get_conn, put_conn, found. rewrite Hc. reflexivity.
Qed.

Lemma service_call_verdict (p : positive) (cfg : Configuration) (w : Service) (world1 : World Q)
    (c1 : Connection) (run : Prelude.result (World Q * Service)) (body : Prelude.result (World Q * (Service * SqlResult))) :
  connections world1 !! p = Some c1 -> body = InternalEstablish p cfg w world1 ->
  run = match body with
        | Ok (world', done) => (edit_conn p (fun g => SetHeaderRecord g (snd done)) ;; op_ret (fst done)) world'
        | Err e => Err e
        end ->
  match verdict (client_ c1) (0 <? GetStatusRecordsNumber (conn_diag c1)) cfg (credentials_of cfg w) with
  | Ok v => exists w'' c', run = Ok (upd_conn p c' world1, w'') /\ established (statusRecords (conn_diag c1)) cfg c1 c' v
  | Err e => run = Err e
  end.
Proof.
  intros Hc -> ->. pose proof (InternalEstablish_verdict p cfg w c1 world1 Hc) as Hi.
  destruct (verdict _ _ _ _) as [[[[res error] connected] published]|e]; [|by rewrite Hi].
  apply wp_run in Hi as (world' & [w'' r] & -> & d & i & -> & Hp & Er & Hr). cbn [fst snd] in *. subst r.
  unfold edit_conn, on_conn, op_bind, get_conn, put_conn, found. rewrite lookup_upd_conn.
  exists w''. eexists. split.
  { cbn. unfold upd_conn, set_connections. cbn. rewrite insert_insert_eq. reflexivity. }
  exists (SetHeaderRecord d res), i. by split_and!.
Qed.
End Login.
End Login.

(** ** Properties *)

(** The members of a chain of [from_env], the last variable first. *)
Ltac from_env_all :=
  repeat first [rewrite Login.from_env_other by reflexivity | rewrite Login.from_env_same by reflexivity
    | progress cbn [Login.proxyHost Login.proxyUserName Login.proxyPassword Login.proxySSLCertPath
        Login.proxySSLCertType Login.proxySSLKeyPath Login.proxySSLKeyType Login.proxySSLKeyPassword
        Login.set_proxyPort Login.with_proxy]];
  reflexivity.

Section Properties.
Import Text Diag Config Auth Meta Handles Login.
Context `{HA : AwsTypes} `{!AwsClients} `{HS : AwsSdk} `{HP : Config.Platform} `{!Info.InfoHeaders}.

(** C14. What an attempt to connect leaves, with the settings in a configuration or
    in a connection string. The records of the last call are dropped (those of
    the string's warnings are kept) and the configuration is replaced first, even of
    a connection that is open, which then stays open with an error. Otherwise an
    invalid configuration, expired or missing credentials, and a service that refuses
    the first query each leave one more record with its reason and no client; only
    an accepted query leaves a client, and then a success, with information just if
    there were warnings, and the names of the user and the data source as answers to
    [SQLGetInfo]. An error of the services that issue the credentials, and nothing else,
    is the error of the call. Nothing but the connection changes, apart from what
    reading the string changes. *)
Theorem establish_outcome `{HI : Dsn.Installer} {Q : Type} (p : positive) (w : Service) (c : Connection) (world : World Q)
    (Hc : connections world !! p = Some c) :
  (forall cfg,
   match verdict (client_ c) false cfg (credentials_of cfg w) with
   | Ok v => exists w' c', Establish p cfg w world = Ok (upd_conn p c' world, w') /\ established [] cfg c c' v
   | Err e => Establish p cfg w world = Err e
   end) /\
  (forall (connectStr : text) (ini : Dsn.Ini) (world1 : World Q) (c1 : Connection),
   configure p connectStr ini (cleared p c world) = Ok (world1, tt) -> connections world1 !! p = Some c1 ->
   let warnings := statusRecords (conn_diag c1) in
   match verdict (client_ c1) (0 <? GetStatusRecordsNumber (conn_diag c1)) (config_ c1) (credentials_of (config_ c1) w) with
   | Ok v => exists w' c', EstablishString p connectStr ini w world = Ok (upd_conn p c' world1, w') /\
       established warnings (config_ c1) c1 c' v
   | Err e => EstablishString p connectStr ini w world = Err e
   end).
Proof.
  split.
  - intros cfg. pose proof (service_call_verdict p cfg w (cleared p c world) (set_conn_diag (Reset (conn_diag c)) c)
      (Establish p cfg w world) _ (lookup_upd_conn _ _ _) eq_refl (service_call_eq _ _ _ _ Hc)) as Hv.
    change (client_ (set_conn_diag (Reset (conn_diag c)) c)) with (client_ c) in Hv. cbn [conn_diag set_conn_diag] in Hv.
    change (0 <? GetStatusRecordsNumber (Reset (conn_diag c))) with false in Hv.
    destruct (verdict _ _ _ _) as [v|e]; [|done]. destruct Hv as (w' & c' & -> & He). exists w', c'.
    unfold cleared. rewrite upd_conn_twice. split; [done|].
    destruct v as [[[res error] connected] published]. exact He.
  - intros connectStr ini world1 c1 Hcf Hc1. cbv zeta.
    apply (service_call_verdict p (config_ c1) w world1 c1 _ _ Hc1 eq_refl).
    unfold EstablishString. rewrite (service_call_eq _ _ _ _ Hc).
    unfold InternalEstablishString. unfold op_bind at 1. rewrite Hcf.
    unfold op_bind at 1, get_conn, found. by rewrite Hc1.
Qed.

(** The proxy of the environment: host, user and password, the paths and the
    password of the key are the trimmed variables, or the default where there is
    none; but the type of the key never reaches the client, and where its variable
    is set it replaces the type of the certificate. *)
Theorem proxy_settings (c : ClientConfiguration) :
  let c' := SetClientProxy c in
  let var name dflt := let v := Trim (GetEnv (txt name)) in if empty v then dflt else v in
  proxyHost c' = var "SW_PROXY_HOST" (proxyHost c) /\
  proxyUserName c' = var "SW_PROXY_USER" (proxyUserName c) /\
  proxyPassword c' = var "SW_PROXY_PASSWORD" (proxyPassword c) /\
  proxySSLCertPath c' = var "SW_PROXY_SSL_CERT_PATH" (proxySSLCertPath c) /\
  proxySSLKeyPath c' = var "SW_PROXY_SSL_KEY_PATH" (proxySSLKeyPath c) /\
  proxySSLKeyPassword c' = var "SW_PROXY_SSL_KEY_PASSWORD" (proxySSLKeyPassword c) /\
  proxySSLKeyType c' = proxySSLKeyType c /\
  proxySSLCertType c' = var "SW_PROXY_SSL_KEY_TYPE" (var "SW_PROXY_SSL_CERT_TYPE" (proxySSLCertType c)).
Proof.
  cbn zeta. unfold SetClientProxy. generalize (Trim (GetEnv (txt "SW_PROXY_PORT"))). intros port.
  case_test; split_and!; from_env_all.
Qed.
End Properties.

(** A service that knows one user. *)
Module LoginDemo.
Import Text Diag Config Auth Meta Query Handles Login.

#[export] Instance types : AwsTypes := {|
  Meta.aws_scalars := Column.SdkScalars; Meta.Datum := unit; Meta.ColumnInfo := unit;
  Meta.GetName _ := []; Meta.ScalarTypeOf _ := None |}.

Definition client_defaults : ClientConfiguration :=
  MkClientCfg [] false 1000 3000 25 [] None [] 0 HTTP [] [] [] [] [] [] [].

#[export] Instance clients : AwsClients := {|
  GetEnv _ := []; DefaultClientConfiguration := client_defaults;
  IsExpiredOrEmpty credentials := empty (access_key credentials);
  ProfileCredentials _ := NoCredentials;
  client_ExecuteQuery credentials _ _ _ :=
    if text_eqb (access_key credentials) (txt "me") then Success (MkResult [] [] [])
    else Failure (txt "AccessDeniedException") (txt "no such user") |}.

#[export] Instance offline : AwsSdk := {|
  Service := unit; MakeRequest _ w := (MkResponse false None [], w);
  AssumeRoleWithSAML _ w := (inr ([], []), w); Json := unit; JsonParse _ := inr [];
  ValueExists _ _ := false; Auth.GetString _ _ := []; WriteReadable _ := []; URLEncodePath s := s;
  Base64Decode s := s; Base64Encode s := s; regex_search _ _ := None |}.

#[export] Existing Instances ExamplePlatform Info.RunHeaders.

Definition user (name : string) : Configuration :=
  SetAuthType (SetSecretKey (SetAccessKeyId DefaultConfiguration (txt name)) (txt "secret")) IAM.

Definition conn : Connection :=
  MkConn 1 true false DefaultConfiguration (Info.MkInfo ∅ ∅ ∅) false ∅ ∅ (MkAttributes 0 1 0 1 1 1) NewStorage.
Definition world : World unit := MkWorld (fun _ => 0) 0 [] ∅ {[1%positive := conn]} ∅ ∅.
End LoginDemo.
Import LoginDemo.

(** A user the service knows, one it refuses, and a connection string with an
    attribute nobody knows. *)
Lemma establish_outcome_witness :
  let me := LoginDemo.user "me" in let you := LoginDemo.user "you" in
  let connectStr := Text.txt "auth=IAM;accesskeyid=me;secretkey=secret;colour=red" in
  (exists w c', Login.Establish 1 me tt LoginDemo.world = Ok (Handles.upd_conn 1 c' LoginDemo.world, w) /\
     Login.established [] me LoginDemo.conn c' (Diag.AI_SUCCESS, None, true, true)) /\
  (exists w c', Login.Establish 1 you tt LoginDemo.world = Ok (Handles.upd_conn 1 c' LoginDemo.world, w) /\
     Login.established [] you LoginDemo.conn c' (Diag.AI_ERROR, Some (Diag.S08001_CANNOT_CONNECT,
       Text.txt "Failed to establish connection to IoT SiteWise." ++ ["010"%char] ++
       Text.txt "AccessDeniedException: no such user"), false, false)) /\
  exists w world1 c1 c', Login.EstablishString (HI := Dsn.ListInstaller) 1 connectStr [] tt LoginDemo.world =
      Ok (Handles.upd_conn 1 c' world1, w) /\
    length (Diag.statusRecords (Handles.conn_diag c1)) = 1%nat /\
    Login.established (Diag.statusRecords (Handles.conn_diag c1)) (Handles.config_ c1) c1 c'
      (Diag.AI_SUCCESS_WITH_INFO, None, true, true).
Proof.
  intros me you connectStr.
  pose proof (establish_outcome (HS := offline) (HI := Dsn.ListInstaller) 1 tt LoginDemo.conn LoginDemo.world eq_refl) as [Hcfg Hstr].
  split_and!; [exact (Hcfg me)|exact (Hcfg you)|].
  assert (Hrun : match Login.configure (HI := Dsn.ListInstaller) 1 connectStr []
      (Login.cleared 1 LoginDemo.conn LoginDemo.world) with
    | Ok (world1, _) =>
        match Handles.connections world1 !! 1%positive with
        | Some c1 =>
            (length (Diag.statusRecords (Handles.conn_diag c1)) =? 1)%nat &&
            match Login.verdict (Handles.client_ c1) (0 <? Diag.GetStatusRecordsNumber (Handles.conn_diag c1))
                (Handles.config_ c1) (Login.credentials_of (Handles.config_ c1) tt) with
            | Ok (Diag.AI_SUCCESS_WITH_INFO, None, true, true) => true
            | _ => false
            end
        | None => false
        end
    | Err _ => false
    end = true) by (vm_compute; reflexivity).
  destruct (Login.configure _ _ _ _) as [[world1 []]|e] eqn:E; [|done].
  destruct (Handles.connections world1 !! 1%positive) as [c1|] eqn:Ec; [|done].
  apply andb_true_iff in Hrun as [El%Nat.eqb_eq Hv]. specialize (Hstr _ _ _ _ E Ec). cbv zeta in Hstr.
  destruct (Login.verdict _ _ _ _) as [[[[r [?|]] []] []]|e]; try discriminate Hv; destruct r; try discriminate Hv.
  destruct Hstr as (w & c' & Er & He). exists w, world1, c1, c'. split; [exact Er|split; [exact El|exact He]].
Defined.
