(* ===== verification/NativeSql.v ===== *)
(** * NativeSql: the text of a query as the data source would see it

    Models [NativeSql] of [include/iotsitewise/odbc/connection.h]: the query is
    copied character by character into the buffer of the application, which may lie
    in the same memory as the query. *)

From S2P Require Import Prelude Text Codes Memory Diagnostics Encoding WideText ConnectionInfo Configuration Fields Handles.

Module Native.
Import Text Memory Diag Encoding Wide Fields Handles.
Local Open Scope op_scope.

Section Native.
Context `{HF : FieldCodes} `{HA : !Abi}.

(** [p[i]] as bytes. *)
Definition unit_addr (a i : Z) : Z := a + i * sizeof_SQLWCHAR.

(** The condition of a loop over the query: its end by length or by the
    terminator. *)
Definition at_length (inQueryLen : Z) (i : Z) (m : Memory) : bool := inQueryLen <=? i.
Definition at_terminator (inQuery : Z) (i : Z) (m : Memory) : bool :=
  wide_at inQuery (Z.to_nat i) m =? 0.

(** The copying loop: the length, whether it was cut, and the memory. The fuel is
    the room of the buffer. *)
Fixpoint copy_loop (fuel : nat) (stop : Z -> Memory -> bool) (src out outLen i : Z) (m : Memory)
    : Prelude.result (Z * bool * Memory) :=
  match fuel with
  | O => Err OutOfFuel
  | S f =>
      if stop i m then Ok (i, false, m)
      else if outLen <=? i + 1 then Ok (i, true, m)
      else copy_loop f stop src out outLen (i + 1)
             (store (unit_addr out i) (load (unit_addr src i) wide_size m) m)
  end.

(** The counting loop, which only the terminator ends. *)
Fixpoint count_loop (fuel : nat) (src i : Z) (m : Memory) : Prelude.result Z :=
  match fuel with
  | O => Err OutOfFuel
  | S f => if at_terminator src i m then Ok i else count_loop f src (i + 1) m
  end.

Definition write_length (outQueryLen : pointer) (v : Z) (m : Memory) : Memory :=
  match outQueryLen with Some a => store a (le_bytes 8 v) m | None => m end.

(** An early return with a record, or the length, whether it was cut and the
    memory with the terminator. *)
Definition copy_query (fuel : nat) (src inQueryLen : Z) (outQueryBuffer : pointer)
    (outQueryBufferLen : Z) (m : Memory) : Prelude.result ((SqlState * text) + Z * bool * Memory) :=
  match outQueryBuffer with
  | Some out =>
      if outQueryBufferLen <=? 0 then
        Ok (inl (SHY090_INVALID_STRING_OR_BUFFER_LENGTH,
                 txt "The BufferLength argument must be greater than zero"))
      else if negb (inQueryLen =? SQL_NTS) && (inQueryLen <? 0) then
        Ok (inl (SHY090_INVALID_STRING_OR_BUFFER_LENGTH,
                 txt "The argument TextLength1 was less than 0, but not equal to SQL_NTS"))
      else
        let stop := if inQueryLen =? SQL_NTS then at_terminator src else at_length inQueryLen in
        match copy_loop (S (Z.to_nat outQueryBufferLen)) stop src out outQueryBufferLen 0 m with
        | Ok (n, cut, m) => Ok (inr (n, cut, store (unit_addr out n) (le_bytes wide_size 0) m))
        | Err e => Err e
        end
  | None =>
      if inQueryLen =? SQL_NTS then
        match count_loop fuel src 0 m with Ok n => Ok (inr (n, false, m)) | Err e => Err e end
      else Ok (inr (if 0 <? inQueryLen then i32 inQueryLen else 0, false, m))
  end.

Section Calls.
Context {Q : Type}.
Abbreviation op := (op Q).

Definition InternalNativeSql (fuel : nat) (p : positive) (inQuery : pointer) (inQueryLen : Z)
    (outQueryBuffer : pointer) (outQueryBufferLen : Z) (outQueryLen : pointer) : op SqlResult :=
  match inQuery with
  | None =>
      add_conn p SHY009_INVALID_USE_OF_NULL_POINTER (txt "The InStatementText argument must not NULL") ;;
      op_ret AI_ERROR
  | Some src =>
      let* done := (fun w => match copy_query fuel src inQueryLen outQueryBuffer outQueryBufferLen (memory w) with
                             | Ok r => Ok (w, r) | Err e => Err e end) in
      match done with
      | inl (state, msg) => add_conn p state msg ;; op_ret AI_ERROR
      | inr (n, cut, m) =>
          (fun w => Ok (set_memory (write_length outQueryLen n m) w, tt)) ;;
          if cut : bool then
            add_conn p S01004_DATA_TRUNCATED
              (txt "Buffer is too small for the data. Truncated from the right.") ;;
            op_ret AI_SUCCESS_WITH_INFO
          else op_ret AI_SUCCESS
      end
  end.

Definition NativeSql (fuel : nat) (p : positive) (inQuery : pointer) (inQueryLen : Z)
    (outQueryBuffer : pointer) (outQueryBufferLen : Z) (outQueryLen : pointer) : op unit :=
  api_call (edit_conn p)
    (InternalNativeSql fuel p inQuery inQueryLen outQueryBuffer outQueryBufferLen outQueryLen).
End Calls.

(** ** The copy *)

(** A query of [n] characters: counted, or ended by its first zero. *)
Definition query_at (src inQueryLen : Z) (n : nat) (m : Memory) : Prop :=
  (inQueryLen = Z.of_nat n /\ inQueryLen <> SQL_NTS) \/
  (inQueryLen = SQL_NTS /\ (forall i, (i < n)%nat -> wide_at src i m <> 0) /\ wide_at src n m = 0).

Lemma wide_pos : Z.of_nat wide_size = sizeof_SQLWCHAR /\ 0 < sizeof_SQLWCHAR.
Proof. unfold wide_size. destruct sizeof_SQLWCHAR_ok as [-> | ->]; lia. Qed.

(** [k] characters of the query are in the buffer and nothing else changed. *)
Definition copied (src out : Z) (k : nat) (m0 m : Memory) : Prop :=
  load out (k * wide_size) m = load src (k * wide_size) m0 /\
  untouched [(out, Z.of_nat k * sizeof_SQLWCHAR)] m0 m.

Lemma copied_load src out k m0 m a n :
  copied src out k m0 m -> apart a n out (k * wide_size) -> load a n m = load a n m0.
Proof.
  intros [_ Hu] Ha. apply load_ext. intros x Hx. apply Hu. apply Forall_singleton. cbn.
  pose proof wide_pos as [Hw Hp]. unfold apart in Ha. rewrite Nat2Z.inj_mul, Hw in Ha. lia.
Qed.

Lemma copied_step src out k n m0 m :
  copied src out k m0 m -> (k < n)%nat -> apart src (n * wide_size) out (n * wide_size) ->
  copied src out (S k) m0
    (store (unit_addr out (Z.of_nat k)) (load (unit_addr src (Z.of_nat k)) wide_size m) m).
Proof.
  intros Hc Hk Ha. pose proof wide_pos as [Hw Hp]. unfold unit_addr.
  assert (Hsrc : load (src + Z.of_nat k * sizeof_SQLWCHAR) wide_size m =
                 load (src + Z.of_nat k * sizeof_SQLWCHAR) wide_size m0).
  { eapply copied_load; [exact Hc|]. revert Ha. unfold apart. rewrite !Nat2Z.inj_mul, Hw. nia. }
  rewrite Hsrc. destruct Hc as [Hl Hu]. split.
  - replace (S k * wide_size)%nat with (k * wide_size + wide_size)%nat by lia.
    rewrite !load_app, !Nat2Z.inj_mul, Hw. f_equal; [|by rewrite load_store_n by (by rewrite length_load)].
    rewrite load_store_apart; [done|]. unfold apart. rewrite length_load, Nat2Z.inj_mul, Hw. lia.
  - intros x Hx. rewrite Forall_singleton in Hx. cbn [fst snd] in Hx.
    rewrite Nat2Z.inj_succ, Z.mul_succ_l in Hx. assert (0 <= Z.of_nat k * sizeof_SQLWCHAR) by nia.
    rewrite store_outside by (rewrite length_load, Hw; lia).
    apply Hu. apply Forall_singleton. cbn [fst snd]. lia.
Qed.

Definition stop_of (src inQueryLen : Z) : Z -> Memory -> bool :=
  if inQueryLen =? SQL_NTS then at_terminator src else at_length inQueryLen.

(** The end of the query is not moved by what was copied. *)
Lemma stop_spec src out inQueryLen n k m0 m :
  query_at src inQueryLen n m0 -> copied src out k m0 m -> (k <= n)%nat ->
  apart src (S n * wide_size) out (k * wide_size) ->
  stop_of src inQueryLen (Z.of_nat k) m = (n <=? k)%nat.
Proof.
  intros Hq Hc Hk Ha. unfold stop_of. destruct Hq as [[-> Hne]|(-> & Hnz & Hz)].
  - rewrite (proj2 (Z.eqb_neq _ _) Hne). unfold at_length. destruct (Z.leb_spec (Z.of_nat n) (Z.of_nat k)), (Nat.leb_spec n k); (done || lia).
  - rewrite Z.eqb_refl. unfold at_terminator. rewrite Nat2Z.id.
    assert (E : wide_at src k m = wide_at src k m0).
    { unfold wide_at. f_equal. eapply copied_load; [exact Hc|]. pose proof wide_pos as [Hw Hp].
      revert Ha. unfold apart. rewrite !Nat2Z.inj_mul, Hw. nia. }
    rewrite E. destruct (Nat.leb_spec n k).
    + replace k with n by lia. by rewrite Hz.
    + apply Z.eqb_neq, Hnz. lia.
Qed.

Lemma copy_loop_spec src out inQueryLen outLen n fuel k m0 m :
  query_at src inQueryLen n m0 -> copied src out k m0 m -> (k <= n)%nat -> Z.of_nat k < outLen ->
  apart src (S n * wide_size) out (Z.to_nat outLen * wide_size) -> (Z.to_nat outLen < fuel + k)%nat ->
  let count := Nat.min n (Z.to_nat (outLen - 1)) in
  exists m', copy_loop fuel (stop_of src inQueryLen) src out outLen (Z.of_nat k) m =
    Ok (Z.of_nat count, outLen <=? Z.of_nat n, m') /\ copied src out count m0 m'.
Proof.
  intros Hq Hc Hk Hlen Ha. pose proof wide_pos as [Hw Hp].
  revert k m Hc Hk Hlen. induction fuel as [|fuel IH]; intros k m Hc Hk Hlen Hf; [lia|].
  cbn [copy_loop]. rewrite (stop_spec src out inQueryLen n k m0 m Hq Hc Hk).
  2:{ revert Ha. unfold apart. rewrite !Nat2Z.inj_mul, Hw. nia. }
  destruct (Nat.leb_spec n k).
  - replace k with n in * by lia. replace (Nat.min n (Z.to_nat (outLen - 1))) with n by lia.
    exists m. split; [|done]. repeat f_equal. symmetry. apply Z.leb_gt. lia.
  - destruct (Z.leb_spec outLen (Z.of_nat k + 1)).
    + replace (Nat.min n (Z.to_nat (outLen - 1))) with k by lia.
      exists m. split; [|done]. repeat f_equal. symmetry. apply Z.leb_le. lia.
    + replace (Z.of_nat k + 1) with (Z.of_nat (S k)) by lia. apply IH; try lia.
      apply copied_step with (n := Nat.min (S n) (Z.to_nat outLen)); [done|lia|].
      revert Ha. unfold apart. rewrite !Nat2Z.inj_mul, Hw, Nat2Z.inj_min. nia.
Qed.

Lemma copy_query_spec fuel src inQueryLen n out outLen m :
  query_at src inQueryLen n m -> 0 < outLen ->
  apart src (S n * wide_size) out (Z.to_nat outLen * wide_size) ->
  let count := Nat.min n (Z.to_nat (outLen - 1)) in
  exists m', copy_query fuel src inQueryLen (Some out) outLen m =
    Ok (inr (Z.of_nat count, outLen <=? Z.of_nat n, m')) /\
    load out (count * wide_size) m' = load src (count * wide_size) m /\
    wide_at out count m' = 0 /\ untouched [(out, outLen * sizeof_SQLWCHAR)] m m'.
Proof.
  intros Hq Hlen Ha count. pose proof wide_pos as [Hw Hp]. unfold copy_query.
  rewrite (proj2 (Z.leb_gt _ _) Hlen).
  replace (negb (inQueryLen =? SQL_NTS) && (inQueryLen <? 0)) with false
    by (symmetry; destruct Hq as [[-> _]|[-> _]]; [|by rewrite Z.eqb_refl];
        rewrite (proj2 (Z.ltb_ge _ _)) by lia; apply andb_false_r).
  destruct (copy_loop_spec src out inQueryLen outLen n (S (Z.to_nat outLen)) 0 m m) as (m' & E & Hl & Hu);
    [done|by split|lia|lia|done|lia|].
  unfold stop_of in E. fold count in E, Hl, Hu. change (Z.of_nat 0) with 0 in E. rewrite E.
  assert (Hc : Z.of_nat count + 1 <= outLen) by lia.
  eexists. split; [reflexivity|]. unfold unit_addr. split_and!.
  - rewrite load_store_apart; [done|]. left. rewrite Nat2Z.inj_mul, Hw. lia.
  - unfold wide_at. rewrite load_store_n by (by rewrite length_le_bytes). rewrite le_val_le_bytes.
    apply Z.mod_0_l. apply Z.pow_nonzero; lia.
  - intros x Hx. rewrite Forall_singleton in Hx. cbn [fst snd] in Hx.
    assert (0 <= Z.of_nat count * sizeof_SQLWCHAR) by nia.
    assert (Z.of_nat count * sizeof_SQLWCHAR + sizeof_SQLWCHAR <= outLen * sizeof_SQLWCHAR) by nia.
    rewrite store_outside by (rewrite length_le_bytes, Hw; lia).
    apply Hu. apply Forall_singleton. cbn [fst snd]. lia.
Qed.
End Native.
End Native.

(** ** Properties *)

Section Properties.
Import Memory Diag Encoding Wide Fields Handles Native.
Context `{FieldCodes} `{Abi}.

(** C38. [SQLNativeSql] with room in the buffer returns the query itself: as many
    characters of it as fit before the terminator, that number, and a warning just
    when the query was longer; it writes nothing but the buffer and the length. *)
Theorem NativeSql_copies {Q : Type} (fuel n : nat) (p : positive) (src inQueryLen out outLen a : Z)
    (c : Connection) (w : World Q) (Hc : connections w !! p = Some c)
    (Hq : query_at src inQueryLen n (memory w)) (Hlen : 0 < outLen)
    (Hsrc : apart src (S n * wide_size) out (Z.to_nat outLen * wide_size))
    (Ha : a + 8 <= out \/ out + outLen * sizeof_SQLWCHAR <= a) :
  let count := Nat.min n (Z.to_nat (outLen - 1)) in
  exists c' m', NativeSql fuel p (Some src) inQueryLen (Some out) outLen (Some a) w =
    Ok (upd_conn p c' (set_memory m' w), tt) /\
    load out (count * wide_size) m' = load src (count * wide_size) (memory w) /\
    wide_at out count m' = 0 /\ load a 8 m' = le_bytes 8 (Z.of_nat count) /\
    untouched [(out, outLen * sizeof_SQLWCHAR); (a, 8)] (memory w) m' /\
    (result (conn_diag c') = if outLen <=? Z.of_nat n then AI_SUCCESS_WITH_INFO else AI_SUCCESS) /\
    map (@sqlState) (statusRecords (conn_diag c')) = (if outLen <=? Z.of_nat n then [S01004_DATA_TRUNCATED] else []).
Proof.
  intros count. pose proof wide_pos as [Hw Hp].
  destruct (copy_query_spec fuel src inQueryLen n out outLen (memory w) Hq Hlen Hsrc)
    as (m & E & Hl & Hz & Hu). fold count in E, Hl, Hz.
  set (P := fun (_ : unit) (w' : World Q) => exists c' m', w' = upd_conn p c' (set_memory m' w) /\
    m' = write_length (Some a) (Z.of_nat count) m /\
    (result (conn_diag c') = if outLen <=? Z.of_nat n then AI_SUCCESS_WITH_INFO else AI_SUCCESS) /\
    map sqlState (statusRecords (conn_diag c')) = (if outLen <=? Z.of_nat n then [S01004_DATA_TRUNCATED] else [])).
  assert (Hwp : wp (NativeSql fuel p (Some src) inQueryLen (Some out) outLen (Some a)) P w).
  { unfold NativeSql, InternalNativeSql. wp_steps. unfold wp at 1. cbn [memory upd_conn set_connections].
    rewrite E. apply wp_bind. unfold wp at 1. rewrite set_memory_upd_conn.
    destruct (outLen <=? Z.of_nat n); wp_steps; by eexists _, _. }
  apply wp_run in Hwp as (w' & [] & Ew & c' & m' & -> & -> & Hr & Hs).
  exists c', (write_length (Some a) (Z.of_nat count) m). cbn [write_length].
  assert (Hcl : Z.of_nat count + 1 <= outLen) by lia.
  split_and!; [done| | | | |done..].
  - rewrite load_store_apart; [done|]. unfold apart. rewrite Nat2Z.inj_mul, Hw. cbn. nia.
  - unfold wide_at. rewrite load_store_apart; [exact Hz|]. unfold apart. rewrite Hw. cbn. nia.
  - by rewrite load_store_n by (by rewrite length_le_bytes).
  - eapply untouched_store; [apply list_elem_of_further, list_elem_of_here|by rewrite length_le_bytes|].
    intros x Hx. apply Hu. by apply Forall_cons in Hx as [Hx _]; apply Forall_singleton.
Qed.
End Properties.

(** "SELECT" with its terminator at 100, copied into a buffer of five characters. *)
Lemma NativeSql_copies_witness :
  let HF := Fields.HeaderFields in let HA := Encoding.UnixAbi in
  let m := Memory.store 100 (Encoding.wide_bytes [83; 69; 76; 69; 67; 84; 0]) (fun _ => 170) in
  let w := Handles.MkWorld m 0 [] ∅ {[1%positive := Handles.MkConn 1 true false
    (@Config.DefaultConfiguration ExamplePlatform) (Info.MkInfo ∅ ∅ ∅) true ∅ ∅
    (Handles.MkAttributes 0 1 0 1 1 1) Diag.NewStorage]} (∅ : gmap positive (Handles.Statement unit)) ∅ in
  exists c' m', Native.NativeSql 9 1 (Some 100) Fields.SQL_NTS (Some 200) 5 (Some 300) w =
    Ok (Handles.upd_conn 1 c' (Handles.set_memory m' w), tt) /\
    Memory.load 200 8 m' = Memory.load 100 8 m /\ Diag.result (Handles.conn_diag c') = Diag.AI_SUCCESS_WITH_INFO.
Proof.
  intros HF HA m w.
  destruct (@NativeSql_copies Fields.HeaderFields Encoding.UnixAbi unit 9 6 1 100 Fields.SQL_NTS 200 5 300 _ w eq_refl)
    as (c' & m' & E & Hl & _ & _ & _ & Hr & _).
  - right. split_and!; [done| |reflexivity]. intros i Hi.
    do 6 (destruct i as [|i]; [by vm_compute|]). lia.
  - lia.
  - left. by vm_compute.
  - right. by vm_compute.
  - exists c', m'. split_and!; [exact E|exact Hl|exact Hr].
Defined.
