(* ===== verification/Functions.v ===== *)
(** * Functions: what the driver says it supports

    Models [GetFunctions] of [src/connection.cpp], which the driver answers itself
    where the driver manager does not: one function, the 100 words of ODBC 2, or
    the bits of ODBC 3. *)

From S2P Require Import Prelude Text Memory Diagnostics ConnectionInfo Configuration Handles.

Module Functions.
Import Memory Diag Handles.
Local Open Scope op_scope.

Inductive ApiFunction : Type :=
  |   SQL_API_SQLALLOCHANDLE | SQL_API_SQLGETDESCFIELD | SQL_API_SQLBINDCOL | SQL_API_SQLGETDESCREC |
  SQL_API_SQLCANCEL | SQL_API_SQLGETDIAGFIELD | SQL_API_SQLCLOSECURSOR | SQL_API_SQLGETDIAGREC |
  SQL_API_SQLCOLATTRIBUTE | SQL_API_SQLGETENVATTR | SQL_API_SQLCONNECT | SQL_API_SQLGETFUNCTIONS |
  SQL_API_SQLCOPYDESC | SQL_API_SQLGETINFO | SQL_API_SQLDATASOURCES | SQL_API_SQLGETSTMTATTR |
  SQL_API_SQLDESCRIBECOL | SQL_API_SQLGETTYPEINFO | SQL_API_SQLDISCONNECT | SQL_API_SQLNUMRESULTCOLS
  | SQL_API_SQLDRIVERS | SQL_API_SQLPARAMDATA | SQL_API_SQLENDTRAN | SQL_API_SQLPREPARE |
  SQL_API_SQLEXECDIRECT | SQL_API_SQLPUTDATA | SQL_API_SQLEXECUTE | SQL_API_SQLROWCOUNT |
  SQL_API_SQLFETCH | SQL_API_SQLSETCONNECTATTR | SQL_API_SQLFETCHSCROLL | SQL_API_SQLSETCURSORNAME |
  SQL_API_SQLFREEHANDLE | SQL_API_SQLSETDESCFIELD | SQL_API_SQLFREESTMT | SQL_API_SQLSETDESCREC |
  SQL_API_SQLGETCONNECTATTR | SQL_API_SQLSETENVATTR | SQL_API_SQLGETCURSORNAME |
  SQL_API_SQLSETSTMTATTR | SQL_API_SQLGETDATA | SQL_API_SQLCOLUMNS | SQL_API_SQLSTATISTICS |
  SQL_API_SQLSPECIALCOLUMNS | SQL_API_SQLTABLES | SQL_API_SQLNATIVESQL | SQL_API_SQLBROWSECONNECT |
  SQL_API_SQLNUMPARAMS | SQL_API_SQLBULKOPERATIONS | SQL_API_SQLPRIMARYKEYS |
  SQL_API_SQLCOLUMNPRIVILEGES | SQL_API_SQLPROCEDURECOLUMNS | SQL_API_SQLDESCRIBEPARAM |
  SQL_API_SQLPROCEDURES | SQL_API_SQLDRIVERCONNECT | SQL_API_SQLSETPOS | SQL_API_SQLFOREIGNKEYS |
  SQL_API_SQLTABLEPRIVILEGES | SQL_API_SQLMORERESULTS | SQL_API_SQLALLOCCONNECT |
  SQL_API_SQLALLOCENV | SQL_API_SQLALLOCSTMT | SQL_API_SQLBINDPARAMETER | SQL_API_SQLERROR |
  SQL_API_SQLEXTENDEDFETCH | SQL_API_SQLFREECONNECT | SQL_API_SQLFREEENV |
  SQL_API_SQLGETCONNECTOPTION | SQL_API_SQLGETSTMTOPTION | SQL_API_SQLPARAMOPTIONS |
  SQL_API_SQLSETCONNECTOPTION | SQL_API_SQLSETPARAM | SQL_API_SQLSETSCROLLOPTIONS |
  SQL_API_SQLSETSTMTOPTION | SQL_API_SQLTRANSACT | SQL_API_SQLCOLATTRIBUTES.

#[global] Instance ApiFunction_eq_dec : EqDecision ApiFunction.
Proof. solve_decision. Defined.

(** The numbers of the headers. *)
Class FunctionHeaders : Type := {
  api_id : ApiFunction -> Z;
  api_id_word f : 0 <= api_id f < 65536;
  SQL_API_ODBC3_ALL_FUNCTIONS : Z;
  SQL_API_ALL_FUNCTIONS : Z;
  SQL_API_ODBC3_ALL_FUNCTIONS_SIZE : Z
}.

(** The labels of the switch. *)
Definition single_functions : list ApiFunction :=
  [
    SQL_API_SQLALLOCHANDLE; SQL_API_SQLGETDESCFIELD; SQL_API_SQLBINDCOL; SQL_API_SQLGETDESCREC;
    SQL_API_SQLCANCEL; SQL_API_SQLGETDIAGFIELD; SQL_API_SQLCLOSECURSOR; SQL_API_SQLGETDIAGREC;
    SQL_API_SQLCOLATTRIBUTE; SQL_API_SQLGETENVATTR; SQL_API_SQLCONNECT; SQL_API_SQLGETFUNCTIONS;
    SQL_API_SQLCOPYDESC; SQL_API_SQLGETINFO; SQL_API_SQLDATASOURCES; SQL_API_SQLGETSTMTATTR;
    SQL_API_SQLDESCRIBECOL; SQL_API_SQLGETTYPEINFO; SQL_API_SQLDISCONNECT; SQL_API_SQLNUMRESULTCOLS;
    SQL_API_SQLDRIVERS; SQL_API_SQLPARAMDATA; SQL_API_SQLENDTRAN; SQL_API_SQLPREPARE;
    SQL_API_SQLEXECDIRECT; SQL_API_SQLPUTDATA; SQL_API_SQLEXECUTE; SQL_API_SQLROWCOUNT;
    SQL_API_SQLFETCH; SQL_API_SQLSETCONNECTATTR; SQL_API_SQLFETCHSCROLL; SQL_API_SQLSETCURSORNAME;
    SQL_API_SQLFREEHANDLE; SQL_API_SQLSETDESCFIELD; SQL_API_SQLFREESTMT; SQL_API_SQLSETDESCREC;
    SQL_API_SQLGETCONNECTATTR; SQL_API_SQLSETENVATTR; SQL_API_SQLGETCURSORNAME;
    SQL_API_SQLSETSTMTATTR; SQL_API_SQLGETDATA; SQL_API_SQLCOLUMNS; SQL_API_SQLSTATISTICS;
    SQL_API_SQLSPECIALCOLUMNS; SQL_API_SQLTABLES; SQL_API_SQLNATIVESQL; SQL_API_SQLBROWSECONNECT;
    SQL_API_SQLNUMPARAMS; SQL_API_SQLBULKOPERATIONS; SQL_API_SQLPRIMARYKEYS;
    SQL_API_SQLCOLUMNPRIVILEGES; SQL_API_SQLPROCEDURECOLUMNS; SQL_API_SQLDESCRIBEPARAM;
    SQL_API_SQLPROCEDURES; SQL_API_SQLDRIVERCONNECT; SQL_API_SQLSETPOS; SQL_API_SQLFOREIGNKEYS;
    SQL_API_SQLTABLEPRIVILEGES; SQL_API_SQLMORERESULTS; SQL_API_SQLALLOCCONNECT;
    SQL_API_SQLALLOCENV; SQL_API_SQLALLOCSTMT; SQL_API_SQLBINDPARAMETER; SQL_API_SQLERROR;
    SQL_API_SQLEXTENDEDFETCH; SQL_API_SQLFREECONNECT; SQL_API_SQLFREEENV;
    SQL_API_SQLGETCONNECTOPTION; SQL_API_SQLGETSTMTOPTION; SQL_API_SQLPARAMOPTIONS;
    SQL_API_SQLSETCONNECTOPTION; SQL_API_SQLSETPARAM; SQL_API_SQLSETSCROLLOPTIONS;
    SQL_API_SQLSETSTMTOPTION; SQL_API_SQLTRANSACT
  ].

Definition odbc3_functions : list ApiFunction :=
  [
    SQL_API_SQLALLOCHANDLE; SQL_API_SQLGETDESCFIELD; SQL_API_SQLBINDCOL; SQL_API_SQLGETDESCREC;
    SQL_API_SQLCANCEL; SQL_API_SQLGETDIAGFIELD; SQL_API_SQLCLOSECURSOR; SQL_API_SQLGETDIAGREC;
    SQL_API_SQLCOLATTRIBUTE; SQL_API_SQLGETENVATTR; SQL_API_SQLCONNECT; SQL_API_SQLGETFUNCTIONS;
    SQL_API_SQLCOPYDESC; SQL_API_SQLGETINFO; SQL_API_SQLDATASOURCES; SQL_API_SQLGETSTMTATTR;
    SQL_API_SQLDESCRIBECOL; SQL_API_SQLGETTYPEINFO; SQL_API_SQLDISCONNECT; SQL_API_SQLNUMRESULTCOLS;
    SQL_API_SQLDRIVERS; SQL_API_SQLPARAMDATA; SQL_API_SQLENDTRAN; SQL_API_SQLPREPARE;
    SQL_API_SQLEXECDIRECT; SQL_API_SQLPUTDATA; SQL_API_SQLEXECUTE; SQL_API_SQLROWCOUNT;
    SQL_API_SQLFETCH; SQL_API_SQLSETCONNECTATTR; SQL_API_SQLFETCHSCROLL; SQL_API_SQLSETCURSORNAME;
    SQL_API_SQLFREEHANDLE; SQL_API_SQLSETDESCFIELD; SQL_API_SQLFREESTMT; SQL_API_SQLSETDESCREC;
    SQL_API_SQLGETCONNECTATTR; SQL_API_SQLSETENVATTR; SQL_API_SQLGETCURSORNAME;
    SQL_API_SQLSETSTMTATTR; SQL_API_SQLGETDATA; SQL_API_SQLCOLUMNS; SQL_API_SQLSTATISTICS;
    SQL_API_SQLSPECIALCOLUMNS; SQL_API_SQLTABLES; SQL_API_SQLBINDPARAMETER; SQL_API_SQLNATIVESQL;
    SQL_API_SQLBROWSECONNECT; SQL_API_SQLNUMPARAMS; SQL_API_SQLBULKOPERATIONS;
    SQL_API_SQLPRIMARYKEYS; SQL_API_SQLCOLUMNPRIVILEGES; SQL_API_SQLPROCEDURECOLUMNS;
    SQL_API_SQLDESCRIBEPARAM; SQL_API_SQLPROCEDURES; SQL_API_SQLDRIVERCONNECT; SQL_API_SQLSETPOS;
    SQL_API_SQLFOREIGNKEYS; SQL_API_SQLTABLEPRIVILEGES; SQL_API_SQLMORERESULTS
  ].

Definition odbc2_functions : list ApiFunction :=
  [
    SQL_API_SQLALLOCCONNECT; SQL_API_SQLALLOCENV; SQL_API_SQLALLOCSTMT; SQL_API_SQLBINDCOL;
    SQL_API_SQLBINDPARAMETER; SQL_API_SQLBROWSECONNECT; SQL_API_SQLCANCEL; SQL_API_SQLCOLATTRIBUTES;
    SQL_API_SQLCOLUMNPRIVILEGES; SQL_API_SQLCOLUMNS; SQL_API_SQLCONNECT; SQL_API_SQLDATASOURCES;
    SQL_API_SQLDESCRIBECOL; SQL_API_SQLDESCRIBEPARAM; SQL_API_SQLDISCONNECT;
    SQL_API_SQLDRIVERCONNECT; SQL_API_SQLDRIVERS; SQL_API_SQLERROR; SQL_API_SQLEXECDIRECT;
    SQL_API_SQLEXECUTE; SQL_API_SQLEXTENDEDFETCH; SQL_API_SQLFETCH; SQL_API_SQLFOREIGNKEYS;
    SQL_API_SQLFREECONNECT; SQL_API_SQLFREEENV; SQL_API_SQLFREESTMT; SQL_API_SQLGETCONNECTOPTION;
    SQL_API_SQLGETCURSORNAME; SQL_API_SQLGETDATA; SQL_API_SQLGETFUNCTIONS; SQL_API_SQLGETINFO;
    SQL_API_SQLGETSTMTOPTION; SQL_API_SQLGETTYPEINFO; SQL_API_SQLMORERESULTS; SQL_API_SQLNATIVESQL;
    SQL_API_SQLNUMPARAMS; SQL_API_SQLNUMRESULTCOLS; SQL_API_SQLPARAMDATA; SQL_API_SQLPARAMOPTIONS;
    SQL_API_SQLPREPARE; SQL_API_SQLPRIMARYKEYS; SQL_API_SQLPROCEDURECOLUMNS; SQL_API_SQLPROCEDURES;
    SQL_API_SQLPUTDATA; SQL_API_SQLROWCOUNT; SQL_API_SQLSETCONNECTOPTION; SQL_API_SQLSETCURSORNAME;
    SQL_API_SQLSETPARAM; SQL_API_SQLSETPOS; SQL_API_SQLSETSCROLLOPTIONS; SQL_API_SQLSETSTMTOPTION;
    SQL_API_SQLSPECIALCOLUMNS; SQL_API_SQLSTATISTICS; SQL_API_SQLTABLEPRIVILEGES; SQL_API_SQLTABLES;
    SQL_API_SQLTRANSACT
  ].

Section Functions.
Context `{FunctionHeaders}.

(** [SQL_FUNC_SET]: bit [uwAPI & 15] of word [uwAPI >> 4]. *)
Definition SQL_FUNC_SET (pfExists uwAPI : Z) (m : Memory) : Memory :=
  let a := pfExists + 2 * Z.shiftr uwAPI 4 in
  store a (le_bytes 2 (Z.lor (le_val (load a 2 m)) (Z.shiftl 1 (Z.land uwAPI 15)))) m.

Definition SetODBC3FunctionsValue (valueBuf : Z) (m : Memory) : Memory :=
  fold_left (fun m f => SQL_FUNC_SET valueBuf (api_id f) m) odbc3_functions m.

(** [valueBuf[id] = true]. *)
Definition set_word (valueBuf id : Z) (m : Memory) : Memory :=
  store (valueBuf + 2 * id) (le_bytes 2 1) m.

Definition SetODBC2FunctionsValue (valueBuf : Z) (m : Memory) : Memory :=
  fold_left (fun m f => set_word valueBuf (api_id f) m) odbc2_functions m.

Definition zeros (a n : Z) (m : Memory) : Memory := store a (replicate (Z.to_nat n) 0) m.

Definition is_single (funcId : Z) : bool := existsb (fun f => funcId =? api_id f) single_functions.

(** A function that is no label of the switch leaves the buffer as it was. *)
Definition functions_value (funcId valueBuf : Z) (m : Memory) : Memory :=
  if funcId =? SQL_API_ODBC3_ALL_FUNCTIONS then
    SetODBC3FunctionsValue valueBuf (zeros valueBuf (2 * SQL_API_ODBC3_ALL_FUNCTIONS_SIZE) m)
  else if funcId =? SQL_API_ALL_FUNCTIONS then
    SetODBC2FunctionsValue valueBuf (zeros valueBuf (2 * 100) m)
  else if is_single funcId then set_word valueBuf 0 m
  else m.

Section Calls.
Context {Q : Type}.
Abbreviation op := (op Q).

(** A null buffer is written through, except for an unknown function. *)
Definition InternalGetFunctions (p : positive) (funcId : Z) (valueBuf : pointer) : op SqlResult :=
  match valueBuf with
  | Some a => (fun w => Ok (set_memory (functions_value funcId a (memory w)) w, tt)) ;; op_ret AI_SUCCESS
  | None =>
      if (funcId =? SQL_API_ODBC3_ALL_FUNCTIONS) || (funcId =? SQL_API_ALL_FUNCTIONS) || is_single funcId
      then op_fail NullPointer else op_ret AI_SUCCESS
  end.

Definition GetFunctions (p : positive) (funcId : Z) (valueBuf : pointer) : op unit :=
  api_call (edit_conn p) (InternalGetFunctions p funcId valueBuf).
End Calls.

(** ** The answers *)

(** [SQL_FUNC_EXISTS]. *)
Definition bit_of (a uwAPI : Z) (m : Memory) : bool :=
  Z.testbit (le_val (load (a + 2 * Z.shiftr uwAPI 4) 2 m)) (Z.land uwAPI 15).

Definition word_of (a id : Z) (m : Memory) : Z := le_val (load (a + 2 * id) 2 m).

Lemma load2_apart a i j v m : i <> j -> load (a + 2 * i) 2 (store (a + 2 * j) (le_bytes 2 v) m) = load (a + 2 * i) 2 m.
Proof. intros Hij. apply load_store_apart. unfold apart. rewrite length_le_bytes. lia. Qed.

Lemma word_set_word a i j m : word_of a i (set_word a j m) = if i =? j then 1 else word_of a i m.
Proof.
  unfold word_of, set_word. destruct (Z.eqb_spec i j) as [->|Hij].
  - by rewrite load_store_n.
  - by rewrite load2_apart.
Qed.

Lemma low_bits x : Z.land x 15 = x mod 16.
Proof. change 15 with (Z.ones 4). by rewrite Z.land_ones. Qed.

Lemma bit_position i j : Z.shiftr i 4 = Z.shiftr j 4 -> Z.land i 15 = Z.land j 15 -> i = j.
Proof.
  rewrite !low_bits, !Z.shiftr_div_pow2 by lia. change (2 ^ 4) with 16. intros Hd Hm.
  rewrite (Z.div_mod i 16), (Z.div_mod j 16) by lia. congruence.
Qed.

Lemma bit_SQL_FUNC_SET a i j m :
  bit_of a i (SQL_FUNC_SET a j m) = (i =? j) || bit_of a i m.
Proof.
  unfold bit_of, SQL_FUNC_SET.
  destruct (Z.eq_dec (Z.shiftr i 4) (Z.shiftr j 4)) as [Es|Es].
  - rewrite Es, load_store_n by (by rewrite length_le_bytes). rewrite le_val_le_bytes.
    assert (Hi : 0 <= Z.land i 15 < 16) by (rewrite low_bits; apply Z.mod_pos_bound; lia).
    assert (Hj : 0 <= Z.land j 15) by (rewrite low_bits; apply Z.mod_pos_bound; lia).
    change (8 * Z.of_nat 2) with 16. rewrite Z.mod_pow2_bits_low by lia.
    rewrite Z.lor_spec, Z.shiftl_1_l, Z.pow2_bits_eqb by lia. rewrite orb_comm. f_equal.
    destruct (Z.eqb_spec i j) as [->|Hij]; [by apply Z.eqb_refl|].
    apply Z.eqb_neq. intros E. by apply Hij, bit_position.
  - rewrite load2_apart by done. destruct (Z.eqb_spec i j) as [->|]; done.
Qed.

Lemma bit_fold a i (fs : list ApiFunction) m :
  bit_of a i (fold_left (fun m f => SQL_FUNC_SET a (api_id f) m) fs m) =
  existsb (fun f => i =? api_id f) fs || bit_of a i m.
Proof.
  revert m. induction fs as [|f fs IH]; intros m; [done|]. cbn [fold_left existsb].
  rewrite IH, bit_SQL_FUNC_SET. by destruct (existsb _ _), (i =? api_id f).
Qed.

Lemma word_fold a i (fs : list ApiFunction) m :
  word_of a i (fold_left (fun m f => set_word a (api_id f) m) fs m) =
  if existsb (fun f => i =? api_id f) fs then 1 else word_of a i m.
Proof.
  revert m. induction fs as [|f fs IH]; intros m; [done|]. cbn [fold_left existsb].
  rewrite IH, word_set_word. by destruct (existsb _ _), (i =? api_id f).
Qed.

Lemma nth_zeros i k : nth i (replicate k 0) 0 = 0.
Proof. revert i. induction k as [|k IH]; intros [|i]; cbn; auto. Qed.

Lemma load_zeros a n b k m :
  a <= b -> b + Z.of_nat k <= a + n -> load b k (zeros a n m) = replicate k 0.
Proof.
  intros Ha Hb. unfold zeros. revert b Ha Hb. induction k as [|k IH]; intros b Ha Hb; [done|].
  change (S k) with (1 + k)%nat. rewrite load_app, IH by lia. cbn [load map seq replicate app Nat.add].
  unfold store at 1. rewrite length_replicate, Z2Nat.id, Z.add_0_r by lia.
  rewrite (proj2 (Z.leb_le _ _)), (proj2 (Z.ltb_lt _ _)) by lia. cbn [andb]. by rewrite nth_zeros.
Qed.

Lemma listed_single :
  Forall (fun f => f = SQL_API_SQLCOLATTRIBUTES \/ f ∈ single_functions) (odbc3_functions ++ odbc2_functions).
Proof. apply (bool_decide_unpack _). by vm_compute. Qed.

Definition among (id : Z) (fs : list ApiFunction) : bool := existsb (fun f => id =? api_id f) fs.

Lemma among_mono id fs gs : (forall f, f ∈ fs -> f ∈ gs) -> among id fs = true -> among id gs = true.
Proof.
  unfold among. rewrite !existsb_exists. intros Hsub (f & Hf & E). exists f.
  split; [|done]. by apply list_elem_of_In, Hsub, list_elem_of_In.
Qed.

Lemma odbc3_bit a id m :
  0 <= id < 16 * SQL_API_ODBC3_ALL_FUNCTIONS_SIZE ->
  bit_of a id (SetODBC3FunctionsValue a (zeros a (2 * SQL_API_ODBC3_ALL_FUNCTIONS_SIZE) m)) =
  among id odbc3_functions.
Proof.
  intros Hid. unfold SetODBC3FunctionsValue. rewrite bit_fold. unfold bit_of at 1.
  assert (Z.shiftr id 4 = id / 16 /\ id = 16 * (id / 16) + id mod 16 /\ 0 <= id mod 16 < 16) as (E & Hd & Hm).
  { rewrite Z.shiftr_div_pow2 by lia. split_and!; [done|apply Z.div_mod; lia|apply Z.mod_pos_bound; lia..]. }
  rewrite E, load_zeros by lia. change (le_val (replicate 2 0)) with 0. rewrite Z.testbit_0_l.
  apply orb_false_r.
Qed.

Lemma odbc2_word a id m :
  0 <= id < 100 ->
  word_of a id (SetODBC2FunctionsValue a (zeros a (2 * 100) m)) =
  if among id odbc2_functions then 1 else 0.
Proof.
  intros Hid. unfold SetODBC2FunctionsValue. rewrite word_fold. unfold word_of, among.
  by rewrite load_zeros by lia.
Qed.

Lemma GetFunctions_ok {Q : Type} (p : positive) (a id : Z) (c : Connection) (w : World Q) :
  connections w !! p = Some c ->
  wp (GetFunctions p id (Some a))
    (fun _ w' => exists c', w' = upd_conn p c' (set_memory (functions_value id a (memory w)) w) /\
       result (conn_diag c') = AI_SUCCESS /\ statusRecords (conn_diag c') = []) w.
Proof.
  intros Hc. unfold GetFunctions, InternalGetFunctions. wp_steps. unfold wp at 1.
  rewrite set_memory_upd_conn. wp_steps. by eexists.
Qed.
End Functions.
End Functions.

(** The numbers of the ODBC headers. *)
Module FunctionNumbers.
Import Functions.

Definition number (f : ApiFunction) : Z :=
  match f with
  | SQL_API_SQLALLOCHANDLE => 1001 | SQL_API_SQLGETDESCFIELD => 1008 | SQL_API_SQLBINDCOL => 4
  | SQL_API_SQLGETDESCREC => 1009 | SQL_API_SQLCANCEL => 5 | SQL_API_SQLGETDIAGFIELD => 1010
  | SQL_API_SQLCLOSECURSOR => 1003 | SQL_API_SQLGETDIAGREC => 1011 | SQL_API_SQLCOLATTRIBUTE => 6
  | SQL_API_SQLGETENVATTR => 1012 | SQL_API_SQLCONNECT => 7 | SQL_API_SQLGETFUNCTIONS => 44
  | SQL_API_SQLCOPYDESC => 1004 | SQL_API_SQLGETINFO => 45 | SQL_API_SQLDATASOURCES => 57
  | SQL_API_SQLGETSTMTATTR => 1014 | SQL_API_SQLDESCRIBECOL => 8 | SQL_API_SQLGETTYPEINFO => 47
  | SQL_API_SQLDISCONNECT => 9 | SQL_API_SQLNUMRESULTCOLS => 18 | SQL_API_SQLDRIVERS => 71
  | SQL_API_SQLPARAMDATA => 48 | SQL_API_SQLENDTRAN => 1005 | SQL_API_SQLPREPARE => 19
  | SQL_API_SQLEXECDIRECT => 11 | SQL_API_SQLPUTDATA => 49 | SQL_API_SQLEXECUTE => 12
  | SQL_API_SQLROWCOUNT => 20 | SQL_API_SQLFETCH => 13 | SQL_API_SQLSETCONNECTATTR => 1016
  | SQL_API_SQLFETCHSCROLL => 1021 | SQL_API_SQLSETCURSORNAME => 21 | SQL_API_SQLFREEHANDLE => 1006
  | SQL_API_SQLSETDESCFIELD => 1017 | SQL_API_SQLFREESTMT => 16 | SQL_API_SQLSETDESCREC => 1018
  | SQL_API_SQLGETCONNECTATTR => 1007 | SQL_API_SQLSETENVATTR => 1019
  | SQL_API_SQLGETCURSORNAME => 17 | SQL_API_SQLSETSTMTATTR => 1020 | SQL_API_SQLGETDATA => 43
  | SQL_API_SQLCOLUMNS => 40 | SQL_API_SQLSTATISTICS => 53 | SQL_API_SQLSPECIALCOLUMNS => 52
  | SQL_API_SQLTABLES => 54 | SQL_API_SQLNATIVESQL => 62 | SQL_API_SQLBROWSECONNECT => 55
  | SQL_API_SQLNUMPARAMS => 63 | SQL_API_SQLBULKOPERATIONS => 24 | SQL_API_SQLPRIMARYKEYS => 65
  | SQL_API_SQLCOLUMNPRIVILEGES => 56 | SQL_API_SQLPROCEDURECOLUMNS => 66
  | SQL_API_SQLDESCRIBEPARAM => 58 | SQL_API_SQLPROCEDURES => 67 | SQL_API_SQLDRIVERCONNECT => 41
  | SQL_API_SQLSETPOS => 68 | SQL_API_SQLFOREIGNKEYS => 60 | SQL_API_SQLTABLEPRIVILEGES => 70
  | SQL_API_SQLMORERESULTS => 61 | SQL_API_SQLALLOCCONNECT => 1 | SQL_API_SQLALLOCENV => 2
  | SQL_API_SQLALLOCSTMT => 3 | SQL_API_SQLBINDPARAMETER => 72 | SQL_API_SQLERROR => 10
  | SQL_API_SQLEXTENDEDFETCH => 59 | SQL_API_SQLFREECONNECT => 14 | SQL_API_SQLFREEENV => 15
  | SQL_API_SQLGETCONNECTOPTION => 42 | SQL_API_SQLGETSTMTOPTION => 46
  | SQL_API_SQLPARAMOPTIONS => 64 | SQL_API_SQLSETCONNECTOPTION => 50 | SQL_API_SQLSETPARAM => 22
  | SQL_API_SQLSETSCROLLOPTIONS => 69 | SQL_API_SQLSETSTMTOPTION => 51 | SQL_API_SQLTRANSACT => 23
  | SQL_API_SQLCOLATTRIBUTES => 6
  end.

#[export, refine] Instance numbers : FunctionHeaders := {|
  api_id := number; SQL_API_ODBC3_ALL_FUNCTIONS := 999; SQL_API_ALL_FUNCTIONS := 0;
  SQL_API_ODBC3_ALL_FUNCTIONS_SIZE := 250 |}.
Proof. by intros []. Defined.
End FunctionNumbers.

(** ** Properties *)

Section Properties.
Import Memory Diag Handles Functions.
Context `{FunctionHeaders}.

(** [SQLGetFunctions] always succeeds; the bits of ODBC 3 and the words of
    ODBC 2 are set for the functions of their lists and clear for all others; a
    function of either list is also answered true when it is asked for alone; and
    for a function the switch does not know nothing is written at all. *)
Theorem supported_functions {Q : Type} (p : positive) (a : Z) (c : Connection) (w : World Q)
    (Hc : connections w !! p = Some c)
    (Halias : api_id SQL_API_SQLCOLATTRIBUTES = api_id SQL_API_SQLCOLATTRIBUTE)
    (Hall : SQL_API_ALL_FUNCTIONS <> SQL_API_ODBC3_ALL_FUNCTIONS)
    (Hlabels : forall f, api_id f <> SQL_API_ALL_FUNCTIONS /\ api_id f <> SQL_API_ODBC3_ALL_FUNCTIONS) :
  let after id := functions_value id a (memory w) in
  (forall id, exists c', GetFunctions p id (Some a) w = Ok (upd_conn p c' (set_memory (after id) w), tt) /\
     result (conn_diag c') = AI_SUCCESS /\ statusRecords (conn_diag c') = []) /\
  (forall id, 0 <= id < 16 * SQL_API_ODBC3_ALL_FUNCTIONS_SIZE ->
     bit_of a id (after SQL_API_ODBC3_ALL_FUNCTIONS) = among id odbc3_functions) /\
  (forall id, 0 <= id < 100 ->
     word_of a id (after SQL_API_ALL_FUNCTIONS) = if among id odbc2_functions then 1 else 0) /\
  (forall f, f ∈ odbc3_functions \/ f ∈ odbc2_functions -> word_of a 0 (after (api_id f)) = 1) /\
  (forall id, id <> SQL_API_ODBC3_ALL_FUNCTIONS -> id <> SQL_API_ALL_FUNCTIONS ->
     among id single_functions = false -> after id = memory w).
Proof.
  cbn zeta. unfold functions_value. split_and!.
  - intros id. pose proof (GetFunctions_ok p a id c w Hc) as Hwp.
    apply wp_run in Hwp as (w' & [] & E & c' & -> & Hr). by exists c'.
  - intros id Hid. rewrite Z.eqb_refl. by apply odbc3_bit.
  - intros id Hid. rewrite (proj2 (Z.eqb_neq _ _) Hall), Z.eqb_refl. by apply odbc2_word.
  - intros f Hf. destruct (Hlabels f) as [H1 H2].
    rewrite (proj2 (Z.eqb_neq _ _) H2), (proj2 (Z.eqb_neq _ _) H1).
    assert (Hs : is_single (api_id f) = true).
    { destruct (decide (f = SQL_API_SQLCOLATTRIBUTES)) as [->|Hne].
      - rewrite Halias. apply existsb_exists. exists SQL_API_SQLCOLATTRIBUTE. split; [|apply Z.eqb_refl].
        apply list_elem_of_In. by apply (bool_decide_unpack _).
      - apply existsb_exists. exists f. split; [|apply Z.eqb_refl]. apply list_elem_of_In.
        destruct (proj1 (Forall_forall _ _) listed_single f) as [?|?]; [|done|done].
        by apply elem_of_app. }
    rewrite Hs, word_set_word. done.
  - intros id H3 H2 Hs. rewrite (proj2 (Z.eqb_neq _ _) H3), (proj2 (Z.eqb_neq _ _) H2).
    unfold among in Hs. unfold is_single. by rewrite Hs.
Qed.
End Properties.

(** Browsing for a connection is reported, asking for a function number 1013 is
    left unanswered. *)
Lemma supported_functions_witness :
  let H := FunctionNumbers.numbers in
  let w := Handles.MkWorld (fun _ => 170) 0 [] ∅ {[1%positive := Handles.MkConn 1 true false
    (@Config.DefaultConfiguration ExamplePlatform) (Info.MkInfo ∅ ∅ ∅) true ∅ ∅
    (Handles.MkAttributes 0 1 0 1 1 1) Diag.NewStorage]} (∅ : gmap positive (Handles.Statement unit)) ∅ in
  Functions.bit_of 4000 55 (Functions.functions_value 999 4000 (Handles.memory w)) = true /\
  Functions.functions_value 1013 4000 (Handles.memory w) = Handles.memory w.
Proof.
  intros H w.
  destruct (@supported_functions FunctionNumbers.numbers unit 1 4000 _ w eq_refl eq_refl ltac:(done)
    ltac:(by intros [])) as (_ & H3 & _ & _ & Hno).
  split; [rewrite H3; [by vm_compute|by vm_compute]|by apply Hno].
Defined.
