(* ===== verification/Statement.v ===== *)
(** * Statement: the operations of a statement handle

    Models [src/statement.cpp]. Operations that touch only the objects of the
    driver are functions of the store ([op]); operations that call the current
    query are programs ([main]), since a query may wait for its threads, which
    run between any two actions. A query is any instance of [AbstractQuery]. *)

From S2P Require Import Prelude Text Codes Memory Diagnostics Configuration Encoding WideText AppBuffer GetData Column TypeTraits Fields Attributes ColumnMeta Interleave DataQuery Queries Handles Descriptor Connection.

Module Stmt.
Import Text Memory Diag Wide Encoding AppBuf GetData Types Fields Attrs Handles Desc.

#[global] Instance OdbcNativeType_eq_dec : EqDecision OdbcNativeType.
Proof. solve_decision. Defined.

Section Statement.
Context `{OdbcConstants} `{SqlCodes} `{FieldCodes} `{AttributeCodes} `{Abi}.
Context `{HA : Meta.AwsTypes} {Q : Type} `{!AbstractQuery Q} `{!Queries.QueryMaker Q}.

Abbreviation op := (op Q).
Abbreviation prog := (main (World Q)).

Local Open Scope op_scope.

(** Pointers and handles passed as numbers. *)
Definition ptr (v : Z) : pointer := if v =? 0 then None else Some v.
Definition handle (v : Z) : option positive := if v =? 0 then None else Some (Z.to_pos v).
Definition addr (p : pointer) : Z := default 0 p.

Definition error (p : positive) (st : SqlState) (msg : string) : op SqlResult :=
  add_stmt p st (txt msg) ;; op_ret AI_ERROR.

(** ** Construction *)

Definition NewStatement (conn a1 a2 a3 a4 : positive) : Statement Q :=
  MkStmt conn ∅ None None None None NewCell 1 1 a1 a2 a3 a4 a1 a3 NewStorage.

(** A statement at a fresh address with its four descriptors, which belong to no
    connection. *)
Definition AllocStatement (p conn a1 a2 a3 a4 : positive) : op unit :=
  let implicit t init := init (set_statement (Some p) (set_type t NewDescriptor)) in
  fun w => Ok (set_statements (<[p := NewStatement conn a1 a2 a3 a4]> (statements w))
      (set_descriptors
        (<[a1 := implicit ARD (InitAppHead true)]>
        (<[a2 := implicit APD (InitAppHead true)]>
        (<[a3 := implicit IRD InitImpHead]>
        (<[a4 := implicit IPD InitImpHead]> (descriptors w))))) w), tt).

(** ** Bound columns *)

Definition SafeBindColumn (columnIdx : Z) (b : ApplicationDataBuffer) (s : Statement Q) : Statement Q :=
  set_bindings (<[columnIdx := b]> (columnBindings s)) s.
Definition SafeUnbindAllColumns (s : Statement Q) : Statement Q := set_bindings ∅ s.

(** The types of a bound column. The sub-code of a type that is neither a date
    nor an interval stays as it was. *)
Definition bound_types (targetType : Z) (r : DescriptorRecord) : DescriptorRecord :=
  let same {A} `{Codes A} (t : A) := targetType =? id_of t in
  let typed t concise code :=
    assign SQL_DESC_DATETIME_INTERVAL_CODE (id_of code)
      (assign SQL_DESC_CONCISE_TYPE (id_of (A := SqlType) concise)
         (assign SQL_DESC_TYPE (id_of (A := SqlType) t) r)) in
  if same SQL_C_TYPE_DATE || same SQL_TYPE_TIME || same SQL_TYPE_TIMESTAMP then
    if same SQL_C_TYPE_DATE then typed SQL_DATETIME SQL_TYPE_DATE SQL_CODE_DATE
    else if same SQL_TYPE_TIME then typed SQL_DATETIME SQL_TYPE_TIME SQL_CODE_TIME
    else typed SQL_DATETIME SQL_TYPE_TIMESTAMP SQL_CODE_TIMESTAMP
  else if same SQL_C_INTERVAL_YEAR_TO_MONTH || same SQL_C_INTERVAL_DAY_TO_SECOND then
    if same SQL_C_INTERVAL_YEAR_TO_MONTH
    then typed SQL_INTERVAL SQL_INTERVAL_YEAR_TO_MONTH SQL_CODE_YEAR_TO_MONTH
    else typed SQL_INTERVAL SQL_INTERVAL_DAY_TO_SECOND SQL_CODE_DAY_TO_SECOND
  else assign SQL_DESC_CONCISE_TYPE targetType (assign SQL_DESC_TYPE targetType r).

Definition bound_record (targetType : Z) (targetValue : pointer) (bufferLength : Z)
    (strLengthOrIndicator : pointer) (r : DescriptorRecord) : DescriptorRecord :=
  let type := Some targetType in
  let length :=
    if is_type [ SQL_VARCHAR; SQL_WVARCHAR; SQL_CHAR; SQL_WCHAR; SQL_LONGVARCHAR;
                 SQL_WLONGVARCHAR ] targetType
    then u64 bufferLength else default 0 (SqlTypeTransferLength type) in
  assign SQL_DESC_OCTET_LENGTH_PTR (addr strLengthOrIndicator)
  (assign SQL_DESC_INDICATOR_PTR (addr strLengthOrIndicator)
  (assign SQL_DESC_DATA_PTR (addr targetValue)
  (assign SQL_DESC_OCTET_LENGTH bufferLength
  (assign SQL_DESC_SCALE (default 0 (SqlTypeScale type))
  (assign SQL_DESC_PRECISION (default 0 (SqlTypePrecision type))
  (assign SQL_DESC_LENGTH length (bound_types targetType r))))))).

(** [count] of a header that was never set has no value. *)
Definition SetDescriptorFields (p : positive) (columnIdx targetType : Z) (targetValue : pointer)
    (bufferLength : Z) (strLengthOrIndicator : pointer) : op unit :=
  let* s := get_stmt p in
  let* d := get_desc (ard s) in
  match members (desc_header d) !! SQL_DESC_COUNT with
  | None => op_fail Indeterminate
  | Some count =>
      on_desc (ard s) (fun d =>
        let d := if count <? columnIdx then set_member SQL_DESC_COUNT (i16 columnIdx) d else d in
        set_record columnIdx
          (bound_record targetType targetValue bufferLength strLengthOrIndicator (record_at columnIdx d)) d)
  end.

Definition InternalBindColumn (p : positive) (columnIdx targetType : Z) (targetValue : pointer)
    (bufferLength : Z) (strLengthOrIndicator : pointer) : op SqlResult :=
  let driverType := ToDriverType targetType in
  if bool_decide (driverType = AI_UNSUPPORTED) then
    error p SHY003_INVALID_APPLICATION_BUFFER_TYPE "The argument TargetType was not a valid data type."
  else if (bufferLength <? 0)
          || ((bufferLength =? 0)
              && (bool_decide (driverType = AI_CHAR) || bool_decide (driverType = AI_WCHAR))) then
    error p SHY090_INVALID_STRING_OR_BUFFER_LENGTH
      "The value specified for the argument BufferLength was less than 0 or 0 for string types."
  else
    match targetValue, strLengthOrIndicator with
    | None, None => on_stmt p (SafeUnbindColumn columnIdx) ;; op_ret AI_SUCCESS
    | _, _ =>
        on_stmt p (SafeBindColumn columnIdx
          (NewBuffer driverType targetValue bufferLength strLengthOrIndicator)) ;;
        SetDescriptorFields p columnIdx targetType targetValue bufferLength strLengthOrIndicator ;;
        op_ret AI_SUCCESS
    end.

Definition BindColumn (p : positive) (columnIdx targetType : Z) (targetValue : pointer)
    (bufferLength : Z) (strLengthOrIndicator : pointer) : op unit :=
  api_call (edit_stmt p)
    (InternalBindColumn p columnIdx targetType targetValue bufferLength strLengthOrIndicator).

(** ** Attributes *)

Definition SetARDDesc (p : positive) (desc : option positive) : op unit :=
  match desc with
  | None => on_stmt p (fun s => set_active (ardi s) (ird s) s)
  | Some d =>
      on_desc d (fun d => set_statement (Some p) (set_type ARD d)) ;;
      on_stmt p (fun s => set_active d (ird s) s)
  end.

(** A member of the header of the active row descriptor of the application, or
    of the driver. *)
Definition on_ard (p : positive) (f : FieldId) (v : Z) : op unit :=
  let* s := get_stmt p in on_desc (ard s) (set_member f v).
Definition on_ird (p : positive) (f : FieldId) (v : Z) : op unit :=
  let* s := get_stmt p in on_desc (ird s) (set_member f v).

(** [case A: if (value != wanted) { error } break]. *)
Definition accept (p : positive) (value wanted : Z) (msg : string) : op SqlResult :=
  if negb (value =? wanted) then error p SHYC00_OPTIONAL_FEATURE_NOT_IMPLEMENTED msg
  else op_ret AI_SUCCESS.

Definition InternalSetAttribute (p : positive) (attr value : Z) : op SqlResult :=
  match decode attr with
  | Some SQL_ATTR_CONCURRENCY =>
      accept p value SQL_CONCUR_READ_ONLY "Only read-only cursors are supported"
  | Some SQL_ATTR_CURSOR_TYPE =>
      accept p value SQL_CURSOR_FORWARD_ONLY "Only forward cursors are currently supported"
  | Some SQL_ATTR_METADATA_ID =>
      if negb (value =? SQL_TRUE) && negb (value =? SQL_FALSE) then
        error p SHY024_INVALID_ATTRIBUTE_VALUE "Invalid argument value"
      else
        let* s := get_stmt p in
        Connections.SetAttribute (connection s) (id_of SQL_ATTR_METADATA_ID) value ;;
        op_ret AI_SUCCESS
  | Some SQL_ATTR_RETRIEVE_DATA =>
      accept p value SQL_RD_ON "SQLFetch can only retrieve data after it positions the cursor"
  | Some SQL_ATTR_PARAM_BIND_TYPE =>
      accept p value SQL_PARAM_BIND_BY_COLUMN "Only binding by column is currently supported"
  | Some SQL_ATTR_APP_ROW_DESC =>
      let* s := get_stmt p in
      match handle value with
      | None => SetARDDesc p None ;; op_ret AI_SUCCESS
      | Some dp =>
          let* d := get_desc dp in
          if negb (bool_decide (desc_conn d = Some (connection s))) then
            error p SHY024_INVALID_ATTRIBUTE_VALUE
              "Descriptor does not belong to the statement connection."
          else if negb (bool_decide (desc_stmt d = None)) && negb (bool_decide (desc_stmt d = Some p)) then
            error p SHY000_GENERAL_ERROR "Descriptor has been set to another statement."
          else SetARDDesc p (Some dp) ;; op_ret AI_SUCCESS
      end
  | Some SQL_ROWSET_SIZE =>
      on_stmt p (set_rowsetSize value) ;;
      let* s := get_stmt p in
      on_desc (ard s) (fun d => set_header (MkHeader (members (desc_header d)) (Some value)) d) ;;
      op_ret AI_SUCCESS
  | Some SQL_ATTR_ROW_ARRAY_SIZE =>
      on_stmt p (set_rowArraySize value) ;; on_ard p SQL_DESC_ARRAY_SIZE value ;; op_ret AI_SUCCESS
  | Some SQL_ATTR_PARAM_BIND_OFFSET_PTR =>
      let* s := get_stmt p in
      on_desc (apdi s) (set_member SQL_DESC_BIND_OFFSET_PTR value) ;; op_ret AI_SUCCESS
  | Some SQL_ATTR_ROW_BIND_OFFSET_PTR =>
      on_stmt p (set_columnBindOffset (ptr value)) ;; on_ard p SQL_DESC_BIND_OFFSET_PTR value ;;
      op_ret AI_SUCCESS
  | Some SQL_ATTR_ROW_BIND_TYPE =>
      if negb (value =? SQL_BIND_BY_COLUMN) then
        error p SHYC00_OPTIONAL_FEATURE_NOT_IMPLEMENTED "Only binding by column is currently supported"
      else on_ard p SQL_DESC_BIND_TYPE (i32 value) ;; op_ret AI_SUCCESS
  | Some SQL_ATTR_ROW_OPERATION_PTR => on_ard p SQL_DESC_ARRAY_STATUS_PTR value ;; op_ret AI_SUCCESS
  | Some SQL_ATTR_ROW_STATUS_PTR =>
      on_stmt p (set_rowStatuses (ptr value)) ;; on_ird p SQL_DESC_ARRAY_STATUS_PTR value ;;
      op_ret AI_SUCCESS
  | Some SQL_ATTR_ROWS_FETCHED_PTR =>
      on_stmt p (set_rowsFetched (ptr value)) ;; on_ird p SQL_DESC_ROWS_PROCESSED_PTR value ;;
      op_ret AI_SUCCESS
  | _ => error p SHYC00_OPTIONAL_FEATURE_NOT_IMPLEMENTED "Specified attribute is not supported."
  end.

Definition SetAttribute (p : positive) (attr value : Z) : op unit :=
  api_call (edit_stmt p) (InternalSetAttribute p attr value).

(** [SetAttribute(StatementAttributes&)]: six calls, each with its own
    diagnostics. *)
Definition SetAttributes (p : positive) (a : StatementAttributes) : op unit :=
  SetAttribute p (id_of SQL_ATTR_ROW_BIND_TYPE) (bindType a) ;;
  SetAttribute p (id_of SQL_ATTR_CONCURRENCY) (concurrency a) ;;
  SetAttribute p (id_of SQL_ATTR_CURSOR_TYPE) (cursorType a) ;;
  SetAttribute p (id_of SQL_ATTR_RETRIEVE_DATA) (retrieveData a) ;;
  SetAttribute p (id_of SQL_ATTR_ROW_ARRAY_SIZE) (rowArraySize a) ;;
  SetAttribute p (id_of SQL_ROWSET_SIZE) (rowsetSize a).

(** [Connection::InternalCreateStatement], which calls the two. *)
Definition InternalCreateStatement (conn p a1 a2 a3 a4 : positive) : op SqlResult :=
  AllocStatement p conn a1 a2 a3 a4 ;;
  let* c := get_conn conn in
  SetAttributes p (stmtAttr_ c) ;;
  op_ret AI_SUCCESS.
Definition CreateStatement (conn p a1 a2 a3 a4 : positive) : op positive :=
  api_call (edit_conn conn) (InternalCreateStatement conn p a1 a2 a3 a4) ;; op_ret p.

(** The current query, with the storage of the statement, and its return. *)
Definition get_query (p : positive) (w : World Q) : option Q :=
  match statements w !! p with
  | Some s => option_map (with_diag (stmt_diag s)) (currentQuery s)
  | None => None
  end.

Definition put_query (p : positive) (q : Q) (w : World Q) : World Q :=
  match statements w !! p with
  | Some s => upd_stmt p (set_stmt_diag (query_diag q) (set_query (Some q) s)) w
  | None => w
  end.

(** An answer of 8 bytes, and the length of one with an indicated kind. *)
Definition put_ulen (buf : pointer) (v : Z) : op SqlResult := write buf 8 v ;; op_ret AI_SUCCESS.
Definition put_kind (buf valueLen : pointer) (v kind : Z) : op SqlResult :=
  write buf 8 v ;; Connections.write_opt valueLen 4 kind ;; op_ret AI_SUCCESS.

Definition row_number (p : positive) (buf : pointer) : op SqlResult :=
  fun w =>
    match get_query p w with
    | None =>
        (add_stmt p S24000_INVALID_CURSOR_STATE
           (txt "Cursor is not in the open state, cannot determine row number") ;;
         put_ulen buf 0) w
    | Some q => let '(q, n) := RowNumber q in put_ulen buf n (put_query p q w)
    end.

Definition InternalGetAttribute (p : positive) (attr : Z) (buf valueLen : pointer) : op SqlResult :=
  match buf with
  | None => error p SHY000_GENERAL_ERROR "Data buffer is NULL."
  | Some _ =>
      let* s := get_stmt p in
      match decode attr with
      | Some SQL_ATTR_APP_ROW_DESC => put_kind buf valueLen (Zpos (ard s)) SQL_IS_POINTER
      | Some SQL_ATTR_IMP_ROW_DESC => put_kind buf valueLen (Zpos (ird s)) SQL_IS_POINTER
      | Some SQL_ATTR_APP_PARAM_DESC => put_kind buf valueLen (Zpos (apdi s)) SQL_IS_POINTER
      | Some SQL_ATTR_IMP_PARAM_DESC => put_kind buf valueLen (Zpos (ipdi s)) SQL_IS_POINTER
      | Some SQL_ATTR_CONCURRENCY => put_ulen buf SQL_CONCUR_READ_ONLY
      | Some SQL_ATTR_CURSOR_SCROLLABLE => put_ulen buf SQL_NONSCROLLABLE
      | Some SQL_ATTR_CURSOR_SENSITIVITY => put_ulen buf SQL_INSENSITIVE
      | Some SQL_ATTR_CURSOR_TYPE => put_ulen buf SQL_CURSOR_FORWARD_ONLY
      | Some SQL_ATTR_ENABLE_AUTO_IPD => put_ulen buf SQL_FALSE
      | Some SQL_ATTR_METADATA_ID =>
          let* c := get_conn (connection s) in
          put_ulen buf (if metadataID_ c then SQL_TRUE else SQL_FALSE)
      | Some SQL_ATTR_RETRIEVE_DATA => put_ulen buf SQL_RD_ON
      | Some SQL_ROWSET_SIZE => put_kind buf valueLen (rowsetSize__ s) SQL_IS_UINTEGER
      | Some SQL_ATTR_ROW_ARRAY_SIZE => put_kind buf valueLen (rowArraySize_ s) SQL_IS_UINTEGER
      | Some SQL_ATTR_ROW_BIND_TYPE => put_ulen buf SQL_BIND_BY_COLUMN
      | Some SQL_ATTR_ROWS_FETCHED_PTR => put_kind buf valueLen (addr (rowsFetched s)) SQL_IS_POINTER
      | Some SQL_ATTR_ROW_NUMBER => row_number p buf
      | Some SQL_ATTR_ROW_STATUS_PTR => put_kind buf valueLen (addr (rowStatuses s)) SQL_IS_POINTER
      | Some SQL_ATTR_PARAM_BIND_TYPE => put_ulen buf SQL_PARAM_BIND_BY_COLUMN
      | Some SQL_ATTR_ROW_BIND_OFFSET_PTR => put_kind buf valueLen (addr (columnBindOffset s)) SQL_IS_POINTER
      | _ => error p SHYC00_OPTIONAL_FEATURE_NOT_IMPLEMENTED "Specified attribute is not supported."
      end
  end.

Definition GetAttribute (p : positive) (attr : Z) (buf valueLen : pointer) : op unit :=
  api_call (edit_stmt p) (InternalGetAttribute p attr buf valueLen).

Definition InternalGetStmtOption (p : positive) (option : Z) (value : pointer) : op SqlResult :=
  match value with
  | None => error p SHY000_GENERAL_ERROR "Data buffer is NULL."
  | Some _ => InternalGetAttribute p option value None
  end.

Definition GetStmtOption (p : positive) (option : Z) (value : pointer) : op unit :=
  api_call (edit_stmt p) (InternalGetStmtOption p option value).

(** ** Names of cursors *)

(** [isTruncated] has no value when the buffer has no room at all. *)
Definition InternalGetCursorName (p : positive) (nameBuf : pointer) (nameBufLen : Z)
    (nameResLen : pointer) : op SqlResult :=
  let* s := get_stmt p in
  let* c := get_conn (connection s) in
  let size := u64 ((nameBufLen + 1) * sizeof_SQLWCHAR) in
  if bool_decide (is_Some nameBuf) && (size =? 0) then op_fail Indeterminate
  else
    let* copied := (fun w =>
      let '(resultLen, isTruncated, m) :=
        CopyUtf8StringToSqlWcharString (c_str (Connections.GetCursorName p c)) nameBuf size false (memory w) in
      Ok (set_memory m w, (resultLen, isTruncated))) in
    let '(resultLen, isTruncated) := copied in
    write nameResLen 2 (resultLen / sizeof_SQLWCHAR) ;;
    if (isTruncated : bool) then
      add_stmt p S01000_GENERAL_WARNING (txt "Buffer is too small for the cursor name.") ;;
      op_ret AI_SUCCESS_WITH_INFO
    else op_ret AI_SUCCESS.

Definition GetCursorName (p : positive) (nameBuf : pointer) (nameBufLen : Z) (nameResLen : pointer)
    : op unit := api_call (edit_stmt p) (InternalGetCursorName p nameBuf nameBufLen nameResLen).

Definition CURSOR_NAME_MAX_LENGTH : Z := 18.

(** [fuel] bounds the search for the terminator of a name without a length. *)
Definition InternalSetCursorName (fuel : nat) (p : positive) (name : pointer) (nameLen : Z)
    : op SqlResult :=
  if CURSOR_NAME_MAX_LENGTH <? nameLen then
    add_stmt p S3C000_DUPLICATE_CURSOR_NAME
      (txt "The number of characters in cursor name (" ++ show_int nameLen
       ++ txt ") exceeds the maximum allowed number (" ++ show_int CURSOR_NAME_MAX_LENGTH ++ txt ")") ;;
    op_ret AI_ERROR
  else
    let* cursorName := (fun w =>
      match SqlWcharToString SQL_NTS fuel name nameLen false (memory w) with
      | Ok s => Ok (w, s)
      | Err e => Err e
      end) in
    let pattern := txt "SQL_CUR" in
    if (length pattern <=? length cursorName)%nat
       && text_eqb (ToUpper (c_str (take (length pattern) cursorName))) pattern then
      add_stmt p S34000_INVALID_CURSOR_NAME (txt "Cursor name should not start with " ++ pattern) ;;
      op_ret AI_ERROR
    else
      let* s := get_stmt p in
      let* c := get_conn (connection s) in
      if Connections.CursorNameExists cursorName c then
        add_stmt p S3C000_DUPLICATE_CURSOR_NAME
          (txt "Cursor name " ++ ["034"%char] ++ cursorName ++ ["034"%char]
           ++ txt " has already been used.") ;;
        op_ret AI_ERROR
      else
        on_conn (connection s) (Connections.AddCursorName p cursorName) ;; op_ret AI_SUCCESS.

Definition SetCursorName (fuel : nat) (p : positive) (name : pointer) (nameLen : Z) : op unit :=
  api_call (edit_stmt p) (InternalSetCursorName fuel p name nameLen).

(** ** Programs with the current query *)

(** The threads of the queries of all statements; a thread is a statement and
    the number of a thread of its query. *)
Definition world_tick (t : positive * nat) (w : World Q) : option (World Q) :=
  match get_query (fst t) w with
  | Some q => option_map (fun q' => put_query (fst t) q' w) (query_step (snd t) q)
  | None => None
  end.

Local Open Scope main_scope.

(** A call of a method of the current query. *)
Definition query {A} (p : positive) (m : main Q A) : prog A := zoom (get_query p) (put_query p) m.

(** [connection.GetMetadataID()]. *)
Definition metadata_id (p : positive) : op bool :=
  op_bind (get_stmt p) (fun s w =>
    Ok (w, match connections w !! connection s with Some c => metadataID_ c | None => false end)).

(** [currentQuery->Execute()]. *)
Definition execute (fuel : nat) (p : positive) : prog SqlResult :=
  let! metadata := step (metadata_id p) in query p (Execute fuel metadata).

(** [IGNITE_ODBC_API_CALL] on a program. *)
Definition api_prog (p : positive) (body : prog SqlResult) : prog unit :=
  step (edit_stmt p Reset) ;;
  let! result := body in
  step (edit_stmt p (fun g => SetHeaderRecord g result)).

Definition has_query (p : positive) : op bool :=
  op_bind (get_stmt p) (fun s => op_ret (bool_decide (is_Some (currentQuery s)))).

(** [if (!currentQuery.get()) { error }], then the rest. *)
Definition with_query (p : positive) (st : SqlState) (msg : string) (body : prog SqlResult)
    : prog SqlResult :=
  let! present := step (has_query p) in
  if present : bool then body else step (error p st msg).

Definition no_cursor (p : positive) : prog SqlResult -> prog SqlResult :=
  with_query p S24000_INVALID_CURSOR_STATE "Cursor is not in the open state.".

(** [if (currentQuery.get()) currentQuery->Close(); currentQuery.reset(q)]: the
    old query is closed, and deleted after the new one is made. *)
Definition replace_query (p : positive) (make : DiagnosticRecordStorage -> Q) : prog unit :=
  let! present := step (has_query p) in
  (if present : bool then query p Close ;; query p Delete else Ret tt) ;;
  step (on_stmt p (fun s => set_query (Some (make (stmt_diag s))) s)).

Definition InternalPrepareSqlQuery (p : positive) (sql : text) : prog SqlResult :=
  let! s := step (get_stmt p) in
  let! c := step (get_conn (connection s)) in
  replace_query p (Queries.new_data_query (config_ c) sql) ;;
  Ret AI_SUCCESS.
Definition PrepareSqlQuery (p : positive) (sql : text) : prog unit :=
  api_prog p (InternalPrepareSqlQuery p sql).

(** No rows is a success of [SQLExecute], with a warning. *)
Definition InternalExecute (fuel : nat) (p : positive) : prog SqlResult :=
  with_query p SHY010_SEQUENCE_ERROR "Query is not prepared."
    (let! metadata := step (metadata_id p) in
     let! retval := query p (Execute fuel metadata) in
     match retval with
     | AI_NO_DATA =>
         step (add_stmt p S01000_GENERAL_WARNING (txt "Query result is empty")) ;;
         Ret AI_SUCCESS_WITH_INFO
     | _ => Ret retval
     end).
Definition ExecuteSqlQuery (fuel : nat) (p : positive) : prog unit := api_prog p (InternalExecute fuel p).

Definition InternalExecuteSqlQuery (fuel : nat) (p : positive) (sql : text) : prog SqlResult :=
  let! result := InternalPrepareSqlQuery p sql in
  match result with
  | AI_SUCCESS => InternalExecute fuel p
  | _ => Ret result
  end.
Definition ExecuteDirect (fuel : nat) (p : positive) (sql : text) : prog unit :=
  api_prog p (InternalExecuteSqlQuery fuel p sql).

Definition InternalCancelSqlQuery (p : positive) : prog SqlResult :=
  with_query p SHY010_SEQUENCE_ERROR "Query does not exist." (query p Cancel).
Definition CancelSqlQuery (p : positive) : prog unit := api_prog p (InternalCancelSqlQuery p).

(** The catalog functions without data. The version of ODBC is asked after the
    old query was closed. *)
Definition InternalExecuteStatic (fuel : nat) (p : positive) (kind : Queries.StaticKind) : prog SqlResult :=
  replace_query p (Queries.new_static_query kind) ;;
  execute fuel p.
Definition ExecuteStatic (fuel : nat) (p : positive) (kind : Queries.StaticKind) : prog unit :=
  api_prog p (InternalExecuteStatic fuel p kind).

Definition InternalExecuteStatisticsQuery (fuel : nat) (p : positive) : prog SqlResult :=
  let! present := step (has_query p) in
  (if present : bool then query p Close ;; Ret tt else Ret tt) ;;
  let! s := step (get_stmt p) in
  let! v := step (Connections.GetEnvODBCVer (connection s)) in
  (if present : bool then query p Delete else Ret tt) ;;
  step (on_stmt p (fun s =>
    set_query (Some (Queries.new_static_query (Queries.Statistics v) (stmt_diag s))) s)) ;;
  execute fuel p.
Definition ExecuteStatisticsQuery (fuel : nat) (p : positive) : prog unit :=
  api_prog p (InternalExecuteStatisticsQuery fuel p).

Definition InternalExecuteGetTypeInfoQuery (fuel : nat) (p : positive) (sqlType : Z) : prog SqlResult :=
  if negb (sqlType =? SQL_ALL_TYPES) && negb (IsSqlTypeSupported (Some sqlType)) then
    step (op_bind (add_stmt p SHYC00_OPTIONAL_FEATURE_NOT_IMPLEMENTED
            (txt "Data type is not supported. [typeId=" ++ show_int sqlType ++ txt "]"))
            (fun _ => op_ret AI_ERROR))
  else
    replace_query p (Queries.new_type_info_query sqlType) ;;
    execute fuel p.
Definition ExecuteGetTypeInfoQuery (fuel : nat) (p : positive) (sqlType : Z) : prog unit :=
  api_prog p (InternalExecuteGetTypeInfoQuery fuel p sqlType).

(** What the constructors of the queries over tables ask of the connection. *)
Definition table_arguments (p : positive) (catalog schema table last : option text)
    : op Queries.TableArguments :=
  let* s := get_stmt p in
  let* c := get_conn (connection s) in
  let* v := Connections.GetEnvODBCVer (connection s) in
  op_ret (Queries.MkArguments (config_ c) (metadataID_ c) v catalog schema table last).

Definition InternalExecuteGetColumnsMetaQuery (fuel : nat) (p : positive)
    (catalog schema table column : option text) : prog SqlResult :=
  let! a := step (table_arguments p catalog schema table column) in
  replace_query p (Queries.new_column_query a) ;;
  execute fuel p.
Definition ExecuteGetColumnsMetaQuery (fuel : nat) (p : positive)
    (catalog schema table column : option text) : prog unit :=
  api_prog p (InternalExecuteGetColumnsMetaQuery fuel p catalog schema table column).

Definition InternalExecuteGetTablesMetaQuery (fuel : nat) (p : positive)
    (catalog schema table tableType : option text) : prog SqlResult :=
  let! a := step (table_arguments p catalog schema table tableType) in
  replace_query p (Queries.new_table_query a) ;;
  execute fuel p.
Definition ExecuteGetTablesMetaQuery (fuel : nat) (p : positive)
    (catalog schema table tableType : option text) : prog unit :=
  api_prog p (InternalExecuteGetTablesMetaQuery fuel p catalog schema table tableType).

(** ** Closing *)

Definition InternalClose (p : positive) (ignoreErrors : bool) : prog SqlResult :=
  let! present := step (has_query p) in
  if negb present then Ret AI_SUCCESS
  else
    let! available := query p (ask DataAvailable) in
    if negb available then
      step (add_stmt p S24000_INVALID_CURSOR_STATE (txt "No cursor was open")) ;;
      Ret (if ignoreErrors then AI_SUCCESS else AI_ERROR)
    else
      let! result := query p Close in
      Ret (if ignoreErrors then AI_SUCCESS else result).
Definition StmtClose (p : positive) : prog unit := api_prog p (InternalClose p false).

Definition InternalFreeResources (p : positive) (option : Z) : prog SqlResult :=
  if option =? SQL_DROP then
    step (error p SHY000_GENERAL_ERROR "Deprecated, call SQLFreeHandle instead")
  else if option =? SQL_CLOSE then InternalClose p true
  else if option =? SQL_UNBIND then
    step (on_stmt p SafeUnbindAllColumns) ;; Ret AI_SUCCESS
  else
    step (error p SHY092_OPTION_TYPE_OUT_OF_RANGE
      "The value specified for the argument Option was invalid").
Definition FreeResources (p : positive) (option : Z) : prog unit :=
  api_prog p (InternalFreeResources p option).

(** ** Fetching *)

Definition SqlResultToRowResult (value : SqlResult) : Z :=
  match value with
  | AI_NO_DATA => SQL_ROW_NOROW
  | AI_SUCCESS => SQL_ROW_SUCCESS
  | AI_SUCCESS_WITH_INFO => SQL_ROW_SUCCESS_WITH_INFO
  | _ => SQL_ROW_ERROR
  end.

(** An element of the array of statuses, two bytes wide. *)
Definition put_status (statuses : pointer) (i : Z) (res : SqlResult) : op unit :=
  match statuses with
  | Some a => write (Some (a + 2 * i)) 2 (SqlResultToRowResult res)
  | None => op_ret tt
  end.

(** The bound buffers and the memory of the application. *)
Definition get_screen (p : positive) : op Query.Screen :=
  op_bind (get_stmt p) (fun s w => Ok (w, (columnBindings s, memory w))).
Definition put_screen (p : positive) (screen : Query.Screen) : op unit :=
  op_bind (on_stmt p (set_bindings (fst screen))) (fun _ w => Ok (set_memory (snd screen) w, tt)).

Definition count_row (res : SqlResult) (counts : Z * Z) : Z * Z :=
  let '(fetched, errors) := counts in
  match res with
  | AI_SUCCESS | AI_SUCCESS_WITH_INFO => (fetched + 1, errors)
  | AI_NO_DATA => counts
  | _ => (fetched, errors + 1)
  end.

(** The loop over a rowset, from the row [i] on; the counts are of the rows
    fetched and of the errors. *)
Fixpoint fetch_rows (p : positive) (statuses : pointer) (n : nat) (i : Z) (counts : Z * Z)
    : prog (Z * Z) :=
  match n with
  | O => Ret counts
  | S n' =>
      step (on_stmt p (fun s => set_bindings (SetElementOffset i <$> columnBindings s) s)) ;;
      let! screen := step (get_screen p) in
      let! fetched := query p (FetchNextRow screen) in
      step (put_screen p (snd fetched)) ;;
      step (put_status statuses i (fst fetched)) ;;
      fetch_rows p statuses n' (i + 1) (count_row (fst fetched) counts)
  end.

Definition rowset_result (counts : Z * Z) : SqlResult :=
  let '(fetched, errors) := counts in
  if 0 <? fetched then (if errors =? 0 then AI_SUCCESS else AI_SUCCESS_WITH_INFO)
  else if errors =? 0 then AI_NO_DATA else AI_ERROR.

(** [if (rowsFetched) *rowsFetched = n]. *)
Definition put_count (rowsFetched : pointer) (n : Z) : op unit := Connections.write_opt rowsFetched 8 n.

Definition InternalFetchRow (p : positive) : prog SqlResult :=
  let! s := step (get_stmt p) in
  step (put_count (rowsFetched s) 0) ;;
  no_cursor p
    (step (on_stmt p (fun s => set_cell (MkCell (currentColNum (cell s)) 0) s)) ;;
     let! offset := step (fun w =>
       Ok (w, match columnBindOffset s with Some a => le_val (load a 8 (memory w)) | None => 0 end)) in
     step (on_stmt p (fun s => set_bindings (SetByteOffset offset <$> columnBindings s) s)) ;;
     let! counts := fetch_rows p (rowStatuses s) (Z.to_nat (rowArraySize_ s)) 0 (0, 0) in
     step (put_count (rowsFetched s) (fst counts)) ;;
     Ret (rowset_result counts)).
Definition FetchRow (p : positive) : prog unit := api_prog p (InternalFetchRow p).

Definition only_next (p : positive) (orientation : Z) (body : prog SqlResult) : prog SqlResult :=
  if negb (orientation =? SQL_FETCH_NEXT) then
    step (error p SHYC00_OPTIONAL_FEATURE_NOT_IMPLEMENTED
      "Only SQL_FETCH_NEXT FetchOrientation type is supported")
  else body.

Definition InternalFetchScroll (p : positive) (orientation : Z) : prog SqlResult :=
  only_next p orientation (InternalFetchRow p).
Definition FetchScroll (p : positive) (orientation : Z) : prog unit :=
  api_prog p (InternalFetchScroll p orientation).

(** Unlike [InternalFetchRow] the offset of the cell being read in parts stays. *)
Definition InternalExtendedFetch (p : positive) (orientation : Z) (rowCount rowStatusArray : pointer)
    : prog SqlResult :=
  only_next p orientation
    (no_cursor p
       (step (put_count rowCount 0) ;;
        step (on_stmt p (fun s => set_bindings (SetByteOffset 0 <$> columnBindings s) s)) ;;
        let! s := step (get_stmt p) in
        let! counts := fetch_rows p rowStatusArray (Z.to_nat (rowsetSize__ s)) 0 (0, 0) in
        step (put_count rowCount (fst counts)) ;;
        Ret (rowset_result counts))).
Definition ExtendedFetch (p : positive) (orientation : Z) (rowCount rowStatusArray : pointer)
    : prog unit := api_prog p (InternalExtendedFetch p orientation rowCount rowStatusArray).

Definition InternalGetColumnData (p : positive) (columnIdx : Z) (b : ApplicationDataBuffer)
    : prog (SqlResult * ApplicationDataBuffer) :=
  let! present := step (has_query p) in
  if present : bool then
    let! m := step (fun w => Ok (w, memory w)) in
    let! read := query p (GetColumn columnIdx b m) in
    let '(res, b, m) := read in
    step (fun w => Ok (set_memory m w, tt)) ;;
    Ret (res, b)
  else
    let! res := step (error p S24000_INVALID_CURSOR_STATE "Cursor is not in the open state.") in
    Ret (res, b).

(** The result of the call and the buffer as the call left it. *)
Definition GetColumnData (p : positive) (columnIdx : Z) (b : ApplicationDataBuffer)
    : prog ApplicationDataBuffer :=
  step (edit_stmt p Reset) ;;
  let! read := InternalGetColumnData p columnIdx b in
  step (edit_stmt p (fun g => SetHeaderRecord g (fst read))) ;;
  Ret (snd read).

Definition InternalMoreResults (p : positive) : prog SqlResult :=
  with_query p SHY010_SEQUENCE_ERROR "Query is not executed." (Ret NextResultSet).
Definition MoreResults (p : positive) : prog unit := api_prog p (InternalMoreResults p).

(** ** Metadata *)

Definition StmtGetMeta (p : positive) : prog (option (list Meta.ColumnMeta)) :=
  let! present := step (has_query p) in
  if present : bool then query p GetMeta
  else step (error p SHY010_SEQUENCE_ERROR "Query is not executed.") ;; Ret None.

Definition StmtDataAvailable (p : positive) : prog bool :=
  let! present := step (has_query p) in
  if present : bool then query p (ask DataAvailable) else Ret false.

Definition InternalGetColumnNumber (p : positive) : prog (SqlResult * Z) :=
  let! meta := StmtGetMeta p in
  Ret match meta with
      | None => (AI_ERROR, 0)
      | Some meta => (AI_SUCCESS, i32 (Z.of_nat (length meta)))
      end.

(** The answer to [SQLNumResultCols]. *)
Definition GetColumnNumber (p : positive) : prog Z :=
  step (edit_stmt p Reset) ;;
  let! r := InternalGetColumnNumber p in
  step (edit_stmt p (fun g => SetHeaderRecord g (fst r))) ;;
  Ret (snd r).

Definition AffectedRowsOf (p : positive) : prog Z :=
  step (edit_stmt p Reset) ;;
  let! present := step (has_query p) in
  if present : bool then
    let! n := query p (ask AffectedRows) in
    step (edit_stmt p (fun g => SetHeaderRecord g AI_SUCCESS)) ;; Ret n
  else
    let! res := step (error p SHY010_SEQUENCE_ERROR "Query is not executed.") in
    step (edit_stmt p (fun g => SetHeaderRecord g res)) ;; Ret 0.

(** The text of an attribute, copied if there is a buffer, its length reported. *)
Definition put_attribute_text (out : text) (strbuf : pointer) (buflen : Z) (reslen : pointer) : op SqlResult :=
  fun w =>
    let '(outSize, isTruncated, m) :=
      match strbuf with
      | Some _ => CopyStringToBuffer out strbuf (u64 buflen) true (memory w)
      | None => (Z.of_nat (length out), false, memory w)
      end in
    op_bind (Connections.write_opt reslen 2 outSize)
      (fun _ => op_ret (if (isTruncated : bool) then AI_SUCCESS_WITH_INFO else AI_SUCCESS)) (set_memory m w).

(** A number attribute stores its value even when it is not one; then the text
    is tried. *)
Definition column_attribute (p : positive) (attrId : Z) (m : Meta.ColumnMeta) (strbuf : pointer)
    (buflen : Z) (reslen numbuf : pointer) : op SqlResult :=
  let by_text :=
    let '(found, out) := Meta.GetTextAttribute attrId m in
    if (found : bool) then put_attribute_text out strbuf buflen reslen
    else error p SHYC00_OPTIONAL_FEATURE_NOT_IMPLEMENTED "Unknown attribute." in
  match numbuf with
  | Some a =>
      let '(found, v) := Meta.GetNumericAttribute attrId m in
      op_bind (write numbuf 8 v) (fun _ => if (found : bool) then op_ret AI_SUCCESS else by_text)
  | None => by_text
  end.

Definition InternalGetColumnAttribute (p : positive) (colIdx attrId : Z) (strbuf : pointer)
    (buflen : Z) (reslen numbuf : pointer) : prog SqlResult :=
  let! meta := StmtGetMeta p in
  match meta with
  | None => Ret AI_ERROR
  | Some meta =>
      if (Z.of_nat (length meta) <? colIdx) || (colIdx <? 1) then
        step (op_bind (on_stmt p (fun s => set_stmt_diag (AdapterAddStatusRecord true (stmt_diag s)
                SHY000_GENERAL_ERROR (txt "Column index is out of range.") 0 colIdx) s))
                (fun _ => op_ret AI_ERROR))
      else
        match meta !! Z.to_nat (colIdx - 1) with
        | Some m => step (column_attribute p attrId m strbuf buflen reslen numbuf)
        | None => Throw OutOfBounds
        end
  end.
Definition GetColumnAttribute (p : positive) (colIdx attrId : Z) (strbuf : pointer) (buflen : Z)
    (reslen numbuf : pointer) : prog unit :=
  api_prog p (InternalGetColumnAttribute p colIdx attrId strbuf buflen reslen numbuf).
End Statement.
End Stmt.
