(* ===== verification/EntryPoints.v ===== *)
(** * EntryPoints: the functions of the ODBC interface

    Models [src/odbc.cpp] and the functions [src/entry_points.cpp] does not pass on
    to it. A handle is an address, [None] the null handle; every
    function is a program that returns a return code. Objects are made at addresses
    given to the functions, which the allocator would choose; variables on the stack
    whose address is passed on are cells of the memory at [frame]. [fuel] bounds
    the search for the end of a text and the loops of a query. The functions that
    ask the driver manager for a window are Windows only and left out. *)

From S2P Require Import Prelude Text Codes Memory Diagnostics Environment Encoding WideText AppBuffer GetData TypeTraits Fields Attributes ConnectionInfo Configuration DsnConfig Authentication ColumnMeta Interleave DataQuery Queries Handles Descriptor Connection Establish NativeSql Functions Statement.

Module Odbc.
Import Text Memory Diag Encoding Wide AppBuf Types Fields Attrs Handles.
Local Open Scope op_scope.

(** Constants the entry points use beside those of the handles. *)
Class HandleCodes : Type := {
  SQL_INVALID_HANDLE : Z;
  SQL_HANDLE_ENV : Z; SQL_HANDLE_DBC : Z; SQL_HANDLE_STMT : Z; SQL_HANDLE_DESC : Z;
  handle_types_distinct : NoDup [SQL_HANDLE_ENV; SQL_HANDLE_DBC; SQL_HANDLE_STMT; SQL_HANDLE_DESC];
  SQL_COLUMN_TYPE : Z; SQL_DATE : Z; SQL_TIME : Z; SQL_TIMESTAMP : Z
}.

Section Odbc.
Context `{!OdbcConstants} `{!SqlCodes} `{!FieldCodes} `{!AttributeCodes} `{!Encoding.Abi} `{!Floats}.
Context `{HA : Meta.AwsTypes} {Q : Type} `{!AbstractQuery Q} `{!Queries.QueryMaker Q}.
Context `{!HandleCodes} `{HP : Config.Platform} `{!Info.InfoHeaders} `{!Meta.Deployment}.
Context `{!Login.AwsClients} `{HS : Auth.AwsSdk} `{HI : Dsn.Installer} `{!Functions.FunctionHeaders}.

Abbreviation op := (op Q).
Abbreviation prog := (main (World Q)).

(** ** Handles *)

Definition address (h : option positive) : Z := match h with Some p => Zpos p | None => 0 end.

(** [*handle = object]. *)
Definition put_handle (result : pointer) (h : option positive) : op unit := write result 8 (address h).

Definition get_env (p : positive) : op Env.Environment := fun w => found (environments w !! p) w.
Definition on_env (p : positive) (f : Env.Environment -> Env.Environment) : op unit :=
  let* e := get_env p in
  fun w => Ok (set_environments (<[p := f e]> (environments w)) w, tt).

(** [GetDiagnosticRecords().GetReturnCode()] of the four kinds of objects. *)
Definition env_code (p : positive) : op Z :=
  let* e := get_env p in op_ret (GetReturnCode (Env.diagnosticRecords e)).
Definition conn_code (p : positive) : op Z :=
  let* c := get_conn p in op_ret (GetReturnCode (conn_diag c)).
Definition stmt_code (p : positive) : op Z :=
  let* s := get_stmt p in op_ret (GetReturnCode (stmt_diag s)).
Definition desc_code (p : positive) : op Z :=
  let* d := get_desc p in op_ret (GetReturnCode (desc_diag d)).

(** A function on a handle: the null handle is refused, otherwise the call and
    its return code. *)
Definition on_handle (h : option positive) (call : positive -> op unit) (code : positive -> op Z) : op Z :=
  match h with
  | None => op_ret SQL_INVALID_HANDLE
  | Some p => call p ;; code p
  end.

Definition env_call (h : option positive) (call : positive -> op unit) : op Z := on_handle h call env_code.
Definition conn_call (h : option positive) (call : positive -> op unit) : op Z := on_handle h call conn_code.
Definition stmt_call (h : option positive) (call : positive -> op unit) : op Z := on_handle h call stmt_code.
Definition desc_call (h : option positive) (call : positive -> op unit) : op Z := on_handle h call desc_code.

(** The same for a program, which only statements have. *)
Definition stmt_prog (h : option positive) (call : positive -> prog unit) : prog Z :=
  match h with
  | None => Ret SQL_INVALID_HANDLE
  | Some p => bind (call p) (fun _ => step (stmt_code p))
  end.

(** ** Texts and variables *)

Definition wide_text (fuel : nat) (str : pointer) (len : Z) : op text :=
  fun w => match SqlWcharToString SQL_NTS fuel str len false (memory w) with
           | Ok s => Ok (w, s) | Err e => Err e end.
Definition wide_opt (fuel : nat) (str : pointer) (len : Z) : op (option text) :=
  fun w => match SqlWcharToOptString SQL_NTS fuel str len false (memory w) with
           | Ok s => Ok (w, s) | Err e => Err e end.

(** [CopyStringToBuffer] with the length in characters; what it returns. *)
Definition copy_out (str : text) (buf : pointer) (buflen : Z) : op Z :=
  fun w => let '(n, _, m) := CopyStringToBuffer str buf buflen false (memory w) in Ok (set_memory m w, n).

(** A signed variable of [n] bytes. *)
Definition read_var (a : Z) (n : nat) : op Z :=
  fun w => Ok (w, let v := le_val (load a n (memory w)) in
                  match n with 2%nat => i16 v | 4%nat => i32 v | _ => i64 v end).

(** What a function of the handle puts into an [ApplicationDataBuffer]. *)
Definition put_write (bw : buffer_write) (b : ApplicationDataBuffer) : op unit :=
  fun w =>
    match bw with
    | Diag.PutNothing => Ok (w, tt)
    | Diag.PutInt64 v => match PutInt64 v b (memory w) with
                         | Ok (_, _, m) => Ok (set_memory m w, tt) | Err e => Err e end
    | Diag.PutInt32 v => match PutInt32 v b (memory w) with
                         | Ok (_, _, m) => Ok (set_memory m w, tt) | Err e => Err e end
    | Diag.PutString s => match PutString s b (memory w) with
                          | Ok (_, _, m) => Ok (set_memory m w, tt) | Err e => Err e end
    end.

(** ** Allocation *)

Definition SQLAllocEnv (env : pointer) (fresh : positive) : op Z :=
  (fun w => Ok (set_environments (<[fresh := Env.NewEnvironment]> (environments w)) w, tt)) ;;
  put_handle env (Some fresh) ;;
  op_ret SQL_SUCCESS.

Definition NewConnection (env : positive) : Connection :=
  Connections.NewConnection env Config.DefaultConfiguration Info.NewConnectionInfo.

Definition SQLAllocConnect (env : option positive) (conn : pointer) (fresh : positive) : op Z :=
  put_handle conn None ;;
  match env with
  | None => op_ret SQL_INVALID_HANDLE
  | Some e =>
      on_env e (Env.CreateConnection (Some fresh)) ;;
      put_conn fresh (NewConnection e) ;;
      put_handle conn (Some fresh) ;;
      op_ret SQL_SUCCESS
  end.

(** The addresses of a statement and its four descriptors. *)
Record Fresh : Type := MkFresh { object : positive; d1 : positive; d2 : positive; d3 : positive; d4 : positive }.

Definition SQLAllocStmt (conn : option positive) (stmt : pointer) (fresh : Fresh) : op Z :=
  put_handle stmt None ;;
  conn_call conn (fun c =>
    let* s := Stmt.CreateStatement c (object fresh) (d1 fresh) (d2 fresh) (d3 fresh) (d4 fresh) in
    put_handle stmt (Some s)).

Definition SQLAllocDesc (conn : option positive) (desc : pointer) (fresh : positive) : op Z :=
  conn_call conn (fun c =>
    let* d := Connections.CreateDescriptor c fresh in
    put_handle desc (Some d)).

Definition SQLAllocHandle (type : Z) (parent : option positive) (result : pointer) (fresh : Fresh) : op Z :=
  if type =? SQL_HANDLE_ENV then SQLAllocEnv result (object fresh)
  else if type =? SQL_HANDLE_DBC then SQLAllocConnect parent result (object fresh)
  else if type =? SQL_HANDLE_STMT then SQLAllocStmt parent result fresh
  else if type =? SQL_HANDLE_DESC then SQLAllocDesc parent result (object fresh)
  else put_handle result None ;; op_ret SQL_ERROR.

(** ** Release *)

Definition SQLFreeEnv (env : option positive) : op Z :=
  match env with
  | None => op_ret SQL_INVALID_HANDLE
  | Some e =>
      let* _ := get_env e in
      (fun w => Ok (set_environments (delete e (environments w)) w, tt)) ;;
      op_ret SQL_SUCCESS
  end.

Definition SQLFreeConnect (conn : option positive) : op Z :=
  match conn with
  | None => op_ret SQL_INVALID_HANDLE
  | Some c =>
      Connections.Deregister c ;;
      Connections.Close c ;;
      (fun w => Ok (set_connections (delete c (connections w)) w, tt)) ;;
      op_ret SQL_SUCCESS
  end.

(** The descriptors of a statement die with it, the query before them. *)
Definition delete_stmt (p : positive) : op unit :=
  let* s := get_stmt p in
  fun w => Ok (set_statements (delete p (statements w))
                 (set_descriptors (delete (ipdi s) (delete (irdi s) (delete (apdi s) (delete (ardi s)
                    (descriptors w))))) w), tt).

Local Open Scope main_scope.

Definition SQLFreeStmt (stmt : option positive) (option : Z) : prog Z :=
  match stmt with
  | None => Ret SQL_INVALID_HANDLE
  | Some p =>
      if option =? SQL_DROP then
        let! s := step (get_stmt p) in
        step (on_conn (connection s) (Connections.RemoveCursorName p)) ;;
        let! present := step (Stmt.has_query p) in
        (if present : bool then Stmt.query p Delete else Ret tt) ;;
        step (delete_stmt p) ;;
        Ret SQL_SUCCESS
      else stmt_prog stmt (fun p => Stmt.FreeResources p option)
  end.

Local Close Scope main_scope.

Definition SQLFreeDescriptor (desc : option positive) : op Z :=
  match desc with
  | None => op_ret SQL_INVALID_HANDLE
  | Some d =>
      Desc.Deregister d ;;
      (fun w => Ok (set_descriptors (delete d (descriptors w)) w, tt)) ;;
      op_ret SQL_SUCCESS
  end.

Definition SQLFreeHandle (type : Z) (handle : option positive) : prog Z :=
  if type =? SQL_HANDLE_ENV then step (SQLFreeEnv handle)
  else if type =? SQL_HANDLE_DBC then step (SQLFreeConnect handle)
  else if type =? SQL_HANDLE_STMT then SQLFreeStmt handle SQL_DROP
  else if type =? SQL_HANDLE_DESC then step (SQLFreeDescriptor handle)
  else Ret SQL_ERROR.

(** A null handle is not refused here. *)
Definition SQLCloseCursor (stmt : option positive) : prog Z :=
  match stmt with
  | None => Throw NullPointer
  | Some _ => stmt_prog stmt Stmt.StmtClose
  end.

(** ** Connecting *)

Definition SQLDriverConnect (fuel : nat) (conn : option positive) (inConnectionString : pointer)
    (inConnectionStringLen : Z) (outConnectionString : pointer) (outConnectionStringBufferLen : Z)
    (outConnectionStringLen : pointer) (ini : Dsn.Ini) (service : Auth.Service) : op (Auth.Service * Z) :=
  match conn with
  | None => op_ret (service, SQL_INVALID_HANDLE)
  | Some p =>
      let* connectStr := wide_text fuel inConnectionString inConnectionStringLen in
      let* service := Login.EstablishString p connectStr ini service in
      let* c := get_conn p in
      if negb (IsSuccessful (conn_diag c)) then op_ret (service, GetReturnCode (conn_diag c))
      else
        let* reslen := copy_out connectStr outConnectionString (u64 outConnectionStringBufferLen) in
        Connections.write_opt outConnectionStringLen 2 reslen ;;
        op_ret (service, GetReturnCode (conn_diag c))
  end.

(** The data source is read into a fresh configuration and the logger; its name
    is not kept. *)
Definition read_dsn (dsn : text) (ini : Dsn.Ini) : op Config.Configuration :=
  fun w =>
    match Dsn.ReadDsnConfiguration (c_str dsn) ini Config.DefaultConfiguration
            (Config.MkLogger (log_level w) (log_path w)) with
    | Ok (config, lg) =>
        Ok (set_log_path (Config.logger_path lg) (set_log_level (Config.logger_level lg) w), config)
    | Err e => Err e
    end.

Definition SQLConnect (fuel : nat) (conn : option positive) (serverName : pointer) (serverNameLen : Z)
    (userName : pointer) (userNameLen : Z) (auth : pointer) (authLen : Z) (ini : Dsn.Ini)
    (service : Auth.Service) : op (Auth.Service * Z) :=
  match conn with
  | None => op_ret (service, SQL_INVALID_HANDLE)
  | Some p =>
      let* dsn := wide_text fuel serverName serverNameLen in
      let* config := read_dsn dsn ini in
      let* user := wide_opt fuel userName userNameLen in
      let config := match user with Some u => Config.SetUid config u | None => config end in
      let* password := wide_opt fuel auth authLen in
      let config := match password with Some v => Config.SetPwd config v | None => config end in
      let* service := Login.Establish p config service in
      let* code := conn_code p in
      op_ret (service, code)
  end.

Definition SQLDisconnect (conn : option positive) : op Z := conn_call conn Connections.Release.

Definition SQLGetInfo (conn : option positive) (infoType : Z) (infoValue : pointer) (infoValueMax : Z)
    (length : pointer) : op Z :=
  conn_call conn (fun p => Login.GetInfo p infoType infoValue infoValueMax length).

(** [outQueryLenLocal] is the cell at [frame]. *)
Definition SQLNativeSql (frame : Z) (fuel : nat) (conn : option positive) (inQuery : pointer) (inQueryLen : Z)
    (outQueryBuffer : pointer) (outQueryBufferLen : Z) (outQueryLen : pointer) : op Z :=
  conn_call conn (fun p =>
    write (Some frame) 8 0 ;;
    Native.NativeSql fuel p inQuery inQueryLen outQueryBuffer outQueryBufferLen (Some frame) ;;
    let* local := read_var frame 8 in
    Connections.write_opt outQueryLen 4 local).

Definition SQLGetFunctions (conn : option positive) (funcId : Z) (valueBuf : pointer) : op Z :=
  conn_call conn (fun p => Functions.GetFunctions p funcId valueBuf).

(** ** Attributes and options *)

Definition SQLSetEnvAttr (env : option positive) (attr value : Z) : op Z :=
  env_call env (fun e => on_env e (Env.SetAttribute attr value)).

(** [outResLen] is the cell at [frame], which nothing sets before. *)
Definition SQLGetEnvAttr (frame : Z) (env : option positive) (attr : Z) (valueBuf : pointer)
    (valueBufLen : Z) (valueResLen : pointer) : op Z :=
  env_call env (fun e =>
    let* old := get_env e in
    let '(new, out) := Env.GetAttribute attr old in
    on_env e (fun _ => new) ;;
    put_write out (NewBuffer AI_SIGNED_LONG valueBuf valueBufLen (Some frame)) ;;
    let* outResLen := read_var frame 8 in
    Connections.write_opt valueResLen 4 (i16 outResLen)).

Definition SQLGetConnectAttr (conn : option positive) (attr : Z) (valueBuf valueResLen : pointer) : op Z :=
  conn_call conn (fun p => Connections.GetAttribute p attr valueBuf valueResLen).
Definition SQLSetConnectAttr (conn : option positive) (attr value : Z) : op Z :=
  conn_call conn (fun p => Connections.SetAttribute p attr value).
Definition SQLSetConnectOption (conn : option positive) (option value : Z) : op Z :=
  conn_call conn (fun p => Connections.SetConnectOption p option value).
Definition SQLGetConnectOption (conn : option positive) (option : Z) (value : pointer) : op Z :=
  conn_call conn (fun p => Connections.GetConnectOption p option value).

Definition SQLGetStmtAttr (stmt : option positive) (attr : Z) (valueBuf valueResLen : pointer) : op Z :=
  stmt_call stmt (fun p => Stmt.GetAttribute p attr valueBuf valueResLen).
Definition SQLSetStmtAttr (stmt : option positive) (attr value : Z) : op Z :=
  stmt_call stmt (fun p => Stmt.SetAttribute p attr value).
Definition SQLGetStmtOption (stmt : option positive) (option : Z) (value : pointer) : op Z :=
  stmt_call stmt (fun p => Stmt.GetStmtOption p option value).

(** ** Descriptors and cursor names *)

Definition SQLSetDescField (descr : option positive) (recNum fieldId buffer bufferLen : Z) : op Z :=
  desc_call descr (fun d => Desc.SetField d recNum fieldId buffer bufferLen).
Definition SQLGetDescField (descr : option positive) (recNum fieldId : Z) (buffer : pointer) : op Z :=
  desc_call descr (fun d => Desc.GetField d recNum fieldId buffer).

(** The return code is that of the source. *)
Definition SQLCopyDesc (src dst : option positive) : op Z :=
  match src, dst with
  | Some _, Some d => desc_call src (fun s => Desc.CopyDesc s d)
  | _, _ => op_ret SQL_INVALID_HANDLE
  end.

Definition SQLGetCursorName (stmt : option positive) (nameBuf : pointer) (nameBufLen : Z) (nameResLen : pointer)
    : op Z := stmt_call stmt (fun p => Stmt.GetCursorName p nameBuf nameBufLen nameResLen).
Definition SQLSetCursorName (fuel : nat) (stmt : option positive) (name : pointer) (nameLen : Z) : op Z :=
  stmt_call stmt (fun p => Stmt.SetCursorName fuel p name nameLen).

(** ** Queries *)

Local Open Scope main_scope.

Definition SQLPrepare (fuel : nat) (stmt : option positive) (query : pointer) (queryLen : Z) : prog Z :=
  stmt_prog stmt (fun p =>
    let! sql := step (wide_text fuel query queryLen) in Stmt.PrepareSqlQuery p sql).

Definition SQLExecute (fuel : nat) (stmt : option positive) : prog Z :=
  stmt_prog stmt (Stmt.ExecuteSqlQuery fuel).

Definition SQLExecDirect (fuel : nat) (stmt : option positive) (query : pointer) (queryLen : Z) : prog Z :=
  stmt_prog stmt (fun p =>
    let! sql := step (wide_text fuel query queryLen) in Stmt.ExecuteDirect fuel p sql).

Definition SQLCancel (stmt : option positive) : prog Z := stmt_prog stmt Stmt.CancelSqlQuery.

Definition SQLBindCol (stmt : option positive) (colNum targetType : Z) (targetValue : pointer)
    (bufferLength : Z) (strLengthOrIndicator : pointer) : op Z :=
  stmt_call stmt (fun p =>
    Stmt.BindColumn p colNum targetType targetValue bufferLength strLengthOrIndicator).

Definition SQLFetch (stmt : option positive) : prog Z := stmt_prog stmt Stmt.FetchRow.

Definition SQLFetchScroll (stmt : option positive) (orientation : Z) : prog Z :=
  stmt_prog stmt (fun p => Stmt.FetchScroll p orientation).

(** The row count is set to zero once more when there is no row. *)
Definition SQLExtendedFetch (stmt : option positive) (orientation : Z) (rowCount rowStatusArray : pointer)
    : prog Z :=
  match stmt with
  | None => Ret SQL_INVALID_HANDLE
  | Some p =>
      Stmt.ExtendedFetch p orientation rowCount rowStatusArray ;;
      let! res := step (stmt_code p) in
      (if res =? SQL_NO_DATA then step (Connections.write_opt rowCount 8 0) else Ret tt) ;;
      Ret res
  end.

Definition SQLNumResultCols (stmt : option positive) (columnNum : pointer) : prog Z :=
  stmt_prog stmt (fun p =>
    let! res := Stmt.GetColumnNumber p in step (Connections.write_opt columnNum 2 (i16 res))).

Definition SQLMoreResults (stmt : option positive) : prog Z := stmt_prog stmt Stmt.MoreResults.

Definition SQLRowCount (stmt : option positive) (rowCnt : pointer) : prog Z :=
  stmt_prog stmt (fun p =>
    let! res := Stmt.AffectedRowsOf p in
    step (Connections.write_opt rowCnt 8 (if 0 <? res then res else -1))).

(** The offset in the cell is kept by the statement between calls on a column. *)
Definition SQLGetData (stmt : option positive) (colNum targetType : Z) (targetValue : pointer)
    (bufferLength : Z) (strLengthOrIndicator : pointer) : prog Z :=
  stmt_prog stmt (fun p =>
    let dataBuffer := NewBuffer (ToDriverType targetType) targetValue bufferLength strLengthOrIndicator in
    let! s := step (get_stmt p) in
    let! offset :=
      (if negb (colNum =? GetData.currentColNum (cell s)) then
         step (on_stmt p (set_cell (GetData.SetCellOffset 0 (GetData.SetCurrentColNum colNum (cell s))))) ;;
         Ret 0
       else Ret (GetData.cellOffset (cell s))) in
    let! dataBuffer := Stmt.GetColumnData p colNum (AppBuf.SetCellOffset offset dataBuffer) in
    step (on_stmt p (fun s => set_cell (GetData.SetCellOffset (cellOffset_ dataBuffer) (cell s)) s))).

(** *** Metadata of the columns *)

Definition SQLColAttribute (frame : Z) (stmt : option positive) (columnNum fieldId : Z) (strAttr : pointer)
    (bufferLen : Z) (strAttrLen numericAttr : pointer) : prog Z :=
  match stmt with
  | None => Ret SQL_INVALID_HANDLE
  | Some p =>
      if fieldId =? id_of SQL_DESC_COUNT then
        step (write (Some frame) 2 0) ;;
        let! res := SQLNumResultCols stmt (Some frame) in
        let! val := step (read_var frame 2) in
        (if res =? SQL_SUCCESS then step (Connections.write_opt numericAttr 8 val) else Ret tt) ;;
        Ret res
      else stmt_prog stmt (fun p =>
        Stmt.GetColumnAttribute p columnNum fieldId strAttr bufferLen strAttrLen numericAttr)
  end.

(** The first code that is no success, or the first that is a success with
    information. *)
Definition worst (codes : list Z) : Z :=
  let succeeded code := (code =? SQL_SUCCESS) || (code =? SQL_SUCCESS_WITH_INFO) in
  match List.find (fun code => negb (succeeded code)) codes with
  | Some code => code
  | None =>
      match List.find (fun code => negb (code =? SQL_SUCCESS)) codes with
      | Some code => code
      | None => SQL_SUCCESS
      end
  end.

(** One attribute of the column and the status of getting it. *)
Definition column_status (p : positive) (columnNum : Z) (attr : FieldId) (strbuf : pointer) (buflen : Z)
    (reslen numbuf : pointer) : prog Z :=
  Stmt.GetColumnAttribute p columnNum (id_of attr) strbuf buflen reslen numbuf ;;
  step (stmt_code p).

(** The five locals are cells at [frame]; the numbers are not initialised. *)
Definition SQLDescribeCol (frame : Z) (stmt : option positive) (columnNum : Z) (columnNameBuf : pointer)
    (columnNameBufLen : Z) (columnNameLen dataType columnSize decimalDigits nullable : pointer) : prog Z :=
  match stmt with
  | None => Ret SQL_INVALID_HANDLE
  | Some p =>
      let number i attr := column_status p columnNum attr None 0 None (Some (frame + 8 * i)) in
      step (write (Some frame) 2 0) ;;
      let! c1 := column_status p columnNum SQL_DESC_NAME columnNameBuf
                   (i16 (columnNameBufLen * sizeof_SQLWCHAR)) (Some frame) None in
      let! columnNameLenInBytes := step (read_var frame 2) in
      step (Connections.write_opt columnNameLen 2 (u64 columnNameLenInBytes / sizeof_SQLWCHAR)) ;;
      let! c2 := number 1 SQL_DESC_TYPE in
      let! c3 := number 2 SQL_DESC_PRECISION in
      let! c4 := number 3 SQL_DESC_SCALE in
      let! c5 := number 4 SQL_DESC_NULLABLE in
      let! dataTypeRes := step (read_var (frame + 8) 8) in
      let! columnSizeRes := step (read_var (frame + 16) 8) in
      let! decimalDigitsRes := step (read_var (frame + 24) 8) in
      let! nullableRes := step (read_var (frame + 32) 8) in
      step (Connections.write_opt dataType 2 (i16 dataTypeRes)) ;;
      step (Connections.write_opt columnSize 8 (u64 columnSizeRes)) ;;
      step (Connections.write_opt decimalDigits 2 (i16 decimalDigitsRes)) ;;
      step (Connections.write_opt nullable 2 (i16 nullableRes)) ;;
      Ret (worst [c1; c2; c3; c4; c5])
  end.

(** The names of the types of ODBC 2; the number is read and written through the
    pointer when the application is an ODBC 2 one. *)
Definition odbc2_type (v : Z) : Z :=
  if v =? id_of SQL_TYPE_DATE then SQL_DATE
  else if v =? id_of SQL_TYPE_TIME then SQL_TIME
  else if v =? id_of SQL_TYPE_TIMESTAMP then SQL_TIMESTAMP
  else v.

Definition rename_type (numAttrBuf : pointer) : op unit :=
  match numAttrBuf with
  | None => op_fail NullPointer
  | Some a =>
      op_bind (read_var a 8) (fun v =>
        if odbc2_type v =? v then op_ret tt else write numAttrBuf 8 (odbc2_type v))
  end.

Definition SQLColAttributes (frame : Z) (stmt : option positive) (colNum fieldId : Z) (strAttrBuf : pointer)
    (strAttrBufLen : Z) (strAttrResLen numAttrBuf : pointer) : prog Z :=
  match stmt with
  | None => Ret SQL_INVALID_HANDLE
  | Some p =>
      let fieldId :=
        if fieldId =? id_of SQL_COLUMN_NAME then id_of SQL_DESC_NAME
        else if fieldId =? id_of SQL_COLUMN_NULLABLE then id_of SQL_DESC_NULLABLE
        else if fieldId =? id_of SQL_COLUMN_COUNT then id_of SQL_DESC_COUNT
        else fieldId in
      let! ret := SQLColAttribute frame stmt colNum fieldId strAttrBuf strAttrBufLen strAttrResLen numAttrBuf in
      let! s := step (get_stmt p) in
      let! odbcVer := step (Connections.GetEnvODBCVer (connection s)) in
      (if (odbcVer =? SQL_OV_ODBC2) && (fieldId =? SQL_COLUMN_TYPE)
       then step (rename_type numAttrBuf) else Ret tt) ;;
      Ret ret
  end.

(** ** Catalog functions *)

(** A catalog and a schema that are both empty texts are answered at once: the
    record is added to those of the last call, whose header stays. *)
Definition SQLColumns (fuel : nat) (stmt : option positive) (catalogName : pointer) (catalogNameLen : Z)
    (schemaName : pointer) (schemaNameLen : Z) (tableName : pointer) (tableNameLen : Z)
    (columnName : pointer) (columnNameLen : Z) : prog Z :=
  match stmt with
  | None => Ret SQL_INVALID_HANDLE
  | Some p =>
      let! catalog := step (wide_opt fuel catalogName catalogNameLen) in
      let! schema := step (wide_opt fuel schemaName schemaNameLen) in
      let! table := step (wide_opt fuel tableName tableNameLen) in
      let! column := step (wide_opt fuel columnName columnNameLen) in
      if bool_decide (catalog = Some []) && bool_decide (schema = Some []) then
        step (add_stmt p S01000_GENERAL_WARNING (txt "catalogName and schemaName are empty strings.")) ;;
        Ret SQL_SUCCESS_WITH_INFO
      else
        Stmt.ExecuteGetColumnsMetaQuery fuel p catalog schema table column ;;
        step (stmt_code p)
  end.

Definition SQLTables (fuel : nat) (stmt : option positive) (catalogName : pointer) (catalogNameLen : Z)
    (schemaName : pointer) (schemaNameLen : Z) (tableName : pointer) (tableNameLen : Z)
    (tableType : pointer) (tableTypeLen : Z) : prog Z :=
  stmt_prog stmt (fun p =>
    let! catalog := step (wide_opt fuel catalogName catalogNameLen) in
    let! schema := step (wide_opt fuel schemaName schemaNameLen) in
    let! table := step (wide_opt fuel tableName tableNameLen) in
    let! tableTypeStr := step (wide_opt fuel tableType tableTypeLen) in
    Stmt.ExecuteGetTablesMetaQuery fuel p catalog schema table tableTypeStr).

(** The catalog functions without data ignore their arguments. *)
Definition static_call (kind : Queries.StaticKind) (fuel : nat) (stmt : option positive) : prog Z :=
  stmt_prog stmt (fun p => Stmt.ExecuteStatic fuel p kind).

Definition SQLColumnPrivileges := static_call Queries.ColumnPrivileges.
Definition SQLTablePrivileges := static_call Queries.TablePrivileges.
Definition SQLForeignKeys := static_call Queries.ForeignKeys.
Definition SQLPrimaryKeys := static_call Queries.PrimaryKeys.
Definition SQLSpecialColumns := static_call Queries.SpecialColumns.
Definition SQLProcedureColumns := static_call Queries.ProcedureColumns.
Definition SQLProcedures := static_call Queries.Procedures.

Definition SQLStatistics (fuel : nat) (stmt : option positive) : prog Z :=
  stmt_prog stmt (Stmt.ExecuteStatisticsQuery fuel).

Definition SQLGetTypeInfo (fuel : nat) (stmt : option positive) (type : Z) : prog Z :=
  stmt_prog stmt (fun p => Stmt.ExecuteGetTypeInfoQuery fuel p (i16 type)).

Local Close Scope main_scope.

(** ** Diagnostics *)

(** The storage of the object behind a handle of a type, and its replacement. *)
Inductive HandleType : Type := EnvHandle | DbcHandle | StmtHandle | DescHandle.

Definition handle_type (type : Z) : option HandleType :=
  if type =? SQL_HANDLE_ENV then Some EnvHandle
  else if type =? SQL_HANDLE_DBC then Some DbcHandle
  else if type =? SQL_HANDLE_STMT then Some StmtHandle
  else if type =? SQL_HANDLE_DESC then Some DescHandle
  else None.

Definition get_records (t : HandleType) (p : positive) : op DiagnosticRecordStorage :=
  match t with
  | EnvHandle => let* e := get_env p in op_ret (Env.diagnosticRecords e)
  | DbcHandle => let* c := get_conn p in op_ret (conn_diag c)
  | StmtHandle => let* s := get_stmt p in op_ret (stmt_diag s)
  | DescHandle => let* d := get_desc p in op_ret (desc_diag d)
  end.

Definition edit_records (t : HandleType) (p : positive)
    (f : DiagnosticRecordStorage -> DiagnosticRecordStorage) : op unit :=
  match t with
  | EnvHandle => on_env p (fun e => Env.set_diag e (f (Env.diagnosticRecords e)))
  | DbcHandle => edit_conn p f
  | StmtHandle => edit_stmt p f
  | DescHandle => edit_desc p f
  end.

(** The records of a descriptor are not reached, and a null handle is not
    refused. *)
Definition SQLGetDiagField (frame : Z) (handleType : Z) (handle : option positive) (recNum diagId : Z)
    (buffer : pointer) (bufferLen : Z) (resLen : pointer) : op Z :=
  let outBuffer := NewBuffer AI_DEFAULT buffer bufferLen (Some frame) in
  match handle_type handleType with
  | Some ((EnvHandle | DbcHandle | StmtHandle) as t) =>
      match handle with
      | None => op_fail NullPointer
      | Some p =>
          let* records := get_records t p in
          let '(result, out) := GetField records recNum (DiagnosticFieldToInternal diagId) in
          put_write out outBuffer ;;
          (match result with
           | AI_SUCCESS =>
               let* outResLen := read_var frame 8 in
               Connections.write_opt resLen 2 (i16 outResLen)
           | _ => op_ret tt
           end) ;;
          op_ret (SqlResultToReturnCode result)
      end
  | _ => op_ret (SqlResultToReturnCode AI_NO_DATA)
  end.

(** A null buffer, or one that is too short for the message, is a success with
    information if there is a variable for its length. *)
Definition put_message (errMsg : text) (msgBuffer : pointer) (msgBufferLen : Z) (msgLen : pointer) : op Z :=
  if bool_decide (msgBuffer = None) || (msgBufferLen <? i16 (Z.of_nat (length errMsg) + 1)) then
    match msgLen with
    | None => op_ret SQL_ERROR
    | Some _ =>
        let* n := copy_out errMsg msgBuffer (u64 msgBufferLen) in
        write msgLen 2 n ;;
        op_ret SQL_SUCCESS_WITH_INFO
    end
  else
    let* n := copy_out errMsg msgBuffer (u64 msgBufferLen) in
    Connections.write_opt msgLen 2 n ;;
    op_ret SQL_SUCCESS.

(** The state and the native error, if they are wanted. *)
Definition put_state (record : DiagnosticRecord) (sqlState nativeError : pointer) : op unit :=
  (match sqlState with
   | Some _ => let* _ := copy_out (GetSqlState record) sqlState 6 in op_ret tt
   | None => op_ret tt
   end) ;;
  Connections.write_opt nativeError 4 0.

Definition SQLGetDiagRec (handleType : Z) (handle : option positive) (recNum : Z) (sqlState : pointer)
    (nativeError msgBuffer : pointer) (msgBufferLen : Z) (msgLen : pointer) : op Z :=
  match handle_type handleType, handle with
  | Some t, Some p =>
      let* records := get_records t p in
      if (recNum <? 1) || (msgBufferLen <? 0) then op_ret SQL_ERROR
      else if GetStatusRecordsNumber records <? recNum then op_ret SQL_NO_DATA
      else
        match GetStatusRecord records recNum with
        | None => op_fail OutOfBounds
        | Some record =>
            put_state record sqlState nativeError ;;
            put_message (message record) msgBuffer msgBufferLen msgLen
        end
  | _, _ => op_ret SQL_INVALID_HANDLE
  end.

Definition mark_retrieved (recNum : Z) (d : DiagnosticRecordStorage) : DiagnosticRecordStorage :=
  MkDiag (rowCount d) (dynamicFunction d) (dynamicFunctionCode d) (result d) (rowsAffected d)
    (alter MarkRetrieved (Z.to_nat (recNum - 1)) (statusRecords d)).

(** The first handle that is not null. *)
Definition error_handle (env conn stmt : option positive) : option (HandleType * positive) :=
  match env, conn, stmt with
  | Some p, _, _ => Some (EnvHandle, p)
  | None, Some p, _ => Some (DbcHandle, p)
  | None, None, Some p => Some (StmtHandle, p)
  | None, None, None => None
  end.

Definition SQLError (env conn stmt : option positive) (state error msgBuf : pointer) (msgBufLen : Z)
    (msgResLen : pointer) : op Z :=
  match error_handle env conn stmt with
  | None => op_ret SQL_INVALID_HANDLE
  | Some (t, p) =>
      let* records := get_records t p in
      let recNum := GetLastNonRetrieved records in
      if (recNum <? 1) || (GetStatusRecordsNumber records <? recNum) then op_ret SQL_NO_DATA
      else
        match GetStatusRecord records recNum with
        | None => op_fail OutOfBounds
        | Some record =>
            edit_records t p (mark_retrieved recNum) ;;
            put_state record state error ;;
            let* outResLen := copy_out (message record) msgBuf (u64 msgBufLen) in
            Connections.write_opt msgResLen 2 (i16 outResLen) ;;
            op_ret SQL_SUCCESS
        end
  end.

(** ** Functions that are not implemented *)

Definition add_record (t : HandleType) (p : positive) (st : SqlState) (msg : text) : op unit :=
  match t with
  | EnvHandle => on_env p (fun e => Env.env_add e st msg)
  | DbcHandle => add_conn p st msg
  | StmtHandle => add_stmt p st msg
  | DescHandle => add_desc p st msg
  end.

(** The macros [ENV_], [CONN_], [STMT_] and [DESC_UNSUPPORTED_FUNC]: a record is
    added to those there are; a null handle is not refused. *)
Definition unsupported (t : HandleType) (name : string) (h : option positive) : op Z :=
  match h with
  | None => op_fail NullPointer
  | Some p =>
      add_record t p SHYC00_OPTIONAL_FEATURE_NOT_IMPLEMENTED (txt name ++ txt " is not supported.") ;;
      op_ret SQL_ERROR
  end.

Definition SQLSetStmtOption := unsupported StmtHandle "SQLSetStmtOption".
Definition SQLBrowseConnect := unsupported DbcHandle "SQLBrowseConnect".
Definition SQLSetPos := unsupported StmtHandle "SQLSetPos".
Definition SQLSetScrollOptions := unsupported StmtHandle "SQLSetScrollOptions".
Definition SQLBulkOperations := unsupported StmtHandle "SQLBulkOperations".

Definition SQLEndTran (handleType : Z) (handle : option positive) : op Z :=
  if handleType =? SQL_HANDLE_ENV then unsupported EnvHandle "SQLEndTran" handle
  else if handleType =? SQL_HANDLE_DBC then unsupported DbcHandle "SQLEndTran" handle
  else op_ret SQL_ERROR.

Definition SQLGetDescRec := unsupported DescHandle "SQLGetDescRec".
Definition SQLSetDescRec := unsupported DescHandle "SQLSetDescRec".
Definition SQLBindParameter := unsupported StmtHandle "SQLBindParameter".
Definition SQLDescribeParam := unsupported StmtHandle "SQLDescribeParam".
Definition SQLParamData := unsupported StmtHandle "SQLParamData".
Definition SQLParamOptions := unsupported StmtHandle "SQLParamOptions".
Definition SQLNumParams := unsupported StmtHandle "SQLNumParams".
Definition SQLPutData := unsupported StmtHandle "SQLPutData".
End Odbc.
End Odbc.
