(* ===== verification/StatementFacts.v ===== *)
(** * StatementFacts: a statement reads what its query serves

    The threads of all queries run beside an operation of a statement. A
    [setting] of a statement is what they leave alone: everything but the thread
    state of the queries. The interface [Reader] says what a query serves, as an
    abstract machine that answers one fetch after the other; [FetchRow] is proved
    to read a rowset of it, whatever the schedule. *)

From S2P Require Import Prelude Text Codes Memory Diagnostics Environment Configuration Encoding WideText AppBuffer GetData Column TypeTraits Fields Attributes ColumnMeta Interleave DataQuery Queries Handles Descriptor Connection Statement.

Module StmtFacts.
Import Text Memory Diag AppBuf GetData Fields Attrs Handles Stmt.
Local Open Scope main_scope.

(** ** The work that is left to the threads *)

Definition sum_map {A} (f : A -> nat) (m : gmap positive A) : nat := map_fold (fun _ x n => (f x + n)%nat) 0%nat m.

Lemma sum_map_delete {A} (f : A -> nat) m p x :
  m !! p = Some x -> sum_map f m = (f x + sum_map f (delete p m))%nat.
Proof.
  intros E. unfold sum_map. rewrite <- (map_fold_delete_L (fun _ x n => (f x + n)%nat) 0%nat p x m); [done| |done].
  intros. lia.
Qed.

Lemma sum_map_insert {A} (f : A -> nat) m p x y :
  m !! p = Some x -> (f y < f x)%nat -> (sum_map f (<[p := y]> m) < sum_map f m)%nat.
Proof.
  intros E Hf. rewrite (sum_map_delete f m p x E), (sum_map_delete f _ p y (lookup_insert_eq _ _ _)).
  rewrite delete_insert_eq. lia.
Qed.

Section Facts.
Context `{OdbcConstants} `{Types.SqlCodes} `{FieldCodes} `{AttributeCodes} `{Encoding.Abi}.
Context `{HA : Meta.AwsTypes} {Q : Type} `{HQ : !AbstractQuery Q} `{!Queries.QueryMaker Q}.
Abbreviation op := (op Q).
Abbreviation prog := (main (World Q)).
Abbreviation total_w := (total world_tick).
Implicit Types (w : World Q) (s c : Statement Q) (q : Q) (p : positive) (m : Memory).

Definition stmt_pending (s : Statement Q) : nat :=
  match currentQuery s with Some q => query_pending q | None => 0 end.
Definition world_pending (w : World Q) : nat := sum_map stmt_pending (statements w).
Definition others_pending (p : positive) (w : World Q) : nat :=
  sum_map stmt_pending (delete p (statements w)).

(** ** The query of a statement as a part of the store *)

Lemma get_query_Some p w q :
  get_query p w = Some q ->
  exists s q0, statements w !! p = Some s /\ currentQuery s = Some q0 /\ q = with_diag (stmt_diag s) q0.
Proof.
  unfold get_query. destruct (statements w !! p) as [s|] eqn:E; [|discriminate].
  destruct (currentQuery s) as [q0|] eqn:Eq; [|discriminate]. intros [= <-]. eauto.
Qed.

Lemma put_query_eq p q w s :
  statements w !! p = Some s ->
  put_query p q w = upd_stmt p (set_stmt_diag (query_diag q) (set_query (Some q) s)) w.
Proof. unfold put_query. by intros ->. Qed.

Lemma get_put_query p q q' w : get_query p w = Some q -> get_query p (put_query p q' w) = Some q'.
Proof.
  intros (s & q0 & E & _ & _)%get_query_Some. rewrite (put_query_eq _ _ _ _ E).
  unfold get_query. rewrite lookup_upd_stmt. cbn. by rewrite with_same_diag.
Qed.

Lemma get_put_other p p' q' w : p' <> p -> get_query p (put_query p' q' w) = get_query p w.
Proof.
  intros Hp. unfold put_query. destruct (statements w !! p') as [s|]; [|done].
  unfold get_query. cbn. by rewrite lookup_insert_ne.
Qed.

Lemma world_tick_Some p i w w' :
  world_tick (p, i) w = Some w' ->
  exists q q', get_query p w = Some q /\ query_step i q = Some q' /\ w' = put_query p q' w.
Proof.
  unfold world_tick. cbn. destruct (get_query p w) as [q|]; [|discriminate].
  destruct (query_step i q) as [q'|] eqn:Eq; [|discriminate]. intros [= <-]. by exists q, q'.
Qed.

Lemma put_query_pending p i w q q' :
  get_query p w = Some q -> query_step i q = Some q' ->
  exists s s', statements w !! p = Some s /\ put_query p q' w = upd_stmt p s' w /\
    (stmt_pending s' < stmt_pending s)%nat.
Proof.
  intros (s & q0 & E & Eq & ->)%get_query_Some Hq. exists s. eexists. split; [done|].
  split; [by apply put_query_eq|]. unfold stmt_pending. rewrite Eq. cbn.
  apply step_pending in Hq. by rewrite pending_with_diag in Hq.
Qed.

Lemma world_tick_pending t w w' : world_tick t w = Some w' -> (world_pending w' < world_pending w)%nat.
Proof.
  destruct t as [p i]. intros (q & q' & Hg & Hq & ->)%world_tick_Some.
  destruct (put_query_pending p i w q q' Hg Hq) as (s & s' & E & -> & Hlt).
  by apply sum_map_insert with (x := s).
Qed.

(** The threads of the query are those of the statement; the other statements
    take finitely many steps and leave it alone. *)
#[export] Instance query_zoomable p :
  zoomable (get_query p) (put_query p) query_step world_tick (others_pending p).
Proof.
  split.
  - intros q q' w. apply get_put_query.
  - intros q w i q' Hg Hq. exists (p, i). unfold world_tick. cbn. by rewrite Hg, Hq.
  - intros q w [p' i] w' Hg Ht. destruct (decide (p' = p)) as [->|Hp].
    + left. apply world_tick_Some in Ht as (q1 & q' & Hg1 & Hq & ->).
      rewrite Hg in Hg1. injection Hg1 as <-. eauto.
    + right. apply world_tick_Some in Ht as (q1 & q' & Hg1 & Hq & ->).
      split; [by rewrite get_put_other|].
      destruct (put_query_pending p' i w q1 q' Hg1 Hq) as (s & s' & E & -> & Hlt).
      unfold others_pending. cbn. rewrite delete_insert_ne by done.
      apply sum_map_insert with (x := s); [by rewrite lookup_delete_ne|done].
Qed.

(** ** Settings *)

(** A statement but for its query and its diagnostics, and the other objects of
    the store. *)
Definition core (s : Statement Q) : Statement Q := set_query None (set_stmt_diag NewStorage s).
Definition objects (w : World Q) : gmap positive Env.Environment * gmap positive Connection * gmap positive Descriptor :=
  (environments w, connections w, descriptors w).

(** The statement [p] is [c], its query satisfies [R], around it is [k], and the
    memory of the application is [m]. *)
Definition setting (p : positive) (c : Statement Q)
    (k : gmap positive Env.Environment * gmap positive Connection * gmap positive Descriptor)
    (m : Memory) (R : Q -> Prop) (w : World Q) : Prop :=
  memory w = m /\ objects w = k /\
  exists s q, statements w !! p = Some s /\ core s = c /\ get_query p w = Some q /\ R q.

(** What the threads and the diagnostics of its statement cannot change. *)
Record steady (R : Q -> Prop) : Prop := {
  steady_step i q q' : R q -> query_step i q = Some q' -> R q';
  steady_diag d q : R q -> R (with_diag d q)
}.

Lemma core_put s q : core (set_stmt_diag (query_diag q) (set_query (Some q) s)) = core s.
Proof. done. Qed.

Lemma setting_put p c k m (R R' : Q -> Prop) w q :
  setting p c k m R w -> R' q -> setting p c k m R' (put_query p q w).
Proof.
  intros (Hm & Hk & s & q0 & E & Hc & Hg & _) Hq.
  pose proof (get_put_query p q0 q w Hg) as Hg'. rewrite (put_query_eq _ _ _ _ E) in *.
  split; [done|]. split; [done|]. eexists _, q. split; [apply lookup_upd_stmt|]. done.
Qed.

Lemma setting_step p c k m R w t w' :
  steady R -> setting p c k m R w -> world_tick t w = Some w' -> setting p c k m R w'.
Proof.
  intros HR Hw Ht. destruct t as [p' i]. apply world_tick_Some in Ht as (q & q' & Hg & Hq & ->).
  destruct (decide (p' = p)) as [->|Hp].
  - apply (setting_put p c k m R); [done|]. destruct Hw as (_ & _ & s & q0 & _ & _ & Hg0 & HR0).
    rewrite Hg in Hg0. injection Hg0 as <-. by eapply steady_step.
  - destruct Hw as (Hm & Hk & s & q0 & E & Hc & Hg0 & HR0).
    assert (E' : exists s', statements w !! p' = Some s') by (apply get_query_Some in Hg as (s1 & q1 & Es & _); by exists s1).
    destruct E' as [s' E']. pose proof (get_put_other p p' q' w Hp) as Hgo.
    rewrite (put_query_eq _ _ _ _ E') in *. split; [done|]. split; [done|]. exists s, q0.
    split; [by cbn; rewrite lookup_insert_ne|]. split; [done|]. split; [congruence|done].
Qed.

(** ** Rules of programs in a setting *)

Lemma total_op_in {A B} (I : World Q -> Prop) (P : B -> World Q -> Prop) (o : op A) (kont : A -> prog B) f w :
  (forall w0 w1 a, o w0 = Ok (w1, a) -> f w0 = Some (w1, kont a)) ->
  (forall w0 t w1, I w0 -> world_tick t w0 = Some w1 -> I w1) -> I w ->
  (forall w0, I w0 -> wp o (fun a w1 => total_w P (kont a) w1) w0) ->
  total_w P (Atomic f) w.
Proof.
  intros Hf HI Hw Ho.
  apply (total_atomic world_tick _ world_tick_pending) with (I := I); [done|by eauto| |].
  - intros w0 Hw0 E. destruct (proj1 (wp_run _ _ _) (Ho w0 Hw0)) as (w1 & a & Eo & _).
    by rewrite (Hf _ _ _ Eo) in E.
  - intros w0 w1 m' Hw0 E. destruct (proj1 (wp_run _ _ _) (Ho w0 Hw0)) as (w2 & a & Eo & HP).
    rewrite (Hf _ _ _ Eo) in E. by injection E as <- <-.
Qed.

Lemma total_step_in {A B} (I : World Q -> Prop) (P : B -> World Q -> Prop) (o : op A) (kont : A -> prog B) w :
  (forall w0 t w1, I w0 -> world_tick t w0 = Some w1 -> I w1) -> I w ->
  (forall w0, I w0 -> wp o (fun a w1 => total_w P (kont a) w1) w0) ->
  total_w P (bind (step o) kont) w.
Proof. apply (total_op_in I P o kont). by intros w0 w1 a ->. Qed.

Lemma total_step {A B} (P : B -> World Q -> Prop) (o : op A) (kont : A -> prog B) p c k m R w :
  steady R -> setting p c k m R w ->
  (forall w0, setting p c k m R w0 -> wp o (fun a w1 => total_w P (kont a) w1) w0) ->
  total_w P (bind (step o) kont) w.
Proof. intros HR. apply total_step_in. intros w0 t w1. by apply setting_step. Qed.

(** The last step of a program. *)
Lemma total_step_last {A} (P : A -> World Q -> Prop) (o : op A) p c k m R w :
  steady R -> setting p c k m R w -> (forall w0, setting p c k m R w0 -> wp o P w0) ->
  total_w P (step o) w.
Proof.
  intros HR Hw Ho. apply (total_op_in (setting p c k m R) P o Ret); [by intros w0 w1 a ->| |done|].
  - intros w0 t w1. by apply setting_step.
  - intros w0 Hw0. eapply wp_mono; [|by apply Ho]. by constructor.
Qed.

(** A call of the query: what every schedule of the query promises. *)
Lemma total_query_last {A} (prg : main Q A) (out : A -> Q -> Prop) p c k m R w :
  setting p c k m R w -> (forall q, R q -> total query_step out prg q) ->
  total_w (fun a w1 => setting p c k m (out a) w1) (query p prg) w.
Proof.
  intros Hw Hprg. unfold query.
  assert (Hg : exists q, get_query p w = Some q /\ R q) by (destruct Hw as (_ & _ & s & q & _ & _ & ? & ?); eauto).
  destruct Hg as (q & Hg & Hq).
  eapply total_mono; [|apply (zoom_total _ _ query_step world_tick (others_pending p) out
    (setting p c k m (fun _ => True)) prg w q)].
  - intros a w1 ((Hm & Hko & s & q1 & E & Hc & Hg1 & _) & q2 & Hg2 & Hout).
    split; [done|]. split; [done|]. exists s, q2. by split_and!.
  - apply query_zoomable.
  - destruct Hw as (Hm & Hko & s & q1 & E & Hc & Hg1 & _). split; [done|]. split; [done|]. by exists s, q1.
  - intros q' w0 Hs0. by eapply setting_put.
  - intros t w0 w1 Hs0 Ht. by apply (setting_step p c k m (fun _ => True) w0 t).
  - done.
  - by apply Hprg.
Qed.

Lemma total_query {A B} (P : B -> World Q -> Prop) (prg : main Q A) (kont : A -> prog B)
    (out : A -> Q -> Prop) p c k m R w :
  steady R -> setting p c k m R w ->
  (forall q, R q -> total query_step out prg q) ->
  (forall a w1 R', (forall q, R' q <-> out a q) -> setting p c k m R' w1 -> total_w P (kont a) w1) ->
  total_w P (bind (query p prg) kont) w.
Proof.
  intros _ Hw Hprg Hk. apply total_bind. eapply total_mono; [|by eapply total_query_last].
  intros a w1 Hw1. by apply (Hk a w1 (out a)).
Qed.

(** Operations of a statement in its setting. *)
Lemma setting_get_stmt p c k m R (P : Statement Q -> World Q -> Prop) w :
  setting p c k m R w -> (forall s, statements w !! p = Some s -> core s = c -> currentQuery s <> None -> P s w) ->
  wp (get_stmt p) P w.
Proof.
  intros (_ & _ & s & q & E & Hc & Hg & _) HP. eapply wp_get_stmt; [done|]. apply HP; [done..|].
  unfold get_query in Hg. rewrite E in Hg. intros Hn. by rewrite Hn in Hg.
Qed.

Lemma setting_on_stmt p c k m R f g (P : unit -> World Q -> Prop) w :
  setting p c k m R w ->
  (forall s, core (f s) = g (core s)) -> (forall s, currentQuery (f s) = currentQuery s) ->
  (forall s, stmt_diag (f s) = stmt_diag s) ->
  (forall w', setting p (g c) k m R w' -> P tt w') ->
  wp (on_stmt p f) P w.
Proof.
  intros (Hm & Hk & s & q & E & Hc & Hg & HR) Hf1 Hf2 Hf3 HP. eapply wp_on_stmt; [done|]. apply HP.
  split; [done|]. split; [done|]. exists (f s), q. split; [apply lookup_upd_stmt|].
  split; [rewrite Hf1; congruence|]. split; [|done]. revert Hg. unfold get_query.
  rewrite lookup_upd_stmt, E, Hf2, Hf3. done.
Qed.

Lemma setting_memory p c k m m' R w :
  setting p c k m R w -> setting p c k m' R (set_memory m' w).
Proof. intros (_ & Hk & Hs0). by split. Qed.

Lemma setting_edit p c k m R f (P : unit -> World Q -> Prop) w :
  steady R -> setting p c k m R w ->
  (forall w' s d, setting p c k m R w' -> statements w' !! p = Some s -> stmt_diag s = f d -> P tt w') ->
  wp (edit_stmt p f) P w.
Proof.
  intros HR (Hm & Hk & s & q & E & Hc & Hg & Hq) HP. unfold edit_stmt. eapply wp_on_stmt; [done|].
  eapply (HP _ _ (stmt_diag s)); [|apply lookup_upd_stmt|done].
  split; [done|]. split; [done|]. revert Hg. unfold get_query. rewrite E.
  destruct (currentQuery s) as [q0|] eqn:Eq; [|discriminate]. intros [= <-].
  exists (set_stmt_diag (f (stmt_diag s)) s), (with_diag (f (stmt_diag s)) (with_diag (stmt_diag s) q0)).
  rewrite lookup_upd_stmt. split; [done|]. split; [done|]. cbn. rewrite Eq. cbn.
  rewrite with_diag_twice. split; [done|]. rewrite <- (with_diag_twice _ (stmt_diag s)). by apply steady_diag.
Qed.

Lemma has_query_yes p c k m R (P : bool -> World Q -> Prop) w :
  setting p c k m R w -> P true w -> wp (has_query p) P w.
Proof.
  intros Hw HP. unfold has_query. apply wp_bind. eapply setting_get_stmt; [done|].
  intros s _ _ Hn. apply wp_ret. rewrite bool_decide_eq_true_2; [done|]. by destruct (currentQuery s).
Qed.

Lemma metadata_id_ok p c k m R (P : bool -> World Q -> Prop) w :
  setting p c k m R w -> (forall metadata, P metadata w) -> wp (metadata_id p) P w.
Proof.
  intros Hw HP. unfold metadata_id. apply wp_bind. eapply setting_get_stmt; [done|].
  intros s _ _ _. apply HP.
Qed.

(** ** The interface of a query that is read *)

(** An abstract machine: a state, the answer to a fetch into a screen, and the
    screens it is promised for. *)
Class Reader (X : Type) : Type := {
  serves : X -> Q -> Prop;
  next : X -> Query.Screen -> (SqlResult * Query.Screen) * X;
  fits : Query.Screen -> Prop;
  serves_steady x : steady (serves x);
  serves_fetch x screen q :
    serves x q -> fits screen ->
    total query_step (fun r q' => r = fst (next x screen) /\ serves (snd (next x screen)) q' /\ fits (snd r))
      (FetchNextRow screen) q;
  fits_element i b m : fits (b, m) -> fits (SetElementOffset i <$> b, m);
  fits_byte n b m : fits (b, m) -> fits (SetByteOffset n <$> b, m);
  fits_memory b m m' : fits (b, m) -> fits (b, m')
}.

(** ** A statement without a query *)

Definition bare (p : positive) (c : Statement Q)
    (k : gmap positive Env.Environment * gmap positive Connection * gmap positive Descriptor)
    (m : Memory) (w : World Q) : Prop :=
  memory w = m /\ objects w = k /\
  exists s, statements w !! p = Some s /\ core s = c /\ currentQuery s = None.

Lemma bare_step p c k m w t w' : bare p c k m w -> world_tick t w = Some w' -> bare p c k m w'.
Proof.
  intros (Hm & Hk & s & E & Hc & Hn) Ht. destruct t as [p' i].
  apply world_tick_Some in Ht as (q & q' & (s' & q0 & E' & Eq & _)%get_query_Some & _ & ->).
  assert (Hp : p' <> p) by (intros ->; congruence).
  rewrite (put_query_eq _ _ _ _ E'). split; [done|]. split; [done|]. exists s.
  split; [by cbn; rewrite lookup_insert_ne|done].
Qed.

Lemma total_bare {A B} (P : B -> World Q -> Prop) (o : op A) (kont : A -> prog B) p c k m w :
  bare p c k m w -> (forall w0, bare p c k m w0 -> wp o (fun a w1 => total_w P (kont a) w1) w0) ->
  total_w P (bind (step o) kont) w.
Proof. apply total_step_in. intros w0 t w1. by apply bare_step. Qed.

Lemma bare_edit p c k m f (P : unit -> World Q -> Prop) w :
  bare p c k m w -> (forall w', bare p c k m w' -> P tt w') -> wp (edit_stmt p f) P w.
Proof.
  intros (Hm & Hk & s & E & Hc & Hn) HP. unfold edit_stmt. eapply wp_on_stmt; [done|]. apply HP.
  split; [done|]. split; [done|]. eexists. split; [apply lookup_upd_stmt|done].
Qed.

Lemma bare_get_stmt p c k m (P : Statement Q -> World Q -> Prop) w :
  bare p c k m w -> (forall s, core s = c -> currentQuery s = None -> P s w) -> wp (get_stmt p) P w.
Proof. intros (_ & _ & s & E & Hc & Hn) HP. eapply wp_get_stmt; [done|]. by apply HP. Qed.

(** A query is made, with the diagnostics of the statement. *)
Lemma replace_bare {A} (P : A -> World Q -> Prop) make (kont : unit -> prog A) (R : Q -> Prop) p c k m w :
  bare p c k m w -> (forall d, R (make d)) -> steady R ->
  (forall w', setting p c k m R w' -> total_w P (kont tt) w') ->
  total_w P (bind (replace_query p make) kont) w.
Proof.
  intros Hw Hmake HR Hk. unfold replace_query. apply total_bind.
  apply (total_bare _ _ _ _ _ _ _ _ Hw). intros w0 Hw0. unfold has_query. apply wp_bind.
  eapply bare_get_stmt; [exact Hw0|]. intros s _ Hn. apply wp_ret. rewrite Hn. cbn [bool_decide bind].
  rewrite bool_decide_eq_false_2 by (by intros [? ?]). cbn [bind].
  apply (total_op_in (bare p c k m) _ (on_stmt p (fun s => set_query (Some (make (stmt_diag s))) s)) Ret);
    [by intros w1 w2 a ->|intros ? ? ?; apply bare_step|done|].
  intros w1 (Hm & Hko & s1 & E & Hc & _). eapply wp_on_stmt; [done|]. constructor. apply Hk.
  split; [done|]. split; [done|]. eexists _, _. split; [apply lookup_upd_stmt|]. split; [done|].
  unfold get_query. rewrite lookup_upd_stmt. split; [reflexivity|]. cbn. by apply steady_diag.
Qed.

(** The end of a call. *)
Definition reports (p : positive) (r : SqlResult) (w : World Q) : Prop :=
  exists s g, statements w !! p = Some s /\ stmt_diag s = SetHeaderRecord g r.

Lemma reports_step p r w t w' : reports p r w -> world_tick t w = Some w' -> reports p r w'.
Proof.
  intros (s & g & E & Eg) Ht. destruct t as [p' i].
  apply world_tick_Some in Ht as (q & q' & (s' & q0 & E' & Eq & ->)%get_query_Some & Hs & ->).
  rewrite (put_query_eq _ _ _ _ E'). destruct (decide (p' = p)) as [->|Hp].
  - rewrite E in E'. injection E' as <-. eexists _, g. split; [apply lookup_upd_stmt|]. cbn.
    rewrite (step_diag _ _ _ Hs). by rewrite diag_of_with.
  - exists s, g. split; [|done]. cbn. by rewrite lookup_insert_ne.
Qed.

Lemma total_report r p c k m R w :
  steady R -> setting p c k m R w ->
  total_w (fun _ w' => reports p r w' /\ setting p c k m R w')
    (step (edit_stmt p (fun g => SetHeaderRecord g r))) w.
Proof.
  intros HR Hw. eapply total_step_last; [exact HR|exact Hw|]. intros w0 Hw0.
  eapply setting_edit; [done|exact Hw0|]. intros w1 s d Hw1 Es Ed. split; [by exists s, d|done].
Qed.

Section Reading.
Context {X : Type} `{!Reader X}.

(** ** The specification of a rowset *)

Definition write_status (statuses : pointer) (i : Z) (r : SqlResult) (m : Memory) : Memory :=
  match statuses with
  | Some a => store (a + 2 * i) (le_bytes 2 (SqlResultToRowResult r)) m
  | None => m
  end.
Definition write_count (count : pointer) (n : Z) (m : Memory) : Memory :=
  match count with Some a => store a (le_bytes 8 n) m | None => m end.

(** [n] fetches, the [i]th row into the [i]th elements of the bound arrays: the
    results, the screen and the machine after them. *)
Fixpoint rowset (statuses : pointer) (n : nat) (i : Z) (x : X) (screen : Query.Screen)
    : list SqlResult * Query.Screen * X :=
  match n with
  | O => ([], screen, x)
  | S n' =>
      let '(r, screen, x) := next x (SetElementOffset i <$> fst screen, snd screen) in
      let screen := (fst screen, write_status statuses i r (snd screen)) in
      let '(rs, screen, x) := rowset statuses n' (i + 1) x screen in
      (r :: rs, screen, x)
  end.

Definition rows_fetched (rs : list SqlResult) : Z :=
  Z.of_nat (length (List.filter (fun r => match r with AI_SUCCESS | AI_SUCCESS_WITH_INFO => true | _ => false end) rs)).
Definition rows_failed (rs : list SqlResult) : Z :=
  Z.of_nat (length (List.filter (fun r => match r with AI_ERROR | AI_NEED_DATA => true | _ => false end) rs)).

Definition count_all (rs : list SqlResult) (counts : Z * Z) : Z * Z :=
  fold_left (fun n r => count_row r n) rs counts.

Lemma count_rows rs f e :
  count_all rs (f, e) = (f + rows_fetched rs, e + rows_failed rs).
Proof.
  revert f e. induction rs as [|r rs IH]; intros f e; unfold count_all; cbn [fold_left]; [unfold rows_fetched, rows_failed; cbn; f_equal; lia|].
  destruct r; cbn [count_row]; (etransitivity; [apply IH|]); unfold rows_fetched, rows_failed; cbn [List.filter length]; f_equal; lia.
Qed.

(** ** The loop *)

Lemma setting_map_bindings p b c k m R (g : ApplicationDataBuffer -> ApplicationDataBuffer)
    (P : unit -> World Q -> Prop) w :
  setting p (set_bindings b c) k m R w ->
  (forall w', setting p (set_bindings (g <$> b) c) k m R w' -> P tt w') ->
  wp (on_stmt p (fun s => set_bindings (g <$> columnBindings s) s)) P w.
Proof.
  intros Hw HP. eapply (setting_on_stmt _ _ _ _ _ _ (fun s => set_bindings (g <$> columnBindings s) s));
    [exact Hw|reflexivity|reflexivity|reflexivity|exact HP].
Qed.

Lemma setting_reset_cell p c k m R (P : unit -> World Q -> Prop) w :
  setting p c k m R w ->
  (forall w', setting p (set_cell (MkCell (currentColNum (cell c)) 0) c) k m R w' -> P tt w') ->
  wp (on_stmt p (fun s => set_cell (MkCell (currentColNum (cell s)) 0) s)) P w.
Proof.
  intros Hw HP. eapply (setting_on_stmt _ _ _ _ _ _ (fun s => set_cell (MkCell (currentColNum (cell s)) 0) s));
    [exact Hw|reflexivity|reflexivity|reflexivity|exact HP].
Qed.

Lemma setting_get_screen p b c k m R (P : Query.Screen -> World Q -> Prop) w :
  setting p (set_bindings b c) k m R w -> P (b, m) w -> wp (get_screen p) P w.
Proof.
  intros Hw HP. unfold get_screen. apply wp_bind. eapply setting_get_stmt; [done|].
  intros s _ Hc _. unfold wp. destruct Hw as [-> _].
  by replace (columnBindings s) with b by exact (eq_sym (f_equal columnBindings Hc)).
Qed.

Lemma setting_put_screen p b b' c k m m' R (P : unit -> World Q -> Prop) w :
  setting p (set_bindings b c) k m R w ->
  (forall w', setting p (set_bindings b' c) k m' R w' -> P tt w') ->
  wp (put_screen p (b', m')) P w.
Proof.
  intros Hw HP. unfold put_screen. apply wp_bind.
  eapply (setting_on_stmt _ _ _ _ _ (set_bindings b') (set_bindings b')); [exact Hw|reflexivity..|].
  intros w1 Hw1. unfold wp. apply HP. by eapply setting_memory.
Qed.

Lemma setting_write p c k m R a n v (P : unit -> World Q -> Prop) w :
  setting p c k m R w ->
  (forall w', setting p c k (store a (le_bytes n v) m) R w' -> P tt w') ->
  wp (write (Some a) n v) P w.
Proof.
  intros Hw HP. apply wp_write, HP. destruct Hw as (<- & Hk & Hs). by split.
Qed.

Lemma setting_put_status p c k m R statuses i r (P : unit -> World Q -> Prop) w :
  setting p c k m R w ->
  (forall w', setting p c k (write_status statuses i r m) R w' -> P tt w') ->
  wp (put_status statuses i r) P w.
Proof.
  intros Hw HP. unfold put_status. destruct statuses as [a|]; [by eapply setting_write|].
  apply wp_ret. by apply HP.
Qed.

Lemma setting_put_count p c k m R count n (P : unit -> World Q -> Prop) w :
  setting p c k m R w ->
  (forall w', setting p c k (write_count count n m) R w' -> P tt w') ->
  wp (put_count count n) P w.
Proof.
  intros Hw HP. unfold put_count, Connections.write_opt. destruct count as [a|]; [by eapply setting_write|].
  apply wp_ret. by apply HP.
Qed.

Lemma setting_ext p c k m (R R' : Q -> Prop) w :
  (forall q, R q <-> R' q) -> setting p c k m R w -> setting p c k m R' w.
Proof.
  intros HR (Hm & Hk & s & q & E & Hc & Hg & Hq). split; [done|]. split; [done|].
  exists s, q. split_and!; auto. by apply HR.
Qed.

Lemma fetch_rows_total (P : Z * Z -> World Q -> Prop) p statuses n i counts x b m c k w :
  setting p (set_bindings b c) k m (serves x) w -> fits (b, m) ->
  (forall rs b' m' x' w', rowset statuses n i x (b, m) = (rs, (b', m'), x') -> fits (b', m') ->
     setting p (set_bindings b' c) k m' (serves x') w' -> P (count_all rs counts) w') ->
  total_w P (fetch_rows p statuses n i counts) w.
Proof.
  revert i counts x b m w. induction n as [|n IH]; intros i counts x b m w Hw Hf HP; cbn [fetch_rows].
  { constructor. by apply (HP [] b m x w). }
  pose proof (serves_steady x) as Hx.
  eapply (total_step _ _ _ _ _ _ _ _ _ Hx Hw). intros w0 Hw0.
  eapply setting_map_bindings; [done|]. intros w1 Hw1.
  eapply (total_step _ _ _ _ _ _ _ _ _ Hx Hw1). intros w2 Hw2.
  eapply setting_get_screen; [exact Hw2|].
  pose proof (fits_element i b m Hf) as Hf1.
  eapply (total_query _ _ _ _ _ _ _ _ _ _ Hx Hw2); [intros q Hq; by apply serves_fetch|].
  intros [r [b' m']] w3 R' HR' Hw3. cbn [fst snd] in *.
  destruct (next x (SetElementOffset i <$> b, m)) as [[r1 scr1] x1] eqn:En.
  assert (HR2 : forall q, R' q <-> (r, (b', m')) = fst (r1, scr1, x1) /\
      serves (snd (r1, scr1, x1)) q /\ fits (b', m')) by (rewrite <- En; exact HR').
  cbn [fst snd] in HR2. assert (Hfacts : (r, (b', m')) = (r1, scr1) /\ fits (b', m')).
  { destruct Hw3 as (_ & _ & s & q & _ & _ & _ & Hq). destruct (proj1 (HR2 q) Hq) as (Hr & _ & Hq1). done. }
  destruct Hfacts as [[= <- <-] Hf3].
  apply (setting_ext _ _ _ _ R' (serves x1)) in Hw3; [|intros q; rewrite HR2; naive_solver].
  pose proof (serves_steady x1) as Hx1.
  eapply (total_step _ _ _ _ _ _ _ _ _ Hx1 Hw3). intros w4 Hw4.
  eapply setting_put_screen; [exact Hw4|]. intros w5 Hw5.
  eapply (total_step _ _ _ _ _ _ _ _ _ Hx1 Hw5). intros w6 Hw6.
  eapply setting_put_status; [exact Hw6|]. intros w7 Hw7.
  eapply IH; [exact Hw7|by eapply fits_memory|].
  intros rs b8 m8 x8 w8 E8 Hf8 Hw8. apply (HP (r :: rs) b8 m8 x8); [|done..].
  cbn [rowset]. cbn [fst snd]. rewrite En. cbn [fst snd]. by rewrite E8.
Qed.

(** ** [FetchRow] *)

(** The state of the statement and the memory before the loop: the cell being
    read in parts starts again, and the buffers take the bind offset. *)
Definition bind_offset (c : Statement Q) (m : Memory) : Z :=
  match columnBindOffset c with Some a => le_val (load a 8 m) | None => 0 end.

(** What a call reads of [x] into the statement [c] and the memory [m]. *)
Definition fetch_spec (x : X) (c : Statement Q) (m : Memory)
    : list SqlResult * Query.Screen * X :=
  let m := write_count (rowsFetched c) 0 m in
  rowset (rowStatuses c) (Z.to_nat (rowArraySize_ c)) 0 x (SetByteOffset (bind_offset c m) <$> columnBindings c, m).

(** The state after it. *)
Definition fetched (p : positive) (c : Statement Q) k (x : X) (m : Memory) (r : SqlResult) (w : World Q) : Prop :=
  let '(rs, (b, m), x) := fetch_spec x c m in
  r = rowset_result (rows_fetched rs, rows_failed rs) /\ fits (b, m) /\
  setting p (set_bindings b (set_cell (MkCell (currentColNum (cell c)) 0) c)) k
    (write_count (rowsFetched c) (rows_fetched rs) m) (serves x) w.

Lemma InternalFetchRow_total p c k x m w :
  setting p c k m (serves x) w -> fits (columnBindings c, m) ->
  total_w (fetched p c k x m) (InternalFetchRow p) w.
Proof.
  intros Hw Hf. unfold InternalFetchRow. pose proof (serves_steady x) as Hx.
  eapply (total_step _ _ _ _ _ _ _ _ _ Hx Hw). intros w0 Hw0.
  eapply setting_get_stmt; [exact Hw0|]. intros s _ <- _.
  eapply (total_step _ _ _ _ _ _ _ _ _ Hx Hw0). intros w1 Hw1.
  eapply setting_put_count; [exact Hw1|]. intros w2 Hw2. unfold no_cursor, with_query.
  eapply (total_step _ _ _ _ _ _ _ _ _ Hx Hw2). intros w3 Hw3. eapply has_query_yes; [exact Hw3|].
  eapply (total_step _ _ _ _ _ _ _ _ _ Hx Hw3). intros w4 Hw4.
  eapply setting_reset_cell; [exact Hw4|]. intros w5 Hw5.
  eapply (total_step _ _ _ _ _ _ _ _ _ Hx Hw5). intros w6 Hw6. unfold wp.
  destruct Hw6 as [Em6 Hw6']. pose proof (conj Em6 Hw6') as Hw6. fold (setting p) in Hw6. rewrite Em6. clear Hw6'.
  set (c1 := set_cell (MkCell (currentColNum (cell (core s))) 0) (core s)) in *.
  set (m1 := write_count (rowsFetched s) 0 m) in *.
  change c1 with (set_bindings (columnBindings s) c1) in Hw6.
  eapply (total_step _ _ _ _ _ _ _ _ _ Hx Hw6). intros w7 Hw7.
  eapply setting_map_bindings; [exact Hw7|]. intros w8 Hw8.
  apply total_bind. eapply total_mono; [|eapply fetch_rows_total with (P := fun counts w' =>
    exists rs b' m' x', fetch_spec x (core s) m = (rs, (b', m'), x') /\ counts = (rows_fetched rs, rows_failed rs) /\
      fits (b', m') /\ setting p (set_bindings b' c1) k m' (serves x') w'); [exact Hw8| |]].
  - intros counts w9 (rs & b' & m' & x' & Er & -> & Hf' & Hw9). cbn [fst].
    eapply (total_step _ _ _ _ _ _ _ _ _ (serves_steady x') Hw9). intros w10 Hw10.
    eapply setting_put_count; [exact Hw10|]. intros w11 Hw11. constructor.
    unfold fetched. rewrite Er. by split_and!.
  - apply fits_byte. by eapply fits_memory.
  - intros rs b' m' x' w9 Er Hf' Hw9. exists rs, b', m', x'. split; [exact Er|].
    split; [by rewrite count_rows|]. done.
Qed.

Lemma FetchRow_total p c k x m w :
  setting p c k m (serves x) w -> fits (columnBindings c, m) ->
  total_w (fun _ w' => exists r, reports p r w' /\ fetched p c k x m r w') (FetchRow p) w.
Proof.
  intros Hw Hf. unfold FetchRow, api_prog. pose proof (serves_steady x) as Hx.
  eapply (total_step _ _ _ _ _ _ _ _ _ Hx Hw). intros w0 Hw0.
  eapply setting_edit; [done|exact Hw0|]. intros w1 _ _ Hw1 _ _.
  apply total_bind. eapply total_mono; [|by apply InternalFetchRow_total]. intros r w2 Hw2.
  unfold fetched in *. destruct (fetch_spec x c m) as [[rs [b m']] x']. destruct Hw2 as (-> & Hf' & Hw2).
  eapply total_mono; [|eapply total_report; [apply serves_steady|exact Hw2]].
  intros _ w3 [Hr Hw3]. by eexists.
Qed.

(** ** Rowsets, one after the other *)

(** The return code and the memory after each of [n] calls. *)
Fixpoint rowsets (n : nat) (x : X) (c : Statement Q) (m : Memory) : list (Z * Memory) :=
  match n with
  | O => []
  | S n' =>
      let '(rs, (b, m'), x') := fetch_spec x c m in
      let m' := write_count (rowsFetched c) (rows_fetched rs) m' in
      (SqlResultToReturnCode (rowset_result (rows_fetched rs, rows_failed rs)), m')
        :: rowsets n' x' (set_bindings b (set_cell (MkCell (currentColNum (cell c)) 0) c)) m'
  end.

(** The abstract machine does not look at the query and the diagnostics. *)
Lemma rowsets_core n x c m : rowsets n x (core c) m = rowsets n x c m.
Proof.
  revert x c m. induction n as [|n IH]; intros x c m; cbn [rowsets]; [done|].
  change (fetch_spec x (core c) m) with (fetch_spec x c m).
  destruct (fetch_spec x c m) as [[rs [b m']] x'].
  by rewrite <- (IH _ (set_bindings b (set_cell (MkCell (currentColNum (cell c)) 0) c))).
Qed.
End Reading.
End Facts.
End StmtFacts.
