(* ===== verification/StatementReads.v ===== *)
(** * StatementReads: from the text of a query to the rows in the buffers

    The data query behind a statement is a [Reader] of the rows of its pages
    ([DataQueryFacts]); so [ExecuteDirect] and the calls of [FetchRow] after it
    read these rows, a rowset for each call, whatever the threads do. *)

From S2P Require Import Prelude Text Codes Memory Diagnostics Environment Configuration Encoding WideText AppBuffer AppBufferFacts GetData Column ColumnFacts TypeTraits Fields Attributes ColumnMeta Interleave DataQuery Queries QueryColumns AppBufferGet ColumnMetadata DataQueryFacts AnyQuery Handles Descriptor Connection Statement StatementFacts.

Module StmtReads.
Import Text Memory Diag Config AppBuf GetData Fields Attrs Handles Stmt StmtFacts AnyQuery.
Local Open Scope main_scope.

Section Reads.
Context `{OdbcConstants} `{Types.SqlCodes} `{FieldCodes} `{AttributeCodes} `{Encoding.Abi} {F : Floats} `{!Get.Reals F} `{!Columns.Locals}.
Context `{HA : Meta.AwsTypes} `{HC : !Query.Client} `{HR : !Query.ColumnReader} `{!Meta.Deployment}.
Abbreviation total_w := (total world_tick).
Implicit Types (w : World AnyQuery) (s c : Statement AnyQuery) (p : positive) (m : Memory).

(** The buffers an application may bind, wherever they start. *)
Context (usable : ApplicationDataBuffer -> Prop).
Class movable : Prop := {
  usable_element i b : usable b -> usable (SetElementOffset i b);
  usable_byte n b : usable b -> usable (SetByteOffset n b)
}.
Context `{!movable}.

(** ** A data query is a reader of rows *)

(** The rows that are left, and whether the service fails after them; nothing
    once it has failed, or if there was no page. *)
Definition Rows : Type := option (list Query.Row * bool).

Definition spent (q : Query.DataQuery) : Prop := Query.cursor_ q = None /\ QueryFacts.quiet q.

Definition serves_rows (meta : list Meta.ColumnMeta) (x : Rows) (q : AnyQuery) : Prop :=
  match q with
  | DataQ d =>
      match x with
      | Some (rows, b) => QueryFacts.at_rows usable meta rows b d
      | None => spent d
      end
  | _ => False
  end.

Definition next_row (meta : list Meta.ColumnMeta) (x : Rows) (screen : Query.Screen)
    : SqlResult * Query.Screen * Rows :=
  match x with
  | Some (row :: rows, b) => (QueryFacts.row_result meta row screen, Some (rows, b))
  | Some ([], true) => (AI_ERROR, screen, None)
  | _ => (AI_NO_DATA, screen, x)
  end.

Lemma spent_step q i q' : spent q -> Query.AsyncFetchOnePage i q = Some q' -> spent q'.
Proof. intros [_ Hq] E. by rewrite QueryFacts.quiet_stuck in E. Qed.

Lemma serves_rows_steady meta x : steady (serves_rows meta x).
Proof.
  split.
  - intros i [q|q|q|q|q] q' Hq E; try done. cbn in E.
    destruct (Query.AsyncFetchOnePage i q) as [q1|] eqn:E1; [|discriminate]. injection E as <-.
    destruct x as [[rows b]|]; cbn in *; [by eapply QueryFacts.at_rows_step|by eapply spent_step].
  - by intros d [q|q|q|q|q].
Qed.

#[export] Instance data_zoomable :
  zoomable the_data (fun d _ => DataQ d) Query.AsyncFetchOnePage query_step (fun _ => 0%nat).
Proof.
  split.
  - done.
  - intros q [s|s|s|s|s] i q' [= ->] E; try done. exists i. cbn. by rewrite E.
  - intros q [s|s|s|s|s] i s' [= ->] E; try done. cbn in E.
    destruct (Query.AsyncFetchOnePage i q) as [q'|] eqn:Eq; [|discriminate]. injection E as <-. eauto.
Qed.

(** A virtual call on a data query. *)
Lemma total_dispatch {A} (P : A -> AnyQuery -> Prop) (R : Query.DataQuery -> Prop) of_data of_static of_info of_table of_column q :
  (forall q0 i q1, R q0 -> Query.AsyncFetchOnePage i q0 = Some q1 -> R q1) -> R q ->
  (forall q0, R q0 -> total Query.AsyncFetchOnePage (fun a q => P a (DataQ q)) of_data q0) ->
  total query_step P (dispatch of_data of_static of_info of_table of_column) (DataQ q).
Proof.
  intros Hkeep Hq Hk. unfold dispatch.
  apply (total_atomic query_step query_pending step_pending) with
    (I := fun a : AnyQuery => exists d, a = DataQ d /\ R d); [by eauto|..].
  - intros s i s1 (d & -> & Hd) E. cbn in E. destruct (Query.AsyncFetchOnePage i d) as [d1|] eqn:Ed; [|discriminate].
    injection E as <-. eauto.
  - by intros s (d & -> & _).
  - intros s s1 m (d & -> & Hd) [= <- <-]. unfold data.
    eapply total_mono; [|eapply (zoom_total the_data (fun d _ => DataQ d) Query.AsyncFetchOnePage query_step
      (fun _ => 0%nat) (fun a q => P a (DataQ q)) (fun _ => True)); try done].
    + intros a s' (_ & d' & Ed & HP). destruct s'; try discriminate. by injection Ed as <-.
    + apply data_zoomable.
    + by apply Hk.
Qed.

Definition screen_fits (screen : Query.Screen) : Prop := QueryFacts.screen_ok usable screen.

Lemma screen_moved f (b : Query.ColumnBindingMap) m :
  (forall a, usable a -> usable (f a)) -> screen_fits (b, m) -> screen_fits (f <$> b, m).
Proof.
  intros Hf Hb k a Ea. change ((f <$> b) !! k = Some a) in Ea.
  apply lookup_fmap_Some in Ea as (a0 & <- & Ea). by eapply Hf, Hb.
Qed.

Lemma fetch_spent screen q :
  spent q -> total Query.AsyncFetchOnePage (fun r q' => r = (AI_NO_DATA, screen) /\ spent q')
    (Query.FetchNextRow screen) q.
Proof.
  intros [Hc Hq]. unfold Query.FetchNextRow, Query.increment_cursor. cbn [bind].
  eapply QueryFacts.total_quiet; [done|by rewrite Hc|]. cbn [bind].
  apply QueryFacts.total_act_quiet; [done|]. by constructor.
Qed.

Lemma next_row_ok meta x screen q :
  serves_rows meta x (DataQ q) -> screen_fits screen ->
  total Query.AsyncFetchOnePage (fun r q' => r = fst (next_row meta x screen) /\
      serves_rows meta (snd (next_row meta x screen)) (DataQ q') /\ screen_fits (snd r))
    (Query.FetchNextRow screen) q.
Proof.
  intros Hq Hs. destruct x as [[[|row rows] b]|]; cbn in Hq.
  - destruct b; eapply total_mono; [|by eapply QueryFacts.fetch_after_failure| |by eapply QueryFacts.fetch_at_end].
    + intros r q' [-> (Hc & _ & Hqu & _)]. by split_and!.
    + intros r q' [-> Hq']. by split_and!.
  - eapply total_mono; [|by apply (QueryFacts.fetch_row usable meta row rows b)].
    intros r q' [-> [Hq' _]]. cbn. split_and!; [done..|]. by eapply QueryFacts.row_result_ok.
  - eapply total_mono; [|by apply fetch_spent]. intros r q' [-> Hq']. by split_and!.
Qed.

#[refine] Instance row_reader (meta : list Meta.ColumnMeta) : Reader (Q := AnyQuery) Rows := {|
  serves := serves_rows meta; next := next_row meta; fits := screen_fits
|}.
Proof.
  - apply serves_rows_steady.
  - intros x screen [q|q|q|q|q] Hq Hs; try done. eapply total_dispatch with (R := fun q => serves_rows meta x (DataQ q)).
    + intros q0 i q1 Hq0 E. eapply (steady_step _ (serves_rows_steady meta x) i (DataQ q0)); [done|]. cbn. by rewrite E.
    + done.
    + intros q0 Hq0. by apply next_row_ok.
  - intros i b m. apply screen_moved, usable_element.
  - intros i b m. apply screen_moved, usable_byte.
  - done.
Defined.

(** ** Executing the text of a query *)

Definition fresh (conf : Configuration) (sql : text) (q : AnyQuery) : Prop :=
  exists d, q = DataQ (Query.NewDataQuery conf sql d).

Lemma fresh_steady conf sql : steady (fresh conf sql).
Proof.
  split; [by intros i q q' [d ->]|]. intros d q [d' ->]. by exists d.
Qed.

(** What the execution of pages answers and what it leaves to read. *)
Definition exec_result (ps : list Query.ExecuteQueryResult) (b : bool) : SqlResult :=
  match QueryFacts.skip ps with
  | _ :: _ => AI_SUCCESS
  | [] => if b then AI_ERROR else AI_SUCCESS_WITH_INFO
  end.
Definition opened (ps : list Query.ExecuteQueryResult) (b : bool) : Rows :=
  match QueryFacts.skip ps with
  | _ :: _ => Some (QueryFacts.page_rows ps, b)
  | [] => None
  end.
Definition execute_result (ps : list Query.ExecuteQueryResult) (b : bool) (r : SqlResult) : Prop :=
  r = match QueryFacts.skip ps with _ :: _ => AI_SUCCESS | [] => if b then AI_ERROR else AI_NO_DATA end.

Lemma Execute_fresh fuel md conf sql ps b q :
  fresh conf sql q -> QueryFacts.answers usable conf sql ps b -> (length ps < fuel)%nat ->
  total query_step (fun r q' => execute_result ps b r /\ serves_rows (QueryFacts.columns_of ps) (opened ps b) q')
    (Queries.Execute fuel md) q.
Proof.
  intros [d ->] Ha Hf.
  apply total_dispatch with (R := fun q => q = Query.NewDataQuery conf sql d); [by intros ? i q1 -> |done|].
  intros q0 ->. eapply total_mono; [|by apply (QueryFacts.Execute_answers usable fuel conf sql d ps b)].
  intros r q' Hx. unfold execute_result, opened. destruct (QueryFacts.skip ps) as [|pg ps'];
    [by destruct Hx as (-> & ? & ?)|exact Hx].
Qed.

Lemma InternalExecute_total fuel p c k m conf sql ps b w :
  setting p c k m (fresh conf sql) w -> QueryFacts.answers usable conf sql ps b -> (length ps < fuel)%nat ->
  total_w (fun r w' => r = exec_result ps b /\ setting p c k m (serves_rows (QueryFacts.columns_of ps) (opened ps b)) w')
    (InternalExecute fuel p) w.
Proof.
  intros Hw Ha Hf. unfold InternalExecute, with_query. pose proof (fresh_steady conf sql) as Hx.
  eapply (total_step _ _ _ _ _ _ _ _ _ Hx Hw). intros w0 Hw0. eapply has_query_yes; [exact Hw0|].
  eapply (total_step _ _ _ _ _ _ _ _ _ Hx Hw0). intros w00 Hw00. eapply metadata_id_ok; [exact Hw00|]. intros md.
  eapply (total_query _ _ _ _ _ _ _ _ _ _ Hx Hw00); [intros q Hq; by eapply Execute_fresh|].
  intros r w1 R' HR' Hw1.
  assert (Hr : execute_result ps b r).
  { destruct Hw1 as (_ & _ & s & q & _ & _ & _ & Hq). by apply HR' in Hq as [Hr _]. }
  apply (setting_ext _ _ _ _ R' (serves_rows (QueryFacts.columns_of ps) (opened ps b))) in Hw1;
    [|intros q; rewrite HR'; naive_solver].
  unfold execute_result, exec_result in *. destruct (QueryFacts.skip ps) as [|pg ps']; [destruct b|]; subst r;
    [by constructor| |by constructor].
  eapply (total_step _ _ _ _ _ _ _ _ _ (serves_rows_steady _ _) Hw1). intros w2 Hw2.
  eapply (setting_edit _ _ _ _ _ (fun g => AdapterAddStatusRecord true g _ _ _ _)); [apply serves_rows_steady|exact Hw2|].
  intros w3 s d Hw3 _ _. by constructor.
Qed.

(** [k] holds the connection of the statement. *)
Definition connected (c : Statement AnyQuery)
    (k : gmap positive Env.Environment * gmap positive Connection * gmap positive Descriptor)
    (conn : Connection) : Prop := snd (fst k) !! connection c = Some conn.

Lemma ExecuteDirect_total fuel p sql c k m conn ps b w :
  bare p c k m w -> connected c k conn -> QueryFacts.answers usable (config_ conn) sql ps b -> (length ps < fuel)%nat ->
  total_w (fun _ w' => reports p (exec_result ps b) w' /\
      setting p c k m (serves_rows (QueryFacts.columns_of ps) (opened ps b)) w') (ExecuteDirect fuel p sql) w.
Proof.
  intros Hw Hc Ha Hf. unfold ExecuteDirect, api_prog.
  apply (total_bare _ _ _ _ _ _ _ _ Hw). intros w0 Hw0. eapply bare_edit; [exact Hw0|]. intros w1 Hw1.
  unfold InternalExecuteSqlQuery, InternalPrepareSqlQuery. do 2 apply total_bind.
  apply (total_bare _ _ _ _ _ _ _ _ Hw1). intros w2 Hw2.
  eapply bare_get_stmt; [exact Hw2|]. intros s <- _.
  apply (total_bare _ _ _ _ _ _ _ _ Hw2). intros w3 Hw3.
  apply (wp_get_conn _ conn); [by destruct Hw3 as (_ & <- & _)|].
  apply (replace_bare _ _ _ (fresh (config_ conn) sql) _ _ _ _ _ Hw3); [by intros d; exists d|apply fresh_steady|].
  intros w4 Hw4. constructor. eapply total_mono; [|by eapply InternalExecute_total].
  intros r w5 [-> Hw5]. apply total_report; [apply serves_rows_steady|exact Hw5].
Qed.

(** ** An application that reads rowsets *)

(** What the application sees of a call: the return code and its memory. *)
Definition seen (p : positive) : op AnyQuery (Z * Memory) :=
  fun w => op_bind (get_stmt p) (fun s => op_ret (GetReturnCode (stmt_diag s), memory w)) w.

Fixpoint fetch_times (n : nat) (p : positive) : main (World AnyQuery) (list (Z * Memory)) :=
  match n with
  | O => Ret []
  | S n' =>
      FetchRow p ;;
      let! r := step (seen p) in
      let! rs := fetch_times n' p in
      Ret (r :: rs)
  end.

(** [SQLExecDirect], then [n] times [SQLFetch]. *)
Definition application (fuel n : nat) (p : positive) (sql : text) : main (World AnyQuery) (Z * list (Z * Memory)) :=
  ExecuteDirect fuel p sql ;;
  let! r := step (seen p) in
  let! rs := fetch_times n p in
  Ret (fst r, rs).

(** The same of the abstract machine: one rowset for each call. *)
Definition rowsets (n : nat) (meta : list Meta.ColumnMeta) (x : Rows) : Statement AnyQuery -> Memory -> list (Z * Memory) :=
  StmtFacts.rowsets (Reader0 := row_reader meta) n x.

(** A look at the result of a call that is done. *)
Lemma total_seen {B} (P : B -> World AnyQuery -> Prop) kont p r c k m R w :
  steady R -> reports p r w -> setting p c k m R w ->
  (forall w', setting p c k m R w' -> total_w P (kont (SqlResultToReturnCode r, m)) w') ->
  total_w P (bind (step (seen p)) kont) w.
Proof.
  intros Hst Hr Hw Hk. apply (total_step_in (fun w => reports p r w /\ setting p c k m R w)); [|done|].
  - intros w0 t w1 [Hr0 Hw0] Ht. split; [by eapply reports_step|by eapply setting_step].
  - intros w0 [(s & g & E & Eg) Hw0]. unfold seen. apply wp_bind. eapply wp_get_stmt; [done|].
    apply wp_ret. rewrite Eg, (proj1 Hw0). by apply Hk.
Qed.

Lemma fetch_times_total n p meta x c k m w :
  setting p c k m (serves_rows meta x) w -> screen_fits (columnBindings c, m) ->
  total_w (fun rs _ => rs = rowsets n meta x c m) (fetch_times n p) w.
Proof.
  revert x c m w. induction n as [|n IH]; intros x c m w Hw Hs; unfold rowsets; cbn [fetch_times StmtFacts.rowsets]; [by constructor|].
  apply total_bind. eapply total_mono; [|by apply (FetchRow_total (Reader0 := row_reader meta) p c k x m)].
  intros _ w1 (r & Hr & Hw1). unfold fetched in Hw1.
  destruct (fetch_spec x c m) as [[rs [b m']] x']. destruct Hw1 as (-> & Hf & Hw1).
  eapply total_seen; [apply serves_rows_steady|exact Hr|exact Hw1|]. intros w2 Hw2. apply total_bind.
  eapply total_mono; [|by eapply IH]. intros rs' w3 ->. by constructor.
Qed.

Lemma application_total fuel n p sql c k m conn ps b w :
  bare p c k m w -> connected c k conn -> QueryFacts.answers usable (config_ conn) sql ps b -> (length ps < fuel)%nat ->
  screen_fits (columnBindings c, m) ->
  total_w (fun out _ => out = (SqlResultToReturnCode (exec_result ps b),
      rowsets n (QueryFacts.columns_of ps) (opened ps b) c m)) (application fuel n p sql) w.
Proof.
  intros Hw Hc Ha Hf Hs. unfold application. apply total_bind.
  eapply total_mono; [|by eapply ExecuteDirect_total]. intros _ w1 [Hr Hw1].
  eapply total_seen; [apply serves_rows_steady|exact Hr|exact Hw1|]. intros w2 Hw2. apply total_bind.
  eapply total_mono; [|by eapply fetch_times_total]. intros rs w3 ->. by constructor.
Qed.
End Reads.

(** ** A small application *)

Module Demo.
#[local] Existing Instances DataQueryFacts.Demo.client Encoding.UnixAbi WholeReals Get.WholeStreams Columns.ZeroLocals Column.SdkScalars StandardOdbc
  Types.HeaderCodes HeaderFields HeaderAttributes.

#[local] Instance schemas : Meta.Deployment := {| Meta.DATABASE_AS_SCHEMA := true |}.

Definition sql : text := txt "select name, level from pump".
Definition conn : Connection := Connections.NewConnection 1 (@DefaultConfiguration ExamplePlatform) (ConnectionInfo.Info.MkInfo ∅ ∅ ∅).

(** Rowsets of two rows: a column of texts in an array of 5 bytes each, one of
    numbers as wide texts in an array of 16 bytes each; the number of rows at
    3000, the states of the rows at 3100. *)
Definition reader : Statement AnyQuery :=
  set_rowArraySize 2 (set_rowsFetched (Some 3000) (set_rowStatuses (Some 3100)
    (set_bindings (fst DataQueryFacts.Demo.screen) (NewStatement 1 1 2 3 4)))).

Definition world : World AnyQuery :=
  MkWorld (fun _ => 0) 0 [] ∅ {[1%positive := conn]} {[1%positive := reader]} ∅.

(** What is there after a call: the rows, their number and their states. *)
Definition shown (out : Z * Memory) : Z * list (text * text) * Z * list Z :=
  let m := snd out in
  (fst out,
   map (fun i => (read_units 1 5 (1000 + 5 * i) m, read_units 2 8 (1100 + 16 * i) m)) [0; 1],
   le_val (load 3000 8 m), map (fun i => le_val (load (3100 + 2 * i) 2 m)) [0; 1]).

#[local] Instance text_movable : movable QueryColumns.text_target.
Proof. by split. Defined.

Definition start : main (World AnyQuery) (Z * list (Z * Memory)) := application 4 3 1 sql.
Definition tick : positive * nat -> World AnyQuery -> option (World AnyQuery) := world_tick.
End Demo.

(** A statement refines a reader of a list of rows, whatever the schedule of
    the fetching threads of all statements: [SQLExecDirect] followed by [n] times
    [SQLFetch] ends, without a deadlock and without an access out of bounds; the
    return codes and the memory of the application are those of the abstract
    machine that takes, for each call, as many of the rows that are left as the
    rowset has elements, converts the columns of the [i]th into the [i]th elements
    of the bound arrays at the bind offset, and reports the state of each row and
    how many there are. *)
Theorem statement_reads_rowsets `{OdbcConstants} `{Types.SqlCodes} `{FieldCodes} `{AttributeCodes} `{Encoding.Abi} {F : Floats} `{!Get.Reals F} `{!Columns.Locals}
    `{HA : Meta.AwsTypes} `{HC : !Query.Client} `{HR : !Query.ColumnReader} `{!Meta.Deployment}
    (usable : ApplicationDataBuffer -> Prop) `{!movable usable}
    (fuel n : nat) (p : positive) (sql : text) (w : World AnyQuery) (s : Statement AnyQuery)
    (conn : Connection) (ps : list Query.ExecuteQueryResult) (b : bool) :
  statements w !! p = Some s -> currentQuery s = None ->
  connections w !! connection s = Some conn ->
  QueryFacts.answers usable (config_ conn) sql ps b -> (length ps < fuel)%nat ->
  QueryFacts.screen_ok usable (columnBindings s, memory w) ->
  total world_tick (fun out _ => out = (SqlResultToReturnCode (exec_result ps b),
      rowsets usable n (QueryFacts.columns_of ps) (opened ps b) s (memory w))) (application fuel n p sql) w.
Proof.
  intros Es Hn Ec Ha Hf Hs.
  eapply total_mono; [|apply (application_total usable fuel n p sql (core s) (objects w) (memory w) conn ps b);
    [by split_and!; [..|exists s]|exact Ec|exact Ha|exact Hf|exact Hs]].
  intros out w' ->. unfold rowsets. by rewrite rowsets_core.
Qed.

(** Three rows of two pages, after a first page without rows, in rowsets of two. *)
Lemma statement_reads_rowsets_witness :
  total Demo.tick (fun out _ => fst out = 0 /\ map Demo.shown (snd out) =
      [ (0, [(txt "pump", txt "17"); (txt "tank", txt "-4")], 2, [0; 0]);
        (0, [(txt "valv", txt "230"); (txt "tank", txt "-4")], 1, [0; 3]);
        (100, [(txt "valv", txt "230"); (txt "tank", txt "-4")], 0, [3; 3]) ]) Demo.start Demo.world.
Proof.
  eapply total_mono; [|apply (@statement_reads_rowsets _ _ _ _ _ _ _ _ _ _ _ _ QueryColumns.text_target Demo.text_movable
    4 3 1 Demo.sql Demo.world Demo.reader Demo.conn DataQueryFacts.Demo.pages false);
    [reflexivity|reflexivity|reflexivity| |repeat constructor|exact DataQueryFacts.Demo.screen_usable]].
  - intros out w ->. split; [reflexivity|]. vm_compute. reflexivity.
  - split; [exact DataQueryFacts.Demo.pages_stream|exact DataQueryFacts.Demo.pages_fit].
Defined.
End StmtReads.
