(* ===== verification/EntryFacts.v ===== *)
(** * EntryFacts: what an application gets through the ODBC interface

    The theorems about a statement ([StatementReads]) seen through the functions an
    application calls, the retrieval of diagnostics by [SQLError] and
    [SQLGetDiagRec], and the life of a statement handle. *)

From S2P Require Import Prelude Text Codes Memory Diagnostics Environment Encoding WideText AppBuffer AppBufferFacts GetData Column ColumnFacts TypeTraits Fields Attributes ConnectionInfo Configuration ColumnMeta Interleave DataQuery Queries QueryColumns AppBufferGet ColumnMetadata DataQueryFacts AnyQuery Handles Descriptor Connection Statement StatementFacts StatementReads EntryPoints.

Module OdbcFacts.
Import Text Memory Diag Config Encoding Wide AppBuf Fields Attrs Handles Stmt StmtFacts AnyQuery StmtReads Odbc.
Local Open Scope main_scope.

(** ** A session: a query, and fetches *)

Section Session.
Context `{OdbcConstants} `{Types.SqlCodes} `{FieldCodes} `{AttributeCodes} `{Encoding.Abi} {F : Floats} `{!Get.Reals F} `{!Columns.Locals}.
Context `{HA : Meta.AwsTypes} `{HC : !Query.Client} `{HR : !Query.ColumnReader} `{!Meta.Deployment} `{!HandleCodes}.
Abbreviation total_w := (total world_tick).
Implicit Types (w : World AnyQuery) (s c : Statement AnyQuery) (p : positive) (m : Memory).

(** The memory of the application as it finds it after a call. *)
Definition look : op AnyQuery Memory := fun w => Ok (w, memory w).

Fixpoint fetches (n : nat) (stmt : option positive) : main (World AnyQuery) (list (Z * Memory)) :=
  match n with
  | O => Ret []
  | S n' =>
      let! r := SQLFetch stmt in
      let! m := step look in
      let! rs := fetches n' stmt in
      Ret ((r, m) :: rs)
  end.

Definition session (fuel n : nat) (stmt : option positive) (query : pointer) (queryLen : Z)
    : main (World AnyQuery) (Z * list (Z * Memory)) :=
  let! r := SQLExecDirect fuel stmt query queryLen in
  let! rs := fetches n stmt in
  Ret (r, rs).

Context (usable : ApplicationDataBuffer -> Prop) `{!movable usable}.

(** The return code of a call that is done. *)
Lemma total_code p r c k m R w :
  steady R -> reports p r w -> setting p c k m R w ->
  total_w (fun code w' => code = SqlResultToReturnCode r /\ setting p c k m R w') (step (stmt_code p)) w.
Proof.
  intros Hst Hr Hw. apply (total_op_in (fun w => reports p r w /\ setting p c k m R w) _ (stmt_code p) Ret);
    [by intros w1 w2 a ->| |done|].
  - intros w0 t w1 [Hr0 Hw0] Ht. split; [by eapply reports_step|by eapply setting_step].
  - intros w0 [(s & g & E & Eg) Hw0]. unfold stmt_code. apply wp_bind. eapply wp_get_stmt; [done|].
    apply wp_ret. constructor. by rewrite Eg.
Qed.

Lemma total_look {B} (P : B -> World AnyQuery -> Prop) kont p c k m R w :
  steady R -> setting p c k m R w -> (forall w', setting p c k m R w' -> total_w P (kont m) w') ->
  total_w P (bind (step look) kont) w.
Proof.
  intros Hst Hw Hk. eapply (total_step _ _ _ _ _ _ _ _ _ Hst Hw). intros w0 Hw0.
  unfold wp, look. rewrite (proj1 Hw0). by apply Hk.
Qed.

Lemma fetches_total {X} `{HX : !Reader (Q := AnyQuery) X} n p x c k m w :
  setting p c k m (serves x) w -> fits (columnBindings c, m) ->
  total_w (fun rs _ => rs = StmtFacts.rowsets n x c m) (fetches n (Some p)) w.
Proof.
  revert x c m w. induction n as [|n IH]; intros x c m w Hw Hs; cbn [fetches StmtFacts.rowsets]; [by constructor|].
  unfold SQLFetch, stmt_prog. do 2 apply total_bind.
  eapply total_mono; [|by apply (FetchRow_total p c k x m)].
  intros _ w1 (r & Hr & Hw1). unfold fetched in Hw1.
  destruct (fetch_spec x c m) as [[rs [b m']] x']. destruct Hw1 as (-> & Hf & Hw1).
  eapply total_mono; [|by eapply total_code; [apply serves_steady|exact Hr|exact Hw1]].
  intros code w2 [-> Hw2]. eapply total_look; [apply serves_steady|exact Hw2|]. intros w3 Hw3.
  apply total_bind. eapply total_mono; [|eapply IH; [exact Hw3|by eapply fits_memory]]. intros rs' w4 ->. by constructor.
Qed.

Lemma session_total fuel n p query queryLen sql c k m conn ps b w :
  bare p c k m w -> SqlWcharToString SQL_NTS fuel query queryLen false m = Ok sql ->
  connected c k conn -> QueryFacts.answers usable (config_ conn) sql ps b -> (length ps < fuel)%nat ->
  QueryFacts.screen_ok usable (columnBindings c, m) ->
  total_w (fun out _ => out = (SqlResultToReturnCode (exec_result ps b),
      rowsets usable n (QueryFacts.columns_of ps) (opened ps b) c m)) (session fuel n (Some p) query queryLen) w.
Proof.
  intros Hw Hsql Hc Ha Hf Hs. unfold session, SQLExecDirect, stmt_prog. do 2 apply total_bind.
  apply (total_bare _ _ _ _ _ _ _ _ Hw). intros w0 Hw0. unfold wp, wide_text.
  rewrite (proj1 Hw0), Hsql.
  eapply total_mono; [|by eapply ExecuteDirect_total]. intros _ w1 [Hr Hw1].
  eapply total_mono; [|by eapply total_code; [apply serves_rows_steady|exact Hr|exact Hw1]].
  intros code w2 [-> Hw2]. apply total_bind.
  eapply total_mono; [|by eapply (fetches_total (HX := row_reader usable (QueryFacts.columns_of ps)))].
  intros rs w3 ->. by constructor.
Qed.
End Session.

(** ** Texts of ASCII characters in wide buffers *)

Section WideBuffers.
Context `{!Encoding.Abi}.

(** The number of characters copied, and the memory; and a variable. *)
Definition put_text (s : text) (buf : pointer) (len : Z) (m : Memory) : Z * Memory :=
  let '(n, _, m) := CopyStringToBuffer s buf len false m in (n, m).
Definition put_cell (a : pointer) (size : nat) (v : Z) (m : Memory) : Memory :=
  match a with Some a => store a (le_bytes size v) m | None => m end.

(** A wide buffer of [len] characters in a memory. *)
Definition wide_buffer (a len : Z) (m : Memory) : text := GetData.read_units wide_size (Z.to_nat len) a m.

Lemma wide_size_pos : Z.of_nat wide_size = sizeof_SQLWCHAR /\ 0 < sizeof_SQLWCHAR <= 4.
Proof. unfold wide_size. destruct sizeof_SQLWCHAR_ok as [-> | ->]; lia. Qed.

Lemma length_wide cs : length (wide_bytes cs) = (length cs * wide_size)%nat.
Proof.
  unfold wide_bytes. induction cs as [|c cs IH]; [done|]. cbn [flat_map length].
  rewrite length_app, length_le_bytes, IH. done.
Qed.

Lemma u64_chars len : 0 <= len < 2147483648 -> u64 (len * sizeof_SQLWCHAR) = len * sizeof_SQLWCHAR.
Proof. intros Hl. pose proof wide_size_pos as [_ Hp]. apply u64_small. unfold is_u64. nia. Qed.

Lemma copy_ascii s a len m :
  ascii_only s -> 2 <= len < 2147483648 ->
  let part := take (Z.to_nat (len - 1)) s in
  CopyStringToBuffer s (Some a) len false m =
  (Z.of_nat (length part), bool_decide (length part < length s)%nat,
   store (a + Z.of_nat (length part) * sizeof_SQLWCHAR) (wide_bytes [0])
     (store a (wide_bytes (bytes_of part)) m)).
Proof.
  intros Hs Hl part. pose proof wide_size_pos as [_ Hp]. unfold CopyStringToBuffer.
  rewrite u64_chars by lia. rewrite c_str_ascii by (by apply ascii_no_nul).
  unfold CopyUtf8StringToSqlWcharString, CopyUtf8StringToWcharString.
  rewrite (proj2 (Z.eqb_neq _ _)), (proj2 (Z.ltb_lt _ _)) by nia. rewrite Z.div_mul by lia.
  rewrite codecvt_ascii by done. rewrite <- bytes_of_take. fold part. rewrite length_bytes_of.
  rewrite Z.div_mul by lia. f_equal. f_equal.
  assert (Hlen : length part = Nat.min (Z.to_nat (len - 1)) (length s)) by apply length_take.
  destruct (Nat.leb_spec (length s) (Z.to_nat (len - 1))).
  - rewrite drop_ge by (rewrite length_bytes_of; lia). cbn. symmetry. apply bool_decide_eq_false_2. lia.
  - symmetry. apply bool_decide_eq_true_2. lia.
Qed.

(** What was copied is read back, and the rest of the memory is as before. *)
Lemma copied_ascii s a len m :
  ascii_only s -> 2 <= len < 2147483648 ->
  let part := take (Z.to_nat (len - 1)) s in
  let m' := snd (put_text s (Some a) len m) in
  fst (put_text s (Some a) len m) = Z.of_nat (length part) /\
  wide_buffer a len m' = part /\ untouched [(a, len * sizeof_SQLWCHAR)] m m'.
Proof.
  intros Hs Hl part m'. pose proof wide_size_pos as [Hw Hp]. unfold m', put_text.
  rewrite copy_ascii by done. cbn [fst snd]. fold part.
  assert (Hlen : (length part <= Z.to_nat (len - 1))%nat) by (unfold part; rewrite length_take; lia).
  assert (Hb : length (wide_bytes (bytes_of part)) = (length part * wide_size)%nat)
    by (by rewrite length_wide, length_bytes_of).
  assert (H1 : length (wide_bytes [0]) = wide_size) by (rewrite length_wide; cbn; lia).
  split_and!; [done| |].
  - apply GetData.read_units_text; [lia|by apply ascii_no_nul, ascii_take|lia| |].
    + rewrite load_store_apart, load_store_n by (done || (left; rewrite Nat2Z.inj_mul, Hw; lia)). done.
    + rewrite Nat2Z.inj_mul, Hw. rewrite load_store_n by done. unfold wide_bytes. cbn [flat_map].
      apply app_nil_r.
  - assert (Hr : Z.of_nat (length part) * sizeof_SQLWCHAR + sizeof_SQLWCHAR <= len * sizeof_SQLWCHAR) by nia.
    assert (0 <= Z.of_nat (length part) * sizeof_SQLWCHAR) by nia.
    intros x Hx. rewrite Forall_singleton in Hx. cbn [fst snd] in Hx.
    rewrite !store_outside; [done|rewrite Hb, Nat2Z.inj_mul, Hw; lia|rewrite H1, Hw; lia].
Qed.

Lemma read_units_ext w n a m m' :
  (forall x, a <= x < a + Z.of_nat (n * w) -> m' x = m x) -> GetData.read_units w n a m' = GetData.read_units w n a m.
Proof.
  revert a. induction n as [|n IH]; intros a Hm; [done|]. cbn [GetData.read_units].
  rewrite (load_ext a w m' m) by (intros x Hx; apply Hm; lia).
  rewrite IH by (intros x Hx; apply Hm; lia). done.
Qed.

(** A buffer is left alone by what is written apart from it. *)
Lemma wide_buffer_apart a len b n m m' :
  0 <= len -> untouched [(b, n)] m m' -> b + n <= a \/ a + len * sizeof_SQLWCHAR <= b ->
  wide_buffer a len m' = wide_buffer a len m.
Proof.
  intros Hl Hu Ha. pose proof wide_size_pos as [Hw _]. apply read_units_ext. intros x Hx. apply Hu.
  apply Forall_singleton. cbn [fst snd]. rewrite Nat2Z.inj_mul, Z2Nat.id, Hw in Hx by lia. lia.
Qed.

Lemma untouched_cell a size v m : untouched [(a, Z.of_nat size)] m (put_cell (Some a) size v m).
Proof. apply untouched_store with (n := Z.of_nat size); [by apply list_elem_of_here|by rewrite length_le_bytes|done]. Qed.
End WideBuffers.

(** ** The records of a handle, one for each call of [SQLError] *)

Section Errors.
Context `{OdbcConstants} `{!Encoding.Abi} {Q : Type} `{!HandleCodes}.
Abbreviation op := (op Q).
Local Open Scope op_scope.

Definition records_at (t : HandleType) (p : positive) (d : DiagnosticRecordStorage) (w : World Q) : Prop :=
  get_records t p w = Ok (w, d).

Lemma edit_records_at t p f d w :
  records_at t p d w ->
  exists w', edit_records t p f w = Ok (w', tt) /\ records_at t p (f d) w' /\ memory w' = memory w.
Proof.
  unfold records_at, get_records, edit_records, edit_conn, edit_stmt, edit_desc, on_conn, on_stmt, on_desc,
    on_env, get_env, get_conn, get_stmt, get_desc, put_conn, put_stmt, put_desc, op_bind, found, op_ret, op_fail.
  destruct t;
    [destruct (environments w !! p)|destruct (connections w !! p)|destruct (statements w !! p)
    |destruct (descriptors w !! p)]; try discriminate; cbn; intros [= <-];
    (eexists; split; [reflexivity|]); cbn; by rewrite lookup_insert_eq.
Qed.

Lemma records_at_memory t p d m w : records_at t p d w -> records_at t p d (set_memory m w).
Proof.
  unfold records_at, get_records, get_env, get_conn, get_stmt, get_desc, op_bind, found, op_ret, op_fail.
  destruct t; cbn;
    [destruct (environments w !! p)|destruct (connections w !! p)|destruct (statements w !! p)
    |destruct (descriptors w !! p)]; try discriminate; cbn; by intros [= <-].
Qed.

Section Buffers.
Context (state error msgBuf : pointer) (msgBufLen : Z) (msgResLen : pointer).

(** What a call writes of a record. *)
Definition delivered (m : Memory) (r : DiagnosticRecord) : Memory :=
  let m := match state with Some _ => snd (put_text (GetSqlState r) state 6 m) | None => m end in
  let '(n, m) := put_text (message r) msgBuf (u64 msgBufLen) (put_cell error 4 0 m) in
  put_cell msgResLen 2 (i16 n) m.

Lemma copy_out_run s buf len w :
  copy_out (Q := Q) s buf len w = Ok (set_memory (snd (put_text s buf len (memory w))) w, fst (put_text s buf len (memory w))).
Proof. unfold copy_out, put_text. by destruct (CopyStringToBuffer _ _ _ _ _) as [[n tr] m]. Qed.

Lemma write_opt_run a n v w :
  Connections.write_opt (Q := Q) a n v w = Ok (set_memory (put_cell a n v (memory w)) w, tt).
Proof. destruct a; [done|]. by destruct w. Qed.

Lemma put_state_run r w :
  put_state (Q := Q) r state error w =
  Ok (set_memory (put_cell error 4 0
        (match state with Some _ => snd (put_text (GetSqlState r) state 6 (memory w)) | None => memory w end)) w, tt).
Proof.
  unfold put_state. destruct state as [a|]; unfold op_bind; [rewrite copy_out_run|]; cbn [op_ret];
    by rewrite write_opt_run.
Qed.

(** ** One call *)

Lemma last_non_retrieved_at i pre r post :
  Forall (fun r => retrieved r = true) pre -> retrieved r = false ->
  last_non_retrieved i (pre ++ r :: post) = i + Z.of_nat (length pre) + 1.
Proof.
  intros Hp Hr. revert i. induction Hp as [|x pre Hx Hp IH]; intros i; cbn [last_non_retrieved app length].
  - rewrite Hr. cbn. lia.
  - rewrite Hx. cbn [negb]. rewrite IH. lia.
Qed.

Lemma last_non_retrieved_none i l : Forall (fun r => retrieved r = true) l -> last_non_retrieved i l = 0.
Proof.
  intros Hl. revert i. induction Hl as [|x l Hx Hl IH]; intros i; cbn [last_non_retrieved]; [done|].
  rewrite Hx. apply IH.
Qed.

(** The records of a storage, some of which were retrieved. *)
Definition with_records (d : DiagnosticRecordStorage) (l : list DiagnosticRecord) : DiagnosticRecordStorage :=
  MkDiag (rowCount d) (dynamicFunction d) (dynamicFunctionCode d) (result d) (rowsAffected d) l.

Lemma mark_retrieved_at d pre r post :
  statusRecords d = pre ++ r :: post ->
  mark_retrieved (Z.of_nat (length pre) + 1) d = with_records d (pre ++ MarkRetrieved r :: post).
Proof.
  intros E. unfold mark_retrieved, with_records. f_equal. rewrite E.
  replace (Z.to_nat (Z.of_nat (length pre) + 1 - 1)) with (length pre + 0)%nat by lia.
  by rewrite alter_app_r.
Qed.

Context (env conn stmt : option positive) (t : HandleType) (p : positive).
Context (Hh : error_handle env conn stmt = Some (t, p)).

Abbreviation next_error := (SQLError env conn stmt state error msgBuf msgBufLen msgResLen).

Lemma SQLError_next d pre r post w :
  records_at t p d w -> statusRecords d = pre ++ r :: post ->
  Forall (fun r => retrieved r = true) pre -> retrieved r = false ->
  Z.of_nat (length (statusRecords d)) < 2147483648 ->
  exists w', next_error w = Ok (w', SQL_SUCCESS) /\ memory w' = delivered (memory w) r /\
    records_at t p (with_records d (pre ++ MarkRetrieved r :: post)) w'.
Proof.
  intros Hd E Hp Hr Hlen. unfold SQLError. rewrite Hh.
  assert (En : GetLastNonRetrieved d = Z.of_nat (length pre) + 1)
    by (unfold GetLastNonRetrieved; rewrite E; by apply last_non_retrieved_at).
  assert (Eg : GetStatusRecord d (Z.of_nat (length pre) + 1) = Some r).
  { unfold GetStatusRecord. rewrite (proj2 (Z.ltb_ge _ _)), E by lia.
    replace (Z.to_nat (Z.of_nat (length pre) + 1 - 1)) with (length pre) by lia. by rewrite list_lookup_middle. }
  unfold op_bind at 1. rewrite Hd, En, Eg.
  replace ((Z.of_nat (length pre) + 1 <? 1) || _) with false.
  2:{ symmetry. apply orb_false_iff. rewrite !Z.ltb_ge. unfold GetStatusRecordsNumber.
      rewrite i32_small by (unfold is_i32; lia). rewrite E, length_app. cbn [length]. lia. }
  destruct (edit_records_at t p (mark_retrieved (Z.of_nat (length pre) + 1)) d w Hd) as (w1 & Ew & Hd1 & Hm).
  unfold op_bind at 1. rewrite Ew. unfold op_bind at 1. rewrite put_state_run.
  unfold op_bind at 1. rewrite copy_out_run. unfold op_bind. rewrite write_opt_run. cbn [op_ret].
  eexists. split; [reflexivity|]. split.
  - cbn [memory set_memory]. unfold delivered. rewrite Hm. by destruct (put_text (message r) _ _ _).
  - do 3 apply records_at_memory. by rewrite <- (mark_retrieved_at d pre r post E).
Qed.

Lemma SQLError_none d w :
  records_at t p d w -> Forall (fun r => retrieved r = true) (statusRecords d) ->
  next_error w = Ok (w, SQL_NO_DATA).
Proof.
  intros Hd Hr. unfold SQLError. rewrite Hh. unfold op_bind at 1. rewrite Hd.
  unfold GetLastNonRetrieved. by rewrite last_non_retrieved_none.
Qed.

(** [n + 1] calls, and their codes. *)
Fixpoint error_calls (n : nat) : op (list Z) :=
  let* code := next_error in
  match n with
  | O => op_ret [code]
  | S n' => let* codes := error_calls n' in op_ret (code :: codes)
  end.

Lemma error_calls_drain post pre d w :
  records_at t p d w -> statusRecords d = pre ++ post ->
  Forall (fun r => retrieved r = true) pre -> Forall (fun r => retrieved r = false) post ->
  Z.of_nat (length (statusRecords d)) < 2147483648 ->
  exists w', error_calls (length post) w = Ok (w', replicate (length post) SQL_SUCCESS ++ [SQL_NO_DATA]) /\
    memory w' = fold_left delivered post (memory w) /\
    records_at t p (with_records d (pre ++ map MarkRetrieved post)) w'.
Proof.
  revert pre d w. induction post as [|r post IH]; intros pre d w Hd E Hp Hr Hlen.
  - rewrite app_nil_r in *. exists w. cbn [error_calls length replicate app fold_left map]. unfold op_bind.
    rewrite (SQLError_none d) by (done || by rewrite E). split_and!; [done..|].
    rewrite <- E. by destruct d.
  - apply Forall_cons in Hr as [Hr Hpost].
    destruct (SQLError_next d pre r post w Hd E Hp Hr Hlen) as (w1 & E1 & Hm1 & Hd1).
    destruct (IH (pre ++ [MarkRetrieved r]) _ w1 Hd1) as (w2 & E2 & Hm2 & Hd2).
    + cbn. by rewrite <- app_assoc.
    + apply Forall_app. split; [done|]. by apply Forall_singleton.
    + done.
    + cbn [with_records statusRecords]. rewrite E, !length_app in *. cbn [length] in *. lia.
    + exists w2. cbn [error_calls length]. unfold op_bind at 1. rewrite E1. unfold op_bind. rewrite E2.
      split_and!; [done|by rewrite Hm2, Hm1|]. cbn [map]. by rewrite <- app_assoc in Hd2.
Qed.
End Buffers.

(** ** One record by its number *)

(** The code the length of a message gives. *)
Definition message_code (msg : text) (len : Z) : Z :=
  if len <? i16 (Z.of_nat (length msg) + 1) then SQL_SUCCESS_WITH_INFO else SQL_SUCCESS.

Lemma message_code_short msg len :
  Z.of_nat (length msg) < 32767 ->
  message_code msg len = if Z.of_nat (length msg) <? len then SQL_SUCCESS else SQL_SUCCESS_WITH_INFO.
Proof.
  intros Hm. unfold message_code, i16. rewrite Z.mod_small by lia.
  destruct (Z.ltb_spec len (Z.of_nat (length msg) + 1 + 32768 - 32768)), (Z.ltb_spec (Z.of_nat (length msg)) len); done || lia.
Qed.

Lemma message_code_long msg len :
  32767 <= Z.of_nat (length msg) < 65535 -> 0 <= len -> message_code msg len = SQL_SUCCESS.
Proof.
  intros Hm Hl. unfold message_code. unfold i16.
  replace ((Z.of_nat (length msg) + 1 + 32768) mod 65536) with (Z.of_nat (length msg) + 1 + 32768 - 65536)
    by (symmetry; rewrite <- (Z.mod_add _ (-1)) by lia; apply Z.mod_small; lia).
  rewrite (proj2 (Z.ltb_ge _ _)) by lia. done.
Qed.

Lemma put_message_run msg a len lenp (w : World Q) :
  ascii_only msg -> 2 <= len < 32768 ->
  put_message msg (Some a) len (Some lenp) w =
  Ok (set_memory (put_cell (Some lenp) 2 (Z.of_nat (length (take (Z.to_nat (len - 1)) msg)))
        (snd (put_text msg (Some a) len (memory w)))) w, message_code msg len).
Proof.
  intros Hs Hl. unfold put_message, message_code. rewrite bool_decide_eq_false_2 by done. cbn [orb].
  destruct (copied_ascii msg a len (memory w)) as (En & _); [done|lia|].
  rewrite u64_small by (unfold is_u64; lia).
  case_test; unfold op_bind; rewrite copy_out_run, En; [reflexivity|by rewrite write_opt_run].
Qed.
End Errors.

(** ** Properties *)

(** C2. The whole driver through the ODBC interface, whatever the schedule of the
    fetching threads of all statements: [SQLExecDirect] with a query in wide
    characters, then [n] times [SQLFetch], ends without a deadlock and without an
    access out of bounds. The return codes are those of the execution and of each
    rowset, and after each call the memory of the application is that of the
    abstract machine that takes as many of the rows that are left as the rowset has
    elements, converts them into the bound arrays and reports the state and the
    number of rows. The statement has no query yet and belongs to a connection, the
    characters of the query can be read, the buffers that are bound can be used,
    and the service answers with pages that all have rows from the first one with
    rows on and whose rows have a convertible datum for every column (an empty page in the
    middle blocks for ever, see [DataQueryFacts.empty_page_blocks]). *)
Theorem session_reads_rowsets `{OdbcConstants} `{Types.SqlCodes} `{FieldCodes} `{AttributeCodes} `{Encoding.Abi} {F : Floats} `{!Get.Reals F} `{!Columns.Locals}
    `{HA : Meta.AwsTypes} `{HC : !Query.Client} `{HR : !Query.ColumnReader} `{!Meta.Deployment} `{!HandleCodes}
    (usable : ApplicationDataBuffer -> Prop) `{!movable usable}
    (fuel n : nat) (p : positive) (query : pointer) (queryLen : Z) (sql : text) (w : World AnyQuery)
    (s : Statement AnyQuery) (conn : Connection) (ps : list Query.ExecuteQueryResult) (b : bool) :
  statements w !! p = Some s -> currentQuery s = None ->
  connections w !! connection s = Some conn ->
  SqlWcharToString SQL_NTS fuel query queryLen false (memory w) = Ok sql ->
  QueryFacts.answers usable (config_ conn) sql ps b -> (length ps < fuel)%nat ->
  QueryFacts.screen_ok usable (columnBindings s, memory w) ->
  total world_tick (fun out _ => out = (SqlResultToReturnCode (exec_result ps b),
      rowsets usable n (QueryFacts.columns_of ps) (opened ps b) s (memory w))) (session fuel n (Some p) query queryLen) w.
Proof.
  intros Es Hn Ec Hsql Ha Hf Hs.
  eapply total_mono; [|apply (session_total usable fuel n p query queryLen sql (core s) (objects w) (memory w) conn ps b);
    [by split_and!; [..|exists s]|exact Hsql|exact Ec|exact Ha|exact Hf|exact Hs]].
  intros out w' ->. unfold rowsets. by rewrite rowsets_core.
Qed.

(** C15. [SQLError] hands out the records of a handle one by one: as many calls as
    there are records each succeed and write the next record, in the order they
    were added, the call after them finds no data, and all records are marked. *)
Theorem SQLError_drains `{OdbcConstants} `{!Encoding.Abi} {Q : Type} `{!HandleCodes}
    (state error msgBuf : pointer) (msgBufLen : Z) (msgResLen : pointer) (env conn stmt : option positive)
    (t : HandleType) (p : positive) (d : DiagnosticRecordStorage) (w : World Q)
    (Hh : error_handle env conn stmt = Some (t, p)) (Hd : records_at t p d w)
    (Hnew : Forall (fun r => retrieved r = false) (statusRecords d))
    (Hlen : Z.of_nat (length (statusRecords d)) < 2147483648) :
  exists w',
    error_calls state error msgBuf msgBufLen msgResLen env conn stmt (length (statusRecords d)) w =
      Ok (w', replicate (length (statusRecords d)) SQL_SUCCESS ++ [SQL_NO_DATA]) /\
    memory w' = fold_left (delivered state error msgBuf msgBufLen msgResLen) (statusRecords d) (memory w) /\
    records_at t p (with_records d (map MarkRetrieved (statusRecords d))) w'.
Proof. by apply (error_calls_drain state error msgBuf msgBufLen msgResLen env conn stmt t p Hh _ [] d w Hd). Qed.

(** C37. [SQLGetDiagRec] on a record that exists and has a message of ASCII
    characters, with buffers for the message (of 2 to 32767 characters) and the
    state and a variable for the length, none null and no two overlapping: the buffer holds the message as
    far as it fits before the terminator, the variable its length, the other buffer
    the state, the records stay as they are and nothing else is written. The call
    succeeds just when a message of less than 32767 characters fits; one of 32767 to
    65534 characters is reported as complete however short the buffer is. Of the
    code for longer messages, whose length wraps in 16 bits, nothing is said. *)
Theorem SQLGetDiagRec_reads `{OdbcConstants} `{!Encoding.Abi} {Q : Type} `{!HandleCodes}
    (type n : Z) (t : HandleType) (p : positive) (d : DiagnosticRecordStorage) (w : World Q)
    (r : DiagnosticRecord) (st a len lenp : Z)
    (Ht : handle_type type = Some t) (Hd : records_at t p d w)
    (Hn : 1 <= n <= Z.of_nat (length (statusRecords d)))
    (Hmany : Z.of_nat (length (statusRecords d)) < 2147483648)
    (Hr : GetStatusRecord d n = Some r) (Hs : ascii_only (message r)) (Hl : 2 <= len < 32768)
    (Hst : st + 6 * sizeof_SQLWCHAR <= a \/ a + len * sizeof_SQLWCHAR <= st)
    (Hlp : lenp + 2 <= a \/ a + len * sizeof_SQLWCHAR <= lenp)
    (Hls : lenp + 2 <= st \/ st + 6 * sizeof_SQLWCHAR <= lenp) :
  exists w' code, SQLGetDiagRec type (Some p) n (Some st) None (Some a) len (Some lenp) w = Ok (w', code) /\
    wide_buffer a len (memory w') = take (Z.to_nat (len - 1)) (message r) /\
    wide_buffer st 6 (memory w') = GetSqlState r /\
    load lenp 2 (memory w') = le_bytes 2 (Z.min (Z.of_nat (length (message r))) (len - 1)) /\
    untouched [(a, len * sizeof_SQLWCHAR); (st, 6 * sizeof_SQLWCHAR); (lenp, 2)] (memory w) (memory w') /\
    records_at t p d w' /\
    (Z.of_nat (length (message r)) < 32767 ->
       code = if Z.of_nat (length (message r)) <? len then SQL_SUCCESS else SQL_SUCCESS_WITH_INFO) /\
    (32767 <= Z.of_nat (length (message r)) < 65535 -> code = SQL_SUCCESS).
Proof.
  pose proof wide_size_pos as [Hw Hp]. unfold SQLGetDiagRec. rewrite Ht. unfold op_bind at 1. rewrite Hd.
  rewrite (proj2 (Z.ltb_ge n 1)), (proj2 (Z.ltb_ge len 0)) by lia. cbn [orb].
  unfold GetStatusRecordsNumber. rewrite i32_small, (proj2 (Z.ltb_ge _ _)), Hr by (unfold is_i32; lia).
  unfold op_bind. rewrite put_state_run. cbn [put_cell].
  rewrite put_message_run by done. eexists _, _. split; [reflexivity|]. cbn [memory set_memory].
  assert (Hascii : ascii_only (GetSqlState r)) by (unfold GetSqlState; destruct (sqlState r); repeat constructor; by vm_compute).
  destruct (copied_ascii (GetSqlState r) st 6 (memory w) Hascii ltac:(lia)) as (_ & Rs & Us).
  set (m1 := snd (put_text (GetSqlState r) (Some st) 6 (memory w))) in *.
  destruct (copied_ascii (message r) a len m1 Hs ltac:(lia)) as (_ & Rm & Um).
  set (m2 := snd (put_text (message r) (Some a) len m1)) in *.
  pose proof (untouched_cell lenp 2 (Z.of_nat (length (take (Z.to_nat (len - 1)) (message r)))) m2) as Uc.
  split_and!.
  - rewrite (wide_buffer_apart a len lenp 2 m2) by (done || lia). done.
  - rewrite (wide_buffer_apart st 6 lenp 2 m2) by (done || lia).
    rewrite (wide_buffer_apart st 6 a (len * sizeof_SQLWCHAR) m1) by (done || lia). rewrite Rs.
    apply take_ge. unfold GetSqlState. rewrite state_text_length. case_match; cbn; lia.
  - cbn [put_cell]. rewrite load_store_n by (by rewrite length_le_bytes). f_equal. rewrite length_take. lia.
  - intros x Hx. apply Forall_cons in Hx as [Hx1 Hx]. apply Forall_cons in Hx as [Hx2 Hx3].
    rewrite (Uc x Hx3), (Um x (proj2 (Forall_singleton _ _) Hx1)). by apply Us, Forall_singleton.
  - by do 2 apply records_at_memory.
  - apply message_code_short.
  - intros Hm. apply message_code_long; lia.
Qed.
End OdbcFacts.

(** ** Runs *)

Module OdbcDemo.
Import Text Memory Diag Encoding Fields Attrs Handles AppBuf StmtReads Odbc OdbcFacts.

#[export] Existing Instances DataQueryFacts.Demo.client Encoding.UnixAbi AppBuf.WholeReals Get.WholeStreams Columns.ZeroLocals Column.SdkScalars StandardOdbc
  Types.HeaderCodes HeaderFields HeaderAttributes StmtReads.Demo.schemas StmtReads.Demo.text_movable.

#[export, refine] Instance codes : HandleCodes := {|
  SQL_INVALID_HANDLE := -2; SQL_HANDLE_ENV := 1; SQL_HANDLE_DBC := 2; SQL_HANDLE_STMT := 3;
  SQL_HANDLE_DESC := 4; SQL_COLUMN_TYPE := 2; SQL_DATE := 9; SQL_TIME := 10; SQL_TIMESTAMP := 11 |}.
Proof. repeat constructor; set_solver. Defined.

(** The query as the application has it: wide characters with a terminator. *)
Definition with_query : World AnyQuery.AnyQuery :=
  set_memory (store 5000 (wide_bytes (bytes_of Demo.sql ++ [0])) (memory Demo.world)) Demo.world.

Definition run : main (World AnyQuery.AnyQuery) (Z * list (Z * Memory)) :=
  session 40 3 (Some 1%positive) (Some 5000) SQL_NTS.

(** A connection with two records. *)
Definition records : DiagnosticRecordStorage :=
  MkDiag 0 [] 0 AI_ERROR 0
    [CreateStatusRecord S08001_CANNOT_CONNECT (txt "no route") 0 0;
     CreateStatusRecord S01000_GENERAL_WARNING (txt "first try") 0 0].
Definition failed : World AnyQuery.AnyQuery :=
  upd_conn 1 (set_conn_diag records Demo.conn) Demo.world.
End OdbcDemo.
Import OdbcDemo.

Lemma session_reads_rowsets_witness :
  total StmtReads.Demo.tick (fun out _ => fst out = 0 /\ map StmtReads.Demo.shown (snd out) =
      [ (0, [(Text.txt "pump", Text.txt "17"); (Text.txt "tank", Text.txt "-4")], 2, [0; 0]);
        (0, [(Text.txt "valv", Text.txt "230"); (Text.txt "tank", Text.txt "-4")], 1, [0; 3]);
        (100, [(Text.txt "valv", Text.txt "230"); (Text.txt "tank", Text.txt "-4")], 0, [3; 3]) ])
    OdbcDemo.run OdbcDemo.with_query.
Proof.
  eapply total_mono; [|apply (@OdbcFacts.session_reads_rowsets _ _ _ _ _ _ _ _ _ _ _ _ _ QueryColumns.text_target StmtReads.Demo.text_movable
    40 3 1 (Some 5000) Fields.SQL_NTS StmtReads.Demo.sql OdbcDemo.with_query StmtReads.Demo.reader StmtReads.Demo.conn DataQueryFacts.Demo.pages false);
    [reflexivity|reflexivity|reflexivity|vm_compute; reflexivity| |vm_compute; lia|exact DataQueryFacts.Demo.screen_usable]].
  - intros out w ->. split; [reflexivity|]. vm_compute. reflexivity.
  - split; [exact DataQueryFacts.Demo.pages_stream|exact DataQueryFacts.Demo.pages_fit].
Defined.

Lemma SQLError_drains_witness : exists w',
  OdbcFacts.error_calls (Some 6000) (Some 6050) (Some 6100) 40 (Some 6300) None (Some 1%positive) None 2 OdbcDemo.failed =
    Ok (w', [0; 0; 100]) /\
  Handles.memory w' = fold_left (OdbcFacts.delivered (Some 6000) (Some 6050) (Some 6100) 40 (Some 6300))
    (Diag.statusRecords OdbcDemo.records) (Handles.memory OdbcDemo.failed) /\
  OdbcFacts.records_at Odbc.DbcHandle 1 (OdbcFacts.with_records OdbcDemo.records (map Diag.MarkRetrieved (Diag.statusRecords OdbcDemo.records))) w'.
Proof.
  destruct (OdbcFacts.SQLError_drains (Some 6000) (Some 6050) (Some 6100) 40 (Some 6300) None (Some 1%positive) None
    Odbc.DbcHandle 1 OdbcDemo.records OdbcDemo.failed) as (w' & E & Hm & Hr);
    [reflexivity|reflexivity|repeat constructor|reflexivity|].
  exists w'. split_and!; [exact E|exact Hm|exact Hr].
Defined.

Lemma SQLGetDiagRec_reads_witness : exists w' code,
  Odbc.SQLGetDiagRec 2 (Some 1%positive) 2 (Some 6000) None (Some 6100) 6 (Some 6300) OdbcDemo.failed = Ok (w', code) /\
  OdbcFacts.wide_buffer 6100 6 (Handles.memory w') = Text.txt "first" /\ code = Diag.SQL_SUCCESS_WITH_INFO.
Proof.
  destruct (OdbcFacts.SQLGetDiagRec_reads 2 2 Odbc.DbcHandle 1 OdbcDemo.records OdbcDemo.failed
    (Diag.CreateStatusRecord Diag.S01000_GENERAL_WARNING (Text.txt "first try") 0 0) 6000 6100 6 6300)
    as (w' & code & E & Hm & _ & _ & _ & _ & Hc & _);
    [reflexivity|reflexivity|vm_compute; by split|reflexivity|reflexivity|by repeat (constructor; [by vm_compute|])|lia|left; by vm_compute|right; by vm_compute|right; by vm_compute|].
  exists w', code. split; [exact E|]. split; [exact Hm|]. apply Hc. reflexivity.
Defined.
