(* ===== verification/TableReads.v ===== *)
(** * TableReads: the tables an application gets

    The table query behind a statement is a [Reader] of the rows it found
    ([TableFacts]); so [SQLTables] and the calls of [SQLFetch] after it list the
    tables of the service. *)

From S2P Require Import Prelude Text Codes Memory Diagnostics Environment Configuration Encoding WideText AppBuffer AppBufferFacts GetData Column ColumnFacts TypeTraits Fields Attributes ConnectionInfo ColumnMeta Interleave DataQuery Queries QueryColumns AppBufferGet TableMetadata ColumnMetadata DataQueryFacts TableFacts AnyQuery Handles Descriptor Connection Statement StatementFacts StatementReads EntryPoints EntryFacts.

Module TableReads.
Import Text Memory Diag Config Encoding Wide AppBuf Fields Attrs Handles Stmt StmtFacts AnyQuery StmtReads Odbc OdbcFacts.
Local Open Scope main_scope.

Section Reads.
Context `{OdbcConstants} `{Types.SqlCodes} `{FieldCodes} `{AttributeCodes} `{Encoding.Abi} {F : Floats} `{!Get.Reals F} `{!Columns.Locals}.
Context `{HA : Meta.AwsTypes} `{HC : !Query.Client} `{HR : !Query.ColumnReader} `{!Meta.Deployment} `{!HandleCodes}.
Abbreviation total_w := (total world_tick).
Implicit Types (w : World AnyQuery) (s c : Statement AnyQuery) (p : positive) (m : Memory).

(** ** A table query is a reader of its rows *)

Definition serves_found (rows : option (list Tables.TableMeta)) (q : AnyQuery) : Prop :=
  match q with TableQ t => TableFacts.serves_tables rows t | _ => False end.

Lemma serves_found_steady rows : steady (serves_found rows).
Proof.
  split.
  - intros i [q|q|q|q|q] q' Hq E; try done. cbn in E.
    destruct (Tables.fetch_step i q) as [q1|] eqn:E1; [|discriminate]. injection E as <-.
    apply TableFacts.fetch_step_Some in E1 as (d & d' & _ & _ & ->). by destruct rows.
  - intros d [q|q|q|q|q] Hq; try done; by destruct rows.
Qed.

#[export] Instance table_zoomable :
  zoomable the_table (fun t _ => TableQ t) Tables.fetch_step query_step (fun _ => 0%nat).
Proof.
  split.
  - done.
  - intros q [s|s|s|s|s] i q' [= ->] E; try done. exists i. cbn. by rewrite E.
  - intros q [s|s|s|s|s] i s' [= ->] E; try done. cbn in E.
    destruct (Tables.fetch_step i q) as [q'|] eqn:Eq; [|discriminate]. injection E as <-. eauto.
Qed.

(** A virtual call on a table query. *)
Lemma total_dispatch_table {A} (P : A -> AnyQuery -> Prop) (R : Tables.TableQuery -> Prop) of_data of_static of_info of_table of_column q :
  (forall q0 i q1, R q0 -> Tables.fetch_step i q0 = Some q1 -> R q1) -> R q ->
  (forall q0, R q0 -> total Tables.fetch_step (fun a q => P a (TableQ q)) of_table q0) ->
  total query_step P (dispatch of_data of_static of_info of_table of_column) (TableQ q).
Proof.
  intros Hkeep Hq Hk. unfold dispatch.
  apply (total_atomic query_step query_pending step_pending) with
    (I := fun a : AnyQuery => exists d, a = TableQ d /\ R d); [by eauto|..].
  - intros s i s1 (d & -> & Hd) E. cbn in E. destruct (Tables.fetch_step i d) as [d1|] eqn:Ed; [|discriminate].
    injection E as <-. eauto.
  - by intros s (d & -> & _).
  - intros s s1 m (d & -> & Hd) [= <- <-]. unfold table.
    eapply total_mono; [|eapply (zoom_total the_table (fun t _ => TableQ t) Tables.fetch_step query_step
      (fun _ => 0%nat) (fun a q => P a (TableQ q)) (fun _ => True)); try done].
    + intros a s' (_ & d' & Ed & HP). destruct s'; try discriminate. by injection Ed as <-.
    + apply table_zoomable.
    + by apply Hk.
Qed.

Definition text_screen (screen : Query.Screen) : Prop := QueryFacts.screen_ok QueryColumns.text_target screen.

#[export] Instance text_movable : movable QueryColumns.text_target.
Proof. by split. Defined.

Lemma fetch_call rows screen q :
  TableFacts.serves_tables rows q -> text_screen screen ->
  total Tables.fetch_step (fun r q' => r = fst (TableFacts.next_table rows screen) /\
      TableFacts.serves_tables (snd (TableFacts.next_table rows screen)) q' /\ text_screen (snd r))
    (call (Tables.FetchNextRow screen)) q.
Proof.
  intros Hq Hs. unfold call.
  apply (total_atomic Tables.fetch_step _ TableFacts.fetch_step_pending) with (I := TableFacts.serves_tables rows); [done|..].
  - intros q0 i q1 Hq0 (d & d' & _ & _ & ->)%TableFacts.fetch_step_Some. by destruct rows.
  - intros q0 Hq0. by destruct (TableFacts.FetchNextRow_serves rows screen q0 Hq0 Hs) as (q1 & -> & _).
  - intros q0 q1 m' Hq0. destruct (TableFacts.FetchNextRow_serves rows screen q0 Hq0 Hs) as (q2 & -> & Hq2 & Hs2 & _).
    destruct (fst (TableFacts.next_table rows screen)) as [r screen'] eqn:Er. intros [= <- <-]. constructor.
    cbn [snd] in Hs2. by split_and!.
Qed.

#[refine] Instance table_reader : Reader (Q := AnyQuery) (option (list Tables.TableMeta)) := {|
  serves := serves_found; next := TableFacts.next_table; fits := text_screen
|}.
Proof.
  - apply serves_found_steady.
  - intros rows screen [q|q|q|q|q] Hq Hs; try done.
    eapply total_dispatch_table with (R := TableFacts.serves_tables rows).
    + intros q0 i q1 Hq0 (d & d' & _ & _ & ->)%TableFacts.fetch_step_Some. by destruct rows.
    + exact Hq.
    + intros q0 Hq0. by apply fetch_call.
  - intros i b m. apply (screen_moved QueryColumns.text_target). by intros a.
  - intros i b m. apply (screen_moved QueryColumns.text_target). by intros a.
  - done.
Defined.

(** ** [SQLTables] *)

(** The environment is asked for its version, a call of its own on it. *)
Definition asked (conn : Connection)
    (k k' : gmap positive Env.Environment * gmap positive Connection * gmap positive Descriptor) : Prop :=
  snd (fst k') = snd (fst k) /\ snd k' = snd k.

Definition has_env (conn : Connection)
    (k : gmap positive Env.Environment * gmap positive Connection * gmap positive Descriptor) : Prop :=
  is_Some (fst (fst k) !! env_ conn).

Lemma table_arguments_ok p catalog schema tbl last c k m conn (P : Queries.TableArguments -> World AnyQuery -> Prop) w :
  bare p c k m w -> connected c k conn -> has_env conn k ->
  (forall v k' w', asked conn k k' -> bare p c k' m w' ->
     P (Queries.MkArguments (config_ conn) (metadataID_ conn) v catalog schema tbl last) w') ->
  wp (table_arguments p catalog schema tbl last) P w.
Proof.
  intros Hw Hc [e He] HP. unfold table_arguments. apply wp_bind.
  eapply bare_get_stmt; [exact Hw|]. intros s <- _. destruct Hw as (Hm & Hk & s1 & Es & Ecore & Hn).
  unfold connected in Hc. rewrite <- Hk in *. cbn [fst snd objects] in *.
  apply wp_bind. apply (wp_get_conn _ conn); [done|]. apply wp_bind. unfold Connections.GetEnvODBCVer.
  apply wp_bind. apply (wp_get_conn _ conn); [done|]. unfold wp at 1. rewrite He.
  unfold Env.GetAttribute, Env.InternalGetAttribute, EnvironmentAttributeToInternal. rewrite Z.eqb_refl. cbn [snd].
  apply wp_ret. eapply HP; [|split; [done|]; split; [reflexivity|]; by exists s1]. by split.
Qed.

Lemma metadata_id_is p c k m R conn (P : bool -> World AnyQuery -> Prop) w :
  setting p c k m R w -> connected c k conn -> P (metadataID_ conn) w -> wp (metadata_id p) P w.
Proof.
  intros Hw Hc HP. unfold metadata_id. apply wp_bind. eapply setting_get_stmt; [exact Hw|].
  intros s _ <- _. unfold wp. destruct Hw as (_ & <- & _). unfold connected in Hc. cbn [fst snd objects] in Hc.
  change (connection (core s)) with (connection s) in Hc. by rewrite Hc.
Qed.

(** The query just made, with whatever diagnostics. *)
Definition fresh_tables (a : Queries.TableArguments) (q : AnyQuery) : Prop :=
  exists g, q = TableQ (Tables.NewTableQuery a g).

Lemma fresh_tables_steady a : steady (fresh_tables a).
Proof. split; [by intros i q q' [g ->]|]. intros d q [g ->]. by exists d. Qed.

(** What the call needs of the service and of the texts. *)
Definition tables_answered (fuel : nat) (metadataID : bool) (a : Queries.TableArguments)
    (ps : list Query.ExecuteQueryResult) (b : bool) : Prop :=
  TableFacts.service_lists QueryColumns.text_target fuel a ps b /\
  TableFacts.reportable (Queries.arg_table a) (TableFacts.listing metadataID a ps b) /\
  Forall TableFacts.ascii_row (default [] (snd (TableFacts.listing metadataID a ps b))).

(** Neither depends on the version. *)
Definition arguments_of (conn : Connection) (catalog schema tbl last : option text) : Queries.TableArguments :=
  Queries.MkArguments (config_ conn) (metadataID_ conn) 0 catalog schema tbl last.

Lemma ExecuteGetTables_total fuel p catalog schema tbl last c k m conn ps b w :
  bare p c k m w -> connected c k conn -> has_env conn k ->
  let a := arguments_of conn catalog schema tbl last in
  let out := TableFacts.listing (metadataID_ conn) a ps b in
  tables_answered fuel (metadataID_ conn) a ps b ->
  total_w (fun _ w' => reports p (fst out) w' /\ exists k', setting p c k' m (serves_found (snd out)) w')
    (ExecuteGetTablesMetaQuery fuel p catalog schema tbl last) w.
Proof.
  intros Hw Hc He a out (Hs & Hrep & Hascii). unfold ExecuteGetTablesMetaQuery, api_prog.
  apply (total_bare _ _ _ _ _ _ _ _ Hw). intros w0 Hw0. eapply bare_edit; [exact Hw0|]. intros w1 Hw1.
  unfold InternalExecuteGetTablesMetaQuery. apply total_bind.
  apply (total_bare _ _ _ _ _ _ _ _ Hw1). intros w2 Hw2.
  eapply table_arguments_ok; [exact Hw2|exact Hc|exact He|]. intros v k' w3 Hk' Hw3.
  set (av := Queries.MkArguments _ _ _ _ _ _ _). pose proof (fresh_tables_steady av) as Hst.
  assert (Hc' : connected c k' conn) by (unfold connected; by rewrite (proj1 Hk')).
  apply (replace_bare _ _ _ (fresh_tables av) _ _ _ _ _ Hw3); [by intros d; exists d|exact Hst|].
  intros w4 Hw4. unfold execute. eapply (total_step _ _ _ _ _ _ _ _ _ Hst Hw4). intros w5 Hw5.
  eapply metadata_id_is; [exact Hw5|exact Hc'|].
  eapply total_mono; [|apply (total_query_last _ (fun r q => r = fst out /\ serves_found (snd out) q) _ _ _ _ _ _ Hw5)].
  - intros r w6 Hw6. assert (Er : r = fst out) by (by destruct Hw6 as (_ & _ & s & q & _ & _ & _ & Er & _)).
    apply (setting_ext _ _ _ _ _ (serves_found (snd out))) in Hw6; [|naive_solver]. subst r.
    eapply total_mono; [|by apply total_report; [apply serves_found_steady|]]. intros _ w7 [Hr Hw7]. by split; [|exists k'].
  - intros q [g ->]. apply total_dispatch_table with (R := fun t => t = Tables.NewTableQuery av g); [by intros ? i q1 -> |done|].
    intros q0 ->. by apply (TableFacts.Execute_total QueryColumns.text_target fuel (metadataID_ conn) av ps b g);
      [|apply TableFacts.name_screen_text|..].
Qed.

(** ** A session: [SQLTables], and fetches *)

(** An argument, a wide text and its length, and what is read of it. *)
Definition given (fuel : nat) (m : Memory) (arg : pointer * Z) (t : option text) : Prop :=
  SqlWcharToOptString SQL_NTS fuel (fst arg) (snd arg) false m = Ok t.

Definition tables_session (fuel n : nat) (stmt : option positive) (catalog schema tbl last : pointer * Z)
    : main (World AnyQuery) (Z * list (Z * Memory)) :=
  let! r := SQLTables fuel stmt (fst catalog) (snd catalog) (fst schema) (snd schema)
              (fst tbl) (snd tbl) (fst last) (snd last) in
  let! rs := fetches n stmt in
  Ret (r, rs).

Lemma read_argument {B} (P : B -> World AnyQuery -> Prop) fuel arg t kont p c k m w :
  given fuel m arg t -> bare p c k m w -> (forall w', bare p c k m w' -> total_w P (kont t) w') ->
  total_w P (bind (step (wide_opt fuel (fst arg) (snd arg))) kont) w.
Proof.
  intros Ht Hw Hk. apply (total_bare _ _ _ _ _ _ _ _ Hw). intros w0 Hw0. unfold wp, wide_opt.
  rewrite (proj1 Hw0). unfold given in Ht. rewrite Ht. by apply Hk.
Qed.

Lemma tables_session_total fuel n p catalog schema tbl last tc ts tt tl c k m conn ps b w :
  bare p c k m w -> connected c k conn -> has_env conn k ->
  given fuel m catalog tc -> given fuel m schema ts -> given fuel m tbl tt -> given fuel m last tl ->
  let a := arguments_of conn tc ts tt tl in
  let out := TableFacts.listing (metadataID_ conn) a ps b in
  tables_answered fuel (metadataID_ conn) a ps b -> text_screen (columnBindings c, m) ->
  total_w (fun res _ => res = (SqlResultToReturnCode (fst out),
      StmtFacts.rowsets (Reader0 := table_reader) n (snd out) c m))
    (tables_session fuel n (Some p) catalog schema tbl last) w.
Proof.
  intros Hw Hc He Hgc Hgs Hgt Hgl a out Ha Hs. unfold tables_session, SQLTables, stmt_prog. do 2 apply total_bind.
  eapply read_argument; [exact Hgc|exact Hw|]. intros w1 Hw1.
  eapply read_argument; [exact Hgs|exact Hw1|]. intros w2 Hw2.
  eapply read_argument; [exact Hgt|exact Hw2|]. intros w3 Hw3.
  eapply read_argument; [exact Hgl|exact Hw3|]. intros w4 Hw4.
  eapply total_mono; [|by eapply ExecuteGetTables_total]. intros _ w5 [Hr [k' Hw5]].
  eapply total_mono; [|by eapply total_code; [apply serves_found_steady|exact Hr|exact Hw5]].
  intros code w6 [-> Hw6]. apply total_bind.
  eapply total_mono; [|by eapply (fetches_total (HX := table_reader))].
  intros rs w7 ->. by constructor.
Qed.
End Reads.

(** ** The names of the service *)

(** C3. [SQLTables] and [n] times [SQLFetch], whatever the threads of the inner
    query and of the other statements do: the calls end, without a deadlock and
    without an access out of bounds; the memory after each call is that of the
    abstract machine that hands out the rows of [listing] in rowsets. When the
    service answers the pattern with names, and the call asks for tables (not for the list
    of all table types, nor for types other than tables, and with
    [SQL_ATTR_METADATA_ID] it gives a name), these are the tables of the service (with
    that attribute only those with the name asked for, whatever its case), each once,
    in the order the service first has them. The statement has no query yet, its
    columns are bound to text buffers, and the arguments can be read. The pages of
    the inner query have rows from the first one with rows on, each row one datum of a
    single text column: a name that is not empty, ASCII, and shorter than 2048
    characters (an empty page in the middle blocks for ever, see
    [DataQueryFacts.empty_page_blocks]). *)
Theorem SQLTables_lists `{OdbcConstants} `{Types.SqlCodes} `{FieldCodes} `{AttributeCodes} `{Encoding.Abi} {F : Floats} `{!Get.Reals F} `{!Columns.Locals}
    `{HS : Column.AwsScalars} `{HC : !Query.Client} `{!Meta.Deployment} `{!HandleCodes}
    (fuel n : nat) (p : positive) (catalog schema tbl last : pointer * Z) (tc ts tt tl : option text)
    (w : World AnyQuery) (s : Statement AnyQuery) (conn : Connection) (env : Env.Environment)
    (ps : list Query.ExecuteQueryResult) (b : bool) (names : list text) :
  statements w !! p = Some s -> currentQuery s = None ->
  connections w !! connection s = Some conn -> environments w !! env_ conn = Some env ->
  given fuel (memory w) catalog tc -> given fuel (memory w) schema ts ->
  given fuel (memory w) tbl tt -> given fuel (memory w) last tl ->
  let a := arguments_of conn tc ts tt tl in
  TableFacts.service_lists QueryColumns.text_target fuel a ps b -> TableFacts.names_in ps names ->
  text_screen (columnBindings s, memory w) ->
  let out := TableFacts.listing (metadataID_ conn) a ps b in
  let asked_for := if metadataID_ conn then tt else None in
  total world_tick (fun res _ => res = (SqlResultToReturnCode (fst out),
      StmtFacts.rowsets (Reader0 := table_reader) n (snd out) s (memory w)))
    (tables_session fuel n (Some p) catalog schema tbl last) w /\
  (QueryFacts.skip ps <> [] -> Tables.all_table_types a = false -> TableFacts.wrong_type a = false ->
   (metadataID_ conn = true -> tt <> None) ->
   exists tables, out = (AI_SUCCESS, Some (map Tables.listed tables)) /\
     NoDup tables /\ sublist tables names /\
     (forall x, x ∈ tables <-> x ∈ names /\ TableFacts.wanted asked_for x = true)).
Proof.
  intros Es Hn Ec Ee Hgc Hgs Hgt Hgl a Hl Hnames Hs out asked_for. split.
  - eapply total_mono; [|apply (tables_session_total fuel n p catalog schema tbl last tc ts tt tl (core s) (objects w)
      (memory w) conn ps b w); try done; [by split_and!; [..|exists s]|by exists env|split_and!; [done| |]]].
    + intros res w' ->. by rewrite rowsets_core.
    + by eapply TableFacts.listing_reportable.
    + by eapply TableFacts.listing_ascii.
  - intros Hskip Hall Hw Hm. eexists. split; [by apply TableFacts.listing_names|].
    split_and!; [apply TableFacts.once_NoDup|apply TableFacts.once_sublist|].
    intros x. rewrite TableFacts.elem_of_once. set_solver.
Qed.

(** ** A small catalog *)

Module TablesDemo.
#[local] Existing Instances Encoding.UnixAbi WholeReals Get.WholeStreams Columns.ZeroLocals Column.SdkScalars StandardOdbc
  Types.HeaderCodes HeaderFields HeaderAttributes StmtReads.Demo.schemas OdbcDemo.codes.

Definition columns : list QueryColumns.ColumnInfo := [QueryColumns.MkInfo (txt "table_name") (Some (Some Column.STRING))].
Definition page (names : list string) (token : string) : Query.ExecuteQueryResult :=
  Query.MkResult columns (map (fun s => [Column.Scalar (txt s)]) names) (txt token).
Definition pages : list Query.ExecuteQueryResult := [page [] "t1"; page ["pump"; "tank"] "t2"; page ["pump"; "valve"] ""].

#[local] Instance client : Query.Client :=
  {| Query.ExecuteQuery r :=
       if text_eqb (Query.NextToken r) [] then Query.Success (page [] "t1")
       else if text_eqb (Query.NextToken r) (txt "t1") then Query.Success (page ["pump"; "tank"] "t2")
       else Query.Success (page ["pump"; "valve"] "") |}.

(** Rowsets of two rows, with the names in an array of 6 bytes each; the pattern
    [%] at 5000. *)
Definition reader : Statement AnyQuery :=
  set_bindings {[ 3 := NewBuffer AI_CHAR (Some 1000) 6 (Some 2000) ]} StmtReads.Demo.reader.

Definition world : World AnyQuery :=
  MkWorld (store 5000 (wide_bytes (bytes_of (txt "%") ++ [0])) (fun _ => 0)) 0 []
    {[1%positive := Env.NewEnvironment]} {[1%positive := StmtReads.Demo.conn]} {[1%positive := reader]} ∅.

Definition shown (out : Z * Memory) : Z * list text * Z :=
  (fst out, map (fun i => GetData.read_units 1 6 (1000 + 6 * i) (snd out)) [0; 1], le_val (load 3000 8 (snd out))).

Definition run : main (World AnyQuery) (Z * list (Z * Memory)) :=
  tables_session 40 3 (Some 1%positive) (None, 0) (None, 0) (Some 5000, SQL_NTS) (None, 0).
Definition tick : positive * nat -> World AnyQuery -> option (World AnyQuery) := world_tick.
Definition arguments : Queries.TableArguments := arguments_of StmtReads.Demo.conn None None (Some (txt "%")) None.

Definition names : list text := map txt ["pump"; "tank"; "pump"; "valve"].

Lemma names_found : TableFacts.names_in pages names.
Proof.
  eexists. split; [reflexivity|].
  repeat apply List.Forall2_cons; try apply List.Forall2_nil; (eexists; split; [reflexivity|]; split; [reflexivity|];
    split; [split; [by left|]|split_and!; [reflexivity..|done|cbn; lia]]; by vm_compute).
Qed.

Lemma pages_listed : TableFacts.service_lists QueryColumns.text_target 40 arguments pages false.
Proof.
  split; [|vm_compute; split; lia]. split.
  - apply QueryFacts.stream_more; [reflexivity|reflexivity|]. apply QueryFacts.stream_more; [reflexivity|reflexivity|].
    apply QueryFacts.stream_end; reflexivity.
  - split; [by repeat constructor|].
    repeat apply List.Forall_cons; try apply List.Forall_nil;
      (apply List.Forall2_cons; [|apply List.Forall2_nil]; intros b m Hb; apply QueryColumns.textual_converts; [|done];
       split; [by left|by vm_compute]).
Qed.
End TablesDemo.

Lemma SQLTables_lists_witness :
  total TablesDemo.tick (fun out _ => fst out = 0 /\ map TablesDemo.shown (snd out) =
      [(0, [txt "pump"; txt "tank"], 2); (0, [txt "valve"; txt "tank"], 1); (100, [txt "valve"; txt "tank"], 0)])
    TablesDemo.run TablesDemo.world.
Proof.
  eapply total_mono; [|refine (proj1 (@SQLTables_lists _ _ _ _ _ _ _ _ _ _ _ _
    40 3 1 (None, 0) (None, 0) (Some 5000, SQL_NTS) (None, 0) None None (Some (txt "%")) None TablesDemo.world
    TablesDemo.reader StmtReads.Demo.conn Env.NewEnvironment TablesDemo.pages false TablesDemo.names
    _ _ _ _ _ _ _ _ TablesDemo.pages_listed TablesDemo.names_found _)); try (vm_compute; reflexivity)].
  - intros out w ->. split; vm_compute; reflexivity.
  - apply map_Forall_singleton. by left.
Defined.
End TableReads.
