(* ===== verification/StatementCalls.v ===== *)
(** * StatementCalls: attributes and cursor names of statements

    What the calls on a statement that need no query promise: an attribute that
    was set is read back, and the names of the cursors of a connection are
    those of its statements, each the name of one. *)

From S2P Require Import Prelude Text Codes Memory Diagnostics Configuration Encoding WideText AppBuffer GetData Column TypeTraits Fields Attributes ColumnMeta Interleave DataQuery Queries QueryColumns AppBufferGet ColumnMetadata DataQueryFacts AnyQuery Handles Descriptor Connection Statement StatementFacts StatementReads.

Module StmtCalls.
Import Text Memory Diag Wide Encoding AppBuf GetData Types Fields Attrs Handles Desc Stmt.
Local Open Scope op_scope.

Section Facts.
Context `{OdbcConstants} `{SqlCodes} `{FieldCodes} `{AttributeCodes} `{Abi}.
Context `{HA : Meta.AwsTypes} {Q : Type} `{!AbstractQuery Q} `{!Queries.QueryMaker Q}.
Implicit Types (w : World Q) (s : Statement Q) (p : positive) (c : Connection).

(** ** Attributes *)

(** The attributes a statement stores, and what it answers for them. *)
Definition stored (a : Attribute) (s : Statement Q) : option Z :=
  match a with
  | SQL_ROWSET_SIZE => Some (rowsetSize__ s)
  | SQL_ATTR_ROW_ARRAY_SIZE => Some (rowArraySize_ s)
  | SQL_ATTR_ROW_BIND_OFFSET_PTR => Some (addr (columnBindOffset s))
  | SQL_ATTR_ROW_STATUS_PTR => Some (addr (rowStatuses s))
  | SQL_ATTR_ROWS_FETCHED_PTR => Some (addr (rowsFetched s))
  | SQL_ATTR_APP_ROW_DESC => Some (Zpos (ard s))
  | _ => None
  end.

Lemma addr_ptr v : addr (ptr v) = v.
Proof. unfold addr, ptr. by destruct (Z.eqb_spec v 0) as [->|]. Qed.

Lemma bind_run {A B} (o : op Q A) (k : A -> op Q B) w w' b :
  op_bind o k w = Ok (w', b) -> exists w1 a, o w = Ok (w1, a) /\ k a w1 = Ok (w', b).
Proof. unfold op_bind. destruct (o w) as [[w1 a]|e]; [|discriminate]. eauto. Qed.

Lemma ret_run {A} (a b : A) w w' : op_ret (Q := Q) a w = Ok (w', b) -> a = b /\ w = w'.
Proof. by intros [= -> ->]. Qed.

(** The statement [p] is [s]. *)
Definition holds (p : positive) (s : Statement Q) (w : World Q) : Prop := statements w !! p = Some s.

Lemma get_stmt_run p s w w' s' : holds p s w -> get_stmt p w = Ok (w', s') -> s' = s /\ w' = w.
Proof. unfold holds, get_stmt. intros -> [= <- <-]. done. Qed.

Lemma get_desc_run p w w' d : get_desc (Q := Q) p w = Ok (w', d) -> w' = w.
Proof. unfold get_desc. destruct (descriptors w !! p); [|discriminate]. by intros [= <-]. Qed.

Lemma on_desc_run p p' s f w w' u : holds p s w -> on_desc (Q := Q) p' f w = Ok (w', u) -> holds p s w'.
Proof.
  unfold holds, on_desc, op_bind, get_desc, put_desc. destruct (descriptors w !! p'); [|discriminate].
  by intros ? [= <-].
Qed.

Lemma on_stmt_run p s f w w' u : holds p s w -> on_stmt (Q := Q) p f w = Ok (w', u) -> holds p (f s) w'.
Proof.
  unfold holds, on_stmt, op_bind, get_stmt, put_stmt. intros -> [= <-]. apply lookup_upd_stmt.
Qed.

(** A call that answered an error did not succeed. *)
Lemma error_run p st msg w w' r : error (Q := Q) p st msg w = Ok (w', r) -> r = AI_ERROR.
Proof. unfold error. intros (w1 & [] & _ & Hr)%bind_run. by injection Hr as _ <-. Qed.

Ltac run_inv :=
  repeat match goal with
  | Hr : op_bind _ _ _ = Ok _ |- _ => apply bind_run in Hr as (? & ? & ? & Hr)
  | Hr : op_ret _ _ = Ok _ |- _ => apply ret_run in Hr as [? <-]
  | Hr : error _ _ _ _ = Ok _ |- _ => apply error_run in Hr; discriminate
  | Hp : holds ?p _ ?w, Hr : get_stmt ?p ?w = Ok _ |- _ => destruct (get_stmt_run _ _ _ _ _ Hp Hr) as [-> ->]; clear Hr
  | Hr : get_desc _ _ = Ok _ |- _ => apply get_desc_run in Hr as ->
  | Hp : holds ?p _ ?w, Hr : on_desc _ _ ?w = Ok _ |- _ => pose proof (on_desc_run _ _ _ _ _ _ _ Hp Hr); clear Hp Hr
  | Hp : holds ?p _ ?w, Hr : on_stmt ?p _ ?w = Ok _ |- _ => pose proof (on_stmt_run _ _ _ _ _ _ Hp Hr); clear Hp Hr
  end.

Lemma SetAttribute_stores a v p s w w1 :
  holds p s w -> stored a s <> None -> (a = SQL_ATTR_APP_ROW_DESC -> 0 < v) ->
  InternalSetAttribute p (id_of a) v w = Ok (w1, AI_SUCCESS) ->
  exists s1, holds p s1 w1 /\ stored a s1 = Some v.
Proof.
  intros Hp Ha Hv. unfold InternalSetAttribute. rewrite decode_id_of.
  destruct a; try (by destruct Ha); intros Hrun; unfold on_ard, on_ird, SetARDDesc, handle in *; run_inv;
    try (eexists; split; [eassumption|cbn; by rewrite ?addr_ptr]).
  specialize (Hv eq_refl). rewrite (proj2 (Z.eqb_neq v 0)) in Hrun by lia. run_inv.
  repeat case_match; run_inv. eexists. split; [eassumption|]. cbn. f_equal. lia.
Qed.

Lemma GetAttribute_reads a v p s w buf :
  holds p s w -> stored a s = Some v ->
  InternalGetAttribute p (id_of a) (Some buf) None w =
    Ok (set_memory (store buf (le_bytes 8 v) (memory w)) w, AI_SUCCESS).
Proof.
  intros Hp Ha. unfold InternalGetAttribute, op_bind, get_stmt. rewrite Hp, decode_id_of. cbn.
  destruct a; try discriminate; injection Ha as <-; reflexivity.
Qed.

(** ** Names of cursors *)

(** The names in use are those of the statements, each of one. *)
Record names_ok (c : Connection) : Prop := {
  names_used name : name ∈ cursorNames_ c <-> exists p, cursorNameMap_ c !! p = Some name;
  names_unique p p' name :
    cursorNameMap_ c !! p = Some name -> cursorNameMap_ c !! p' = Some name -> p = p'
}.

Lemma names_new env conf info : names_ok (Connections.NewConnection env conf info).
Proof. split; cbn; [|by intros ? ? ?; rewrite lookup_empty]. set_solver. Qed.

Lemma names_remove p c : names_ok c -> names_ok (Connections.RemoveCursorName p c).
Proof.
  intros [Hu Hq]. unfold Connections.RemoveCursorName.
  destruct (cursorNameMap_ c !! p) as [old|] eqn:E; [|by split]. split; cbn.
  - intros name. rewrite elem_of_difference, elem_of_singleton, Hu. split.
    + intros [[p' E'] Hne]. exists p'. rewrite lookup_delete_ne; [done|]. intros ->. congruence.
    + intros [p' [Hp E']%lookup_delete_Some]. split; [by exists p'|]. intros ->. by destruct (Hq _ _ _ E E').
  - intros p1 p2 name [_ E1]%lookup_delete_Some [_ E2]%lookup_delete_Some. by eapply Hq.
Qed.

Lemma names_add p name c :
  names_ok c -> Connections.CursorNameExists name c = false -> names_ok (Connections.AddCursorName p name c).
Proof.
  intros Hc Hn. apply (names_remove p) in Hc as Hr. unfold Connections.CursorNameExists in Hn.
  apply bool_decide_eq_false in Hn.
  assert (En : cursorNames_ (Connections.AddCursorName p name c) =
      {[name]} ∪ cursorNames_ (Connections.RemoveCursorName p c)).
  { unfold Connections.AddCursorName, Connections.RemoveCursorName. by destruct (cursorNameMap_ c !! p). }
  assert (Em : cursorNameMap_ (Connections.AddCursorName p name c) =
      <[p := name]> (cursorNameMap_ (Connections.RemoveCursorName p c))).
  { unfold Connections.AddCursorName, Connections.RemoveCursorName.
    destruct (cursorNameMap_ c !! p); cbn; [by rewrite insert_delete_eq|done]. }
  assert (Hold : forall p', cursorNameMap_ (Connections.RemoveCursorName p c) !! p' <> Some name).
  { intros p' E. apply Hn, (names_used c Hc). exists p'. unfold Connections.RemoveCursorName in E.
    destruct (cursorNameMap_ c !! p); [|done]. cbn in E. by apply lookup_delete_Some in E as [_ E]. }
  destruct Hr as [Hu Hq]. split; rewrite Em.
  - intros n. rewrite En, elem_of_union, elem_of_singleton, Hu. split.
    + intros [->|[p' E]]; [exists p; apply lookup_insert_eq|].
      destruct (decide (p' = p)) as [->|Hp]; [|exists p'; by rewrite lookup_insert_ne].
      unfold Connections.RemoveCursorName in E. destruct (cursorNameMap_ c !! p) eqn:E0; cbn in E;
        [by rewrite lookup_delete_eq in E|congruence].
    + intros [p' [[_ ->]|[Hp E]]%lookup_insert_Some]; [by left|right; by exists p'].
  - intros p1 p2 n [[<- <-]|[? E1]]%lookup_insert_Some [[<- E2]|[? E2]]%lookup_insert_Some; try done;
      [by destruct (Hold p2)|subst; by destruct (Hold p1)|by eapply Hq].
Qed.

Lemma on_stmt_conns p f w w' u : on_stmt (Q := Q) p f w = Ok (w', u) -> connections w' = connections w.
Proof.
  unfold on_stmt, op_bind, get_stmt, put_stmt. destruct (statements w !! p); [|discriminate]. by intros [= <-].
Qed.

(** What a call that ended did to the names. *)
Lemma SetCursorName_run fuel p name len w w' r s c :
  holds p s w -> connections w !! connection s = Some c ->
  InternalSetCursorName fuel p name len w = Ok (w', r) ->
  (r = AI_ERROR /\ connections w' = connections w) \/
  (r = AI_SUCCESS /\ exists n, SqlWcharToString SQL_NTS fuel name len false (memory w) = Ok n /\
     Connections.CursorNameExists n c = false /\
     connections w' = <[connection s := Connections.AddCursorName p n c]> (connections w)).
Proof.
  intros Hp Hc. unfold InternalSetCursorName.
  destruct (_ <? len); [intros (w1 & u & E & [<- <-]%ret_run)%bind_run; left; split; [done|by eapply on_stmt_conns]|].
  intros (w1 & n & E & Hrun)%bind_run. destruct (SqlWcharToString _ _ _ _ _ _) as [n'|] eqn:En; [|discriminate].
  injection E as <- <-. revert Hrun.
  case_match; [intros (w1 & u & E & [<- <-]%ret_run)%bind_run; left; split; [done|by eapply on_stmt_conns]|].
  intros (w1 & s1 & E1 & Hrun)%bind_run. destruct (get_stmt_run _ _ _ _ _ Hp E1) as [-> ->].
  apply bind_run in Hrun as (w2 & c1 & E2 & Hrun). unfold get_conn in E2. rewrite Hc in E2. injection E2 as <- <-.
  destruct (Connections.CursorNameExists n' c) eqn:Ex.
  - apply bind_run in Hrun as (w2 & u & E & [<- <-]%ret_run). left. split; [done|by eapply on_stmt_conns].
  - apply bind_run in Hrun as (w2 & u & E & [<- <-]%ret_run). right. split; [done|]. exists n'. split_and!; [done..|].
    unfold on_conn, op_bind, get_conn, put_conn in E. rewrite Hc in E. by injection E as <- _.
Qed.
End Facts.

(** C29. What [SQLSetStmtAttr] accepted for an attribute a statement stores,
    [SQLGetStmtAttr] reads back, in eight bytes: the sizes of rowsets, the
    pointers to the bind offset, the row states and the number of rows, and the
    row descriptor of the application, if it is not reset. *)
Theorem SetAttribute_GetAttribute `{OdbcConstants} `{SqlCodes} `{FieldCodes} `{AttributeCodes} `{Abi}
    `{HA : Meta.AwsTypes} {Q : Type} `{!AbstractQuery Q}
    (w w1 : World Q) (p : positive) (s : Statement Q) (a : Attribute) (v buf : Z) :
  statements w !! p = Some s -> stored a s <> None -> (a = SQL_ATTR_APP_ROW_DESC -> 0 < v) ->
  InternalSetAttribute p (id_of a) v w = Ok (w1, AI_SUCCESS) ->
  exists w2, InternalGetAttribute p (id_of a) (Some buf) None w1 = Ok (w2, AI_SUCCESS) /\
    load buf 8 (memory w2) = le_bytes 8 v.
Proof.
  intros Hs Ha Hv Hrun. destruct (SetAttribute_stores a v p s w w1 Hs Ha Hv Hrun) as (s1 & Hs1 & Hst).
  eexists. split; [by apply (GetAttribute_reads a v p s1)|].
  by apply load_store_n.
Qed.

(** C30. The names of the cursors of a connection stay distinct: a name that is
    accepted is the one [SQLGetCursorName] answers for the statement and of no
    other statement; a name that is refused changes nothing. *)
Theorem SetCursorName_unique `{OdbcConstants} `{FieldCodes} `{Abi} {Q : Type}
    (fuel : nat) (w w' : World Q) (p : positive) (s : Statement Q) (c : Connection)
    (name : pointer) (len : Z) (r : SqlResult) :
  statements w !! p = Some s -> connections w !! connection s = Some c -> names_ok c ->
  InternalSetCursorName fuel p name len w = Ok (w', r) ->
  exists c', connections w' !! connection s = Some c' /\ names_ok c' /\
    match r with
    | AI_SUCCESS =>
        exists n, SqlWcharToString SQL_NTS fuel name len false (memory w) = Ok n /\
          Connections.GetCursorName p c' = n /\
          (forall p', cursorNameMap_ c' !! p' = Some n -> p' = p) /\
          (forall p', p' <> p -> Connections.GetCursorName p' c' = Connections.GetCursorName p' c)
    | _ => c' = c
    end.
Proof.
  intros Hs Hc Hn Hrun. destruct (SetCursorName_run fuel p name len w w' r s c Hs Hc Hrun)
    as [[-> ->]|(-> & n & En & Hex & ->)]; [by exists c|].
  pose proof (names_add p n c Hn Hex) as Hok. eexists. split; [apply lookup_insert_eq|]. split; [done|].
  assert (Hp : cursorNameMap_ (Connections.AddCursorName p n c) !! p = Some n) by (apply lookup_insert_eq).
  exists n. split_and!; [done| | |].
  - exact (f_equal (default []) Hp).
  - intros p' Hp'. by apply (names_unique _ Hok p' p n).
  - intros p' Hne. unfold Connections.GetCursorName. cbn. by rewrite lookup_insert_ne.
Qed.

(** ** Runs *)

Module Demo.
#[export] Existing Instances DataQueryFacts.Demo.client Encoding.UnixAbi WholeReals Get.WholeStreams Columns.ZeroLocals Column.SdkScalars StandardOdbc
  Types.HeaderCodes HeaderFields HeaderAttributes StmtReads.Demo.schemas.

(** A statement with its descriptors, and a name of a cursor at 500. *)
Definition world : World AnyQuery.AnyQuery :=
  MkWorld (store 500 (le_bytes 2 99 ++ le_bytes 2 49) (fun _ => 0)) 0 [] ∅ {[1%positive := StmtReads.Demo.conn]}
    {[1%positive := NewStatement 1 1 2 3 4]}
    {[1%positive := NewDescriptor; 2%positive := NewDescriptor; 3%positive := NewDescriptor]}.
End Demo.
Import Demo.

(** The size of a rowset. *)
Lemma SetAttribute_GetAttribute_witness :
  exists w1, InternalSetAttribute 1 27 (2 ^ 32 + 5) Demo.world = Ok (w1, AI_SUCCESS) /\
    exists w2, InternalGetAttribute 1 27 (Some 64) None w1 = Ok (w2, AI_SUCCESS) /\
    load 64 8 (memory w2) = [5; 0; 0; 0; 1; 0; 0; 0].
Proof.
  assert (E : answer (InternalSetAttribute 1 27 (2 ^ 32 + 5)) Demo.world = Some AI_SUCCESS) by (vm_compute; reflexivity).
  destruct (answer_run _ _ _ E) as [w1 E1].
  exists w1. split; [exact E1|].
  destruct (SetAttribute_GetAttribute Demo.world w1 1 (NewStatement 1 1 2 3 4) SQL_ATTR_ROW_ARRAY_SIZE (2 ^ 32 + 5) 64)
    as (w2 & Hget & Hload); [reflexivity|discriminate|discriminate|exact E1|].
  exists w2. split; [exact Hget|]. rewrite Hload. vm_compute. reflexivity.
Defined.

(** A name of two characters. *)
Lemma SetCursorName_unique_witness :
  exists w1 c', InternalSetCursorName 9 1 (Some 500) 2 Demo.world = Ok (w1, AI_SUCCESS) /\
    connections w1 !! 1%positive = Some c' /\ names_ok c' /\ Connections.GetCursorName 1 c' = txt "c1".
Proof.
  assert (E : answer (InternalSetCursorName 9 1 (Some 500) 2) Demo.world = Some AI_SUCCESS) by (vm_compute; reflexivity).
  destruct (answer_run _ _ _ E) as [w1 E1].
  destruct (SetCursorName_unique 9 Demo.world w1 1 (NewStatement 1 1 2 3 4) StmtReads.Demo.conn
    (Some 500) 2 AI_SUCCESS eq_refl eq_refl (names_new _ _ _) E1) as (c' & Hc & Hn & n & En & Hget & _).
  exists w1, c'. split; [exact E1|]. split; [exact Hc|]. split; [exact Hn|]. rewrite Hget.
  vm_compute in En. by injection En as <-.
Defined.
End StmtCalls.
