(* ===== verification/Soundness.v ===== *)
(** * Soundness: the calls that need no query keep the objects of a process sound

    The objects of the driver point at each other. The invariant [sound] says
    that a statement points at descriptors and a connection that are there, that
    a descriptor points at a statement that is there and that the members of its
    header were set before they are read, and that the names of cursors are those
    of the statements. Every call is put together from steps that keep it
    ([keeps]), so it never follows a dangling pointer. *)

From S2P Require Import Prelude Text Codes Memory Diagnostics Environment Configuration Encoding WideText AppBuffer GetData Column TypeTraits Fields Attributes ColumnMeta Interleave DataQuery Queries QueryColumns AppBufferGet ColumnMetadata DataQueryFacts AnyQuery Handles Descriptor DescriptorFacts Connection Statement StatementFacts StatementReads StatementCalls.

Module Sound.
Import Text Memory Diag Wide Encoding AppBuf GetData Types Fields Attrs Handles Desc DescFacts Stmt StmtCalls.
Local Open Scope op_scope.

Section Facts.
Context `{OdbcConstants} `{SqlCodes} `{FieldCodes} `{AttributeCodes} `{Abi}.
Context `{HA : Meta.AwsTypes} {Q : Type} `{!AbstractQuery Q}.
Implicit Types (w : World Q) (s : Statement Q) (p : positive) (c : Connection) (d : Descriptor).

(** ** The invariant *)

(** What the calls do not change: the addresses of the objects, the connections
    of statements and descriptors, and whether a statement has a query. *)
Record Layout : Type := MkLayout {
  about : gmap positive (positive * bool); conns : gset positive; owners : gmap positive (option positive)
}.
Definition fixed (s : Statement Q) : positive * bool :=
  (connection s, bool_decide (is_Some (currentQuery s))).
Definition layout (w : World Q) : Layout :=
  MkLayout (fixed <$> statements w) (dom (connections w)) (desc_conn <$> descriptors w).
Definition stmts (L : Layout) : gset positive := dom (about L).

Lemma stmts_layout w : stmts (layout w) = dom (statements w).
Proof. apply dom_fmap_L. Qed.

(** The descriptors of a connection can become row descriptors. *)
Record desc_sound (L : Layout) (d : Descriptor) : Prop := {
  sound_header : header_ok d;
  sound_count : is_Some (members (desc_header d) !! SQL_DESC_COUNT);
  sound_attach : is_Some (desc_conn d) -> header_ok (set_type ARD d);
  sound_stmt st : desc_stmt d = Some st -> st ∈ stmts L
}.

Record stmt_sound (L : Layout) (s : Statement Q) : Prop := {
  sound_ard : is_Some (owners L !! ard s); sound_ird : is_Some (owners L !! ird s);
  sound_ardi : is_Some (owners L !! ardi s); sound_apdi : is_Some (owners L !! apdi s);
  sound_conn : connection s ∈ conns L
}.

Record sound (L : Layout) (w : World Q) : Prop := {
  sound_layout : layout w = L;
  sound_descs p d : descriptors w !! p = Some d -> desc_sound L d;
  sound_stmts p s : statements w !! p = Some s -> stmt_sound L s;
  sound_conns p c : connections w !! p = Some c -> names_ok c
}.

(** ** Steps that keep it *)

Definition keeps {A} (L : Layout) (o : op Q A) : Prop := forall w, sound L w -> wp o (fun _ w' => sound L w') w.

Lemma keeps_ret {A} L (a : A) : keeps L (op_ret a).
Proof. intros w Hw. by apply wp_ret. Qed.

Lemma keeps_bind {A B} L (o : op Q A) (k : A -> op Q B) :
  keeps L o -> (forall a, keeps L (k a)) -> keeps L (op_bind o k).
Proof.
  intros Ho Hk w Hw. apply wp_bind. eapply wp_mono; [|by apply Ho]. intros a w1 Hw1. by apply Hk.
Qed.

Lemma keeps_get_stmt {B} L p (k : Statement Q -> op Q B) :
  p ∈ stmts L -> (forall s, stmt_sound L s -> keeps L (k s)) -> keeps L (op_bind (get_stmt p) k).
Proof.
  intros Hp Hk w Hw. assert (Hs : is_Some (statements w !! p)).
  { apply elem_of_dom. by rewrite <- stmts_layout, (sound_layout _ _ Hw). }
  destruct Hs as [s Hs]. apply wp_bind. eapply wp_get_stmt; [done|].
  apply Hk; [by eapply sound_stmts|done].
Qed.

Lemma keeps_get_conn_at {B} L p (k : Connection -> op Q B) :
  p ∈ conns L ->
  (forall c w, sound L w -> connections w !! p = Some c -> wp (k c) (fun _ w' => sound L w') w) ->
  keeps L (op_bind (get_conn p) k).
Proof.
  intros Hp Hk w Hw. assert (Hs : is_Some (connections w !! p)).
  { apply elem_of_dom. by rewrite <- (sound_layout _ _ Hw) in Hp. }
  destruct Hs as [c Hs]. apply wp_bind. eapply wp_get_conn; [done|]. by apply Hk.
Qed.

Lemma keeps_get_conn {B} L p (k : Connection -> op Q B) :
  p ∈ conns L -> (forall c, names_ok c -> keeps L (k c)) -> keeps L (op_bind (get_conn p) k).
Proof.
  intros Hp Hk. apply keeps_get_conn_at; [done|]. intros c w Hw E. apply Hk; [by eapply sound_conns|done].
Qed.

Lemma owned L w p : sound L w -> is_Some (owners L !! p) ->
  exists d, descriptors w !! p = Some d /\ owners L !! p = Some (desc_conn d) /\ desc_sound L d.
Proof.
  intros Hw [o Ho]. pose proof (sound_layout _ _ Hw) as HL. assert (Hq := Ho). rewrite <- HL in Hq.
  apply lookup_fmap_Some in Hq as (d & <- & Hd). exists d. split_and!; [done..|]. by eapply sound_descs.
Qed.

Lemma keeps_get_desc {B} L p (k : Descriptor -> op Q B) :
  is_Some (owners L !! p) ->
  (forall d, desc_sound L d -> owners L !! p = Some (desc_conn d) -> keeps L (k d)) ->
  keeps L (op_bind (get_desc p) k).
Proof.
  intros Hp Hk w Hw. destruct (owned _ _ _ Hw Hp) as (d & Hd & Ho & Hs).
  apply wp_bind. eapply wp_get_desc; [done|]. by apply Hk.
Qed.

Lemma sound_upd_stmt L p s s' w :
  sound L w -> statements w !! p = Some s -> fixed s' = fixed s -> stmt_sound L s' -> sound L (upd_stmt p s' w).
Proof.
  intros Hw Hs Hf Hs'. split.
  - rewrite <- (sound_layout _ _ Hw). unfold layout. cbn. f_equal. rewrite fmap_insert, Hf.
    apply insert_id. by rewrite lookup_fmap, Hs.
  - intros p' d'. by apply (sound_descs _ _ Hw).
  - intros p' s1. cbn. intros [[<- <-]|[_ E]]%lookup_insert_Some; [done|by eapply sound_stmts].
  - intros p' c'. by apply (sound_conns _ _ Hw).
Qed.

Lemma keeps_on_stmt L p f :
  p ∈ stmts L -> (forall s, stmt_sound L s -> fixed (f s) = fixed s /\ stmt_sound L (f s)) -> keeps L (on_stmt p f).
Proof.
  intros Hp Hf w Hw. assert (Hs : is_Some (statements w !! p)).
  { apply elem_of_dom. by rewrite <- stmts_layout, (sound_layout _ _ Hw). }
  destruct Hs as [s Hs]. eapply wp_on_stmt; [done|].
  destruct (Hf s) as [Hfix Hsound]; [by eapply sound_stmts|]. by eapply sound_upd_stmt.
Qed.

Lemma sound_upd_conn L p c w : sound L w -> p ∈ conns L -> names_ok c -> sound L (upd_conn p c w).
Proof.
  intros Hw Hp Hc. split.
  - rewrite <- (sound_layout _ _ Hw) in Hp |- *. unfold layout. cbn. f_equal.
    apply dom_insert_lookup_L. by apply elem_of_dom.
  - intros p' d'. by apply (sound_descs _ _ Hw).
  - intros p' s'. by apply (sound_stmts _ _ Hw).
  - intros p' c'. cbn. intros [[<- <-]|[_ E]]%lookup_insert_Some; [done|by eapply sound_conns].
Qed.

Lemma keeps_on_conn L p f :
  p ∈ conns L -> (forall c, names_ok c -> names_ok (f c)) -> keeps L (on_conn p f).
Proof.
  intros Hp Hf. apply keeps_get_conn; [done|]. intros c Hc w Hw. apply sound_upd_conn; [done..|by apply Hf].
Qed.

Lemma keeps_on_desc L p f :
  is_Some (owners L !! p) ->
  (forall d, desc_sound L d -> owners L !! p = Some (desc_conn d) ->
     desc_sound L (f d) /\ desc_conn (f d) = desc_conn d) ->
  keeps L (on_desc p f).
Proof.
  intros Hp Hf. apply keeps_get_desc; [done|]. intros d Hd Ho w Hw. destruct (Hf d Hd Ho) as [Hd' Hc'].
  split.
  - rewrite <- (sound_layout _ _ Hw) in Ho |- *. unfold layout in *. cbn in *. f_equal.
    rewrite fmap_insert, Hc'. by apply insert_id.
  - intros p' d'. cbn. intros [[<- <-]|[_ E]]%lookup_insert_Some; [done|by eapply sound_descs].
  - intros p' s'. by apply (sound_stmts _ _ Hw).
  - intros p' c'. by apply (sound_conns _ _ Hw).
Qed.

(** What is beside the objects may change. *)
Lemma keeps_beside {A} L (g : World Q -> World Q) (a : World Q -> A) :
  (forall w, connections (g w) = connections w /\ statements (g w) = statements w /\
     descriptors (g w) = descriptors w) -> keeps L (fun w => Ok (g w, a w)).
Proof.
  intros Hg w [HL Hd Hs Hc]. destruct (Hg w) as (E1 & E2 & E3). unfold wp.
  split; rewrite ?E1, ?E2, ?E3; [unfold layout; by rewrite E1, E2, E3|done..].
Qed.

Lemma keeps_write L a n v : keeps L (write (Some a) n v).
Proof. intros w Hw. apply wp_write. by destruct Hw; split. Qed.

(** ** Descriptors that grow *)

Lemma header_ok_grow d d' :
  desc_type d' = desc_type d ->
  (forall f, is_Some (members (desc_header d) !! f) -> is_Some (members (desc_header d') !! f)) ->
  header_ok d -> header_ok d'.
Proof. intros Ht Hm Hd f size types Hf. rewrite Ht. eauto. Qed.

Lemma desc_sound_grow L d d' :
  desc_type d' = desc_type d -> desc_conn d' = desc_conn d -> desc_stmt d' = desc_stmt d ->
  (forall f, is_Some (members (desc_header d) !! f) -> is_Some (members (desc_header d') !! f)) ->
  desc_sound L d -> desc_sound L d' /\ desc_conn d' = desc_conn d.
Proof.
  intros Ht Hc Hs Hm [Hh Hn Ha Hst]. split; [|done]. split; [by eapply header_ok_grow|by apply Hm| |by rewrite Hs].
  rewrite Hc. intros Hd. eapply header_ok_grow; [..|by apply Ha]; done.
Qed.

Lemma set_member_grow f v d : forall g, is_Some (members (desc_header d) !! g) ->
  is_Some (members (desc_header (set_member f v d)) !! g).
Proof. intros g Hg. cbn. by apply lookup_insert_is_Some'; right. Qed.

(** ** The calls *)

Ltac keep_step :=
  lazymatch goal with
  | |- keeps _ (op_ret _) => apply keeps_ret
  | |- keeps _ (op_bind (get_stmt _) _) => apply keeps_get_stmt; [try assumption|intros ? ?]
  | |- keeps _ (op_bind (get_conn _) _) => apply keeps_get_conn; [try eauto using sound_conn|intros ? ?]
  | |- keeps _ (op_bind (get_desc _) _) => apply keeps_get_desc; [|intros ? ? ?]
  | |- keeps _ (op_bind _ _) => apply keeps_bind; [|intros ?]
  | |- keeps _ (on_stmt _ _) => apply keeps_on_stmt; [try assumption|intros ? []; try (by split; [|split])]
  | |- keeps _ (on_conn _ _) => apply keeps_on_conn; [try eauto using sound_conn|intros ? []; try by split]
  | |- keeps _ (on_desc _ (set_member _ _)) =>
      apply keeps_on_desc; [|intros ? ? _; apply desc_sound_grow; [done..|apply set_member_grow|done]]
  | |- keeps _ (write (Some _) _ _) => apply keeps_write
  | |- keeps _ (if ?b then _ else _) => destruct b eqn:?
  | |- keeps _ (error _ _ _) => unfold error
  | |- keeps _ (add_stmt _ _ _) => unfold add_stmt
  | |- keeps _ (add_conn _ _ _) => unfold add_conn
  | |- keeps _ (edit_stmt _ _) => unfold edit_stmt
  | |- keeps _ (edit_conn _ _) => unfold edit_conn
  | |- keeps _ (api_call _ _) => unfold api_call
  end.
Ltac keep := repeat keep_step.

Lemma keeps_SetDescriptorFields L p i t value len ind :
  p ∈ stmts L -> keeps L (SetDescriptorFields p i t value len ind).
Proof.
  intros Hp. unfold SetDescriptorFields. keep; [by apply sound_ard|].
  destruct (sound_count L d) as [count ->]; [done|]. apply keeps_on_desc; [by apply sound_ard|].
  intros d1 Hd1 _. apply desc_sound_grow; [by destruct (count <? i)..| |done].
  intros f Hf. destruct (count <? i); [by apply set_member_grow|done].
Qed.

Lemma keeps_BindColumn L p i t value len ind :
  p ∈ stmts L -> keeps L (BindColumn p i t value len ind).
Proof.
  intros Hp. unfold BindColumn, InternalBindColumn. keep;
    by apply keeps_SetDescriptorFields.
Qed.

Lemma keeps_SetARDDesc L p o :
  p ∈ stmts L -> (forall q, o = Some q -> exists q0, owners L !! q = Some (Some q0)) -> keeps L (SetARDDesc p o).
Proof.
  intros Hp Ho. unfold SetARDDesc. destruct o as [dp|]; keep.
  - destruct (Ho dp eq_refl) as [c Hc]. apply keeps_on_desc; [by eexists|].
    intros d [Hh Hn Ha Hs] Hd. rewrite Hc in Hd. injection Hd as Hd. split; [|done].
    split; cbn; [apply Ha; by rewrite <- Hd|done|intros _; apply Ha; by rewrite <- Hd|by intros ? [= <-]].
  - destruct (Ho dp eq_refl) as [c' Hc']. by eexists.
Qed.

Lemma keeps_api_conn L p body : p ∈ conns L -> keeps L body -> keeps L (api_call (edit_conn (Q := Q) p) body).
Proof. intros Hp Hb. keep. done. Qed.
Lemma keeps_api_stmt L p body : p ∈ stmts L -> keeps L body -> keeps L (api_call (edit_stmt (Q := Q) p) body).
Proof. intros Hp Hb. keep. done. Qed.

Lemma keeps_conn_Set L p attr v : p ∈ conns L -> keeps L (Connections.InternalSetAttribute (Q := Q) p attr v).
Proof.
  intros Hp. unfold Connections.InternalSetAttribute, Connections.not_supported.
  destruct (decode attr) as [[]|]; keep; by apply keeps_beside.
Qed.

Lemma keeps_put_uint L a valueLen v : keeps L (Connections.put_uint (Some a) valueLen v).
Proof. unfold Connections.put_uint, Connections.write_opt. keep; by destruct valueLen; keep. Qed.

Lemma keeps_conn_Get L p attr buf valueLen :
  p ∈ conns L -> keeps L (Connections.InternalGetAttribute (Q := Q) p attr buf valueLen).
Proof.
  intros Hp. unfold Connections.InternalGetAttribute, Connections.not_supported. keep.
  destruct (decode attr) as [[]|]; keep; try apply keeps_put_uint; by apply keeps_beside.
Qed.

Lemma keeps_SetStmtAttribute L p option v :
  p ∈ conns L -> keeps L (Connections.InternalSetStmtAttribute (Q := Q) p option v).
Proof.
  intros Hp. unfold Connections.InternalSetStmtAttribute, Connections.only, Connections.ignored,
    Connections.not_implemented.
  destruct (decode option) as [[]|]; keep.
Qed.

Lemma keeps_SetConnectOption L p option v :
  p ∈ conns L -> keeps L (Connections.InternalSetConnectOption (Q := Q) p option v).
Proof.
  intros Hp. unfold Connections.InternalSetConnectOption, Connections.ignored.
  destruct (decode option) as [[]|]; keep; by first [apply keeps_SetStmtAttribute|apply keeps_conn_Set].
Qed.

Lemma keeps_GetConnectOption L p option value :
  p ∈ conns L -> keeps L (Connections.InternalGetConnectOption (Q := Q) p option value).
Proof.
  intros Hp. unfold Connections.InternalGetConnectOption, Connections.ignored.
  destruct (decode option) as [[]|]; keep; by apply keeps_conn_Get.
Qed.

(** A descriptor handle given to a statement is a descriptor, or none. *)
Definition handle_ok (L : Layout) (attr v : Z) : Prop :=
  decode attr = Some SQL_ATTR_APP_ROW_DESC -> forall q, handle v = Some q -> is_Some (owners L !! q).

Lemma keeps_stmt_Set L p attr v :
  p ∈ stmts L -> handle_ok L attr v -> keeps L (InternalSetAttribute p attr v).
Proof.
  intros Hp Hv. unfold InternalSetAttribute, accept, on_ard, on_ird, handle_ok in *.
  destruct (decode attr) as [[]|]; keep; try by first [apply sound_ard|apply sound_ird|apply sound_apdi].
  - apply keeps_on_desc; [by apply sound_ard|]. intros d Hd _. by apply (desc_sound_grow L d).
  - specialize (Hv eq_refl). destruct (handle v) as [dp|]; keep; [by apply Hv| |by apply keeps_SetARDDesc].
    apply keeps_SetARDDesc; [done|]. intros q [= <-]. exists (connection s).
    match goal with Ec : negb (bool_decide (desc_conn d = _)) = false |- _ =>
      apply negb_false_iff, bool_decide_eq_true in Ec; congruence end.
  - apply keeps_api_conn; [by apply sound_conn|apply keeps_conn_Set; by apply sound_conn].
Qed.

Lemma keeps_put_ulen L a v : keeps L (put_ulen (Q := Q) (Some a) v).
Proof. unfold put_ulen. keep. Qed.
Lemma keeps_put_kind L a valueLen v kind : keeps L (put_kind (Q := Q) (Some a) valueLen v kind).
Proof. unfold put_kind, Connections.write_opt. keep; by destruct valueLen; keep. Qed.

(** The statement and its query, seen together. *)
Lemma put_query_sound L p q w : sound L w -> get_query p w <> None -> sound L (put_query p q w).
Proof.
  intros Hw Hq. unfold get_query, put_query in *. destruct (statements w !! p) as [s|] eqn:E; [|done].
  eapply sound_upd_stmt; [done..| |].
  - unfold fixed. cbn. by destruct (currentQuery s).
  - by destruct (sound_stmts _ _ Hw _ _ E); split.
Qed.

Lemma keeps_row_number L p a : p ∈ stmts L -> keeps L (row_number p (Some a)).
Proof.
  intros Hp w Hw. unfold row_number, wp. destruct (get_query p w) as [q|] eqn:E.
  - destruct (RowNumber q) as [q' n]. apply (keeps_put_ulen L a n). apply put_query_sound; [done|congruence].
  - assert (Hk : keeps L (op_bind (add_stmt p S24000_INVALID_CURSOR_STATE
      (txt "Cursor is not in the open state, cannot determine row number")) (fun _ => put_ulen (Some a) 0)))
      by (keep; apply keeps_put_ulen).
    by apply Hk.
Qed.

Lemma keeps_stmt_Get L p attr buf valueLen :
  p ∈ stmts L -> keeps L (InternalGetAttribute p attr buf valueLen).
Proof.
  intros Hp. unfold InternalGetAttribute. destruct buf as [a|]; keep.
  destruct (decode attr) as [[]|]; keep; by first [apply keeps_put_kind|apply keeps_put_ulen|apply keeps_row_number].
Qed.

(** ** The calls of an application *)

Lemma keeps_StmtOption L p option value : p ∈ stmts L -> keeps L (InternalGetStmtOption p option value).
Proof. intros Hp. unfold InternalGetStmtOption. destruct value; [by apply keeps_stmt_Get|keep]. Qed.

Lemma keeps_GetCursorName L p nameBuf nameBufLen nameResLen :
  p ∈ stmts L -> 0 <= nameBufLen < 32768 ->
  keeps L (InternalGetCursorName p nameBuf nameBufLen (Some nameResLen)).
Proof.
  intros Hp Hl. unfold InternalGetCursorName. keep.
  - exfalso. match goal with E : _ && _ = true |- _ => apply andb_true_iff in E as [_ E%Z.eqb_eq] end.
    rewrite u64_small in * by (unfold is_u64; destruct sizeof_SQLWCHAR_ok as [-> | ->]; lia).
    destruct sizeof_SQLWCHAR_ok as [E' | E']; rewrite E' in *; lia.
  - intros w Hw. unfold wp. destruct (CopyUtf8StringToSqlWcharString _ _ _ _ _) as [[n t] m]. by destruct Hw; split.
  - destruct a as [n t]. keep.
Qed.

Inductive call : Type :=
  | CallBindColumn (p : positive) (columnIdx targetType : Z) (value : pointer) (len : Z) (ind : pointer)
  | CallSetStmtAttr (p : positive) (attr value : Z)
  | CallGetStmtAttr (p : positive) (attr : Z) (buf valueLen : pointer)
  | CallGetStmtOption (p : positive) (option : Z) (value : pointer)
  | CallSetCursorName (p : positive) (name : pointer) (len : Z)
  | CallGetCursorName (p : positive) (nameBuf : pointer) (nameBufLen nameResLen : Z)
  | CallSetConnectAttr (p : positive) (attr value : Z)
  | CallGetConnectAttr (p : positive) (attr : Z) (buf valueLen : pointer)
  | CallSetConnectOption (p : positive) (option value : Z)
  | CallGetConnectOption (p : positive) (option : Z) (value : pointer)
  | CallDisconnect (p : positive).

(** [fuel] is for the name of a cursor without a length. *)
Definition exec (fuel : nat) (c : call) : op Q unit :=
  match c with
  | CallBindColumn p i t value len ind => BindColumn p i t value len ind
  | CallSetStmtAttr p attr value => SetAttribute p attr value
  | CallGetStmtAttr p attr buf valueLen => GetAttribute p attr buf valueLen
  | CallGetStmtOption p option value => GetStmtOption p option value
  | CallSetCursorName p name len => SetCursorName fuel p name len
  | CallGetCursorName p nameBuf nameBufLen nameResLen => GetCursorName p nameBuf nameBufLen (Some nameResLen)
  | CallSetConnectAttr p attr value => Connections.SetAttribute p attr value
  | CallGetConnectAttr p attr buf valueLen => Connections.GetAttribute p attr buf valueLen
  | CallSetConnectOption p option value => Connections.SetConnectOption p option value
  | CallGetConnectOption p option value => Connections.GetConnectOption p option value
  | CallDisconnect p => Connections.Release p
  end.

(** The handles of a call are objects; the name of a cursor that is set can be read,
    and the buffer for one that is asked for has room. *)
Definition enabled (fuel : nat) (c : call) (w : World Q) : Prop :=
  match c with
  | CallBindColumn p _ _ _ _ _ | CallGetStmtAttr p _ _ _ | CallGetStmtOption p _ _ => p ∈ dom (statements w)
  | CallGetCursorName p _ nameBufLen _ => p ∈ dom (statements w) /\ 0 <= nameBufLen < 32768
  | CallSetStmtAttr p attr v =>
      p ∈ dom (statements w) /\
      (decode attr = Some SQL_ATTR_APP_ROW_DESC -> forall q, handle v = Some q -> q ∈ dom (descriptors w))
  | CallSetCursorName p name len =>
      p ∈ dom (statements w) /\
      exists n, SqlWcharToString SQL_NTS fuel name len false (memory w) = Ok n
  | CallSetConnectAttr p _ _ | CallGetConnectAttr p _ _ _ | CallSetConnectOption p _ _
  | CallGetConnectOption p _ _ | CallDisconnect p => p ∈ dom (connections w)
  end.

Lemma SetCursorName_sound L fuel p name len n w :
  sound L w -> p ∈ stmts L -> SqlWcharToString SQL_NTS fuel name len false (memory w) = Ok n ->
  wp (SetCursorName fuel p name len) (fun _ w' => sound L w') w.
Proof.
  intros Hw Hp Hn. unfold SetCursorName, api_call. apply wp_bind.
  assert (He : wp (edit_stmt p Reset) (fun _ w1 => sound L w1 /\ memory w1 = memory w) w).
  { assert (Hk : keeps L (edit_stmt (Q := Q) p Reset)) by keep. specialize (Hk w Hw). revert Hk.
    unfold wp, edit_stmt, on_stmt, op_bind, get_stmt, put_stmt. by destruct (statements w !! p). }
  eapply wp_mono; [|exact He]. intros _ w1 [Hw1 Em]. apply wp_bind.
  apply (wp_mono _ (fun _ w2 => sound L w2)).
  { intros r w2 Hw2. assert (Hk : keeps L (edit_stmt (Q := Q) p (fun g => SetHeaderRecord g r))) by keep. by apply Hk. }
  unfold InternalSetCursorName. destruct (_ <? len).
  { assert (Hk : forall st msg, keeps L (op_bind (add_stmt (Q := Q) p st msg) (fun _ => op_ret AI_ERROR)))
      by (intros; keep). by apply Hk. }
  apply wp_bind. unfold wp at 1. rewrite Em, Hn.
  match goal with |- wp ?body _ _ => assert (Hk : keeps L body); [|by apply Hk] end.
  destruct (_ && _); [keep|]. apply keeps_get_stmt; [done|]. intros s Hs.
  assert (Hc : connection s ∈ conns L) by (by apply sound_conn).
  apply keeps_get_conn_at; [done|]. intros c w2 Hw2 Ec.
  destruct (Connections.CursorNameExists n c) eqn:En.
  { assert (Hk : forall st msg, keeps L (op_bind (add_stmt (Q := Q) p st msg) (fun _ => op_ret AI_ERROR)))
      by (intros; keep). by apply Hk. }
  apply wp_bind. eapply wp_on_conn; [done|]. apply wp_ret. apply sound_upd_conn; [done..|].
  apply names_add; [by eapply sound_conns|done].
Qed.

(** ** A new statement *)

Definition alloc_layout (p conn a1 a2 a3 a4 : positive) (L : Layout) : Layout :=
  MkLayout (<[p := (conn, false)]> (about L)) (conns L)
    (<[a1 := None]> (<[a2 := None]> (<[a3 := None]> (<[a4 := None]> (owners L))))).

Lemma desc_sound_more L L' d : (forall st, st ∈ stmts L -> st ∈ stmts L') -> desc_sound L d -> desc_sound L' d.
Proof. intros Hst []. by split; auto. Qed.

Lemma header_ok_implicit t st :
  (t = ARD \/ t = APD -> header_ok (InitAppHead true (set_statement st (set_type t NewDescriptor)))) /\
  (t = IRD \/ t = IPD -> header_ok (InitImpHead (set_statement st (set_type t NewDescriptor)))).
Proof.
  split; intros [-> | ->] f size types; destruct f; try discriminate; intros [= <- <-] Ha;
    first [discriminate | by eexists].
Qed.

Lemma implicit_sound L st d t :
  st ∈ stmts L ->
  (t = ARD \/ t = APD) /\ d = InitAppHead true (set_statement (Some st) (set_type t NewDescriptor)) \/
  (t = IRD \/ t = IPD) /\ d = InitImpHead (set_statement (Some st) (set_type t NewDescriptor)) ->
  desc_sound L d.
Proof.
  intros Hst Hd. destruct (header_ok_implicit t (Some st)) as [Hh1 Hh2].
  destruct Hd as [[Ht ->]|[Ht ->]]; (split; [auto|by eexists|by intros [? [=]]|by intros ? [= <-]]).
Qed.

Lemma AllocStatement_sound L p conn a1 a2 a3 a4 w :
  sound L w -> conn ∈ conns L ->
  wp (AllocStatement p conn a1 a2 a3 a4) (fun _ w' => sound (alloc_layout p conn a1 a2 a3 a4 L) w') w.
Proof.
  intros Hw Hc. unfold AllocStatement, wp. set (L' := alloc_layout _ _ _ _ _ _ L).
  assert (Hst : forall st, st ∈ stmts L -> st ∈ stmts L').
  { intros st Hst. unfold stmts, L'. cbn. rewrite dom_insert_L. set_solver. }
  assert (Hp : p ∈ stmts L') by (unfold stmts, L'; cbn; rewrite dom_insert_L; set_solver).
  split.
  - pose proof (sound_layout _ _ Hw) as HL. unfold L', layout, alloc_layout. rewrite <- HL. cbn. by rewrite !fmap_insert.
  - intros q d. cbn.
    intros [[_ <-]|[_ [[_ <-]|[_ [[_ <-]|[_ [[_ <-]|[_ E]]%lookup_insert_Some]]%lookup_insert_Some]]%lookup_insert_Some]]%lookup_insert_Some.
    + apply (implicit_sound L' p _ ARD); [done|]. left. auto.
    + apply (implicit_sound L' p _ APD); [done|]. left. auto.
    + apply (implicit_sound L' p _ IRD); [done|]. right. auto.
    + apply (implicit_sound L' p _ IPD); [done|]. right. auto.
    + eapply desc_sound_more; [done|]. by eapply sound_descs.
  - assert (Ho : forall q, is_Some (owners L !! q) \/ q = a1 \/ q = a2 \/ q = a3 -> is_Some (owners L' !! q)).
    { intros q Hq. unfold L'. cbn. rewrite !lookup_insert_is_Some'. intuition. }
    intros q s. cbn. intros [[_ <-]|[_ E]]%lookup_insert_Some.
    + split; cbn; auto.
    + destruct (sound_stmts _ _ Hw _ _ E). split; auto.
  - intros q c. by apply (sound_conns _ _ Hw).
Qed.

Lemma keeps_SetAttributes L p a : p ∈ stmts L -> keeps L (SetAttributes p a).
Proof.
  intros Hp. unfold SetAttributes, SetAttribute.
  keep; apply keeps_stmt_Set; try done; intros E; by rewrite decode_id_of in E.
Qed.

Lemma CreateStatement_sound L conn p a1 a2 a3 a4 w :
  sound L w -> conn ∈ conns L ->
  wp (CreateStatement conn p a1 a2 a3 a4) (fun r w' => r = p /\ sound (alloc_layout p conn a1 a2 a3 a4 L) w') w.
Proof.
  intros Hw Hc. set (L' := alloc_layout _ _ _ _ _ _ L).
  assert (Hp : p ∈ stmts L') by (unfold stmts, L'; cbn; rewrite dom_insert_L; set_solver).
  unfold CreateStatement, api_call. apply wp_bind, wp_bind.
  assert (He : keeps L (edit_conn (Q := Q) conn Reset)) by keep.
  eapply wp_mono; [|by apply He]. cbn beta; intros [] w1 Hw1. apply wp_bind. unfold InternalCreateStatement.
  apply wp_bind. eapply wp_mono; [|by apply AllocStatement_sound]. fold L'. intros [] w2 Hw2.
  eapply wp_mono; [|refine ((_ : keeps L' _) w2 Hw2)].
  - intros r w3 Hw3. eapply wp_mono; [|refine ((_ : keeps L' _) w3 Hw3); keep].
    intros [] w4 Hw4. by apply wp_ret.
  - keep. by apply keeps_SetAttributes.
Qed.

Lemma exec_keeps fuel cl w :
  sound (layout w) w -> enabled fuel cl w -> wp (exec fuel cl) (fun _ w' => sound (layout w) w') w.
Proof.
  intros Hw Hcl. destruct cl; cbn [exec enabled] in *; rewrite <- ?stmts_layout in Hcl.
  - by apply keeps_BindColumn.
  - destruct Hcl as [Hp Hv]. apply keeps_api_stmt; [done| |done]. apply keeps_stmt_Set; [done|].
    intros Ha q Hq. cbn. rewrite lookup_fmap, fmap_is_Some. apply elem_of_dom. by apply Hv.
  - apply keeps_api_stmt; [done| |done]. by apply keeps_stmt_Get.
  - apply keeps_api_stmt; [done| |done]. by apply keeps_StmtOption.
  - destruct Hcl as (Hp & n & Hn). by eapply SetCursorName_sound.
  - destruct Hcl as [Hp Hl]. apply keeps_api_stmt; [done| |done]. by apply keeps_GetCursorName.
  - apply keeps_api_conn; [done| |done]. by apply keeps_conn_Set.
  - apply keeps_api_conn; [done| |done]. by apply keeps_conn_Get.
  - apply keeps_api_conn; [done| |done]. by apply keeps_SetConnectOption.
  - apply keeps_api_conn; [done| |done]. by apply keeps_GetConnectOption.
  - apply keeps_api_conn; [done| |done]. unfold Connections.InternalRelease, Connections.Close. keep; by split.
Qed.
End Facts.


(** A statement that is made on a connection is ready: the objects stay
    sound, and it has the connection and no query yet. *)
Theorem CreateStatement_ready `{OdbcConstants} `{SqlCodes} `{FieldCodes} `{AttributeCodes} `{Abi}
    `{HA : Meta.AwsTypes} {Q : Type} `{!AbstractQuery Q}
    (conn p a1 a2 a3 a4 : positive) (w : World Q) :
  sound (layout w) w -> is_Some (connections w !! conn) ->
  exists w' s, CreateStatement conn p a1 a2 a3 a4 w = Ok (w', p) /\ sound (layout w') w' /\
    statements w' !! p = Some s /\ connection s = conn /\ currentQuery s = None.
Proof.
  intros Hw Hc. assert (Hc' : conn ∈ conns (layout w)) by (by apply elem_of_dom).
  destruct (proj1 (wp_run _ _ _) (CreateStatement_sound _ conn p a1 a2 a3 a4 w Hw Hc')) as (w' & r & E & -> & Hw').
  pose proof (sound_layout _ _ Hw') as HL. rewrite <- HL in Hw'. apply (f_equal about) in HL. cbn in HL.
  assert (Hs : (fixed <$> statements w') !! p = Some (conn, false)) by (rewrite HL; apply lookup_insert_eq).
  apply lookup_fmap_Some in Hs as (s & Hf & Hs). exists w', s. injection Hf as Hcn Hq. split_and!; try done.
  apply bool_decide_eq_false in Hq. destruct (currentQuery s); [by destruct Hq|done].
Qed.

(** ** A run *)

Module Demo.
#[export] Existing Instances DataQueryFacts.Demo.client Encoding.UnixAbi WholeReals Get.WholeStreams Columns.ZeroLocals Column.SdkScalars StandardOdbc
  Types.HeaderCodes HeaderFields HeaderAttributes StmtReads.Demo.schemas.

(** A connection without a statement. *)
Definition world : World AnyQuery.AnyQuery := MkWorld (fun _ => 0) 0 [] ∅ {[1%positive := StmtReads.Demo.conn]} ∅ ∅.

Definition make : op AnyQuery.AnyQuery positive := CreateStatement 1 7 1 2 3 4.
Definition run (c : call) : op AnyQuery.AnyQuery unit := exec 9 c.

Lemma world_sound : sound (layout world) world.
Proof.
  split; [done|by intros p d [=]|by intros p s [=]|].
  intros p c Hc. destruct (proj1 (lookup_singleton_Some (M := gmap positive) _ _ _ _) Hc) as [_ <-].
  apply names_new.
Qed.

Lemma make_sound :
  wp make (fun r w' => r = 7%positive /\ sound (alloc_layout 7 1 1 2 3 4 (layout world)) w') world.
Proof. apply CreateStatement_sound; [apply world_sound|]. set_solver. Qed.

Definition bind_column : call := CallBindColumn 7 1 1 (Some 1000) 5 (Some 2000).
End Demo.
Import Demo.

Lemma CreateStatement_ready_witness :
  exists w s, Demo.make Demo.world = Ok (w, 7%positive) /\ sound (layout w) w /\
    statements w !! 7%positive = Some s /\ connection s = 1%positive /\ currentQuery s = None.
Proof. apply (CreateStatement_ready 1 7 1 2 3 4 Demo.world Demo.world_sound). by eexists. Defined.

End Sound.
